(* ===== verification/_CoqProject ===== *)
-Q . S2P
Prelude.v
RStr.v
Json.v
Models.v
Requests.v
Store.v
DbExecutions.v
DbJobs.v
DbCatalog.v
DbPublic.v
Moves.v
Lifecycle.v
Statements.v
ApiJobs.v
Crypto.v
ApiCatalog.v
Config.v
Auth.v
Smithy.v
SdkTypes.v
SdkOps.v
SdkBuilders.v
SdkErrors.v
SdkOpErrors.v
SdkTelemetry.v
SdkOutputs.v
SdkConfig.v
SdkRuntime.v
SdkPlugins.v
Template.v
Backoff.v
Caches.v
Dispatch.v
Pipeline.v
Poller.v
WorkerSafe.v
WorkerTx.v
Outbox.v
Scan.v
Clients.v
Runs.v
HandlerRuns.v
Pages.v
System.v
Integrity.v
Versions.v
Calm.v
WorkerSpec.v
Serve.v
Drain.v
PollLoop.v
SdkContract.v
Dashboard.v
DashTabs.v
DateRange.v
DateTheory.v
DashContract.v
DashServed.v
DashForms.v
Mock.v
Retries.v
Journey.v
Shell.v
Routing.v
ApiServer.v
Modes.v
ModeLaws.v
LibraryExample.v
Samples.v
PropsSystem.v
PropsPolling.v
PropsWorker.v
PropsApi.v
PropsModes.v
PropsSdk.v
PropsDelivery.v
PropsSdkErrors.v
PropsSdkRuntime.v
PropsDash.v
PropsDb.v
