(* ===== verification/Prelude.v ===== *)
(** * Invokr: a verification library for the job scheduler

    Invokr runs jobs: an API stores jobs and executions in PostgreSQL, pg_cron adds an
    execution per tick of a CRON job, workers claim executions that are due and dispatch
    them over HTTP, Kafka or Redis streams, retrying with a delay.  Each workspace is a
    schema of its own; a workspace's reaper retires CRON jobs whose end has come.  This
    library translates the Rust crates [common], [api], [worker], [client] (the generated
    SDK), [dashboard] (the browser interface) and [mock-server], and the example
    [library-mode], to functions on an explicit state.  It proves what they do, and that
    they understand each other.  Paths below are relative to [src/crates/].

    ** How the program is modelled

    A fallible computation is a [res]: [Ok], [Err] or [Panic].  A computation on a state
    is an [SE]: it returns a [res] and the new state, also when it fails.  A statement of
    the database is [Store.stmt] on a [Session]; it reads one stimulus, which says what
    the database returns for [gen_random_uuid()] and [now()], which of several equally
    good rows it picks, whether the statement or the connection fails, and what other
    clients have committed since the last statement; the session also says which rows
    other transactions hold.  A session is in autocommit mode or in a transaction; in a
    transaction [now()] stands still, an error aborts it, and leaving its scope without
    [commit] rolls it back.  All theorems quantify over the stimuli, so over faults and over
    interleavings: other clients act between the statements of a session in autocommit mode
    and between transactions.  A transaction is a unit: its statements see the store that
    its BEGIN found and what they wrote themselves, and not what others commit meanwhile
    (see below).  A worker task runs in a [Dispatch.World]: a session, the clock, the
    answers of the network, the requests sent so far, and the caches all tasks share.

    Code that is not in the repository is a parameter: [Chrono], [CronCrate], [SerdeJson],
    [JsonSchemaCrate], [Aes256Gcm], [Utf8], [Base64], [Jsonb], [SqlDisplay], [Clouds],
    [AuthnClaims], [AuthnKit], [Actix], [ActixPaths], [Reqwest], [Calendar], [Smithy]
    and the classes of [SdkConfig] and [SdkRuntime].
    [Samples] and the files of properties instantiate them for the witnesses.
    Strings are the bytes of their UTF-8 encoding; [i64] is [Z] with the wrap-around of a
    release build written out; instants are microseconds.

    ** The files

    Foundations:
    - [Prelude]: [res], [SE], [preserves] with its hint database, machine integers.
    - [RStr], [Json]: the string methods and [serde_json::Value] as the program uses them.
    - [Models], [Requests]: [common/src/models], [error.rs], [pagination.rs].
    - [Store]: the database, its sessions; [common/src/db.rs], [db/scoped.rs], name checks
      of [tenant.rs].

    Database layer, [common/src/db]:
    - [DbExecutions]: [executions.rs], [attempts.rs], [execution_logs.rs].
    - [DbJobs]: [jobs.rs] -- creation, the text of the list query and its meaning,
      versions, retirement, pg_cron registration, and what a tick does ([cron_tick]).
    - [DbCatalog]: [payload_specs.rs], [configs.rs], [secrets.rs], [endpoints.rs].
    - [DbPublic]: [organizations.rs], [workspaces.rs], slugs and the schema registry of
      [tenant.rs].
    The constraints of [common/migrations/workspace_v1.sql] are part of the statements
    that can violate them.

    API, [api/src]:
    - [ApiJobs]: [handlers/jobs.rs], [handlers/executions.rs].
    - [ApiCatalog]: the other handlers.
    - [Auth]: [auth/*.rs], [extractors.rs], [router.rs].
    - [Config]: [common/src/config.rs], [env.rs], [secrets.rs] and its providers.
    - [Shell], [Routing]: [main.rs], [middleware.rs], [dashboard.rs] and their like in the
      worker: what a process reads at start-up, its services in their order, and which of
      them answers a request under the rules of actix.
    - [ApiServer]: the table of [router.rs] with what each route extracts: the API as one
      function from requests to answers.

    Worker, [worker/src] and what it uses of [common/src]:
    - [Crypto], [Template], [Caches]: [crypto.rs], [template.rs], [cache/*.rs].
    - [Backoff], [Dispatch], [Pipeline], [Poller]: [backoff.rs], [dispatcher/*.rs] and
      [reaper.rs], [pipeline.rs], the task of [poller.rs], [health.rs].
    - [PollLoop]: the loop of [poller::run] as a state machine of its waits, permits and
      tasks in flight; starting and stopping it from [client.rs].
    - [Clients]: [client.rs] (library mode and service mode), the readiness of [ops.rs].
    - [Modes]: the trait [InvokrClient], its two implementations -- the service client with
      [ApiServer] at the other end -- and [Contract], what both promise about one-off jobs.
    - [Mock]: [mock-server/src/main.rs].  [LibraryExample]: [examples/library-mode].

    SDK, [client/src]:
    - [Smithy]: what the operations share: [json_errors.rs], [protocol_serde.rs], tokens,
      labels, headers, bodies.
    - [SdkTypes]: [types/*.rs], and the readers [protocol_serde/shape_*.rs] of the resources.
    - [SdkOps]: the 22 operations: input, URI, headers, body, and what an answer becomes.
    - [SdkBuilders]: the builders of resources and inputs, a step per method; the fluent
      builders.  [SdkOutputs]: the outputs, their builders and readers.
    - [SdkErrors], [SdkOpErrors]: the error structures, the error type of each operation
      and the union of them all.  [SdkTelemetry]: what telemetry notes of an input.
    - [SdkConfig]: [config.rs], [config/*.rs], [client.rs], [client/customize.rs]: the builder
      of a configuration, a client's plugins, and values whose type is erased.  [SdkRuntime],
      [SdkPlugins]: an operation as a plugin, its call, its fluent builder; then each of the
      22.  The runtime crates are [SmithyTypes], [SmithyBags], [SmithyPlugins] and
      [Orchestrator], with laws.

    Dashboard, [dashboard/src]:
    - [Dashboard]: [config.rs], [app.rs], [api/models.rs], [api/client.rs]: the models, the
      query strings, and each function as a request with a reader of its answer.
    - [DashTabs]: [pages/*.rs] and the small [components/*.rs]: the jobs tab as a state with
      its events, the forms as functions from what was typed to a request, what
      tables and panels show.
    - [DateRange]: [components/date_range.rs]: quick ranges, the month grid, the popover
      as a state with an event per handler.

    Theory:
    - [Moves]: [store_move], the abstract transition system of the tables: what a
      statement may do to a store.  [Statements]: every statement makes such moves.
    - [Lifecycle]: relations on executions that every move respects; [life] (no execution
      is lost, final rows do not change) and [exec_wf] are its instances.
    - [Integrity]: [store_ok], the types, keys and references of the tables, kept by every
      move.  [Versions]: chains of job versions in a sound store.
    - [WorkerSafe], [WorkerTx], [Outbox], [Scan]: a task makes only such moves, what it
      commits, what it sends, which secrets it loads.
    - [Calm], [Serve], [Drain]: in a world where nothing fails and nobody else writes, a
      task needs boundedly many statements and serves a due execution; [run_tasks_drain].
    - [Runs], [HandlerRuns], [Pages]: the effect of a handler that answered 200; pages.
    - [System]: the operations of the API, of library clients, of workers and of pg_cron,
      and [evolves], their closure under interleaving.
    - [WorkerSpec]: the specification of a task, [task_spec]: its schemas in their order,
      and the one outcome that may be committed ([WorkerTx.committed_outcome]);
      [task_refines] is the refinement.
    - [SdkContract]: what the SDK reads out of the API's objects, what its queries and
      bodies mean to the API, which routes it names.
    - [DashContract]: query strings read back, the filters of the jobs tab.  [DashServed]:
      what the dashboard reads of the API's answers, the list route as the jobs tab calls
      it, and [browsing], whatever a user of the tab can do.  [DashForms]: the job forms as
      the API decodes them.  [DateTheory]: months as intervals of days, the grid, the
      invariant of the popover.
    - [Retries]: a task in a calm world sends one request and records its answer; over many
      tasks, what a flaky endpoint makes of them.  [Journey]: from a request of the SDK to
      the row that [Retries] starts from.
    - [ModeLaws]: both clients keep [Contract]; what a caller sees that knows nothing else.
    - [Samples]: concrete libraries and a small database.
    - [PropsSystem], [PropsPolling], [PropsWorker], [PropsApi], [PropsModes],
      [PropsSdk], [PropsDelivery], [PropsSdkErrors], [PropsSdkRuntime], [PropsDash],
      [PropsDb]: the properties.

    ** What is shown

    [PropsSystem]: over every interleaving of the whole program an execution is never
    lost, keeps its identity and never leaves a final status, and its row stays well
    formed; the tables keep their types, keys and references; a job never leaves RETIRED
    and its history is the chain of its predecessors, ending at the job asked for; a worker
    task refines [WorkerSpec]; it leaves nothing RUNNING; the duration it commits is always
    zero, which is not what the column is for.
    [PropsPolling]: the queue drains in a calm world; an endpoint that answers 200 from the
    Nth request on gets exactly N, or what the policy allows; the loop runs at most
    [max_concurrent] tasks, a clean shutdown waits for all of them, and it never stalls.
    [PropsWorker]: the outcome recorded for a dispatch; at most one request per task; the
    idempotency header; success codes; delays, with their overflow and the panic on a
    negative limit; templates rendered once; caches answer the last fresh write, also
    across workspaces, unless it was lost in the race between looking an entry up and
    removing it; only referenced secrets are read; secrets decrypt; readiness.
    [PropsApi]: updating a job is one swap; the race of update and cancellation; the
    effect of a cancellation; replays of an idempotent creation and the answers of a lost
    race; public paths, the guards of a route, the chain of authenticators, explicit
    authentication mode; where a request goes, and that without a prefix for the API the
    dashboard is never served; filters.
    [PropsModes]: the library client and the service client keep one contract, the latter
    through requests that the API routes, authenticates, decodes and answers; a caller that
    knows the contract sees its cancelled job cancelled; the example's wait ends with
    SUCCESS, FAILED or a missing row -- and never, if somebody cancels its job; a run of the
    example against the mock server.  [PropsDelivery]: a caller sees its job delivered, after
    as many requests as the endpoint needs.
    [PropsSdk]: the SDK's requests go to routes of the API; its filters and its new jobs
    mean to the API what they mean to the caller; a job posted through the SDK is delivered
    and its result read back; executions are read as they are stored, jobs without their
    trigger, and errors without their code.
    [PropsSdkErrors]: no conversion between error types loses anything; telemetry notes only
    what was asked for.
    [PropsSdkRuntime]: each operation hands its own input, reader and parameters to the
    runtime, and the casts of what its reader makes succeed; a client needs a behavior
    version, which the documented set-up lacks; getters read what setters wrote.
    [PropsDash]: whatever a user of the jobs tab does, the tab shows the page of its index
    among the jobs of its filters, as they are stored while nobody writes to them; new jobs and ad-hoc runs are what
    was typed; the date filter's window is accepted unless its times are reversed within
    one day, its quick ranges and month grid are the days they name; one failed attempt
    hides all attempts of its execution.
    [PropsDb]: schema names; the list query binds every value, each to its placeholder, and
    its text does not depend on them; the endpoint filter is a substring search; pages skip and repeat nothing; a
    tick queues once; the reaper retires exactly the expired jobs.

    ** Fuel

    [Template.interp_loop] runs with one more round than the string has bytes, enough
    because a round moves the search past at least the four braces it found
    ([interp_loop_segments] rules out the panic that stands for an empty tank);
    [Pipeline.load_secrets_loop] likewise: it loads exactly the names of [Scan.secret_names].
    [DbJobs.version_chain] follows at most as many links as the table has rows; the
    recursive query it stands for is finite only on chains without a cycle.

    ** What is not modelled

    Sockets, signals, TLS, pools of connections, metrics and logs of the processes, CORS, the
    login callback (all [authn_kit]'s), and the text of JSON, which is a parameter.  Of the
    SDK the runtime that its generated code configures: retries, identities, connections,
    tracing.  Of the dashboard its markup, the runtime of signals and effects,
    local times and its stand-ins outside a browser.  serde reads a structure also from an
    array of its members; the API never sends one, and [Execution_from_value] leaves it out.
    Collations, locales and the order of rows without ORDER BY are the database's; names
    compare bytewise here.  Lower-casing is ASCII's, which decides every comparison the
    program makes in the same way.  Serialization failures and deadlocks are failing
    statements.  PostgreSQL runs the transactions of [db/scoped.rs] at READ COMMITTED, where
    a statement sees what others committed since the BEGIN; here a transaction is a unit, so
    that what is proved of one holds of the runs in which no such commit touches the rows
    it reads.  In the world of one task nobody else uses the caches between the two steps
    of a [get]; [Caches] has the steps apart.

    The code on the server's side -- [common], [api], [worker] -- is translated but for
    these; what is left of the other crates carries no state of the program. *)

From stdpp Require Export base option list gmap numbers.

(** ** Results *)

(** The outcome of a Rust computation: [Result::Ok], [Result::Err], or a panic
    (a failed [assert!], [unwrap], slice index or [clamp] precondition). *)
Inductive res (E A : Type) : Type :=
  | Ok (a : A)
  | Err (e : E)
  | Panic (why : nat).
Arguments Ok {E A} a.
Arguments Err {E A} e.
Arguments Panic {E A} why.

Definition res_bind {E A B} (m : res E A) (f : A → res E B) : res E B :=
  match m with
  | Ok a => f a
  | Err e => Err e
  | Panic w => Panic w
  end.

Definition res_map_err {E F A} (f : E → F) (m : res E A) : res F A :=
  match m with
  | Ok a => Ok a
  | Err e => Err (f e)
  | Panic w => Panic w
  end.

Definition res_ok {E A} (m : res E A) : option A :=
  match m with Ok a => Some a | _ => None end.

Definition ok_or {E A} (o : option A) (e : E) : res E A :=
  match o with Some a => Ok a | None => Err e end.

Definition is_ok {E A} (m : res E A) : bool :=
  match m with Ok _ => true | _ => false end.

#[global] Instance res_eq_dec {E A} `{EqDecision E, EqDecision A} : EqDecision (res E A).
Proof. solve_decision. Defined.

Declare Scope res_scope.
Delimit Scope res_scope with res.
Notation "x <-? m ; k" := (res_bind m (λ x, k))
  (at level 90, m at next level, k at level 200, right associativity) : res_scope.
#[global] Open Scope res_scope.

(** ** Stateful, fallible computations *)

(** [SE S E A]: the computations of an [async fn] that threads a session or a
    world of type [S] and returns [Result<A, E>]. *)
Definition SE (S E A : Type) : Type := S → res E A * S.

Definition se_ret {S E A} (a : A) : SE S E A := λ s, (Ok a, s).
Definition se_err {S E A} (e : E) : SE S E A := λ s, (Err e, s).
Definition se_panic {S E A} (w : nat) : SE S E A := λ s, (Panic w, s).
Definition se_bind {S E A B} (m : SE S E A) (f : A → SE S E B) : SE S E B := λ s,
  match m s with
  | (Ok a, s') => f a s'
  | (Err e, s') => (Err e, s')
  | (Panic w, s') => (Panic w, s')
  end.
Definition se_get {S E} : SE S E S := λ s, (Ok s, s).
Definition se_lift {S E A} (r : res E A) : SE S E A := λ s, (r, s).

(** [m.map_err(f)?] *)
Definition se_map_err {S E F A} (f : E → F) (m : SE S E A) : SE S F A := λ s,
  let '(r, s') := m s in (res_map_err f r, s').

(** [match m.await { Ok(..) => .., Err(..) => .. }]: the error becomes a value. *)
Definition se_try {S E F A} (m : SE S E A) : SE S F (A + E) := λ s,
  match m s with
  | (Ok a, s') => (Ok (inl a), s')
  | (Err e, s') => (Ok (inr e), s')
  | (Panic w, s') => (Panic w, s')
  end.

(** [let _ = m.await;]: the result is thrown away, errors included. *)
Definition se_ignore {S E F A} (m : SE S E A) : SE S F unit := λ s,
  match m s with
  | (Panic w, s') => (Panic w, s')
  | (_, s') => (Ok tt, s')
  end.

(** [o.ok_or_else(|| e)?] *)
Definition se_ok_or {S E A} (o : option A) (e : E) : SE S E A :=
  match o with Some a => se_ret a | None => se_err e end.

Definition se_when {S E} (b : bool) (m : SE S E unit) : SE S E unit :=
  if b then m else se_ret tt.

(** [for x in xs { f(x).await?; }] *)
Fixpoint se_iter {S E A} (f : A → SE S E unit) (xs : list A) : SE S E unit :=
  match xs with
  | [] => se_ret tt
  | x :: xs => se_bind (f x) (λ _, se_iter f xs)
  end.

Declare Scope se_scope.
Delimit Scope se_scope with se.
Notation "x <-- m ; k" := (se_bind m (λ x, k))
  (at level 90, m at next level, k at level 200, right associativity) : se_scope.
Notation "m ;;; k" := (se_bind m (λ _, k))
  (at level 90, k at level 200, right associativity) : se_scope.
#[global] Open Scope se_scope.

(** ** Equations of the monad *)

Section se_equations.
Context {S E : Type}.
Implicit Types s : S.

Lemma se_bind_ok {A B} (m : SE S E A) (f : A → SE S E B) s s' a :
  m s = (Ok a, s') → se_bind m f s = f a s'.
Proof. intros H. unfold se_bind. by rewrite H. Qed.

Lemma se_bind_err {A B} (m : SE S E A) (f : A → SE S E B) s s' e :
  m s = (Err e, s') → se_bind m f s = (Err e, s').
Proof. intros H. unfold se_bind. by rewrite H. Qed.

Lemma se_bind_inv {A B} (m : SE S E A) (f : A → SE S E B) s s' b :
  se_bind m f s = (Ok b, s') → ∃ a s1, m s = (Ok a, s1) ∧ f a s1 = (Ok b, s').
Proof. unfold se_bind. intros H. destruct (m s) as [[a|e|w] s1]; naive_solver. Qed.

Lemma se_bind_assoc {A B C} (m : SE S E A) (f : A → SE S E B) (g : B → SE S E C) s :
  se_bind (se_bind m f) g s = se_bind m (λ a, se_bind (f a) g) s.
Proof. unfold se_bind. by destruct (m s) as [[]]. Qed.

Lemma se_ret_bind {A B} (a : A) (f : A → SE S E B) s :
  se_bind (se_ret a) f s = f a s.
Proof. done. Qed.
End se_equations.

(** ** Invariants of stateful computations *)

(** [preserves R m]: whatever [m] returns, the state before and the state after
    are related by [R]. With a preorder [R] this composes along [se_bind]. *)
Definition preserves {S E A} (R : relation S) (m : SE S E A) : Prop :=
  ∀ s, R s (m s).2.

Section preserves.
Context {S : Type} (R : relation S) `{!PreOrder R}.

Lemma preserves_ret {E A} (a : A) : preserves (E:=E) R (se_ret a).
Proof. intros s. simpl. reflexivity. Qed.
Lemma preserves_err {E A} (e : E) : preserves (A:=A) R (se_err e).
Proof. intros s. simpl. reflexivity. Qed.
Lemma preserves_panic {E A} w : preserves (E:=E) (A:=A) R (se_panic w).
Proof. intros s. simpl. reflexivity. Qed.
Lemma preserves_get {E} : preserves (E:=E) R se_get.
Proof. intros s. simpl. reflexivity. Qed.
Lemma preserves_lift {E A} (r : res E A) : preserves R (se_lift r).
Proof. intros s. simpl. reflexivity. Qed.

Lemma preserves_bind {E A B} (m : SE S E A) (f : A → SE S E B) :
  preserves R m → (∀ a, preserves R (f a)) → preserves R (se_bind m f).
Proof.
  intros Hm Hf s. specialize (Hm s). unfold se_bind.
  destruct (m s) as [[a|e|w] s']; simpl in *; [|done..].
  etrans; [exact Hm|apply Hf].
Qed.

Lemma preserves_map_err {E F A} (f : E → F) (m : SE S E A) :
  preserves R m → preserves R (se_map_err f m).
Proof. intros Hm s. specialize (Hm s). unfold se_map_err. by destruct (m s). Qed.

Lemma preserves_try {E F A} (m : SE S E A) :
  preserves R m → preserves R (se_try (F:=F) m).
Proof. intros Hm s. specialize (Hm s). unfold se_try. by destruct (m s) as [[]]. Qed.

Lemma preserves_ignore {E F A} (m : SE S E A) :
  preserves R m → preserves R (se_ignore (F:=F) m).
Proof. intros Hm s. specialize (Hm s). unfold se_ignore. by destruct (m s) as [[]]. Qed.

Lemma preserves_ok_or {E A} (o : option A) (e : E) : preserves R (se_ok_or o e).
Proof. destruct o; [apply preserves_ret|apply preserves_err]. Qed.

Lemma preserves_when {E} b (m : SE S E unit) :
  preserves R m → preserves R (se_when b m).
Proof. destruct b; [done|intros _; apply preserves_ret]. Qed.

Lemma preserves_iter {E A} (f : A → SE S E unit) xs :
  (∀ x, preserves R (f x)) → preserves R (se_iter f xs).
Proof.
  intros Hf. induction xs as [|x xs IH]; simpl; [apply preserves_ret|].
  by apply preserves_bind.
Qed.
End preserves.

Create HintDb preserves.
#[export] Hint Resolve preserves_ret preserves_err preserves_panic preserves_get
  preserves_lift preserves_map_err preserves_try preserves_ignore preserves_ok_or
  preserves_when preserves_iter : preserves.

(** Walks through a monadic program, splitting binds and matches, and closes the
    leaves with the [preserves] hints. *)
Ltac preserves_step :=
  lazymatch goal with
  | |- preserves _ (se_bind _ _) => apply preserves_bind; [apply _| |intros ?]
  | |- preserves _ (match ?x with _ => _ end) => destruct x
  | |- preserves _ (let '_ := ?x in _) => destruct x
  | |- preserves _ _ => solve [eauto 4 with preserves typeclass_instances]
  end.
Ltac preserves_tac := repeat preserves_step.

(** ** Machine integers *)

Definition i64_min : Z := - 2 ^ 63.
Definition i64_max : Z := 2 ^ 63 - 1.
Definition in_i64 (z : Z) : Prop := (i64_min ≤ z ≤ i64_max)%Z.
#[global] Instance in_i64_dec z : Decision (in_i64 z) := _.

(** Two's-complement wrap-around: [i64] arithmetic in a release build. *)
Definition wrap64 (z : Z) : Z := (z + 2 ^ 63) `mod` 2 ^ 64 - 2 ^ 63.

(** [n as u16] and [z as u32] *)
Definition as_u16 (z : Z) : Z := z `mod` 2 ^ 16.
Definition as_u32 (z : Z) : Z := z `mod` 2 ^ 32.

Lemma wrap64_range z : in_i64 (wrap64 z).
Proof.
  unfold in_i64, i64_min, i64_max, wrap64.
  pose proof (Z.mod_pos_bound (z + 2 ^ 63) (2 ^ 64) ltac:(lia)). lia.
Qed.

Lemma wrap64_id z : in_i64 z → wrap64 z = z.
Proof.
  unfold in_i64, i64_min, i64_max, wrap64. intros H.
  rewrite Z.mod_small; lia.
Qed.

Lemma wrap64_add_l (a b : Z) : wrap64 (wrap64 a + b)%Z = wrap64 (a + b)%Z.
Proof.
  unfold wrap64. f_equal.
  replace ((a + 2 ^ 63) `mod` 2 ^ 64 - 2 ^ 63 + b + 2 ^ 63)%Z
    with ((a + 2 ^ 63) `mod` 2 ^ 64 + b)%Z by lia.
  rewrite Z.add_mod_idemp_l by lia. f_equal. lia.
Qed.

Lemma wrap64_congr z : ((wrap64 z - z) `mod` 2 ^ 64 = 0)%Z.
Proof.
  unfold wrap64.
  rewrite (Z.mod_eq (z + 2 ^ 63) (2 ^ 64)) by lia.
  replace (_ - _)%Z with ((- ((z + 2 ^ 63) `div` 2 ^ 64)) * 2 ^ 64)%Z by lia.
  apply Z.mod_mul. lia.
Qed.

(** [x.clamp(lo, hi)]: panics when [lo > hi]. *)
Definition clamp {E} (lo hi x : Z) : res E Z :=
  if bool_decide (lo ≤ hi)%Z then Ok (Z.max lo (Z.min hi x)) else Panic 1.

(** ** Lists *)

Section lists.
Context {A : Type}.
Implicit Types l : list A.

Lemma filter_none (P : A → Prop) `{!∀ x, Decision (P x)} l :
  (∀ x, x ∈ l → ¬ P x) → filter P l = [].
Proof.
  induction l as [|x l IH]; intros Hl; [done|].
  rewrite filter_cons_False by (apply Hl; set_solver).
  apply IH. set_solver.
Qed.

Lemma filter_all (P : A → Prop) `{!∀ x, Decision (P x)} l :
  (∀ x, x ∈ l → P x) → filter P l = l.
Proof.
  induction l as [|x l IH]; intros Hl; [done|].
  rewrite filter_cons_True by (apply Hl; set_solver).
  f_equal. apply IH. set_solver.
Qed.
End lists.

(** ** Tactics *)

(** Splits every [if]/[match] of the goal and of the hypotheses. *)
Ltac case_all := repeat (case_match || case_decide); simplify_eq/=.

(** Turns [bool_decide P = true/false] and boolean connectives into propositions. *)
Ltac bool_prop :=
  repeat match goal with
  | H : bool_decide _ = true |- _ => apply bool_decide_eq_true in H
  | H : bool_decide _ = false |- _ => apply bool_decide_eq_false in H
  | H : _ && _ = true |- _ => apply andb_true_iff in H as [? ?]
  | H : _ && _ = false |- _ => apply andb_false_iff in H
  | H : _ || _ = true |- _ => apply orb_true_iff in H
  | H : _ || _ = false |- _ => apply orb_false_iff in H as [? ?]
  | H : negb _ = true |- _ => apply negb_true_iff in H
  | H : negb _ = false |- _ => apply negb_false_iff in H
  end.
