(* ===== verification/RStr.v ===== *)
(** * Rust strings

    A [&str] is modelled by the bytes of its UTF-8 encoding, a [string].  The
    functions below are the methods of [str] that the program calls; offsets are
    byte offsets, as in Rust. *)

From stdpp Require Export strings.
From S2P Require Export Prelude.
From Stdlib Require Import Ascii.

#[global] Arguments String.append !_ _ /.

Module Str.

(** ** Slicing: [&s[..n]], [&s[n..]] *)

Fixpoint stake (n : nat) (s : string) : string :=
  match n, s with
  | S n, String c s => String c (stake n s)
  | _, _ => ""
  end.

Fixpoint sdrop (n : nat) (s : string) : string :=
  match n, s with
  | S n, String _ s => sdrop n s
  | O, s => s
  | _, EmptyString => ""
  end.

(** ** Prefixes and suffixes *)

(** [s.strip_prefix(p)] *)
Fixpoint strip_prefix (p s : string) : option string :=
  match p, s with
  | EmptyString, _ => Some s
  | String a p, String b s => if bool_decide (a = b) then strip_prefix p s else None
  | _, _ => None
  end.

Definition starts_with (s p : string) : bool := bool_decide (is_Some (strip_prefix p s)).

Fixpoint srev_app (s acc : string) : string :=
  match s with "" => acc | String c s => srev_app s (String c acc) end.
Definition srev (s : string) : string := srev_app s "".

Definition ends_with (s p : string) : bool := starts_with (srev s) (srev p).

(** ** Searching *)

(** [s.find(p)]: the offset of the first occurrence. *)
Fixpoint find (s p : string) : option nat :=
  if starts_with s p then Some 0
  else match s with
       | "" => None
       | String _ s => S <$> find s p
       end.

Definition contains (s p : string) : bool := bool_decide (is_Some (find s p)).

(** ** Trimming *)

Definition ascii_ws (c : ascii) : bool :=
  bool_decide (nat_of_ascii c ∈ [9; 10; 11; 12; 13; 32]).

Definition bytes (l : list nat) : string := foldr (λ n s, String (ascii_of_nat n) s) "" l.

(** The UTF-8 encodings of the characters with Unicode's [White_Space] property
    that are longer than one byte. *)
Definition wide_ws : list string :=
  bytes <$> ([[194;133]; [194;160]; [225;154;128]]
    ++ ((λ b, [226;128;b]) <$> [128;129;130;131;132;133;134;135;136;137;138;168;169;175])
    ++ [[226;129;159]; [227;128;128]]).

Fixpoint first_strip (ps : list string) (s : string) : option string :=
  match ps with
  | [] => None
  | p :: ps => match strip_prefix p s with Some r => Some r | None => first_strip ps s end
  end.

(** One whitespace character at the front of [s], the encodings being [ws]. *)
Definition strip_ws (ws : list string) (s : string) : option string :=
  match s with
  | String c r => if ascii_ws c then Some r else first_strip ws s
  | "" => None
  end.

Fixpoint strip_all (ws : list string) (fuel : nat) (s : string) : string :=
  match fuel with
  | O => s
  | S fuel => match strip_ws ws s with Some r => strip_all ws fuel r | None => s end
  end.

Definition trim_start (s : string) : string := strip_all wide_ws (String.length s) s.
Definition trim_end (s : string) : string :=
  srev (strip_all (srev <$> wide_ws) (String.length s) (srev s)).
Definition trim (s : string) : string := trim_end (trim_start s).

(** [s.trim_end_matches(c)], [s.trim_matches(c)] *)
Fixpoint trim_start_matches (c : ascii) (s : string) : string :=
  match s with
  | String a r => if bool_decide (a = c) then trim_start_matches c r else s
  | "" => ""
  end.
Definition trim_end_matches (c : ascii) (s : string) : string :=
  srev (trim_start_matches c (srev s)).
Definition trim_matches (c : ascii) (s : string) : string :=
  trim_end_matches c (trim_start_matches c s).

(** ** Characters *)

Fixpoint chars (s : string) : list ascii :=
  match s with "" => [] | String c s => c :: chars s end.

Definition all (p : ascii → bool) (s : string) : bool := forallb p (chars s).

Definition between (lo hi : nat) (c : ascii) : bool :=
  bool_decide (lo ≤ nat_of_ascii c) && bool_decide (nat_of_ascii c ≤ hi).
Definition is_ascii_lowercase : ascii → bool := between 97 122.
Definition is_ascii_uppercase : ascii → bool := between 65 90.
Definition is_ascii_digit : ascii → bool := between 48 57.
Definition is_ascii_alphanumeric (c : ascii) : bool :=
  is_ascii_lowercase c || is_ascii_uppercase c || is_ascii_digit c.

Definition lower (c : ascii) : ascii :=
  if is_ascii_uppercase c then ascii_of_nat (nat_of_ascii c + 32) else c.
Definition upper (c : ascii) : ascii :=
  if is_ascii_lowercase c then ascii_of_nat (nat_of_ascii c - 32) else c.
Fixpoint smap (f : ascii → ascii) (s : string) : string :=
  match s with "" => "" | String c s => String (f c) (smap f s) end.

(** [s.to_ascii_lowercase()] and [s.to_ascii_uppercase()]. *)
Definition to_ascii_lowercase : string → string := smap lower.
Definition to_ascii_uppercase : string → string := smap upper.
Definition eq_ignore_ascii_case (s t : string) : bool :=
  bool_decide (to_ascii_lowercase s = to_ascii_lowercase t).

(** [s.replace(a, b)] on single characters. *)
Definition replace_char (a b : ascii) : string → string :=
  smap (λ c, if bool_decide (c = a) then b else c).

(** ** Splitting *)

(** [s.split(c)]: always at least one piece. *)
Fixpoint split (c : ascii) (s : string) : list string :=
  match s with
  | "" => [""]
  | String a s =>
      if bool_decide (a = c) then "" :: split c s
      else match split c s with
           | [] => [String a ""]
           | p :: ps => String a p :: ps
           end
  end.

(** [s.split_whitespace().count()]: words are maximal runs without whitespace. *)
Fixpoint count_words (fuel : nat) (inside : bool) (s : string) : nat :=
  match fuel with
  | O => 0
  | S fuel =>
      match s with
      | "" => 0
      | String _ r =>
          match strip_ws wide_ws s with
          | Some r => count_words fuel false r
          | None => (if inside then 0 else 1) + count_words fuel true r
          end
      end
  end.
Definition split_whitespace_count (s : string) : nat :=
  count_words (String.length s) false s.

(** [parts.join(sep)] *)
Fixpoint join (sep : string) (parts : list string) : string :=
  match parts with
  | [] => ""
  | [p] => p
  | p :: ps => p +:+ sep +:+ join sep ps
  end.

(** Decimal digits, as [format!("{}", n)] prints an integer. *)
Fixpoint dec_digits (fuel : nat) (n : N) (acc : string) : string :=
  let acc := String (ascii_of_N (48 + n `mod` 10)) acc in
  match fuel with
  | O => acc
  | S fuel => if bool_decide (n < 10)%N then acc else dec_digits fuel (n `div` 10)%N acc
  end.
Definition dec_N (n : N) : string := dec_digits (N.to_nat (N.size n)) n "".
Definition dec (z : Z) : string :=
  match z with
  | Zneg p => "-" +:+ dec_N (Npos p)
  | _ => dec_N (Z.to_N z)
  end.
End Str.

(** ** Lemmas *)

Module StrLemmas.
Import Str.

Lemma slen_app s t : String.length (s +:+ t) = String.length s + String.length t.
Proof. induction s as [|c s IH]; simpl; [done|by rewrite IH]. Qed.

Lemma app_nil_r s : s +:+ "" = s.
Proof. induction s as [|c s IH]; simpl; [done|by rewrite IH]. Qed.

Lemma app_assoc s t u : (s +:+ t) +:+ u = s +:+ (t +:+ u).
Proof. induction s as [|c s IH]; simpl; [done|by rewrite IH]. Qed.

Lemma app_inj_l s t u : s +:+ t = s +:+ u → t = u.
Proof. induction s as [|c s IH]; simpl; [done|]. intros [= H]. by apply IH. Qed.

Lemma stake_sdrop n s : stake n s +:+ sdrop n s = s.
Proof.
  revert s. induction n as [|n IH]; intros [|c s]; simpl; try done. by rewrite IH.
Qed.

Lemma slen_sdrop n s : String.length (sdrop n s) = String.length s - n.
Proof. revert s. induction n as [|n IH]; intros [|c s]; simpl; auto. Qed.

Lemma slen_stake n s : n ≤ String.length s → String.length (stake n s) = n.
Proof.
  revert s. induction n as [|n IH]; intros [|c s]; simpl; [done..|lia|].
  intros H. rewrite IH; lia.
Qed.

Lemma sdrop_sdrop n m s : sdrop n (sdrop m s) = sdrop (m + n) s.
Proof.
  revert s. induction m as [|m IH]; intros s; simpl; [done|].
  destruct s as [|c s]; [by destruct n|apply IH].
Qed.

Lemma sdrop_app_exact s t : sdrop (String.length s) (s +:+ t) = t.
Proof. induction s as [|c s IH]; simpl; auto. Qed.

Lemma sdrop_app_plus s t n : sdrop (String.length s + n) (s +:+ t) = sdrop n t.
Proof. induction s as [|c s IH]; simpl; auto. Qed.

Lemma stake_app_exact s t : stake (String.length s) (s +:+ t) = s.
Proof. induction s as [|c s IH]; simpl; [done|by rewrite IH]. Qed.

Lemma stake_app_plus s t n :
  stake (String.length s + n) (s +:+ t) = s +:+ stake n t.
Proof. induction s as [|c s IH]; simpl; [done|by rewrite IH]. Qed.

Lemma strip_prefix_Some p s r : strip_prefix p s = Some r ↔ s = p +:+ r.
Proof.
  revert s. induction p as [|a p IH]; intros s; simpl.
  { split; [by intros [= ->]|by intros ->]. }
  destruct s as [|b s]; [done|]. case_bool_decide as Hab.
  - rewrite IH. split; [intros ->; by rewrite Hab|by intros [= _ ->]].
  - split; [done|intros [= -> ->]; done].
Qed.

Lemma strip_prefix_app p r : strip_prefix p (p +:+ r) = Some r.
Proof. by apply strip_prefix_Some. Qed.

Lemma starts_with_spec s p : starts_with s p = true ↔ ∃ r, s = p +:+ r.
Proof.
  unfold starts_with. rewrite bool_decide_eq_true. unfold is_Some.
  by setoid_rewrite strip_prefix_Some.
Qed.

Lemma starts_with_app p r : starts_with (p +:+ r) p = true.
Proof. apply starts_with_spec. eauto. Qed.

Lemma find_Some_le s p i : find s p = Some i → i + String.length p ≤ String.length s.
Proof.
  revert i. induction s as [|c s IH]; intros i; simpl; destruct (starts_with _ p) eqn:E.
  - intros [= <-]. apply starts_with_spec in E as [r E].
    apply (f_equal String.length) in E. rewrite slen_app in E. simpl in *. lia.
  - done.
  - intros [= <-]. apply starts_with_spec in E as [r E].
    apply (f_equal String.length) in E. rewrite slen_app in E. simpl in *. lia.
  - intros (j & Hj & ->)%fmap_Some. specialize (IH _ Hj). lia.
Qed.

(** [find] returns an occurrence: the text before it, the pattern, the rest. *)
Lemma find_split s p i :
  find s p = Some i → s = stake i s +:+ p +:+ sdrop (i + String.length p) s.
Proof.
  revert i. induction s as [|c s IH]; intros i; simpl; destruct (starts_with _ p) eqn:E.
  - intros [= <-]. apply starts_with_spec in E as [r E]. simpl.
    rewrite E at 1. by rewrite E, sdrop_app_exact.
  - done.
  - intros [= <-]. apply starts_with_spec in E as [r E]. simpl.
    rewrite E at 1. by rewrite E, sdrop_app_exact.
  - intros (j & Hj & ->)%fmap_Some. simpl. f_equal. by apply IH.
Qed.

(** ... and the first one. *)
Lemma find_first s p i j :
  find s p = Some i → j < i → starts_with (sdrop j s) p = false.
Proof.
  revert i j. induction s as [|c s IH]; intros i j; simpl; destruct (starts_with _ p) eqn:E.
  - intros [= <-]. lia.
  - done.
  - intros [= <-]. lia.
  - intros (k & Hk & ->)%fmap_Some Hj. destruct j as [|j]; [done|].
    apply (IH k); [done|lia].
Qed.

Lemma find_None s p j : find s p = None → starts_with (sdrop j s) p = false.
Proof.
  revert j. induction s as [|c s IH]; intros j; simpl; destruct (starts_with _ p) eqn:E;
    [done| |done|].
  - intros _. by destruct j.
  - intros Hn%fmap_None. destruct j as [|j]; [done|]. by apply IH.
Qed.

Lemma chars_app s t : chars (s +:+ t) = chars s ++ chars t.
Proof. induction s as [|c s IH]; simpl; [done|by rewrite IH]. Qed.

Lemma chars_inj s t : chars s = chars t → s = t.
Proof.
  revert t. induction s as [|c s IH]; intros [|d t]; simpl; [done..|].
  intros [= -> H]. f_equal. by apply IH.
Qed.

Lemma length_chars s : length (chars s) = String.length s.
Proof. induction s as [|c s IH]; simpl; auto. Qed.

Lemma all_app p s t : all p (s +:+ t) = all p s && all p t.
Proof. unfold all. by rewrite chars_app, forallb_app. Qed.

Lemma all_spec p s : all p s = true ↔ ∀ c, c ∈ chars s → p c = true.
Proof.
  unfold all. rewrite forallb_forall.
  by setoid_rewrite list_elem_of_In.
Qed.

Lemma chars_smap f s : chars (smap f s) = f <$> chars s.
Proof. induction s as [|c s IH]; simpl; [done|by rewrite IH]. Qed.

Lemma slen_smap f s : String.length (smap f s) = String.length s.
Proof. induction s as [|c s IH]; simpl; auto. Qed.

Lemma chars_srev_app s t : chars (srev_app s t) = rev (chars s) ++ chars t.
Proof.
  revert t. induction s as [|c s IH]; intros t; simpl; [done|].
  by rewrite IH, <-List.app_assoc.
Qed.

Lemma chars_srev s : chars (srev s) = rev (chars s).
Proof. unfold srev. rewrite chars_srev_app. apply List.app_nil_r. Qed.

Lemma srev_involutive s : srev (srev s) = s.
Proof. apply chars_inj. by rewrite !chars_srev, rev_involutive. Qed.

Lemma srev_app_str s t : srev (s +:+ t) = srev t +:+ srev s.
Proof.
  apply chars_inj. by rewrite chars_app, !chars_srev, chars_app, rev_app_distr.
Qed.

Lemma ends_with_spec s p : ends_with s p = true ↔ ∃ r, s = r +:+ p.
Proof.
  unfold ends_with. rewrite starts_with_spec. split.
  - intros [r H]. exists (srev r).
    by rewrite <-(srev_involutive s), H, srev_app_str, srev_involutive.
  - intros [r ->]. exists (srev r). by rewrite srev_app_str.
Qed.
(** *** Trimming twice *)

Lemma first_strip_suffix ps s r : first_strip ps s = Some r → ∃ p, p ∈ ps ∧ s = p +:+ r.
Proof.
  induction ps as [|p ps IH]; simpl; [done|].
  destruct (strip_prefix p s) eqn:E.
  - intros [= ->]. apply strip_prefix_Some in E. exists p. split; [left|done].
  - intros (q & Hq & ->)%IH. exists q. split; [by right|done].
Qed.
Lemma strip_ws_suffix ws s r : "" ∉ ws → strip_ws ws s = Some r →
  ∃ p, s = p +:+ r ∧ String.length r < String.length s.
Proof.
  intros Hne. destruct s as [|c s]; [done|]. unfold strip_ws. destruct (ascii_ws c).
  - intros [= ->]. exists (String c ""). split; [done|simpl; lia].
  - intros (p & Hp & E)%first_strip_suffix. exists p. split; [done|]. rewrite E, slen_app.
    destruct p; [done|]. simpl. lia.
Qed.

Lemma strip_all_none ws n s : strip_ws ws s = None → strip_all ws n s = s.
Proof. destruct n; simpl; [done|]. by intros ->. Qed.
Lemma strip_all_done ws n s : "" ∉ ws → String.length s ≤ n →
  strip_ws ws (strip_all ws n s) = None ∧ ∃ p, s = p +:+ strip_all ws n s.
Proof.
  intros Hne. revert s. induction n as [|n IH]; intros s Hn; simpl.
  - destruct s; [|simpl in Hn; lia]. split; [done|]. by exists "".
  - destruct (strip_ws ws s) as [r|] eqn:E; [|split; [done|by exists ""]].
    apply strip_ws_suffix in E as (p & -> & Hlt); [|done].
    destruct (IH r) as [Hr [q Hq]]; [lia|]. split; [done|]. exists (p +:+ q).
    by rewrite app_assoc, <-Hq.
Qed.

Lemma first_strip_app ps s t : first_strip ps (s +:+ t) = None → first_strip ps s = None.
Proof.
  induction ps as [|p ps IH]; simpl; [done|].
  destruct (strip_prefix p s) as [r|] eqn:E.
  - apply strip_prefix_Some in E as ->. rewrite app_assoc. by rewrite strip_prefix_app.
  - destruct (strip_prefix p (s +:+ t)); [done|exact IH].
Qed.

Lemma strip_ws_app ws s t : strip_ws ws (s +:+ t) = None → strip_ws ws s = None.
Proof.
  destruct s as [|c s]; [done|]. change (String c s +:+ t) with (String c (s +:+ t)).
  unfold strip_ws. destruct (ascii_ws c); [done|]. apply (first_strip_app ws (String c s) t).
Qed.

Lemma trim_trim s : trim (trim s) = trim s.
Proof.
  assert ("" ∉ wide_ws ∧ "" ∉ srev <$> wide_ws) as [Hw Hr].
  { split; (apply (bool_decide_unpack _); reflexivity). }
  destruct (strip_all_done wide_ws (String.length s) s Hw ltac:(done)) as [Hx _].
  unfold trim. fold (trim_start s) in Hx. set (x := trim_start s) in *.
  assert (String.length (srev x) ≤ String.length x) as Hlen.
  { rewrite <-!length_chars, chars_srev, length_rev. done. }
  destruct (strip_all_done _ (String.length x) (srev x) Hr Hlen) as [Hy [p Hp]].
  assert (x = trim_end x +:+ srev p) as Ex.
  { unfold trim_end. rewrite <-srev_app_str, <-Hp. by rewrite srev_involutive. }
  assert (strip_ws wide_ws (trim_end x) = None) as Hs.
  { rewrite Ex in Hx. by apply strip_ws_app in Hx. }
  unfold trim_start at 1. rewrite strip_all_none by done.
  unfold trim_end at 1. rewrite strip_all_none; [by rewrite srev_involutive|].
  unfold trim_end. by rewrite srev_involutive.
Qed.
Lemma split_token_app c p s :
  Str.split c p = [p] → Str.split c (p +:+ String c s) = p :: Str.split c s.
Proof.
  induction p as [|a p IH]; intros Hp; simpl.
  - by rewrite bool_decide_eq_true_2.
  - simpl in Hp. case_bool_decide; [done|].
    destruct (Str.split c p) as [|q qs] eqn:E; [injection Hp as <-; discriminate E|].
    injection Hp as -> ->. by rewrite IH.
Qed.
End StrLemmas.
Export StrLemmas.

(** Decides the equalities between literal strings in the goal. *)
Ltac literals :=
  repeat match goal with
  | |- context [@bool_decide (@eq string ?a ?b) ?d] =>
      let v := eval vm_compute in (@bool_decide (@eq string a b) d) in
      match v with
      | true => change (@bool_decide (@eq string a b) d) with true
      | false => change (@bool_decide (@eq string a b) d) with false
      end
  end; cbv iota.
