(* ===== verification/Json.v ===== *)
(** * JSON values

    [serde_json::Value] as the program uses it: the tree, its accessors, and
    objects as maps iterated in key order (serde_json without [preserve_order]
    stores an object in a [BTreeMap]). The text of a value,
    [Value::to_string], is the library's own code and stays a parameter, the
    class [SerdeJson]. *)

From S2P Require Export RStr.

(** [serde_json::Number]: an integer of 64 bits, or a float, which the program
    only ever carries around; it is kept as its text. *)
Inductive number := NInt (z : Z) | NFloat (text : string).

Inductive json :=
  | JNull
  | JBool (b : bool)
  | JNumber (n : number)
  | JString (s : string)
  | JArray (l : list json)
  | JObject (fields : list (string * json)).

Notation JInt z := (JNumber (NInt z)).

(** Induction with hypotheses for the elements of arrays and objects. *)
Section json_ind.
Variable P : json → Prop.
Hypothesis Hnull : P JNull.
Hypothesis Hbool : ∀ b, P (JBool b).
Hypothesis Hnum : ∀ n, P (JNumber n).
Hypothesis Hstr : ∀ s, P (JString s).
Hypothesis Harr : ∀ l, Forall P l → P (JArray l).
Hypothesis Hobj : ∀ fs, Forall (λ kv, P kv.2) fs → P (JObject fs).

Fixpoint json_ind_strong (v : json) : P v :=
  match v with
  | JNull => Hnull
  | JBool b => Hbool b
  | JNumber n => Hnum n
  | JString s => Hstr s
  | JArray l => Harr l
      ((fix go l := match l return Forall P l with
        | [] => Forall_nil_2 _
        | v :: l => Forall_cons_2 _ _ _ (json_ind_strong v) (go l)
        end) l)
  | JObject fs => Hobj fs
      ((fix go fs := match fs return Forall (λ kv, P kv.2) fs with
        | [] => Forall_nil_2 _
        | kv :: fs => Forall_cons_2 (λ kv, P kv.2) _ _ (json_ind_strong kv.2) (go fs)
        end) fs)
  end.
End json_ind.

(** The text of a value. *)
Class SerdeJson := json_to_string : json → string.

Module Json.

(** ** Objects *)

Fixpoint assoc (k : string) (fs : list (string * json)) : option json :=
  match fs with
  | [] => None
  | (k', v) :: fs => if bool_decide (k = k') then Some v else assoc k fs
  end.

(** [Map::insert]: replaces the value of an existing key, otherwise the entry
    goes to its place in key order. *)
Fixpoint obj_insert (k : string) (v : json) (fs : list (string * json)) :
    list (string * json) :=
  match fs with
  | [] => [(k, v)]
  | (k', v') :: fs =>
      match String.compare k k' with
      | Lt => (k, v) :: (k', v') :: fs
      | Eq => (k, v) :: fs
      | Gt => (k', v') :: obj_insert k v fs
      end
  end.

(** [json!({ .. })] *)
Definition obj (fs : list (string * json)) : json :=
  JObject (foldl (λ acc kv, obj_insert kv.1 kv.2 acc) [] fs).

(** ** Accessors *)

(** [v.get(k)] and [v[k]] *)
Definition get (v : json) (k : string) : option json :=
  match v with JObject fs => assoc k fs | _ => None end.
Definition index (v : json) (k : string) : json := default JNull (get v k).

Definition as_str (v : json) : option string :=
  match v with JString s => Some s | _ => None end.
Definition as_bool (v : json) : option bool :=
  match v with JBool b => Some b | _ => None end.
Definition as_u64 (v : json) : option Z :=
  match v with
  | JInt z => if bool_decide (0 ≤ z < 2 ^ 64)%Z then Some z else None
  | _ => None
  end.
Definition as_i64 (v : json) : option Z :=
  match v with
  | JInt z => if bool_decide (in_i64 z) then Some z else None
  | _ => None
  end.
Definition as_array (v : json) : option (list json) :=
  match v with JArray l => Some l | _ => None end.
Definition as_object (v : json) : option (list (string * json)) :=
  match v with JObject fs => Some fs | _ => None end.
Definition is_object (v : json) : bool :=
  match v with JObject _ => true | _ => false end.
Definition is_null (v : json) : bool :=
  match v with JNull => true | _ => false end.

(** Serializing an [Option<T>] field. *)
Definition opt {A} (f : A → json) (o : option A) : json :=
  match o with Some a => f a | None => JNull end.
Definition opt_str : option string → json := opt JString.
Definition opt_json (o : option json) : json := default JNull o.
Definition opt_int : option Z → json := opt (λ z, JInt z).

(** [obj.iter().map(..).collect::<HashMap<_, _>>()]: the last binding of a key wins. *)
Definition to_map (fs : list (string * json)) : gmap string json :=
  foldl (λ m kv, <[kv.1 := kv.2]> m) ∅ fs.
End Json.

(** ** Lemmas *)

Module JsonLemmas.
Import Json.

Lemma string_compare_refl k : String.compare k k = Eq.
Proof.
  induction k as [|c k IH]; simpl; [done|].
  unfold Ascii.compare. by rewrite N.compare_refl.
Qed.

Lemma assoc_snoc k k' v l :
  assoc k (l ++ [(k', v)]) =
  match assoc k l with
  | Some w => Some w
  | None => if bool_decide (k = k') then Some v else None
  end.
Proof. induction l as [|[k2 v2] l IH]; simpl; [done|]. by destruct (bool_decide (k = k2)). Qed.

Lemma assoc_insert k v fs : assoc k (obj_insert k v fs) = Some v.
Proof.
  induction fs as [|[k' v'] fs IH]; simpl; [by rewrite bool_decide_eq_true_2|].
  destruct (String.compare k k') eqn:E; simpl.
  - by rewrite bool_decide_eq_true_2.
  - by rewrite bool_decide_eq_true_2.
  - rewrite bool_decide_eq_false_2; [done|].
    intros ->. by rewrite string_compare_refl in E.
Qed.

Lemma assoc_insert_ne k k' v fs : k ≠ k' → assoc k' (obj_insert k v fs) = assoc k' fs.
Proof.
  intros Hne. induction fs as [|[k2 v2] fs IH]; simpl.
  - by rewrite bool_decide_eq_false_2.
  - destruct (String.compare k k2) eqn:E; simpl.
    + apply String.compare_eq_iff in E. subst k2.
      by rewrite !bool_decide_eq_false_2 by done.
    + rewrite (bool_decide_eq_false_2 (k' = k)) by done. done.
    + by rewrite IH.
Qed.

Lemma foldl_insert_assoc fs acc k :
  assoc k (foldl (λ acc kv, obj_insert kv.1 kv.2 acc) acc fs) =
  match assoc k (reverse fs) with Some v => Some v | None => assoc k acc end.
Proof.
  revert acc. induction fs as [|[k' v'] fs IH]; intros acc; simpl; [done|].
  rewrite IH, reverse_cons, assoc_snoc.
  destruct (assoc k (reverse fs)); [done|]. case_bool_decide as Hk.
  - subst. apply assoc_insert.
  - by apply assoc_insert_ne.
Qed.

(** A field of a [json!] literal. *)
Lemma get_obj fs k : get (obj fs) k = assoc k (reverse fs).
Proof. unfold get, obj. rewrite foldl_insert_assoc. by destruct (assoc k (reverse fs)). Qed.

Lemma to_map_lookup fs k : to_map fs !! k = assoc k (reverse fs).
Proof.
  unfold to_map.
  assert (∀ m : gmap string json, foldl (λ m kv, <[kv.1 := kv.2]> m) m fs !! k =
    match assoc k (reverse fs) with Some v => Some v | None => m !! k end) as Hf.
  { induction fs as [|[k' v'] fs IH]; intros m; simpl; [done|].
    rewrite IH, reverse_cons, assoc_snoc.
    destruct (assoc k (reverse fs)); [done|]. case_bool_decide as Hk.
    - subst. apply lookup_insert_eq.
    - by apply lookup_insert_ne. }
  rewrite Hf. by destruct (assoc k (reverse fs)).
Qed.
End JsonLemmas.
Export JsonLemmas.
