(* ===== verification/Models.v ===== *)
(** * Data model ([crates/common/src/models], [error.rs])

    The rows of the tenant and control tables, the enumerations with their
    string forms, the request bodies, the retry policy with its serde defaults,
    validated cron expressions, and the API error type. A [DateTime<Utc>] is an
    integer number of microseconds, the precision of a [TIMESTAMPTZ] column. *)

From S2P Require Export Json.
#[local] Open Scope Z_scope.

(** ** What the program uses of chrono, chrono-tz and the cron crate *)

Class Chrono := {
  ts_json : Z → json;                         (* serde of a DateTime<Utc> *)
  to_rfc3339 : Z → string;
  parse_from_rfc3339 : string → option Z;
  naive_parse_from_str : string → string → option Z;  (* value, format; as UTC *)
}.

Class CronCrate := {
  Schedule : Type;
  Tz : Type;
  parse_schedule : string → res string Schedule;
  parse_tz : string → option Tz;
  schedule_next_after : Schedule → Tz → Z → option Z;
}.

(** ** Enumerations *)

Inductive AttemptStatus := AS_SUCCESS | AS_FAILED.

Definition AttemptStatus_as_str (s : AttemptStatus) : string :=
  match s with AS_SUCCESS => "SUCCESS" | AS_FAILED => "FAILED" end.

Inductive EndpointType := HTTP | KAFKA | REDIS_STREAM | INTERNAL.

Definition EndpointType_as_str (t : EndpointType) : string :=
  match t with
  | HTTP => "HTTP" | KAFKA => "KAFKA" | REDIS_STREAM => "REDIS_STREAM" | INTERNAL => "INTERNAL"
  end.

Definition EndpointType_from_str_val (s : string) : option EndpointType :=
  if bool_decide (s = "HTTP") then Some HTTP
  else if bool_decide (s = "KAFKA") then Some KAFKA
  else if bool_decide (s = "REDIS_STREAM") then Some REDIS_STREAM
  else if bool_decide (s = "INTERNAL") then Some INTERNAL
  else None.

Inductive ExecutionStatus :=
  | ES_PENDING | ES_QUEUED | ES_RUNNING | ES_RETRYING | ES_SUCCESS | ES_FAILED | ES_CANCELLED.

Definition ExecutionStatus_as_str (s : ExecutionStatus) : string :=
  match s with
  | ES_PENDING => "PENDING" | ES_QUEUED => "QUEUED" | ES_RUNNING => "RUNNING"
  | ES_RETRYING => "RETRYING" | ES_SUCCESS => "SUCCESS" | ES_FAILED => "FAILED"
  | ES_CANCELLED => "CANCELLED"
  end.

Inductive TriggerType := IMMEDIATE | DELAYED | CRON.

Definition TriggerType_as_str (t : TriggerType) : string :=
  match t with IMMEDIATE => "IMMEDIATE" | DELAYED => "DELAYED" | CRON => "CRON" end.

Definition TriggerType_from_str_val (s : string) : option TriggerType :=
  if bool_decide (s = "IMMEDIATE") then Some IMMEDIATE
  else if bool_decide (s = "DELAYED") then Some DELAYED
  else if bool_decide (s = "CRON") then Some CRON
  else None.

Inductive JobStatus := ACTIVE | RETIRED.

Definition JobStatus_as_str (s : JobStatus) : string :=
  match s with ACTIVE => "ACTIVE" | RETIRED => "RETIRED" end.

Definition JobStatus_from_str_val (s : string) : option JobStatus :=
  if bool_decide (s = "ACTIVE") then Some ACTIVE
  else if bool_decide (s = "RETIRED") then Some RETIRED
  else None.

#[global] Instance EndpointType_eq_dec : EqDecision EndpointType.
Proof. solve_decision. Defined.
#[global] Instance TriggerType_eq_dec : EqDecision TriggerType.
Proof. solve_decision. Defined.
#[global] Instance JobStatus_eq_dec : EqDecision JobStatus.
Proof. solve_decision. Defined.

(** ** Rows *)

Record Attempt := {
  a_attempt_id : string;
  a_execution_id : string;
  a_attempt_number : Z;
  a_status : string;
  a_started_at : Z;
  a_completed_at : option Z;
  a_duration_ms : option Z;
  a_output : option json;
  a_error : option json;
  a_created_at : Z;
}.

Record Config := {
  c_name : string;
  c_values_json : json;
  c_created_at : Z;
  c_updated_at : Z;
}.

Record Endpoint := {
  ep_name : string;
  ep_endpoint_type : string;
  ep_payload_spec_ref : option string;
  ep_config_ref : option string;
  ep_spec : json;
  ep_retry_policy : option json;
  ep_created_at : Z;
  ep_updated_at : Z;
}.

Record Execution := {
  e_execution_id : string;
  e_job_id : string;
  e_endpoint : string;
  e_endpoint_type : string;
  e_idempotency_key : option string;
  e_status : string;
  e_input : option json;
  e_output : option json;
  e_attempt_count : Z;
  e_max_attempts : Z;
  e_worker_id : option string;
  e_run_at : Z;
  e_started_at : option Z;
  e_completed_at : option Z;
  e_duration_ms : option Z;
  e_created_at : Z;
}.

Record ExecutionLog := {
  l_log_id : string;
  l_execution_id : string;
  l_attempt_number : Z;
  l_level : string;
  l_message : string;
  l_logged_at : Z;
}.

Record Job := {
  j_job_id : string;
  j_endpoint : string;
  j_endpoint_type : string;
  j_trigger_type : string;
  j_status : string;
  j_version : Z;
  j_previous_version_id : option string;
  j_replaced_by_id : option string;
  j_idempotency_key : option string;
  j_input : option json;
  j_run_at : option Z;
  j_cron_expression : option string;
  j_cron_timezone : option string;
  j_cron_starts_at : option Z;
  j_cron_ends_at : option Z;
  j_cron_next_run_at : option Z;
  j_cron_last_tick_at : option Z;
  j_created_at : Z;
  j_retired_at : option Z;
}.

Record Organization := {
  o_org_id : string;
  o_name : string;
  o_slug : string;
  o_status : string;
  o_created_at : Z;
  o_updated_at : Z;
}.

Record PayloadSpec := {
  p_name : string;
  p_schema_json : json;
  p_created_at : Z;
  p_updated_at : Z;
}.

Record Secret := {
  s_name : string;
  s_encrypted_value : list Z;   (* bytes *)
  s_created_at : Z;
  s_updated_at : Z;
}.

Record SecretResponse := {
  sr_name : string;
  sr_created_at : Z;
  sr_updated_at : Z;
}.

Definition SecretResponse_from (s : Secret) : SecretResponse :=
  {| sr_name := s_name s; sr_created_at := s_created_at s; sr_updated_at := s_updated_at s |}.

Record Workspace := {
  w_workspace_id : string;
  w_org_id : string;
  w_name : string;
  w_slug : string;
  w_schema_name : string;
  w_status : string;
  w_schema_version : Z;
  w_created_at : Z;
  w_updated_at : Z;
}.

(** ** Retry policy *)

Record RetryPolicy := {
  rp_max_attempts : Z;
  rp_backoff : string;
  rp_initial_delay_ms : Z;
  rp_max_delay_ms : Z;
}.

Definition default_max_attempts : Z := 1.
Definition default_backoff : string := "exponential".
Definition default_initial_delay : Z := 1000.
Definition default_max_delay : Z := 60000.

Definition RetryPolicy_default : RetryPolicy := {|
  rp_max_attempts := default_max_attempts;
  rp_backoff := default_backoff;
  rp_initial_delay_ms := default_initial_delay;
  rp_max_delay_ms := default_max_delay;
|}.

(** The derived [Deserialize]: a missing field takes its default, a field of the
    wrong type fails the whole value. Serde reads the struct from an object by
    field name, and from an array by position. *)
Definition field_or {A} (as_ : json → option A) (d : A) (o : option json) : option A :=
  match o with None => Some d | Some v => as_ v end.

Definition RetryPolicy_from_value (v : json) : option RetryPolicy :=
  let build (m b i x : option json) :=
    m ← field_or Json.as_i64 default_max_attempts m;
    b ← field_or Json.as_str default_backoff b;
    i ← field_or Json.as_i64 default_initial_delay i;
    x ← field_or Json.as_i64 default_max_delay x;
    Some {| rp_max_attempts := m; rp_backoff := b;
            rp_initial_delay_ms := i; rp_max_delay_ms := x |} in
  match v with
  | JObject fs =>
      build (Json.assoc "max_attempts" fs) (Json.assoc "backoff" fs)
            (Json.assoc "initial_delay_ms" fs) (Json.assoc "max_delay_ms" fs)
  | JArray l =>
      if bool_decide (length l ≤ 4)%nat
      then build (l !! 0%nat) (l !! 1%nat) (l !! 2%nat) (l !! 3%nat)
      else None
  | _ => None
  end.

(** The derived [Serialize]. *)
Definition RetryPolicy_to_value (rp : RetryPolicy) : json := Json.obj [
  ("max_attempts", JInt (rp_max_attempts rp));
  ("backoff", JString (rp_backoff rp));
  ("initial_delay_ms", JInt (rp_initial_delay_ms rp));
  ("max_delay_ms", JInt (rp_max_delay_ms rp))].

Definition get_retry_policy (ep : Endpoint) : RetryPolicy :=
  default RetryPolicy_default (ep_retry_policy ep ≫= RetryPolicy_from_value).

(** ** Errors *)

Inductive AppError :=
  | InvalidRequest (m : string)
  | Unauthorized
  | PayloadSpecNotFound (m : string)
  | ConfigNotFound (m : string)
  | SecretNotFound (m : string)
  | EndpointNotFound (m : string)
  | JobNotFound (m : string)
  | ExecutionNotFound (m : string)
  | OrgNotFound (m : string)
  | WorkspaceNotFound (m : string)
  | Conflict (m : string)
  | JobNotUpdatable (m : string)
  | ExecutionNotCancellable (m : string)
  | InvalidCron (m : string)
  | InvalidSchema (m : string)
  | InvalidPayloadSpecRef (m : string)
  | InvalidConfigRef (m : string)
  | InputValidationFailed (m : string)
  | TemplateResolutionFailed (m : string)
  | RateLimited
  | InternalError (m : string).

Definition status_and_code (e : AppError) : Z * string :=
  match e with
  | InvalidRequest _ => (400, "INVALID_REQUEST")
  | Unauthorized => (401, "UNAUTHORIZED")
  | PayloadSpecNotFound _ => (404, "PAYLOAD_SPEC_NOT_FOUND")
  | ConfigNotFound _ => (404, "CONFIG_NOT_FOUND")
  | SecretNotFound _ => (404, "SECRET_NOT_FOUND")
  | EndpointNotFound _ => (404, "ENDPOINT_NOT_FOUND")
  | JobNotFound _ => (404, "JOB_NOT_FOUND")
  | ExecutionNotFound _ => (404, "EXECUTION_NOT_FOUND")
  | OrgNotFound _ => (404, "ORG_NOT_FOUND")
  | WorkspaceNotFound _ => (404, "WORKSPACE_NOT_FOUND")
  | Conflict _ => (409, "CONFLICT")
  | JobNotUpdatable _ => (409, "JOB_NOT_UPDATABLE")
  | ExecutionNotCancellable _ => (409, "EXECUTION_NOT_CANCELLABLE")
  | InvalidCron _ => (422, "INVALID_CRON")
  | InvalidSchema _ => (422, "INVALID_SCHEMA")
  | InvalidPayloadSpecRef _ => (422, "INVALID_PAYLOAD_SPEC_REF")
  | InvalidConfigRef _ => (422, "INVALID_CONFIG_REF")
  | InputValidationFailed _ => (422, "INPUT_VALIDATION_FAILED")
  | TemplateResolutionFailed _ => (422, "TEMPLATE_RESOLUTION_FAILED")
  | RateLimited => (429, "RATE_LIMITED")
  | InternalError _ => (500, "INTERNAL_ERROR")
  end.
