(* ===== verification/Requests.v ===== *)
(** * Requests and responses

    Validated cron expressions ([models/pg_cron_expr.rs]), the lenient
    timestamps and bodies of the API's requests ([models/*.rs]), pagination
    parameters ([pagination.rs]) and HTTP responses with the error body
    ([error.rs]). *)

From S2P Require Export Models.
#[local] Open Scope Z_scope.

(** ** Responses *)

Record HttpResponse := { resp_status : Z; resp_body : option json }.

Definition resp (status : Z) (body : json) : HttpResponse :=
  {| resp_status := status; resp_body := Some body |}.
Definition NoContent : HttpResponse := {| resp_status := 204; resp_body := None |}.

(** [Display for AppError] (the [thiserror] messages). *)
Definition AppError_to_string (e : AppError) : string :=
  match e with
  | InvalidRequest m => "Invalid request: " +:+ m
  | Unauthorized => "Unauthorized"
  | PayloadSpecNotFound m => "Payload spec not found: " +:+ m
  | ConfigNotFound m => "Config not found: " +:+ m
  | SecretNotFound m => "Secret not found: " +:+ m
  | EndpointNotFound m => "Endpoint not found: " +:+ m
  | JobNotFound m => "Job not found: " +:+ m
  | ExecutionNotFound m => "Execution not found: " +:+ m
  | OrgNotFound m => "Organization not found: " +:+ m
  | WorkspaceNotFound m => "Workspace not found: " +:+ m
  | Conflict m => "Conflict: " +:+ m
  | JobNotUpdatable m => "Job not updatable: " +:+ m
  | ExecutionNotCancellable m => "Execution not cancellable: " +:+ m
  | InvalidCron m => "Invalid cron expression: " +:+ m
  | InvalidSchema m => "Invalid schema: " +:+ m
  | InvalidPayloadSpecRef m => "Invalid payload spec reference: " +:+ m
  | InvalidConfigRef m => "Invalid config reference: " +:+ m
  | InputValidationFailed m => "Input validation failed: " +:+ m
  | TemplateResolutionFailed m => "Template resolution failed: " +:+ m
  | RateLimited => "Rate limited"
  | InternalError m => "Internal error: " +:+ m
  end.

Definition error_response (e : AppError) : HttpResponse :=
  let '(status, code) := status_and_code e in
  resp status (Json.obj [("error", Json.obj [
    ("code", JString code);
    ("message", JString (AppError_to_string e));
    ("request_id", JNull)])]).

(** ** Cron expressions *)

(** [PgCronExpr(String)]: the field is private, [try_from] is the only way in. *)
Record PgCronExpr := { cron_str : string }.

Section PgCron.
Context `{!CronCrate}.

Definition to_seven_field (e : PgCronExpr) : string := "0 " +:+ cron_str e +:+ " *".

Definition PgCronExpr_try_from (value : string) : res AppError PgCronExpr :=
  let field_count := Str.split_whitespace_count value in
  if negb (bool_decide (field_count = 5%nat)) then
    Err (InvalidCron ("Cron expression must have exactly 5 fields (min hour dom month dow), got "
                        +:+ Str.dec (Z.of_nat field_count)))
  else
    _ <-? res_map_err InvalidCron (parse_schedule ("0 " +:+ value +:+ " *"));
    Ok {| cron_str := value |}.

(** [.parse().expect(..)] *)
Definition to_schedule (e : PgCronExpr) : res AppError Schedule :=
  match parse_schedule (to_seven_field e) with
  | Ok s => Ok s
  | _ => Panic 2
  end.
End PgCron.

(** ** Lenient timestamps ([flexible_datetime]) *)

Section flexible_datetime.
Context `{!Chrono}.

Definition flexible_parse (s : string) : res string Z :=
  match parse_from_rfc3339 s with
  | Some t => Ok t
  | None =>
      match naive_parse_from_str s "%Y-%m-%dT%H:%M:%S" with
      | Some t => Ok t
      | None =>
          match naive_parse_from_str s "%Y-%m-%dT%H:%M" with
          | Some t => Ok t
          | None => Err ("invalid datetime '" +:+ s +:+
              "': expected an RFC 3339 timestamp (e.g. 2026-06-09T17:18:00Z) or a datetime-local value (e.g. 2026-06-09T17:18)")
          end
      end
  end.

(** A JSON value that is neither null nor a string is rejected by
    [Option::<String>::deserialize]. *)
Definition deserialize_opt (v : json) : res string (option Z) :=
  match v with
  | JNull => Ok None
  | JString s =>
      if bool_decide (Str.trim s = "") then Ok None
      else t <-? flexible_parse (Str.trim s); Ok (Some t)
  | _ => Err "invalid type: expected a string"
  end.
End flexible_datetime.

(** ** Bodies *)

Record CreateJob := {
  cj_endpoint : string;
  cj_trigger : string;
  cj_idempotency_key : option string;
  cj_input : option json;
  cj_max_attempts : option Z;
  cj_run_at : option Z;
  cj_cron : option PgCronExpr;
  cj_timezone : option string;
  cj_starts_at : option Z;
  cj_ends_at : option Z;
}.

(** The derived [Deserialize] of [CreateJob], on the fields of an object: a field
    that is missing or null is [None], a required one an error, and fields it does
    not name are ignored. *)
Section CreateJob_deserialize.
Context `{!Chrono} `{!CronCrate}.
Implicit Types fs : list (string * json).

Definition opt_field {A} (name : string) (as_ : json → res string A) fs : res string (option A) :=
  match Json.assoc name fs with
  | None | Some JNull => Ok None
  | Some v => a <-? as_ v; Ok (Some a)
  end.

Definition de_string (v : json) : res string string :=
  ok_or (Json.as_str v) "invalid type: expected a string".
Definition de_i64 (v : json) : res string Z :=
  ok_or (Json.as_i64 v) "invalid type: expected i64".
Definition de_cron (v : json) : res string PgCronExpr :=
  s <-? de_string v; res_map_err AppError_to_string (PgCronExpr_try_from s).

Definition req_string (name : string) fs : res string string :=
  v <-? ok_or (Json.assoc name fs) ("missing field `" +:+ name +:+ "`"); de_string v.

(** [#[serde(default, deserialize_with = ..)]] *)
Definition datetime_field (name : string) fs : res string (option Z) :=
  match Json.assoc name fs with Some v => deserialize_opt v | None => Ok None end.

Definition CreateJob_from_fields fs : res string CreateJob :=
  endpoint <-? req_string "endpoint" fs;
  trigger <-? req_string "trigger" fs;
  idempotency_key <-? opt_field "idempotency_key" de_string fs;
  input <-? opt_field "input" Ok fs;
  max_attempts <-? opt_field "max_attempts" de_i64 fs;
  run_at <-? datetime_field "run_at" fs;
  cron <-? opt_field "cron" de_cron fs;
  timezone <-? opt_field "timezone" de_string fs;
  starts_at <-? datetime_field "starts_at" fs;
  ends_at <-? datetime_field "ends_at" fs;
  Ok {| cj_endpoint := endpoint; cj_trigger := trigger; cj_idempotency_key := idempotency_key;
        cj_input := input; cj_max_attempts := max_attempts; cj_run_at := run_at;
        cj_cron := cron; cj_timezone := timezone; cj_starts_at := starts_at;
        cj_ends_at := ends_at |}.
End CreateJob_deserialize.

Record UpdateJob := {
  uj_cron : option PgCronExpr;
  uj_timezone : option string;
  uj_input : option json;
  uj_starts_at : option Z;
  uj_ends_at : option Z;
}.

Record CreateEndpoint := {
  ce_name : string;
  ce_endpoint_type : string;
  ce_payload_spec : option string;
  ce_config : option string;
  ce_spec : json;
  ce_retry_policy : option RetryPolicy;
}.

Record UpdateEndpoint := {
  ue_spec : option json;
  ue_config : option string;
  ue_payload_spec : option string;
  ue_retry_policy : option RetryPolicy;
}.

(** [{ name, values }], [{ name, schema }], [{ name, value }] and their updates. *)
Record CreateConfig := { cc_name : string; cc_values : json }.
Record UpdateConfig := { uc_values : json }.
Record CreatePayloadSpec := { cp_name : string; cp_schema : json }.
Record UpdatePayloadSpec := { up_schema : json }.
Record CreateSecret := { cs_name : string; cs_value : string }.
Record UpdateSecret := { us_value : string }.
Record CreateOrganization := { co_name : string; co_slug : string }.
Record UpdateOrganization := { uo_name : option string }.
Record CreateWorkspace := { cw_name : string; cw_slug : string }.

(** Their derived [Deserialize]s, like [CreateJob]'s. *)
Section Deserialize.
Context `{!Chrono} `{!CronCrate}.
Implicit Types fs : list (string * json).

Definition req_value (name : string) fs : res string json :=
  ok_or (Json.assoc name fs) ("missing field `" +:+ name +:+ "`").
Definition de_policy (v : json) : res string RetryPolicy :=
  ok_or (RetryPolicy_from_value v) "invalid retry policy".

Definition UpdateJob_from_fields fs : res string UpdateJob :=
  cron <-? opt_field "cron" de_cron fs;
  timezone <-? opt_field "timezone" de_string fs;
  input <-? opt_field "input" Ok fs;
  starts_at <-? datetime_field "starts_at" fs;
  ends_at <-? datetime_field "ends_at" fs;
  Ok {| uj_cron := cron; uj_timezone := timezone; uj_input := input;
        uj_starts_at := starts_at; uj_ends_at := ends_at |}.

Definition CreateEndpoint_from_fields fs : res string CreateEndpoint :=
  name <-? req_string "name" fs;
  endpoint_type <-? req_string "type" fs;
  payload_spec <-? opt_field "payload_spec" de_string fs;
  config <-? opt_field "config" de_string fs;
  spec <-? req_value "spec" fs;
  retry_policy <-? opt_field "retry_policy" de_policy fs;
  Ok {| ce_name := name; ce_endpoint_type := endpoint_type; ce_payload_spec := payload_spec;
        ce_config := config; ce_spec := spec; ce_retry_policy := retry_policy |}.

Definition UpdateEndpoint_from_fields fs : res string UpdateEndpoint :=
  spec <-? opt_field "spec" Ok fs;
  config <-? opt_field "config" de_string fs;
  payload_spec <-? opt_field "payload_spec" de_string fs;
  retry_policy <-? opt_field "retry_policy" de_policy fs;
  Ok {| ue_spec := spec; ue_config := config; ue_payload_spec := payload_spec;
        ue_retry_policy := retry_policy |}.

Definition CreateConfig_from_fields fs : res string CreateConfig :=
  name <-? req_string "name" fs;
  values <-? req_value "values" fs;
  Ok {| cc_name := name; cc_values := values |}.
Definition UpdateConfig_from_fields fs : res string UpdateConfig :=
  values <-? req_value "values" fs; Ok {| uc_values := values |}.

Definition CreatePayloadSpec_from_fields fs : res string CreatePayloadSpec :=
  name <-? req_string "name" fs;
  schema <-? req_value "schema" fs;
  Ok {| cp_name := name; cp_schema := schema |}.
Definition UpdatePayloadSpec_from_fields fs : res string UpdatePayloadSpec :=
  schema <-? req_value "schema" fs; Ok {| up_schema := schema |}.

Definition CreateSecret_from_fields fs : res string CreateSecret :=
  name <-? req_string "name" fs;
  value <-? req_string "value" fs;
  Ok {| cs_name := name; cs_value := value |}.
Definition UpdateSecret_from_fields fs : res string UpdateSecret :=
  value <-? req_string "value" fs; Ok {| us_value := value |}.

Definition CreateOrganization_from_fields fs : res string CreateOrganization :=
  name <-? req_string "name" fs;
  slug <-? req_string "slug" fs;
  Ok {| co_name := name; co_slug := slug |}.
Definition UpdateOrganization_from_fields fs : res string UpdateOrganization :=
  name <-? opt_field "name" de_string fs; Ok {| uo_name := name |}.
Definition CreateWorkspace_from_fields fs : res string CreateWorkspace :=
  name <-? req_string "name" fs;
  slug <-? req_string "slug" fs;
  Ok {| cw_name := name; cw_slug := slug |}.

(** [DateTime<Utc>]'s own [Deserialize]: RFC 3339 and nothing else. *)
Definition de_datetime (v : json) : res string Z :=
  s <-? de_string v; ok_or (parse_from_rfc3339 s) "invalid RFC 3339 timestamp".
Definition req_datetime (name : string) fs : res string Z :=
  v <-? req_value name fs; de_datetime v.
Definition req_i64 (name : string) fs : res string Z :=
  v <-? req_value name fs; de_i64 v.

(** [Execution]'s, which the client of service mode reads answers with. *)
Definition Execution_from_fields fs : res string Execution :=
  execution_id <-? req_string "execution_id" fs;
  job_id <-? req_string "job_id" fs;
  endpoint <-? req_string "endpoint" fs;
  endpoint_type <-? req_string "endpoint_type" fs;
  idempotency_key <-? opt_field "idempotency_key" de_string fs;
  status <-? req_string "status" fs;
  input <-? opt_field "input" Ok fs;
  output <-? opt_field "output" Ok fs;
  attempt_count <-? req_i64 "attempt_count" fs;
  max_attempts <-? req_i64 "max_attempts" fs;
  worker_id <-? opt_field "worker_id" de_string fs;
  run_at <-? req_datetime "run_at" fs;
  started_at <-? opt_field "started_at" de_datetime fs;
  completed_at <-? opt_field "completed_at" de_datetime fs;
  duration_ms <-? opt_field "duration_ms" de_i64 fs;
  created_at <-? req_datetime "created_at" fs;
  Ok {| e_execution_id := execution_id; e_job_id := job_id; e_endpoint := endpoint;
        e_endpoint_type := endpoint_type; e_idempotency_key := idempotency_key;
        e_status := status; e_input := input; e_output := output;
        e_attempt_count := attempt_count; e_max_attempts := max_attempts;
        e_worker_id := worker_id; e_run_at := run_at; e_started_at := started_at;
        e_completed_at := completed_at; e_duration_ms := duration_ms;
        e_created_at := created_at |}.
Definition Execution_from_value (v : json) : res string Execution :=
  match v with
  | JObject fs => Execution_from_fields fs
  | _ => Err "invalid type: expected struct Execution"
  end.
End Deserialize.

(** ** Pagination *)

(** The URL-safe base64 engine, on UTF-8 strings: [decode] fails on bad base64
    and on bytes that are not UTF-8. *)
Class Base64 := {
  b64_encode : string → string;
  b64_decode : string → option string;
}.

Record PaginationParams := { pg_cursor : option string; pg_limit : Z }.

Definition default_limit : Z := 50.

Definition effective_limit (p : PaginationParams) : Z := Z.max 1 (Z.min 200 (pg_limit p)).

Section Cursor.
Context `{!Base64}.

Definition decode_cursor (p : PaginationParams) : option string := pg_cursor p ≫= b64_decode.
Definition encode_cursor (value : string) : string := b64_encode value.

(** [PaginatedResponse]: the cursor is left out when there is none. *)
Definition PaginatedResponse (data : list json) (cursor : option string) : json :=
  Json.obj (("data", JArray data) ::
            match cursor with Some c => [("cursor", JString c)] | None => [] end).
End Cursor.

(** ** Properties *)

(** A constructed cron expression always parses again: the [expect] in
    [to_schedule] never fires. *)
Lemma to_schedule_total `{!CronCrate} v e :
  PgCronExpr_try_from v = Ok e → ∃ s, to_schedule e = Ok s.
Proof.
  unfold PgCronExpr_try_from, to_schedule, to_seven_field.
  destruct (negb _); [done|].
  destruct (parse_schedule _) as [sch| |] eqn:E; [|done..].
  intros [= <-]. exists sch. cbn [cron_str]. by rewrite E.
Qed.

Lemma PgCronExpr_try_from_str `{!CronCrate} v e :
  PgCronExpr_try_from v = Ok e → cron_str e = v.
Proof.
  unfold PgCronExpr_try_from. destruct (negb _); [done|].
  destruct (parse_schedule _); [|done..]. by intros [= <-].
Qed.

Lemma effective_limit_range p : 1 ≤ effective_limit p ≤ 200.
Proof. unfold effective_limit. lia. Qed.
