(* ===== verification/Store.v ===== *)
(** * The database and its sessions ([db.rs], [db/scoped.rs], [tenant.rs])

    The PostgreSQL state the program works on, and the two ways it talks to it:
    a pooled connection, where each statement commits by itself, and a scoped
    transaction.  What surrounds a statement -- a fault, the value of
    [gen_random_uuid()], the clock, the choice among equally old rows, and what
    other clients committed meanwhile -- comes from a list of stimuli, so every
    theorem quantifies over it.

    The commits of others fall before a statement in autocommit mode and before a BEGIN.
    From BEGIN to its end a transaction works on the store that the BEGIN found: it is
    taken as a unit.  [scoped.rs] opens transactions at READ COMMITTED, where a statement
    also sees what others have committed since the BEGIN; runs in which such a commit makes
    a difference are not covered.  Rows that others hold locked are: [ss_locked], which a
    claim skips. *)

From Stdlib Require Import Ascii.
From S2P Require Export Requests.
#[local] Open Scope Z_scope.

(** ** State *)

(** The tables of one workspace, by primary key. *)
Record Tenant := {
  t_payload_specs : gmap string PayloadSpec;
  t_configs : gmap string Config;
  t_secrets : gmap string Secret;
  t_endpoints : gmap string Endpoint;
  t_jobs : gmap string Job;
  t_executions : gmap string Execution;
  t_attempts : gmap string Attempt;
  t_execution_logs : gmap string ExecutionLog;
}.

Definition empty_tenant : Tenant := {|
  t_payload_specs := ∅; t_configs := ∅; t_secrets := ∅; t_endpoints := ∅;
  t_jobs := ∅; t_executions := ∅; t_attempts := ∅; t_execution_logs := ∅ |}.

(** A row of [cron.job]. *)
Record CronEntry := { cron_schedule : string; cron_command : string }.

(** The whole database: the control tables, the tenants by schema and table
    prefix, and pg_cron's job table by job name. *)
Record Store := {
  st_orgs : gmap string Organization;
  st_workspaces : gmap string Workspace;
  st_tenants : gmap (string * string) Tenant;
  st_cron : gmap string CronEntry;
}.

Definition set_tenant (k : string * string) (t : Tenant) (σ : Store) : Store :=
  {| st_orgs := st_orgs σ; st_workspaces := st_workspaces σ;
     st_tenants := <[k := t]> (st_tenants σ); st_cron := st_cron σ |}.
Definition set_cron (c : gmap string CronEntry) (σ : Store) : Store :=
  {| st_orgs := st_orgs σ; st_workspaces := st_workspaces σ;
     st_tenants := st_tenants σ; st_cron := c |}.
Definition set_jobs (m : gmap string Job) (t : Tenant) : Tenant :=
  {| t_payload_specs := t_payload_specs t; t_configs := t_configs t; t_secrets := t_secrets t;
     t_endpoints := t_endpoints t; t_jobs := m; t_executions := t_executions t;
     t_attempts := t_attempts t; t_execution_logs := t_execution_logs t |}.
Definition set_executions (m : gmap string Execution) (t : Tenant) : Tenant :=
  {| t_payload_specs := t_payload_specs t; t_configs := t_configs t; t_secrets := t_secrets t;
     t_endpoints := t_endpoints t; t_jobs := t_jobs t; t_executions := m;
     t_attempts := t_attempts t; t_execution_logs := t_execution_logs t |}.
Definition set_attempts (m : gmap string Attempt) (t : Tenant) : Tenant :=
  {| t_payload_specs := t_payload_specs t; t_configs := t_configs t; t_secrets := t_secrets t;
     t_endpoints := t_endpoints t; t_jobs := t_jobs t; t_executions := t_executions t;
     t_attempts := m; t_execution_logs := t_execution_logs t |}.
Definition set_logs (m : gmap string ExecutionLog) (t : Tenant) : Tenant :=
  {| t_payload_specs := t_payload_specs t; t_configs := t_configs t; t_secrets := t_secrets t;
     t_endpoints := t_endpoints t; t_jobs := t_jobs t; t_executions := t_executions t;
     t_attempts := t_attempts t; t_execution_logs := m |}.
Definition set_endpoints (m : gmap string Endpoint) (t : Tenant) : Tenant :=
  {| t_payload_specs := t_payload_specs t; t_configs := t_configs t; t_secrets := t_secrets t;
     t_endpoints := m; t_jobs := t_jobs t; t_executions := t_executions t;
     t_attempts := t_attempts t; t_execution_logs := t_execution_logs t |}.
Definition set_configs (m : gmap string Config) (t : Tenant) : Tenant :=
  {| t_payload_specs := t_payload_specs t; t_configs := m; t_secrets := t_secrets t;
     t_endpoints := t_endpoints t; t_jobs := t_jobs t; t_executions := t_executions t;
     t_attempts := t_attempts t; t_execution_logs := t_execution_logs t |}.
Definition set_secrets (m : gmap string Secret) (t : Tenant) : Tenant :=
  {| t_payload_specs := t_payload_specs t; t_configs := t_configs t; t_secrets := m;
     t_endpoints := t_endpoints t; t_jobs := t_jobs t; t_executions := t_executions t;
     t_attempts := t_attempts t; t_execution_logs := t_execution_logs t |}.
Definition set_payload_specs (m : gmap string PayloadSpec) (t : Tenant) : Tenant :=
  {| t_payload_specs := m; t_configs := t_configs t; t_secrets := t_secrets t;
     t_endpoints := t_endpoints t; t_jobs := t_jobs t; t_executions := t_executions t;
     t_attempts := t_attempts t; t_execution_logs := t_execution_logs t |}.

(** ** Errors of a statement ([sqlx::Error]) *)

Inductive SqlError :=
  | UniqueViolation (constraint : string)
  | ForeignKeyViolation (constraint : string)
  | CheckViolation (constraint : string)
  | DatabaseError (m : string)       (* any other error the server reports *)
  | RowNotFound                      (* [fetch_one] without a row *)
  | Transport (m : string).          (* pool, I/O, protocol *)

(** [sqlx::Error::Database(ref db_err) if db_err.constraint().is_some()] *)
Definition has_constraint (e : SqlError) : bool :=
  match e with
  | UniqueViolation _ | ForeignKeyViolation _ | CheckViolation _ => true
  | _ => false
  end.

(** [impl From<sqlx::Error> for AppError] *)
Definition AppError_from (e : SqlError) : AppError := InternalError "Database error".

(** ** Sessions *)

(** What happens around one statement. *)
Record Stim := {
  stim_fault : option SqlError;
  stim_uuid : string;             (* gen_random_uuid() *)
  stim_pick : nat;                (* which of the equally ranked rows *)
  stim_now : Z;                   (* the server's clock *)
  stim_others : Store → Store;    (* what others committed before it, outside transactions *)
}.

Definition quiet (now : Z) : Stim :=
  {| stim_fault := None; stim_uuid := ""; stim_pick := 0; stim_now := now; stim_others := id |}.

Record Session := {
  ss_begin : option Store;        (* inside a transaction: the store at BEGIN *)
  ss_failed : bool;               (* the transaction is aborted *)
  ss_now : Z;                     (* now(): frozen from BEGIN on *)
  ss_env : list Stim;
  ss_locked : gset string;        (* executions locked by other transactions *)
  ss_store : Store;               (* the database as this session sees it *)
}.

Notation DB := (SE Session SqlError).

Definition in_transaction (s : Session) : bool := bool_decide (is_Some (ss_begin s)).

(** What the other clients see. *)
Definition committed (s : Session) : Store := default (ss_store s) (ss_begin s).

Definition next_stim (s : Session) : Stim := hd (quiet (ss_now s)) (ss_env s).

(** The session just before the server runs a statement.  In autocommit mode others commit
    first.  In a transaction the store stays the one it has: see the head of this file for
    what this leaves out of READ COMMITTED. *)
Definition advance (s : Session) : Session :=
  let st := next_stim s in {|
    ss_begin := ss_begin s;
    ss_failed := ss_failed s;
    ss_now := if in_transaction s then ss_now s else stim_now st;
    ss_env := tail (ss_env s);
    ss_locked := ss_locked s;
    ss_store := if in_transaction s then ss_store s else stim_others st (ss_store s);
  |}.

(** A failed statement aborts the transaction it is in. *)
Definition fail (s : Session) : Session := {|
  ss_begin := ss_begin s; ss_failed := in_transaction s; ss_now := ss_now s;
  ss_env := ss_env s; ss_locked := ss_locked s; ss_store := ss_store s |}.

Definition set_store (σ : Store) (s : Session) : Session := {|
  ss_begin := ss_begin s; ss_failed := ss_failed s; ss_now := ss_now s;
  ss_env := ss_env s; ss_locked := ss_locked s; ss_store := σ |}.

Definition aborted_error : SqlError :=
  DatabaseError "current transaction is aborted, commands ignored until end of transaction block".

(** One statement of the query [q], given the stimulus, [now()] and the locks. *)
Definition Query (A : Type) : Type :=
  Stim → Z → gset string → Store → res SqlError (A * Store).

Definition stmt {A} (q : Query A) : DB A := λ s,
  if ss_failed s then (Err aborted_error, s)
  else
    let st := next_stim s in
    let s := advance s in
    match stim_fault st with
    | Some e => (Err e, fail s)
    | None =>
        match q st (ss_now s) (ss_locked s) (ss_store s) with
        | Ok (a, σ) => (Ok a, set_store σ s)
        | Err e => (Err e, fail s)
        | Panic w => (Panic w, s)
        end
    end.

(** ** Scoped connections and transactions *)

(** [is_ascii_alphanumeric() || == '_'] *)
Definition ident_char (c : ascii) : bool :=
  Str.is_ascii_alphanumeric c || bool_decide (c = "_"%char).

Definition validate_schema_name (name : string) : bool :=
  negb (bool_decide (name = "")) && Str.all ident_char name.

Definition validate_table_prefix (prefix : string) : bool :=
  bool_decide (prefix = "") || Str.all ident_char prefix.

(** [DbContext]: the schema the connection's search path points at, and the
    table prefix. *)
Record DbContext := { db_schema : string; db_prefix : string }.

(** [tbl(prefix, name)] *)
Definition tbl (prefix name : string) : string := prefix +:+ name.

(** A statement on the unqualified tables [tbl(prefix, ..)]: an error when the
    search path has no such tables. *)
Definition TQuery (A : Type) : Type :=
  Stim → Z → gset string → Tenant → res SqlError (A * Tenant).

Definition tquery {A} (db : DbContext) (q : TQuery A) : Query A := λ st now locked σ,
  match st_tenants σ !! (db_schema db, db_prefix db) with
  | None => Err (DatabaseError "relation does not exist")
  | Some t =>
      match q st now locked t with
      | Ok (a, t') => Ok (a, set_tenant (db_schema db, db_prefix db) t' σ)
      | Err e => Err e
      | Panic w => Panic w
      end
  end.

Definition tstmt {A} (db : DbContext) (q : TQuery A) : DB A := stmt (tquery db q).

(** A statement that only reads. *)
Definition read {A} (db : DbContext) (f : Tenant → A) : DB A :=
  tstmt db (λ _ _ _ t, Ok (f t, t)).

(** [scoped_connection]: the [assert!], acquiring from the pool, [SET search_path]. *)
Definition scoped_connection (schema_name : string) : DB unit :=
  if validate_schema_name schema_name
  then stmt (λ _ _ _ σ, Ok (tt, σ))
  else se_panic 3.

Definition begin_at (s : Session) : Session := {|
  ss_begin := Some (ss_store s); ss_failed := false; ss_now := ss_now s;
  ss_env := ss_env s; ss_locked := ss_locked s; ss_store := ss_store s |}.

(** [scoped_transaction]: the [assert!], then BEGIN and [SET search_path]. *)
Definition scoped_transaction (schema_name : string) : DB unit :=
  if validate_schema_name schema_name
  then λ s,
    let s' := advance s in
    match stim_fault (next_stim s) with
    | Some e => (Err e, s')
    | None => (Ok tt, begin_at s')
    end
  else se_panic 3.

Definition end_with (σ : Store) (s : Session) : Session := {|
  ss_begin := None; ss_failed := false; ss_now := ss_now s;
  ss_env := ss_env s; ss_locked := ss_locked s; ss_store := σ |}.

Definition base (s : Session) : Store := default (ss_store s) (ss_begin s).

(** [tx.commit()]: COMMIT of an aborted transaction is answered by ROLLBACK,
    without an error; when the answer is lost the server may have committed or
    not, as [stim_pick] says. *)
Definition commit : DB unit := λ s,
  let st := next_stim s in
  let s := advance s in
  if ss_failed s then (Ok tt, end_with (base s) s)
  else match stim_fault st with
       | None => (Ok tt, end_with (ss_store s) s)
       | Some e => (Err e, end_with (if bool_decide (stim_pick st = 0%nat)
                                     then base s else ss_store s) s)
       end.

(** Leaving the scope of a [Transaction] that was not committed rolls it back. *)
Definition drop_tx (s : Session) : Session :=
  match ss_begin s with Some σ => end_with σ s | None => s end.

Definition in_tx {E A} (m : SE Session E A) : SE Session E A := λ s,
  let '(r, s') := m s in (r, drop_tx s').

(** ** Ranked choice: [ORDER BY k ASC LIMIT 1]

    The rows of least key; which one of them is the stimulus's choice. *)
Definition least_by {A} (k : A → Z) (l : list A) : list A :=
  filter (λ x, Forall (λ y, k x ≤ k y) l) l.

Definition pick_least {A} (pick : nat) (k : A → Z) (l : list A) : option A :=
  let ties := least_by k l in ties !! (pick `mod` length ties)%nat.

Lemma pick_least_Some {A} pick (k : A → Z) l x :
  pick_least pick k l = Some x → x ∈ l ∧ ∀ y, y ∈ l → k x ≤ k y.
Proof.
  unfold pick_least. intros Hx%list_elem_of_lookup_2.
  apply list_elem_of_filter in Hx as [Hmin Hin]. split; [done|].
  by apply list.Forall_forall.
Qed.

(** A list that is not empty has a least element. *)
Lemma pick_least_None {A} pick (k : A → Z) l : pick_least pick k l = None → l = [].
Proof.
  unfold pick_least. intros Hn.
  destruct l as [|x l]; [done|exfalso].
  assert (∃ m, m ∈ x :: l ∧ ∀ y, y ∈ x :: l → k m ≤ k y) as (m & Hm & Hmin).
  { clear. revert x. induction l as [|y l IH]; intros x.
    - exists x. split; [set_solver|]. intros y ->%list_elem_of_singleton. lia.
    - destruct (IH y) as (m & Hm & Hmin). destruct (decide (k x ≤ k m)) as [Hx|Hx].
      + exists x. split; [set_solver|]. intros z [->|Hz]%elem_of_cons; [lia|].
        specialize (Hmin z Hz). lia.
      + exists m. split; [set_solver|]. intros z [->|Hz]%elem_of_cons; [lia|]. by apply Hmin. }
  assert (m ∈ least_by k (x :: l)) as Hl.
  { apply list_elem_of_filter. split; [by apply list.Forall_forall|done]. }
  apply list_elem_of_lookup_1 in Hl as [i Hi].
  apply lookup_lt_Some in Hi. apply lookup_ge_None in Hn.
  pose proof (Nat.mod_upper_bound pick (length (least_by k (x :: l))) ltac:(lia)). lia.
Qed.

(** ** Invariants of sessions

    [safe T]: if the other clients only make [T]-steps, the committed store only
    makes [T]-steps, and an open transaction is a [T]-step away from it. *)
Section safe.
Context (T : relation Store).

Definition env_ok (s : Session) : Prop :=
  Forall (λ st, ∀ σ, T σ (stim_others st σ)) (ss_env s).
Definition tx_ok (s : Session) : Prop := T (committed s) (ss_store s).

Definition safe (s s' : Session) : Prop :=
  env_ok s → tx_ok s → env_ok s' ∧ tx_ok s' ∧ T (committed s) (committed s').

Context `{!PreOrder T}.

#[global] Instance safe_preorder : PreOrder safe.
Proof.
  split.
  - intros s He Ht. split_and!; [done..|reflexivity].
  - intros s1 s2 s3 H12 H23 He Ht.
    destruct (H12 He Ht) as (He2&Ht2&HT2). destruct (H23 He2 Ht2) as (He3&Ht3&HT3).
    split_and!; [done..|by etrans].
Qed.

Lemma next_stim_others s σ : env_ok s → T σ (stim_others (next_stim s) σ).
Proof.
  unfold env_ok, next_stim. destruct (ss_env s); simpl; [done|].
  intros H%Forall_inv. apply H.
Qed.

Lemma committed_advance s : env_ok s → T (committed s) (committed (advance s)).
Proof.
  intros He. unfold committed, advance, in_transaction. simpl.
  destruct (ss_begin s) as [b|]; simpl; [reflexivity|]. by apply next_stim_others.
Qed.

Lemma env_ok_advance s : env_ok s → env_ok (advance s).
Proof. unfold env_ok, advance. simpl. destruct (ss_env s); simpl; [done|]. by intros ?%Forall_inv_tail. Qed.

Lemma tx_ok_advance s : tx_ok s → tx_ok (advance s).
Proof.
  unfold tx_ok, committed, advance, in_transaction. simpl.
  destruct (ss_begin s); simpl; [done|]. intros _. reflexivity.
Qed.

Lemma safe_advance s : safe s (advance s).
Proof.
  intros He Ht. split_and!; auto using env_ok_advance, tx_ok_advance, committed_advance.
Qed.

Lemma safe_fail s : safe s (fail s).
Proof. intros He Ht. split_and!; [done..|reflexivity]. Qed.

Lemma safe_set_store s σ : T (ss_store s) σ → safe s (set_store σ s).
Proof.
  intros HT He Ht. unfold safe, tx_ok, committed, env_ok in *. simpl in *.
  destruct (ss_begin s) as [b|]; simpl in *; split_and!; try done; by etrans.
Qed.

Definition query_ok {A} (q : Query A) : Prop :=
  ∀ st now locked σ a σ', q st now locked σ = Ok (a, σ') → T σ σ'.

Lemma safe_stmt {A} (q : Query A) : query_ok q → preserves safe (stmt q).
Proof.
  intros Hq s. unfold stmt. destruct (ss_failed s) eqn:Hf; simpl; [reflexivity|].
  destruct (stim_fault (next_stim s)); simpl.
  { etrans; [apply safe_advance|apply safe_fail]. }
  destruct (q _ _ _ _) as [[a σ]|e|w] eqn:Eq; simpl.
  - etrans; [apply safe_advance|]. apply safe_set_store. by eapply Hq.
  - etrans; [apply safe_advance|apply safe_fail].
  - apply safe_advance.
Qed.

Lemma safe_scoped_connection schema : preserves safe (scoped_connection schema).
Proof.
  unfold scoped_connection. destruct (validate_schema_name schema).
  - apply safe_stmt. intros ?????? [= <- <-]. reflexivity.
  - apply preserves_panic, _.
Qed.

Lemma safe_begin_at s : safe s (begin_at s).
Proof.
  intros He Ht. split_and!; [done|unfold tx_ok; simpl; reflexivity|].
  unfold committed at 2. simpl. exact Ht.
Qed.

Lemma safe_scoped_transaction schema : preserves safe (scoped_transaction schema).
Proof.
  unfold scoped_transaction. destruct (validate_schema_name schema).
  - intros s. destruct (stim_fault (next_stim s)); simpl; [apply safe_advance|].
    etrans; [apply safe_advance|apply safe_begin_at].
  - apply preserves_panic, _.
Qed.

Lemma safe_end_committed s : safe s (end_with (committed s) s).
Proof. intros He Ht. split_and!; [done|unfold tx_ok; simpl; reflexivity|]. unfold committed at 2. simpl. reflexivity. Qed.

Lemma safe_end_store s : safe s (end_with (ss_store s) s).
Proof.
  intros He Ht. split_and!; [done|unfold tx_ok; simpl; reflexivity|].
  unfold committed at 2. simpl. exact Ht.
Qed.

Lemma safe_commit : preserves safe commit.
Proof.
  intros s. unfold commit. etrans; [apply safe_advance|].
  destruct (ss_failed _); [apply safe_end_committed|].
  destruct (stim_fault _); simpl; [|apply safe_end_store].
  case_bool_decide; [apply safe_end_committed|apply safe_end_store].
Qed.

Lemma safe_drop_tx s : safe s (drop_tx s).
Proof.
  unfold drop_tx. destruct (ss_begin s) as [b|] eqn:Hb; [|reflexivity].
  replace b with (committed s) by (unfold committed; by rewrite Hb).
  apply safe_end_committed.
Qed.

Lemma safe_in_tx {E A} (m : SE Session E A) : preserves safe m → preserves safe (in_tx m).
Proof.
  intros Hm s. specialize (Hm s). unfold in_tx. destruct (m s) as [r s']. simpl in *.
  etrans; [exact Hm|apply safe_drop_tx].
Qed.
(** ** Triples

    [holds P m Q]: from a session whose store satisfies [P], [m] is safe, and when
    it returns, the result and the store satisfy [Q].  [P] has to be stable where a
    statement follows, since other clients may make [T]-steps before it. *)
Definition stable (P : Store → Prop) : Prop := ∀ σ σ', T σ σ' → P σ → P σ'.

Definition holds {E A} (P : Store → Prop) (m : SE Session E A) (Q : A → Store → Prop) : Prop :=
  ∀ s, env_ok s → tx_ok s → P (ss_store s) →
    (env_ok (m s).2 ∧ tx_ok (m s).2 ∧ T (committed s) (committed (m s).2))
    ∧ ∀ a, (m s).1 = Ok a → Q a (ss_store (m s).2).

Lemma holds_safe {E A} (m : SE Session E A) Q : holds (λ _, True) m Q → preserves safe m.
Proof. intros Hm s He Ht. by destruct (Hm s He Ht I). Qed.

Lemma safe_holds {E A} P (m : SE Session E A) : preserves safe m → holds P m (λ _ _, True).
Proof. intros Hm s He Ht _. split; [by apply Hm|done]. Qed.

Lemma holds_weaken {E A} (P P' : Store → Prop) (m : SE Session E A) Q Q' :
  holds P m Q → (∀ σ, P' σ → P σ) → (∀ a σ, Q a σ → Q' a σ) → holds P' m Q'.
Proof.
  intros Hm HP HQ s He Ht Hs. destruct (Hm s He Ht (HP _ Hs)) as [H1 H2]. split; auto.
Qed.

(** What is known of the values only. *)
Lemma holds_pure {E A} (φ : Prop) P (m : SE Session E A) Q :
  (φ → holds P m Q) → holds (λ σ, φ ∧ P σ) m Q.
Proof. intros Hm s He Ht [Hφ Hs]. by apply Hm. Qed.

Lemma holds_ret {E A} (a : A) P : holds (E:=E) P (se_ret a) (λ b σ, b = a ∧ P σ).
Proof. intros s He Ht Hs. simpl. split; [split_and!; [done..|reflexivity]|]. by intros b [= <-]. Qed.

Lemma holds_lift {E A} (r : res E A) P : holds P (se_lift r) (λ b σ, r = Ok b ∧ P σ).
Proof. intros s He Ht Hs. simpl. split; [split_and!; [done..|reflexivity]|]. by intros b ->. Qed.

Lemma holds_ok_or {E A} (o : option A) (e : E) P :
  holds P (se_ok_or o e) (λ b σ, o = Some b ∧ P σ).
Proof.
  intros s He Ht Hs. destruct o; simpl; (split; [split_and!; [done..|reflexivity]|]);
    by intros b [= ->].
Qed.

Lemma holds_bind {E A B} P (m : SE Session E A) Q (f : A → SE Session E B) Q' :
  holds P m Q → (∀ a, holds (Q a) (f a) Q') → holds P (se_bind m f) Q'.
Proof.
  intros Hm Hf s He Ht Hs. destruct (Hm s He Ht Hs) as [(He2&Ht2&HT) H2]. unfold se_bind.
  destruct (m s) as [[a|e|w] s'] eqn:E1; simpl in *; [|by split..].
  destruct (Hf a s' He2 Ht2 (H2 a eq_refl)) as [(He3&Ht3&HT3) H4].
  split; [split_and!; [done..|by etrans]|done].
Qed.

Lemma holds_map_err {E F A} (f : E → F) P (m : SE Session E A) Q :
  holds P m Q → holds P (se_map_err f m) Q.
Proof.
  intros Hm s He Ht Hs. destruct (Hm s He Ht Hs) as [H1 H2]. unfold se_map_err.
  destruct (m s) as [[a|e|w] s']; (split; [exact H1|]); simpl in *; [|done..].
  intros b [= <-]. by apply H2.
Qed.

Lemma store_advance s : env_ok s → T (ss_store s) (ss_store (advance s)).
Proof.
  intros He. unfold advance. simpl. destruct (in_transaction s); [reflexivity|].
  by apply next_stim_others.
Qed.

Lemma holds_stmt {A} P (q : Query A) (Q : A → Store → Prop) :
  stable P →
  (∀ st now locked σ a σ', P σ → q st now locked σ = Ok (a, σ') → T σ σ' ∧ Q a σ') →
  holds P (stmt q) Q.
Proof.
  intros HP Hq s He Ht Hs. unfold stmt. destruct (ss_failed s) eqn:Hf; simpl.
  { split; [split_and!; [done..|reflexivity]|done]. }
  destruct (safe_advance s He Ht) as (He2 & Ht2 & HT2).
  assert (P (ss_store (advance s))) as HP2 by (eapply HP; [by apply store_advance|done]).
  destruct (stim_fault (next_stim s)); simpl; [by split|].
  destruct (q _ _ _ _) as [[a σ]|e|w] eqn:Eq; simpl; [|by split..].
  destruct (Hq _ _ _ _ _ _ HP2 Eq) as [HTq HQ].
  destruct (safe_set_store _ _ HTq He2 Ht2) as (He3 & Ht3 & HT3).
  split; [split_and!; [done..|by etrans]|]. by intros b [= <-].
Qed.

(** A statement keeps what is stable. *)
Lemma holds_stmt_keep {A} P (q : Query A) :
  stable P → query_ok q → holds P (stmt q) (λ _, P).
Proof. intros HP Hq. apply holds_stmt; [done|]. intros ?????? Hs Eq. apply Hq in Eq. eauto. Qed.

Lemma holds_scoped_transaction P schema :
  stable P → holds P (scoped_transaction schema) (λ _, P).
Proof.
  intros HP s He Ht Hs.
  split; [by apply safe_scoped_transaction|]. unfold scoped_transaction.
  destruct (validate_schema_name schema); [|done].
  destruct (stim_fault (next_stim s)); simpl; [done|].
  intros a _. eapply HP; [by apply store_advance|done].
Qed.

Lemma holds_in_tx {E A} P (m : SE Session E A) Q :
  holds P m Q → holds P (in_tx m) (λ _ _, True).
Proof.
  intros Hm s He Ht Hs. destruct (Hm s He Ht Hs) as [(He2&Ht2&HT2) _]. unfold in_tx.
  destruct (m s) as [r s']. simpl in *. destruct (safe_drop_tx s' He2 Ht2) as (He3&Ht3&HT3).
  split; [split_and!; [done..|by etrans]|done].
Qed.
(** ** Steps that rely on a stable fact *)

Definition keeps (K : Store → Prop) : relation Session := λ s s',
  env_ok s → tx_ok s → K (ss_store s) →
    env_ok s' ∧ tx_ok s' ∧ T (committed s) (committed s') ∧ K (ss_store s').

#[global] Instance keeps_preorder K : PreOrder (keeps K).
Proof.
  split.
  - intros s He Ht Hk. split_and!; [done..|reflexivity|done].
  - intros s1 s2 s3 H12 H23 He Ht Hk. destruct (H12 He Ht Hk) as (He2&Ht2&HT2&Hk2).
    destruct (H23 He2 Ht2 Hk2) as (He3&Ht3&HT3&Hk3). split_and!; [done..|by etrans|done].
Qed.

Lemma keeps_stmt {A} K (q : Query A) :
  stable K → (∀ st now locked σ a σ', K σ → q st now locked σ = Ok (a, σ') → T σ σ') →
  preserves (keeps K) (stmt q).
Proof.
  intros HK Hq s He Ht Hk.
  destruct (holds_stmt K q (λ _, K) HK) with (s:=s) as [(He2&Ht2&HT2) _]; [|done..|].
  { intros st now locked σ a σ' Hσ E. pose proof (Hq _ _ _ _ _ _ Hσ E). eauto. }
  split_and!; [done..|]. unfold stmt. destruct (ss_failed s) eqn:Hf; simpl; [done|].
  assert (K (ss_store (advance s))) as HK2 by (eapply HK; [by apply store_advance|done]).
  destruct (stim_fault (next_stim s)); simpl; [done|].
  destruct (q _ _ _ _) as [[a σ]|e|w] eqn:Eq; simpl; [|done..].
  eapply HK; [by eapply Hq|done].
Qed.
End safe.

Lemma read_query_ok T `{!PreOrder T} {A} db (f : Tenant → A) :
  query_ok T (tquery db (λ _ _ _ t, Ok (f t, t))).
Proof.
  intros st now locked σ a σ'. unfold tquery.
  destruct (st_tenants σ !! _) as [t|] eqn:Et; [|done]. intros [= <- <-].
  unfold set_tenant. rewrite insert_id by done. by destruct σ.
Qed.

#[export] Hint Resolve safe_stmt safe_scoped_connection safe_scoped_transaction
  safe_commit safe_in_tx read_query_ok : preserves.
#[export] Hint Extern 0 (PreOrder _) => apply _ : preserves.
