(* ===== verification/DbExecutions.v ===== *)
(** * Executions, attempts and logs ([db/executions.rs], [db/attempts.rs],
    [db/execution_logs.rs])

    The statements on the tables the worker writes, with the constraints the
    workspace schema ([migrations/workspace_v1.sql]) puts on them. *)

From stdpp Require Export sorting.
From S2P Require Export Store.
#[local] Open Scope Z_scope.

(** [(EXTRACT(EPOCH FROM d) * 1000)::BIGINT] of an interval in microseconds:
    rounding to the nearest, halves away from zero. *)
Definition epoch_ms (d : Z) : Z :=
  Z.sgn d * ((Z.abs d + 500) / 1000).

(** [$2 * interval '1 millisecond'] *)
Definition millis (ms : Z) : Z := ms * 1000.

(** Instants PostgreSQL represents, in microseconds of the Unix epoch; arithmetic
    that leaves them is an error. *)
Definition timestamp_ok (t : Z) : Prop := -210866803200000000 ≤ t < 9224318016000000000.
#[global] Instance timestamp_ok_dec t : Decision (timestamp_ok t).
Proof. unfold timestamp_ok. apply _. Defined.

(** The name of a constraint of the workspace schema: [pk_{p}jobs] and the like. *)
Definition cname (db : DbContext) (kind what : string) : string :=
  kind +:+ db_prefix db +:+ what.

(** ** Claiming *)

Record ClaimedExecution := {
  cl_execution_id : string;
  cl_job_id : string;
  cl_endpoint : string;
  cl_endpoint_type : string;
  cl_input : option json;
  cl_attempt_count : Z;
  cl_max_attempts : Z;
}.

(** [status IN ('QUEUED', 'RETRYING', 'PENDING') AND run_at <= now()] *)
Definition claimable (now : Z) (e : Execution) : Prop :=
  e_status e ∈ ["QUEUED"; "RETRYING"; "PENDING"] ∧ e_run_at e ≤ now.
#[global] Instance claimable_dec now e : Decision (claimable now e).
Proof. unfold claimable. apply _. Defined.

Definition claim_update (now : Z) (worker_id : string) (e : Execution) : Execution := {|
  e_execution_id := e_execution_id e; e_job_id := e_job_id e; e_endpoint := e_endpoint e;
  e_endpoint_type := e_endpoint_type e; e_idempotency_key := e_idempotency_key e;
  e_status := "RUNNING"; e_input := e_input e; e_output := e_output e;
  e_attempt_count := e_attempt_count e + 1; e_max_attempts := e_max_attempts e;
  e_worker_id := Some worker_id; e_run_at := e_run_at e; e_started_at := Some now;
  e_completed_at := e_completed_at e; e_duration_ms := e_duration_ms e;
  e_created_at := e_created_at e |}.

(** The rows the subselect ranges over, by primary key: claimable, and not locked
    by another transaction ([FOR UPDATE SKIP LOCKED]). *)
Definition claim_candidates (now : Z) (locked : gset string) (t : Tenant) :
    list (string * Execution) :=
  filter (λ r, claimable now r.2 ∧ r.1 ∉ locked) (map_to_list (t_executions t)).

(** [RETURNING execution_id, ..] *)
Definition claimed_row (id : string) (e : Execution) : ClaimedExecution := {|
  cl_execution_id := id; cl_job_id := e_job_id e; cl_endpoint := e_endpoint e;
  cl_endpoint_type := e_endpoint_type e; cl_input := e_input e;
  cl_attempt_count := e_attempt_count e; cl_max_attempts := e_max_attempts e |}.

Definition executions_claim (db : DbContext) (worker_id : string) :
    DB (option ClaimedExecution) :=
  tstmt db (λ st now locked t,
    match pick_least (stim_pick st) (λ r, e_run_at r.2) (claim_candidates now locked t) with
    | None => Ok (None, t)
    | Some (id, e) =>
        let e' := claim_update now worker_id e in
        if bool_decide (i64_max < e_attempt_count e') then Err (DatabaseError "bigint out of range")
        else Ok (Some (claimed_row id e'), set_executions (<[id := e']> (t_executions t)) t)
    end).

(** ** Completion *)

(** [UPDATE {t} SET .. WHERE execution_id = $1 AND status IN ss]: no matching row
    is no error. *)
Definition update_execution (id : string) (ss : list string) (f : Execution → Execution)
    (t : Tenant) : Tenant :=
  match t_executions t !! id with
  | Some e => if bool_decide (e_status e ∈ ss)
              then set_executions (<[id := f e]> (t_executions t)) t else t
  | None => t
  end.

Definition duration_since (now : Z) (started : option Z) : option Z :=
  (λ t0, epoch_ms (now - t0)) <$> started.

Definition success_update (now : Z) (output : json) (e : Execution) : Execution := {|
  e_execution_id := e_execution_id e; e_job_id := e_job_id e; e_endpoint := e_endpoint e;
  e_endpoint_type := e_endpoint_type e; e_idempotency_key := e_idempotency_key e;
  e_status := "SUCCESS"; e_input := e_input e; e_output := Some output;
  e_attempt_count := e_attempt_count e; e_max_attempts := e_max_attempts e;
  e_worker_id := e_worker_id e; e_run_at := e_run_at e; e_started_at := e_started_at e;
  e_completed_at := Some now; e_duration_ms := duration_since now (e_started_at e);
  e_created_at := e_created_at e |}.

Definition executions_complete_success (db : DbContext) (execution_id : string) (output : json) :
    DB unit :=
  tstmt db (λ _ now _ t,
    Ok (tt, update_execution execution_id ["RUNNING"] (success_update now output) t)).

Definition retry_update (now backoff_ms : Z) (e : Execution) : Execution :=
  let last := bool_decide (e_max_attempts e ≤ e_attempt_count e) in {|
  e_execution_id := e_execution_id e; e_job_id := e_job_id e; e_endpoint := e_endpoint e;
  e_endpoint_type := e_endpoint_type e; e_idempotency_key := e_idempotency_key e;
  e_status := if last then "FAILED" else "RETRYING"; e_input := e_input e;
  e_output := e_output e; e_attempt_count := e_attempt_count e;
  e_max_attempts := e_max_attempts e; e_worker_id := None;
  e_run_at := if last then e_run_at e else now + millis backoff_ms;
  e_started_at := e_started_at e;
  e_completed_at := if last then Some now else None;
  e_duration_ms := if last then duration_since now (e_started_at e) else None;
  e_created_at := e_created_at e |}.

(** A row is updated, and its next [run_at] is not an instant. *)
Definition retry_out_of_range (now backoff_ms : Z) (id : string) (t : Tenant) : Prop :=
  match t_executions t !! id with
  | Some e => e_status e = "RUNNING" ∧ e_attempt_count e < e_max_attempts e
              ∧ ¬ timestamp_ok (now + millis backoff_ms)
  | None => False
  end.
#[global] Instance retry_out_of_range_dec now b id t : Decision (retry_out_of_range now b id t).
Proof. unfold retry_out_of_range. destruct (_ !! _); apply _. Defined.

Definition executions_complete_retry (db : DbContext) (execution_id : string) (backoff_ms : Z) :
    DB unit :=
  tstmt db (λ _ now _ t,
    let t' := update_execution execution_id ["RUNNING"] (retry_update now backoff_ms) t in
    if bool_decide (retry_out_of_range now backoff_ms execution_id t)
    then Err (DatabaseError "interval out of range")
    else Ok (tt, t')).

Definition failed_update (now : Z) (e : Execution) : Execution := {|
  e_execution_id := e_execution_id e; e_job_id := e_job_id e; e_endpoint := e_endpoint e;
  e_endpoint_type := e_endpoint_type e; e_idempotency_key := e_idempotency_key e;
  e_status := "FAILED"; e_input := e_input e; e_output := e_output e;
  e_attempt_count := e_attempt_count e; e_max_attempts := e_max_attempts e;
  e_worker_id := None; e_run_at := e_run_at e; e_started_at := e_started_at e;
  e_completed_at := Some now; e_duration_ms := duration_since now (e_started_at e);
  e_created_at := e_created_at e |}.

Definition executions_complete_failed (db : DbContext) (execution_id : string) : DB unit :=
  tstmt db (λ _ now _ t,
    Ok (tt, update_execution execution_id ["RUNNING"] (failed_update now) t)).

(** ** Reading *)

Definition executions_get (db : DbContext) (execution_id : string) : DB (option Execution) :=
  read db (λ t, t_executions t !! execution_id).

(** [ORDER BY created_at DESC]; rows created at the same instant come in the
    order of the table. *)
Definition by_created_desc (e1 e2 : Execution) : Prop := e_created_at e2 ≤ e_created_at e1.
#[global] Instance by_created_desc_dec e1 e2 : Decision (by_created_desc e1 e2).
Proof. unfold by_created_desc. apply _. Defined.

Definition executions_of_job (job_id : string) (t : Tenant) : list Execution :=
  merge_sort by_created_desc
    (filter (λ e, e_job_id e = job_id) (map_to_list (t_executions t)).*2).

Definition executions_get_for_job (db : DbContext) (job_id : string) : DB (option Execution) :=
  read db (λ t, head (executions_of_job job_id t)).

(** [LIMIT $n]: a negative limit is an error in PostgreSQL; the callers pass
    positive ones. *)
Definition executions_list_for_job (db : DbContext) (job_id : string) (cursor : option string)
    (limit : Z) : DB (list Execution) :=
  read db (λ t,
    let rows := executions_of_job job_id t in
    take (Z.to_nat limit)
      match cursor with
      | None => rows
      | Some c =>
          (* created_at < (SELECT created_at FROM {t} WHERE execution_id = $2):
             NULL, so no row, when the cursor names no execution *)
          match t_executions t !! c with
          | None => []
          | Some ce => filter (λ e, e_created_at e < e_created_at ce) rows
          end
      end).

(** ** Cancelling *)

Definition cancel_update (now : Z) (e : Execution) : Execution := {|
  e_execution_id := e_execution_id e; e_job_id := e_job_id e; e_endpoint := e_endpoint e;
  e_endpoint_type := e_endpoint_type e; e_idempotency_key := e_idempotency_key e;
  e_status := "CANCELLED"; e_input := e_input e; e_output := e_output e;
  e_attempt_count := e_attempt_count e; e_max_attempts := e_max_attempts e;
  e_worker_id := e_worker_id e; e_run_at := e_run_at e; e_started_at := e_started_at e;
  e_completed_at := Some now; e_duration_ms := e_duration_ms e;
  e_created_at := e_created_at e |}.

Definition cancellable (e : Execution) : Prop := e_status e ∈ ["PENDING"; "QUEUED"].
#[global] Instance cancellable_dec e : Decision (cancellable e).
Proof. unfold cancellable. apply _. Defined.

Definition executions_cancel (db : DbContext) (execution_id : string) : DB (option Execution) :=
  tstmt db (λ _ now _ t,
    match t_executions t !! execution_id with
    | Some e =>
        if bool_decide (cancellable e)
        then Ok (Some (cancel_update now e),
                 set_executions (<[execution_id := cancel_update now e]> (t_executions t)) t)
        else Ok (None, t)
    | None => Ok (None, t)
    end).

Definition executions_cancel_pending_for_job (db : DbContext) (job_id : string) : DB Z :=
  tstmt db (λ _ now _ t,
    let hit e := e_job_id e = job_id ∧ cancellable e in
    Ok (Z.of_nat (size (filter (λ kv, hit kv.2) (t_executions t))),
        set_executions
          ((λ e, if bool_decide (hit e) then cancel_update now e else e) <$> t_executions t) t)).

(** ** Attempts and logs *)

Definition attempts_insert (db : DbContext) (execution_id : string) (attempt_number : Z)
    (status : string) (started_at completed_at duration_ms : Z)
    (output error : option json) : DB Attempt :=
  tstmt db (λ st now _ t,
    let a := {| a_attempt_id := stim_uuid st; a_execution_id := execution_id;
      a_attempt_number := attempt_number; a_status := status; a_started_at := started_at;
      a_completed_at := Some completed_at; a_duration_ms := Some duration_ms;
      a_output := output; a_error := error; a_created_at := now |} in
    if negb (bool_decide (status ∈ ["SUCCESS"; "FAILED"]))
    then Err (CheckViolation (cname db "chk_" "attempt_status"))
    else if bool_decide (is_Some (t_attempts t !! a_attempt_id a))
    then Err (UniqueViolation (cname db "pk_" "attempts"))
    else if bool_decide (Exists (λ a', a_execution_id a' = execution_id
                              ∧ a_attempt_number a' = attempt_number)
                           (map_to_list (t_attempts t)).*2)
    then Err (UniqueViolation (cname db "uq_" "attempts_exec_number"))
    else if bool_decide (t_executions t !! execution_id = None)
    then Err (ForeignKeyViolation (cname db "fk_" "attempts_execution"))
    else Ok (a, set_attempts (<[a_attempt_id a := a]> (t_attempts t)) t)).

Definition by_attempt_number (a1 a2 : Attempt) : Prop := a_attempt_number a1 ≤ a_attempt_number a2.
#[global] Instance by_attempt_number_dec a1 a2 : Decision (by_attempt_number a1 a2).
Proof. unfold by_attempt_number. apply _. Defined.

Definition attempts_list_for_execution (db : DbContext) (execution_id : string) : DB (list Attempt) :=
  read db (λ t, merge_sort by_attempt_number
    (filter (λ a, a_execution_id a = execution_id) (map_to_list (t_attempts t)).*2)).

Definition execution_logs_insert (db : DbContext) (execution_id : string) (attempt_number : Z)
    (level message : string) : DB unit :=
  tstmt db (λ st now _ t,
    let l := {| l_log_id := stim_uuid st; l_execution_id := execution_id;
      l_attempt_number := attempt_number; l_level := level; l_message := message;
      l_logged_at := now |} in
    if negb (bool_decide (level ∈ ["DEBUG"; "INFO"; "WARN"; "ERROR"]))
    then Err (CheckViolation (cname db "chk_" "log_level"))
    else if bool_decide (is_Some (t_execution_logs t !! l_log_id l))
    then Err (UniqueViolation (cname db "pk_" "execution_logs"))
    else if bool_decide (t_executions t !! execution_id = None)
    then Err (ForeignKeyViolation (cname db "fk_" "logs_execution"))
    else Ok (tt, set_logs (<[l_log_id l := l]> (t_execution_logs t)) t)).

Definition by_logged_at (l1 l2 : ExecutionLog) : Prop := l_logged_at l1 ≤ l_logged_at l2.
#[global] Instance by_logged_at_dec l1 l2 : Decision (by_logged_at l1 l2).
Proof. unfold by_logged_at. apply _. Defined.

Definition execution_logs_list_for_execution (db : DbContext) (execution_id : string) :
    DB (list ExecutionLog) :=
  read db (λ t, merge_sort by_logged_at
    (filter (λ l, l_execution_id l = execution_id) (map_to_list (t_execution_logs t)).*2)).

(** ** Lemmas *)

Lemma claim_candidates_spec now locked t id e :
  (id, e) ∈ claim_candidates now locked t ↔
  t_executions t !! id = Some e ∧ claimable now e ∧ id ∉ locked.
Proof.
  unfold claim_candidates. rewrite list_elem_of_filter, elem_of_map_to_list. simpl. tauto.
Qed.

(** The row claimed is a candidate, and no candidate is due earlier. *)
Lemma claim_pick_spec pick now locked t id e :
  pick_least pick (λ r, e_run_at r.2) (claim_candidates now locked t) = Some (id, e) →
  t_executions t !! id = Some e ∧ claimable now e ∧ id ∉ locked
  ∧ ∀ id' e', t_executions t !! id' = Some e' → claimable now e' → id' ∉ locked →
      e_run_at e ≤ e_run_at e'.
Proof.
  intros [Hin Hmin]%pick_least_Some. apply claim_candidates_spec in Hin as (?&?&?).
  split_and!; [done..|]. intros id' e' ???.
  apply (Hmin (id', e')). by apply claim_candidates_spec.
Qed.

Lemma update_execution_execs id ss f t :
  t_executions (update_execution id ss f t) =
  match t_executions t !! id with
  | Some e => if bool_decide (e_status e ∈ ss) then <[id := f e]> (t_executions t)
              else t_executions t
  | None => t_executions t
  end.
Proof. unfold update_execution. repeat case_match; done. Qed.
