(* ===== verification/DbJobs.v ===== *)
(** * Jobs and pg_cron ([db/jobs.rs])

    The statements on the [jobs] table, the SQL text built for listing and for
    pg_cron, and the meaning of that text on the tables. *)

From Stdlib Require Import Ascii.
From S2P Require Export DbExecutions.
#[local] Open Scope Z_scope.

(** ** Row insertion with the constraints of the schema *)

Definition endpoint_types : list string := ["HTTP"; "KAFKA"; "REDIS_STREAM"; "INTERNAL"].

(** A row of [jobs] has the endpoint and the (non-NULL) idempotency key:
    [idx_{p}jobs_idempotency]. *)
Definition job_key_taken (endpoint : string) (key : option string) (t : Tenant) : bool :=
  match key with
  | None => false
  | Some k => bool_decide (Exists (λ j, j_endpoint j = endpoint ∧ j_idempotency_key j = Some k)
                             (map_to_list (t_jobs t)).*2)
  end.

(** [INSERT INTO {p}jobs]: CHECK constraints, then the unique indexes, then the
    foreign key. *)
Definition insert_job (db : DbContext) (j : Job) (t : Tenant) : res SqlError Tenant :=
  if negb (bool_decide (j_trigger_type j ∈ ["IMMEDIATE"; "DELAYED"; "CRON"]))
  then Err (CheckViolation (cname db "chk_" "trigger_type"))
  else if negb (bool_decide (j_status j ∈ ["ACTIVE"; "RETIRED"]))
  then Err (CheckViolation (cname db "chk_" "job_status"))
  else if negb (bool_decide (j_endpoint_type j ∈ endpoint_types))
  then Err (CheckViolation (cname db "chk_" "job_endpoint_type"))
  else if bool_decide (is_Some (t_jobs t !! j_job_id j))
  then Err (UniqueViolation (cname db "pk_" "jobs"))
  else if job_key_taken (j_endpoint j) (j_idempotency_key j) t
  then Err (UniqueViolation (cname db "idx_" "jobs_idempotency"))
  else if bool_decide (t_endpoints t !! j_endpoint j = None)
  then Err (ForeignKeyViolation (cname db "fk_" "jobs_endpoint"))
  else Ok (set_jobs (<[j_job_id j := j]> (t_jobs t)) t).

Definition execution_statuses : list string :=
  ["PENDING"; "QUEUED"; "RUNNING"; "RETRYING"; "SUCCESS"; "FAILED"; "CANCELLED"].

(** [idx_{p}executions_cron_dedup]: unique on [(job_id, idempotency_key)]. *)
Definition execution_key_taken (job_id : string) (key : option string) (t : Tenant) : bool :=
  match key with
  | None => false
  | Some k => bool_decide (Exists (λ e, e_job_id e = job_id ∧ e_idempotency_key e = Some k)
                             (map_to_list (t_executions t)).*2)
  end.

Definition insert_execution (db : DbContext) (e : Execution) (t : Tenant) : res SqlError Tenant :=
  if negb (bool_decide (e_status e ∈ execution_statuses))
  then Err (CheckViolation (cname db "chk_" "exec_status"))
  else if bool_decide (is_Some (t_executions t !! e_execution_id e))
  then Err (UniqueViolation (cname db "pk_" "executions"))
  else if execution_key_taken (e_job_id e) (e_idempotency_key e) t
  then Err (UniqueViolation (cname db "idx_" "executions_cron_dedup"))
  else if bool_decide (t_jobs t !! e_job_id e = None)
  then Err (ForeignKeyViolation (cname db "fk_" "executions_job"))
  else Ok (set_executions (<[e_execution_id e := e]> (t_executions t)) t).

(** A new row: the columns of the INSERT, and the table's defaults. *)
Definition new_job (id endpoint endpoint_type trigger_type : string)
    (idempotency_key : option string) (input : option json) (now : Z) : Job := {|
  j_job_id := id; j_endpoint := endpoint; j_endpoint_type := endpoint_type;
  j_trigger_type := trigger_type; j_status := "ACTIVE"; j_version := 1;
  j_previous_version_id := None; j_replaced_by_id := None;
  j_idempotency_key := idempotency_key; j_input := input; j_run_at := None;
  j_cron_expression := None; j_cron_timezone := None; j_cron_starts_at := None;
  j_cron_ends_at := None; j_cron_next_run_at := None; j_cron_last_tick_at := None;
  j_created_at := now; j_retired_at := None |}.

Definition new_execution (id job_id endpoint endpoint_type : string)
    (idempotency_key : option string) (status : string) (run_at : Z) (input : option json)
    (max_attempts now : Z) : Execution := {|
  e_execution_id := id; e_job_id := job_id; e_endpoint := endpoint;
  e_endpoint_type := endpoint_type; e_idempotency_key := idempotency_key;
  e_status := status; e_input := input; e_output := None; e_attempt_count := 0;
  e_max_attempts := max_attempts; e_worker_id := None; e_run_at := run_at;
  e_started_at := None; e_completed_at := None; e_duration_ms := None; e_created_at := now |}.

Definition job_stmt (db : DbContext) (mk : string → Z → Job) : DB Job :=
  tstmt db (λ st now _ t,
    let j := mk (stim_uuid st) now in
    t' <-? insert_job db j t; Ok (j, t')).

Definition execution_stmt (db : DbContext) (mk : string → Z → Execution) : DB Execution :=
  tstmt db (λ st now _ t,
    let e := mk (stim_uuid st) now in
    t' <-? insert_execution db e t; Ok (e, t')).

(** ** Creating *)

Record CreateJobResult := {
  cr_job : Job;
  cr_execution_id : string;
  cr_execution_status : string;
  cr_execution_created_at : Z;
}.

Definition jobs_create_immediate (db : DbContext) (endpoint endpoint_type idempotency_key : string)
    (input : option json) (max_attempts : Z) : DB CreateJobResult :=
  job <-- job_stmt db (λ id now,
    new_job id endpoint endpoint_type "IMMEDIATE" (Some idempotency_key) input now);
  ex <-- execution_stmt db (λ id now,
    new_execution id (j_job_id job) endpoint endpoint_type (Some idempotency_key)
      "QUEUED" now input max_attempts now);
  se_ret {| cr_job := job; cr_execution_id := e_execution_id ex;
            cr_execution_status := e_status ex; cr_execution_created_at := e_created_at ex |}.

Definition with_run_at (run_at : Z) (j : Job) : Job := {|
  j_job_id := j_job_id j; j_endpoint := j_endpoint j; j_endpoint_type := j_endpoint_type j;
  j_trigger_type := j_trigger_type j; j_status := j_status j; j_version := j_version j;
  j_previous_version_id := j_previous_version_id j; j_replaced_by_id := j_replaced_by_id j;
  j_idempotency_key := j_idempotency_key j; j_input := j_input j; j_run_at := Some run_at;
  j_cron_expression := j_cron_expression j; j_cron_timezone := j_cron_timezone j;
  j_cron_starts_at := j_cron_starts_at j; j_cron_ends_at := j_cron_ends_at j;
  j_cron_next_run_at := j_cron_next_run_at j; j_cron_last_tick_at := j_cron_last_tick_at j;
  j_created_at := j_created_at j; j_retired_at := j_retired_at j |}.

Definition jobs_create_delayed (db : DbContext) (endpoint endpoint_type idempotency_key : string)
    (input : option json) (run_at max_attempts : Z) : DB CreateJobResult :=
  job <-- job_stmt db (λ id now, with_run_at run_at
    (new_job id endpoint endpoint_type "DELAYED" (Some idempotency_key) input now));
  ex <-- execution_stmt db (λ id now,
    new_execution id (j_job_id job) endpoint endpoint_type (Some idempotency_key)
      "PENDING" run_at input max_attempts now);
  se_ret {| cr_job := job; cr_execution_id := e_execution_id ex;
            cr_execution_status := e_status ex; cr_execution_created_at := e_created_at ex |}.

(** The CRON columns, and the version with its predecessor. *)
Definition cron_row (id endpoint endpoint_type : string) (idempotency_key : option string)
    (input : option json) (cron_expression cron_timezone : option string)
    (starts_at ends_at next_run_at : option Z) (version : Z) (previous : option string)
    (now : Z) : Job := {|
  j_job_id := id; j_endpoint := endpoint; j_endpoint_type := endpoint_type;
  j_trigger_type := "CRON"; j_status := "ACTIVE"; j_version := version;
  j_previous_version_id := previous; j_replaced_by_id := None;
  j_idempotency_key := idempotency_key; j_input := input; j_run_at := None;
  j_cron_expression := cron_expression; j_cron_timezone := cron_timezone;
  j_cron_starts_at := starts_at; j_cron_ends_at := ends_at;
  j_cron_next_run_at := next_run_at; j_cron_last_tick_at := None;
  j_created_at := now; j_retired_at := None |}.

Definition jobs_create_cron (db : DbContext) (endpoint endpoint_type : string)
    (idempotency_key : option string) (input : option json)
    (cron_expression cron_timezone : string) (starts_at ends_at : option Z)
    (next_run_at : Z) : DB Job :=
  job_stmt db (λ id now,
    cron_row id endpoint endpoint_type idempotency_key input (Some cron_expression)
      (Some cron_timezone) starts_at ends_at (Some next_run_at) 1 None now).

(** ** Reading *)

Definition jobs_get (db : DbContext) (job_id : string) : DB (option Job) :=
  read db (λ t, t_jobs t !! job_id).

Definition jobs_get_by_idempotency (db : DbContext) (endpoint key : string) : DB (option Job) :=
  read db (λ t, head (filter (λ j, j_endpoint j = endpoint ∧ j_idempotency_key j = Some key)
                        (map_to_list (t_jobs t)).*2)).

(** ** Listing: the text of the query *)

Record JobFilters := {
  jf_job_id : option string;
  jf_status : list JobStatus;
  jf_trigger : list TriggerType;
  jf_endpoint : option string;
  jf_endpoint_type : list EndpointType;
  jf_created_after : option Z;
  jf_created_before : option Z;
}.

Inductive BindValue :=
  | BScalar (s : string)
  | BArray (l : list string).

Definition like_meta (c : ascii) : bool :=
  bool_decide (c ∈ ["\"%char; "%"%char; "_"%char]).

Fixpoint escape_like (s : string) : string :=
  match s with
  | EmptyString => ""
  | String c s => if like_meta c then String "\" (String c (escape_like s))
                  else String c (escape_like s)
  end.

(** [conditions], [binds] and [n]. *)
Definition QueryAcc : Type := list string * list BindValue * Z.

(** [conditions.push(format!(.., ${n})); binds.push(..); n += 1] *)
Definition push_cond (cond : string → string) (b : BindValue) (acc : QueryAcc) : QueryAcc :=
  let '(conditions, binds, n) := acc in
  (conditions ++ [cond ("$" +:+ Str.dec n)], binds ++ [b], n + 1).

Definition push_opt {A} (o : option A) (cond : string → string) (b : A → BindValue)
    (acc : QueryAcc) : QueryAcc :=
  match o with Some a => push_cond cond (b a) acc | None => acc end.

Definition push_any {A} (l : list A) (col : string) (as_str : A → string) (acc : QueryAcc) :
    QueryAcc :=
  match l with
  | [] => acc
  | _ => push_cond (λ n, col +:+ " = ANY(" +:+ n +:+ ")") (BArray (as_str <$> l)) acc
  end.

Section list_query.
Context `{!Chrono}.

Definition build_list_conditions (t : string) (cursor : option string) (f : JobFilters) : QueryAcc :=
  let acc := ([], [], 1) in
  let acc := push_opt cursor (λ n,
    "(created_at, job_id) < ((SELECT created_at FROM " +:+ t +:+ " WHERE job_id = " +:+ n
      +:+ "), " +:+ n +:+ ")") BScalar acc in
  let acc := push_any (jf_status f) "status" JobStatus_as_str acc in
  let acc := push_any (jf_trigger f) "trigger_type" TriggerType_as_str acc in
  let acc := push_any (jf_endpoint_type f) "endpoint_type" EndpointType_as_str acc in
  let acc := push_opt (jf_endpoint f)
    (λ n, "endpoint ILIKE '%' || " +:+ n +:+ " || '%' ESCAPE '\'")
    (λ e, BScalar (escape_like e)) acc in
  let acc := push_opt (jf_created_after f) (λ n, "created_at >= " +:+ n +:+ "::timestamptz")
    (λ z, BScalar (to_rfc3339 z)) acc in
  let acc := push_opt (jf_created_before f) (λ n, "created_at <= " +:+ n +:+ "::timestamptz")
    (λ z, BScalar (to_rfc3339 z)) acc in
  push_opt (jf_job_id f) (λ n, "job_id = " +:+ n) BScalar acc.

Definition build_list_query (t : string) (cursor : option string) (f : JobFilters) :
    string * list BindValue :=
  let '(conditions, binds, n) := build_list_conditions t cursor f in
  let where_clause := match conditions with
    | [] => ""
    | _ => " WHERE " +:+ Str.join " AND " conditions
    end in
  ("SELECT * FROM " +:+ t +:+ where_clause
     +:+ " ORDER BY created_at DESC, job_id DESC LIMIT $" +:+ Str.dec n, binds).
End list_query.

(** ** Listing: the meaning of the query *)

(** [s LIKE p ESCAPE '\']; [like_many k s]: [k] holds of some suffix of [s]. *)
Fixpoint like_many (k : list ascii → bool) (s : list ascii) : bool :=
  k s || match s with [] => false | _ :: s => like_many k s end.

Fixpoint like (p s : list ascii) : bool :=
  match p with
  | [] => match s with [] => true | _ => false end
  | "\"%char :: c :: p =>
      match s with x :: s => bool_decide (x = c) && like p s | [] => false end
  | "%"%char :: p => like_many (like p) s
  | "_"%char :: p => match s with _ :: s => like p s | [] => false end
  | c :: p => match s with x :: s => bool_decide (x = c) && like p s | [] => false end
  end.

(** [ILIKE] folds case on both sides; beyond ASCII the folding is the
    database's locale and is not modelled. *)
Definition ilike (s p : string) : bool :=
  like (Str.chars (Str.to_ascii_lowercase p)) (Str.chars (Str.to_ascii_lowercase s)).

Definition job_matches (f : JobFilters) (j : Job) : Prop :=
  (jf_status f = [] ∨ j_status j ∈ JobStatus_as_str <$> jf_status f)
  ∧ (jf_trigger f = [] ∨ j_trigger_type j ∈ TriggerType_as_str <$> jf_trigger f)
  ∧ (jf_endpoint_type f = [] ∨ j_endpoint_type j ∈ EndpointType_as_str <$> jf_endpoint_type f)
  ∧ match jf_endpoint f with
    | Some e => ilike (j_endpoint j) ("%" +:+ escape_like e +:+ "%") = true
    | None => True
    end
  ∧ match jf_created_after f with Some z => z ≤ j_created_at j | None => True end
  ∧ match jf_created_before f with Some z => j_created_at j ≤ z | None => True end
  ∧ match jf_job_id f with Some i => j_job_id j = i | None => True end.
#[global] Instance job_matches_dec f j : Decision (job_matches f j).
Proof.
  unfold job_matches.
  repeat (apply and_dec || apply or_dec || case_match); apply _.
Defined.

(** [(created_at, job_id)], compared lexicographically. *)
Definition job_key_lt (k1 k2 : Z * string) : Prop :=
  k1.1 < k2.1 ∨ (k1.1 = k2.1 ∧ String.ltb k1.2 k2.2 = true).
#[global] Instance job_key_lt_dec k1 k2 : Decision (job_key_lt k1 k2).
Proof. unfold job_key_lt. apply _. Defined.

Definition job_key (j : Job) : Z * string := (j_created_at j, j_job_id j).

Definition by_key_desc (j1 j2 : Job) : Prop := ¬ job_key_lt (job_key j1) (job_key j2).
#[global] Instance by_key_desc_dec j1 j2 : Decision (by_key_desc j1 j2).
Proof. unfold by_key_desc. apply _. Defined.

(** [(created_at, job_id) < ((SELECT created_at FROM {t} WHERE job_id = $n), $n)]:
    NULL, so false, when the cursor names no job. *)
Definition after_cursor (cursor : option string) (t : Tenant) (j : Job) : bool :=
  match cursor with
  | None => true
  | Some c =>
      match t_jobs t !! c with
      | Some cj => bool_decide (job_key_lt (job_key j) (j_created_at cj, c))
      | None => false
      end
  end.

Definition jobs_page (cursor : option string) (limit : Z) (f : JobFilters) (t : Tenant) : list Job :=
  take (Z.to_nat limit)
    (merge_sort by_key_desc
      (filter (λ j, after_cursor cursor t j = true ∧ job_matches f j) (map_to_list (t_jobs t)).*2)).

Definition jobs_list (db : DbContext) (cursor : option string) (limit : Z) (f : JobFilters) :
    DB (list Job) :=
  read db (jobs_page cursor limit f).

(** ** Retiring *)

Definition retired (now : Z) (replaced_by : option string) (j : Job) : Job := {|
  j_job_id := j_job_id j; j_endpoint := j_endpoint j; j_endpoint_type := j_endpoint_type j;
  j_trigger_type := j_trigger_type j; j_status := "RETIRED"; j_version := j_version j;
  j_previous_version_id := j_previous_version_id j; j_replaced_by_id := replaced_by;
  j_idempotency_key := j_idempotency_key j; j_input := j_input j; j_run_at := j_run_at j;
  j_cron_expression := j_cron_expression j; j_cron_timezone := j_cron_timezone j;
  j_cron_starts_at := j_cron_starts_at j; j_cron_ends_at := j_cron_ends_at j;
  j_cron_next_run_at := j_cron_next_run_at j; j_cron_last_tick_at := j_cron_last_tick_at j;
  j_created_at := j_created_at j; j_retired_at := Some now |}.

Definition jobs_cancel (db : DbContext) (job_id : string) : DB (option Job) :=
  tstmt db (λ _ now _ t,
    match t_jobs t !! job_id with
    | Some j =>
        if bool_decide (j_status j = "ACTIVE")
        then let j' := retired now (j_replaced_by_id j) j in
             Ok (Some j', set_jobs (<[job_id := j']> (t_jobs t)) t)
        else Ok (None, t)
    | None => Ok (None, t)
    end).

(** The replacement row is inserted whether or not the UPDATE found a row. *)
Definition jobs_retire_and_replace (db : DbContext) (old_job_id : string) (new : Job) : DB Job :=
  tstmt db (λ _ now _ t,
    match t_jobs t !! old_job_id with
    | Some j =>
        if bool_decide (j_status j = "ACTIVE")
        then Ok (tt, set_jobs (<[old_job_id := retired now (Some (j_job_id new)) j]> (t_jobs t)) t)
        else Ok (tt, t)
    | None => Ok (tt, t)
    end) ;;;
  job_stmt db (λ id now,
    cron_row id (j_endpoint new) (j_endpoint_type new) None (j_input new)
      (j_cron_expression new) (j_cron_timezone new) (j_cron_starts_at new) (j_cron_ends_at new)
      (j_cron_next_run_at new) (j_version new) (Some old_job_id) now).

(** The recursive query [chain]: the job, then the predecessors its
    [previous_version_id] links lead to. The recursion of the query has no bound
    of its own; the chain has at most as many rows as the table when it is finite. *)
Fixpoint version_chain (fuel : nat) (t : Tenant) (job_id : string) : list Job :=
  match fuel with
  | O => []
  | S fuel =>
      match t_jobs t !! job_id with
      | None => []
      | Some j => j :: match j_previous_version_id j with
                       | Some p => version_chain fuel t p
                       | None => []
                       end
      end
  end.

Definition by_version (j1 j2 : Job) : Prop := j_version j1 ≤ j_version j2.
#[global] Instance by_version_dec j1 j2 : Decision (by_version j1 j2).
Proof. unfold by_version. apply _. Defined.

Definition jobs_get_versions (db : DbContext) (job_id : string) : DB (list Job) :=
  read db (λ t, merge_sort by_version (version_chain (size (t_jobs t)) t job_id)).

Definition cron_expired (now : Z) (j : Job) : Prop :=
  j_trigger_type j = "CRON" ∧ j_status j = "ACTIVE"
  ∧ match j_cron_ends_at j with Some e => e ≤ now | None => False end.
#[global] Instance cron_expired_dec now j : Decision (cron_expired now j).
Proof. unfold cron_expired. repeat (apply and_dec || case_match); apply _. Defined.

Definition jobs_retire_expired_cron_jobs (db : DbContext) : DB (list string) :=
  tstmt db (λ _ now _ t,
    Ok ((filter (λ kv, cron_expired now kv.2) (map_to_list (t_jobs t))).*1,
        set_jobs ((λ j, if bool_decide (cron_expired now j)
                        then retired now (j_replaced_by_id j) j else j) <$> t_jobs t) t)).

(** ** pg_cron *)

Definition quoted (s : string) : string := String "034" (s +:+ String "034" "").

Definition build_cron_command (prefix schema_name job_id : string) : string :=
  let te := tbl prefix "executions" in
  let tj := tbl prefix "jobs" in
  let tend := tbl prefix "endpoints" in
  "INSERT INTO " +:+ quoted schema_name +:+ "." +:+ quoted te +:+
  " (job_id, endpoint, endpoint_type, idempotency_key, status, input, run_at, max_attempts) " +:+
  "SELECT j.job_id, j.endpoint, j.endpoint_type, " +:+
  "'cron_' || j.job_id || '_' || (EXTRACT(EPOCH FROM now()) * 1000)::BIGINT, " +:+
  "'QUEUED', j.input, now(), " +:+
  "COALESCE((e.retry_policy->>'max_attempts')::BIGINT, 1) " +:+
  "FROM " +:+ quoted schema_name +:+ "." +:+ quoted tj +:+ " j " +:+
  "JOIN " +:+ quoted schema_name +:+ "." +:+ quoted tend +:+ " e ON e.name = j.endpoint " +:+
  "WHERE j.job_id = '" +:+ job_id +:+ "' AND j.status = 'ACTIVE' " +:+
  "AND (j.cron_starts_at IS NULL OR j.cron_starts_at <= now()) " +:+
  "AND (j.cron_ends_at IS NULL OR j.cron_ends_at > now()) " +:+
  "ON CONFLICT (job_id, idempotency_key) WHERE idempotency_key IS NOT NULL DO NOTHING".

Definition cron_job_name (schema_name job_id : string) : string :=
  "invokr_" +:+ schema_name +:+ "_" +:+ job_id.

(** [SELECT cron.schedule(name, schedule, command)]: upserts by name. *)
Definition cron_schedule_stmt (name schedule command : string) : DB unit :=
  stmt (λ _ _ _ σ,
    Ok (tt, set_cron (<[name := {| cron_schedule := schedule; cron_command := command |}]>
                       (st_cron σ)) σ)).

Definition register_pg_cron_conn (prefix schema_name job_id cron_expression : string) : DB unit :=
  cron_schedule_stmt (cron_job_name schema_name job_id) cron_expression
    (build_cron_command prefix schema_name job_id).

Definition register_pg_cron : string → string → string → string → DB unit :=
  register_pg_cron_conn.

(** [SELECT cron.unschedule(name)] raises when there is no such entry. *)
Definition unregister_pg_cron (schema_name job_id : string) : DB unit :=
  stmt (λ _ _ _ σ,
    let name := cron_job_name schema_name job_id in
    if bool_decide (is_Some (st_cron σ !! name))
    then Ok (tt, set_cron (delete name (st_cron σ)) σ)
    else Err (DatabaseError ("could not find valid entry for job '" +:+ name +:+ "'"))).

Definition unregister_pg_cron_conn (schema_name job_id : string) : DB unit :=
  stmt (λ _ _ _ σ, Ok (tt, set_cron (delete (cron_job_name schema_name job_id) (st_cron σ)) σ)).

(** ** A tick: what running the text of [build_cron_command] does *)

Definition cron_active (now : Z) (j : Job) : Prop :=
  j_status j = "ACTIVE"
  ∧ match j_cron_starts_at j with Some s => s ≤ now | None => True end
  ∧ match j_cron_ends_at j with Some e => now < e | None => True end.
#[global] Instance cron_active_dec now j : Decision (cron_active now j).
Proof. unfold cron_active. repeat (apply and_dec || case_match); apply _. Defined.

Definition cron_key (job_id : string) (now : Z) : string :=
  "cron_" +:+ job_id +:+ "_" +:+ Str.dec (epoch_ms now).

(** *** [text::BIGINT], the input function of PostgreSQL 16

    Spaces around, a sign, then decimal digits or [0x], [0o], [0b] and digits of that
    base, with single underscores between digits. *)

Fixpoint skip_spaces (s : list ascii) : list ascii :=
  match s with c :: r => if Str.ascii_ws c then skip_spaces r else s | [] => [] end.

Definition digit_of (base : Z) (c : ascii) : option Z :=
  let n := Z.of_nat (nat_of_ascii c) in
  d ← (if Str.is_ascii_digit c then Some (n - 48)
       else if Str.between 97 102 c then Some (n - 87)
       else if Str.between 65 70 c then Some (n - 55) else None);
  if bool_decide (d < base) then Some d else None.

Fixpoint digits_of (base acc : Z) (s : list ascii) : option Z :=
  match s with
  | [] => Some acc
  | "_"%char :: c :: r | c :: r => d ← digit_of base c; digits_of base (acc * base + d) r
  end.

Definition unsigned_text (s : list ascii) : option Z :=
  match s with
  | [] | "_"%char :: _ => None
  | "0"%char :: ("x" | "X")%char :: ((_ :: _) as r) => digits_of 16 0 r
  | "0"%char :: ("o" | "O")%char :: ((_ :: _) as r) => digits_of 8 0 r
  | "0"%char :: ("b" | "B")%char :: ((_ :: _) as r) => digits_of 2 0 r
  | r => digits_of 10 0 r
  end.

Definition signed_text (s : list ascii) : option Z :=
  match s with
  | "-"%char :: r => Z.opp <$> unsigned_text r
  | "+"%char :: r => unsigned_text r
  | r => unsigned_text r
  end.

Definition as_bigint (o : option Z) : res SqlError Z :=
  match o with
  | None => Err (DatabaseError "invalid input syntax for type bigint")
  | Some z => if bool_decide (in_i64 z) then Ok z
              else Err (DatabaseError "bigint out of range")
  end.

Definition text_as_bigint (s : string) : res SqlError Z :=
  as_bigint (signed_text (rev (skip_spaces (rev (skip_spaces (Str.chars s)))))).

(** A JSON number with a point or an exponent is kept as a [numeric], and printed
    without an exponent: what is left after the point, zeros too, is part of the text,
    and an integer is left only when the exponent takes up every such digit. *)
Definition float_text_integer (s : string) : option Z :=
  let parts := Str.split "e" (Str.to_ascii_lowercase s) in
  let mantissa := Str.split "." (default "" (head parts)) in
  let fraction := default "" (mantissa !! 1%nat) in
  e ← match parts with [_; e] => signed_text (Str.chars e) | _ => Some 0 end;
  let k := e - Z.of_nat (String.length fraction) in
  if bool_decide (k < 0) then None
  else z ← signed_text (Str.chars (default "" (head mantissa) +:+ fraction)); Some (z * 10 ^ k).

(** [COALESCE((e.retry_policy->>'max_attempts')::BIGINT, 1)]: [->>] gives the text
    of the field, NULL for a missing one or JSON null; the cast reads that text. *)
Definition cron_max_attempts (e : Endpoint) : res SqlError Z :=
  match ep_retry_policy e ≫= (λ v, Json.get v "max_attempts") with
  | None | Some JNull => Ok 1
  | Some (JInt z) => as_bigint (Some z)
  | Some (JNumber (NFloat s)) => as_bigint (float_text_integer s)
  | Some (JString s) => text_as_bigint s
  | Some (JBool _ | JArray _ | JObject _) => as_bigint None
  end.

Example bigint_of_text :
  (text_as_bigint <$> ["5"; " -7 "; "+1_000"; "0x1F"]) = [Ok 5; Ok (-7); Ok 1000; Ok 31]
  ∧ (as_bigint ∘ float_text_integer <$> ["1e16"; "1.5e1"]) = [Ok (10 ^ 16); Ok 15]
  ∧ Forall (λ r, r = as_bigint None)
      ((text_as_bigint <$> [""; "5.0"; "1__0"; "_1"; "1_"; "0x"; "five"; "- 5"])
       ++ (as_bigint ∘ float_text_integer <$> ["5.0"; "1e-7"]))
  ∧ text_as_bigint "9223372036854775808" = Err (DatabaseError "bigint out of range").
Proof. vm_compute. repeat constructor. Qed.

Definition cron_tick_tenant (job_id uuid : string) (now : Z) (db : DbContext) (t : Tenant) :
    res SqlError Tenant :=
  match t_jobs t !! job_id with
  | Some j =>
      match t_endpoints t !! j_endpoint j with
      | Some e =>
          if bool_decide (cron_active now j) then
            n <-? cron_max_attempts e;
            let x := new_execution uuid (j_job_id j) (j_endpoint j) (j_endpoint_type j)
                       (Some (cron_key (j_job_id j) now)) "QUEUED" now (j_input j) n now in
            if execution_key_taken (e_job_id x) (e_idempotency_key x) t
            then Ok t                                   (* ON CONFLICT .. DO NOTHING *)
            else insert_execution db x t
          else Ok t
      | None => Ok t
      end
  | None => Ok t
  end.

(** The tick of the entry [name] in the store [σ]; a failing command changes
    nothing. *)
Definition cron_tick (prefix schema_name job_id uuid : string) (now : Z) (σ : Store) : Store :=
  let db := {| db_schema := schema_name; db_prefix := prefix |} in
  match st_tenants σ !! (schema_name, prefix) with
  | Some t =>
      match cron_tick_tenant job_id uuid now db t with
      | Ok t' => set_tenant (schema_name, prefix) t' σ
      | _ => σ
      end
  | None => σ
  end.

(** pg_cron runs the commands of its table. *)
Inductive cron_fires : relation Store :=
  | Cron_fires σ name entry prefix schema_name job_id uuid now :
      st_cron σ !! name = Some entry →
      cron_command entry = build_cron_command prefix schema_name job_id →
      cron_fires σ (cron_tick prefix schema_name job_id uuid now σ).
