(* ===== verification/DbCatalog.v ===== *)
(** * Named definitions of a workspace ([db/payload_specs.rs], [db/configs.rs],
    [db/secrets.rs], [db/endpoints.rs])

    Four tables keyed by name, with the references between them. *)

From S2P Require Export DbJobs.
#[local] Open Scope Z_scope.

(** ** Tables keyed by name *)

Definition name_lt (s1 s2 : string) : Prop := String.ltb s1 s2 = true.
#[global] Instance name_lt_dec s1 s2 : Decision (name_lt s1 s2).
Proof. unfold name_lt. apply _. Defined.

Definition by_name {A} (r1 r2 : string * A) : Prop := ¬ name_lt r2.1 r1.1.
#[global] Instance by_name_dec {A} (r1 r2 : string * A) : Decision (by_name r1 r2).
Proof. unfold by_name. apply _. Defined.

(** [[WHERE name > $1] ORDER BY name ASC LIMIT $n]; names compare bytewise (the
    collation of the database is not modelled). *)
Definition page_by_name {A} (cursor : option string) (limit : Z) (m : gmap string A) : list A :=
  (take (Z.to_nat limit)
    (merge_sort by_name
      match cursor with
      | Some c => filter (λ r, name_lt c r.1) (map_to_list m)
      | None => map_to_list m
      end)).*2.

(** [DELETE FROM {t} WHERE name = $1] guarded by the references to the row;
    [rows_affected() > 0]. *)
Definition delete_named {A} (name : string) (referenced : option SqlError) (m : gmap string A) :
    res SqlError (bool * gmap string A) :=
  if bool_decide (is_Some (m !! name)) then
    match referenced with
    | Some e => Err e
    | None => Ok (true, delete name m)
    end
  else Ok (false, m).

Definition endpoints_where (P : Endpoint → bool) (t : Tenant) : Z :=
  Z.of_nat (size (filter (λ kv, P kv.2 = true) (t_endpoints t))).

(** ** Payload specs *)

Definition payload_specs_create (db : DbContext) (name : string) (schema : json) : DB PayloadSpec :=
  tstmt db (λ _ now _ t,
    let p := {| p_name := name; p_schema_json := schema; p_created_at := now; p_updated_at := now |} in
    if bool_decide (is_Some (t_payload_specs t !! name))
    then Err (UniqueViolation (cname db "pk_" "payload_specs"))
    else Ok (p, set_payload_specs (<[name := p]> (t_payload_specs t)) t)).

Definition payload_specs_get (db : DbContext) (name : string) : DB (option PayloadSpec) :=
  read db (λ t, t_payload_specs t !! name).

Definition payload_specs_list (db : DbContext) (cursor : option string) (limit : Z) :
    DB (list PayloadSpec) :=
  read db (λ t, page_by_name cursor limit (t_payload_specs t)).

Definition payload_specs_update (db : DbContext) (name : string) (schema : json) :
    DB (option PayloadSpec) :=
  tstmt db (λ _ now _ t,
    match t_payload_specs t !! name with
    | Some p =>
        let p' := {| p_name := p_name p; p_schema_json := schema;
                     p_created_at := p_created_at p; p_updated_at := now |} in
        Ok (Some p', set_payload_specs (<[name := p']> (t_payload_specs t)) t)
    | None => Ok (None, t)
    end).

Definition payload_specs_has_dependent_endpoints (db : DbContext) (name : string) : DB bool :=
  read db (λ t, bool_decide
    (0 < endpoints_where (λ e, bool_decide (ep_payload_spec_ref e = Some name)) t)).

Definition payload_specs_delete (db : DbContext) (name : string) : DB bool :=
  tstmt db (λ _ _ _ t,
    let fk := if bool_decide (0 < endpoints_where (λ e, bool_decide (ep_payload_spec_ref e = Some name)) t)
              then Some (ForeignKeyViolation (cname db "fk_" "endpoints_payload_spec")) else None in
    r <-? delete_named name fk (t_payload_specs t);
    Ok (r.1, set_payload_specs r.2 t)).

(** ** Configs *)

Definition configs_create (db : DbContext) (name : string) (values : json) : DB Config :=
  tstmt db (λ _ now _ t,
    let c := {| c_name := name; c_values_json := values; c_created_at := now; c_updated_at := now |} in
    if bool_decide (is_Some (t_configs t !! name))
    then Err (UniqueViolation (cname db "pk_" "configs"))
    else Ok (c, set_configs (<[name := c]> (t_configs t)) t)).

Definition configs_get (db : DbContext) (name : string) : DB (option Config) :=
  read db (λ t, t_configs t !! name).

Definition configs_list (db : DbContext) (cursor : option string) (limit : Z) : DB (list Config) :=
  read db (λ t, page_by_name cursor limit (t_configs t)).

Definition configs_update (db : DbContext) (name : string) (values : json) : DB (option Config) :=
  tstmt db (λ _ now _ t,
    match t_configs t !! name with
    | Some c =>
        let c' := {| c_name := c_name c; c_values_json := values;
                     c_created_at := c_created_at c; c_updated_at := now |} in
        Ok (Some c', set_configs (<[name := c']> (t_configs t)) t)
    | None => Ok (None, t)
    end).

Definition configs_has_dependent_endpoints (db : DbContext) (name : string) : DB bool :=
  read db (λ t, bool_decide
    (0 < endpoints_where (λ e, bool_decide (ep_config_ref e = Some name)) t)).

Definition configs_delete (db : DbContext) (name : string) : DB bool :=
  tstmt db (λ _ _ _ t,
    let fk := if bool_decide (0 < endpoints_where (λ e, bool_decide (ep_config_ref e = Some name)) t)
              then Some (ForeignKeyViolation (cname db "fk_" "endpoints_config")) else None in
    r <-? delete_named name fk (t_configs t);
    Ok (r.1, set_configs r.2 t)).

(** ** Secrets *)

Definition secrets_create (db : DbContext) (name : string) (encrypted_value : list Z) : DB Secret :=
  tstmt db (λ _ now _ t,
    let s := {| s_name := name; s_encrypted_value := encrypted_value;
                s_created_at := now; s_updated_at := now |} in
    if bool_decide (is_Some (t_secrets t !! name))
    then Err (UniqueViolation (cname db "pk_" "secrets"))
    else Ok (s, set_secrets (<[name := s]> (t_secrets t)) t)).

Definition secrets_get (db : DbContext) (name : string) : DB (option Secret) :=
  read db (λ t, t_secrets t !! name).

Definition secrets_list (db : DbContext) (cursor : option string) (limit : Z) : DB (list Secret) :=
  read db (λ t, page_by_name cursor limit (t_secrets t)).

Definition secrets_update (db : DbContext) (name : string) (encrypted_value : list Z) :
    DB (option Secret) :=
  tstmt db (λ _ now _ t,
    match t_secrets t !! name with
    | Some s =>
        let s' := {| s_name := s_name s; s_encrypted_value := encrypted_value;
                     s_created_at := s_created_at s; s_updated_at := now |} in
        Ok (Some s', set_secrets (<[name := s']> (t_secrets t)) t)
    | None => Ok (None, t)
    end).

Definition secrets_delete (db : DbContext) (name : string) : DB bool :=
  tstmt db (λ _ _ _ t,
    r <-? delete_named name None (t_secrets t);
    Ok (r.1, set_secrets r.2 t)).

(** The text of a JSONB value, [spec::TEXT]. *)
Class Jsonb := jsonb_text : json → string.

(** [spec::TEXT LIKE '%{{secret.' || $1 || '}}%']: the name goes into the pattern
    as it is, so [%] and [_] in it are wildcards. A pattern that ends in the middle
    of an escape is an error in PostgreSQL; here the closing braces follow. *)
Definition secrets_has_dependent_endpoints `{!Jsonb} (db : DbContext) (name : string) : DB bool :=
  read db (λ t, bool_decide (0 < endpoints_where (λ e,
    like (Str.chars ("%{{secret." +:+ name +:+ "}}%")) (Str.chars (jsonb_text (ep_spec e)))) t)).

(** ** Endpoints *)

(** The two foreign keys of an [endpoints] row. *)
Definition endpoint_refs (db : DbContext) (e : Endpoint) (t : Tenant) : option SqlError :=
  let dangling {A} (o : option string) (m : gmap string A) : bool :=
    match o with Some r => negb (bool_decide (is_Some (m !! r))) | None => false end in
  if dangling (ep_payload_spec_ref e) (t_payload_specs t)
  then Some (ForeignKeyViolation (cname db "fk_" "endpoints_payload_spec"))
  else if dangling (ep_config_ref e) (t_configs t)
  then Some (ForeignKeyViolation (cname db "fk_" "endpoints_config"))
  else None.

Definition insert_endpoint (db : DbContext) (e : Endpoint) (t : Tenant) : res SqlError Tenant :=
  if negb (bool_decide (ep_endpoint_type e ∈ endpoint_types))
  then Err (CheckViolation (cname db "chk_" "endpoint_type"))
  else if bool_decide (is_Some (t_endpoints t !! ep_name e))
  then Err (UniqueViolation (cname db "pk_" "endpoints"))
  else match endpoint_refs db e t with
       | Some err => Err err
       | None => Ok (set_endpoints (<[ep_name e := e]> (t_endpoints t)) t)
       end.

Definition endpoints_create (db : DbContext) (name endpoint_type : string)
    (payload_spec_ref config_ref : option string) (spec : json) (retry_policy : option json) :
    DB Endpoint :=
  tstmt db (λ _ now _ t,
    let e := {| ep_name := name; ep_endpoint_type := endpoint_type;
      ep_payload_spec_ref := payload_spec_ref; ep_config_ref := config_ref; ep_spec := spec;
      ep_retry_policy := retry_policy; ep_created_at := now; ep_updated_at := now |} in
    t' <-? insert_endpoint db e t; Ok (e, t')).

Definition endpoints_get (db : DbContext) (name : string) : DB (option Endpoint) :=
  read db (λ t, t_endpoints t !! name).

Definition endpoints_list (db : DbContext) (cursor : option string) (limit : Z) : DB (list Endpoint) :=
  read db (λ t, page_by_name cursor limit (t_endpoints t)).

(** [COALESCE($n, col)]: an absent field keeps the old value, so a reference or a
    retry policy can be replaced but never cleared. *)
Definition coalesce {A} (new old : option A) : option A :=
  match new with Some a => Some a | None => old end.

Definition endpoint_update (now : Z) (spec : option json) (config_ref payload_spec_ref : option string)
    (retry_policy : option json) (e : Endpoint) : Endpoint := {|
  ep_name := ep_name e; ep_endpoint_type := ep_endpoint_type e;
  ep_payload_spec_ref := coalesce payload_spec_ref (ep_payload_spec_ref e);
  ep_config_ref := coalesce config_ref (ep_config_ref e);
  ep_spec := default (ep_spec e) spec;
  ep_retry_policy := coalesce retry_policy (ep_retry_policy e);
  ep_created_at := ep_created_at e; ep_updated_at := now |}.

Definition endpoints_update (db : DbContext) (name : string) (spec : option json)
    (config_ref payload_spec_ref : option string) (retry_policy : option json) :
    DB (option Endpoint) :=
  tstmt db (λ _ now _ t,
    match t_endpoints t !! name with
    | Some e =>
        let e' := endpoint_update now spec config_ref payload_spec_ref retry_policy e in
        match endpoint_refs db e' t with
        | Some err => Err err
        | None => Ok (Some e', set_endpoints (<[name := e']> (t_endpoints t)) t)
        end
    | None => Ok (None, t)
    end).

Definition endpoint_has_job (name : string) (P : Job → bool) (t : Tenant) : bool :=
  bool_decide (Exists (λ j, j_endpoint j = name ∧ P j = true) (map_to_list (t_jobs t)).*2).

(** Any job, retired ones included, holds the foreign key. *)
Definition endpoints_delete (db : DbContext) (name : string) : DB bool :=
  tstmt db (λ _ _ _ t,
    let fk := if endpoint_has_job name (λ _, true) t
              then Some (ForeignKeyViolation (cname db "fk_" "jobs_endpoint")) else None in
    r <-? delete_named name fk (t_endpoints t);
    Ok (r.1, set_endpoints r.2 t)).

Definition endpoints_has_active_jobs (db : DbContext) (name : string) : DB bool :=
  read db (endpoint_has_job name (λ j, bool_decide (j_status j = "ACTIVE"))).
