(* ===== verification/DbPublic.v ===== *)
(** * Tenancy ([tenant.rs], [db/organizations.rs], [db/workspaces.rs])

    Slugs and schema names, the control tables, provisioning of a workspace, and
    the cached registry of active schemas. *)

From Stdlib Require Import Ascii.
From S2P Require Export DbCatalog.
#[local] Open Scope Z_scope.

(** ** Names *)

Definition MAX_SLUG_LEN : nat := 25.

Definition slug_char (c : ascii) : bool :=
  Str.is_ascii_lowercase c || Str.is_ascii_digit c || bool_decide (c = "-"%char).

Definition validate_slug (slug : string) : bool :=
  if bool_decide (slug = "") || bool_decide (MAX_SLUG_LEN < String.length slug)%nat then false
  else if Str.starts_with slug "-" || Str.ends_with slug "-" then false
  else Str.all slug_char slug.

Definition build_schema_name (org_id workspace_slug : string) : string :=
  Str.replace_char "-"%char "_"%char org_id +:+ "_"
    +:+ Str.replace_char "-"%char "_"%char workspace_slug.

(** [WorkspaceContext] *)
Record WorkspaceContext := { wc_org_id : string; wc_workspace_id : string; wc_schema_name : string }.

(** ** Organizations *)

Definition set_orgs (m : gmap string Organization) (σ : Store) : Store :=
  {| st_orgs := m; st_workspaces := st_workspaces σ; st_tenants := st_tenants σ; st_cron := st_cron σ |}.
Definition set_workspaces (m : gmap string Workspace) (σ : Store) : Store :=
  {| st_orgs := st_orgs σ; st_workspaces := m; st_tenants := st_tenants σ; st_cron := st_cron σ |}.

Definition organizations_create (name slug : string) : DB Organization :=
  stmt (λ st now _ σ,
    let o := {| o_org_id := stim_uuid st; o_name := name; o_slug := slug; o_status := "ACTIVE";
                o_created_at := now; o_updated_at := now |} in
    if bool_decide (is_Some (st_orgs σ !! o_org_id o))
    then Err (UniqueViolation "pk_organizations")
    else if bool_decide (Exists (λ o', o_slug o' = slug) (map_to_list (st_orgs σ)).*2)
    then Err (UniqueViolation "organizations_slug_key")
    else Ok (o, set_orgs (<[o_org_id o := o]> (st_orgs σ)) σ)).

(** [WHERE (org_id = $1 OR slug = $1) AND .. ORDER BY (org_id = $1) DESC LIMIT 1];
    [slug] is unique, so what is left to choose is at most one row. *)
Definition org_lookup (P : Organization → bool) (org_ref : string) (σ : Store) : option Organization :=
  match st_orgs σ !! org_ref with
  | Some o => if P o then Some o
              else head (filter (λ o, o_slug o = org_ref ∧ P o = true) (map_to_list (st_orgs σ)).*2)
  | None => head (filter (λ o, o_slug o = org_ref ∧ P o = true) (map_to_list (st_orgs σ)).*2)
  end.

Definition organizations_get (org_ref : string) : DB (option Organization) :=
  stmt (λ _ _ _ σ, Ok (org_lookup (λ _, true) org_ref σ, σ)).

Definition org_by_created_desc (o1 o2 : Organization) : Prop := o_created_at o2 ≤ o_created_at o1.
#[global] Instance org_by_created_desc_dec o1 o2 : Decision (org_by_created_desc o1 o2).
Proof. unfold org_by_created_desc. apply _. Defined.

Definition organizations_list : DB (list Organization) :=
  stmt (λ _ _ _ σ, Ok (merge_sort org_by_created_desc
    (filter (λ o, o_status o = "ACTIVE") (map_to_list (st_orgs σ)).*2), σ)).

Definition organizations_update (org_ref name : string) : DB (option Organization) :=
  stmt (λ _ now _ σ,
    match org_lookup (λ o, bool_decide (o_status o = "ACTIVE")) org_ref σ with
    | Some o =>
        let o' := {| o_org_id := o_org_id o; o_name := name; o_slug := o_slug o;
                     o_status := o_status o; o_created_at := o_created_at o; o_updated_at := now |} in
        Ok (Some o', set_orgs (<[o_org_id o := o']> (st_orgs σ)) σ)
    | None => Ok (None, σ)
    end).

(** ** Workspaces: reading *)

(** [JOIN organizations o ON o.org_id = w.org_id], the workspaces the two
    references name, best match first:
    [ORDER BY (o.org_id = $1) DESC, (w.workspace_id = $2) DESC]. *)
Definition ws_rank (org_ref workspace_ref : string) (w : Workspace) : Z :=
  (if bool_decide (w_org_id w = org_ref) then 0 else 2)
  + (if bool_decide (w_workspace_id w = workspace_ref) then 0 else 1).

Definition org_named (org_ref : string) (σ : Store) (w : Workspace) : Prop :=
  match st_orgs σ !! w_org_id w with
  | Some o => o_org_id o = org_ref ∨ o_slug o = org_ref
  | None => False
  end.
#[global] Instance org_named_dec r σ w : Decision (org_named r σ w).
Proof. unfold org_named. case_match; apply _. Defined.

Definition ws_matches (org_ref workspace_ref : string) (σ : Store) : list Workspace :=
  filter (λ w, org_named org_ref σ w ∧ (w_workspace_id w = workspace_ref ∨ w_slug w = workspace_ref))
    (map_to_list (st_workspaces σ)).*2.

Definition workspaces_get (workspace_id : string) : DB (option Workspace) :=
  stmt (λ _ _ _ σ, Ok (st_workspaces σ !! workspace_id, σ)).

Definition workspaces_get_by_org_and_id (org_ref workspace_ref : string) : DB (option Workspace) :=
  stmt (λ st _ _ σ,
    Ok (pick_least (stim_pick st) (ws_rank org_ref workspace_ref)
          (ws_matches org_ref workspace_ref σ), σ)).

Definition ws_by_created_desc (w1 w2 : Workspace) : Prop := w_created_at w2 ≤ w_created_at w1.
#[global] Instance ws_by_created_desc_dec w1 w2 : Decision (ws_by_created_desc w1 w2).
Proof. unfold ws_by_created_desc. apply _. Defined.

Definition workspaces_list_for_org (org_ref : string) : DB (list Workspace) :=
  stmt (λ _ _ _ σ, Ok (merge_sort ws_by_created_desc
    (filter (λ w, org_named org_ref σ w ∧ w_status w = "ACTIVE")
       (map_to_list (st_workspaces σ)).*2), σ)).

Definition resolve_schema (org_ref workspace_ref : string) : DB (option string) :=
  stmt (λ st _ _ σ,
    Ok (w_schema_name <$> pick_least (stim_pick st) (ws_rank org_ref workspace_ref)
          (filter (λ w, w_status w = "ACTIVE") (ws_matches org_ref workspace_ref σ)), σ)).

(** ** Provisioning *)

(** The tables [workspace_v1.sql] creates, in order; its other statements create
    indexes. A tenant exists once the last of its tables does. *)
Definition workspace_tables : list string :=
  ["payload_specs"; "configs"; "secrets"; "endpoints"; "jobs"; "executions"; "attempts";
   "execution_logs"].

(** [CREATE TABLE IF NOT EXISTS {p}{table}] *)
Definition create_table (schema_name table_prefix table : string) : DB unit :=
  stmt (λ _ _ _ σ,
    let k := (schema_name, table_prefix) in
    if bool_decide (table = "execution_logs") && negb (bool_decide (is_Some (st_tenants σ !! k)))
    then Ok (tt, set_tenant k empty_tenant σ) else Ok (tt, σ)).

Definition provision_schema (schema_name table_prefix : string) : DB unit :=
  stmt (λ _ _ _ σ, Ok (tt, σ)) ;;;                      (* CREATE SCHEMA IF NOT EXISTS *)
  scoped_connection schema_name ;;;
  se_iter (create_table schema_name table_prefix) workspace_tables ;;;
  stmt (λ _ _ _ σ, Ok (tt, σ)).                         (* SET search_path TO public *)

Definition REAPER_ENDPOINT_NAME : string := "invokr.reaper".

Definition provision_reaper (schema_name cron_expression : string) : DB unit :=
  scoped_transaction schema_name ;;;
  in_tx (
    let db := {| db_schema := schema_name; db_prefix := "" |} in
    endpoints_create db REAPER_ENDPOINT_NAME "INTERNAL" None None
      (Json.obj [("task", JString "reaper")]) None ;;;
    job <-- job_stmt db (λ id now,
      cron_row id REAPER_ENDPOINT_NAME "INTERNAL" None None (Some cron_expression) (Some "UTC")
        None None (Some now) 1 None now);
    register_pg_cron_conn "" schema_name (j_job_id job) cron_expression ;;;
    commit).

Definition insert_workspace (w : Workspace) (σ : Store) : res SqlError Store :=
  if bool_decide (is_Some (st_workspaces σ !! w_workspace_id w))
  then Err (UniqueViolation "pk_workspaces")
  else if bool_decide (Exists (λ w', w_schema_name w' = w_schema_name w)
                         (map_to_list (st_workspaces σ)).*2)
  then Err (UniqueViolation "workspaces_schema_name_key")
  else if bool_decide (Exists (λ w', w_org_id w' = w_org_id w ∧ w_slug w' = w_slug w)
                         (map_to_list (st_workspaces σ)).*2)
  then Err (UniqueViolation "uq_workspace_slug")
  else if bool_decide (st_orgs σ !! w_org_id w = None)
  then Err (ForeignKeyViolation "fk_workspaces_org")
  else Ok (set_workspaces (<[w_workspace_id w := w]> (st_workspaces σ)) σ).

Definition with_schema_version (v : Z) (w : Workspace) : Workspace := {|
  w_workspace_id := w_workspace_id w; w_org_id := w_org_id w; w_name := w_name w;
  w_slug := w_slug w; w_schema_name := w_schema_name w; w_status := w_status w;
  w_schema_version := v; w_created_at := w_created_at w; w_updated_at := w_updated_at w |}.

Definition workspaces_create (org_id name slug schema_name reaper_cron_expression : string) :
    DB Workspace :=
  if validate_schema_name schema_name then
    workspace <-- stmt (λ st now _ σ,
      let w := {| w_workspace_id := stim_uuid st; w_org_id := org_id; w_name := name;
        w_slug := slug; w_schema_name := schema_name; w_status := "ACTIVE";
        w_schema_version := 0; w_created_at := now; w_updated_at := now |} in
      σ' <-? insert_workspace w σ; Ok (w, σ'));
    provision_schema schema_name "" ;;;
    provision_reaper schema_name reaper_cron_expression ;;;
    stmt (λ _ _ _ σ, Ok (tt, set_workspaces
      (alter (with_schema_version 1) (w_workspace_id workspace) (st_workspaces σ)) σ)) ;;;
    stmt (λ _ _ _ σ, w <-? ok_or (st_workspaces σ !! w_workspace_id workspace) RowNotFound; Ok (w, σ))
  else se_panic 4.

(** ** The registry of active schemas *)

(** [CachedSchemas]; instants of the monotonic clock are passed in. *)
Record CachedSchemas := { cs_schemas : list string; cs_fetched_at : Z }.

Definition SchemaRegistry_new (now ttl_secs : Z) : CachedSchemas :=
  {| cs_schemas := []; cs_fetched_at := now - (ttl_secs + 1) * 1000000 |}.

(** The query of the refresh, on the committed store: its rows come in any order. *)
Definition active_schemas (σ : Store) : list string :=
  w_schema_name <$> filter (λ w, w_status w = "ACTIVE") (map_to_list (st_workspaces σ)).*2.

(** [get_active_schemas] at the instant [now], the refresh storing the instant
    [fetched]. *)
Definition get_active_schemas (ttl now fetched : Z) (c : CachedSchemas) (s : Session) :
    (res SqlError (list string) * CachedSchemas) * Session :=
  if bool_decide (now - cs_fetched_at c < ttl) && negb (bool_decide (cs_schemas c = []))
  then ((Ok (cs_schemas c), c), s)
  else
    match stmt (λ _ _ _ σ, Ok (active_schemas σ, σ)) s with
    | (Ok l, s') => ((Ok l, {| cs_schemas := l; cs_fetched_at := fetched |}), s')
    | (r, s') => ((r, c), s')
    end.
