(* ===== verification/Moves.v ===== *)
(** * The moves of the data

    An abstract transition system on the tables: [tenant_move] says how the rows of
    one workspace change, [store_move] how the database changes.  [Statements] shows
    that every statement of the program makes such moves and nothing else, so an
    invariant of the whole program is checked move by move. *)

From S2P Require Export DbPublic.
#[local] Open Scope Z_scope.

(** ** Rows as they are inserted *)

(** A row as [INSERT INTO executions] makes it. *)
Definition fresh_execution (e : Execution) : Prop :=
  e_attempt_count e = 0 ∧ e_status e ∈ ["QUEUED"; "PENDING"]
  ∧ e_completed_at e = None ∧ e_started_at e = None.

(** It copies what its job says. *)
Definition of_job (j : Job) (e : Execution) : Prop :=
  e_job_id e = j_job_id j ∧ e_endpoint e = j_endpoint j
  ∧ e_endpoint_type e = j_endpoint_type j ∧ e_input e = j_input j.

(** A row as [INSERT INTO jobs] makes it. *)
Definition fresh_job (j : Job) : Prop :=
  j_status j = "ACTIVE" ∧ j_replaced_by_id j = None ∧ j_retired_at j = None.

(** A new job is a first version, or the next version of a CRON job. *)
Definition version_link (jobs : gmap string Job) (j : Job) : Prop :=
  match j_previous_version_id j with
  | None => j_version j = 1
  | Some p => ∃ jp, jobs !! p = Some jp ∧ j_version j = wrap64 (j_version jp + 1)
      ∧ j_endpoint j = j_endpoint jp ∧ j_endpoint_type j = j_endpoint_type jp
      ∧ j_trigger_type j = "CRON" ∧ j_trigger_type jp = "CRON"
  end.

(** ** One tenant *)

Definition no_endpoint (P : Endpoint → Prop) (t : Tenant) : Prop :=
  map_Forall (λ _ e, ¬ P e) (t_endpoints t).

Inductive tenant_move (t : Tenant) : Tenant → Prop :=
  (* executions *)
  | TM_claim id e now w :
      t_executions t !! id = Some e → claimable now e →
      tenant_move t (set_executions (<[id := claim_update now w e]> (t_executions t)) t)
  | TM_success id e now o :
      t_executions t !! id = Some e → e_status e = "RUNNING" →
      tenant_move t (set_executions (<[id := success_update now o e]> (t_executions t)) t)
  | TM_retry id e now b :
      t_executions t !! id = Some e → e_status e = "RUNNING" →
      tenant_move t (set_executions (<[id := retry_update now b e]> (t_executions t)) t)
  | TM_failed id e now :
      t_executions t !! id = Some e → e_status e = "RUNNING" →
      tenant_move t (set_executions (<[id := failed_update now e]> (t_executions t)) t)
  | TM_cancel id e now :
      t_executions t !! id = Some e → cancellable e →
      tenant_move t (set_executions (<[id := cancel_update now e]> (t_executions t)) t)
  | TM_cancel_pending job_id now :
      tenant_move t (set_executions
        ((λ e, if bool_decide (e_job_id e = job_id ∧ cancellable e)
               then cancel_update now e else e) <$> t_executions t) t)
  | TM_execution db e id j t' :
      fresh_execution e → t_jobs t !! id = Some j → of_job j e →
      insert_execution db e t = Ok t' → tenant_move t t'
  (* jobs *)
  | TM_job db j t' :
      fresh_job j → version_link (t_jobs t) j →
      insert_job db j t = Ok t' → tenant_move t t'
  | TM_retire id j now by_id :
      t_jobs t !! id = Some j → j_status j = "ACTIVE" →
      tenant_move t (set_jobs (<[id := retired now by_id j]> (t_jobs t)) t)
  | TM_retire_expired now :
      tenant_move t (set_jobs
        ((λ j, if bool_decide (cron_expired now j)
               then retired now (j_replaced_by_id j) j else j) <$> t_jobs t) t)
  (* what a worker reports *)
  | TM_attempt a :
      t_attempts t !! a_attempt_id a = None →
      a_status a ∈ ["SUCCESS"; "FAILED"] →
      map_Forall (λ _ a', ¬ (a_execution_id a' = a_execution_id a
                             ∧ a_attempt_number a' = a_attempt_number a)) (t_attempts t) →
      (∃ e, t_executions t !! a_execution_id a = Some e
         ∧ a_attempt_number a ≤ e_attempt_count e) →
      tenant_move t (set_attempts (<[a_attempt_id a := a]> (t_attempts t)) t)
  | TM_log l :
      t_execution_logs t !! l_log_id l = None →
      l_level l ∈ ["DEBUG"; "INFO"; "WARN"; "ERROR"] →
      is_Some (t_executions t !! l_execution_id l) →
      tenant_move t (set_logs (<[l_log_id l := l]> (t_execution_logs t)) t)
  (* named definitions *)
  | TM_payload_spec name p :
      p_name p = name ∨ (∃ p0, t_payload_specs t !! name = Some p0 ∧ p_name p = p_name p0) →
      tenant_move t (set_payload_specs (<[name := p]> (t_payload_specs t)) t)
  | TM_payload_spec_delete name :
      no_endpoint (λ e, ep_payload_spec_ref e = Some name) t →
      tenant_move t (set_payload_specs (delete name (t_payload_specs t)) t)
  | TM_config name c :
      c_name c = name ∨ (∃ c0, t_configs t !! name = Some c0 ∧ c_name c = c_name c0) →
      tenant_move t (set_configs (<[name := c]> (t_configs t)) t)
  | TM_config_delete name :
      no_endpoint (λ e, ep_config_ref e = Some name) t →
      tenant_move t (set_configs (delete name (t_configs t)) t)
  | TM_secret name s :
      s_name s = name ∨ (∃ s0, t_secrets t !! name = Some s0 ∧ s_name s = s_name s0) →
      tenant_move t (set_secrets (<[name := s]> (t_secrets t)) t)
  | TM_secret_delete name :
      tenant_move t (set_secrets (delete name (t_secrets t)) t)
  | TM_endpoint db e t' : insert_endpoint db e t = Ok t' → tenant_move t t'
  | TM_endpoint_update db name e e' :
      t_endpoints t !! name = Some e → ep_name e' = ep_name e →
      ep_endpoint_type e' = ep_endpoint_type e → endpoint_refs db e' t = None →
      tenant_move t (set_endpoints (<[name := e']> (t_endpoints t)) t)
  | TM_endpoint_delete name :
      map_Forall (λ _ j, j_endpoint j ≠ name) (t_jobs t) →
      tenant_move t (set_endpoints (delete name (t_endpoints t)) t).

(** ** The database *)

Inductive store_move (σ : Store) : Store → Prop :=
  | SM_tenant k t t' :
      st_tenants σ !! k = Some t → tenant_move t t' → store_move σ (set_tenant k t' σ)
  | SM_provision k :
      st_tenants σ !! k = None → store_move σ (set_tenant k empty_tenant σ)
  | SM_control σ' :                       (* organizations, workspaces, cron.job *)
      st_tenants σ' = st_tenants σ → store_move σ σ'.

Definition moves : relation Store := rtc store_move.

#[global] Instance moves_preorder : PreOrder moves.
Proof. unfold moves. apply _. Qed.

(** ** Relations on the tenants that the moves respect *)

Definition tenant_at (k : string * string) (σ : Store) : Tenant :=
  default empty_tenant (st_tenants σ !! k).

Definition on_tenants (R : relation Tenant) : relation Store := λ σ σ',
  ∀ k, R (tenant_at k σ) (tenant_at k σ').

#[global] Instance on_tenants_preorder R `{!PreOrder R} : PreOrder (on_tenants R).
Proof.
  split.
  - intros σ k. reflexivity.
  - intros σ1 σ2 σ3 H12 H23 k. etrans; [apply H12|apply H23].
Qed.

Lemma tenant_at_set k k' t σ :
  tenant_at k (set_tenant k' t σ) = if bool_decide (k' = k) then t else tenant_at k σ.
Proof.
  unfold tenant_at, set_tenant. simpl. case_bool_decide as Hk.
  - subst. by rewrite lookup_insert_eq.
  - by rewrite lookup_insert_ne.
Qed.

Lemma tenant_at_lookup k σ t : st_tenants σ !! k = Some t → tenant_at k σ = t.
Proof. unfold tenant_at. by intros ->. Qed.

(** A preorder that every move of a tenant respects holds across the program. *)
Lemma moves_on_tenants R `{!PreOrder R} :
  (∀ t t', tenant_move t t' → R t t') → ∀ σ σ', moves σ σ' → on_tenants R σ σ'.
Proof.
  intros HR σ σ'. induction 1 as [σ|σ1 σ2 σ3 Hm _ IH]; [reflexivity|].
  etrans; [|exact IH]. clear IH σ3. intros k.
  destruct Hm as [k' t t' Ht Hm|k' Hn|σ' Hs].
  - rewrite tenant_at_set. case_bool_decide as Hk; [|reflexivity]. subst k'.
    rewrite (tenant_at_lookup _ _ _ Ht). by apply HR.
  - rewrite tenant_at_set. case_bool_decide as Hk; [|reflexivity]. subst k'.
    unfold tenant_at. rewrite Hn. reflexivity.
  - unfold tenant_at. rewrite Hs. reflexivity.
Qed.

(** A tenant is never dropped. *)
Lemma moves_keep_tenants σ σ' k :
  moves σ σ' → is_Some (st_tenants σ !! k) → is_Some (st_tenants σ' !! k).
Proof.
  induction 1 as [|σ1 σ2 σ3 Hm _ IH]; [done|]. intros Hk. apply IH.
  destruct Hm as [k' t t' Ht Hm|k' Hn|σ' ->]; simpl; [| |done].
  all: destruct (decide (k' = k)) as [->|Hne]; [by rewrite lookup_insert_eq|].
  all: by rewrite lookup_insert_ne.
Qed.

(** ** Jobs keep their identity *)

(** The later row [j'] of the job with the earlier row [j]. *)
Record job_life (j j' : Job) : Prop := {
  jl_id : j_job_id j' = j_job_id j;
  jl_endpoint : j_endpoint j' = j_endpoint j;
  jl_type : j_endpoint_type j' = j_endpoint_type j;
  jl_trigger : j_trigger_type j' = j_trigger_type j;
  jl_version : j_version j' = j_version j;
  jl_previous : j_previous_version_id j' = j_previous_version_id j;
  jl_key : j_idempotency_key j' = j_idempotency_key j;
  jl_input : j_input j' = j_input j;
  jl_cron : j_cron_expression j' = j_cron_expression j;
  jl_created : j_created_at j' = j_created_at j;
  jl_retired : j_status j = "RETIRED" → j' = j;
}.

#[global] Instance job_life_preorder : PreOrder job_life.
Proof.
  split; [by intros j; split|].
  intros j1 j2 j3 [] []. split; try congruence.
  intros Hr. assert (j2 = j1) by auto. subst j2. auto.
Qed.

Definition jobs_live (t t' : Tenant) : Prop :=
  ∀ id j, t_jobs t !! id = Some j → ∃ j', t_jobs t' !! id = Some j' ∧ job_life j j'.

#[global] Instance jobs_live_preorder : PreOrder jobs_live.
Proof.
  split.
  - intros t id j Hj. exists j. split; [done|reflexivity].
  - intros t1 t2 t3 H12 H23 id j (j2 & Hj2 & Hl2)%H12.
    destruct (H23 _ _ Hj2) as (j3 & Hj3 & Hl3). exists j3. split; [done|by etrans].
Qed.

Lemma jobs_live_frame t t' : t_jobs t' = t_jobs t → jobs_live t t'.
Proof. intros E id j Hj. exists j. rewrite E. split; [done|reflexivity]. Qed.

Lemma retired_life now by_id j : j_status j = "ACTIVE" → job_life j (retired now by_id j).
Proof. intros Ha. split; try done. rewrite Ha. done. Qed.

(** What an insertion that succeeded says. *)
Lemma insert_job_inv db j t t' :
  insert_job db j t = Ok t' →
  t' = set_jobs (<[j_job_id j := j]> (t_jobs t)) t
  ∧ j_trigger_type j ∈ ["IMMEDIATE"; "DELAYED"; "CRON"] ∧ j_endpoint_type j ∈ endpoint_types
  ∧ t_jobs t !! j_job_id j = None ∧ job_key_taken (j_endpoint j) (j_idempotency_key j) t = false
  ∧ is_Some (t_endpoints t !! j_endpoint j).
Proof.
  unfold insert_job. repeat (case_match; try done). bool_prop. intros [= <-].
  split_and!; try done; [by apply eq_None_not_Some|by apply not_eq_None_Some].
Qed.

Lemma insert_execution_inv db e t t' :
  insert_execution db e t = Ok t' →
  t' = set_executions (<[e_execution_id e := e]> (t_executions t)) t
  ∧ e_status e ∈ execution_statuses ∧ t_executions t !! e_execution_id e = None
  ∧ execution_key_taken (e_job_id e) (e_idempotency_key e) t = false
  ∧ is_Some (t_jobs t !! e_job_id e).
Proof.
  unfold insert_execution. repeat (case_match; try done). bool_prop. intros [= <-].
  split_and!; try done; [by apply eq_None_not_Some|by apply not_eq_None_Some].
Qed.

Lemma insert_endpoint_inv db e t t' :
  insert_endpoint db e t = Ok t' →
  t' = set_endpoints (<[ep_name e := e]> (t_endpoints t)) t
  ∧ ep_endpoint_type e ∈ endpoint_types ∧ t_endpoints t !! ep_name e = None
  ∧ endpoint_refs db e t = None.
Proof.
  unfold insert_endpoint. repeat (case_match; try done). bool_prop. intros [= <-].
  split_and!; try done. by apply eq_None_not_Some.
Qed.

Lemma move_jobs_live_insert db j t t' : insert_job db j t = Ok t' → jobs_live t t'.
Proof.
  intros (-> & _ & _ & Hn & _)%insert_job_inv id2 j2 Hj2.
  exists j2. simpl. rewrite lookup_insert_ne by congruence. split; [done|reflexivity].
Qed.

Lemma move_jobs_live t t' : tenant_move t t' → jobs_live t t'.
Proof.
  destruct 1 as [| | | | | |db e id j t' _ _ _ Hi|db j t' _ _ Hi|id j now r Hj Ha|now
                | | | | | | | | |db e t' Hi| |];
    try (apply jobs_live_frame; reflexivity).
  - apply insert_execution_inv in Hi as (-> & _). by apply jobs_live_frame.
  - by eapply move_jobs_live_insert.
  - intros id2 j2 Hj2. simpl. destruct (decide (id = id2)) as [->|Hne].
    + rewrite lookup_insert_eq. eexists. split; [done|].
      simplify_eq. by apply retired_life.
    + rewrite lookup_insert_ne by done. exists j2. split; [done|reflexivity].
  - intros id2 j2 Hj2. simpl. rewrite lookup_fmap, Hj2. simpl. eexists. split; [done|].
    destruct (bool_decide_reflect (cron_expired now j2)) as [(_ & Ha & _)|_]; [|reflexivity].
    by apply retired_life.
  - apply insert_endpoint_inv in Hi as (-> & _). by apply jobs_live_frame.
Qed.

Lemma moves_jobs_live σ σ' k : moves σ σ' → jobs_live (tenant_at k σ) (tenant_at k σ').
Proof. intros Hm. exact (moves_on_tenants _ move_jobs_live _ _ Hm k). Qed.
