(* ===== verification/Lifecycle.v ===== *)
(** * The life of executions

    Relations on the executions of every tenant that the moves respect.  [ExecRel]
    lists what a relation has to allow; it then holds across the whole program.  Two
    such relations are [life_map], the life of each execution, and [wf_map], the
    invariant of their rows. *)

From S2P Require Export Moves.
#[local] Open Scope Z_scope.

Definition execs (k : string * string) (σ : Store) : gmap string Execution :=
  default ∅ (t_executions <$> st_tenants σ !! k).

Definition on_execs (R : relation (gmap string Execution)) : relation Store := λ σ σ',
  ∀ k, R (execs k σ) (execs k σ').

#[global] Instance on_execs_preorder R `{!PreOrder R} : PreOrder (on_execs R).
Proof.
  split.
  - intros σ k. reflexivity.
  - intros σ1 σ2 σ3 H12 H23 k. etrans; [apply H12|apply H23].
Qed.

Class ExecRel (R : relation (gmap string Execution)) : Prop := {
  er_preorder :: PreOrder R;
  er_insert m id e : m !! id = None → fresh_execution e → R m (<[id := e]> m);
  er_claim m id e now w :
    m !! id = Some e → claimable now e → R m (<[id := claim_update now w e]> m);
  er_success m id e now o :
    m !! id = Some e → e_status e = "RUNNING" → R m (<[id := success_update now o e]> m);
  er_retry m id e now b :
    m !! id = Some e → e_status e = "RUNNING" → R m (<[id := retry_update now b e]> m);
  er_failed m id e now :
    m !! id = Some e → e_status e = "RUNNING" → R m (<[id := failed_update now e]> m);
  er_cancel_row m id e now :
    m !! id = Some e → cancellable e → R m (<[id := cancel_update now e]> m);
  er_cancel m now (P : Execution → Prop) `{!∀ e, Decision (P e)} :
    (∀ e, P e → cancellable e) →
    R m ((λ e, if bool_decide (P e) then cancel_update now e else e) <$> m);
}.

Lemma execs_set_tenant k k' t σ :
  execs k (set_tenant k' t σ) = if bool_decide (k' = k) then t_executions t else execs k σ.
Proof.
  unfold execs, set_tenant. simpl. case_bool_decide as Hk.
  - subst. by rewrite lookup_insert_eq.
  - by rewrite lookup_insert_ne.
Qed.

Lemma execs_lookup k σ t : st_tenants σ !! k = Some t → execs k σ = t_executions t.
Proof. unfold execs. by intros ->. Qed.

(** An execution row is moved by a claim, an outcome or a cancellation, or inserted. *)
Lemma exec_rel_move R `{!ExecRel R} t t' :
  tenant_move t t' → R (t_executions t) (t_executions t').
Proof.
  destruct 1 as [| | | | |job_id now|db e id j t' Hf _ _ Hi|db j t' _ _ Hi| | | | | | | | | |
                 |db e t' Hi| |]; simpl; try reflexivity.
  - by apply er_claim.
  - by apply er_success.
  - by apply er_retry.
  - by apply er_failed.
  - by apply er_cancel_row.
  - apply (er_cancel _ _ (λ e, e_job_id e = job_id ∧ cancellable e)). by intros e [_ ?].
  - apply insert_execution_inv in Hi as (-> & _ & Hn & _). by apply er_insert.
  - apply insert_job_inv in Hi as (-> & _). simpl. reflexivity.
  - apply insert_endpoint_inv in Hi as (-> & _). simpl. reflexivity.
Qed.

Lemma moves_execs R `{!ExecRel R} σ σ' : moves σ σ' → on_execs R σ σ'.
Proof.
  intros Hm k. pose (R' := λ t t', R (t_executions t) (t_executions t')).
  assert (PreOrder R') as HR.
  { split; [intros t; unfold R'; reflexivity|intros t1 t2 t3; unfold R'; apply transitivity]. }
  pose proof (moves_on_tenants R' (exec_rel_move R) _ _ Hm k) as Hk.
  unfold R', tenant_at in Hk. unfold execs.
  by destruct (st_tenants σ !! k), (st_tenants σ' !! k).
Qed.

(** ** Two such relations *)

Definition terminal (e : Execution) : Prop := e_status e ∈ ["SUCCESS"; "FAILED"; "CANCELLED"].

(** The later row [e'] of the execution with the earlier row [e]. *)
Record life (e e' : Execution) : Prop := {
  life_id : e_execution_id e' = e_execution_id e;
  life_job : e_job_id e' = e_job_id e;
  life_endpoint : e_endpoint e' = e_endpoint e;
  life_type : e_endpoint_type e' = e_endpoint_type e;
  life_key : e_idempotency_key e' = e_idempotency_key e;
  life_input : e_input e' = e_input e;
  life_max : e_max_attempts e' = e_max_attempts e;
  life_created : e_created_at e' = e_created_at e;
  life_attempts : e_attempt_count e ≤ e_attempt_count e';
  life_terminal : terminal e → e' = e;
}.

#[global] Instance life_preorder : PreOrder life.
Proof.
  split.
  - intros e. by split.
  - intros e1 e2 e3 [] []. split; try congruence; [lia|].
    intros Ht. assert (e2 = e1) by auto. subst e2. auto.
Qed.

Definition life_map (m m' : gmap string Execution) : Prop :=
  ∀ id e, m !! id = Some e → ∃ e', m' !! id = Some e' ∧ life e e'.

#[global] Instance life_map_preorder : PreOrder life_map.
Proof.
  split.
  - intros m id e He. exists e. split; [done|reflexivity].
  - intros m1 m2 m3 H12 H23 id e (e2 & He2 & Hl2)%H12.
    destruct (H23 _ _ He2) as (e3 & He3 & Hl3). exists e3. split; [done|by etrans].
Qed.

Lemma life_map_insert m id e e' : m !! id = Some e → life e e' → life_map m (<[id := e']> m).
Proof.
  intros He Hl id2 e2 He2. destruct (decide (id = id2)) as [->|Hne].
  - exists e'. rewrite lookup_insert_eq. naive_solver.
  - exists e2. rewrite lookup_insert_ne by done. split; [done|reflexivity].
Qed.

(** No status the statements start from is terminal. *)
Ltac not_terminal :=
  intros Ht; exfalso; revert Ht;
  repeat match goal with
  | H : claimable _ _ |- _ => destruct H as [H _]
  | H : cancellable _ |- _ => unfold cancellable in H
  end;
  unfold terminal; set_unfold; naive_solver congruence.

#[global] Instance life_exec_rel : ExecRel life_map.
Proof.
  split.
  - apply _.
  - intros m id e Hm _ id2 e2 He2. exists e2.
    rewrite lookup_insert_ne by congruence. split; [done|reflexivity].
  - intros m id e now w He Hc. apply (life_map_insert _ _ _ _ He).
    split; simpl; try done; [lia|not_terminal].
  - intros m id e now o He Hr. apply (life_map_insert _ _ _ _ He). split; try done. not_terminal.
  - intros m id e now b He Hr. apply (life_map_insert _ _ _ _ He). split; try done. not_terminal.
  - intros m id e now He Hr. apply (life_map_insert _ _ _ _ He). split; try done. not_terminal.
  - intros m id e now He Hc. apply (life_map_insert _ _ _ _ He). split; try done. not_terminal.
  - intros m now P HP Hcan id e He. rewrite lookup_fmap, He. simpl. eexists. split; [done|].
    destruct (bool_decide_reflect (P e)) as [Hp|_]; [|reflexivity].
    specialize (Hcan _ Hp). split; try done. not_terminal.
Qed.

(** The invariant of a row. *)
Record exec_wf (e : Execution) : Prop := {
  wf_attempts : 0 ≤ e_attempt_count e ≤ Z.max 1 (e_max_attempts e);
  wf_new : e_status e ∈ ["QUEUED"; "PENDING"] → e_attempt_count e = 0;
  wf_retrying : e_status e = "RETRYING" → e_attempt_count e < e_max_attempts e;
  wf_completed : is_Some (e_completed_at e) ↔ terminal e;
}.

Definition wf_map (m m' : gmap string Execution) : Prop :=
  map_Forall (λ _, exec_wf) m → map_Forall (λ _, exec_wf) m'.

#[global] Instance wf_map_preorder : PreOrder wf_map.
Proof. split; unfold wf_map; [by intros m Hm|intros m1 m2 m3 H1 H2 Hm; auto]. Qed.

Lemma wf_map_insert m id e e' :
  m !! id = Some e → (exec_wf e → exec_wf e') → wf_map m (<[id := e']> m).
Proof.
  intros He Hw Hm. apply map_Forall_insert_2; [|done]. apply Hw. by apply (Hm id).
Qed.

Lemma claim_wf now w e : claimable now e → exec_wf e → exec_wf (claim_update now w e).
Proof.
  intros [Hs _] [Ha Hn Hr Hc].
  assert (¬ terminal e) as Hnt by (unfold terminal; set_unfold; naive_solver congruence).
  assert (e_attempt_count e = 0 ∨ e_attempt_count e < e_max_attempts e).
  { set_unfold. destruct Hs as [Hs|[Hs|[Hs|[]]]]; auto. }
  split; simpl; [lia|set_solver|done|]. split; [by intros ?%Hc|].
  unfold terminal; simpl; set_solver.
Qed.

Lemma complete_wf (e e' : Execution) :
  e_status e = "RUNNING" → e_attempt_count e' = e_attempt_count e →
  e_max_attempts e' = e_max_attempts e →
  (terminal e' ∧ is_Some (e_completed_at e')
   ∨ e_status e' = "RETRYING" ∧ e_completed_at e' = None ∧ e_attempt_count e < e_max_attempts e) →
  exec_wf e → exec_wf e'.
Proof.
  intros Hs Ea Em Hd [Ha Hn Hr Hc].
  destruct Hd as [[Ht Hd]|(Ht & Hd & Hlt)].
  - split; [lia| | |done]; unfold terminal in Ht; set_unfold; naive_solver congruence.
  - split; [lia| |lia|]; unfold terminal; rewrite Ht, ?Hd; set_unfold; [naive_solver congruence|].
    split; [by intros []|naive_solver congruence].
Qed.

Lemma cancel_wf now e : cancellable e → exec_wf e → exec_wf (cancel_update now e).
Proof.
  intros Hcan [Ha Hn Hr Hc]. split; simpl; [done|set_solver|done|].
  split; [|done]. intros _. unfold terminal. simpl. set_solver.
Qed.

#[global] Instance wf_exec_rel : ExecRel wf_map.
Proof.
  split.
  - apply _.
  - intros m id e _ (Ha & Hs & Hc & _) Hm. apply map_Forall_insert_2; [|done].
    split; [lia|done| |].
    + intros E. rewrite E in Hs. set_solver.
    + rewrite Hc. split; [by intros []|]. unfold terminal. set_unfold. naive_solver congruence.
  - intros. eapply wf_map_insert; [done|]. by apply claim_wf.
  - intros. eapply wf_map_insert; [done|]. apply complete_wf; [done..|left].
    split; [unfold terminal; simpl; set_solver|done].
  - intros m id e now b He Hr. eapply wf_map_insert; [done|]. apply complete_wf; [done..|].
    simpl. unfold terminal. simpl.
    destruct (bool_decide_reflect (e_max_attempts e ≤ e_attempt_count e)).
    + left. split; [set_solver|done].
    + right. split_and!; [done..|lia].
  - intros. eapply wf_map_insert; [done|]. apply complete_wf; [done..|left].
    split; [unfold terminal; simpl; set_solver|done].
  - intros. eapply wf_map_insert; [done|]. by apply cancel_wf.
  - intros m now P HP Hcan Hm id e. rewrite lookup_fmap.
    intros (e0 & He0 & ->)%fmap_Some. specialize (Hm _ _ He0). simpl in Hm.
    cbn. destruct (bool_decide_reflect (P e0)); [|done]. apply cancel_wf; auto.
Qed.
