(* ===== verification/Statements.v ===== *)
(** * Every statement is a move

    Whatever a statement of the database layer does to the store is a [store_move] or
    nothing.  So a session in which the other clients make moves makes moves too,
    whatever fails: [preserves (safe moves)]. *)

From S2P Require Export Lifecycle.
#[local] Open Scope Z_scope.

Notation safely m := (preserves (safe moves) m).

(** ** Queries *)

Definition maybe_move (t t' : Tenant) : Prop := t' = t ∨ tenant_move t t'.

Lemma set_tenant_same k t σ : st_tenants σ !! k = Some t → set_tenant k t σ = σ.
Proof. intros Ht. unfold set_tenant. rewrite insert_id by done. by destruct σ. Qed.

Lemma maybe_moves k t t' σ :
  st_tenants σ !! k = Some t → maybe_move t t' → moves σ (set_tenant k t' σ).
Proof.
  intros Ht [->|Hm]; [by rewrite set_tenant_same|]. apply rtc_once. by eapply SM_tenant.
Qed.

Lemma tquery_inv {A} db (q : TQuery A) st now locked σ a σ' :
  tquery db q st now locked σ = Ok (a, σ') →
  ∃ t t', st_tenants σ !! (db_schema db, db_prefix db) = Some t
    ∧ q st now locked t = Ok (a, t') ∧ σ' = set_tenant (db_schema db, db_prefix db) t' σ.
Proof.
  unfold tquery. destruct (st_tenants σ !! _) as [t|] eqn:Et; [|done].
  destruct (q st now locked t) as [[a' t']| |] eqn:Eq; [|done..]. intros [= <- <-]. eauto.
Qed.

(** A single statement that makes moves whenever it succeeds. *)
Definition moving {A} (m : DB A) : Prop := ∃ q : Query A, m = stmt q ∧ query_ok moves q.

Lemma moving_safe {A} (m : DB A) : moving m → safely m.
Proof. intros (q & -> & Hq). by apply safe_stmt; [apply _|]. Qed.

Lemma moving_keeps {A} K (m : DB A) : stable moves K → moving m → preserves (keeps moves K) m.
Proof.
  intros HK (q & -> & Hq). apply keeps_stmt; [apply _|done|]. intros st now locked σ a σ' _.
  apply Hq.
Qed.

(** A statement on a tenant, by what it does to the tenant. *)
Lemma moving_tstmt {A} db (q : TQuery A) :
  (∀ st now locked t a t', q st now locked t = Ok (a, t') → maybe_move t t') →
  moving (tstmt db q).
Proof.
  intros Hq. eexists. split; [reflexivity|]. intros st now locked σ a σ'.
  intros (t & t' & Ht & Eq & ->)%tquery_inv. eapply maybe_moves; [done|by eapply Hq].
Qed.

Lemma safe_tstmt {A} db (q : TQuery A) :
  (∀ st now locked t a t', q st now locked t = Ok (a, t') → maybe_move t t') →
  safely (tstmt db q).
Proof. intros Hq. by apply moving_safe, moving_tstmt. Qed.

(** A statement that leaves the tenants alone. *)
Lemma moving_frame {A} (q : Query A) :
  (∀ st now locked σ a σ', q st now locked σ = Ok (a, σ') → st_tenants σ' = st_tenants σ) →
  moving (stmt q).
Proof.
  intros Hq. eexists. split; [reflexivity|]. intros st now locked σ a σ' E%Hq.
  by apply rtc_once, SM_control.
Qed.

Lemma safe_frame {A} (q : Query A) :
  (∀ st now locked σ a σ', q st now locked σ = Ok (a, σ') → st_tenants σ' = st_tenants σ) →
  safely (stmt q).
Proof. intros Hq. by apply moving_safe, moving_frame. Qed.

Lemma moving_read {A} db (f : Tenant → A) : moving (read db f).
Proof. apply moving_tstmt. intros ?????? [= <- <-]. by left. Qed.

Lemma safe_read {A} db (f : Tenant → A) : safely (read db f).
Proof. apply moving_safe, moving_read. Qed.

(** ** What is known of a job

    The row [id] exists and satisfies [F], a property its life keeps. *)
Definition job_at (k : string * string) (id : string) (F : Job → Prop) (σ : Store) : Prop :=
  ∃ t j, st_tenants σ !! k = Some t ∧ t_jobs t !! id = Some j ∧ F j.

Lemma stable_job_at k id F :
  (∀ j j', job_life j j' → F j → F j') → stable moves (job_at k id F).
Proof.
  intros HF σ σ' Hm (t & j & Ht & Hj & Hp).
  destruct (moves_keep_tenants _ _ k Hm) as [t' Ht']; [by rewrite Ht|].
  destruct (moves_jobs_live _ _ k Hm id j) as (j' & Hj' & Hl).
  { by rewrite (tenant_at_lookup _ _ _ Ht). }
  rewrite (tenant_at_lookup _ _ _ Ht') in Hj'. exists t', j'. eauto.
Qed.

Lemma stable_job_life k id j : stable moves (job_at k id (job_life j)).
Proof. apply stable_job_at. intros ??? H. by etrans. Qed.

(** ** Executions *)

Lemma moving_claim db w : moving (executions_claim db w).
Proof.
  apply moving_tstmt. intros st now locked t a t'.
  destruct (pick_least _ _ _) as [[id e]|] eqn:Ep; [|intros [= <- <-]; by left].
  apply claim_pick_spec in Ep as (Hid & Hc & _). cbv zeta. case_match; [done|].
  intros [= <- <-]. right. by apply TM_claim.
Qed.

Lemma update_running_move id f t :
  (∀ e, t_executions t !! id = Some e → e_status e = "RUNNING" →
     tenant_move t (set_executions (<[id := f e]> (t_executions t)) t)) →
  maybe_move t (update_execution id ["RUNNING"] f t).
Proof.
  intros Hf. unfold update_execution.
  destruct (_ !! id) as [e|] eqn:He; [|by left].
  case_bool_decide as Hs; [|by left]. right. apply Hf; [done|by apply list_elem_of_singleton].
Qed.

Lemma moving_complete_success db id o : moving (executions_complete_success db id o).
Proof.
  apply moving_tstmt. intros ?????? [= <- <-]. apply update_running_move. intros. by apply TM_success.
Qed.

Lemma moving_complete_retry db id b : moving (executions_complete_retry db id b).
Proof.
  apply moving_tstmt. intros ??????. cbv zeta. case_match; [done|]. intros [= <- <-].
  apply update_running_move. intros. by apply TM_retry.
Qed.

Lemma moving_complete_failed db id : moving (executions_complete_failed db id).
Proof.
  apply moving_tstmt. intros ?????? [= <- <-]. apply update_running_move. intros. by apply TM_failed.
Qed.

Lemma safe_cancel_pending db job_id : safely (executions_cancel_pending_for_job db job_id).
Proof. apply safe_tstmt. intros ?????? [= <- <-]. right. apply TM_cancel_pending. Qed.

Lemma safe_cancel db id : safely (executions_cancel db id).
Proof.
  apply safe_tstmt. intros st now locked t a t'.
  destruct (t_executions t !! id) as [e|] eqn:He; [|intros [= <- <-]; by left].
  case_bool_decide as Hc; [|intros [= <- <-]; by left]. intros [= <- <-]. right.
  by apply TM_cancel.
Qed.

(** The table has no row that satisfies [P]. *)
Lemma not_exists_row {A} (P : A → Prop) `{!∀ x, Decision (P x)} (m : gmap string A) :
  ¬ Exists P (map_to_list m).*2 → map_Forall (λ _ x, ¬ P x) m.
Proof.
  intros Hn id x Hx Hp. apply Hn, list.Exists_exists. exists x. split; [|done].
  apply list_elem_of_fmap. exists (id, x). split; [done|]. by apply elem_of_map_to_list.
Qed.

(** The execution [id] has run at least [num] times. *)
Definition ran (k : string * string) (id : string) (num : Z) (σ : Store) : Prop :=
  ∃ t e, st_tenants σ !! k = Some t ∧ t_executions t !! id = Some e ∧ num ≤ e_attempt_count e.

Lemma stable_ran k id num : stable moves (ran k id num).
Proof.
  intros σ σ' Hm (t & e & Ht & He & Hn).
  destruct (moves_keep_tenants _ _ k Hm) as [t' Ht']; [by rewrite Ht|].
  destruct (moves_execs life_map _ _ Hm k id e) as (e' & He' & Hl).
  { by rewrite (execs_lookup _ _ _ Ht). }
  rewrite (execs_lookup _ _ _ Ht') in He'. exists t', e'. split_and!; [done..|].
  destruct Hl. lia.
Qed.

(** An attempt is reported by the task that claimed it. *)
Lemma keeps_attempts_insert db id num s a b c d e :
  preserves (keeps moves (ran (db_schema db, db_prefix db) id num))
    (attempts_insert db id num s a b c d e).
Proof.
  apply keeps_stmt; [apply _|apply stable_ran|]. intros st now locked σ r σ'.
  intros (t & ex & Ht & He & Hn) (t2 & t' & Ht2 & Eq & ->)%tquery_inv. simplify_eq.
  revert Eq. cbv zeta. repeat (case_match; try done). bool_prop. intros [= <- <-].
  eapply maybe_moves; [done|]. right.
  apply TM_attempt; simpl in *; [by apply eq_None_not_Some|done| |eauto].
  by apply (not_exists_row _).
Qed.

Lemma moving_logs_insert db id n l m : moving (execution_logs_insert db id n l m).
Proof.
  apply moving_tstmt. intros ??????. cbv zeta. repeat (case_match; try done). bool_prop.
  intros [= <- <-]. right. apply TM_log; simpl in *; [by apply eq_None_not_Some|done|].
  by apply not_eq_None_Some.
Qed.

(** The insertion of an execution whose job is there. *)
Lemma holds_execution_stmt db mk job_id F :
  (∀ j j', job_life j j' → F j → F j') →
  (∀ id now, fresh_execution (mk id now)) →
  (∀ j id now, F j → of_job j (mk id now)) →
  holds moves (job_at (db_schema db, db_prefix db) job_id F) (execution_stmt db mk)
    (λ _ _, True).
Proof.
  intros HF Hf Ho. apply holds_stmt; [apply _|by apply stable_job_at|].
  intros st now locked σ a σ' (t & j & Ht & Hj & Hp) (t2 & t' & Ht2 & Eq & ->)%tquery_inv.
  split; [|done]. simplify_eq. cbv zeta in Eq.
  destruct (insert_execution db _ _) as [t3| |] eqn:E; [|done..]. injection Eq as <- <-.
  eapply maybe_moves; [done|]. right.
  eapply (TM_execution t db _ job_id j); [apply Hf|done|by apply Ho|done].
Qed.

(** ** Jobs *)

Lemma job_stmt_query db mk st now locked σ a σ' :
  tquery db (λ st now _ t, let j := mk (stim_uuid st) now in
               t' <-? insert_job db j t; Ok (j, t')) st now locked σ = Ok (a, σ') →
  ∃ id now t t', a = mk id now ∧ st_tenants σ !! (db_schema db, db_prefix db) = Some t
    ∧ insert_job db a t = Ok t' ∧ σ' = set_tenant (db_schema db, db_prefix db) t' σ.
Proof.
  intros (t & t' & Ht & Eq & ->)%tquery_inv. cbv zeta in Eq.
  destruct (insert_job db _ _) as [t2| |] eqn:E; [|done..]. injection Eq as <- <-. eauto 10.
Qed.

Lemma holds_job_stmt db mk P :
  stable moves P → (∀ id now, fresh_job (mk id now)) →
  (∀ id now σ t, P σ → st_tenants σ !! (db_schema db, db_prefix db) = Some t →
     version_link (t_jobs t) (mk id now)) →
  holds moves P (job_stmt db mk) (λ j σ,
    (∃ id now, j = mk id now) ∧ job_at (db_schema db, db_prefix db) (j_job_id j) (job_life j) σ).
Proof.
  intros HP Hf Hv. apply holds_stmt; [apply _|done|].
  intros st now locked σ a σ' Hs (id & now' & t & t' & -> & Ht & Hi & ->)%job_stmt_query.
  pose proof (Hv id now' _ _ Hs Ht) as Hl. pose proof (insert_job_inv _ _ _ _ Hi) as (E & _).
  split; [|split; [eauto|]].
  - eapply maybe_moves; [done|]. right. by eapply TM_job.
  - exists t', (mk id now'). unfold set_tenant. simpl. rewrite lookup_insert_eq.
    split; [done|]. rewrite E. simpl. rewrite lookup_insert_eq. split; [done|reflexivity].
Qed.

Lemma stable_True : stable moves (λ _, True).
Proof. done. Qed.

(** A first version. *)
Lemma holds_first_job db mk :
  (∀ id now, fresh_job (mk id now)) →
  (∀ id now, j_previous_version_id (mk id now) = None ∧ j_version (mk id now) = 1) →
  holds moves (λ _, True) (job_stmt db mk) (λ j σ,
    (∃ id now, j = mk id now) ∧ job_at (db_schema db, db_prefix db) (j_job_id j) (job_life j) σ).
Proof.
  intros Hf Hv. apply holds_job_stmt; [apply stable_True|done|].
  intros id now σ t _ _. unfold version_link. by destruct (Hv id now) as [-> ->].
Qed.

(** A job and its first execution, which copies it. *)
Lemma safe_job_with_execution {A} db mkj mke (f : Job → Execution → A) :
  (∀ id now, fresh_job (mkj id now)) →
  (∀ id now, j_previous_version_id (mkj id now) = None ∧ j_version (mkj id now) = 1) →
  (∀ j id now, fresh_execution (mke j id now)) →
  (∀ jid jnow j id now, job_life (mkj jid jnow) j → of_job j (mke (mkj jid jnow) id now)) →
  safely (job <-- job_stmt db mkj; ex <-- execution_stmt db (mke job); se_ret (f job ex)).
Proof.
  intros Hfj Hv Hfe Ho. eapply (holds_safe _ _ (λ _ _, True)). eapply holds_bind; [apply _| |].
  { by apply holds_first_job. }
  intros j. eapply holds_bind with (Q := λ _ _, True); [apply _| |].
  - apply holds_pure. intros (jid & jnow & ->).
    apply (holds_execution_stmt db _ _ (job_life (mkj jid jnow))); [intros ????; by etrans|done|].
    intros. by apply Ho.
  - intros ex. apply safe_holds, preserves_ret, _.
Qed.

Lemma new_execution_fresh id job ep ty key status run_at input n now :
  status ∈ ["QUEUED"; "PENDING"] →
  fresh_execution (new_execution id job ep ty key status run_at input n now).
Proof. done. Qed.

Lemma safe_create_immediate db a b c d e : safely (jobs_create_immediate db a b c d e).
Proof.
  apply safe_job_with_execution; [done..| |].
  - intros. apply new_execution_fresh. set_solver.
  - intros jid jnow j id now [Hid He Ht _ _ _ _ Hi _ _ _]. by split_and!.
Qed.

Lemma safe_create_delayed db a b c d e f : safely (jobs_create_delayed db a b c d e f).
Proof.
  apply safe_job_with_execution; [done..| |].
  - intros. apply new_execution_fresh. set_solver.
  - intros jid jnow j id now [Hid He Ht _ _ _ _ Hi _ _ _]. by split_and!.
Qed.

Lemma safe_first_job db mk :
  (∀ id now, fresh_job (mk id now)) →
  (∀ id now, j_previous_version_id (mk id now) = None ∧ j_version (mk id now) = 1) →
  safely (job_stmt db mk).
Proof. intros Hf Hv. eapply holds_safe. by apply holds_first_job. Qed.

Lemma safe_create_cron db a b c d e f g h i : safely (jobs_create_cron db a b c d e f g h i).
Proof. by apply safe_first_job. Qed.

Lemma safe_jobs_cancel db id : safely (jobs_cancel db id).
Proof.
  apply safe_tstmt. intros st now locked t a t'.
  destruct (t_jobs t !! id) as [j|] eqn:Ej; [|intros [= <- <-]; by left].
  case_bool_decide as Ha; [|intros [= <- <-]; by left]. cbv zeta. intros [= <- <-]. right.
  by apply TM_retire.
Qed.

Lemma moving_retire_expired db : moving (jobs_retire_expired_cron_jobs db).
Proof. apply moving_tstmt. intros ?????? [= <- <-]. right. apply TM_retire_expired. Qed.

(** The new version [new] of the job [j]. *)
Definition next_version (new j : Job) : Prop :=
  j_version new = wrap64 (j_version j + 1) ∧ j_endpoint new = j_endpoint j
  ∧ j_endpoint_type new = j_endpoint_type j ∧ j_trigger_type j = "CRON".

Lemma next_version_life new j j' : job_life j j' → next_version new j → next_version new j'.
Proof.
  intros [_ He Ht Htr Hv _ _ _ _ _ _] (H1 & H2 & H3 & H4).
  unfold next_version. split_and!; congruence.
Qed.

Lemma holds_retire_and_replace db id new :
  holds moves (job_at (db_schema db, db_prefix db) id (next_version new))
    (jobs_retire_and_replace db id new) (λ _ _, True).
Proof.
  pose proof (stable_job_at (db_schema db, db_prefix db) id _ (next_version_life new)) as Hst.
  unfold jobs_retire_and_replace. eapply holds_bind; [apply _| |intros ?].
  - apply holds_stmt_keep; [apply _|done|].
    intros st now locked σ a σ' (t & t' & Ht & Eq & ->)%tquery_inv.
    eapply maybe_moves; [done|]. destruct (t_jobs t !! id) as [j|] eqn:Ej;
      [|injection Eq as <- <-; by left].
    case_bool_decide as Ha; injection Eq as <- <-; [right|by left]. by apply TM_retire.
  - eapply holds_weaken; [|done|]; [|by intros].
    apply holds_job_stmt; [apply Hst|done|].
    intros id2 now σ t (t2 & j & Ht2 & Hj & Hv & He & Hty & Htr) Ht. simplify_eq.
    unfold version_link. simpl. exists j. by rewrite Hv, He, Hty, Htr.
Qed.

(** ** pg_cron *)

Lemma safe_register p s j c : safely (register_pg_cron_conn p s j c).
Proof. apply safe_frame. by intros ?????? [= <- <-]. Qed.
Lemma safe_unregister s j : safely (unregister_pg_cron s j).
Proof.
  apply safe_frame. intros ??????. cbv beta zeta. case_match; [|done]. by intros [= <- <-].
Qed.
Lemma moving_unregister_conn s j : moving (unregister_pg_cron_conn s j).
Proof. apply moving_frame. by intros ?????? [= <- <-]. Qed.

Lemma cron_tick_move job_id uuid now db t t' :
  cron_tick_tenant job_id uuid now db t = Ok t' → maybe_move t t'.
Proof.
  unfold cron_tick_tenant. destruct (t_jobs t !! job_id) as [j|] eqn:Ej;
    [|intros [= <-]; by left].
  destruct (t_endpoints t !! _) as [e|]; [|intros [= <-]; by left].
  case_bool_decide; [|intros [= <-]; by left].
  destruct (cron_max_attempts e) as [n| |]; [|done..]. cbn [res_bind]. cbv zeta.
  destruct (execution_key_taken _ _ t); [intros [= <-]; by left|].
  intros Hi. right. eapply (TM_execution t db _ job_id j); [|done| |exact Hi].
  - apply new_execution_fresh. set_solver.
  - done.
Qed.

Lemma cron_fires_moves σ σ' : cron_fires σ σ' → moves σ σ'.
Proof.
  intros [σ0 name entry prefix schema job_id uuid now _ _]. unfold cron_tick.
  destruct (st_tenants σ0 !! (schema, prefix)) as [t|] eqn:Et; [|reflexivity].
  destruct (cron_tick_tenant _ _ _ _ t) as [t'| |] eqn:Ec; [|reflexivity..].
  eapply maybe_moves; [done|by eapply cron_tick_move].
Qed.

(** ** Named definitions *)

Lemma endpoints_where_none (P : Endpoint → bool) (Q : Endpoint → Prop) t :
  (∀ e, Q e → P e = true) → ¬ 0 < endpoints_where P t → no_endpoint Q t.
Proof.
  intros HQ Hn id e He Hq. apply Hn. unfold endpoints_where.
  destruct (size _) eqn:Es; [|lia]. apply map_size_empty_inv in Es.
  exfalso. assert (filter (λ kv, P kv.2 = true) (t_endpoints t) !! id = Some e) as Hf.
  { apply map_lookup_filter_Some. split; [done|]. by apply HQ. }
  rewrite Es in Hf. by rewrite lookup_empty in Hf.
Qed.

Lemma delete_named_inv {A} name r (m : gmap string A) b m' :
  delete_named name r m = Ok (b, m') → m' = m ∨ r = None ∧ m' = delete name m.
Proof.
  unfold delete_named. repeat (case_match; try done); intros [= <- <-]; [by right|by left].
Qed.

Lemma safe_payload_specs_create db a b : safely (payload_specs_create db a b).
Proof.
  apply safe_tstmt. intros ??????. cbv zeta. case_match; [done|]. intros [= <- <-]. right.
  apply TM_payload_spec. by left.
Qed.
Lemma safe_payload_specs_update db a b : safely (payload_specs_update db a b).
Proof.
  apply safe_tstmt. intros ??????. cbv zeta. case_match; intros [= <- <-]; [|by left]. right.
  apply TM_payload_spec. right. eauto.
Qed.
Lemma safe_payload_specs_delete db a : safely (payload_specs_delete db a).
Proof.
  apply safe_tstmt. intros st now locked t r t'. cbv zeta.
  destruct (delete_named _ _ _) as [[b m]| |] eqn:E; [|done..]. intros [= <- <-]. simpl.
  apply delete_named_inv in E as [->|[Hr ->]]; [left; by destruct t|right].
  apply TM_payload_spec_delete. case_bool_decide as Hn; [done|].
  eapply endpoints_where_none; [|exact Hn]. intros e He. by apply bool_decide_eq_true.
Qed.
Lemma safe_configs_create db a b : safely (configs_create db a b).
Proof.
  apply safe_tstmt. intros ??????. cbv zeta. case_match; [done|]. intros [= <- <-]. right.
  apply TM_config. by left.
Qed.
Lemma safe_configs_update db a b : safely (configs_update db a b).
Proof.
  apply safe_tstmt. intros ??????. cbv zeta. case_match; intros [= <- <-]; [|by left]. right.
  apply TM_config. right. eauto.
Qed.
Lemma safe_configs_delete db a : safely (configs_delete db a).
Proof.
  apply safe_tstmt. intros st now locked t r t'. cbv zeta.
  destruct (delete_named _ _ _) as [[b m]| |] eqn:E; [|done..]. intros [= <- <-]. simpl.
  apply delete_named_inv in E as [->|[Hr ->]]; [left; by destruct t|right].
  apply TM_config_delete. case_bool_decide as Hn; [done|].
  eapply endpoints_where_none; [|exact Hn]. intros e He. by apply bool_decide_eq_true.
Qed.
Lemma safe_secrets_create db a b : safely (secrets_create db a b).
Proof.
  apply safe_tstmt. intros ??????. cbv zeta. case_match; [done|]. intros [= <- <-]. right.
  apply TM_secret. by left.
Qed.
Lemma safe_secrets_update db a b : safely (secrets_update db a b).
Proof.
  apply safe_tstmt. intros ??????. cbv zeta. case_match; intros [= <- <-]; [|by left]. right.
  apply TM_secret. right. eauto.
Qed.
Lemma safe_secrets_delete db a : safely (secrets_delete db a).
Proof.
  apply safe_tstmt. intros st now locked t r t'. cbv zeta.
  destruct (delete_named _ _ _) as [[b m]| |] eqn:E; [|done..]. intros [= <- <-]. simpl.
  apply delete_named_inv in E as [->|[Hr ->]]; [left; by destruct t|right]. apply TM_secret_delete.
Qed.

Lemma safe_endpoints_create db a b c d e f : safely (endpoints_create db a b c d e f).
Proof.
  apply safe_tstmt. intros st now locked t r t'. cbv zeta.
  destruct (insert_endpoint _ _ _) eqn:E; [|done..]. intros [= <- <-]. right. by eapply TM_endpoint.
Qed.
Lemma safe_endpoints_update db a b c d e : safely (endpoints_update db a b c d e).
Proof.
  apply safe_tstmt. intros st now locked t r t'. cbv zeta.
  destruct (_ !! a) as [ep|] eqn:Ee; [|intros [= <- <-]; by left].
  destruct (endpoint_refs db _ t) eqn:Er; [done|]. intros [= <- <-]. right.
  by eapply (TM_endpoint_update _ db).
Qed.
Lemma safe_endpoints_delete db a : safely (endpoints_delete db a).
Proof.
  apply safe_tstmt. intros st now locked t r t'. cbv zeta.
  destruct (delete_named _ _ _) as [[b m]| |] eqn:E; [|done..]. intros [= <- <-]. simpl.
  apply delete_named_inv in E as [->|[Hr ->]]; [left; by destruct t|right].
  apply TM_endpoint_delete. destruct (endpoint_has_job a _ t) eqn:Ej; [done|].
  apply bool_decide_eq_false in Ej. intros id j Hj He.
  by apply (not_exists_row _ _ Ej _ _ Hj).
Qed.

(** ** Provisioning *)

Lemma safe_create_table s p n : safely (create_table s p n).
Proof.
  apply safe_stmt; [apply _|]. intros st now locked σ a σ'. cbv beta zeta.
  destruct (_ && _) eqn:E; intros [= <- <-]; [|reflexivity].
  apply andb_true_iff in E as [_ E%negb_true_iff%bool_decide_eq_false].
  apply rtc_once, SM_provision. by apply eq_None_not_Some.
Qed.

Lemma safe_provision_schema s p : safely (provision_schema s p).
Proof.
  unfold provision_schema. generalize workspace_tables. intros tables.
  repeat (apply preserves_bind; [apply _| |intros ?]);
    try (apply safe_frame; by intros ?????? [= <- <-]).
  - apply safe_scoped_connection, _.
  - apply preserves_iter; [apply _|]. intros ?. apply safe_create_table.
Qed.

#[export] Hint Resolve moving_safe moving_claim moving_complete_success moving_complete_retry
  moving_complete_failed moving_logs_insert moving_retire_expired moving_unregister_conn
  safe_read
  safe_cancel_pending safe_cancel
  safe_create_immediate safe_create_delayed safe_create_cron safe_first_job safe_jobs_cancel
  safe_register safe_unregister
  safe_payload_specs_create safe_payload_specs_update safe_payload_specs_delete
  safe_configs_create safe_configs_update safe_configs_delete
  safe_secrets_create safe_secrets_update safe_secrets_delete
  safe_endpoints_create safe_endpoints_update safe_endpoints_delete
  safe_provision_schema : preserves.
