(* ===== verification/ApiJobs.v ===== *)
(** * Job and execution handlers ([api/src/handlers/jobs.rs], [executions.rs])

    Each handler on its session, from the extracted arguments to the response.
    Authentication and the workspace lookup happen in the extractors, before the
    handler runs. What a handler reads from the process -- the clock, a generated
    key -- is an argument. *)

From S2P Require Export Statements.
#[local] Open Scope Z_scope.

(** [jsonschema]: compiling a schema, and the messages of a validation. *)
Class JsonSchemaCrate := schema_compile : json → res string (json → list string).

(** A handler. *)
Notation API := (SE Session AppError).

(** [.await?] on a database call. *)
Definition q {A} (m : DB A) : API A := se_map_err AppError_from m.

Definition Ok200 (v : json) : API HttpResponse := se_ret (resp 200 v).
Definition data (v : json) : json := Json.obj [("data", v)].

(** [let mut conn = scoped_connection(..)] and the [DbContext] over it. *)
Definition ctx_of (prefix : string) (ws : WorkspaceContext) : DbContext :=
  {| db_schema := wc_schema_name ws; db_prefix := prefix |}.

(** [scoped_transaction(..).await?], and the rest of the function in its scope. *)
Definition with_tx {A} (ws : WorkspaceContext) (m : API A) : API A :=
  q (scoped_transaction (wc_schema_name ws)) ;;; in_tx m.

(** Pages: one row more than the limit is asked for, to know whether there is
    another page. *)
Definition paginate {A} (limit : Z) (items : list A) (key : A → string) : list A * option string :=
  let has_more := bool_decide (limit < Z.of_nat (length items)) in
  let items := take (Z.to_nat limit) items in
  (items, if has_more then key <$> list.last items else None).

Section jobs.
Context `{!Chrono} `{!CronCrate} `{!Base64} `{!JsonSchemaCrate}.
Implicit Types (ws : WorkspaceContext) (prefix : string).

Definition validate_input (input schema : json) : res AppError unit :=
  compiled <-? res_map_err InvalidSchema (schema_compile schema);
  match compiled input with
  | [] => Ok tt
  | msgs => Err (InputValidationFailed (Str.join "; " msgs))
  end.

(** [schedule.after(&after.with_timezone(tz)).next()] *)
Definition compute_next_cron (schedule : Schedule) (tz : Tz) (after : Z) : option Z :=
  schedule_next_after schedule tz after.

Definition job_summary_fields (job : Job) : list (string * json) := [
  ("job_id", JString (j_job_id job));
  ("endpoint", JString (j_endpoint job));
  ("endpoint_type", JString (j_endpoint_type job));
  ("trigger", JString (j_trigger_type job));
  ("status", JString (j_status job));
  ("version", JInt (j_version job));
  ("idempotency_key", Json.opt_str (j_idempotency_key job));
  ("input", Json.opt_json (j_input job));
  ("run_at", Json.opt ts_json (j_run_at job));
  ("cron", Json.opt_str (j_cron_expression job));
  ("timezone", Json.opt_str (j_cron_timezone job));
  ("starts_at", Json.opt ts_json (j_cron_starts_at job));
  ("ends_at", Json.opt ts_json (j_cron_ends_at job));
  ("next_run_at", Json.opt ts_json (j_cron_next_run_at job));
  ("created_at", ts_json (j_created_at job))].

Definition job_summary (job : Job) : json := Json.obj (job_summary_fields job).

Definition execution_brief (id status : string) (created_at : Z) : json := Json.obj [
  ("execution_id", JString id); ("status", JString status); ("created_at", ts_json created_at)].

Definition job_response (job : Job) (exec : option Execution) : json :=
  Json.obj (job_summary_fields job ++
    match exec with
    | Some e => [("execution", execution_brief (e_execution_id e) (e_status e) (e_created_at e))]
    | None => []
    end).

(** ** create *)

Definition created_body (r : CreateJobResult) (extra : list (string * json)) : json :=
  let job := cr_job r in
  data (Json.obj ([
    ("job_id", JString (j_job_id job));
    ("endpoint", JString (j_endpoint job));
    ("endpoint_type", JString (j_endpoint_type job));
    ("trigger", JString (j_trigger_type job));
    ("status", JString (j_status job));
    ("version", JInt (j_version job));
    ("idempotency_key", Json.opt_str (j_idempotency_key job));
    ("input", Json.opt_json (j_input job))] ++ extra ++ [
    ("execution", execution_brief (cr_execution_id r) (cr_execution_status r)
                    (cr_execution_created_at r));
    ("created_at", ts_json (j_created_at job))])).

Definition cron_created_body (job : Job) : json :=
  data (Json.obj [
    ("job_id", JString (j_job_id job));
    ("endpoint", JString (j_endpoint job));
    ("endpoint_type", JString (j_endpoint_type job));
    ("trigger", JString (j_trigger_type job));
    ("status", JString (j_status job));
    ("version", JInt (j_version job));
    ("idempotency_key", Json.opt_str (j_idempotency_key job));
    ("cron", Json.opt_str (j_cron_expression job));
    ("timezone", Json.opt_str (j_cron_timezone job));
    ("starts_at", Json.opt ts_json (j_cron_starts_at job));
    ("ends_at", Json.opt ts_json (j_cron_ends_at job));
    ("next_run_at", Json.opt ts_json (j_cron_next_run_at job));
    ("input", Json.opt_json (j_input job));
    ("created_at", ts_json (j_created_at job))]).

Definition is_internal (endpoint_type : string) : bool :=
  bool_decide (EndpointType_from_str_val endpoint_type = Some INTERNAL).

(** The override wins when it is positive. *)
Definition job_max_attempts (body : CreateJob) (ep : Endpoint) : Z :=
  match cj_max_attempts body with
  | Some n => if bool_decide (0 < n) then n else rp_max_attempts (get_retry_policy ep)
  | None => rp_max_attempts (get_retry_policy ep)
  end.

Definition duplicate_key : AppError := Conflict "Job with this idempotency key already exists".

Definition create_immediate_job prefix ws (generated_key : string) (body : CreateJob)
    (ep : Endpoint) : API HttpResponse :=
  let key := default generated_key (cj_idempotency_key body) in
  with_tx ws (
    result <-- se_map_err (λ e, if has_constraint e then duplicate_key else AppError_from e)
      (jobs_create_immediate (ctx_of prefix ws) (cj_endpoint body) (ep_endpoint_type ep) key
         (cj_input body) (job_max_attempts body ep));
    q commit ;;;
    se_ret (resp 201 (created_body result []))).

(** No [map_err] here: a violated constraint is a database error. *)
Definition create_delayed_job prefix ws (body : CreateJob) (ep : Endpoint) : API HttpResponse :=
  key <-- se_ok_or (cj_idempotency_key body)
    (InvalidRequest "idempotency_key required for DELAYED jobs");
  run_at <-- se_ok_or (cj_run_at body) (InvalidRequest "run_at required for DELAYED jobs");
  with_tx ws (
    result <-- q (jobs_create_delayed (ctx_of prefix ws) (cj_endpoint body) (ep_endpoint_type ep)
                    key (cj_input body) run_at (job_max_attempts body ep));
    q commit ;;;
    se_ret (resp 201 (created_body result [("run_at", Json.opt ts_json (j_run_at (cr_job result)))]))).

Definition cron_create_error (body : CreateJob) (e : SqlError) : AppError :=
  match e with
  | UniqueViolation _ => duplicate_key
  | ForeignKeyViolation _ => EndpointNotFound (cj_endpoint body)
  | _ => AppError_from e
  end.

Definition create_cron_job prefix ws (now : Z) (body : CreateJob) (ep : Endpoint) :
    API HttpResponse :=
  cron_expr <-- se_ok_or (cj_cron body) (InvalidRequest "cron required for CRON jobs");
  tz_str <-- se_ok_or (cj_timezone body) (InvalidRequest "timezone required for CRON jobs");
  schedule <-- se_lift (to_schedule cron_expr);
  tz <-- se_ok_or (parse_tz tz_str) (InvalidRequest ("Invalid timezone: " +:+ tz_str));
  let starts_at := default now (cj_starts_at body) in
  next_run <-- se_ok_or (compute_next_cron schedule tz starts_at)
    (InvalidCron "No upcoming run for this cron schedule");
  with_tx ws (
    job <-- se_map_err (cron_create_error body)
      (jobs_create_cron (ctx_of prefix ws) (cj_endpoint body) (ep_endpoint_type ep)
         (cj_idempotency_key body) (cj_input body) (cron_str cron_expr) tz_str
         (Some starts_at) (cj_ends_at body) next_run);
    q (register_pg_cron_conn prefix (wc_schema_name ws) (j_job_id job) (cron_str cron_expr)) ;;;
    q commit ;;;
    se_ret (resp 201 (cron_created_body job))).

(** The checks before the transaction; [Some] is the response to a replay. *)
Definition create_checks prefix ws (body : CreateJob) : API (Endpoint * option HttpResponse) :=
  let db := ctx_of prefix ws in
  q (scoped_connection (wc_schema_name ws)) ;;;
  found <-- q (endpoints_get db (cj_endpoint body));
  ep <-- se_ok_or found (EndpointNotFound (cj_endpoint body));
  (if is_internal (ep_endpoint_type ep)
   then se_err (InvalidRequest ("Endpoint '" +:+ cj_endpoint body +:+
                  "' is internal and cannot be used for user-created jobs"))
   else se_ret tt) ;;;
  match ep_payload_spec_ref ep, cj_input body with
  | Some ps_name, Some input =>
      found <-- q (payload_specs_get db ps_name);
      spec <-- se_ok_or found (InvalidPayloadSpecRef ps_name);
      se_lift (validate_input input (p_schema_json spec))
  | _, _ => se_ret tt
  end ;;;
  match cj_idempotency_key body with
  | Some key =>
      existing <-- q (jobs_get_by_idempotency db (cj_endpoint body) key);
      match existing with
      | Some job =>
          exec <-- q (executions_get_for_job db (j_job_id job));
          se_ret (ep, Some (resp 200 (data (job_response job exec))))
      | None => se_ret (ep, None)
      end
  | None => se_ret (ep, None)
  end.

Definition jobs_create prefix ws (now : Z) (generated_key : string) (body : CreateJob) :
    API HttpResponse :=
  trigger <-- se_ok_or (TriggerType_from_str_val (cj_trigger body))
    (InvalidRequest ("Invalid trigger: " +:+ cj_trigger body));
  checked <-- create_checks prefix ws body;
  let '(ep, replay) := checked in
  match replay with
  | Some r => se_ret r
  | None =>
      match trigger with
      | IMMEDIATE => create_immediate_job prefix ws generated_key body ep
      | DELAYED => create_delayed_job prefix ws body ep
      | CRON => create_cron_job prefix ws now body ep
      end
  end.

(** ** list, get *)

Definition jobs_list_handler prefix ws (params : PaginationParams) (filters : JobFilters) :
    API HttpResponse :=
  q (scoped_connection (wc_schema_name ws)) ;;;
  let limit := effective_limit params in
  items <-- q (jobs_list (ctx_of prefix ws) (decode_cursor params) (limit + 1) filters);
  let '(items, next) := paginate limit items j_job_id in
  Ok200 (PaginatedResponse (job_summary <$> items) (encode_cursor <$> next)).

Definition jobs_get_handler prefix ws (job_id : string) : API HttpResponse :=
  let db := ctx_of prefix ws in
  q (scoped_connection (wc_schema_name ws)) ;;;
  found <-- q (jobs_get db job_id);
  job <-- se_ok_or found (JobNotFound job_id);
  exec <-- q (executions_get_for_job db (j_job_id job));
  Ok200 (data (job_response job exec)).

(** ** update *)

(** [new_job]: a clone of the old job with the new schedule; its [job_id] is
    still the old one. *)
Definition updated_job (old : Job) (body : UpdateJob) (cron tz : string) (next_run : Z) : Job := {|
  j_job_id := j_job_id old; j_endpoint := j_endpoint old;
  j_endpoint_type := j_endpoint_type old; j_trigger_type := j_trigger_type old;
  j_status := j_status old; j_version := wrap64 (j_version old + 1);
  j_previous_version_id := j_previous_version_id old;
  j_replaced_by_id := j_replaced_by_id old; j_idempotency_key := j_idempotency_key old;
  j_input := match uj_input body with Some i => Some i | None => j_input old end;
  j_run_at := j_run_at old; j_cron_expression := Some cron; j_cron_timezone := Some tz;
  j_cron_starts_at := match uj_starts_at body with Some s => Some s | None => j_cron_starts_at old end;
  j_cron_ends_at := match uj_ends_at body with Some e => Some e | None => j_cron_ends_at old end;
  j_cron_next_run_at := Some next_run; j_cron_last_tick_at := j_cron_last_tick_at old;
  j_created_at := j_created_at old; j_retired_at := j_retired_at old |}.

Definition updatable (job : Job) : res AppError unit :=
  if negb (bool_decide (j_trigger_type job = "CRON"))
  then Err (JobNotUpdatable "Only CRON jobs can be updated")
  else if negb (bool_decide (j_status job = "ACTIVE"))
  then Err (JobNotUpdatable "Job is not active")
  else if is_internal (j_endpoint_type job)
  then Err (JobNotUpdatable "Internal invokr jobs cannot be modified through the API")
  else Ok tt.

Definition update_cron_expr (old : Job) (body : UpdateJob) : res AppError PgCronExpr :=
  match uj_cron body with
  | Some c => Ok c
  | None =>
      expr <-? ok_or (j_cron_expression old) (InvalidCron "Existing job has no cron expression");
      PgCronExpr_try_from expr
  end.

Definition updated_body (created : Job) : json :=
  data (Json.obj [
    ("job_id", JString (j_job_id created));
    ("endpoint", JString (j_endpoint created));
    ("endpoint_type", JString (j_endpoint_type created));
    ("trigger", JString (j_trigger_type created));
    ("status", JString (j_status created));
    ("version", JInt (j_version created));
    ("previous_version_id", Json.opt_str (j_previous_version_id created));
    ("cron", Json.opt_str (j_cron_expression created));
    ("timezone", Json.opt_str (j_cron_timezone created));
    ("next_run_at", Json.opt ts_json (j_cron_next_run_at created));
    ("input", Json.opt_json (j_input created));
    ("created_at", ts_json (j_created_at created))]).

(** The version flip and the swap of the pg_cron entries, in one transaction. *)
Definition replace_job prefix ws (job_id : string) (new_job : Job) (cron : string) :
    API HttpResponse :=
  with_tx ws (
    created <-- q (jobs_retire_and_replace (ctx_of prefix ws) job_id new_job);
    q (unregister_pg_cron_conn (wc_schema_name ws) job_id) ;;;
    q (register_pg_cron_conn prefix (wc_schema_name ws) (j_job_id created) cron) ;;;
    q commit ;;;
    Ok200 (updated_body created)).

Definition jobs_update prefix ws (now : Z) (job_id : string) (body : UpdateJob) :
    API HttpResponse :=
  q (scoped_connection (wc_schema_name ws)) ;;;
  found <-- q (jobs_get (ctx_of prefix ws) job_id);
  old_job <-- se_ok_or found (JobNotFound job_id);
  se_lift (updatable old_job) ;;;
  cron_expr <-- se_lift (update_cron_expr old_job body);
  let tz_str := default (default "UTC" (j_cron_timezone old_job)) (uj_timezone body) in
  schedule <-- se_lift (to_schedule cron_expr);
  tz <-- se_ok_or (parse_tz tz_str) (InvalidRequest ("Invalid timezone: " +:+ tz_str));
  next_run <-- se_ok_or (compute_next_cron schedule tz now) (InvalidCron "No upcoming run");
  replace_job prefix ws job_id
    (updated_job old_job body (cron_str cron_expr) tz_str next_run) (cron_str cron_expr).

(** ** cancel *)

Definition jobs_cancel_handler prefix ws (job_id : string) : API HttpResponse :=
  let db := ctx_of prefix ws in
  with_tx ws (
    found <-- q (jobs_get db job_id);
    job <-- se_ok_or found (JobNotFound job_id);
    (if bool_decide (j_status job = "RETIRED") then se_err (Conflict "Job is already retired")
     else if is_internal (j_endpoint_type job)
     then se_err (Conflict "Internal invokr jobs cannot be cancelled through the API")
     else se_ret tt) ;;;
    (if bool_decide (j_trigger_type job = "CRON") then se_ret tt
     else q (executions_cancel_pending_for_job db job_id) ;;; se_ret tt) ;;;
    cancelled <-- q (jobs_cancel db job_id);
    cancelled <-- se_ok_or cancelled (Conflict "Job could not be cancelled");
    se_when (bool_decide (j_trigger_type job = "CRON"))
      (q (unregister_pg_cron_conn (wc_schema_name ws) job_id)) ;;;
    q commit ;;;
    Ok200 (data (job_summary cancelled))).

(** ** status *)

Definition count_status (ss : list string) (execs : list Execution) : nat :=
  length (filter (λ e, e_status e ∈ ss) execs).

Definition job_health (execs : list Execution) : string :=
  let succeeded := count_status ["SUCCESS"] execs in
  let failed := count_status ["FAILED"] execs in
  if bool_decide (execs = []) then "IDLE"
  else if bool_decide (succeeded < failed)%nat then "FAILING"
  else if bool_decide (0 < failed)%nat then "DEGRADED"
  else "HEALTHY".

Definition status_body (job : Job) (execs : list Execution) : json :=
  let count ss := JInt (Z.of_nat (count_status ss execs)) in
  data (Json.obj [
    ("job_id", JString (j_job_id job));
    ("job_status", JString (j_status job));
    ("latest_execution", Json.opt (λ e, Json.obj [
       ("execution_id", JString (e_execution_id e));
       ("status", JString (e_status e));
       ("attempt_count", JInt (e_attempt_count e));
       ("max_attempts", JInt (e_max_attempts e));
       ("started_at", Json.opt ts_json (e_started_at e));
       ("completed_at", Json.opt ts_json (e_completed_at e))]) (head execs));
    ("endpoint", JString (j_endpoint job));
    ("endpoint_type", JString (j_endpoint_type job));
    ("trigger", JString (j_trigger_type job));
    ("health", JString (job_health execs));
    ("version", JInt (j_version job));
    ("last_execution", Json.opt (λ e, Json.obj [
       ("execution_id", JString (e_execution_id e));
       ("status", JString (e_status e));
       ("started_at", Json.opt ts_json (e_started_at e));
       ("completed_at", Json.opt ts_json (e_completed_at e));
       ("attempt_number", JInt (e_attempt_count e))])
       (head (filter (λ e, e_status e ∈ ["SUCCESS"; "FAILED"]) execs)));
    ("active_executions", Json.obj [
       ("pending", count ["PENDING"; "QUEUED"]);
       ("running", count ["RUNNING"; "RETRYING"]);
       ("total", count ["PENDING"; "QUEUED"; "RUNNING"; "RETRYING"])]);
    ("cron", if bool_decide (j_trigger_type job = "CRON") then Json.obj [
               ("expression", Json.opt_str (j_cron_expression job));
               ("next_run_at", Json.opt ts_json (j_cron_next_run_at job));
               ("last_tick_at", Json.opt ts_json (j_cron_last_tick_at job))] else JNull)]).

Definition jobs_status_handler prefix ws (job_id : string) : API HttpResponse :=
  let db := ctx_of prefix ws in
  q (scoped_connection (wc_schema_name ws)) ;;;
  found <-- q (jobs_get db job_id);
  job <-- se_ok_or found (JobNotFound job_id);
  execs <-- q (executions_list_for_job db job_id None 200);
  Ok200 (status_body job execs).

(** ** versions, executions of a job *)

Definition jobs_versions_handler prefix ws (job_id : string) : API HttpResponse :=
  let db := ctx_of prefix ws in
  q (scoped_connection (wc_schema_name ws)) ;;;
  found <-- q (jobs_get db job_id);
  se_ok_or found (JobNotFound job_id) ;;;
  versions <-- q (jobs_get_versions db job_id);
  Ok200 (data (JArray (job_summary <$> versions))).

Definition execution_item (e : Execution) : json := Json.obj [
  ("execution_id", JString (e_execution_id e));
  ("job_id", JString (e_job_id e));
  ("status", JString (e_status e));
  ("attempt_count", JInt (e_attempt_count e));
  ("max_attempts", JInt (e_max_attempts e));
  ("input", Json.opt_json (e_input e));
  ("output", Json.opt_json (e_output e));
  ("run_at", ts_json (e_run_at e));
  ("started_at", Json.opt ts_json (e_started_at e));
  ("completed_at", Json.opt ts_json (e_completed_at e));
  ("created_at", ts_json (e_created_at e))].

Definition jobs_list_executions_handler prefix ws (job_id : string) (params : PaginationParams) :
    API HttpResponse :=
  let db := ctx_of prefix ws in
  q (scoped_connection (wc_schema_name ws)) ;;;
  found <-- q (jobs_get db job_id);
  se_ok_or found (JobNotFound job_id) ;;;
  let limit := effective_limit params in
  items <-- q (executions_list_for_job db job_id (decode_cursor params) (limit + 1));
  let '(items, next) := paginate limit items e_execution_id in
  Ok200 (PaginatedResponse (execution_item <$> items) (encode_cursor <$> next)).

(** ** Executions *)

Definition executions_get_handler prefix ws (execution_id : string) : API HttpResponse :=
  q (scoped_connection (wc_schema_name ws)) ;;;
  found <-- q (executions_get (ctx_of prefix ws) execution_id);
  e <-- se_ok_or found (ExecutionNotFound execution_id);
  Ok200 (data (Json.obj [
    ("execution_id", JString (e_execution_id e));
    ("job_id", JString (e_job_id e));
    ("endpoint", JString (e_endpoint e));
    ("endpoint_type", JString (e_endpoint_type e));
    ("status", JString (e_status e));
    ("input", Json.opt_json (e_input e));
    ("output", Json.opt_json (e_output e));
    ("attempt_count", JInt (e_attempt_count e));
    ("max_attempts", JInt (e_max_attempts e));
    ("worker_id", Json.opt_str (e_worker_id e));
    ("run_at", ts_json (e_run_at e));
    ("started_at", Json.opt ts_json (e_started_at e));
    ("completed_at", Json.opt ts_json (e_completed_at e));
    ("duration_ms", Json.opt_int (e_duration_ms e));
    ("created_at", ts_json (e_created_at e))])).

Definition executions_cancel_handler prefix ws (execution_id : string) : API HttpResponse :=
  let db := ctx_of prefix ws in
  q (scoped_connection (wc_schema_name ws)) ;;;
  found <-- q (executions_get db execution_id);
  e <-- se_ok_or found (ExecutionNotFound execution_id);
  if bool_decide (e_status e ∈ ["PENDING"; "QUEUED"]) then
    cancelled <-- q (executions_cancel db execution_id);
    c <-- se_ok_or cancelled (ExecutionNotCancellable "Could not cancel");
    Ok200 (data (Json.obj [("execution_id", JString (e_execution_id c));
                           ("status", JString (e_status c))]))
  else se_err (ExecutionNotCancellable ("Execution is in " +:+ e_status e +:+ " state")).

Definition list_attempts_handler prefix ws (execution_id : string) : API HttpResponse :=
  let db := ctx_of prefix ws in
  q (scoped_connection (wc_schema_name ws)) ;;;
  found <-- q (executions_get db execution_id);
  se_ok_or found (ExecutionNotFound execution_id) ;;;
  attempts <-- q (attempts_list_for_execution db execution_id);
  Ok200 (data (JArray ((λ a, Json.obj [
    ("attempt_id", JString (a_attempt_id a));
    ("attempt_number", JInt (a_attempt_number a));
    ("status", JString (a_status a));
    ("started_at", ts_json (a_started_at a));
    ("completed_at", Json.opt ts_json (a_completed_at a));
    ("duration_ms", Json.opt_int (a_duration_ms a));
    ("output", Json.opt_json (a_output a));
    ("error", Json.opt_json (a_error a))]) <$> attempts))).

Definition list_logs_handler prefix ws (execution_id : string) : API HttpResponse :=
  let db := ctx_of prefix ws in
  q (scoped_connection (wc_schema_name ws)) ;;;
  found <-- q (executions_get db execution_id);
  se_ok_or found (ExecutionNotFound execution_id) ;;;
  logs <-- q (execution_logs_list_for_execution db execution_id);
  Ok200 (data (JArray ((λ l, Json.obj [
    ("log_id", JString (l_log_id l));
    ("attempt_number", JInt (l_attempt_number l));
    ("level", JString (l_level l));
    ("message", JString (l_message l));
    ("logged_at", ts_json (l_logged_at l))]) <$> logs))).
End jobs.
