(* ===== verification/Crypto.v ===== *)
(** * Secrets at rest ([crypto.rs])

    AES-256-GCM is the library's; what is modelled is the code around it: the
    hexadecimal key, the nonce in front of the ciphertext, the errors. *)

From Stdlib Require Import Ascii.
From S2P Require Export Models.
#[local] Open Scope Z_scope.

(** [Aes256Gcm]: key, nonce, text. *)
Class Aes256Gcm := {
  aead_encrypt : list Z → list Z → list Z → option (list Z);
  aead_decrypt : list Z → list Z → list Z → option (list Z);
}.

(** [String::from_utf8], [s.as_bytes()] *)
Class Utf8 := utf8_valid : string → bool.

Definition as_bytes (s : string) : list Z := (λ c, Z.of_nat (nat_of_ascii c)) <$> Str.chars s.
Definition of_bytes (l : list Z) : string :=
  foldr (λ b s, String (ascii_of_nat (Z.to_nat b)) s) "" l.

(** ** [hex_decode] *)

Definition hex_digit (c : ascii) : option Z :=
  let n := Z.of_nat (nat_of_ascii c) in
  if bool_decide (48 ≤ n ≤ 57) then Some (n - 48)
  else if bool_decide (65 ≤ n ≤ 70) then Some (n - 55)
  else if bool_decide (97 ≤ n ≤ 102) then Some (n - 87)
  else None.

(** [u8::from_str_radix(s, 16)] of the two bytes [a], [b]: a leading [+] is
    accepted. *)
Definition from_str_radix16 (a b : ascii) : option Z :=
  if bool_decide (a = "+"%char) then hex_digit b
  else h ← hex_digit a; l ← hex_digit b; Some (16 * h + l).

(** A byte that continues a character: slicing before it panics. *)
Definition is_continuation (c : ascii) : bool :=
  bool_decide (128 ≤ Z.of_nat (nat_of_ascii c) ≤ 191).

Fixpoint hex_pairs (s : list ascii) : res string (list Z) :=
  match s with
  | a :: b :: r =>
      if is_continuation a || match r with c :: _ => is_continuation c | [] => false end
      then Panic 5
      else
        x <-? ok_or (from_str_radix16 a b) "invalid digit found in string";
        xs <-? hex_pairs r;
        Ok (x :: xs)
  | _ => Ok []
  end.

Definition hex_decode (hex : string) : res string (list Z) :=
  if negb (bool_decide (String.length hex = 64%nat))
  then Err "Encryption key must be 64 hex chars (32 bytes)"
  else hex_pairs (Str.chars hex).

Section crypto.
Context `{!Aes256Gcm} `{!Utf8}.

(** The twelve random nonce bytes are an argument. *)
Definition encrypt (nonce : list Z) (plaintext key_hex : string) : res string (list Z) :=
  key_bytes <-? hex_decode key_hex;
  if negb (bool_decide (length key_bytes = 32%nat)) then Err "Invalid key length"
  else
    ciphertext <-? ok_or (aead_encrypt key_bytes nonce (as_bytes plaintext)) "Encryption failed";
    Ok (nonce ++ ciphertext).

Definition decrypt (encrypted : list Z) (key_hex : string) : res string string :=
  if bool_decide (length encrypted < 12)%nat then Err "Encrypted data too short"
  else
    key_bytes <-? hex_decode key_hex;
    if negb (bool_decide (length key_bytes = 32%nat)) then Err "Invalid key length"
    else
      plaintext <-? ok_or (aead_decrypt key_bytes (take 12 encrypted) (drop 12 encrypted))
                      "Decryption failed";
      if utf8_valid (of_bytes plaintext) then Ok (of_bytes plaintext)
      else Err "invalid utf-8 sequence".
End crypto.

(** ** Lemmas *)

Lemma of_as_bytes s : of_bytes (as_bytes s) = s.
Proof.
  unfold of_bytes, as_bytes. induction s as [|c s IH]; [done|].
  cbn. rewrite Nat2Z.id, ascii_nat_embedding. f_equal. exact IH.
Qed.

Lemma hex_pairs_length s l : hex_pairs s = Ok l → length l = (length s / 2)%nat.
Proof.
  revert l. induction s as [s IH] using (induction_ltof1 _ (@length ascii)). unfold ltof in IH.
  intros l. destruct s as [|a [|b r]]; [by intros [= <-]..|].
  cbn [hex_pairs]. destruct (_ || _); [done|].
  destruct (from_str_radix16 a b); [|done]. cbn [ok_or res_bind].
  destruct (hex_pairs r) as [xs| |] eqn:E; [|done..]. intros [= <-].
  apply IH in E; [|simpl; lia]. cbn [length]. rewrite E.
  change (S (S (length r))) with (2 + length r)%nat.
  replace (2 + length r)%nat with (length r + 1 * 2)%nat by lia.
  rewrite Nat.div_add by lia. lia.
Qed.

(** A key that decodes is 32 bytes long: the cipher's length check cannot fail. *)
Lemma hex_decode_length hex l : hex_decode hex = Ok l → length l = 32%nat.
Proof.
  unfold hex_decode. case_bool_decide as Hl; [|done]. simpl.
  intros H%hex_pairs_length. by rewrite H, length_chars, Hl.
Qed.
