(* ===== verification/ApiCatalog.v ===== *)
(** * Handlers of named definitions and of tenants
    ([api/src/handlers/{payload_specs,configs,secrets,endpoints,organizations,workspaces}.rs]) *)

From S2P Require Export ApiJobs Crypto.
#[local] Open Scope Z_scope.

Section catalog.
Context `{!Chrono} `{!Base64} `{!Jsonb} `{!Aes256Gcm} `{!Utf8}.
Implicit Types (ws : WorkspaceContext) (prefix name : string).

(** [map_err] of the four [create]s: any violated constraint is a conflict. *)
Definition conflict_if_constraint (m : string) (e : SqlError) : AppError :=
  if has_constraint e then Conflict m else AppError_from e.

(** The five handlers of a table differ in the row type and in the messages;
    listing is the same for all. *)
Definition list_named {A} ws (params : PaginationParams)
    (list : option string → Z → DB (list A)) (key : A → string) (to_json : A → json) :
    API HttpResponse :=
  q (scoped_connection (wc_schema_name ws)) ;;;
  let limit := effective_limit params in
  items <-- q (list (decode_cursor params) (limit + 1));
  let '(items, next) := paginate limit items key in
  Ok200 (PaginatedResponse (to_json <$> items) (encode_cursor <$> next)).

Definition delete_handler ws (dependents : DB bool) (conflict : string) (del : DB bool)
    (missing : AppError) : API HttpResponse :=
  q (scoped_connection (wc_schema_name ws)) ;;;
  used <-- q dependents;
  if (used : bool) then se_err (Conflict conflict)
  else
    deleted <-- q del;
    if (deleted : bool) then se_ret NoContent else se_err missing.

(** ** Payload specs *)

Definition payload_spec_json (p : PayloadSpec) : json := Json.obj [
  ("name", JString (p_name p)); ("schema", p_schema_json p);
  ("created_at", ts_json (p_created_at p)); ("updated_at", ts_json (p_updated_at p))].

Definition payload_specs_create_handler prefix ws (body : CreatePayloadSpec) : API HttpResponse :=
  if Json.is_object (cp_schema body) then
    q (scoped_connection (wc_schema_name ws)) ;;;
    spec <-- se_map_err
      (conflict_if_constraint ("Payload spec '" +:+ cp_name body +:+ "' already exists"))
      (payload_specs_create (ctx_of prefix ws) (cp_name body) (cp_schema body));
    se_ret (resp 201 (data (payload_spec_json spec)))
  else se_err (InvalidSchema "Schema must be a JSON object").

Definition payload_specs_list_handler prefix ws (params : PaginationParams) : API HttpResponse :=
  list_named ws params (payload_specs_list (ctx_of prefix ws)) p_name payload_spec_json.

Definition payload_specs_get_handler prefix ws name : API HttpResponse :=
  q (scoped_connection (wc_schema_name ws)) ;;;
  found <-- q (payload_specs_get (ctx_of prefix ws) name);
  spec <-- se_ok_or found (PayloadSpecNotFound name);
  Ok200 (data (payload_spec_json spec)).

Definition payload_specs_update_handler prefix ws name (body : UpdatePayloadSpec) :
    API HttpResponse :=
  if Json.is_object (up_schema body) then
    q (scoped_connection (wc_schema_name ws)) ;;;
    found <-- q (payload_specs_update (ctx_of prefix ws) name (up_schema body));
    spec <-- se_ok_or found (PayloadSpecNotFound name);
    Ok200 (data (payload_spec_json spec))
  else se_err (InvalidSchema "Schema must be a JSON object").

Definition payload_specs_delete_handler prefix ws name : API HttpResponse :=
  delete_handler ws (payload_specs_has_dependent_endpoints (ctx_of prefix ws) name)
    ("Payload spec '" +:+ name +:+ "' has dependent endpoints")
    (payload_specs_delete (ctx_of prefix ws) name) (PayloadSpecNotFound name).

(** ** Configs *)

Definition config_json (c : Config) : json := Json.obj [
  ("name", JString (c_name c)); ("values", c_values_json c);
  ("created_at", ts_json (c_created_at c)); ("updated_at", ts_json (c_updated_at c))].

Definition configs_create_handler prefix ws (body : CreateConfig) : API HttpResponse :=
  if Json.is_object (cc_values body) then
    q (scoped_connection (wc_schema_name ws)) ;;;
    config <-- se_map_err
      (conflict_if_constraint ("Config '" +:+ cc_name body +:+ "' already exists"))
      (configs_create (ctx_of prefix ws) (cc_name body) (cc_values body));
    se_ret (resp 201 (data (config_json config)))
  else se_err (InvalidRequest "Values must be a JSON object").

Definition configs_list_handler prefix ws (params : PaginationParams) : API HttpResponse :=
  list_named ws params (configs_list (ctx_of prefix ws)) c_name config_json.

Definition configs_get_handler prefix ws name : API HttpResponse :=
  q (scoped_connection (wc_schema_name ws)) ;;;
  found <-- q (configs_get (ctx_of prefix ws) name);
  config <-- se_ok_or found (ConfigNotFound name);
  Ok200 (data (config_json config)).

Definition configs_update_handler prefix ws name (body : UpdateConfig) : API HttpResponse :=
  if Json.is_object (uc_values body) then
    q (scoped_connection (wc_schema_name ws)) ;;;
    found <-- q (configs_update (ctx_of prefix ws) name (uc_values body));
    config <-- se_ok_or found (ConfigNotFound name);
    Ok200 (data (config_json config))
  else se_err (InvalidRequest "Values must be a JSON object").

Definition configs_delete_handler prefix ws name : API HttpResponse :=
  delete_handler ws (configs_has_dependent_endpoints (ctx_of prefix ws) name)
    ("Config '" +:+ name +:+ "' has dependent endpoints")
    (configs_delete (ctx_of prefix ws) name) (ConfigNotFound name).

(** ** Secrets: no response carries a value *)

Definition secret_json (r : SecretResponse) : json := Json.obj [
  ("name", JString (sr_name r));
  ("created_at", ts_json (sr_created_at r)); ("updated_at", ts_json (sr_updated_at r))].

Definition encrypt_value (encryption_key : string) (nonce : list Z) (value : string) :
    res AppError (list Z) :=
  res_map_err (λ e, InternalError ("Encryption failed: " +:+ e))
    (encrypt nonce value encryption_key).

Definition secrets_create_handler prefix ws (encryption_key : string) (nonce : list Z)
    (body : CreateSecret) : API HttpResponse :=
  encrypted <-- se_lift (encrypt_value encryption_key nonce (cs_value body));
  q (scoped_connection (wc_schema_name ws)) ;;;
  secret <-- se_map_err
    (conflict_if_constraint ("Secret '" +:+ cs_name body +:+ "' already exists"))
    (secrets_create (ctx_of prefix ws) (cs_name body) encrypted);
  se_ret (resp 201 (data (secret_json (SecretResponse_from secret)))).

Definition secrets_list_handler prefix ws (params : PaginationParams) : API HttpResponse :=
  list_named ws params (secrets_list (ctx_of prefix ws)) s_name
    (λ s, secret_json (SecretResponse_from s)).

Definition secrets_get_handler prefix ws name : API HttpResponse :=
  q (scoped_connection (wc_schema_name ws)) ;;;
  found <-- q (secrets_get (ctx_of prefix ws) name);
  secret <-- se_ok_or found (SecretNotFound name);
  Ok200 (data (secret_json (SecretResponse_from secret))).

Definition secrets_update_handler prefix ws (encryption_key : string) (nonce : list Z) name
    (body : UpdateSecret) : API HttpResponse :=
  encrypted <-- se_lift (encrypt_value encryption_key nonce (us_value body));
  q (scoped_connection (wc_schema_name ws)) ;;;
  found <-- q (secrets_update (ctx_of prefix ws) name encrypted);
  secret <-- se_ok_or found (SecretNotFound name);
  Ok200 (data (secret_json (SecretResponse_from secret))).

Definition secrets_delete_handler prefix ws name : API HttpResponse :=
  delete_handler ws (secrets_has_dependent_endpoints (ctx_of prefix ws) name)
    ("Secret '" +:+ name +:+ "' is referenced by endpoints")
    (secrets_delete (ctx_of prefix ws) name) (SecretNotFound name).

(** ** Endpoints *)

Definition endpoint_to_json (e : Endpoint) : json := Json.obj [
  ("name", JString (ep_name e)); ("type", JString (ep_endpoint_type e));
  ("payload_spec", Json.opt_str (ep_payload_spec_ref e));
  ("config", Json.opt_str (ep_config_ref e)); ("spec", ep_spec e);
  ("retry_policy", Json.opt_json (ep_retry_policy e));
  ("created_at", ts_json (ep_created_at e)); ("updated_at", ts_json (ep_updated_at e))].

Definition creatable_type (endpoint_type : string) : bool :=
  match EndpointType_from_str_val endpoint_type with
  | None | Some INTERNAL => false
  | _ => true
  end.

(** [if let Some(ref r) = body.r { if get(r).is_none() { return Err(..) } }] *)
Definition check_ref {A} (o : option string) (get : string → DB (option A))
    (err : string → AppError) : API unit :=
  match o with
  | Some r =>
      found <-- q (get r);
      match found with Some _ => se_ret tt | None => se_err (err r) end
  | None => se_ret tt
  end.

Definition endpoints_create_handler prefix ws (body : CreateEndpoint) : API HttpResponse :=
  if creatable_type (ce_endpoint_type body) then
    let db := ctx_of prefix ws in
    q (scoped_connection (wc_schema_name ws)) ;;;
    check_ref (ce_payload_spec body) (payload_specs_get db) InvalidPayloadSpecRef ;;;
    check_ref (ce_config body) (configs_get db) InvalidConfigRef ;;;
    ep <-- se_map_err
      (conflict_if_constraint ("Endpoint '" +:+ ce_name body +:+ "' already exists"))
      (endpoints_create db (ce_name body) (ce_endpoint_type body) (ce_payload_spec body)
         (ce_config body) (ce_spec body) (RetryPolicy_to_value <$> ce_retry_policy body));
    se_ret (resp 201 (data (endpoint_to_json ep)))
  else se_err (InvalidRequest ("Invalid endpoint type: " +:+ ce_endpoint_type body +:+
                                 ". Must be HTTP, KAFKA, or REDIS_STREAM")).

Definition endpoints_list_handler prefix ws (params : PaginationParams) : API HttpResponse :=
  list_named ws params (endpoints_list (ctx_of prefix ws)) ep_name endpoint_to_json.

Definition endpoints_get_handler prefix ws name : API HttpResponse :=
  q (scoped_connection (wc_schema_name ws)) ;;;
  found <-- q (endpoints_get (ctx_of prefix ws) name);
  ep <-- se_ok_or found (EndpointNotFound name);
  Ok200 (data (endpoint_to_json ep)).

(** There is no check of the endpoint's type here. *)
Definition endpoints_update_handler prefix ws name (body : UpdateEndpoint) : API HttpResponse :=
  let db := ctx_of prefix ws in
  q (scoped_connection (wc_schema_name ws)) ;;;
  check_ref (ue_payload_spec body) (payload_specs_get db) InvalidPayloadSpecRef ;;;
  check_ref (ue_config body) (configs_get db) InvalidConfigRef ;;;
  found <-- q (endpoints_update db name (ue_spec body) (ue_config body) (ue_payload_spec body)
                 (RetryPolicy_to_value <$> ue_retry_policy body));
  ep <-- se_ok_or found (EndpointNotFound name);
  Ok200 (data (endpoint_to_json ep)).

Definition endpoints_delete_handler prefix ws name : API HttpResponse :=
  delete_handler ws (endpoints_has_active_jobs (ctx_of prefix ws) name)
    ("Endpoint '" +:+ name +:+ "' has active jobs")
    (endpoints_delete (ctx_of prefix ws) name) (EndpointNotFound name).

(** ** Organizations *)

Definition invalid_slug (slug : string) : AppError :=
  InvalidRequest ("Invalid slug '" +:+ slug +:+
    "': must be 1-25 chars of lowercase letters, digits, and interior hyphens (no leading or trailing hyphen)").

Definition org_fields (o : Organization) : list (string * json) := [
  ("org_id", JString (o_org_id o)); ("name", JString (o_name o)); ("slug", JString (o_slug o));
  ("status", JString (o_status o)); ("created_at", ts_json (o_created_at o))].

Definition org_json_full (o : Organization) : json :=
  Json.obj (org_fields o ++ [("updated_at", ts_json (o_updated_at o))]).

Definition org_not_found (org_ref : string) : AppError :=
  OrgNotFound ("Organization " +:+ org_ref +:+ " not found").

Definition organizations_create_handler (body : CreateOrganization) : API HttpResponse :=
  if validate_slug (co_slug body) then
    org <-- se_map_err
      (conflict_if_constraint ("Organization with slug '" +:+ co_slug body +:+ "' already exists"))
      (organizations_create (co_name body) (co_slug body));
    se_ret (resp 201 (data (Json.obj (org_fields org))))
  else se_err (invalid_slug (co_slug body)).

Definition organizations_list_handler : API HttpResponse :=
  orgs <-- q organizations_list;
  Ok200 (data (JArray ((λ o, Json.obj (org_fields o)) <$> orgs))).

Definition organizations_get_handler (org_id : string) : API HttpResponse :=
  found <-- q (organizations_get org_id);
  org <-- se_ok_or found (org_not_found org_id);
  Ok200 (data (org_json_full org)).

Definition organizations_update_handler (org_id : string) (body : UpdateOrganization) :
    API HttpResponse :=
  name <-- se_ok_or (uo_name body) (InvalidRequest "name is required");
  found <-- q (organizations_update org_id name);
  org <-- se_ok_or found (org_not_found org_id);
  Ok200 (data (org_json_full org)).

(** ** Workspaces *)

Definition workspace_fields (w : Workspace) : list (string * json) := [
  ("workspace_id", JString (w_workspace_id w)); ("org_id", JString (w_org_id w));
  ("name", JString (w_name w)); ("slug", JString (w_slug w));
  ("schema_name", JString (w_schema_name w)); ("status", JString (w_status w));
  ("schema_version", JInt (w_schema_version w)); ("created_at", ts_json (w_created_at w))].

Definition workspaces_create_handler (reaper_cron_expression org_ref : string)
    (body : CreateWorkspace) : API HttpResponse :=
  if validate_slug (cw_slug body) then
    found <-- q (organizations_get org_ref);
    org <-- se_ok_or found (org_not_found org_ref);
    let schema_name := build_schema_name (o_org_id org) (cw_slug body) in
    workspace <-- se_map_err
      (conflict_if_constraint ("Workspace with slug '" +:+ cw_slug body
                                 +:+ "' already exists in this org"))
      (workspaces_create (o_org_id org) (cw_name body) (cw_slug body) schema_name
         reaper_cron_expression);
    se_ret (resp 201 (data (Json.obj (workspace_fields workspace))))
  else se_err (invalid_slug (cw_slug body)).

Definition workspaces_list_handler (org_id : string) : API HttpResponse :=
  found <-- q (organizations_get org_id);
  se_ok_or found (org_not_found org_id) ;;;
  workspaces <-- q (workspaces_list_for_org org_id);
  Ok200 (data (JArray ((λ w, Json.obj (workspace_fields w)) <$> workspaces))).

Definition workspaces_get_handler (org_id workspace_id : string) : API HttpResponse :=
  found <-- q (workspaces_get_by_org_and_id org_id workspace_id);
  w <-- se_ok_or found (WorkspaceNotFound ("Workspace " +:+ workspace_id +:+ " not found in org "
                                             +:+ org_id));
  Ok200 (data (Json.obj (workspace_fields w ++ [("updated_at", ts_json (w_updated_at w))]))).
End catalog.
