(* ===== verification/Config.v ===== *)
(** * Configuration and secrets providers
    ([config.rs], [env.rs], [secrets.rs], [secrets/*.rs])

    The environment is a function from names to values. Sensitive variables are
    decrypted by the provider [INVOKR_SECRETS_MANAGER] names; the cloud services
    behind the providers are parameters. The Debug text of a parse error, which
    ends some messages, is left out, as are the quotes [{other:?}] puts around an
    unknown mode. *)

From Stdlib Require Import Ascii.
From S2P Require Export Store Crypto.
#[local] Open Scope Z_scope.

(** [std::env::var(name).ok()] *)
Definition Env : Type := string → option string.

(** ** [env.rs] *)

(** [FromStr] of the types the configuration uses. *)
Definition FromStr (A : Type) : Type := string → option A.

Fixpoint digits_value (s : list ascii) (acc : Z) : option Z :=
  match s with
  | [] => Some acc
  | c :: s => if Str.is_ascii_digit c
              then digits_value s (10 * acc + (Z.of_nat (nat_of_ascii c) - 48)) else None
  end.

(** Unsigned integers of [bits] bits: an optional [+], then digits. *)
Definition parse_uint (bits : Z) : FromStr Z := λ s,
  let body := match Str.chars s with "+"%char :: r => r | l => l end in
  match body with
  | [] => None
  | _ => n ← digits_value body 0; if bool_decide (n < 2 ^ bits) then Some n else None
  end.

Definition parse_bool : FromStr bool := λ s,
  if bool_decide (s = "true") then Some true
  else if bool_decide (s = "false") then Some false else None.

Definition parse_string : FromStr string := Some.

Definition get_from_env_unsafe {A} (env : Env) (parse : FromStr A) (name : string) : res string A :=
  match env name with
  | None => Err (name +:+ " env not found: environment variable not found")
  | Some v => ok_or (parse v) ("Failed to parse " +:+ name)
  end.

Definition get_from_env_or_default {A} (env : Env) (parse : FromStr A) (name : string) (default_ : A) : A :=
  match env name with
  | Some v => default default_ (parse v)
  | None => default_
  end.

Definition not_blank (s : string) : bool := negb (bool_decide (Str.trim s = "")).

Definition non_empty (value : option string) : option string :=
  v ← value; if not_blank v then Some v else None.

(** ** Secrets providers *)

Inductive SecretsError :=
  | NotBase64 (name : string)
  | DecryptFailed (name source_msg : string)
  | NotUtf8 (name : string)
  | InvalidConfig (m : string)
  | UnknownProvider (raw : string)
  | KmsNotCompiled (raw : string).

Definition SecretsError_to_string (e : SecretsError) : string :=
  match e with
  | NotBase64 name => name +:+ " is not valid base64"
  | DecryptFailed name m => name +:+ " could not be decrypted: " +:+ m
  | NotUtf8 name => name +:+ " decrypted to invalid UTF-8"
  | InvalidConfig m => "secrets provider configuration is unusable: " +:+ m
  | UnknownProvider raw => "INVOKR_SECRETS_MANAGER '" +:+ raw +:+
      "' is not recognised; expected one of: no_encryption, aws_kms, gcp_kms, oci_kms"
  | KmsNotCompiled raw => "INVOKR_SECRETS_MANAGER '" +:+ raw +:+
      "' is recognised, but this build was compiled without the `kms` cargo feature"
  end.

(** [trait SecretProvider] *)
Record SecretProvider := {
  sp_decrypt : string → string → res SecretsError string;   (* name, ciphertext *)
  sp_validate : res SecretsError unit;
}.

Inductive ProviderKind := PK_NoEncryption | PK_AwsKms | PK_GcpKms | PK_OciKms.

Definition parse_provider_kind (raw : string) : res SecretsError ProviderKind :=
  let k := Str.to_ascii_lowercase (Str.trim raw) in
  if bool_decide (k ∈ [""; "no_encryption"]) then Ok PK_NoEncryption
  else if bool_decide (k = "aws_kms") then Ok PK_AwsKms
  else if bool_decide (k = "gcp_kms") then Ok PK_GcpKms
  else if bool_decide (k = "oci_kms") then Ok PK_OciKms
  else Err (UnknownProvider k).

Definition NoEncryption : SecretProvider :=
  {| sp_decrypt := λ _ ciphertext, Ok ciphertext; sp_validate := Ok tt |}.

(** What the cloud services answer. *)
Inductive OciKmsError :=
  | OciInvalidConfig (text : string)
  | CredentialsUnavailable (text : string)
  | SigningFailed (text : string)
  | UnexpectedStatus (status : Z) (text : string)
  | OciOther (text : string).

Definition oci_error_text (e : OciKmsError) : string :=
  match e with
  | OciInvalidConfig t | CredentialsUnavailable t | SigningFailed t
  | UnexpectedStatus _ t | OciOther t => t
  end.

Class Clouds := {
  standard_decode : string → option (list Z);            (* base64 STANDARD *)
  aws_region : option string;                             (* the chain's answer *)
  aws_decrypt : list Z → res string (option (list Z));    (* error text; plaintext, if any *)
  gcp_with_auth : res string unit;                        (* Debug text of the error *)
  gcp_client : res string unit;
  gcp_decrypt : string → list Z → res string (list Z);    (* key name *)
  oci_client : string → string → res OciKmsError unit;    (* endpoint, key *)
  oci_decrypt : string → string → string → res OciKmsError (list Z);
}.

(** The [client] of a provider is [None] in the unit tests only; the constructors
    always build one. *)
Section providers.
Context `{!Utf8} `{!Clouds}.

Definition from_utf8 (name : string) (bytes : list Z) : res SecretsError string :=
  if utf8_valid (of_bytes bytes) then Ok (of_bytes bytes) else Err (NotUtf8 name).

Definition AwsKms : SecretProvider := {|
  sp_decrypt := λ name ciphertext,
    decoded <-? ok_or (standard_decode ciphertext) (NotBase64 name);
    output <-? res_map_err (DecryptFailed name) (aws_decrypt decoded);
    plaintext <-? ok_or output (DecryptFailed name "KMS returned no plaintext");
    from_utf8 name plaintext;
  sp_validate :=
    match aws_region with
    | None => Err (InvalidConfig "no AWS region could be resolved: set AWS_REGION or AWS_DEFAULT_REGION, or run where IRSA/IMDS provides one")
    | Some _ => Ok tt
    end |}.

Definition GcpKms_of (key_name : string) : SecretProvider := {|
  sp_decrypt := λ name ciphertext,
    decoded <-? ok_or (standard_decode ciphertext) (NotBase64 name);
    plaintext <-? res_map_err (DecryptFailed name) (gcp_decrypt key_name decoded);
    from_utf8 name plaintext;
  sp_validate :=
    if negb (Str.starts_with key_name "projects/") || negb (Str.contains key_name "/cryptoKeys/")
    then Err (InvalidConfig ("INVOKR_GCP_KMS_KEY_NAME '" +:+ key_name +:+
      "' is not a KMS key resource name; expected projects/<p>/locations/<l>/keyRings/<r>/cryptoKeys/<k>"))
    else Ok tt |}.

Definition GcpKms_new (env : Env) : res SecretsError SecretProvider :=
  key_name <-? ok_or (env "INVOKR_GCP_KMS_KEY_NAME")
    (InvalidConfig "INVOKR_GCP_KMS_KEY_NAME must be set when INVOKR_SECRETS_MANAGER=gcp_kms; expected projects/<p>/locations/<l>/keyRings/<r>/cryptoKeys/<k>");
  _ <-? res_map_err (λ e, InvalidConfig
          ("GCP Application Default Credentials could not be initialised: " +:+ e)) gcp_with_auth;
  _ <-? res_map_err (λ e, InvalidConfig ("GCP KMS client could not be created: " +:+ e))
          gcp_client;
  Ok (GcpKms_of key_name).

Definition ENDPOINT_VAR : string := "INVOKR_OCI_KMS_CRYPTO_ENDPOINT".
Definition KEY_ID_VAR : string := "INVOKR_OCI_KMS_KEY_ID".

Definition oci_required (env : Env) (name expected : string) : res SecretsError string :=
  match (v ← env name; let v := Str.trim v in if bool_decide (v = "") then None else Some v) with
  | Some v => Ok v
  | None => Err (InvalidConfig (name +:+
      " must be set when INVOKR_SECRETS_MANAGER=oci_kms; expected " +:+ expected))
  end.

(** [config_from]: endpoint and key. *)
Definition oci_config_from (env : Env) : res SecretsError (string * string) :=
  endpoint <-? oci_required env ENDPOINT_VAR
    "the vault's crypto endpoint, https://<vault>-crypto.kms.<region>.oraclecloud.com";
  key_id <-? oci_required env KEY_ID_VAR "the key OCID, ocid1.key.oc1...";
  Ok (endpoint, key_id).

(** Faults of credentials or policy are the configuration's, not the variable's. *)
Definition oci_decrypt_error (name : string) (e : OciKmsError) : SecretsError :=
  let config := InvalidConfig ("OCI KMS credentials or IAM policy are not usable: "
                                 +:+ oci_error_text e) in
  match e with
  | CredentialsUnavailable _ | SigningFailed _ => config
  | UnexpectedStatus status _ =>
      if bool_decide (status ∈ [401; 403; 404]) then config
      else DecryptFailed name (oci_error_text e)
  | _ => DecryptFailed name (oci_error_text e)
  end.

Definition OciKms_of (endpoint key_id : string) : SecretProvider := {|
  sp_decrypt := λ name ciphertext,
    _ <-? ok_or (standard_decode ciphertext) (NotBase64 name);
    plaintext <-? res_map_err (oci_decrypt_error name) (oci_decrypt endpoint key_id ciphertext);
    from_utf8 name plaintext;
  sp_validate :=
    if negb (bool_decide (8 ≤ String.length endpoint)%nat
             && Str.eq_ignore_ascii_case (Str.stake 8 endpoint) "https://")
    then Err (InvalidConfig (ENDPOINT_VAR +:+ " '" +:+ endpoint +:+ "' must be an https:// URL"))
    else if Str.contains endpoint "-management."
    then Err (InvalidConfig (ENDPOINT_VAR +:+ " '" +:+ endpoint +:+
      "' is the vault's management endpoint; use its crypto endpoint, https://<vault>-crypto.kms.<region>.oraclecloud.com"))
    else if negb (Str.starts_with key_id "ocid1.key.")
    then Err (InvalidConfig (KEY_ID_VAR +:+ " '" +:+ key_id +:+
      "' is not a key OCID; expected ocid1.key.oc1..."))
    else Ok tt |}.

Definition OciKms_new (env : Env) : res SecretsError SecretProvider :=
  cfg <-? oci_config_from env;
  _ <-? res_map_err (λ e, match e with
        | OciInvalidConfig t => InvalidConfig (ENDPOINT_VAR +:+ ": " +:+ t)
        | other => InvalidConfig (oci_error_text other)
        end) (oci_client cfg.1 cfg.2);
  Ok (OciKms_of cfg.1 cfg.2).

(** [kms]: built with the cargo feature. *)
Definition provider_from_env (kms : bool) (env : Env) : res SecretsError SecretProvider :=
  let raw := get_from_env_or_default env parse_string "INVOKR_SECRETS_MANAGER" "" in
  kind <-? parse_provider_kind raw;
  provider <-? match kind with
    | PK_NoEncryption => Ok NoEncryption
    | _ =>
        if kms then match kind with
          | PK_AwsKms => Ok AwsKms
          | PK_GcpKms => GcpKms_new env
          | _ => OciKms_new env
          end
        else Err (KmsNotCompiled (Str.to_ascii_lowercase (Str.trim raw)))
    end;
  _ <-? sp_validate provider;
  Ok provider.
End providers.

(** ** The sensitive reader *)

Section reader.
Context (env : Env) (provider : SecretProvider).

Definition reader_read (name : string) : res string string :=
  raw <-? get_from_env_unsafe env parse_string name;
  res_map_err SecretsError_to_string (sp_decrypt provider name raw).

Definition reader_read_opt (name : string) : res string (option string) :=
  match non_empty (env name) with
  | None => Ok None
  | Some raw =>
      plain <-? res_map_err SecretsError_to_string (sp_decrypt provider name raw);
      Ok (non_empty (Some plain))
  end.

Definition reader_read_or_default (name default_ : string) : res string string :=
  v <-? reader_read_opt name;
  Ok (default default_ v).
End reader.

(** ** Sections of the configuration *)

Record DbEnv := { db_url : string; db_pool_size : Z; db_table_prefix : string }.
Inductive ServerMode := SM_Api | SM_Dashboard | SM_Both.
Record ServerEnv := { sv_listen_addr : string; sv_path_prefix : string; sv_mode : ServerMode;
  sv_dashboard_prefix : string; sv_dashboard_dist_dir : string }.
Record WorkerEnv := { wk_max_concurrent : Z; wk_poll_interval_ms : Z; wk_config_cache_ttl_sec : Z;
  wk_secret_cache_ttl_sec : Z; wk_shutdown_timeout_sec : Z }.
Record WorkerHealthEnv := { he_db_probe_timeout_ms : Z; he_stale_after_floor_ms : Z;
  he_server_workers : Z }.

Definition DbEnv_new (env : Env) (provider : SecretProvider) : res string DbEnv :=
  url <-? reader_read env provider "INVOKR_DATABASE_URL";
  let table_prefix := get_from_env_or_default env parse_string "INVOKR_TABLE_PREFIX" "" in
  if validate_table_prefix table_prefix then
    Ok {| db_url := url;
          db_pool_size := get_from_env_or_default env (parse_uint 32) "INVOKR_DB_POOL_SIZE" 50;
          db_table_prefix := table_prefix |}
  else Err ("INVOKR_TABLE_PREFIX '" +:+ table_prefix +:+
              "' is invalid: only alphanumeric and underscore allowed").

Definition ServerMode_from_env (env : Env) : ServerMode :=
  let m := Str.to_ascii_lowercase (get_from_env_or_default env parse_string "INVOKR_MODE" "api") in
  if bool_decide (m = "dashboard") then SM_Dashboard
  else if bool_decide (m = "both") then SM_Both else SM_Api.

Definition normalize_prefix (raw : string) : string :=
  let p := Str.trim_matches "/"%char raw in
  if bool_decide (p = "") then "" else "/" +:+ p.

Definition ServerEnv_new (env : Env) : ServerEnv := {|
  sv_listen_addr := get_from_env_or_default env parse_string "INVOKR_LISTEN_ADDR" "0.0.0.0:8080";
  sv_path_prefix := normalize_prefix (get_from_env_or_default env parse_string "INVOKR_PATH_PREFIX" "");
  sv_mode := ServerMode_from_env env;
  sv_dashboard_prefix :=
    normalize_prefix (get_from_env_or_default env parse_string "INVOKR_DASHBOARD_PATH_PREFIX" "");
  sv_dashboard_dist_dir :=
    get_from_env_or_default env parse_string "INVOKR_DASHBOARD_DIST_DIR" "./dashboard-dist" |}.

Definition WorkerEnv_new (env : Env) : WorkerEnv :=
  let u64 := get_from_env_or_default env (parse_uint 64) in {|
  wk_max_concurrent := u64 "INVOKR_WORKER_MAX_CONCURRENT" 50;
  wk_poll_interval_ms := u64 "INVOKR_WORKER_POLL_INTERVAL_MS" 200;
  wk_config_cache_ttl_sec := u64 "INVOKR_CONFIG_CACHE_TTL_SEC" 60;
  wk_secret_cache_ttl_sec := u64 "INVOKR_SECRET_CACHE_TTL_SEC" 300;
  wk_shutdown_timeout_sec := u64 "INVOKR_WORKER_SHUTDOWN_TIMEOUT_SEC" 30 |}.

(** ["0".repeat(64)] *)
Definition default_encryption_key : string :=
  "0000000000000000000000000000000000000000000000000000000000000000".

Definition CryptoEnv_new (env : Env) (provider : SecretProvider) : res string string :=
  reader_read_or_default env provider "INVOKR_ENCRYPTION_KEY" default_encryption_key.

Definition MetricsEnv_new (env : Env) : Z :=
  get_from_env_or_default env (parse_uint 16) "INVOKR_METRICS_PORT" 9090.

Definition WorkerHealthEnv_new (env : Env) : WorkerHealthEnv :=
  let u64 := get_from_env_or_default env (parse_uint 64) in {|
  he_db_probe_timeout_ms := u64 "INVOKR_HEALTH_DB_PROBE_TIMEOUT_MS" 2000;
  he_stale_after_floor_ms := u64 "INVOKR_HEALTH_STALE_AFTER_FLOOR_MS" 5000;
  he_server_workers := u64 "INVOKR_HEALTH_SERVER_WORKERS" 1 |}.

Definition ReaperEnv_new `{!CronCrate} (env : Env) : res string string :=
  let cron_expression :=
    get_from_env_or_default env parse_string "INVOKR_REAPER_CRON_EXPRESSION" "*/15 * * * *" in
  _ <-? res_map_err (λ e, "Invalid INVOKR_REAPER_CRON_EXPRESSION '" +:+ cron_expression +:+ "': "
                            +:+ AppError_to_string e) (PgCronExpr_try_from cron_expression);
  Ok cron_expression.

Record AppConfig := {
  ac_db : DbEnv; ac_server : ServerEnv; ac_worker : WorkerEnv; ac_encryption_key : string;
  ac_metrics_port : Z; ac_health : WorkerHealthEnv; ac_reaper_cron : string }.

Definition AppConfig_from_env `{!Utf8} `{!Clouds} `{!CronCrate} (kms : bool) (env : Env) :
    res string AppConfig :=
  provider <-? res_map_err SecretsError_to_string (provider_from_env kms env);
  db <-? DbEnv_new env provider;
  key <-? CryptoEnv_new env provider;
  reaper <-? ReaperEnv_new env;
  Ok {| ac_db := db; ac_server := ServerEnv_new env; ac_worker := WorkerEnv_new env;
        ac_encryption_key := key; ac_metrics_port := MetricsEnv_new env;
        ac_health := WorkerHealthEnv_new env; ac_reaper_cron := reaper |}.

(** ** Authentication settings *)

Inductive AuthMode := AM_Disabled | AM_Oidc.

Definition AuthMode_parse (raw : string) : res string AuthMode :=
  let m := Str.to_ascii_lowercase (Str.trim raw) in
  if bool_decide (m = "disabled") then Ok AM_Disabled
  else if bool_decide (m = "oidc") then Ok AM_Oidc
  else Err ("unknown INVOKR_AUTH_MODE " +:+ m +:+ "; expected `disabled` or `oidc`").

Record OidcEnv := { oi_issuer_url : string; oi_client_id : string;
  oi_client_secret : option string; oi_redirect_host : string }.

Record AuthEnv := { au_mode : AuthMode; au_oidc : option OidcEnv;
  au_api_token_prefix : option string; au_static_tokens : option string;
  au_legacy_api_key : option string; au_secure_cookies : bool }.

Definition required (env : Env) (name : string) : res string string :=
  ok_or (non_empty (env name)) (name +:+ " is required when INVOKR_AUTH_MODE=oidc").

Definition AuthEnv_from_env `{!Utf8} `{!Clouds} (kms : bool) (env : Env) : res string AuthEnv :=
  provider <-? res_map_err SecretsError_to_string (provider_from_env kms env);
  raw <-? ok_or (env "INVOKR_AUTH_MODE")
    "INVOKR_AUTH_MODE is not set; expected `disabled` or `oidc`. It has no default because an unset auth mode would otherwise decide itself.";
  mode <-? AuthMode_parse raw;
  oidc <-? match mode with
    | AM_Disabled => Ok None
    | AM_Oidc =>
        issuer <-? required env "INVOKR_OIDC_ISSUER_URL";
        client <-? required env "INVOKR_OIDC_CLIENT_ID";
        secret <-? reader_read_opt env provider "INVOKR_OIDC_CLIENT_SECRET";
        host <-? required env "INVOKR_OIDC_REDIRECT_HOST";
        Ok (Some {| oi_issuer_url := issuer; oi_client_id := client;
                    oi_client_secret := secret; oi_redirect_host := host |})
    end;
  let api_token_prefix := non_empty (env "INVOKR_API_TOKEN_PREFIX") in
  static_tokens <-? reader_read_opt env provider "INVOKR_API_STATIC_TOKENS";
  if negb (bool_decide (is_Some api_token_prefix ↔ is_Some static_tokens)) then
    Err "INVOKR_API_TOKEN_PREFIX and INVOKR_API_STATIC_TOKENS must be set together: a prefix with no tokens authenticates nothing, and tokens with no prefix can never be presented"
  else
    legacy <-? reader_read_opt env provider "INVOKR_API_KEY";
    Ok {| au_mode := mode; au_oidc := oidc; au_api_token_prefix := api_token_prefix;
          au_static_tokens := static_tokens; au_legacy_api_key := legacy;
          au_secure_cookies :=
            get_from_env_or_default env parse_bool "INVOKR_AUTH_SECURE_COOKIES" true |}.
