(* ===== verification/Auth.v ===== *)
(** * Authentication and request extraction
    ([api/src/auth/*.rs], [extractors.rs], [router.rs])

    The mechanisms -- OIDC, JWT, API tokens, the chain that tries them -- are the
    library's ([authn_kit]); what is modelled is what this program decides: which
    routes need a credential, which mechanisms are registered and in which order,
    what a caller is called, and what the extractors make of a request. *)

From Stdlib Require Import Ascii.
From S2P Require Export ApiCatalog Config.
#[local] Open Scope Z_scope.

(** ** Scopes ([auth/scope.rs]) *)

Definition SESSION_COOKIE : string := "invokr_session".

Inductive InvokrScope := Public | Protected.

Definition InvokrScope_to_string (s : InvokrScope) : string :=
  match s with Public => "public" | Protected => "protected" end.

Definition scope_is_public (s : InvokrScope) : bool :=
  match s with Public => true | Protected => false end.

Record InvokrScopes := { sc_path_prefix : string; sc_dashboard_prefix : string }.

Definition callback_path (path_prefix : string) : string := path_prefix +:+ "/oidc/login".

Definition scope_resolve (sc : InvokrScopes) (path : string) : InvokrScope :=
  let api := sc_path_prefix sc in
  if bool_decide (path = api +:+ "/health")
     || bool_decide (path = api +:+ "/metrics")
     || bool_decide (path = callback_path api)
     || Str.starts_with path (sc_dashboard_prefix sc +:+ "/pkg/")
  then Public else Protected.

(** ** Callers ([auth/principal.rs]) *)

(** The library's claims, as far as this program looks at them. *)
Class AuthnClaims := {
  ClaimSource : Type;
  ClaimSource_eq_dec :: EqDecision ClaimSource;
  StaticToken : ClaimSource;
  ClientCredentials : ClaimSource;
  IdentityClaims : Type;
  claims_new : ClaimSource → IdentityClaims;
  with_subject : string → IdentityClaims → IdentityClaims;
  with_preferred_username : string → IdentityClaims → IdentityClaims;
  with_email : string → IdentityClaims → IdentityClaims;
  claims_source : IdentityClaims → ClaimSource;
  claims_client_id : IdentityClaims → option string;
  best_effort_username : IdentityClaims → option string;
}.

Section auth.
Context `{!AuthnClaims}.

Record Caller := { ca_principal : string; ca_source : ClaimSource; ca_legacy : bool }.

Definition legacy_api_key : Caller :=
  {| ca_principal := "legacy-api-key"; ca_source := StaticToken; ca_legacy := true |}.

Definition Caller_try_from (claims : IdentityClaims) : res string Caller :=
  if decide (claims_source claims = ClientCredentials) then
    client_id <-? ok_or (claims_client_id claims) "client_credentials grant carried no client_id";
    Ok {| ca_principal := "service-account-" +:+ client_id; ca_source := claims_source claims;
          ca_legacy := false |}
  else
    principal <-? ok_or (best_effort_username claims)
      "no usable identity claim (looked for preferred_username, email, sub, client_id)";
    Ok {| ca_principal := principal; ca_source := claims_source claims; ca_legacy := false |}.

(** ** Mechanisms *)

Inductive Credential := Bearer (token : string) | SessionCookie (value : string) | NoCredential.
#[global] Instance Credential_eq_dec : EqDecision Credential.
Proof. solve_decision. Defined.

Inductive AuthError :=
  | Unauthenticated (m : string)
  | AuthRedirect (location : string)
  | AuthOther (m : string).

Inductive Verdict := NotApplicable | Authenticated (c : Caller).

(** An authenticator, on the path and the credential of a request. *)
Definition Authenticator : Type := string → Credential → res AuthError Verdict.

(** [auth/legacy.rs]: a mismatch declines. *)
Definition LegacyApiKeyAuthenticator (key : string) : Authenticator := λ _ credential,
  match credential with
  | Bearer token => if bool_decide (token = key) then Ok (Authenticated legacy_api_key)
                    else Ok NotApplicable
  | _ => Ok NotApplicable
  end.

(** [auth/session.rs]: the redirect of the inner mechanism becomes an error for
    API calls. *)
Definition is_api_call (api_prefix path : string) : bool :=
  Str.starts_with path (api_prefix +:+ "/v1/").

Definition BrowserSessionAuthenticator (inner : Authenticator) (api_prefix : string) : Authenticator :=
  λ path credential,
    match inner path credential with
    | Err (AuthRedirect l) =>
        if is_api_call api_prefix path
        then Err (Unauthenticated "no credential presented; send an API token or a session cookie")
        else Err (AuthRedirect l)
    | other => other
    end.

(** ** Assembly ([auth/setup.rs]) *)

(** The settings of a cookie, as far as they are chosen here. *)
Record CookieSettings := { ck_name : string; ck_path : string; ck_secure : bool }.

(** The library's mechanisms. A discovered provider gives the authenticator of
    bearer tokens, and, from the session and protection cookies of its login flow,
    the one of sessions with its login redirect. *)
Record Provider := {
  pr_bearer : Authenticator;
  pr_session : CookieSettings → CookieSettings → Authenticator;
}.
Record AuthnKit := {
  ak_disabled : IdentityClaims → Authenticator;
  ak_discover : string → string → option string → string → res string Provider;
     (* issuer, client, secret, redirect url *)
  ak_api_tokens : string → string → res string Authenticator;     (* prefix, JSON *)
}.

Definition development_identity : IdentityClaims :=
  with_email "invokr-auth-disabled@invalid"
    (with_preferred_username "invokr-auth-disabled"
      (with_subject "invokr-auth-disabled" (claims_new StaticToken))).

Definition redirect_url (oidc : OidcEnv) (path_prefix : string) : string :=
  Str.trim_end_matches "/"%char (oi_redirect_host oidc) +:+ path_prefix +:+ "/oidc/login".

Definition PROTECTION_COOKIE : string := "invokr_protection".

(** Both cookies are sent to the API and to the dashboard, which mount under
    sibling prefixes: their path is the root. *)
Definition login_cookie (auth : AuthEnv) (name : string) : CookieSettings :=
  {| ck_name := name; ck_path := "/"; ck_secure := au_secure_cookies auth |}.

(** The authenticators registered, in order. *)
Definition auth_chain (kit : AuthnKit) (auth : AuthEnv) (path_prefix : string) :
    res string (list Authenticator) :=
  match au_mode auth with
  | AM_Disabled => Ok [ak_disabled kit development_identity]
  | AM_Oidc =>
      oidc <-? ok_or (au_oidc auth) "INVOKR_AUTH_MODE=oidc but no OIDC configuration was read";
      provider <-? res_map_err (λ e, "OIDC discovery against " +:+ oi_issuer_url oidc
                                       +:+ " failed: " +:+ e)
        (ak_discover kit (oi_issuer_url oidc) (oi_client_id oidc) (oi_client_secret oidc)
           (redirect_url oidc path_prefix));
      let legacy := match au_legacy_api_key auth with
        | Some key => [LegacyApiKeyAuthenticator key] | None => [] end in
      tokens <-? match au_api_token_prefix auth, au_static_tokens auth with
        | Some prefix, Some tokens =>
            t <-? res_map_err (λ e, "INVOKR_API_STATIC_TOKENS is invalid: " +:+ e)
                    (ak_api_tokens kit prefix tokens);
            Ok [t]
        | _, _ => Ok []
        end;
      let session := pr_session provider (login_cookie auth SESSION_COOKIE)
                       (login_cookie auth PROTECTION_COOKIE) in
      Ok (legacy ++ tokens ++ [pr_bearer provider; BrowserSessionAuthenticator session path_prefix])
  end.

(** ** Extractors ([extractors.rs]) *)

(** [AuthenticatedRequest]: the caller in the request's extensions. *)
Definition AuthenticatedRequest_from (caller : option Caller) : res HttpResponse Caller :=
  ok_or caller (resp 401 (Json.obj [("error", Json.obj [
    ("code", JString "UNAUTHORIZED"); ("message", JString "Authentication required")])])).

Definition error_body (code message : string) : json :=
  Json.obj [("error", Json.obj [("code", JString code); ("message", JString message)])].

(** [Workspace]: the two headers, resolved to an active workspace; a context
    already in the extensions is taken as it is. *)
Definition Workspace_from (stored : option WorkspaceContext) (org_id workspace_id : option string) :
    SE Session HttpResponse WorkspaceContext :=
  match stored with
  | Some ctx => se_ret ctx
  | None =>
      match org_id, workspace_id with
      | Some o, Some w =>
          found <-- se_map_err (λ _, resp 500 (error_body "INTERNAL_ERROR" "Failed to resolve workspace"))
                      (resolve_schema o w);
          schema_name <-- se_ok_or found (resp 404 (error_body "WORKSPACE_NOT_FOUND"
            ("Workspace " +:+ w +:+ " not found in org " +:+ o)));
          se_ret {| wc_org_id := o; wc_workspace_id := w; wc_schema_name := schema_name |}
      | _, _ => se_err (resp 400 (error_body "MISSING_WORKSPACE"
                          "X-Org-Id and X-Workspace-Id headers are required"))
      end
  end.

(** An authenticated handler: caller, then the body of the route. *)
Definition authenticated {A} (caller : option Caller) (m : SE Session HttpResponse A) :
    SE Session HttpResponse A :=
  se_lift (AuthenticatedRequest_from caller) ;;; m.

(** A workspace handler: the extractors in the order of the parameters, then the
    handler, an [AppError] becoming its response. *)
Definition workspace_route (caller : option Caller) (stored : option WorkspaceContext)
    (org_id workspace_id : option string) (handler : WorkspaceContext → API HttpResponse) :
    SE Session HttpResponse HttpResponse :=
  authenticated caller (
    ws <-- Workspace_from stored org_id workspace_id;
    se_map_err error_response (handler ws)).

End auth.

(** ** Query strings *)

(** [str::parse::<i64>] *)
Definition parse_i64 (s : string) : option Z :=
  match Str.chars s with
  | "-"%char :: ((_ :: _) as r) =>
      n ← digits_value r 0; if bool_decide (n ≤ 2 ^ 63) then Some (- n) else None
  | _ => parse_uint 63 s
  end.

Example parse_i64_signs :
  (parse_i64 <$> ["-57"; "+57"; "57"; "-"; ""; "-9223372036854775808"; "9223372036854775808"])
  = [Some (-57); Some 57; Some 57; None; None; Some (- 2 ^ 63); None].
Proof. reflexivity. Qed.

Definition with_key (key : string) (kv : string * string) : Prop := kv.1 = key.
#[export] Instance with_key_dec key kv : Decision (with_key key kv) := decide (kv.1 = key).
#[export] Typeclasses Opaque with_key.

(** [web::Query<PaginationParams>]: the derived [Deserialize] on the pairs of the query.  A
    field given twice or a limit that is no number is refused. *)
Definition PaginationParams_from_pairs (pairs : list (string * string)) :
    option PaginationParams :=
  cursor ← match filter (with_key "cursor") pairs with
           | [] => Some None
           | [(_, c)] => Some (Some c)
           | _ => None
           end;
  limit ← match filter (with_key "limit") pairs with
          | [] => Some default_limit
          | [(_, l)] => parse_i64 l
          | _ => None
          end;
  Some {| pg_cursor := cursor; pg_limit := limit |}.

(** ** Filters of the job list *)

Section filters.
Context `{!Chrono}.
Implicit Types pairs : list (string * string).

Definition blank_to_none (value : option string) : option string :=
  v ← value; let t := Str.trim v in if bool_decide (t = "") then None else Some t.

Definition last_scalar pairs (key : string) : option string :=
  list.last (omap (λ kv, if bool_decide (kv.1 = key) then blank_to_none (Some kv.2) else None) pairs).

(** The tokens of the values of [key], trimmed, blanks left out, in order. *)
Definition filter_tokens pairs (key : string) : list string :=
  filter (λ t, t ≠ "")
    (mjoin ((λ kv, Str.trim <$> Str.split ","%char kv.2)
              <$> filter (λ kv, kv.1 = key) pairs)).

Fixpoint collect_tokens {T} `{!EqDecision T} (parse : string → option T) (label : string)
    (tokens : list string) (out : list T) : res AppError (list T) :=
  match tokens with
  | [] => Ok out
  | token :: tokens =>
      parsed <-? ok_or (parse token) (InvalidRequest ("Invalid " +:+ label +:+ ": " +:+ token));
      collect_tokens parse label tokens
        (if bool_decide (parsed ∈ out) then out else out ++ [parsed])
  end.

Definition parse_filter_list {T} `{!EqDecision T} pairs (key : string) (parse : string → option T)
    (label : string) : res AppError (list T) :=
  collect_tokens parse label (filter_tokens pairs key) [].

Definition parse_datetime (value : option string) (label : string) : res AppError (option Z) :=
  match blank_to_none value with
  | Some s =>
      t <-? ok_or (parse_from_rfc3339 s) (InvalidRequest ("Invalid " +:+ label +:+ ": " +:+ s));
      Ok (Some t)
  | None => Ok None
  end.

Definition parse_job_filters pairs : res AppError JobFilters :=
  created_after <-? parse_datetime (last_scalar pairs "created_after") "created_after";
  created_before <-? parse_datetime (last_scalar pairs "created_before") "created_before";
  _ <-? match created_after, created_before with
    | Some a, Some b =>
        if bool_decide (b < a)
        then Err (InvalidRequest "created_after must not be after created_before") else Ok tt
    | _, _ => Ok tt
    end;
  status <-? parse_filter_list pairs "status" JobStatus_from_str_val "status";
  trigger <-? parse_filter_list pairs "trigger_type" TriggerType_from_str_val "trigger";
  endpoint_type <-? parse_filter_list pairs "endpoint_type" EndpointType_from_str_val "endpoint_type";
  Ok {| jf_job_id := last_scalar pairs "job_id"; jf_status := status; jf_trigger := trigger;
        jf_endpoint := last_scalar pairs "endpoint"; jf_endpoint_type := endpoint_type;
        jf_created_after := created_after; jf_created_before := created_before |}.
End filters.

(** ** Auth routes ([auth/routes.rs]) and the root redirect ([router.rs]) *)

Definition logout_location (path_prefix : string) : string := path_prefix +:+ "/".

Definition root_redirect (prefix dashboard_prefix : string) (mode : ServerMode) : option string :=
  if bool_decide (prefix = "") then None
  else Some match mode with
       | SM_Both => if bool_decide (dashboard_prefix = "") then prefix +:+ "/health"
                    else dashboard_prefix +:+ "/"
       | _ => prefix +:+ "/health"
       end.

(** The routes of the API scope, below the prefix. *)
Inductive Method := GET | POST | PUT | DELETE.

Definition management_routes : list (Method * string) := [
  (POST, "/v1/orgs"); (GET, "/v1/orgs"); (GET, "/v1/orgs/{org_id}"); (PUT, "/v1/orgs/{org_id}");
  (POST, "/v1/orgs/{org_id}/workspaces"); (GET, "/v1/orgs/{org_id}/workspaces");
  (GET, "/v1/orgs/{org_id}/workspaces/{workspace_id}")].

Definition crud (base item : string) : list (Method * string) :=
  [(POST, base); (GET, base); (GET, base +:+ item); (PUT, base +:+ item); (DELETE, base +:+ item)].

Definition workspace_routes : list (Method * string) :=
  crud "/v1/payload-specs" "/{name}" ++ crud "/v1/configs" "/{name}"
  ++ crud "/v1/secrets" "/{name}" ++ crud "/v1/endpoints" "/{name}" ++ [
  (POST, "/v1/jobs"); (GET, "/v1/jobs"); (GET, "/v1/jobs/{job_id}"); (PUT, "/v1/jobs/{job_id}");
  (POST, "/v1/jobs/{job_id}/cancel"); (GET, "/v1/jobs/{job_id}/status");
  (GET, "/v1/jobs/{job_id}/versions"); (GET, "/v1/jobs/{job_id}/executions");
  (GET, "/v1/executions/{execution_id}"); (POST, "/v1/executions/{execution_id}/cancel");
  (GET, "/v1/executions/{execution_id}/attempts"); (GET, "/v1/executions/{execution_id}/logs")].

Definition api_routes : list (Method * string) :=
  [(GET, "/health"); (GET, "/metrics")] ++ management_routes ++ workspace_routes.
