(* ===== verification/Smithy.v ===== *)
(** * What the SDK's operations share

    The generated client, [client/src]: reading tokens of a response, errors of the
    service ([json_errors.rs], [protocol_serde.rs], [error.rs]), and requests.  The
    crates [aws_smithy_*] and [http] are parameters ([Smithy]).

    A response is read into an [option]: a [DeserializeError] is [None], because the
    SDK only stores it as the opaque source of [Unhandled]. *)

From S2P Require Export Auth.
#[local] Open Scope Z_scope.

(** [?] on a result whose error nobody looks at. *)
Notation "x <-! m ; k" := (match m with Some x => k | None => None end)
  (at level 100, m at level 99, k at level 200, right associativity).

(** ** The libraries *)

(** [SdkTime] is [aws_smithy_types::DateTime]: nanoseconds since the epoch. *)
Definition SdkTime : Type := Z.

Class Smithy := {
  query_encode : string → string;           (* query::fmt_string *)
  label_encode : string → string;           (* label::fmt_string, EncodingStrategy::Default *)
  header_value : string → bool;             (* [HeaderValue::from_str] is [Ok] *)
  fmt_date_time : SdkTime → option string;  (* Format::DateTime *)
  parse_date_time : string → option SdkTime;  (* Format::DateTimeWithOffset *)
  float_as_int : string → option Z;         (* a [Number::Float] as an integer *)
  document_ok : json → bool;                (* [expect_document] is [Ok]: nesting *)
}.

(** ** Responses *)

(** The bytes of a body as its tokens.  Of a malformed one it matters whether its first
    token is there and is not an opening brace. *)
Inductive ResponseBody :=
  | BodyEmpty
  | BodyJson (v : json)
  | BodyMalformed (first_ok : bool).

Record SdkResponse := {
  sr_status : Z;
  sr_headers : list (string * string);      (* names in lower case *)
  sr_body : ResponseBody;
}.

Section tokens.
Context `{!Smithy}.
Implicit Types (v : json) (fs : list (string * json)).

Definition expect_string_or_null v : option (option string) :=
  match v with JString s => Some (Some s) | JNull => Some None | _ => None end.

(** ... followed by [to_unescaped().map(T::from)] *)
Definition expect_enum {T} (from : string → T) v : option (option T) :=
  s <-! expect_string_or_null v; Some (from <$> s).

Definition int_try_from (lo hi : Z) (n : number) : option Z :=
  z <-! match n with NInt z => Some z | NFloat t => float_as_int t end;
  if bool_decide (lo ≤ z ≤ hi) then Some z else None.

Definition expect_int (lo hi : Z) v : option (option Z) :=
  match v with
  | JNumber n => z <-! int_try_from lo hi n; Some (Some z)
  | JNull => Some None
  | _ => None
  end.
Definition i32_min : Z := -2147483648.
Definition i32_max : Z := 2147483647.
Definition expect_i32 : json → option (option Z) := expect_int i32_min i32_max.
Definition expect_i64 : json → option (option Z) := expect_int i64_min i64_max.

Definition expect_timestamp_or_null v : option (option SdkTime) :=
  match v with
  | JString s => t <-! parse_date_time s; Some (Some t)
  | JNull => Some None
  | _ => None
  end.

Definition expect_document v : option (option json) :=
  if document_ok v then Some (Some v) else None.

(** What the builder holds for the key [k] after the loop over the fields: the last
    occurrence wins, also when it is null; other keys are skipped. *)
Fixpoint field_from {A} (k : string) (dec : json → option (option A)) (acc : option A) fs :
    option (option A) :=
  match fs with
  | [] => Some acc
  | (k', v) :: fs =>
      if bool_decide (k' = k) then a <-! dec v; field_from k dec a fs
      else field_from k dec acc fs
  end.
Definition field {A} (k : string) (dec : json → option (option A)) fs : option (option A) :=
  field_from k dec None fs.

(** A structure: null, or an object. *)
Definition de_structure {A} (build : list (string * json) → option A) v : option (option A) :=
  match v with
  | JNull => Some None
  | JObject fs => a <-! build fs; Some (Some a)
  | _ => None
  end.

Fixpoint de_items {A} (dec : json → option (option A)) (l : list json) : option (list A) :=
  match l with
  | [] => Some []
  | v :: l => a <-! dec v; a <-! a; rest <-! de_items dec l; Some (a :: rest)
  end.

(** A dense list: nulls are refused. *)
Definition de_list {A} (dec : json → option (option A)) v : option (option (list A)) :=
  match v with
  | JNull => Some None
  | JArray l => items <-! de_items dec l; Some (Some items)
  | _ => None
  end.

(** [or_empty_doc], [expect_start_object] and the loop of an output. *)
Definition or_empty_doc (b : ResponseBody) : ResponseBody :=
  match b with BodyEmpty => BodyJson (JObject []) | _ => b end.

Definition de_body {A} (build : list (string * json) → option A) (b : ResponseBody) : option A :=
  match or_empty_doc b with BodyJson (JObject fs) => build fs | _ => None end.
End tokens.

(** [::aws_smithy_types::DateTime::from_fractional_secs(0, 0_f64)] *)
Definition epoch : SdkTime := 0.

(** ** Errors ([json_errors.rs]) *)

Definition sanitize_error_code (error_code : string) : string :=
  let error_code := match Str.find error_code ":" with
                    | Some idx => Str.stake idx error_code
                    | None => error_code
                    end in
  match Str.find error_code "#" with
  | Some idx => Str.sdrop (idx + 1) error_code
  | None => error_code
  end.

Record ErrorBody := { eb_code : option string; eb_type : option string; eb_message : option string }.

Definition error_key (k s : string) (b : ErrorBody) : ErrorBody :=
  if bool_decide (k = "code")
  then {| eb_code := Some s; eb_type := eb_type b; eb_message := eb_message b |}
  else if bool_decide (k = "__type")
  then {| eb_code := eb_code b; eb_type := Some s; eb_message := eb_message b |}
  else if bool_decide (k ∈ ["message"; "Message"; "errorMessage"])
  then {| eb_code := eb_code b; eb_type := eb_type b; eb_message := Some s |}
  else b.

Fixpoint error_fields (fs : list (string * json)) (b : ErrorBody) : ErrorBody :=
  match fs with
  | [] => b
  | (k, JString s) :: fs => error_fields fs (error_key k s b)
  | _ :: fs => error_fields fs b
  end.

(** [code.or(typ)] and the message; only an object is looked into.  (Keys are compared as
    they are spelled; the API escapes none.) *)
Definition parse_error_body (b : ResponseBody) : option (option string * option string) :=
  match b with
  | BodyJson (JObject fs) =>
      let b := error_fields fs {| eb_code := None; eb_type := None; eb_message := None |} in
      Some (match eb_code b with Some c => Some c | None => eb_type b end, eb_message b)
  | BodyMalformed false => None
  | _ => Some (None, None)
  end.

(** [aws_smithy_types::error::ErrorMetadata] *)
Record ErrorMetadata := { em_code : option string; em_message : option string }.
Definition no_metadata : ErrorMetadata := {| em_code := None; em_message := None |}.

Fixpoint header (name : string) (hs : list (string * string)) : option string :=
  match hs with
  | [] => None
  | (n, v) :: hs => if bool_decide (n = name) then Some v else header name hs
  end.

Definition parse_error_metadata (b : ResponseBody) (headers : list (string * string)) :
    option ErrorMetadata :=
  cm <-! parse_error_body b;
  Some {| em_code := sanitize_error_code <$>
            match header "x-amzn-errortype" headers with Some t => Some t | None => cm.1 end;
          em_message := cm.2 |}.

(** ** Requests *)

Inductive BuildError :=
  | MissingField (name : string)
  | InvalidField (name : string)
  | SerializationError.

(** The URI is its path and the pairs written by [query::Writer], values encoded. *)
Record SdkRequest := {
  rq_method : Method;
  rq_path : string;
  rq_query : list (string * string);
  rq_headers : list (string * string);
  rq_body : option json;                    (* [None]: the empty body *)
}.

Section requests.
Context `{!Smithy}.

(** A label of the path: required, and not empty. *)
Definition path_label (name : string) (value : option string) : res BuildError string :=
  value <-? ok_or value (MissingField name);
  let s := label_encode value in
  if bool_decide (s = "") then Err (MissingField name) else Ok s.

Definition push_string (k : string) (v : option string) : list (string * string) :=
  match v with Some s => [(k, query_encode s)] | None => [] end.
(** [Encoder::from(n).encode()] *)
Definition push_int (k : string) (v : option Z) : list (string * string) :=
  match v with Some n => [(k, Str.dec n)] | None => [] end.
Definition push_strings {T} (k : string) (as_str : T → string) (v : option (list T)) :
    list (string * string) :=
  match v with Some l => (λ x, (k, query_encode (as_str x))) <$> l | None => [] end.
Definition push_time (k : string) (v : option SdkTime) : res BuildError (list (string * string)) :=
  match v with
  | Some t => s <-? ok_or (fmt_date_time t) SerializationError; Ok [(k, query_encode s)]
  | None => Ok []
  end.

Definition push_header (name key : string) (v : option string) :
    res BuildError (list (string * string)) :=
  match v with
  | Some s => if header_value s then Ok [(key, s)] else Err (InvalidField name)
  | None => Ok []
  end.
Definition ser_headers (org_id workspace_id : option string) :
    res BuildError (list (string * string)) :=
  o <-? push_header "org_id" "x-org-id" org_id;
  w <-? push_header "workspace_id" "x-workspace-id" workspace_id;
  Ok (o ++ w).

(** A field of a body: [object.key(k).string(..)] and the like. *)
Definition ser_string (k : string) (v : option string) : list (string * json) :=
  match v with Some s => [(k, JString s)] | None => [] end.
Definition ser_int (k : string) (v : option Z) : list (string * json) :=
  match v with Some n => [(k, JInt n)] | None => [] end.
Definition ser_document (k : string) (v : option json) : list (string * json) :=
  match v with Some d => [(k, d)] | None => [] end.
Definition ser_time (k : string) (v : option SdkTime) : res BuildError (list (string * json)) :=
  match v with
  | Some t => s <-? ok_or (fmt_date_time t) SerializationError; Ok [(k, JString s)]
  | None => Ok []
  end.
End requests.
