(* ===== verification/SdkTypes.v ===== *)
(** * The SDK's types and how they are read ([client/src/types], [protocol_serde], [serde_util.rs])

    The enumerations, open to values the SDK does not know; the resources, by the state
    of their fields: a builder has [F := option], a finished value [F := id]; and their
    deserializers, which fill what a response does not say with defaults. *)

From S2P Require Export Smithy.
#[local] Open Scope Z_scope.

Definition exact (A : Type) : Type := A.

(** ** Enumerations *)

Inductive AttemptStatusEnum :=
  | AttemptStatusEnum_Failed | AttemptStatusEnum_Success
  | AttemptStatusEnum_Unknown (value : string).
Definition AttemptStatusEnum_from (s : string) : AttemptStatusEnum :=
  if bool_decide (s = "FAILED") then AttemptStatusEnum_Failed
  else if bool_decide (s = "SUCCESS") then AttemptStatusEnum_Success
  else AttemptStatusEnum_Unknown s.
Definition AttemptStatusEnum_as_str (e : AttemptStatusEnum) : string :=
  match e with
  | AttemptStatusEnum_Failed => "FAILED"
  | AttemptStatusEnum_Success => "SUCCESS"
  | AttemptStatusEnum_Unknown value => value
  end.
Definition AttemptStatusEnum_values : list string := ["FAILED"; "SUCCESS"].
Definition AttemptStatusEnum_try_parse (value : string) : res string AttemptStatusEnum :=
  match AttemptStatusEnum_from value with
  | AttemptStatusEnum_Unknown _ => Err ("unknown enum variant: '" +:+ value +:+ "'")
  | known => Ok known
  end.

Inductive BackoffTypeEnum :=
  | BackoffTypeEnum_Exponential | BackoffTypeEnum_Fixed | BackoffTypeEnum_Linear
  | BackoffTypeEnum_Unknown (value : string).
Definition BackoffTypeEnum_from (s : string) : BackoffTypeEnum :=
  if bool_decide (s = "exponential") then BackoffTypeEnum_Exponential
  else if bool_decide (s = "fixed") then BackoffTypeEnum_Fixed
  else if bool_decide (s = "linear") then BackoffTypeEnum_Linear
  else BackoffTypeEnum_Unknown s.
Definition BackoffTypeEnum_as_str (e : BackoffTypeEnum) : string :=
  match e with
  | BackoffTypeEnum_Exponential => "exponential"
  | BackoffTypeEnum_Fixed => "fixed"
  | BackoffTypeEnum_Linear => "linear"
  | BackoffTypeEnum_Unknown value => value
  end.
Definition BackoffTypeEnum_values : list string := ["exponential"; "fixed"; "linear"].
Definition BackoffTypeEnum_try_parse (value : string) : res string BackoffTypeEnum :=
  match BackoffTypeEnum_from value with
  | BackoffTypeEnum_Unknown _ => Err ("unknown enum variant: '" +:+ value +:+ "'")
  | known => Ok known
  end.

Inductive EndpointTypeEnum :=
  | EndpointTypeEnum_Http | EndpointTypeEnum_Internal | EndpointTypeEnum_Kafka
  | EndpointTypeEnum_RedisStream | EndpointTypeEnum_Unknown (value : string).
Definition EndpointTypeEnum_from (s : string) : EndpointTypeEnum :=
  if bool_decide (s = "HTTP") then EndpointTypeEnum_Http
  else if bool_decide (s = "INTERNAL") then EndpointTypeEnum_Internal
  else if bool_decide (s = "KAFKA") then EndpointTypeEnum_Kafka
  else if bool_decide (s = "REDIS_STREAM") then EndpointTypeEnum_RedisStream
  else EndpointTypeEnum_Unknown s.
Definition EndpointTypeEnum_as_str (e : EndpointTypeEnum) : string :=
  match e with
  | EndpointTypeEnum_Http => "HTTP"
  | EndpointTypeEnum_Internal => "INTERNAL"
  | EndpointTypeEnum_Kafka => "KAFKA"
  | EndpointTypeEnum_RedisStream => "REDIS_STREAM"
  | EndpointTypeEnum_Unknown value => value
  end.
Definition EndpointTypeEnum_values : list string := ["HTTP"; "INTERNAL"; "KAFKA"; "REDIS_STREAM"].
Definition EndpointTypeEnum_try_parse (value : string) : res string EndpointTypeEnum :=
  match EndpointTypeEnum_from value with
  | EndpointTypeEnum_Unknown _ => Err ("unknown enum variant: '" +:+ value +:+ "'")
  | known => Ok known
  end.

Inductive ExecutionStatusEnum :=
  | ExecutionStatusEnum_Cancelled | ExecutionStatusEnum_Failed | ExecutionStatusEnum_Pending
  | ExecutionStatusEnum_Queued | ExecutionStatusEnum_Retrying | ExecutionStatusEnum_Running
  | ExecutionStatusEnum_Success | ExecutionStatusEnum_Unknown (value : string).
Definition ExecutionStatusEnum_from (s : string) : ExecutionStatusEnum :=
  if bool_decide (s = "CANCELLED") then ExecutionStatusEnum_Cancelled
  else if bool_decide (s = "FAILED") then ExecutionStatusEnum_Failed
  else if bool_decide (s = "PENDING") then ExecutionStatusEnum_Pending
  else if bool_decide (s = "QUEUED") then ExecutionStatusEnum_Queued
  else if bool_decide (s = "RETRYING") then ExecutionStatusEnum_Retrying
  else if bool_decide (s = "RUNNING") then ExecutionStatusEnum_Running
  else if bool_decide (s = "SUCCESS") then ExecutionStatusEnum_Success
  else ExecutionStatusEnum_Unknown s.
Definition ExecutionStatusEnum_as_str (e : ExecutionStatusEnum) : string :=
  match e with
  | ExecutionStatusEnum_Cancelled => "CANCELLED"
  | ExecutionStatusEnum_Failed => "FAILED"
  | ExecutionStatusEnum_Pending => "PENDING"
  | ExecutionStatusEnum_Queued => "QUEUED"
  | ExecutionStatusEnum_Retrying => "RETRYING"
  | ExecutionStatusEnum_Running => "RUNNING"
  | ExecutionStatusEnum_Success => "SUCCESS"
  | ExecutionStatusEnum_Unknown value => value
  end.
Definition ExecutionStatusEnum_values : list string := [
  "CANCELLED"; "FAILED"; "PENDING"; "QUEUED";
   "RETRYING"; "RUNNING"; "SUCCESS"].
Definition ExecutionStatusEnum_try_parse (value : string) : res string ExecutionStatusEnum :=
  match ExecutionStatusEnum_from value with
  | ExecutionStatusEnum_Unknown _ => Err ("unknown enum variant: '" +:+ value +:+ "'")
  | known => Ok known
  end.

Inductive JobStatusEnum :=
  | JobStatusEnum_Active | JobStatusEnum_Retired | JobStatusEnum_Unknown (value : string).
Definition JobStatusEnum_from (s : string) : JobStatusEnum :=
  if bool_decide (s = "ACTIVE") then JobStatusEnum_Active
  else if bool_decide (s = "RETIRED") then JobStatusEnum_Retired
  else JobStatusEnum_Unknown s.
Definition JobStatusEnum_as_str (e : JobStatusEnum) : string :=
  match e with
  | JobStatusEnum_Active => "ACTIVE"
  | JobStatusEnum_Retired => "RETIRED"
  | JobStatusEnum_Unknown value => value
  end.
Definition JobStatusEnum_values : list string := ["ACTIVE"; "RETIRED"].
Definition JobStatusEnum_try_parse (value : string) : res string JobStatusEnum :=
  match JobStatusEnum_from value with
  | JobStatusEnum_Unknown _ => Err ("unknown enum variant: '" +:+ value +:+ "'")
  | known => Ok known
  end.

Inductive LogLevelEnum :=
  | LogLevelEnum_Debug | LogLevelEnum_Error | LogLevelEnum_Info | LogLevelEnum_Warn
  | LogLevelEnum_Unknown (value : string).
Definition LogLevelEnum_from (s : string) : LogLevelEnum :=
  if bool_decide (s = "DEBUG") then LogLevelEnum_Debug
  else if bool_decide (s = "ERROR") then LogLevelEnum_Error
  else if bool_decide (s = "INFO") then LogLevelEnum_Info
  else if bool_decide (s = "WARN") then LogLevelEnum_Warn
  else LogLevelEnum_Unknown s.
Definition LogLevelEnum_as_str (e : LogLevelEnum) : string :=
  match e with
  | LogLevelEnum_Debug => "DEBUG"
  | LogLevelEnum_Error => "ERROR"
  | LogLevelEnum_Info => "INFO"
  | LogLevelEnum_Warn => "WARN"
  | LogLevelEnum_Unknown value => value
  end.
Definition LogLevelEnum_values : list string := ["DEBUG"; "ERROR"; "INFO"; "WARN"].
Definition LogLevelEnum_try_parse (value : string) : res string LogLevelEnum :=
  match LogLevelEnum_from value with
  | LogLevelEnum_Unknown _ => Err ("unknown enum variant: '" +:+ value +:+ "'")
  | known => Ok known
  end.

Inductive TriggerTypeEnum :=
  | TriggerTypeEnum_Cron | TriggerTypeEnum_Delayed | TriggerTypeEnum_Immediate
  | TriggerTypeEnum_Unknown (value : string).
Definition TriggerTypeEnum_from (s : string) : TriggerTypeEnum :=
  if bool_decide (s = "CRON") then TriggerTypeEnum_Cron
  else if bool_decide (s = "DELAYED") then TriggerTypeEnum_Delayed
  else if bool_decide (s = "IMMEDIATE") then TriggerTypeEnum_Immediate
  else TriggerTypeEnum_Unknown s.
Definition TriggerTypeEnum_as_str (e : TriggerTypeEnum) : string :=
  match e with
  | TriggerTypeEnum_Cron => "CRON"
  | TriggerTypeEnum_Delayed => "DELAYED"
  | TriggerTypeEnum_Immediate => "IMMEDIATE"
  | TriggerTypeEnum_Unknown value => value
  end.
Definition TriggerTypeEnum_values : list string := ["CRON"; "DELAYED"; "IMMEDIATE"].
Definition TriggerTypeEnum_try_parse (value : string) : res string TriggerTypeEnum :=
  match TriggerTypeEnum_from value with
  | TriggerTypeEnum_Unknown _ => Err ("unknown enum variant: '" +:+ value +:+ "'")
  | known => Ok known
  end.

(** [str::parse] of the text the defaults use: the [Unknown] variant. *)
Definition no_value : string := "no value was set".

(** ** Resources *)

Record ErrorDetail (F : Type → Type) := {
  dR_code : F string;
  dR_message : F string;
  dR_request_id : option string;
}.
Arguments Build_ErrorDetail {F}.
Arguments dR_code {F}. Arguments dR_message {F}. Arguments dR_request_id {F}.
Definition error_detail_correct_errors (b : ErrorDetail option) :
    ErrorDetail exact := {|
  dR_code := default "" (dR_code b);
  dR_message := default "" (dR_message b);
  dR_request_id := dR_request_id b |}.
Definition error_detail_default : ErrorDetail exact := error_detail_correct_errors {|
  dR_code := None; dR_message := None; dR_request_id := None |}.

Record RetryPolicyResource := {
  rR_max_attempts : option Z;
  rR_backoff : option BackoffTypeEnum;
  rR_initial_delay_ms : option Z;
  rR_max_delay_ms : option Z;
}.

Record ExecutionSummary (F : Type → Type) := {
  eS_execution_id : F string;
  eS_status : F ExecutionStatusEnum;
  eS_attempt_count : F Z;
  eS_max_attempts : F Z;
  eS_started_at : option SdkTime;
  eS_completed_at : option SdkTime;
}.
Arguments Build_ExecutionSummary {F}.
Arguments eS_execution_id {F}. Arguments eS_status {F}. Arguments eS_attempt_count {F}.
Arguments eS_max_attempts {F}. Arguments eS_started_at {F}. Arguments eS_completed_at {F}.
Definition execution_summary_correct_errors (b : ExecutionSummary option) :
    ExecutionSummary exact := {|
  eS_execution_id := default "" (eS_execution_id b);
  eS_status := default (ExecutionStatusEnum_Unknown no_value) (eS_status b);
  eS_attempt_count := default 0 (eS_attempt_count b);
  eS_max_attempts := default 0 (eS_max_attempts b);
  eS_started_at := eS_started_at b;
  eS_completed_at := eS_completed_at b |}.

Record JobSummary (F : Type → Type) := {
  jS_job_id : F string;
  jS_endpoint : F string;
  jS_trigger_type : F TriggerTypeEnum;
  jS_status : F JobStatusEnum;
  jS_version : F Z;
  jS_created_at : F SdkTime;
}.
Arguments Build_JobSummary {F}.
Arguments jS_job_id {F}. Arguments jS_endpoint {F}. Arguments jS_trigger_type {F}.
Arguments jS_status {F}. Arguments jS_version {F}. Arguments jS_created_at {F}.
Definition job_summary_correct_errors (b : JobSummary option) :
    JobSummary exact := {|
  jS_job_id := default "" (jS_job_id b);
  jS_endpoint := default "" (jS_endpoint b);
  jS_trigger_type := default (TriggerTypeEnum_Unknown no_value) (jS_trigger_type b);
  jS_status := default (JobStatusEnum_Unknown no_value) (jS_status b);
  jS_version := default 0 (jS_version b);
  jS_created_at := default epoch (jS_created_at b) |}.

Record JobResource (F : Type → Type) := {
  jR_job_id : F string;
  jR_endpoint : F string;
  jR_endpoint_type : F EndpointTypeEnum;
  jR_trigger_type : F TriggerTypeEnum;
  jR_status : F JobStatusEnum;
  jR_version : F Z;
  jR_previous_version_id : option string;
  jR_replaced_by_id : option string;
  jR_idempotency_key : option string;
  jR_input : option json;
  jR_run_at : option SdkTime;
  jR_cron_expression : option string;
  jR_cron_timezone : option string;
  jR_cron_starts_at : option SdkTime;
  jR_cron_ends_at : option SdkTime;
  jR_cron_next_run_at : option SdkTime;
  jR_cron_last_tick_at : option SdkTime;
  jR_created_at : F SdkTime;
  jR_retired_at : option SdkTime;
}.
Arguments Build_JobResource {F}.
Arguments jR_job_id {F}. Arguments jR_endpoint {F}. Arguments jR_endpoint_type {F}.
Arguments jR_trigger_type {F}. Arguments jR_status {F}. Arguments jR_version {F}.
Arguments jR_previous_version_id {F}. Arguments jR_replaced_by_id {F}. Arguments jR_idempotency_key {F}.
Arguments jR_input {F}. Arguments jR_run_at {F}. Arguments jR_cron_expression {F}.
Arguments jR_cron_timezone {F}. Arguments jR_cron_starts_at {F}. Arguments jR_cron_ends_at {F}.
Arguments jR_cron_next_run_at {F}. Arguments jR_cron_last_tick_at {F}. Arguments jR_created_at {F}.
Arguments jR_retired_at {F}.
Definition job_resource_correct_errors (b : JobResource option) :
    JobResource exact := {|
  jR_job_id := default "" (jR_job_id b);
  jR_endpoint := default "" (jR_endpoint b);
  jR_endpoint_type := default (EndpointTypeEnum_Unknown no_value) (jR_endpoint_type b);
  jR_trigger_type := default (TriggerTypeEnum_Unknown no_value) (jR_trigger_type b);
  jR_status := default (JobStatusEnum_Unknown no_value) (jR_status b);
  jR_version := default 0 (jR_version b);
  jR_previous_version_id := jR_previous_version_id b;
  jR_replaced_by_id := jR_replaced_by_id b;
  jR_idempotency_key := jR_idempotency_key b;
  jR_input := jR_input b;
  jR_run_at := jR_run_at b;
  jR_cron_expression := jR_cron_expression b;
  jR_cron_timezone := jR_cron_timezone b;
  jR_cron_starts_at := jR_cron_starts_at b;
  jR_cron_ends_at := jR_cron_ends_at b;
  jR_cron_next_run_at := jR_cron_next_run_at b;
  jR_cron_last_tick_at := jR_cron_last_tick_at b;
  jR_created_at := default epoch (jR_created_at b);
  jR_retired_at := jR_retired_at b |}.
Definition job_resource_default : JobResource exact := job_resource_correct_errors {|
  jR_job_id := None; jR_endpoint := None; jR_endpoint_type := None;
  jR_trigger_type := None; jR_status := None; jR_version := None;
  jR_previous_version_id := None; jR_replaced_by_id := None; jR_idempotency_key := None;
  jR_input := None; jR_run_at := None; jR_cron_expression := None;
  jR_cron_timezone := None; jR_cron_starts_at := None; jR_cron_ends_at := None;
  jR_cron_next_run_at := None; jR_cron_last_tick_at := None; jR_created_at := None;
  jR_retired_at := None |}.

Record JobStatusResponse (F : Type → Type) := {
  jT_job_id : F string;
  jT_job_status : F JobStatusEnum;
  jT_latest_execution : option (ExecutionSummary exact);
}.
Arguments Build_JobStatusResponse {F}.
Arguments jT_job_id {F}. Arguments jT_job_status {F}. Arguments jT_latest_execution {F}.
Definition job_status_response_correct_errors (b : JobStatusResponse option) :
    JobStatusResponse exact := {|
  jT_job_id := default "" (jT_job_id b);
  jT_job_status := default (JobStatusEnum_Unknown no_value) (jT_job_status b);
  jT_latest_execution := jT_latest_execution b |}.
Definition job_status_response_default : JobStatusResponse exact :=
  job_status_response_correct_errors {|
  jT_job_id := None; jT_job_status := None; jT_latest_execution := None |}.

Record ExecutionResource (F : Type → Type) := {
  eR_execution_id : F string;
  eR_job_id : F string;
  eR_endpoint : F string;
  eR_endpoint_type : F EndpointTypeEnum;
  eR_idempotency_key : option string;
  eR_status : F ExecutionStatusEnum;
  eR_input : option json;
  eR_output : option json;
  eR_attempt_count : F Z;
  eR_max_attempts : F Z;
  eR_worker_id : option string;
  eR_run_at : F SdkTime;
  eR_started_at : option SdkTime;
  eR_completed_at : option SdkTime;
  eR_duration_ms : option Z;
  eR_created_at : F SdkTime;
}.
Arguments Build_ExecutionResource {F}.
Arguments eR_execution_id {F}. Arguments eR_job_id {F}. Arguments eR_endpoint {F}.
Arguments eR_endpoint_type {F}. Arguments eR_idempotency_key {F}. Arguments eR_status {F}.
Arguments eR_input {F}. Arguments eR_output {F}. Arguments eR_attempt_count {F}.
Arguments eR_max_attempts {F}. Arguments eR_worker_id {F}. Arguments eR_run_at {F}.
Arguments eR_started_at {F}. Arguments eR_completed_at {F}. Arguments eR_duration_ms {F}.
Arguments eR_created_at {F}.
Definition execution_resource_correct_errors (b : ExecutionResource option) :
    ExecutionResource exact := {|
  eR_execution_id := default "" (eR_execution_id b);
  eR_job_id := default "" (eR_job_id b);
  eR_endpoint := default "" (eR_endpoint b);
  eR_endpoint_type := default (EndpointTypeEnum_Unknown no_value) (eR_endpoint_type b);
  eR_idempotency_key := eR_idempotency_key b;
  eR_status := default (ExecutionStatusEnum_Unknown no_value) (eR_status b);
  eR_input := eR_input b;
  eR_output := eR_output b;
  eR_attempt_count := default 0 (eR_attempt_count b);
  eR_max_attempts := default 0 (eR_max_attempts b);
  eR_worker_id := eR_worker_id b;
  eR_run_at := default epoch (eR_run_at b);
  eR_started_at := eR_started_at b;
  eR_completed_at := eR_completed_at b;
  eR_duration_ms := eR_duration_ms b;
  eR_created_at := default epoch (eR_created_at b) |}.
Definition execution_resource_default : ExecutionResource exact :=
  execution_resource_correct_errors {|
  eR_execution_id := None; eR_job_id := None; eR_endpoint := None;
  eR_endpoint_type := None; eR_idempotency_key := None; eR_status := None;
  eR_input := None; eR_output := None; eR_attempt_count := None; eR_max_attempts := None;
  eR_worker_id := None; eR_run_at := None; eR_started_at := None; eR_completed_at := None;
  eR_duration_ms := None; eR_created_at := None |}.

Record EndpointResource (F : Type → Type) := {
  nR_name : F string;
  nR_endpoint_type : F EndpointTypeEnum;
  nR_payload_spec : option string;
  nR_config : option string;
  nR_spec : F json;
  nR_retry_policy : option RetryPolicyResource;
  nR_created_at : F SdkTime;
  nR_updated_at : F SdkTime;
}.
Arguments Build_EndpointResource {F}.
Arguments nR_name {F}. Arguments nR_endpoint_type {F}. Arguments nR_payload_spec {F}.
Arguments nR_config {F}. Arguments nR_spec {F}. Arguments nR_retry_policy {F}.
Arguments nR_created_at {F}. Arguments nR_updated_at {F}.
Definition endpoint_resource_correct_errors (b : EndpointResource option) :
    EndpointResource exact := {|
  nR_name := default "" (nR_name b);
  nR_endpoint_type := default (EndpointTypeEnum_Unknown no_value) (nR_endpoint_type b);
  nR_payload_spec := nR_payload_spec b;
  nR_config := nR_config b;
  nR_spec := default JNull (nR_spec b);
  nR_retry_policy := nR_retry_policy b;
  nR_created_at := default epoch (nR_created_at b);
  nR_updated_at := default epoch (nR_updated_at b) |}.
Definition endpoint_resource_default : EndpointResource exact := endpoint_resource_correct_errors {|
  nR_name := None; nR_endpoint_type := None; nR_payload_spec := None; nR_config := None;
  nR_spec := None; nR_retry_policy := None; nR_created_at := None; nR_updated_at := None |}.

Record PayloadSpecResource (F : Type → Type) := {
  pR_name : F string;
  pR_schema : F json;
  pR_created_at : F SdkTime;
  pR_updated_at : F SdkTime;
}.
Arguments Build_PayloadSpecResource {F}.
Arguments pR_name {F}. Arguments pR_schema {F}. Arguments pR_created_at {F}.
Arguments pR_updated_at {F}.
Definition payload_spec_resource_correct_errors (b : PayloadSpecResource option) :
    PayloadSpecResource exact := {|
  pR_name := default "" (pR_name b);
  pR_schema := default JNull (pR_schema b);
  pR_created_at := default epoch (pR_created_at b);
  pR_updated_at := default epoch (pR_updated_at b) |}.
Definition payload_spec_resource_default : PayloadSpecResource exact :=
  payload_spec_resource_correct_errors {|
  pR_name := None; pR_schema := None; pR_created_at := None; pR_updated_at := None |}.

Record AttemptResource (F : Type → Type) := {
  aR_attempt_id : F string;
  aR_execution_id : F string;
  aR_attempt_number : F Z;
  aR_status : F AttemptStatusEnum;
  aR_started_at : F SdkTime;
  aR_completed_at : option SdkTime;
  aR_duration_ms : option Z;
  aR_output : option json;
  aR_error : option json;
  aR_created_at : F SdkTime;
}.
Arguments Build_AttemptResource {F}.
Arguments aR_attempt_id {F}. Arguments aR_execution_id {F}. Arguments aR_attempt_number {F}.
Arguments aR_status {F}. Arguments aR_started_at {F}. Arguments aR_completed_at {F}.
Arguments aR_duration_ms {F}. Arguments aR_output {F}. Arguments aR_error {F}.
Arguments aR_created_at {F}.
Definition attempt_resource_correct_errors (b : AttemptResource option) :
    AttemptResource exact := {|
  aR_attempt_id := default "" (aR_attempt_id b);
  aR_execution_id := default "" (aR_execution_id b);
  aR_attempt_number := default 0 (aR_attempt_number b);
  aR_status := default (AttemptStatusEnum_Unknown no_value) (aR_status b);
  aR_started_at := default epoch (aR_started_at b);
  aR_completed_at := aR_completed_at b;
  aR_duration_ms := aR_duration_ms b;
  aR_output := aR_output b;
  aR_error := aR_error b;
  aR_created_at := default epoch (aR_created_at b) |}.

Record ExecutionLogResource (F : Type → Type) := {
  lR_log_id : F string;
  lR_execution_id : F string;
  lR_attempt_number : F Z;
  lR_level : F LogLevelEnum;
  lR_message : F string;
  lR_logged_at : F SdkTime;
}.
Arguments Build_ExecutionLogResource {F}.
Arguments lR_log_id {F}. Arguments lR_execution_id {F}. Arguments lR_attempt_number {F}.
Arguments lR_level {F}. Arguments lR_message {F}. Arguments lR_logged_at {F}.
Definition execution_log_resource_correct_errors (b : ExecutionLogResource option) :
    ExecutionLogResource exact := {|
  lR_log_id := default "" (lR_log_id b);
  lR_execution_id := default "" (lR_execution_id b);
  lR_attempt_number := default 0 (lR_attempt_number b);
  lR_level := default (LogLevelEnum_Unknown no_value) (lR_level b);
  lR_message := default "" (lR_message b);
  lR_logged_at := default epoch (lR_logged_at b) |}.

(** ** Deserializers *)

Section deserializers.
Context `{!Smithy}.

Definition de_error_detail : json → option (option (ErrorDetail exact)) :=
  de_structure (λ fs,
  code <-! field "code" expect_string_or_null fs;
  message <-! field "message" expect_string_or_null fs;
  request_id <-! field "request_id" expect_string_or_null fs;
  Some (error_detail_correct_errors {|
    dR_code := code; dR_message := message; dR_request_id := request_id |})).

Definition de_retry_policy : json → option (option RetryPolicyResource) :=
  de_structure (λ fs,
  max_attempts <-! field "max_attempts" expect_i32 fs;
  backoff <-! field "backoff" (expect_enum BackoffTypeEnum_from) fs;
  initial_delay_ms <-! field "initial_delay_ms" expect_i64 fs;
  max_delay_ms <-! field "max_delay_ms" expect_i64 fs;
  Some {|
    rR_max_attempts := max_attempts; rR_backoff := backoff;
    rR_initial_delay_ms := initial_delay_ms; rR_max_delay_ms := max_delay_ms |}).

Definition de_execution_summary : json → option (option (ExecutionSummary exact)) :=
  de_structure (λ fs,
  execution_id <-! field "execution_id" expect_string_or_null fs;
  status <-! field "status" (expect_enum ExecutionStatusEnum_from) fs;
  attempt_count <-! field "attempt_count" expect_i32 fs;
  max_attempts <-! field "max_attempts" expect_i32 fs;
  started_at <-! field "started_at" expect_timestamp_or_null fs;
  completed_at <-! field "completed_at" expect_timestamp_or_null fs;
  Some (execution_summary_correct_errors {|
    eS_execution_id := execution_id; eS_status := status;
    eS_attempt_count := attempt_count; eS_max_attempts := max_attempts;
    eS_started_at := started_at; eS_completed_at := completed_at |})).

Definition de_job_summary : json → option (option (JobSummary exact)) :=
  de_structure (λ fs,
  job_id <-! field "job_id" expect_string_or_null fs;
  endpoint <-! field "endpoint" expect_string_or_null fs;
  trigger_type <-! field "trigger_type" (expect_enum TriggerTypeEnum_from) fs;
  status <-! field "status" (expect_enum JobStatusEnum_from) fs;
  version <-! field "version" expect_i32 fs;
  created_at <-! field "created_at" expect_timestamp_or_null fs;
  Some (job_summary_correct_errors {|
    jS_job_id := job_id; jS_endpoint := endpoint; jS_trigger_type := trigger_type;
    jS_status := status; jS_version := version; jS_created_at := created_at |})).

Definition de_job_resource : json → option (option (JobResource exact)) :=
  de_structure (λ fs,
  job_id <-! field "job_id" expect_string_or_null fs;
  endpoint <-! field "endpoint" expect_string_or_null fs;
  endpoint_type <-! field "endpoint_type" (expect_enum EndpointTypeEnum_from) fs;
  trigger_type <-! field "trigger_type" (expect_enum TriggerTypeEnum_from) fs;
  status <-! field "status" (expect_enum JobStatusEnum_from) fs;
  version <-! field "version" expect_i32 fs;
  previous_version_id <-! field "previous_version_id" expect_string_or_null fs;
  replaced_by_id <-! field "replaced_by_id" expect_string_or_null fs;
  idempotency_key <-! field "idempotency_key" expect_string_or_null fs;
  input <-! field "input" expect_document fs;
  run_at <-! field "run_at" expect_timestamp_or_null fs;
  cron_expression <-! field "cron_expression" expect_string_or_null fs;
  cron_timezone <-! field "cron_timezone" expect_string_or_null fs;
  cron_starts_at <-! field "cron_starts_at" expect_timestamp_or_null fs;
  cron_ends_at <-! field "cron_ends_at" expect_timestamp_or_null fs;
  cron_next_run_at <-! field "cron_next_run_at" expect_timestamp_or_null fs;
  cron_last_tick_at <-! field "cron_last_tick_at" expect_timestamp_or_null fs;
  created_at <-! field "created_at" expect_timestamp_or_null fs;
  retired_at <-! field "retired_at" expect_timestamp_or_null fs;
  Some (job_resource_correct_errors {|
    jR_job_id := job_id; jR_endpoint := endpoint; jR_endpoint_type := endpoint_type;
    jR_trigger_type := trigger_type; jR_status := status; jR_version := version;
    jR_previous_version_id := previous_version_id; jR_replaced_by_id := replaced_by_id;
    jR_idempotency_key := idempotency_key; jR_input := input; jR_run_at := run_at;
    jR_cron_expression := cron_expression; jR_cron_timezone := cron_timezone;
    jR_cron_starts_at := cron_starts_at; jR_cron_ends_at := cron_ends_at;
    jR_cron_next_run_at := cron_next_run_at; jR_cron_last_tick_at := cron_last_tick_at;
    jR_created_at := created_at; jR_retired_at := retired_at |})).

Definition de_job_status_response : json → option (option (JobStatusResponse exact)) :=
  de_structure (λ fs,
  job_id <-! field "job_id" expect_string_or_null fs;
  job_status <-! field "job_status" (expect_enum JobStatusEnum_from) fs;
  latest_execution <-! field "latest_execution" de_execution_summary fs;
  Some (job_status_response_correct_errors {|
    jT_job_id := job_id; jT_job_status := job_status;
    jT_latest_execution := latest_execution |})).

Definition de_execution_resource : json → option (option (ExecutionResource exact)) :=
  de_structure (λ fs,
  execution_id <-! field "execution_id" expect_string_or_null fs;
  job_id <-! field "job_id" expect_string_or_null fs;
  endpoint <-! field "endpoint" expect_string_or_null fs;
  endpoint_type <-! field "endpoint_type" (expect_enum EndpointTypeEnum_from) fs;
  idempotency_key <-! field "idempotency_key" expect_string_or_null fs;
  status <-! field "status" (expect_enum ExecutionStatusEnum_from) fs;
  input <-! field "input" expect_document fs;
  output <-! field "output" expect_document fs;
  attempt_count <-! field "attempt_count" expect_i32 fs;
  max_attempts <-! field "max_attempts" expect_i32 fs;
  worker_id <-! field "worker_id" expect_string_or_null fs;
  run_at <-! field "run_at" expect_timestamp_or_null fs;
  started_at <-! field "started_at" expect_timestamp_or_null fs;
  completed_at <-! field "completed_at" expect_timestamp_or_null fs;
  duration_ms <-! field "duration_ms" expect_i32 fs;
  created_at <-! field "created_at" expect_timestamp_or_null fs;
  Some (execution_resource_correct_errors {|
    eR_execution_id := execution_id; eR_job_id := job_id; eR_endpoint := endpoint;
    eR_endpoint_type := endpoint_type; eR_idempotency_key := idempotency_key;
    eR_status := status; eR_input := input; eR_output := output;
    eR_attempt_count := attempt_count; eR_max_attempts := max_attempts;
    eR_worker_id := worker_id; eR_run_at := run_at; eR_started_at := started_at;
    eR_completed_at := completed_at; eR_duration_ms := duration_ms;
    eR_created_at := created_at |})).

Definition de_endpoint_resource : json → option (option (EndpointResource exact)) :=
  de_structure (λ fs,
  name <-! field "name" expect_string_or_null fs;
  endpoint_type <-! field "type" (expect_enum EndpointTypeEnum_from) fs;
  payload_spec <-! field "payload_spec" expect_string_or_null fs;
  config <-! field "config" expect_string_or_null fs;
  spec <-! field "spec" expect_document fs;
  retry_policy <-! field "retry_policy" de_retry_policy fs;
  created_at <-! field "created_at" expect_timestamp_or_null fs;
  updated_at <-! field "updated_at" expect_timestamp_or_null fs;
  Some (endpoint_resource_correct_errors {|
    nR_name := name; nR_endpoint_type := endpoint_type;
    nR_payload_spec := payload_spec; nR_config := config; nR_spec := spec;
    nR_retry_policy := retry_policy; nR_created_at := created_at;
    nR_updated_at := updated_at |})).

Definition de_payload_spec_resource : json → option (option (PayloadSpecResource exact)) :=
  de_structure (λ fs,
  name <-! field "name" expect_string_or_null fs;
  schema <-! field "schema" expect_document fs;
  created_at <-! field "created_at" expect_timestamp_or_null fs;
  updated_at <-! field "updated_at" expect_timestamp_or_null fs;
  Some (payload_spec_resource_correct_errors {|
    pR_name := name; pR_schema := schema; pR_created_at := created_at;
    pR_updated_at := updated_at |})).

Definition de_attempt_resource : json → option (option (AttemptResource exact)) :=
  de_structure (λ fs,
  attempt_id <-! field "attempt_id" expect_string_or_null fs;
  execution_id <-! field "execution_id" expect_string_or_null fs;
  attempt_number <-! field "attempt_number" expect_i32 fs;
  status <-! field "status" (expect_enum AttemptStatusEnum_from) fs;
  started_at <-! field "started_at" expect_timestamp_or_null fs;
  completed_at <-! field "completed_at" expect_timestamp_or_null fs;
  duration_ms <-! field "duration_ms" expect_i32 fs;
  output <-! field "output" expect_document fs;
  error <-! field "error" expect_document fs;
  created_at <-! field "created_at" expect_timestamp_or_null fs;
  Some (attempt_resource_correct_errors {|
    aR_attempt_id := attempt_id; aR_execution_id := execution_id;
    aR_attempt_number := attempt_number; aR_status := status;
    aR_started_at := started_at; aR_completed_at := completed_at;
    aR_duration_ms := duration_ms; aR_output := output; aR_error := error;
    aR_created_at := created_at |})).

Definition de_execution_log_resource : json → option (option (ExecutionLogResource exact)) :=
  de_structure (λ fs,
  log_id <-! field "log_id" expect_string_or_null fs;
  execution_id <-! field "execution_id" expect_string_or_null fs;
  attempt_number <-! field "attempt_number" expect_i32 fs;
  level <-! field "level" (expect_enum LogLevelEnum_from) fs;
  message <-! field "message" expect_string_or_null fs;
  logged_at <-! field "logged_at" expect_timestamp_or_null fs;
  Some (execution_log_resource_correct_errors {|
    lR_log_id := log_id; lR_execution_id := execution_id;
    lR_attempt_number := attempt_number; lR_level := level; lR_message := message;
    lR_logged_at := logged_at |})).

Definition de_job_summary_list := de_list de_job_summary.
Definition de_job_version_list := de_list de_job_resource.
Definition de_execution_resource_list := de_list de_execution_resource.
Definition de_endpoint_list := de_list de_endpoint_resource.
Definition de_payload_spec_list := de_list de_payload_spec_resource.
Definition de_attempt_resource_list := de_list de_attempt_resource.
Definition de_execution_log_list := de_list de_execution_log_resource.
End deserializers.
