(* ===== verification/SdkOps.v ===== *)
(** * The operations of the SDK ([client/src/operation], [protocol_serde])

    Every operation of the service: the request it makes of its input, and what it
    makes of a response -- an output, an error of the service, or [Unhandled].  The
    fluent builders that only collect the input, telemetry and retries, which belong to
    the runtime of the SDK, are left out. *)

From S2P Require Export SdkTypes.
#[local] Open Scope Z_scope.

(** ** Errors of the service *)

Inductive ServiceErrorKind :=
  | K_NotFound | K_Conflict | K_Unauthorized | K_Internal | K_RateLimited
  | K_InvalidRequest | K_UnprocessableEntity.

#[export] Instance ServiceErrorKind_eq_dec : EqDecision ServiceErrorKind.
Proof. solve_decision. Defined.

Definition error_name (k : ServiceErrorKind) : string :=
  match k with
  | K_NotFound => "NotFoundError"
  | K_Conflict => "ConflictError"
  | K_Unauthorized => "UnauthorizedError"
  | K_Internal => "InternalError"
  | K_RateLimited => "RateLimitedError"
  | K_InvalidRequest => "InvalidRequestError"
  | K_UnprocessableEntity => "UnprocessableEntityError"
  end.

(** The seven structures of [types/error] have the same fields. *)
Record ServiceError := {
  sE_kind : ServiceErrorKind;
  sE_error : ErrorDetail exact;
  sE_message : option string;
  sE_meta : ErrorMetadata;
}.

(** The error type of an operation: one of the errors its model lists, or not. *)
Inductive OperationError :=
  | Modeled (e : ServiceError)
  | Unhandled (meta : ErrorMetadata).

Definition error_meta (e : OperationError) : ErrorMetadata :=
  match e with Modeled e => sE_meta e | Unhandled m => m end.

Definition ServiceError_to_string (e : ServiceError) : string :=
  error_name (sE_kind e) +:+ match sE_message e with Some m => ": " +:+ m | None => "" end.

Definition OperationError_to_string (e : OperationError) : string :=
  match e with
  | Modeled e => ServiceError_to_string e
  | Unhandled m => match em_code m with
                   | Some code => "unhandled error (" +:+ code +:+ ")"
                   | None => "unhandled error"
                   end
  end.

Record SdkPage (A : Type) := { pg_data : list A; pg_cursor : option string }.
Arguments Build_SdkPage {A}. Arguments pg_data {A}. Arguments pg_cursor {A}.

Definition sdk_request (method : Method) (path : string) (query headers : list (string * string))
    (body : option (list (string * json))) : SdkRequest := {|
  rq_method := method; rq_path := path; rq_query := query;
  rq_headers := headers ++ match body with
                           | Some _ => [("content-type", "application/json")]
                           | None => []
                           end;
  rq_body := JObject <$> body |}.

Definition ser_object {T} (k : string) (ser : T → list (string * json)) (v : option T) :
    list (string * json) :=
  match v with Some t => [(k, JObject (ser t))] | None => [] end.
Definition ser_retry_policy (input : RetryPolicyResource) : list (string * json) :=
  ser_int "max_attempts" (rR_max_attempts input)
  ++ ser_string "backoff" (BackoffTypeEnum_as_str <$> rR_backoff input)
  ++ ser_int "initial_delay_ms" (rR_initial_delay_ms input)
  ++ ser_int "max_delay_ms" (rR_max_delay_ms input).

Section operations.
Context `{!Smithy}.

(** The body of an error: its [error], and its [Message]. *)
Definition de_error_fields (fs : list (string * json)) :
    option (option (ErrorDetail exact) * option string) :=
  error <-! field "error" de_error_detail fs;
  message <-! field "Message" expect_string_or_null fs;
  Some (error, message).

Definition de_not_found_error_json_err := de_body de_error_fields.
Definition de_conflict_error_json_err := de_body de_error_fields.
Definition de_unauthorized_error_json_err := de_body de_error_fields.
Definition de_internal_error_json_err := de_body de_error_fields.
Definition de_rate_limited_error_json_err := de_body de_error_fields.
Definition de_invalid_request_error_json_err := de_body de_error_fields.
Definition de_unprocessable_entity_error_json_err := de_body de_error_fields.

Definition de_error_json_err (k : ServiceErrorKind) :
    ResponseBody → option (option (ErrorDetail exact) * option string) :=
  match k with
  | K_NotFound => de_not_found_error_json_err
  | K_Conflict => de_conflict_error_json_err
  | K_Unauthorized => de_unauthorized_error_json_err
  | K_Internal => de_internal_error_json_err
  | K_RateLimited => de_rate_limited_error_json_err
  | K_InvalidRequest => de_invalid_request_error_json_err
  | K_UnprocessableEntity => de_unprocessable_entity_error_json_err
  end.

(** One arm: read the body, and fall back on the generic message. *)
Definition de_service_error (k : ServiceErrorKind) (generic : ErrorMetadata) (b : ResponseBody) :
    OperationError :=
  match de_error_json_err k b with
  | None => Unhandled no_metadata
  | Some (error, message) => Modeled {|
      sE_kind := k;
      sE_error := default error_detail_default error;
      sE_message := match message with Some m => Some m | None => em_message generic end;
      sE_meta := generic |}
  end.

(** [unhandled(..)] drops the metadata, [generic(..)] keeps it. *)
Definition de_http_error (kinds : list ServiceErrorKind) (r : SdkResponse) : OperationError :=
  match parse_error_metadata (sr_body r) (sr_headers r) with
  | None => Unhandled no_metadata
  | Some generic =>
      match em_code generic with
      | None => Unhandled no_metadata
      | Some error_code =>
          match filter (λ k, error_name k = error_code) kinds with
          | k :: _ => de_service_error k generic (sr_body r)
          | [] => Unhandled generic
          end
      end
  end.

Definition de_http_response {O} (de : list (string * json) → option O) (r : SdkResponse) :
    OperationError + O :=
  match de_body de (sr_body r) with
  | Some o => inr o
  | None => inl (Unhandled no_metadata)
  end.

(** [!success && status != ok] *)
Definition is_service_error (ok : Z) (r : SdkResponse) : bool :=
  negb (bool_decide (200 ≤ sr_status r < 300)) && negb (bool_decide (sr_status r = ok)).

(** ** The operations *)

(** *** CreateJob: POST /v1/jobs *)

Record CreateJobInput := {
  create_job_org_id : option string;
  create_job_workspace_id : option string;
  create_job_endpoint : option string;
  create_job_trigger : option TriggerTypeEnum;
  create_job_idempotency_key : option string;
  create_job_input : option json;
  create_job_run_at : option SdkTime;
  create_job_cron : option string;
  create_job_timezone : option string;
  create_job_starts_at : option SdkTime;
  create_job_ends_at : option SdkTime;
}.
Definition CreateJobError_kinds : list ServiceErrorKind :=
  [K_InvalidRequest; K_Conflict; K_NotFound; K_UnprocessableEntity;
   K_Unauthorized; K_Internal; K_RateLimited].

Definition ser_create_job_headers (input : CreateJobInput) :
    res BuildError (list (string * string)) :=
  ser_headers (create_job_org_id input) (create_job_workspace_id input).
Definition create_job_uri_base : string := "/v1/jobs".
Definition ser_create_job_input (input : CreateJobInput) : res BuildError (list (string * json)) :=
  ends_at <-? ser_time "ends_at" (create_job_ends_at input);
  run_at <-? ser_time "run_at" (create_job_run_at input);
  starts_at <-? ser_time "starts_at" (create_job_starts_at input);
  Ok (ser_string "cron" (create_job_cron input)
      ++ ser_string "endpoint" (create_job_endpoint input)
      ++ ends_at
      ++ ser_string "idempotency_key" (create_job_idempotency_key input)
      ++ ser_document "input" (create_job_input input)
      ++ run_at
      ++ starts_at
      ++ ser_string "timezone" (create_job_timezone input)
      ++ ser_string "trigger" (TriggerTypeEnum_as_str <$> create_job_trigger input)).
Definition create_job_request (input : CreateJobInput) : res BuildError SdkRequest :=
  headers <-? ser_create_job_headers input;
  body <-? ser_create_job_input input;
  Ok (sdk_request POST create_job_uri_base [] headers (Some body)).

Definition de_create_job_http_error (r : SdkResponse) : OperationError :=
  de_http_error CreateJobError_kinds r.
Definition create_job_output_output_correct_errors :
    option (JobResource exact) → JobResource exact :=
  default job_resource_default.
Definition de_create_job (fs : list (string * json)) : option (JobResource exact) :=
  data <-! field "data" de_job_resource fs;
  Some (create_job_output_output_correct_errors data).
Definition de_create_job_http_response (r : SdkResponse) : OperationError + (JobResource exact) :=
  de_http_response de_create_job r.
Definition create_job_response (r : SdkResponse) :=
  if is_service_error 201 r then inl (de_create_job_http_error r)
  else de_create_job_http_response r.

(** *** ListJobs: GET /v1/jobs *)

Record ListJobsInput := {
  list_jobs_org_id : option string;
  list_jobs_workspace_id : option string;
  list_jobs_cursor : option string;
  list_jobs_limit : option Z;
  list_jobs_job_id : option string;
  list_jobs_endpoint : option string;
  list_jobs_trigger_type : option (list TriggerTypeEnum);
  list_jobs_status : option (list JobStatusEnum);
  list_jobs_endpoint_type : option (list EndpointTypeEnum);
  list_jobs_created_after : option SdkTime;
  list_jobs_created_before : option SdkTime;
}.
Definition ListJobsError_kinds : list ServiceErrorKind := [K_Unauthorized; K_Internal; K_RateLimited].

Definition ser_list_jobs_headers (input : ListJobsInput) :
    res BuildError (list (string * string)) :=
  ser_headers (list_jobs_org_id input) (list_jobs_workspace_id input).
Definition list_jobs_uri_base : string := "/v1/jobs".
Definition list_jobs_uri_query (input : ListJobsInput) : res BuildError (list (string * string)) :=
  created_after <-? push_time "created_after" (list_jobs_created_after input);
  created_before <-? push_time "created_before" (list_jobs_created_before input);
  Ok (push_string "cursor" (list_jobs_cursor input)
      ++ push_int "limit" (list_jobs_limit input)
      ++ push_string "job_id" (list_jobs_job_id input)
      ++ push_string "endpoint" (list_jobs_endpoint input)
      ++ push_strings "trigger_type" TriggerTypeEnum_as_str (list_jobs_trigger_type input)
      ++ push_strings "status" JobStatusEnum_as_str (list_jobs_status input)
      ++ push_strings "endpoint_type" EndpointTypeEnum_as_str (list_jobs_endpoint_type input)
      ++ created_after
      ++ created_before).
Definition list_jobs_request (input : ListJobsInput) : res BuildError SdkRequest :=
  query <-? list_jobs_uri_query input;
  headers <-? ser_list_jobs_headers input;
  Ok (sdk_request GET list_jobs_uri_base query headers None).

Definition de_list_jobs_http_error (r : SdkResponse) : OperationError :=
  de_http_error ListJobsError_kinds r.
Definition list_jobs_output_output_correct_errors
    (data : option (list (JobSummary exact))) : list (JobSummary exact) :=
  default [] data.
Definition de_list_jobs (fs : list (string * json)) :
    option (SdkPage (JobSummary exact)) :=
  cursor <-! field "cursor" expect_string_or_null fs;
  data <-! field "data" de_job_summary_list fs;
  Some {| pg_data := list_jobs_output_output_correct_errors data;
          pg_cursor := cursor |}.
Definition de_list_jobs_http_response (r : SdkResponse) :
    OperationError + (SdkPage (JobSummary exact)) :=
  de_http_response de_list_jobs r.
Definition list_jobs_response (r : SdkResponse) :=
  if is_service_error 200 r then inl (de_list_jobs_http_error r)
  else de_list_jobs_http_response r.

(** *** GetJob: GET /v1/jobs/{job_id} *)

Record GetJobInput := {
  get_job_org_id : option string;
  get_job_workspace_id : option string;
  get_job_job_id : option string;
}.
Definition GetJobError_kinds : list ServiceErrorKind :=
  [K_NotFound; K_Unauthorized;
   K_Internal; K_RateLimited].

Definition ser_get_job_headers (input : GetJobInput) : res BuildError (list (string * string)) :=
  ser_headers (get_job_org_id input) (get_job_workspace_id input).
Definition get_job_uri_base (input : GetJobInput) : res BuildError string :=
  label <-? path_label "job_id" (get_job_job_id input);
  Ok ("/v1/jobs/" +:+ label).
Definition get_job_request (input : GetJobInput) : res BuildError SdkRequest :=
  uri <-? get_job_uri_base input;
  headers <-? ser_get_job_headers input;
  Ok (sdk_request GET uri [] headers None).

Definition de_get_job_http_error (r : SdkResponse) : OperationError := de_http_error GetJobError_kinds r.
Definition get_job_output_output_correct_errors : option (JobResource exact) → JobResource exact :=
  default job_resource_default.
Definition de_get_job (fs : list (string * json)) : option (JobResource exact) :=
  data <-! field "data" de_job_resource fs;
  Some (get_job_output_output_correct_errors data).
Definition de_get_job_http_response (r : SdkResponse) : OperationError + (JobResource exact) :=
  de_http_response de_get_job r.
Definition get_job_response (r : SdkResponse) :=
  if is_service_error 200 r then inl (de_get_job_http_error r)
  else de_get_job_http_response r.

(** *** UpdateJob: PUT /v1/jobs/{job_id} *)

Record UpdateJobInput := {
  update_job_org_id : option string;
  update_job_workspace_id : option string;
  update_job_job_id : option string;
  update_job_cron : option string;
  update_job_timezone : option string;
  update_job_input : option json;
  update_job_starts_at : option SdkTime;
  update_job_ends_at : option SdkTime;
}.
Definition UpdateJobError_kinds : list ServiceErrorKind :=
  [K_NotFound; K_InvalidRequest; K_UnprocessableEntity;
   K_Unauthorized; K_Internal; K_RateLimited].

Definition ser_update_job_headers (input : UpdateJobInput) :
    res BuildError (list (string * string)) :=
  ser_headers (update_job_org_id input) (update_job_workspace_id input).
Definition update_job_uri_base (input : UpdateJobInput) : res BuildError string :=
  label <-? path_label "job_id" (update_job_job_id input);
  Ok ("/v1/jobs/" +:+ label).
Definition ser_update_job_input (input : UpdateJobInput) : res BuildError (list (string * json)) :=
  ends_at <-? ser_time "ends_at" (update_job_ends_at input);
  starts_at <-? ser_time "starts_at" (update_job_starts_at input);
  Ok (ser_string "cron" (update_job_cron input)
      ++ ends_at
      ++ ser_document "input" (update_job_input input)
      ++ starts_at
      ++ ser_string "timezone" (update_job_timezone input)).
Definition update_job_request (input : UpdateJobInput) : res BuildError SdkRequest :=
  uri <-? update_job_uri_base input;
  headers <-? ser_update_job_headers input;
  body <-? ser_update_job_input input;
  Ok (sdk_request PUT uri [] headers (Some body)).

Definition de_update_job_http_error (r : SdkResponse) : OperationError :=
  de_http_error UpdateJobError_kinds r.
Definition update_job_output_output_correct_errors :
    option (JobResource exact) → JobResource exact :=
  default job_resource_default.
Definition de_update_job (fs : list (string * json)) : option (JobResource exact) :=
  data <-! field "data" de_job_resource fs;
  Some (update_job_output_output_correct_errors data).
Definition de_update_job_http_response (r : SdkResponse) : OperationError + (JobResource exact) :=
  de_http_response de_update_job r.
Definition update_job_response (r : SdkResponse) :=
  if is_service_error 200 r then inl (de_update_job_http_error r)
  else de_update_job_http_response r.

(** *** CancelJob: POST /v1/jobs/{job_id}/cancel *)

Record CancelJobInput := {
  cancel_job_org_id : option string;
  cancel_job_workspace_id : option string;
  cancel_job_job_id : option string;
}.
Definition CancelJobError_kinds : list ServiceErrorKind :=
  [K_NotFound; K_Conflict; K_Unauthorized;
   K_Internal; K_RateLimited].

Definition ser_cancel_job_headers (input : CancelJobInput) :
    res BuildError (list (string * string)) :=
  ser_headers (cancel_job_org_id input) (cancel_job_workspace_id input).
Definition cancel_job_uri_base (input : CancelJobInput) : res BuildError string :=
  label <-? path_label "job_id" (cancel_job_job_id input);
  Ok ("/v1/jobs/" +:+ label +:+ "/cancel").
Definition cancel_job_request (input : CancelJobInput) : res BuildError SdkRequest :=
  uri <-? cancel_job_uri_base input;
  headers <-? ser_cancel_job_headers input;
  Ok (sdk_request POST uri [] headers None).

Definition de_cancel_job_http_error (r : SdkResponse) : OperationError :=
  de_http_error CancelJobError_kinds r.
Definition cancel_job_output_output_correct_errors :
    option (JobResource exact) → JobResource exact :=
  default job_resource_default.
Definition de_cancel_job (fs : list (string * json)) : option (JobResource exact) :=
  data <-! field "data" de_job_resource fs;
  Some (cancel_job_output_output_correct_errors data).
Definition de_cancel_job_http_response (r : SdkResponse) : OperationError + (JobResource exact) :=
  de_http_response de_cancel_job r.
Definition cancel_job_response (r : SdkResponse) :=
  if is_service_error 200 r then inl (de_cancel_job_http_error r)
  else de_cancel_job_http_response r.

(** *** GetJobStatus: GET /v1/jobs/{job_id}/status *)

Record GetJobStatusInput := {
  get_job_status_org_id : option string;
  get_job_status_workspace_id : option string;
  get_job_status_job_id : option string;
}.
Definition GetJobStatusError_kinds : list ServiceErrorKind :=
  [K_NotFound; K_Unauthorized;
   K_Internal; K_RateLimited].

Definition ser_get_job_status_headers (input : GetJobStatusInput) :
    res BuildError (list (string * string)) :=
  ser_headers (get_job_status_org_id input) (get_job_status_workspace_id input).
Definition get_job_status_uri_base (input : GetJobStatusInput) : res BuildError string :=
  label <-? path_label "job_id" (get_job_status_job_id input);
  Ok ("/v1/jobs/" +:+ label +:+ "/status").
Definition get_job_status_request (input : GetJobStatusInput) : res BuildError SdkRequest :=
  uri <-? get_job_status_uri_base input;
  headers <-? ser_get_job_status_headers input;
  Ok (sdk_request GET uri [] headers None).

Definition de_get_job_status_http_error (r : SdkResponse) : OperationError :=
  de_http_error GetJobStatusError_kinds r.
Definition get_job_status_output_output_correct_errors :
    option (JobStatusResponse exact) → JobStatusResponse exact :=
  default job_status_response_default.
Definition de_get_job_status (fs : list (string * json)) : option (JobStatusResponse exact) :=
  data <-! field "data" de_job_status_response fs;
  Some (get_job_status_output_output_correct_errors data).
Definition de_get_job_status_http_response (r : SdkResponse) :
    OperationError + (JobStatusResponse exact) :=
  de_http_response de_get_job_status r.
Definition get_job_status_response (r : SdkResponse) :=
  if is_service_error 200 r then inl (de_get_job_status_http_error r)
  else de_get_job_status_http_response r.

(** *** GetJobVersions: GET /v1/jobs/{job_id}/versions *)

Record GetJobVersionsInput := {
  get_job_versions_org_id : option string;
  get_job_versions_workspace_id : option string;
  get_job_versions_job_id : option string;
}.
Definition GetJobVersionsError_kinds : list ServiceErrorKind :=
  [K_NotFound; K_Unauthorized;
   K_Internal; K_RateLimited].

Definition ser_get_job_versions_headers (input : GetJobVersionsInput) :
    res BuildError (list (string * string)) :=
  ser_headers (get_job_versions_org_id input) (get_job_versions_workspace_id input).
Definition get_job_versions_uri_base (input : GetJobVersionsInput) : res BuildError string :=
  label <-? path_label "job_id" (get_job_versions_job_id input);
  Ok ("/v1/jobs/" +:+ label +:+ "/versions").
Definition get_job_versions_request (input : GetJobVersionsInput) : res BuildError SdkRequest :=
  uri <-? get_job_versions_uri_base input;
  headers <-? ser_get_job_versions_headers input;
  Ok (sdk_request GET uri [] headers None).

Definition de_get_job_versions_http_error (r : SdkResponse) : OperationError :=
  de_http_error GetJobVersionsError_kinds r.
Definition get_job_versions_output_output_correct_errors
    (data : option (list (JobResource exact))) : list (JobResource exact) :=
  default [] data.
Definition de_get_job_versions (fs : list (string * json)) :
    option (list (JobResource exact)) :=
  data <-! field "data" de_job_version_list fs;
  Some (get_job_versions_output_output_correct_errors data).
Definition de_get_job_versions_http_response (r : SdkResponse) :
    OperationError + (list (JobResource exact)) :=
  de_http_response de_get_job_versions r.
Definition get_job_versions_response (r : SdkResponse) :=
  if is_service_error 200 r then inl (de_get_job_versions_http_error r)
  else de_get_job_versions_http_response r.

(** *** ListJobExecutions: GET /v1/jobs/{job_id}/executions *)

Record ListJobExecutionsInput := {
  list_job_executions_org_id : option string;
  list_job_executions_workspace_id : option string;
  list_job_executions_cursor : option string;
  list_job_executions_limit : option Z;
  list_job_executions_job_id : option string;
  list_job_executions_status : option ExecutionStatusEnum;
}.
Definition ListJobExecutionsError_kinds : list ServiceErrorKind :=
  [K_NotFound; K_Unauthorized;
   K_Internal; K_RateLimited].

Definition ser_list_job_executions_headers (input : ListJobExecutionsInput) :
    res BuildError (list (string * string)) :=
  ser_headers (list_job_executions_org_id input) (list_job_executions_workspace_id input).
Definition list_job_executions_uri_base (input : ListJobExecutionsInput) : res BuildError string :=
  label <-? path_label "job_id" (list_job_executions_job_id input);
  Ok ("/v1/jobs/" +:+ label +:+ "/executions").
Definition list_job_executions_uri_query (input : ListJobExecutionsInput) :
    list (string * string) :=
  push_string "cursor" (list_job_executions_cursor input)
  ++ push_int "limit" (list_job_executions_limit input)
  ++ push_string "status" (ExecutionStatusEnum_as_str <$> list_job_executions_status input).
Definition list_job_executions_request (input : ListJobExecutionsInput) :
    res BuildError SdkRequest :=
  uri <-? list_job_executions_uri_base input;
  headers <-? ser_list_job_executions_headers input;
  Ok (sdk_request GET uri (list_job_executions_uri_query input) headers None).

Definition de_list_job_executions_http_error (r : SdkResponse) : OperationError :=
  de_http_error ListJobExecutionsError_kinds r.
Definition list_job_executions_output_output_correct_errors
    (data : option (list (ExecutionResource exact))) : list (ExecutionResource exact) :=
  default [] data.
Definition de_list_job_executions (fs : list (string * json)) :
    option (SdkPage (ExecutionResource exact)) :=
  cursor <-! field "cursor" expect_string_or_null fs;
  data <-! field "data" de_execution_resource_list fs;
  Some {| pg_data := list_job_executions_output_output_correct_errors data;
          pg_cursor := cursor |}.
Definition de_list_job_executions_http_response (r : SdkResponse) :
    OperationError + (SdkPage (ExecutionResource exact)) :=
  de_http_response de_list_job_executions r.
Definition list_job_executions_response (r : SdkResponse) :=
  if is_service_error 200 r then inl (de_list_job_executions_http_error r)
  else de_list_job_executions_http_response r.

(** *** GetExecution: GET /v1/executions/{execution_id} *)

Record GetExecutionInput := {
  get_execution_org_id : option string;
  get_execution_workspace_id : option string;
  get_execution_execution_id : option string;
}.
Definition GetExecutionError_kinds : list ServiceErrorKind :=
  [K_NotFound; K_Unauthorized;
   K_Internal; K_RateLimited].

Definition ser_get_execution_headers (input : GetExecutionInput) :
    res BuildError (list (string * string)) :=
  ser_headers (get_execution_org_id input) (get_execution_workspace_id input).
Definition get_execution_uri_base (input : GetExecutionInput) : res BuildError string :=
  label <-? path_label "execution_id" (get_execution_execution_id input);
  Ok ("/v1/executions/" +:+ label).
Definition get_execution_request (input : GetExecutionInput) : res BuildError SdkRequest :=
  uri <-? get_execution_uri_base input;
  headers <-? ser_get_execution_headers input;
  Ok (sdk_request GET uri [] headers None).

Definition de_get_execution_http_error (r : SdkResponse) : OperationError :=
  de_http_error GetExecutionError_kinds r.
Definition get_execution_output_output_correct_errors :
    option (ExecutionResource exact) → ExecutionResource exact :=
  default execution_resource_default.
Definition de_get_execution (fs : list (string * json)) : option (ExecutionResource exact) :=
  data <-! field "data" de_execution_resource fs;
  Some (get_execution_output_output_correct_errors data).
Definition de_get_execution_http_response (r : SdkResponse) :
    OperationError + (ExecutionResource exact) :=
  de_http_response de_get_execution r.
Definition get_execution_response (r : SdkResponse) :=
  if is_service_error 200 r then inl (de_get_execution_http_error r)
  else de_get_execution_http_response r.

(** *** CancelExecution: POST /v1/executions/{execution_id}/cancel *)

Record CancelExecutionInput := {
  cancel_execution_org_id : option string;
  cancel_execution_workspace_id : option string;
  cancel_execution_execution_id : option string;
}.
Definition CancelExecutionError_kinds : list ServiceErrorKind :=
  [K_NotFound; K_Conflict; K_Unauthorized;
   K_Internal; K_RateLimited].

Definition ser_cancel_execution_headers (input : CancelExecutionInput) :
    res BuildError (list (string * string)) :=
  ser_headers (cancel_execution_org_id input) (cancel_execution_workspace_id input).
Definition cancel_execution_uri_base (input : CancelExecutionInput) : res BuildError string :=
  label <-? path_label "execution_id" (cancel_execution_execution_id input);
  Ok ("/v1/executions/" +:+ label +:+ "/cancel").
Definition cancel_execution_request (input : CancelExecutionInput) : res BuildError SdkRequest :=
  uri <-? cancel_execution_uri_base input;
  headers <-? ser_cancel_execution_headers input;
  Ok (sdk_request POST uri [] headers None).

Definition de_cancel_execution_http_error (r : SdkResponse) : OperationError :=
  de_http_error CancelExecutionError_kinds r.
Definition cancel_execution_output_output_correct_errors :
    option (ExecutionResource exact) → ExecutionResource exact :=
  default execution_resource_default.
Definition de_cancel_execution (fs : list (string * json)) : option (ExecutionResource exact) :=
  data <-! field "data" de_execution_resource fs;
  Some (cancel_execution_output_output_correct_errors data).
Definition de_cancel_execution_http_response (r : SdkResponse) :
    OperationError + (ExecutionResource exact) :=
  de_http_response de_cancel_execution r.
Definition cancel_execution_response (r : SdkResponse) :=
  if is_service_error 200 r then inl (de_cancel_execution_http_error r)
  else de_cancel_execution_http_response r.

(** *** ListExecutionAttempts: GET /v1/executions/{execution_id}/attempts *)

Record ListExecutionAttemptsInput := {
  list_execution_attempts_org_id : option string;
  list_execution_attempts_workspace_id : option string;
  list_execution_attempts_cursor : option string;
  list_execution_attempts_limit : option Z;
  list_execution_attempts_execution_id : option string;
}.
Definition ListExecutionAttemptsError_kinds : list ServiceErrorKind :=
  [K_NotFound; K_Unauthorized;
   K_Internal; K_RateLimited].

Definition ser_list_execution_attempts_headers (input : ListExecutionAttemptsInput) :
    res BuildError (list (string * string)) :=
  ser_headers (list_execution_attempts_org_id input) (list_execution_attempts_workspace_id input).
Definition list_execution_attempts_uri_base (input : ListExecutionAttemptsInput) :
    res BuildError string :=
  label <-? path_label "execution_id" (list_execution_attempts_execution_id input);
  Ok ("/v1/executions/" +:+ label +:+ "/attempts").
Definition list_execution_attempts_uri_query (input : ListExecutionAttemptsInput) :
    list (string * string) :=
  push_string "cursor" (list_execution_attempts_cursor input)
  ++ push_int "limit" (list_execution_attempts_limit input).
Definition list_execution_attempts_request (input : ListExecutionAttemptsInput) :
    res BuildError SdkRequest :=
  uri <-? list_execution_attempts_uri_base input;
  headers <-? ser_list_execution_attempts_headers input;
  Ok (sdk_request GET uri (list_execution_attempts_uri_query input) headers None).

Definition de_list_execution_attempts_http_error (r : SdkResponse) : OperationError :=
  de_http_error ListExecutionAttemptsError_kinds r.
Definition list_execution_attempts_output_output_correct_errors
    (data : option (list (AttemptResource exact))) : list (AttemptResource exact) :=
  default [] data.
Definition de_list_execution_attempts (fs : list (string * json)) :
    option (SdkPage (AttemptResource exact)) :=
  cursor <-! field "cursor" expect_string_or_null fs;
  data <-! field "data" de_attempt_resource_list fs;
  Some {| pg_data := list_execution_attempts_output_output_correct_errors data;
          pg_cursor := cursor |}.
Definition de_list_execution_attempts_http_response (r : SdkResponse) :
    OperationError + (SdkPage (AttemptResource exact)) :=
  de_http_response de_list_execution_attempts r.
Definition list_execution_attempts_response (r : SdkResponse) :=
  if is_service_error 200 r then inl (de_list_execution_attempts_http_error r)
  else de_list_execution_attempts_http_response r.

(** *** ListExecutionLogs: GET /v1/executions/{execution_id}/logs *)

Record ListExecutionLogsInput := {
  list_execution_logs_org_id : option string;
  list_execution_logs_workspace_id : option string;
  list_execution_logs_cursor : option string;
  list_execution_logs_limit : option Z;
  list_execution_logs_execution_id : option string;
}.
Definition ListExecutionLogsError_kinds : list ServiceErrorKind :=
  [K_NotFound; K_Unauthorized;
   K_Internal; K_RateLimited].

Definition ser_list_execution_logs_headers (input : ListExecutionLogsInput) :
    res BuildError (list (string * string)) :=
  ser_headers (list_execution_logs_org_id input) (list_execution_logs_workspace_id input).
Definition list_execution_logs_uri_base (input : ListExecutionLogsInput) : res BuildError string :=
  label <-? path_label "execution_id" (list_execution_logs_execution_id input);
  Ok ("/v1/executions/" +:+ label +:+ "/logs").
Definition list_execution_logs_uri_query (input : ListExecutionLogsInput) :
    list (string * string) :=
  push_string "cursor" (list_execution_logs_cursor input)
  ++ push_int "limit" (list_execution_logs_limit input).
Definition list_execution_logs_request (input : ListExecutionLogsInput) :
    res BuildError SdkRequest :=
  uri <-? list_execution_logs_uri_base input;
  headers <-? ser_list_execution_logs_headers input;
  Ok (sdk_request GET uri (list_execution_logs_uri_query input) headers None).

Definition de_list_execution_logs_http_error (r : SdkResponse) : OperationError :=
  de_http_error ListExecutionLogsError_kinds r.
Definition list_execution_logs_output_output_correct_errors
    (data : option (list (ExecutionLogResource exact))) : list (ExecutionLogResource exact) :=
  default [] data.
Definition de_list_execution_logs (fs : list (string * json)) :
    option (SdkPage (ExecutionLogResource exact)) :=
  cursor <-! field "cursor" expect_string_or_null fs;
  data <-! field "data" de_execution_log_list fs;
  Some {| pg_data := list_execution_logs_output_output_correct_errors data;
          pg_cursor := cursor |}.
Definition de_list_execution_logs_http_response (r : SdkResponse) :
    OperationError + (SdkPage (ExecutionLogResource exact)) :=
  de_http_response de_list_execution_logs r.
Definition list_execution_logs_response (r : SdkResponse) :=
  if is_service_error 200 r then inl (de_list_execution_logs_http_error r)
  else de_list_execution_logs_http_response r.

(** *** CreateEndpoint: POST /v1/endpoints *)

Record CreateEndpointInput := {
  create_endpoint_org_id : option string;
  create_endpoint_workspace_id : option string;
  create_endpoint_name : option string;
  create_endpoint_endpoint_type : option EndpointTypeEnum;
  create_endpoint_payload_spec : option string;
  create_endpoint_config : option string;
  create_endpoint_spec : option json;
  create_endpoint_retry_policy : option RetryPolicyResource;
}.
Definition CreateEndpointError_kinds : list ServiceErrorKind :=
  [K_InvalidRequest; K_Conflict; K_UnprocessableEntity;
   K_Unauthorized; K_Internal; K_RateLimited].

Definition ser_create_endpoint_headers (input : CreateEndpointInput) :
    res BuildError (list (string * string)) :=
  ser_headers (create_endpoint_org_id input) (create_endpoint_workspace_id input).
Definition create_endpoint_uri_base : string := "/v1/endpoints".
Definition ser_create_endpoint_input (input : CreateEndpointInput) : list (string * json) :=
  ser_string "config" (create_endpoint_config input)
  ++ ser_string "type" (EndpointTypeEnum_as_str <$> create_endpoint_endpoint_type input)
  ++ ser_string "name" (create_endpoint_name input)
  ++ ser_string "payload_spec" (create_endpoint_payload_spec input)
  ++ ser_object "retry_policy" ser_retry_policy (create_endpoint_retry_policy input)
  ++ ser_document "spec" (create_endpoint_spec input).
Definition create_endpoint_request (input : CreateEndpointInput) : res BuildError SdkRequest :=
  headers <-? ser_create_endpoint_headers input;
  Ok (sdk_request POST create_endpoint_uri_base []
        headers (Some (ser_create_endpoint_input input))).

Definition de_create_endpoint_http_error (r : SdkResponse) : OperationError :=
  de_http_error CreateEndpointError_kinds r.
Definition create_endpoint_output_output_correct_errors :
    option (EndpointResource exact) → EndpointResource exact :=
  default endpoint_resource_default.
Definition de_create_endpoint (fs : list (string * json)) : option (EndpointResource exact) :=
  data <-! field "data" de_endpoint_resource fs;
  Some (create_endpoint_output_output_correct_errors data).
Definition de_create_endpoint_http_response (r : SdkResponse) :
    OperationError + (EndpointResource exact) :=
  de_http_response de_create_endpoint r.
Definition create_endpoint_response (r : SdkResponse) :=
  if is_service_error 201 r then inl (de_create_endpoint_http_error r)
  else de_create_endpoint_http_response r.

(** *** ListEndpoints: GET /v1/endpoints *)

Record ListEndpointsInput := {
  list_endpoints_org_id : option string;
  list_endpoints_workspace_id : option string;
  list_endpoints_cursor : option string;
  list_endpoints_limit : option Z;
}.
Definition ListEndpointsError_kinds : list ServiceErrorKind :=
  [K_Unauthorized; K_Internal;
   K_RateLimited].

Definition ser_list_endpoints_headers (input : ListEndpointsInput) :
    res BuildError (list (string * string)) :=
  ser_headers (list_endpoints_org_id input) (list_endpoints_workspace_id input).
Definition list_endpoints_uri_base : string := "/v1/endpoints".
Definition list_endpoints_uri_query (input : ListEndpointsInput) : list (string * string) :=
  push_string "cursor" (list_endpoints_cursor input)
  ++ push_int "limit" (list_endpoints_limit input).
Definition list_endpoints_request (input : ListEndpointsInput) : res BuildError SdkRequest :=
  headers <-? ser_list_endpoints_headers input;
  Ok (sdk_request GET list_endpoints_uri_base (list_endpoints_uri_query input) headers None).

Definition de_list_endpoints_http_error (r : SdkResponse) : OperationError :=
  de_http_error ListEndpointsError_kinds r.
Definition list_endpoints_output_output_correct_errors
    (data : option (list (EndpointResource exact))) : list (EndpointResource exact) :=
  default [] data.
Definition de_list_endpoints (fs : list (string * json)) :
    option (SdkPage (EndpointResource exact)) :=
  cursor <-! field "cursor" expect_string_or_null fs;
  data <-! field "data" de_endpoint_list fs;
  Some {| pg_data := list_endpoints_output_output_correct_errors data;
          pg_cursor := cursor |}.
Definition de_list_endpoints_http_response (r : SdkResponse) :
    OperationError + (SdkPage (EndpointResource exact)) :=
  de_http_response de_list_endpoints r.
Definition list_endpoints_response (r : SdkResponse) :=
  if is_service_error 200 r then inl (de_list_endpoints_http_error r)
  else de_list_endpoints_http_response r.

(** *** GetEndpoint: GET /v1/endpoints/{name} *)

Record GetEndpointInput := {
  get_endpoint_org_id : option string;
  get_endpoint_workspace_id : option string;
  get_endpoint_name : option string;
}.
Definition GetEndpointError_kinds : list ServiceErrorKind :=
  [K_NotFound; K_Unauthorized;
   K_Internal; K_RateLimited].

Definition ser_get_endpoint_headers (input : GetEndpointInput) :
    res BuildError (list (string * string)) :=
  ser_headers (get_endpoint_org_id input) (get_endpoint_workspace_id input).
Definition get_endpoint_uri_base (input : GetEndpointInput) : res BuildError string :=
  label <-? path_label "name" (get_endpoint_name input);
  Ok ("/v1/endpoints/" +:+ label).
Definition get_endpoint_request (input : GetEndpointInput) : res BuildError SdkRequest :=
  uri <-? get_endpoint_uri_base input;
  headers <-? ser_get_endpoint_headers input;
  Ok (sdk_request GET uri [] headers None).

Definition de_get_endpoint_http_error (r : SdkResponse) : OperationError :=
  de_http_error GetEndpointError_kinds r.
Definition get_endpoint_output_output_correct_errors :
    option (EndpointResource exact) → EndpointResource exact :=
  default endpoint_resource_default.
Definition de_get_endpoint (fs : list (string * json)) : option (EndpointResource exact) :=
  data <-! field "data" de_endpoint_resource fs;
  Some (get_endpoint_output_output_correct_errors data).
Definition de_get_endpoint_http_response (r : SdkResponse) :
    OperationError + (EndpointResource exact) :=
  de_http_response de_get_endpoint r.
Definition get_endpoint_response (r : SdkResponse) :=
  if is_service_error 200 r then inl (de_get_endpoint_http_error r)
  else de_get_endpoint_http_response r.

(** *** UpdateEndpoint: PUT /v1/endpoints/{name} *)

Record UpdateEndpointInput := {
  update_endpoint_org_id : option string;
  update_endpoint_workspace_id : option string;
  update_endpoint_name : option string;
  update_endpoint_spec : option json;
  update_endpoint_config : option string;
  update_endpoint_payload_spec : option string;
  update_endpoint_retry_policy : option RetryPolicyResource;
}.
Definition UpdateEndpointError_kinds : list ServiceErrorKind :=
  [K_NotFound; K_InvalidRequest; K_UnprocessableEntity;
   K_Unauthorized; K_Internal; K_RateLimited].

Definition ser_update_endpoint_headers (input : UpdateEndpointInput) :
    res BuildError (list (string * string)) :=
  ser_headers (update_endpoint_org_id input) (update_endpoint_workspace_id input).
Definition update_endpoint_uri_base (input : UpdateEndpointInput) : res BuildError string :=
  label <-? path_label "name" (update_endpoint_name input);
  Ok ("/v1/endpoints/" +:+ label).
Definition ser_update_endpoint_input (input : UpdateEndpointInput) : list (string * json) :=
  ser_string "config" (update_endpoint_config input)
  ++ ser_string "payload_spec" (update_endpoint_payload_spec input)
  ++ ser_object "retry_policy" ser_retry_policy (update_endpoint_retry_policy input)
  ++ ser_document "spec" (update_endpoint_spec input).
Definition update_endpoint_request (input : UpdateEndpointInput) : res BuildError SdkRequest :=
  uri <-? update_endpoint_uri_base input;
  headers <-? ser_update_endpoint_headers input;
  Ok (sdk_request PUT uri [] headers (Some (ser_update_endpoint_input input))).

Definition de_update_endpoint_http_error (r : SdkResponse) : OperationError :=
  de_http_error UpdateEndpointError_kinds r.
Definition update_endpoint_output_output_correct_errors :
    option (EndpointResource exact) → EndpointResource exact :=
  default endpoint_resource_default.
Definition de_update_endpoint (fs : list (string * json)) : option (EndpointResource exact) :=
  data <-! field "data" de_endpoint_resource fs;
  Some (update_endpoint_output_output_correct_errors data).
Definition de_update_endpoint_http_response (r : SdkResponse) :
    OperationError + (EndpointResource exact) :=
  de_http_response de_update_endpoint r.
Definition update_endpoint_response (r : SdkResponse) :=
  if is_service_error 200 r then inl (de_update_endpoint_http_error r)
  else de_update_endpoint_http_response r.

(** *** DeleteEndpoint: DELETE /v1/endpoints/{name} *)

Record DeleteEndpointInput := {
  delete_endpoint_org_id : option string;
  delete_endpoint_workspace_id : option string;
  delete_endpoint_name : option string;
}.
Definition DeleteEndpointError_kinds : list ServiceErrorKind :=
  [K_NotFound; K_Unauthorized;
   K_Internal; K_RateLimited].

Definition ser_delete_endpoint_headers (input : DeleteEndpointInput) :
    res BuildError (list (string * string)) :=
  ser_headers (delete_endpoint_org_id input) (delete_endpoint_workspace_id input).
Definition delete_endpoint_uri_base (input : DeleteEndpointInput) : res BuildError string :=
  label <-? path_label "name" (delete_endpoint_name input);
  Ok ("/v1/endpoints/" +:+ label).
Definition delete_endpoint_request (input : DeleteEndpointInput) : res BuildError SdkRequest :=
  uri <-? delete_endpoint_uri_base input;
  headers <-? ser_delete_endpoint_headers input;
  Ok (sdk_request DELETE uri [] headers None).

Definition de_delete_endpoint_http_error (r : SdkResponse) : OperationError :=
  de_http_error DeleteEndpointError_kinds r.
Definition de_delete_endpoint_http_response (r : SdkResponse) : OperationError + unit := inr tt.
Definition delete_endpoint_response (r : SdkResponse) :=
  if is_service_error 204 r then inl (de_delete_endpoint_http_error r)
  else de_delete_endpoint_http_response r.

(** *** CreatePayloadSpec: POST /v1/payload-specs *)

Record CreatePayloadSpecInput := {
  create_payload_spec_org_id : option string;
  create_payload_spec_workspace_id : option string;
  create_payload_spec_name : option string;
  create_payload_spec_schema : option json;
}.
Definition CreatePayloadSpecError_kinds : list ServiceErrorKind :=
  [K_InvalidRequest; K_Conflict; K_Unauthorized;
   K_Internal; K_RateLimited].

Definition ser_create_payload_spec_headers (input : CreatePayloadSpecInput) :
    res BuildError (list (string * string)) :=
  ser_headers (create_payload_spec_org_id input) (create_payload_spec_workspace_id input).
Definition create_payload_spec_uri_base : string := "/v1/payload-specs".
Definition ser_create_payload_spec_input (input : CreatePayloadSpecInput) : list (string * json) :=
  ser_string "name" (create_payload_spec_name input)
  ++ ser_document "schema" (create_payload_spec_schema input).
Definition create_payload_spec_request (input : CreatePayloadSpecInput) :
    res BuildError SdkRequest :=
  headers <-? ser_create_payload_spec_headers input;
  Ok (sdk_request POST create_payload_spec_uri_base []
        headers (Some (ser_create_payload_spec_input input))).

Definition de_create_payload_spec_http_error (r : SdkResponse) : OperationError :=
  de_http_error CreatePayloadSpecError_kinds r.
Definition create_payload_spec_output_output_correct_errors :
    option (PayloadSpecResource exact) → PayloadSpecResource exact :=
  default payload_spec_resource_default.
Definition de_create_payload_spec (fs : list (string * json)) :
    option (PayloadSpecResource exact) :=
  data <-! field "data" de_payload_spec_resource fs;
  Some (create_payload_spec_output_output_correct_errors data).
Definition de_create_payload_spec_http_response (r : SdkResponse) :
    OperationError + (PayloadSpecResource exact) :=
  de_http_response de_create_payload_spec r.
Definition create_payload_spec_response (r : SdkResponse) :=
  if is_service_error 201 r then inl (de_create_payload_spec_http_error r)
  else de_create_payload_spec_http_response r.

(** *** ListPayloadSpecs: GET /v1/payload-specs *)

Record ListPayloadSpecsInput := {
  list_payload_specs_org_id : option string;
  list_payload_specs_workspace_id : option string;
  list_payload_specs_cursor : option string;
  list_payload_specs_limit : option Z;
}.
Definition ListPayloadSpecsError_kinds : list ServiceErrorKind :=
  [K_Unauthorized; K_Internal;
   K_RateLimited].

Definition ser_list_payload_specs_headers (input : ListPayloadSpecsInput) :
    res BuildError (list (string * string)) :=
  ser_headers (list_payload_specs_org_id input) (list_payload_specs_workspace_id input).
Definition list_payload_specs_uri_base : string := "/v1/payload-specs".
Definition list_payload_specs_uri_query (input : ListPayloadSpecsInput) : list (string * string) :=
  push_string "cursor" (list_payload_specs_cursor input)
  ++ push_int "limit" (list_payload_specs_limit input).
Definition list_payload_specs_request (input : ListPayloadSpecsInput) : res BuildError SdkRequest :=
  headers <-? ser_list_payload_specs_headers input;
  Ok (sdk_request GET list_payload_specs_uri_base (list_payload_specs_uri_query input)
        headers None).

Definition de_list_payload_specs_http_error (r : SdkResponse) : OperationError :=
  de_http_error ListPayloadSpecsError_kinds r.
Definition list_payload_specs_output_output_correct_errors
    (data : option (list (PayloadSpecResource exact))) : list (PayloadSpecResource exact) :=
  default [] data.
Definition de_list_payload_specs (fs : list (string * json)) :
    option (SdkPage (PayloadSpecResource exact)) :=
  cursor <-! field "cursor" expect_string_or_null fs;
  data <-! field "data" de_payload_spec_list fs;
  Some {| pg_data := list_payload_specs_output_output_correct_errors data;
          pg_cursor := cursor |}.
Definition de_list_payload_specs_http_response (r : SdkResponse) :
    OperationError + (SdkPage (PayloadSpecResource exact)) :=
  de_http_response de_list_payload_specs r.
Definition list_payload_specs_response (r : SdkResponse) :=
  if is_service_error 200 r then inl (de_list_payload_specs_http_error r)
  else de_list_payload_specs_http_response r.

(** *** GetPayloadSpec: GET /v1/payload-specs/{name} *)

Record GetPayloadSpecInput := {
  get_payload_spec_org_id : option string;
  get_payload_spec_workspace_id : option string;
  get_payload_spec_name : option string;
}.
Definition GetPayloadSpecError_kinds : list ServiceErrorKind :=
  [K_NotFound; K_Unauthorized;
   K_Internal; K_RateLimited].

Definition ser_get_payload_spec_headers (input : GetPayloadSpecInput) :
    res BuildError (list (string * string)) :=
  ser_headers (get_payload_spec_org_id input) (get_payload_spec_workspace_id input).
Definition get_payload_spec_uri_base (input : GetPayloadSpecInput) : res BuildError string :=
  label <-? path_label "name" (get_payload_spec_name input);
  Ok ("/v1/payload-specs/" +:+ label).
Definition get_payload_spec_request (input : GetPayloadSpecInput) : res BuildError SdkRequest :=
  uri <-? get_payload_spec_uri_base input;
  headers <-? ser_get_payload_spec_headers input;
  Ok (sdk_request GET uri [] headers None).

Definition de_get_payload_spec_http_error (r : SdkResponse) : OperationError :=
  de_http_error GetPayloadSpecError_kinds r.
Definition get_payload_spec_output_output_correct_errors :
    option (PayloadSpecResource exact) → PayloadSpecResource exact :=
  default payload_spec_resource_default.
Definition de_get_payload_spec (fs : list (string * json)) : option (PayloadSpecResource exact) :=
  data <-! field "data" de_payload_spec_resource fs;
  Some (get_payload_spec_output_output_correct_errors data).
Definition de_get_payload_spec_http_response (r : SdkResponse) :
    OperationError + (PayloadSpecResource exact) :=
  de_http_response de_get_payload_spec r.
Definition get_payload_spec_response (r : SdkResponse) :=
  if is_service_error 200 r then inl (de_get_payload_spec_http_error r)
  else de_get_payload_spec_http_response r.

(** *** UpdatePayloadSpec: PUT /v1/payload-specs/{name} *)

Record UpdatePayloadSpecInput := {
  update_payload_spec_org_id : option string;
  update_payload_spec_workspace_id : option string;
  update_payload_spec_name : option string;
  update_payload_spec_schema : option json;
}.
Definition UpdatePayloadSpecError_kinds : list ServiceErrorKind :=
  [K_NotFound; K_InvalidRequest; K_Unauthorized;
   K_Internal; K_RateLimited].

Definition ser_update_payload_spec_headers (input : UpdatePayloadSpecInput) :
    res BuildError (list (string * string)) :=
  ser_headers (update_payload_spec_org_id input) (update_payload_spec_workspace_id input).
Definition update_payload_spec_uri_base (input : UpdatePayloadSpecInput) : res BuildError string :=
  label <-? path_label "name" (update_payload_spec_name input);
  Ok ("/v1/payload-specs/" +:+ label).
Definition ser_update_payload_spec_input (input : UpdatePayloadSpecInput) : list (string * json) :=
  ser_document "schema" (update_payload_spec_schema input).
Definition update_payload_spec_request (input : UpdatePayloadSpecInput) :
    res BuildError SdkRequest :=
  uri <-? update_payload_spec_uri_base input;
  headers <-? ser_update_payload_spec_headers input;
  Ok (sdk_request PUT uri [] headers (Some (ser_update_payload_spec_input input))).

Definition de_update_payload_spec_http_error (r : SdkResponse) : OperationError :=
  de_http_error UpdatePayloadSpecError_kinds r.
Definition update_payload_spec_output_output_correct_errors :
    option (PayloadSpecResource exact) → PayloadSpecResource exact :=
  default payload_spec_resource_default.
Definition de_update_payload_spec (fs : list (string * json)) :
    option (PayloadSpecResource exact) :=
  data <-! field "data" de_payload_spec_resource fs;
  Some (update_payload_spec_output_output_correct_errors data).
Definition de_update_payload_spec_http_response (r : SdkResponse) :
    OperationError + (PayloadSpecResource exact) :=
  de_http_response de_update_payload_spec r.
Definition update_payload_spec_response (r : SdkResponse) :=
  if is_service_error 200 r then inl (de_update_payload_spec_http_error r)
  else de_update_payload_spec_http_response r.

(** *** DeletePayloadSpec: DELETE /v1/payload-specs/{name} *)

Record DeletePayloadSpecInput := {
  delete_payload_spec_org_id : option string;
  delete_payload_spec_workspace_id : option string;
  delete_payload_spec_name : option string;
}.
Definition DeletePayloadSpecError_kinds : list ServiceErrorKind :=
  [K_NotFound; K_Unauthorized;
   K_Internal; K_RateLimited].

Definition ser_delete_payload_spec_headers (input : DeletePayloadSpecInput) :
    res BuildError (list (string * string)) :=
  ser_headers (delete_payload_spec_org_id input) (delete_payload_spec_workspace_id input).
Definition delete_payload_spec_uri_base (input : DeletePayloadSpecInput) : res BuildError string :=
  label <-? path_label "name" (delete_payload_spec_name input);
  Ok ("/v1/payload-specs/" +:+ label).
Definition delete_payload_spec_request (input : DeletePayloadSpecInput) :
    res BuildError SdkRequest :=
  uri <-? delete_payload_spec_uri_base input;
  headers <-? ser_delete_payload_spec_headers input;
  Ok (sdk_request DELETE uri [] headers None).

Definition de_delete_payload_spec_http_error (r : SdkResponse) : OperationError :=
  de_http_error DeletePayloadSpecError_kinds r.
Definition de_delete_payload_spec_http_response (r : SdkResponse) : OperationError + unit := inr tt.
Definition delete_payload_spec_response (r : SdkResponse) :=
  if is_service_error 204 r then inl (de_delete_payload_spec_http_error r)
  else de_delete_payload_spec_http_response r.

End operations.
