(* ===== verification/SdkBuilders.v ===== *)
(** * The SDK's builders ([client/src/operation/*/], [client/src/types])

    Each builder as the state of its members, an event per method and a step function:
    [set_x v] gives the member [x] the value [v], the method [x] of Rust is
    [set_x (Some _)], and the method of a list member appends.  The builder of an input has
    the members of the input; [build] of a resource wants its required members.  A fluent
    builder passes its calls on and sends what they build. *)

From S2P Require Export SdkOps.
#[local] Open Scope Z_scope.

(** ** Resources *)

(** *** ErrorDetail *)

Inductive ErrorDetailCall :=
  | ErrorDetail_set_code (v : option string)
  | ErrorDetail_set_message (v : option string)
  | ErrorDetail_set_request_id (v : option string).
Definition error_detail_call (b : ErrorDetail option)
    (c : ErrorDetailCall) : ErrorDetail option :=
  let '(Build_ErrorDetail code message request_id) := b in
  match c with
  | ErrorDetail_set_code v => Build_ErrorDetail v message request_id
  | ErrorDetail_set_message v => Build_ErrorDetail code v request_id
  | ErrorDetail_set_request_id v => Build_ErrorDetail code message v
  end.
Definition error_detail_none : ErrorDetail option :=
  Build_ErrorDetail None None None.
Definition error_detail_build (b : ErrorDetail option) : res BuildError (ErrorDetail exact) :=
  code <-? ok_or (dR_code b) (MissingField "code");
  message <-? ok_or (dR_message b) (MissingField "message");
  Ok (@Build_ErrorDetail exact code message (dR_request_id b)).

(** *** RetryPolicy *)

Inductive RetryPolicyResourceCall :=
  | RetryPolicyResource_set_max_attempts (v : option Z)
  | RetryPolicyResource_set_backoff (v : option BackoffTypeEnum)
  | RetryPolicyResource_set_initial_delay_ms (v : option Z)
  | RetryPolicyResource_set_max_delay_ms (v : option Z).
Definition retry_policy_call (b : RetryPolicyResource)
    (c : RetryPolicyResourceCall) : RetryPolicyResource :=
  let '(Build_RetryPolicyResource max_attempts backoff initial_delay_ms max_delay_ms) := b in
  match c with
  | RetryPolicyResource_set_max_attempts v => Build_RetryPolicyResource v backoff
      initial_delay_ms max_delay_ms
  | RetryPolicyResource_set_backoff v => Build_RetryPolicyResource max_attempts v
      initial_delay_ms max_delay_ms
  | RetryPolicyResource_set_initial_delay_ms v => Build_RetryPolicyResource max_attempts
      backoff v max_delay_ms
  | RetryPolicyResource_set_max_delay_ms v => Build_RetryPolicyResource max_attempts backoff
      initial_delay_ms v
  end.
Definition retry_policy_build (b : RetryPolicyResource) : RetryPolicyResource := b.

(** *** ExecutionSummary *)

Inductive ExecutionSummaryCall :=
  | ExecutionSummary_set_execution_id (v : option string)
  | ExecutionSummary_set_status (v : option ExecutionStatusEnum)
  | ExecutionSummary_set_attempt_count (v : option Z)
  | ExecutionSummary_set_max_attempts (v : option Z)
  | ExecutionSummary_set_started_at (v : option SdkTime)
  | ExecutionSummary_set_completed_at (v : option SdkTime).
Definition execution_summary_call (b : ExecutionSummary option)
    (c : ExecutionSummaryCall) : ExecutionSummary option :=
  let '(Build_ExecutionSummary execution_id status attempt_count max_attempts started_at
    completed_at) := b in
  match c with
  | ExecutionSummary_set_execution_id v => Build_ExecutionSummary v status attempt_count
      max_attempts started_at completed_at
  | ExecutionSummary_set_status v => Build_ExecutionSummary execution_id v attempt_count
      max_attempts started_at completed_at
  | ExecutionSummary_set_attempt_count v => Build_ExecutionSummary execution_id status v
      max_attempts started_at completed_at
  | ExecutionSummary_set_max_attempts v => Build_ExecutionSummary execution_id status
      attempt_count v started_at completed_at
  | ExecutionSummary_set_started_at v => Build_ExecutionSummary execution_id status
      attempt_count max_attempts v completed_at
  | ExecutionSummary_set_completed_at v => Build_ExecutionSummary execution_id status
      attempt_count max_attempts started_at v
  end.
Definition execution_summary_none : ExecutionSummary option :=
  Build_ExecutionSummary None None None None None None.
Definition execution_summary_build (b : ExecutionSummary option) :
    res BuildError (ExecutionSummary exact) :=
  execution_id <-? ok_or (eS_execution_id b) (MissingField "execution_id");
  status <-? ok_or (eS_status b) (MissingField "status");
  attempt_count <-? ok_or (eS_attempt_count b) (MissingField "attempt_count");
  max_attempts <-? ok_or (eS_max_attempts b) (MissingField "max_attempts");
  Ok (@Build_ExecutionSummary exact execution_id status attempt_count max_attempts
    (eS_started_at b) (eS_completed_at b)).

(** *** JobSummary *)

Inductive JobSummaryCall :=
  | JobSummary_set_job_id (v : option string)
  | JobSummary_set_endpoint (v : option string)
  | JobSummary_set_trigger_type (v : option TriggerTypeEnum)
  | JobSummary_set_status (v : option JobStatusEnum)
  | JobSummary_set_version (v : option Z)
  | JobSummary_set_created_at (v : option SdkTime).
Definition job_summary_call (b : JobSummary option) (c : JobSummaryCall) : JobSummary option :=
  let '(Build_JobSummary job_id endpoint trigger_type status version created_at) := b in
  match c with
  | JobSummary_set_job_id v => Build_JobSummary v endpoint trigger_type status version
      created_at
  | JobSummary_set_endpoint v => Build_JobSummary job_id v trigger_type status version
      created_at
  | JobSummary_set_trigger_type v => Build_JobSummary job_id endpoint v status version
      created_at
  | JobSummary_set_status v => Build_JobSummary job_id endpoint trigger_type v version
      created_at
  | JobSummary_set_version v => Build_JobSummary job_id endpoint trigger_type status v
      created_at
  | JobSummary_set_created_at v => Build_JobSummary job_id endpoint trigger_type status version
      v
  end.
Definition job_summary_none : JobSummary option :=
  Build_JobSummary None None None None None None.
Definition job_summary_build (b : JobSummary option) : res BuildError (JobSummary exact) :=
  job_id <-? ok_or (jS_job_id b) (MissingField "job_id");
  endpoint <-? ok_or (jS_endpoint b) (MissingField "endpoint");
  trigger_type <-? ok_or (jS_trigger_type b) (MissingField "trigger_type");
  status <-? ok_or (jS_status b) (MissingField "status");
  version <-? ok_or (jS_version b) (MissingField "version");
  created_at <-? ok_or (jS_created_at b) (MissingField "created_at");
  Ok (@Build_JobSummary exact job_id endpoint trigger_type status version created_at).

(** *** JobResource *)

Inductive JobResourceCall :=
  | JobResource_set_job_id (v : option string)
  | JobResource_set_endpoint (v : option string)
  | JobResource_set_endpoint_type (v : option EndpointTypeEnum)
  | JobResource_set_trigger_type (v : option TriggerTypeEnum)
  | JobResource_set_status (v : option JobStatusEnum)
  | JobResource_set_version (v : option Z)
  | JobResource_set_previous_version_id (v : option string)
  | JobResource_set_replaced_by_id (v : option string)
  | JobResource_set_idempotency_key (v : option string)
  | JobResource_set_input (v : option json)
  | JobResource_set_run_at (v : option SdkTime)
  | JobResource_set_cron_expression (v : option string)
  | JobResource_set_cron_timezone (v : option string)
  | JobResource_set_cron_starts_at (v : option SdkTime)
  | JobResource_set_cron_ends_at (v : option SdkTime)
  | JobResource_set_cron_next_run_at (v : option SdkTime)
  | JobResource_set_cron_last_tick_at (v : option SdkTime)
  | JobResource_set_created_at (v : option SdkTime)
  | JobResource_set_retired_at (v : option SdkTime).
Definition job_resource_call (b : JobResource option)
    (c : JobResourceCall) : JobResource option :=
  let '(Build_JobResource job_id endpoint endpoint_type trigger_type status version
    previous_version_id replaced_by_id idempotency_key input run_at cron_expression
    cron_timezone cron_starts_at cron_ends_at cron_next_run_at cron_last_tick_at created_at
    retired_at) := b in
  match c with
  | JobResource_set_job_id v => Build_JobResource v endpoint endpoint_type trigger_type status
      version previous_version_id replaced_by_id idempotency_key input run_at cron_expression
      cron_timezone cron_starts_at cron_ends_at cron_next_run_at cron_last_tick_at created_at
      retired_at
  | JobResource_set_endpoint v => Build_JobResource job_id v endpoint_type trigger_type status
      version previous_version_id replaced_by_id idempotency_key input run_at cron_expression
      cron_timezone cron_starts_at cron_ends_at cron_next_run_at cron_last_tick_at created_at
      retired_at
  | JobResource_set_endpoint_type v => Build_JobResource job_id endpoint v trigger_type status
      version previous_version_id replaced_by_id idempotency_key input run_at cron_expression
      cron_timezone cron_starts_at cron_ends_at cron_next_run_at cron_last_tick_at created_at
      retired_at
  | JobResource_set_trigger_type v => Build_JobResource job_id endpoint endpoint_type v status
      version previous_version_id replaced_by_id idempotency_key input run_at cron_expression
      cron_timezone cron_starts_at cron_ends_at cron_next_run_at cron_last_tick_at created_at
      retired_at
  | JobResource_set_status v => Build_JobResource job_id endpoint endpoint_type trigger_type v
      version previous_version_id replaced_by_id idempotency_key input run_at cron_expression
      cron_timezone cron_starts_at cron_ends_at cron_next_run_at cron_last_tick_at created_at
      retired_at
  | JobResource_set_version v => Build_JobResource job_id endpoint endpoint_type trigger_type
      status v previous_version_id replaced_by_id idempotency_key input run_at cron_expression
      cron_timezone cron_starts_at cron_ends_at cron_next_run_at cron_last_tick_at created_at
      retired_at
  | JobResource_set_previous_version_id v => Build_JobResource job_id endpoint endpoint_type
      trigger_type status version v replaced_by_id idempotency_key input run_at cron_expression
      cron_timezone cron_starts_at cron_ends_at cron_next_run_at cron_last_tick_at created_at
      retired_at
  | JobResource_set_replaced_by_id v => Build_JobResource job_id endpoint endpoint_type
      trigger_type status version previous_version_id v idempotency_key input run_at
      cron_expression cron_timezone cron_starts_at cron_ends_at cron_next_run_at
      cron_last_tick_at created_at retired_at
  | JobResource_set_idempotency_key v => Build_JobResource job_id endpoint endpoint_type
      trigger_type status version previous_version_id replaced_by_id v input run_at
      cron_expression cron_timezone cron_starts_at cron_ends_at cron_next_run_at
      cron_last_tick_at created_at retired_at
  | JobResource_set_input v => Build_JobResource job_id endpoint endpoint_type trigger_type
      status version previous_version_id replaced_by_id idempotency_key v run_at
      cron_expression cron_timezone cron_starts_at cron_ends_at cron_next_run_at
      cron_last_tick_at created_at retired_at
  | JobResource_set_run_at v => Build_JobResource job_id endpoint endpoint_type trigger_type
      status version previous_version_id replaced_by_id idempotency_key input v cron_expression
      cron_timezone cron_starts_at cron_ends_at cron_next_run_at cron_last_tick_at created_at
      retired_at
  | JobResource_set_cron_expression v => Build_JobResource job_id endpoint endpoint_type
      trigger_type status version previous_version_id replaced_by_id idempotency_key input
      run_at v cron_timezone cron_starts_at cron_ends_at cron_next_run_at cron_last_tick_at
      created_at retired_at
  | JobResource_set_cron_timezone v => Build_JobResource job_id endpoint endpoint_type
      trigger_type status version previous_version_id replaced_by_id idempotency_key input
      run_at cron_expression v cron_starts_at cron_ends_at cron_next_run_at cron_last_tick_at
      created_at retired_at
  | JobResource_set_cron_starts_at v => Build_JobResource job_id endpoint endpoint_type
      trigger_type status version previous_version_id replaced_by_id idempotency_key input
      run_at cron_expression cron_timezone v cron_ends_at cron_next_run_at cron_last_tick_at
      created_at retired_at
  | JobResource_set_cron_ends_at v => Build_JobResource job_id endpoint endpoint_type
      trigger_type status version previous_version_id replaced_by_id idempotency_key input
      run_at cron_expression cron_timezone cron_starts_at v cron_next_run_at cron_last_tick_at
      created_at retired_at
  | JobResource_set_cron_next_run_at v => Build_JobResource job_id endpoint endpoint_type
      trigger_type status version previous_version_id replaced_by_id idempotency_key input
      run_at cron_expression cron_timezone cron_starts_at cron_ends_at v cron_last_tick_at
      created_at retired_at
  | JobResource_set_cron_last_tick_at v => Build_JobResource job_id endpoint endpoint_type
      trigger_type status version previous_version_id replaced_by_id idempotency_key input
      run_at cron_expression cron_timezone cron_starts_at cron_ends_at cron_next_run_at v
      created_at retired_at
  | JobResource_set_created_at v => Build_JobResource job_id endpoint endpoint_type
      trigger_type status version previous_version_id replaced_by_id idempotency_key input
      run_at cron_expression cron_timezone cron_starts_at cron_ends_at cron_next_run_at
      cron_last_tick_at v retired_at
  | JobResource_set_retired_at v => Build_JobResource job_id endpoint endpoint_type
      trigger_type status version previous_version_id replaced_by_id idempotency_key input
      run_at cron_expression cron_timezone cron_starts_at cron_ends_at cron_next_run_at
      cron_last_tick_at created_at v
  end.
Definition job_resource_none : JobResource option :=
  Build_JobResource None None None None None None None None None None None None None None None
    None None None None.
Definition job_resource_build (b : JobResource option) : res BuildError (JobResource exact) :=
  job_id <-? ok_or (jR_job_id b) (MissingField "job_id");
  endpoint <-? ok_or (jR_endpoint b) (MissingField "endpoint");
  endpoint_type <-? ok_or (jR_endpoint_type b) (MissingField "endpoint_type");
  trigger_type <-? ok_or (jR_trigger_type b) (MissingField "trigger_type");
  status <-? ok_or (jR_status b) (MissingField "status");
  version <-? ok_or (jR_version b) (MissingField "version");
  created_at <-? ok_or (jR_created_at b) (MissingField "created_at");
  Ok (@Build_JobResource exact job_id endpoint endpoint_type trigger_type status version
    (jR_previous_version_id b) (jR_replaced_by_id b) (jR_idempotency_key b) (jR_input b)
    (jR_run_at b) (jR_cron_expression b) (jR_cron_timezone b) (jR_cron_starts_at b)
    (jR_cron_ends_at b) (jR_cron_next_run_at b) (jR_cron_last_tick_at b) created_at
    (jR_retired_at b)).

(** *** JobStatusResponse *)

Inductive JobStatusResponseCall :=
  | JobStatusResponse_set_job_id (v : option string)
  | JobStatusResponse_set_job_status (v : option JobStatusEnum)
  | JobStatusResponse_set_latest_execution (v : option (ExecutionSummary exact)).
Definition job_status_response_call (b : JobStatusResponse option)
    (c : JobStatusResponseCall) : JobStatusResponse option :=
  let '(Build_JobStatusResponse job_id job_status latest_execution) := b in
  match c with
  | JobStatusResponse_set_job_id v => Build_JobStatusResponse v job_status latest_execution
  | JobStatusResponse_set_job_status v => Build_JobStatusResponse job_id v latest_execution
  | JobStatusResponse_set_latest_execution v => Build_JobStatusResponse job_id job_status v
  end.
Definition job_status_response_none : JobStatusResponse option :=
  Build_JobStatusResponse None None None.
Definition job_status_response_build (b : JobStatusResponse option) :
    res BuildError (JobStatusResponse exact) :=
  job_id <-? ok_or (jT_job_id b) (MissingField "job_id");
  job_status <-? ok_or (jT_job_status b) (MissingField "job_status");
  Ok (@Build_JobStatusResponse exact job_id job_status (jT_latest_execution b)).

(** *** ExecutionResource *)

Inductive ExecutionResourceCall :=
  | ExecutionResource_set_execution_id (v : option string)
  | ExecutionResource_set_job_id (v : option string)
  | ExecutionResource_set_endpoint (v : option string)
  | ExecutionResource_set_endpoint_type (v : option EndpointTypeEnum)
  | ExecutionResource_set_idempotency_key (v : option string)
  | ExecutionResource_set_status (v : option ExecutionStatusEnum)
  | ExecutionResource_set_input (v : option json)
  | ExecutionResource_set_output (v : option json)
  | ExecutionResource_set_attempt_count (v : option Z)
  | ExecutionResource_set_max_attempts (v : option Z)
  | ExecutionResource_set_worker_id (v : option string)
  | ExecutionResource_set_run_at (v : option SdkTime)
  | ExecutionResource_set_started_at (v : option SdkTime)
  | ExecutionResource_set_completed_at (v : option SdkTime)
  | ExecutionResource_set_duration_ms (v : option Z)
  | ExecutionResource_set_created_at (v : option SdkTime).
Definition execution_resource_call (b : ExecutionResource option)
    (c : ExecutionResourceCall) : ExecutionResource option :=
  let '(Build_ExecutionResource execution_id job_id endpoint endpoint_type idempotency_key
    status input output attempt_count max_attempts worker_id run_at started_at completed_at
    duration_ms created_at) := b in
  match c with
  | ExecutionResource_set_execution_id v => Build_ExecutionResource v job_id endpoint
      endpoint_type idempotency_key status input output attempt_count max_attempts worker_id
      run_at started_at completed_at duration_ms created_at
  | ExecutionResource_set_job_id v => Build_ExecutionResource execution_id v endpoint
      endpoint_type idempotency_key status input output attempt_count max_attempts worker_id
      run_at started_at completed_at duration_ms created_at
  | ExecutionResource_set_endpoint v => Build_ExecutionResource execution_id job_id v
      endpoint_type idempotency_key status input output attempt_count max_attempts worker_id
      run_at started_at completed_at duration_ms created_at
  | ExecutionResource_set_endpoint_type v => Build_ExecutionResource execution_id job_id
      endpoint v idempotency_key status input output attempt_count max_attempts worker_id
      run_at started_at completed_at duration_ms created_at
  | ExecutionResource_set_idempotency_key v => Build_ExecutionResource execution_id job_id
      endpoint endpoint_type v status input output attempt_count max_attempts worker_id run_at
      started_at completed_at duration_ms created_at
  | ExecutionResource_set_status v => Build_ExecutionResource execution_id job_id endpoint
      endpoint_type idempotency_key v input output attempt_count max_attempts worker_id run_at
      started_at completed_at duration_ms created_at
  | ExecutionResource_set_input v => Build_ExecutionResource execution_id job_id endpoint
      endpoint_type idempotency_key status v output attempt_count max_attempts worker_id run_at
      started_at completed_at duration_ms created_at
  | ExecutionResource_set_output v => Build_ExecutionResource execution_id job_id endpoint
      endpoint_type idempotency_key status input v attempt_count max_attempts worker_id run_at
      started_at completed_at duration_ms created_at
  | ExecutionResource_set_attempt_count v => Build_ExecutionResource execution_id job_id
      endpoint endpoint_type idempotency_key status input output v max_attempts worker_id
      run_at started_at completed_at duration_ms created_at
  | ExecutionResource_set_max_attempts v => Build_ExecutionResource execution_id job_id
      endpoint endpoint_type idempotency_key status input output attempt_count v worker_id
      run_at started_at completed_at duration_ms created_at
  | ExecutionResource_set_worker_id v => Build_ExecutionResource execution_id job_id endpoint
      endpoint_type idempotency_key status input output attempt_count max_attempts v run_at
      started_at completed_at duration_ms created_at
  | ExecutionResource_set_run_at v => Build_ExecutionResource execution_id job_id endpoint
      endpoint_type idempotency_key status input output attempt_count max_attempts worker_id v
      started_at completed_at duration_ms created_at
  | ExecutionResource_set_started_at v => Build_ExecutionResource execution_id job_id endpoint
      endpoint_type idempotency_key status input output attempt_count max_attempts worker_id
      run_at v completed_at duration_ms created_at
  | ExecutionResource_set_completed_at v => Build_ExecutionResource execution_id job_id
      endpoint endpoint_type idempotency_key status input output attempt_count max_attempts
      worker_id run_at started_at v duration_ms created_at
  | ExecutionResource_set_duration_ms v => Build_ExecutionResource execution_id job_id endpoint
      endpoint_type idempotency_key status input output attempt_count max_attempts worker_id
      run_at started_at completed_at v created_at
  | ExecutionResource_set_created_at v => Build_ExecutionResource execution_id job_id endpoint
      endpoint_type idempotency_key status input output attempt_count max_attempts worker_id
      run_at started_at completed_at duration_ms v
  end.
Definition execution_resource_none : ExecutionResource option :=
  Build_ExecutionResource None None None None None None None None None None None None None None
    None None.
Definition execution_resource_build (b : ExecutionResource option) :
    res BuildError (ExecutionResource exact) :=
  execution_id <-? ok_or (eR_execution_id b) (MissingField "execution_id");
  job_id <-? ok_or (eR_job_id b) (MissingField "job_id");
  endpoint <-? ok_or (eR_endpoint b) (MissingField "endpoint");
  endpoint_type <-? ok_or (eR_endpoint_type b) (MissingField "endpoint_type");
  status <-? ok_or (eR_status b) (MissingField "status");
  attempt_count <-? ok_or (eR_attempt_count b) (MissingField "attempt_count");
  max_attempts <-? ok_or (eR_max_attempts b) (MissingField "max_attempts");
  run_at <-? ok_or (eR_run_at b) (MissingField "run_at");
  created_at <-? ok_or (eR_created_at b) (MissingField "created_at");
  Ok (@Build_ExecutionResource exact execution_id job_id endpoint endpoint_type
    (eR_idempotency_key b) status (eR_input b) (eR_output b) attempt_count max_attempts
    (eR_worker_id b) run_at (eR_started_at b) (eR_completed_at b) (eR_duration_ms b)
    created_at).

(** *** EndpointResource *)

Inductive EndpointResourceCall :=
  | EndpointResource_set_name (v : option string)
  | EndpointResource_set_endpoint_type (v : option EndpointTypeEnum)
  | EndpointResource_set_payload_spec (v : option string)
  | EndpointResource_set_config (v : option string)
  | EndpointResource_set_spec (v : option json)
  | EndpointResource_set_retry_policy (v : option RetryPolicyResource)
  | EndpointResource_set_created_at (v : option SdkTime)
  | EndpointResource_set_updated_at (v : option SdkTime).
Definition endpoint_resource_call (b : EndpointResource option)
    (c : EndpointResourceCall) : EndpointResource option :=
  let '(Build_EndpointResource name endpoint_type payload_spec config spec retry_policy
    created_at updated_at) := b in
  match c with
  | EndpointResource_set_name v => Build_EndpointResource v endpoint_type payload_spec config
      spec retry_policy created_at updated_at
  | EndpointResource_set_endpoint_type v => Build_EndpointResource name v payload_spec config
      spec retry_policy created_at updated_at
  | EndpointResource_set_payload_spec v => Build_EndpointResource name endpoint_type v config
      spec retry_policy created_at updated_at
  | EndpointResource_set_config v => Build_EndpointResource name endpoint_type payload_spec v
      spec retry_policy created_at updated_at
  | EndpointResource_set_spec v => Build_EndpointResource name endpoint_type payload_spec
      config v retry_policy created_at updated_at
  | EndpointResource_set_retry_policy v => Build_EndpointResource name endpoint_type
      payload_spec config spec v created_at updated_at
  | EndpointResource_set_created_at v => Build_EndpointResource name endpoint_type payload_spec
      config spec retry_policy v updated_at
  | EndpointResource_set_updated_at v => Build_EndpointResource name endpoint_type payload_spec
      config spec retry_policy created_at v
  end.
Definition endpoint_resource_none : EndpointResource option :=
  Build_EndpointResource None None None None None None None None.
Definition endpoint_resource_build (b : EndpointResource option) :
    res BuildError (EndpointResource exact) :=
  name <-? ok_or (nR_name b) (MissingField "name");
  endpoint_type <-? ok_or (nR_endpoint_type b) (MissingField "endpoint_type");
  spec <-? ok_or (nR_spec b) (MissingField "spec");
  created_at <-? ok_or (nR_created_at b) (MissingField "created_at");
  updated_at <-? ok_or (nR_updated_at b) (MissingField "updated_at");
  Ok (@Build_EndpointResource exact name endpoint_type (nR_payload_spec b) (nR_config b) spec
    (nR_retry_policy b) created_at updated_at).

(** *** PayloadSpecResource *)

Inductive PayloadSpecResourceCall :=
  | PayloadSpecResource_set_name (v : option string)
  | PayloadSpecResource_set_schema (v : option json)
  | PayloadSpecResource_set_created_at (v : option SdkTime)
  | PayloadSpecResource_set_updated_at (v : option SdkTime).
Definition payload_spec_resource_call (b : PayloadSpecResource option)
    (c : PayloadSpecResourceCall) : PayloadSpecResource option :=
  let '(Build_PayloadSpecResource name schema created_at updated_at) := b in
  match c with
  | PayloadSpecResource_set_name v => Build_PayloadSpecResource v schema created_at updated_at
  | PayloadSpecResource_set_schema v => Build_PayloadSpecResource name v created_at updated_at
  | PayloadSpecResource_set_created_at v => Build_PayloadSpecResource name schema v updated_at
  | PayloadSpecResource_set_updated_at v => Build_PayloadSpecResource name schema created_at v
  end.
Definition payload_spec_resource_none : PayloadSpecResource option :=
  Build_PayloadSpecResource None None None None.
Definition payload_spec_resource_build (b : PayloadSpecResource option) :
    res BuildError (PayloadSpecResource exact) :=
  name <-? ok_or (pR_name b) (MissingField "name");
  schema <-? ok_or (pR_schema b) (MissingField "schema");
  created_at <-? ok_or (pR_created_at b) (MissingField "created_at");
  updated_at <-? ok_or (pR_updated_at b) (MissingField "updated_at");
  Ok (@Build_PayloadSpecResource exact name schema created_at updated_at).

(** *** AttemptResource *)

Inductive AttemptResourceCall :=
  | AttemptResource_set_attempt_id (v : option string)
  | AttemptResource_set_execution_id (v : option string)
  | AttemptResource_set_attempt_number (v : option Z)
  | AttemptResource_set_status (v : option AttemptStatusEnum)
  | AttemptResource_set_started_at (v : option SdkTime)
  | AttemptResource_set_completed_at (v : option SdkTime)
  | AttemptResource_set_duration_ms (v : option Z)
  | AttemptResource_set_output (v : option json)
  | AttemptResource_set_error (v : option json)
  | AttemptResource_set_created_at (v : option SdkTime).
Definition attempt_resource_call (b : AttemptResource option)
    (c : AttemptResourceCall) : AttemptResource option :=
  let '(Build_AttemptResource attempt_id execution_id attempt_number status started_at
    completed_at duration_ms output error created_at) := b in
  match c with
  | AttemptResource_set_attempt_id v => Build_AttemptResource v execution_id attempt_number
      status started_at completed_at duration_ms output error created_at
  | AttemptResource_set_execution_id v => Build_AttemptResource attempt_id v attempt_number
      status started_at completed_at duration_ms output error created_at
  | AttemptResource_set_attempt_number v => Build_AttemptResource attempt_id execution_id v
      status started_at completed_at duration_ms output error created_at
  | AttemptResource_set_status v => Build_AttemptResource attempt_id execution_id
      attempt_number v started_at completed_at duration_ms output error created_at
  | AttemptResource_set_started_at v => Build_AttemptResource attempt_id execution_id
      attempt_number status v completed_at duration_ms output error created_at
  | AttemptResource_set_completed_at v => Build_AttemptResource attempt_id execution_id
      attempt_number status started_at v duration_ms output error created_at
  | AttemptResource_set_duration_ms v => Build_AttemptResource attempt_id execution_id
      attempt_number status started_at completed_at v output error created_at
  | AttemptResource_set_output v => Build_AttemptResource attempt_id execution_id
      attempt_number status started_at completed_at duration_ms v error created_at
  | AttemptResource_set_error v => Build_AttemptResource attempt_id execution_id attempt_number
      status started_at completed_at duration_ms output v created_at
  | AttemptResource_set_created_at v => Build_AttemptResource attempt_id execution_id
      attempt_number status started_at completed_at duration_ms output error v
  end.
Definition attempt_resource_none : AttemptResource option :=
  Build_AttemptResource None None None None None None None None None None.
Definition attempt_resource_build (b : AttemptResource option) :
    res BuildError (AttemptResource exact) :=
  attempt_id <-? ok_or (aR_attempt_id b) (MissingField "attempt_id");
  execution_id <-? ok_or (aR_execution_id b) (MissingField "execution_id");
  attempt_number <-? ok_or (aR_attempt_number b) (MissingField "attempt_number");
  status <-? ok_or (aR_status b) (MissingField "status");
  started_at <-? ok_or (aR_started_at b) (MissingField "started_at");
  created_at <-? ok_or (aR_created_at b) (MissingField "created_at");
  Ok (@Build_AttemptResource exact attempt_id execution_id attempt_number status started_at
    (aR_completed_at b) (aR_duration_ms b) (aR_output b) (aR_error b) created_at).

(** *** ExecutionLogResource *)

Inductive ExecutionLogResourceCall :=
  | ExecutionLogResource_set_log_id (v : option string)
  | ExecutionLogResource_set_execution_id (v : option string)
  | ExecutionLogResource_set_attempt_number (v : option Z)
  | ExecutionLogResource_set_level (v : option LogLevelEnum)
  | ExecutionLogResource_set_message (v : option string)
  | ExecutionLogResource_set_logged_at (v : option SdkTime).
Definition execution_log_resource_call (b : ExecutionLogResource option)
    (c : ExecutionLogResourceCall) : ExecutionLogResource option :=
  let '(Build_ExecutionLogResource log_id execution_id attempt_number level message
    logged_at) := b in
  match c with
  | ExecutionLogResource_set_log_id v => Build_ExecutionLogResource v execution_id
      attempt_number level message logged_at
  | ExecutionLogResource_set_execution_id v => Build_ExecutionLogResource log_id v
      attempt_number level message logged_at
  | ExecutionLogResource_set_attempt_number v => Build_ExecutionLogResource log_id execution_id
      v level message logged_at
  | ExecutionLogResource_set_level v => Build_ExecutionLogResource log_id execution_id
      attempt_number v message logged_at
  | ExecutionLogResource_set_message v => Build_ExecutionLogResource log_id execution_id
      attempt_number level v logged_at
  | ExecutionLogResource_set_logged_at v => Build_ExecutionLogResource log_id execution_id
      attempt_number level message v
  end.
Definition execution_log_resource_none : ExecutionLogResource option :=
  Build_ExecutionLogResource None None None None None None.
Definition execution_log_resource_build (b : ExecutionLogResource option) :
    res BuildError (ExecutionLogResource exact) :=
  log_id <-? ok_or (lR_log_id b) (MissingField "log_id");
  execution_id <-? ok_or (lR_execution_id b) (MissingField "execution_id");
  attempt_number <-? ok_or (lR_attempt_number b) (MissingField "attempt_number");
  level <-? ok_or (lR_level b) (MissingField "level");
  message <-? ok_or (lR_message b) (MissingField "message");
  logged_at <-? ok_or (lR_logged_at b) (MissingField "logged_at");
  Ok (@Build_ExecutionLogResource exact log_id execution_id attempt_number level message
    logged_at).

(** ** Operations *)

Section operations.
Context `{!Smithy}.

(** *** CreateJob *)

Inductive CreateJobCall :=
  | CreateJob_set_org_id (v : option string)
  | CreateJob_set_workspace_id (v : option string)
  | CreateJob_set_endpoint (v : option string)
  | CreateJob_set_trigger (v : option TriggerTypeEnum)
  | CreateJob_set_idempotency_key (v : option string)
  | CreateJob_set_input (v : option json)
  | CreateJob_set_run_at (v : option SdkTime)
  | CreateJob_set_cron (v : option string)
  | CreateJob_set_timezone (v : option string)
  | CreateJob_set_starts_at (v : option SdkTime)
  | CreateJob_set_ends_at (v : option SdkTime).
Definition create_job_call (b : CreateJobInput) (c : CreateJobCall) : CreateJobInput :=
  let '(Build_CreateJobInput org_id workspace_id endpoint trigger idempotency_key input run_at
    cron timezone starts_at ends_at) := b in
  match c with
  | CreateJob_set_org_id v => Build_CreateJobInput v workspace_id endpoint trigger
      idempotency_key input run_at cron timezone starts_at ends_at
  | CreateJob_set_workspace_id v => Build_CreateJobInput org_id v endpoint trigger
      idempotency_key input run_at cron timezone starts_at ends_at
  | CreateJob_set_endpoint v => Build_CreateJobInput org_id workspace_id v trigger
      idempotency_key input run_at cron timezone starts_at ends_at
  | CreateJob_set_trigger v => Build_CreateJobInput org_id workspace_id endpoint v
      idempotency_key input run_at cron timezone starts_at ends_at
  | CreateJob_set_idempotency_key v => Build_CreateJobInput org_id workspace_id endpoint
      trigger v input run_at cron timezone starts_at ends_at
  | CreateJob_set_input v => Build_CreateJobInput org_id workspace_id endpoint trigger
      idempotency_key v run_at cron timezone starts_at ends_at
  | CreateJob_set_run_at v => Build_CreateJobInput org_id workspace_id endpoint trigger
      idempotency_key input v cron timezone starts_at ends_at
  | CreateJob_set_cron v => Build_CreateJobInput org_id workspace_id endpoint trigger
      idempotency_key input run_at v timezone starts_at ends_at
  | CreateJob_set_timezone v => Build_CreateJobInput org_id workspace_id endpoint trigger
      idempotency_key input run_at cron v starts_at ends_at
  | CreateJob_set_starts_at v => Build_CreateJobInput org_id workspace_id endpoint trigger
      idempotency_key input run_at cron timezone v ends_at
  | CreateJob_set_ends_at v => Build_CreateJobInput org_id workspace_id endpoint trigger
      idempotency_key input run_at cron timezone starts_at v
  end.
Definition create_job_none : CreateJobInput :=
  Build_CreateJobInput None None None None None None None None None None None.
Definition create_job_build (b : CreateJobInput) : res BuildError CreateJobInput := Ok b.
Definition create_job_send (calls : list CreateJobCall) : res BuildError SdkRequest :=
  input <-? create_job_build (foldl create_job_call create_job_none calls);
  create_job_request input.

(** *** ListJobs *)

Inductive ListJobsCall :=
  | ListJobs_set_org_id (v : option string)
  | ListJobs_set_workspace_id (v : option string)
  | ListJobs_set_cursor (v : option string)
  | ListJobs_set_limit (v : option Z)
  | ListJobs_set_job_id (v : option string)
  | ListJobs_set_endpoint (v : option string)
  | ListJobs_set_trigger_type (v : option (list TriggerTypeEnum))
  | ListJobs_trigger_type (x : TriggerTypeEnum)
  | ListJobs_set_status (v : option (list JobStatusEnum))
  | ListJobs_status (x : JobStatusEnum)
  | ListJobs_set_endpoint_type (v : option (list EndpointTypeEnum))
  | ListJobs_endpoint_type (x : EndpointTypeEnum)
  | ListJobs_set_created_after (v : option SdkTime)
  | ListJobs_set_created_before (v : option SdkTime).
Definition list_jobs_call (b : ListJobsInput) (c : ListJobsCall) : ListJobsInput :=
  let '(Build_ListJobsInput org_id workspace_id cursor limit job_id endpoint trigger_type
    status endpoint_type created_after created_before) := b in
  match c with
  | ListJobs_set_org_id v => Build_ListJobsInput v workspace_id cursor limit job_id endpoint
      trigger_type status endpoint_type created_after created_before
  | ListJobs_set_workspace_id v => Build_ListJobsInput org_id v cursor limit job_id endpoint
      trigger_type status endpoint_type created_after created_before
  | ListJobs_set_cursor v => Build_ListJobsInput org_id workspace_id v limit job_id endpoint
      trigger_type status endpoint_type created_after created_before
  | ListJobs_set_limit v => Build_ListJobsInput org_id workspace_id cursor v job_id endpoint
      trigger_type status endpoint_type created_after created_before
  | ListJobs_set_job_id v => Build_ListJobsInput org_id workspace_id cursor limit v endpoint
      trigger_type status endpoint_type created_after created_before
  | ListJobs_set_endpoint v => Build_ListJobsInput org_id workspace_id cursor limit job_id v
      trigger_type status endpoint_type created_after created_before
  | ListJobs_set_trigger_type v => Build_ListJobsInput org_id workspace_id cursor limit job_id
      endpoint v status endpoint_type created_after created_before
  | ListJobs_trigger_type x => Build_ListJobsInput org_id workspace_id cursor limit job_id
      endpoint (Some (default [] trigger_type ++ [x])) status endpoint_type created_after
      created_before
  | ListJobs_set_status v => Build_ListJobsInput org_id workspace_id cursor limit job_id
      endpoint trigger_type v endpoint_type created_after created_before
  | ListJobs_status x => Build_ListJobsInput org_id workspace_id cursor limit job_id endpoint
      trigger_type (Some (default [] status ++ [x])) endpoint_type created_after created_before
  | ListJobs_set_endpoint_type v => Build_ListJobsInput org_id workspace_id cursor limit job_id
      endpoint trigger_type status v created_after created_before
  | ListJobs_endpoint_type x => Build_ListJobsInput org_id workspace_id cursor limit job_id
      endpoint trigger_type status (Some (default [] endpoint_type ++ [x])) created_after
      created_before
  | ListJobs_set_created_after v => Build_ListJobsInput org_id workspace_id cursor limit job_id
      endpoint trigger_type status endpoint_type v created_before
  | ListJobs_set_created_before v => Build_ListJobsInput org_id workspace_id cursor limit
      job_id endpoint trigger_type status endpoint_type created_after v
  end.
Definition list_jobs_none : ListJobsInput :=
  Build_ListJobsInput None None None None None None None None None None None.
Definition list_jobs_build (b : ListJobsInput) : res BuildError ListJobsInput := Ok b.
Definition list_jobs_send (calls : list ListJobsCall) : res BuildError SdkRequest :=
  input <-? list_jobs_build (foldl list_jobs_call list_jobs_none calls);
  list_jobs_request input.

(** *** GetJob *)

Inductive GetJobCall :=
  | GetJob_set_org_id (v : option string)
  | GetJob_set_workspace_id (v : option string)
  | GetJob_set_job_id (v : option string).
Definition get_job_call (b : GetJobInput) (c : GetJobCall) : GetJobInput :=
  let '(Build_GetJobInput org_id workspace_id job_id) := b in
  match c with
  | GetJob_set_org_id v => Build_GetJobInput v workspace_id job_id
  | GetJob_set_workspace_id v => Build_GetJobInput org_id v job_id
  | GetJob_set_job_id v => Build_GetJobInput org_id workspace_id v
  end.
Definition get_job_none : GetJobInput :=
  Build_GetJobInput None None None.
Definition get_job_build (b : GetJobInput) : res BuildError GetJobInput := Ok b.
Definition get_job_send (calls : list GetJobCall) : res BuildError SdkRequest :=
  input <-? get_job_build (foldl get_job_call get_job_none calls);
  get_job_request input.

(** *** UpdateJob *)

Inductive UpdateJobCall :=
  | UpdateJob_set_org_id (v : option string)
  | UpdateJob_set_workspace_id (v : option string)
  | UpdateJob_set_job_id (v : option string)
  | UpdateJob_set_cron (v : option string)
  | UpdateJob_set_timezone (v : option string)
  | UpdateJob_set_input (v : option json)
  | UpdateJob_set_starts_at (v : option SdkTime)
  | UpdateJob_set_ends_at (v : option SdkTime).
Definition update_job_call (b : UpdateJobInput) (c : UpdateJobCall) : UpdateJobInput :=
  let '(Build_UpdateJobInput org_id workspace_id job_id cron timezone input starts_at
    ends_at) := b in
  match c with
  | UpdateJob_set_org_id v => Build_UpdateJobInput v workspace_id job_id cron timezone input
      starts_at ends_at
  | UpdateJob_set_workspace_id v => Build_UpdateJobInput org_id v job_id cron timezone input
      starts_at ends_at
  | UpdateJob_set_job_id v => Build_UpdateJobInput org_id workspace_id v cron timezone input
      starts_at ends_at
  | UpdateJob_set_cron v => Build_UpdateJobInput org_id workspace_id job_id v timezone input
      starts_at ends_at
  | UpdateJob_set_timezone v => Build_UpdateJobInput org_id workspace_id job_id cron v input
      starts_at ends_at
  | UpdateJob_set_input v => Build_UpdateJobInput org_id workspace_id job_id cron timezone v
      starts_at ends_at
  | UpdateJob_set_starts_at v => Build_UpdateJobInput org_id workspace_id job_id cron timezone
      input v ends_at
  | UpdateJob_set_ends_at v => Build_UpdateJobInput org_id workspace_id job_id cron timezone
      input starts_at v
  end.
Definition update_job_none : UpdateJobInput :=
  Build_UpdateJobInput None None None None None None None None.
Definition update_job_build (b : UpdateJobInput) : res BuildError UpdateJobInput := Ok b.
Definition update_job_send (calls : list UpdateJobCall) : res BuildError SdkRequest :=
  input <-? update_job_build (foldl update_job_call update_job_none calls);
  update_job_request input.

(** *** CancelJob *)

Inductive CancelJobCall :=
  | CancelJob_set_org_id (v : option string)
  | CancelJob_set_workspace_id (v : option string)
  | CancelJob_set_job_id (v : option string).
Definition cancel_job_call (b : CancelJobInput) (c : CancelJobCall) : CancelJobInput :=
  let '(Build_CancelJobInput org_id workspace_id job_id) := b in
  match c with
  | CancelJob_set_org_id v => Build_CancelJobInput v workspace_id job_id
  | CancelJob_set_workspace_id v => Build_CancelJobInput org_id v job_id
  | CancelJob_set_job_id v => Build_CancelJobInput org_id workspace_id v
  end.
Definition cancel_job_none : CancelJobInput :=
  Build_CancelJobInput None None None.
Definition cancel_job_build (b : CancelJobInput) : res BuildError CancelJobInput := Ok b.
Definition cancel_job_send (calls : list CancelJobCall) : res BuildError SdkRequest :=
  input <-? cancel_job_build (foldl cancel_job_call cancel_job_none calls);
  cancel_job_request input.

(** *** GetJobStatus *)

Inductive GetJobStatusCall :=
  | GetJobStatus_set_org_id (v : option string)
  | GetJobStatus_set_workspace_id (v : option string)
  | GetJobStatus_set_job_id (v : option string).
Definition get_job_status_call (b : GetJobStatusInput)
    (c : GetJobStatusCall) : GetJobStatusInput :=
  let '(Build_GetJobStatusInput org_id workspace_id job_id) := b in
  match c with
  | GetJobStatus_set_org_id v => Build_GetJobStatusInput v workspace_id job_id
  | GetJobStatus_set_workspace_id v => Build_GetJobStatusInput org_id v job_id
  | GetJobStatus_set_job_id v => Build_GetJobStatusInput org_id workspace_id v
  end.
Definition get_job_status_none : GetJobStatusInput :=
  Build_GetJobStatusInput None None None.
Definition get_job_status_build (b : GetJobStatusInput) :
    res BuildError GetJobStatusInput := Ok b.
Definition get_job_status_send (calls : list GetJobStatusCall) : res BuildError SdkRequest :=
  input <-? get_job_status_build (foldl get_job_status_call get_job_status_none calls);
  get_job_status_request input.

(** *** GetJobVersions *)

Inductive GetJobVersionsCall :=
  | GetJobVersions_set_org_id (v : option string)
  | GetJobVersions_set_workspace_id (v : option string)
  | GetJobVersions_set_job_id (v : option string).
Definition get_job_versions_call (b : GetJobVersionsInput)
    (c : GetJobVersionsCall) : GetJobVersionsInput :=
  let '(Build_GetJobVersionsInput org_id workspace_id job_id) := b in
  match c with
  | GetJobVersions_set_org_id v => Build_GetJobVersionsInput v workspace_id job_id
  | GetJobVersions_set_workspace_id v => Build_GetJobVersionsInput org_id v job_id
  | GetJobVersions_set_job_id v => Build_GetJobVersionsInput org_id workspace_id v
  end.
Definition get_job_versions_none : GetJobVersionsInput :=
  Build_GetJobVersionsInput None None None.
Definition get_job_versions_build (b : GetJobVersionsInput) :
    res BuildError GetJobVersionsInput := Ok b.
Definition get_job_versions_send (calls : list GetJobVersionsCall) : res BuildError SdkRequest :=
  input <-? get_job_versions_build (foldl get_job_versions_call get_job_versions_none calls);
  get_job_versions_request input.

(** *** ListJobExecutions *)

Inductive ListJobExecutionsCall :=
  | ListJobExecutions_set_org_id (v : option string)
  | ListJobExecutions_set_workspace_id (v : option string)
  | ListJobExecutions_set_cursor (v : option string)
  | ListJobExecutions_set_limit (v : option Z)
  | ListJobExecutions_set_job_id (v : option string)
  | ListJobExecutions_set_status (v : option ExecutionStatusEnum).
Definition list_job_executions_call (b : ListJobExecutionsInput)
    (c : ListJobExecutionsCall) : ListJobExecutionsInput :=
  let '(Build_ListJobExecutionsInput org_id workspace_id cursor limit job_id status) := b in
  match c with
  | ListJobExecutions_set_org_id v => Build_ListJobExecutionsInput v workspace_id cursor limit
      job_id status
  | ListJobExecutions_set_workspace_id v => Build_ListJobExecutionsInput org_id v cursor limit
      job_id status
  | ListJobExecutions_set_cursor v => Build_ListJobExecutionsInput org_id workspace_id v limit
      job_id status
  | ListJobExecutions_set_limit v => Build_ListJobExecutionsInput org_id workspace_id cursor v
      job_id status
  | ListJobExecutions_set_job_id v => Build_ListJobExecutionsInput org_id workspace_id cursor
      limit v status
  | ListJobExecutions_set_status v => Build_ListJobExecutionsInput org_id workspace_id cursor
      limit job_id v
  end.
Definition list_job_executions_none : ListJobExecutionsInput :=
  Build_ListJobExecutionsInput None None None None None None.
Definition list_job_executions_build (b : ListJobExecutionsInput) :
    res BuildError ListJobExecutionsInput := Ok b.
Definition list_job_executions_send (calls : list ListJobExecutionsCall) :
    res BuildError SdkRequest :=
  input <-? list_job_executions_build
    (foldl list_job_executions_call list_job_executions_none calls);
  list_job_executions_request input.

(** *** GetExecution *)

Inductive GetExecutionCall :=
  | GetExecution_set_org_id (v : option string)
  | GetExecution_set_workspace_id (v : option string)
  | GetExecution_set_execution_id (v : option string).
Definition get_execution_call (b : GetExecutionInput)
    (c : GetExecutionCall) : GetExecutionInput :=
  let '(Build_GetExecutionInput org_id workspace_id execution_id) := b in
  match c with
  | GetExecution_set_org_id v => Build_GetExecutionInput v workspace_id execution_id
  | GetExecution_set_workspace_id v => Build_GetExecutionInput org_id v execution_id
  | GetExecution_set_execution_id v => Build_GetExecutionInput org_id workspace_id v
  end.
Definition get_execution_none : GetExecutionInput :=
  Build_GetExecutionInput None None None.
Definition get_execution_build (b : GetExecutionInput) : res BuildError GetExecutionInput := Ok b.
Definition get_execution_send (calls : list GetExecutionCall) : res BuildError SdkRequest :=
  input <-? get_execution_build (foldl get_execution_call get_execution_none calls);
  get_execution_request input.

(** *** CancelExecution *)

Inductive CancelExecutionCall :=
  | CancelExecution_set_org_id (v : option string)
  | CancelExecution_set_workspace_id (v : option string)
  | CancelExecution_set_execution_id (v : option string).
Definition cancel_execution_call (b : CancelExecutionInput)
    (c : CancelExecutionCall) : CancelExecutionInput :=
  let '(Build_CancelExecutionInput org_id workspace_id execution_id) := b in
  match c with
  | CancelExecution_set_org_id v => Build_CancelExecutionInput v workspace_id execution_id
  | CancelExecution_set_workspace_id v => Build_CancelExecutionInput org_id v execution_id
  | CancelExecution_set_execution_id v => Build_CancelExecutionInput org_id workspace_id v
  end.
Definition cancel_execution_none : CancelExecutionInput :=
  Build_CancelExecutionInput None None None.
Definition cancel_execution_build (b : CancelExecutionInput) :
    res BuildError CancelExecutionInput := Ok b.
Definition cancel_execution_send (calls : list CancelExecutionCall) : res BuildError SdkRequest :=
  input <-? cancel_execution_build (foldl cancel_execution_call cancel_execution_none calls);
  cancel_execution_request input.

(** *** ListExecutionAttempts *)

Inductive ListExecutionAttemptsCall :=
  | ListExecutionAttempts_set_org_id (v : option string)
  | ListExecutionAttempts_set_workspace_id (v : option string)
  | ListExecutionAttempts_set_cursor (v : option string)
  | ListExecutionAttempts_set_limit (v : option Z)
  | ListExecutionAttempts_set_execution_id (v : option string).
Definition list_execution_attempts_call (b : ListExecutionAttemptsInput)
    (c : ListExecutionAttemptsCall) : ListExecutionAttemptsInput :=
  let '(Build_ListExecutionAttemptsInput org_id workspace_id cursor limit execution_id) := b in
  match c with
  | ListExecutionAttempts_set_org_id v => Build_ListExecutionAttemptsInput v workspace_id
      cursor limit execution_id
  | ListExecutionAttempts_set_workspace_id v => Build_ListExecutionAttemptsInput org_id v
      cursor limit execution_id
  | ListExecutionAttempts_set_cursor v => Build_ListExecutionAttemptsInput org_id workspace_id
      v limit execution_id
  | ListExecutionAttempts_set_limit v => Build_ListExecutionAttemptsInput org_id workspace_id
      cursor v execution_id
  | ListExecutionAttempts_set_execution_id v => Build_ListExecutionAttemptsInput org_id
      workspace_id cursor limit v
  end.
Definition list_execution_attempts_none : ListExecutionAttemptsInput :=
  Build_ListExecutionAttemptsInput None None None None None.
Definition list_execution_attempts_build (b : ListExecutionAttemptsInput) :
    res BuildError ListExecutionAttemptsInput := Ok b.
Definition list_execution_attempts_send (calls : list ListExecutionAttemptsCall) :
    res BuildError SdkRequest :=
  input <-? list_execution_attempts_build
    (foldl list_execution_attempts_call list_execution_attempts_none calls);
  list_execution_attempts_request input.

(** *** ListExecutionLogs *)

Inductive ListExecutionLogsCall :=
  | ListExecutionLogs_set_org_id (v : option string)
  | ListExecutionLogs_set_workspace_id (v : option string)
  | ListExecutionLogs_set_cursor (v : option string)
  | ListExecutionLogs_set_limit (v : option Z)
  | ListExecutionLogs_set_execution_id (v : option string).
Definition list_execution_logs_call (b : ListExecutionLogsInput)
    (c : ListExecutionLogsCall) : ListExecutionLogsInput :=
  let '(Build_ListExecutionLogsInput org_id workspace_id cursor limit execution_id) := b in
  match c with
  | ListExecutionLogs_set_org_id v => Build_ListExecutionLogsInput v workspace_id cursor limit
      execution_id
  | ListExecutionLogs_set_workspace_id v => Build_ListExecutionLogsInput org_id v cursor limit
      execution_id
  | ListExecutionLogs_set_cursor v => Build_ListExecutionLogsInput org_id workspace_id v limit
      execution_id
  | ListExecutionLogs_set_limit v => Build_ListExecutionLogsInput org_id workspace_id cursor v
      execution_id
  | ListExecutionLogs_set_execution_id v => Build_ListExecutionLogsInput org_id workspace_id
      cursor limit v
  end.
Definition list_execution_logs_none : ListExecutionLogsInput :=
  Build_ListExecutionLogsInput None None None None None.
Definition list_execution_logs_build (b : ListExecutionLogsInput) :
    res BuildError ListExecutionLogsInput := Ok b.
Definition list_execution_logs_send (calls : list ListExecutionLogsCall) :
    res BuildError SdkRequest :=
  input <-? list_execution_logs_build
    (foldl list_execution_logs_call list_execution_logs_none calls);
  list_execution_logs_request input.

(** *** CreateEndpoint *)

Inductive CreateEndpointCall :=
  | CreateEndpoint_set_org_id (v : option string)
  | CreateEndpoint_set_workspace_id (v : option string)
  | CreateEndpoint_set_name (v : option string)
  | CreateEndpoint_set_endpoint_type (v : option EndpointTypeEnum)
  | CreateEndpoint_set_payload_spec (v : option string)
  | CreateEndpoint_set_config (v : option string)
  | CreateEndpoint_set_spec (v : option json)
  | CreateEndpoint_set_retry_policy (v : option RetryPolicyResource).
Definition create_endpoint_call (b : CreateEndpointInput)
    (c : CreateEndpointCall) : CreateEndpointInput :=
  let '(Build_CreateEndpointInput org_id workspace_id name endpoint_type payload_spec config
    spec retry_policy) := b in
  match c with
  | CreateEndpoint_set_org_id v => Build_CreateEndpointInput v workspace_id name endpoint_type
      payload_spec config spec retry_policy
  | CreateEndpoint_set_workspace_id v => Build_CreateEndpointInput org_id v name endpoint_type
      payload_spec config spec retry_policy
  | CreateEndpoint_set_name v => Build_CreateEndpointInput org_id workspace_id v endpoint_type
      payload_spec config spec retry_policy
  | CreateEndpoint_set_endpoint_type v => Build_CreateEndpointInput org_id workspace_id name v
      payload_spec config spec retry_policy
  | CreateEndpoint_set_payload_spec v => Build_CreateEndpointInput org_id workspace_id name
      endpoint_type v config spec retry_policy
  | CreateEndpoint_set_config v => Build_CreateEndpointInput org_id workspace_id name
      endpoint_type payload_spec v spec retry_policy
  | CreateEndpoint_set_spec v => Build_CreateEndpointInput org_id workspace_id name
      endpoint_type payload_spec config v retry_policy
  | CreateEndpoint_set_retry_policy v => Build_CreateEndpointInput org_id workspace_id name
      endpoint_type payload_spec config spec v
  end.
Definition create_endpoint_none : CreateEndpointInput :=
  Build_CreateEndpointInput None None None None None None None None.
Definition create_endpoint_build (b : CreateEndpointInput) :
    res BuildError CreateEndpointInput := Ok b.
Definition create_endpoint_send (calls : list CreateEndpointCall) : res BuildError SdkRequest :=
  input <-? create_endpoint_build (foldl create_endpoint_call create_endpoint_none calls);
  create_endpoint_request input.

(** *** ListEndpoints *)

Inductive ListEndpointsCall :=
  | ListEndpoints_set_org_id (v : option string)
  | ListEndpoints_set_workspace_id (v : option string)
  | ListEndpoints_set_cursor (v : option string)
  | ListEndpoints_set_limit (v : option Z).
Definition list_endpoints_call (b : ListEndpointsInput)
    (c : ListEndpointsCall) : ListEndpointsInput :=
  let '(Build_ListEndpointsInput org_id workspace_id cursor limit) := b in
  match c with
  | ListEndpoints_set_org_id v => Build_ListEndpointsInput v workspace_id cursor limit
  | ListEndpoints_set_workspace_id v => Build_ListEndpointsInput org_id v cursor limit
  | ListEndpoints_set_cursor v => Build_ListEndpointsInput org_id workspace_id v limit
  | ListEndpoints_set_limit v => Build_ListEndpointsInput org_id workspace_id cursor v
  end.
Definition list_endpoints_none : ListEndpointsInput :=
  Build_ListEndpointsInput None None None None.
Definition list_endpoints_build (b : ListEndpointsInput) :
    res BuildError ListEndpointsInput := Ok b.
Definition list_endpoints_send (calls : list ListEndpointsCall) : res BuildError SdkRequest :=
  input <-? list_endpoints_build (foldl list_endpoints_call list_endpoints_none calls);
  list_endpoints_request input.

(** *** GetEndpoint *)

Inductive GetEndpointCall :=
  | GetEndpoint_set_org_id (v : option string)
  | GetEndpoint_set_workspace_id (v : option string)
  | GetEndpoint_set_name (v : option string).
Definition get_endpoint_call (b : GetEndpointInput) (c : GetEndpointCall) : GetEndpointInput :=
  let '(Build_GetEndpointInput org_id workspace_id name) := b in
  match c with
  | GetEndpoint_set_org_id v => Build_GetEndpointInput v workspace_id name
  | GetEndpoint_set_workspace_id v => Build_GetEndpointInput org_id v name
  | GetEndpoint_set_name v => Build_GetEndpointInput org_id workspace_id v
  end.
Definition get_endpoint_none : GetEndpointInput :=
  Build_GetEndpointInput None None None.
Definition get_endpoint_build (b : GetEndpointInput) : res BuildError GetEndpointInput := Ok b.
Definition get_endpoint_send (calls : list GetEndpointCall) : res BuildError SdkRequest :=
  input <-? get_endpoint_build (foldl get_endpoint_call get_endpoint_none calls);
  get_endpoint_request input.

(** *** UpdateEndpoint *)

Inductive UpdateEndpointCall :=
  | UpdateEndpoint_set_org_id (v : option string)
  | UpdateEndpoint_set_workspace_id (v : option string)
  | UpdateEndpoint_set_name (v : option string)
  | UpdateEndpoint_set_spec (v : option json)
  | UpdateEndpoint_set_config (v : option string)
  | UpdateEndpoint_set_payload_spec (v : option string)
  | UpdateEndpoint_set_retry_policy (v : option RetryPolicyResource).
Definition update_endpoint_call (b : UpdateEndpointInput)
    (c : UpdateEndpointCall) : UpdateEndpointInput :=
  let '(Build_UpdateEndpointInput org_id workspace_id name spec config payload_spec
    retry_policy) := b in
  match c with
  | UpdateEndpoint_set_org_id v => Build_UpdateEndpointInput v workspace_id name spec config
      payload_spec retry_policy
  | UpdateEndpoint_set_workspace_id v => Build_UpdateEndpointInput org_id v name spec config
      payload_spec retry_policy
  | UpdateEndpoint_set_name v => Build_UpdateEndpointInput org_id workspace_id v spec config
      payload_spec retry_policy
  | UpdateEndpoint_set_spec v => Build_UpdateEndpointInput org_id workspace_id name v config
      payload_spec retry_policy
  | UpdateEndpoint_set_config v => Build_UpdateEndpointInput org_id workspace_id name spec v
      payload_spec retry_policy
  | UpdateEndpoint_set_payload_spec v => Build_UpdateEndpointInput org_id workspace_id name
      spec config v retry_policy
  | UpdateEndpoint_set_retry_policy v => Build_UpdateEndpointInput org_id workspace_id name
      spec config payload_spec v
  end.
Definition update_endpoint_none : UpdateEndpointInput :=
  Build_UpdateEndpointInput None None None None None None None.
Definition update_endpoint_build (b : UpdateEndpointInput) :
    res BuildError UpdateEndpointInput := Ok b.
Definition update_endpoint_send (calls : list UpdateEndpointCall) : res BuildError SdkRequest :=
  input <-? update_endpoint_build (foldl update_endpoint_call update_endpoint_none calls);
  update_endpoint_request input.

(** *** DeleteEndpoint *)

Inductive DeleteEndpointCall :=
  | DeleteEndpoint_set_org_id (v : option string)
  | DeleteEndpoint_set_workspace_id (v : option string)
  | DeleteEndpoint_set_name (v : option string).
Definition delete_endpoint_call (b : DeleteEndpointInput)
    (c : DeleteEndpointCall) : DeleteEndpointInput :=
  let '(Build_DeleteEndpointInput org_id workspace_id name) := b in
  match c with
  | DeleteEndpoint_set_org_id v => Build_DeleteEndpointInput v workspace_id name
  | DeleteEndpoint_set_workspace_id v => Build_DeleteEndpointInput org_id v name
  | DeleteEndpoint_set_name v => Build_DeleteEndpointInput org_id workspace_id v
  end.
Definition delete_endpoint_none : DeleteEndpointInput :=
  Build_DeleteEndpointInput None None None.
Definition delete_endpoint_build (b : DeleteEndpointInput) :
    res BuildError DeleteEndpointInput := Ok b.
Definition delete_endpoint_send (calls : list DeleteEndpointCall) : res BuildError SdkRequest :=
  input <-? delete_endpoint_build (foldl delete_endpoint_call delete_endpoint_none calls);
  delete_endpoint_request input.

(** *** CreatePayloadSpec *)

Inductive CreatePayloadSpecCall :=
  | CreatePayloadSpec_set_org_id (v : option string)
  | CreatePayloadSpec_set_workspace_id (v : option string)
  | CreatePayloadSpec_set_name (v : option string)
  | CreatePayloadSpec_set_schema (v : option json).
Definition create_payload_spec_call (b : CreatePayloadSpecInput)
    (c : CreatePayloadSpecCall) : CreatePayloadSpecInput :=
  let '(Build_CreatePayloadSpecInput org_id workspace_id name schema) := b in
  match c with
  | CreatePayloadSpec_set_org_id v => Build_CreatePayloadSpecInput v workspace_id name schema
  | CreatePayloadSpec_set_workspace_id v => Build_CreatePayloadSpecInput org_id v name schema
  | CreatePayloadSpec_set_name v => Build_CreatePayloadSpecInput org_id workspace_id v schema
  | CreatePayloadSpec_set_schema v => Build_CreatePayloadSpecInput org_id workspace_id name v
  end.
Definition create_payload_spec_none : CreatePayloadSpecInput :=
  Build_CreatePayloadSpecInput None None None None.
Definition create_payload_spec_build (b : CreatePayloadSpecInput) :
    res BuildError CreatePayloadSpecInput := Ok b.
Definition create_payload_spec_send (calls : list CreatePayloadSpecCall) :
    res BuildError SdkRequest :=
  input <-? create_payload_spec_build
    (foldl create_payload_spec_call create_payload_spec_none calls);
  create_payload_spec_request input.

(** *** ListPayloadSpecs *)

Inductive ListPayloadSpecsCall :=
  | ListPayloadSpecs_set_org_id (v : option string)
  | ListPayloadSpecs_set_workspace_id (v : option string)
  | ListPayloadSpecs_set_cursor (v : option string)
  | ListPayloadSpecs_set_limit (v : option Z).
Definition list_payload_specs_call (b : ListPayloadSpecsInput)
    (c : ListPayloadSpecsCall) : ListPayloadSpecsInput :=
  let '(Build_ListPayloadSpecsInput org_id workspace_id cursor limit) := b in
  match c with
  | ListPayloadSpecs_set_org_id v => Build_ListPayloadSpecsInput v workspace_id cursor limit
  | ListPayloadSpecs_set_workspace_id v => Build_ListPayloadSpecsInput org_id v cursor limit
  | ListPayloadSpecs_set_cursor v => Build_ListPayloadSpecsInput org_id workspace_id v limit
  | ListPayloadSpecs_set_limit v => Build_ListPayloadSpecsInput org_id workspace_id cursor v
  end.
Definition list_payload_specs_none : ListPayloadSpecsInput :=
  Build_ListPayloadSpecsInput None None None None.
Definition list_payload_specs_build (b : ListPayloadSpecsInput) :
    res BuildError ListPayloadSpecsInput := Ok b.
Definition list_payload_specs_send (calls : list ListPayloadSpecsCall) :
    res BuildError SdkRequest :=
  input <-? list_payload_specs_build
    (foldl list_payload_specs_call list_payload_specs_none calls);
  list_payload_specs_request input.

(** *** GetPayloadSpec *)

Inductive GetPayloadSpecCall :=
  | GetPayloadSpec_set_org_id (v : option string)
  | GetPayloadSpec_set_workspace_id (v : option string)
  | GetPayloadSpec_set_name (v : option string).
Definition get_payload_spec_call (b : GetPayloadSpecInput)
    (c : GetPayloadSpecCall) : GetPayloadSpecInput :=
  let '(Build_GetPayloadSpecInput org_id workspace_id name) := b in
  match c with
  | GetPayloadSpec_set_org_id v => Build_GetPayloadSpecInput v workspace_id name
  | GetPayloadSpec_set_workspace_id v => Build_GetPayloadSpecInput org_id v name
  | GetPayloadSpec_set_name v => Build_GetPayloadSpecInput org_id workspace_id v
  end.
Definition get_payload_spec_none : GetPayloadSpecInput :=
  Build_GetPayloadSpecInput None None None.
Definition get_payload_spec_build (b : GetPayloadSpecInput) :
    res BuildError GetPayloadSpecInput := Ok b.
Definition get_payload_spec_send (calls : list GetPayloadSpecCall) : res BuildError SdkRequest :=
  input <-? get_payload_spec_build (foldl get_payload_spec_call get_payload_spec_none calls);
  get_payload_spec_request input.

(** *** UpdatePayloadSpec *)

Inductive UpdatePayloadSpecCall :=
  | UpdatePayloadSpec_set_org_id (v : option string)
  | UpdatePayloadSpec_set_workspace_id (v : option string)
  | UpdatePayloadSpec_set_name (v : option string)
  | UpdatePayloadSpec_set_schema (v : option json).
Definition update_payload_spec_call (b : UpdatePayloadSpecInput)
    (c : UpdatePayloadSpecCall) : UpdatePayloadSpecInput :=
  let '(Build_UpdatePayloadSpecInput org_id workspace_id name schema) := b in
  match c with
  | UpdatePayloadSpec_set_org_id v => Build_UpdatePayloadSpecInput v workspace_id name schema
  | UpdatePayloadSpec_set_workspace_id v => Build_UpdatePayloadSpecInput org_id v name schema
  | UpdatePayloadSpec_set_name v => Build_UpdatePayloadSpecInput org_id workspace_id v schema
  | UpdatePayloadSpec_set_schema v => Build_UpdatePayloadSpecInput org_id workspace_id name v
  end.
Definition update_payload_spec_none : UpdatePayloadSpecInput :=
  Build_UpdatePayloadSpecInput None None None None.
Definition update_payload_spec_build (b : UpdatePayloadSpecInput) :
    res BuildError UpdatePayloadSpecInput := Ok b.
Definition update_payload_spec_send (calls : list UpdatePayloadSpecCall) :
    res BuildError SdkRequest :=
  input <-? update_payload_spec_build
    (foldl update_payload_spec_call update_payload_spec_none calls);
  update_payload_spec_request input.

(** *** DeletePayloadSpec *)

Inductive DeletePayloadSpecCall :=
  | DeletePayloadSpec_set_org_id (v : option string)
  | DeletePayloadSpec_set_workspace_id (v : option string)
  | DeletePayloadSpec_set_name (v : option string).
Definition delete_payload_spec_call (b : DeletePayloadSpecInput)
    (c : DeletePayloadSpecCall) : DeletePayloadSpecInput :=
  let '(Build_DeletePayloadSpecInput org_id workspace_id name) := b in
  match c with
  | DeletePayloadSpec_set_org_id v => Build_DeletePayloadSpecInput v workspace_id name
  | DeletePayloadSpec_set_workspace_id v => Build_DeletePayloadSpecInput org_id v name
  | DeletePayloadSpec_set_name v => Build_DeletePayloadSpecInput org_id workspace_id v
  end.
Definition delete_payload_spec_none : DeletePayloadSpecInput :=
  Build_DeletePayloadSpecInput None None None.
Definition delete_payload_spec_build (b : DeletePayloadSpecInput) :
    res BuildError DeletePayloadSpecInput := Ok b.
Definition delete_payload_spec_send (calls : list DeletePayloadSpecCall) :
    res BuildError SdkRequest :=
  input <-? delete_payload_spec_build
    (foldl delete_payload_spec_call delete_payload_spec_none calls);
  delete_payload_spec_request input.

End operations.
