(* ===== verification/SdkErrors.v ===== *)
(** * The errors of the SDK ([client/src/types/error], [operation/*.rs], [error_meta.rs])

    The seven structures an error of the service can be, with their builders; the error type
    of each operation, which lists those its model names, and its trait implementations; and
    [Error], the union of them all, with the conversions into it. *)

From S2P Require Export SdkBuilders.
#[local] Open Scope Z_scope.

Module SdkErr.

(** ** The seven structures *)

(** They have the same members, and differ in their names. *)
Record ErrorStruct (k : ServiceErrorKind) := {
  es_error : ErrorDetail exact;
  es_message : option string;
  es_meta : ErrorMetadata;
}.
Arguments Build_ErrorStruct {k}.
Arguments es_error {k}. Arguments es_message {k}. Arguments es_meta {k}.

(** [ProvideErrorMetadata::meta] *)
Definition ErrorStruct_meta {k} (e : ErrorStruct k) : ErrorMetadata := es_meta e.
Definition ErrorStruct_fmt {k} (e : ErrorStruct k) : string :=
  error_name k +:+ match es_message e with Some m => ": " +:+ m | None => "" end.

(** The builder: its members, and an event for each method. *)
Record ErrorBuilder := {
  bE_error : option (ErrorDetail exact);
  bE_message : option string;
  bE_meta : option ErrorMetadata;
}.
Definition error_builder : ErrorBuilder :=
  {| bE_error := None; bE_message := None; bE_meta := None |}.
Inductive ErrorCall :=
  | Error_set_error (v : option (ErrorDetail exact))
  | Error_set_message (v : option string)
  | Error_set_meta (v : option ErrorMetadata).
Definition error_call (b : ErrorBuilder) (c : ErrorCall) : ErrorBuilder :=
  let '(Build_ErrorBuilder error message meta) := b in
  match c with
  | Error_set_error v => Build_ErrorBuilder v message meta
  | Error_set_message v => Build_ErrorBuilder error v meta
  | Error_set_meta v => Build_ErrorBuilder error message v
  end.
Definition error_build (k : ServiceErrorKind) (b : ErrorBuilder) : res BuildError (ErrorStruct k) :=
  error <-? ok_or (bE_error b) (MissingField "error");
  Ok {| es_error := error; es_message := bE_message b;
        es_meta := default no_metadata (bE_meta b) |}.

Definition ConflictError : Type := ErrorStruct K_Conflict.
Definition ConflictError_fmt (e : ConflictError) : string := ErrorStruct_fmt e.
Definition ConflictError_provide_meta (e : ConflictError) : ErrorMetadata := ErrorStruct_meta e.
Definition ConflictErrorBuilder : Type := ErrorBuilder.
Definition ConflictErrorBuilder_call : ConflictErrorBuilder → ErrorCall → ConflictErrorBuilder := error_call.
Definition ConflictErrorBuilder_build : ConflictErrorBuilder → res BuildError ConflictError := error_build K_Conflict.

Definition InternalError : Type := ErrorStruct K_Internal.
Definition InternalError_fmt (e : InternalError) : string := ErrorStruct_fmt e.
Definition InternalError_provide_meta (e : InternalError) : ErrorMetadata := ErrorStruct_meta e.
Definition InternalErrorBuilder : Type := ErrorBuilder.
Definition InternalErrorBuilder_call : InternalErrorBuilder → ErrorCall → InternalErrorBuilder := error_call.
Definition InternalErrorBuilder_build : InternalErrorBuilder → res BuildError InternalError := error_build K_Internal.

Definition InvalidRequestError : Type := ErrorStruct K_InvalidRequest.
Definition InvalidRequestError_fmt (e : InvalidRequestError) : string := ErrorStruct_fmt e.
Definition InvalidRequestError_provide_meta (e : InvalidRequestError) : ErrorMetadata := ErrorStruct_meta e.
Definition InvalidRequestErrorBuilder : Type := ErrorBuilder.
Definition InvalidRequestErrorBuilder_call : InvalidRequestErrorBuilder → ErrorCall → InvalidRequestErrorBuilder := error_call.
Definition InvalidRequestErrorBuilder_build : InvalidRequestErrorBuilder → res BuildError InvalidRequestError := error_build K_InvalidRequest.

Definition NotFoundError : Type := ErrorStruct K_NotFound.
Definition NotFoundError_fmt (e : NotFoundError) : string := ErrorStruct_fmt e.
Definition NotFoundError_provide_meta (e : NotFoundError) : ErrorMetadata := ErrorStruct_meta e.
Definition NotFoundErrorBuilder : Type := ErrorBuilder.
Definition NotFoundErrorBuilder_call : NotFoundErrorBuilder → ErrorCall → NotFoundErrorBuilder := error_call.
Definition NotFoundErrorBuilder_build : NotFoundErrorBuilder → res BuildError NotFoundError := error_build K_NotFound.

Definition RateLimitedError : Type := ErrorStruct K_RateLimited.
Definition RateLimitedError_fmt (e : RateLimitedError) : string := ErrorStruct_fmt e.
Definition RateLimitedError_provide_meta (e : RateLimitedError) : ErrorMetadata := ErrorStruct_meta e.
Definition RateLimitedErrorBuilder : Type := ErrorBuilder.
Definition RateLimitedErrorBuilder_call : RateLimitedErrorBuilder → ErrorCall → RateLimitedErrorBuilder := error_call.
Definition RateLimitedErrorBuilder_build : RateLimitedErrorBuilder → res BuildError RateLimitedError := error_build K_RateLimited.

Definition UnauthorizedError : Type := ErrorStruct K_Unauthorized.
Definition UnauthorizedError_fmt (e : UnauthorizedError) : string := ErrorStruct_fmt e.
Definition UnauthorizedError_provide_meta (e : UnauthorizedError) : ErrorMetadata := ErrorStruct_meta e.
Definition UnauthorizedErrorBuilder : Type := ErrorBuilder.
Definition UnauthorizedErrorBuilder_call : UnauthorizedErrorBuilder → ErrorCall → UnauthorizedErrorBuilder := error_call.
Definition UnauthorizedErrorBuilder_build : UnauthorizedErrorBuilder → res BuildError UnauthorizedError := error_build K_Unauthorized.

Definition UnprocessableEntityError : Type := ErrorStruct K_UnprocessableEntity.
Definition UnprocessableEntityError_fmt (e : UnprocessableEntityError) : string := ErrorStruct_fmt e.
Definition UnprocessableEntityError_provide_meta (e : UnprocessableEntityError) : ErrorMetadata := ErrorStruct_meta e.
Definition UnprocessableEntityErrorBuilder : Type := ErrorBuilder.
Definition UnprocessableEntityErrorBuilder_call : UnprocessableEntityErrorBuilder → ErrorCall → UnprocessableEntityErrorBuilder := error_call.
Definition UnprocessableEntityErrorBuilder_build : UnprocessableEntityErrorBuilder → res BuildError UnprocessableEntityError := error_build K_UnprocessableEntity.

(** ** Errors that are none of them *)

(** A failure before or after the service's answer, and what the runtime says of it. *)
Record SdkFailure := { sf_text : string; sf_meta : ErrorMetadata }.

(** [Box<dyn Error>] *)
Inductive BoxError :=
  | Box_metadata (m : ErrorMetadata)
  | Box_build (e : BuildError)
  | Box_sdk (f : SdkFailure)
  | Box_library (text : string).

(** [sealed_unhandled::Unhandled] *)
Record UnhandledError := { uh_source : BoxError; uh_meta : ErrorMetadata }.
Definition unhandled_text (code : option string) : string :=
  match code with Some c => "unhandled error (" +:+ c +:+ ")" | None => "unhandled error" end.

(** What [source()] points to. *)
Inductive ErrorRef :=
  | Ref_struct {k} (e : ErrorStruct k)
  | Ref_box (b : BoxError).

(** [SdkError]: an error of the service, or one of the runtime. *)
Inductive SdkError (E : Type) :=
  | SdkServiceError (e : E)
  | SdkOther (f : SdkFailure).
Arguments SdkServiceError {E}. Arguments SdkOther {E}.

(** [aws_smithy_types::retry::ErrorKind] *)
Inductive RetryKind := TransientError | ThrottlingError | ServerError | ClientSideError.

(** ** The union *)

Inductive Error :=
  | Error_ConflictError (e : ConflictError)
  | Error_InternalError (e : InternalError)
  | Error_InvalidRequestError (e : InvalidRequestError)
  | Error_NotFoundError (e : NotFoundError)
  | Error_RateLimitedError (e : RateLimitedError)
  | Error_UnauthorizedError (e : UnauthorizedError)
  | Error_UnprocessableEntityError (e : UnprocessableEntityError)
  | Error_Unhandled (e : UnhandledError).
Definition Error_provide_meta (e : Error) : ErrorMetadata :=
  match e with
  | Error_ConflictError e => ConflictError_provide_meta e
  | Error_InternalError e => InternalError_provide_meta e
  | Error_InvalidRequestError e => InvalidRequestError_provide_meta e
  | Error_NotFoundError e => NotFoundError_provide_meta e
  | Error_RateLimitedError e => RateLimitedError_provide_meta e
  | Error_UnauthorizedError e => UnauthorizedError_provide_meta e
  | Error_UnprocessableEntityError e => UnprocessableEntityError_provide_meta e
  | Error_Unhandled e => uh_meta e
  end.
Definition Error_fmt (e : Error) : string :=
  match e with
  | Error_ConflictError e => ConflictError_fmt e
  | Error_InternalError e => InternalError_fmt e
  | Error_InvalidRequestError e => InvalidRequestError_fmt e
  | Error_NotFoundError e => NotFoundError_fmt e
  | Error_RateLimitedError e => RateLimitedError_fmt e
  | Error_UnauthorizedError e => UnauthorizedError_fmt e
  | Error_UnprocessableEntityError e => UnprocessableEntityError_fmt e
  | Error_Unhandled e => unhandled_text (em_code (Error_provide_meta (Error_Unhandled e)))
  end.
Definition Error_from_BuildError (value : BuildError) : Error :=
  Error_Unhandled {| uh_source := Box_build value; uh_meta := no_metadata |}.
(** [inner.source()] of a structure is the default of the trait. *)
Definition Error_source (e : Error) : option ErrorRef :=
  match e with
  | Error_ConflictError _
  | Error_InternalError _
  | Error_InvalidRequestError _
  | Error_NotFoundError _
  | Error_RateLimitedError _
  | Error_UnauthorizedError _
  | Error_UnprocessableEntityError _ => None
  | Error_Unhandled e => Some (Ref_box (uh_source e))
  end.

(** ** What all error types promise *)

(** The error of [SdkOps] a structure stands for. *)
Definition of_struct {k} (e : ErrorStruct k) : ServiceError := {|
  sE_kind := k; sE_error := es_error e; sE_message := es_message e; sE_meta := es_meta e |}.
Definition Error_view (e : Error) : OperationError :=
  match e with
  | Error_ConflictError e => Modeled (of_struct e)
  | Error_InternalError e => Modeled (of_struct e)
  | Error_InvalidRequestError e => Modeled (of_struct e)
  | Error_NotFoundError e => Modeled (of_struct e)
  | Error_RateLimitedError e => Modeled (of_struct e)
  | Error_UnauthorizedError e => Modeled (of_struct e)
  | Error_UnprocessableEntityError e => Modeled (of_struct e)
  | Error_Unhandled e => Unhandled (uh_meta e)
  end.

(** The error type of an operation with its trait implementations ... *)
Class OperationErrorType (E : Type) := {
  oe_kinds : list ServiceErrorKind;
  oe_view : E → OperationError;
  oe_meta : E → ErrorMetadata;
  oe_provide_meta : E → ErrorMetadata;
  oe_is : ServiceErrorKind → E → bool;
  oe_source : E → option ErrorRef;
  oe_fmt : E → string;
  oe_code : E → option string;
  oe_retryable : E → option RetryKind;
  oe_unhandled : BoxError → E;
  oe_generic : ErrorMetadata → E;
  oe_create : BoxError → option ErrorMetadata → E;
  oe_into : E → Error;
  oe_from_sdk : SdkError E → Error;
}.

(** ... and its laws.  [oe_view] forgets the source of an unhandled error only. *)
Class OperationErrorLaws (E : Type) `{!OperationErrorType E} : Prop := {
  view_onto (o : OperationError) :
    (∀ s, o = Modeled s → sE_kind s ∈ oe_kinds) → ∃ e : E, oe_view e = o;
  view_kind (e : E) s : oe_view e = Modeled s → sE_kind s ∈ oe_kinds;
  is_kind k (e : E) :
    oe_is k e = match oe_view e with Modeled s => bool_decide (sE_kind s = k) | _ => false end;
  meta_view (e : E) : oe_meta e = error_meta (oe_view e);
  provide_meta_view (e : E) : oe_provide_meta e = oe_meta e;
  code_meta (e : E) : oe_code e = em_code (oe_meta e);
  fmt_view (e : E) : oe_fmt e = OperationError_to_string (oe_view e);
  into_view (e : E) : Error_view (oe_into e) = oe_view e;
  into_source (e : E) u :
    oe_into e = Error_Unhandled u → oe_source e = Some (Ref_box (uh_source u));
  has_source (e : E) : is_Some (oe_source e);
  never_retryable (e : E) : oe_retryable e = None;
  sdk_service (e : E) : oe_from_sdk (SdkServiceError e) = oe_into e;
  sdk_other f : oe_from_sdk (@SdkOther E f)
    = Error_Unhandled {| uh_source := Box_sdk f; uh_meta := sf_meta f |};
  new_unhandled b : oe_into (oe_unhandled b)
    = Error_Unhandled {| uh_source := b; uh_meta := no_metadata |};
  new_generic m : oe_into (oe_generic m)
    = Error_Unhandled {| uh_source := Box_metadata m; uh_meta := m |};
  create_unhandled b m : oe_into (oe_create b m)
    = Error_Unhandled {| uh_source := b; uh_meta := default no_metadata m |};
}.

(** The union keeps metadata and text, as its view has them. *)
Lemma Error_meta_view e : Error_provide_meta e = error_meta (Error_view e).
Proof. by destruct e. Qed.
Lemma Error_fmt_view e : Error_fmt e = OperationError_to_string (Error_view e).
Proof. by destruct e. Qed.
End SdkErr.
