(* ===== verification/SdkOpErrors.v ===== *)
(** * The error types of the operations ([client/src/operation/*.rs], [error_meta.rs])

    One type per operation with its trait implementations and its conversions into [Error],
    each an instance of [OperationErrorType] that keeps its laws. *)

From S2P Require Export SdkErrors.
#[local] Open Scope Z_scope.

Module SdkOpErr.
Import SdkErr.

(** The laws, by cases. *)
Tactic Notation "pick_tac" integer(n) uconstr(v) :=
  unshelve refine (ex_intro _ _ _); [constructor n; exact v | reflexivity].
Ltac onto_tac :=
  intros [[k error message meta]|m] Hk;
  [ specialize (Hk _ eq_refl); cbn in Hk; destruct k; try (exfalso; clear -Hk; set_solver);
    first [pick_tac 1 (Build_ErrorStruct error message meta)
          | pick_tac 2 (Build_ErrorStruct error message meta)
          | pick_tac 3 (Build_ErrorStruct error message meta)
          | pick_tac 4 (Build_ErrorStruct error message meta)
          | pick_tac 5 (Build_ErrorStruct error message meta)
          | pick_tac 6 (Build_ErrorStruct error message meta)
          | pick_tac 7 (Build_ErrorStruct error message meta)]
  | first [pick_tac 4 (Build_UnhandledError (Box_metadata m) m)
          | pick_tac 5 (Build_UnhandledError (Box_metadata m) m)
          | pick_tac 6 (Build_UnhandledError (Box_metadata m) m)
          | pick_tac 7 (Build_UnhandledError (Box_metadata m) m)
          | pick_tac 8 (Build_UnhandledError (Box_metadata m) m)] ].
Ltac kind_tac := intros [] ?; cbn; first [intros [= <-]; cbn; set_solver | discriminate].
Ltac error_laws :=
  split; [onto_tac | kind_tac | intros [] []; reflexivity
         | try (intros []; reflexivity); try (intros []; by eexists);
           try (intros [] ? [=]; subst; reflexivity); intros; reflexivity..].

(** *** CreateJob *)

Inductive CreateJobError :=
  | CreateJobError_InvalidRequestError (e : InvalidRequestError)
  | CreateJobError_ConflictError (e : ConflictError)
  | CreateJobError_NotFoundError (e : NotFoundError)
  | CreateJobError_UnprocessableEntityError (e : UnprocessableEntityError)
  | CreateJobError_UnauthorizedError (e : UnauthorizedError)
  | CreateJobError_InternalError (e : InternalError)
  | CreateJobError_RateLimitedError (e : RateLimitedError)
  | CreateJobError_Unhandled (e : UnhandledError).
Definition CreateJobError_unhandled (err : BoxError) : CreateJobError :=
  CreateJobError_Unhandled {| uh_source := err; uh_meta := no_metadata |}.
Definition CreateJobError_generic (err : ErrorMetadata) : CreateJobError :=
  CreateJobError_Unhandled {| uh_source := Box_metadata err; uh_meta := err |}.
Definition CreateJobError_meta (e : CreateJobError) : ErrorMetadata :=
  match e with
  | CreateJobError_InvalidRequestError e => es_meta e
  | CreateJobError_ConflictError e => es_meta e
  | CreateJobError_NotFoundError e => es_meta e
  | CreateJobError_UnprocessableEntityError e => es_meta e
  | CreateJobError_UnauthorizedError e => es_meta e
  | CreateJobError_InternalError e => es_meta e
  | CreateJobError_RateLimitedError e => es_meta e
  | CreateJobError_Unhandled e => uh_meta e
  end.
Definition CreateJobError_is (k : ServiceErrorKind) (e : CreateJobError) : bool :=
  match k, e with
  | K_InvalidRequest, CreateJobError_InvalidRequestError _
  | K_Conflict, CreateJobError_ConflictError _
  | K_NotFound, CreateJobError_NotFoundError _
  | K_UnprocessableEntity, CreateJobError_UnprocessableEntityError _
  | K_Unauthorized, CreateJobError_UnauthorizedError _
  | K_Internal, CreateJobError_InternalError _
  | K_RateLimited, CreateJobError_RateLimitedError _ => true
  | _, _ => false
  end.
Definition CreateJobError_source (e : CreateJobError) : option ErrorRef :=
  match e with
  | CreateJobError_InvalidRequestError e => Some (Ref_struct e)
  | CreateJobError_ConflictError e => Some (Ref_struct e)
  | CreateJobError_NotFoundError e => Some (Ref_struct e)
  | CreateJobError_UnprocessableEntityError e => Some (Ref_struct e)
  | CreateJobError_UnauthorizedError e => Some (Ref_struct e)
  | CreateJobError_InternalError e => Some (Ref_struct e)
  | CreateJobError_RateLimitedError e => Some (Ref_struct e)
  | CreateJobError_Unhandled e => Some (Ref_box (uh_source e))
  end.
Definition CreateJobError_provide_meta (e : CreateJobError) : ErrorMetadata :=
  match e with
  | CreateJobError_InvalidRequestError e => ErrorStruct_meta e
  | CreateJobError_ConflictError e => ErrorStruct_meta e
  | CreateJobError_NotFoundError e => ErrorStruct_meta e
  | CreateJobError_UnprocessableEntityError e => ErrorStruct_meta e
  | CreateJobError_UnauthorizedError e => ErrorStruct_meta e
  | CreateJobError_InternalError e => ErrorStruct_meta e
  | CreateJobError_RateLimitedError e => ErrorStruct_meta e
  | CreateJobError_Unhandled e => uh_meta e
  end.
Definition CreateJobError_code (e : CreateJobError) : option string := em_code
    (CreateJobError_provide_meta e).
Definition CreateJobError_retryable_error_kind (e : CreateJobError) : option RetryKind := None.
Definition CreateJobError_fmt (e : CreateJobError) : string :=
  match e with
  | CreateJobError_InvalidRequestError e => InvalidRequestError_fmt e
  | CreateJobError_ConflictError e => ConflictError_fmt e
  | CreateJobError_NotFoundError e => NotFoundError_fmt e
  | CreateJobError_UnprocessableEntityError e => UnprocessableEntityError_fmt e
  | CreateJobError_UnauthorizedError e => UnauthorizedError_fmt e
  | CreateJobError_InternalError e => InternalError_fmt e
  | CreateJobError_RateLimitedError e => RateLimitedError_fmt e
  | CreateJobError_Unhandled e => unhandled_text (CreateJobError_code (CreateJobError_Unhandled
    e))
  end.
Definition CreateJobError_create_unhandled_error (source : BoxError) (meta : option
    ErrorMetadata) :
    CreateJobError :=
  CreateJobError_Unhandled {| uh_source := source; uh_meta := default no_metadata meta |}.
Definition Error_from_CreateJobError (e : CreateJobError) : Error :=
  match e with
  | CreateJobError_InvalidRequestError e => Error_InvalidRequestError e
  | CreateJobError_ConflictError e => Error_ConflictError e
  | CreateJobError_NotFoundError e => Error_NotFoundError e
  | CreateJobError_UnprocessableEntityError e => Error_UnprocessableEntityError e
  | CreateJobError_UnauthorizedError e => Error_UnauthorizedError e
  | CreateJobError_InternalError e => Error_InternalError e
  | CreateJobError_RateLimitedError e => Error_RateLimitedError e
  | CreateJobError_Unhandled e => Error_Unhandled e
  end.
Definition Error_from_sdk_CreateJobError (err : SdkError CreateJobError) : Error :=
  match err with
  | SdkServiceError e => Error_from_CreateJobError e
  | SdkOther f => Error_Unhandled {| uh_source := Box_sdk f; uh_meta := sf_meta f |}
  end.
Definition CreateJobError_view (e : CreateJobError) : OperationError :=
  match e with
  | CreateJobError_InvalidRequestError e => Modeled (of_struct e)
  | CreateJobError_ConflictError e => Modeled (of_struct e)
  | CreateJobError_NotFoundError e => Modeled (of_struct e)
  | CreateJobError_UnprocessableEntityError e => Modeled (of_struct e)
  | CreateJobError_UnauthorizedError e => Modeled (of_struct e)
  | CreateJobError_InternalError e => Modeled (of_struct e)
  | CreateJobError_RateLimitedError e => Modeled (of_struct e)
  | CreateJobError_Unhandled e => Unhandled (uh_meta e)
  end.
#[export] Instance CreateJobError_type : OperationErrorType CreateJobError := {|
  oe_kinds := CreateJobError_kinds; oe_view := CreateJobError_view; oe_meta := CreateJobError_meta;
  oe_provide_meta := CreateJobError_provide_meta; oe_is := CreateJobError_is; oe_source := CreateJobError_source;
  oe_fmt := CreateJobError_fmt; oe_code := CreateJobError_code; oe_retryable := CreateJobError_retryable_error_kind;
  oe_unhandled := CreateJobError_unhandled; oe_generic := CreateJobError_generic;
  oe_create := CreateJobError_create_unhandled_error;
  oe_into := Error_from_CreateJobError; oe_from_sdk := Error_from_sdk_CreateJobError |}.
#[export] Instance CreateJobError_laws : OperationErrorLaws CreateJobError.
Proof. error_laws. Qed.

(** *** ListJobs *)

Inductive ListJobsError :=
  | ListJobsError_UnauthorizedError (e : UnauthorizedError)
  | ListJobsError_InternalError (e : InternalError)
  | ListJobsError_RateLimitedError (e : RateLimitedError)
  | ListJobsError_Unhandled (e : UnhandledError).
Definition ListJobsError_unhandled (err : BoxError) : ListJobsError :=
  ListJobsError_Unhandled {| uh_source := err; uh_meta := no_metadata |}.
Definition ListJobsError_generic (err : ErrorMetadata) : ListJobsError :=
  ListJobsError_Unhandled {| uh_source := Box_metadata err; uh_meta := err |}.
Definition ListJobsError_meta (e : ListJobsError) : ErrorMetadata :=
  match e with
  | ListJobsError_UnauthorizedError e => es_meta e
  | ListJobsError_InternalError e => es_meta e
  | ListJobsError_RateLimitedError e => es_meta e
  | ListJobsError_Unhandled e => uh_meta e
  end.
Definition ListJobsError_is (k : ServiceErrorKind) (e : ListJobsError) : bool :=
  match k, e with
  | K_Unauthorized, ListJobsError_UnauthorizedError _
  | K_Internal, ListJobsError_InternalError _
  | K_RateLimited, ListJobsError_RateLimitedError _ => true
  | _, _ => false
  end.
Definition ListJobsError_source (e : ListJobsError) : option ErrorRef :=
  match e with
  | ListJobsError_UnauthorizedError e => Some (Ref_struct e)
  | ListJobsError_InternalError e => Some (Ref_struct e)
  | ListJobsError_RateLimitedError e => Some (Ref_struct e)
  | ListJobsError_Unhandled e => Some (Ref_box (uh_source e))
  end.
Definition ListJobsError_provide_meta (e : ListJobsError) : ErrorMetadata :=
  match e with
  | ListJobsError_UnauthorizedError e => ErrorStruct_meta e
  | ListJobsError_InternalError e => ErrorStruct_meta e
  | ListJobsError_RateLimitedError e => ErrorStruct_meta e
  | ListJobsError_Unhandled e => uh_meta e
  end.
Definition ListJobsError_code (e : ListJobsError) : option string := em_code
    (ListJobsError_provide_meta e).
Definition ListJobsError_retryable_error_kind (e : ListJobsError) : option RetryKind := None.
Definition ListJobsError_fmt (e : ListJobsError) : string :=
  match e with
  | ListJobsError_UnauthorizedError e => UnauthorizedError_fmt e
  | ListJobsError_InternalError e => InternalError_fmt e
  | ListJobsError_RateLimitedError e => RateLimitedError_fmt e
  | ListJobsError_Unhandled e => unhandled_text (ListJobsError_code (ListJobsError_Unhandled e))
  end.
Definition ListJobsError_create_unhandled_error (source : BoxError) (meta : option ErrorMetadata)
    :
    ListJobsError :=
  ListJobsError_Unhandled {| uh_source := source; uh_meta := default no_metadata meta |}.
Definition Error_from_ListJobsError (e : ListJobsError) : Error :=
  match e with
  | ListJobsError_UnauthorizedError e => Error_UnauthorizedError e
  | ListJobsError_InternalError e => Error_InternalError e
  | ListJobsError_RateLimitedError e => Error_RateLimitedError e
  | ListJobsError_Unhandled e => Error_Unhandled e
  end.
Definition Error_from_sdk_ListJobsError (err : SdkError ListJobsError) : Error :=
  match err with
  | SdkServiceError e => Error_from_ListJobsError e
  | SdkOther f => Error_Unhandled {| uh_source := Box_sdk f; uh_meta := sf_meta f |}
  end.
Definition ListJobsError_view (e : ListJobsError) : OperationError :=
  match e with
  | ListJobsError_UnauthorizedError e => Modeled (of_struct e)
  | ListJobsError_InternalError e => Modeled (of_struct e)
  | ListJobsError_RateLimitedError e => Modeled (of_struct e)
  | ListJobsError_Unhandled e => Unhandled (uh_meta e)
  end.
#[export] Instance ListJobsError_type : OperationErrorType ListJobsError := {|
  oe_kinds := ListJobsError_kinds; oe_view := ListJobsError_view; oe_meta := ListJobsError_meta;
  oe_provide_meta := ListJobsError_provide_meta; oe_is := ListJobsError_is; oe_source := ListJobsError_source;
  oe_fmt := ListJobsError_fmt; oe_code := ListJobsError_code; oe_retryable := ListJobsError_retryable_error_kind;
  oe_unhandled := ListJobsError_unhandled; oe_generic := ListJobsError_generic;
  oe_create := ListJobsError_create_unhandled_error;
  oe_into := Error_from_ListJobsError; oe_from_sdk := Error_from_sdk_ListJobsError |}.
#[export] Instance ListJobsError_laws : OperationErrorLaws ListJobsError.
Proof. error_laws. Qed.

(** *** GetJob *)

Inductive GetJobError :=
  | GetJobError_NotFoundError (e : NotFoundError)
  | GetJobError_UnauthorizedError (e : UnauthorizedError)
  | GetJobError_InternalError (e : InternalError)
  | GetJobError_RateLimitedError (e : RateLimitedError)
  | GetJobError_Unhandled (e : UnhandledError).
Definition GetJobError_unhandled (err : BoxError) : GetJobError :=
  GetJobError_Unhandled {| uh_source := err; uh_meta := no_metadata |}.
Definition GetJobError_generic (err : ErrorMetadata) : GetJobError :=
  GetJobError_Unhandled {| uh_source := Box_metadata err; uh_meta := err |}.
Definition GetJobError_meta (e : GetJobError) : ErrorMetadata :=
  match e with
  | GetJobError_NotFoundError e => es_meta e
  | GetJobError_UnauthorizedError e => es_meta e
  | GetJobError_InternalError e => es_meta e
  | GetJobError_RateLimitedError e => es_meta e
  | GetJobError_Unhandled e => uh_meta e
  end.
Definition GetJobError_is (k : ServiceErrorKind) (e : GetJobError) : bool :=
  match k, e with
  | K_NotFound, GetJobError_NotFoundError _
  | K_Unauthorized, GetJobError_UnauthorizedError _
  | K_Internal, GetJobError_InternalError _
  | K_RateLimited, GetJobError_RateLimitedError _ => true
  | _, _ => false
  end.
Definition GetJobError_source (e : GetJobError) : option ErrorRef :=
  match e with
  | GetJobError_NotFoundError e => Some (Ref_struct e)
  | GetJobError_UnauthorizedError e => Some (Ref_struct e)
  | GetJobError_InternalError e => Some (Ref_struct e)
  | GetJobError_RateLimitedError e => Some (Ref_struct e)
  | GetJobError_Unhandled e => Some (Ref_box (uh_source e))
  end.
Definition GetJobError_provide_meta (e : GetJobError) : ErrorMetadata :=
  match e with
  | GetJobError_NotFoundError e => ErrorStruct_meta e
  | GetJobError_UnauthorizedError e => ErrorStruct_meta e
  | GetJobError_InternalError e => ErrorStruct_meta e
  | GetJobError_RateLimitedError e => ErrorStruct_meta e
  | GetJobError_Unhandled e => uh_meta e
  end.
Definition GetJobError_code (e : GetJobError) : option string := em_code
    (GetJobError_provide_meta e).
Definition GetJobError_retryable_error_kind (e : GetJobError) : option RetryKind := None.
Definition GetJobError_fmt (e : GetJobError) : string :=
  match e with
  | GetJobError_NotFoundError e => NotFoundError_fmt e
  | GetJobError_UnauthorizedError e => UnauthorizedError_fmt e
  | GetJobError_InternalError e => InternalError_fmt e
  | GetJobError_RateLimitedError e => RateLimitedError_fmt e
  | GetJobError_Unhandled e => unhandled_text (GetJobError_code (GetJobError_Unhandled e))
  end.
Definition GetJobError_create_unhandled_error (source : BoxError) (meta : option ErrorMetadata) :
    GetJobError :=
  GetJobError_Unhandled {| uh_source := source; uh_meta := default no_metadata meta |}.
Definition Error_from_GetJobError (e : GetJobError) : Error :=
  match e with
  | GetJobError_NotFoundError e => Error_NotFoundError e
  | GetJobError_UnauthorizedError e => Error_UnauthorizedError e
  | GetJobError_InternalError e => Error_InternalError e
  | GetJobError_RateLimitedError e => Error_RateLimitedError e
  | GetJobError_Unhandled e => Error_Unhandled e
  end.
Definition Error_from_sdk_GetJobError (err : SdkError GetJobError) : Error :=
  match err with
  | SdkServiceError e => Error_from_GetJobError e
  | SdkOther f => Error_Unhandled {| uh_source := Box_sdk f; uh_meta := sf_meta f |}
  end.
Definition GetJobError_view (e : GetJobError) : OperationError :=
  match e with
  | GetJobError_NotFoundError e => Modeled (of_struct e)
  | GetJobError_UnauthorizedError e => Modeled (of_struct e)
  | GetJobError_InternalError e => Modeled (of_struct e)
  | GetJobError_RateLimitedError e => Modeled (of_struct e)
  | GetJobError_Unhandled e => Unhandled (uh_meta e)
  end.
#[export] Instance GetJobError_type : OperationErrorType GetJobError := {|
  oe_kinds := GetJobError_kinds; oe_view := GetJobError_view; oe_meta := GetJobError_meta;
  oe_provide_meta := GetJobError_provide_meta; oe_is := GetJobError_is; oe_source := GetJobError_source;
  oe_fmt := GetJobError_fmt; oe_code := GetJobError_code; oe_retryable := GetJobError_retryable_error_kind;
  oe_unhandled := GetJobError_unhandled; oe_generic := GetJobError_generic;
  oe_create := GetJobError_create_unhandled_error;
  oe_into := Error_from_GetJobError; oe_from_sdk := Error_from_sdk_GetJobError |}.
#[export] Instance GetJobError_laws : OperationErrorLaws GetJobError.
Proof. error_laws. Qed.

(** *** UpdateJob *)

Inductive UpdateJobError :=
  | UpdateJobError_NotFoundError (e : NotFoundError)
  | UpdateJobError_InvalidRequestError (e : InvalidRequestError)
  | UpdateJobError_UnprocessableEntityError (e : UnprocessableEntityError)
  | UpdateJobError_UnauthorizedError (e : UnauthorizedError)
  | UpdateJobError_InternalError (e : InternalError)
  | UpdateJobError_RateLimitedError (e : RateLimitedError)
  | UpdateJobError_Unhandled (e : UnhandledError).
Definition UpdateJobError_unhandled (err : BoxError) : UpdateJobError :=
  UpdateJobError_Unhandled {| uh_source := err; uh_meta := no_metadata |}.
Definition UpdateJobError_generic (err : ErrorMetadata) : UpdateJobError :=
  UpdateJobError_Unhandled {| uh_source := Box_metadata err; uh_meta := err |}.
Definition UpdateJobError_meta (e : UpdateJobError) : ErrorMetadata :=
  match e with
  | UpdateJobError_NotFoundError e => es_meta e
  | UpdateJobError_InvalidRequestError e => es_meta e
  | UpdateJobError_UnprocessableEntityError e => es_meta e
  | UpdateJobError_UnauthorizedError e => es_meta e
  | UpdateJobError_InternalError e => es_meta e
  | UpdateJobError_RateLimitedError e => es_meta e
  | UpdateJobError_Unhandled e => uh_meta e
  end.
Definition UpdateJobError_is (k : ServiceErrorKind) (e : UpdateJobError) : bool :=
  match k, e with
  | K_NotFound, UpdateJobError_NotFoundError _
  | K_InvalidRequest, UpdateJobError_InvalidRequestError _
  | K_UnprocessableEntity, UpdateJobError_UnprocessableEntityError _
  | K_Unauthorized, UpdateJobError_UnauthorizedError _
  | K_Internal, UpdateJobError_InternalError _
  | K_RateLimited, UpdateJobError_RateLimitedError _ => true
  | _, _ => false
  end.
Definition UpdateJobError_source (e : UpdateJobError) : option ErrorRef :=
  match e with
  | UpdateJobError_NotFoundError e => Some (Ref_struct e)
  | UpdateJobError_InvalidRequestError e => Some (Ref_struct e)
  | UpdateJobError_UnprocessableEntityError e => Some (Ref_struct e)
  | UpdateJobError_UnauthorizedError e => Some (Ref_struct e)
  | UpdateJobError_InternalError e => Some (Ref_struct e)
  | UpdateJobError_RateLimitedError e => Some (Ref_struct e)
  | UpdateJobError_Unhandled e => Some (Ref_box (uh_source e))
  end.
Definition UpdateJobError_provide_meta (e : UpdateJobError) : ErrorMetadata :=
  match e with
  | UpdateJobError_NotFoundError e => ErrorStruct_meta e
  | UpdateJobError_InvalidRequestError e => ErrorStruct_meta e
  | UpdateJobError_UnprocessableEntityError e => ErrorStruct_meta e
  | UpdateJobError_UnauthorizedError e => ErrorStruct_meta e
  | UpdateJobError_InternalError e => ErrorStruct_meta e
  | UpdateJobError_RateLimitedError e => ErrorStruct_meta e
  | UpdateJobError_Unhandled e => uh_meta e
  end.
Definition UpdateJobError_code (e : UpdateJobError) : option string := em_code
    (UpdateJobError_provide_meta e).
Definition UpdateJobError_retryable_error_kind (e : UpdateJobError) : option RetryKind := None.
Definition UpdateJobError_fmt (e : UpdateJobError) : string :=
  match e with
  | UpdateJobError_NotFoundError e => NotFoundError_fmt e
  | UpdateJobError_InvalidRequestError e => InvalidRequestError_fmt e
  | UpdateJobError_UnprocessableEntityError e => UnprocessableEntityError_fmt e
  | UpdateJobError_UnauthorizedError e => UnauthorizedError_fmt e
  | UpdateJobError_InternalError e => InternalError_fmt e
  | UpdateJobError_RateLimitedError e => RateLimitedError_fmt e
  | UpdateJobError_Unhandled e => unhandled_text (UpdateJobError_code (UpdateJobError_Unhandled
    e))
  end.
Definition UpdateJobError_create_unhandled_error (source : BoxError) (meta : option
    ErrorMetadata) :
    UpdateJobError :=
  UpdateJobError_Unhandled {| uh_source := source; uh_meta := default no_metadata meta |}.
Definition Error_from_UpdateJobError (e : UpdateJobError) : Error :=
  match e with
  | UpdateJobError_NotFoundError e => Error_NotFoundError e
  | UpdateJobError_InvalidRequestError e => Error_InvalidRequestError e
  | UpdateJobError_UnprocessableEntityError e => Error_UnprocessableEntityError e
  | UpdateJobError_UnauthorizedError e => Error_UnauthorizedError e
  | UpdateJobError_InternalError e => Error_InternalError e
  | UpdateJobError_RateLimitedError e => Error_RateLimitedError e
  | UpdateJobError_Unhandled e => Error_Unhandled e
  end.
Definition Error_from_sdk_UpdateJobError (err : SdkError UpdateJobError) : Error :=
  match err with
  | SdkServiceError e => Error_from_UpdateJobError e
  | SdkOther f => Error_Unhandled {| uh_source := Box_sdk f; uh_meta := sf_meta f |}
  end.
Definition UpdateJobError_view (e : UpdateJobError) : OperationError :=
  match e with
  | UpdateJobError_NotFoundError e => Modeled (of_struct e)
  | UpdateJobError_InvalidRequestError e => Modeled (of_struct e)
  | UpdateJobError_UnprocessableEntityError e => Modeled (of_struct e)
  | UpdateJobError_UnauthorizedError e => Modeled (of_struct e)
  | UpdateJobError_InternalError e => Modeled (of_struct e)
  | UpdateJobError_RateLimitedError e => Modeled (of_struct e)
  | UpdateJobError_Unhandled e => Unhandled (uh_meta e)
  end.
#[export] Instance UpdateJobError_type : OperationErrorType UpdateJobError := {|
  oe_kinds := UpdateJobError_kinds; oe_view := UpdateJobError_view; oe_meta := UpdateJobError_meta;
  oe_provide_meta := UpdateJobError_provide_meta; oe_is := UpdateJobError_is; oe_source := UpdateJobError_source;
  oe_fmt := UpdateJobError_fmt; oe_code := UpdateJobError_code; oe_retryable := UpdateJobError_retryable_error_kind;
  oe_unhandled := UpdateJobError_unhandled; oe_generic := UpdateJobError_generic;
  oe_create := UpdateJobError_create_unhandled_error;
  oe_into := Error_from_UpdateJobError; oe_from_sdk := Error_from_sdk_UpdateJobError |}.
#[export] Instance UpdateJobError_laws : OperationErrorLaws UpdateJobError.
Proof. error_laws. Qed.

(** *** CancelJob *)

Inductive CancelJobError :=
  | CancelJobError_NotFoundError (e : NotFoundError)
  | CancelJobError_ConflictError (e : ConflictError)
  | CancelJobError_UnauthorizedError (e : UnauthorizedError)
  | CancelJobError_InternalError (e : InternalError)
  | CancelJobError_RateLimitedError (e : RateLimitedError)
  | CancelJobError_Unhandled (e : UnhandledError).
Definition CancelJobError_unhandled (err : BoxError) : CancelJobError :=
  CancelJobError_Unhandled {| uh_source := err; uh_meta := no_metadata |}.
Definition CancelJobError_generic (err : ErrorMetadata) : CancelJobError :=
  CancelJobError_Unhandled {| uh_source := Box_metadata err; uh_meta := err |}.
Definition CancelJobError_meta (e : CancelJobError) : ErrorMetadata :=
  match e with
  | CancelJobError_NotFoundError e => es_meta e
  | CancelJobError_ConflictError e => es_meta e
  | CancelJobError_UnauthorizedError e => es_meta e
  | CancelJobError_InternalError e => es_meta e
  | CancelJobError_RateLimitedError e => es_meta e
  | CancelJobError_Unhandled e => uh_meta e
  end.
Definition CancelJobError_is (k : ServiceErrorKind) (e : CancelJobError) : bool :=
  match k, e with
  | K_NotFound, CancelJobError_NotFoundError _
  | K_Conflict, CancelJobError_ConflictError _
  | K_Unauthorized, CancelJobError_UnauthorizedError _
  | K_Internal, CancelJobError_InternalError _
  | K_RateLimited, CancelJobError_RateLimitedError _ => true
  | _, _ => false
  end.
Definition CancelJobError_source (e : CancelJobError) : option ErrorRef :=
  match e with
  | CancelJobError_NotFoundError e => Some (Ref_struct e)
  | CancelJobError_ConflictError e => Some (Ref_struct e)
  | CancelJobError_UnauthorizedError e => Some (Ref_struct e)
  | CancelJobError_InternalError e => Some (Ref_struct e)
  | CancelJobError_RateLimitedError e => Some (Ref_struct e)
  | CancelJobError_Unhandled e => Some (Ref_box (uh_source e))
  end.
Definition CancelJobError_provide_meta (e : CancelJobError) : ErrorMetadata :=
  match e with
  | CancelJobError_NotFoundError e => ErrorStruct_meta e
  | CancelJobError_ConflictError e => ErrorStruct_meta e
  | CancelJobError_UnauthorizedError e => ErrorStruct_meta e
  | CancelJobError_InternalError e => ErrorStruct_meta e
  | CancelJobError_RateLimitedError e => ErrorStruct_meta e
  | CancelJobError_Unhandled e => uh_meta e
  end.
Definition CancelJobError_code (e : CancelJobError) : option string := em_code
    (CancelJobError_provide_meta e).
Definition CancelJobError_retryable_error_kind (e : CancelJobError) : option RetryKind := None.
Definition CancelJobError_fmt (e : CancelJobError) : string :=
  match e with
  | CancelJobError_NotFoundError e => NotFoundError_fmt e
  | CancelJobError_ConflictError e => ConflictError_fmt e
  | CancelJobError_UnauthorizedError e => UnauthorizedError_fmt e
  | CancelJobError_InternalError e => InternalError_fmt e
  | CancelJobError_RateLimitedError e => RateLimitedError_fmt e
  | CancelJobError_Unhandled e => unhandled_text (CancelJobError_code (CancelJobError_Unhandled
    e))
  end.
Definition CancelJobError_create_unhandled_error (source : BoxError) (meta : option
    ErrorMetadata) :
    CancelJobError :=
  CancelJobError_Unhandled {| uh_source := source; uh_meta := default no_metadata meta |}.
Definition Error_from_CancelJobError (e : CancelJobError) : Error :=
  match e with
  | CancelJobError_NotFoundError e => Error_NotFoundError e
  | CancelJobError_ConflictError e => Error_ConflictError e
  | CancelJobError_UnauthorizedError e => Error_UnauthorizedError e
  | CancelJobError_InternalError e => Error_InternalError e
  | CancelJobError_RateLimitedError e => Error_RateLimitedError e
  | CancelJobError_Unhandled e => Error_Unhandled e
  end.
Definition Error_from_sdk_CancelJobError (err : SdkError CancelJobError) : Error :=
  match err with
  | SdkServiceError e => Error_from_CancelJobError e
  | SdkOther f => Error_Unhandled {| uh_source := Box_sdk f; uh_meta := sf_meta f |}
  end.
Definition CancelJobError_view (e : CancelJobError) : OperationError :=
  match e with
  | CancelJobError_NotFoundError e => Modeled (of_struct e)
  | CancelJobError_ConflictError e => Modeled (of_struct e)
  | CancelJobError_UnauthorizedError e => Modeled (of_struct e)
  | CancelJobError_InternalError e => Modeled (of_struct e)
  | CancelJobError_RateLimitedError e => Modeled (of_struct e)
  | CancelJobError_Unhandled e => Unhandled (uh_meta e)
  end.
#[export] Instance CancelJobError_type : OperationErrorType CancelJobError := {|
  oe_kinds := CancelJobError_kinds; oe_view := CancelJobError_view; oe_meta := CancelJobError_meta;
  oe_provide_meta := CancelJobError_provide_meta; oe_is := CancelJobError_is; oe_source := CancelJobError_source;
  oe_fmt := CancelJobError_fmt; oe_code := CancelJobError_code; oe_retryable := CancelJobError_retryable_error_kind;
  oe_unhandled := CancelJobError_unhandled; oe_generic := CancelJobError_generic;
  oe_create := CancelJobError_create_unhandled_error;
  oe_into := Error_from_CancelJobError; oe_from_sdk := Error_from_sdk_CancelJobError |}.
#[export] Instance CancelJobError_laws : OperationErrorLaws CancelJobError.
Proof. error_laws. Qed.

(** *** GetJobStatus *)

Inductive GetJobStatusError :=
  | GetJobStatusError_NotFoundError (e : NotFoundError)
  | GetJobStatusError_UnauthorizedError (e : UnauthorizedError)
  | GetJobStatusError_InternalError (e : InternalError)
  | GetJobStatusError_RateLimitedError (e : RateLimitedError)
  | GetJobStatusError_Unhandled (e : UnhandledError).
Definition GetJobStatusError_unhandled (err : BoxError) : GetJobStatusError :=
  GetJobStatusError_Unhandled {| uh_source := err; uh_meta := no_metadata |}.
Definition GetJobStatusError_generic (err : ErrorMetadata) : GetJobStatusError :=
  GetJobStatusError_Unhandled {| uh_source := Box_metadata err; uh_meta := err |}.
Definition GetJobStatusError_meta (e : GetJobStatusError) : ErrorMetadata :=
  match e with
  | GetJobStatusError_NotFoundError e => es_meta e
  | GetJobStatusError_UnauthorizedError e => es_meta e
  | GetJobStatusError_InternalError e => es_meta e
  | GetJobStatusError_RateLimitedError e => es_meta e
  | GetJobStatusError_Unhandled e => uh_meta e
  end.
Definition GetJobStatusError_is (k : ServiceErrorKind) (e : GetJobStatusError) : bool :=
  match k, e with
  | K_NotFound, GetJobStatusError_NotFoundError _
  | K_Unauthorized, GetJobStatusError_UnauthorizedError _
  | K_Internal, GetJobStatusError_InternalError _
  | K_RateLimited, GetJobStatusError_RateLimitedError _ => true
  | _, _ => false
  end.
Definition GetJobStatusError_source (e : GetJobStatusError) : option ErrorRef :=
  match e with
  | GetJobStatusError_NotFoundError e => Some (Ref_struct e)
  | GetJobStatusError_UnauthorizedError e => Some (Ref_struct e)
  | GetJobStatusError_InternalError e => Some (Ref_struct e)
  | GetJobStatusError_RateLimitedError e => Some (Ref_struct e)
  | GetJobStatusError_Unhandled e => Some (Ref_box (uh_source e))
  end.
Definition GetJobStatusError_provide_meta (e : GetJobStatusError) : ErrorMetadata :=
  match e with
  | GetJobStatusError_NotFoundError e => ErrorStruct_meta e
  | GetJobStatusError_UnauthorizedError e => ErrorStruct_meta e
  | GetJobStatusError_InternalError e => ErrorStruct_meta e
  | GetJobStatusError_RateLimitedError e => ErrorStruct_meta e
  | GetJobStatusError_Unhandled e => uh_meta e
  end.
Definition GetJobStatusError_code (e : GetJobStatusError) : option string := em_code
    (GetJobStatusError_provide_meta e).
Definition GetJobStatusError_retryable_error_kind (e : GetJobStatusError) : option RetryKind :=
    None.
Definition GetJobStatusError_fmt (e : GetJobStatusError) : string :=
  match e with
  | GetJobStatusError_NotFoundError e => NotFoundError_fmt e
  | GetJobStatusError_UnauthorizedError e => UnauthorizedError_fmt e
  | GetJobStatusError_InternalError e => InternalError_fmt e
  | GetJobStatusError_RateLimitedError e => RateLimitedError_fmt e
  | GetJobStatusError_Unhandled e => unhandled_text (GetJobStatusError_code
    (GetJobStatusError_Unhandled e))
  end.
Definition GetJobStatusError_create_unhandled_error (source : BoxError) (meta : option
    ErrorMetadata) :
    GetJobStatusError :=
  GetJobStatusError_Unhandled {| uh_source := source; uh_meta := default no_metadata meta |}.
Definition Error_from_GetJobStatusError (e : GetJobStatusError) : Error :=
  match e with
  | GetJobStatusError_NotFoundError e => Error_NotFoundError e
  | GetJobStatusError_UnauthorizedError e => Error_UnauthorizedError e
  | GetJobStatusError_InternalError e => Error_InternalError e
  | GetJobStatusError_RateLimitedError e => Error_RateLimitedError e
  | GetJobStatusError_Unhandled e => Error_Unhandled e
  end.
Definition Error_from_sdk_GetJobStatusError (err : SdkError GetJobStatusError) : Error :=
  match err with
  | SdkServiceError e => Error_from_GetJobStatusError e
  | SdkOther f => Error_Unhandled {| uh_source := Box_sdk f; uh_meta := sf_meta f |}
  end.
Definition GetJobStatusError_view (e : GetJobStatusError) : OperationError :=
  match e with
  | GetJobStatusError_NotFoundError e => Modeled (of_struct e)
  | GetJobStatusError_UnauthorizedError e => Modeled (of_struct e)
  | GetJobStatusError_InternalError e => Modeled (of_struct e)
  | GetJobStatusError_RateLimitedError e => Modeled (of_struct e)
  | GetJobStatusError_Unhandled e => Unhandled (uh_meta e)
  end.
#[export] Instance GetJobStatusError_type : OperationErrorType GetJobStatusError := {|
  oe_kinds := GetJobStatusError_kinds; oe_view := GetJobStatusError_view; oe_meta := GetJobStatusError_meta;
  oe_provide_meta := GetJobStatusError_provide_meta; oe_is := GetJobStatusError_is; oe_source := GetJobStatusError_source;
  oe_fmt := GetJobStatusError_fmt; oe_code := GetJobStatusError_code; oe_retryable := GetJobStatusError_retryable_error_kind;
  oe_unhandled := GetJobStatusError_unhandled; oe_generic := GetJobStatusError_generic;
  oe_create := GetJobStatusError_create_unhandled_error;
  oe_into := Error_from_GetJobStatusError; oe_from_sdk := Error_from_sdk_GetJobStatusError |}.
#[export] Instance GetJobStatusError_laws : OperationErrorLaws GetJobStatusError.
Proof. error_laws. Qed.

(** *** GetJobVersions *)

Inductive GetJobVersionsError :=
  | GetJobVersionsError_NotFoundError (e : NotFoundError)
  | GetJobVersionsError_UnauthorizedError (e : UnauthorizedError)
  | GetJobVersionsError_InternalError (e : InternalError)
  | GetJobVersionsError_RateLimitedError (e : RateLimitedError)
  | GetJobVersionsError_Unhandled (e : UnhandledError).
Definition GetJobVersionsError_unhandled (err : BoxError) : GetJobVersionsError :=
  GetJobVersionsError_Unhandled {| uh_source := err; uh_meta := no_metadata |}.
Definition GetJobVersionsError_generic (err : ErrorMetadata) : GetJobVersionsError :=
  GetJobVersionsError_Unhandled {| uh_source := Box_metadata err; uh_meta := err |}.
Definition GetJobVersionsError_meta (e : GetJobVersionsError) : ErrorMetadata :=
  match e with
  | GetJobVersionsError_NotFoundError e => es_meta e
  | GetJobVersionsError_UnauthorizedError e => es_meta e
  | GetJobVersionsError_InternalError e => es_meta e
  | GetJobVersionsError_RateLimitedError e => es_meta e
  | GetJobVersionsError_Unhandled e => uh_meta e
  end.
Definition GetJobVersionsError_is (k : ServiceErrorKind) (e : GetJobVersionsError) : bool :=
  match k, e with
  | K_NotFound, GetJobVersionsError_NotFoundError _
  | K_Unauthorized, GetJobVersionsError_UnauthorizedError _
  | K_Internal, GetJobVersionsError_InternalError _
  | K_RateLimited, GetJobVersionsError_RateLimitedError _ => true
  | _, _ => false
  end.
Definition GetJobVersionsError_source (e : GetJobVersionsError) : option ErrorRef :=
  match e with
  | GetJobVersionsError_NotFoundError e => Some (Ref_struct e)
  | GetJobVersionsError_UnauthorizedError e => Some (Ref_struct e)
  | GetJobVersionsError_InternalError e => Some (Ref_struct e)
  | GetJobVersionsError_RateLimitedError e => Some (Ref_struct e)
  | GetJobVersionsError_Unhandled e => Some (Ref_box (uh_source e))
  end.
Definition GetJobVersionsError_provide_meta (e : GetJobVersionsError) : ErrorMetadata :=
  match e with
  | GetJobVersionsError_NotFoundError e => ErrorStruct_meta e
  | GetJobVersionsError_UnauthorizedError e => ErrorStruct_meta e
  | GetJobVersionsError_InternalError e => ErrorStruct_meta e
  | GetJobVersionsError_RateLimitedError e => ErrorStruct_meta e
  | GetJobVersionsError_Unhandled e => uh_meta e
  end.
Definition GetJobVersionsError_code (e : GetJobVersionsError) : option string := em_code
    (GetJobVersionsError_provide_meta e).
Definition GetJobVersionsError_retryable_error_kind (e : GetJobVersionsError) : option RetryKind
    := None.
Definition GetJobVersionsError_fmt (e : GetJobVersionsError) : string :=
  match e with
  | GetJobVersionsError_NotFoundError e => NotFoundError_fmt e
  | GetJobVersionsError_UnauthorizedError e => UnauthorizedError_fmt e
  | GetJobVersionsError_InternalError e => InternalError_fmt e
  | GetJobVersionsError_RateLimitedError e => RateLimitedError_fmt e
  | GetJobVersionsError_Unhandled e => unhandled_text (GetJobVersionsError_code
    (GetJobVersionsError_Unhandled e))
  end.
Definition GetJobVersionsError_create_unhandled_error (source : BoxError) (meta : option
    ErrorMetadata) :
    GetJobVersionsError :=
  GetJobVersionsError_Unhandled {| uh_source := source; uh_meta := default no_metadata meta |}.
Definition Error_from_GetJobVersionsError (e : GetJobVersionsError) : Error :=
  match e with
  | GetJobVersionsError_NotFoundError e => Error_NotFoundError e
  | GetJobVersionsError_UnauthorizedError e => Error_UnauthorizedError e
  | GetJobVersionsError_InternalError e => Error_InternalError e
  | GetJobVersionsError_RateLimitedError e => Error_RateLimitedError e
  | GetJobVersionsError_Unhandled e => Error_Unhandled e
  end.
Definition Error_from_sdk_GetJobVersionsError (err : SdkError GetJobVersionsError) : Error :=
  match err with
  | SdkServiceError e => Error_from_GetJobVersionsError e
  | SdkOther f => Error_Unhandled {| uh_source := Box_sdk f; uh_meta := sf_meta f |}
  end.
Definition GetJobVersionsError_view (e : GetJobVersionsError) : OperationError :=
  match e with
  | GetJobVersionsError_NotFoundError e => Modeled (of_struct e)
  | GetJobVersionsError_UnauthorizedError e => Modeled (of_struct e)
  | GetJobVersionsError_InternalError e => Modeled (of_struct e)
  | GetJobVersionsError_RateLimitedError e => Modeled (of_struct e)
  | GetJobVersionsError_Unhandled e => Unhandled (uh_meta e)
  end.
#[export] Instance GetJobVersionsError_type : OperationErrorType GetJobVersionsError := {|
  oe_kinds := GetJobVersionsError_kinds; oe_view := GetJobVersionsError_view; oe_meta := GetJobVersionsError_meta;
  oe_provide_meta := GetJobVersionsError_provide_meta; oe_is := GetJobVersionsError_is; oe_source := GetJobVersionsError_source;
  oe_fmt := GetJobVersionsError_fmt; oe_code := GetJobVersionsError_code; oe_retryable := GetJobVersionsError_retryable_error_kind;
  oe_unhandled := GetJobVersionsError_unhandled; oe_generic := GetJobVersionsError_generic;
  oe_create := GetJobVersionsError_create_unhandled_error;
  oe_into := Error_from_GetJobVersionsError; oe_from_sdk := Error_from_sdk_GetJobVersionsError |}.
#[export] Instance GetJobVersionsError_laws : OperationErrorLaws GetJobVersionsError.
Proof. error_laws. Qed.

(** *** ListJobExecutions *)

Inductive ListJobExecutionsError :=
  | ListJobExecutionsError_NotFoundError (e : NotFoundError)
  | ListJobExecutionsError_UnauthorizedError (e : UnauthorizedError)
  | ListJobExecutionsError_InternalError (e : InternalError)
  | ListJobExecutionsError_RateLimitedError (e : RateLimitedError)
  | ListJobExecutionsError_Unhandled (e : UnhandledError).
Definition ListJobExecutionsError_unhandled (err : BoxError) : ListJobExecutionsError :=
  ListJobExecutionsError_Unhandled {| uh_source := err; uh_meta := no_metadata |}.
Definition ListJobExecutionsError_generic (err : ErrorMetadata) : ListJobExecutionsError :=
  ListJobExecutionsError_Unhandled {| uh_source := Box_metadata err; uh_meta := err |}.
Definition ListJobExecutionsError_meta (e : ListJobExecutionsError) : ErrorMetadata :=
  match e with
  | ListJobExecutionsError_NotFoundError e => es_meta e
  | ListJobExecutionsError_UnauthorizedError e => es_meta e
  | ListJobExecutionsError_InternalError e => es_meta e
  | ListJobExecutionsError_RateLimitedError e => es_meta e
  | ListJobExecutionsError_Unhandled e => uh_meta e
  end.
Definition ListJobExecutionsError_is (k : ServiceErrorKind) (e : ListJobExecutionsError) : bool :=
  match k, e with
  | K_NotFound, ListJobExecutionsError_NotFoundError _
  | K_Unauthorized, ListJobExecutionsError_UnauthorizedError _
  | K_Internal, ListJobExecutionsError_InternalError _
  | K_RateLimited, ListJobExecutionsError_RateLimitedError _ => true
  | _, _ => false
  end.
Definition ListJobExecutionsError_source (e : ListJobExecutionsError) : option ErrorRef :=
  match e with
  | ListJobExecutionsError_NotFoundError e => Some (Ref_struct e)
  | ListJobExecutionsError_UnauthorizedError e => Some (Ref_struct e)
  | ListJobExecutionsError_InternalError e => Some (Ref_struct e)
  | ListJobExecutionsError_RateLimitedError e => Some (Ref_struct e)
  | ListJobExecutionsError_Unhandled e => Some (Ref_box (uh_source e))
  end.
Definition ListJobExecutionsError_provide_meta (e : ListJobExecutionsError) : ErrorMetadata :=
  match e with
  | ListJobExecutionsError_NotFoundError e => ErrorStruct_meta e
  | ListJobExecutionsError_UnauthorizedError e => ErrorStruct_meta e
  | ListJobExecutionsError_InternalError e => ErrorStruct_meta e
  | ListJobExecutionsError_RateLimitedError e => ErrorStruct_meta e
  | ListJobExecutionsError_Unhandled e => uh_meta e
  end.
Definition ListJobExecutionsError_code (e : ListJobExecutionsError) : option string := em_code
    (ListJobExecutionsError_provide_meta e).
Definition ListJobExecutionsError_retryable_error_kind (e : ListJobExecutionsError) : option
    RetryKind := None.
Definition ListJobExecutionsError_fmt (e : ListJobExecutionsError) : string :=
  match e with
  | ListJobExecutionsError_NotFoundError e => NotFoundError_fmt e
  | ListJobExecutionsError_UnauthorizedError e => UnauthorizedError_fmt e
  | ListJobExecutionsError_InternalError e => InternalError_fmt e
  | ListJobExecutionsError_RateLimitedError e => RateLimitedError_fmt e
  | ListJobExecutionsError_Unhandled e => unhandled_text (ListJobExecutionsError_code
    (ListJobExecutionsError_Unhandled e))
  end.
Definition ListJobExecutionsError_create_unhandled_error (source : BoxError) (meta : option
    ErrorMetadata) :
    ListJobExecutionsError :=
  ListJobExecutionsError_Unhandled {| uh_source := source; uh_meta := default no_metadata meta |}.
Definition Error_from_ListJobExecutionsError (e : ListJobExecutionsError) : Error :=
  match e with
  | ListJobExecutionsError_NotFoundError e => Error_NotFoundError e
  | ListJobExecutionsError_UnauthorizedError e => Error_UnauthorizedError e
  | ListJobExecutionsError_InternalError e => Error_InternalError e
  | ListJobExecutionsError_RateLimitedError e => Error_RateLimitedError e
  | ListJobExecutionsError_Unhandled e => Error_Unhandled e
  end.
Definition Error_from_sdk_ListJobExecutionsError (err : SdkError ListJobExecutionsError) : Error
    :=
  match err with
  | SdkServiceError e => Error_from_ListJobExecutionsError e
  | SdkOther f => Error_Unhandled {| uh_source := Box_sdk f; uh_meta := sf_meta f |}
  end.
Definition ListJobExecutionsError_view (e : ListJobExecutionsError) : OperationError :=
  match e with
  | ListJobExecutionsError_NotFoundError e => Modeled (of_struct e)
  | ListJobExecutionsError_UnauthorizedError e => Modeled (of_struct e)
  | ListJobExecutionsError_InternalError e => Modeled (of_struct e)
  | ListJobExecutionsError_RateLimitedError e => Modeled (of_struct e)
  | ListJobExecutionsError_Unhandled e => Unhandled (uh_meta e)
  end.
#[export] Instance ListJobExecutionsError_type : OperationErrorType ListJobExecutionsError := {|
  oe_kinds := ListJobExecutionsError_kinds; oe_view := ListJobExecutionsError_view; oe_meta := ListJobExecutionsError_meta;
  oe_provide_meta := ListJobExecutionsError_provide_meta; oe_is := ListJobExecutionsError_is; oe_source := ListJobExecutionsError_source;
  oe_fmt := ListJobExecutionsError_fmt; oe_code := ListJobExecutionsError_code; oe_retryable := ListJobExecutionsError_retryable_error_kind;
  oe_unhandled := ListJobExecutionsError_unhandled; oe_generic := ListJobExecutionsError_generic;
  oe_create := ListJobExecutionsError_create_unhandled_error;
  oe_into := Error_from_ListJobExecutionsError; oe_from_sdk := Error_from_sdk_ListJobExecutionsError |}.
#[export] Instance ListJobExecutionsError_laws : OperationErrorLaws ListJobExecutionsError.
Proof. error_laws. Qed.

(** *** GetExecution *)

Inductive GetExecutionError :=
  | GetExecutionError_NotFoundError (e : NotFoundError)
  | GetExecutionError_UnauthorizedError (e : UnauthorizedError)
  | GetExecutionError_InternalError (e : InternalError)
  | GetExecutionError_RateLimitedError (e : RateLimitedError)
  | GetExecutionError_Unhandled (e : UnhandledError).
Definition GetExecutionError_unhandled (err : BoxError) : GetExecutionError :=
  GetExecutionError_Unhandled {| uh_source := err; uh_meta := no_metadata |}.
Definition GetExecutionError_generic (err : ErrorMetadata) : GetExecutionError :=
  GetExecutionError_Unhandled {| uh_source := Box_metadata err; uh_meta := err |}.
Definition GetExecutionError_meta (e : GetExecutionError) : ErrorMetadata :=
  match e with
  | GetExecutionError_NotFoundError e => es_meta e
  | GetExecutionError_UnauthorizedError e => es_meta e
  | GetExecutionError_InternalError e => es_meta e
  | GetExecutionError_RateLimitedError e => es_meta e
  | GetExecutionError_Unhandled e => uh_meta e
  end.
Definition GetExecutionError_is (k : ServiceErrorKind) (e : GetExecutionError) : bool :=
  match k, e with
  | K_NotFound, GetExecutionError_NotFoundError _
  | K_Unauthorized, GetExecutionError_UnauthorizedError _
  | K_Internal, GetExecutionError_InternalError _
  | K_RateLimited, GetExecutionError_RateLimitedError _ => true
  | _, _ => false
  end.
Definition GetExecutionError_source (e : GetExecutionError) : option ErrorRef :=
  match e with
  | GetExecutionError_NotFoundError e => Some (Ref_struct e)
  | GetExecutionError_UnauthorizedError e => Some (Ref_struct e)
  | GetExecutionError_InternalError e => Some (Ref_struct e)
  | GetExecutionError_RateLimitedError e => Some (Ref_struct e)
  | GetExecutionError_Unhandled e => Some (Ref_box (uh_source e))
  end.
Definition GetExecutionError_provide_meta (e : GetExecutionError) : ErrorMetadata :=
  match e with
  | GetExecutionError_NotFoundError e => ErrorStruct_meta e
  | GetExecutionError_UnauthorizedError e => ErrorStruct_meta e
  | GetExecutionError_InternalError e => ErrorStruct_meta e
  | GetExecutionError_RateLimitedError e => ErrorStruct_meta e
  | GetExecutionError_Unhandled e => uh_meta e
  end.
Definition GetExecutionError_code (e : GetExecutionError) : option string := em_code
    (GetExecutionError_provide_meta e).
Definition GetExecutionError_retryable_error_kind (e : GetExecutionError) : option RetryKind :=
    None.
Definition GetExecutionError_fmt (e : GetExecutionError) : string :=
  match e with
  | GetExecutionError_NotFoundError e => NotFoundError_fmt e
  | GetExecutionError_UnauthorizedError e => UnauthorizedError_fmt e
  | GetExecutionError_InternalError e => InternalError_fmt e
  | GetExecutionError_RateLimitedError e => RateLimitedError_fmt e
  | GetExecutionError_Unhandled e => unhandled_text (GetExecutionError_code
    (GetExecutionError_Unhandled e))
  end.
Definition GetExecutionError_create_unhandled_error (source : BoxError) (meta : option
    ErrorMetadata) :
    GetExecutionError :=
  GetExecutionError_Unhandled {| uh_source := source; uh_meta := default no_metadata meta |}.
Definition Error_from_GetExecutionError (e : GetExecutionError) : Error :=
  match e with
  | GetExecutionError_NotFoundError e => Error_NotFoundError e
  | GetExecutionError_UnauthorizedError e => Error_UnauthorizedError e
  | GetExecutionError_InternalError e => Error_InternalError e
  | GetExecutionError_RateLimitedError e => Error_RateLimitedError e
  | GetExecutionError_Unhandled e => Error_Unhandled e
  end.
Definition Error_from_sdk_GetExecutionError (err : SdkError GetExecutionError) : Error :=
  match err with
  | SdkServiceError e => Error_from_GetExecutionError e
  | SdkOther f => Error_Unhandled {| uh_source := Box_sdk f; uh_meta := sf_meta f |}
  end.
Definition GetExecutionError_view (e : GetExecutionError) : OperationError :=
  match e with
  | GetExecutionError_NotFoundError e => Modeled (of_struct e)
  | GetExecutionError_UnauthorizedError e => Modeled (of_struct e)
  | GetExecutionError_InternalError e => Modeled (of_struct e)
  | GetExecutionError_RateLimitedError e => Modeled (of_struct e)
  | GetExecutionError_Unhandled e => Unhandled (uh_meta e)
  end.
#[export] Instance GetExecutionError_type : OperationErrorType GetExecutionError := {|
  oe_kinds := GetExecutionError_kinds; oe_view := GetExecutionError_view; oe_meta := GetExecutionError_meta;
  oe_provide_meta := GetExecutionError_provide_meta; oe_is := GetExecutionError_is; oe_source := GetExecutionError_source;
  oe_fmt := GetExecutionError_fmt; oe_code := GetExecutionError_code; oe_retryable := GetExecutionError_retryable_error_kind;
  oe_unhandled := GetExecutionError_unhandled; oe_generic := GetExecutionError_generic;
  oe_create := GetExecutionError_create_unhandled_error;
  oe_into := Error_from_GetExecutionError; oe_from_sdk := Error_from_sdk_GetExecutionError |}.
#[export] Instance GetExecutionError_laws : OperationErrorLaws GetExecutionError.
Proof. error_laws. Qed.

(** *** CancelExecution *)

Inductive CancelExecutionError :=
  | CancelExecutionError_NotFoundError (e : NotFoundError)
  | CancelExecutionError_ConflictError (e : ConflictError)
  | CancelExecutionError_UnauthorizedError (e : UnauthorizedError)
  | CancelExecutionError_InternalError (e : InternalError)
  | CancelExecutionError_RateLimitedError (e : RateLimitedError)
  | CancelExecutionError_Unhandled (e : UnhandledError).
Definition CancelExecutionError_unhandled (err : BoxError) : CancelExecutionError :=
  CancelExecutionError_Unhandled {| uh_source := err; uh_meta := no_metadata |}.
Definition CancelExecutionError_generic (err : ErrorMetadata) : CancelExecutionError :=
  CancelExecutionError_Unhandled {| uh_source := Box_metadata err; uh_meta := err |}.
Definition CancelExecutionError_meta (e : CancelExecutionError) : ErrorMetadata :=
  match e with
  | CancelExecutionError_NotFoundError e => es_meta e
  | CancelExecutionError_ConflictError e => es_meta e
  | CancelExecutionError_UnauthorizedError e => es_meta e
  | CancelExecutionError_InternalError e => es_meta e
  | CancelExecutionError_RateLimitedError e => es_meta e
  | CancelExecutionError_Unhandled e => uh_meta e
  end.
Definition CancelExecutionError_is (k : ServiceErrorKind) (e : CancelExecutionError) : bool :=
  match k, e with
  | K_NotFound, CancelExecutionError_NotFoundError _
  | K_Conflict, CancelExecutionError_ConflictError _
  | K_Unauthorized, CancelExecutionError_UnauthorizedError _
  | K_Internal, CancelExecutionError_InternalError _
  | K_RateLimited, CancelExecutionError_RateLimitedError _ => true
  | _, _ => false
  end.
Definition CancelExecutionError_source (e : CancelExecutionError) : option ErrorRef :=
  match e with
  | CancelExecutionError_NotFoundError e => Some (Ref_struct e)
  | CancelExecutionError_ConflictError e => Some (Ref_struct e)
  | CancelExecutionError_UnauthorizedError e => Some (Ref_struct e)
  | CancelExecutionError_InternalError e => Some (Ref_struct e)
  | CancelExecutionError_RateLimitedError e => Some (Ref_struct e)
  | CancelExecutionError_Unhandled e => Some (Ref_box (uh_source e))
  end.
Definition CancelExecutionError_provide_meta (e : CancelExecutionError) : ErrorMetadata :=
  match e with
  | CancelExecutionError_NotFoundError e => ErrorStruct_meta e
  | CancelExecutionError_ConflictError e => ErrorStruct_meta e
  | CancelExecutionError_UnauthorizedError e => ErrorStruct_meta e
  | CancelExecutionError_InternalError e => ErrorStruct_meta e
  | CancelExecutionError_RateLimitedError e => ErrorStruct_meta e
  | CancelExecutionError_Unhandled e => uh_meta e
  end.
Definition CancelExecutionError_code (e : CancelExecutionError) : option string := em_code
    (CancelExecutionError_provide_meta e).
Definition CancelExecutionError_retryable_error_kind (e : CancelExecutionError) : option
    RetryKind := None.
Definition CancelExecutionError_fmt (e : CancelExecutionError) : string :=
  match e with
  | CancelExecutionError_NotFoundError e => NotFoundError_fmt e
  | CancelExecutionError_ConflictError e => ConflictError_fmt e
  | CancelExecutionError_UnauthorizedError e => UnauthorizedError_fmt e
  | CancelExecutionError_InternalError e => InternalError_fmt e
  | CancelExecutionError_RateLimitedError e => RateLimitedError_fmt e
  | CancelExecutionError_Unhandled e => unhandled_text (CancelExecutionError_code
    (CancelExecutionError_Unhandled e))
  end.
Definition CancelExecutionError_create_unhandled_error (source : BoxError) (meta : option
    ErrorMetadata) :
    CancelExecutionError :=
  CancelExecutionError_Unhandled {| uh_source := source; uh_meta := default no_metadata meta |}.
Definition Error_from_CancelExecutionError (e : CancelExecutionError) : Error :=
  match e with
  | CancelExecutionError_NotFoundError e => Error_NotFoundError e
  | CancelExecutionError_ConflictError e => Error_ConflictError e
  | CancelExecutionError_UnauthorizedError e => Error_UnauthorizedError e
  | CancelExecutionError_InternalError e => Error_InternalError e
  | CancelExecutionError_RateLimitedError e => Error_RateLimitedError e
  | CancelExecutionError_Unhandled e => Error_Unhandled e
  end.
Definition Error_from_sdk_CancelExecutionError (err : SdkError CancelExecutionError) : Error :=
  match err with
  | SdkServiceError e => Error_from_CancelExecutionError e
  | SdkOther f => Error_Unhandled {| uh_source := Box_sdk f; uh_meta := sf_meta f |}
  end.
Definition CancelExecutionError_view (e : CancelExecutionError) : OperationError :=
  match e with
  | CancelExecutionError_NotFoundError e => Modeled (of_struct e)
  | CancelExecutionError_ConflictError e => Modeled (of_struct e)
  | CancelExecutionError_UnauthorizedError e => Modeled (of_struct e)
  | CancelExecutionError_InternalError e => Modeled (of_struct e)
  | CancelExecutionError_RateLimitedError e => Modeled (of_struct e)
  | CancelExecutionError_Unhandled e => Unhandled (uh_meta e)
  end.
#[export] Instance CancelExecutionError_type : OperationErrorType CancelExecutionError := {|
  oe_kinds := CancelExecutionError_kinds; oe_view := CancelExecutionError_view; oe_meta := CancelExecutionError_meta;
  oe_provide_meta := CancelExecutionError_provide_meta; oe_is := CancelExecutionError_is; oe_source := CancelExecutionError_source;
  oe_fmt := CancelExecutionError_fmt; oe_code := CancelExecutionError_code; oe_retryable := CancelExecutionError_retryable_error_kind;
  oe_unhandled := CancelExecutionError_unhandled; oe_generic := CancelExecutionError_generic;
  oe_create := CancelExecutionError_create_unhandled_error;
  oe_into := Error_from_CancelExecutionError; oe_from_sdk := Error_from_sdk_CancelExecutionError |}.
#[export] Instance CancelExecutionError_laws : OperationErrorLaws CancelExecutionError.
Proof. error_laws. Qed.

(** *** ListExecutionAttempts *)

Inductive ListExecutionAttemptsError :=
  | ListExecutionAttemptsError_NotFoundError (e : NotFoundError)
  | ListExecutionAttemptsError_UnauthorizedError (e : UnauthorizedError)
  | ListExecutionAttemptsError_InternalError (e : InternalError)
  | ListExecutionAttemptsError_RateLimitedError (e : RateLimitedError)
  | ListExecutionAttemptsError_Unhandled (e : UnhandledError).
Definition ListExecutionAttemptsError_unhandled (err : BoxError) : ListExecutionAttemptsError :=
  ListExecutionAttemptsError_Unhandled {| uh_source := err; uh_meta := no_metadata |}.
Definition ListExecutionAttemptsError_generic (err : ErrorMetadata) : ListExecutionAttemptsError
    :=
  ListExecutionAttemptsError_Unhandled {| uh_source := Box_metadata err; uh_meta := err |}.
Definition ListExecutionAttemptsError_meta (e : ListExecutionAttemptsError) : ErrorMetadata :=
  match e with
  | ListExecutionAttemptsError_NotFoundError e => es_meta e
  | ListExecutionAttemptsError_UnauthorizedError e => es_meta e
  | ListExecutionAttemptsError_InternalError e => es_meta e
  | ListExecutionAttemptsError_RateLimitedError e => es_meta e
  | ListExecutionAttemptsError_Unhandled e => uh_meta e
  end.
Definition ListExecutionAttemptsError_is (k : ServiceErrorKind) (e : ListExecutionAttemptsError)
    : bool :=
  match k, e with
  | K_NotFound, ListExecutionAttemptsError_NotFoundError _
  | K_Unauthorized, ListExecutionAttemptsError_UnauthorizedError _
  | K_Internal, ListExecutionAttemptsError_InternalError _
  | K_RateLimited, ListExecutionAttemptsError_RateLimitedError _ => true
  | _, _ => false
  end.
Definition ListExecutionAttemptsError_source (e : ListExecutionAttemptsError) : option ErrorRef :=
  match e with
  | ListExecutionAttemptsError_NotFoundError e => Some (Ref_struct e)
  | ListExecutionAttemptsError_UnauthorizedError e => Some (Ref_struct e)
  | ListExecutionAttemptsError_InternalError e => Some (Ref_struct e)
  | ListExecutionAttemptsError_RateLimitedError e => Some (Ref_struct e)
  | ListExecutionAttemptsError_Unhandled e => Some (Ref_box (uh_source e))
  end.
Definition ListExecutionAttemptsError_provide_meta (e : ListExecutionAttemptsError) :
    ErrorMetadata :=
  match e with
  | ListExecutionAttemptsError_NotFoundError e => ErrorStruct_meta e
  | ListExecutionAttemptsError_UnauthorizedError e => ErrorStruct_meta e
  | ListExecutionAttemptsError_InternalError e => ErrorStruct_meta e
  | ListExecutionAttemptsError_RateLimitedError e => ErrorStruct_meta e
  | ListExecutionAttemptsError_Unhandled e => uh_meta e
  end.
Definition ListExecutionAttemptsError_code (e : ListExecutionAttemptsError) : option string :=
    em_code (ListExecutionAttemptsError_provide_meta e).
Definition ListExecutionAttemptsError_retryable_error_kind (e : ListExecutionAttemptsError) :
    option RetryKind := None.
Definition ListExecutionAttemptsError_fmt (e : ListExecutionAttemptsError) : string :=
  match e with
  | ListExecutionAttemptsError_NotFoundError e => NotFoundError_fmt e
  | ListExecutionAttemptsError_UnauthorizedError e => UnauthorizedError_fmt e
  | ListExecutionAttemptsError_InternalError e => InternalError_fmt e
  | ListExecutionAttemptsError_RateLimitedError e => RateLimitedError_fmt e
  | ListExecutionAttemptsError_Unhandled e => unhandled_text (ListExecutionAttemptsError_code
    (ListExecutionAttemptsError_Unhandled e))
  end.
Definition ListExecutionAttemptsError_create_unhandled_error (source : BoxError) (meta : option
    ErrorMetadata) :
    ListExecutionAttemptsError :=
  ListExecutionAttemptsError_Unhandled {| uh_source := source; uh_meta := default no_metadata
    meta |}.
Definition Error_from_ListExecutionAttemptsError (e : ListExecutionAttemptsError) : Error :=
  match e with
  | ListExecutionAttemptsError_NotFoundError e => Error_NotFoundError e
  | ListExecutionAttemptsError_UnauthorizedError e => Error_UnauthorizedError e
  | ListExecutionAttemptsError_InternalError e => Error_InternalError e
  | ListExecutionAttemptsError_RateLimitedError e => Error_RateLimitedError e
  | ListExecutionAttemptsError_Unhandled e => Error_Unhandled e
  end.
Definition Error_from_sdk_ListExecutionAttemptsError (err : SdkError ListExecutionAttemptsError)
    : Error :=
  match err with
  | SdkServiceError e => Error_from_ListExecutionAttemptsError e
  | SdkOther f => Error_Unhandled {| uh_source := Box_sdk f; uh_meta := sf_meta f |}
  end.
Definition ListExecutionAttemptsError_view (e : ListExecutionAttemptsError) : OperationError :=
  match e with
  | ListExecutionAttemptsError_NotFoundError e => Modeled (of_struct e)
  | ListExecutionAttemptsError_UnauthorizedError e => Modeled (of_struct e)
  | ListExecutionAttemptsError_InternalError e => Modeled (of_struct e)
  | ListExecutionAttemptsError_RateLimitedError e => Modeled (of_struct e)
  | ListExecutionAttemptsError_Unhandled e => Unhandled (uh_meta e)
  end.
#[export] Instance ListExecutionAttemptsError_type : OperationErrorType ListExecutionAttemptsError := {|
  oe_kinds := ListExecutionAttemptsError_kinds; oe_view := ListExecutionAttemptsError_view; oe_meta := ListExecutionAttemptsError_meta;
  oe_provide_meta := ListExecutionAttemptsError_provide_meta; oe_is := ListExecutionAttemptsError_is; oe_source := ListExecutionAttemptsError_source;
  oe_fmt := ListExecutionAttemptsError_fmt; oe_code := ListExecutionAttemptsError_code; oe_retryable := ListExecutionAttemptsError_retryable_error_kind;
  oe_unhandled := ListExecutionAttemptsError_unhandled; oe_generic := ListExecutionAttemptsError_generic;
  oe_create := ListExecutionAttemptsError_create_unhandled_error;
  oe_into := Error_from_ListExecutionAttemptsError; oe_from_sdk := Error_from_sdk_ListExecutionAttemptsError |}.
#[export] Instance ListExecutionAttemptsError_laws : OperationErrorLaws ListExecutionAttemptsError.
Proof. error_laws. Qed.

(** *** ListExecutionLogs *)

Inductive ListExecutionLogsError :=
  | ListExecutionLogsError_NotFoundError (e : NotFoundError)
  | ListExecutionLogsError_UnauthorizedError (e : UnauthorizedError)
  | ListExecutionLogsError_InternalError (e : InternalError)
  | ListExecutionLogsError_RateLimitedError (e : RateLimitedError)
  | ListExecutionLogsError_Unhandled (e : UnhandledError).
Definition ListExecutionLogsError_unhandled (err : BoxError) : ListExecutionLogsError :=
  ListExecutionLogsError_Unhandled {| uh_source := err; uh_meta := no_metadata |}.
Definition ListExecutionLogsError_generic (err : ErrorMetadata) : ListExecutionLogsError :=
  ListExecutionLogsError_Unhandled {| uh_source := Box_metadata err; uh_meta := err |}.
Definition ListExecutionLogsError_meta (e : ListExecutionLogsError) : ErrorMetadata :=
  match e with
  | ListExecutionLogsError_NotFoundError e => es_meta e
  | ListExecutionLogsError_UnauthorizedError e => es_meta e
  | ListExecutionLogsError_InternalError e => es_meta e
  | ListExecutionLogsError_RateLimitedError e => es_meta e
  | ListExecutionLogsError_Unhandled e => uh_meta e
  end.
Definition ListExecutionLogsError_is (k : ServiceErrorKind) (e : ListExecutionLogsError) : bool :=
  match k, e with
  | K_NotFound, ListExecutionLogsError_NotFoundError _
  | K_Unauthorized, ListExecutionLogsError_UnauthorizedError _
  | K_Internal, ListExecutionLogsError_InternalError _
  | K_RateLimited, ListExecutionLogsError_RateLimitedError _ => true
  | _, _ => false
  end.
Definition ListExecutionLogsError_source (e : ListExecutionLogsError) : option ErrorRef :=
  match e with
  | ListExecutionLogsError_NotFoundError e => Some (Ref_struct e)
  | ListExecutionLogsError_UnauthorizedError e => Some (Ref_struct e)
  | ListExecutionLogsError_InternalError e => Some (Ref_struct e)
  | ListExecutionLogsError_RateLimitedError e => Some (Ref_struct e)
  | ListExecutionLogsError_Unhandled e => Some (Ref_box (uh_source e))
  end.
Definition ListExecutionLogsError_provide_meta (e : ListExecutionLogsError) : ErrorMetadata :=
  match e with
  | ListExecutionLogsError_NotFoundError e => ErrorStruct_meta e
  | ListExecutionLogsError_UnauthorizedError e => ErrorStruct_meta e
  | ListExecutionLogsError_InternalError e => ErrorStruct_meta e
  | ListExecutionLogsError_RateLimitedError e => ErrorStruct_meta e
  | ListExecutionLogsError_Unhandled e => uh_meta e
  end.
Definition ListExecutionLogsError_code (e : ListExecutionLogsError) : option string := em_code
    (ListExecutionLogsError_provide_meta e).
Definition ListExecutionLogsError_retryable_error_kind (e : ListExecutionLogsError) : option
    RetryKind := None.
Definition ListExecutionLogsError_fmt (e : ListExecutionLogsError) : string :=
  match e with
  | ListExecutionLogsError_NotFoundError e => NotFoundError_fmt e
  | ListExecutionLogsError_UnauthorizedError e => UnauthorizedError_fmt e
  | ListExecutionLogsError_InternalError e => InternalError_fmt e
  | ListExecutionLogsError_RateLimitedError e => RateLimitedError_fmt e
  | ListExecutionLogsError_Unhandled e => unhandled_text (ListExecutionLogsError_code
    (ListExecutionLogsError_Unhandled e))
  end.
Definition ListExecutionLogsError_create_unhandled_error (source : BoxError) (meta : option
    ErrorMetadata) :
    ListExecutionLogsError :=
  ListExecutionLogsError_Unhandled {| uh_source := source; uh_meta := default no_metadata meta |}.
Definition Error_from_ListExecutionLogsError (e : ListExecutionLogsError) : Error :=
  match e with
  | ListExecutionLogsError_NotFoundError e => Error_NotFoundError e
  | ListExecutionLogsError_UnauthorizedError e => Error_UnauthorizedError e
  | ListExecutionLogsError_InternalError e => Error_InternalError e
  | ListExecutionLogsError_RateLimitedError e => Error_RateLimitedError e
  | ListExecutionLogsError_Unhandled e => Error_Unhandled e
  end.
Definition Error_from_sdk_ListExecutionLogsError (err : SdkError ListExecutionLogsError) : Error
    :=
  match err with
  | SdkServiceError e => Error_from_ListExecutionLogsError e
  | SdkOther f => Error_Unhandled {| uh_source := Box_sdk f; uh_meta := sf_meta f |}
  end.
Definition ListExecutionLogsError_view (e : ListExecutionLogsError) : OperationError :=
  match e with
  | ListExecutionLogsError_NotFoundError e => Modeled (of_struct e)
  | ListExecutionLogsError_UnauthorizedError e => Modeled (of_struct e)
  | ListExecutionLogsError_InternalError e => Modeled (of_struct e)
  | ListExecutionLogsError_RateLimitedError e => Modeled (of_struct e)
  | ListExecutionLogsError_Unhandled e => Unhandled (uh_meta e)
  end.
#[export] Instance ListExecutionLogsError_type : OperationErrorType ListExecutionLogsError := {|
  oe_kinds := ListExecutionLogsError_kinds; oe_view := ListExecutionLogsError_view; oe_meta := ListExecutionLogsError_meta;
  oe_provide_meta := ListExecutionLogsError_provide_meta; oe_is := ListExecutionLogsError_is; oe_source := ListExecutionLogsError_source;
  oe_fmt := ListExecutionLogsError_fmt; oe_code := ListExecutionLogsError_code; oe_retryable := ListExecutionLogsError_retryable_error_kind;
  oe_unhandled := ListExecutionLogsError_unhandled; oe_generic := ListExecutionLogsError_generic;
  oe_create := ListExecutionLogsError_create_unhandled_error;
  oe_into := Error_from_ListExecutionLogsError; oe_from_sdk := Error_from_sdk_ListExecutionLogsError |}.
#[export] Instance ListExecutionLogsError_laws : OperationErrorLaws ListExecutionLogsError.
Proof. error_laws. Qed.

(** *** CreateEndpoint *)

Inductive CreateEndpointError :=
  | CreateEndpointError_InvalidRequestError (e : InvalidRequestError)
  | CreateEndpointError_ConflictError (e : ConflictError)
  | CreateEndpointError_UnprocessableEntityError (e : UnprocessableEntityError)
  | CreateEndpointError_UnauthorizedError (e : UnauthorizedError)
  | CreateEndpointError_InternalError (e : InternalError)
  | CreateEndpointError_RateLimitedError (e : RateLimitedError)
  | CreateEndpointError_Unhandled (e : UnhandledError).
Definition CreateEndpointError_unhandled (err : BoxError) : CreateEndpointError :=
  CreateEndpointError_Unhandled {| uh_source := err; uh_meta := no_metadata |}.
Definition CreateEndpointError_generic (err : ErrorMetadata) : CreateEndpointError :=
  CreateEndpointError_Unhandled {| uh_source := Box_metadata err; uh_meta := err |}.
Definition CreateEndpointError_meta (e : CreateEndpointError) : ErrorMetadata :=
  match e with
  | CreateEndpointError_InvalidRequestError e => es_meta e
  | CreateEndpointError_ConflictError e => es_meta e
  | CreateEndpointError_UnprocessableEntityError e => es_meta e
  | CreateEndpointError_UnauthorizedError e => es_meta e
  | CreateEndpointError_InternalError e => es_meta e
  | CreateEndpointError_RateLimitedError e => es_meta e
  | CreateEndpointError_Unhandled e => uh_meta e
  end.
Definition CreateEndpointError_is (k : ServiceErrorKind) (e : CreateEndpointError) : bool :=
  match k, e with
  | K_InvalidRequest, CreateEndpointError_InvalidRequestError _
  | K_Conflict, CreateEndpointError_ConflictError _
  | K_UnprocessableEntity, CreateEndpointError_UnprocessableEntityError _
  | K_Unauthorized, CreateEndpointError_UnauthorizedError _
  | K_Internal, CreateEndpointError_InternalError _
  | K_RateLimited, CreateEndpointError_RateLimitedError _ => true
  | _, _ => false
  end.
Definition CreateEndpointError_source (e : CreateEndpointError) : option ErrorRef :=
  match e with
  | CreateEndpointError_InvalidRequestError e => Some (Ref_struct e)
  | CreateEndpointError_ConflictError e => Some (Ref_struct e)
  | CreateEndpointError_UnprocessableEntityError e => Some (Ref_struct e)
  | CreateEndpointError_UnauthorizedError e => Some (Ref_struct e)
  | CreateEndpointError_InternalError e => Some (Ref_struct e)
  | CreateEndpointError_RateLimitedError e => Some (Ref_struct e)
  | CreateEndpointError_Unhandled e => Some (Ref_box (uh_source e))
  end.
Definition CreateEndpointError_provide_meta (e : CreateEndpointError) : ErrorMetadata :=
  match e with
  | CreateEndpointError_InvalidRequestError e => ErrorStruct_meta e
  | CreateEndpointError_ConflictError e => ErrorStruct_meta e
  | CreateEndpointError_UnprocessableEntityError e => ErrorStruct_meta e
  | CreateEndpointError_UnauthorizedError e => ErrorStruct_meta e
  | CreateEndpointError_InternalError e => ErrorStruct_meta e
  | CreateEndpointError_RateLimitedError e => ErrorStruct_meta e
  | CreateEndpointError_Unhandled e => uh_meta e
  end.
Definition CreateEndpointError_code (e : CreateEndpointError) : option string := em_code
    (CreateEndpointError_provide_meta e).
Definition CreateEndpointError_retryable_error_kind (e : CreateEndpointError) : option RetryKind
    := None.
Definition CreateEndpointError_fmt (e : CreateEndpointError) : string :=
  match e with
  | CreateEndpointError_InvalidRequestError e => InvalidRequestError_fmt e
  | CreateEndpointError_ConflictError e => ConflictError_fmt e
  | CreateEndpointError_UnprocessableEntityError e => UnprocessableEntityError_fmt e
  | CreateEndpointError_UnauthorizedError e => UnauthorizedError_fmt e
  | CreateEndpointError_InternalError e => InternalError_fmt e
  | CreateEndpointError_RateLimitedError e => RateLimitedError_fmt e
  | CreateEndpointError_Unhandled e => unhandled_text (CreateEndpointError_code
    (CreateEndpointError_Unhandled e))
  end.
Definition CreateEndpointError_create_unhandled_error (source : BoxError) (meta : option
    ErrorMetadata) :
    CreateEndpointError :=
  CreateEndpointError_Unhandled {| uh_source := source; uh_meta := default no_metadata meta |}.
Definition Error_from_CreateEndpointError (e : CreateEndpointError) : Error :=
  match e with
  | CreateEndpointError_InvalidRequestError e => Error_InvalidRequestError e
  | CreateEndpointError_ConflictError e => Error_ConflictError e
  | CreateEndpointError_UnprocessableEntityError e => Error_UnprocessableEntityError e
  | CreateEndpointError_UnauthorizedError e => Error_UnauthorizedError e
  | CreateEndpointError_InternalError e => Error_InternalError e
  | CreateEndpointError_RateLimitedError e => Error_RateLimitedError e
  | CreateEndpointError_Unhandled e => Error_Unhandled e
  end.
Definition Error_from_sdk_CreateEndpointError (err : SdkError CreateEndpointError) : Error :=
  match err with
  | SdkServiceError e => Error_from_CreateEndpointError e
  | SdkOther f => Error_Unhandled {| uh_source := Box_sdk f; uh_meta := sf_meta f |}
  end.
Definition CreateEndpointError_view (e : CreateEndpointError) : OperationError :=
  match e with
  | CreateEndpointError_InvalidRequestError e => Modeled (of_struct e)
  | CreateEndpointError_ConflictError e => Modeled (of_struct e)
  | CreateEndpointError_UnprocessableEntityError e => Modeled (of_struct e)
  | CreateEndpointError_UnauthorizedError e => Modeled (of_struct e)
  | CreateEndpointError_InternalError e => Modeled (of_struct e)
  | CreateEndpointError_RateLimitedError e => Modeled (of_struct e)
  | CreateEndpointError_Unhandled e => Unhandled (uh_meta e)
  end.
#[export] Instance CreateEndpointError_type : OperationErrorType CreateEndpointError := {|
  oe_kinds := CreateEndpointError_kinds; oe_view := CreateEndpointError_view; oe_meta := CreateEndpointError_meta;
  oe_provide_meta := CreateEndpointError_provide_meta; oe_is := CreateEndpointError_is; oe_source := CreateEndpointError_source;
  oe_fmt := CreateEndpointError_fmt; oe_code := CreateEndpointError_code; oe_retryable := CreateEndpointError_retryable_error_kind;
  oe_unhandled := CreateEndpointError_unhandled; oe_generic := CreateEndpointError_generic;
  oe_create := CreateEndpointError_create_unhandled_error;
  oe_into := Error_from_CreateEndpointError; oe_from_sdk := Error_from_sdk_CreateEndpointError |}.
#[export] Instance CreateEndpointError_laws : OperationErrorLaws CreateEndpointError.
Proof. error_laws. Qed.

(** *** ListEndpoints *)

Inductive ListEndpointsError :=
  | ListEndpointsError_UnauthorizedError (e : UnauthorizedError)
  | ListEndpointsError_InternalError (e : InternalError)
  | ListEndpointsError_RateLimitedError (e : RateLimitedError)
  | ListEndpointsError_Unhandled (e : UnhandledError).
Definition ListEndpointsError_unhandled (err : BoxError) : ListEndpointsError :=
  ListEndpointsError_Unhandled {| uh_source := err; uh_meta := no_metadata |}.
Definition ListEndpointsError_generic (err : ErrorMetadata) : ListEndpointsError :=
  ListEndpointsError_Unhandled {| uh_source := Box_metadata err; uh_meta := err |}.
Definition ListEndpointsError_meta (e : ListEndpointsError) : ErrorMetadata :=
  match e with
  | ListEndpointsError_UnauthorizedError e => es_meta e
  | ListEndpointsError_InternalError e => es_meta e
  | ListEndpointsError_RateLimitedError e => es_meta e
  | ListEndpointsError_Unhandled e => uh_meta e
  end.
Definition ListEndpointsError_is (k : ServiceErrorKind) (e : ListEndpointsError) : bool :=
  match k, e with
  | K_Unauthorized, ListEndpointsError_UnauthorizedError _
  | K_Internal, ListEndpointsError_InternalError _
  | K_RateLimited, ListEndpointsError_RateLimitedError _ => true
  | _, _ => false
  end.
Definition ListEndpointsError_source (e : ListEndpointsError) : option ErrorRef :=
  match e with
  | ListEndpointsError_UnauthorizedError e => Some (Ref_struct e)
  | ListEndpointsError_InternalError e => Some (Ref_struct e)
  | ListEndpointsError_RateLimitedError e => Some (Ref_struct e)
  | ListEndpointsError_Unhandled e => Some (Ref_box (uh_source e))
  end.
Definition ListEndpointsError_provide_meta (e : ListEndpointsError) : ErrorMetadata :=
  match e with
  | ListEndpointsError_UnauthorizedError e => ErrorStruct_meta e
  | ListEndpointsError_InternalError e => ErrorStruct_meta e
  | ListEndpointsError_RateLimitedError e => ErrorStruct_meta e
  | ListEndpointsError_Unhandled e => uh_meta e
  end.
Definition ListEndpointsError_code (e : ListEndpointsError) : option string := em_code
    (ListEndpointsError_provide_meta e).
Definition ListEndpointsError_retryable_error_kind (e : ListEndpointsError) : option RetryKind :=
    None.
Definition ListEndpointsError_fmt (e : ListEndpointsError) : string :=
  match e with
  | ListEndpointsError_UnauthorizedError e => UnauthorizedError_fmt e
  | ListEndpointsError_InternalError e => InternalError_fmt e
  | ListEndpointsError_RateLimitedError e => RateLimitedError_fmt e
  | ListEndpointsError_Unhandled e => unhandled_text (ListEndpointsError_code
    (ListEndpointsError_Unhandled e))
  end.
Definition ListEndpointsError_create_unhandled_error (source : BoxError) (meta : option
    ErrorMetadata) :
    ListEndpointsError :=
  ListEndpointsError_Unhandled {| uh_source := source; uh_meta := default no_metadata meta |}.
Definition Error_from_ListEndpointsError (e : ListEndpointsError) : Error :=
  match e with
  | ListEndpointsError_UnauthorizedError e => Error_UnauthorizedError e
  | ListEndpointsError_InternalError e => Error_InternalError e
  | ListEndpointsError_RateLimitedError e => Error_RateLimitedError e
  | ListEndpointsError_Unhandled e => Error_Unhandled e
  end.
Definition Error_from_sdk_ListEndpointsError (err : SdkError ListEndpointsError) : Error :=
  match err with
  | SdkServiceError e => Error_from_ListEndpointsError e
  | SdkOther f => Error_Unhandled {| uh_source := Box_sdk f; uh_meta := sf_meta f |}
  end.
Definition ListEndpointsError_view (e : ListEndpointsError) : OperationError :=
  match e with
  | ListEndpointsError_UnauthorizedError e => Modeled (of_struct e)
  | ListEndpointsError_InternalError e => Modeled (of_struct e)
  | ListEndpointsError_RateLimitedError e => Modeled (of_struct e)
  | ListEndpointsError_Unhandled e => Unhandled (uh_meta e)
  end.
#[export] Instance ListEndpointsError_type : OperationErrorType ListEndpointsError := {|
  oe_kinds := ListEndpointsError_kinds; oe_view := ListEndpointsError_view; oe_meta := ListEndpointsError_meta;
  oe_provide_meta := ListEndpointsError_provide_meta; oe_is := ListEndpointsError_is; oe_source := ListEndpointsError_source;
  oe_fmt := ListEndpointsError_fmt; oe_code := ListEndpointsError_code; oe_retryable := ListEndpointsError_retryable_error_kind;
  oe_unhandled := ListEndpointsError_unhandled; oe_generic := ListEndpointsError_generic;
  oe_create := ListEndpointsError_create_unhandled_error;
  oe_into := Error_from_ListEndpointsError; oe_from_sdk := Error_from_sdk_ListEndpointsError |}.
#[export] Instance ListEndpointsError_laws : OperationErrorLaws ListEndpointsError.
Proof. error_laws. Qed.

(** *** GetEndpoint *)

Inductive GetEndpointError :=
  | GetEndpointError_NotFoundError (e : NotFoundError)
  | GetEndpointError_UnauthorizedError (e : UnauthorizedError)
  | GetEndpointError_InternalError (e : InternalError)
  | GetEndpointError_RateLimitedError (e : RateLimitedError)
  | GetEndpointError_Unhandled (e : UnhandledError).
Definition GetEndpointError_unhandled (err : BoxError) : GetEndpointError :=
  GetEndpointError_Unhandled {| uh_source := err; uh_meta := no_metadata |}.
Definition GetEndpointError_generic (err : ErrorMetadata) : GetEndpointError :=
  GetEndpointError_Unhandled {| uh_source := Box_metadata err; uh_meta := err |}.
Definition GetEndpointError_meta (e : GetEndpointError) : ErrorMetadata :=
  match e with
  | GetEndpointError_NotFoundError e => es_meta e
  | GetEndpointError_UnauthorizedError e => es_meta e
  | GetEndpointError_InternalError e => es_meta e
  | GetEndpointError_RateLimitedError e => es_meta e
  | GetEndpointError_Unhandled e => uh_meta e
  end.
Definition GetEndpointError_is (k : ServiceErrorKind) (e : GetEndpointError) : bool :=
  match k, e with
  | K_NotFound, GetEndpointError_NotFoundError _
  | K_Unauthorized, GetEndpointError_UnauthorizedError _
  | K_Internal, GetEndpointError_InternalError _
  | K_RateLimited, GetEndpointError_RateLimitedError _ => true
  | _, _ => false
  end.
Definition GetEndpointError_source (e : GetEndpointError) : option ErrorRef :=
  match e with
  | GetEndpointError_NotFoundError e => Some (Ref_struct e)
  | GetEndpointError_UnauthorizedError e => Some (Ref_struct e)
  | GetEndpointError_InternalError e => Some (Ref_struct e)
  | GetEndpointError_RateLimitedError e => Some (Ref_struct e)
  | GetEndpointError_Unhandled e => Some (Ref_box (uh_source e))
  end.
Definition GetEndpointError_provide_meta (e : GetEndpointError) : ErrorMetadata :=
  match e with
  | GetEndpointError_NotFoundError e => ErrorStruct_meta e
  | GetEndpointError_UnauthorizedError e => ErrorStruct_meta e
  | GetEndpointError_InternalError e => ErrorStruct_meta e
  | GetEndpointError_RateLimitedError e => ErrorStruct_meta e
  | GetEndpointError_Unhandled e => uh_meta e
  end.
Definition GetEndpointError_code (e : GetEndpointError) : option string := em_code
    (GetEndpointError_provide_meta e).
Definition GetEndpointError_retryable_error_kind (e : GetEndpointError) : option RetryKind :=
    None.
Definition GetEndpointError_fmt (e : GetEndpointError) : string :=
  match e with
  | GetEndpointError_NotFoundError e => NotFoundError_fmt e
  | GetEndpointError_UnauthorizedError e => UnauthorizedError_fmt e
  | GetEndpointError_InternalError e => InternalError_fmt e
  | GetEndpointError_RateLimitedError e => RateLimitedError_fmt e
  | GetEndpointError_Unhandled e => unhandled_text (GetEndpointError_code
    (GetEndpointError_Unhandled e))
  end.
Definition GetEndpointError_create_unhandled_error (source : BoxError) (meta : option
    ErrorMetadata) :
    GetEndpointError :=
  GetEndpointError_Unhandled {| uh_source := source; uh_meta := default no_metadata meta |}.
Definition Error_from_GetEndpointError (e : GetEndpointError) : Error :=
  match e with
  | GetEndpointError_NotFoundError e => Error_NotFoundError e
  | GetEndpointError_UnauthorizedError e => Error_UnauthorizedError e
  | GetEndpointError_InternalError e => Error_InternalError e
  | GetEndpointError_RateLimitedError e => Error_RateLimitedError e
  | GetEndpointError_Unhandled e => Error_Unhandled e
  end.
Definition Error_from_sdk_GetEndpointError (err : SdkError GetEndpointError) : Error :=
  match err with
  | SdkServiceError e => Error_from_GetEndpointError e
  | SdkOther f => Error_Unhandled {| uh_source := Box_sdk f; uh_meta := sf_meta f |}
  end.
Definition GetEndpointError_view (e : GetEndpointError) : OperationError :=
  match e with
  | GetEndpointError_NotFoundError e => Modeled (of_struct e)
  | GetEndpointError_UnauthorizedError e => Modeled (of_struct e)
  | GetEndpointError_InternalError e => Modeled (of_struct e)
  | GetEndpointError_RateLimitedError e => Modeled (of_struct e)
  | GetEndpointError_Unhandled e => Unhandled (uh_meta e)
  end.
#[export] Instance GetEndpointError_type : OperationErrorType GetEndpointError := {|
  oe_kinds := GetEndpointError_kinds; oe_view := GetEndpointError_view; oe_meta := GetEndpointError_meta;
  oe_provide_meta := GetEndpointError_provide_meta; oe_is := GetEndpointError_is; oe_source := GetEndpointError_source;
  oe_fmt := GetEndpointError_fmt; oe_code := GetEndpointError_code; oe_retryable := GetEndpointError_retryable_error_kind;
  oe_unhandled := GetEndpointError_unhandled; oe_generic := GetEndpointError_generic;
  oe_create := GetEndpointError_create_unhandled_error;
  oe_into := Error_from_GetEndpointError; oe_from_sdk := Error_from_sdk_GetEndpointError |}.
#[export] Instance GetEndpointError_laws : OperationErrorLaws GetEndpointError.
Proof. error_laws. Qed.

(** *** UpdateEndpoint *)

Inductive UpdateEndpointError :=
  | UpdateEndpointError_NotFoundError (e : NotFoundError)
  | UpdateEndpointError_InvalidRequestError (e : InvalidRequestError)
  | UpdateEndpointError_UnprocessableEntityError (e : UnprocessableEntityError)
  | UpdateEndpointError_UnauthorizedError (e : UnauthorizedError)
  | UpdateEndpointError_InternalError (e : InternalError)
  | UpdateEndpointError_RateLimitedError (e : RateLimitedError)
  | UpdateEndpointError_Unhandled (e : UnhandledError).
Definition UpdateEndpointError_unhandled (err : BoxError) : UpdateEndpointError :=
  UpdateEndpointError_Unhandled {| uh_source := err; uh_meta := no_metadata |}.
Definition UpdateEndpointError_generic (err : ErrorMetadata) : UpdateEndpointError :=
  UpdateEndpointError_Unhandled {| uh_source := Box_metadata err; uh_meta := err |}.
Definition UpdateEndpointError_meta (e : UpdateEndpointError) : ErrorMetadata :=
  match e with
  | UpdateEndpointError_NotFoundError e => es_meta e
  | UpdateEndpointError_InvalidRequestError e => es_meta e
  | UpdateEndpointError_UnprocessableEntityError e => es_meta e
  | UpdateEndpointError_UnauthorizedError e => es_meta e
  | UpdateEndpointError_InternalError e => es_meta e
  | UpdateEndpointError_RateLimitedError e => es_meta e
  | UpdateEndpointError_Unhandled e => uh_meta e
  end.
Definition UpdateEndpointError_is (k : ServiceErrorKind) (e : UpdateEndpointError) : bool :=
  match k, e with
  | K_NotFound, UpdateEndpointError_NotFoundError _
  | K_InvalidRequest, UpdateEndpointError_InvalidRequestError _
  | K_UnprocessableEntity, UpdateEndpointError_UnprocessableEntityError _
  | K_Unauthorized, UpdateEndpointError_UnauthorizedError _
  | K_Internal, UpdateEndpointError_InternalError _
  | K_RateLimited, UpdateEndpointError_RateLimitedError _ => true
  | _, _ => false
  end.
Definition UpdateEndpointError_source (e : UpdateEndpointError) : option ErrorRef :=
  match e with
  | UpdateEndpointError_NotFoundError e => Some (Ref_struct e)
  | UpdateEndpointError_InvalidRequestError e => Some (Ref_struct e)
  | UpdateEndpointError_UnprocessableEntityError e => Some (Ref_struct e)
  | UpdateEndpointError_UnauthorizedError e => Some (Ref_struct e)
  | UpdateEndpointError_InternalError e => Some (Ref_struct e)
  | UpdateEndpointError_RateLimitedError e => Some (Ref_struct e)
  | UpdateEndpointError_Unhandled e => Some (Ref_box (uh_source e))
  end.
Definition UpdateEndpointError_provide_meta (e : UpdateEndpointError) : ErrorMetadata :=
  match e with
  | UpdateEndpointError_NotFoundError e => ErrorStruct_meta e
  | UpdateEndpointError_InvalidRequestError e => ErrorStruct_meta e
  | UpdateEndpointError_UnprocessableEntityError e => ErrorStruct_meta e
  | UpdateEndpointError_UnauthorizedError e => ErrorStruct_meta e
  | UpdateEndpointError_InternalError e => ErrorStruct_meta e
  | UpdateEndpointError_RateLimitedError e => ErrorStruct_meta e
  | UpdateEndpointError_Unhandled e => uh_meta e
  end.
Definition UpdateEndpointError_code (e : UpdateEndpointError) : option string := em_code
    (UpdateEndpointError_provide_meta e).
Definition UpdateEndpointError_retryable_error_kind (e : UpdateEndpointError) : option RetryKind
    := None.
Definition UpdateEndpointError_fmt (e : UpdateEndpointError) : string :=
  match e with
  | UpdateEndpointError_NotFoundError e => NotFoundError_fmt e
  | UpdateEndpointError_InvalidRequestError e => InvalidRequestError_fmt e
  | UpdateEndpointError_UnprocessableEntityError e => UnprocessableEntityError_fmt e
  | UpdateEndpointError_UnauthorizedError e => UnauthorizedError_fmt e
  | UpdateEndpointError_InternalError e => InternalError_fmt e
  | UpdateEndpointError_RateLimitedError e => RateLimitedError_fmt e
  | UpdateEndpointError_Unhandled e => unhandled_text (UpdateEndpointError_code
    (UpdateEndpointError_Unhandled e))
  end.
Definition UpdateEndpointError_create_unhandled_error (source : BoxError) (meta : option
    ErrorMetadata) :
    UpdateEndpointError :=
  UpdateEndpointError_Unhandled {| uh_source := source; uh_meta := default no_metadata meta |}.
Definition Error_from_UpdateEndpointError (e : UpdateEndpointError) : Error :=
  match e with
  | UpdateEndpointError_NotFoundError e => Error_NotFoundError e
  | UpdateEndpointError_InvalidRequestError e => Error_InvalidRequestError e
  | UpdateEndpointError_UnprocessableEntityError e => Error_UnprocessableEntityError e
  | UpdateEndpointError_UnauthorizedError e => Error_UnauthorizedError e
  | UpdateEndpointError_InternalError e => Error_InternalError e
  | UpdateEndpointError_RateLimitedError e => Error_RateLimitedError e
  | UpdateEndpointError_Unhandled e => Error_Unhandled e
  end.
Definition Error_from_sdk_UpdateEndpointError (err : SdkError UpdateEndpointError) : Error :=
  match err with
  | SdkServiceError e => Error_from_UpdateEndpointError e
  | SdkOther f => Error_Unhandled {| uh_source := Box_sdk f; uh_meta := sf_meta f |}
  end.
Definition UpdateEndpointError_view (e : UpdateEndpointError) : OperationError :=
  match e with
  | UpdateEndpointError_NotFoundError e => Modeled (of_struct e)
  | UpdateEndpointError_InvalidRequestError e => Modeled (of_struct e)
  | UpdateEndpointError_UnprocessableEntityError e => Modeled (of_struct e)
  | UpdateEndpointError_UnauthorizedError e => Modeled (of_struct e)
  | UpdateEndpointError_InternalError e => Modeled (of_struct e)
  | UpdateEndpointError_RateLimitedError e => Modeled (of_struct e)
  | UpdateEndpointError_Unhandled e => Unhandled (uh_meta e)
  end.
#[export] Instance UpdateEndpointError_type : OperationErrorType UpdateEndpointError := {|
  oe_kinds := UpdateEndpointError_kinds; oe_view := UpdateEndpointError_view; oe_meta := UpdateEndpointError_meta;
  oe_provide_meta := UpdateEndpointError_provide_meta; oe_is := UpdateEndpointError_is; oe_source := UpdateEndpointError_source;
  oe_fmt := UpdateEndpointError_fmt; oe_code := UpdateEndpointError_code; oe_retryable := UpdateEndpointError_retryable_error_kind;
  oe_unhandled := UpdateEndpointError_unhandled; oe_generic := UpdateEndpointError_generic;
  oe_create := UpdateEndpointError_create_unhandled_error;
  oe_into := Error_from_UpdateEndpointError; oe_from_sdk := Error_from_sdk_UpdateEndpointError |}.
#[export] Instance UpdateEndpointError_laws : OperationErrorLaws UpdateEndpointError.
Proof. error_laws. Qed.

(** *** DeleteEndpoint *)

Inductive DeleteEndpointError :=
  | DeleteEndpointError_NotFoundError (e : NotFoundError)
  | DeleteEndpointError_UnauthorizedError (e : UnauthorizedError)
  | DeleteEndpointError_InternalError (e : InternalError)
  | DeleteEndpointError_RateLimitedError (e : RateLimitedError)
  | DeleteEndpointError_Unhandled (e : UnhandledError).
Definition DeleteEndpointError_unhandled (err : BoxError) : DeleteEndpointError :=
  DeleteEndpointError_Unhandled {| uh_source := err; uh_meta := no_metadata |}.
Definition DeleteEndpointError_generic (err : ErrorMetadata) : DeleteEndpointError :=
  DeleteEndpointError_Unhandled {| uh_source := Box_metadata err; uh_meta := err |}.
Definition DeleteEndpointError_meta (e : DeleteEndpointError) : ErrorMetadata :=
  match e with
  | DeleteEndpointError_NotFoundError e => es_meta e
  | DeleteEndpointError_UnauthorizedError e => es_meta e
  | DeleteEndpointError_InternalError e => es_meta e
  | DeleteEndpointError_RateLimitedError e => es_meta e
  | DeleteEndpointError_Unhandled e => uh_meta e
  end.
Definition DeleteEndpointError_is (k : ServiceErrorKind) (e : DeleteEndpointError) : bool :=
  match k, e with
  | K_NotFound, DeleteEndpointError_NotFoundError _
  | K_Unauthorized, DeleteEndpointError_UnauthorizedError _
  | K_Internal, DeleteEndpointError_InternalError _
  | K_RateLimited, DeleteEndpointError_RateLimitedError _ => true
  | _, _ => false
  end.
Definition DeleteEndpointError_source (e : DeleteEndpointError) : option ErrorRef :=
  match e with
  | DeleteEndpointError_NotFoundError e => Some (Ref_struct e)
  | DeleteEndpointError_UnauthorizedError e => Some (Ref_struct e)
  | DeleteEndpointError_InternalError e => Some (Ref_struct e)
  | DeleteEndpointError_RateLimitedError e => Some (Ref_struct e)
  | DeleteEndpointError_Unhandled e => Some (Ref_box (uh_source e))
  end.
Definition DeleteEndpointError_provide_meta (e : DeleteEndpointError) : ErrorMetadata :=
  match e with
  | DeleteEndpointError_NotFoundError e => ErrorStruct_meta e
  | DeleteEndpointError_UnauthorizedError e => ErrorStruct_meta e
  | DeleteEndpointError_InternalError e => ErrorStruct_meta e
  | DeleteEndpointError_RateLimitedError e => ErrorStruct_meta e
  | DeleteEndpointError_Unhandled e => uh_meta e
  end.
Definition DeleteEndpointError_code (e : DeleteEndpointError) : option string := em_code
    (DeleteEndpointError_provide_meta e).
Definition DeleteEndpointError_retryable_error_kind (e : DeleteEndpointError) : option RetryKind
    := None.
Definition DeleteEndpointError_fmt (e : DeleteEndpointError) : string :=
  match e with
  | DeleteEndpointError_NotFoundError e => NotFoundError_fmt e
  | DeleteEndpointError_UnauthorizedError e => UnauthorizedError_fmt e
  | DeleteEndpointError_InternalError e => InternalError_fmt e
  | DeleteEndpointError_RateLimitedError e => RateLimitedError_fmt e
  | DeleteEndpointError_Unhandled e => unhandled_text (DeleteEndpointError_code
    (DeleteEndpointError_Unhandled e))
  end.
Definition DeleteEndpointError_create_unhandled_error (source : BoxError) (meta : option
    ErrorMetadata) :
    DeleteEndpointError :=
  DeleteEndpointError_Unhandled {| uh_source := source; uh_meta := default no_metadata meta |}.
Definition Error_from_DeleteEndpointError (e : DeleteEndpointError) : Error :=
  match e with
  | DeleteEndpointError_NotFoundError e => Error_NotFoundError e
  | DeleteEndpointError_UnauthorizedError e => Error_UnauthorizedError e
  | DeleteEndpointError_InternalError e => Error_InternalError e
  | DeleteEndpointError_RateLimitedError e => Error_RateLimitedError e
  | DeleteEndpointError_Unhandled e => Error_Unhandled e
  end.
Definition Error_from_sdk_DeleteEndpointError (err : SdkError DeleteEndpointError) : Error :=
  match err with
  | SdkServiceError e => Error_from_DeleteEndpointError e
  | SdkOther f => Error_Unhandled {| uh_source := Box_sdk f; uh_meta := sf_meta f |}
  end.
Definition DeleteEndpointError_view (e : DeleteEndpointError) : OperationError :=
  match e with
  | DeleteEndpointError_NotFoundError e => Modeled (of_struct e)
  | DeleteEndpointError_UnauthorizedError e => Modeled (of_struct e)
  | DeleteEndpointError_InternalError e => Modeled (of_struct e)
  | DeleteEndpointError_RateLimitedError e => Modeled (of_struct e)
  | DeleteEndpointError_Unhandled e => Unhandled (uh_meta e)
  end.
#[export] Instance DeleteEndpointError_type : OperationErrorType DeleteEndpointError := {|
  oe_kinds := DeleteEndpointError_kinds; oe_view := DeleteEndpointError_view; oe_meta := DeleteEndpointError_meta;
  oe_provide_meta := DeleteEndpointError_provide_meta; oe_is := DeleteEndpointError_is; oe_source := DeleteEndpointError_source;
  oe_fmt := DeleteEndpointError_fmt; oe_code := DeleteEndpointError_code; oe_retryable := DeleteEndpointError_retryable_error_kind;
  oe_unhandled := DeleteEndpointError_unhandled; oe_generic := DeleteEndpointError_generic;
  oe_create := DeleteEndpointError_create_unhandled_error;
  oe_into := Error_from_DeleteEndpointError; oe_from_sdk := Error_from_sdk_DeleteEndpointError |}.
#[export] Instance DeleteEndpointError_laws : OperationErrorLaws DeleteEndpointError.
Proof. error_laws. Qed.

(** *** CreatePayloadSpec *)

Inductive CreatePayloadSpecError :=
  | CreatePayloadSpecError_InvalidRequestError (e : InvalidRequestError)
  | CreatePayloadSpecError_ConflictError (e : ConflictError)
  | CreatePayloadSpecError_UnauthorizedError (e : UnauthorizedError)
  | CreatePayloadSpecError_InternalError (e : InternalError)
  | CreatePayloadSpecError_RateLimitedError (e : RateLimitedError)
  | CreatePayloadSpecError_Unhandled (e : UnhandledError).
Definition CreatePayloadSpecError_unhandled (err : BoxError) : CreatePayloadSpecError :=
  CreatePayloadSpecError_Unhandled {| uh_source := err; uh_meta := no_metadata |}.
Definition CreatePayloadSpecError_generic (err : ErrorMetadata) : CreatePayloadSpecError :=
  CreatePayloadSpecError_Unhandled {| uh_source := Box_metadata err; uh_meta := err |}.
Definition CreatePayloadSpecError_meta (e : CreatePayloadSpecError) : ErrorMetadata :=
  match e with
  | CreatePayloadSpecError_InvalidRequestError e => es_meta e
  | CreatePayloadSpecError_ConflictError e => es_meta e
  | CreatePayloadSpecError_UnauthorizedError e => es_meta e
  | CreatePayloadSpecError_InternalError e => es_meta e
  | CreatePayloadSpecError_RateLimitedError e => es_meta e
  | CreatePayloadSpecError_Unhandled e => uh_meta e
  end.
Definition CreatePayloadSpecError_is (k : ServiceErrorKind) (e : CreatePayloadSpecError) : bool :=
  match k, e with
  | K_InvalidRequest, CreatePayloadSpecError_InvalidRequestError _
  | K_Conflict, CreatePayloadSpecError_ConflictError _
  | K_Unauthorized, CreatePayloadSpecError_UnauthorizedError _
  | K_Internal, CreatePayloadSpecError_InternalError _
  | K_RateLimited, CreatePayloadSpecError_RateLimitedError _ => true
  | _, _ => false
  end.
Definition CreatePayloadSpecError_source (e : CreatePayloadSpecError) : option ErrorRef :=
  match e with
  | CreatePayloadSpecError_InvalidRequestError e => Some (Ref_struct e)
  | CreatePayloadSpecError_ConflictError e => Some (Ref_struct e)
  | CreatePayloadSpecError_UnauthorizedError e => Some (Ref_struct e)
  | CreatePayloadSpecError_InternalError e => Some (Ref_struct e)
  | CreatePayloadSpecError_RateLimitedError e => Some (Ref_struct e)
  | CreatePayloadSpecError_Unhandled e => Some (Ref_box (uh_source e))
  end.
Definition CreatePayloadSpecError_provide_meta (e : CreatePayloadSpecError) : ErrorMetadata :=
  match e with
  | CreatePayloadSpecError_InvalidRequestError e => ErrorStruct_meta e
  | CreatePayloadSpecError_ConflictError e => ErrorStruct_meta e
  | CreatePayloadSpecError_UnauthorizedError e => ErrorStruct_meta e
  | CreatePayloadSpecError_InternalError e => ErrorStruct_meta e
  | CreatePayloadSpecError_RateLimitedError e => ErrorStruct_meta e
  | CreatePayloadSpecError_Unhandled e => uh_meta e
  end.
Definition CreatePayloadSpecError_code (e : CreatePayloadSpecError) : option string := em_code
    (CreatePayloadSpecError_provide_meta e).
Definition CreatePayloadSpecError_retryable_error_kind (e : CreatePayloadSpecError) : option
    RetryKind := None.
Definition CreatePayloadSpecError_fmt (e : CreatePayloadSpecError) : string :=
  match e with
  | CreatePayloadSpecError_InvalidRequestError e => InvalidRequestError_fmt e
  | CreatePayloadSpecError_ConflictError e => ConflictError_fmt e
  | CreatePayloadSpecError_UnauthorizedError e => UnauthorizedError_fmt e
  | CreatePayloadSpecError_InternalError e => InternalError_fmt e
  | CreatePayloadSpecError_RateLimitedError e => RateLimitedError_fmt e
  | CreatePayloadSpecError_Unhandled e => unhandled_text (CreatePayloadSpecError_code
    (CreatePayloadSpecError_Unhandled e))
  end.
Definition CreatePayloadSpecError_create_unhandled_error (source : BoxError) (meta : option
    ErrorMetadata) :
    CreatePayloadSpecError :=
  CreatePayloadSpecError_Unhandled {| uh_source := source; uh_meta := default no_metadata meta |}.
Definition Error_from_CreatePayloadSpecError (e : CreatePayloadSpecError) : Error :=
  match e with
  | CreatePayloadSpecError_InvalidRequestError e => Error_InvalidRequestError e
  | CreatePayloadSpecError_ConflictError e => Error_ConflictError e
  | CreatePayloadSpecError_UnauthorizedError e => Error_UnauthorizedError e
  | CreatePayloadSpecError_InternalError e => Error_InternalError e
  | CreatePayloadSpecError_RateLimitedError e => Error_RateLimitedError e
  | CreatePayloadSpecError_Unhandled e => Error_Unhandled e
  end.
Definition Error_from_sdk_CreatePayloadSpecError (err : SdkError CreatePayloadSpecError) : Error
    :=
  match err with
  | SdkServiceError e => Error_from_CreatePayloadSpecError e
  | SdkOther f => Error_Unhandled {| uh_source := Box_sdk f; uh_meta := sf_meta f |}
  end.
Definition CreatePayloadSpecError_view (e : CreatePayloadSpecError) : OperationError :=
  match e with
  | CreatePayloadSpecError_InvalidRequestError e => Modeled (of_struct e)
  | CreatePayloadSpecError_ConflictError e => Modeled (of_struct e)
  | CreatePayloadSpecError_UnauthorizedError e => Modeled (of_struct e)
  | CreatePayloadSpecError_InternalError e => Modeled (of_struct e)
  | CreatePayloadSpecError_RateLimitedError e => Modeled (of_struct e)
  | CreatePayloadSpecError_Unhandled e => Unhandled (uh_meta e)
  end.
#[export] Instance CreatePayloadSpecError_type : OperationErrorType CreatePayloadSpecError := {|
  oe_kinds := CreatePayloadSpecError_kinds; oe_view := CreatePayloadSpecError_view; oe_meta := CreatePayloadSpecError_meta;
  oe_provide_meta := CreatePayloadSpecError_provide_meta; oe_is := CreatePayloadSpecError_is; oe_source := CreatePayloadSpecError_source;
  oe_fmt := CreatePayloadSpecError_fmt; oe_code := CreatePayloadSpecError_code; oe_retryable := CreatePayloadSpecError_retryable_error_kind;
  oe_unhandled := CreatePayloadSpecError_unhandled; oe_generic := CreatePayloadSpecError_generic;
  oe_create := CreatePayloadSpecError_create_unhandled_error;
  oe_into := Error_from_CreatePayloadSpecError; oe_from_sdk := Error_from_sdk_CreatePayloadSpecError |}.
#[export] Instance CreatePayloadSpecError_laws : OperationErrorLaws CreatePayloadSpecError.
Proof. error_laws. Qed.

(** *** ListPayloadSpecs *)

Inductive ListPayloadSpecsError :=
  | ListPayloadSpecsError_UnauthorizedError (e : UnauthorizedError)
  | ListPayloadSpecsError_InternalError (e : InternalError)
  | ListPayloadSpecsError_RateLimitedError (e : RateLimitedError)
  | ListPayloadSpecsError_Unhandled (e : UnhandledError).
Definition ListPayloadSpecsError_unhandled (err : BoxError) : ListPayloadSpecsError :=
  ListPayloadSpecsError_Unhandled {| uh_source := err; uh_meta := no_metadata |}.
Definition ListPayloadSpecsError_generic (err : ErrorMetadata) : ListPayloadSpecsError :=
  ListPayloadSpecsError_Unhandled {| uh_source := Box_metadata err; uh_meta := err |}.
Definition ListPayloadSpecsError_meta (e : ListPayloadSpecsError) : ErrorMetadata :=
  match e with
  | ListPayloadSpecsError_UnauthorizedError e => es_meta e
  | ListPayloadSpecsError_InternalError e => es_meta e
  | ListPayloadSpecsError_RateLimitedError e => es_meta e
  | ListPayloadSpecsError_Unhandled e => uh_meta e
  end.
Definition ListPayloadSpecsError_is (k : ServiceErrorKind) (e : ListPayloadSpecsError) : bool :=
  match k, e with
  | K_Unauthorized, ListPayloadSpecsError_UnauthorizedError _
  | K_Internal, ListPayloadSpecsError_InternalError _
  | K_RateLimited, ListPayloadSpecsError_RateLimitedError _ => true
  | _, _ => false
  end.
Definition ListPayloadSpecsError_source (e : ListPayloadSpecsError) : option ErrorRef :=
  match e with
  | ListPayloadSpecsError_UnauthorizedError e => Some (Ref_struct e)
  | ListPayloadSpecsError_InternalError e => Some (Ref_struct e)
  | ListPayloadSpecsError_RateLimitedError e => Some (Ref_struct e)
  | ListPayloadSpecsError_Unhandled e => Some (Ref_box (uh_source e))
  end.
Definition ListPayloadSpecsError_provide_meta (e : ListPayloadSpecsError) : ErrorMetadata :=
  match e with
  | ListPayloadSpecsError_UnauthorizedError e => ErrorStruct_meta e
  | ListPayloadSpecsError_InternalError e => ErrorStruct_meta e
  | ListPayloadSpecsError_RateLimitedError e => ErrorStruct_meta e
  | ListPayloadSpecsError_Unhandled e => uh_meta e
  end.
Definition ListPayloadSpecsError_code (e : ListPayloadSpecsError) : option string := em_code
    (ListPayloadSpecsError_provide_meta e).
Definition ListPayloadSpecsError_retryable_error_kind (e : ListPayloadSpecsError) : option
    RetryKind := None.
Definition ListPayloadSpecsError_fmt (e : ListPayloadSpecsError) : string :=
  match e with
  | ListPayloadSpecsError_UnauthorizedError e => UnauthorizedError_fmt e
  | ListPayloadSpecsError_InternalError e => InternalError_fmt e
  | ListPayloadSpecsError_RateLimitedError e => RateLimitedError_fmt e
  | ListPayloadSpecsError_Unhandled e => unhandled_text (ListPayloadSpecsError_code
    (ListPayloadSpecsError_Unhandled e))
  end.
Definition ListPayloadSpecsError_create_unhandled_error (source : BoxError) (meta : option
    ErrorMetadata) :
    ListPayloadSpecsError :=
  ListPayloadSpecsError_Unhandled {| uh_source := source; uh_meta := default no_metadata meta |}.
Definition Error_from_ListPayloadSpecsError (e : ListPayloadSpecsError) : Error :=
  match e with
  | ListPayloadSpecsError_UnauthorizedError e => Error_UnauthorizedError e
  | ListPayloadSpecsError_InternalError e => Error_InternalError e
  | ListPayloadSpecsError_RateLimitedError e => Error_RateLimitedError e
  | ListPayloadSpecsError_Unhandled e => Error_Unhandled e
  end.
Definition Error_from_sdk_ListPayloadSpecsError (err : SdkError ListPayloadSpecsError) : Error :=
  match err with
  | SdkServiceError e => Error_from_ListPayloadSpecsError e
  | SdkOther f => Error_Unhandled {| uh_source := Box_sdk f; uh_meta := sf_meta f |}
  end.
Definition ListPayloadSpecsError_view (e : ListPayloadSpecsError) : OperationError :=
  match e with
  | ListPayloadSpecsError_UnauthorizedError e => Modeled (of_struct e)
  | ListPayloadSpecsError_InternalError e => Modeled (of_struct e)
  | ListPayloadSpecsError_RateLimitedError e => Modeled (of_struct e)
  | ListPayloadSpecsError_Unhandled e => Unhandled (uh_meta e)
  end.
#[export] Instance ListPayloadSpecsError_type : OperationErrorType ListPayloadSpecsError := {|
  oe_kinds := ListPayloadSpecsError_kinds; oe_view := ListPayloadSpecsError_view; oe_meta := ListPayloadSpecsError_meta;
  oe_provide_meta := ListPayloadSpecsError_provide_meta; oe_is := ListPayloadSpecsError_is; oe_source := ListPayloadSpecsError_source;
  oe_fmt := ListPayloadSpecsError_fmt; oe_code := ListPayloadSpecsError_code; oe_retryable := ListPayloadSpecsError_retryable_error_kind;
  oe_unhandled := ListPayloadSpecsError_unhandled; oe_generic := ListPayloadSpecsError_generic;
  oe_create := ListPayloadSpecsError_create_unhandled_error;
  oe_into := Error_from_ListPayloadSpecsError; oe_from_sdk := Error_from_sdk_ListPayloadSpecsError |}.
#[export] Instance ListPayloadSpecsError_laws : OperationErrorLaws ListPayloadSpecsError.
Proof. error_laws. Qed.

(** *** GetPayloadSpec *)

Inductive GetPayloadSpecError :=
  | GetPayloadSpecError_NotFoundError (e : NotFoundError)
  | GetPayloadSpecError_UnauthorizedError (e : UnauthorizedError)
  | GetPayloadSpecError_InternalError (e : InternalError)
  | GetPayloadSpecError_RateLimitedError (e : RateLimitedError)
  | GetPayloadSpecError_Unhandled (e : UnhandledError).
Definition GetPayloadSpecError_unhandled (err : BoxError) : GetPayloadSpecError :=
  GetPayloadSpecError_Unhandled {| uh_source := err; uh_meta := no_metadata |}.
Definition GetPayloadSpecError_generic (err : ErrorMetadata) : GetPayloadSpecError :=
  GetPayloadSpecError_Unhandled {| uh_source := Box_metadata err; uh_meta := err |}.
Definition GetPayloadSpecError_meta (e : GetPayloadSpecError) : ErrorMetadata :=
  match e with
  | GetPayloadSpecError_NotFoundError e => es_meta e
  | GetPayloadSpecError_UnauthorizedError e => es_meta e
  | GetPayloadSpecError_InternalError e => es_meta e
  | GetPayloadSpecError_RateLimitedError e => es_meta e
  | GetPayloadSpecError_Unhandled e => uh_meta e
  end.
Definition GetPayloadSpecError_is (k : ServiceErrorKind) (e : GetPayloadSpecError) : bool :=
  match k, e with
  | K_NotFound, GetPayloadSpecError_NotFoundError _
  | K_Unauthorized, GetPayloadSpecError_UnauthorizedError _
  | K_Internal, GetPayloadSpecError_InternalError _
  | K_RateLimited, GetPayloadSpecError_RateLimitedError _ => true
  | _, _ => false
  end.
Definition GetPayloadSpecError_source (e : GetPayloadSpecError) : option ErrorRef :=
  match e with
  | GetPayloadSpecError_NotFoundError e => Some (Ref_struct e)
  | GetPayloadSpecError_UnauthorizedError e => Some (Ref_struct e)
  | GetPayloadSpecError_InternalError e => Some (Ref_struct e)
  | GetPayloadSpecError_RateLimitedError e => Some (Ref_struct e)
  | GetPayloadSpecError_Unhandled e => Some (Ref_box (uh_source e))
  end.
Definition GetPayloadSpecError_provide_meta (e : GetPayloadSpecError) : ErrorMetadata :=
  match e with
  | GetPayloadSpecError_NotFoundError e => ErrorStruct_meta e
  | GetPayloadSpecError_UnauthorizedError e => ErrorStruct_meta e
  | GetPayloadSpecError_InternalError e => ErrorStruct_meta e
  | GetPayloadSpecError_RateLimitedError e => ErrorStruct_meta e
  | GetPayloadSpecError_Unhandled e => uh_meta e
  end.
Definition GetPayloadSpecError_code (e : GetPayloadSpecError) : option string := em_code
    (GetPayloadSpecError_provide_meta e).
Definition GetPayloadSpecError_retryable_error_kind (e : GetPayloadSpecError) : option RetryKind
    := None.
Definition GetPayloadSpecError_fmt (e : GetPayloadSpecError) : string :=
  match e with
  | GetPayloadSpecError_NotFoundError e => NotFoundError_fmt e
  | GetPayloadSpecError_UnauthorizedError e => UnauthorizedError_fmt e
  | GetPayloadSpecError_InternalError e => InternalError_fmt e
  | GetPayloadSpecError_RateLimitedError e => RateLimitedError_fmt e
  | GetPayloadSpecError_Unhandled e => unhandled_text (GetPayloadSpecError_code
    (GetPayloadSpecError_Unhandled e))
  end.
Definition GetPayloadSpecError_create_unhandled_error (source : BoxError) (meta : option
    ErrorMetadata) :
    GetPayloadSpecError :=
  GetPayloadSpecError_Unhandled {| uh_source := source; uh_meta := default no_metadata meta |}.
Definition Error_from_GetPayloadSpecError (e : GetPayloadSpecError) : Error :=
  match e with
  | GetPayloadSpecError_NotFoundError e => Error_NotFoundError e
  | GetPayloadSpecError_UnauthorizedError e => Error_UnauthorizedError e
  | GetPayloadSpecError_InternalError e => Error_InternalError e
  | GetPayloadSpecError_RateLimitedError e => Error_RateLimitedError e
  | GetPayloadSpecError_Unhandled e => Error_Unhandled e
  end.
Definition Error_from_sdk_GetPayloadSpecError (err : SdkError GetPayloadSpecError) : Error :=
  match err with
  | SdkServiceError e => Error_from_GetPayloadSpecError e
  | SdkOther f => Error_Unhandled {| uh_source := Box_sdk f; uh_meta := sf_meta f |}
  end.
Definition GetPayloadSpecError_view (e : GetPayloadSpecError) : OperationError :=
  match e with
  | GetPayloadSpecError_NotFoundError e => Modeled (of_struct e)
  | GetPayloadSpecError_UnauthorizedError e => Modeled (of_struct e)
  | GetPayloadSpecError_InternalError e => Modeled (of_struct e)
  | GetPayloadSpecError_RateLimitedError e => Modeled (of_struct e)
  | GetPayloadSpecError_Unhandled e => Unhandled (uh_meta e)
  end.
#[export] Instance GetPayloadSpecError_type : OperationErrorType GetPayloadSpecError := {|
  oe_kinds := GetPayloadSpecError_kinds; oe_view := GetPayloadSpecError_view; oe_meta := GetPayloadSpecError_meta;
  oe_provide_meta := GetPayloadSpecError_provide_meta; oe_is := GetPayloadSpecError_is; oe_source := GetPayloadSpecError_source;
  oe_fmt := GetPayloadSpecError_fmt; oe_code := GetPayloadSpecError_code; oe_retryable := GetPayloadSpecError_retryable_error_kind;
  oe_unhandled := GetPayloadSpecError_unhandled; oe_generic := GetPayloadSpecError_generic;
  oe_create := GetPayloadSpecError_create_unhandled_error;
  oe_into := Error_from_GetPayloadSpecError; oe_from_sdk := Error_from_sdk_GetPayloadSpecError |}.
#[export] Instance GetPayloadSpecError_laws : OperationErrorLaws GetPayloadSpecError.
Proof. error_laws. Qed.

(** *** UpdatePayloadSpec *)

Inductive UpdatePayloadSpecError :=
  | UpdatePayloadSpecError_NotFoundError (e : NotFoundError)
  | UpdatePayloadSpecError_InvalidRequestError (e : InvalidRequestError)
  | UpdatePayloadSpecError_UnauthorizedError (e : UnauthorizedError)
  | UpdatePayloadSpecError_InternalError (e : InternalError)
  | UpdatePayloadSpecError_RateLimitedError (e : RateLimitedError)
  | UpdatePayloadSpecError_Unhandled (e : UnhandledError).
Definition UpdatePayloadSpecError_unhandled (err : BoxError) : UpdatePayloadSpecError :=
  UpdatePayloadSpecError_Unhandled {| uh_source := err; uh_meta := no_metadata |}.
Definition UpdatePayloadSpecError_generic (err : ErrorMetadata) : UpdatePayloadSpecError :=
  UpdatePayloadSpecError_Unhandled {| uh_source := Box_metadata err; uh_meta := err |}.
Definition UpdatePayloadSpecError_meta (e : UpdatePayloadSpecError) : ErrorMetadata :=
  match e with
  | UpdatePayloadSpecError_NotFoundError e => es_meta e
  | UpdatePayloadSpecError_InvalidRequestError e => es_meta e
  | UpdatePayloadSpecError_UnauthorizedError e => es_meta e
  | UpdatePayloadSpecError_InternalError e => es_meta e
  | UpdatePayloadSpecError_RateLimitedError e => es_meta e
  | UpdatePayloadSpecError_Unhandled e => uh_meta e
  end.
Definition UpdatePayloadSpecError_is (k : ServiceErrorKind) (e : UpdatePayloadSpecError) : bool :=
  match k, e with
  | K_NotFound, UpdatePayloadSpecError_NotFoundError _
  | K_InvalidRequest, UpdatePayloadSpecError_InvalidRequestError _
  | K_Unauthorized, UpdatePayloadSpecError_UnauthorizedError _
  | K_Internal, UpdatePayloadSpecError_InternalError _
  | K_RateLimited, UpdatePayloadSpecError_RateLimitedError _ => true
  | _, _ => false
  end.
Definition UpdatePayloadSpecError_source (e : UpdatePayloadSpecError) : option ErrorRef :=
  match e with
  | UpdatePayloadSpecError_NotFoundError e => Some (Ref_struct e)
  | UpdatePayloadSpecError_InvalidRequestError e => Some (Ref_struct e)
  | UpdatePayloadSpecError_UnauthorizedError e => Some (Ref_struct e)
  | UpdatePayloadSpecError_InternalError e => Some (Ref_struct e)
  | UpdatePayloadSpecError_RateLimitedError e => Some (Ref_struct e)
  | UpdatePayloadSpecError_Unhandled e => Some (Ref_box (uh_source e))
  end.
Definition UpdatePayloadSpecError_provide_meta (e : UpdatePayloadSpecError) : ErrorMetadata :=
  match e with
  | UpdatePayloadSpecError_NotFoundError e => ErrorStruct_meta e
  | UpdatePayloadSpecError_InvalidRequestError e => ErrorStruct_meta e
  | UpdatePayloadSpecError_UnauthorizedError e => ErrorStruct_meta e
  | UpdatePayloadSpecError_InternalError e => ErrorStruct_meta e
  | UpdatePayloadSpecError_RateLimitedError e => ErrorStruct_meta e
  | UpdatePayloadSpecError_Unhandled e => uh_meta e
  end.
Definition UpdatePayloadSpecError_code (e : UpdatePayloadSpecError) : option string := em_code
    (UpdatePayloadSpecError_provide_meta e).
Definition UpdatePayloadSpecError_retryable_error_kind (e : UpdatePayloadSpecError) : option
    RetryKind := None.
Definition UpdatePayloadSpecError_fmt (e : UpdatePayloadSpecError) : string :=
  match e with
  | UpdatePayloadSpecError_NotFoundError e => NotFoundError_fmt e
  | UpdatePayloadSpecError_InvalidRequestError e => InvalidRequestError_fmt e
  | UpdatePayloadSpecError_UnauthorizedError e => UnauthorizedError_fmt e
  | UpdatePayloadSpecError_InternalError e => InternalError_fmt e
  | UpdatePayloadSpecError_RateLimitedError e => RateLimitedError_fmt e
  | UpdatePayloadSpecError_Unhandled e => unhandled_text (UpdatePayloadSpecError_code
    (UpdatePayloadSpecError_Unhandled e))
  end.
Definition UpdatePayloadSpecError_create_unhandled_error (source : BoxError) (meta : option
    ErrorMetadata) :
    UpdatePayloadSpecError :=
  UpdatePayloadSpecError_Unhandled {| uh_source := source; uh_meta := default no_metadata meta |}.
Definition Error_from_UpdatePayloadSpecError (e : UpdatePayloadSpecError) : Error :=
  match e with
  | UpdatePayloadSpecError_NotFoundError e => Error_NotFoundError e
  | UpdatePayloadSpecError_InvalidRequestError e => Error_InvalidRequestError e
  | UpdatePayloadSpecError_UnauthorizedError e => Error_UnauthorizedError e
  | UpdatePayloadSpecError_InternalError e => Error_InternalError e
  | UpdatePayloadSpecError_RateLimitedError e => Error_RateLimitedError e
  | UpdatePayloadSpecError_Unhandled e => Error_Unhandled e
  end.
Definition Error_from_sdk_UpdatePayloadSpecError (err : SdkError UpdatePayloadSpecError) : Error
    :=
  match err with
  | SdkServiceError e => Error_from_UpdatePayloadSpecError e
  | SdkOther f => Error_Unhandled {| uh_source := Box_sdk f; uh_meta := sf_meta f |}
  end.
Definition UpdatePayloadSpecError_view (e : UpdatePayloadSpecError) : OperationError :=
  match e with
  | UpdatePayloadSpecError_NotFoundError e => Modeled (of_struct e)
  | UpdatePayloadSpecError_InvalidRequestError e => Modeled (of_struct e)
  | UpdatePayloadSpecError_UnauthorizedError e => Modeled (of_struct e)
  | UpdatePayloadSpecError_InternalError e => Modeled (of_struct e)
  | UpdatePayloadSpecError_RateLimitedError e => Modeled (of_struct e)
  | UpdatePayloadSpecError_Unhandled e => Unhandled (uh_meta e)
  end.
#[export] Instance UpdatePayloadSpecError_type : OperationErrorType UpdatePayloadSpecError := {|
  oe_kinds := UpdatePayloadSpecError_kinds; oe_view := UpdatePayloadSpecError_view; oe_meta := UpdatePayloadSpecError_meta;
  oe_provide_meta := UpdatePayloadSpecError_provide_meta; oe_is := UpdatePayloadSpecError_is; oe_source := UpdatePayloadSpecError_source;
  oe_fmt := UpdatePayloadSpecError_fmt; oe_code := UpdatePayloadSpecError_code; oe_retryable := UpdatePayloadSpecError_retryable_error_kind;
  oe_unhandled := UpdatePayloadSpecError_unhandled; oe_generic := UpdatePayloadSpecError_generic;
  oe_create := UpdatePayloadSpecError_create_unhandled_error;
  oe_into := Error_from_UpdatePayloadSpecError; oe_from_sdk := Error_from_sdk_UpdatePayloadSpecError |}.
#[export] Instance UpdatePayloadSpecError_laws : OperationErrorLaws UpdatePayloadSpecError.
Proof. error_laws. Qed.

(** *** DeletePayloadSpec *)

Inductive DeletePayloadSpecError :=
  | DeletePayloadSpecError_NotFoundError (e : NotFoundError)
  | DeletePayloadSpecError_UnauthorizedError (e : UnauthorizedError)
  | DeletePayloadSpecError_InternalError (e : InternalError)
  | DeletePayloadSpecError_RateLimitedError (e : RateLimitedError)
  | DeletePayloadSpecError_Unhandled (e : UnhandledError).
Definition DeletePayloadSpecError_unhandled (err : BoxError) : DeletePayloadSpecError :=
  DeletePayloadSpecError_Unhandled {| uh_source := err; uh_meta := no_metadata |}.
Definition DeletePayloadSpecError_generic (err : ErrorMetadata) : DeletePayloadSpecError :=
  DeletePayloadSpecError_Unhandled {| uh_source := Box_metadata err; uh_meta := err |}.
Definition DeletePayloadSpecError_meta (e : DeletePayloadSpecError) : ErrorMetadata :=
  match e with
  | DeletePayloadSpecError_NotFoundError e => es_meta e
  | DeletePayloadSpecError_UnauthorizedError e => es_meta e
  | DeletePayloadSpecError_InternalError e => es_meta e
  | DeletePayloadSpecError_RateLimitedError e => es_meta e
  | DeletePayloadSpecError_Unhandled e => uh_meta e
  end.
Definition DeletePayloadSpecError_is (k : ServiceErrorKind) (e : DeletePayloadSpecError) : bool :=
  match k, e with
  | K_NotFound, DeletePayloadSpecError_NotFoundError _
  | K_Unauthorized, DeletePayloadSpecError_UnauthorizedError _
  | K_Internal, DeletePayloadSpecError_InternalError _
  | K_RateLimited, DeletePayloadSpecError_RateLimitedError _ => true
  | _, _ => false
  end.
Definition DeletePayloadSpecError_source (e : DeletePayloadSpecError) : option ErrorRef :=
  match e with
  | DeletePayloadSpecError_NotFoundError e => Some (Ref_struct e)
  | DeletePayloadSpecError_UnauthorizedError e => Some (Ref_struct e)
  | DeletePayloadSpecError_InternalError e => Some (Ref_struct e)
  | DeletePayloadSpecError_RateLimitedError e => Some (Ref_struct e)
  | DeletePayloadSpecError_Unhandled e => Some (Ref_box (uh_source e))
  end.
Definition DeletePayloadSpecError_provide_meta (e : DeletePayloadSpecError) : ErrorMetadata :=
  match e with
  | DeletePayloadSpecError_NotFoundError e => ErrorStruct_meta e
  | DeletePayloadSpecError_UnauthorizedError e => ErrorStruct_meta e
  | DeletePayloadSpecError_InternalError e => ErrorStruct_meta e
  | DeletePayloadSpecError_RateLimitedError e => ErrorStruct_meta e
  | DeletePayloadSpecError_Unhandled e => uh_meta e
  end.
Definition DeletePayloadSpecError_code (e : DeletePayloadSpecError) : option string := em_code
    (DeletePayloadSpecError_provide_meta e).
Definition DeletePayloadSpecError_retryable_error_kind (e : DeletePayloadSpecError) : option
    RetryKind := None.
Definition DeletePayloadSpecError_fmt (e : DeletePayloadSpecError) : string :=
  match e with
  | DeletePayloadSpecError_NotFoundError e => NotFoundError_fmt e
  | DeletePayloadSpecError_UnauthorizedError e => UnauthorizedError_fmt e
  | DeletePayloadSpecError_InternalError e => InternalError_fmt e
  | DeletePayloadSpecError_RateLimitedError e => RateLimitedError_fmt e
  | DeletePayloadSpecError_Unhandled e => unhandled_text (DeletePayloadSpecError_code
    (DeletePayloadSpecError_Unhandled e))
  end.
Definition DeletePayloadSpecError_create_unhandled_error (source : BoxError) (meta : option
    ErrorMetadata) :
    DeletePayloadSpecError :=
  DeletePayloadSpecError_Unhandled {| uh_source := source; uh_meta := default no_metadata meta |}.
Definition Error_from_DeletePayloadSpecError (e : DeletePayloadSpecError) : Error :=
  match e with
  | DeletePayloadSpecError_NotFoundError e => Error_NotFoundError e
  | DeletePayloadSpecError_UnauthorizedError e => Error_UnauthorizedError e
  | DeletePayloadSpecError_InternalError e => Error_InternalError e
  | DeletePayloadSpecError_RateLimitedError e => Error_RateLimitedError e
  | DeletePayloadSpecError_Unhandled e => Error_Unhandled e
  end.
Definition Error_from_sdk_DeletePayloadSpecError (err : SdkError DeletePayloadSpecError) : Error
    :=
  match err with
  | SdkServiceError e => Error_from_DeletePayloadSpecError e
  | SdkOther f => Error_Unhandled {| uh_source := Box_sdk f; uh_meta := sf_meta f |}
  end.
Definition DeletePayloadSpecError_view (e : DeletePayloadSpecError) : OperationError :=
  match e with
  | DeletePayloadSpecError_NotFoundError e => Modeled (of_struct e)
  | DeletePayloadSpecError_UnauthorizedError e => Modeled (of_struct e)
  | DeletePayloadSpecError_InternalError e => Modeled (of_struct e)
  | DeletePayloadSpecError_RateLimitedError e => Modeled (of_struct e)
  | DeletePayloadSpecError_Unhandled e => Unhandled (uh_meta e)
  end.
#[export] Instance DeletePayloadSpecError_type : OperationErrorType DeletePayloadSpecError := {|
  oe_kinds := DeletePayloadSpecError_kinds; oe_view := DeletePayloadSpecError_view; oe_meta := DeletePayloadSpecError_meta;
  oe_provide_meta := DeletePayloadSpecError_provide_meta; oe_is := DeletePayloadSpecError_is; oe_source := DeletePayloadSpecError_source;
  oe_fmt := DeletePayloadSpecError_fmt; oe_code := DeletePayloadSpecError_code; oe_retryable := DeletePayloadSpecError_retryable_error_kind;
  oe_unhandled := DeletePayloadSpecError_unhandled; oe_generic := DeletePayloadSpecError_generic;
  oe_create := DeletePayloadSpecError_create_unhandled_error;
  oe_into := Error_from_DeletePayloadSpecError; oe_from_sdk := Error_from_sdk_DeletePayloadSpecError |}.
#[export] Instance DeletePayloadSpecError_laws : OperationErrorLaws DeletePayloadSpecError.
Proof. error_laws. Qed.

End SdkOpErr.
