(* ===== verification/SdkTelemetry.v ===== *)
(** * Telemetry of the SDK's inputs ([client/src/operation/*.rs])

    Before an operation runs, an interceptor notes the members of its input that the caller
    has named.  The set of names, and the set of values noted, are the runtime's. *)

From S2P Require Export SdkOps.
#[local] Open Scope Z_scope.

(** [RequestedTelemetryAttributes] by its two methods. *)
Record RequestedTelemetry := { rt_is_empty : bool; should_capture : string → bool }.

Definition capture (requested : RequestedTelemetry) (name : string) (value : option string) :
    list (string * string) :=
  if should_capture requested name
  then match value with Some v => [(name, v)] | None => [] end
  else [].

(** What is stored; nothing unless the caller has named members. *)
Definition captured (requested : option RequestedTelemetry)
    (members : RequestedTelemetry → list (string * string)) : option (list (string * string)) :=
  match requested with
  | Some r => if rt_is_empty r then None else Some (members r)
  | None => None
  end.

Definition create_job_captured (requested : option RequestedTelemetry) (input : CreateJobInput) :
    option (list (string * string)) :=
  captured requested (λ r,
    capture r "org_id" (create_job_org_id input)
    ++ capture r "workspace_id" (create_job_workspace_id input)
    ++ capture r "endpoint" (create_job_endpoint input)
    ++ capture r "idempotency_key" (create_job_idempotency_key input)
    ++ capture r "cron" (create_job_cron input)
    ++ capture r "timezone" (create_job_timezone input)).
Definition list_jobs_captured (requested : option RequestedTelemetry) (input : ListJobsInput) :
    option (list (string * string)) :=
  captured requested (λ r,
    capture r "org_id" (list_jobs_org_id input)
    ++ capture r "workspace_id" (list_jobs_workspace_id input)
    ++ capture r "cursor" (list_jobs_cursor input)
    ++ capture r "job_id" (list_jobs_job_id input)
    ++ capture r "endpoint" (list_jobs_endpoint input)).
Definition get_job_captured (requested : option RequestedTelemetry) (input : GetJobInput) :
    option (list (string * string)) :=
  captured requested (λ r,
    capture r "org_id" (get_job_org_id input)
    ++ capture r "workspace_id" (get_job_workspace_id input)
    ++ capture r "job_id" (get_job_job_id input)).
Definition update_job_captured (requested : option RequestedTelemetry) (input : UpdateJobInput) :
    option (list (string * string)) :=
  captured requested (λ r,
    capture r "org_id" (update_job_org_id input)
    ++ capture r "workspace_id" (update_job_workspace_id input)
    ++ capture r "job_id" (update_job_job_id input)
    ++ capture r "cron" (update_job_cron input)
    ++ capture r "timezone" (update_job_timezone input)).
Definition cancel_job_captured (requested : option RequestedTelemetry) (input : CancelJobInput) :
    option (list (string * string)) :=
  captured requested (λ r,
    capture r "org_id" (cancel_job_org_id input)
    ++ capture r "workspace_id" (cancel_job_workspace_id input)
    ++ capture r "job_id" (cancel_job_job_id input)).
Definition get_job_status_captured (requested : option RequestedTelemetry) (input : GetJobStatusInput) :
    option (list (string * string)) :=
  captured requested (λ r,
    capture r "org_id" (get_job_status_org_id input)
    ++ capture r "workspace_id" (get_job_status_workspace_id input)
    ++ capture r "job_id" (get_job_status_job_id input)).
Definition get_job_versions_captured (requested : option RequestedTelemetry) (input : GetJobVersionsInput) :
    option (list (string * string)) :=
  captured requested (λ r,
    capture r "org_id" (get_job_versions_org_id input)
    ++ capture r "workspace_id" (get_job_versions_workspace_id input)
    ++ capture r "job_id" (get_job_versions_job_id input)).
Definition list_job_executions_captured (requested : option RequestedTelemetry) (input : ListJobExecutionsInput) :
    option (list (string * string)) :=
  captured requested (λ r,
    capture r "org_id" (list_job_executions_org_id input)
    ++ capture r "workspace_id" (list_job_executions_workspace_id input)
    ++ capture r "cursor" (list_job_executions_cursor input)
    ++ capture r "job_id" (list_job_executions_job_id input)).
Definition get_execution_captured (requested : option RequestedTelemetry) (input : GetExecutionInput) :
    option (list (string * string)) :=
  captured requested (λ r,
    capture r "org_id" (get_execution_org_id input)
    ++ capture r "workspace_id" (get_execution_workspace_id input)
    ++ capture r "execution_id" (get_execution_execution_id input)).
Definition cancel_execution_captured (requested : option RequestedTelemetry) (input : CancelExecutionInput) :
    option (list (string * string)) :=
  captured requested (λ r,
    capture r "org_id" (cancel_execution_org_id input)
    ++ capture r "workspace_id" (cancel_execution_workspace_id input)
    ++ capture r "execution_id" (cancel_execution_execution_id input)).
Definition list_execution_attempts_captured (requested : option RequestedTelemetry) (input : ListExecutionAttemptsInput) :
    option (list (string * string)) :=
  captured requested (λ r,
    capture r "org_id" (list_execution_attempts_org_id input)
    ++ capture r "workspace_id" (list_execution_attempts_workspace_id input)
    ++ capture r "cursor" (list_execution_attempts_cursor input)
    ++ capture r "execution_id" (list_execution_attempts_execution_id input)).
Definition list_execution_logs_captured (requested : option RequestedTelemetry) (input : ListExecutionLogsInput) :
    option (list (string * string)) :=
  captured requested (λ r,
    capture r "org_id" (list_execution_logs_org_id input)
    ++ capture r "workspace_id" (list_execution_logs_workspace_id input)
    ++ capture r "cursor" (list_execution_logs_cursor input)
    ++ capture r "execution_id" (list_execution_logs_execution_id input)).
Definition create_endpoint_captured (requested : option RequestedTelemetry) (input : CreateEndpointInput) :
    option (list (string * string)) :=
  captured requested (λ r,
    capture r "org_id" (create_endpoint_org_id input)
    ++ capture r "workspace_id" (create_endpoint_workspace_id input)
    ++ capture r "name" (create_endpoint_name input)
    ++ capture r "payload_spec" (create_endpoint_payload_spec input)
    ++ capture r "config" (create_endpoint_config input)).
Definition list_endpoints_captured (requested : option RequestedTelemetry) (input : ListEndpointsInput) :
    option (list (string * string)) :=
  captured requested (λ r,
    capture r "org_id" (list_endpoints_org_id input)
    ++ capture r "workspace_id" (list_endpoints_workspace_id input)
    ++ capture r "cursor" (list_endpoints_cursor input)).
Definition get_endpoint_captured (requested : option RequestedTelemetry) (input : GetEndpointInput) :
    option (list (string * string)) :=
  captured requested (λ r,
    capture r "org_id" (get_endpoint_org_id input)
    ++ capture r "workspace_id" (get_endpoint_workspace_id input)
    ++ capture r "name" (get_endpoint_name input)).
Definition update_endpoint_captured (requested : option RequestedTelemetry) (input : UpdateEndpointInput) :
    option (list (string * string)) :=
  captured requested (λ r,
    capture r "org_id" (update_endpoint_org_id input)
    ++ capture r "workspace_id" (update_endpoint_workspace_id input)
    ++ capture r "name" (update_endpoint_name input)
    ++ capture r "config" (update_endpoint_config input)
    ++ capture r "payload_spec" (update_endpoint_payload_spec input)).
Definition delete_endpoint_captured (requested : option RequestedTelemetry) (input : DeleteEndpointInput) :
    option (list (string * string)) :=
  captured requested (λ r,
    capture r "org_id" (delete_endpoint_org_id input)
    ++ capture r "workspace_id" (delete_endpoint_workspace_id input)
    ++ capture r "name" (delete_endpoint_name input)).
Definition create_payload_spec_captured (requested : option RequestedTelemetry) (input : CreatePayloadSpecInput) :
    option (list (string * string)) :=
  captured requested (λ r,
    capture r "org_id" (create_payload_spec_org_id input)
    ++ capture r "workspace_id" (create_payload_spec_workspace_id input)
    ++ capture r "name" (create_payload_spec_name input)).
Definition list_payload_specs_captured (requested : option RequestedTelemetry) (input : ListPayloadSpecsInput) :
    option (list (string * string)) :=
  captured requested (λ r,
    capture r "org_id" (list_payload_specs_org_id input)
    ++ capture r "workspace_id" (list_payload_specs_workspace_id input)
    ++ capture r "cursor" (list_payload_specs_cursor input)).
Definition get_payload_spec_captured (requested : option RequestedTelemetry) (input : GetPayloadSpecInput) :
    option (list (string * string)) :=
  captured requested (λ r,
    capture r "org_id" (get_payload_spec_org_id input)
    ++ capture r "workspace_id" (get_payload_spec_workspace_id input)
    ++ capture r "name" (get_payload_spec_name input)).
Definition update_payload_spec_captured (requested : option RequestedTelemetry) (input : UpdatePayloadSpecInput) :
    option (list (string * string)) :=
  captured requested (λ r,
    capture r "org_id" (update_payload_spec_org_id input)
    ++ capture r "workspace_id" (update_payload_spec_workspace_id input)
    ++ capture r "name" (update_payload_spec_name input)).
Definition delete_payload_spec_captured (requested : option RequestedTelemetry) (input : DeletePayloadSpecInput) :
    option (list (string * string)) :=
  captured requested (λ r,
    capture r "org_id" (delete_payload_spec_org_id input)
    ++ capture r "workspace_id" (delete_payload_spec_workspace_id input)
    ++ capture r "name" (delete_payload_spec_name input)).
