(* ===== verification/SdkOutputs.v ===== *)
(** * The outputs of the SDK's operations ([client/src/operation/*/_*_output.rs])

    An output with its builder: [set_x v] gives the member [x] the value [v], the method of
    a list appends to it.  A response is read into a builder, [.._correct_errors] of
    [serde_util.rs] gives a missing member its default, and [build] makes the output. *)

From S2P Require Export SdkBuilders.
#[local] Open Scope Z_scope.

(** *** CreateJob *)

Record CreateJobOutput := {
  create_job_output_data : JobResource exact;
}.
Record CreateJobOutputBuilder := {
  create_job_builder_data : option (JobResource exact);
}.
Inductive CreateJobOutputCall :=
  | CreateJobOutput_set_data (v : option (JobResource exact)).
Definition create_job_output_call (b : CreateJobOutputBuilder) (c : CreateJobOutputCall) : CreateJobOutputBuilder :=
  let '(Build_CreateJobOutputBuilder data) := b in
  match c with
  | CreateJobOutput_set_data v => Build_CreateJobOutputBuilder v
  end.
Definition create_job_output_builder : CreateJobOutputBuilder := Build_CreateJobOutputBuilder None.
Definition create_job_output_build (b : CreateJobOutputBuilder) : res BuildError CreateJobOutput :=
  data <-? ok_or (create_job_builder_data b) (MissingField "data");
  Ok (Build_CreateJobOutput data).
Definition create_job_output_correct_errors (b : CreateJobOutputBuilder) : CreateJobOutputBuilder :=
  if create_job_builder_data b then b
  else create_job_output_call b (CreateJobOutput_set_data (Some job_resource_default)).

(** *** ListJobs *)

Record ListJobsOutput := {
  list_jobs_output_data : list (JobSummary exact);
  list_jobs_output_cursor : option string;
}.
Record ListJobsOutputBuilder := {
  list_jobs_builder_data : option (list (JobSummary exact));
  list_jobs_builder_cursor : option string;
}.
Inductive ListJobsOutputCall :=
  | ListJobsOutput_set_data (v : option (list (JobSummary exact)))
  | ListJobsOutput_push_data (v : JobSummary exact)
  | ListJobsOutput_set_cursor (v : option string).
Definition list_jobs_output_call (b : ListJobsOutputBuilder) (c : ListJobsOutputCall) : ListJobsOutputBuilder :=
  let '(Build_ListJobsOutputBuilder data cursor) := b in
  match c with
  | ListJobsOutput_set_data v => Build_ListJobsOutputBuilder v cursor
  | ListJobsOutput_push_data v => Build_ListJobsOutputBuilder (Some (default [] data ++ [v])) cursor
  | ListJobsOutput_set_cursor v => Build_ListJobsOutputBuilder data v
  end.
Definition list_jobs_output_builder : ListJobsOutputBuilder := Build_ListJobsOutputBuilder None None.
Definition list_jobs_output_build (b : ListJobsOutputBuilder) : res BuildError ListJobsOutput :=
  data <-? ok_or (list_jobs_builder_data b) (MissingField "data");
  Ok (Build_ListJobsOutput data (list_jobs_builder_cursor b)).
Definition list_jobs_output_correct_errors (b : ListJobsOutputBuilder) : ListJobsOutputBuilder :=
  if list_jobs_builder_data b then b
  else list_jobs_output_call b (ListJobsOutput_set_data (Some [])).

(** *** GetJob *)

Record GetJobOutput := {
  get_job_output_data : JobResource exact;
}.
Record GetJobOutputBuilder := {
  get_job_builder_data : option (JobResource exact);
}.
Inductive GetJobOutputCall :=
  | GetJobOutput_set_data (v : option (JobResource exact)).
Definition get_job_output_call (b : GetJobOutputBuilder) (c : GetJobOutputCall) : GetJobOutputBuilder :=
  let '(Build_GetJobOutputBuilder data) := b in
  match c with
  | GetJobOutput_set_data v => Build_GetJobOutputBuilder v
  end.
Definition get_job_output_builder : GetJobOutputBuilder := Build_GetJobOutputBuilder None.
Definition get_job_output_build (b : GetJobOutputBuilder) : res BuildError GetJobOutput :=
  data <-? ok_or (get_job_builder_data b) (MissingField "data");
  Ok (Build_GetJobOutput data).
Definition get_job_output_correct_errors (b : GetJobOutputBuilder) : GetJobOutputBuilder :=
  if get_job_builder_data b then b
  else get_job_output_call b (GetJobOutput_set_data (Some job_resource_default)).

(** *** UpdateJob *)

Record UpdateJobOutput := {
  update_job_output_data : JobResource exact;
}.
Record UpdateJobOutputBuilder := {
  update_job_builder_data : option (JobResource exact);
}.
Inductive UpdateJobOutputCall :=
  | UpdateJobOutput_set_data (v : option (JobResource exact)).
Definition update_job_output_call (b : UpdateJobOutputBuilder) (c : UpdateJobOutputCall) : UpdateJobOutputBuilder :=
  let '(Build_UpdateJobOutputBuilder data) := b in
  match c with
  | UpdateJobOutput_set_data v => Build_UpdateJobOutputBuilder v
  end.
Definition update_job_output_builder : UpdateJobOutputBuilder := Build_UpdateJobOutputBuilder None.
Definition update_job_output_build (b : UpdateJobOutputBuilder) : res BuildError UpdateJobOutput :=
  data <-? ok_or (update_job_builder_data b) (MissingField "data");
  Ok (Build_UpdateJobOutput data).
Definition update_job_output_correct_errors (b : UpdateJobOutputBuilder) : UpdateJobOutputBuilder :=
  if update_job_builder_data b then b
  else update_job_output_call b (UpdateJobOutput_set_data (Some job_resource_default)).

(** *** CancelJob *)

Record CancelJobOutput := {
  cancel_job_output_data : JobResource exact;
}.
Record CancelJobOutputBuilder := {
  cancel_job_builder_data : option (JobResource exact);
}.
Inductive CancelJobOutputCall :=
  | CancelJobOutput_set_data (v : option (JobResource exact)).
Definition cancel_job_output_call (b : CancelJobOutputBuilder) (c : CancelJobOutputCall) : CancelJobOutputBuilder :=
  let '(Build_CancelJobOutputBuilder data) := b in
  match c with
  | CancelJobOutput_set_data v => Build_CancelJobOutputBuilder v
  end.
Definition cancel_job_output_builder : CancelJobOutputBuilder := Build_CancelJobOutputBuilder None.
Definition cancel_job_output_build (b : CancelJobOutputBuilder) : res BuildError CancelJobOutput :=
  data <-? ok_or (cancel_job_builder_data b) (MissingField "data");
  Ok (Build_CancelJobOutput data).
Definition cancel_job_output_correct_errors (b : CancelJobOutputBuilder) : CancelJobOutputBuilder :=
  if cancel_job_builder_data b then b
  else cancel_job_output_call b (CancelJobOutput_set_data (Some job_resource_default)).

(** *** GetJobStatus *)

Record GetJobStatusOutput := {
  get_job_status_output_data : JobStatusResponse exact;
}.
Record GetJobStatusOutputBuilder := {
  get_job_status_builder_data : option (JobStatusResponse exact);
}.
Inductive GetJobStatusOutputCall :=
  | GetJobStatusOutput_set_data (v : option (JobStatusResponse exact)).
Definition get_job_status_output_call (b : GetJobStatusOutputBuilder) (c : GetJobStatusOutputCall) : GetJobStatusOutputBuilder :=
  let '(Build_GetJobStatusOutputBuilder data) := b in
  match c with
  | GetJobStatusOutput_set_data v => Build_GetJobStatusOutputBuilder v
  end.
Definition get_job_status_output_builder : GetJobStatusOutputBuilder := Build_GetJobStatusOutputBuilder None.
Definition get_job_status_output_build (b : GetJobStatusOutputBuilder) : res BuildError GetJobStatusOutput :=
  data <-? ok_or (get_job_status_builder_data b) (MissingField "data");
  Ok (Build_GetJobStatusOutput data).
Definition get_job_status_output_correct_errors (b : GetJobStatusOutputBuilder) : GetJobStatusOutputBuilder :=
  if get_job_status_builder_data b then b
  else get_job_status_output_call b (GetJobStatusOutput_set_data (Some job_status_response_default)).

(** *** GetJobVersions *)

Record GetJobVersionsOutput := {
  get_job_versions_output_data : list (JobResource exact);
}.
Record GetJobVersionsOutputBuilder := {
  get_job_versions_builder_data : option (list (JobResource exact));
}.
Inductive GetJobVersionsOutputCall :=
  | GetJobVersionsOutput_set_data (v : option (list (JobResource exact)))
  | GetJobVersionsOutput_push_data (v : JobResource exact).
Definition get_job_versions_output_call (b : GetJobVersionsOutputBuilder) (c : GetJobVersionsOutputCall) : GetJobVersionsOutputBuilder :=
  let '(Build_GetJobVersionsOutputBuilder data) := b in
  match c with
  | GetJobVersionsOutput_set_data v => Build_GetJobVersionsOutputBuilder v
  | GetJobVersionsOutput_push_data v => Build_GetJobVersionsOutputBuilder (Some (default [] data ++ [v]))
  end.
Definition get_job_versions_output_builder : GetJobVersionsOutputBuilder := Build_GetJobVersionsOutputBuilder None.
Definition get_job_versions_output_build (b : GetJobVersionsOutputBuilder) : res BuildError GetJobVersionsOutput :=
  data <-? ok_or (get_job_versions_builder_data b) (MissingField "data");
  Ok (Build_GetJobVersionsOutput data).
Definition get_job_versions_output_correct_errors (b : GetJobVersionsOutputBuilder) : GetJobVersionsOutputBuilder :=
  if get_job_versions_builder_data b then b
  else get_job_versions_output_call b (GetJobVersionsOutput_set_data (Some [])).

(** *** ListJobExecutions *)

Record ListJobExecutionsOutput := {
  list_job_executions_output_data : list (ExecutionResource exact);
  list_job_executions_output_cursor : option string;
}.
Record ListJobExecutionsOutputBuilder := {
  list_job_executions_builder_data : option (list (ExecutionResource exact));
  list_job_executions_builder_cursor : option string;
}.
Inductive ListJobExecutionsOutputCall :=
  | ListJobExecutionsOutput_set_data (v : option (list (ExecutionResource exact)))
  | ListJobExecutionsOutput_push_data (v : ExecutionResource exact)
  | ListJobExecutionsOutput_set_cursor (v : option string).
Definition list_job_executions_output_call (b : ListJobExecutionsOutputBuilder) (c : ListJobExecutionsOutputCall) : ListJobExecutionsOutputBuilder :=
  let '(Build_ListJobExecutionsOutputBuilder data cursor) := b in
  match c with
  | ListJobExecutionsOutput_set_data v => Build_ListJobExecutionsOutputBuilder v cursor
  | ListJobExecutionsOutput_push_data v => Build_ListJobExecutionsOutputBuilder (Some (default [] data ++ [v])) cursor
  | ListJobExecutionsOutput_set_cursor v => Build_ListJobExecutionsOutputBuilder data v
  end.
Definition list_job_executions_output_builder : ListJobExecutionsOutputBuilder := Build_ListJobExecutionsOutputBuilder None None.
Definition list_job_executions_output_build (b : ListJobExecutionsOutputBuilder) : res BuildError ListJobExecutionsOutput :=
  data <-? ok_or (list_job_executions_builder_data b) (MissingField "data");
  Ok (Build_ListJobExecutionsOutput data (list_job_executions_builder_cursor b)).
Definition list_job_executions_output_correct_errors (b : ListJobExecutionsOutputBuilder) : ListJobExecutionsOutputBuilder :=
  if list_job_executions_builder_data b then b
  else list_job_executions_output_call b (ListJobExecutionsOutput_set_data (Some [])).

(** *** GetExecution *)

Record GetExecutionOutput := {
  get_execution_output_data : ExecutionResource exact;
}.
Record GetExecutionOutputBuilder := {
  get_execution_builder_data : option (ExecutionResource exact);
}.
Inductive GetExecutionOutputCall :=
  | GetExecutionOutput_set_data (v : option (ExecutionResource exact)).
Definition get_execution_output_call (b : GetExecutionOutputBuilder) (c : GetExecutionOutputCall) : GetExecutionOutputBuilder :=
  let '(Build_GetExecutionOutputBuilder data) := b in
  match c with
  | GetExecutionOutput_set_data v => Build_GetExecutionOutputBuilder v
  end.
Definition get_execution_output_builder : GetExecutionOutputBuilder := Build_GetExecutionOutputBuilder None.
Definition get_execution_output_build (b : GetExecutionOutputBuilder) : res BuildError GetExecutionOutput :=
  data <-? ok_or (get_execution_builder_data b) (MissingField "data");
  Ok (Build_GetExecutionOutput data).
Definition get_execution_output_correct_errors (b : GetExecutionOutputBuilder) : GetExecutionOutputBuilder :=
  if get_execution_builder_data b then b
  else get_execution_output_call b (GetExecutionOutput_set_data (Some execution_resource_default)).

(** *** CancelExecution *)

Record CancelExecutionOutput := {
  cancel_execution_output_data : ExecutionResource exact;
}.
Record CancelExecutionOutputBuilder := {
  cancel_execution_builder_data : option (ExecutionResource exact);
}.
Inductive CancelExecutionOutputCall :=
  | CancelExecutionOutput_set_data (v : option (ExecutionResource exact)).
Definition cancel_execution_output_call (b : CancelExecutionOutputBuilder) (c : CancelExecutionOutputCall) : CancelExecutionOutputBuilder :=
  let '(Build_CancelExecutionOutputBuilder data) := b in
  match c with
  | CancelExecutionOutput_set_data v => Build_CancelExecutionOutputBuilder v
  end.
Definition cancel_execution_output_builder : CancelExecutionOutputBuilder := Build_CancelExecutionOutputBuilder None.
Definition cancel_execution_output_build (b : CancelExecutionOutputBuilder) : res BuildError CancelExecutionOutput :=
  data <-? ok_or (cancel_execution_builder_data b) (MissingField "data");
  Ok (Build_CancelExecutionOutput data).
Definition cancel_execution_output_correct_errors (b : CancelExecutionOutputBuilder) : CancelExecutionOutputBuilder :=
  if cancel_execution_builder_data b then b
  else cancel_execution_output_call b (CancelExecutionOutput_set_data (Some execution_resource_default)).

(** *** ListExecutionAttempts *)

Record ListExecutionAttemptsOutput := {
  list_execution_attempts_output_data : list (AttemptResource exact);
  list_execution_attempts_output_cursor : option string;
}.
Record ListExecutionAttemptsOutputBuilder := {
  list_execution_attempts_builder_data : option (list (AttemptResource exact));
  list_execution_attempts_builder_cursor : option string;
}.
Inductive ListExecutionAttemptsOutputCall :=
  | ListExecutionAttemptsOutput_set_data (v : option (list (AttemptResource exact)))
  | ListExecutionAttemptsOutput_push_data (v : AttemptResource exact)
  | ListExecutionAttemptsOutput_set_cursor (v : option string).
Definition list_execution_attempts_output_call (b : ListExecutionAttemptsOutputBuilder) (c : ListExecutionAttemptsOutputCall) : ListExecutionAttemptsOutputBuilder :=
  let '(Build_ListExecutionAttemptsOutputBuilder data cursor) := b in
  match c with
  | ListExecutionAttemptsOutput_set_data v => Build_ListExecutionAttemptsOutputBuilder v cursor
  | ListExecutionAttemptsOutput_push_data v => Build_ListExecutionAttemptsOutputBuilder (Some (default [] data ++ [v])) cursor
  | ListExecutionAttemptsOutput_set_cursor v => Build_ListExecutionAttemptsOutputBuilder data v
  end.
Definition list_execution_attempts_output_builder : ListExecutionAttemptsOutputBuilder := Build_ListExecutionAttemptsOutputBuilder None None.
Definition list_execution_attempts_output_build (b : ListExecutionAttemptsOutputBuilder) : res BuildError ListExecutionAttemptsOutput :=
  data <-? ok_or (list_execution_attempts_builder_data b) (MissingField "data");
  Ok (Build_ListExecutionAttemptsOutput data (list_execution_attempts_builder_cursor b)).
Definition list_execution_attempts_output_correct_errors (b : ListExecutionAttemptsOutputBuilder) : ListExecutionAttemptsOutputBuilder :=
  if list_execution_attempts_builder_data b then b
  else list_execution_attempts_output_call b (ListExecutionAttemptsOutput_set_data (Some [])).

(** *** ListExecutionLogs *)

Record ListExecutionLogsOutput := {
  list_execution_logs_output_data : list (ExecutionLogResource exact);
  list_execution_logs_output_cursor : option string;
}.
Record ListExecutionLogsOutputBuilder := {
  list_execution_logs_builder_data : option (list (ExecutionLogResource exact));
  list_execution_logs_builder_cursor : option string;
}.
Inductive ListExecutionLogsOutputCall :=
  | ListExecutionLogsOutput_set_data (v : option (list (ExecutionLogResource exact)))
  | ListExecutionLogsOutput_push_data (v : ExecutionLogResource exact)
  | ListExecutionLogsOutput_set_cursor (v : option string).
Definition list_execution_logs_output_call (b : ListExecutionLogsOutputBuilder) (c : ListExecutionLogsOutputCall) : ListExecutionLogsOutputBuilder :=
  let '(Build_ListExecutionLogsOutputBuilder data cursor) := b in
  match c with
  | ListExecutionLogsOutput_set_data v => Build_ListExecutionLogsOutputBuilder v cursor
  | ListExecutionLogsOutput_push_data v => Build_ListExecutionLogsOutputBuilder (Some (default [] data ++ [v])) cursor
  | ListExecutionLogsOutput_set_cursor v => Build_ListExecutionLogsOutputBuilder data v
  end.
Definition list_execution_logs_output_builder : ListExecutionLogsOutputBuilder := Build_ListExecutionLogsOutputBuilder None None.
Definition list_execution_logs_output_build (b : ListExecutionLogsOutputBuilder) : res BuildError ListExecutionLogsOutput :=
  data <-? ok_or (list_execution_logs_builder_data b) (MissingField "data");
  Ok (Build_ListExecutionLogsOutput data (list_execution_logs_builder_cursor b)).
Definition list_execution_logs_output_correct_errors (b : ListExecutionLogsOutputBuilder) : ListExecutionLogsOutputBuilder :=
  if list_execution_logs_builder_data b then b
  else list_execution_logs_output_call b (ListExecutionLogsOutput_set_data (Some [])).

(** *** CreateEndpoint *)

Record CreateEndpointOutput := {
  create_endpoint_output_data : EndpointResource exact;
}.
Record CreateEndpointOutputBuilder := {
  create_endpoint_builder_data : option (EndpointResource exact);
}.
Inductive CreateEndpointOutputCall :=
  | CreateEndpointOutput_set_data (v : option (EndpointResource exact)).
Definition create_endpoint_output_call (b : CreateEndpointOutputBuilder) (c : CreateEndpointOutputCall) : CreateEndpointOutputBuilder :=
  let '(Build_CreateEndpointOutputBuilder data) := b in
  match c with
  | CreateEndpointOutput_set_data v => Build_CreateEndpointOutputBuilder v
  end.
Definition create_endpoint_output_builder : CreateEndpointOutputBuilder := Build_CreateEndpointOutputBuilder None.
Definition create_endpoint_output_build (b : CreateEndpointOutputBuilder) : res BuildError CreateEndpointOutput :=
  data <-? ok_or (create_endpoint_builder_data b) (MissingField "data");
  Ok (Build_CreateEndpointOutput data).
Definition create_endpoint_output_correct_errors (b : CreateEndpointOutputBuilder) : CreateEndpointOutputBuilder :=
  if create_endpoint_builder_data b then b
  else create_endpoint_output_call b (CreateEndpointOutput_set_data (Some endpoint_resource_default)).

(** *** ListEndpoints *)

Record ListEndpointsOutput := {
  list_endpoints_output_data : list (EndpointResource exact);
  list_endpoints_output_cursor : option string;
}.
Record ListEndpointsOutputBuilder := {
  list_endpoints_builder_data : option (list (EndpointResource exact));
  list_endpoints_builder_cursor : option string;
}.
Inductive ListEndpointsOutputCall :=
  | ListEndpointsOutput_set_data (v : option (list (EndpointResource exact)))
  | ListEndpointsOutput_push_data (v : EndpointResource exact)
  | ListEndpointsOutput_set_cursor (v : option string).
Definition list_endpoints_output_call (b : ListEndpointsOutputBuilder) (c : ListEndpointsOutputCall) : ListEndpointsOutputBuilder :=
  let '(Build_ListEndpointsOutputBuilder data cursor) := b in
  match c with
  | ListEndpointsOutput_set_data v => Build_ListEndpointsOutputBuilder v cursor
  | ListEndpointsOutput_push_data v => Build_ListEndpointsOutputBuilder (Some (default [] data ++ [v])) cursor
  | ListEndpointsOutput_set_cursor v => Build_ListEndpointsOutputBuilder data v
  end.
Definition list_endpoints_output_builder : ListEndpointsOutputBuilder := Build_ListEndpointsOutputBuilder None None.
Definition list_endpoints_output_build (b : ListEndpointsOutputBuilder) : res BuildError ListEndpointsOutput :=
  data <-? ok_or (list_endpoints_builder_data b) (MissingField "data");
  Ok (Build_ListEndpointsOutput data (list_endpoints_builder_cursor b)).
Definition list_endpoints_output_correct_errors (b : ListEndpointsOutputBuilder) : ListEndpointsOutputBuilder :=
  if list_endpoints_builder_data b then b
  else list_endpoints_output_call b (ListEndpointsOutput_set_data (Some [])).

(** *** GetEndpoint *)

Record GetEndpointOutput := {
  get_endpoint_output_data : EndpointResource exact;
}.
Record GetEndpointOutputBuilder := {
  get_endpoint_builder_data : option (EndpointResource exact);
}.
Inductive GetEndpointOutputCall :=
  | GetEndpointOutput_set_data (v : option (EndpointResource exact)).
Definition get_endpoint_output_call (b : GetEndpointOutputBuilder) (c : GetEndpointOutputCall) : GetEndpointOutputBuilder :=
  let '(Build_GetEndpointOutputBuilder data) := b in
  match c with
  | GetEndpointOutput_set_data v => Build_GetEndpointOutputBuilder v
  end.
Definition get_endpoint_output_builder : GetEndpointOutputBuilder := Build_GetEndpointOutputBuilder None.
Definition get_endpoint_output_build (b : GetEndpointOutputBuilder) : res BuildError GetEndpointOutput :=
  data <-? ok_or (get_endpoint_builder_data b) (MissingField "data");
  Ok (Build_GetEndpointOutput data).
Definition get_endpoint_output_correct_errors (b : GetEndpointOutputBuilder) : GetEndpointOutputBuilder :=
  if get_endpoint_builder_data b then b
  else get_endpoint_output_call b (GetEndpointOutput_set_data (Some endpoint_resource_default)).

(** *** UpdateEndpoint *)

Record UpdateEndpointOutput := {
  update_endpoint_output_data : EndpointResource exact;
}.
Record UpdateEndpointOutputBuilder := {
  update_endpoint_builder_data : option (EndpointResource exact);
}.
Inductive UpdateEndpointOutputCall :=
  | UpdateEndpointOutput_set_data (v : option (EndpointResource exact)).
Definition update_endpoint_output_call (b : UpdateEndpointOutputBuilder) (c : UpdateEndpointOutputCall) : UpdateEndpointOutputBuilder :=
  let '(Build_UpdateEndpointOutputBuilder data) := b in
  match c with
  | UpdateEndpointOutput_set_data v => Build_UpdateEndpointOutputBuilder v
  end.
Definition update_endpoint_output_builder : UpdateEndpointOutputBuilder := Build_UpdateEndpointOutputBuilder None.
Definition update_endpoint_output_build (b : UpdateEndpointOutputBuilder) : res BuildError UpdateEndpointOutput :=
  data <-? ok_or (update_endpoint_builder_data b) (MissingField "data");
  Ok (Build_UpdateEndpointOutput data).
Definition update_endpoint_output_correct_errors (b : UpdateEndpointOutputBuilder) : UpdateEndpointOutputBuilder :=
  if update_endpoint_builder_data b then b
  else update_endpoint_output_call b (UpdateEndpointOutput_set_data (Some endpoint_resource_default)).

(** *** DeleteEndpoint *)

Record DeleteEndpointOutput := Build_DeleteEndpointOutput {}.
Definition delete_endpoint_output_build : DeleteEndpointOutput := Build_DeleteEndpointOutput.

(** *** CreatePayloadSpec *)

Record CreatePayloadSpecOutput := {
  create_payload_spec_output_data : PayloadSpecResource exact;
}.
Record CreatePayloadSpecOutputBuilder := {
  create_payload_spec_builder_data : option (PayloadSpecResource exact);
}.
Inductive CreatePayloadSpecOutputCall :=
  | CreatePayloadSpecOutput_set_data (v : option (PayloadSpecResource exact)).
Definition create_payload_spec_output_call (b : CreatePayloadSpecOutputBuilder) (c : CreatePayloadSpecOutputCall) : CreatePayloadSpecOutputBuilder :=
  let '(Build_CreatePayloadSpecOutputBuilder data) := b in
  match c with
  | CreatePayloadSpecOutput_set_data v => Build_CreatePayloadSpecOutputBuilder v
  end.
Definition create_payload_spec_output_builder : CreatePayloadSpecOutputBuilder := Build_CreatePayloadSpecOutputBuilder None.
Definition create_payload_spec_output_build (b : CreatePayloadSpecOutputBuilder) : res BuildError CreatePayloadSpecOutput :=
  data <-? ok_or (create_payload_spec_builder_data b) (MissingField "data");
  Ok (Build_CreatePayloadSpecOutput data).
Definition create_payload_spec_output_correct_errors (b : CreatePayloadSpecOutputBuilder) : CreatePayloadSpecOutputBuilder :=
  if create_payload_spec_builder_data b then b
  else create_payload_spec_output_call b (CreatePayloadSpecOutput_set_data (Some payload_spec_resource_default)).

(** *** ListPayloadSpecs *)

Record ListPayloadSpecsOutput := {
  list_payload_specs_output_data : list (PayloadSpecResource exact);
  list_payload_specs_output_cursor : option string;
}.
Record ListPayloadSpecsOutputBuilder := {
  list_payload_specs_builder_data : option (list (PayloadSpecResource exact));
  list_payload_specs_builder_cursor : option string;
}.
Inductive ListPayloadSpecsOutputCall :=
  | ListPayloadSpecsOutput_set_data (v : option (list (PayloadSpecResource exact)))
  | ListPayloadSpecsOutput_push_data (v : PayloadSpecResource exact)
  | ListPayloadSpecsOutput_set_cursor (v : option string).
Definition list_payload_specs_output_call (b : ListPayloadSpecsOutputBuilder) (c : ListPayloadSpecsOutputCall) : ListPayloadSpecsOutputBuilder :=
  let '(Build_ListPayloadSpecsOutputBuilder data cursor) := b in
  match c with
  | ListPayloadSpecsOutput_set_data v => Build_ListPayloadSpecsOutputBuilder v cursor
  | ListPayloadSpecsOutput_push_data v => Build_ListPayloadSpecsOutputBuilder (Some (default [] data ++ [v])) cursor
  | ListPayloadSpecsOutput_set_cursor v => Build_ListPayloadSpecsOutputBuilder data v
  end.
Definition list_payload_specs_output_builder : ListPayloadSpecsOutputBuilder := Build_ListPayloadSpecsOutputBuilder None None.
Definition list_payload_specs_output_build (b : ListPayloadSpecsOutputBuilder) : res BuildError ListPayloadSpecsOutput :=
  data <-? ok_or (list_payload_specs_builder_data b) (MissingField "data");
  Ok (Build_ListPayloadSpecsOutput data (list_payload_specs_builder_cursor b)).
Definition list_payload_specs_output_correct_errors (b : ListPayloadSpecsOutputBuilder) : ListPayloadSpecsOutputBuilder :=
  if list_payload_specs_builder_data b then b
  else list_payload_specs_output_call b (ListPayloadSpecsOutput_set_data (Some [])).

(** *** GetPayloadSpec *)

Record GetPayloadSpecOutput := {
  get_payload_spec_output_data : PayloadSpecResource exact;
}.
Record GetPayloadSpecOutputBuilder := {
  get_payload_spec_builder_data : option (PayloadSpecResource exact);
}.
Inductive GetPayloadSpecOutputCall :=
  | GetPayloadSpecOutput_set_data (v : option (PayloadSpecResource exact)).
Definition get_payload_spec_output_call (b : GetPayloadSpecOutputBuilder) (c : GetPayloadSpecOutputCall) : GetPayloadSpecOutputBuilder :=
  let '(Build_GetPayloadSpecOutputBuilder data) := b in
  match c with
  | GetPayloadSpecOutput_set_data v => Build_GetPayloadSpecOutputBuilder v
  end.
Definition get_payload_spec_output_builder : GetPayloadSpecOutputBuilder := Build_GetPayloadSpecOutputBuilder None.
Definition get_payload_spec_output_build (b : GetPayloadSpecOutputBuilder) : res BuildError GetPayloadSpecOutput :=
  data <-? ok_or (get_payload_spec_builder_data b) (MissingField "data");
  Ok (Build_GetPayloadSpecOutput data).
Definition get_payload_spec_output_correct_errors (b : GetPayloadSpecOutputBuilder) : GetPayloadSpecOutputBuilder :=
  if get_payload_spec_builder_data b then b
  else get_payload_spec_output_call b (GetPayloadSpecOutput_set_data (Some payload_spec_resource_default)).

(** *** UpdatePayloadSpec *)

Record UpdatePayloadSpecOutput := {
  update_payload_spec_output_data : PayloadSpecResource exact;
}.
Record UpdatePayloadSpecOutputBuilder := {
  update_payload_spec_builder_data : option (PayloadSpecResource exact);
}.
Inductive UpdatePayloadSpecOutputCall :=
  | UpdatePayloadSpecOutput_set_data (v : option (PayloadSpecResource exact)).
Definition update_payload_spec_output_call (b : UpdatePayloadSpecOutputBuilder) (c : UpdatePayloadSpecOutputCall) : UpdatePayloadSpecOutputBuilder :=
  let '(Build_UpdatePayloadSpecOutputBuilder data) := b in
  match c with
  | UpdatePayloadSpecOutput_set_data v => Build_UpdatePayloadSpecOutputBuilder v
  end.
Definition update_payload_spec_output_builder : UpdatePayloadSpecOutputBuilder := Build_UpdatePayloadSpecOutputBuilder None.
Definition update_payload_spec_output_build (b : UpdatePayloadSpecOutputBuilder) : res BuildError UpdatePayloadSpecOutput :=
  data <-? ok_or (update_payload_spec_builder_data b) (MissingField "data");
  Ok (Build_UpdatePayloadSpecOutput data).
Definition update_payload_spec_output_correct_errors (b : UpdatePayloadSpecOutputBuilder) : UpdatePayloadSpecOutputBuilder :=
  if update_payload_spec_builder_data b then b
  else update_payload_spec_output_call b (UpdatePayloadSpecOutput_set_data (Some payload_spec_resource_default)).

(** *** DeletePayloadSpec *)

Record DeletePayloadSpecOutput := Build_DeletePayloadSpecOutput {}.
Definition delete_payload_spec_output_build : DeletePayloadSpecOutput := Build_DeletePayloadSpecOutput.

(** ** What the readers make of a response *)

Section readers.
Context `{!Smithy}.

Definition de_create_job_output (fs : list (string * json)) : option CreateJobOutputBuilder :=
  data <-! field "data" de_job_resource fs;
  Some (Build_CreateJobOutputBuilder data).
Definition read_create_job_output (fs : list (string * json)) : option (res BuildError CreateJobOutput) :=
  b <-! de_create_job_output fs;
  Some (create_job_output_build (create_job_output_correct_errors b)).

Definition de_list_jobs_output (fs : list (string * json)) : option ListJobsOutputBuilder :=
  cursor <-! field "cursor" expect_string_or_null fs;
  data <-! field "data" de_job_summary_list fs;
  Some (Build_ListJobsOutputBuilder data cursor).
Definition read_list_jobs_output (fs : list (string * json)) : option (res BuildError ListJobsOutput) :=
  b <-! de_list_jobs_output fs;
  Some (list_jobs_output_build (list_jobs_output_correct_errors b)).

Definition de_get_job_output (fs : list (string * json)) : option GetJobOutputBuilder :=
  data <-! field "data" de_job_resource fs;
  Some (Build_GetJobOutputBuilder data).
Definition read_get_job_output (fs : list (string * json)) : option (res BuildError GetJobOutput) :=
  b <-! de_get_job_output fs;
  Some (get_job_output_build (get_job_output_correct_errors b)).

Definition de_update_job_output (fs : list (string * json)) : option UpdateJobOutputBuilder :=
  data <-! field "data" de_job_resource fs;
  Some (Build_UpdateJobOutputBuilder data).
Definition read_update_job_output (fs : list (string * json)) : option (res BuildError UpdateJobOutput) :=
  b <-! de_update_job_output fs;
  Some (update_job_output_build (update_job_output_correct_errors b)).

Definition de_cancel_job_output (fs : list (string * json)) : option CancelJobOutputBuilder :=
  data <-! field "data" de_job_resource fs;
  Some (Build_CancelJobOutputBuilder data).
Definition read_cancel_job_output (fs : list (string * json)) : option (res BuildError CancelJobOutput) :=
  b <-! de_cancel_job_output fs;
  Some (cancel_job_output_build (cancel_job_output_correct_errors b)).

Definition de_get_job_status_output (fs : list (string * json)) : option GetJobStatusOutputBuilder :=
  data <-! field "data" de_job_status_response fs;
  Some (Build_GetJobStatusOutputBuilder data).
Definition read_get_job_status_output (fs : list (string * json)) : option (res BuildError GetJobStatusOutput) :=
  b <-! de_get_job_status_output fs;
  Some (get_job_status_output_build (get_job_status_output_correct_errors b)).

Definition de_get_job_versions_output (fs : list (string * json)) : option GetJobVersionsOutputBuilder :=
  data <-! field "data" de_job_version_list fs;
  Some (Build_GetJobVersionsOutputBuilder data).
Definition read_get_job_versions_output (fs : list (string * json)) : option (res BuildError GetJobVersionsOutput) :=
  b <-! de_get_job_versions_output fs;
  Some (get_job_versions_output_build (get_job_versions_output_correct_errors b)).

Definition de_list_job_executions_output (fs : list (string * json)) : option ListJobExecutionsOutputBuilder :=
  cursor <-! field "cursor" expect_string_or_null fs;
  data <-! field "data" de_execution_resource_list fs;
  Some (Build_ListJobExecutionsOutputBuilder data cursor).
Definition read_list_job_executions_output (fs : list (string * json)) : option (res BuildError ListJobExecutionsOutput) :=
  b <-! de_list_job_executions_output fs;
  Some (list_job_executions_output_build (list_job_executions_output_correct_errors b)).

Definition de_get_execution_output (fs : list (string * json)) : option GetExecutionOutputBuilder :=
  data <-! field "data" de_execution_resource fs;
  Some (Build_GetExecutionOutputBuilder data).
Definition read_get_execution_output (fs : list (string * json)) : option (res BuildError GetExecutionOutput) :=
  b <-! de_get_execution_output fs;
  Some (get_execution_output_build (get_execution_output_correct_errors b)).

Definition de_cancel_execution_output (fs : list (string * json)) : option CancelExecutionOutputBuilder :=
  data <-! field "data" de_execution_resource fs;
  Some (Build_CancelExecutionOutputBuilder data).
Definition read_cancel_execution_output (fs : list (string * json)) : option (res BuildError CancelExecutionOutput) :=
  b <-! de_cancel_execution_output fs;
  Some (cancel_execution_output_build (cancel_execution_output_correct_errors b)).

Definition de_list_execution_attempts_output (fs : list (string * json)) : option ListExecutionAttemptsOutputBuilder :=
  cursor <-! field "cursor" expect_string_or_null fs;
  data <-! field "data" de_attempt_resource_list fs;
  Some (Build_ListExecutionAttemptsOutputBuilder data cursor).
Definition read_list_execution_attempts_output (fs : list (string * json)) : option (res BuildError ListExecutionAttemptsOutput) :=
  b <-! de_list_execution_attempts_output fs;
  Some (list_execution_attempts_output_build (list_execution_attempts_output_correct_errors b)).

Definition de_list_execution_logs_output (fs : list (string * json)) : option ListExecutionLogsOutputBuilder :=
  cursor <-! field "cursor" expect_string_or_null fs;
  data <-! field "data" de_execution_log_list fs;
  Some (Build_ListExecutionLogsOutputBuilder data cursor).
Definition read_list_execution_logs_output (fs : list (string * json)) : option (res BuildError ListExecutionLogsOutput) :=
  b <-! de_list_execution_logs_output fs;
  Some (list_execution_logs_output_build (list_execution_logs_output_correct_errors b)).

Definition de_create_endpoint_output (fs : list (string * json)) : option CreateEndpointOutputBuilder :=
  data <-! field "data" de_endpoint_resource fs;
  Some (Build_CreateEndpointOutputBuilder data).
Definition read_create_endpoint_output (fs : list (string * json)) : option (res BuildError CreateEndpointOutput) :=
  b <-! de_create_endpoint_output fs;
  Some (create_endpoint_output_build (create_endpoint_output_correct_errors b)).

Definition de_list_endpoints_output (fs : list (string * json)) : option ListEndpointsOutputBuilder :=
  cursor <-! field "cursor" expect_string_or_null fs;
  data <-! field "data" de_endpoint_list fs;
  Some (Build_ListEndpointsOutputBuilder data cursor).
Definition read_list_endpoints_output (fs : list (string * json)) : option (res BuildError ListEndpointsOutput) :=
  b <-! de_list_endpoints_output fs;
  Some (list_endpoints_output_build (list_endpoints_output_correct_errors b)).

Definition de_get_endpoint_output (fs : list (string * json)) : option GetEndpointOutputBuilder :=
  data <-! field "data" de_endpoint_resource fs;
  Some (Build_GetEndpointOutputBuilder data).
Definition read_get_endpoint_output (fs : list (string * json)) : option (res BuildError GetEndpointOutput) :=
  b <-! de_get_endpoint_output fs;
  Some (get_endpoint_output_build (get_endpoint_output_correct_errors b)).

Definition de_update_endpoint_output (fs : list (string * json)) : option UpdateEndpointOutputBuilder :=
  data <-! field "data" de_endpoint_resource fs;
  Some (Build_UpdateEndpointOutputBuilder data).
Definition read_update_endpoint_output (fs : list (string * json)) : option (res BuildError UpdateEndpointOutput) :=
  b <-! de_update_endpoint_output fs;
  Some (update_endpoint_output_build (update_endpoint_output_correct_errors b)).

Definition de_create_payload_spec_output (fs : list (string * json)) : option CreatePayloadSpecOutputBuilder :=
  data <-! field "data" de_payload_spec_resource fs;
  Some (Build_CreatePayloadSpecOutputBuilder data).
Definition read_create_payload_spec_output (fs : list (string * json)) : option (res BuildError CreatePayloadSpecOutput) :=
  b <-! de_create_payload_spec_output fs;
  Some (create_payload_spec_output_build (create_payload_spec_output_correct_errors b)).

Definition de_list_payload_specs_output (fs : list (string * json)) : option ListPayloadSpecsOutputBuilder :=
  cursor <-! field "cursor" expect_string_or_null fs;
  data <-! field "data" de_payload_spec_list fs;
  Some (Build_ListPayloadSpecsOutputBuilder data cursor).
Definition read_list_payload_specs_output (fs : list (string * json)) : option (res BuildError ListPayloadSpecsOutput) :=
  b <-! de_list_payload_specs_output fs;
  Some (list_payload_specs_output_build (list_payload_specs_output_correct_errors b)).

Definition de_get_payload_spec_output (fs : list (string * json)) : option GetPayloadSpecOutputBuilder :=
  data <-! field "data" de_payload_spec_resource fs;
  Some (Build_GetPayloadSpecOutputBuilder data).
Definition read_get_payload_spec_output (fs : list (string * json)) : option (res BuildError GetPayloadSpecOutput) :=
  b <-! de_get_payload_spec_output fs;
  Some (get_payload_spec_output_build (get_payload_spec_output_correct_errors b)).

Definition de_update_payload_spec_output (fs : list (string * json)) : option UpdatePayloadSpecOutputBuilder :=
  data <-! field "data" de_payload_spec_resource fs;
  Some (Build_UpdatePayloadSpecOutputBuilder data).
Definition read_update_payload_spec_output (fs : list (string * json)) : option (res BuildError UpdatePayloadSpecOutput) :=
  b <-! de_update_payload_spec_output fs;
  Some (update_payload_spec_output_build (update_payload_spec_output_correct_errors b)).

(** The outputs are those of [SdkOps]: with its defaults a builder never lacks a member. *)
Lemma read_create_job fs :
  read_create_job_output fs = (λ d, Ok (Build_CreateJobOutput d)) <$> de_create_job fs.
Proof.
  unfold read_create_job_output, de_create_job_output, de_create_job.
  destruct (field "data" _ fs) as [[data|]|]; reflexivity.
Qed.
Lemma read_list_jobs fs :
  read_list_jobs_output fs = (λ p, Ok (Build_ListJobsOutput (pg_data p) (pg_cursor p))) <$> de_list_jobs fs.
Proof.
  unfold read_list_jobs_output, de_list_jobs_output, de_list_jobs.
  destruct (field "cursor" _ fs) as [cursor|]; [cbn|reflexivity].
  destruct (field "data" _ fs) as [[data|]|]; reflexivity.
Qed.
Lemma read_get_job fs :
  read_get_job_output fs = (λ d, Ok (Build_GetJobOutput d)) <$> de_get_job fs.
Proof.
  unfold read_get_job_output, de_get_job_output, de_get_job.
  destruct (field "data" _ fs) as [[data|]|]; reflexivity.
Qed.
Lemma read_update_job fs :
  read_update_job_output fs = (λ d, Ok (Build_UpdateJobOutput d)) <$> de_update_job fs.
Proof.
  unfold read_update_job_output, de_update_job_output, de_update_job.
  destruct (field "data" _ fs) as [[data|]|]; reflexivity.
Qed.
Lemma read_cancel_job fs :
  read_cancel_job_output fs = (λ d, Ok (Build_CancelJobOutput d)) <$> de_cancel_job fs.
Proof.
  unfold read_cancel_job_output, de_cancel_job_output, de_cancel_job.
  destruct (field "data" _ fs) as [[data|]|]; reflexivity.
Qed.
Lemma read_get_job_status fs :
  read_get_job_status_output fs = (λ d, Ok (Build_GetJobStatusOutput d)) <$> de_get_job_status fs.
Proof.
  unfold read_get_job_status_output, de_get_job_status_output, de_get_job_status.
  destruct (field "data" _ fs) as [[data|]|]; reflexivity.
Qed.
Lemma read_get_job_versions fs :
  read_get_job_versions_output fs = (λ d, Ok (Build_GetJobVersionsOutput d)) <$> de_get_job_versions fs.
Proof.
  unfold read_get_job_versions_output, de_get_job_versions_output, de_get_job_versions.
  destruct (field "data" _ fs) as [[data|]|]; reflexivity.
Qed.
Lemma read_list_job_executions fs :
  read_list_job_executions_output fs = (λ p, Ok (Build_ListJobExecutionsOutput (pg_data p) (pg_cursor p))) <$> de_list_job_executions fs.
Proof.
  unfold read_list_job_executions_output, de_list_job_executions_output, de_list_job_executions.
  destruct (field "cursor" _ fs) as [cursor|]; [cbn|reflexivity].
  destruct (field "data" _ fs) as [[data|]|]; reflexivity.
Qed.
Lemma read_get_execution fs :
  read_get_execution_output fs = (λ d, Ok (Build_GetExecutionOutput d)) <$> de_get_execution fs.
Proof.
  unfold read_get_execution_output, de_get_execution_output, de_get_execution.
  destruct (field "data" _ fs) as [[data|]|]; reflexivity.
Qed.
Lemma read_cancel_execution fs :
  read_cancel_execution_output fs = (λ d, Ok (Build_CancelExecutionOutput d)) <$> de_cancel_execution fs.
Proof.
  unfold read_cancel_execution_output, de_cancel_execution_output, de_cancel_execution.
  destruct (field "data" _ fs) as [[data|]|]; reflexivity.
Qed.
Lemma read_list_execution_attempts fs :
  read_list_execution_attempts_output fs = (λ p, Ok (Build_ListExecutionAttemptsOutput (pg_data p) (pg_cursor p))) <$> de_list_execution_attempts fs.
Proof.
  unfold read_list_execution_attempts_output, de_list_execution_attempts_output, de_list_execution_attempts.
  destruct (field "cursor" _ fs) as [cursor|]; [cbn|reflexivity].
  destruct (field "data" _ fs) as [[data|]|]; reflexivity.
Qed.
Lemma read_list_execution_logs fs :
  read_list_execution_logs_output fs = (λ p, Ok (Build_ListExecutionLogsOutput (pg_data p) (pg_cursor p))) <$> de_list_execution_logs fs.
Proof.
  unfold read_list_execution_logs_output, de_list_execution_logs_output, de_list_execution_logs.
  destruct (field "cursor" _ fs) as [cursor|]; [cbn|reflexivity].
  destruct (field "data" _ fs) as [[data|]|]; reflexivity.
Qed.
Lemma read_create_endpoint fs :
  read_create_endpoint_output fs = (λ d, Ok (Build_CreateEndpointOutput d)) <$> de_create_endpoint fs.
Proof.
  unfold read_create_endpoint_output, de_create_endpoint_output, de_create_endpoint.
  destruct (field "data" _ fs) as [[data|]|]; reflexivity.
Qed.
Lemma read_list_endpoints fs :
  read_list_endpoints_output fs = (λ p, Ok (Build_ListEndpointsOutput (pg_data p) (pg_cursor p))) <$> de_list_endpoints fs.
Proof.
  unfold read_list_endpoints_output, de_list_endpoints_output, de_list_endpoints.
  destruct (field "cursor" _ fs) as [cursor|]; [cbn|reflexivity].
  destruct (field "data" _ fs) as [[data|]|]; reflexivity.
Qed.
Lemma read_get_endpoint fs :
  read_get_endpoint_output fs = (λ d, Ok (Build_GetEndpointOutput d)) <$> de_get_endpoint fs.
Proof.
  unfold read_get_endpoint_output, de_get_endpoint_output, de_get_endpoint.
  destruct (field "data" _ fs) as [[data|]|]; reflexivity.
Qed.
Lemma read_update_endpoint fs :
  read_update_endpoint_output fs = (λ d, Ok (Build_UpdateEndpointOutput d)) <$> de_update_endpoint fs.
Proof.
  unfold read_update_endpoint_output, de_update_endpoint_output, de_update_endpoint.
  destruct (field "data" _ fs) as [[data|]|]; reflexivity.
Qed.
Lemma read_create_payload_spec fs :
  read_create_payload_spec_output fs = (λ d, Ok (Build_CreatePayloadSpecOutput d)) <$> de_create_payload_spec fs.
Proof.
  unfold read_create_payload_spec_output, de_create_payload_spec_output, de_create_payload_spec.
  destruct (field "data" _ fs) as [[data|]|]; reflexivity.
Qed.
Lemma read_list_payload_specs fs :
  read_list_payload_specs_output fs = (λ p, Ok (Build_ListPayloadSpecsOutput (pg_data p) (pg_cursor p))) <$> de_list_payload_specs fs.
Proof.
  unfold read_list_payload_specs_output, de_list_payload_specs_output, de_list_payload_specs.
  destruct (field "cursor" _ fs) as [cursor|]; [cbn|reflexivity].
  destruct (field "data" _ fs) as [[data|]|]; reflexivity.
Qed.
Lemma read_get_payload_spec fs :
  read_get_payload_spec_output fs = (λ d, Ok (Build_GetPayloadSpecOutput d)) <$> de_get_payload_spec fs.
Proof.
  unfold read_get_payload_spec_output, de_get_payload_spec_output, de_get_payload_spec.
  destruct (field "data" _ fs) as [[data|]|]; reflexivity.
Qed.
Lemma read_update_payload_spec fs :
  read_update_payload_spec_output fs = (λ d, Ok (Build_UpdatePayloadSpecOutput d)) <$> de_update_payload_spec fs.
Proof.
  unfold read_update_payload_spec_output, de_update_payload_spec_output, de_update_payload_spec.
  destruct (field "data" _ fs) as [[data|]|]; reflexivity.
Qed.
End readers.
