(* ===== verification/SdkConfig.v ===== *)
(** * Configuration of the SDK ([client/src/config.rs], [config/*.rs], [client.rs],
    [client/customize.rs])

    The builder of a configuration, the plugins made of it, and the construction of a
    client.  The crates [aws-smithy-*] are parameters: what a layer of configuration and a
    set of runtime components hold is asked of them through their getters and setters.

    Values the runtime passes around without their type are [Erased]: a value with the
    name of its type, to be cast back by name. *)

From S2P Require Export SdkTelemetry SdkErrors.
Import SdkErr.
#[local] Open Scope Z_scope.

(** ** The operations, and values without their type *)

Inductive Operation :=
  | Op_CreateJob | Op_ListJobs | Op_GetJob | Op_UpdateJob | Op_CancelJob | Op_GetJobStatus
  | Op_GetJobVersions | Op_ListJobExecutions | Op_GetExecution | Op_CancelExecution
  | Op_ListExecutionAttempts | Op_ListExecutionLogs | Op_CreateEndpoint | Op_ListEndpoints
  | Op_GetEndpoint | Op_UpdateEndpoint | Op_DeleteEndpoint | Op_CreatePayloadSpec
  | Op_ListPayloadSpecs | Op_GetPayloadSpec | Op_UpdatePayloadSpec | Op_DeletePayloadSpec.
#[export] Instance Operation_eq_dec : EqDecision Operation.
Proof. solve_decision. Defined.

Definition op_input (o : Operation) : Type :=
  match o with
  | Op_CreateJob => CreateJobInput | Op_ListJobs => ListJobsInput | Op_GetJob => GetJobInput
  | Op_UpdateJob => UpdateJobInput | Op_CancelJob => CancelJobInput
  | Op_GetJobStatus => GetJobStatusInput | Op_GetJobVersions => GetJobVersionsInput
  | Op_ListJobExecutions => ListJobExecutionsInput | Op_GetExecution => GetExecutionInput
  | Op_CancelExecution => CancelExecutionInput
  | Op_ListExecutionAttempts => ListExecutionAttemptsInput
  | Op_ListExecutionLogs => ListExecutionLogsInput | Op_CreateEndpoint => CreateEndpointInput
  | Op_ListEndpoints => ListEndpointsInput | Op_GetEndpoint => GetEndpointInput
  | Op_UpdateEndpoint => UpdateEndpointInput | Op_DeleteEndpoint => DeleteEndpointInput
  | Op_CreatePayloadSpec => CreatePayloadSpecInput
  | Op_ListPayloadSpecs => ListPayloadSpecsInput | Op_GetPayloadSpec => GetPayloadSpecInput
  | Op_UpdatePayloadSpec => UpdatePayloadSpecInput
  | Op_DeletePayloadSpec => DeletePayloadSpecInput
  end.

(** An output is what its members are; the error types are read as [OperationError]. *)
Definition op_output (o : Operation) : Type :=
  match o with
  | Op_CreateJob | Op_GetJob | Op_UpdateJob | Op_CancelJob => JobResource exact
  | Op_ListJobs => SdkPage (JobSummary exact)
  | Op_GetJobStatus => JobStatusResponse exact
  | Op_GetJobVersions => list (JobResource exact)
  | Op_ListJobExecutions => SdkPage (ExecutionResource exact)
  | Op_GetExecution | Op_CancelExecution => ExecutionResource exact
  | Op_ListExecutionAttempts => SdkPage (AttemptResource exact)
  | Op_ListExecutionLogs => SdkPage (ExecutionLogResource exact)
  | Op_ListEndpoints => SdkPage (EndpointResource exact)
  | Op_CreateEndpoint | Op_GetEndpoint | Op_UpdateEndpoint => EndpointResource exact
  | Op_ListPayloadSpecs => SdkPage (PayloadSpecResource exact)
  | Op_CreatePayloadSpec | Op_GetPayloadSpec | Op_UpdatePayloadSpec => PayloadSpecResource exact
  | Op_DeleteEndpoint | Op_DeletePayloadSpec => unit
  end.

Inductive TypeId := T_Input (o : Operation) | T_Output (o : Operation) | T_Error (o : Operation).
#[export] Instance TypeId_eq_dec : EqDecision TypeId.
Proof. solve_decision. Defined.
Definition denote (T : TypeId) : Type :=
  match T with
  | T_Input o => op_input o
  | T_Output o => op_output o
  | T_Error _ => OperationError
  end.

Record Erased := erase_as { er_type : TypeId; er_value : denote er_type }.
Definition erase (T : TypeId) (v : denote T) : Erased := erase_as T v.
Definition downcast (T : TypeId) (v : Erased) : option (denote T) :=
  match decide (er_type v = T) with
  | left E => Some (eq_rect _ denote (er_value v) _ E)
  | right _ => None
  end.

Lemma downcast_erase T v : downcast T (erase T v) = Some v.
Proof.
  unfold downcast, erase. cbn [er_type er_value]. destruct (decide (T = T)) as [E|]; [|done].
  by rewrite (proof_irrel E eq_refl).
Qed.
Lemma downcast_other T T' v : T ≠ T' → downcast T' (erase T v) = None.
Proof. intros H. unfold downcast. cbn [er_type erase]. by destruct (decide (T = T')). Qed.

(** ** What the runtime crates offer *)

Inductive RetryMode := RetryMode_Standard | RetryMode_Adaptive | RetryMode_Other.

(** Their types, with the functions the generated code calls on them. *)
Class SmithyTypes := {
  StalledStreamProtectionConfig : Type;
  AuthSchemePreference : Type;
  RetryConfig : Type;
  retry_mode : RetryConfig → RetryMode;
  TimeoutConfig : Type;
  take_defaults_from : TimeoutConfig → TimeoutConfig → TimeoutConfig;
  RetryPartition : Type;
  RequestedTelemetryAttributes : Type;
  requested_default : RequestedTelemetryAttributes;
  requested_emit : list string → RequestedTelemetryAttributes → RequestedTelemetryAttributes;
  requested_capture_only :
    list string → RequestedTelemetryAttributes → RequestedTelemetryAttributes;
  requested_view : RequestedTelemetryAttributes → RequestedTelemetry;
  SharedHttpClient : Type;
  SharedAsyncSleep : Type;
  SharedTimeSource : Type;
  system_time_source : SharedTimeSource;
  SharedIdentityCache : Type;
  lazy_identity_cache : SharedIdentityCache;
  SharedEndpointResolver : Type;
  static_uri_resolver : string → SharedEndpointResolver;
  SharedIdentityResolver : Type;
  Token : Type;
  token_resolver : Token → SharedIdentityResolver;
  AuthSchemeId : Type;
  HTTP_BEARER_AUTH_SCHEME_ID : AuthSchemeId;
  AuthSchemeOption : Type;
  auth_scheme_option : AuthSchemeId → AuthSchemeOption;
  SharedAuthScheme : Type;
  BearerAuthScheme : SharedAuthScheme;
  ResolverState : Type;
  RuntimeInterceptor : Type;
  StalledStreamProtectionInterceptor : RuntimeInterceptor;
  ConnectionPoisoningInterceptor : RuntimeInterceptor;
  HttpRequest : Type;
  MapRequestInterceptor : (HttpRequest → res string HttpRequest) → RuntimeInterceptor;
  MutateRequestInterceptor : (HttpRequest → HttpRequest) → RuntimeInterceptor;
  ResolvedEndpoint : Type;
  SharedRetryClassifier : Type;
  HttpStatusCodeClassifier : SharedRetryClassifier;
  TransientErrorClassifier : TypeId → SharedRetryClassifier;
  ModeledAsRetryableClassifier : TypeId → SharedRetryClassifier;
  BehaviorVersion : Type;
  latest_behavior_version : BehaviorVersion;
}.

(** An interceptor is the runtime's, the user's, or one of the SDK's own. *)
Inductive SharedInterceptor `{!SmithyTypes} :=
  | I_Runtime (i : RuntimeInterceptor)
  | I_TelemetryInputCapture (o : Operation)
  | I_EndpointParams (o : Operation)
  | I_RetryModeFeatureTracker.

(** ** Choosing an authentication scheme ([config/auth.rs]) *)

Record AuthParams := { ap_operation_name : string }.
Record AuthParamsBuilder := { apb_operation_name : option string }.
Definition auth_params_builder : AuthParamsBuilder := {| apb_operation_name := None |}.
Definition set_operation_name (name : option string) (b : AuthParamsBuilder) : AuthParamsBuilder :=
  {| apb_operation_name := name |}.
Definition auth_params_build (b : AuthParamsBuilder) : res string AuthParams :=
  name <-? ok_or (apb_operation_name b) "a required field was missing: `operation_name`";
  Ok {| ap_operation_name := name |}.

(** The runtime hands parameters around in a box; another service's are of another type. *)
Inductive ResolverParams := RP_auth (p : AuthParams) | RP_other.

Section auth.
Context `{!SmithyTypes}.

Definition ResolveAuthScheme : Type := AuthParams → ResolverState → res string (list AuthSchemeOption).
Definition SharedAuthSchemeOptionResolver : Type :=
  ResolverParams → ResolverState → res string (list AuthSchemeOption).
Definition resolve_auth_scheme_options (r : ResolveAuthScheme) : SharedAuthSchemeOptionResolver :=
  λ params state,
    match params with
    | RP_auth p => r p state
    | RP_other => Err "params of expected type was not present"
    end.

Record DefaultAuthSchemeResolver := {
  service_defaults : list AuthSchemeOption;
  operation_overrides : gmap string (list AuthSchemeOption);
}.
Definition default_auth_scheme_resolver : DefaultAuthSchemeResolver := {|
  service_defaults := [auth_scheme_option HTTP_BEARER_AUTH_SCHEME_ID];
  operation_overrides := ∅ |}.
Definition resolve_auth_scheme (r : DefaultAuthSchemeResolver) : ResolveAuthScheme :=
  λ params _,
    Ok match operation_overrides r !! ap_operation_name params with
       | Some overrides => overrides
       | None => service_defaults r
       end.
End auth.

(** ** Resolving the endpoint ([config/endpoint.rs]) *)

(** The service has no parameters of its own. *)
Inductive EndpointParams := Build_EndpointParams.
Inductive EndpointResolverParams := EP_params (p : EndpointParams) | EP_other.
Inductive InvalidParamsErrorKind := IP_MissingField | IP_InvalidValue (message : string).
Record InvalidParams := { ip_field : string; ip_kind : InvalidParamsErrorKind }.
Definition InvalidParams_fmt (e : InvalidParams) : string :=
  match ip_kind e with
  | IP_MissingField => "a required field was missing: `" +:+ ip_field e +:+ "`"
  | IP_InvalidValue message =>
      "invalid value for field: `" +:+ ip_field e +:+ "` - " +:+ message
  end.
Definition endpoint_params_build : res InvalidParams EndpointParams := Ok Build_EndpointParams.
Definition resolve_endpoint `{!SmithyTypes} (r : EndpointParams → res string ResolvedEndpoint)
    (params : EndpointResolverParams) : res string ResolvedEndpoint :=
  match params with
  | EP_params p => r p
  | EP_other => Err "params of expected type was not present"
  end.

(** ** Layers and components *)

(** The types whose values the SDK keeps in a layer, one value of each. *)
Inductive Stored :=
  | S_StalledStreamProtectionConfig | S_AuthSchemePreference | S_RetryConfig | S_TimeoutConfig
  | S_RetryPartition | S_RequestedTelemetryAttributes
  | S_AuthSchemeAndEndpointOrchestrationV2 | S_SharedRequestSerializer
  | S_SharedResponseDeserializer | S_AuthSchemeOptionResolverParams | S_Metadata.
(** Components there is one of, and components there are several of. *)
Inductive Single :=
  | One_http_client | One_auth_scheme_option_resolver | One_endpoint_resolver | One_sleep_impl
  | One_identity_cache | One_time_source.
Inductive Several := Many_auth_schemes | Many_interceptors | Many_retry_classifiers.
#[export] Instance Stored_eq_dec : EqDecision Stored.
Proof. solve_decision. Defined.
#[export] Instance Single_eq_dec : EqDecision Single.
Proof. solve_decision. Defined.
#[export] Instance Several_eq_dec : EqDecision Several.
Proof. solve_decision. Defined.

Definition Serializer : Type := Erased → res BuildError SdkRequest.
Definition Deserializer : Type := SdkResponse → Erased + Erased.

Section stored.
Context `{!SmithyTypes}.
Definition stored (s : Stored) : Type :=
  match s with
  | S_StalledStreamProtectionConfig => StalledStreamProtectionConfig
  | S_AuthSchemePreference => AuthSchemePreference
  | S_RetryConfig => RetryConfig
  | S_TimeoutConfig => TimeoutConfig
  | S_RetryPartition => RetryPartition
  | S_RequestedTelemetryAttributes => RequestedTelemetryAttributes
  | S_AuthSchemeAndEndpointOrchestrationV2 => unit
  | S_SharedRequestSerializer => Serializer
  | S_SharedResponseDeserializer => Deserializer
  | S_AuthSchemeOptionResolverParams => ResolverParams
  | S_Metadata => string * string
  end.
Definition single (k : Single) : Type :=
  match k with
  | One_http_client => SharedHttpClient
  | One_auth_scheme_option_resolver => SharedAuthSchemeOptionResolver
  | One_endpoint_resolver => SharedEndpointResolver
  | One_sleep_impl => SharedAsyncSleep
  | One_identity_cache => SharedIdentityCache
  | One_time_source => SharedTimeSource
  end.
Definition several (k : Several) : Type :=
  match k with
  | Many_auth_schemes => SharedAuthScheme
  | Many_interceptors => SharedInterceptor
  | Many_retry_classifiers => SharedRetryClassifier
  end.
End stored.

Class SmithyBags `{!SmithyTypes} := {
  Layer : Type;
  layer_new : string → Layer;
  layer_default : Layer;
  with_name : string → Layer → Layer;
  load : ∀ s, Layer → option (stored s);
  store_put : ∀ s, stored s → Layer → Layer;
  store_or_unset : ∀ s, option (stored s) → Layer → Layer;
  ConfigBag : Type;
  bag_load : ∀ s, ConfigBag → option (stored s);
  Components : Type;
  components_new : string → Components;
  get_one : ∀ k, Components → option (single k);
  set_one : ∀ k, option (single k) → Components → Components;
  get_many : ∀ k, Components → list (several k);
  set_many : ∀ k, list (several k) → Components → Components;
  push_one : ∀ k, several k → Components → Components;
  set_identity_resolver : AuthSchemeId → SharedIdentityResolver → Components → Components;
  has_identity_resolvers : Components → bool;
  override_defaults : Layer → Components → Layer * Components → Layer * Components;
}.

(** A layer is a map by type; components are what was set last, or pushed. *)
Class SmithyBagLaws `{!SmithyTypes} `{!SmithyBags} : Prop := {
  load_put s v l : load s (store_put s v l) = Some v;
  load_put_other s s' v l : s ≠ s' → load s' (store_put s v l) = load s' l;
  load_or_unset s v l : load s (store_or_unset s v l) = v;
  load_or_unset_other s s' v l : s ≠ s' → load s' (store_or_unset s v l) = load s' l;
  load_new s name : load s (layer_new name) = None;
  load_default s : load s layer_default = None;
  load_named s name l : load s (with_name name l) = load s l;
  override_load s ic ics l c : load s (override_defaults ic ics (l, c)).1 = load s l;
  one_set k v c : get_one k (set_one k v c) = v;
  one_set_other k k' v c : k ≠ k' → get_one k' (set_one k v c) = get_one k' c;
  one_new k name : get_one k (components_new name) = None;
  one_pushed k k' v c : get_one k (push_one k' v c) = get_one k c;
  one_set_many k k' v c : get_one k (set_many k' v c) = get_one k c;
  one_identity k id r c : get_one k (set_identity_resolver id r c) = get_one k c;
  many_new k name : get_many k (components_new name) = [];
  many_push k v c : get_many k (push_one k v c) = get_many k c ++ [v];
  many_push_other k k' v c : k ≠ k' → get_many k' (push_one k v c) = get_many k' c;
  many_set k v c : get_many k (set_many k v c) = v;
  many_one k k' v c : get_many k (set_one k' v c) = get_many k c;
}.

(** What a plugin offers to the runtime: the trait [RuntimePlugin]. *)
Inductive Order := Order_Defaults | Order_Overrides | Order_NestedComponents.
Record RuntimePlugin `{!SmithyTypes} `{!SmithyBags} := {
  rp_config : option Layer;
  rp_order : Order;
  rp_components : Components → Components;
}.

(** The plugins of the runtime, and the set they are put in. *)
Class SmithyPlugins `{!SmithyTypes} `{!SmithyBags} := {
  NoAuthRuntimePlugin : RuntimePlugin;
  NoAuthRuntimePluginV2 : RuntimePlugin;
  default_plugins : string → BehaviorVersion → list RuntimePlugin;
  StaticRuntimePlugin : Layer → Components → RuntimePlugin;
  MetricsRuntimePlugin : string → SharedTimeSource → RuntimePlugin;
  RuntimePlugins : Type;
  no_plugins : RuntimePlugins;
  with_client_plugin : RuntimePlugin → RuntimePlugins → RuntimePlugins;
  with_operation_plugin : RuntimePlugin → RuntimePlugins → RuntimePlugins;
  validate_base_client_config : RuntimePlugins → res string unit;
}.

(** ** The builder ([config.rs]) *)

Section config.
Context `{!SmithyTypes} `{!SmithyBags} `{!SmithyPlugins}.

Record ClientConfig := {
  c_config : Layer;
  c_cloneable : Layer;
  c_runtime_components : Components;
  c_runtime_plugins : list RuntimePlugin;
  c_behavior_version : option BehaviorVersion;
}.
Record ClientConfigBuilder := {
  b_config : Layer;
  b_runtime_components : Components;
  b_runtime_plugins : list RuntimePlugin;
  b_behavior_version : option BehaviorVersion;
}.

Definition config_builder_new : ClientConfigBuilder := {|
  b_config := layer_default;
  b_runtime_components := components_new "service config";
  b_runtime_plugins := [];
  b_behavior_version := None |}.
Definition to_builder (c : ClientConfig) : ClientConfigBuilder := {|
  b_config := c_cloneable c;
  b_runtime_components := c_runtime_components c;
  b_runtime_plugins := c_runtime_plugins c;
  b_behavior_version := c_behavior_version c |}.

(** What a setter changes. *)
Definition on_layer (f : Layer → Layer) (b : ClientConfigBuilder) : ClientConfigBuilder := {|
  b_config := f (b_config b); b_runtime_components := b_runtime_components b;
  b_runtime_plugins := b_runtime_plugins b; b_behavior_version := b_behavior_version b |}.
Definition on_components (f : Components → Components) (b : ClientConfigBuilder) : ClientConfigBuilder := {|
  b_config := b_config b; b_runtime_components := f (b_runtime_components b);
  b_runtime_plugins := b_runtime_plugins b; b_behavior_version := b_behavior_version b |}.

Definition set_stalled_stream_protection (v : option StalledStreamProtectionConfig) :=
  on_layer (store_or_unset S_StalledStreamProtectionConfig v).
Definition stalled_stream_protection v := set_stalled_stream_protection (Some v).
Definition set_http_client (v : option SharedHttpClient) := on_components (set_one One_http_client v).
Definition http_client v := set_http_client (Some v).
Definition bearer_token_resolver (r : SharedIdentityResolver) :=
  on_components (set_identity_resolver HTTP_BEARER_AUTH_SCHEME_ID r).
Definition bearer_token (t : Token) := bearer_token_resolver (token_resolver t).
Definition push_auth_scheme (a : SharedAuthScheme) := on_components (push_one Many_auth_schemes a).
Definition set_auth_scheme_resolver (r : ResolveAuthScheme) :=
  on_components (set_one One_auth_scheme_option_resolver (Some (resolve_auth_scheme_options r))).
Definition auth_scheme_resolver r := set_auth_scheme_resolver r.
Definition push_runtime_plugin (p : RuntimePlugin) (b : ClientConfigBuilder) : ClientConfigBuilder := {|
  b_config := b_config b; b_runtime_components := b_runtime_components b;
  b_runtime_plugins := b_runtime_plugins b ++ [p]; b_behavior_version := b_behavior_version b |}.
Definition runtime_plugin p := push_runtime_plugin p.
Definition set_allow_no_auth := push_runtime_plugin NoAuthRuntimePluginV2.
Definition allow_no_auth := set_allow_no_auth.
Definition set_auth_scheme_preference (v : option AuthSchemePreference) :=
  on_layer (store_or_unset S_AuthSchemePreference v).
Definition auth_scheme_preference v := set_auth_scheme_preference (Some v).
Definition set_endpoint_resolver (v : option SharedEndpointResolver) :=
  on_components (set_one One_endpoint_resolver v).
Definition endpoint_resolver v := set_endpoint_resolver (Some v).
Definition set_endpoint_url (url : option string) :=
  set_endpoint_resolver (static_uri_resolver <$> url).
Definition endpoint_url url := set_endpoint_url (Some url).
(** [None] does nothing. *)
Definition set_retry_config (v : option RetryConfig) (b : ClientConfigBuilder) : ClientConfigBuilder :=
  match v with Some r => on_layer (store_put S_RetryConfig r) b | None => b end.
Definition retry_config v := set_retry_config (Some v).
Definition set_sleep_impl (v : option SharedAsyncSleep) := on_components (set_one One_sleep_impl v).
Definition sleep_impl v := set_sleep_impl (Some v).
(** A second value takes what it leaves open from the first. *)
Definition set_timeout_config (v : option TimeoutConfig) (b : ClientConfigBuilder) : ClientConfigBuilder :=
  match v with
  | None => b
  | Some t =>
      let t := match load S_TimeoutConfig (b_config b) with
               | Some base => take_defaults_from t base
               | None => t
               end in
      on_layer (store_put S_TimeoutConfig t) b
  end.
Definition timeout_config v := set_timeout_config (Some v).
Definition set_retry_partition (v : option RetryPartition) (b : ClientConfigBuilder) : ClientConfigBuilder :=
  match v with Some r => on_layer (store_put S_RetryPartition r) b | None => b end.
Definition retry_partition v := set_retry_partition (Some v).
Definition set_identity_cache (v : SharedIdentityCache) :=
  on_components (set_one One_identity_cache (Some v)).
Definition identity_cache v := set_identity_cache v.
Definition push_interceptor (i : SharedInterceptor) := on_components (push_one Many_interceptors i).
Definition interceptor i := push_interceptor i.
Definition set_interceptors (l : list SharedInterceptor) :=
  on_components (set_many Many_interceptors l).
Definition set_time_source (v : option SharedTimeSource) :=
  on_components (set_one One_time_source v).
Definition time_source v := set_time_source (Some v).
Definition push_retry_classifier (c : SharedRetryClassifier) :=
  on_components (push_one Many_retry_classifiers c).
Definition retry_classifier c := push_retry_classifier c.
Definition set_retry_classifiers (l : list SharedRetryClassifier) :=
  on_components (set_many Many_retry_classifiers l).
Definition set_behavior_version (v : option BehaviorVersion) (b : ClientConfigBuilder) : ClientConfigBuilder := {|
  b_config := b_config b; b_runtime_components := b_runtime_components b;
  b_runtime_plugins := b_runtime_plugins b; b_behavior_version := v |}.
Definition behavior_version v := set_behavior_version (Some v).
Definition with_latest_behavior_version := set_behavior_version (Some latest_behavior_version).

(** Names of members for the telemetry add up over calls. *)
Definition requested_so_far (b : ClientConfigBuilder) : RequestedTelemetryAttributes :=
  default requested_default (load S_RequestedTelemetryAttributes (b_config b)).
Definition emit_input_attributes (names : list string) (b : ClientConfigBuilder) : ClientConfigBuilder :=
  on_layer (store_put S_RequestedTelemetryAttributes (requested_emit names (requested_so_far b))) b.
Definition capture_input_attributes (names : list string) (b : ClientConfigBuilder) : ClientConfigBuilder :=
  on_layer (store_put S_RequestedTelemetryAttributes
    (requested_capture_only names (requested_so_far b))) b.

Definition from_config_bag (bag : ConfigBag) : ClientConfigBuilder :=
  set_retry_partition (bag_load S_RetryPartition bag)
    (set_timeout_config (bag_load S_TimeoutConfig bag)
      (set_retry_config (bag_load S_RetryConfig bag)
        (set_auth_scheme_preference (bag_load S_AuthSchemePreference bag)
          (set_stalled_stream_protection (bag_load S_StalledStreamProtectionConfig bag)
            config_builder_new)))).

Definition build_config (b : ClientConfigBuilder) : ClientConfig :=
  let layer := b_config b in
  let components := b_runtime_components b in
  {| c_config := with_name "invokr_sdk::config::ClientConfig" layer;
     c_cloneable := layer;
     c_runtime_components :=
       match get_one One_time_source components with
       | None => set_one One_time_source (Some system_time_source) components
       | Some _ => components
       end;
     c_runtime_plugins := b_runtime_plugins b;
     c_behavior_version := b_behavior_version b |}.

(** The getters. *)
Definition cfg_stalled_stream_protection (c : ClientConfig) := load S_StalledStreamProtectionConfig (c_config c).
Definition cfg_http_client (c : ClientConfig) := get_one One_http_client (c_runtime_components c).
Definition cfg_auth_schemes (c : ClientConfig) := get_many Many_auth_schemes (c_runtime_components c).
Definition cfg_auth_scheme_resolver (c : ClientConfig) :=
  get_one One_auth_scheme_option_resolver (c_runtime_components c).
Definition cfg_auth_scheme_preference (c : ClientConfig) := load S_AuthSchemePreference (c_config c).
Definition cfg_endpoint_resolver (c : ClientConfig) : res Empty_set SharedEndpointResolver :=
  match get_one One_endpoint_resolver (c_runtime_components c) with
  | Some r => Ok r
  | None => Panic 0
  end.
Definition cfg_retry_config (c : ClientConfig) := load S_RetryConfig (c_config c).
Definition cfg_sleep_impl (c : ClientConfig) := get_one One_sleep_impl (c_runtime_components c).
Definition cfg_timeout_config (c : ClientConfig) := load S_TimeoutConfig (c_config c).
Definition cfg_retry_partition (c : ClientConfig) := load S_RetryPartition (c_config c).
Definition cfg_identity_cache (c : ClientConfig) := get_one One_identity_cache (c_runtime_components c).
Definition cfg_interceptors (c : ClientConfig) := get_many Many_interceptors (c_runtime_components c).
Definition cfg_time_source (c : ClientConfig) := get_one One_time_source (c_runtime_components c).
Definition cfg_retry_classifiers (c : ClientConfig) := get_many Many_retry_classifiers (c_runtime_components c).

(** ** Features noted for the service ([sdk_feature_tracker.rs]) *)

Inductive SmithySdkFeature :=
  | Feature_ProtocolRpcV2Cbor | Feature_Paginator | Feature_Waiter
  | Feature_RetryModeStandard | Feature_RetryModeAdaptive.
(** Each interceptor appends to what is noted; only that of the retry mode is in use. *)
Definition track_rpc_v2_cbor (noted : list SmithySdkFeature) := noted ++ [Feature_ProtocolRpcV2Cbor].
Definition track_paginator (noted : list SmithySdkFeature) := noted ++ [Feature_Paginator].
Definition track_waiter (noted : list SmithySdkFeature) := noted ++ [Feature_Waiter].
Definition track_retry_mode (bag : ConfigBag) (noted : list SmithySdkFeature) :
    res Empty_set (list SmithySdkFeature) :=
  match bag_load S_RetryConfig bag with
  | None => Ok noted
  | Some c => match retry_mode c with
              | RetryMode_Standard => Ok (noted ++ [Feature_RetryModeStandard])
              | RetryMode_Adaptive => Ok (noted ++ [Feature_RetryModeAdaptive])
              | RetryMode_Other => Panic 6
              end
  end.

(** ** Default headers ([serialization_settings.rs]) *)

Record HeaderSerializationSettings := {
  omit_default_content_length : bool;
  omit_default_content_type : bool;
}.
Definition header_settings_new : HeaderSerializationSettings :=
  {| omit_default_content_length := false; omit_default_content_type := false |}.
Definition omitting_content_length (h : HeaderSerializationSettings) : HeaderSerializationSettings :=
  {| omit_default_content_length := true;
     omit_default_content_type := omit_default_content_type h |}.
Definition omitting_content_type (h : HeaderSerializationSettings) : HeaderSerializationSettings :=
  {| omit_default_content_length := omit_default_content_length h;
     omit_default_content_type := true |}.
Definition include_header (h : HeaderSerializationSettings) (header : string) : bool :=
  (negb (omit_default_content_length h) || negb (bool_decide (header = "content-length")))
  && (negb (omit_default_content_type h) || negb (bool_decide (header = "content-type"))).
Definition set_default_header {R} (set_request_header_if_absent : R → string → string → R)
    (h : HeaderSerializationSettings) (request : R) (header value : string) : R :=
  if include_header h header then set_request_header_if_absent request header value else request.

(** ** The plugins of a client *)

(** What every operation of the service starts from. *)
Definition ServiceRuntimePlugin : RuntimePlugin := {|
  rp_config := Some (store_put S_AuthSchemeAndEndpointOrchestrationV2 tt (layer_new "InvokrService"));
  rp_order := Order_Defaults;
  rp_components := λ _,
    push_one Many_interceptors I_RetryModeFeatureTracker
      (push_one Many_retry_classifiers HttpStatusCodeClassifier
        (push_one Many_interceptors (I_Runtime ConnectionPoisoningInterceptor)
          (set_one One_auth_scheme_option_resolver
            (Some (resolve_auth_scheme_options (resolve_auth_scheme default_auth_scheme_resolver)))
            (push_one Many_auth_schemes BearerAuthScheme (components_new "ServiceRuntimePlugin"))))) |}.

(** What one operation overrides.  An identity resolver brings a cache of its own. *)
Definition override_components (o : Components) : Components :=
  if has_identity_resolvers o && bool_decide (get_one One_identity_cache o = None)
  then set_one One_identity_cache (Some lazy_identity_cache) o
  else o.
Definition ConfigOverrideRuntimePlugin (override : ClientConfigBuilder) (initial_config : Layer)
    (initial_components : Components) : RuntimePlugin :=
  let '(layer, components) := override_defaults initial_config initial_components
    (b_config override, b_runtime_components override) in
  let components := override_components components in
  {| rp_config := Some (with_name "invokr_sdk::config::ConfigOverrideRuntimePlugin" layer);
     rp_order := Order_Overrides;
     rp_components := λ _, components |}.

(** [feature] is the crate's feature [behavior-version-latest]; it is not a default. *)
Definition base_client_runtime_plugins (feature : bool) (c : ClientConfig) : res Empty_set RuntimePlugins :=
  let version := match c_behavior_version c with
                 | Some v => Some v
                 | None => if feature then Some latest_behavior_version else None
                 end in
  match version with
  | None => Panic 1
  | Some v =>
      let plugins := foldl (λ ps p, with_client_plugin p ps) no_plugins
        (default_plugins "invokrservice" v
         ++ [StaticRuntimePlugin (c_config c) (c_runtime_components c); ServiceRuntimePlugin;
             NoAuthRuntimePlugin;
             MetricsRuntimePlugin "invokr_sdk"
               (default system_time_source (get_one One_time_source (c_runtime_components c)))]) in
      Ok (foldl (λ ps p, with_client_plugin p ps) plugins (c_runtime_plugins c))
  end.

(** ** The client ([client.rs]) *)

Record Handle := { h_conf : ClientConfig; h_runtime_plugins : RuntimePlugins }.
Definition from_conf (feature : bool) (conf : ClientConfig) : res Empty_set Handle :=
  plugins <-? base_client_runtime_plugins feature conf;
  match validate_base_client_config plugins with
  | Ok _ => Ok {| h_conf := conf; h_runtime_plugins := plugins |}
  | _ => Panic 2
  end.

(** ** Customised calls ([client/customize.rs]) *)

Record CustomizableOperation (B : Type) := {
  co_send : B;
  co_config_override : option ClientConfigBuilder;
  co_interceptors : list SharedInterceptor;
  co_runtime_plugins : list RuntimePlugin;
}.
Arguments co_send {B}. Arguments co_config_override {B}. Arguments co_interceptors {B}.
Arguments co_runtime_plugins {B}.
Definition customizable {B} (send : B) : CustomizableOperation B :=
  {| co_send := send; co_config_override := None; co_interceptors := []; co_runtime_plugins := [] |}.
Definition customize_interceptor {B} (i : SharedInterceptor) (c : CustomizableOperation B) :
    CustomizableOperation B := {|
  co_send := co_send c; co_config_override := co_config_override c;
  co_interceptors := co_interceptors c ++ [i]; co_runtime_plugins := co_runtime_plugins c |}.
Definition customize_runtime_plugin {B} (p : RuntimePlugin) (c : CustomizableOperation B) :
    CustomizableOperation B := {|
  co_send := co_send c; co_config_override := co_config_override c;
  co_interceptors := co_interceptors c; co_runtime_plugins := co_runtime_plugins c ++ [p] |}.
Definition customize_config_override {B} (o : ClientConfigBuilder) (c : CustomizableOperation B) :
    CustomizableOperation B := {|
  co_send := co_send c; co_config_override := Some o;
  co_interceptors := co_interceptors c; co_runtime_plugins := co_runtime_plugins c |}.
Definition customize_map_request {B} (f : HttpRequest → res string HttpRequest) :
    CustomizableOperation B → CustomizableOperation B :=
  customize_interceptor (I_Runtime (MapRequestInterceptor f)).
Definition customize_mutate_request {B} (f : HttpRequest → HttpRequest) :
    CustomizableOperation B → CustomizableOperation B :=
  customize_interceptor (I_Runtime (MutateRequestInterceptor f)).
Definition customize_execute {B U} (c : CustomizableOperation B) (f : B → ClientConfigBuilder → U) : U :=
  let override := default config_builder_new (co_config_override c) in
  let override := foldl (λ b i, push_interceptor i b) override (co_interceptors c) in
  let override := foldl (λ b p, push_runtime_plugin p b) override (co_runtime_plugins c) in
  f (co_send c) override.
Definition customize_send {B U} (send : B → ClientConfigBuilder → U) (c : CustomizableOperation B) : U :=
  customize_execute c send.
End config.
Arguments co_send {_ _ B}. Arguments co_config_override {_ _ B}.
Arguments co_interceptors {_ _ B}. Arguments co_runtime_plugins {_ _ B}.
