(* ===== verification/SdkRuntime.v ===== *)
(** * Operations in the runtime of the SDK ([client/src/operation/*.rs])

    What the 22 operations share: the plugin an operation adds to those of its client,
    [orchestrate], which hands an erased input to the runtime and casts back what it gets,
    and the fluent builder that sends.  The runtime itself is a parameter; its laws say which
    of the layers it is given it finds a value in. *)

From S2P Require Export SdkConfig SdkBuilders.
Import SdkErr.
#[local] Open Scope Z_scope.

Inductive StopPoint := StopPoint_None | StopPoint_BeforeTransmit.

Class Orchestrator `{!SmithyTypes} `{!SmithyBags} `{!SmithyPlugins} := {
  RuntimeWorld : Type;
  InterceptorContext : Type;
  invoke_with_stop_point : string → string → Erased → RuntimePlugins → StopPoint →
    RuntimeWorld → (SdkError Erased + InterceptorContext) * RuntimeWorld;
  finalize_context : InterceptorContext → SdkError Erased + Erased;
  construction_failure : BuildError → SdkFailure;
  (** What the runtime finds in the layers of these plugins, and whom it calls. *)
  operation_plugins : RuntimePlugins → list RuntimePlugin;
  applied : ∀ s, RuntimePlugins → option (stored s);
}.

(** Layers of operations come before those of the client, and what only one of the
    plugins of the operation has stored is what the runtime finds. *)
Class OrchestratorLaws `{!SmithyTypes} `{!SmithyBags} `{!SmithyPlugins} `{!Orchestrator} : Prop := {
  operation_none : operation_plugins no_plugins = [];
  operation_client p ps : operation_plugins (with_client_plugin p ps) = operation_plugins ps;
  operation_more p ps :
    operation_plugins (with_operation_plugin p ps) ≡ₚ p :: operation_plugins ps;
  applied_only ps p s v :
    p ∈ operation_plugins ps → rp_config p ≫= load s = Some v →
    (∀ p', p' ∈ operation_plugins ps → rp_config p' ≫= load s = None ∨ p' = p) →
    applied s ps = Some v;
}.

Section operations.
Context `{!SmithyTypes} `{!SmithyBags} `{!SmithyPlugins} `{!Orchestrator}.

(** ** The plugin of an operation *)

Definition operation_params (name : string) : AuthParams := {| ap_operation_name := name |}.
Lemma operation_params_built name :
  auth_params_build (set_operation_name (Some name) auth_params_builder) = Ok (operation_params name).
Proof. reflexivity. Qed.

(** [type_erase_result] of [protocol_serde.rs]. *)
Definition type_erase_result (o : Operation) (a : OperationError + op_output o) : Erased + Erased :=
  match a with
  | inl e => inl (erase (T_Error o) e)
  | inr v => inr (erase (T_Output o) v)
  end.

Definition operation_layer (name : string) (ser : Serializer) (de : Deserializer) : Layer :=
  store_put S_Metadata (name, "InvokrService")
    (store_put S_AuthSchemeOptionResolverParams (RP_auth (operation_params name))
      (store_put S_SharedResponseDeserializer de
        (store_put S_SharedRequestSerializer ser (layer_new name)))).
Definition operation_components (o : Operation) (name : string) : Components :=
  push_one Many_retry_classifiers (ModeledAsRetryableClassifier (T_Error o))
    (push_one Many_retry_classifiers (TransientErrorClassifier (T_Error o))
      (push_one Many_interceptors (I_EndpointParams o)
        (push_one Many_interceptors (I_Runtime StalledStreamProtectionInterceptor)
          (push_one Many_interceptors (I_TelemetryInputCapture o) (components_new name))))).
Definition operation_plugin (o : Operation) (name : string) (ser : Serializer) (de : Deserializer) :
    RuntimePlugin := {|
  rp_config := Some (operation_layer name ser de);
  rp_order := Order_Overrides;
  rp_components := λ _, operation_components o name |}.

(** What [EndpointParamsInterceptor] leaves for the resolver of endpoints. *)
Definition built_endpoint_params : res string EndpointResolverParams :=
  params <-? res_map_err (λ e, "endpoint params could not be built: " +:+ InvalidParams_fmt e)
    endpoint_params_build;
  Ok (EP_params params).

(** The plugins of one call: the client's, the operation's, and those of an override. *)
Definition with_override (plugin : RuntimePlugin) (client_plugins : RuntimePlugins) (conf : ClientConfig)
    (override : option ClientConfigBuilder) : RuntimePlugins :=
  let plugins := with_operation_plugin plugin client_plugins in
  match override with
  | None => plugins
  | Some o =>
      with_operation_plugin
        (ConfigOverrideRuntimePlugin o (c_config conf) (c_runtime_components conf))
        (foldl (λ ps p, with_operation_plugin p ps) plugins (b_runtime_plugins o))
  end.

(** ** A call *)

Definition expect_type (T : TypeId) (why : nat) (v : Erased) : res Empty_set (denote T) :=
  match downcast T v with Some x => Ok x | None => Panic why end.
Definition map_service_error (o : Operation) (e : SdkError Erased) :
    res Empty_set (SdkError OperationError) :=
  match e with
  | SdkServiceError e => x <-? expect_type (T_Error o) 3 e; Ok (SdkServiceError x)
  | SdkOther f => Ok (SdkOther f)
  end.
Definition cast_answer (o : Operation) (a : SdkError Erased + InterceptorContext) :
    res Empty_set (SdkError OperationError + op_output o) :=
  match a with
  | inl e => e <-? map_service_error o e; Ok (inl e)
  | inr ctx =>
      match finalize_context ctx with
      | inl e => e <-? map_service_error o e; Ok (inl e)
      | inr v => v <-? expect_type (T_Output o) 4 v; Ok (inr v)
      end
  end.

(** The casts of what the deserializer of the operation has made succeed. *)
Lemma cast_own_answer (o : Operation) ctx (x : OperationError + op_output o) :
  finalize_context ctx = match type_erase_result o x with
                         | inl e => inl (SdkServiceError e) | inr v => inr v end →
  cast_answer o (inr ctx) = Ok match x with inl e => inl (SdkServiceError e) | inr out => inr out end.
Proof.
  intros E. unfold cast_answer. rewrite E. unfold expect_type.
  destruct x; cbn [type_erase_result map_service_error]; unfold expect_type; by rewrite downcast_erase.
Qed.

Definition Call (A : Type) : Type := RuntimeWorld → res Empty_set A * RuntimeWorld.
Definition orchestrate_to (o : Operation) (name : string) (plugins : RuntimePlugins)
    (input : op_input o) (stop : StopPoint) (w : RuntimeWorld) :=
  invoke_with_stop_point "InvokrService" name (erase (T_Input o) input) plugins stop w.
Definition orchestrate_operation (o : Operation) (name : string) (plugins : RuntimePlugins)
    (input : op_input o) : Call (SdkError OperationError + op_output o) :=
  λ w, let '(a, w) := orchestrate_to o name plugins input StopPoint_None w in (cast_answer o a, w).

(** ** The fluent builder *)

Record FluentBuilder (B : Type) := {
  fb_handle : Handle;
  fb_inner : B;
  fb_config_override : option ClientConfigBuilder;
}.
Arguments fb_handle {B}. Arguments fb_inner {B}. Arguments fb_config_override {B}.
Definition fluent_builder {B} (none : B) (h : Handle) : FluentBuilder B :=
  {| fb_handle := h; fb_inner := none; fb_config_override := None |}.
Definition set_config_override {B} (o : option ClientConfigBuilder) (f : FluentBuilder B) : FluentBuilder B :=
  {| fb_handle := fb_handle f; fb_inner := fb_inner f; fb_config_override := o |}.
Definition with_inner {B} (b : B) (f : FluentBuilder B) : FluentBuilder B :=
  {| fb_handle := fb_handle f; fb_inner := b; fb_config_override := fb_config_override f |}.
Definition fluent_call {B C} (step : B → C → B) (f : FluentBuilder B) (c : C) : FluentBuilder B :=
  with_inner (step (fb_inner f) c) f.

Definition fluent_send {I O} (build : I → res BuildError I)
    (plugins : RuntimePlugins → ClientConfig → option ClientConfigBuilder → RuntimePlugins)
    (orchestrate : RuntimePlugins → I → Call (SdkError OperationError + O)) (f : FluentBuilder I) :
    Call (SdkError OperationError + O) :=
  λ w, match build (fb_inner f) with
       | Ok input =>
           orchestrate (plugins (h_runtime_plugins (fb_handle f)) (h_conf (fb_handle f))
             (fb_config_override f)) input w
       | Err e => (Ok (inl (SdkOther (construction_failure e))), w)
       | Panic why => (Panic why, w)
       end.
(** [CustomizableSend::send] of a fluent builder. *)
Definition send_overridden {I O} (send : FluentBuilder I → Call O) (f : FluentBuilder I)
    (override : ClientConfigBuilder) : Call O :=
  send (set_config_override (Some override) f).

(** ** Casts that cannot fail *)

(** What an override may not do: bring a deserializer of its own. *)
Record plain_override (o : ClientConfigBuilder) : Prop := {
  po_layer : load S_SharedResponseDeserializer (b_config o) = None;
  po_plugins : Forall (λ p, rp_config p ≫= load S_SharedResponseDeserializer = None)
                 (b_runtime_plugins o);
}.
End operations.
Arguments fb_handle {_ _ _ B}. Arguments fb_inner {_ _ _ B}. Arguments fb_config_override {_ _ _ B}.

Section sound.
Context `{!SmithyTypes} `{!SmithyBags} `{!SmithyPlugins} `{!Orchestrator}.
Context `{!SmithyBagLaws} `{!OrchestratorLaws}.
Context (o : Operation) (name : string) (ser : Serializer) (de : Deserializer).
Notation plugin := (operation_plugin o name ser de).

Lemma layer_deserializer : load S_SharedResponseDeserializer (operation_layer name ser de) = Some de.
Proof. unfold operation_layer. rewrite !load_put_other by done. apply load_put. Qed.
Lemma layer_serializer : load S_SharedRequestSerializer (operation_layer name ser de) = Some ser.
Proof. unfold operation_layer. rewrite !load_put_other by done. apply load_put. Qed.
Lemma layer_params : load S_AuthSchemeOptionResolverParams (operation_layer name ser de)
  = Some (RP_auth (operation_params name)).
Proof. unfold operation_layer. rewrite load_put_other by done. apply load_put. Qed.

Lemma more_plugins l ps :
  operation_plugins (foldl (λ ps p, with_operation_plugin p ps) ps l) ≡ₚ l ++ operation_plugins ps.
Proof.
  revert ps. induction l as [|p l IH]; intros ps; simpl; [done|].
  rewrite IH, operation_more. by rewrite Permutation_middle.
Qed.

(** A client has no plugins of operations. *)
Lemma client_has_none feature conf h :
  from_conf feature conf = Ok h → operation_plugins (h_runtime_plugins h) = [].
Proof.
  unfold from_conf, base_client_runtime_plugins.
  destruct (match c_behavior_version conf with Some v => Some v | None => _ end) as [v|]; [|done].
  cbn [res_bind]. destruct (validate_base_client_config _); intros E; simplify_eq. cbn [h_runtime_plugins].
  assert (∀ l ps, operation_plugins (foldl (λ ps p, with_client_plugin p ps) ps l)
    = operation_plugins ps) as Hl.
  { induction l as [|p l IH]; intros ps; simpl; [done|]. by rewrite IH, operation_client. }
  by rewrite !Hl, operation_none.
Qed.

(** The deserializer of a call is the operation's. *)
Lemma deserializer_applied ps conf override :
  operation_plugins ps = [] → (∀ b, override = Some b → plain_override b) →
  applied S_SharedResponseDeserializer (with_override plugin ps conf override) = Some de.
Proof.
  intros Hps Ho. apply (applied_only _ plugin); [|cbn; apply layer_deserializer|].
  - unfold with_override. destruct override as [b|]; rewrite !operation_more, ?more_plugins, ?operation_more;
      set_solver.
  - intros p. unfold with_override. destruct override as [b|].
    + destruct (Ho b eq_refl) as [Hl Hp]. rewrite operation_more, more_plugins, operation_more, Hps.
      intros [->|[Hin|Hin]%elem_of_app]%elem_of_cons; [left|left|right; set_solver].
      * unfold ConfigOverrideRuntimePlugin. destruct (override_defaults _ _ _) as [l c] eqn:E.
        cbn [rp_config mbind option_bind]. rewrite load_named. etrans; [|exact Hl].
        rewrite <-(override_load _ (c_config conf) (c_runtime_components conf) (b_config b)
          (b_runtime_components b)). by rewrite E.
      * rewrite list.Forall_forall in Hp. by apply Hp.
    + rewrite operation_more, Hps. set_solver.
Qed.

End sound.
