(* ===== verification/SdkPlugins.v ===== *)
(** * The operations as plugins and fluent builders ([client/src/operation/*], [client/src/client/*])

    Per operation: the serializer and the deserializer on erased values, the two interceptors
    of its own, its plugin, [orchestrate], and its fluent builder. *)

From S2P Require Export SdkRuntime.
Import SdkErr.
#[local] Open Scope Z_scope.

(** An operation with what its files define. *)
Record SdkOperation `{!SmithyTypes} `{!SmithyBags} `{!SmithyPlugins} `{!Orchestrator} := {
  so_op : Operation;
  so_name : string;
  so_request : op_input so_op → res BuildError SdkRequest;
  so_response : SdkResponse → OperationError + op_output so_op;
  so_captured : option RequestedTelemetry → op_input so_op → option (list (string * string));
  so_serialize : Serializer;
  so_deserialize : Deserializer;
  so_telemetry : option RequestedTelemetry → Erased → option (list (string * string));
  so_endpoint_params : Erased → res string EndpointResolverParams;
  so_plugin : RuntimePlugin;
  so_plugins : RuntimePlugins → ClientConfig → option ClientConfigBuilder → RuntimePlugins;
  so_build : op_input so_op → res BuildError (op_input so_op);
  so_orchestrate : RuntimePlugins → op_input so_op →
    Call (SdkError OperationError + op_output so_op);
  so_send : FluentBuilder (op_input so_op) → Call (SdkError OperationError + op_output so_op);
}.

Section operations.
Context `{!Smithy} `{!SmithyTypes} `{!SmithyBags} `{!SmithyPlugins} `{!Orchestrator}.

(** *** CreateJob *)

Definition create_job_deserialize : Deserializer := λ r,
  type_erase_result Op_CreateJob (create_job_response r).
Definition create_job_serialize_input : Serializer := λ input,
  match downcast (T_Input Op_CreateJob) input with
  | Some input => create_job_request input
  | None => Panic 5
  end.
Definition create_job_read_telemetry (requested : option RequestedTelemetry)
    (input : Erased) : option (list (string * string)) :=
  match downcast (T_Input Op_CreateJob) input with
  | Some input => create_job_captured requested input
  | None => None
  end.
Definition create_job_endpoint_params (input : Erased) : res string EndpointResolverParams :=
  match downcast (T_Input Op_CreateJob) input with
  | Some _ => built_endpoint_params
  | None => Err "failed to downcast to CreateJobInput"
  end.
Definition CreateJob_plugin : RuntimePlugin :=
  operation_plugin Op_CreateJob "CreateJob" create_job_serialize_input create_job_deserialize.
Definition create_job_operation_runtime_plugins := with_override CreateJob_plugin.
Definition create_job_orchestrate_with_stop_point :=
  orchestrate_to Op_CreateJob "CreateJob".
Definition create_job_orchestrate := orchestrate_operation Op_CreateJob "CreateJob".
Definition CreateJobFluentBuilder : Type := FluentBuilder CreateJobInput.
Definition client_create_job (h : Handle) : CreateJobFluentBuilder :=
  fluent_builder create_job_none h.
Definition create_job_fluent_call : CreateJobFluentBuilder → CreateJobCall → CreateJobFluentBuilder :=
  fluent_call create_job_call.
Definition create_job_fluent_send (f : CreateJobFluentBuilder) :=
  fluent_send create_job_build create_job_operation_runtime_plugins
    create_job_orchestrate f.
Definition create_job_send_with (b : CreateJobInput) (h : Handle) :=
  create_job_fluent_send (with_inner b (client_create_job h)).
Definition create_job_customize (f : CreateJobFluentBuilder) := customizable f.
Definition create_job_send_overridden := send_overridden create_job_fluent_send.

(** *** ListJobs *)

Definition list_jobs_deserialize : Deserializer := λ r,
  type_erase_result Op_ListJobs (list_jobs_response r).
Definition list_jobs_serialize_input : Serializer := λ input,
  match downcast (T_Input Op_ListJobs) input with
  | Some input => list_jobs_request input
  | None => Panic 5
  end.
Definition list_jobs_read_telemetry (requested : option RequestedTelemetry)
    (input : Erased) : option (list (string * string)) :=
  match downcast (T_Input Op_ListJobs) input with
  | Some input => list_jobs_captured requested input
  | None => None
  end.
Definition list_jobs_endpoint_params (input : Erased) : res string EndpointResolverParams :=
  match downcast (T_Input Op_ListJobs) input with
  | Some _ => built_endpoint_params
  | None => Err "failed to downcast to ListJobsInput"
  end.
Definition ListJobs_plugin : RuntimePlugin :=
  operation_plugin Op_ListJobs "ListJobs" list_jobs_serialize_input list_jobs_deserialize.
Definition list_jobs_operation_runtime_plugins := with_override ListJobs_plugin.
Definition list_jobs_orchestrate_with_stop_point :=
  orchestrate_to Op_ListJobs "ListJobs".
Definition list_jobs_orchestrate := orchestrate_operation Op_ListJobs "ListJobs".
Definition ListJobsFluentBuilder : Type := FluentBuilder ListJobsInput.
Definition client_list_jobs (h : Handle) : ListJobsFluentBuilder :=
  fluent_builder list_jobs_none h.
Definition list_jobs_fluent_call : ListJobsFluentBuilder → ListJobsCall → ListJobsFluentBuilder :=
  fluent_call list_jobs_call.
Definition list_jobs_fluent_send (f : ListJobsFluentBuilder) :=
  fluent_send list_jobs_build list_jobs_operation_runtime_plugins
    list_jobs_orchestrate f.
Definition list_jobs_send_with (b : ListJobsInput) (h : Handle) :=
  list_jobs_fluent_send (with_inner b (client_list_jobs h)).
Definition list_jobs_customize (f : ListJobsFluentBuilder) := customizable f.
Definition list_jobs_send_overridden := send_overridden list_jobs_fluent_send.

(** *** GetJob *)

Definition get_job_deserialize : Deserializer := λ r,
  type_erase_result Op_GetJob (get_job_response r).
Definition get_job_serialize_input : Serializer := λ input,
  match downcast (T_Input Op_GetJob) input with
  | Some input => get_job_request input
  | None => Panic 5
  end.
Definition get_job_read_telemetry (requested : option RequestedTelemetry)
    (input : Erased) : option (list (string * string)) :=
  match downcast (T_Input Op_GetJob) input with
  | Some input => get_job_captured requested input
  | None => None
  end.
Definition get_job_endpoint_params (input : Erased) : res string EndpointResolverParams :=
  match downcast (T_Input Op_GetJob) input with
  | Some _ => built_endpoint_params
  | None => Err "failed to downcast to GetJobInput"
  end.
Definition GetJob_plugin : RuntimePlugin :=
  operation_plugin Op_GetJob "GetJob" get_job_serialize_input get_job_deserialize.
Definition get_job_operation_runtime_plugins := with_override GetJob_plugin.
Definition get_job_orchestrate_with_stop_point :=
  orchestrate_to Op_GetJob "GetJob".
Definition get_job_orchestrate := orchestrate_operation Op_GetJob "GetJob".
Definition GetJobFluentBuilder : Type := FluentBuilder GetJobInput.
Definition client_get_job (h : Handle) : GetJobFluentBuilder :=
  fluent_builder get_job_none h.
Definition get_job_fluent_call : GetJobFluentBuilder → GetJobCall → GetJobFluentBuilder :=
  fluent_call get_job_call.
Definition get_job_fluent_send (f : GetJobFluentBuilder) :=
  fluent_send get_job_build get_job_operation_runtime_plugins
    get_job_orchestrate f.
Definition get_job_send_with (b : GetJobInput) (h : Handle) :=
  get_job_fluent_send (with_inner b (client_get_job h)).
Definition get_job_customize (f : GetJobFluentBuilder) := customizable f.
Definition get_job_send_overridden := send_overridden get_job_fluent_send.

(** *** UpdateJob *)

Definition update_job_deserialize : Deserializer := λ r,
  type_erase_result Op_UpdateJob (update_job_response r).
Definition update_job_serialize_input : Serializer := λ input,
  match downcast (T_Input Op_UpdateJob) input with
  | Some input => update_job_request input
  | None => Panic 5
  end.
Definition update_job_read_telemetry (requested : option RequestedTelemetry)
    (input : Erased) : option (list (string * string)) :=
  match downcast (T_Input Op_UpdateJob) input with
  | Some input => update_job_captured requested input
  | None => None
  end.
Definition update_job_endpoint_params (input : Erased) : res string EndpointResolverParams :=
  match downcast (T_Input Op_UpdateJob) input with
  | Some _ => built_endpoint_params
  | None => Err "failed to downcast to UpdateJobInput"
  end.
Definition UpdateJob_plugin : RuntimePlugin :=
  operation_plugin Op_UpdateJob "UpdateJob" update_job_serialize_input update_job_deserialize.
Definition update_job_operation_runtime_plugins := with_override UpdateJob_plugin.
Definition update_job_orchestrate_with_stop_point :=
  orchestrate_to Op_UpdateJob "UpdateJob".
Definition update_job_orchestrate := orchestrate_operation Op_UpdateJob "UpdateJob".
Definition UpdateJobFluentBuilder : Type := FluentBuilder UpdateJobInput.
Definition client_update_job (h : Handle) : UpdateJobFluentBuilder :=
  fluent_builder update_job_none h.
Definition update_job_fluent_call : UpdateJobFluentBuilder → UpdateJobCall → UpdateJobFluentBuilder :=
  fluent_call update_job_call.
Definition update_job_fluent_send (f : UpdateJobFluentBuilder) :=
  fluent_send update_job_build update_job_operation_runtime_plugins
    update_job_orchestrate f.
Definition update_job_send_with (b : UpdateJobInput) (h : Handle) :=
  update_job_fluent_send (with_inner b (client_update_job h)).
Definition update_job_customize (f : UpdateJobFluentBuilder) := customizable f.
Definition update_job_send_overridden := send_overridden update_job_fluent_send.

(** *** CancelJob *)

Definition cancel_job_deserialize : Deserializer := λ r,
  type_erase_result Op_CancelJob (cancel_job_response r).
Definition cancel_job_serialize_input : Serializer := λ input,
  match downcast (T_Input Op_CancelJob) input with
  | Some input => cancel_job_request input
  | None => Panic 5
  end.
Definition cancel_job_read_telemetry (requested : option RequestedTelemetry)
    (input : Erased) : option (list (string * string)) :=
  match downcast (T_Input Op_CancelJob) input with
  | Some input => cancel_job_captured requested input
  | None => None
  end.
Definition cancel_job_endpoint_params (input : Erased) : res string EndpointResolverParams :=
  match downcast (T_Input Op_CancelJob) input with
  | Some _ => built_endpoint_params
  | None => Err "failed to downcast to CancelJobInput"
  end.
Definition CancelJob_plugin : RuntimePlugin :=
  operation_plugin Op_CancelJob "CancelJob" cancel_job_serialize_input cancel_job_deserialize.
Definition cancel_job_operation_runtime_plugins := with_override CancelJob_plugin.
Definition cancel_job_orchestrate_with_stop_point :=
  orchestrate_to Op_CancelJob "CancelJob".
Definition cancel_job_orchestrate := orchestrate_operation Op_CancelJob "CancelJob".
Definition CancelJobFluentBuilder : Type := FluentBuilder CancelJobInput.
Definition client_cancel_job (h : Handle) : CancelJobFluentBuilder :=
  fluent_builder cancel_job_none h.
Definition cancel_job_fluent_call : CancelJobFluentBuilder → CancelJobCall → CancelJobFluentBuilder :=
  fluent_call cancel_job_call.
Definition cancel_job_fluent_send (f : CancelJobFluentBuilder) :=
  fluent_send cancel_job_build cancel_job_operation_runtime_plugins
    cancel_job_orchestrate f.
Definition cancel_job_send_with (b : CancelJobInput) (h : Handle) :=
  cancel_job_fluent_send (with_inner b (client_cancel_job h)).
Definition cancel_job_customize (f : CancelJobFluentBuilder) := customizable f.
Definition cancel_job_send_overridden := send_overridden cancel_job_fluent_send.

(** *** GetJobStatus *)

Definition get_job_status_deserialize : Deserializer := λ r,
  type_erase_result Op_GetJobStatus (get_job_status_response r).
Definition get_job_status_serialize_input : Serializer := λ input,
  match downcast (T_Input Op_GetJobStatus) input with
  | Some input => get_job_status_request input
  | None => Panic 5
  end.
Definition get_job_status_read_telemetry (requested : option RequestedTelemetry)
    (input : Erased) : option (list (string * string)) :=
  match downcast (T_Input Op_GetJobStatus) input with
  | Some input => get_job_status_captured requested input
  | None => None
  end.
Definition get_job_status_endpoint_params (input : Erased) : res string EndpointResolverParams :=
  match downcast (T_Input Op_GetJobStatus) input with
  | Some _ => built_endpoint_params
  | None => Err "failed to downcast to GetJobStatusInput"
  end.
Definition GetJobStatus_plugin : RuntimePlugin :=
  operation_plugin Op_GetJobStatus "GetJobStatus" get_job_status_serialize_input get_job_status_deserialize.
Definition get_job_status_operation_runtime_plugins := with_override GetJobStatus_plugin.
Definition get_job_status_orchestrate_with_stop_point :=
  orchestrate_to Op_GetJobStatus "GetJobStatus".
Definition get_job_status_orchestrate := orchestrate_operation Op_GetJobStatus "GetJobStatus".
Definition GetJobStatusFluentBuilder : Type := FluentBuilder GetJobStatusInput.
Definition client_get_job_status (h : Handle) : GetJobStatusFluentBuilder :=
  fluent_builder get_job_status_none h.
Definition get_job_status_fluent_call : GetJobStatusFluentBuilder → GetJobStatusCall → GetJobStatusFluentBuilder :=
  fluent_call get_job_status_call.
Definition get_job_status_fluent_send (f : GetJobStatusFluentBuilder) :=
  fluent_send get_job_status_build get_job_status_operation_runtime_plugins
    get_job_status_orchestrate f.
Definition get_job_status_send_with (b : GetJobStatusInput) (h : Handle) :=
  get_job_status_fluent_send (with_inner b (client_get_job_status h)).
Definition get_job_status_customize (f : GetJobStatusFluentBuilder) := customizable f.
Definition get_job_status_send_overridden := send_overridden get_job_status_fluent_send.

(** *** GetJobVersions *)

Definition get_job_versions_deserialize : Deserializer := λ r,
  type_erase_result Op_GetJobVersions (get_job_versions_response r).
Definition get_job_versions_serialize_input : Serializer := λ input,
  match downcast (T_Input Op_GetJobVersions) input with
  | Some input => get_job_versions_request input
  | None => Panic 5
  end.
Definition get_job_versions_read_telemetry (requested : option RequestedTelemetry)
    (input : Erased) : option (list (string * string)) :=
  match downcast (T_Input Op_GetJobVersions) input with
  | Some input => get_job_versions_captured requested input
  | None => None
  end.
Definition get_job_versions_endpoint_params (input : Erased) : res string EndpointResolverParams :=
  match downcast (T_Input Op_GetJobVersions) input with
  | Some _ => built_endpoint_params
  | None => Err "failed to downcast to GetJobVersionsInput"
  end.
Definition GetJobVersions_plugin : RuntimePlugin :=
  operation_plugin Op_GetJobVersions "GetJobVersions" get_job_versions_serialize_input get_job_versions_deserialize.
Definition get_job_versions_operation_runtime_plugins := with_override GetJobVersions_plugin.
Definition get_job_versions_orchestrate_with_stop_point :=
  orchestrate_to Op_GetJobVersions "GetJobVersions".
Definition get_job_versions_orchestrate := orchestrate_operation Op_GetJobVersions "GetJobVersions".
Definition GetJobVersionsFluentBuilder : Type := FluentBuilder GetJobVersionsInput.
Definition client_get_job_versions (h : Handle) : GetJobVersionsFluentBuilder :=
  fluent_builder get_job_versions_none h.
Definition get_job_versions_fluent_call : GetJobVersionsFluentBuilder → GetJobVersionsCall → GetJobVersionsFluentBuilder :=
  fluent_call get_job_versions_call.
Definition get_job_versions_fluent_send (f : GetJobVersionsFluentBuilder) :=
  fluent_send get_job_versions_build get_job_versions_operation_runtime_plugins
    get_job_versions_orchestrate f.
Definition get_job_versions_send_with (b : GetJobVersionsInput) (h : Handle) :=
  get_job_versions_fluent_send (with_inner b (client_get_job_versions h)).
Definition get_job_versions_customize (f : GetJobVersionsFluentBuilder) := customizable f.
Definition get_job_versions_send_overridden := send_overridden get_job_versions_fluent_send.

(** *** ListJobExecutions *)

Definition list_job_executions_deserialize : Deserializer := λ r,
  type_erase_result Op_ListJobExecutions (list_job_executions_response r).
Definition list_job_executions_serialize_input : Serializer := λ input,
  match downcast (T_Input Op_ListJobExecutions) input with
  | Some input => list_job_executions_request input
  | None => Panic 5
  end.
Definition list_job_executions_read_telemetry (requested : option RequestedTelemetry)
    (input : Erased) : option (list (string * string)) :=
  match downcast (T_Input Op_ListJobExecutions) input with
  | Some input => list_job_executions_captured requested input
  | None => None
  end.
Definition list_job_executions_endpoint_params (input : Erased) : res string EndpointResolverParams :=
  match downcast (T_Input Op_ListJobExecutions) input with
  | Some _ => built_endpoint_params
  | None => Err "failed to downcast to ListJobExecutionsInput"
  end.
Definition ListJobExecutions_plugin : RuntimePlugin :=
  operation_plugin Op_ListJobExecutions "ListJobExecutions" list_job_executions_serialize_input list_job_executions_deserialize.
Definition list_job_executions_operation_runtime_plugins := with_override ListJobExecutions_plugin.
Definition list_job_executions_orchestrate_with_stop_point :=
  orchestrate_to Op_ListJobExecutions "ListJobExecutions".
Definition list_job_executions_orchestrate := orchestrate_operation Op_ListJobExecutions "ListJobExecutions".
Definition ListJobExecutionsFluentBuilder : Type := FluentBuilder ListJobExecutionsInput.
Definition client_list_job_executions (h : Handle) : ListJobExecutionsFluentBuilder :=
  fluent_builder list_job_executions_none h.
Definition list_job_executions_fluent_call : ListJobExecutionsFluentBuilder → ListJobExecutionsCall → ListJobExecutionsFluentBuilder :=
  fluent_call list_job_executions_call.
Definition list_job_executions_fluent_send (f : ListJobExecutionsFluentBuilder) :=
  fluent_send list_job_executions_build list_job_executions_operation_runtime_plugins
    list_job_executions_orchestrate f.
Definition list_job_executions_send_with (b : ListJobExecutionsInput) (h : Handle) :=
  list_job_executions_fluent_send (with_inner b (client_list_job_executions h)).
Definition list_job_executions_customize (f : ListJobExecutionsFluentBuilder) := customizable f.
Definition list_job_executions_send_overridden := send_overridden list_job_executions_fluent_send.

(** *** GetExecution *)

Definition get_execution_deserialize : Deserializer := λ r,
  type_erase_result Op_GetExecution (get_execution_response r).
Definition get_execution_serialize_input : Serializer := λ input,
  match downcast (T_Input Op_GetExecution) input with
  | Some input => get_execution_request input
  | None => Panic 5
  end.
Definition get_execution_read_telemetry (requested : option RequestedTelemetry)
    (input : Erased) : option (list (string * string)) :=
  match downcast (T_Input Op_GetExecution) input with
  | Some input => get_execution_captured requested input
  | None => None
  end.
Definition get_execution_endpoint_params (input : Erased) : res string EndpointResolverParams :=
  match downcast (T_Input Op_GetExecution) input with
  | Some _ => built_endpoint_params
  | None => Err "failed to downcast to GetExecutionInput"
  end.
Definition GetExecution_plugin : RuntimePlugin :=
  operation_plugin Op_GetExecution "GetExecution" get_execution_serialize_input get_execution_deserialize.
Definition get_execution_operation_runtime_plugins := with_override GetExecution_plugin.
Definition get_execution_orchestrate_with_stop_point :=
  orchestrate_to Op_GetExecution "GetExecution".
Definition get_execution_orchestrate := orchestrate_operation Op_GetExecution "GetExecution".
Definition GetExecutionFluentBuilder : Type := FluentBuilder GetExecutionInput.
Definition client_get_execution (h : Handle) : GetExecutionFluentBuilder :=
  fluent_builder get_execution_none h.
Definition get_execution_fluent_call : GetExecutionFluentBuilder → GetExecutionCall → GetExecutionFluentBuilder :=
  fluent_call get_execution_call.
Definition get_execution_fluent_send (f : GetExecutionFluentBuilder) :=
  fluent_send get_execution_build get_execution_operation_runtime_plugins
    get_execution_orchestrate f.
Definition get_execution_send_with (b : GetExecutionInput) (h : Handle) :=
  get_execution_fluent_send (with_inner b (client_get_execution h)).
Definition get_execution_customize (f : GetExecutionFluentBuilder) := customizable f.
Definition get_execution_send_overridden := send_overridden get_execution_fluent_send.

(** *** CancelExecution *)

Definition cancel_execution_deserialize : Deserializer := λ r,
  type_erase_result Op_CancelExecution (cancel_execution_response r).
Definition cancel_execution_serialize_input : Serializer := λ input,
  match downcast (T_Input Op_CancelExecution) input with
  | Some input => cancel_execution_request input
  | None => Panic 5
  end.
Definition cancel_execution_read_telemetry (requested : option RequestedTelemetry)
    (input : Erased) : option (list (string * string)) :=
  match downcast (T_Input Op_CancelExecution) input with
  | Some input => cancel_execution_captured requested input
  | None => None
  end.
Definition cancel_execution_endpoint_params (input : Erased) : res string EndpointResolverParams :=
  match downcast (T_Input Op_CancelExecution) input with
  | Some _ => built_endpoint_params
  | None => Err "failed to downcast to CancelExecutionInput"
  end.
Definition CancelExecution_plugin : RuntimePlugin :=
  operation_plugin Op_CancelExecution "CancelExecution" cancel_execution_serialize_input cancel_execution_deserialize.
Definition cancel_execution_operation_runtime_plugins := with_override CancelExecution_plugin.
Definition cancel_execution_orchestrate_with_stop_point :=
  orchestrate_to Op_CancelExecution "CancelExecution".
Definition cancel_execution_orchestrate := orchestrate_operation Op_CancelExecution "CancelExecution".
Definition CancelExecutionFluentBuilder : Type := FluentBuilder CancelExecutionInput.
Definition client_cancel_execution (h : Handle) : CancelExecutionFluentBuilder :=
  fluent_builder cancel_execution_none h.
Definition cancel_execution_fluent_call : CancelExecutionFluentBuilder → CancelExecutionCall → CancelExecutionFluentBuilder :=
  fluent_call cancel_execution_call.
Definition cancel_execution_fluent_send (f : CancelExecutionFluentBuilder) :=
  fluent_send cancel_execution_build cancel_execution_operation_runtime_plugins
    cancel_execution_orchestrate f.
Definition cancel_execution_send_with (b : CancelExecutionInput) (h : Handle) :=
  cancel_execution_fluent_send (with_inner b (client_cancel_execution h)).
Definition cancel_execution_customize (f : CancelExecutionFluentBuilder) := customizable f.
Definition cancel_execution_send_overridden := send_overridden cancel_execution_fluent_send.

(** *** ListExecutionAttempts *)

Definition list_execution_attempts_deserialize : Deserializer := λ r,
  type_erase_result Op_ListExecutionAttempts (list_execution_attempts_response r).
Definition list_execution_attempts_serialize_input : Serializer := λ input,
  match downcast (T_Input Op_ListExecutionAttempts) input with
  | Some input => list_execution_attempts_request input
  | None => Panic 5
  end.
Definition list_execution_attempts_read_telemetry (requested : option RequestedTelemetry)
    (input : Erased) : option (list (string * string)) :=
  match downcast (T_Input Op_ListExecutionAttempts) input with
  | Some input => list_execution_attempts_captured requested input
  | None => None
  end.
Definition list_execution_attempts_endpoint_params (input : Erased) : res string EndpointResolverParams :=
  match downcast (T_Input Op_ListExecutionAttempts) input with
  | Some _ => built_endpoint_params
  | None => Err "failed to downcast to ListExecutionAttemptsInput"
  end.
Definition ListExecutionAttempts_plugin : RuntimePlugin :=
  operation_plugin Op_ListExecutionAttempts "ListExecutionAttempts" list_execution_attempts_serialize_input list_execution_attempts_deserialize.
Definition list_execution_attempts_operation_runtime_plugins := with_override ListExecutionAttempts_plugin.
Definition list_execution_attempts_orchestrate_with_stop_point :=
  orchestrate_to Op_ListExecutionAttempts "ListExecutionAttempts".
Definition list_execution_attempts_orchestrate := orchestrate_operation Op_ListExecutionAttempts "ListExecutionAttempts".
Definition ListExecutionAttemptsFluentBuilder : Type := FluentBuilder ListExecutionAttemptsInput.
Definition client_list_execution_attempts (h : Handle) : ListExecutionAttemptsFluentBuilder :=
  fluent_builder list_execution_attempts_none h.
Definition list_execution_attempts_fluent_call : ListExecutionAttemptsFluentBuilder → ListExecutionAttemptsCall → ListExecutionAttemptsFluentBuilder :=
  fluent_call list_execution_attempts_call.
Definition list_execution_attempts_fluent_send (f : ListExecutionAttemptsFluentBuilder) :=
  fluent_send list_execution_attempts_build list_execution_attempts_operation_runtime_plugins
    list_execution_attempts_orchestrate f.
Definition list_execution_attempts_send_with (b : ListExecutionAttemptsInput) (h : Handle) :=
  list_execution_attempts_fluent_send (with_inner b (client_list_execution_attempts h)).
Definition list_execution_attempts_customize (f : ListExecutionAttemptsFluentBuilder) := customizable f.
Definition list_execution_attempts_send_overridden := send_overridden list_execution_attempts_fluent_send.

(** *** ListExecutionLogs *)

Definition list_execution_logs_deserialize : Deserializer := λ r,
  type_erase_result Op_ListExecutionLogs (list_execution_logs_response r).
Definition list_execution_logs_serialize_input : Serializer := λ input,
  match downcast (T_Input Op_ListExecutionLogs) input with
  | Some input => list_execution_logs_request input
  | None => Panic 5
  end.
Definition list_execution_logs_read_telemetry (requested : option RequestedTelemetry)
    (input : Erased) : option (list (string * string)) :=
  match downcast (T_Input Op_ListExecutionLogs) input with
  | Some input => list_execution_logs_captured requested input
  | None => None
  end.
Definition list_execution_logs_endpoint_params (input : Erased) : res string EndpointResolverParams :=
  match downcast (T_Input Op_ListExecutionLogs) input with
  | Some _ => built_endpoint_params
  | None => Err "failed to downcast to ListExecutionLogsInput"
  end.
Definition ListExecutionLogs_plugin : RuntimePlugin :=
  operation_plugin Op_ListExecutionLogs "ListExecutionLogs" list_execution_logs_serialize_input list_execution_logs_deserialize.
Definition list_execution_logs_operation_runtime_plugins := with_override ListExecutionLogs_plugin.
Definition list_execution_logs_orchestrate_with_stop_point :=
  orchestrate_to Op_ListExecutionLogs "ListExecutionLogs".
Definition list_execution_logs_orchestrate := orchestrate_operation Op_ListExecutionLogs "ListExecutionLogs".
Definition ListExecutionLogsFluentBuilder : Type := FluentBuilder ListExecutionLogsInput.
Definition client_list_execution_logs (h : Handle) : ListExecutionLogsFluentBuilder :=
  fluent_builder list_execution_logs_none h.
Definition list_execution_logs_fluent_call : ListExecutionLogsFluentBuilder → ListExecutionLogsCall → ListExecutionLogsFluentBuilder :=
  fluent_call list_execution_logs_call.
Definition list_execution_logs_fluent_send (f : ListExecutionLogsFluentBuilder) :=
  fluent_send list_execution_logs_build list_execution_logs_operation_runtime_plugins
    list_execution_logs_orchestrate f.
Definition list_execution_logs_send_with (b : ListExecutionLogsInput) (h : Handle) :=
  list_execution_logs_fluent_send (with_inner b (client_list_execution_logs h)).
Definition list_execution_logs_customize (f : ListExecutionLogsFluentBuilder) := customizable f.
Definition list_execution_logs_send_overridden := send_overridden list_execution_logs_fluent_send.

(** *** CreateEndpoint *)

Definition create_endpoint_deserialize : Deserializer := λ r,
  type_erase_result Op_CreateEndpoint (create_endpoint_response r).
Definition create_endpoint_serialize_input : Serializer := λ input,
  match downcast (T_Input Op_CreateEndpoint) input with
  | Some input => create_endpoint_request input
  | None => Panic 5
  end.
Definition create_endpoint_read_telemetry (requested : option RequestedTelemetry)
    (input : Erased) : option (list (string * string)) :=
  match downcast (T_Input Op_CreateEndpoint) input with
  | Some input => create_endpoint_captured requested input
  | None => None
  end.
Definition create_endpoint_endpoint_params (input : Erased) : res string EndpointResolverParams :=
  match downcast (T_Input Op_CreateEndpoint) input with
  | Some _ => built_endpoint_params
  | None => Err "failed to downcast to CreateEndpointInput"
  end.
Definition CreateEndpoint_plugin : RuntimePlugin :=
  operation_plugin Op_CreateEndpoint "CreateEndpoint" create_endpoint_serialize_input create_endpoint_deserialize.
Definition create_endpoint_operation_runtime_plugins := with_override CreateEndpoint_plugin.
Definition create_endpoint_orchestrate_with_stop_point :=
  orchestrate_to Op_CreateEndpoint "CreateEndpoint".
Definition create_endpoint_orchestrate := orchestrate_operation Op_CreateEndpoint "CreateEndpoint".
Definition CreateEndpointFluentBuilder : Type := FluentBuilder CreateEndpointInput.
Definition client_create_endpoint (h : Handle) : CreateEndpointFluentBuilder :=
  fluent_builder create_endpoint_none h.
Definition create_endpoint_fluent_call : CreateEndpointFluentBuilder → CreateEndpointCall → CreateEndpointFluentBuilder :=
  fluent_call create_endpoint_call.
Definition create_endpoint_fluent_send (f : CreateEndpointFluentBuilder) :=
  fluent_send create_endpoint_build create_endpoint_operation_runtime_plugins
    create_endpoint_orchestrate f.
Definition create_endpoint_send_with (b : CreateEndpointInput) (h : Handle) :=
  create_endpoint_fluent_send (with_inner b (client_create_endpoint h)).
Definition create_endpoint_customize (f : CreateEndpointFluentBuilder) := customizable f.
Definition create_endpoint_send_overridden := send_overridden create_endpoint_fluent_send.

(** *** ListEndpoints *)

Definition list_endpoints_deserialize : Deserializer := λ r,
  type_erase_result Op_ListEndpoints (list_endpoints_response r).
Definition list_endpoints_serialize_input : Serializer := λ input,
  match downcast (T_Input Op_ListEndpoints) input with
  | Some input => list_endpoints_request input
  | None => Panic 5
  end.
Definition list_endpoints_read_telemetry (requested : option RequestedTelemetry)
    (input : Erased) : option (list (string * string)) :=
  match downcast (T_Input Op_ListEndpoints) input with
  | Some input => list_endpoints_captured requested input
  | None => None
  end.
Definition list_endpoints_endpoint_params (input : Erased) : res string EndpointResolverParams :=
  match downcast (T_Input Op_ListEndpoints) input with
  | Some _ => built_endpoint_params
  | None => Err "failed to downcast to ListEndpointsInput"
  end.
Definition ListEndpoints_plugin : RuntimePlugin :=
  operation_plugin Op_ListEndpoints "ListEndpoints" list_endpoints_serialize_input list_endpoints_deserialize.
Definition list_endpoints_operation_runtime_plugins := with_override ListEndpoints_plugin.
Definition list_endpoints_orchestrate_with_stop_point :=
  orchestrate_to Op_ListEndpoints "ListEndpoints".
Definition list_endpoints_orchestrate := orchestrate_operation Op_ListEndpoints "ListEndpoints".
Definition ListEndpointsFluentBuilder : Type := FluentBuilder ListEndpointsInput.
Definition client_list_endpoints (h : Handle) : ListEndpointsFluentBuilder :=
  fluent_builder list_endpoints_none h.
Definition list_endpoints_fluent_call : ListEndpointsFluentBuilder → ListEndpointsCall → ListEndpointsFluentBuilder :=
  fluent_call list_endpoints_call.
Definition list_endpoints_fluent_send (f : ListEndpointsFluentBuilder) :=
  fluent_send list_endpoints_build list_endpoints_operation_runtime_plugins
    list_endpoints_orchestrate f.
Definition list_endpoints_send_with (b : ListEndpointsInput) (h : Handle) :=
  list_endpoints_fluent_send (with_inner b (client_list_endpoints h)).
Definition list_endpoints_customize (f : ListEndpointsFluentBuilder) := customizable f.
Definition list_endpoints_send_overridden := send_overridden list_endpoints_fluent_send.

(** *** GetEndpoint *)

Definition get_endpoint_deserialize : Deserializer := λ r,
  type_erase_result Op_GetEndpoint (get_endpoint_response r).
Definition get_endpoint_serialize_input : Serializer := λ input,
  match downcast (T_Input Op_GetEndpoint) input with
  | Some input => get_endpoint_request input
  | None => Panic 5
  end.
Definition get_endpoint_read_telemetry (requested : option RequestedTelemetry)
    (input : Erased) : option (list (string * string)) :=
  match downcast (T_Input Op_GetEndpoint) input with
  | Some input => get_endpoint_captured requested input
  | None => None
  end.
Definition get_endpoint_endpoint_params (input : Erased) : res string EndpointResolverParams :=
  match downcast (T_Input Op_GetEndpoint) input with
  | Some _ => built_endpoint_params
  | None => Err "failed to downcast to GetEndpointInput"
  end.
Definition GetEndpoint_plugin : RuntimePlugin :=
  operation_plugin Op_GetEndpoint "GetEndpoint" get_endpoint_serialize_input get_endpoint_deserialize.
Definition get_endpoint_operation_runtime_plugins := with_override GetEndpoint_plugin.
Definition get_endpoint_orchestrate_with_stop_point :=
  orchestrate_to Op_GetEndpoint "GetEndpoint".
Definition get_endpoint_orchestrate := orchestrate_operation Op_GetEndpoint "GetEndpoint".
Definition GetEndpointFluentBuilder : Type := FluentBuilder GetEndpointInput.
Definition client_get_endpoint (h : Handle) : GetEndpointFluentBuilder :=
  fluent_builder get_endpoint_none h.
Definition get_endpoint_fluent_call : GetEndpointFluentBuilder → GetEndpointCall → GetEndpointFluentBuilder :=
  fluent_call get_endpoint_call.
Definition get_endpoint_fluent_send (f : GetEndpointFluentBuilder) :=
  fluent_send get_endpoint_build get_endpoint_operation_runtime_plugins
    get_endpoint_orchestrate f.
Definition get_endpoint_send_with (b : GetEndpointInput) (h : Handle) :=
  get_endpoint_fluent_send (with_inner b (client_get_endpoint h)).
Definition get_endpoint_customize (f : GetEndpointFluentBuilder) := customizable f.
Definition get_endpoint_send_overridden := send_overridden get_endpoint_fluent_send.

(** *** UpdateEndpoint *)

Definition update_endpoint_deserialize : Deserializer := λ r,
  type_erase_result Op_UpdateEndpoint (update_endpoint_response r).
Definition update_endpoint_serialize_input : Serializer := λ input,
  match downcast (T_Input Op_UpdateEndpoint) input with
  | Some input => update_endpoint_request input
  | None => Panic 5
  end.
Definition update_endpoint_read_telemetry (requested : option RequestedTelemetry)
    (input : Erased) : option (list (string * string)) :=
  match downcast (T_Input Op_UpdateEndpoint) input with
  | Some input => update_endpoint_captured requested input
  | None => None
  end.
Definition update_endpoint_endpoint_params (input : Erased) : res string EndpointResolverParams :=
  match downcast (T_Input Op_UpdateEndpoint) input with
  | Some _ => built_endpoint_params
  | None => Err "failed to downcast to UpdateEndpointInput"
  end.
Definition UpdateEndpoint_plugin : RuntimePlugin :=
  operation_plugin Op_UpdateEndpoint "UpdateEndpoint" update_endpoint_serialize_input update_endpoint_deserialize.
Definition update_endpoint_operation_runtime_plugins := with_override UpdateEndpoint_plugin.
Definition update_endpoint_orchestrate_with_stop_point :=
  orchestrate_to Op_UpdateEndpoint "UpdateEndpoint".
Definition update_endpoint_orchestrate := orchestrate_operation Op_UpdateEndpoint "UpdateEndpoint".
Definition UpdateEndpointFluentBuilder : Type := FluentBuilder UpdateEndpointInput.
Definition client_update_endpoint (h : Handle) : UpdateEndpointFluentBuilder :=
  fluent_builder update_endpoint_none h.
Definition update_endpoint_fluent_call : UpdateEndpointFluentBuilder → UpdateEndpointCall → UpdateEndpointFluentBuilder :=
  fluent_call update_endpoint_call.
Definition update_endpoint_fluent_send (f : UpdateEndpointFluentBuilder) :=
  fluent_send update_endpoint_build update_endpoint_operation_runtime_plugins
    update_endpoint_orchestrate f.
Definition update_endpoint_send_with (b : UpdateEndpointInput) (h : Handle) :=
  update_endpoint_fluent_send (with_inner b (client_update_endpoint h)).
Definition update_endpoint_customize (f : UpdateEndpointFluentBuilder) := customizable f.
Definition update_endpoint_send_overridden := send_overridden update_endpoint_fluent_send.

(** *** DeleteEndpoint *)

Definition delete_endpoint_deserialize : Deserializer := λ r,
  type_erase_result Op_DeleteEndpoint (delete_endpoint_response r).
Definition delete_endpoint_serialize_input : Serializer := λ input,
  match downcast (T_Input Op_DeleteEndpoint) input with
  | Some input => delete_endpoint_request input
  | None => Panic 5
  end.
Definition delete_endpoint_read_telemetry (requested : option RequestedTelemetry)
    (input : Erased) : option (list (string * string)) :=
  match downcast (T_Input Op_DeleteEndpoint) input with
  | Some input => delete_endpoint_captured requested input
  | None => None
  end.
Definition delete_endpoint_endpoint_params (input : Erased) : res string EndpointResolverParams :=
  match downcast (T_Input Op_DeleteEndpoint) input with
  | Some _ => built_endpoint_params
  | None => Err "failed to downcast to DeleteEndpointInput"
  end.
Definition DeleteEndpoint_plugin : RuntimePlugin :=
  operation_plugin Op_DeleteEndpoint "DeleteEndpoint" delete_endpoint_serialize_input delete_endpoint_deserialize.
Definition delete_endpoint_operation_runtime_plugins := with_override DeleteEndpoint_plugin.
Definition delete_endpoint_orchestrate_with_stop_point :=
  orchestrate_to Op_DeleteEndpoint "DeleteEndpoint".
Definition delete_endpoint_orchestrate := orchestrate_operation Op_DeleteEndpoint "DeleteEndpoint".
Definition DeleteEndpointFluentBuilder : Type := FluentBuilder DeleteEndpointInput.
Definition client_delete_endpoint (h : Handle) : DeleteEndpointFluentBuilder :=
  fluent_builder delete_endpoint_none h.
Definition delete_endpoint_fluent_call : DeleteEndpointFluentBuilder → DeleteEndpointCall → DeleteEndpointFluentBuilder :=
  fluent_call delete_endpoint_call.
Definition delete_endpoint_fluent_send (f : DeleteEndpointFluentBuilder) :=
  fluent_send delete_endpoint_build delete_endpoint_operation_runtime_plugins
    delete_endpoint_orchestrate f.
Definition delete_endpoint_send_with (b : DeleteEndpointInput) (h : Handle) :=
  delete_endpoint_fluent_send (with_inner b (client_delete_endpoint h)).
Definition delete_endpoint_customize (f : DeleteEndpointFluentBuilder) := customizable f.
Definition delete_endpoint_send_overridden := send_overridden delete_endpoint_fluent_send.

(** *** CreatePayloadSpec *)

Definition create_payload_spec_deserialize : Deserializer := λ r,
  type_erase_result Op_CreatePayloadSpec (create_payload_spec_response r).
Definition create_payload_spec_serialize_input : Serializer := λ input,
  match downcast (T_Input Op_CreatePayloadSpec) input with
  | Some input => create_payload_spec_request input
  | None => Panic 5
  end.
Definition create_payload_spec_read_telemetry (requested : option RequestedTelemetry)
    (input : Erased) : option (list (string * string)) :=
  match downcast (T_Input Op_CreatePayloadSpec) input with
  | Some input => create_payload_spec_captured requested input
  | None => None
  end.
Definition create_payload_spec_endpoint_params (input : Erased) : res string EndpointResolverParams :=
  match downcast (T_Input Op_CreatePayloadSpec) input with
  | Some _ => built_endpoint_params
  | None => Err "failed to downcast to CreatePayloadSpecInput"
  end.
Definition CreatePayloadSpec_plugin : RuntimePlugin :=
  operation_plugin Op_CreatePayloadSpec "CreatePayloadSpec" create_payload_spec_serialize_input create_payload_spec_deserialize.
Definition create_payload_spec_operation_runtime_plugins := with_override CreatePayloadSpec_plugin.
Definition create_payload_spec_orchestrate_with_stop_point :=
  orchestrate_to Op_CreatePayloadSpec "CreatePayloadSpec".
Definition create_payload_spec_orchestrate := orchestrate_operation Op_CreatePayloadSpec "CreatePayloadSpec".
Definition CreatePayloadSpecFluentBuilder : Type := FluentBuilder CreatePayloadSpecInput.
Definition client_create_payload_spec (h : Handle) : CreatePayloadSpecFluentBuilder :=
  fluent_builder create_payload_spec_none h.
Definition create_payload_spec_fluent_call : CreatePayloadSpecFluentBuilder → CreatePayloadSpecCall → CreatePayloadSpecFluentBuilder :=
  fluent_call create_payload_spec_call.
Definition create_payload_spec_fluent_send (f : CreatePayloadSpecFluentBuilder) :=
  fluent_send create_payload_spec_build create_payload_spec_operation_runtime_plugins
    create_payload_spec_orchestrate f.
Definition create_payload_spec_send_with (b : CreatePayloadSpecInput) (h : Handle) :=
  create_payload_spec_fluent_send (with_inner b (client_create_payload_spec h)).
Definition create_payload_spec_customize (f : CreatePayloadSpecFluentBuilder) := customizable f.
Definition create_payload_spec_send_overridden := send_overridden create_payload_spec_fluent_send.

(** *** ListPayloadSpecs *)

Definition list_payload_specs_deserialize : Deserializer := λ r,
  type_erase_result Op_ListPayloadSpecs (list_payload_specs_response r).
Definition list_payload_specs_serialize_input : Serializer := λ input,
  match downcast (T_Input Op_ListPayloadSpecs) input with
  | Some input => list_payload_specs_request input
  | None => Panic 5
  end.
Definition list_payload_specs_read_telemetry (requested : option RequestedTelemetry)
    (input : Erased) : option (list (string * string)) :=
  match downcast (T_Input Op_ListPayloadSpecs) input with
  | Some input => list_payload_specs_captured requested input
  | None => None
  end.
Definition list_payload_specs_endpoint_params (input : Erased) : res string EndpointResolverParams :=
  match downcast (T_Input Op_ListPayloadSpecs) input with
  | Some _ => built_endpoint_params
  | None => Err "failed to downcast to ListPayloadSpecsInput"
  end.
Definition ListPayloadSpecs_plugin : RuntimePlugin :=
  operation_plugin Op_ListPayloadSpecs "ListPayloadSpecs" list_payload_specs_serialize_input list_payload_specs_deserialize.
Definition list_payload_specs_operation_runtime_plugins := with_override ListPayloadSpecs_plugin.
Definition list_payload_specs_orchestrate_with_stop_point :=
  orchestrate_to Op_ListPayloadSpecs "ListPayloadSpecs".
Definition list_payload_specs_orchestrate := orchestrate_operation Op_ListPayloadSpecs "ListPayloadSpecs".
Definition ListPayloadSpecsFluentBuilder : Type := FluentBuilder ListPayloadSpecsInput.
Definition client_list_payload_specs (h : Handle) : ListPayloadSpecsFluentBuilder :=
  fluent_builder list_payload_specs_none h.
Definition list_payload_specs_fluent_call : ListPayloadSpecsFluentBuilder → ListPayloadSpecsCall → ListPayloadSpecsFluentBuilder :=
  fluent_call list_payload_specs_call.
Definition list_payload_specs_fluent_send (f : ListPayloadSpecsFluentBuilder) :=
  fluent_send list_payload_specs_build list_payload_specs_operation_runtime_plugins
    list_payload_specs_orchestrate f.
Definition list_payload_specs_send_with (b : ListPayloadSpecsInput) (h : Handle) :=
  list_payload_specs_fluent_send (with_inner b (client_list_payload_specs h)).
Definition list_payload_specs_customize (f : ListPayloadSpecsFluentBuilder) := customizable f.
Definition list_payload_specs_send_overridden := send_overridden list_payload_specs_fluent_send.

(** *** GetPayloadSpec *)

Definition get_payload_spec_deserialize : Deserializer := λ r,
  type_erase_result Op_GetPayloadSpec (get_payload_spec_response r).
Definition get_payload_spec_serialize_input : Serializer := λ input,
  match downcast (T_Input Op_GetPayloadSpec) input with
  | Some input => get_payload_spec_request input
  | None => Panic 5
  end.
Definition get_payload_spec_read_telemetry (requested : option RequestedTelemetry)
    (input : Erased) : option (list (string * string)) :=
  match downcast (T_Input Op_GetPayloadSpec) input with
  | Some input => get_payload_spec_captured requested input
  | None => None
  end.
Definition get_payload_spec_endpoint_params (input : Erased) : res string EndpointResolverParams :=
  match downcast (T_Input Op_GetPayloadSpec) input with
  | Some _ => built_endpoint_params
  | None => Err "failed to downcast to GetPayloadSpecInput"
  end.
Definition GetPayloadSpec_plugin : RuntimePlugin :=
  operation_plugin Op_GetPayloadSpec "GetPayloadSpec" get_payload_spec_serialize_input get_payload_spec_deserialize.
Definition get_payload_spec_operation_runtime_plugins := with_override GetPayloadSpec_plugin.
Definition get_payload_spec_orchestrate_with_stop_point :=
  orchestrate_to Op_GetPayloadSpec "GetPayloadSpec".
Definition get_payload_spec_orchestrate := orchestrate_operation Op_GetPayloadSpec "GetPayloadSpec".
Definition GetPayloadSpecFluentBuilder : Type := FluentBuilder GetPayloadSpecInput.
Definition client_get_payload_spec (h : Handle) : GetPayloadSpecFluentBuilder :=
  fluent_builder get_payload_spec_none h.
Definition get_payload_spec_fluent_call : GetPayloadSpecFluentBuilder → GetPayloadSpecCall → GetPayloadSpecFluentBuilder :=
  fluent_call get_payload_spec_call.
Definition get_payload_spec_fluent_send (f : GetPayloadSpecFluentBuilder) :=
  fluent_send get_payload_spec_build get_payload_spec_operation_runtime_plugins
    get_payload_spec_orchestrate f.
Definition get_payload_spec_send_with (b : GetPayloadSpecInput) (h : Handle) :=
  get_payload_spec_fluent_send (with_inner b (client_get_payload_spec h)).
Definition get_payload_spec_customize (f : GetPayloadSpecFluentBuilder) := customizable f.
Definition get_payload_spec_send_overridden := send_overridden get_payload_spec_fluent_send.

(** *** UpdatePayloadSpec *)

Definition update_payload_spec_deserialize : Deserializer := λ r,
  type_erase_result Op_UpdatePayloadSpec (update_payload_spec_response r).
Definition update_payload_spec_serialize_input : Serializer := λ input,
  match downcast (T_Input Op_UpdatePayloadSpec) input with
  | Some input => update_payload_spec_request input
  | None => Panic 5
  end.
Definition update_payload_spec_read_telemetry (requested : option RequestedTelemetry)
    (input : Erased) : option (list (string * string)) :=
  match downcast (T_Input Op_UpdatePayloadSpec) input with
  | Some input => update_payload_spec_captured requested input
  | None => None
  end.
Definition update_payload_spec_endpoint_params (input : Erased) : res string EndpointResolverParams :=
  match downcast (T_Input Op_UpdatePayloadSpec) input with
  | Some _ => built_endpoint_params
  | None => Err "failed to downcast to UpdatePayloadSpecInput"
  end.
Definition UpdatePayloadSpec_plugin : RuntimePlugin :=
  operation_plugin Op_UpdatePayloadSpec "UpdatePayloadSpec" update_payload_spec_serialize_input update_payload_spec_deserialize.
Definition update_payload_spec_operation_runtime_plugins := with_override UpdatePayloadSpec_plugin.
Definition update_payload_spec_orchestrate_with_stop_point :=
  orchestrate_to Op_UpdatePayloadSpec "UpdatePayloadSpec".
Definition update_payload_spec_orchestrate := orchestrate_operation Op_UpdatePayloadSpec "UpdatePayloadSpec".
Definition UpdatePayloadSpecFluentBuilder : Type := FluentBuilder UpdatePayloadSpecInput.
Definition client_update_payload_spec (h : Handle) : UpdatePayloadSpecFluentBuilder :=
  fluent_builder update_payload_spec_none h.
Definition update_payload_spec_fluent_call : UpdatePayloadSpecFluentBuilder → UpdatePayloadSpecCall → UpdatePayloadSpecFluentBuilder :=
  fluent_call update_payload_spec_call.
Definition update_payload_spec_fluent_send (f : UpdatePayloadSpecFluentBuilder) :=
  fluent_send update_payload_spec_build update_payload_spec_operation_runtime_plugins
    update_payload_spec_orchestrate f.
Definition update_payload_spec_send_with (b : UpdatePayloadSpecInput) (h : Handle) :=
  update_payload_spec_fluent_send (with_inner b (client_update_payload_spec h)).
Definition update_payload_spec_customize (f : UpdatePayloadSpecFluentBuilder) := customizable f.
Definition update_payload_spec_send_overridden := send_overridden update_payload_spec_fluent_send.

(** *** DeletePayloadSpec *)

Definition delete_payload_spec_deserialize : Deserializer := λ r,
  type_erase_result Op_DeletePayloadSpec (delete_payload_spec_response r).
Definition delete_payload_spec_serialize_input : Serializer := λ input,
  match downcast (T_Input Op_DeletePayloadSpec) input with
  | Some input => delete_payload_spec_request input
  | None => Panic 5
  end.
Definition delete_payload_spec_read_telemetry (requested : option RequestedTelemetry)
    (input : Erased) : option (list (string * string)) :=
  match downcast (T_Input Op_DeletePayloadSpec) input with
  | Some input => delete_payload_spec_captured requested input
  | None => None
  end.
Definition delete_payload_spec_endpoint_params (input : Erased) : res string EndpointResolverParams :=
  match downcast (T_Input Op_DeletePayloadSpec) input with
  | Some _ => built_endpoint_params
  | None => Err "failed to downcast to DeletePayloadSpecInput"
  end.
Definition DeletePayloadSpec_plugin : RuntimePlugin :=
  operation_plugin Op_DeletePayloadSpec "DeletePayloadSpec" delete_payload_spec_serialize_input delete_payload_spec_deserialize.
Definition delete_payload_spec_operation_runtime_plugins := with_override DeletePayloadSpec_plugin.
Definition delete_payload_spec_orchestrate_with_stop_point :=
  orchestrate_to Op_DeletePayloadSpec "DeletePayloadSpec".
Definition delete_payload_spec_orchestrate := orchestrate_operation Op_DeletePayloadSpec "DeletePayloadSpec".
Definition DeletePayloadSpecFluentBuilder : Type := FluentBuilder DeletePayloadSpecInput.
Definition client_delete_payload_spec (h : Handle) : DeletePayloadSpecFluentBuilder :=
  fluent_builder delete_payload_spec_none h.
Definition delete_payload_spec_fluent_call : DeletePayloadSpecFluentBuilder → DeletePayloadSpecCall → DeletePayloadSpecFluentBuilder :=
  fluent_call delete_payload_spec_call.
Definition delete_payload_spec_fluent_send (f : DeletePayloadSpecFluentBuilder) :=
  fluent_send delete_payload_spec_build delete_payload_spec_operation_runtime_plugins
    delete_payload_spec_orchestrate f.
Definition delete_payload_spec_send_with (b : DeletePayloadSpecInput) (h : Handle) :=
  delete_payload_spec_fluent_send (with_inner b (client_delete_payload_spec h)).
Definition delete_payload_spec_customize (f : DeletePayloadSpecFluentBuilder) := customizable f.
Definition delete_payload_spec_send_overridden := send_overridden delete_payload_spec_fluent_send.

Definition sdk_operations : list SdkOperation := [
    {| so_op := Op_CreateJob; so_name := "CreateJob"; so_request := create_job_request;
       so_response := create_job_response;
       so_captured := create_job_captured;
       so_serialize := create_job_serialize_input;
       so_deserialize := create_job_deserialize;
       so_telemetry := create_job_read_telemetry;
       so_endpoint_params := create_job_endpoint_params;
       so_plugin := CreateJob_plugin;
       so_plugins := create_job_operation_runtime_plugins;
       so_build := create_job_build; so_orchestrate := create_job_orchestrate;
       so_send := create_job_fluent_send |};
    {| so_op := Op_ListJobs; so_name := "ListJobs"; so_request := list_jobs_request;
       so_response := list_jobs_response;
       so_captured := list_jobs_captured;
       so_serialize := list_jobs_serialize_input;
       so_deserialize := list_jobs_deserialize;
       so_telemetry := list_jobs_read_telemetry;
       so_endpoint_params := list_jobs_endpoint_params;
       so_plugin := ListJobs_plugin;
       so_plugins := list_jobs_operation_runtime_plugins;
       so_build := list_jobs_build; so_orchestrate := list_jobs_orchestrate;
       so_send := list_jobs_fluent_send |};
    {| so_op := Op_GetJob; so_name := "GetJob"; so_request := get_job_request;
       so_response := get_job_response;
       so_captured := get_job_captured;
       so_serialize := get_job_serialize_input;
       so_deserialize := get_job_deserialize;
       so_telemetry := get_job_read_telemetry;
       so_endpoint_params := get_job_endpoint_params;
       so_plugin := GetJob_plugin;
       so_plugins := get_job_operation_runtime_plugins;
       so_build := get_job_build; so_orchestrate := get_job_orchestrate;
       so_send := get_job_fluent_send |};
    {| so_op := Op_UpdateJob; so_name := "UpdateJob"; so_request := update_job_request;
       so_response := update_job_response;
       so_captured := update_job_captured;
       so_serialize := update_job_serialize_input;
       so_deserialize := update_job_deserialize;
       so_telemetry := update_job_read_telemetry;
       so_endpoint_params := update_job_endpoint_params;
       so_plugin := UpdateJob_plugin;
       so_plugins := update_job_operation_runtime_plugins;
       so_build := update_job_build; so_orchestrate := update_job_orchestrate;
       so_send := update_job_fluent_send |};
    {| so_op := Op_CancelJob; so_name := "CancelJob"; so_request := cancel_job_request;
       so_response := cancel_job_response;
       so_captured := cancel_job_captured;
       so_serialize := cancel_job_serialize_input;
       so_deserialize := cancel_job_deserialize;
       so_telemetry := cancel_job_read_telemetry;
       so_endpoint_params := cancel_job_endpoint_params;
       so_plugin := CancelJob_plugin;
       so_plugins := cancel_job_operation_runtime_plugins;
       so_build := cancel_job_build; so_orchestrate := cancel_job_orchestrate;
       so_send := cancel_job_fluent_send |};
    {| so_op := Op_GetJobStatus; so_name := "GetJobStatus"; so_request := get_job_status_request;
       so_response := get_job_status_response;
       so_captured := get_job_status_captured;
       so_serialize := get_job_status_serialize_input;
       so_deserialize := get_job_status_deserialize;
       so_telemetry := get_job_status_read_telemetry;
       so_endpoint_params := get_job_status_endpoint_params;
       so_plugin := GetJobStatus_plugin;
       so_plugins := get_job_status_operation_runtime_plugins;
       so_build := get_job_status_build; so_orchestrate := get_job_status_orchestrate;
       so_send := get_job_status_fluent_send |};
    {| so_op := Op_GetJobVersions; so_name := "GetJobVersions"; so_request := get_job_versions_request;
       so_response := get_job_versions_response;
       so_captured := get_job_versions_captured;
       so_serialize := get_job_versions_serialize_input;
       so_deserialize := get_job_versions_deserialize;
       so_telemetry := get_job_versions_read_telemetry;
       so_endpoint_params := get_job_versions_endpoint_params;
       so_plugin := GetJobVersions_plugin;
       so_plugins := get_job_versions_operation_runtime_plugins;
       so_build := get_job_versions_build; so_orchestrate := get_job_versions_orchestrate;
       so_send := get_job_versions_fluent_send |};
    {| so_op := Op_ListJobExecutions; so_name := "ListJobExecutions"; so_request := list_job_executions_request;
       so_response := list_job_executions_response;
       so_captured := list_job_executions_captured;
       so_serialize := list_job_executions_serialize_input;
       so_deserialize := list_job_executions_deserialize;
       so_telemetry := list_job_executions_read_telemetry;
       so_endpoint_params := list_job_executions_endpoint_params;
       so_plugin := ListJobExecutions_plugin;
       so_plugins := list_job_executions_operation_runtime_plugins;
       so_build := list_job_executions_build; so_orchestrate := list_job_executions_orchestrate;
       so_send := list_job_executions_fluent_send |};
    {| so_op := Op_GetExecution; so_name := "GetExecution"; so_request := get_execution_request;
       so_response := get_execution_response;
       so_captured := get_execution_captured;
       so_serialize := get_execution_serialize_input;
       so_deserialize := get_execution_deserialize;
       so_telemetry := get_execution_read_telemetry;
       so_endpoint_params := get_execution_endpoint_params;
       so_plugin := GetExecution_plugin;
       so_plugins := get_execution_operation_runtime_plugins;
       so_build := get_execution_build; so_orchestrate := get_execution_orchestrate;
       so_send := get_execution_fluent_send |};
    {| so_op := Op_CancelExecution; so_name := "CancelExecution"; so_request := cancel_execution_request;
       so_response := cancel_execution_response;
       so_captured := cancel_execution_captured;
       so_serialize := cancel_execution_serialize_input;
       so_deserialize := cancel_execution_deserialize;
       so_telemetry := cancel_execution_read_telemetry;
       so_endpoint_params := cancel_execution_endpoint_params;
       so_plugin := CancelExecution_plugin;
       so_plugins := cancel_execution_operation_runtime_plugins;
       so_build := cancel_execution_build; so_orchestrate := cancel_execution_orchestrate;
       so_send := cancel_execution_fluent_send |};
    {| so_op := Op_ListExecutionAttempts; so_name := "ListExecutionAttempts"; so_request := list_execution_attempts_request;
       so_response := list_execution_attempts_response;
       so_captured := list_execution_attempts_captured;
       so_serialize := list_execution_attempts_serialize_input;
       so_deserialize := list_execution_attempts_deserialize;
       so_telemetry := list_execution_attempts_read_telemetry;
       so_endpoint_params := list_execution_attempts_endpoint_params;
       so_plugin := ListExecutionAttempts_plugin;
       so_plugins := list_execution_attempts_operation_runtime_plugins;
       so_build := list_execution_attempts_build; so_orchestrate := list_execution_attempts_orchestrate;
       so_send := list_execution_attempts_fluent_send |};
    {| so_op := Op_ListExecutionLogs; so_name := "ListExecutionLogs"; so_request := list_execution_logs_request;
       so_response := list_execution_logs_response;
       so_captured := list_execution_logs_captured;
       so_serialize := list_execution_logs_serialize_input;
       so_deserialize := list_execution_logs_deserialize;
       so_telemetry := list_execution_logs_read_telemetry;
       so_endpoint_params := list_execution_logs_endpoint_params;
       so_plugin := ListExecutionLogs_plugin;
       so_plugins := list_execution_logs_operation_runtime_plugins;
       so_build := list_execution_logs_build; so_orchestrate := list_execution_logs_orchestrate;
       so_send := list_execution_logs_fluent_send |};
    {| so_op := Op_CreateEndpoint; so_name := "CreateEndpoint"; so_request := create_endpoint_request;
       so_response := create_endpoint_response;
       so_captured := create_endpoint_captured;
       so_serialize := create_endpoint_serialize_input;
       so_deserialize := create_endpoint_deserialize;
       so_telemetry := create_endpoint_read_telemetry;
       so_endpoint_params := create_endpoint_endpoint_params;
       so_plugin := CreateEndpoint_plugin;
       so_plugins := create_endpoint_operation_runtime_plugins;
       so_build := create_endpoint_build; so_orchestrate := create_endpoint_orchestrate;
       so_send := create_endpoint_fluent_send |};
    {| so_op := Op_ListEndpoints; so_name := "ListEndpoints"; so_request := list_endpoints_request;
       so_response := list_endpoints_response;
       so_captured := list_endpoints_captured;
       so_serialize := list_endpoints_serialize_input;
       so_deserialize := list_endpoints_deserialize;
       so_telemetry := list_endpoints_read_telemetry;
       so_endpoint_params := list_endpoints_endpoint_params;
       so_plugin := ListEndpoints_plugin;
       so_plugins := list_endpoints_operation_runtime_plugins;
       so_build := list_endpoints_build; so_orchestrate := list_endpoints_orchestrate;
       so_send := list_endpoints_fluent_send |};
    {| so_op := Op_GetEndpoint; so_name := "GetEndpoint"; so_request := get_endpoint_request;
       so_response := get_endpoint_response;
       so_captured := get_endpoint_captured;
       so_serialize := get_endpoint_serialize_input;
       so_deserialize := get_endpoint_deserialize;
       so_telemetry := get_endpoint_read_telemetry;
       so_endpoint_params := get_endpoint_endpoint_params;
       so_plugin := GetEndpoint_plugin;
       so_plugins := get_endpoint_operation_runtime_plugins;
       so_build := get_endpoint_build; so_orchestrate := get_endpoint_orchestrate;
       so_send := get_endpoint_fluent_send |};
    {| so_op := Op_UpdateEndpoint; so_name := "UpdateEndpoint"; so_request := update_endpoint_request;
       so_response := update_endpoint_response;
       so_captured := update_endpoint_captured;
       so_serialize := update_endpoint_serialize_input;
       so_deserialize := update_endpoint_deserialize;
       so_telemetry := update_endpoint_read_telemetry;
       so_endpoint_params := update_endpoint_endpoint_params;
       so_plugin := UpdateEndpoint_plugin;
       so_plugins := update_endpoint_operation_runtime_plugins;
       so_build := update_endpoint_build; so_orchestrate := update_endpoint_orchestrate;
       so_send := update_endpoint_fluent_send |};
    {| so_op := Op_DeleteEndpoint; so_name := "DeleteEndpoint"; so_request := delete_endpoint_request;
       so_response := delete_endpoint_response;
       so_captured := delete_endpoint_captured;
       so_serialize := delete_endpoint_serialize_input;
       so_deserialize := delete_endpoint_deserialize;
       so_telemetry := delete_endpoint_read_telemetry;
       so_endpoint_params := delete_endpoint_endpoint_params;
       so_plugin := DeleteEndpoint_plugin;
       so_plugins := delete_endpoint_operation_runtime_plugins;
       so_build := delete_endpoint_build; so_orchestrate := delete_endpoint_orchestrate;
       so_send := delete_endpoint_fluent_send |};
    {| so_op := Op_CreatePayloadSpec; so_name := "CreatePayloadSpec"; so_request := create_payload_spec_request;
       so_response := create_payload_spec_response;
       so_captured := create_payload_spec_captured;
       so_serialize := create_payload_spec_serialize_input;
       so_deserialize := create_payload_spec_deserialize;
       so_telemetry := create_payload_spec_read_telemetry;
       so_endpoint_params := create_payload_spec_endpoint_params;
       so_plugin := CreatePayloadSpec_plugin;
       so_plugins := create_payload_spec_operation_runtime_plugins;
       so_build := create_payload_spec_build; so_orchestrate := create_payload_spec_orchestrate;
       so_send := create_payload_spec_fluent_send |};
    {| so_op := Op_ListPayloadSpecs; so_name := "ListPayloadSpecs"; so_request := list_payload_specs_request;
       so_response := list_payload_specs_response;
       so_captured := list_payload_specs_captured;
       so_serialize := list_payload_specs_serialize_input;
       so_deserialize := list_payload_specs_deserialize;
       so_telemetry := list_payload_specs_read_telemetry;
       so_endpoint_params := list_payload_specs_endpoint_params;
       so_plugin := ListPayloadSpecs_plugin;
       so_plugins := list_payload_specs_operation_runtime_plugins;
       so_build := list_payload_specs_build; so_orchestrate := list_payload_specs_orchestrate;
       so_send := list_payload_specs_fluent_send |};
    {| so_op := Op_GetPayloadSpec; so_name := "GetPayloadSpec"; so_request := get_payload_spec_request;
       so_response := get_payload_spec_response;
       so_captured := get_payload_spec_captured;
       so_serialize := get_payload_spec_serialize_input;
       so_deserialize := get_payload_spec_deserialize;
       so_telemetry := get_payload_spec_read_telemetry;
       so_endpoint_params := get_payload_spec_endpoint_params;
       so_plugin := GetPayloadSpec_plugin;
       so_plugins := get_payload_spec_operation_runtime_plugins;
       so_build := get_payload_spec_build; so_orchestrate := get_payload_spec_orchestrate;
       so_send := get_payload_spec_fluent_send |};
    {| so_op := Op_UpdatePayloadSpec; so_name := "UpdatePayloadSpec"; so_request := update_payload_spec_request;
       so_response := update_payload_spec_response;
       so_captured := update_payload_spec_captured;
       so_serialize := update_payload_spec_serialize_input;
       so_deserialize := update_payload_spec_deserialize;
       so_telemetry := update_payload_spec_read_telemetry;
       so_endpoint_params := update_payload_spec_endpoint_params;
       so_plugin := UpdatePayloadSpec_plugin;
       so_plugins := update_payload_spec_operation_runtime_plugins;
       so_build := update_payload_spec_build; so_orchestrate := update_payload_spec_orchestrate;
       so_send := update_payload_spec_fluent_send |};
    {| so_op := Op_DeletePayloadSpec; so_name := "DeletePayloadSpec"; so_request := delete_payload_spec_request;
       so_response := delete_payload_spec_response;
       so_captured := delete_payload_spec_captured;
       so_serialize := delete_payload_spec_serialize_input;
       so_deserialize := delete_payload_spec_deserialize;
       so_telemetry := delete_payload_spec_read_telemetry;
       so_endpoint_params := delete_payload_spec_endpoint_params;
       so_plugin := DeletePayloadSpec_plugin;
       so_plugins := delete_payload_spec_operation_runtime_plugins;
       so_build := delete_payload_spec_build; so_orchestrate := delete_payload_spec_orchestrate;
       so_send := delete_payload_spec_fluent_send |}].
End operations.
