(* ===== verification/Template.v ===== *)
(** * Templates ([template.rs])

    Resolution of [{{input.x}}], [{{config.x}}], [{{secret.x}}] and
    [{{execution.x}}] in a JSON value.  The interpolation loop edits its buffer in
    place from a moving offset; [interp_spec] says what it computes on the string
    as written. *)

From S2P Require Export Models.

(** The four maps every function takes. *)
Record TemplateCtx := {
  tc_input : gmap string json;
  tc_config : gmap string json;
  tc_secrets : gmap string string;
  tc_execution : gmap string json;
}.

Definition is_single_template (s : string) : option string :=
  let trimmed := Str.trim s in
  if Str.starts_with trimmed "{{" && Str.ends_with trimmed "}}" then
    let inner := Str.trim (Str.stake (String.length trimmed - 4) (Str.sdrop 2 trimmed)) in
    if Str.contains inner "{{" then None else Some inner
  else None.

Definition unresolved (var : string) : string := "Unresolved template variable: " +:+ var.

Definition resolve_variable (c : TemplateCtx) (var : string) : res string json :=
  match Str.strip_prefix "input." var with
  | Some key => ok_or (tc_input c !! key) (unresolved var)
  | None =>
  match Str.strip_prefix "config." var with
  | Some key => ok_or (tc_config c !! key) (unresolved var)
  | None =>
  match Str.strip_prefix "secret." var with
  | Some key => ok_or (JString <$> tc_secrets c !! key) (unresolved var)
  | None =>
  match Str.strip_prefix "execution." var with
  | Some key => ok_or (tc_execution c !! key) (unresolved var)
  | None => Err ("Unknown template namespace in: " +:+ var)
  end end end end.

Section resolve.
Context `{!SerdeJson} (c : TemplateCtx).

(** [match v { String(s) => s, other => other.to_string() }] *)
Definition json_text (v : json) : string :=
  match v with JString s => s | other => json_to_string other end.

(** [result.replace_range(open..close, rep)] *)
Definition replace_range (result : string) (open close : nat) (rep : string) : string :=
  Str.stake open result +:+ rep +:+ Str.sdrop close result.

(** [&s[a..b]] *)
Definition slice (a b : nat) (s : string) : res string string :=
  if bool_decide (a ≤ b ∧ b ≤ String.length s)
  then Ok (Str.stake (b - a) (Str.sdrop a s)) else Panic 101.

(** The loop: [result] is edited in place, the search goes on at [start]. *)
Fixpoint interp_loop (fuel : nat) (result : string) (start : nat) : res string string :=
  match fuel with
  | O => Panic 100
  | S fuel =>
      match Str.find (Str.sdrop start result) "{{" with
      | None => Ok result
      | Some o =>
          let open := start + o in
          match Str.find (Str.sdrop open result) "}}" with
          | None => Ok result
          | Some cl =>
              let close := open + cl + 2 in
              body <-? slice (open + 2) (close - 2) result;
              let var := Str.trim body in
              resolved <-? resolve_variable c var;
              let replacement := json_text resolved in
              interp_loop fuel (replace_range result open close replacement)
                (open + String.length replacement)
          end
      end
  end.

(** Every round consumes at least the four braces of a variable. *)
Definition interp_fuel (s : string) : nat := S (String.length s).

Definition resolve_string (s : string) : res string json :=
  match is_single_template s with
  | Some var => resolve_variable c var
  | None => r <-? interp_loop (interp_fuel s) s 0; Ok (JString r)
  end.

Fixpoint resolve (value : json) : res string json :=
  match value with
  | JString s => resolve_string s
  | JObject fs =>
      r <-? (fix go fs acc := match fs with
             | [] => Ok acc
             | (k, v) :: fs =>
                 rk <-? resolve_string k;
                 rv <-? resolve v;
                 go fs (Json.obj_insert (json_text rk) rv acc)
             end) fs [];
      Ok (JObject r)
  | JArray l =>
      r <-? (fix go l := match l with
             | [] => Ok []
             | v :: l => v <-? resolve v; l <-? go l; Ok (v :: l)
             end) l;
      Ok (JArray r)
  | other => Ok other
  end.

End resolve.

(** ** Specification of the loop

    The segments of a template are read off the string as written, before any
    value is known; rendering replaces each variable by its value. *)

Inductive segment := Lit (s : string) | Var (v : string).

Fixpoint segments (fuel : nat) (s : string) : list segment :=
  match fuel with
  | O => [Lit s]
  | S fuel =>
      match Str.find s "{{" with
      | None => [Lit s]
      | Some o =>
          match Str.find (Str.sdrop o s) "}}" with
          | None => [Lit s]
          | Some cl =>
              Lit (Str.stake o s)
              :: Var (Str.trim (Str.stake (cl - 2) (Str.sdrop (o + 2) s)))
              :: segments fuel (Str.sdrop (o + cl + 2) s)
          end
      end
  end.

Definition parse_template (s : string) : list segment := segments (S (String.length s)) s.

Fixpoint render `{!SerdeJson} (c : TemplateCtx) (l : list segment) : res string string :=
  match l with
  | [] => Ok ""
  | Lit s :: l => r <-? render c l; Ok (s +:+ r)
  | Var v :: l => x <-? resolve_variable c v; r <-? render c l; Ok (json_text x +:+ r)
  end.

(** ** The loop meets its specification *)

Section interp.
Context `{!SerdeJson} (c : TemplateCtx).

(** The closing braces are found after the opening ones, so the slice between
    them is always in range. *)
Lemma find_close s o cl :
  Str.find s "{{" = Some o → Str.find (Str.sdrop o s) "}}" = Some cl →
  2 ≤ cl ∧ o + cl + 2 ≤ String.length s.
Proof.
  intros Ho Hc. pose proof (find_Some_le _ _ _ Hc) as Hle. rewrite slen_sdrop in Hle.
  apply find_Some_le in Ho as Hole. apply find_split in Ho as Hs. simpl in Hole, Hle.
  assert (Str.sdrop o s = "{{" +:+ Str.sdrop (o + 2) s) as Hd.
  { assert (String.length (Str.stake o s) = o) as Hl by (apply slen_stake; lia).
    rewrite Hs at 1. rewrite <-Hl at 1. by rewrite sdrop_app_exact. }
  apply find_split in Hc as Hs2. rewrite Hd in Hs2.
  destruct cl as [|[|cl]]; simpl in Hs2; [by inversion Hs2|by inversion Hs2|lia].
Qed.

Lemma interp_loop_segments fuel before s :
  String.length s < fuel →
  interp_loop c fuel (before +:+ s) (String.length before)
  = (r <-? render c (segments fuel s); Ok (before +:+ r)).
Proof.
  revert before s. induction fuel as [|fuel IH]; intros before s Hfuel; [lia|].
  cbn [interp_loop segments]. rewrite sdrop_app_exact.
  destruct (Str.find s "{{") as [o|] eqn:Ho; [|simpl; by rewrite app_nil_r].
  rewrite sdrop_app_plus.
  destruct (Str.find (Str.sdrop o s) "}}") as [cl|] eqn:Hc; [|simpl; by rewrite app_nil_r].
  destruct (find_close _ _ _ Ho Hc) as [Hcl Hlen].
  cbn [render res_bind]. set (var := Str.trim _).
  unfold slice. rewrite bool_decide_eq_true_2 by (rewrite slen_app; lia).
  replace (String.length before + o + 2) with (String.length before + (o + 2)) by lia.
  rewrite sdrop_app_plus.
  replace (String.length before + o + cl + 2 - 2 - (String.length before + (o + 2)))
    with (cl - 2) by lia.
  cbn [res_bind]. fold var.
  destruct (resolve_variable c var) as [v| |]; [|done..]. cbn [res_bind].
  unfold replace_range.
  replace (String.length before + o + cl + 2) with (String.length before + (o + cl + 2)) by lia.
  rewrite stake_app_plus, sdrop_app_plus, <-(app_assoc _ (json_text v)).
  replace (String.length before + o + String.length (json_text v))
    with (String.length ((before +:+ Str.stake o s) +:+ json_text v))
    by (rewrite !slen_app, slen_stake by lia; lia).
  rewrite IH by (rewrite slen_sdrop; lia).
  destruct (render c _); simpl; [by rewrite !app_assoc|done..].
Qed.

Lemma render_no_panic l w : render c l ≠ Panic w.
Proof.
  assert (∀ v w, resolve_variable c v ≠ Panic w) as Hv.
  { intros v w'. unfold resolve_variable, ok_or. repeat case_match; congruence. }
  induction l as [|[s|v] l IH]; simpl; [done| |].
  - destruct (render c l); simpl; congruence.
  - specialize (Hv v). destruct (resolve_variable c v); simpl; [|done|naive_solver].
    destruct (render c l); simpl; congruence.
Qed.
End interp.

(** ** Values without templates *)

Lemma contains_middle a t b p : Str.contains t p = true → Str.contains (a +:+ t +:+ b) p = true.
Proof.
  unfold Str.contains. rewrite !bool_decide_eq_true.
  intros [i Hi]. apply find_split in Hi as Ht. rewrite Ht.
  assert (∀ s r, is_Some (Str.find (s +:+ p +:+ r) p)) as Hocc.
  { intros s r. induction s as [|c s IH].
    - simpl. destruct (p +:+ r) eqn:E; simpl; rewrite <-E, starts_with_app; by eexists.
    - simpl. destruct (Str.starts_with _ p); [by eexists|].
      destruct IH as [j ->]. by eexists. }
  rewrite !app_assoc, <-(app_assoc a). apply Hocc.
Qed.

Lemma contains_between a p b : Str.contains (a +:+ p +:+ b) p = true.
Proof.
  apply contains_middle. unfold Str.contains. apply bool_decide_eq_true.
  pose proof (starts_with_app p "") as Hp. rewrite app_nil_r in Hp.
  destruct p; [by eexists|]. cbn [Str.find]. rewrite Hp. by eexists.
Qed.

Lemma strip_all_suffix ws fuel s : ∃ a, s = a +:+ Str.strip_all ws fuel s.
Proof.
  revert s. induction fuel as [|fuel IH]; intros s; [by exists ""|]. cbn [Str.strip_all].
  destruct (Str.strip_ws ws s) as [r|] eqn:E; [|by exists ""].
  assert (∃ a, s = a +:+ r) as [a ->].
  { destruct s as [|c s]; [done|]. simpl in E.
    destruct (Str.ascii_ws c); [injection E as ->; by exists (String c "")|].
    apply first_strip_suffix in E as (p & _ & ->). by exists p. }
  destruct (IH r) as [b E2]. exists (a +:+ b). by rewrite app_assoc, <-E2.
Qed.

Lemma trim_split s : ∃ a b, s = a +:+ Str.trim s +:+ b.
Proof.
  unfold Str.trim, Str.trim_end, Str.trim_start.
  destruct (strip_all_suffix Str.wide_ws (String.length s) s) as [a Ha].
  set (t := Str.strip_all _ _ s) in *.
  destruct (strip_all_suffix (Str.srev <$> Str.wide_ws) (String.length t) (Str.srev t)) as [b Hb].
  exists a, (Str.srev b). rewrite Ha at 1. f_equal.
  rewrite <-srev_app_str, <-Hb. by rewrite srev_involutive.
Qed.

Lemma not_single s : Str.contains s "{{" = false → is_single_template s = None.
Proof.
  intros Hs. unfold is_single_template.
  destruct (Str.starts_with (Str.trim s) "{{") eqn:E; [|done]. exfalso.
  destruct (trim_split s) as (a & b & Hab).
  rewrite Hab in Hs. rewrite contains_middle in Hs; [done|].
  apply starts_with_spec in E as [r ->]. exact (contains_middle "" "{{" r "{{" eq_refl).
Qed.

Fixpoint template_free (v : json) : bool :=
  match v with
  | JString s => negb (Str.contains s "{{")
  | JArray l => forallb template_free l
  | JObject fs => forallb (λ kv, negb (Str.contains kv.1 "{{") && template_free kv.2) fs
  | _ => true
  end.

(** Objects list their keys in increasing order, as a [BTreeMap] does. *)
Fixpoint ordered (v : json) : Prop :=
  match v with
  | JArray l => (fix all l := match l with [] => True | v :: l => ordered v ∧ all l end) l
  | JObject fs =>
      (fix all fs := match fs with
       | [] => True
       | (k, v) :: fs => Forall (λ kv, String.compare kv.1 k = Gt) fs ∧ ordered v ∧ all fs
       end) fs
  | _ => True
  end.

Lemma obj_insert_last k v fs :
  Forall (λ kv, String.compare k kv.1 = Gt) fs → Json.obj_insert k v fs = fs ++ [(k, v)].
Proof. induction 1 as [|[k' v'] fs Hk _ IH]; simpl in *; [done|]. by rewrite Hk, IH. Qed.

Section plain.
Context `{!SerdeJson} (c : TemplateCtx).

Lemma resolve_string_plain s : Str.contains s "{{" = false → resolve_string c s = Ok (JString s).
Proof.
  intros Hs. unfold resolve_string. rewrite not_single by done.
  unfold interp_fuel. cbn [interp_loop Str.sdrop].
  unfold Str.contains in Hs. apply bool_decide_eq_false in Hs.
  destruct (Str.find s "{{") eqn:E; [|done]. destruct Hs. by eexists.
Qed.

Lemma resolve_template_free v : template_free v = true → ordered v → resolve c v = Ok v.
Proof.
  induction v as [| | |s|l IH|fs IH] using json_ind_strong; intros Hf Ho; [done..| | |].
  - apply negb_true_iff in Hf. by apply resolve_string_plain.
  - cbn [resolve]. simpl in Hf, Ho.
    enough ((fix go l := match l with
      | [] => Ok []
      | v :: l => v <-? resolve c v; l <-? go l; Ok (v :: l) end) l = Ok l) as -> by done.
    induction IH as [|v l Hv _ IHl]; [done|]. simpl in Hf, Ho. bool_prop. destruct Ho as [Hov Hol].
    by rewrite Hv, IHl by done.
  - cbn [resolve]. simpl in Hf, Ho.
    enough (∀ acc, Forall (λ kv, Forall (λ kv', String.compare kv'.1 kv.1 = Gt) fs) acc →
      (fix go fs acc := match fs with
       | [] => Ok acc
       | (k, v) :: fs =>
           rk <-? resolve_string c k;
           rv <-? resolve c v;
           go fs (Json.obj_insert (json_text rk) rv acc)
       end) fs acc = Ok (acc ++ fs)) as E by (rewrite E by done; done).
    induction IH as [|[k v] fs Hv _ IHfs]; intros acc Hacc; [by rewrite List.app_nil_r|].
    simpl in Hf, Ho, Hv. bool_prop. destruct Ho as (Hk & Hov & Hofs).
    rewrite resolve_string_plain by done. rewrite Hv by done. cbn [res_bind json_text].
    rewrite obj_insert_last.
    2: { eapply list.Forall_impl; [exact Hacc|]. intros kv Hkv. by apply Forall_inv in Hkv. }
    rewrite IHfs, <-(assoc_L (++)); [done|done|done|].
    apply Forall_app. split.
    + eapply list.Forall_impl; [exact Hacc|]. intros kv Hkv. by apply Forall_inv_tail in Hkv.
    + by apply Forall_singleton.
Qed.
End plain.
