(* ===== verification/Backoff.v ===== *)
(** * Retry delays ([worker/src/backoff.rs])

    [i64] arithmetic as a release build does it: multiplication and [pow] wrap,
    [clamp] panics on an empty range. *)

From S2P Require Export Models.
#[local] Open Scope Z_scope.

(** [rand::thread_rng().gen_range(lo..=hi)], the draw being made by [rng]. *)
Definition Rng : Type := Z → Z → Z.
Definition rng_in_range (rng : Rng) : Prop := ∀ lo hi, lo ≤ hi → lo ≤ rng lo hi ≤ hi.

(** [2_i64.pow(n)], for [n] a [u32]. *)
Definition pow2_i64 (n : Z) : Z := wrap64 (2 ^ n).

Definition backoff_delay (policy : RetryPolicy) (attempt : Z) : Z :=
  if bool_decide (rp_backoff policy = "fixed") then rp_initial_delay_ms policy
  else if bool_decide (rp_backoff policy = "linear") then
    wrap64 (rp_initial_delay_ms policy * attempt)
  else
    wrap64 (rp_initial_delay_ms policy
            * pow2_i64 (as_u32 (Z.max (wrap64 (attempt - 1)) 0))).

Definition compute_backoff (rng : Rng) (policy : RetryPolicy) (attempt : Z) : res string Z :=
  let delay := backoff_delay policy attempt in
  let jitter_range := Z.quot delay 4 in
  let jitter := if bool_decide (0 < jitter_range) then rng (- jitter_range) jitter_range else 0 in
  clamp 0 (rp_max_delay_ms policy) (wrap64 (delay + jitter)).

(** ** Lemmas *)

Lemma compute_backoff_ok rng policy attempt :
  0 ≤ rp_max_delay_ms policy →
  ∃ r, compute_backoff rng policy attempt = Ok r ∧ 0 ≤ r ≤ rp_max_delay_ms policy.
Proof.
  intros Hm. unfold compute_backoff, clamp. rewrite bool_decide_eq_true_2 by lia.
  eexists. split; [done|lia].
Qed.

(** A power of two from [2^64] on has no bit left in an [i64]. *)
Lemma wrap64_pow2_zero n k : 64 ≤ n → wrap64 (k * 2 ^ n) = 0.
Proof.
  intros Hn. unfold wrap64.
  replace (2 ^ n) with (2 ^ (n - 64) * 2 ^ 64) by (rewrite <-Z.pow_add_r; [f_equal; lia|lia..]).
  rewrite Z.mul_assoc, Z.add_comm, Z.mod_add by lia. done.
Qed.

Lemma exponential_delay policy attempt :
  rp_backoff policy ≠ "fixed" → rp_backoff policy ≠ "linear" →
  1 ≤ attempt < 2 ^ 32 →
  backoff_delay policy attempt
  = wrap64 (rp_initial_delay_ms policy * wrap64 (2 ^ (attempt - 1))).
Proof.
  intros Hf Hl Ha. unfold backoff_delay.
  rewrite !bool_decide_eq_false_2 by done. do 2 f_equal. unfold pow2_i64, as_u32.
  rewrite (wrap64_id (attempt - 1)) by (unfold in_i64, i64_min, i64_max; lia).
  by rewrite Z.max_l, Z.mod_small by lia.
Qed.

(** The jittered delay, when nothing overflows, stays within a quarter of the
    nominal one. *)
Lemma jitter_bounds rng delay :
  rng_in_range rng → 0 ≤ delay →
  let r := Z.quot delay 4 in
  let j := if bool_decide (0 < r) then rng (- r) r else 0 in
  delay - delay `div` 4 ≤ delay + j ≤ delay + delay `div` 4.
Proof.
  intros Hr Hd r j. subst r j. rewrite Z.quot_div_nonneg by lia.
  pose proof (Z.div_pos delay 4 Hd ltac:(lia)).
  case_bool_decide; [|lia]. pose proof (Hr (- (delay `div` 4)) (delay `div` 4) ltac:(lia)). lia.
Qed.

Lemma compute_backoff_nominal rng policy attempt d :
  rng_in_range rng → backoff_delay policy attempt = d →
  0 ≤ d → d + d `div` 4 ≤ i64_max → 0 ≤ rp_max_delay_ms policy →
  ∃ r, compute_backoff rng policy attempt = Ok r
       ∧ Z.min (rp_max_delay_ms policy) (d - d `div` 4) ≤ r
       ∧ r ≤ Z.min (rp_max_delay_ms policy) (d + d `div` 4).
Proof.
  intros Hr Hd H0 Hover Hm.
  pose proof (jitter_bounds rng d Hr H0) as Hj. simpl in Hj.
  unfold compute_backoff, clamp. rewrite Hd.
  rewrite bool_decide_eq_true_2 by lia.
  assert (d `div` 4 ≤ d) by (apply Z.div_le_upper_bound; lia).
  rewrite wrap64_id by (unfold in_i64, i64_min; lia).
  eexists. split; [done|]. lia.
Qed.
