(* ===== verification/Caches.v ===== *)
(** * Caches with a time to live ([cache/config_cache.rs], [cache/secret_cache.rs])

    The two caches have the same code at two value types. The clock is the
    monotonic one, passed in. *)

From S2P Require Export Models.
#[local] Open Scope Z_scope.

Record Cache (V : Type) := {
  cache_entries : gmap string (V * Z);
  cache_ttl : Z;
}.
Arguments cache_entries {V} _.
Arguments cache_ttl {V} _.
Arguments Build_Cache {V} _ _.

Section cache.
Context {V : Type}.
Implicit Types c : Cache V.

Definition cache_new (ttl_secs : Z) : Cache V :=
  {| cache_entries := ∅; cache_ttl := ttl_secs * 1000000 |}.

(** [get] is two steps: the look-up, which holds the entry's guard, and, once the guard is
    dropped, the removal of an entry that was expired.  Another task may act in between. *)
Inductive probe := Hit (v : V) | Expired | Absent.

Definition cache_probe (now : Z) (name : string) (c : Cache V) : probe :=
  match cache_entries c !! name with
  | Some (v, at_) => if bool_decide (Z.max 0 (now - at_) < cache_ttl c) then Hit v else Expired
  | None => Absent
  end.

Definition cache_evict (name : string) (c : Cache V) : Cache V :=
  {| cache_entries := delete name (cache_entries c); cache_ttl := cache_ttl c |}.

(** The two steps with nothing in between. *)
Definition cache_get (now : Z) (name : string) (c : Cache V) : option V * Cache V :=
  match cache_probe now name c with
  | Hit v => (Some v, c)
  | Expired => (None, cache_evict name c)
  | Absent => (None, c)
  end.

Definition cache_set (now : Z) (name : string) (v : V) (c : Cache V) : Cache V :=
  {| cache_entries := <[name := (v, now)]> (cache_entries c); cache_ttl := cache_ttl c |}.

Definition cache_invalidate (name : string) (c : Cache V) : Cache V :=
  {| cache_entries := delete name (cache_entries c); cache_ttl := cache_ttl c |}.

(** ** The steps of several tasks on one cache *)

Inductive cache_op :=
  | OpProbe (now : Z) (name : string)
  | OpEvict (name : string)
  | OpSet (now : Z) (name : string) (v : V)
  | OpInvalidate (name : string).

Definition cache_step (c : Cache V) (op : cache_op) : Cache V :=
  match op with
  | OpProbe _ _ => c
  | OpEvict name => cache_evict name c
  | OpSet now name v => cache_set now name v c
  | OpInvalidate name => cache_invalidate name c
  end.

Definition run_cache (ops : list cache_op) (c : Cache V) : Cache V := foldl cache_step c ops.

(** A task evicts what one of its gets has found expired. *)
Definition evictions_follow (c : Cache V) (ops : list cache_op) : Prop :=
  ∀ ops1 name ops2, ops = ops1 ++ OpEvict name :: ops2 →
    ∃ a1 t a2, ops1 = a1 ++ OpProbe t name :: a2 ∧ cache_probe t name (run_cache a1 c) = Expired.

(** What the operations, oldest first, last wrote under [name]. *)
Definition last_write (name : string) (ops : list cache_op) : option (V * Z) :=
  foldl (λ acc op, match op with
    | OpSet now n v => if bool_decide (n = name) then Some (v, now) else acc
    | OpInvalidate n => if bool_decide (n = name) then None else acc
    | _ => acc
    end) None ops.

(** A get that had found [name] expired removed it although it had been set anew. *)
Definition lost_in_race (c : Cache V) (name : string) (v : V) (t : Z) (ops : list cache_op) : Prop :=
  ∃ a1 t' a2 b, ops = a1 ++ OpProbe t' name :: a2 ++ OpEvict name :: b
    ∧ cache_probe t' name (run_cache a1 c) = Expired ∧ OpSet t name v ∈ a2.

Definition op_time (op : cache_op) : option Z :=
  match op with OpProbe t _ | OpSet t _ _ => Some t | _ => None end.

(** No operation is later than [now]. *)
Definition before (now : Z) (ops : list cache_op) : Prop :=
  Forall (λ op, ∀ t, op_time op = Some t → t ≤ now) ops.

Lemma run_cache_ttl ops c : cache_ttl (run_cache ops c) = cache_ttl c.
Proof.
  unfold run_cache. revert c. induction ops as [|op ops IH]; intros c; simpl; [done|].
  rewrite IH. by destruct op.
Qed.

Lemma run_cache_snoc ops op c : run_cache (ops ++ [op]) c = cache_step (run_cache ops c) op.
Proof. unfold run_cache. by rewrite foldl_app. Qed.
Lemma last_write_snoc name ops op : last_write name (ops ++ [op]) = match op with
    | OpSet now n v => if bool_decide (n = name) then Some (v, now) else last_write name ops
    | OpInvalidate n => if bool_decide (n = name) then None else last_write name ops
    | _ => last_write name ops
    end.
Proof. unfold last_write. by rewrite foldl_app. Qed.

(** An entry is the last write... *)
Lemma entry_is_last_write ttl_secs ops name e :
  cache_entries (run_cache ops (cache_new ttl_secs)) !! name = Some e →
  last_write name ops = Some e.
Proof.
  induction ops as [|op ops IH] using rev_ind; [done|].
  rewrite run_cache_snoc, last_write_snoc. destruct op as [t n|n|t n v|n]; simpl; try done.
  - intros [_ H]%lookup_delete_Some. auto.
  - case_bool_decide as Hn; [subst; by rewrite lookup_insert_eq|]. rewrite lookup_insert_ne by done. auto.
  - case_bool_decide as Hn; [subst; by rewrite lookup_delete_eq|]. rewrite lookup_delete_ne by done. auto.
Qed.

(** ... and a write is an entry, unless an eviction came after it. *)
Lemma last_write_is_entry ttl_secs ops name e :
  last_write name ops = Some e →
  cache_entries (run_cache ops (cache_new ttl_secs)) !! name = Some e
  ∨ ∃ ops1 ops2, ops = ops1 ++ OpEvict name :: ops2 ∧ last_write name ops1 = Some e.
Proof.
  induction ops as [|op ops IH] using rev_ind; [done|].
  rewrite run_cache_snoc, last_write_snoc.
  assert (last_write name ops = Some e → ∀ m : gmap string (V * Z),
    m !! name = cache_entries (run_cache ops (cache_new ttl_secs)) !! name →
    m !! name = Some e ∨ ∃ ops1 ops2,
      ops ++ [op] = ops1 ++ OpEvict name :: ops2 ∧ last_write name ops1 = Some e) as Hsame.
  { intros Hl m ->. destruct (IH Hl) as [?|(o1 & o2 & -> & ?)]; [by left|right].
    exists o1, (o2 ++ [op]). split; [|done]. by rewrite <-(assoc_L (++)). }
  destruct op as [t n|n|t n v|n]; simpl.
  - intros Hl. by apply Hsame.
  - intros Hl. destruct (decide (n = name)) as [->|Hn]; [right; by exists ops, []|].
    apply Hsame; [done|]. by rewrite lookup_delete_ne.
  - case_bool_decide as Hn; [intros [= <-]; subst; left; apply lookup_insert_eq|].
    intros Hl. apply Hsame; [done|]. by rewrite lookup_insert_ne.
  - case_bool_decide as Hn; [done|]. intros Hl. apply Hsame; [done|]. by rewrite lookup_delete_ne.
Qed.

Lemma last_write_split name ops1 op ops2 v t :
  last_write name (ops1 ++ op :: ops2) = Some (v, t) → (∀ t v, op ≠ OpSet t name v) →
  OpSet t name v ∈ ops2 ∨ last_write name ops1 = Some (v, t).
Proof.
  intros Hl Hop. induction ops2 as [|op2 ops2 IH] using rev_ind.
  - rewrite last_write_snoc in Hl. right. destruct op as [| |t' n v'|]; try case_bool_decide; try done.
    subst. by destruct (Hop t' v').
  - rewrite app_comm_cons, (assoc_L (++)), last_write_snoc in Hl.
    assert (last_write name (ops1 ++ op :: ops2) = Some (v, t) →
      OpSet t name v ∈ ops2 ++ [op2] ∨ last_write name ops1 = Some (v, t)) as Hk.
    { intros [?|?]%IH; [left; set_solver|by right]. }
    destruct op2 as [| |t' n v'|n]; try case_bool_decide; try done; auto.
    subst. injection Hl as -> ->. left. set_solver.
Qed.

(** A write that is neither an entry nor expired was lost in a race. *)
Lemma write_kept_or_lost ttl_secs ops now name v t :
  before now ops → evictions_follow (cache_new ttl_secs) ops →
  last_write name ops = Some (v, t) → Z.max 0 (now - t) < ttl_secs * 1000000 →
  cache_entries (run_cache ops (cache_new ttl_secs)) !! name = Some (v, t)
  ∨ lost_in_race (cache_new ttl_secs) name v t ops.
Proof.
  intros Hb Hev Hl Hfresh. apply (last_write_is_entry ttl_secs) in Hl as [?|(ops1 & b & E & Hl)];
    [by left|right].
  destruct (Hev _ _ _ E) as (a1 & t' & a2 & E1 & Hp). rewrite E1 in E, Hl.
  exists a1, t', a2, b. split; [by rewrite E, <-(assoc_L (++))|]. split; [done|].
  apply last_write_split in Hl as [?|Hl]; [done| |done]. exfalso.
  unfold cache_probe in Hp. destruct (_ !! name) as [[v' t2]|] eqn:Ee; [|done].
  apply entry_is_last_write in Ee. simplify_eq. case_bool_decide as Hold; [done|].
  rewrite run_cache_ttl in Hold. cbn in Hold.
  assert (t' ≤ now); [|lia]. unfold before in Hb.
  rewrite list.Forall_forall in Hb. apply (Hb (OpProbe t' name)); [|done]. set_solver.
Qed.
End cache.
Arguments cache_op : clear implicits.
Arguments probe : clear implicits.
