(* ===== verification/Dispatch.v ===== *)
(** * Dispatchers and the reaper ([dispatcher/*.rs], [reaper.rs])

    What each dispatcher asks of the outside, built from the resolved spec, and
    what it makes of the answer. The answers come from the environment; the
    requests made are kept, in order, in the world's outbox. *)

From Stdlib Require Import Ascii.
From S2P Require Export DbPublic Template Backoff Caches Crypto.
#[local] Open Scope Z_scope.

(** [Display] of a [sqlx::Error]. *)
Class SqlDisplay := sql_error_text : SqlError → string.

(** ** Requests and answers *)

Record HttpRequest := {
  hr_method : string;
  hr_url : string;
  hr_headers : list (string * string);
  hr_timeout_ms : Z;
  hr_body : option json;
}.

(** [send().await]: an HTTP response (a body that cannot be read counts as
    empty), or an error with [is_timeout()], [is_connect()] and its text. *)
Inductive HttpAnswer :=
  | HttpResp (status : Z) (body : string)
  | HttpErr (is_timeout is_connect : bool) (text : string).

Record KafkaRecord := {
  kr_bootstrap_servers : string;
  kr_timeout_ms : Z;
  kr_acks : string;
  kr_topic : string;
  kr_payload : string;
  kr_key : option string;
  kr_headers : option (list (string * string));
}.

Inductive KafkaAnswer :=
  | KafkaProducerErr (text : string)     (* [create()] failed: nothing is sent *)
  | KafkaOk (partition offset : Z)
  | KafkaErr (text : string).

Inductive RedisAnswer :=
  | RedisOpenErr (text : string)
  | RedisConnErr (text : string)
  | RedisOk (message_id : string)
  | RedisErr (text : string).

Inductive Sent :=
  | SentHttp (r : HttpRequest)
  | SentKafka (r : KafkaRecord)
  | SentRedis (url : string) (command : list string).

(** What the environment answers to the next request, by kind. *)
Record NetStim := {
  ns_http : HttpAnswer;
  ns_kafka : KafkaAnswer;
  ns_redis : RedisAnswer;
}.
Definition silent : NetStim := {|
  ns_http := HttpErr false false "no answer";
  ns_kafka := KafkaErr "no answer";
  ns_redis := RedisErr "no answer" |}.

(** ** The world of a worker task *)

Record World := {
  wd_session : Session;
  wd_outbox : list Sent;
  wd_net : list NetStim;
  wd_clock : list Z;               (* the readings of the clock to come *)
  wd_configs : Cache json;         (* shared by all tasks and workspaces *)
  wd_secrets : Cache string;
}.

Definition set_session (s : Session) (w : World) : World := {|
  wd_session := s; wd_outbox := wd_outbox w; wd_net := wd_net w; wd_clock := wd_clock w;
  wd_configs := wd_configs w; wd_secrets := wd_secrets w |}.

Notation IO := (SE World).

(** A statement on the session of the world. *)
Definition db_op {A} (m : DB A) : IO SqlError A := λ w,
  let '(r, s) := m (wd_session w) in (r, set_session s w).

Definition clock_now {E} : IO E Z := λ w,
  (Ok (hd 0 (wd_clock w)),
   {| wd_session := wd_session w; wd_outbox := wd_outbox w; wd_net := wd_net w;
      wd_clock := tail (wd_clock w); wd_configs := wd_configs w; wd_secrets := wd_secrets w |}).

(** Sends [sent], if any, and takes the next answer. *)
Definition exchange {E} (sent : NetStim → option Sent) : IO E NetStim := λ w,
  let ns := hd silent (wd_net w) in
  (Ok ns,
   {| wd_session := wd_session w;
      wd_outbox := wd_outbox w ++ option_list (sent ns);
      wd_net := tail (wd_net w); wd_clock := wd_clock w;
      wd_configs := wd_configs w; wd_secrets := wd_secrets w |}).

(** ** Results *)

Inductive DispatchResult :=
  | Success (output : json)
  | Failure (error : json).

Definition failure_of (type message : string) : DispatchResult :=
  Failure (Json.obj [("type", JString type); ("message", JString message)]).

(** The string-valued entries of an object, in key order. *)
Definition str_entries (fs : list (string * json)) : list (string * string) :=
  omap (λ kv, (λ s, (kv.1, s)) <$> Json.as_str kv.2) fs.

(** ** HTTP *)

Definition default_expected : list Z := [200; 201; 202; 204].

(** [n as u16] keeps the low 16 bits. *)
Definition expected_statuses (spec : json) : list Z :=
  match Json.as_array (Json.index spec "expected_status_codes") with
  | Some arr => omap (λ v, as_u16 <$> Json.as_u64 v) arr
  | None => default_expected
  end.

Definition http_method (method : string) : string :=
  let m := Str.to_ascii_uppercase method in
  if bool_decide (m ∈ ["GET"; "POST"; "PUT"; "PATCH"; "DELETE"]) then m else "POST".

Definition idempotency_header : string := "x-invokr-idempotency-key".

Definition http_headers (spec : json) (idempotency_key : string) : list (string * string) :=
  let user := str_entries (default [] (Json.as_object (Json.index spec "headers"))) in
  if existsb (λ kv, Str.eq_ignore_ascii_case kv.1 idempotency_header) user
  then user else user ++ [(idempotency_header, idempotency_key)].

Definition http_body (spec : json) : option json :=
  match (match Json.get spec "body_template" with Some b => Some b | None => Json.get spec "body" end) with
  | Some body => if Json.is_null body then None else Some body
  | None => None
  end.

Definition http_request (spec : json) (idempotency_key : string) : HttpRequest := {|
  hr_method := http_method (default "POST" (Json.as_str (Json.index spec "method")));
  hr_url := default "" (Json.as_str (Json.index spec "url"));
  hr_headers := http_headers spec idempotency_key;
  hr_timeout_ms := default 5000 (Json.as_u64 (Json.index spec "timeout_ms"));
  hr_body := http_body spec |}.

Definition http_result (spec : json) (a : HttpAnswer) : DispatchResult :=
  match a with
  | HttpResp status body =>
      if bool_decide (status ∈ expected_statuses spec) then
        Success (Json.obj [("status_code", JInt status); ("body", JString body)])
      else
        Failure (Json.obj [("type", JString "HTTP_ERROR"); ("status_code", JInt status);
          ("message", JString ("Unexpected status code: " +:+ Str.dec status))])
  | HttpErr is_timeout is_connect text =>
      failure_of (if is_timeout then "TIMEOUT"
                  else if is_connect then "CONNECTION_ERROR" else "HTTP_ERROR") text
  end.

Definition http_dispatch {E} (spec : json) (idempotency_key : string) : IO E DispatchResult :=
  ns <-- exchange (λ _, Some (SentHttp (http_request spec idempotency_key)));
  se_ret (http_result spec (ns_http ns)).

(** ** Kafka *)

Section kafka.
Context `{!SerdeJson}.

Definition kafka_record (spec : json) : KafkaRecord := {|
  kr_bootstrap_servers := default "" (Json.as_str (Json.index spec "bootstrap_servers"));
  kr_timeout_ms := default 10000 (Json.as_u64 (Json.index spec "timeout_ms"));
  kr_acks := default "all" (Json.as_str (Json.index spec "acks"));
  kr_topic := default "" (Json.as_str (Json.index spec "topic"));
  kr_payload := default "{}" (json_to_string <$> Json.get spec "value_template");
  kr_key := Json.get spec "key_template" ≫= Json.as_str;
  kr_headers := str_entries <$> (Json.get spec "headers" ≫= Json.as_object) |}.

Definition kafka_result (a : KafkaAnswer) : DispatchResult :=
  match a with
  | KafkaProducerErr e => failure_of "BROKER_ERROR" ("Failed to create producer: " +:+ e)
  | KafkaOk partition offset =>
      Success (Json.obj [("partition", JInt partition); ("offset", JInt offset)])
  | KafkaErr e =>
      failure_of (if Str.contains e "timeout" then "TIMEOUT" else "BROKER_ERROR") e
  end.

Definition kafka_dispatch {E} (spec : json) : IO E DispatchResult :=
  ns <-- exchange (λ ns, match ns_kafka ns with
                         | KafkaProducerErr _ => None
                         | _ => Some (SentKafka (kafka_record spec))
                         end);
  se_ret (kafka_result (ns_kafka ns)).
End kafka.

(** ** Redis streams *)

Section redis.
Context `{!SerdeJson}.

Definition redis_fields (fs : list (string * json)) : list (string * string) :=
  (λ kv, (kv.1, json_text kv.2)) <$> fs.

(** The words of the XADD command. *)
Definition xadd (stream : string) (max_len : option Z) (approximate : bool)
    (fields : list (string * string)) : list string :=
  "XADD" :: stream ::
  match max_len with
  | Some m => if approximate then ["MAXLEN"; "~"; Str.dec m] else ["MAXLEN"; Str.dec m]
  | None => []
  end ++ ["*"] ++ mjoin ((λ kv, [kv.1; kv.2]) <$> fields).

Definition redis_result (stream : string) (a : RedisAnswer) : DispatchResult :=
  match a with
  | RedisOpenErr e => failure_of "CONNECTION_ERROR" ("Failed to connect to Redis: " +:+ e)
  | RedisConnErr e => failure_of "CONNECTION_ERROR" ("Redis connection failed: " +:+ e)
  | RedisOk id => Success (Json.obj [("message_id", JString id); ("stream", JString stream)])
  | RedisErr e =>
      failure_of (if Str.contains e "timeout" then "TIMEOUT" else "STREAM_ERROR") e
  end.

Definition redis_dispatch {E} (spec : json) : IO E DispatchResult :=
  let redis_url := default "redis://127.0.0.1:6379" (Json.as_str (Json.index spec "redis_url")) in
  let stream := default "" (Json.as_str (Json.index spec "stream")) in
  let max_len := Json.get spec "max_len" ≫= Json.as_u64 in
  let approximate := default true (Json.get spec "approximate_trimming" ≫= Json.as_bool) in
  match Json.get spec "fields_template" ≫= Json.as_object with
  | None => se_ret (failure_of "STREAM_ERROR" "Missing fields_template in spec")
  | Some f =>
      let command := xadd stream max_len approximate (redis_fields f) in
      ns <-- exchange (λ ns, match ns_redis ns with
                             | RedisOpenErr _ | RedisConnErr _ => None
                             | _ => Some (SentRedis redis_url command)
                             end);
      se_ret (redis_result stream (ns_redis ns))
  end.
End redis.

(** ** The reaper *)

Definition reap_schema (db : DbContext) : DB (list string) :=
  retired <-- jobs_retire_expired_cron_jobs db;
  se_iter (λ job_id, unregister_pg_cron_conn (db_schema db) job_id) retired ;;;
  se_ret retired.

(** ** INTERNAL tasks *)

Definition internal_dispatch `{!SqlDisplay} {E} (db : DbContext) (spec : json) :
    IO E DispatchResult :=
  match Json.get spec "task" ≫= Json.as_str with
  | None => se_ret (failure_of "INTERNAL_TASK_MISSING"
                      "INTERNAL endpoint spec is missing required `task` field")
  | Some task =>
      if bool_decide (task = "reaper") then
        r <-- se_try (db_op (reap_schema db));
        match r with
        | inl retired => se_ret (Success (Json.obj [("task", JString "reaper");
            ("schema", JString (db_schema db));
            ("retired_count", JInt (Z.of_nat (length retired)));
            ("retired_job_ids", JArray (JString <$> retired))]))
        | inr e => se_ret (failure_of "REAPER_SWEEP_FAILED" (sql_error_text e))
        end
      else se_ret (failure_of "INTERNAL_TASK_UNKNOWN" ("Unknown INTERNAL task: " +:+ task))
  end.
