(* ===== verification/Pipeline.v ===== *)
(** * Processing an execution ([worker/src/pipeline.rs])

    Endpoint, config, secrets, templates, dispatch, outcome -- on the scoped
    transaction the poller opened. Database errors after the claim are logged
    and dropped by the code; here they are dropped by [se_ignore] and [se_try]. *)

From S2P Require Export Dispatch.
#[local] Open Scope Z_scope.

(** [PipelineContext], less the caches, which are state, and the clients. *)
Record PipelineContext := { pc_encryption_key : string; pc_table_prefix : string }.

Section pipeline.
Context `{!SerdeJson} `{!SqlDisplay} `{!Aes256Gcm} `{!Utf8}.
Context (rng : Rng) (ctx : PipelineContext).

(** ** Helpers *)

Definition flatten_json_object (value : json) : res string (gmap string json) :=
  obj <-? ok_or (Json.as_object value) "Config values must be a JSON object";
  Ok (Json.to_map obj).

Definition config_cache_get (name : string) : IO string (option json) :=
  now <-- clock_now;
  λ w, let '(r, c) := cache_get now name (wd_configs w) in
    (Ok r, {| wd_session := wd_session w; wd_outbox := wd_outbox w; wd_net := wd_net w;
              wd_clock := wd_clock w; wd_configs := c; wd_secrets := wd_secrets w |}).

Definition config_cache_set (name : string) (v : json) : IO string unit :=
  now <-- clock_now;
  λ w, (Ok tt, {| wd_session := wd_session w; wd_outbox := wd_outbox w; wd_net := wd_net w;
                  wd_clock := wd_clock w; wd_configs := cache_set now name v (wd_configs w);
                  wd_secrets := wd_secrets w |}).

Definition secret_cache_get (name : string) : IO string (option string) :=
  now <-- clock_now;
  λ w, let '(r, c) := cache_get now name (wd_secrets w) in
    (Ok r, {| wd_session := wd_session w; wd_outbox := wd_outbox w; wd_net := wd_net w;
              wd_clock := wd_clock w; wd_configs := wd_configs w; wd_secrets := c |}).

Definition secret_cache_set (name value : string) : IO string unit :=
  now <-- clock_now;
  λ w, (Ok tt, {| wd_session := wd_session w; wd_outbox := wd_outbox w; wd_net := wd_net w;
                  wd_clock := wd_clock w; wd_configs := wd_configs w;
                  wd_secrets := cache_set now name value (wd_secrets w) |}).

Definition load_config (db : DbContext) (name : string) : IO string (gmap string json) :=
  cached <-- config_cache_get name;
  match cached with
  | Some v => se_lift (flatten_json_object v)
  | None =>
      found <-- se_map_err (λ e, "Failed to load config '" +:+ name +:+ "': " +:+ sql_error_text e)
                  (db_op (configs_get db name));
      config <-- se_ok_or found ("Config '" +:+ name +:+ "' not found");
      config_cache_set name (c_values_json config) ;;;
      se_lift (flatten_json_object (c_values_json config))
  end.

Definition load_single_secret (db : DbContext) (name : string) : IO string string :=
  cached <-- secret_cache_get name;
  match cached with
  | Some v => se_ret v
  | None =>
      found <-- se_map_err (λ e, "Failed to load secret '" +:+ name +:+ "': " +:+ sql_error_text e)
                  (db_op (secrets_get db name));
      secret <-- se_ok_or found ("Secret '" +:+ name +:+ "' not found");
      decrypted <-- se_map_err (λ e, "Failed to decrypt secret '" +:+ name +:+ "': " +:+ e)
                      (se_lift (decrypt (s_encrypted_value secret) (pc_encryption_key ctx)));
      secret_cache_set name decrypted ;;;
      se_ret decrypted
  end.

(** The scan of the spec's text; [rest] is [spec_str[start..]]. *)
Fixpoint load_secrets_loop (fuel : nat) (db : DbContext) (rest : string)
    (secrets : gmap string string) : IO string (gmap string string) :=
  match fuel with
  | O => se_panic 102
  | S fuel =>
      match Str.find rest "{{secret." with
      | None => se_ret secrets
      | Some pos =>
          let after := Str.sdrop (pos + 9) rest in
          match Str.find after "}}" with
          | None => se_ret secrets
          | Some end_ =>
              let secret_name := Str.stake end_ after in
              let rest := Str.sdrop (end_ + 2) after in
              match secrets !! secret_name with
              | Some _ => load_secrets_loop fuel db rest secrets
              | None =>
                  value <-- load_single_secret db secret_name;
                  load_secrets_loop fuel db rest (<[secret_name := value]> secrets)
              end
          end
      end
  end.

Definition load_secrets (db : DbContext) (spec : json) : IO string (gmap string string) :=
  let spec_str := json_to_string spec in
  load_secrets_loop (S (String.length spec_str)) db spec_str ∅.

(** [num_milliseconds()] truncates. *)
Definition num_milliseconds (d : Z) : Z := Z.quot d 1000.

Definition record_attempt {E} (db : DbContext) (execution_id : string) (attempt_number : Z)
    (status : string) (started_at : Z) (output error : option json) : IO E unit :=
  completed_at <-- clock_now;
  se_ignore (db_op (attempts_insert db execution_id attempt_number status started_at
                      completed_at (num_milliseconds (completed_at - started_at)) output error)).

Definition log_execution {E} (db : DbContext) (execution_id : string) (attempt_number : Z)
    (level message : string) : IO E unit :=
  se_ignore (db_op (execution_logs_insert db execution_id attempt_number level message)).

Definition resolution_failed (e : string) : json :=
  Json.obj [("type", JString "TEMPLATE_RESOLUTION_FAILED"); ("message", JString e)].

(** What the three failures before dispatch have in common. *)
Definition fail_resolution {E} (db : DbContext) (execution_id : string) (attempt_count : Z)
    (started_at : Z) (what e : string) : IO E unit :=
  se_ignore (db_op (executions_complete_failed db execution_id)) ;;;
  record_attempt db execution_id attempt_count "FAILED" started_at None (Some (resolution_failed e)) ;;;
  log_execution db execution_id attempt_count "ERROR" (what +:+ " resolution failed: " +:+ e).

Definition execution_map (idempotency_key : string) (attempt_count : Z)
    (execution_id job_id : string) : gmap string json :=
  <["job_id" := JString job_id]>
  (<["execution_id" := JString execution_id]>
  (<["attempt_count" := JInt attempt_count]>
  (<["idempotency_key" := JString idempotency_key]> ∅))).

(** Job input as the body when the resolved spec has none. *)
Definition inject_body (spec : json) (input : option json) : json :=
  match Json.get spec "body", Json.get spec "body_template", input, spec with
  | None, None, Some v, JObject fs => JObject (Json.obj_insert "body" v fs)
  | _, _, _, _ => spec
  end.

Definition dispatch {E} (db : DbContext) (endpoint_type idempotency_key : string) (spec : json) :
    IO E DispatchResult :=
  if bool_decide (endpoint_type = "HTTP") then http_dispatch spec idempotency_key
  else if bool_decide (endpoint_type = "INTERNAL") then internal_dispatch db spec
  else if bool_decide (endpoint_type = "KAFKA") then kafka_dispatch spec
  else if bool_decide (endpoint_type = "REDIS_STREAM") then redis_dispatch spec
  else se_ret (failure_of "UNSUPPORTED_TYPE" ("Unsupported: " +:+ endpoint_type)).

(** Step 5: the attempt, then the outcome of the execution, then the log. *)
Definition finalize {E} (db : DbContext) (retry_policy : RetryPolicy) (execution_id : string)
    (attempt_count max_attempts started_at duration_ms : Z) (result : DispatchResult) :
    IO E unit :=
  match result with
  | Success output =>
      record_attempt db execution_id attempt_count "SUCCESS" started_at (Some output) None ;;;
      se_ignore (db_op (executions_complete_success db execution_id output)) ;;;
      log_execution db execution_id attempt_count "INFO"
        ("Execution succeeded in " +:+ Str.dec duration_ms +:+ "ms")
  | Failure error =>
      record_attempt db execution_id attempt_count "FAILED" started_at None (Some error) ;;;
      if bool_decide (attempt_count < max_attempts) then
        match compute_backoff rng retry_policy attempt_count with
        | Ok backoff_ms =>
            se_ignore (db_op (executions_complete_retry db execution_id backoff_ms)) ;;;
            log_execution db execution_id attempt_count "WARN"
              ("Attempt " +:+ Str.dec attempt_count +:+ " failed, retrying in "
                 +:+ Str.dec backoff_ms +:+ "ms: " +:+ json_to_string error)
        | Err _ => se_ret tt
        | Panic w => se_panic w
        end
      else
        se_ignore (db_op (executions_complete_failed db execution_id)) ;;;
        log_execution db execution_id attempt_count "ERROR"
          ("Execution failed after " +:+ Str.dec attempt_count +:+ " attempts: "
             +:+ json_to_string error)
  end.

(** Steps 3 to 5, once the spec is resolved. *)
Definition run_resolved {E} (db : DbContext) (retry_policy : RetryPolicy)
    (execution_id idempotency_key endpoint_name endpoint_type : string) (input : option json)
    (attempt_count max_attempts started_at : Z) (resolved_spec : json) : IO E unit :=
  let dispatch_spec := inject_body resolved_spec input in
  log_execution db execution_id attempt_count "INFO"
    ("Dispatching " +:+ endpoint_type +:+ " to " +:+ endpoint_name) ;;;
  result <-- dispatch db endpoint_type idempotency_key dispatch_spec;
  completed_at <-- clock_now;
  finalize db retry_policy execution_id attempt_count max_attempts started_at
    (num_milliseconds (completed_at - started_at)) result.

Definition input_map (input : option json) : gmap string json :=
  default ∅ (Json.to_map <$> (input ≫= Json.as_object)).

Definition process_execution {E} (db : DbContext)
    (execution_id idempotency_key job_id endpoint_name endpoint_type : string)
    (input : option json) (attempt_count max_attempts : Z) : IO E unit :=
  started_at <-- clock_now;
  found <-- se_try (db_op (endpoints_get db endpoint_name));
  match found with
  | inl None =>
      se_ignore (db_op (executions_complete_failed db execution_id)) ;;;
      log_execution db execution_id attempt_count "ERROR" ("Endpoint not found: " +:+ endpoint_name)
  | inr _ => se_ignore (db_op (executions_complete_failed db execution_id))
  | inl (Some endpoint) =>
      let retry_policy := get_retry_policy endpoint in
      config <-- match ep_config_ref endpoint with
                 | Some name => se_try (load_config db name)
                 | None => se_ret (inl ∅)
                 end;
      match config with
      | inr e => fail_resolution db execution_id attempt_count started_at "Template" e
      | inl config_values =>
          secrets <-- se_try (load_secrets db (ep_spec endpoint));
          match secrets with
          | inr e => fail_resolution db execution_id attempt_count started_at "Secret" e
          | inl secret_values =>
              let tc := {| tc_input := input_map input; tc_config := config_values;
                tc_secrets := secret_values;
                tc_execution := execution_map idempotency_key attempt_count execution_id job_id |} in
              match resolve tc (ep_spec endpoint) with
              | Err e => fail_resolution db execution_id attempt_count started_at "Template" e
              | Panic w => se_panic w
              | Ok resolved_spec =>
                  run_resolved db retry_policy execution_id idempotency_key endpoint_name
                    endpoint_type input attempt_count max_attempts started_at resolved_spec
              end
          end
      end
  end.
End pipeline.
