(* ===== verification/Poller.v ===== *)
(** * The poller ([worker/src/poller.rs], [worker/src/health.rs])

    One task of the polling loop: for each schema in turn, claim an execution in a
    scoped transaction, process it, commit. A transaction that leaves its scope
    without [commit] -- no work, a failed statement, a panic -- is rolled back. *)

From S2P Require Export Pipeline.
#[local] Open Scope Z_scope.

(** Leaving the scope of [tx]. *)
Definition in_tx_io {E A} (m : IO E A) : IO E A := λ w,
  let '(r, w') := m w in (r, set_session (drop_tx (wd_session w')) w').

Section poller.
Context `{!SerdeJson} `{!SqlDisplay} `{!Aes256Gcm} `{!Utf8}.
Context (rng : Rng) (ctx : PipelineContext) (worker_id : string).

(** [job.idempotency_key.as_deref().unwrap_or(exec.execution_id)] *)
Definition dispatch_key (job : Job) (exec : ClaimedExecution) : string :=
  default (cl_execution_id exec) (j_idempotency_key job).

(** The body of the loop after BEGIN: [true] is [return true], [false] is
    [continue]. *)
Definition claim_one {E} (schema_name : string) : IO E bool :=
  let db := {| db_schema := schema_name; db_prefix := pc_table_prefix ctx |} in
  claimed <-- se_try (db_op (executions_claim db worker_id));
  match claimed with
  | inr _ | inl None => se_ret false
  | inl (Some exec) =>
      found <-- se_try (db_op (jobs_get db (cl_job_id exec)));
      match found with
      | inl None => se_ret false
      | inr _ =>
          se_ignore (db_op (executions_complete_failed db (cl_execution_id exec))) ;;;
          se_ret false
      | inl (Some job) =>
          process_execution rng ctx db (cl_execution_id exec) (dispatch_key job exec)
            (cl_job_id exec) (cl_endpoint exec) (cl_endpoint_type exec) (cl_input exec)
            (cl_attempt_count exec) (cl_max_attempts exec) ;;;
          se_ignore (db_op commit) ;;;
          se_ret true
      end
  end.

Fixpoint claim_and_process {E} (schemas : list string) : IO E bool :=
  match schemas with
  | [] => se_ret false
  | schema_name :: schemas =>
      begun <-- se_try (db_op (scoped_transaction schema_name));
      match begun with
      | inr _ => claim_and_process schemas
      | inl _ =>
          found <-- in_tx_io (claim_one schema_name);
          if found then se_ret true else claim_and_process schemas
      end
  end.
End poller.

(** ** Health of the poller: durations in milliseconds *)

Definition stale_after (poll_interval floor : Z) : Z := Z.max floor (poll_interval * 10).

Definition poller_ok (last_tick_ago stale_after available_permits : Z) : bool :=
  bool_decide (last_tick_ago ≤ stale_after) || bool_decide (available_permits = 0).

Record WorkerHealth := {
  wh_started : Z;
  wh_last_tick_ms : Z;
  wh_permits : Z;
  wh_stale_after : Z;
}.

Definition WorkerHealth_new (now max_concurrent poll_interval stale_floor : Z) : WorkerHealth := {|
  wh_started := now; wh_last_tick_ms := 0; wh_permits := max_concurrent;
  wh_stale_after := stale_after poll_interval stale_floor |}.

Definition now_ms (now : Z) (h : WorkerHealth) : Z := Z.max 0 (now - wh_started h).

Definition tick (now : Z) (h : WorkerHealth) : WorkerHealth := {|
  wh_started := wh_started h; wh_last_tick_ms := now_ms now h;
  wh_permits := wh_permits h; wh_stale_after := wh_stale_after h |}.

(** [saturating_sub] *)
Definition last_tick_ago (now : Z) (h : WorkerHealth) : Z :=
  Z.max 0 (now_ms now h - wh_last_tick_ms h).

Definition WorkerHealth_poller_ok (now : Z) (h : WorkerHealth) : bool :=
  poller_ok (last_tick_ago now h) (wh_stale_after h) (wh_permits h).
