(* ===== verification/WorkerSafe.v ===== *)
(** * What a worker task does to the executions

    Every step of [claim_and_process] respects the life of executions, and what it
    commits is either nothing or the outcome of the execution it claimed. *)

From S2P Require Export Statements Poller.
#[local] Open Scope Z_scope.

(** ** Relations on the session of a world *)

Definition on_session (R : relation Session) : relation World := λ w w',
  R (wd_session w) (wd_session w').

#[global] Instance on_session_preorder R `{!PreOrder R} : PreOrder (on_session R).
Proof.
  split.
  - intros w. unfold on_session. reflexivity.
  - intros w1 w2 w3. unfold on_session. apply transitivity.
Qed.

Section world.
Context (R : relation Session) `{!PreOrder R}.

Notation ok m := (preserves (on_session R) m).

Lemma world_db_op {A} (m : DB A) : preserves R m → ok (db_op m).
Proof. intros Hm w. specialize (Hm (wd_session w)). unfold on_session, db_op. by destruct (m _). Qed.

Lemma world_clock {E} : ok (@clock_now E).
Proof. intros w. unfold on_session. simpl. reflexivity. Qed.

Lemma world_exchange {E} sent : ok (@exchange E sent).
Proof. intros w. unfold on_session. simpl. reflexivity. Qed.

Lemma world_http {E} spec key : ok (@http_dispatch E spec key).
Proof. unfold http_dispatch. apply preserves_bind; [apply _|apply world_exchange|intros ?]. apply preserves_ret, _. Qed.

Lemma world_kafka `{!SerdeJson} {E} spec : ok (@kafka_dispatch _ E spec).
Proof. unfold kafka_dispatch. apply preserves_bind; [apply _|apply world_exchange|intros ?]. apply preserves_ret, _. Qed.

Lemma world_redis `{!SerdeJson} {E} spec : ok (@redis_dispatch _ E spec).
Proof.
  unfold redis_dispatch. cbv zeta. destruct (_ ≫= _); [|apply preserves_ret, _].
  apply preserves_bind; [apply _|apply world_exchange|intros ?]. apply preserves_ret, _.
Qed.

Lemma world_config_get name : ok (config_cache_get name).
Proof.
  unfold config_cache_get. apply preserves_bind; [apply _|apply world_clock|].
  intros now w. unfold on_session. destruct (cache_get _ _ _). simpl. reflexivity.
Qed.
Lemma world_config_set name v : ok (config_cache_set name v).
Proof.
  unfold config_cache_set. apply preserves_bind; [apply _|apply world_clock|].
  intros now w. unfold on_session. simpl. reflexivity.
Qed.
Lemma world_secret_get name : ok (secret_cache_get name).
Proof.
  unfold secret_cache_get. apply preserves_bind; [apply _|apply world_clock|].
  intros now w. unfold on_session. destruct (cache_get _ _ _). simpl. reflexivity.
Qed.
Lemma world_secret_set name v : ok (secret_cache_set name v).
Proof.
  unfold secret_cache_set. apply preserves_bind; [apply _|apply world_clock|].
  intros now w. unfold on_session. simpl. reflexivity.
Qed.
End world.

#[export] Hint Resolve world_db_op world_clock world_exchange world_http world_kafka world_redis
  world_config_get world_config_set world_secret_get world_secret_set : preserves.

(** ** What the pipeline needs of a relation

    The statements it runs on the transaction for the attempt [num] of the execution
    [id], apart from the ones that move the execution itself. *)
Record pipeline_frame (R : relation Session) (db : DbContext) (id : string) (num : Z) : Prop := {
  pf_preorder : PreOrder R;
  pf_read {A} (f : Tenant → A) : preserves R (read db f);
  pf_attempt s a b c d e : preserves R (attempts_insert db id num s a b c d e);
  pf_log l m : preserves R (execution_logs_insert db id num l m);
}.

(** The statements of an [INTERNAL] execution besides. *)
Record reaper_frame (R : relation Session) (db : DbContext) : Prop := {
  rf_retire : preserves R (jobs_retire_expired_cron_jobs db);
  rf_unregister s j : preserves R (unregister_pg_cron_conn s j);
}.

Section frame.
Context `{!SerdeJson} `{!SqlDisplay} `{!Aes256Gcm} `{!Utf8}.
Context (rng : Rng) (ctx : PipelineContext).
Context (R : relation Session) (db : DbContext) (id : string) (num : Z).
Context (F : pipeline_frame R db id num).

#[local] Instance frame_preorder : PreOrder R := pf_preorder _ _ _ _ F.
Notation ok m := (preserves (on_session R) m).

Lemma frame_reap : reaper_frame R db → preserves R (reap_schema db).
Proof.
  intros Fr. unfold reap_schema.
  apply preserves_bind; [apply _|apply (rf_retire _ _ Fr)|intros l].
  apply preserves_bind; [apply _| |intros ?; apply preserves_ret, _].
  apply preserves_iter; [apply _|]. intros j. apply (rf_unregister _ _ Fr).
Qed.

Lemma frame_read {E A} (f : Tenant → A) : ok (se_try (F:=E) (db_op (read db f))).
Proof. apply preserves_try, world_db_op, (pf_read _ _ _ _ F). Qed.

Lemma frame_log {E} l m : ok (log_execution (E:=E) db id num l m).
Proof. apply preserves_ignore, world_db_op, (pf_log _ _ _ _ F). Qed.

Lemma frame_attempt {E} s a o e : ok (record_attempt (E:=E) db id num s a o e).
Proof.
  unfold record_attempt. apply preserves_bind; [apply _|apply world_clock; apply _|intros c].
  apply preserves_ignore, world_db_op, (pf_attempt _ _ _ _ F).
Qed.

Lemma frame_load_config name : ok (load_config db name).
Proof.
  unfold load_config. apply preserves_bind; [apply _|apply world_config_get, _|intros [v|]].
  - apply preserves_lift, _.
  - apply preserves_bind; [apply _| |intros o].
    { apply preserves_map_err, world_db_op, (pf_read _ _ _ _ F). }
    apply preserves_bind; [apply _|apply preserves_ok_or, _|intros c].
    apply preserves_bind; [apply _|apply world_config_set, _|intros _]. apply preserves_lift, _.
Qed.

Lemma frame_load_single name : ok (load_single_secret ctx db name).
Proof.
  unfold load_single_secret. apply preserves_bind; [apply _|apply world_secret_get, _|intros [v|]].
  - apply preserves_ret, _.
  - apply preserves_bind; [apply _| |intros o].
    { apply preserves_map_err, world_db_op, (pf_read _ _ _ _ F). }
    apply preserves_bind; [apply _|apply preserves_ok_or, _|intros c].
    apply preserves_bind; [apply _|apply preserves_map_err, preserves_lift, _|intros d].
    apply preserves_bind; [apply _|apply world_secret_set, _|intros _]. apply preserves_ret, _.
Qed.

Lemma frame_load_secrets spec : ok (load_secrets ctx db spec).
Proof.
  unfold load_secrets. cbv zeta. generalize (S (String.length (json_to_string spec))).
  generalize (json_to_string spec) (∅ : gmap string string). intros rest m fuel.
  revert rest m. induction fuel as [|fuel IH]; intros rest m; simpl; [apply preserves_panic, _|].
  destruct (Str.find rest _); [|apply preserves_ret, _].
  destruct (Str.find _ "}}"); [|apply preserves_ret, _].
  destruct (m !! _); [apply IH|].
  apply preserves_bind; [apply _|apply frame_load_single|intros v; apply IH].
Qed.

Lemma frame_dispatch {E} ty key spec : (ty = "INTERNAL" → reaper_frame R db) →
  ok (dispatch (E:=E) db ty key spec).
Proof.
  intros Fr. unfold dispatch. case_bool_decide; [apply world_http, _|].
  case_bool_decide as Hty; [|case_match; [apply world_kafka, _|]; case_match;
    [apply world_redis, _|]; apply preserves_ret, _].
  unfold internal_dispatch. destruct (_ ≫= _) as [task|]; [|apply preserves_ret, _].
  case_match; [|apply preserves_ret, _].
  apply preserves_bind; [apply _|by apply preserves_try, world_db_op, frame_reap, Fr|].
  intros [l|e]; apply preserves_ret, _.
Qed.
End frame.

#[export] Hint Resolve frame_read frame_log frame_attempt frame_load_config frame_load_single
  frame_load_secrets frame_dispatch : preserves.

(** ** Processing an execution, by its statements *)

Record process_frame (R : relation Session) (db : DbContext) (id : string) (num : Z)
    (ty : string) : Prop := {
  prf_pipeline : pipeline_frame R db id num;
  prf_reaper : ty = "INTERNAL" → reaper_frame R db;
  prf_success o : preserves R (executions_complete_success db id o);
  prf_retry b : preserves R (executions_complete_retry db id b);
  prf_failed : preserves R (executions_complete_failed db id);
}.

Section process.
Context `{!SerdeJson} `{!SqlDisplay} `{!Aes256Gcm} `{!Utf8}.
Context (rng : Rng) (ctx : PipelineContext).
Context (R : relation Session) (db : DbContext) (id : string) (n : Z) (ty : string).
Context (F : process_frame R db id n ty).

Let P : pipeline_frame R db id n := prf_pipeline _ _ _ _ _ F.
#[local] Instance process_preorder : PreOrder R := pf_preorder _ _ _ _ P.
Notation ok m := (preserves (on_session R) m).

Lemma process_failed {E} : ok (se_ignore (F:=E) (db_op (executions_complete_failed db id))).
Proof. apply preserves_ignore, world_db_op, (prf_failed _ _ _ _ _ F). Qed.

Lemma process_fail_resolution {E} t w e : ok (fail_resolution (E:=E) db id n t w e).
Proof.
  unfold fail_resolution. apply preserves_bind; [apply _|apply process_failed|intros ?].
  apply preserves_bind; [apply _|apply frame_attempt, P|intros ?]. apply frame_log, P.
Qed.

Lemma process_finalize {E} rp m t d r : ok (finalize (E:=E) rng db rp id n m t d r).
Proof.
  unfold finalize. destruct r as [o|e].
  - apply preserves_bind; [apply _|apply frame_attempt, P|intros ?].
    apply preserves_bind; [apply _| |intros ?; apply frame_log, P].
    apply preserves_ignore, world_db_op, (prf_success _ _ _ _ _ F).
  - apply preserves_bind; [apply _|apply frame_attempt, P|intros ?].
    case_match.
    + case_match; [|apply preserves_ret, _|apply preserves_panic, _].
      apply preserves_bind; [apply _| |intros ?; apply frame_log, P].
      apply preserves_ignore, world_db_op, (prf_retry _ _ _ _ _ F).
    + apply preserves_bind; [apply _|apply process_failed|intros ?; apply frame_log, P].
Qed.

Lemma process_run_resolved {E} rp key ep i m t spec :
  ok (run_resolved (E:=E) rng db rp id key ep ty i n m t spec).
Proof.
  unfold run_resolved. cbv zeta.
  apply preserves_bind; [apply _|apply frame_log, P|intros ?].
  apply preserves_bind; [apply _|by eapply frame_dispatch, (prf_reaper _ _ _ _ _ F); apply P|intros r].
  apply preserves_bind; [apply _|apply world_clock, _|intros ?]. apply process_finalize.
Qed.

Lemma process_ok {E} key job ep i m :
  ok (process_execution (E:=E) rng ctx db id key job ep ty i n m).
Proof.
  unfold process_execution. apply preserves_bind; [apply _|apply world_clock, _|intros t].
  apply preserves_bind; [apply _|eapply (frame_read R db), P|].
  intros [[e|]|err].
  2: { apply preserves_bind; [apply _|apply process_failed|intros ?; apply frame_log, P]. }
  2: apply process_failed.
  cbv zeta. apply preserves_bind; [apply _| |].
  { destruct (ep_config_ref e); [|apply preserves_ret, _].
    eapply preserves_try, frame_load_config, P. }
  intros [c|err]; [|apply process_fail_resolution].
  apply preserves_bind; [apply _|eapply preserves_try, frame_load_secrets, P|].
  intros [s|err]; [|apply process_fail_resolution].
  destruct (resolve _ _);
    [apply process_run_resolved|apply process_fail_resolution|apply preserves_panic, _].
Qed.
End process.

(** ** A task, by its parts *)

(** What a whole task needs of a relation on sessions; [tf_process] may rely on what
    the claim did. *)
Record task_frame (T : relation Session) : Prop := {
  tf_process db id num ty : process_frame T db id num ty;
  tf_claim db w : preserves T (executions_claim db w);
  tf_begin schema : preserves T (scoped_transaction schema);
  tf_commit : preserves T commit;
  tf_drop s : T s (drop_tx s);
}.

Section task.
Context `{!SerdeJson} `{!SqlDisplay} `{!Aes256Gcm} `{!Utf8}.
Context (rng : Rng) (ctx : PipelineContext) (worker_id : string).
Context (T : relation Session) `{!PreOrder T}.
Notation ok m := (preserves (on_session T) m).

Lemma task_in_tx {E A} (m : IO E A) : (∀ s, T s (drop_tx s)) → ok m → ok (in_tx_io m).
Proof.
  intros Hd Hm w. specialize (Hm w). unfold in_tx_io. destruct (m w) as [r w'].
  unfold on_session in *. simpl in *. etrans; [exact Hm|]. apply Hd.
Qed.

Lemma task_claim_one {E} schema : task_frame T → ok (claim_one (E:=E) rng ctx worker_id schema).
Proof.
  intros F. unfold claim_one. cbv zeta.
  apply preserves_bind; [apply _|apply preserves_try, world_db_op, (tf_claim _ F)|].
  intros [[x|]|e]; [|apply preserves_ret, _..].
  pose proof (tf_process _ F {| db_schema := schema; db_prefix := pc_table_prefix ctx |}
    (cl_execution_id x) (cl_attempt_count x) (cl_endpoint_type x)) as Fp.
  apply preserves_bind; [apply _|eapply (frame_read T _), (prf_pipeline _ _ _ _ _ Fp)|].
  intros [[j|]|err].
  - apply preserves_bind; [apply _|by apply process_ok|intros ?].
    apply preserves_bind; [apply _| |intros ?; apply preserves_ret, _].
    apply preserves_ignore, world_db_op, (tf_commit _ F).
  - apply preserves_ret, _.
  - apply preserves_bind; [apply _| |intros ?; apply preserves_ret, _].
    eapply process_failed, Fp.
Qed.

(** The loop over the schemas, whatever [claim_one] is. *)
Lemma task_loop {E} schemas :
  (∀ schema, preserves T (scoped_transaction schema)) →
  (∀ schema, ok (in_tx_io (claim_one (E:=E) rng ctx worker_id schema))) →
  ok (claim_and_process (E:=E) rng ctx worker_id schemas).
Proof.
  intros Hb Hc. induction schemas as [|schema schemas IH]; simpl; [apply preserves_ret, _|].
  apply preserves_bind; [apply _|apply preserves_try, world_db_op, Hb|].
  intros [u|e]; [|apply IH].
  apply preserves_bind; [apply _|apply Hc|]. intros []; [apply preserves_ret, _|apply IH].
Qed.
End task.

(** ** A task makes moves

    It reports the attempt whose number its claim counted. *)

Lemma process_frame_moves db id num ty :
  process_frame (keeps moves (ran (db_schema db, db_prefix db) id num)) db id num ty.
Proof.
  assert (∀ A (m : DB A), moving m →
    preserves (keeps moves (ran (db_schema db, db_prefix db) id num)) m) as Hk.
  { intros A m. apply moving_keeps, stable_ran. }
  split; [|split|auto with preserves..]; [|intros; apply Hk; auto with preserves..].
  split; [apply _| |apply keeps_attempts_insert|intros; apply Hk; auto with preserves..].
  intros A f. apply Hk, moving_read.
Qed.

Lemma claim_ran db w s x :
  (executions_claim db w s).1 = Ok (Some x) →
  ran (db_schema db, db_prefix db) (cl_execution_id x) (cl_attempt_count x)
    (ss_store (executions_claim db w s).2).
Proof.
  unfold executions_claim, tstmt, stmt. destruct (ss_failed s); [done|].
  destruct (stim_fault _); [done|]. destruct (tquery _ _ _ _ _ _) as [[r σ]| |] eqn:Eq; [|done..].
  simpl. intros [= ->]. apply tquery_inv in Eq as (t & t' & Ht & Eq & ->).
  destruct (pick_least _ _ _) as [[id e]|]; [|done]. cbv zeta in Eq. case_match; [done|].
  injection Eq as <- <-. eexists _, _. split; [simpl; apply lookup_insert_eq|].
  simpl. split; [apply lookup_insert_eq|done].
Qed.

(** What makes moves provided [K] holds when it starts. *)
Definition moves_from (K : Store → Prop) {E A} (m : IO E A) : Prop := ∀ w,
  env_ok moves (wd_session w) → tx_ok moves (wd_session w) → K (ss_store (wd_session w)) →
  env_ok moves (wd_session (m w).2) ∧ tx_ok moves (wd_session (m w).2)
  ∧ moves (committed (wd_session w)) (committed (wd_session (m w).2)).

Lemma moves_from_safe K {E A} (m : IO E A) :
  preserves (on_session (safe moves)) m → moves_from K m.
Proof. intros Hm w He Ht _. by apply Hm. Qed.

Lemma moves_from_keeps K {E A} (m : IO E A) :
  preserves (on_session (keeps moves K)) m → moves_from K m.
Proof. intros Hm w He Ht Hk. destruct (Hm w He Ht Hk) as (?&?&?&_). done. Qed.

Lemma moves_from_bind K {E A B} (m : IO E A) (f : A → IO E B) :
  preserves (on_session (keeps moves K)) m → (∀ a, moves_from K (f a)) →
  moves_from K (se_bind m f).
Proof.
  intros Hm Hf w He Ht Hk. destruct (Hm w He Ht Hk) as (He2&Ht2&HT2&Hk2). unfold se_bind.
  destruct (m w) as [[a|e|p] w2]; [|done..]. simpl in *.
  destruct (Hf a w2 He2 Ht2 Hk2) as (?&?&?). split_and!; [done..|by etrans].
Qed.

Section moves_task.
Context `{!SerdeJson} `{!SqlDisplay} `{!Aes256Gcm} `{!Utf8}.
Context (rng : Rng) (ctx : PipelineContext) (worker_id : string).

Lemma claim_one_moves {E} schema :
  preserves (on_session (safe moves)) (claim_one (E:=E) rng ctx worker_id schema).
Proof.
  intros w He Ht. destruct (claim_one _ _ _ _ w) as [r w'] eqn:E1. cbn [snd].
  unfold claim_one in E1. cbv zeta in E1. unfold se_bind at 1, se_try at 1, db_op at 1 in E1.
  set (db := {| db_schema := schema; db_prefix := _ |}) in *.
  destruct (moving_safe _ (moving_claim db worker_id) (wd_session w) He Ht) as (He1&Ht1&HT1).
  pose proof (claim_ran db worker_id (wd_session w)) as Hran.
  destruct (executions_claim db worker_id (wd_session w)) as [[[x|]|e|p] s1];
    try (injection E1 as <- <-; done).
  cbn [fst snd] in *. specialize (Hran x eq_refl).
  match type of E1 with se_bind ?m ?f ?w1 = _ => set (rest := se_bind m f) in E1 end.
  enough (moves_from (ran (db_schema db, db_prefix db) (cl_execution_id x) (cl_attempt_count x))
            rest) as Hrest.
  { destruct (Hrest (set_session s1 w) He1 Ht1 Hran) as (?&?&HT2). rewrite E1 in *.
    split_and!; [done..|]. etrans; [exact HT1|exact HT2]. }
  pose proof (process_frame_moves db (cl_execution_id x) (cl_attempt_count x) (cl_endpoint_type x))
    as F.
  unfold rest. apply moves_from_bind.
  { eapply (frame_read _ db), (prf_pipeline _ _ _ _ _ F). }
  intros [[j|]|err].
  - apply moves_from_bind; [by apply process_ok|intros _]. apply moves_from_safe.
    apply preserves_bind; [apply _| |intros ?; apply preserves_ret, _].
    apply preserves_ignore, world_db_op, safe_commit, _.
  - apply moves_from_safe, preserves_ret, _.
  - apply moves_from_keeps. apply preserves_bind; [apply _| |intros ?; apply preserves_ret, _].
    eapply process_failed, F.
Qed.

Lemma task_moves {E} schemas :
  preserves (on_session (safe moves)) (claim_and_process (E:=E) rng ctx worker_id schemas).
Proof.
  apply task_loop; [apply _|intros; apply safe_scoped_transaction, _|].
  intros schema. apply task_in_tx; [apply _|intros s; apply safe_drop_tx, _|].
  apply claim_one_moves.
Qed.
End moves_task.

(** ** A task consumes the environment *)

(** What the environment does later is part of what it does now. *)
Definition env_shrinks : relation Session := λ s s', ∃ l, ss_env s = l ++ ss_env s'.

#[global] Instance env_shrinks_preorder : PreOrder env_shrinks.
Proof.
  split; [by intros s; exists []|].
  intros s1 s2 s3 [l1 H1] [l2 H2]. exists (l1 ++ l2). by rewrite H1, H2, (assoc_L (++)).
Qed.

Lemma shrinks_tail (s s' : Session) : ss_env s' = tail (ss_env s) → env_shrinks s s'.
Proof. intros E. exists (take 1 (ss_env s)). rewrite E. by destruct (ss_env s). Qed.

Lemma shrinks_stmt {A} (q : Query A) : preserves env_shrinks (stmt q).
Proof.
  intros s. unfold stmt. destruct (ss_failed s); [reflexivity|].
  destruct (stim_fault _); [by apply shrinks_tail|].
  destruct (q _ _ _ _) as [[]| |]; by apply shrinks_tail.
Qed.

Lemma env_task_frame : task_frame env_shrinks.
Proof.
  split; try (intros; apply shrinks_stmt).
  - intros db id num ty.
    split; [split; [apply _|intros; apply shrinks_stmt..]|split|..]; intros; apply shrinks_stmt.
  - intros schema. unfold scoped_transaction.
    destruct (validate_schema_name schema); [|apply preserves_panic, _].
    intros s. destruct (stim_fault _); by apply shrinks_tail.
  - intros s. unfold commit. destruct (ss_failed _); [by apply shrinks_tail|].
    destruct (stim_fault _); by apply shrinks_tail.
  - intros s. unfold drop_tx. destruct (ss_begin s); by exists [].
Qed.

(** ** The locks of others stay *)

Definition same_locks : relation Session := λ s s', ss_locked s' = ss_locked s.

#[global] Instance same_locks_preorder : PreOrder same_locks.
Proof. split; unfold same_locks; [done|]. intros s1 s2 s3 -> ->. done. Qed.

Lemma stmt_locks {A} (q : Query A) : preserves same_locks (stmt q).
Proof.
  intros s. unfold same_locks, stmt. destruct (ss_failed s); [done|].
  destruct (stim_fault _); [done|]. by destruct (q _ _ _ _) as [[]| |].
Qed.

Lemma locks_task_frame : task_frame same_locks.
Proof.
  split.
  - intros db id num ty. split; [split; [apply _|..]|split|..]; intros; apply stmt_locks.
  - intros. apply stmt_locks.
  - intros schema s. unfold same_locks, scoped_transaction.
    destruct (validate_schema_name schema); [|done]. by destruct (stim_fault _).
  - intros s. unfold same_locks, commit. destruct (ss_failed _); [done|].
    by destruct (stim_fault _).
  - intros s. unfold same_locks, drop_tx. by destruct (ss_begin s).
Qed.
