(* ===== verification/WorkerTx.v ===== *)
(** * The transaction of a worker task

    Inside the scoped transaction the claimed execution is [RUNNING]; when the
    task leaves the transaction, either nothing is committed or the execution has
    its outcome.  The relations below follow the executions from statement to
    statement; a failed statement aborts the transaction and what follows it has
    no effect. *)

From S2P Require Export WorkerSafe.
#[local] Open Scope Z_scope.

(** ** Statements that leave the executions alone *)

(** From [s] to [s'] in one transaction: if it is not aborted, the executions are
    the same. *)
Record in_frame (s s' : Session) : Prop := {
  if_begin : ss_begin s' = ss_begin s;
  if_now : ss_now s' = ss_now s;
  if_failed : ss_failed s = true → ss_failed s' = true;
  if_execs k : ss_failed s' = false → execs k (ss_store s') = execs k (ss_store s);
}.

Definition tx_frame : relation Session := λ s s', is_Some (ss_begin s) → in_frame s s'.

#[global] Instance in_frame_preorder : PreOrder in_frame.
Proof.
  split; [by intros s; split|].
  intros s1 s2 s3 [] [Hb Hn Hf He]. split; try congruence; [auto|].
  intros k H3. rewrite He by done. destruct (ss_failed s2) eqn:E; [|auto].
  rewrite Hf in H3 by done. done.
Qed.

#[global] Instance tx_frame_preorder : PreOrder tx_frame.
Proof.
  split; [intros s _; reflexivity|].
  intros s1 s2 s3 H12 H23 Hb. pose proof (H12 Hb) as F. etrans; [exact F|].
  apply H23. by rewrite (if_begin _ _ F).
Qed.

Section tx.
Implicit Types s : Session.

Lemma in_transaction_true s : is_Some (ss_begin s) → in_transaction s = true.
Proof. unfold in_transaction. intros. by apply bool_decide_eq_true. Qed.

(** One statement inside a transaction. *)
Lemma stmt_in_tx {A} (q : Query A) s : is_Some (ss_begin s) →
  let s' := (stmt q s).2 in
  ss_begin s' = ss_begin s ∧ ss_now s' = ss_now s
  ∧ (ss_failed s = true → ss_failed s' = true)
  ∧ (ss_failed s' = false →
       (∃ a, (stmt q s).1 = Ok a
             ∧ q (next_stim s) (ss_now s) (ss_locked s) (ss_store s) = Ok (a, ss_store s'))
       ∨ (∃ w, (stmt q s).1 = Panic w) ∧ ss_store s' = ss_store s).
Proof.
  intros Hb. pose proof (in_transaction_true s Hb) as Ht. unfold stmt.
  destruct (ss_failed s) eqn:Hf; [simpl; rewrite Hf; naive_solver|].
  assert (ss_now (advance s) = ss_now s) as En by (unfold advance; simpl; by rewrite Ht).
  assert (ss_store (advance s) = ss_store s) as Es by (unfold advance; simpl; by rewrite Ht).
  assert (ss_locked (advance s) = ss_locked s) as El by done.
  assert (in_transaction (advance s) = true) as Ht' by (apply in_transaction_true; done).
  destruct (stim_fault _).
  { simpl. rewrite Ht, Ht'. split_and!; done. }
  rewrite En, Es, El.
  destruct (q _ _ _ _) as [[a σ]|e|w] eqn:Eq; simpl.
  - rewrite Ht, Hf. split_and!; [done..|]. intros _. left. eauto.
  - rewrite Ht, Ht'. split_and!; done.
  - rewrite Ht. split_and!; [done..|]. intros _. right. eauto.
Qed.

Lemma stmt_tx_frame {A} (q : Query A) :
  (∀ st now locked σ a σ', q st now locked σ = Ok (a, σ') → ∀ k, execs k σ' = execs k σ) →
  preserves tx_frame (stmt q).
Proof.
  intros Hq s Hb. destruct (stmt_in_tx q s Hb) as (E1 & E2 & E3 & E4).
  split; [done..|]. intros k [(a & _ & Eq)|[_ Eq]]%E4; [by eapply Hq|by rewrite Eq].
Qed.

Lemma tstmt_tx_frame {A} db (q : TQuery A) :
  (∀ st now locked t a t', q st now locked t = Ok (a, t') → t_executions t' = t_executions t) →
  preserves tx_frame (tstmt db q).
Proof.
  intros Hq. apply stmt_tx_frame. intros st now locked σ a σ'. unfold tquery.
  destruct (st_tenants σ !! _) as [t|] eqn:Et; [|done].
  destruct (q st now locked t) as [[a' t']| |] eqn:Eq; [|done..]. intros [= <- <-] k.
  rewrite execs_set_tenant. destruct (bool_decide_reflect ((db_schema db, db_prefix db) = k)) as [<-|];
    [|done]. rewrite (execs_lookup _ _ _ Et). by eapply Hq.
Qed.

Lemma tx_frame_of db id num : pipeline_frame tx_frame db id num.
Proof.
  split; [apply _|intros; apply tstmt_tx_frame; intros ??????; cbv beta zeta..].
  - by intros [= <- <-].
  - repeat (case_match; try done). by intros [= <- <-].
  - repeat (case_match; try done). by intros [= <- <-].
Qed.

Lemma tx_frame_reaper db : reaper_frame tx_frame db.
Proof.
  split; [apply tstmt_tx_frame; by intros ?????? [= <- <-]|].
  intros sch j. apply stmt_tx_frame. by intros ?????? [= <- <-].
Qed.
End tx.

(** ** What the statements change besides *)

(** Rows with [P] have been added, and no other row is touched. *)
Definition rows_added {A} (P : A → Prop) : relation (gmap string A) := λ m m',
  m ⊆ m' ∧ ∀ i x, m' !! i = Some x → m !! i = Some x ∨ P x.

#[global] Instance rows_added_preorder {A} (P : A → Prop) : PreOrder (rows_added P).
Proof.
  split; [by intros m; split; [|left]|].
  intros m1 m2 m3 [S12 H12] [S23 H23]. split; [by etrans|].
  intros i x [H%H12|]%H23; [done|by right].
Qed.

Lemma rows_added_insert {A} (P : A → Prop) m i x :
  m !! i = None → P x → rows_added P m (<[i := x]> m).
Proof.
  intros Hi Hx. split; [by apply insert_subseteq|]. intros i' y.
  destruct (decide (i = i')) as [<-|Hne].
  - rewrite lookup_insert_eq. intros [= <-]. by right.
  - rewrite lookup_insert_ne by done. by left.
Qed.

(** Jobs whose window had closed by [now] may have been retired. *)
Definition jobs_reaped (now : Z) : relation (gmap string Job) := λ m m',
  dom m' = dom m ∧ ∀ i j', m' !! i = Some j' → m !! i = Some j'
    ∨ ∃ j, m !! i = Some j ∧ cron_expired now j ∧ j' = retired now (j_replaced_by_id j) j.

#[global] Instance jobs_reaped_preorder now : PreOrder (jobs_reaped now).
Proof.
  split; [by intros m; split; [|left]|].
  intros m1 m2 m3 [D12 H12] [D23 H23]. split; [congruence|].
  intros i j3 [H|(j2 & Hj2 & Hx & ->)]%H23; [by apply H12|].
  apply H12 in Hj2 as [Hj|(j & _ & _ & ->)]; [right; by exists j2|].
  by destruct Hx as (_ & Hact & _).
Qed.

Lemma jobs_reaped_all now m :
  jobs_reaped now m ((λ j, if bool_decide (cron_expired now j)
    then retired now (j_replaced_by_id j) j else j) <$> m).
Proof.
  split; [by rewrite dom_fmap_L|]. intros i j'. rewrite lookup_fmap.
  destruct (m !! i) as [j|]; [|done]. simpl. intros [= <-].
  case_bool_decide; [right; by exists j|by left].
Qed.

(** The tables of the workspace while the attempt [num] of the execution [id], of
    endpoint type [ty], runs at [now]: the definitions are untouched, new attempts and
    logs are those of this attempt, and only an [INTERNAL] run retires jobs. *)
Record tenant_reported (id : string) (num now : Z) (ty : string) (t t' : Tenant) : Prop := {
  tr_payload_specs : t_payload_specs t' = t_payload_specs t;
  tr_configs : t_configs t' = t_configs t;
  tr_secrets : t_secrets t' = t_secrets t;
  tr_endpoints : t_endpoints t' = t_endpoints t;
  tr_jobs : ty ≠ "INTERNAL" → t_jobs t' = t_jobs t;
  tr_reaped : jobs_reaped now (t_jobs t) (t_jobs t');
  tr_attempts : rows_added (λ a, a_execution_id a = id ∧ a_attempt_number a = num)
                  (t_attempts t) (t_attempts t');
  tr_logs : rows_added (λ l, l_execution_id l = id ∧ l_attempt_number l = num)
              (t_execution_logs t) (t_execution_logs t');
}.

#[global] Instance tenant_reported_preorder id num now ty :
  PreOrder (tenant_reported id num now ty).
Proof.
  split; [by intros t; split|].
  intros t1 t2 t3 [] []. split; try congruence; [|by etrans..].
  intros Hty. etrans; auto.
Qed.

(** Other workspaces are left alone. *)
Definition elsewhere (k : string * string) : relation Store := λ σ σ',
  ∀ k', k' ≠ k → st_tenants σ' !! k' = st_tenants σ !! k'.

#[global] Instance elsewhere_preorder k : PreOrder (elsewhere k).
Proof. split; [by intros σ|]. intros σ1 σ2 σ3 H12 H23 k' Hk. by rewrite H23, H12. Qed.

Lemma elsewhere_execs k k' σ σ' : elsewhere k σ σ' → k' ≠ k → execs k' σ' = execs k' σ.
Proof. intros H Hk. unfold execs, tenant_at. by rewrite H. Qed.

(** The same of the whole database: the control tables and the other workspaces stay,
    and only an [INTERNAL] run removes entries of pg_cron. *)
Record reported (k : string * string) (id : string) (num now : Z) (ty : string)
    (σ σ' : Store) : Prop := {
  rp_orgs : st_orgs σ' = st_orgs σ;
  rp_workspaces : st_workspaces σ' = st_workspaces σ;
  rp_elsewhere : elsewhere k σ σ';
  rp_cron : ty ≠ "INTERNAL" → st_cron σ' = st_cron σ;
  rp_unregistered : st_cron σ' ⊆ st_cron σ;
  rp_tenant t : st_tenants σ !! k = Some t →
    ∃ t', st_tenants σ' !! k = Some t' ∧ tenant_reported id num now ty t t';
}.

#[global] Instance reported_preorder k id num now ty : PreOrder (reported k id num now ty).
Proof.
  split; [intros σ; split; try done; by eexists|].
  intros σ1 σ2 σ3 [????? T12] [????? T23]. split; try congruence; [by etrans| |by etrans|].
  - intros Hty. etrans; auto.
  - intros t (t2 & (t3 & Ht3 & H23)%T23 & H12)%T12. exists t3. split; [done|by etrans].
Qed.

(** From [s] to [s'] in a transaction that began at [now]. *)
Definition tx_at (now : Z) (R : relation Store) : relation Session := λ s s',
  is_Some (ss_begin s) → ss_now s = now →
  ss_begin s' = ss_begin s ∧ ss_now s' = now ∧ R (ss_store s) (ss_store s').

#[global] Instance tx_at_preorder now R `{!PreOrder R} : PreOrder (tx_at now R).
Proof.
  split; [by intros s|].
  intros s1 s2 s3 H12 H23 Hb Hn. destruct (H12 Hb Hn) as (Hb2 & Hn2 & Hs2).
  destruct (H23 ltac:(by rewrite Hb2) Hn2) as (Hb3 & Hn3 & Hs3).
  split_and!; [congruence|done|by etrans].
Qed.

Lemma stmt_tx_at {A} now R `{!Reflexive R} (q : Query A) :
  (∀ st locked σ a σ', q st now locked σ = Ok (a, σ') → R σ σ') →
  preserves (tx_at now R) (stmt q).
Proof.
  intros Hq s Hb Hn.
  assert (ss_store (advance s) = ss_store s ∧ ss_now (advance s) = now) as [Hs Hn'].
  { unfold advance. simpl. by rewrite (bool_decide_eq_true_2 _ Hb : in_transaction s = true). }
  unfold stmt. destruct (ss_failed s); [done|].
  destruct (stim_fault _); [|destruct (q _ _ _ _) as [[a σ]|e|w] eqn:Eq];
    cbn [snd fail set_store ss_begin ss_store ss_now]; rewrite ?Hs, ?Hn'; try done.
  split_and!; [done..|]. rewrite Hs, Hn' in Eq. by eapply Hq.
Qed.

Section reported.
Context (db : DbContext) (id : string) (num now : Z) (ty : string).
Notation k := (db_schema db, db_prefix db).
Notation R := (tx_at now (reported k id num now ty)).

Lemma tstmt_reported {A} (q : TQuery A) :
  (∀ st locked t a t', q st now locked t = Ok (a, t') → tenant_reported id num now ty t t') →
  preserves R (tstmt db q).
Proof.
  intros Hq. apply stmt_tx_at; [apply _|].
  intros st locked σ a σ' (t & t' & Ht & Eq & ->)%tquery_inv.
  split; cbn [set_tenant st_orgs st_workspaces st_cron st_tenants]; try done.
  - intros k' Hk. cbn. by rewrite lookup_insert_ne.
  - intros t0 Ht0. exists t'. rewrite lookup_insert_eq. split; [done|]. simplify_eq. by eapply Hq.
Qed.

Lemma set_executions_reported m t : tenant_reported id num now ty t (set_executions m t).
Proof. by split. Qed.

Lemma update_execution_reported ss f t :
  tenant_reported id num now ty t (update_execution id ss f t).
Proof. unfold update_execution. repeat case_match; [apply set_executions_reported|done..]. Qed.

Lemma claim_reported worker_id : preserves R (executions_claim db worker_id).
Proof.
  apply tstmt_reported. intros ?????. cbv beta zeta.
  destruct (pick_least _ _ _) as [[i e]|]; [|by intros [= <- <-]].
  case_match; [done|]. intros [= <- <-]. apply set_executions_reported.
Qed.

Lemma reported_frame : process_frame R db id num ty.
Proof.
  split; [split|intros Hty; split|..]; intros; try apply _; try apply tstmt_reported; try intros ?????;
    cbv beta zeta.
  - by intros [= <- <-].
  - repeat (case_match; bool_prop; try done). intros [= <- <-]. split; try done.
    apply rows_added_insert; [by apply eq_None_not_Some|done].
  - repeat (case_match; bool_prop; try done). intros [= <- <-]. split; try done.
    apply rows_added_insert; [by apply eq_None_not_Some|done].
  - intros [= <- <-]. split; try done. apply jobs_reaped_all.
  - apply stmt_tx_at; [apply _|]. intros ????? [= <- <-]. split; try done; [|by eexists].
    apply delete_subseteq.
  - intros [= <- <-]. apply update_execution_reported.
  - case_match; [done|]. intros [= <- <-]. apply update_execution_reported.
  - intros [= <- <-]. apply update_execution_reported.
Qed.
End reported.

(** ** Statements that move one execution *)

(** If the transaction is not aborted, the executions of [k] changed from [id ↦ e]
    to some [e'] with [P], and nothing else did. *)
Record in_moved (k : string * string) (id : string) (e : Execution)
    (P : Execution → Prop) (s s' : Session) : Prop := {
  im_begin : ss_begin s' = ss_begin s;
  im_now : ss_now s' = ss_now s;
  im_failed : ss_failed s = true → ss_failed s' = true;
  im_execs : ss_failed s' = false →
    ∃ e', P e' ∧ execs k (ss_store s') = <[id := e']> (execs k (ss_store s))
          ∧ ∀ k', k' ≠ k → execs k' (ss_store s') = execs k' (ss_store s);
}.

(** [m] ends in a panic, or moves the running execution [e]. *)
Definition ends (k : string * string) (id : string) (e : Execution)
    (P : Z → Execution → Prop) {E A} (m : IO E A) : Prop :=
  ∀ w r w', m w = (r, w') → is_Some (ss_begin (wd_session w)) →
    (ss_failed (wd_session w) = false → execs k (ss_store (wd_session w)) !! id = Some e) →
    ((∃ p, r = Panic p) ∧ ss_begin (wd_session w') = ss_begin (wd_session w)) ∨
    in_moved k id e (P (ss_now (wd_session w))) (wd_session w) (wd_session w').

Section ends.
Context (k : string * string) (id : string) (e : Execution) (P : Z → Execution → Prop).

Lemma moved_after_frame Q s1 s2 s3 :
  in_frame s1 s2 → in_moved k id e Q s2 s3 → in_moved k id e Q s1 s3.
Proof.
  intros [B N F X] [B' N' F' X']. split; try congruence; [auto|].
  intros H3. destruct (X' H3) as (e' & HP & He & Ho). exists e'.
  assert (ss_failed s2 = false) as H2 by (destruct (ss_failed s2); [by rewrite F' in H3|done]).
  split_and!; [done|by rewrite He, X|]. intros k' Hk. by rewrite Ho, X.
Qed.

Lemma moved_then_frame Q s1 s2 s3 :
  in_moved k id e Q s1 s2 → in_frame s2 s3 → in_moved k id e Q s1 s3.
Proof.
  intros [B' N' F' X'] [B N F X]. split; try congruence; [auto|].
  intros H3.
  assert (ss_failed s2 = false) as H2 by (destruct (ss_failed s2); [by rewrite F in H3|done]).
  destruct (X' H2) as (e' & HP & He & Ho). exists e'.
  split_and!; [done|by rewrite X, He|]. intros k' Hk. by rewrite X, Ho.
Qed.

(** First a part that leaves the executions alone, then one that moves [e]. *)
Lemma ends_after {A B} (m : IO Empty_set A) (f : A → IO Empty_set B) :
  preserves (on_session tx_frame) m → (∀ a, ends k id e P (f a)) → ends k id e P (se_bind m f).
Proof.
  intros Hm Hf w r w' E Hb He. specialize (Hm w Hb). unfold se_bind in E.
  destruct (m w) as [[a|[]|p] w1]; simpl in Hm; pose proof Hm as [B1 N1 F1 X1];
    [|left; naive_solver].
  destruct (Hf a w1 r w' E) as [[Hp Hbp]|Hmv]; [by rewrite B1| |left; split; congruence|].
  - intros H1. rewrite X1 by done. apply He.
    destruct (ss_failed (wd_session w)); [by rewrite F1 in H1|done].
  - right. eapply moved_after_frame; [exact Hm|]. by rewrite <-N1.
Qed.

Lemma ends_then {A B} (m : IO Empty_set A) (f : A → IO Empty_set B) :
  ends k id e P m → (∀ a, preserves (on_session tx_frame) (f a)) → ends k id e P (se_bind m f).
Proof.
  intros Hm Hf w r w' E Hb He. unfold se_bind in E.
  destruct (m w) as [[a|[]|p] w1] eqn:Em.
  2: { injection E as <- <-. destruct (Hm w _ w1 Em Hb He) as [[_ ?]|?]; eauto. }
  destruct (Hm w _ w1 Em Hb He) as [[[p Hp] _]|Hmv]; [done|].
  right. eapply moved_then_frame; [exact Hmv|]. specialize (Hf a w1). rewrite E in Hf.
  apply Hf. by rewrite (im_begin _ _ _ _ _ _ Hmv).
Qed.

Lemma ends_mono (Q : Z → Execution → Prop) {A} (m : IO Empty_set A) :
  (∀ now e', P now e' → Q now e') → ends k id e P m → ends k id e Q m.
Proof.
  intros HPQ Hm w r w' E Hb He. destruct (Hm w r w' E Hb He) as [?|[B N F X]]; [by left|].
  right. split; [done..|]. intros (e' & ? & ?)%X. eauto.
Qed.

Lemma ends_panic {A} p : ends k id e P (se_panic (E:=Empty_set) (A:=A) p).
Proof. intros w r w' [= <- <-] ??. left. eauto. Qed.

(** The UPDATE of a RUNNING row. *)
Lemma ends_update {A} db (q : TQuery A) (f : Z → Execution → Execution) :
  k = (db_schema db, db_prefix db) →
  e_status e = "RUNNING" →
  (∀ st now locked t a t', q st now locked t = Ok (a, t') →
     t_executions t' = t_executions (update_execution id ["RUNNING"] (f now) t)) →
  (∀ st now locked t p, q st now locked t ≠ Panic p) →
  (∀ now, P now (f now e)) →
  ends k id e P (se_ignore (E:=SqlError) (F:=Empty_set) (db_op (tstmt db q))).
Proof.
  intros Hk Hrun Hq Hnp HP w r w' E Hb He. right.
  unfold se_ignore, db_op in E.
  destruct (stmt_in_tx (tquery db q) (wd_session w) Hb) as (E1 & E2 & E3 & E4).
  unfold tstmt in E. destruct (stmt _ (wd_session w)) as [r1 s1] eqn:Es. simpl in *.
  assert (wd_session w' = s1) as -> by (destruct r1; naive_solver).
  split; [done..|]. intros Hf.
  assert (ss_failed (wd_session w) = false) as Hf0
    by (destruct (ss_failed (wd_session w)); [by rewrite E3 in Hf|done]).
  specialize (He Hf0). destruct (E4 Hf) as [(a & -> & Eq)|[[p ->] _]].
  - revert Eq. unfold tquery. rewrite <-Hk.
    destruct (st_tenants _ !! k) as [t|] eqn:Et; [|done].
    destruct (q _ _ _ t) as [[a' t']| |] eqn:Eq; [|done..]. intros [= -> <-].
    exists (f (ss_now (wd_session w)) e). split; [done|].
    rewrite execs_set_tenant, bool_decide_eq_true_2 by done.
    rewrite (execs_lookup _ _ _ Et) in He |- *.
    rewrite (Hq _ _ _ _ _ _ Eq), update_execution_execs, He, Hrun.
    rewrite bool_decide_eq_true_2 by (by apply list_elem_of_singleton). split; [done|].
    intros k' Hk'. rewrite execs_set_tenant. by rewrite bool_decide_eq_false_2.
  - exfalso. revert Es. unfold stmt. rewrite Hf0.
    destruct (stim_fault _); [done|]. unfold tquery.
    destruct (st_tenants _ !! _) as [t|]; [|done].
    destruct (q _ _ _ t) as [[a' t']| |p'] eqn:Eq; [done..|]. by apply Hnp in Eq.
Qed.
End ends.

(** ** The pipeline *)

(** The outcomes of the running execution [e] at the instant [now]. *)
Inductive outcome (now : Z) (e : Execution) : Execution → Prop :=
  | Out_success o : outcome now e (success_update now o e)
  | Out_failed : outcome now e (failed_update now e)
  | Out_retry b : e_attempt_count e < e_max_attempts e → outcome now e (retry_update now b e).

Section pipeline.
Context `{!SerdeJson} `{!SqlDisplay} `{!Aes256Gcm} `{!Utf8}.
Context (rng : Rng) (ctx : PipelineContext) (worker_id : string).
Context (db : DbContext) (id : string) (e : Execution).
Hypothesis running : e_status e = "RUNNING".

Notation k := (db_schema db, db_prefix db).
Notation fr := (preserves (on_session tx_frame)).

Lemma ends_success o :
  ends k id e (λ now e', e' = success_update now o e)
    (se_ignore (F:=Empty_set) (db_op (executions_complete_success db id o))).
Proof.
  apply (ends_update _ _ _ _ _ _ (λ now, success_update now o)); try done.
  intros ?????? [= <- <-]. done.
Qed.

Lemma ends_failed :
  ends k id e (λ now e', e' = failed_update now e)
    (se_ignore (F:=Empty_set) (db_op (executions_complete_failed db id))).
Proof.
  apply (ends_update _ _ _ _ _ _ failed_update); try done. by intros ?????? [= <- <-].
Qed.

Lemma ends_retry b :
  ends k id e (λ now e', e' = retry_update now b e)
    (se_ignore (F:=Empty_set) (db_op (executions_complete_retry db id b))).
Proof.
  apply (ends_update _ _ _ _ _ _ (λ now, retry_update now b)); try done.
  - intros ??????. cbv zeta. case_match; [done|]. by intros [= <- <-].
  - intros ?????. cbv zeta. by case_match.
Qed.

(** What [finalize] does with each result of a dispatch. *)
Definition final_outcome (rp : RetryPolicy) (result : DispatchResult) (now : Z) (e' : Execution) :
    Prop :=
  match result with
  | Success o => e' = success_update now o e
  | Failure _ =>
      if bool_decide (e_attempt_count e < e_max_attempts e)
      then ∃ b, compute_backoff rng rp (e_attempt_count e) = Ok b ∧ e' = retry_update now b e
      else e' = failed_update now e
  end.

Lemma ends_finalize rp t d result :
  ends k id e (final_outcome rp result)
    (finalize (E:=Empty_set) rng db rp id (e_attempt_count e) (e_max_attempts e) t d result).
Proof.
  unfold finalize. destruct result as [o|err].
  - apply ends_after; [apply frame_attempt, tx_frame_of|intros _].
    apply ends_then; [apply ends_success|intros _; apply frame_log, tx_frame_of].
  - apply ends_after; [apply frame_attempt, tx_frame_of|intros _].
    unfold final_outcome. case_match eqn:Hlt.
    + destruct (compute_backoff _ _ _) as [b|x|p] eqn:Eb.
      * apply ends_then; [|intros _; apply frame_log, tx_frame_of].
        eapply ends_mono; [|apply ends_retry]. intros now e' ->. eauto.
      * exfalso. revert Eb. unfold compute_backoff, clamp. by case_match.
      * apply ends_panic.
    + apply ends_then; [apply ends_failed|intros _; apply frame_log, tx_frame_of].
Qed.

Lemma final_outcome_outcome rp result now e' :
  final_outcome rp result now e' → outcome now e e'.
Proof.
  destruct result; simpl; [intros ->; constructor|].
  case_bool_decide; [intros (b & _ & ->); by constructor|intros ->; constructor].
Qed.

Lemma ends_outcome_finalize rp t d result :
  ends k id e (λ now, outcome now e)
    (finalize (E:=Empty_set) rng db rp id (e_attempt_count e) (e_max_attempts e) t d result).
Proof. eapply ends_mono; [apply final_outcome_outcome|apply ends_finalize]. Qed.

Lemma ends_outcome_failed :
  ends k id e (λ now, outcome now e)
    (se_ignore (F:=Empty_set) (db_op (executions_complete_failed db id))).
Proof. eapply ends_mono; [|apply ends_failed]. intros now e' ->. constructor. Qed.

Lemma ends_fail_resolution n t what err :
  ends k id e (λ now, outcome now e)
    (fail_resolution (E:=Empty_set) db id n t what err).
Proof.
  unfold fail_resolution. apply ends_then; [apply ends_outcome_failed|intros _].
  apply preserves_bind; [apply _|apply frame_attempt, tx_frame_of|intros _].
  apply frame_log, tx_frame_of.
Qed.

Lemma ends_process key job ep ty input :
  ends k id e (λ now, outcome now e)
    (process_execution (E:=Empty_set) rng ctx db id key job ep ty input
       (e_attempt_count e) (e_max_attempts e)).
Proof.
  unfold process_execution. apply ends_after; [apply world_clock, _|intros t].
  apply ends_after; [apply (frame_read tx_frame db id 0 (tx_frame_of db id 0))|].
  intros [[endpoint|]|err].
  2: { apply ends_then; [apply ends_outcome_failed|intros _; apply frame_log, tx_frame_of]. }
  2: apply ends_outcome_failed.
  cbv zeta. apply ends_after.
  { destruct (ep_config_ref endpoint); [|apply preserves_ret, _].
    eapply preserves_try, frame_load_config, (tx_frame_of db id 0). }
  intros [c|err]; [|apply ends_fail_resolution].
  apply ends_after; [eapply preserves_try, frame_load_secrets, (tx_frame_of db id 0)|].
  intros [s|err]; [|apply ends_fail_resolution].
  destruct (resolve _ _) as [spec|err|p]; [|apply ends_fail_resolution|apply ends_panic].
  unfold run_resolved. cbv zeta.
  apply ends_after; [apply frame_log, tx_frame_of|intros _].
  apply ends_after; [eapply frame_dispatch; [apply (tx_frame_of db id 0)|intros _; apply tx_frame_reaper]
    |intros r].
  apply ends_after; [apply world_clock, _|intros c2]. apply ends_outcome_finalize.
Qed.
End pipeline.

(** ** The whole task *)

(** What a transaction that began at [σ] commits: nothing at all, or one more attempt of
    the execution that was due, was not locked and has waited longest. *)
Inductive committed_outcome (k : string * string) (worker_id : string) (now : Z)
    (locked : gset string) (σ σ' : Store) : Prop :=
  | Com_nothing : σ' = σ → committed_outcome k worker_id now locked σ σ'
  | Com_outcome id e e' :
      execs k σ !! id = Some e →
      claimable now e →
      id ∉ locked →
      (∀ id2 e2, execs k σ !! id2 = Some e2 → claimable now e2 → id2 ∉ locked →
         e_run_at e ≤ e_run_at e2) →
      outcome now (claim_update now worker_id e) e' →
      execs k σ' = <[id := e']> (execs k σ) →
      reported k id (e_attempt_count e + 1) now (e_endpoint_type e) σ σ' →
      committed_outcome k worker_id now locked σ σ'.

Section task.
Context `{!SerdeJson} `{!SqlDisplay} `{!Aes256Gcm} `{!Utf8}.
Context (rng : Rng) (ctx : PipelineContext) (worker_id : string).

(** The claim in the transaction: an error or nothing, or a row that is now
    [RUNNING]. *)
Lemma claim_in_tx db s :
  is_Some (ss_begin s) → ss_failed s = false →
  match executions_claim db worker_id s with
  | (Ok (Some x), s') =>
      ∃ id e, let e1 := claim_update (ss_now s) worker_id e in
        execs (db_schema db, db_prefix db) (ss_store s) !! id = Some e
        ∧ claimable (ss_now s) e ∧ id ∉ ss_locked s
        ∧ (∀ id2 e2, execs (db_schema db, db_prefix db) (ss_store s) !! id2 = Some e2 →
             claimable (ss_now s) e2 → id2 ∉ ss_locked s → e_run_at e ≤ e_run_at e2)
        ∧ x = claimed_row id e1
        ∧ execs (db_schema db, db_prefix db) (ss_store s')
          = <[id := e1]> (execs (db_schema db, db_prefix db) (ss_store s))
        ∧ (∀ num ty, reported (db_schema db, db_prefix db) id num (ss_now s) ty
                       (ss_store s) (ss_store s'))
        ∧ ss_begin s' = ss_begin s ∧ ss_now s' = ss_now s ∧ ss_failed s' = false
  | (_, s') => ss_begin s' = ss_begin s ∧ ss_now s' = ss_now s
  end.
Proof.
  intros Hb Hf.
  assert (∀ id num ty, reported (db_schema db, db_prefix db) id num (ss_now s) ty
    (ss_store s) (ss_store (executions_claim db worker_id s).2)) as Hrep.
  { intros id num ty. by apply claim_reported. }
  destruct (claim_reported db "" 0 (ss_now s) "" worker_id s Hb eq_refl) as (Hbegin & Hnow & _).
  revert Hrep Hbegin Hnow. unfold executions_claim, tstmt, stmt. rewrite Hf.
  pose proof (in_transaction_true s Hb) as Ht.
  destruct (stim_fault _); [done|].
  assert (ss_now (advance s) = ss_now s) as -> by (unfold advance; simpl; by rewrite Ht).
  assert (ss_store (advance s) = ss_store s) as -> by (unfold advance; simpl; by rewrite Ht).
  unfold tquery. destruct (st_tenants _ !! _) as [t|] eqn:Et; [|done].
  destruct (pick_least _ _ _) as [[id e]|] eqn:Ep; [|done].
  cbv zeta. destruct (bool_decide (i64_max < _)); [done|]. simpl. intros Hrep _ _. exists id, e.
  rewrite (execs_lookup _ _ _ Et).
  apply claim_pick_spec in Ep as (Hid & Hc & Hl & Hmin).
  rewrite execs_set_tenant, bool_decide_eq_true_2 by done. rewrite Ht.
  split_and!; try done.
Qed.

Lemma drop_tx_store s b : ss_begin s = Some b →
  ss_store (drop_tx s) = b ∧ ss_begin (drop_tx s) = None ∧ ss_now (drop_tx s) = ss_now s.
Proof. unfold drop_tx. by intros ->. Qed.

(** COMMIT, then the end of the scope: the transaction's store if it was not
    aborted, or the one it began with. *)
Lemma commit_store s b r s' :
  ss_begin s = Some b → commit s = (r, s') →
  ss_begin s' = None ∧ ss_now s' = ss_now s ∧ (∀ p, r ≠ Panic p)
  ∧ (ss_store s' = b ∨ ss_store s' = ss_store s ∧ ss_failed s = false).
Proof.
  intros Hb. unfold commit, base. cbn [ss_failed advance ss_begin ss_store].
  assert (in_transaction s = true) as Ht by (apply in_transaction_true; by rewrite Hb).
  rewrite Ht, Hb. simpl.
  assert (ss_now (advance s) = ss_now s) as En by (unfold advance; simpl; by rewrite Ht).
  destruct (ss_failed s); [intros [= <- <-]; split_and!; simpl; auto|].
  destruct (stim_fault _); intros [= <- <-]; split_and!; simpl; try done; auto.
  case_bool_decide; auto.
Qed.

Notation key schema := (schema, pc_table_prefix ctx).

(** What the body of the loop with result [r] commits: nothing, unless it gets to its
    own COMMIT. *)
Definition body_commits (schema : string) (r : res Empty_set bool) (now : Z)
    (locked : gset string) (b σ' : Store) : Prop :=
  σ' = b ∨ r = Ok true ∧ committed_outcome (key schema) worker_id now locked b σ'.

(** Any exit of the transaction's scope without COMMIT. *)
Lemma nothing_committed schema r s b s' :
  ss_begin s = Some b → ss_begin s' = ss_begin s → ss_now s' = ss_now s →
  ss_begin (drop_tx s') = None ∧ ss_now (drop_tx s') = ss_now s
  ∧ body_commits schema r (ss_now s) (ss_locked s) b (ss_store (drop_tx s')).
Proof.
  intros Hb Hb' Hn. rewrite Hb in Hb'. destruct (drop_tx_store _ _ Hb') as (-> & -> & ->).
  split_and!; [done..|]. by left.
Qed.

(** Processing the claimed execution, then COMMIT. *)
Definition process_and_commit {E} (db : DbContext) (x : ClaimedExecution) (job : Job) : IO E bool :=
  process_execution rng ctx db (cl_execution_id x) (dispatch_key job x)
    (cl_job_id x) (cl_endpoint x) (cl_endpoint_type x) (cl_input x)
    (cl_attempt_count x) (cl_max_attempts x) ;;;
  se_ignore (db_op commit) ;;;
  se_ret true.

Lemma process_and_commit_spec db id e job w b :
  ss_begin (wd_session w) = Some b → e_status e = "RUNNING" →
  (ss_failed (wd_session w) = false →
     execs (db_schema db, db_prefix db) (ss_store (wd_session w)) !! id = Some e) →
  let run := process_and_commit (E:=Empty_set) db (claimed_row id e) job w in
  let s' := drop_tx (wd_session run.2) in
  ss_begin s' = None ∧ ss_now s' = ss_now (wd_session w)
  ∧ (ss_store s' = b
     ∨ run.1 = Ok true ∧ ∃ e', outcome (ss_now (wd_session w)) e e'
         ∧ execs (db_schema db, db_prefix db) (ss_store s')
           = <[id := e']> (execs (db_schema db, db_prefix db) (ss_store (wd_session w)))
         ∧ reported (db_schema db, db_prefix db) id (e_attempt_count e) (ss_now (wd_session w))
             (e_endpoint_type e) (ss_store (wd_session w)) (ss_store s')
         ∧ ss_failed (wd_session w) = false).
Proof.
  intros Hb Hrun He. cbv zeta.
  destruct (process_and_commit _ _ _ w) as [r2 w2] eqn:E2. cbn [fst snd].
  pose proof (ends_process rng ctx db id e Hrun (dispatch_key job (claimed_row id e))
    (e_job_id e) (e_endpoint e) (e_endpoint_type e) (e_input e) w) as Hends.
  destruct (process_ok rng ctx _ _ _ _ _
    (reported_frame db id (e_attempt_count e) (ss_now (wd_session w)) (e_endpoint_type e))
    (E:=Empty_set) (dispatch_key job (claimed_row id e)) (e_job_id e) (e_endpoint e) (e_input e)
    (e_max_attempts e) w ltac:(by rewrite Hb) eq_refl) as (_ & Hnow & Hrep).
  unfold process_and_commit, se_bind, se_ignore, db_op in E2.
  cbn [claimed_row cl_execution_id cl_job_id cl_endpoint cl_endpoint_type
    cl_input cl_attempt_count cl_max_attempts] in E2.
  destruct (process_execution _ _ _ _ _ _ _ _ _ _ _ w) as [r w1] eqn:Ep.
  specialize (Hends _ _ eq_refl ltac:(by rewrite Hb) He).
  cbn [snd] in Hnow.
  destruct Hends as [[[p ->] B]|[B N F X]]; rewrite Hb in B.
  { injection E2 as <- <-. destruct (drop_tx_store _ _ B) as (-> & -> & ->). auto. }
  destruct r as [[]|[]|p];
    [|injection E2 as <- <-; destruct (drop_tx_store _ _ B) as (-> & -> & ->); auto].
  destruct (commit (wd_session w1)) as [rc sc] eqn:Ec.
  destruct (commit_store _ _ _ _ B Ec) as (Hn & Hnc & Hnp & Hst).
  assert (wd_session w2 = sc) as -> by (destruct rc; injection E2 as <- <-; done).
  assert (drop_tx sc = sc) as -> by (unfold drop_tx; by rewrite Hn).
  split_and!; [done|congruence|]. destruct Hst as [->|[-> Hf]]; [by left|right].
  split; [destruct rc as [| |p]; [by injection E2 as <- <-..|by destruct (Hnp p)]|].
  destruct (X Hf) as (e' & Ho & He' & _). exists e'. split_and!; try done.
  destruct (ss_failed (wd_session w)); [by rewrite F in Hf|done].
Qed.

(** One schema: BEGIN at the store [b], then the body of the loop. *)
Lemma claim_one_commits schema w b :
  ss_begin (wd_session w) = Some b → ss_store (wd_session w) = b →
  ss_failed (wd_session w) = false →
  let run := in_tx_io (claim_one (E:=Empty_set) rng ctx worker_id schema) w in
  ss_begin (wd_session run.2) = None
  ∧ ss_now (wd_session run.2) = ss_now (wd_session w)
  ∧ body_commits schema run.1 (ss_now (wd_session w)) (ss_locked (wd_session w))
      b (ss_store (wd_session run.2)).
Proof.
  intros Hb Hs Hf. cbv zeta. unfold in_tx_io.
  destruct (claim_one _ _ _ schema w) as [r w'] eqn:E. cbn [fst snd set_session wd_session].
  unfold claim_one in E. cbv zeta in E. unfold se_bind at 1, se_try at 1, db_op at 1 in E.
  set (db := {| db_schema := schema; db_prefix := _ |}) in *.
  pose proof (claim_in_tx db (wd_session w) ltac:(by rewrite Hb) Hf) as Hc.
  destruct (executions_claim db worker_id (wd_session w)) as [[[x|]|err|p] s1] eqn:Ec;
    [|injection E as <- <-; destruct Hc; by apply nothing_committed..].
  destruct Hc as (id & e & Hid & Hcl & Hlk & Hmin & -> & Hex & Hrep & Hb1 & Hn1 & Hf1).
  unfold se_bind at 1, se_try at 1, db_op at 1 in E. cbn [set_session wd_session] in E.
  set (x := claimed_row id (claim_update _ worker_id e)) in *.
  assert (in_frame s1 (jobs_get db (cl_job_id x) s1).2) as [B2 N2 F2 X2].
  { apply (pf_read _ _ _ _ (tx_frame_of db "" 0)). by rewrite Hb1, Hb. }
  assert (∀ num ty, reported (key schema) id num (ss_now s1) ty (ss_store s1)
    (ss_store (jobs_get db (cl_job_id x) s1).2)) as Hrep2.
  { intros num ty. apply (pf_read _ _ _ _ (prf_pipeline _ _ _ _ _ (reported_frame db id num _ ty)));
      [by rewrite Hb1, Hb|done]. }
  destruct (jobs_get db (cl_job_id x) s1) as [[[job|]|err|p] s2]; cbn [snd] in *;
    [| injection E as <- <-; apply nothing_committed; simpl; congruence
     | | injection E as <- <-; apply nothing_committed; simpl; congruence].
  - pose proof (process_and_commit_spec db id (claim_update (ss_now s1) worker_id e) job
      (set_session s2 (set_session s1 w)) b) as Hp.
    cbv zeta in Hp. cbn [set_session wd_session] in Hp.
    destruct Hp as (Hn' & Hnow' & Hst); [congruence|done| |].
    { intros Hf2. rewrite X2 by done. rewrite Hex, Hn1. by rewrite lookup_insert_eq. }
    rewrite Hn1 in Hn', Hnow', Hst. fold x in Hn', Hnow', Hst.
    unfold process_and_commit in Hn', Hnow', Hst.
    rewrite E in Hn', Hnow', Hst. cbn [fst snd] in Hn', Hnow', Hst. split_and!; [done|congruence|].
    destruct Hst as [->|(Hr & e' & Ho & He' & Hrep' & Hf2)]; [by left|right]. split; [exact Hr|].
    rewrite Hs in *. eapply (Com_outcome _ _ _ _ _ _ id e e'); try done.
    + by rewrite N2, Hn1 in Ho.
    + etrans; [exact He'|]. by rewrite X2, Hex, insert_insert_eq.
    + rewrite N2, Hn1 in Hrep'. rewrite Hn1 in Hrep2.
      etrans; [apply Hrep|]. etrans; [apply Hrep2|exact Hrep'].
  - unfold se_bind, se_ignore, db_op in E. cbn [set_session wd_session] in E.
    set (s3 := executions_complete_failed db (cl_execution_id x) s2) in *.
    assert (ss_begin s3.2 = ss_begin s2 ∧ ss_now s3.2 = ss_now s2) as [B3 N3].
    { split; apply (stmt_in_tx _ s2); rewrite B2, Hb1, Hb; done. }
    destruct s3 as [[u|e2|p] s3]; injection E as <- <-; apply nothing_committed;
      simpl in *; congruence.
Qed.
End task.
