(* ===== verification/Outbox.v ===== *)
(** * What a task sends

    A task makes at most one request to the outside: only [dispatch] sends, and it
    sends once. *)

From S2P Require Export WorkerSafe.
#[local] Open Scope Z_scope.

(** Nothing is sent, and no answer taken. *)
Definition same_outbox : relation World := λ w w',
  wd_outbox w' = wd_outbox w ∧ wd_net w' = wd_net w.

#[global] Instance same_outbox_preorder : PreOrder same_outbox.
Proof. split; unfold same_outbox; [by intros w|]. intros w1 w2 w3 [] []. split; congruence. Qed.

(** At most [n] requests are sent. *)
Definition sends_at_most (n : nat) (w w' : World) : Prop :=
  ∃ l, wd_outbox w' = wd_outbox w ++ l ∧ (length l ≤ n)%nat.

Lemma sends_none w w' : same_outbox w w' → sends_at_most 0 w w'.
Proof. intros [Hs _]. exists []. by rewrite Hs, List.app_nil_r. Qed.

Lemma sends_trans n m w1 w2 w3 :
  sends_at_most n w1 w2 → sends_at_most m w2 w3 → sends_at_most (n + m) w1 w3.
Proof.
  intros (l & E & Hl) (l' & E' & Hl'). exists (l ++ l').
  rewrite E', E, length_app, (assoc_L (++)). split; [done|lia].
Qed.

Lemma sends_weaken n m w w' : (n ≤ m)%nat → sends_at_most n w w' → sends_at_most m w w'.
Proof. intros Hnm (l & E & Hl). exists l. split; [done|lia]. Qed.

Lemma sends_bind {E A B} n (m : IO E A) (f : A → IO E B) :
  preserves same_outbox m → (∀ a, preserves (sends_at_most n) (f a)) →
  preserves (sends_at_most n) (se_bind m f).
Proof.
  intros Hm Hf w. specialize (Hm w). unfold se_bind.
  destruct (m w) as [[a|e|p] w']; cbn [snd] in *.
  - apply (sends_trans 0 n _ w'); [by apply sends_none|apply Hf].
  - apply (sends_weaken 0); [lia|by apply sends_none].
  - apply (sends_weaken 0); [lia|by apply sends_none].
Qed.

Lemma sends_then {E A B} n (m : IO E A) (f : A → IO E B) :
  preserves (sends_at_most n) m → (∀ a, preserves same_outbox (f a)) →
  preserves (sends_at_most n) (se_bind m f).
Proof.
  intros Hm Hf w. specialize (Hm w). unfold se_bind.
  destruct (m w) as [[a|e|p] w']; cbn [snd] in *; [|done..].
  replace n with (n + 0)%nat by lia. eapply sends_trans; [exact Hm|]. by apply sends_none, Hf.
Qed.

Lemma sends_of_same {E A} n (m : IO E A) : preserves same_outbox m → preserves (sends_at_most n) m.
Proof. intros Hm w. apply (sends_weaken 0); [lia|]. by apply sends_none, Hm. Qed.

Section quiet.
Lemma quiet_db_op {A} (m : DB A) : preserves same_outbox (db_op m).
Proof. intros w. unfold same_outbox, db_op. by destruct (m _). Qed.
Lemma quiet_clock {E} : preserves same_outbox (@clock_now E).
Proof. done. Qed.
Lemma quiet_config_get name : preserves same_outbox (config_cache_get name).
Proof.
  unfold config_cache_get. apply preserves_bind; [apply _|apply quiet_clock|].
  intros t w. unfold same_outbox. by destruct (cache_get _ _ _).
Qed.
Lemma quiet_secret_get name : preserves same_outbox (secret_cache_get name).
Proof.
  unfold secret_cache_get. apply preserves_bind; [apply _|apply quiet_clock|].
  intros t w. unfold same_outbox. by destruct (cache_get _ _ _).
Qed.
Lemma quiet_config_set name v : preserves same_outbox (config_cache_set name v).
Proof. done. Qed.
Lemma quiet_secret_set name v : preserves same_outbox (secret_cache_set name v).
Proof. done. Qed.
Lemma quiet_in_tx {E A} n (m : IO E A) :
  preserves (sends_at_most n) m → preserves (sends_at_most n) (in_tx_io m).
Proof. intros Hm w. specialize (Hm w). unfold in_tx_io. by destruct (m w). Qed.
End quiet.

#[export] Hint Resolve quiet_db_op quiet_clock quiet_config_get quiet_config_set
  quiet_secret_get quiet_secret_set : preserves.

(** Walks through a part of a task that sends nothing. *)
Ltac quiet_step :=
  lazymatch goal with
  | |- preserves _ (se_bind _ _) => apply preserves_bind; [apply _| |intros ?]
  | |- preserves _ (match ?x with _ => _ end) => destruct x
  | |- preserves _ _ => solve [eauto 5 with preserves typeclass_instances]
  end.
Ltac quiet_tac := cbv zeta; repeat (quiet_step; cbv zeta).

(** ** Failures are objects *)

Lemma dispatch_failure `{!SerdeJson} `{!SqlDisplay} db ty key spec w error :
  (dispatch (E:=Empty_set) db ty key spec w).1 = Ok (Failure error) → ∃ fs, error = JObject fs.
Proof.
  unfold dispatch, http_dispatch, kafka_dispatch, redis_dispatch, internal_dispatch, failure_of.
  repeat (case_match; cbv zeta); cbn [se_bind exchange se_ret fst]; unfold se_ret; simpl;
    try (intros [= <-]; by eexists).
  - unfold http_result, failure_of. repeat case_match; intros [= <-]; by eexists.
  - unfold se_bind, se_try. destruct (db_op _ w) as [[l|e|p] w']; simpl; intros [= <-]; by eexists.
  - unfold kafka_result, failure_of. repeat case_match; intros [= <-]; by eexists.
  - unfold redis_result, failure_of. repeat case_match; intros [= <-]; by eexists.
Qed.

Section task.
Context `{!SerdeJson} `{!SqlDisplay} `{!Aes256Gcm} `{!Utf8}.
Context (rng : Rng) (ctx : PipelineContext) (worker_id : string).

Lemma quiet_log {E} db id n l m : preserves same_outbox (log_execution (E:=E) db id n l m).
Proof. unfold log_execution. quiet_tac. Qed.
Lemma quiet_attempt {E} db id n s t o e :
  preserves same_outbox (record_attempt (E:=E) db id n s t o e).
Proof. unfold record_attempt. quiet_tac. Qed.
Lemma quiet_fail {E} db id n t what e :
  preserves same_outbox (fail_resolution (E:=E) db id n t what e).
Proof. unfold fail_resolution, record_attempt, log_execution. quiet_tac. Qed.
Lemma quiet_load_config db name : preserves same_outbox (load_config db name).
Proof. unfold load_config. quiet_tac. Qed.
Lemma quiet_load_single db name : preserves same_outbox (load_single_secret ctx db name).
Proof. unfold load_single_secret. quiet_tac. Qed.
Lemma quiet_load_secrets db spec : preserves same_outbox (load_secrets ctx db spec).
Proof.
  unfold load_secrets. cbv zeta. generalize (S (String.length (json_to_string spec))).
  generalize (json_to_string spec) (∅ : gmap string string). intros rest m fuel.
  revert rest m. induction fuel as [|fuel IH]; intros rest m; simpl; [apply preserves_panic, _|].
  destruct (Str.find rest _); [|apply preserves_ret, _].
  destruct (Str.find _ "}}"); [|apply preserves_ret, _].
  destruct (m !! _); [apply IH|].
  apply preserves_bind; [apply _|apply quiet_load_single|intros v; apply IH].
Qed.
Lemma quiet_finalize {E} db rp id n m t d r :
  preserves same_outbox (finalize (E:=E) rng db rp id n m t d r).
Proof. unfold finalize, record_attempt, log_execution. quiet_tac. Qed.

(** A request is sent, or not: one at most. *)
Lemma sends_exchange {E} sent : preserves (sends_at_most 1) (@exchange E sent).
Proof.
  intros w. unfold exchange. cbn [snd wd_outbox].
  exists (option_list (sent (hd silent (wd_net w)))). split; [done|]. destruct (sent _); simpl; lia.
Qed.

Lemma sends_dispatch {E} db ty key spec :
  preserves (sends_at_most 1) (dispatch (E:=E) db ty key spec).
Proof.
  assert (∀ B sent (f : NetStim → IO E B), (∀ a, preserves same_outbox (f a)) →
    preserves (sends_at_most 1) (se_bind (exchange sent) f)) as Hx.
  { intros B sent f Hf. apply sends_then; [apply sends_exchange|done]. }
  unfold dispatch, http_dispatch, internal_dispatch, kafka_dispatch, redis_dispatch.
  repeat (case_match; cbv zeta); try (apply sends_of_same; by quiet_tac);
    apply Hx; intros ?; apply preserves_ret, _.
Qed.

Lemma sends_process {E} db id key job ep ty input n m :
  preserves (sends_at_most 1) (process_execution (E:=E) rng ctx db id key job ep ty input n m).
Proof.
  unfold process_execution. apply sends_bind; [apply quiet_clock|intros t].
  apply sends_bind; [apply preserves_try, quiet_db_op|].
  intros [[e|]|err]; [|apply sends_of_same; unfold log_execution; quiet_tac..].
  cbv zeta. apply sends_bind.
  { destruct (ep_config_ref e); [apply preserves_try, quiet_load_config|apply preserves_ret, _]. }
  intros [c|err]; [|apply sends_of_same, quiet_fail].
  apply sends_bind; [apply preserves_try, quiet_load_secrets|].
  intros [s|err]; [|apply sends_of_same, quiet_fail].
  destruct (resolve _ _); [|apply sends_of_same, quiet_fail|apply sends_of_same, preserves_panic, _].
  unfold run_resolved. cbv zeta. apply sends_bind; [apply quiet_log|intros _].
  apply sends_then; [apply sends_dispatch|intros r].
  apply preserves_bind; [apply _|apply quiet_clock|intros c2; apply quiet_finalize].
Qed.

(** What follows the job's row, when it is there. *)
Lemma sends_after_job (db : DbContext) (x : ClaimedExecution) (job : Job) w r w' :
  (process_execution rng ctx db (cl_execution_id x) (dispatch_key job x)
     (cl_job_id x) (cl_endpoint x) (cl_endpoint_type x) (cl_input x)
     (cl_attempt_count x) (cl_max_attempts x) ;;;
   se_ignore (db_op commit) ;;; se_ret true) w = (r, w') →
  sends_at_most 1 w w' ∧ (r : res Empty_set bool) ≠ Ok false.
Proof.
  intros Hr. split.
  - replace w' with (r, w').2 by done. rewrite <-Hr.
    apply sends_then; [apply sends_process|intros _]. quiet_tac.
  - intros ->. revert Hr. unfold se_bind.
    destruct (process_execution _ _ _ _ _ _ _ _ _ _ _ w) as [[] w1]; [|done..].
    by destruct (se_ignore _ w1) as [[] w2].
Qed.

(** A claim that ends in [continue] sent nothing. *)
Definition claim_bound (r : res Empty_set bool) : nat := match r with Ok false => 0 | _ => 1 end.

Lemma claim_one_sends schema w r w' :
  claim_one (E:=Empty_set) rng ctx worker_id schema w = (r, w') →
  sends_at_most (claim_bound r) w w'.
Proof.
  intros Ec. unfold claim_one in Ec. cbv zeta in Ec.
  assert (∀ w1, same_outbox w w1 → sends_at_most (claim_bound r) w w1) as Hnone.
  { intros w1 Hw. apply (sends_weaken 0); [lia|by apply sends_none]. }
  unfold se_bind at 1 in Ec.
  pose proof (preserves_try (F:=Empty_set) same_outbox _ (quiet_db_op (executions_claim
    {| db_schema := schema; db_prefix := pc_table_prefix ctx |} worker_id)) w) as Hc.
  destruct (se_try _ w) as [[claimed|[]|p] w1]; cbn [snd] in Hc; [|injection Ec as <- <-; auto].
  destruct claimed as [[x|]|err]; [|injection Ec as <- <-; auto..].
  unfold se_bind at 1 in Ec.
  pose proof (preserves_try (F:=Empty_set) same_outbox _ (quiet_db_op (jobs_get
    {| db_schema := schema; db_prefix := pc_table_prefix ctx |} (cl_job_id x))) w1) as Hj.
  destruct (se_try _ w1) as [[found|[]|p] w2]; cbn [snd] in Hj;
    (assert (same_outbox w w2) as Hw2 by (by etrans)); [|injection Ec as <- <-; auto].
  destruct found as [[job|]|err]; [|injection Ec as <- <-; auto|].
  - apply sends_after_job in Ec as [Hs Hne].
    replace (claim_bound r) with (0 + 1)%nat by (destruct r as [[]| |]; done).
    by apply (sends_trans _ _ _ w2); [apply sends_none|].
  - unfold se_bind in Ec.
    pose proof (preserves_ignore (F:=Empty_set) same_outbox _
      (quiet_db_op (executions_complete_failed
        {| db_schema := schema; db_prefix := pc_table_prefix ctx |} (cl_execution_id x))) w2) as Hi.
    destruct (se_ignore _ w2) as [[u|[]|p] w3]; cbn [snd] in Hi; injection Ec as <- <-;
      apply Hnone; by etrans.
Qed.

Lemma task_sends schemas w :
  sends_at_most 1 w (claim_and_process (E:=Empty_set) rng ctx worker_id schemas w).2.
Proof.
  revert w. induction schemas as [|schema schemas IH]; intros w.
  { apply (sends_weaken 0); [lia|by apply sends_none]. }
  cbn [claim_and_process]. unfold se_bind at 1.
  pose proof (preserves_try (F:=Empty_set) same_outbox _
    (quiet_db_op (scoped_transaction schema)) w) as Hb.
  destruct (se_try _ w) as [[begun|[]|p] w1]; cbn [snd] in Hb.
  2: { apply (sends_weaken 0); [lia|by apply sends_none]. }
  apply (sends_trans 0 1 _ w1); [by apply sends_none|].
  destruct begun as [u|e]; [|apply IH].
  unfold se_bind, in_tx_io. destruct (claim_one _ _ _ _ w1) as [r w2] eqn:Ec.
  apply claim_one_sends in Ec. destruct r as [[]|[]|p]; [done| |done].
  apply (sends_trans 0 1 _ w2); [done|]. apply (IH (set_session _ w2)).
Qed.
End task.
