(* ===== verification/Scan.v ===== *)
(** * The scan for secrets ([load_secrets])

    It is the same computation as loading, one after the other, the names that a pure scan
    of the text finds; what loading one name reads and changes. *)

From Stdlib Require Import Wf_nat.
From S2P Require Export Pipeline Statements.
#[local] Open Scope Z_scope.

Lemma contains_app_l s t p : Str.contains t p = true → Str.contains (s +:+ t) p = true.
Proof.
  unfold Str.contains. rewrite !bool_decide_eq_true. intros [i Hi].
  induction s as [|c s [j Hj]]; [by exists i|]. simpl.
  destruct (Str.starts_with _ p); [by eexists|]. rewrite Hj. by eexists.
Qed.

Lemma contains_prefix p t : Str.contains (p +:+ t) p = true.
Proof.
  unfold Str.contains. apply bool_decide_eq_true.
  destruct (p +:+ t) eqn:E; simpl; rewrite <-E, starts_with_app; by eexists.
Qed.

Lemma contains_sdrop n s p : Str.contains (Str.sdrop n s) p = true → Str.contains s p = true.
Proof. rewrite <-(stake_sdrop n s) at 2. apply contains_app_l. Qed.

(** An occurrence of [open], then one of [close] after it: the text between them is
    between them. *)
Lemma find_between s open close i j :
  Str.find s open = Some i →
  Str.find (Str.sdrop (i + String.length open) s) close = Some j →
  Str.contains s (open +:+ Str.stake j (Str.sdrop (i + String.length open) s) +:+ close) = true.
Proof.
  intros Hi Hj. apply find_split in Hi, Hj. rewrite Hi at 1. apply contains_app_l.
  rewrite Hj at 1. rewrite <-!app_assoc. apply contains_prefix.
Qed.

Section scan.
Context `{!SerdeJson} `{!SqlDisplay} `{!Aes256Gcm} `{!Utf8}.
Context (ctx : PipelineContext).

Lemma hex_pairs_panic s p : hex_pairs s = Panic p → p = 5%nat.
Proof.
  induction s as [s IH] using (induction_ltof1 _ (@length Ascii.ascii)). unfold ltof in IH.
  destruct s as [|a [|b r]]; [done..|]. cbn [hex_pairs].
  destruct (_ || _); [by intros [= <-]|]. destruct (from_str_radix16 a b); [|done]. simpl.
  destruct (hex_pairs r) as [| |w] eqn:E; simpl; [done..|]. intros [= ->].
  apply (IH r); [simpl; lia|done].
Qed.

Lemma decrypt_panic x k p : decrypt x k = Panic p → p = 5%nat.
Proof.
  unfold decrypt, hex_decode. case_match; [done|].
  destruct (negb (bool_decide (String.length k = _))); [done|].
  destruct (hex_pairs _) eqn:E; simpl; [|done|intros [= <-]; by eapply hex_pairs_panic].
  case_match; [done|]. destruct (aead_decrypt _ _ _); simpl; [|done]. by case_match.
Qed.

Lemma read_panic {A} db (f : Tenant → A) s p : (read db f s).1 ≠ Panic p.
Proof.
  unfold read, tstmt, stmt, tquery. destruct (ss_failed s); [done|].
  destruct (stim_fault _); [done|]. by destruct (st_tenants _ !! _).
Qed.

Lemma load_single_panic db name w p : (load_single_secret ctx db name w).1 = Panic p → p = 5%nat.
Proof.
  unfold load_single_secret, secret_cache_get, se_bind, clock_now. simpl.
  destruct (cache_get _ _ _) as [[v|] c]; [done|].
  unfold se_map_err, db_op. match goal with |- context [secrets_get db name ?s] => set (s0 := s) end.
  pose proof (read_panic db (λ t, t_secrets t !! name) s0) as Hr. fold (secrets_get db name) in Hr.
  destruct (secrets_get db name s0) as [[[s|]|e|w0] s1]; simpl; [|done|done|by destruct (Hr w0)].
  destruct (decrypt _ _) eqn:E; simpl; [done..|]. intros [= <-]. by eapply decrypt_panic.
Qed.

(** ** The names, and the loads *)

(** The names in the text [rest], in order, without those [seen] before. *)
Fixpoint scan_names (fuel : nat) (rest : string) (seen : list string) : list string :=
  match fuel with
  | O => []
  | S fuel =>
      match Str.find rest "{{secret." with
      | None => []
      | Some pos =>
          let after := Str.sdrop (pos + 9) rest in
          match Str.find after "}}" with
          | None => []
          | Some end_ =>
              let name := Str.stake end_ after in
              let rest := Str.sdrop (end_ + 2) after in
              if decide (name ∈ seen) then scan_names fuel rest seen
              else name :: scan_names fuel rest (name :: seen)
          end
      end
  end.

Definition secret_names (text : string) : list string :=
  scan_names (S (String.length text)) text [].

(** One load per name, up to the first that fails. *)
Fixpoint load_each (db : DbContext) (names : list string) (m : gmap string string) :
    IO string (gmap string string) :=
  match names with
  | [] => se_ret m
  | name :: names =>
      value <-- load_single_secret ctx db name;
      load_each db names (<[name := value]> m)
  end.

Lemma loop_is_load_each fuel db rest seen m w :
  (String.length rest < fuel)%nat → (∀ name, name ∈ seen ↔ is_Some (m !! name)) →
  load_secrets_loop ctx fuel db rest m w = load_each db (scan_names fuel rest seen) m w.
Proof.
  revert rest seen m w. induction fuel as [|fuel IH]; intros rest seen m w Hfuel Hm; [lia|].
  cbn [load_secrets_loop scan_names]. destruct (Str.find rest "{{secret.") as [i|] eqn:Hi; [|done].
  cbv zeta. destruct (Str.find _ "}}") as [j|] eqn:Hj; [|done].
  apply find_Some_le in Hi as Hile. simpl in Hile.
  set (name := Str.stake j _). set (rest' := Str.sdrop (j + 2) _).
  assert (String.length rest' < fuel)%nat as Hfuel' by (unfold rest'; rewrite !slen_sdrop; lia).
  destruct (m !! name) as [v|] eqn:Ename.
  - rewrite decide_True by (apply Hm; by eexists). by apply IH.
  - rewrite decide_False by (rewrite Hm, Ename; by intros []). cbn [load_each]. unfold se_bind.
    destruct (load_single_secret _ _ _ w) as [[v|e|p] w']; [|done..].
    apply IH; [done|]. intros n. rewrite elem_of_cons, Hm.
    destruct (decide (n = name)) as [->|Hne]; [rewrite lookup_insert_eq; by split; [eexists|left]|].
    rewrite lookup_insert_ne by done. naive_solver.
Qed.

Lemma load_secrets_each db spec w :
  load_secrets ctx db spec w = load_each db (secret_names (json_to_string spec)) ∅ w.
Proof.
  unfold load_secrets. cbv zeta. apply loop_is_load_each; [lia|]. intros name.
  rewrite lookup_empty. split; [by intros ?%elem_of_nil|by intros []].
Qed.

(** Every name found stands in the text between braces. *)
Lemma scan_names_spec fuel text rest seen :
  (∀ p, Str.contains rest p = true → Str.contains text p = true) →
  NoDup (scan_names fuel rest seen) ∧ ∀ name, name ∈ scan_names fuel rest seen →
    name ∉ seen ∧ Str.contains text ("{{secret." +:+ name +:+ "}}") = true.
Proof.
  revert rest seen. induction fuel as [|fuel IH]; intros rest seen Htext;
    [split; [constructor|by intros ? ?%elem_of_nil]|].
  cbn [scan_names]. destruct (Str.find rest "{{secret.") as [i|] eqn:Hi;
    [|split; [constructor|by intros ? ?%elem_of_nil]].
  cbv zeta. destruct (Str.find _ "}}") as [j|] eqn:Hj;
    [|split; [constructor|by intros ? ?%elem_of_nil]].
  pose proof (find_between _ "{{secret." "}}" _ _ Hi Hj) as Hfound. apply Htext in Hfound.
  set (rest' := Str.sdrop (j + 2) _).
  assert (∀ p, Str.contains rest' p = true → Str.contains text p = true) as Htext'.
  { intros p Hp. apply Htext. unfold rest' in Hp. by do 2 apply contains_sdrop in Hp. }
  destruct (decide _) as [Hin|Hnin]; [by apply IH|].
  destruct (IH rest' (Str.stake j (Str.sdrop (i + 9) rest) :: seen) Htext') as [Hnd Hall].
  split.
  - constructor; [|done]. intros Hx. apply Hall in Hx as [Hx _]. apply Hx. left.
  - intros name [->|Hx]%elem_of_cons; [by split|]. apply Hall in Hx as [Hx ?]. set_solver.
Qed.

(** ** What loading a name reads and changes *)

(** At most [n] statements of the session, and no entry of the secret cache but those
    of [names]. *)
Record loaded (names : list string) (n : nat) (w w' : World) : Prop := {
  ld_statements : ∃ k, (k ≤ n)%nat ∧ ss_env (wd_session w') = drop k (ss_env (wd_session w));
  ld_cache name : name ∉ names →
    cache_entries (wd_secrets w') !! name = cache_entries (wd_secrets w) !! name;
}.

Lemma loaded_single db name w : loaded [name] 1 w (load_single_secret ctx db name w).2.
Proof.
  assert (∀ w' s', ss_env s' = ss_env (wd_session w) ∨ ss_env s' = tail (ss_env (wd_session w)) →
    wd_session w' = s' → (∀ x, x ≠ name →
      cache_entries (wd_secrets w') !! x = cache_entries (wd_secrets w) !! x) →
    loaded [name] 1 w w') as Hk.
  { intros w' s' He <- Hc. split; [|intros x Hx; apply Hc; set_solver].
    destruct He as [->| ->]; [exists 0%nat; split; [lia|done]|exists 1%nat; split; [lia|]].
    by destruct (ss_env (wd_session w)). }
  assert (∀ now x, x ≠ name →
    cache_entries (cache_get now name (wd_secrets w)).2 !! x = cache_entries (wd_secrets w) !! x)
    as Hget.
  { intros now x Hx. unfold cache_get. destruct (cache_probe _ _ _); simpl; [done| |done].
    by rewrite lookup_delete_ne. }
  unfold load_single_secret, secret_cache_get, se_bind, clock_now. simpl.
  specialize (Hget (hd 0 (wd_clock w))). destruct (cache_get _ _ _) as [[v|] c]; simpl in *.
  { eapply Hk; [by left|done|done]. }
  unfold se_map_err, db_op. cbn [wd_session].
  assert (ss_env (secrets_get db name (wd_session w)).2 = ss_env (wd_session w)
    ∨ ss_env (secrets_get db name (wd_session w)).2 = tail (ss_env (wd_session w))) as He.
  { unfold secrets_get, read, tstmt, stmt. destruct (ss_failed _); [by left|right].
    destruct (stim_fault _); [done|]. by destruct (tquery _ _ _ _ _ _) as [[]| |]. }
  destruct (secrets_get db name (wd_session w)) as [[[s|]|e|p] s1]; cbn [snd res_map_err] in *;
    try (eapply Hk; [exact He|done|done]).
  cbn. destruct (decrypt _ _) as [d|e|p]; cbn; (eapply Hk; [exact He|done|]); [|done..].
  intros x Hx. cbn. rewrite lookup_insert_ne by done. by apply Hget.
Qed.

Lemma loaded_each db names m w : loaded names (length names) w (load_each db names m w).2.
Proof.
  revert m w. induction names as [|name names IH]; intros m w;
    [split; [by exists 0%nat|done]|].
  cbn [load_each length]. unfold se_bind. destruct (loaded_single db name w) as [(k & Hk & E) Hc].
  destruct (load_single_secret _ _ _ w) as [[v|e|p] w']; cbn [snd] in *.
  - destruct (IH (<[name := v]> m) w') as [(k' & Hk' & E') Hc']. split.
    + exists (k + k')%nat. split; [lia|]. by rewrite E', E, drop_drop.
    + intros x Hx. rewrite Hc', Hc; set_solver.
  - split; [exists k; split; [lia|done]|]. intros x Hx. apply Hc. set_solver.
  - split; [exists k; split; [lia|done]|]. intros x Hx. apply Hc. set_solver.
Qed.

(** Two worlds that differ at most in the secrets not among [names], stored or cached, in
    a transaction. *)
Record alike (db : DbContext) (names : list string) (w1 w2 : World) : Prop := {
  al_begin : is_Some (ss_begin (wd_session w1)) ∧ is_Some (ss_begin (wd_session w2));
  al_failed : ss_failed (wd_session w1) = ss_failed (wd_session w2);
  al_env : ss_env (wd_session w1) = ss_env (wd_session w2);
  al_clock : wd_clock w1 = wd_clock w2;
  al_ttl : cache_ttl (wd_secrets w1) = cache_ttl (wd_secrets w2);
  al_cached name : name ∈ names →
    cache_entries (wd_secrets w1) !! name = cache_entries (wd_secrets w2) !! name;
  al_stored name : name ∈ names →
    (λ t, t_secrets t !! name) <$> st_tenants (ss_store (wd_session w1)) !! (db_schema db, db_prefix db)
    = (λ t, t_secrets t !! name) <$> st_tenants (ss_store (wd_session w2)) !! (db_schema db, db_prefix db);
}.

Lemma secrets_get_in_tx db name s : is_Some (ss_begin s) →
  let run := secrets_get db name s in
  ss_begin run.2 = ss_begin s ∧ ss_store run.2 = ss_store s
  ∧ run.1 = (if ss_failed s then Err aborted_error else
      match hd None (stim_fault <$> ss_env s) with
      | Some e => Err e
      | None => match (λ t, t_secrets t !! name) <$>
                        st_tenants (ss_store s) !! (db_schema db, db_prefix db) with
                | Some o => Ok o
                | None => Err (DatabaseError "relation does not exist")
                end
      end)
  ∧ ss_env run.2 = (if ss_failed s then ss_env s else tail (ss_env s))
  ∧ ss_failed run.2 = ss_failed s || negb (is_ok run.1).
Proof.
  intros Hb. assert (in_transaction s = true) as Ht by (by apply bool_decide_eq_true).
  unfold secrets_get, read, tstmt, stmt. destruct (ss_failed s) eqn:Hf; [done|].
  assert (stim_fault (next_stim s) = hd None (stim_fault <$> ss_env s)) as ->
    by (unfold next_stim; by destruct (ss_env s)).
  assert (ss_store (advance s) = ss_store s) as Es by (unfold advance; simpl; by rewrite Ht).
  assert (in_transaction (advance s) = true) as Ht' by (by apply bool_decide_eq_true).
  cbv zeta. destruct (hd _ _); cbn; [by rewrite Ht|].
  unfold tquery. rewrite Ht. destruct (st_tenants (ss_store s) !! _) as [t|] eqn:Et; cbn; [|by rewrite Ht].
  rewrite set_tenant_same by done. by rewrite Hf.
Qed.

(** What follows when the cache has no fresh entry. *)
Definition fetch_secret (db : DbContext) (name : string) : IO string string :=
  found <-- se_map_err (λ e, "Failed to load secret '" +:+ name +:+ "': " +:+ sql_error_text e)
              (db_op (secrets_get db name));
  secret <-- se_ok_or found ("Secret '" +:+ name +:+ "' not found");
  decrypted <-- se_map_err (λ e, "Failed to decrypt secret '" +:+ name +:+ "': " +:+ e)
                  (se_lift (decrypt (s_encrypted_value secret) (pc_encryption_key ctx)));
  secret_cache_set name decrypted ;;;
  se_ret decrypted.

(** [w] after the look-up in the cache. *)
Definition looked_up (c : Cache string) (w : World) : World := {|
  wd_session := wd_session w; wd_outbox := wd_outbox w; wd_net := wd_net w;
  wd_clock := tail (wd_clock w); wd_configs := wd_configs w; wd_secrets := c |}.

Lemma load_single_unfold db name w :
  load_single_secret ctx db name w =
  match cache_probe (hd 0 (wd_clock w)) name (wd_secrets w) with
  | Hit v => (Ok v, looked_up (wd_secrets w) w)
  | Expired => fetch_secret db name (looked_up (cache_evict name (wd_secrets w)) w)
  | Absent => fetch_secret db name (looked_up (wd_secrets w) w)
  end.
Proof.
  unfold load_single_secret, secret_cache_get, se_bind at 1, clock_now, cache_get. cbn.
  by destruct (cache_probe _ _ _).
Qed.

Lemma alike_fetch db names name w1 w2 : name ∈ names → alike db names w1 w2 →
  (fetch_secret db name w1).1 = (fetch_secret db name w2).1
  ∧ alike db names (fetch_secret db name w1).2 (fetch_secret db name w2).2.
Proof.
  intros Hin [[Hb1 Hb2] Hf He Hc Httl Hcached Hstored].
  destruct (secrets_get_in_tx db name _ Hb1) as (B1 & S1 & R1 & E1 & F1).
  destruct (secrets_get_in_tx db name _ Hb2) as (B2 & S2 & R2 & E2 & F2).
  rewrite <-Hf, <-He, <-(Hstored _ Hin), <-R1 in R2. rewrite <-Hf, <-He, <-E1 in E2.
  rewrite <-Hf, R2, <-F1 in F2.
  unfold fetch_secret, se_bind, se_map_err, db_op.
  destruct (secrets_get db name (wd_session w1)) as [r s1].
  destruct (secrets_get db name (wd_session w2)) as [r2 s2]. cbn [fst snd] in *. subst r2.
  assert (∀ u1 u2, wd_session u1 = s1 → wd_session u2 = s2 → wd_clock u1 = wd_clock u2 →
    cache_ttl (wd_secrets u1) = cache_ttl (wd_secrets u2) →
    (∀ x, x ∈ names → cache_entries (wd_secrets u1) !! x = cache_entries (wd_secrets u2) !! x) →
    alike db names u1 u2) as Hmk.
  { intros u1 u2 Es1 Es2 Eclock Et Ex.
    split; rewrite ?Es1, ?Es2, ?B1, ?B2, ?S1, ?S2; congruence || auto. }
  destruct r as [[s|]|e|p]; cbn; [|split; [done|by apply Hmk]..].
  destruct (decrypt _ _) as [d|e|p]; cbn; [|split; [done|by apply Hmk]..].
  split; [done|]. apply Hmk; cbn; [done|done|by rewrite Hc|done|]. intros x Hx.
  rewrite Hc. destruct (decide (name = x)) as [->|Hne]; [by rewrite !lookup_insert_eq|].
  rewrite !lookup_insert_ne by done. by apply Hcached.
Qed.

(** Loading one of [names] tells nothing of the others. *)
Lemma alike_single db names name w1 w2 : name ∈ names → alike db names w1 w2 →
  (load_single_secret ctx db name w1).1 = (load_single_secret ctx db name w2).1
  ∧ alike db names (load_single_secret ctx db name w1).2 (load_single_secret ctx db name w2).2.
Proof.
  intros Hin Hal. pose proof Hal as [Hb Hf He Hc Httl Hcached Hstored]. rewrite !load_single_unfold.
  assert (cache_probe (hd 0 (wd_clock w1)) name (wd_secrets w1)
    = cache_probe (hd 0 (wd_clock w2)) name (wd_secrets w2)) as <-.
  { unfold cache_probe. by rewrite Hc, Hcached, Httl. }
  destruct (cache_probe _ _ _) as [v| |].
  - split; [done|]. split; try done. cbn. by rewrite Hc.
  - apply alike_fetch; [done|]. split; try done; cbn; [by rewrite Hc|]. intros x Hx.
    destruct (decide (name = x)) as [->|Hne]; [by rewrite !lookup_delete_eq|].
    rewrite !lookup_delete_ne by done. by apply Hcached.
  - apply alike_fetch; [done|]. split; try done. cbn. by rewrite Hc.
Qed.

Lemma alike_each db names todo m w1 w2 : todo ⊆ names → alike db names w1 w2 →
  (load_each db todo m w1).1 = (load_each db todo m w2).1.
Proof.
  revert m w1 w2. induction todo as [|name todo IH]; intros m w1 w2 Hsub Hal; [done|].
  cbn [load_each]. unfold se_bind.
  destruct (alike_single db names name w1 w2) as [Hr Hw]; [set_solver|done|].
  destruct (load_single_secret _ _ _ w1) as [r1 w1'], (load_single_secret _ _ _ w2) as [r2 w2'].
  cbn [fst snd] in *. subst r2. destruct r1; [|done..]. apply IH; [set_solver|done].
Qed.

(** ** Together *)

Lemma each_names db names m w m' : (load_each db names m w).1 = Ok m' →
  ∀ name, is_Some (m' !! name) ↔ name ∈ names ∨ is_Some (m !! name).
Proof.
  revert m w. induction names as [|n names IH]; intros m w.
  - intros [= <-] name. set_solver.
  - cbn [load_each]. unfold se_bind. destruct (load_single_secret _ _ _ w) as [[v|e|p] w']; [|done..].
    intros Hr name. rewrite (IH _ _ Hr), elem_of_cons, lookup_insert_is_Some.
    destruct (decide (n = name)) as [->|Hne]; naive_solver.
Qed.

Lemma each_panic db names m w p : (load_each db names m w).1 = Panic p → p = 5%nat.
Proof.
  revert m w. induction names as [|n names IH]; intros m w; [done|].
  cbn [load_each]. unfold se_bind. pose proof (load_single_panic db n w) as Hp.
  destruct (load_single_secret _ _ _ w) as [[v|e|q] w']; [apply IH|done|].
  intros [= ->]. by apply Hp.
Qed.
End scan.
