(* ===== verification/Clients.v ===== *)
(** * The embedding interface ([worker/src/client.rs], [worker/src/ops.rs])

    The library-mode client runs statements on the caller's pool; the
    service-mode client sends requests to the API.  Both implement [InvokrClient].
    The readiness response of the worker's ops server is here as well. *)

From Stdlib Require Import Ascii.
From S2P Require Export Config WorkerTx.
#[local] Open Scope Z_scope.

Inductive JobTrigger :=
  | Immediate
  | Delayed (run_at : Z)
  | Cron (expression timezone : string) (starts_at ends_at : option Z) (first_run_at : Z).

(** [anyhow::Error]: a database error, or a message. *)
Inductive ClientError :=
  | CE_Sql (e : SqlError)
  | CE_Msg (m : string).

(** ** Library mode *)

Record WorkerConfig := {
  wcf_max_concurrent : Z;
  wcf_poll_interval_ms : Z;
  wcf_config_cache_ttl_sec : Z;
  wcf_secret_cache_ttl_sec : Z;
  wcf_shutdown_timeout_sec : Z;
}.

Definition WorkerConfig_default : WorkerConfig := {|
  wcf_max_concurrent := 50; wcf_poll_interval_ms := 200; wcf_config_cache_ttl_sec := 60;
  wcf_secret_cache_ttl_sec := 300; wcf_shutdown_timeout_sec := 30 |}.

Definition LibraryClient_new (table_prefix encryption_key : string) :
    res ClientError PipelineContext :=
  if validate_table_prefix table_prefix
  then Ok {| pc_encryption_key := encryption_key; pc_table_prefix := table_prefix |}
  else Err (CE_Msg ("table_prefix '" +:+ table_prefix +:+
              "' is invalid: only alphanumeric and underscore allowed")).

Definition build_app_config (env : Env) (ctx : PipelineContext) (wc : WorkerConfig) : AppConfig := {|
  ac_db := {| db_url := ""; db_pool_size := 0; db_table_prefix := pc_table_prefix ctx |};
  ac_server := {| sv_listen_addr := ""; sv_path_prefix := ""; sv_mode := SM_Api;
                  sv_dashboard_prefix := ""; sv_dashboard_dist_dir := "" |};
  ac_worker := {| wk_max_concurrent := wcf_max_concurrent wc;
    wk_poll_interval_ms := wcf_poll_interval_ms wc;
    wk_config_cache_ttl_sec := wcf_config_cache_ttl_sec wc;
    wk_secret_cache_ttl_sec := wcf_secret_cache_ttl_sec wc;
    wk_shutdown_timeout_sec := wcf_shutdown_timeout_sec wc |};
  ac_encryption_key := pc_encryption_key ctx;
  ac_metrics_port := 0;
  ac_health := WorkerHealthEnv_new env;
  ac_reaper_cron := "*/15 * * * *" |}.

Section library.
Context `{!Aes256Gcm} (ctx : PipelineContext).

(** A client operation: every statement commits by itself. *)
Notation LC := (SE Session ClientError).
Notation db_of schema_name :=
  {| db_schema := schema_name; db_prefix := pc_table_prefix ctx |}.
Definition lq {A} (m : DB A) : LC A := se_map_err CE_Sql m.

Definition lib_create_job (schema_name endpoint : string) (input : json) (max_attempts : Z)
    (trigger : JobTrigger) (idempotency_key : option string) : LC string :=
  let db := db_of schema_name in
  let ikey := default "" idempotency_key in
  lq (scoped_connection schema_name) ;;;
  found <-- lq (endpoints_get db endpoint);
  ep <-- se_ok_or found (CE_Msg ("Endpoint '" +:+ endpoint +:+ "' not found in schema '"
                                   +:+ schema_name +:+ "'"));
  match trigger with
  | Immediate =>
      r <-- lq (jobs_create_immediate db endpoint (ep_endpoint_type ep) ikey (Some input)
                  max_attempts);
      se_ret (cr_execution_id r)
  | Delayed run_at =>
      r <-- lq (jobs_create_delayed db endpoint (ep_endpoint_type ep) ikey (Some input) run_at
                  max_attempts);
      se_ret (cr_execution_id r)
  | Cron expression timezone starts_at ends_at first_run_at =>
      job <-- lq (jobs_create_cron db endpoint (ep_endpoint_type ep) idempotency_key (Some input)
                    expression timezone starts_at ends_at first_run_at);
      se_ret (j_job_id job)
  end.

Definition lib_register_endpoint (schema_name name endpoint_type : string) (spec : json)
    (retry_policy : option json) : LC unit :=
  let db := db_of schema_name in
  lq (scoped_connection schema_name) ;;;
  existing <-- lq (endpoints_get db name);
  match existing with
  | None => lq (endpoints_create db name endpoint_type None None spec retry_policy) ;;; se_ret tt
  | Some _ => lq (endpoints_update db name (Some spec) None None retry_policy) ;;; se_ret tt
  end.

Definition lib_delete_endpoint (schema_name name : string) : LC unit :=
  lq (scoped_connection schema_name) ;;;
  lq (endpoints_delete (db_of schema_name) name) ;;; se_ret tt.

Definition lib_upsert_secret (nonce : list Z) (schema_name name plaintext : string) : LC unit :=
  let db := db_of schema_name in
  encrypted <-- se_lift (res_map_err CE_Msg (encrypt nonce plaintext (pc_encryption_key ctx)));
  lq (scoped_connection schema_name) ;;;
  found <-- lq (secrets_get db name);
  match found with
  | Some _ => lq (secrets_update db name encrypted) ;;; se_ret tt
  | None => lq (secrets_create db name encrypted) ;;; se_ret tt
  end.

Definition lib_delete_secret (schema_name name : string) : LC unit :=
  lq (scoped_connection schema_name) ;;;
  lq (secrets_delete (db_of schema_name) name) ;;; se_ret tt.

Definition lib_cancel_job (schema_name job_id : string) : LC unit :=
  let db := db_of schema_name in
  lq (scoped_connection schema_name) ;;;
  found <-- lq (jobs_get db job_id);
  job <-- se_ok_or found (CE_Msg ("Job '" +:+ job_id +:+ "' not found"));
  (if bool_decide (j_trigger_type job = "CRON") then se_ret tt
   else lq (executions_cancel_pending_for_job db job_id) ;;; se_ret tt) ;;;
  lq (jobs_cancel db job_id) ;;;
  se_when (bool_decide (j_trigger_type job = "CRON"))
    (lq (unregister_pg_cron schema_name job_id)).

Definition lib_get_execution (schema_name execution_id : string) : LC (option Execution) :=
  lq (scoped_connection schema_name) ;;;
  lq (executions_get (db_of schema_name) execution_id).

Definition lib_provision_workspace (schema_name : string) : LC unit :=
  lq (provision_schema schema_name (pc_table_prefix ctx)).
End library.

(** ** Service mode *)

(** A request to the API and its answers; JSON parsing and the text of a status line are
    the libraries'. *)
Record ApiRequest := {
  ar_method : string;
  ar_url : string;
  ar_headers : list (string * string);
  ar_json : option json;
}.

Class Reqwest := {
  status_text : Z → string;
  json_from_str : string → res string json;
}.

(** The requests sent so far, and the answers to come. *)
Record Wire := { wr_sent : list ApiRequest; wr_answers : list HttpAnswer }.

Record HttpClient := { hc_base_url : string; hc_api_key : string; hc_org_id : string }.

Section service.
Context `{!Chrono} `{!Reqwest} (c : HttpClient).

Notation HC := (SE Wire ClientError).

Definition client_url (path : string) : string :=
  Str.trim_end_matches "/"%char (hc_base_url c) +:+ "/v1" +:+ path.

Definition authed (headers : list (string * string)) : list (string * string) :=
  headers ++ [("Authorization", "Bearer " +:+ hc_api_key c)].

Definition with_workspace (schema_name : string) : list (string * string) :=
  [("x-org-id", hc_org_id c); ("x-workspace-id", schema_name)].

(** [.send().await?] *)
Definition send (method url : string) (headers : list (string * string)) (body : option json) :
    HC (Z * string) := λ w,
  let r := {| ar_method := method; ar_url := url; ar_headers := headers; ar_json := body |} in
  let w' := {| wr_sent := wr_sent w ++ [r]; wr_answers := tail (wr_answers w) |} in
  match hd (HttpErr false false "no answer") (wr_answers w) with
  | HttpResp status body => (Ok (status, body), w')
  | HttpErr _ _ text => (Err (CE_Msg text), w')
  end.

Definition call (method path schema_name : string) (body : option json) : HC (Z * string) :=
  send method (client_url path) (authed (with_workspace schema_name)) body.

Definition is_success (status : Z) : bool := bool_decide (200 ≤ status < 300).

Definition bail {A} (what : string) (resp : Z * string) : HC A :=
  se_err (CE_Msg (what +:+ " HTTP " +:+ status_text resp.1 +:+ ": " +:+ resp.2)).

Definition check (resp : Z * string) (what : string) : HC (Z * string) :=
  if is_success resp.1 then se_ret resp else bail what resp.

Definition http_upsert_secret (schema_name name plaintext : string) : HC unit :=
  resp <-- call "POST" "/secrets" schema_name
    (Some (Json.obj [("name", JString name); ("value", JString plaintext)]));
  if is_success resp.1 then se_ret tt
  else if negb (bool_decide (resp.1 = 409)) then bail "upsert_secret create" resp
  else
    resp <-- call "PUT" ("/secrets/" +:+ name) schema_name
      (Some (Json.obj [("value", JString plaintext)]));
    check resp "upsert_secret update" ;;; se_ret tt.

Definition http_delete_secret (schema_name name : string) : HC unit :=
  resp <-- call "DELETE" ("/secrets/" +:+ name) schema_name None;
  check resp "delete_secret" ;;; se_ret tt.

Definition http_register_endpoint (schema_name name endpoint_type : string) (spec : json)
    (retry_policy : option json) : HC unit :=
  resp <-- call "PUT" ("/endpoints/" +:+ name) schema_name
    (Some (Json.obj [("spec", spec); ("retry_policy", Json.opt_json retry_policy)]));
  if is_success resp.1 then se_ret tt
  else if negb (bool_decide (resp.1 = 404)) then bail "register_endpoint update" resp
  else
    resp <-- call "POST" "/endpoints" schema_name
      (Some (Json.obj [("name", JString name); ("type", JString endpoint_type); ("spec", spec);
                       ("retry_policy", Json.opt_json retry_policy)]));
    check resp "register_endpoint create" ;;; se_ret tt.

Definition http_delete_endpoint (schema_name name : string) : HC unit :=
  resp <-- call "DELETE" ("/endpoints/" +:+ name) schema_name None;
  check resp "delete_endpoint" ;;; se_ret tt.

Definition is_cron (trigger : JobTrigger) : bool :=
  match trigger with Cron _ _ _ _ _ => true | _ => false end.

Definition trigger_fields (trigger : JobTrigger) : string * list (string * json) :=
  match trigger with
  | Immediate => ("IMMEDIATE", [])
  | Delayed run_at => ("DELAYED", [("run_at", ts_json run_at)])
  | Cron expression timezone starts_at ends_at _ =>
      ("CRON", [("cron", JString expression); ("ends_at", Json.opt ts_json ends_at);
                ("starts_at", Json.opt ts_json starts_at); ("timezone", JString timezone)])
  end.

(** The fields of the body, as they are inserted one after the other. *)
Definition create_job_fields (endpoint : string) (input : json) (max_attempts : Z)
    (trigger : JobTrigger) (idempotency_key : option string) : list (string * json) :=
  let '(trigger_str, extra) := trigger_fields trigger in
  [("endpoint", JString endpoint); ("input", input); ("trigger", JString trigger_str)]
  ++ (if bool_decide (0 < max_attempts) then [("max_attempts", JInt max_attempts)] else [])
  ++ match idempotency_key with Some key => [("idempotency_key", JString key)] | None => [] end
  ++ extra.

Definition created_id (cron : bool) (v : json) : res ClientError string :=
  let d := Json.index v "data" in
  if cron then
    ok_or (Json.as_str (Json.index d "job_id"))
      (CE_Msg "create_job: response missing 'data.job_id'")
  else
    ok_or (Json.as_str (Json.index (Json.index d "execution") "execution_id"))
      (CE_Msg "create_job: response missing 'data.execution.execution_id'").

Definition http_create_job (schema_name endpoint : string) (input : json) (max_attempts : Z)
    (trigger : JobTrigger) (idempotency_key : option string) : HC string :=
  resp <-- call "POST" "/jobs" schema_name
    (Some (Json.obj (create_job_fields endpoint input max_attempts trigger idempotency_key)));
  resp <-- check resp "create_job";
  v <-- se_lift (res_map_err CE_Msg (json_from_str resp.2));
  se_lift (created_id (is_cron trigger) v).

Definition http_provision_workspace (schema_name : string) : HC unit :=
  resp <-- send "POST" (client_url ("/orgs/" +:+ hc_org_id c +:+ "/workspaces")) (authed [])
    (Some (Json.obj [("name", JString schema_name); ("slug", JString schema_name)]));
  if is_success resp.1 || bool_decide (resp.1 = 409) then se_ret tt
  else bail "provision_workspace" resp.

Definition http_cancel_job (schema_name job_id : string) : HC unit :=
  resp <-- call "POST" ("/jobs/" +:+ job_id +:+ "/cancel") schema_name None;
  check resp "cancel_job" ;;; se_ret tt.

Definition http_get_execution (schema_name execution_id : string) : HC (option Execution) :=
  resp <-- call "GET" ("/executions/" +:+ execution_id) schema_name None;
  if bool_decide (resp.1 = 404) then se_ret None
  else
    resp <-- check resp "get_execution";
    v <-- se_lift (res_map_err CE_Msg (json_from_str resp.2));
    e <-- se_lift (res_map_err CE_Msg (Execution_from_value (Json.index v "data")));
    se_ret (Some e).
End service.

(** ** Readiness ([ops.rs]) *)

Definition ready_response (db : res string unit) (poller_ok : bool) (last_tick_ago_ms : Z) :
    HttpResponse :=
  let ready := is_ok db && poller_ok in
  let body := Json.obj [
    ("status", JString (if ready then "ready" else "not_ready"));
    ("db", JString match db with Err e => e | _ => "ok" end);
    ("poller", JString (if poller_ok then "ok" else "stale"));
    ("last_tick_ago_ms", JInt last_tick_ago_ms)] in
  if ready then resp 200 body else resp 503 body.

Definition ready_handler (db : res string unit) (now : Z) (h : WorkerHealth) : HttpResponse :=
  ready_response db (WorkerHealth_poller_ok now h) (last_tick_ago now h).
