(* ===== verification/Runs.v ===== *)
(** * Successful runs inside a transaction

    What follows for the store from a handler's success, statement by statement:
    in a transaction, a statement that returned [Ok] had its effect on the store
    the transaction sees, and [commit] publishes that store. *)

From S2P Require Export ApiCatalog Clients.
#[local] Open Scope Z_scope.

(** The transaction that began at [b], alive, at the instant [now]. *)
Record in_run (b : Store) (now : Z) (s : Session) : Prop := {
  ir_begin : ss_begin s = Some b;
  ir_failed : ss_failed s = false;
  ir_now : ss_now s = now;
}.

Lemma stmt_run {A} (qy : Query A) b now s a s' :
  stmt qy s = (Ok a, s') → in_run b now s →
  in_run b now s' ∧ ∃ st, qy st now (ss_locked s) (ss_store s) = Ok (a, ss_store s').
Proof.
  intros E [Hb Hf Hn]. unfold stmt in E. rewrite Hf in E.
  assert (in_transaction s = true) as Ht by (by apply bool_decide_eq_true; rewrite Hb).
  assert (ss_now (advance s) = now) as Hna by (unfold advance; simpl; by rewrite Ht).
  assert (ss_store (advance s) = ss_store s) as Hsa by (unfold advance; simpl; by rewrite Ht).
  rewrite Hna, Hsa in E.
  destruct (stim_fault _); [done|].
  destruct (qy _ _ _ _) as [[a' σ]| |] eqn:Eq; [|done..]. injection E as <- <-.
  split; [by split|]. eexists. exact Eq.
Qed.

Lemma tstmt_run {A} db (qy : TQuery A) b now s a s' :
  tstmt db qy s = (Ok a, s') → in_run b now s →
  in_run b now s' ∧ ∃ st t t', st_tenants (ss_store s) !! (db_schema db, db_prefix db) = Some t
    ∧ qy st now (ss_locked s) t = Ok (a, t')
    ∧ ss_store s' = set_tenant (db_schema db, db_prefix db) t' (ss_store s).
Proof.
  intros E Hr. destruct (stmt_run _ _ _ _ _ _ E Hr) as [Hr' [st Hq]]. split; [done|].
  unfold tquery in Hq. destruct (st_tenants _ !! _) as [t|]; [|done].
  destruct (qy st now _ t) as [[a' t']| |] eqn:Eq; [|done..].
  injection Hq as <- Hs. exists st, t, t'. by rewrite <-Hs.
Qed.

Lemma read_run {A} db (f : Tenant → A) b now s a s' :
  read db f s = (Ok a, s') → in_run b now s →
  in_run b now s' ∧ ss_store s' = ss_store s
  ∧ ∃ t, st_tenants (ss_store s) !! (db_schema db, db_prefix db) = Some t ∧ a = f t.
Proof.
  intros E Hr. destruct (tstmt_run _ _ _ _ _ _ _ E Hr) as (Hr' & st & t & t' & Ht & Hq & Hs).
  injection Hq as <- <-. split_and!; [done|by rewrite Hs, set_tenant_same|eauto].
Qed.

Lemma commit_run b now s r s' :
  commit s = (Ok r, s') → in_run b now s → ss_begin s' = None ∧ ss_store s' = ss_store s.
Proof.
  intros E [Hb Hf _]. unfold commit in E. cbn [advance ss_failed] in E. rewrite Hf in E.
  assert (in_transaction s = true) as Ht by (by apply bool_decide_eq_true; rewrite Hb).
  destruct (stim_fault _); [done|]. injection E as <- <-. simpl. by rewrite Ht.
Qed.

(** ** Handlers *)

Lemma q_ok {A} (m : DB A) s a s' : q m s = (Ok a, s') → m s = (Ok a, s').
Proof. unfold q, se_map_err. destruct (m s) as [[]]; simpl; by intros [= <- <-]. Qed.

Lemma map_err_ok {A E F S} (f : E → F) (m : SE S E A) s a s' :
  se_map_err f m s = (Ok a, s') → m s = (Ok a, s').
Proof. unfold se_map_err. destruct (m s) as [[]]; simpl; by intros [= <- <-]. Qed.

Lemma ok_or_ok {A E S} (o : option A) (e : E) (s : S) a s' :
  se_ok_or o e s = (Ok a, s') → o = Some a ∧ s' = s.
Proof. destruct o; simpl; [by intros [= -> ->]|done]. Qed.

Lemma lift_ok {A E S} (r : res E A) (s : S) a s' :
  se_lift r s = (Ok a, s') → r = Ok a ∧ s' = s.
Proof. by intros [= -> ->]. Qed.

(** The store at BEGIN, and the transaction that begins there. *)
Lemma with_tx_ok {A} ws (m : API A) s a s' :
  with_tx ws m s = (Ok a, s') → ss_begin s = None →
  ∃ now s1, in_run (ss_store (advance s)) now (begin_at (advance s))
    ∧ m (begin_at (advance s)) = (Ok a, s1) ∧ s' = drop_tx s1.
Proof.
  intros E Hb. unfold with_tx in E. apply se_bind_inv in E as ([] & s0 & E0 & E1).
  apply q_ok in E0. unfold scoped_transaction in E0.
  destruct (validate_schema_name _); [|done].
  destruct (stim_fault _); [done|]. injection E0 as <-.
  unfold in_tx in E1. destruct (m _) as [r s1] eqn:Em. injection E1 as -> <-.
  eexists _, s1. split; [by split|done].
Qed.

(** Rewrites a successful run into the successes of its parts. *)
Ltac run_step :=
  match goal with
  | E : se_bind _ _ _ = (Ok _, _) |- _ =>
      apply se_bind_inv in E; destruct E as (? & ? & ? & E)
  | E : q _ _ = (Ok _, _) |- _ => apply q_ok in E
  | E : se_map_err _ _ _ = (Ok _, _) |- _ => apply map_err_ok in E
  | E : se_ok_or _ _ _ = (Ok _, _) |- _ => apply ok_or_ok in E; destruct E as [? ->]
  | E : se_lift _ _ = (Ok _, _) |- _ => apply lift_ok in E; destruct E as [? ->]
  | E : se_ret _ _ = (Ok _, _) |- _ => injection E as <- <-
  | E : se_err _ _ = (Ok _, _) |- _ => discriminate E
  | E : Ok200 _ _ = (Ok _, _) |- _ => injection E as <- <-
  end.
Ltac run_tac := repeat run_step.

(** ** Quiet runs: no faults, nobody else *)

Lemma advance_quiet s : ss_env s = [] → advance s = s.
Proof.
  intros He. unfold advance, next_stim. rewrite He. simpl. destruct s as [bg f n en l st].
  simpl in *. subst. by destruct (in_transaction _).
Qed.

Lemma stmt_quiet {A} (qy : Query A) s :
  ss_env s = [] → ss_failed s = false →
  stmt qy s = match qy (quiet (ss_now s)) (ss_now s) (ss_locked s) (ss_store s) with
              | Ok (a, σ) => (Ok a, set_store σ s)
              | Err e => (Err e, fail s)
              | Panic w => (Panic w, s)
              end.
Proof.
  intros He Hf. unfold stmt. rewrite Hf, advance_quiet by done.
  unfold next_stim. rewrite He. done.
Qed.

Lemma set_store_same s : set_store (ss_store s) s = s.
Proof. by destruct s. Qed.

Lemma connection_quiet schema s :
  ss_env s = [] → ss_failed s = false → validate_schema_name schema = true →
  scoped_connection schema s = (Ok tt, s).
Proof.
  intros He Hf Hv. unfold scoped_connection. rewrite Hv, stmt_quiet by done.
  by rewrite set_store_same.
Qed.

Lemma read_quiet {A} db (f : Tenant → A) t s :
  ss_env s = [] → ss_failed s = false →
  st_tenants (ss_store s) !! (db_schema db, db_prefix db) = Some t →
  read db f s = (Ok (f t), s).
Proof.
  intros He Hf Ht. unfold read, tstmt. rewrite stmt_quiet by done. unfold tquery. rewrite Ht.
  rewrite set_tenant_same by done. by rewrite set_store_same.
Qed.
