(* ===== verification/HandlerRuns.v ===== *)
(** * Successful updates and cancellations

    What the store is after [jobs::update] and [jobs::cancel] returned 200. *)

From S2P Require Export Runs.
#[local] Open Scope Z_scope.

Section handlers.
Context `{!Chrono} `{!CronCrate} `{!Base64} `{!JsonSchemaCrate}.
Implicit Types ws : WorkspaceContext.

(** The jobs once the UPDATE of [retire_and_replace] has run. *)
Definition after_retiring (now : Z) (old_id : string) (replaced_by : option string)
    (m : gmap string Job) : gmap string Job :=
  match m !! old_id with
  | Some j => if bool_decide (j_status j = "ACTIVE")
              then <[old_id := retired now replaced_by j]> m else m
  | None => m
  end.

Lemma insert_job_ok db j t t' :
  insert_job db j t = Ok t' →
  t_jobs t !! j_job_id j = None ∧ t' = set_jobs (<[j_job_id j := j]> (t_jobs t)) t.
Proof.
  unfold insert_job. repeat (case_match; try done). bool_prop. intros [= <-].
  split; [by apply eq_None_not_Some|done].
Qed.

Lemma job_stmt_run db mk b now s j s' :
  job_stmt db mk s = (Ok j, s') → in_run b now s →
  in_run b now s' ∧ ∃ id t, st_tenants (ss_store s) !! (db_schema db, db_prefix db) = Some t
    ∧ j = mk id now ∧ t_jobs t !! j_job_id j = None
    ∧ ss_store s' = set_tenant (db_schema db, db_prefix db)
                      (set_jobs (<[j_job_id j := j]> (t_jobs t)) t) (ss_store s).
Proof.
  intros E Hr. destruct (tstmt_run _ _ _ _ _ _ _ E Hr) as (Hr' & st & t & t' & Ht & Hq & Hs).
  cbv zeta in Hq. destruct (insert_job _ _ _) as [t2| |] eqn:Ei; [|done..].
  injection Hq as <- <-. apply insert_job_ok in Ei as [Hn ->].
  split; [done|]. exists (stim_uuid st), t. done.
Qed.

Lemma retire_and_replace_run db old_id new b now s j s' :
  jobs_retire_and_replace db old_id new s = (Ok j, s') → in_run b now s →
  in_run b now s' ∧ ∃ id t,
    st_tenants (ss_store s) !! (db_schema db, db_prefix db) = Some t
    ∧ j = cron_row id (j_endpoint new) (j_endpoint_type new) None (j_input new)
            (j_cron_expression new) (j_cron_timezone new) (j_cron_starts_at new)
            (j_cron_ends_at new) (j_cron_next_run_at new) (j_version new) (Some old_id) now
    ∧ let m := after_retiring now old_id (Some (j_job_id new)) (t_jobs t) in
      m !! id = None
      ∧ ss_store s' = set_tenant (db_schema db, db_prefix db)
                        (set_jobs (<[id := j]> m) t) (ss_store s).
Proof.
  intros E Hr. unfold jobs_retire_and_replace in E.
  apply se_bind_inv in E as ([] & s1 & E1 & E2).
  destruct (tstmt_run _ _ _ _ _ _ _ E1 Hr) as (Hr1 & st & t & t1 & Ht & Hq & Hs1).
  destruct (job_stmt_run _ _ _ _ _ _ _ E2 Hr1) as (Hr2 & id & t2 & Ht2 & -> & Hnew & Hs2).
  rewrite Hs1 in Ht2, Hs2. unfold set_tenant in Ht2 at 1. simpl in Ht2.
  rewrite lookup_insert_eq in Ht2. injection Ht2 as <-.
  assert (t1 = set_jobs (after_retiring now old_id (Some (j_job_id new)) (t_jobs t)) t) as ->.
  { unfold after_retiring. destruct (t_jobs t !! old_id) as [j|] eqn:Ej;
      [destruct (bool_decide _)|]; injection Hq as <-; by destruct t. }
  split; [done|]. exists id, t. split_and!; [done..|]. rewrite Hs2. unfold set_tenant. simpl.
  by rewrite insert_insert_eq.
Qed.

Lemma register_run p sch id cron b now s s' :
  register_pg_cron_conn p sch id cron s = (Ok tt, s') → in_run b now s →
  in_run b now s' ∧ ss_store s' = set_cron
    (<[cron_job_name sch id := {| cron_schedule := cron;
         cron_command := build_cron_command p sch id |}]> (st_cron (ss_store s))) (ss_store s).
Proof. intros E Hr. destruct (stmt_run _ _ _ _ _ _ E Hr) as [? [st [= Hs]]]. by rewrite Hs. Qed.

Lemma unregister_run sch id b now s s' :
  unregister_pg_cron_conn sch id s = (Ok tt, s') → in_run b now s →
  in_run b now s' ∧ ss_store s'
    = set_cron (delete (cron_job_name sch id) (st_cron (ss_store s))) (ss_store s).
Proof. intros E Hr. destruct (stmt_run _ _ _ _ _ _ E Hr) as [? [st [= Hs]]]. by rewrite Hs. Qed.

Lemma drop_tx_none s : ss_begin s = None → drop_tx s = s.
Proof. unfold drop_tx. by intros ->. Qed.

(** [b] is the store at BEGIN, [t0] the instant of the transaction. *)
Lemma replace_job_run prefix ws job_id new cron s r s' :
  replace_job prefix ws job_id new cron s = (Ok r, s') → ss_begin s = None →
  let b := ss_store (advance s) in
  let schema := wc_schema_name ws in
  ss_begin s' = None ∧ ∃ id t t0,
    st_tenants b !! (schema, prefix) = Some t
    ∧ let m := after_retiring t0 job_id (Some (j_job_id new)) (t_jobs t) in
      let created := cron_row id (j_endpoint new) (j_endpoint_type new) None (j_input new)
            (j_cron_expression new) (j_cron_timezone new) (j_cron_starts_at new)
            (j_cron_ends_at new) (j_cron_next_run_at new) (j_version new) (Some job_id) t0 in
      m !! id = None
      ∧ r = resp 200 (updated_body created)
      ∧ ss_store s' = set_cron
          (<[cron_job_name schema id := {| cron_schedule := cron;
               cron_command := build_cron_command prefix schema id |}]>
            (delete (cron_job_name schema job_id) (st_cron b)))
          (set_tenant (schema, prefix) (set_jobs (<[id := created]> m) t) b).
Proof.
  intros E Hb. cbv zeta. unfold replace_job in E.
  apply with_tx_ok in E as (t0 & s1 & Hr & E & ->); [|done].
  apply se_bind_inv in E as (j & s2 & E2%q_ok & E).
  apply se_bind_inv in E as ([] & s3 & E3%q_ok & E).
  apply se_bind_inv in E as ([] & s4 & E4%q_ok & E).
  apply se_bind_inv in E as ([] & s5 & E5%q_ok & E). injection E as <- <-.
  destruct (retire_and_replace_run _ _ _ _ _ _ _ _ E2 Hr) as (Hr2 & id & t & Ht & -> & Hm & Hs2).
  cbn [ctx_of db_schema db_prefix begin_at ss_store] in Ht, Hs2.
  destruct (unregister_run _ _ _ _ _ _ E3 Hr2) as (Hr3 & Hs3).
  destruct (register_run _ _ _ _ _ _ _ _ E4 Hr3) as (Hr4 & Hs4).
  destruct (commit_run _ _ _ _ _ E5 Hr4) as (Hn & Hs5).
  rewrite drop_tx_none by done. split; [done|]. exists id, t, t0.
  split_and!; [done..|]. by rewrite Hs5, Hs4, Hs3, Hs2.
Qed.

(** Outside a transaction a read leaves the session where its statement found it. *)
Lemma connection_advance schema s s' : scoped_connection schema s = (Ok tt, s') → s' = advance s.
Proof.
  unfold scoped_connection. destruct (validate_schema_name _); [|done]. unfold stmt.
  destruct (ss_failed s); [done|]. destruct (stim_fault _); [done|]. intros [= <-].
  apply set_store_same.
Qed.

Lemma read_advance {A} db (f : Tenant → A) s a s' : read db f s = (Ok a, s') →
  s' = advance s
  ∧ ∃ t, st_tenants (ss_store (advance s)) !! (db_schema db, db_prefix db) = Some t ∧ a = f t.
Proof.
  unfold read, tstmt, stmt, tquery. destruct (ss_failed s); [done|].
  destruct (stim_fault _); [done|]. destruct (st_tenants _ !! _) as [t|] eqn:Et; [|done].
  intros [= <- <-]. rewrite set_tenant_same by done. split; [apply set_store_same|by exists t].
Qed.

(** What an update works out from the row it has read and its body. *)
Record update_plan (old : Job) (body : UpdateJob) (now : Z) (cron tz : string) (next : Z) : Prop := {
  up_trigger : j_trigger_type old = "CRON";
  up_active : j_status old = "ACTIVE";
  up_internal : is_internal (j_endpoint_type old) = false;
  up_timezone : tz = default (default "UTC" (j_cron_timezone old)) (uj_timezone body);
  up_schedule : ∃ expr schedule zone,
    update_cron_expr old body = Ok expr ∧ cron = cron_str expr ∧ to_schedule expr = Ok schedule
    ∧ parse_tz tz = Some zone ∧ compute_next_cron schedule zone now = Some next;
}.

(** The row that was read, the new schedule, and the swap. *)
Lemma jobs_update_run prefix ws now job_id body s r s' :
  jobs_update prefix ws now job_id body s = (Ok r, s') → ss_begin s = None →
  let seen := advance (advance s) in
  ∃ t old cron tz next,
    st_tenants (ss_store seen) !! (wc_schema_name ws, prefix) = Some t ∧ t_jobs t !! job_id = Some old
    ∧ update_plan old body now cron tz next ∧ ss_begin seen = None
    ∧ replace_job prefix ws job_id (updated_job old body cron tz next) cron seen = (Ok r, s').
Proof.
  intros E Hb. unfold jobs_update in E.
  apply se_bind_inv in E as ([] & s1 & E1%q_ok & E). apply connection_advance in E1 as ->.
  apply se_bind_inv in E as (found & s2 & E2%q_ok & E).
  apply read_advance in E2 as (-> & t & Ht & ->).
  apply se_bind_inv in E as (old & s3 & E3 & E). apply ok_or_ok in E3 as [Hj ->].
  apply se_bind_inv in E as ([] & s4 & E4 & E). apply lift_ok in E4 as [Hup ->].
  apply se_bind_inv in E as (ce & s5 & E5 & E). apply lift_ok in E5 as [Hce ->].
  cbv zeta in E.
  apply se_bind_inv in E as (sch & s6 & E6 & E). apply lift_ok in E6 as [Hsch ->].
  apply se_bind_inv in E as (tz & s7 & E7 & E). apply ok_or_ok in E7 as [Htz ->].
  apply se_bind_inv in E as (next & s8 & E8 & E). apply ok_or_ok in E8 as [Hnext ->].
  eexists t, old, _, _, next. split; [exact Ht|]. split; [exact Hj|]. split; [|by split; [|exact E]].
  unfold updatable in Hup. repeat (case_match; try done). bool_prop.
  split; [done..|]. by exists ce, sch, tz.
Qed.

(** ** Cancelling *)

(** The executions once [cancel_pending_for_job] has run. *)
Definition pending_cancelled (now : Z) (job_id : string) (m : gmap string Execution) :
    gmap string Execution :=
  (λ e, if bool_decide (e_job_id e = job_id ∧ cancellable e) then cancel_update now e else e) <$> m.

Lemma cancel_pending_run db job_id b now s n s' :
  executions_cancel_pending_for_job db job_id s = (Ok n, s') → in_run b now s →
  in_run b now s' ∧ ∃ t, st_tenants (ss_store s) !! (db_schema db, db_prefix db) = Some t
    ∧ ss_store s' = set_tenant (db_schema db, db_prefix db)
        (set_executions (pending_cancelled now job_id (t_executions t)) t) (ss_store s).
Proof.
  intros E Hr. destruct (tstmt_run _ _ _ _ _ _ _ E Hr) as (Hr' & st & t & t' & Ht & Hq & Hs).
  cbv zeta in Hq. injection Hq as _ <-. eauto.
Qed.

Lemma jobs_cancel_run db job_id b now s j s' :
  jobs_cancel db job_id s = (Ok (Some j), s') → in_run b now s →
  in_run b now s' ∧ ∃ t j0, st_tenants (ss_store s) !! (db_schema db, db_prefix db) = Some t
    ∧ t_jobs t !! job_id = Some j0 ∧ j_status j0 = "ACTIVE"
    ∧ j = retired now (j_replaced_by_id j0) j0
    ∧ ss_store s' = set_tenant (db_schema db, db_prefix db)
        (set_jobs (<[job_id := j]> (t_jobs t)) t) (ss_store s).
Proof.
  intros E Hr. destruct (tstmt_run _ _ _ _ _ _ _ E Hr) as (Hr' & st & t & t' & Ht & Hq & Hs).
  destruct (t_jobs t !! job_id) as [j0|] eqn:Ej; [|done].
  case_bool_decide as Ha; [|done]. injection Hq as <- <-. split; [done|]. exists t, j0. done.
Qed.

Lemma jobs_cancel_handler_run prefix ws job_id s r s' :
  jobs_cancel_handler prefix ws job_id s = (Ok r, s') → ss_begin s = None →
  let b := ss_store (advance s) in
  let k := (wc_schema_name ws, prefix) in
  ss_begin s' = None ∧ ∃ t job t0,
    st_tenants b !! k = Some t ∧ t_jobs t !! job_id = Some job
    ∧ j_status job = "ACTIVE" ∧ is_internal (j_endpoint_type job) = false
    ∧ let job' := retired t0 (j_replaced_by_id job) job in
      r = resp 200 (data (job_summary job'))
      ∧ ss_store s' =
        if bool_decide (j_trigger_type job = "CRON")
        then set_cron (delete (cron_job_name (wc_schema_name ws) job_id) (st_cron b))
               (set_tenant k (set_jobs (<[job_id := job']> (t_jobs t)) t) b)
        else set_tenant k (set_jobs (<[job_id := job']> (t_jobs t))
               (set_executions (pending_cancelled t0 job_id (t_executions t)) t)) b.
Proof.
  intros E Hb. cbv zeta. unfold jobs_cancel_handler in E. cbv zeta in E.
  apply with_tx_ok in E as (t0 & s1 & Hr & E & ->); [|done].
  apply se_bind_inv in E as (found & s2 & E2%q_ok & E).
  destruct (read_run _ _ _ _ _ _ _ E2 Hr) as (Hr2 & Hs2 & t & Ht & ->).
  cbn [ctx_of db_schema db_prefix begin_at ss_store] in Ht, Hs2.
  apply se_bind_inv in E as (job & s3 & E3 & E). apply ok_or_ok in E3 as [Hj ->].
  apply se_bind_inv in E as ([] & s4 & E4 & E).
  destruct (bool_decide_reflect (j_status job = "RETIRED")) as [|Hret]; [done|]. destruct (is_internal _) eqn:Hint; [done|].
  injection E4 as <-.
  destruct (bool_decide (j_trigger_type job = "CRON")) eqn:Hcron.
  - apply se_bind_inv in E as ([] & s5 & [= <-] & E).
    apply se_bind_inv in E as (c & s6 & E6%q_ok & E).
    apply se_bind_inv in E as (j & s7 & E7 & E). apply ok_or_ok in E7 as [-> ->].
    destruct (jobs_cancel_run _ _ _ _ _ _ _ E6 Hr2) as (Hr6 & t' & j0 & Ht' & Hj0 & Ha & -> & Hs6).
    rewrite Hs2 in Ht', Hs6. cbn [ctx_of db_schema db_prefix] in Ht', Hs6.
    rewrite Ht in Ht'. injection Ht' as <-. rewrite Hj in Hj0. injection Hj0 as <-.
    apply se_bind_inv in E as ([] & s8 & E8%q_ok & E).
    destruct (unregister_run _ _ _ _ _ _ E8 Hr6) as (Hr8 & Hs8).
    apply se_bind_inv in E as ([] & s9 & E9%q_ok & E). injection E as <- <-.
    destruct (commit_run _ _ _ _ _ E9 Hr8) as (Hn & Hs9).
    rewrite drop_tx_none by done. split; [done|]. exists t, job, t0.
    split_and!; try done. by rewrite Hcron, Hs9, Hs8, Hs6.
  - apply se_bind_inv in E as ([] & s5 & E5 & E).
    apply se_bind_inv in E5 as (n & s5' & E5%q_ok & [= <-]).
    destruct (cancel_pending_run _ _ _ _ _ _ _ E5 Hr2) as (Hr5 & t1 & Ht1 & Hs5).
    rewrite Hs2 in Ht1, Hs5. cbn [ctx_of db_schema db_prefix] in Ht1, Hs5.
    rewrite Ht in Ht1. injection Ht1 as <-.
    apply se_bind_inv in E as (c & s6 & E6%q_ok & E).
    apply se_bind_inv in E as (j & s7 & E7 & E). apply ok_or_ok in E7 as [-> ->].
    destruct (jobs_cancel_run _ _ _ _ _ _ _ E6 Hr5) as (Hr6 & t' & j0 & Ht' & Hj0 & Ha & -> & Hs6).
    rewrite Hs5 in Ht', Hs6. cbn [ctx_of db_schema db_prefix] in Ht', Hs6.
    unfold set_tenant in Ht'. simpl in Ht'. rewrite lookup_insert_eq in Ht'. injection Ht' as <-.
    simpl in Hj0. rewrite Hj in Hj0. injection Hj0 as <-.
    apply se_bind_inv in E as ([] & s8 & [= <-] & E).
    apply se_bind_inv in E as ([] & s9 & E9%q_ok & E). injection E as <- <-.
    destruct (commit_run _ _ _ _ _ E9 Hr6) as (Hn & Hs9).
    rewrite drop_tx_none by done. split; [done|]. exists t, job, t0.
    split_and!; try done. rewrite Hcron, Hs9, Hs6. unfold set_tenant. simpl. by rewrite insert_insert_eq.
Qed.
End handlers.
