(* ===== verification/Pages.v ===== *)
(** * Pages of a sorted table

    Order on keys, and what follows a cursor. *)

From Stdlib Require Import Ascii.
From S2P Require Export DbCatalog.
#[local] Open Scope Z_scope.

(** ** Order on strings *)

Lemma ascii_lt_trans a b c :
  Ascii.compare a b = Lt → Ascii.compare b c = Lt → Ascii.compare a c = Lt.
Proof. unfold Ascii.compare. rewrite !N.compare_lt_iff. lia. Qed.

Lemma string_lt_trans s1 s2 s3 :
  String.compare s1 s2 = Lt → String.compare s2 s3 = Lt → String.compare s1 s3 = Lt.
Proof.
  revert s2 s3. induction s1 as [|a s1 IH]; intros [|b s2] [|c s3]; simpl; try done.
  intros H1 H2.
  destruct (Ascii.compare a b) eqn:E1; [| |done]; destruct (Ascii.compare b c) eqn:E2; try done.
  - apply Ascii.compare_eq_iff in E1. subst b. rewrite E2. by eapply IH.
  - apply Ascii.compare_eq_iff in E1. subst b. by rewrite E2.
  - apply Ascii.compare_eq_iff in E2. subst c. by rewrite E1.
  - by rewrite (ascii_lt_trans _ _ _ E1 E2).
Qed.

Lemma ltb_spec s1 s2 : String.ltb s1 s2 = true ↔ String.compare s1 s2 = Lt.
Proof. unfold String.ltb. by destruct (String.compare s1 s2). Qed.

(** ** The order of the job list *)

#[global] Instance job_key_lt_trans : Transitive job_key_lt.
Proof.
  intros [t1 s1] [t2 s2] [t3 s3]. unfold job_key_lt. simpl. rewrite !ltb_spec.
  intros [?|[-> H1]] [?|[-> H2]]; [left; lia|by left|by left|right].
  split; [done|by eapply string_lt_trans].
Qed.

Lemma job_key_lt_irrefl k : ¬ job_key_lt k k.
Proof.
  unfold job_key_lt. rewrite ltb_spec. intros [?|[_ Hlt]]; [lia|].
  by rewrite string_compare_refl in Hlt.
Qed.

Lemma job_key_trichotomy k1 k2 : job_key_lt k1 k2 ∨ k1 = k2 ∨ job_key_lt k2 k1.
Proof.
  destruct k1 as [t1 s1], k2 as [t2 s2]. unfold job_key_lt. simpl. rewrite !ltb_spec.
  destruct (Z.lt_trichotomy t1 t2) as [?|[->|?]]; [by do 2 left| |by right; right; left].
  destruct (String.compare s1 s2) eqn:E.
  - apply String.compare_eq_iff in E. subst. by right; left.
  - left. by right.
  - right; right; right. split; [done|]. by rewrite String.compare_antisym, E.
Qed.

#[global] Instance by_key_desc_trans : Transitive by_key_desc.
Proof.
  unfold by_key_desc. intros x y z Hxy Hyz Hxz.
  destruct (job_key_trichotomy (job_key x) (job_key y)) as [?|[E|?]]; [done| |].
  - by rewrite E in Hxz.
  - apply Hyz. by etrans.
Qed.

#[global] Instance by_key_desc_total : Total by_key_desc.
Proof.
  unfold by_key_desc. intros x y.
  destruct (job_key_trichotomy (job_key x) (job_key y)) as [H1|[E|H1]].
  - right. intros H2. apply (job_key_lt_irrefl (job_key x)). by etrans.
  - left. rewrite E. apply job_key_lt_irrefl.
  - left. intros H2. apply (job_key_lt_irrefl (job_key x)). by etrans.
Qed.

(** ** What follows a cursor *)

Section paging.
Context {A : Type} (R : relation A) `{!∀ x y, Decision (R x y)} `{!Transitive R} `{!Total R}.

Lemma sorted_after (l : list A) i x (P : A → Prop) `{!∀ y, Decision (P y)} :
  NoDup l →
  (∀ y z, y ∈ l → z ∈ l → R y z → R z y → y = z) →
  merge_sort R l !! i = Some x →
  (∀ y, y ∈ l → P y ↔ ¬ R y x) →
  merge_sort R (filter P l) = drop (S i) (merge_sort R l).
Proof.
  intros Hnd Hanti Hi HP. set (L := merge_sort R l) in *.
  assert (L ≡ₚ l) as Hperm by apply merge_sort_Permutation.
  assert (StronglySorted R L) as Hs by (apply StronglySorted_merge_sort; apply _).
  assert (∀ y, y ∈ L → y ∈ l) as HL by (intros y; by rewrite Hperm).
  assert (filter P L = drop (S i) L) as Hf.
  { rewrite <-(take_drop_middle L i x Hi) at 1.
    rewrite <-(take_drop_middle L i x Hi) in Hs.
    apply StronglySorted_app in Hs as (Hbefore & _ & Hafter).
    apply StronglySorted_inv in Hafter as [_ Hafter].
    rewrite list.filter_app, filter_none.
    2: { intros y Hy Hp. apply HP in Hp.
         2: { apply HL. rewrite <-(take_drop i L). apply elem_of_app. by left. }
         apply Hp, (Hbefore y x); [done|by left]. }
    rewrite filter_cons_False, filter_all; [done| |].
    - intros y Hy. assert (y ∈ L) as HyL.
      { rewrite <-(take_drop (S i) L). apply elem_of_app. by right. }
      apply HP; [by apply HL|]. intros Hyx.
      assert (y = x) as ->.
      { apply Hanti; [by apply HL|apply HL; by eapply list_elem_of_lookup_2|done|].
        by eapply list.Forall_forall in Hafter. }
      apply list_elem_of_lookup_1 in Hy as [j Hj]. rewrite lookup_drop in Hj.
      assert (NoDup L) as HndL by (by rewrite Hperm).
      pose proof (NoDup_lookup _ _ _ _ HndL Hi Hj). lia.
    - intros Hp. apply HP in Hp; [|apply HL; by eapply list_elem_of_lookup_2].
      destruct (total R x x); by apply Hp. }
  rewrite <-Hf. apply (StronglySorted_unique_strong R).
  - intros y z Hy Hz. rewrite merge_sort_Permutation in Hy.
    apply list_elem_of_filter in Hy as [_ Hy], Hz as [_ Hz]. apply Hanti; [done|by apply HL].
  - apply StronglySorted_merge_sort; apply _.
  - rewrite Hf. rewrite <-(take_drop (S i) L) in Hs. by apply StronglySorted_app in Hs as (_ & _ & ?).
  - rewrite merge_sort_Permutation. by rewrite Hperm.
Qed.
End paging.

(** ** The pages of the jobs list *)

(** Every matching job, newest first. *)
Definition all_jobs (f : JobFilters) (t : Tenant) : list Job :=
  merge_sort by_key_desc (filter (job_matches f) (map_to_list (t_jobs t)).*2).

Lemma jobs_page_first limit f t : jobs_page None limit f t = take (Z.to_nat limit) (all_jobs f t).
Proof.
  unfold jobs_page, all_jobs. f_equal. f_equal. apply list_filter_iff. intros y. simpl. tauto.
Qed.

Lemma jobs_page_after f limit t i j :
  map_Forall (λ id j, j_job_id j = id) (t_jobs t) → all_jobs f t !! i = Some j →
  jobs_page (Some (j_job_id j)) limit f t = take (Z.to_nat limit) (drop (S i) (all_jobs f t)).
Proof.
  intros Hk Hi. unfold jobs_page. unfold all_jobs in *. set (rows := (map_to_list (t_jobs t)).*2) in *.
  assert (∀ y, y ∈ rows → t_jobs t !! j_job_id y = Some y) as Hrows.
  { intros y Hy. apply list_elem_of_fmap in Hy as ([id y'] & -> & Hy).
    apply elem_of_map_to_list in Hy as Hm. simpl. by rewrite (Hk _ _ Hm). }
  assert (NoDup rows) as Hnd.
  { apply NoDup_fmap_2_strong; [|apply NoDup_map_to_list].
    intros [i1 y1] [i2 y2] H1%elem_of_map_to_list H2%elem_of_map_to_list E. simpl in E. subst y2.
    f_equal. by rewrite <-(Hk _ _ H1), <-(Hk _ _ H2). }
  f_equal. rewrite <-(sorted_after by_key_desc (filter (job_matches f) rows) i j
    (λ y, after_cursor (Some (j_job_id j)) t y = true)).
  - f_equal. by rewrite list_filter_filter.
  - by apply list.NoDup_filter.
  - intros y z [_ Hy]%list_elem_of_filter [_ Hz]%list_elem_of_filter Hyz Hzy.
    unfold by_key_desc in Hyz, Hzy.
    destruct (job_key_trichotomy (job_key y) (job_key z)) as [?|[E|?]]; [done| |done].
    injection E as _ E. apply Hrows in Hy, Hz. congruence.
  - exact Hi.
  - intros y _. apply list_elem_of_lookup_2 in Hi as Hj.
    rewrite merge_sort_Permutation in Hj. apply list_elem_of_filter in Hj as [_ Hj].
    simpl. rewrite (Hrows _ Hj). rewrite bool_decide_eq_true. unfold by_key_desc.
    split; [by intros Hlt Hn|]. intros Hn. by apply dec_stable in Hn.
Qed.
