(* ===== verification/System.v ===== *)
(** * The whole program on one database

    The operations of the API, of the library client and of the worker, each on a
    session of its own, and pg_cron.  [evolves] closes them under interleaving:
    between two statements of an operation the committed store may take any steps
    that are themselves such steps. *)

From S2P Require Export Auth Clients.
#[local] Open Scope Z_scope.

(** ** What every operation does to the store *)

Lemma safe_q {A} (m : DB A) : safely m → safely (q m).
Proof. apply preserves_map_err. Qed.

Lemma safe_with_tx {A} ws (m : API A) : safely m → safely (with_tx ws m).
Proof.
  intros Hm. unfold with_tx. apply preserves_bind; [apply _| |intros _].
  - apply safe_q, safe_scoped_transaction, _.
  - by apply safe_in_tx; [apply _|].
Qed.

Lemma holds_with_tx {A} ws P (m : API A) Q :
  stable moves P → holds moves P m Q → holds moves P (with_tx ws m) (λ _ _, True).
Proof.
  intros HP Hm. unfold with_tx. eapply holds_bind; [apply _| |intros ?].
  - apply holds_map_err, holds_scoped_transaction; [apply _|done].
  - by eapply holds_in_tx; [apply _|].
Qed.

Lemma safe_commit_q : safely (q commit).
Proof. apply safe_q, safe_commit, _. Qed.

Lemma safe_stmt_read {A} (f : Stim → Store → A) : safely (stmt (λ st _ _ σ, Ok (f st σ, σ))).
Proof. apply safe_frame. by intros ?????? [= <- <-]. Qed.

Lemma safe_Ok200 v : safely (Ok200 v).
Proof. apply preserves_ret, _. Qed.

(** Statements on the control tables. *)
Lemma safe_organizations_create a b : safely (organizations_create a b).
Proof.
  apply safe_frame. intros ??????. cbv beta zeta.
  repeat (case_match; try done). by intros [= <- <-].
Qed.
Lemma safe_organizations_update a b : safely (organizations_update a b).
Proof. apply safe_frame. intros ??????. cbv beta zeta. case_match; by intros [= <- <-]. Qed.

Lemma safe_provision_reaper s c : safely (provision_reaper s c).
Proof.
  unfold provision_reaper. apply preserves_bind; [apply _|apply safe_scoped_transaction, _|intros _].
  apply safe_in_tx; [apply _|]. cbv zeta.
  apply preserves_bind; [apply _|apply safe_endpoints_create|intros _].
  apply preserves_bind; [apply _|apply safe_first_job; done|intros j].
  apply preserves_bind; [apply _|apply safe_register|intros _]. apply safe_commit, _.
Qed.

Lemma insert_workspace_tenants w σ σ' : insert_workspace w σ = Ok σ' → st_tenants σ' = st_tenants σ.
Proof. unfold insert_workspace. repeat (case_match; try done). by intros [= <-]. Qed.

Lemma safe_workspaces_create a b c d e : safely (workspaces_create a b c d e).
Proof.
  unfold workspaces_create. destruct (validate_schema_name d); [|apply preserves_panic, _].
  apply preserves_bind; [apply _| |intros w].
  { apply safe_frame. intros ??????. cbv beta zeta.
    destruct (insert_workspace _ _) as [σ2| |] eqn:E; [|done..]. intros [= <- <-].
    by apply insert_workspace_tenants in E. }
  apply preserves_bind; [apply _|apply safe_provision_schema|intros _].
  apply preserves_bind; [apply _|apply safe_provision_reaper|intros _].
  apply preserves_bind; [apply _| |intros _]; apply safe_frame; intros ??????.
  - by intros [= <- <-].
  - destruct (_ !! _); [|done]. by intros [= <- <-].
Qed.

#[export] Hint Resolve safe_q safe_with_tx safe_commit_q safe_stmt_read safe_Ok200
  safe_organizations_create safe_organizations_update safe_workspaces_create : preserves.

(** Walks through a handler. *)
Ltac handler_step :=
  lazymatch goal with
  | |- preserves _ (se_bind _ _) => apply preserves_bind; [apply _| |intros ?]
  | |- preserves _ (with_tx _ _) => apply safe_with_tx
  | |- preserves _ (q ?m) => apply safe_q
  | |- preserves _ (se_map_err _ _) => apply preserves_map_err
  | |- preserves _ (se_when _ _) => apply preserves_when; [apply _|]
  | |- preserves _ (match ?x with _ => _ end) => destruct x
  | |- preserves _ (if ?x then _ else _) => destruct x
  | |- preserves _ (let '_ := ?x in _) => destruct x
  | |- preserves _ (read _ _) => apply safe_read
  | |- preserves _ (stmt (λ st _ _ σ, Ok (_, σ))) => apply safe_stmt_read
  | |- preserves _ _ => solve [eauto 4 with preserves typeclass_instances]
  end.
Ltac handler_tac := cbv zeta; repeat (handler_step; cbv zeta).

(** The handlers of the API, on the arguments their extractors produce. *)
Section operations.
Context `{!Chrono} `{!CronCrate} `{!Base64} `{!JsonSchemaCrate} `{!Jsonb} `{!Aes256Gcm} `{!Utf8}.
Implicit Types (ws : WorkspaceContext) (prefix name id key : string).

Inductive api_handler : API HttpResponse → Prop :=
  | H_jobs_create prefix ws now key body : api_handler (jobs_create prefix ws now key body)
  | H_jobs_list prefix ws params f : api_handler (jobs_list_handler prefix ws params f)
  | H_jobs_get prefix ws id : api_handler (jobs_get_handler prefix ws id)
  | H_jobs_update prefix ws now id body : api_handler (jobs_update prefix ws now id body)
  | H_jobs_cancel prefix ws id : api_handler (jobs_cancel_handler prefix ws id)
  | H_jobs_status prefix ws id : api_handler (jobs_status_handler prefix ws id)
  | H_jobs_versions prefix ws id : api_handler (jobs_versions_handler prefix ws id)
  | H_jobs_executions prefix ws id params :
      api_handler (jobs_list_executions_handler prefix ws id params)
  | H_executions_get prefix ws id : api_handler (executions_get_handler prefix ws id)
  | H_executions_cancel prefix ws id : api_handler (executions_cancel_handler prefix ws id)
  | H_attempts prefix ws id : api_handler (list_attempts_handler prefix ws id)
  | H_logs prefix ws id : api_handler (list_logs_handler prefix ws id)
  | H_payload_specs_create prefix ws body : api_handler (payload_specs_create_handler prefix ws body)
  | H_payload_specs_list prefix ws params : api_handler (payload_specs_list_handler prefix ws params)
  | H_payload_specs_get prefix ws name : api_handler (payload_specs_get_handler prefix ws name)
  | H_payload_specs_update prefix ws name body :
      api_handler (payload_specs_update_handler prefix ws name body)
  | H_payload_specs_delete prefix ws name : api_handler (payload_specs_delete_handler prefix ws name)
  | H_configs_create prefix ws body : api_handler (configs_create_handler prefix ws body)
  | H_configs_list prefix ws params : api_handler (configs_list_handler prefix ws params)
  | H_configs_get prefix ws name : api_handler (configs_get_handler prefix ws name)
  | H_configs_update prefix ws name body : api_handler (configs_update_handler prefix ws name body)
  | H_configs_delete prefix ws name : api_handler (configs_delete_handler prefix ws name)
  | H_secrets_create prefix ws key nonce body :
      api_handler (secrets_create_handler prefix ws key nonce body)
  | H_secrets_list prefix ws params : api_handler (secrets_list_handler prefix ws params)
  | H_secrets_get prefix ws name : api_handler (secrets_get_handler prefix ws name)
  | H_secrets_update prefix ws key nonce name body :
      api_handler (secrets_update_handler prefix ws key nonce name body)
  | H_secrets_delete prefix ws name : api_handler (secrets_delete_handler prefix ws name)
  | H_endpoints_create prefix ws body : api_handler (endpoints_create_handler prefix ws body)
  | H_endpoints_list prefix ws params : api_handler (endpoints_list_handler prefix ws params)
  | H_endpoints_get prefix ws name : api_handler (endpoints_get_handler prefix ws name)
  | H_endpoints_update prefix ws name body : api_handler (endpoints_update_handler prefix ws name body)
  | H_endpoints_delete prefix ws name : api_handler (endpoints_delete_handler prefix ws name)
  | H_orgs_create body : api_handler (organizations_create_handler body)
  | H_orgs_list : api_handler organizations_list_handler
  | H_orgs_get id : api_handler (organizations_get_handler id)
  | H_orgs_update id body : api_handler (organizations_update_handler id body)
  | H_workspaces_create cron org body : api_handler (workspaces_create_handler cron org body)
  | H_workspaces_list org : api_handler (workspaces_list_handler org)
  | H_workspaces_get org id : api_handler (workspaces_get_handler org id).

(** The job an update replaces was read before the transaction; whatever happened
    since, its row is there and its version is the same. *)
Lemma holds_replace_job prefix ws id new cron :
  holds moves (job_at (wc_schema_name ws, prefix) id (next_version new))
    (replace_job prefix ws id new cron) (λ _ _, True).
Proof.
  unfold replace_job. eapply holds_with_tx; [apply stable_job_at, next_version_life|].
  eapply holds_bind; [apply _| |intros j].
  - apply holds_map_err. apply (holds_retire_and_replace (ctx_of prefix ws)).
  - apply safe_holds.
    apply preserves_bind; [apply _|apply safe_q, moving_safe, moving_unregister_conn|intros _].
    apply preserves_bind; [apply _|apply safe_q, safe_register|intros _].
    apply preserves_bind; [apply _|apply safe_commit_q|intros _]. apply safe_Ok200.
Qed.

Lemma updatable_cron j u : updatable j = Ok u → j_trigger_type j = "CRON".
Proof. unfold updatable. repeat (case_match; try done). bool_prop. done. Qed.

Lemma safe_jobs_update prefix ws now id body : safely (jobs_update prefix ws now id body).
Proof.
  unfold jobs_update. apply preserves_bind; [apply _|apply safe_q, safe_scoped_connection, _|intros _].
  set (k := (wc_schema_name ws, prefix)).
  eapply holds_safe, holds_bind with
    (Q := λ found σ, match found with Some j => job_at k id (job_life j) σ | None => True end);
    [apply _| |intros found].
  { apply holds_map_err, holds_stmt; [apply _|done|].
    intros st n locked σ a σ' _ (t & t' & Ht & Eq & ->)%tquery_inv. injection Eq as <- <-.
    rewrite set_tenant_same by done. split; [reflexivity|].
    destruct (t_jobs t !! id) as [j|] eqn:Ej; [|done]. exists t, j. by repeat split. }
  eapply holds_bind; [apply _|apply holds_ok_or, _|intros j].
  apply holds_pure. intros ->.
  eapply holds_bind; [apply _|apply holds_lift, _|intros u]. apply holds_pure. intros Hu.
  cbv zeta. do 4 (eapply holds_bind;
    [apply _|first [apply holds_lift, _|apply holds_ok_or, _]|intros ?; apply holds_pure; intros _]).
  eapply holds_weaken; [apply holds_replace_job| |done].
  intros σ (t & j' & Ht & Hj & Hl). exists t, j'. split_and!; [done..|].
  apply (next_version_life _ j); [done|].
  unfold next_version. simpl. split_and!; [done..|]. by eapply updatable_cron.
Qed.

Lemma safe_api_handler h : api_handler h → safely h.
Proof.
  intros []; try apply safe_jobs_update; unfold jobs_create, create_checks, create_immediate_job, create_delayed_job,
    create_cron_job, jobs_list_handler, jobs_get_handler,
    jobs_cancel_handler, jobs_status_handler, jobs_versions_handler,
    jobs_list_executions_handler, executions_get_handler, executions_cancel_handler,
    list_attempts_handler, list_logs_handler,
    payload_specs_create_handler, payload_specs_list_handler, payload_specs_get_handler,
    payload_specs_update_handler, payload_specs_delete_handler,
    configs_create_handler, configs_list_handler, configs_get_handler,
    configs_update_handler, configs_delete_handler,
    secrets_create_handler, secrets_list_handler, secrets_get_handler,
    secrets_update_handler, secrets_delete_handler,
    endpoints_create_handler, endpoints_list_handler, endpoints_get_handler,
    endpoints_update_handler, endpoints_delete_handler,
    organizations_create_handler, organizations_list_handler, organizations_get_handler,
    organizations_update_handler, workspaces_create_handler, workspaces_list_handler,
    workspaces_get_handler, list_named, delete_handler, check_ref.
  all: unfold jobs_list, jobs_get, jobs_get_versions, jobs_get_by_idempotency,
    executions_get, executions_get_for_job, executions_list_for_job,
    attempts_list_for_execution, execution_logs_list_for_execution,
    payload_specs_get, payload_specs_list, payload_specs_has_dependent_endpoints,
    configs_get, configs_list, configs_has_dependent_endpoints,
    secrets_get, secrets_list, secrets_has_dependent_endpoints,
    endpoints_get, endpoints_list, endpoints_has_active_jobs,
    organizations_get, organizations_list, workspaces_get_by_org_and_id,
    workspaces_list_for_org.
  all: handler_tac.
Qed.
End operations.

(** ** The library client *)

Section library_client.
Context `{!Aes256Gcm} (ctx : PipelineContext).

(** The session after an operation of the library client. *)
Inductive library_op : (Session → Session) → Prop :=
  | L_create_job schema ep input n trigger key :
      library_op (λ s, (lib_create_job ctx schema ep input n trigger key s).2)
  | L_register_endpoint schema name ty spec rp :
      library_op (λ s, (lib_register_endpoint ctx schema name ty spec rp s).2)
  | L_delete_endpoint schema name : library_op (λ s, (lib_delete_endpoint ctx schema name s).2)
  | L_upsert_secret nonce schema name text :
      library_op (λ s, (lib_upsert_secret ctx nonce schema name text s).2)
  | L_delete_secret schema name : library_op (λ s, (lib_delete_secret ctx schema name s).2)
  | L_cancel_job schema id : library_op (λ s, (lib_cancel_job ctx schema id s).2)
  | L_get_execution schema id : library_op (λ s, (lib_get_execution ctx schema id s).2)
  | L_provision schema : library_op (λ s, (lib_provision_workspace ctx schema s).2).

Lemma safe_library_op f : library_op f → ∀ s, safe moves s (f s).
Proof.
  intros Hf. enough (∃ A (m : SE Session ClientError A),
    (∀ s, f s = (m s).2) ∧ safely m) as (A & m & Hm & Hp).
  { intros s. rewrite Hm. apply Hp. }
  destruct Hf; do 2 eexists; (split; [intros s; reflexivity|]).
  all: unfold lib_create_job, lib_register_endpoint, lib_delete_endpoint, lib_upsert_secret,
    lib_delete_secret, lib_cancel_job, lib_get_execution, lib_provision_workspace, lq.
  all: unfold endpoints_get, secrets_get, jobs_get, executions_get.
  all: handler_tac.
Qed.
End library_client.

(** ** Interleaving *)

Section evolves.
Context `{!Chrono} `{!CronCrate} `{!Base64} `{!JsonSchemaCrate} `{!Jsonb} `{!Aes256Gcm} `{!Utf8}.
Context `{!SerdeJson} `{!SqlDisplay}.

(** One operation of the program, on a session. *)
Inductive program_op : (Session → Session) → Prop :=
  | Op_api h : api_handler h → program_op (λ s, (h s).2)
  | Op_library ctx f : library_op ctx f → program_op f
  | Op_worker rng ctx worker_id schemas w :
      program_op (λ s, wd_session
        (claim_and_process (E:=Empty_set) rng ctx worker_id schemas (set_session s w)).2).

Lemma safe_program_op f : program_op f → ∀ s, safe moves s (f s).
Proof.
  intros [h Hh|ctx f' Hf|rng ctx worker_id schemas w] s.
  - by apply safe_api_handler.
  - by eapply safe_library_op.
  - pose proof (task_moves (E:=Empty_set) rng ctx worker_id schemas (set_session s w)) as Ht.
    unfold on_session in Ht. cbn [set_session wd_session] in Ht. exact Ht.
Qed.

(** From one committed store to a later one: operations run to their end, with
    such steps of others before each of their statements, and ticks of pg_cron. *)
Inductive evolves : relation Store :=
  | Ev_refl σ : evolves σ σ
  | Ev_trans σ1 σ2 σ3 : evolves σ1 σ2 → evolves σ2 σ3 → evolves σ1 σ3
  | Ev_cron σ σ' : cron_fires σ σ' → evolves σ σ'
  | Ev_op f s :
      program_op f →
      ss_begin s = None →
      (∀ st, st ∈ ss_env s → ∀ σ, evolves σ (stim_others st σ)) →
      evolves (ss_store s) (committed (f s)).

(** Whatever the program does to the database is a sequence of moves. *)
Lemma evolves_moves σ σ' : evolves σ σ' → moves σ σ'.
Proof.
  induction 1 as [|σ1 σ2 σ3 _ IH1 _ IH2|σ σ' Hc|f s Hf Hb _ IH].
  - reflexivity.
  - by etrans.
  - by apply cron_fires_moves.
  - destruct (safe_program_op f Hf s) as (_ & _ & HT).
    + apply list.Forall_forall. exact IH.
    + unfold tx_ok, committed. rewrite Hb. reflexivity.
    + unfold committed in HT at 1. rewrite Hb in HT. exact HT.
Qed.

Lemma evolves_execs R `{!ExecRel R} σ σ' : evolves σ σ' → on_execs R σ σ'.
Proof. intros Hev. by apply moves_execs, evolves_moves. Qed.
End evolves.
