(* ===== verification/Integrity.v ===== *)
(** * Integrity of a workspace's tables

    What the schema of a workspace promises about its rows -- domains, keys,
    references, uniqueness -- together with what no constraint states: an execution
    copies its job, a job is retired exactly when it says when, and the versions of a
    job form a finite chain.  Every move keeps it ([move_tenant_ok]). *)

From S2P Require Export System.
#[local] Open Scope Z_scope.

(** ** The invariant *)

(** A primary key. *)
Definition keyed {A} (key : A → string) (m : gmap string A) : Prop :=
  map_Forall (λ k x, key x = k) m.

(** A nullable reference. *)
Definition refers {A} (o : option string) (m : gmap string A) : Prop :=
  ∀ r, o = Some r → is_Some (m !! r).

(** [UNIQUE (f, g) WHERE g IS NOT NULL] *)
Definition unique_on {A B C} (f : A → B) (g : A → option C) (m : gmap string A) : Prop :=
  ∀ id1 id2 x1 x2 c, m !! id1 = Some x1 → m !! id2 = Some x2 →
    f x1 = f x2 → g x1 = Some c → g x2 = Some c → id1 = id2.

Record endpoint_ok (specs : gmap string PayloadSpec) (configs : gmap string Config)
    (e : Endpoint) : Prop := {
  epo_type : ep_endpoint_type e ∈ endpoint_types;
  epo_spec : refers (ep_payload_spec_ref e) specs;
  epo_config : refers (ep_config_ref e) configs;
}.

Record job_ok (endpoints : gmap string Endpoint) (j : Job) : Prop := {
  jo_trigger : j_trigger_type j ∈ ["IMMEDIATE"; "DELAYED"; "CRON"];
  jo_type : j_endpoint_type j ∈ endpoint_types;
  jo_status : j_status j = "ACTIVE" ∧ j_retired_at j = None ∧ j_replaced_by_id j = None
              ∨ j_status j = "RETIRED" ∧ is_Some (j_retired_at j);
  jo_endpoint : is_Some (endpoints !! j_endpoint j);
}.

Record execution_ok (jobs : gmap string Job) (e : Execution) : Prop := {
  exo_status : e_status e ∈ execution_statuses;
  exo_job : ∃ j, jobs !! e_job_id e = Some j ∧ of_job j e;
}.

(** The job [id] and its predecessors, newest first. *)
Inductive lineage (jobs : gmap string Job) : string → list Job → Prop :=
  | LN_first id j :
      jobs !! id = Some j → j_previous_version_id j = None → j_version j = 1 →
      lineage jobs id [j]
  | LN_next id j p jp l :
      jobs !! id = Some j → j_previous_version_id j = Some p → lineage jobs p (jp :: l) →
      j_version j = wrap64 (j_version jp + 1) →
      j_endpoint j = j_endpoint jp → j_endpoint_type j = j_endpoint_type jp →
      j_trigger_type j = "CRON" → j_trigger_type jp = "CRON" →
      lineage jobs id (j :: jp :: l).

(** The four groups of tables. *)
Record catalog_ok (specs : gmap string PayloadSpec) (configs : gmap string Config)
    (secrets : gmap string Secret) (endpoints : gmap string Endpoint) : Prop := {
  ok_spec_names : keyed p_name specs;
  ok_config_names : keyed c_name configs;
  ok_secret_names : keyed s_name secrets;
  ok_endpoint_names : keyed ep_name endpoints;
  ok_endpoints : map_Forall (λ _, endpoint_ok specs configs) endpoints;
}.

Record jobs_ok (endpoints : gmap string Endpoint) (jobs : gmap string Job) : Prop := {
  ok_job_ids : keyed j_job_id jobs;
  ok_jobs : map_Forall (λ _, job_ok endpoints) jobs;
  ok_job_keys : unique_on j_endpoint j_idempotency_key jobs;
  ok_lineage : map_Forall (λ id _, ∃ l, lineage jobs id l) jobs;
}.

Record executions_ok (jobs : gmap string Job) (execs : gmap string Execution) : Prop := {
  ok_execution_ids : keyed e_execution_id execs;
  ok_executions : map_Forall (λ _, execution_ok jobs) execs;
  ok_execution_keys : unique_on e_job_id e_idempotency_key execs;
}.

Record reports_ok (execs : gmap string Execution) (attempts : gmap string Attempt)
    (logs : gmap string ExecutionLog) : Prop := {
  ok_attempt_ids : keyed a_attempt_id attempts;
  ok_attempts : map_Forall (λ _ a, a_status a ∈ ["SUCCESS"; "FAILED"]
    ∧ ∃ e, execs !! a_execution_id a = Some e ∧ a_attempt_number a ≤ e_attempt_count e) attempts;
  ok_attempt_numbers : unique_on a_execution_id (λ a, Some (a_attempt_number a)) attempts;
  ok_log_ids : keyed l_log_id logs;
  ok_logs : map_Forall (λ _ l, l_level l ∈ ["DEBUG"; "INFO"; "WARN"; "ERROR"]
    ∧ is_Some (execs !! l_execution_id l)) logs;
}.

Record tenant_ok (t : Tenant) : Prop := {
  ok_catalog : catalog_ok (t_payload_specs t) (t_configs t) (t_secrets t) (t_endpoints t);
  ok_job_table : jobs_ok (t_endpoints t) (t_jobs t);
  ok_execution_table : executions_ok (t_jobs t) (t_executions t);
  ok_reports : reports_ok (t_executions t) (t_attempts t) (t_execution_logs t);
}.

Definition store_ok (σ : Store) : Prop := ∀ k t, st_tenants σ !! k = Some t → tenant_ok t.

Lemma empty_tenant_ok : tenant_ok empty_tenant.
Proof. split; split; simpl; try apply map_Forall_empty; by intros ?????. Qed.

(** ** Maps *)

Lemma keyed_insert {A} (key : A → string) m k x :
  keyed key m → key x = k → keyed key (<[k := x]> m).
Proof. intros Hm Hk. by apply map_Forall_insert_2. Qed.

Lemma keyed_delete {A} (key : A → string) m k : keyed key m → keyed key (delete k m).
Proof. intros Hm. by apply map_Forall_delete. Qed.

Lemma refers_insert {A} o (m : gmap string A) k x : refers o m → refers o (<[k := x]> m).
Proof.
  intros Ho r Hr. destruct (decide (k = r)) as [->|Hne].
  - by rewrite lookup_insert_eq.
  - rewrite lookup_insert_ne by done. by apply Ho.
Qed.

Lemma refers_delete {A} o (m : gmap string A) k :
  o ≠ Some k → refers o m → refers o (delete k m).
Proof. intros Hk Ho r ->. rewrite lookup_delete_ne by congruence. by apply Ho. Qed.

Lemma unique_insert {A B C} (f : A → B) (g : A → option C) m id x :
  map_Forall (λ _ y, ∀ c, f y = f x → g y = Some c → g x ≠ Some c) m →
  unique_on f g m → unique_on f g (<[id := x]> m).
Proof.
  intros Hx Hu id1 id2 x1 x2 c. rewrite !lookup_insert_Some.
  intros [[<- <-]|[H1 E1]] [[<- <-]|[H2 E2]] Hf Hg1 Hg2; [done|..].
  - exfalso. by apply (Hx _ _ E2 c).
  - exfalso. by apply (Hx _ _ E1 c).
  - by eapply Hu.
Qed.

(** A table whose rows keep the columns of the index. *)
Lemma unique_same {A B C} (f : A → B) (g : A → option C) m m' :
  (∀ id x', m' !! id = Some x' → ∃ x, m !! id = Some x ∧ f x' = f x ∧ g x' = g x) →
  unique_on f g m → unique_on f g m'.
Proof.
  intros Hm Hu id1 id2 x1' x2' c H1 H2 Hf Hg1 Hg2.
  destruct (Hm _ _ H1) as (x1 & E1 & Ef1 & Eg1), (Hm _ _ H2) as (x2 & E2 & Ef2 & Eg2).
  apply (Hu id1 id2 x1 x2 c); congruence.
Qed.

(** ** The catalog *)

Lemma endpoint_refs_none db e t :
  endpoint_refs db e t = None →
  refers (ep_payload_spec_ref e) (t_payload_specs t) ∧ refers (ep_config_ref e) (t_configs t).
Proof.
  unfold endpoint_refs, refers.
  destruct (ep_payload_spec_ref e), (ep_config_ref e); repeat (case_match; try done);
    bool_prop; intros _; split; intros r; naive_solver.
Qed.

Lemma move_catalog t t' :
  tenant_move t t' →
  catalog_ok (t_payload_specs t) (t_configs t) (t_secrets t) (t_endpoints t) →
  catalog_ok (t_payload_specs t') (t_configs t') (t_secrets t') (t_endpoints t').
Proof.
  destruct 1 as [| | | | | |db e id j t' _ _ _ Hi|db j t' _ _ Hi| | | |
    |name p Hp|name Hn|name c Hc|name Hn|name s Hs|name|db e t' Hi|db name e e' He En Et Er|name _];
    try (intros Hok; exact Hok).
  - apply insert_execution_inv in Hi as (-> & _). by intros.
  - apply insert_job_inv in Hi as (-> & _). by intros.
  - intros [H1 H2 H3 H4 H5]. split; simpl; [|done..|].
    + apply keyed_insert; [done|]. destruct Hp as [|(p0 & E & ->)]; [done|by apply H1].
    + intros k e Hk. destruct (H5 _ _ Hk) as [Ht Hsp Hcf]. split; [done|by apply refers_insert|done].
  - intros [H1 H2 H3 H4 H5]. split; simpl; [by apply keyed_delete|done..|].
    intros k e Hk. destruct (H5 _ _ Hk) as [Ht Hsp Hcf].
    split; [done|apply refers_delete; [by apply (Hn k e)|done]|done].
  - intros [H1 H2 H3 H4 H5]. split; simpl; [done| |done..|].
    + apply keyed_insert; [done|]. destruct Hc as [|(c0 & E & ->)]; [done|by apply H2].
    + intros k e Hk. destruct (H5 _ _ Hk) as [Ht Hsp Hcf]. split; [done..|by apply refers_insert].
  - intros [H1 H2 H3 H4 H5]. split; simpl; [done|by apply keyed_delete|done..|].
    intros k e Hk. destruct (H5 _ _ Hk) as [Ht Hsp Hcf].
    split; [done..|apply refers_delete; [by apply (Hn k e)|done]].
  - intros [H1 H2 H3 H4 H5]. split; simpl; [done..| |done|done].
    apply keyed_insert; [done|]. destruct Hs as [|(s0 & E & ->)]; [done|by apply H3].
  - intros [H1 H2 H3 H4 H5]. split; simpl; [done..|by apply keyed_delete|done|done].
  - apply insert_endpoint_inv in Hi as (-> & Hty & _ & [Hs Hc]%endpoint_refs_none).
    intros [H1 H2 H3 H4 H5]. split; simpl; [done..|by apply keyed_insert|].
    apply map_Forall_insert_2; [by split|done].
  - apply endpoint_refs_none in Er as [Hs Hc]. intros [H1 H2 H3 H4 H5].
    split; simpl; [done..|apply keyed_insert; [done|rewrite En; by apply H4]|].
    apply map_Forall_insert_2; [|done]. split; [|done..]. rewrite Et. by destruct (H5 _ _ He).
  - intros [H1 H2 H3 H4 H5]. split; simpl; [done..|by apply keyed_delete|by apply map_Forall_delete].
Qed.

(** ** Jobs *)

(** The next row of a job. *)
Definition job_step (j j' : Job) : Prop :=
  job_life j j' ∧ (j' = j ∨ j_status j' = "RETIRED" ∧ is_Some (j_retired_at j')).

Lemma job_step_refl j : job_step j j.
Proof. split; [reflexivity|by left]. Qed.

(** A move takes rows to their next rows, or inserts one. *)
Lemma move_jobs t t' :
  tenant_move t t' →
  (∀ id j', t_jobs t' !! id = Some j' → ∃ j, t_jobs t !! id = Some j ∧ job_step j j')
  ∨ ∃ db j, fresh_job j ∧ version_link (t_jobs t) j ∧ insert_job db j t = Ok t'.
Proof.
  destruct 1 as [| | | | | |db e id2 j t' _ _ _ Hi|db j t' Hf Hv Hi|id2 j now r Hj Ha|now
                | | | | | | | | |db e t' Hi| |];
    try (left; intros i j' Hj'; exists j'; split; [exact Hj'|apply job_step_refl]).
  - apply insert_execution_inv in Hi as (-> & _). left. intros i j' Hj'. exists j'.
    split; [exact Hj'|apply job_step_refl].
  - right. eauto.
  - left. intros i j'. simpl. rewrite lookup_insert_Some. intros [[<- <-]|[Hne Hj2]].
    + exists j. split; [done|]. split; [by apply retired_life|]. right. by split.
    + exists j'. split; [done|apply job_step_refl].
  - left. intros i j'. simpl. rewrite lookup_fmap_Some. intros (j & <- & Hj).
    exists j. split; [done|]. case_bool_decide as Hc; [|apply job_step_refl].
    destruct Hc as (_ & Ha & _). split; [by apply retired_life|]. right. by split.
  - apply insert_endpoint_inv in Hi as (-> & _). left. intros i j' Hj'. exists j'.
    split; [exact Hj'|apply job_step_refl].
Qed.

(** The endpoint of a job stays. *)
Lemma move_endpoint_of_job t t' id j :
  tenant_move t t' → t_jobs t !! id = Some j →
  is_Some (t_endpoints t !! j_endpoint j) → is_Some (t_endpoints t' !! j_endpoint j).
Proof.
  destruct 1 as [| | | | | |db e id2 j2 t' _ _ _ Hi|db j2 t' _ _ Hi| | | |
    | | | | | | |db e t' Hi|db name e e' He En Et Er|name Hn]; try (intros _ Hs; exact Hs).
  - apply insert_execution_inv in Hi as (-> & _). done.
  - apply insert_job_inv in Hi as (-> & _). done.
  - apply insert_endpoint_inv in Hi as (-> & _). simpl. intros _ Hs.
    rewrite lookup_insert_is_Some. destruct (decide (ep_name e = j_endpoint j)); auto.
  - simpl. intros _ Hs. rewrite lookup_insert_is_Some.
    destruct (decide (name = j_endpoint j)); auto.
  - simpl. intros Hj Hs. rewrite lookup_delete_ne; [done|]. intros ->. by apply (Hn _ _ Hj).
Qed.

(** A lineage grows older with its rows. *)
Lemma lineage_live t t' id l :
  jobs_live t t' → lineage (t_jobs t) id l →
  ∃ l', lineage (t_jobs t') id l' ∧ Forall2 job_life l l'.
Proof.
  intros Hlive. induction 1 as [id j Hj Hp Hv|id j p jp l Hj Hp Hl (l' & Hl' & HF) Hv He Hty Ht Htp].
  - destruct (Hlive _ _ Hj) as (j' & Hj' & Hlife). exists [j'].
    split; [|constructor; [done|constructor]]. destruct Hlife. apply LN_first; congruence.
  - destruct (Hlive _ _ Hj) as (j' & Hj' & Hlife).
    inversion HF as [|? jp' ? l2 Hjp HF2]; subst. exists (j' :: jp' :: l2).
    split; [|constructor; [done|by constructor]]. destruct Hlife, Hjp.
    eapply LN_next; [done| |exact Hl'|..]; congruence.
Qed.

(** A new version continues the lineage of its predecessor. *)
Lemma lineage_insert db t j t' :
  insert_job db j t = Ok t' → version_link (t_jobs t) j →
  map_Forall (λ id _, ∃ l, lineage (t_jobs t) id l) (t_jobs t) →
  ∃ l, lineage (t_jobs t') (j_job_id j) l.
Proof.
  intros Hi Hv Hl.
  pose proof (move_jobs_live_insert _ _ _ _ Hi) as Hlive.
  apply insert_job_inv in Hi as (-> & _). simpl in *.
  unfold version_link in Hv. destruct (j_previous_version_id j) as [p|] eqn:Ep.
  - destruct Hv as (jp & Hjp & Hv & He & Hty & Ht & Htp).
    destruct (Hl _ _ Hjp) as [l Hlp]. destruct (lineage_live _ _ _ _ Hlive Hlp) as (l' & Hl' & _).
    destruct (Hlive _ _ Hjp) as (jp' & Hjp' & []).
    inversion Hl' as [? j2 Hj2|? j2 ? ? ? Hj2]; subst; simplify_map_eq;
      (eexists; eapply LN_next; [by simplify_map_eq|done|exact Hl'|congruence..]).
  - exists [j]. apply LN_first; [by simplify_map_eq|done..].
Qed.

Lemma key_not_taken endpoint key t :
  job_key_taken endpoint key t = false →
  map_Forall (λ _ j, ∀ c, j_endpoint j = endpoint → j_idempotency_key j = Some c → key ≠ Some c)
    (t_jobs t).
Proof.
  intros Hk id j Hj c He Hc ->. unfold job_key_taken in Hk. apply bool_decide_eq_false in Hk.
  by apply (not_exists_row _ _ Hk id j Hj).
Qed.

Lemma job_step_ok eps eps' j j' :
  job_step j j' → is_Some (eps' !! j_endpoint j) → job_ok eps j → job_ok eps' j'.
Proof.
  intros [[] Hr] Hs [H1 H2 H3 _]. split; try congruence.
  destruct Hr as [->|Hr]; [done|by right].
Qed.

Lemma move_jobs_ok t t' :
  tenant_move t t' → jobs_ok (t_endpoints t) (t_jobs t) → jobs_ok (t_endpoints t') (t_jobs t').
Proof.
  intros Hm [Hid Hok Hkey Hlin].
  destruct (move_jobs t t' Hm) as [Hback|(db & j & (Ha & Hrep & Hret) & Hv & Hi)].
  - split.
    + intros id j' (j & Hj & [[] _])%Hback. specialize (Hid _ _ Hj). congruence.
    + intros id j' (j & Hj & Hst)%Hback. eapply job_step_ok; [done| |by eapply Hok].
      eapply move_endpoint_of_job; [done..|]. by destruct (Hok _ _ Hj).
    + eapply unique_same; [|exact Hkey]. intros id j' (j & Hj & [[] _])%Hback. eauto.
    + intros id j' (j & Hj & _)%Hback. destruct (Hlin _ _ Hj) as [l Hl].
      destruct (lineage_live _ _ _ _ (move_jobs_live _ _ Hm) Hl) as (l' & Hl' & _). eauto.
  - pose proof (insert_job_inv _ _ _ _ Hi) as (E & Ht & Hty & Hn & Hk & He).
    pose proof (lineage_insert _ _ _ _ Hi Hv Hlin) as Hnew. pose proof (move_jobs_live _ _ Hm) as Hlive.
    rewrite E in Hnew, Hlive |- *. simpl in *. split.
    + by apply keyed_insert.
    + apply map_Forall_insert_2; [|done]. split; [done..|by left|done].
    + apply unique_insert; [by apply key_not_taken|done].
    + apply map_Forall_insert_2; [done|]. intros id j2 Hj2. destruct (Hlin _ _ Hj2) as [l Hl].
      destruct (lineage_live _ _ _ _ Hlive Hl) as (l' & Hl' & _). eauto.
Qed.

(** ** Executions *)

Definition execution_step (e e' : Execution) : Prop :=
  life e e' ∧ (e' = e ∨ e_status e' ∈ execution_statuses).

Lemma execution_step_refl e : execution_step e e.
Proof. split; [reflexivity|by left]. Qed.

(** A move takes executions to their next rows, or inserts one for a job. *)
Lemma move_executions t t' :
  tenant_move t t' →
  (∀ i e', t_executions t' !! i = Some e' →
     ∃ e, t_executions t !! i = Some e ∧ execution_step e e')
  ∨ ∃ db e id j, t_jobs t !! id = Some j ∧ of_job j e ∧ insert_execution db e t = Ok t'.
Proof.
  intros Hm. pose proof (exec_rel_move life_map _ _ Hm) as Hlife. revert Hlife.
  destruct Hm as [id e now w He Hs|id e now o He Hs|id e now b He Hs|id e now He Hs|id e now He Hs
    |job_id now|db e id2 j t' Hf Hj Ho Hi|db j t' Hf Hv Hi| | | | | | | | | | |db e t' Hi| |];
    intros Hlife;
    try (left; intros i x Hx; exists x; split; [exact Hx|apply execution_step_refl]).
  1-5: left; intros i e'; simpl in *; rewrite lookup_insert_Some;
    intros [[<- <-]|[Hne He']];
    [destruct (Hlife _ _ He) as (e2 & He2 & Hl); rewrite lookup_insert_eq in He2;
       injection He2 as <-; exists e; split; [done|split; [done|right; simpl]]
    |exists e'; split; [done|apply execution_step_refl]].
  - set_solver.
  - set_solver.
  - case_bool_decide; set_solver.
  - set_solver.
  - set_solver.
  - left. intros i e'. simpl in *. rewrite lookup_fmap_Some. intros (e & <- & He).
    exists e. split; [done|]. destruct (Hlife _ _ He) as (e2 & He2 & Hl).
    rewrite lookup_fmap, He in He2. injection He2 as <-. split; [exact Hl|].
    case_bool_decide; [right; simpl; set_solver|by left].
  - right. eauto 10.
  - apply insert_job_inv in Hi as (-> & _). left. intros i e' He'. exists e'.
    split; [exact He'|apply execution_step_refl].
  - apply insert_endpoint_inv in Hi as (-> & _). left. intros i e' He'. exists e'.
    split; [exact He'|apply execution_step_refl].
Qed.

Lemma execution_key_free job key t :
  execution_key_taken job key t = false →
  map_Forall (λ _ e, ∀ c, e_job_id e = job → e_idempotency_key e = Some c → key ≠ Some c)
    (t_executions t).
Proof.
  intros Hk id e He c Hj Hc ->. unfold execution_key_taken in Hk. apply bool_decide_eq_false in Hk.
  by apply (not_exists_row _ _ Hk id e He).
Qed.

Lemma of_job_life j j' e : job_life j j' → of_job j e → of_job j' e.
Proof. intros [] (H1 & H2 & H3 & H4). split_and!; congruence. Qed.

Lemma of_job_next j e e' : life e e' → of_job j e → of_job j e'.
Proof. intros [] (H1 & H2 & H3 & H4). split_and!; congruence. Qed.

(** The job of an execution stays. *)
Lemma execution_ok_next t t' e e' :
  jobs_live t t' → execution_step e e' →
  execution_ok (t_jobs t) e → execution_ok (t_jobs t') e'.
Proof.
  intros Hlive [Hl Hst] [H1 (j & Hj & Ho)]. split; [by destruct Hst as [->|]|].
  destruct (Hlive _ _ Hj) as (j' & Hj' & Hjl). exists j'.
  split; [by rewrite (life_job _ _ Hl)|]. by eapply of_job_life, of_job_next.
Qed.

Lemma move_executions_ok t t' :
  tenant_move t t' → keyed j_job_id (t_jobs t) →
  executions_ok (t_jobs t) (t_executions t) → executions_ok (t_jobs t') (t_executions t').
Proof.
  intros Hm Hkeys [Hid Hok Hkey]. pose proof (move_jobs_live _ _ Hm) as Hlive.
  destruct (move_executions t t' Hm) as [Hback|(db & e & id & j & Hj & Ho & Hi)].
  - split.
    + intros id e' (e & He & [[] _])%Hback. specialize (Hid _ _ He). congruence.
    + intros id e' (e & He & Hst)%Hback. eapply execution_ok_next; [done..|by eapply Hok].
    + eapply unique_same; [|exact Hkey]. intros id e' (e & He & [[] _])%Hback. eauto.
  - apply insert_execution_inv in Hi as (-> & Hs & Hn & Hk & _). simpl. split.
    + by apply keyed_insert.
    + apply map_Forall_insert_2; [|done]. split; [done|]. exists j. split; [|done].
      destruct Ho as [Hjid _]. specialize (Hkeys _ _ Hj). simpl in Hkeys. congruence.
    + apply unique_insert; [by apply execution_key_free|done].
Qed.

(** ** Reports *)

Lemma move_reports_ok t t' :
  tenant_move t t' →
  reports_ok (t_executions t) (t_attempts t) (t_execution_logs t) →
  reports_ok (t_executions t') (t_attempts t') (t_execution_logs t').
Proof.
  intros Hm. pose proof (exec_rel_move life_map _ _ Hm) as Hlife.
  assert (∀ i, is_Some (t_executions t !! i) → is_Some (t_executions t' !! i)) as Hkeep.
  { intros i [e He]. destruct (Hlife _ _ He) as (e' & He' & _). by exists e'. }
  assert (reports_ok (t_executions t) (t_attempts t) (t_execution_logs t) →
          reports_ok (t_executions t') (t_attempts t) (t_execution_logs t)) as Hframe.
  { intros [H1 H2 H3 H4 H5]. split; [done| |done..|].
    - intros i a (Hs & e & He & Hle)%H2. split; [done|].
      destruct (Hlife _ _ He) as (e' & He' & []). exists e'. split; [done|lia].
    - intros i l [Hs Hl]%H5. auto. }
  destruct Hm as [| | | | | |db e id2 j t' Hf Hj Ho Hi|db j t' Hf Hv Hi| |
    |a Hn Hs Hu He|l Hn Hl He| | | | | | |db e t' Hi| |]; try exact Hframe.
  - apply insert_execution_inv in Hi as (-> & _). exact Hframe.
  - apply insert_job_inv in Hi as (-> & _). exact Hframe.
  - intros [H1 H2 H3 H4 H5]. split; simpl; [by apply keyed_insert| | |done..].
    + by apply map_Forall_insert_2.
    + apply unique_insert; [|done]. intros i a' Ha' c Hex [= <-] [= Hnum]. by apply (Hu i a').
  - intros [H1 H2 H3 H4 H5]. split; simpl; [done..|by apply keyed_insert|].
    by apply map_Forall_insert_2.
  - apply insert_endpoint_inv in Hi as (-> & _). exact Hframe.
Qed.

(** ** Every move, and the whole program *)

Lemma move_tenant_ok t t' : tenant_move t t' → tenant_ok t → tenant_ok t'.
Proof.
  intros Hm [Hc Hj He Hr]. split.
  - by eapply move_catalog.
  - by eapply move_jobs_ok.
  - eapply move_executions_ok; [done|by destruct Hj|done].
  - by eapply move_reports_ok.
Qed.

Lemma moves_store_ok σ σ' : moves σ σ' → store_ok σ → store_ok σ'.
Proof.
  induction 1 as [|σ1 σ2 σ3 Hm _ IH]; [done|]. intros Hok. apply IH. clear IH σ3.
  destruct Hm as [k t t' Ht Hm|k Hn|σ' Hs]; intros k2 t2; simpl; [| |rewrite Hs; apply Hok].
  - rewrite lookup_insert_Some. intros [[<- <-]|[Hne Ht2]]; [|by eapply Hok].
    eapply move_tenant_ok; [done|by eapply Hok].
  - rewrite lookup_insert_Some. intros [[<- <-]|[Hne Ht2]]; [|by eapply Hok].
    apply empty_tenant_ok.
Qed.
