(* ===== verification/Versions.v ===== *)
(** * The versions of a job

    An update of a CRON job inserts the next version; [GET /jobs/{id}/versions] follows
    the links back.  In a workspace whose tables are sound the links from any job form
    one finite chain down to version 1, and the recursive query finds all of it. *)

From S2P Require Export Integrity Runs.
#[local] Open Scope Z_scope.

(** A statement that only reads, outside or inside a transaction. *)
Lemma read_ok {A} db (f : Tenant → A) s a s' :
  read db f s = (Ok a, s') →
  ∃ t, st_tenants (ss_store s') !! (db_schema db, db_prefix db) = Some t ∧ a = f t.
Proof.
  unfold read, tstmt, stmt. destruct (ss_failed s); [done|].
  destruct (stim_fault _); [done|]. destruct (tquery _ _ _ _ _ _) as [[a' σ]| |] eqn:Eq; [|done..].
  apply tquery_inv in Eq as (t & t' & Ht & [= <- <-] & ->). intros [= <- <-].
  exists t. simpl. by rewrite lookup_insert_eq.
Qed.

(** ** Chains *)

Lemma lineage_head jobs id l : lineage jobs id l → ∃ j l', l = j :: l' ∧ jobs !! id = Some j.
Proof. destruct 1; eauto. Qed.

Lemma lineage_det jobs id l1 l2 : lineage jobs id l1 → lineage jobs id l2 → l1 = l2.
Proof.
  intros H1. revert l2. induction H1 as [|id j p jp l Hj Hp _ IH]; intros l2;
    inversion 1; simplify_eq; [done|]. f_equal. by apply IH.
Qed.

Lemma lineage_chain t id l fuel :
  lineage (t_jobs t) id l → (length l ≤ fuel)%nat → version_chain fuel t id = l.
Proof.
  intros Hl. revert fuel. induction Hl as [id j Hj Hp _|id j p jp l Hj Hp _ IH];
    intros [|fuel] Hf; simpl in *; try lia; rewrite Hj, Hp; [done|].
  rewrite IH; [done|simpl; lia].
Qed.

Lemma lineage_drop jobs id l i j :
  keyed j_job_id jobs → lineage jobs id l → l !! i = Some j →
  lineage jobs (j_job_id j) (drop i l).
Proof.
  intros Hk Hl. revert i j. induction Hl as [id j0 Hj Hp Hv|id j0 p jp l Hj Hp Hl IH]; intros [|i] j Hi;
    simpl in *; simplify_eq; try by (eapply IH).
  - rewrite (Hk _ _ Hj). by apply LN_first.
  - rewrite (Hk _ _ Hj). by eapply LN_next.
Qed.

Lemma lineage_rows jobs id l :
  keyed j_job_id jobs → lineage jobs id l → ∀ j, j ∈ l → jobs !! j_job_id j = Some j.
Proof.
  intros Hk Hl j [i Hi]%list_elem_of_lookup_1.
  pose proof (lineage_drop _ _ _ _ _ Hk Hl Hi) as Hd.
  destruct (lineage_head _ _ _ Hd) as (j' & l' & E & Hj').
  rewrite (drop_S _ _ _ Hi) in E. by injection E as <- _.
Qed.

(** No version occurs twice, so the chain is no longer than the table. *)
Lemma lineage_length jobs id l :
  keyed j_job_id jobs → lineage jobs id l → (length l ≤ size jobs)%nat.
Proof.
  intros Hk Hl. rewrite <-length_map_to_list, <-(length_fmap fst), <-(length_fmap j_job_id l).
  apply submseteq_length, NoDup_submseteq.
  - apply NoDup_alt. intros i1 i2 x. rewrite !list_lookup_fmap.
    intros (j1 & E1 & ->)%fmap_Some (j2 & E2 & Ej)%fmap_Some.
    pose proof (lineage_drop _ _ _ _ _ Hk Hl E1) as H1. rewrite Ej in H1.
    pose proof (lineage_det _ _ _ _ H1 (lineage_drop _ _ _ _ _ Hk Hl E2)) as Ed.
    apply (f_equal length) in Ed. rewrite !length_drop in Ed.
    apply lookup_lt_Some in E1, E2. lia.
  - intros x (j & -> & Hj)%list_elem_of_fmap. apply list_elem_of_fmap.
    exists (j_job_id j, j). split; [done|]. apply elem_of_map_to_list. by eapply lineage_rows.
Qed.

Lemma lineage_version jobs id l i j :
  lineage jobs id l → l !! i = Some j →
  j_version j = wrap64 (Z.of_nat (length l) - Z.of_nat i).
Proof.
  intros Hl. revert i j. induction Hl as [id j0 Hj Hp Hv|id j0 p jp l Hj Hp Hl IH Hv]; intros [|i] j Hi;
    simpl in *; simplify_eq.
  - by rewrite Hv.
  - rewrite Hv, (IH 0%nat jp) by done. simpl. rewrite wrap64_add_l. f_equal. lia.
  - rewrite (IH i j) by done. f_equal. simpl. lia.
Qed.

Lemma lineage_endpoint jobs id l j0 j :
  lineage jobs id l → head l = Some j0 → j ∈ l → j_endpoint j = j_endpoint j0.
Proof.
  intros Hl. revert j0 j. induction Hl as [id j0 Hj Hp Hv|id j0 p jp l Hj Hp Hl IH Hv He];
    intros j1 j [= <-] Hin.
  - by apply list_elem_of_singleton in Hin as ->.
  - apply elem_of_cons in Hin as [->|Hin]; [done|]. rewrite He. by apply IH.
Qed.

(** The link of a version leads to the next element of the chain. *)
Lemma lineage_link jobs id l i j :
  keyed j_job_id jobs → lineage jobs id l → l !! i = Some j →
  j_previous_version_id j = j_job_id <$> l !! S i.
Proof.
  intros Hk Hl. revert i j. induction Hl as [id j0 Hj Hp Hv|id j0 p jp l Hj Hp Hl IH]; intros [|i] j Hi;
    simpl in *; simplify_eq; [done| |by apply IH].
  destruct (lineage_head _ _ _ Hl) as (jp' & l' & [= <- <-] & Hjp). by rewrite Hp, (Hk _ _ Hjp).
Qed.

(** ** Listing *)

(** Below [i64::MAX] versions the numbers count down to 1. *)
Lemma lineage_numbers jobs id l i j :
  keyed j_job_id jobs → Z.of_nat (size jobs) < 2 ^ 63 → lineage jobs id l → l !! i = Some j →
  j_version j = Z.of_nat (length l) - Z.of_nat i.
Proof.
  intros Hk Hs Hl Hi. rewrite (lineage_version _ _ _ _ _ Hl Hi).
  pose proof (lineage_length _ _ _ Hk Hl). apply lookup_lt_Some in Hi.
  apply wrap64_id. unfold in_i64, i64_min, i64_max. lia.
Qed.

(** A list whose later elements come first is sorted backwards. *)
Lemma sorted_reverse {A} (R : relation A) (l : list A) :
  (∀ i k x y, (i < k)%nat → l !! i = Some x → l !! k = Some y → R y x) →
  StronglySorted R (reverse l).
Proof.
  induction l as [|x l IH]; intros Hl; [constructor|]. rewrite reverse_cons.
  apply StronglySorted_app_2.
  - intros y z Hy ->%list_elem_of_singleton. rewrite elem_of_reverse in Hy.
    apply list_elem_of_lookup_1 in Hy as [i Hi]. apply (Hl 0%nat (S i)); [lia|reflexivity|exact Hi].
  - apply IH. intros i k y z Hik Hi Hk. apply (Hl (S i) (S k)); [lia|exact Hi|exact Hk].
  - repeat constructor.
Qed.

(** The list of versions, oldest first. *)
Lemma versions_reverse jobs id l :
  keyed j_job_id jobs → Z.of_nat (size jobs) < 2 ^ 63 → lineage jobs id l →
  merge_sort by_version l = reverse l.
Proof.
  intros Hk Hs Hl.
  assert (∀ i k x y, l !! i = Some x → l !! k = Some y → by_version x y ↔ (k ≤ i)%nat) as Hord.
  { intros i k x y Hx Hy. unfold by_version.
    rewrite (lineage_numbers _ _ _ _ _ Hk Hs Hl Hx), (lineage_numbers _ _ _ _ _ Hk Hs Hl Hy). lia. }
  assert (Transitive by_version) as Htr by (intros x y z; unfold by_version; lia).
  assert (Total by_version) as Htot by (intros x y; unfold by_version; lia).
  assert (merge_sort by_version l ≡ₚ l) as Hp by apply merge_sort_Permutation.
  apply (StronglySorted_unique_strong by_version).
  - intros x y Hx Hy Hxy Hyx. rewrite Hp in Hx. rewrite elem_of_reverse in Hy.
    apply list_elem_of_lookup_1 in Hx as [i Hi], Hy as [k Hk'].
    apply (Hord _ _ _ _ Hi Hk') in Hxy. apply (Hord _ _ _ _ Hk' Hi) in Hyx.
    assert (i = k) as -> by lia. congruence.
  - apply StronglySorted_merge_sort; apply _.
  - apply sorted_reverse. intros i k x y Hik Hi Hk'. apply (Hord _ _ _ _ Hk' Hi). lia.
  - by rewrite Hp, reverse_Permutation.
Qed.

(** The [i]-th version of a chain listed oldest first. *)
Record nth_version (jobs : gmap string Job) (l : list Job) (i : nat) (j : Job) : Prop := {
  nv_row : jobs !! j_job_id j = Some j;
  nv_number : j_version j = Z.of_nat i + 1;
  nv_previous : j_previous_version_id j =
    match i with O => None | S i' => j_job_id <$> l !! i' end;
}.

Lemma reverse_nth_version jobs id l i j :
  keyed j_job_id jobs → Z.of_nat (size jobs) < 2 ^ 63 → lineage jobs id l →
  reverse l !! i = Some j → nth_version jobs (reverse l) i j.
Proof.
  intros Hk Hs Hl Hi. apply reverse_lookup_Some in Hi as [Hi Hlt].
  split.
  - apply (lineage_rows _ _ _ Hk Hl). by eapply list_elem_of_lookup_2.
  - rewrite (lineage_numbers _ _ _ _ _ Hk Hs Hl Hi). lia.
  - rewrite (lineage_link _ _ _ _ _ Hk Hl Hi). destruct i as [|i].
    + by rewrite lookup_ge_None_2 by lia.
    + rewrite reverse_lookup by lia. do 2 f_equal. lia.
Qed.
