(* ===== verification/Calm.v ===== *)
(** * Calm worlds

    A world in which no statement fails, nobody else writes, the clock stands still
    and [gen_random_uuid()] is fresh.  In it every statement of a task succeeds, so
    the transaction of [process_execution] stays alive to its COMMIT: [smooth].  The
    number of statements is bounded by the length [L] of the endpoints' specs and the
    number [J] of jobs. *)

From S2P Require Export Integrity Scan.
#[local] Open Scope Z_scope.

(** ** What a calm world is *)

Record calm_stim (now : Z) (st : Stim) : Prop := {
  cs_fault : stim_fault st = None;
  cs_now : stim_now st = now;
  cs_others σ : stim_others st σ = σ;
}.

Definition env_calm (now : Z) (env : list Stim) : Prop :=
  Forall (calm_stim now) env ∧ NoDup (stim_uuid <$> env).

(** Delays that do not make the worker panic or the database overflow. *)
Definition policy_ok (now : Z) (ep : Endpoint) : Prop :=
  0 ≤ rp_max_delay_ms (get_retry_policy ep)
  ∧ ∀ b, 0 ≤ b ≤ rp_max_delay_ms (get_retry_policy ep) → timestamp_ok (now + millis b).

Definition endpoint_calm `{!SerdeJson} (L : nat) (now : Z) (ep : Endpoint) : Prop :=
  (String.length (json_to_string (ep_spec ep)) ≤ L)%nat ∧ policy_ok now ep.

Definition fresh_for (t : Tenant) (st : Stim) : Prop :=
  t_attempts t !! stim_uuid st = None ∧ t_execution_logs t !! stim_uuid st = None.

Record tenant_calm `{!SerdeJson} (L J : nat) (now : Z) (env : list Stim) (t : Tenant) : Prop := {
  tc_fresh : Forall (fresh_for t) env;
  tc_endpoints : map_Forall (λ _, endpoint_calm L now) (t_endpoints t);
  tc_jobs : (size (t_jobs t) ≤ J)%nat;
}.

(** The execution is there; when [o], its attempt [num] is not recorded yet. *)
Definition at_attempt (id : string) (num : Z) (o : bool) (t : Tenant) : Prop :=
  is_Some (t_executions t !! id)
  ∧ (o = true → map_Forall (λ _ a, ¬ (a_execution_id a = id ∧ a_attempt_number a = num))
                  (t_attempts t)).

Section calm.
Context `{!SerdeJson} `{!SqlDisplay} `{!Aes256Gcm} `{!Utf8}.
Context (L J : nat) (now : Z) (db : DbContext) (id : string) (num : Z).

Notation k := (db_schema db, db_prefix db).
Notation tcalm := (tenant_calm L J now).

(** An open transaction with at least [n] calm statements to come. *)
Record calm (o : bool) (n : nat) (s : Session) : Prop := {
  cm_begin : is_Some (ss_begin s);
  cm_alive : ss_failed s = false;
  cm_now : ss_now s = now;
  cm_length : (n ≤ length (ss_env s))%nat;
  cm_env : env_calm now (ss_env s);
  cm_tenant : ∃ t, st_tenants (ss_store s) !! k = Some t ∧ tcalm (ss_env s) t ∧ at_attempt id num o t;
}.

Lemma calm_le o n m s : (m ≤ n)%nat → calm o n s → calm o m s.
Proof. intros Hle []. split; try done. lia. Qed.

Lemma calm_recorded o n s : calm o n s → calm false n s.
Proof.
  intros [? ? ? ? ? (t & Ht & Hc & Hi & _)]. split; try done.
  exists t. split_and!; [done..|]. by split.
Qed.

Lemma tcalm_tail st env t : tcalm (st :: env) t → tcalm env t.
Proof. intros [Hf He Hj]. split; [by apply Forall_inv_tail in Hf|done..]. Qed.

(** ** Statements *)

(** The query succeeds on a calm tenant, and leaves it calm. *)
Definition steady {A} (o o' : bool) (q : TQuery A) (Φ : A → Prop) : Prop :=
  ∀ st env locked t, stim_uuid st ∉ stim_uuid <$> env →
    tcalm (st :: env) t → at_attempt id num o t →
    ∃ a t', q st now locked t = Ok (a, t') ∧ Φ a ∧ tcalm env t' ∧ at_attempt id num o' t'.

(** The statement succeeds and leaves the transaction calm, [c] statements later. *)
Definition dsmooth {A} (c : nat) (o o' : bool) (m : DB A) (Φ : A → Prop) : Prop :=
  ∀ n s, calm o (c + n) s → ∃ a s', m s = (Ok a, s') ∧ Φ a ∧ calm o' n s'.

(** One statement of a calm transaction. *)
Lemma calm_advance o n s :
  calm o (S n) s → ∃ st env,
    ss_env s = st :: env ∧ next_stim s = st ∧ ss_env (advance s) = env
    ∧ ss_store (advance s) = ss_store s ∧ ss_now (advance s) = now
    ∧ ss_begin (advance s) = ss_begin s ∧ ss_failed (advance s) = false
    ∧ stim_fault st = None ∧ stim_uuid st ∉ stim_uuid <$> env ∧ env_calm now env
    ∧ (n ≤ length env)%nat.
Proof.
  intros [Hb Ha Hn Hl [He Hu] _]. unfold next_stim.
  destruct (ss_env s) as [|st env] eqn:E; simpl in Hl; [lia|]. exists st, env.
  unfold advance, next_stim. rewrite E. simpl.
  rewrite (bool_decide_eq_true_2 _ Hb : in_transaction s = true).
  inversion He as [|?? Hst Henv]; subst. inversion Hu as [|?? Hnin Hnd]; subst.
  destruct Hst. split_and!; try done. lia.
Qed.

Lemma dsmooth_tstmt {A} o o' (q : TQuery A) Φ : steady o o' q Φ → dsmooth 1 o o' (tstmt db q) Φ.
Proof.
  intros Hq n s Hc. pose proof (calm_advance _ _ _ Hc) as
    (st & env & Ee & Est & Eenv & Estore & Enow & Eb & Ef & Hfault & Hu & Henv & Hlen).
  destruct Hc as [Hb Ha Hn _ _ (t & Ht & Htc & Hat)]. rewrite Ee in Htc.
  destruct (Hq st env (ss_locked s) t Hu Htc Hat) as (a & t' & Eq & HΦ & Htc' & Hat').
  unfold tstmt, stmt. rewrite Ha, Est, Hfault, Enow, Estore. unfold tquery. rewrite Ht.
  change (ss_locked (advance s)) with (ss_locked s). rewrite Eq.
  exists a. eexists. split; [reflexivity|]. split; [done|].
  unfold set_store. split; cbn [ss_begin ss_failed ss_now ss_env ss_store]; rewrite ?Eenv;
    [exact Hb|exact Ha|exact Enow|done|done|].
  exists t'. cbn [set_tenant st_tenants]. by rewrite lookup_insert_eq.
Qed.

Lemma steady_read {A} o (f : Tenant → A) Φ :
  (∀ env t, tcalm env t → Φ (f t)) → steady o o (λ _ _ _ t, Ok (f t, t)) Φ.
Proof.
  intros HΦ st env locked t _ Htc Hat. exists (f t), t. split_and!; [done| |by eapply tcalm_tail|done].
  by eapply HΦ.
Qed.

Lemma dsmooth_read {A} o (f : Tenant → A) Φ :
  (∀ env t, tcalm env t → Φ (f t)) → dsmooth 1 o o (read db f) Φ.
Proof. intros HΦ. by apply dsmooth_tstmt, steady_read. Qed.

Lemma dsmooth_attempt s a b c d e :
  s ∈ ["SUCCESS"; "FAILED"] →
  dsmooth 1 true false (attempts_insert db id num s a b c d e) (λ _, True).
Proof.
  intros Hs. apply dsmooth_tstmt. intros st env locked t Hu [Hf He Hj] [[x Hx] Hnew].
  specialize (Hnew eq_refl). apply list.Forall_cons in Hf as [[Hfa Hfl] Hf]. cbv zeta. simpl.
  rewrite (bool_decide_eq_true_2 _ Hs). simpl.
  rewrite bool_decide_eq_false_2 by (rewrite Hfa; by intros [? [=]]).
  rewrite bool_decide_eq_false_2.
  2: { intros (a' & (i & -> & Hi)%list_elem_of_fmap & Hp)%list.Exists_exists.
       destruct i as [i a']. apply elem_of_map_to_list in Hi. by apply (Hnew _ _ Hi). }
  rewrite bool_decide_eq_false_2 by (rewrite Hx; done).
  eexists _, _. split_and!; [done|done| |split; [by exists x|done]].
  split; simpl; [|done..]. apply list.Forall_forall. intros st' Hst'.
  rewrite list.Forall_forall in Hf. destruct (Hf _ Hst') as [Ha2 Hl2]. split; [|done]. simpl.
  rewrite lookup_insert_ne; [done|]. intros E. apply Hu. rewrite E.
  by apply list_elem_of_fmap_2.
Qed.

Lemma dsmooth_log o l m :
  l ∈ ["DEBUG"; "INFO"; "WARN"; "ERROR"] →
  dsmooth 1 o o (execution_logs_insert db id num l m) (λ _, True).
Proof.
  intros Hl. apply dsmooth_tstmt. intros st env locked t Hu [Hf He Hj] [[x Hx] Hnew].
  apply list.Forall_cons in Hf as [[Hfa Hfl] Hf]. cbv zeta. simpl.
  rewrite (bool_decide_eq_true_2 _ Hl). simpl.
  rewrite bool_decide_eq_false_2 by (rewrite Hfl; by intros [? [=]]).
  rewrite bool_decide_eq_false_2 by (rewrite Hx; done).
  eexists _, _. split_and!; [done|done| |split; [by exists x|done]].
  split; simpl; [|done..]. apply list.Forall_forall. intros st' Hst'.
  rewrite list.Forall_forall in Hf. destruct (Hf _ Hst') as [Ha2 Hl2]. split; [done|]. simpl.
  rewrite lookup_insert_ne; [done|]. intros E. apply Hu. rewrite E.
  by apply list_elem_of_fmap_2.
Qed.

Lemma calm_update o ss f env t :
  tcalm env t → at_attempt id num o t →
  tcalm env (update_execution id ss f t) ∧ at_attempt id num o (update_execution id ss f t).
Proof.
  intros Htc [[x Hx] Hnew]. unfold update_execution. rewrite Hx.
  case_bool_decide; [|split; [done|by split; [exists x|]]].
  destruct Htc. split; [by split|]. split; [|exact Hnew]. simpl. rewrite lookup_insert_eq. by eexists.
Qed.

Lemma dsmooth_success o out : dsmooth 1 o o (executions_complete_success db id out) (λ _, True).
Proof.
  apply dsmooth_tstmt. intros st env locked t _ Htc Hat. eexists _, _.
  split; [done|]. split; [done|]. apply calm_update; [by eapply tcalm_tail|done].
Qed.

Lemma dsmooth_failed o : dsmooth 1 o o (executions_complete_failed db id) (λ _, True).
Proof.
  apply dsmooth_tstmt. intros st env locked t _ Htc Hat. eexists _, _.
  split; [done|]. split; [done|]. apply calm_update; [by eapply tcalm_tail|done].
Qed.

Lemma dsmooth_retry o b :
  timestamp_ok (now + millis b) → dsmooth 1 o o (executions_complete_retry db id b) (λ _, True).
Proof.
  intros Hb. apply dsmooth_tstmt. intros st env locked t _ Htc Hat. cbv zeta.
  rewrite bool_decide_eq_false_2.
  2: { unfold retry_out_of_range. intros Hr. destruct (t_executions t !! id); [tauto|done]. }
  eexists _, _. split; [done|]. split; [done|]. apply calm_update; [by eapply tcalm_tail|done].
Qed.
End calm.
