(* ===== verification/WorkerSpec.v ===== *)
(** * What a worker task promises

    The abstract specification of [claim_and_process]: [task_spec] goes through the
    schemas in their order.  Before each BEGIN the other clients may commit and the
    clock moves; then either nothing is committed, or the one execution that was due,
    unlocked and had waited longest gets its outcome in one step, and the task is over.
    No execution is ever seen [RUNNING]. *)

From S2P Require Export System.
#[local] Open Scope Z_scope.

(** The other clients make [others]-steps. *)
Definition respects (others : relation Store) (s : Session) : Prop :=
  ∀ st, st ∈ ss_env s → ∀ σ, others σ (stim_others st σ).

Lemma respects_shrinks others s s' : respects others s → env_shrinks s s' → respects others s'.
Proof. intros H [l E] st Hst. apply H. rewrite E. apply elem_of_app. by right. Qed.

(** [task_spec schemas now env σ r σ']: a task over [schemas] that starts on [σ] at [now],
    with the stimuli [env] to come, may end with the result [r] on [σ'].  The first
    stimulus is the one of the BEGIN; how many a transaction consumes is left open. *)
Inductive task_spec (prefix worker_id : string) (locked : gset string) :
    list string → Z → list Stim → Store → res Empty_set bool → Store → Prop :=
  | TS_done now env σ : task_spec prefix worker_id locked [] now env σ (Ok false) σ
  | TS_bad_name schema schemas now env σ w :
      validate_schema_name schema = false →
      task_spec prefix worker_id locked (schema :: schemas) now env σ (Panic w) σ
  | TS_next schema schemas now env env' σ r σ' :
      let st := hd (quiet now) env in
      (∃ l, env = l ++ env') →
      task_spec prefix worker_id locked schemas (stim_now st) env' (stim_others st σ) r σ' →
      task_spec prefix worker_id locked (schema :: schemas) now env σ r σ'
  | TS_lost schema schemas now env σ r :
      let st := hd (quiet now) env in
      r ≠ Ok false →                          (* COMMIT failed, or a panic *)
      task_spec prefix worker_id locked (schema :: schemas) now env σ r (stim_others st σ)
  | TS_commit schema schemas now env σ σ' :
      let st := hd (quiet now) env in
      committed_outcome (schema, prefix) worker_id (stim_now st) locked (stim_others st σ) σ' →
      task_spec prefix worker_id locked (schema :: schemas) now env σ (Ok true) σ'.

(** The steps of a specified task: those of the others, then at most one outcome. *)
Lemma task_spec_steps prefix worker_id locked schemas now env σ r σ' (others : relation Store) :
  task_spec prefix worker_id locked schemas now env σ r σ' →
  (∀ st, st ∈ env → ∀ σ, others σ (stim_others st σ)) →
  ∃ σ1, rtc others σ σ1 ∧ (σ' = σ1 ∨ ∃ schema now,
    schema ∈ schemas ∧ committed_outcome (schema, prefix) worker_id now locked σ1 σ').
Proof.
  intros Hspec Ho.
  assert (∀ now env σ, (∀ st, st ∈ env → ∀ σ, others σ (stim_others st σ)) →
    rtc others σ (stim_others (hd (quiet now) env) σ)) as Hfirst.
  { intros now0 [|st env0] σ0 H; [reflexivity|]. apply rtc_once, H. set_solver. }
  induction Hspec as [| |schema schemas now env env' σ r σ' st [l ->] _ IH
    |schema schemas now env σ r st|schema schemas now env σ σ' st Hc].
  - exists σ. split; [reflexivity|by left].
  - exists σ. split; [reflexivity|by left].
  - destruct IH as (σ1 & H1 & H2); [set_solver|]. exists σ1. split.
    + etrans; [by apply Hfirst|exact H1].
    + destruct H2 as [->|(s & n & Hs & Hc)]; [by left|right]. exists s, n. set_solver.
  - exists (stim_others st σ). split; [by apply Hfirst|by left].
  - exists (stim_others st σ). split; [by apply Hfirst|]. right. exists schema, (stim_now st).
    split; [apply list_elem_of_here|done].
Qed.

Section refinement.
Context `{!SerdeJson} `{!SqlDisplay} `{!Aes256Gcm} `{!Utf8}.
Context (rng : Rng) (ctx : PipelineContext) (worker_id : string).

Notation spec := (task_spec (pc_table_prefix ctx) worker_id).

Lemma advance_outside s : ss_begin s = None →
  let st := hd (quiet (ss_now s)) (ss_env s) in
  ss_begin (advance s) = None ∧ ss_now (advance s) = stim_now st
  ∧ ss_store (advance s) = stim_others st (ss_store s) ∧ ss_locked (advance s) = ss_locked s
  ∧ ∃ l, ss_env s = l ++ ss_env (advance s).
Proof.
  intros Hb. unfold advance, in_transaction, next_stim. rewrite Hb. cbn.
  split_and!; [done..|]. by apply (shrinks_tail s (advance s)).
Qed.

Lemma begin_cases schema s : ss_begin s = None →
  match scoped_transaction schema s with
  | (Ok _, s') => s' = begin_at (advance s)
  | (Err _, s') => s' = advance s
  | (Panic _, s') => s' = s ∧ validate_schema_name schema = false
  end.
Proof.
  intros Hb. unfold scoped_transaction. destruct (validate_schema_name schema); [|done].
  by destruct (stim_fault _).
Qed.

Lemma task_refines schemas w :
  ss_begin (wd_session w) = None →
  let run := claim_and_process (E:=Empty_set) rng ctx worker_id schemas w in
  ss_begin (wd_session run.2) = None
  ∧ spec (ss_locked (wd_session w)) schemas (ss_now (wd_session w)) (ss_env (wd_session w))
      (ss_store (wd_session w)) run.1 (ss_store (wd_session run.2)).
Proof.
  revert w. induction schemas as [|schema schemas IH]; intros w Hb; [by split; [|constructor]|].
  cbv zeta. destruct (claim_and_process _ _ _ _ w) as [r' w'] eqn:E. cbn [fst snd].
  cbn [claim_and_process] in E. unfold se_bind at 1, se_try at 1, db_op at 1 in E.
  pose proof (begin_cases schema (wd_session w) Hb) as Hbegin.
  destruct (advance_outside _ Hb) as (Hba & Hna & Hsa & Hla & Hea).
  destruct (scoped_transaction schema (wd_session w)) as [[u|e|p] s1] eqn:Es; subst s1 || destruct Hbegin as [-> Hv].
  3: { injection E as <- <-. split; [done|by apply TS_bad_name]. }
  2: { destruct (IH (set_session (advance (wd_session w)) w) Hba) as [? Hs]. rewrite E in *.
       split; [done|]. eapply TS_next; [exact Hea|]. cbn [set_session wd_session] in Hs. by rewrite Hla, Hna, Hsa in Hs. }
  unfold se_bind in E. set (w1 := set_session (begin_at (advance (wd_session w))) w) in *.
  destruct (claim_one_commits rng ctx worker_id schema w1 _ eq_refl eq_refl eq_refl)
    as (Hb2 & Hn2 & Hc).
  pose proof (task_in_tx _ _ (tf_drop _ env_task_frame)
    (task_claim_one (E:=Empty_set) rng ctx worker_id _ schema env_task_frame) w1) as Henv.
  pose proof (task_in_tx _ _ (tf_drop _ locks_task_frame)
    (task_claim_one (E:=Empty_set) rng ctx worker_id _ schema locks_task_frame) w1) as Hlk.
  destruct (in_tx_io _ w1) as [r w2]. cbn [fst snd] in Hb2, Hn2, Hc, Henv, Hlk.
  unfold on_session, same_locks in Henv, Hlk.
  cbn [set_session wd_session begin_at ss_now ss_locked ss_store w1] in Hn2, Hc, Hlk.
  rewrite Hna in Hn2, Hc. rewrite Hsa, Hla in Hc. rewrite Hla in Hlk.
  destruct Hc as [Hs2|[-> Hc]].
  - destruct r as [[]|[]|p]; [| |]; try (injection E as <- <-; split; [done|rewrite Hs2; by apply TS_lost]).
    destruct (IH w2 Hb2) as [? Hs]. rewrite E in *. split; [done|].
    rewrite Hlk, Hn2, Hs2 in Hs. eapply TS_next; [|exact Hs].
    destruct Hea as [l1 ->]. destruct Henv as [l2 E2]. exists (l1 ++ l2).
    rewrite <-(assoc_L (++)). by f_equal.
  - injection E as <- <-. split; [done|]. by apply TS_commit.
Qed.
End refinement.
