(* ===== verification/Serve.v ===== *)
(** * Due executions are served

    In a calm world a task claims a due execution if there is one, and commits its
    outcome; repeated tasks leave nothing that is due. *)

From S2P Require Export Calm WorkerSpec.
#[local] Open Scope Z_scope.

(** ** Panics that do not happen *)

Section no_panic.
Context `{!SerdeJson} (c : TemplateCtx).

Lemma resolve_variable_no_panic v p : resolve_variable c v ≠ Panic p.
Proof. unfold resolve_variable, ok_or. repeat case_match; congruence. Qed.

Lemma resolve_string_no_panic s p : resolve_string c s ≠ Panic p.
Proof.
  unfold resolve_string. destruct (is_single_template s); [apply resolve_variable_no_panic|].
  pose proof (interp_loop_segments c (interp_fuel s) "" s ltac:(unfold interp_fuel; lia)) as E.
  change ("" +:+ s) with s in E. change (String.length "") with 0%nat in E. rewrite E.
  pose proof (render_no_panic c (segments (interp_fuel s) s)) as Hr.
  destruct (render c _); simpl; [done..|]. intros [= ->]. by apply (Hr p).
Qed.

Lemma resolve_no_panic v p : resolve c v ≠ Panic p.
Proof.
  revert p. induction v as [| | |s|l IH|fs IH] using json_ind_strong; intros p; try done.
  - apply resolve_string_no_panic.
  - cbn [resolve]. match goal with |- (r <-? ?g l; _) ≠ _ => set (go := g) end.
    enough (∀ p, go l ≠ Panic p) as Hgo.
    { specialize (Hgo p). destruct (go l); simpl; congruence. }
    induction IH as [|v l Hv _ IHl]; intros q; simpl; [done|].
    specialize (Hv q). destruct (resolve c v); simpl; [|done|congruence].
    specialize (IHl q). destruct (go l); simpl; congruence.
  - cbn [resolve]. match goal with |- (r <-? ?g fs []; _) ≠ _ => set (go := g) end.
    enough (∀ acc p, go fs acc ≠ Panic p) as Hgo.
    { specialize (Hgo [] p). destruct (go fs []); simpl; congruence. }
    induction IH as [|[k v] fs Hv _ IHfs]; intros acc q; simpl; [done|].
    pose proof (resolve_string_no_panic k q) as Hk.
    destruct (resolve_string c k); simpl; [|done|congruence].
    specialize (Hv q). simpl in Hv. destruct (resolve c v); simpl; [|done|congruence]. apply IHfs.
Qed.
End no_panic.

(** ** Tasks in a calm transaction *)

Section smooth.
Context `{!SerdeJson} `{!SqlDisplay} `{!Aes256Gcm} `{!Utf8}.
Context (L J : nat) (now : Z) (db : DbContext) (id : string) (num : Z).

Notation calm := (calm L J now db id num).
Notation dsmooth := (dsmooth L J now db id num).

(** [m] does not panic and leaves the transaction alive and calm, whatever value or
    error it returns. *)
Definition smooth {E A} (c : nat) (o o' : bool) (m : IO E A) (Φ : A → Prop) : Prop :=
  ∀ n w, calm o (c + n) (wd_session w) →
    match m w with
    | (Ok a, w') => Φ a ∧ calm o' n (wd_session w')
    | (Err _, w') => calm o' n (wd_session w')
    | (Panic _, _) => False
    end.

Definition any {A} (_ : A) : Prop := True.

Lemma smooth_le {E A} c c' o o' (m : IO E A) (Φ Ψ : A → Prop) :
  (c ≤ c')%nat → (∀ a, Φ a → Ψ a) → smooth c o o' m Φ → smooth c' o o' m Ψ.
Proof.
  intros Hc HΦ Hm n w Hw. specialize (Hm (c' - c + n)%nat w).
  replace (c + (c' - c + n))%nat with (c' + n)%nat in Hm by lia. specialize (Hm Hw).
  destruct (m w) as [[a|e|p] w']; [destruct Hm as [Ha Hm]; split; [by apply HΦ|]| |done];
    (eapply calm_le; [|exact Hm]; lia).
Qed.

Lemma smooth_recorded {E A} c o (m : IO E A) Φ : smooth c o true m Φ → smooth c o false m Φ.
Proof.
  intros Hm n w Hw. specialize (Hm n w Hw).
  destruct (m w) as [[a|e|p] w']; [destruct Hm as [Ha Hm]; split; [done|]| |done];
    by eapply calm_recorded.
Qed.

Lemma smooth_bind {E A B} c1 c2 o o1 o2 (m : IO E A) Φ (f : A → IO E B) Ψ :
  (E → o1 = o2) →
  smooth c1 o o1 m Φ → (∀ a, Φ a → smooth c2 o1 o2 (f a) Ψ) →
  smooth (c1 + c2) o o2 (se_bind m f) Ψ.
Proof.
  intros He Hm Hf n w Hw. rewrite <-Nat.add_assoc in Hw. specialize (Hm _ _ Hw).
  unfold se_bind. destruct (m w) as [[a|e|p] w']; [|rewrite <-(He e)|done].
  - destruct Hm as [Ha Hm]. by apply (Hf a Ha n w').
  - eapply calm_le; [|exact Hm]. lia.
Qed.

(** What does not touch the session. *)
Lemma smooth_pure {E A} o (m : IO E A) (Φ : A → Prop) :
  (∀ w, wd_session (m w).2 = wd_session w) →
  (∀ w, match (m w).1 with Ok a => Φ a | Err _ => True | Panic _ => False end) →
  smooth 0 o o m Φ.
Proof.
  intros Hs Hp n w Hw. specialize (Hs w). specialize (Hp w).
  destruct (m w) as [[a|e|p] w']; simpl in *; rewrite ?Hs; done.
Qed.

Lemma smooth_ret {E A} o (a : A) (Φ : A → Prop) : Φ a → smooth (E:=E) 0 o o (se_ret a) Φ.
Proof. intros Ha. by apply smooth_pure. Qed.

Lemma smooth_lift {E A} o (r : res E A) : (∀ p, r ≠ Panic p) → smooth 0 o o (se_lift r) any.
Proof. intros Hr. apply smooth_pure; [done|]. intros w. simpl. destruct r; try done. by eapply Hr. Qed.

Lemma smooth_ok_or {E A} o (x : option A) (e : E) : smooth 0 o o (se_ok_or x e) any.
Proof. by destruct x; apply smooth_pure. Qed.

Lemma smooth_clock {E} o : smooth (E:=E) 0 o o clock_now any.
Proof. by apply smooth_pure. Qed.

Lemma smooth_exchange {E} o sent : smooth (E:=E) 0 o o (exchange sent) any.
Proof. by apply smooth_pure. Qed.

Lemma smooth_map_err {E F A} (f : E → F) c o o' (m : IO E A) Φ :
  smooth c o o' m Φ → smooth c o o' (se_map_err f m) Φ.
Proof. intros Hm n w Hw. specialize (Hm n w Hw). unfold se_map_err. by destruct (m w) as [[]]. Qed.

Lemma smooth_try {E F A} c o o' (m : IO E A) Φ :
  smooth c o o' m Φ →
  smooth (E:=F) c o o' (se_try m) (λ r, match r with inl a => Φ a | inr _ => True end).
Proof. intros Hm n w Hw. specialize (Hm n w Hw). unfold se_try. by destruct (m w) as [[]]. Qed.

Lemma smooth_ignore {E F A} c o o' (m : IO E A) Φ :
  smooth c o o' m Φ → smooth (E:=F) c o o' (se_ignore m) any.
Proof.
  intros Hm n w Hw. specialize (Hm n w Hw). unfold se_ignore.
  destruct (m w) as [[]]; [by destruct Hm|done..].
Qed.

Lemma smooth_db {A} c o o' (m : DB A) Φ : dsmooth c o o' m Φ → smooth c o o' (db_op m) Φ.
Proof.
  intros Hm n w Hw. destruct (Hm n _ Hw) as (a & s' & E & Ha & Hs). unfold db_op. by rewrite E.
Qed.

Lemma smooth_try_db {F A} c o o' (m : DB A) Φ :
  dsmooth c o o' m Φ →
  smooth (E:=F) c o o' (se_try (db_op m)) (λ r, ∃ a, r = inl a ∧ Φ a).
Proof.
  intros Hm n w Hw. destruct (Hm n _ Hw) as (a & s' & E & Ha & Hs). unfold se_try, db_op.
  rewrite E. eauto.
Qed.

Lemma smooth_ignore_db {F A} c o o' (m : DB A) Φ :
  dsmooth c o o' m Φ → smooth (E:=F) c o o' (se_ignore (db_op m)) any.
Proof. intros Hm. by eapply smooth_ignore, smooth_db. Qed.
End smooth.

(** Binds one part after another; leaves the parts. *)
Ltac smooth_bind_tac :=
  eapply smooth_bind; [first [by intros []|done]| |].

Section pipeline.
Context `{!SerdeJson} `{!SqlDisplay} `{!Aes256Gcm} `{!Utf8}.
Context (rng : Rng) (ctx : PipelineContext).
Context (L J : nat) (now : Z) (db : DbContext) (id : string) (num : Z).

(** The configured key is hexadecimal. *)
Hypothesis key_ok : ∀ p, hex_decode (pc_encryption_key ctx) ≠ Panic p.

Notation smooth := (smooth L J now db id num).
Notation dsmooth := (dsmooth L J now db id num).

Lemma smooth_log {E} o l m :
  l ∈ ["DEBUG"; "INFO"; "WARN"; "ERROR"] →
  smooth 1 o o (log_execution (E:=E) db id num l m) any.
Proof. intros Hl. by eapply smooth_ignore_db, dsmooth_log. Qed.

(** From here on no error is returned: the steps are those of [process_execution]. *)
Lemma smooth_seq {A B} c1 c2 o o1 o2 (m : IO Empty_set A) (f : A → IO Empty_set B) :
  smooth c1 o o1 m any → (∀ a, smooth c2 o1 o2 (f a) any) →
  smooth (c1 + c2) o o2 (se_bind m f) any.
Proof. intros Hm Hf. eapply smooth_bind; [by intros []|exact Hm|intros a _; apply Hf]. Qed.

Lemma smooth_attempt s t out err :
  s ∈ ["SUCCESS"; "FAILED"] →
  smooth 1 true false (record_attempt (E:=Empty_set) db id num s t out err) any.
Proof.
  intros Hs. apply (smooth_seq 0 1 true true); [apply smooth_clock|intros c].
  by eapply smooth_ignore_db, dsmooth_attempt.
Qed.

Lemma smooth_fail t what e :
  smooth 3 true false (fail_resolution (E:=Empty_set) db id num t what e) any.
Proof.
  apply (smooth_seq 1 2 true true); [eapply smooth_ignore_db, dsmooth_failed|intros _].
  apply (smooth_seq 1 1 true false); [apply smooth_attempt; set_solver|intros _].
  apply smooth_log. set_solver.
Qed.

(** The lookups of configs and secrets. *)
Lemma smooth_load_config o name : smooth 1 o o (load_config db name) any.
Proof.
  unfold load_config. apply (smooth_bind _ _ _ _ _ _ 0 1 o o o _ any); [done| |intros [v|] _].
  - apply smooth_pure; intros w; unfold config_cache_get, se_bind, clock_now; simpl;
      by destruct (cache_get _ _ _).
  - apply (smooth_le _ _ _ _ _ _ 0 1 o o _ any any); [lia|done|]. apply smooth_lift.
    intros p. unfold flatten_json_object, ok_or. by destruct (Json.as_object v).
  - apply (smooth_bind _ _ _ _ _ _ 1 0 o o o _ any); [done| |intros found _].
    { eapply smooth_map_err, smooth_db, dsmooth_read. done. }
    apply (smooth_bind _ _ _ _ _ _ 0 0 o o o _ any); [done|apply smooth_ok_or|intros c _].
    apply (smooth_bind _ _ _ _ _ _ 0 0 o o o _ any); [done|by apply smooth_pure|intros _ _].
    apply smooth_lift. intros p. unfold flatten_json_object, ok_or. by destruct (Json.as_object _).
Qed.

Lemma decrypt_no_panic x p : decrypt x (pc_encryption_key ctx) ≠ Panic p.
Proof.
  unfold decrypt. case_match; [done|].
  pose proof (key_ok p). destruct (hex_decode _); simpl; [|done|congruence].
  case_match; [done|]. destruct (aead_decrypt _ _ _); simpl; [|done]. by case_match.
Qed.

Lemma smooth_load_single o name : smooth 1 o o (load_single_secret ctx db name) any.
Proof.
  unfold load_single_secret. apply (smooth_bind _ _ _ _ _ _ 0 1 o o o _ any); [done| |intros [v|] _].
  - apply smooth_pure; intros w; unfold secret_cache_get, se_bind, clock_now; simpl;
      by destruct (cache_get _ _ _).
  - apply (smooth_le _ _ _ _ _ _ 0 1 o o _ any any); [lia|done|]. by apply smooth_ret.
  - apply (smooth_bind _ _ _ _ _ _ 1 0 o o o _ any); [done| |intros found _].
    { eapply smooth_map_err, smooth_db, dsmooth_read. done. }
    apply (smooth_bind _ _ _ _ _ _ 0 0 o o o _ any); [done|apply smooth_ok_or|intros c _].
    apply (smooth_bind _ _ _ _ _ _ 0 0 o o o _ any); [done| |intros d _].
    { apply smooth_map_err, smooth_lift. intros p. apply decrypt_no_panic. }
    apply (smooth_bind _ _ _ _ _ _ 0 0 o o o _ any); [done|by apply smooth_pure|intros _ _].
    by apply smooth_ret.
Qed.

Lemma smooth_secrets_loop o fuel rest m :
  (String.length rest < fuel)%nat → smooth fuel o o (load_secrets_loop ctx fuel db rest m) any.
Proof.
  revert rest m. induction fuel as [|fuel IH]; intros rest m Hfuel; [lia|].
  cbn [load_secrets_loop].
  destruct (Str.find rest "{{secret.") as [i|] eqn:Hi.
  2: { apply (smooth_le _ _ _ _ _ _ 0 _ o o _ any any); [lia|done|]. by apply smooth_ret. }
  cbv zeta. destruct (Str.find (Str.sdrop (i + 9) rest) "}}") as [j|] eqn:Hj.
  2: { apply (smooth_le _ _ _ _ _ _ 0 _ o o _ any any); [lia|done|]. by apply smooth_ret. }
  apply find_Some_le in Hi as Hile. simpl in Hile.
  assert (String.length (Str.sdrop (j + 2) (Str.sdrop (i + 9) rest)) < fuel)%nat as Hfuel'
    by (rewrite !slen_sdrop; lia).
  destruct (m !! _).
  - apply (smooth_le _ _ _ _ _ _ fuel _ o o _ any any); [lia|done|]. by apply IH.
  - apply (smooth_bind _ _ _ _ _ _ 1 fuel o o o _ any); [done|apply smooth_load_single|].
    intros v _. by apply IH.
Qed.

(** Retiring the expired jobs, and dropping their pg_cron entries. *)
Lemma dsmooth_retire o :
  dsmooth 1 o o (jobs_retire_expired_cron_jobs db) (λ l, (length l ≤ J)%nat).
Proof.
  apply dsmooth_tstmt. intros st env locked t _ Htc Hat. eexists _, _. split; [done|].
  apply tcalm_tail in Htc as [Hf He Hj]. split_and!.
  - rewrite length_fmap. etrans; [|exact Hj].
    rewrite <-(length_map_to_list (t_jobs t)). apply length_filter.
  - split; simpl; [done..|]. by rewrite map_size_fmap.
  - exact Hat.
Qed.

Lemma dsmooth_unregister o s j : dsmooth 1 o o (unregister_pg_cron_conn s j) any.
Proof.
  intros n ss Hc. pose proof (calm_advance _ _ _ _ _ _ _ _ _ Hc) as
    (st & env & Ee & Est & Eenv & Estore & Enow & Eb & Ef & Hfault & Hu & Henv & Hlen).
  destruct Hc as [Hb Ha Hn _ _ (t & Ht & Htc & Hat)]. rewrite Ee in Htc.
  unfold unregister_pg_cron_conn, stmt. rewrite Ha, Est, Hfault, Estore.
  eexists _, _. split; [reflexivity|]. split; [done|]. unfold set_store.
  split; cbn [ss_begin ss_failed ss_now ss_env ss_store]; rewrite ?Eenv;
    [exact Hb|exact Ha|exact Enow|done|done|].
  exists t. split_and!; [exact Ht|by eapply tcalm_tail|done].
Qed.

Lemma dsmooth_unregister_all o s l :
  dsmooth (length l) o o (se_iter (unregister_pg_cron_conn s) l) any.
Proof.
  induction l as [|j l IH]; intros n ss Hc; [by eexists _, _|].
  destruct (dsmooth_unregister o s j (length l + n)%nat ss Hc) as ([] & s1 & E1 & _ & Hc1).
  destruct (IH n s1 Hc1) as ([] & s2 & E2 & _ & Hc2). exists tt, s2.
  split_and!; [|done..]. simpl. unfold se_bind. by rewrite E1, E2.
Qed.

Lemma dsmooth_reap o : dsmooth (S J) o o (reap_schema db) any.
Proof.
  intros n ss Hc. destruct (dsmooth_retire o (J + n)%nat ss Hc) as (l & s1 & E1 & Hl & Hc1).
  apply (calm_le _ _ _ _ _ _ _ _ (length l + n)) in Hc1; [|lia].
  destruct (dsmooth_unregister_all o (db_schema db) l n s1 Hc1) as ([] & s2 & E2 & _ & Hc2).
  exists l, s2. split_and!; [|done..]. unfold reap_schema, se_bind. rewrite E1.
  change (λ job_id, unregister_pg_cron_conn (db_schema db) job_id)
    with (unregister_pg_cron_conn (db_schema db)). by rewrite E2.
Qed.

Lemma smooth_dispatch o ty key spec :
  smooth (S J) o o (dispatch (E:=Empty_set) db ty key spec) any.
Proof.
  assert (∀ m : IO Empty_set DispatchResult, smooth 0 o o m any → smooth (S J) o o m any) as Hle.
  { intros m. apply smooth_le; [lia|done]. }
  unfold dispatch. case_match; [by apply Hle, smooth_pure|].
  case_match; [|case_match; [by apply Hle, smooth_pure|]; case_match; [|by apply Hle, smooth_ret]].
  - unfold internal_dispatch. destruct (_ ≫= _) as [task|]; [|by apply Hle, smooth_ret].
    case_match; [|by apply Hle, smooth_ret].
    rewrite <-(Nat.add_0_r (S J)). apply (smooth_seq _ 0 o o).
    + eapply smooth_le; [reflexivity|done|]. eapply smooth_try, smooth_db, dsmooth_reap.
    + intros [l|e]; by apply smooth_ret.
  - unfold redis_dispatch. cbv zeta. destruct (_ ≫= _); [|by apply Hle, smooth_ret].
    by apply Hle, smooth_pure.
Qed.

Lemma smooth_finalize ep m t d r :
  policy_ok now ep →
  smooth 3 true false (finalize (E:=Empty_set) rng db (get_retry_policy ep) id num m t d r) any.
Proof.
  intros [Hpos Hts]. unfold finalize.
  assert (∀ o l s, l ∈ ["INFO"; "WARN"; "ERROR"] →
    smooth 1 o o (log_execution (E:=Empty_set) db id num l s) any) as Hlog.
  { intros o l s Hl. apply smooth_log. set_solver. }
  destruct r as [out|err];
    (apply (smooth_seq 1 2 true false); [apply smooth_attempt; set_solver|intros _]).
  - apply (smooth_seq 1 1 false false); [eapply smooth_ignore_db, dsmooth_success|intros _].
    apply Hlog. set_solver.
  - case_match.
    + destruct (compute_backoff_ok rng (get_retry_policy ep) num Hpos) as (b & -> & Hb).
      apply (smooth_seq 1 1 false false).
      * by eapply smooth_ignore_db, dsmooth_retry, Hts.
      * intros _. apply Hlog. set_solver.
    + apply (smooth_seq 1 1 false false); [eapply smooth_ignore_db, dsmooth_failed|intros _].
      apply Hlog. set_solver.
Qed.

Lemma smooth_run_resolved ep key nm ty i m t spec :
  policy_ok now ep →
  smooth (J + 5) true false
    (run_resolved (E:=Empty_set) rng db (get_retry_policy ep) id key nm ty i num m t spec) any.
Proof.
  intros Hp. unfold run_resolved. cbv zeta. replace (J + 5)%nat with (1 + (S J + 3))%nat by lia.
  apply (smooth_seq 1 (S J + 3) true true); [apply smooth_log; set_solver|intros _].
  apply (smooth_seq (S J) 3 true true); [apply smooth_dispatch|intros r].
  apply (smooth_seq 0 3 true true); [apply smooth_clock|intros c]. by apply smooth_finalize.
Qed.

(** Processing an execution: at most [L + J + 8] statements, all of which succeed. *)
Lemma smooth_process key job nm ty i m :
  smooth (L + J + 8) true false
    (process_execution (E:=Empty_set) rng ctx db id key job nm ty i num m) any.
Proof.
  unfold process_execution. apply (smooth_seq 0 (L + J + 8) true true); [apply smooth_clock|intros t].
  replace (L + J + 8)%nat with (1 + (L + J + 7))%nat by lia.
  eapply (smooth_bind _ _ _ _ _ _ 1 (L + J + 7) true true false); [by intros []| |].
  { eapply smooth_try_db, (dsmooth_read _ _ _ _ _ _ _ _ (λ r, ∀ ep, r = Some ep → endpoint_calm L now ep)).
    intros env tn [_ He _] ep Hep. by apply (He nm). }
  intros r (a & -> & Ha). destruct a as [ep|].
  2: { eapply (smooth_le _ _ _ _ _ _ 2); [lia|done|]. apply smooth_recorded.
       apply (smooth_seq 1 1 true true); [eapply smooth_ignore_db, dsmooth_failed|intros _].
       apply smooth_log. set_solver. }
  destruct (Ha ep eq_refl) as [HL Hp]. cbv zeta.
  assert (∀ what e c, (3 ≤ c)%nat →
    smooth c true false (fail_resolution (E:=Empty_set) db id num t what e) any) as Hfail.
  { intros what e c Hc. eapply smooth_le; [exact Hc|done|apply smooth_fail]. }
  replace (L + J + 7)%nat with (1 + (S L + (J + 5)))%nat by lia.
  apply (smooth_seq 1 (S L + (J + 5)) true true).
  { destruct (ep_config_ref ep); 
      [|apply (smooth_le _ _ _ _ _ _ 0 1 true true _ any any); [lia|done|by apply smooth_ret]].
    eapply smooth_le; [reflexivity|done|]. eapply smooth_try, smooth_load_config. }
  intros [cfg|err]; [|apply Hfail; lia].
  apply (smooth_seq (S L) (J + 5) true true).
  { eapply smooth_le; [reflexivity|done|]. eapply smooth_try.
    eapply smooth_le; [|done|apply smooth_secrets_loop]; lia. }
  intros [sec|err]; [|apply Hfail; lia].
  destruct (resolve _ _) as [spec|err|p] eqn:Er; [by apply smooth_run_resolved|apply Hfail; lia|].
  by apply resolve_no_panic in Er.
Qed.
End pipeline.
