(* ===== verification/Drain.v ===== *)
(** * The queue drains

    A task of a worker in a calm world: if an execution is due in one of its schemas it
    serves one, otherwise it changes nothing ([task_serves]).  Each task it serves
    brings the queue nearer to empty ([drain]). *)

From S2P Require Export Serve Outbox.
#[local] Open Scope Z_scope.

(** ** What a transaction does to the store *)

Definition tx_changes (R : relation Store) : relation Session := λ s s',
  is_Some (ss_begin s) → ss_begin s' = ss_begin s ∧ R (ss_store s) (ss_store s').

#[global] Instance tx_changes_preorder R `{!PreOrder R} : PreOrder (tx_changes R).
Proof.
  split; [by intros s|].
  intros s1 s2 s3 H12 H23 Hb. destruct (H12 Hb) as [Hb2 Hs2].
  destruct (H23 ltac:(by rewrite Hb2)) as [Hb3 Hs3]. split; [congruence|by etrans].
Qed.

Lemma stmt_tx_changes {A} R `{!Reflexive R} (q : Query A) :
  (∀ st now locked σ a σ', q st now locked σ = Ok (a, σ') → R σ σ') →
  preserves (tx_changes R) (stmt q).
Proof.
  intros Hq s Hb. assert (ss_store (advance s) = ss_store s) as Hs.
  { unfold advance. simpl. by rewrite (bool_decide_eq_true_2 _ Hb : in_transaction s = true). }
  unfold stmt. destruct (ss_failed s); [done|].
  destruct (stim_fault _); [|destruct (q _ _ _ _) as [[a σ]|e|w] eqn:Eq];
    cbn [snd fail set_store ss_begin ss_store]; (split; [done|]); rewrite ?Hs; try done.
  rewrite Hs in Eq. by eapply Hq.
Qed.

Definition others_same (k : string * string) : relation Session := tx_changes (elsewhere k).

Lemma tstmt_others_same {A} db (q : TQuery A) :
  preserves (others_same (db_schema db, db_prefix db)) (tstmt db q).
Proof.
  apply stmt_tx_changes; [apply _|].
  intros st now locked σ a σ' (t & t' & Ht & _ & ->)%tquery_inv k' Hk.
  simpl. by rewrite lookup_insert_ne.
Qed.

Lemma others_same_frame db id num ty :
  process_frame (others_same (db_schema db, db_prefix db)) db id num ty.
Proof.
  split; [split; [apply _|..]|split|..]; intros; try apply tstmt_others_same.
  apply stmt_tx_changes; [apply _|]. by intros ?????? [= <- <-].
Qed.

(** The endpoints and the keys of the jobs stay. *)
Definition same_catalog (k : string * string) : relation Store := λ σ σ',
  ∀ t, st_tenants σ !! k = Some t → ∃ t', st_tenants σ' !! k = Some t'
    ∧ t_endpoints t' = t_endpoints t
    ∧ j_idempotency_key <$> t_jobs t' = j_idempotency_key <$> t_jobs t.

#[global] Instance same_catalog_preorder k : PreOrder (same_catalog k).
Proof.
  split; [intros σ t Ht; by exists t|].
  intros σ1 σ2 σ3 H12 H23 t (t2 & (t3 & Ht3 & He3 & Hj3)%H23 & He2 & Hj2)%H12.
  exists t3. split; [done|]. split; congruence.
Qed.

Lemma tstmt_catalog {A} db (q : TQuery A) :
  (∀ st now locked t a t', q st now locked t = Ok (a, t') →
     t_endpoints t' = t_endpoints t
     ∧ j_idempotency_key <$> t_jobs t' = j_idempotency_key <$> t_jobs t) →
  preserves (tx_changes (same_catalog (db_schema db, db_prefix db))) (tstmt db q).
Proof.
  intros Hq. apply stmt_tx_changes; [apply _|].
  intros st now locked σ a σ' (t & t' & Ht & Eq & ->)%tquery_inv t0 Ht0. simplify_eq.
  exists t'. cbn [set_tenant st_tenants]. rewrite lookup_insert_eq. split; [done|]. by eapply Hq.
Qed.

Lemma update_execution_catalog id ss f t :
  t_endpoints (update_execution id ss f t) = t_endpoints t
  ∧ t_jobs (update_execution id ss f t) = t_jobs t.
Proof. unfold update_execution. by repeat case_match. Qed.

Lemma catalog_frame db id num ty :
  process_frame (tx_changes (same_catalog (db_schema db, db_prefix db))) db id num ty.
Proof.
  split; [split; [apply _|..]|split|..]; intros;
    try (apply tstmt_catalog; intros ??????; cbv beta zeta).
  - by intros [= <- <-].
  - repeat (case_match; try done). by intros [= <- <-].
  - repeat (case_match; try done). by intros [= <- <-].
  - intros [= <- <-]. split; [done|]. simpl. rewrite <-map_fmap_compose. apply map_fmap_ext.
    intros i x _. simpl. by case_match.
  - apply stmt_tx_changes; [apply _|]. intros ?????? [= <- <-] t Ht. by exists t.
  - intros [= <- <-]. edestruct update_execution_catalog as [-> ->]. done.
  - case_match; [done|]. intros [= <- <-]. edestruct update_execution_catalog as [-> ->]. done.
  - intros [= <- <-]. edestruct update_execution_catalog as [-> ->]. done.
Qed.

Lemma claim_catalog db worker_id :
  preserves (tx_changes (same_catalog (db_schema db, db_prefix db))) (executions_claim db worker_id).
Proof.
  apply tstmt_catalog. intros ??????. cbv beta zeta.
  destruct (pick_least _ _ _) as [[id e]|]; [|by intros [= <- <-]].
  case_match; [done|]. by intros [= <- <-].
Qed.

Section task.
Context `{!SerdeJson} `{!SqlDisplay} `{!Aes256Gcm} `{!Utf8}.
Context (rng : Rng) (ctx : PipelineContext) (worker_id : string).
Context (L J : nat) (now : Z) (locked : gset string).
Hypothesis key_ok : ∀ p, hex_decode (pc_encryption_key ctx) ≠ Panic p.

Notation key schema := (schema, pc_table_prefix ctx).
Notation db_of schema := {| db_schema := schema; db_prefix := pc_table_prefix ctx |}.

(** ** Due executions *)

Definition due (m : gmap string Execution) (id : string) (e : Execution) : Prop :=
  m !! id = Some e ∧ claimable now e ∧ id ∉ locked.

(** From [σ] to [σ'] one of the earliest due executions of [schema] has run. *)
Definition served (schema : string) (σ σ' : Store) : Prop :=
  ∃ id e e', due (execs (key schema) σ) id e
    ∧ (∀ id2 e2, due (execs (key schema) σ) id2 e2 → e_run_at e ≤ e_run_at e2)
    ∧ outcome now (claim_update now worker_id e) e'
    ∧ execs (key schema) σ' = <[id := e']> (execs (key schema) σ)
    ∧ ∀ k, k ≠ key schema → st_tenants σ' !! k = st_tenants σ !! k.

(** What a calm worker needs of the database and of the stimuli to come. *)
Record ready (schemas : list string) (σ : Store) (env : list Stim) : Prop := {
  rd_ok : store_ok σ;
  rd_rows k id e : execs k σ !! id = Some e → exec_wf e ∧ e_max_attempts e ≤ i64_max;
  rd_schemas : Forall (λ schema, validate_schema_name schema = true ∧
    ∃ t, st_tenants σ !! key schema = Some t ∧ tenant_calm L J now env t) schemas;
  rd_env : env_calm now env;
}.

(** At the start of a transaction on [σ]. *)
Record started (σ : Store) (s : Session) : Prop := {
  sd_begin : ss_begin s = Some σ;
  sd_store : ss_store s = σ;
  sd_alive : ss_failed s = false;
  sd_now : ss_now s = now;
  sd_locked : ss_locked s = locked;
}.

Lemma calm_claimable e : exec_wf e → e_max_attempts e ≤ i64_max → claimable now e →
  e_attempt_count e + 1 ≤ i64_max.
Proof.
  intros [Ha Hn Hr Hc] Hmax [Hs _].
  assert (e_attempt_count e = 0 ∨ e_attempt_count e < e_max_attempts e) as Hd.
  { set_unfold. destruct Hs as [Hs|[Hs|[Hs|[]]]]; auto. }
  unfold i64_max in *. lia.
Qed.

(** ** The claim *)

Lemma calm_claim schemas schema n s σ :
  started σ s → ready schemas σ (ss_env s) → schema ∈ schemas → (S n ≤ length (ss_env s))%nat →
  (∃ id e, due (execs (key schema) σ) id e) →
  ∃ id e s1, executions_claim (db_of schema) worker_id s
      = (Ok (Some (claimed_row id (claim_update now worker_id e))), s1)
    ∧ due (execs (key schema) σ) id e
    ∧ (∀ id2 e2, due (execs (key schema) σ) id2 e2 → e_run_at e ≤ e_run_at e2)
    ∧ ss_begin s1 = Some σ
    ∧ calm L J now (db_of schema) id (e_attempt_count e + 1) true n s1
    ∧ execs (key schema) (ss_store s1)
      = <[id := claim_update now worker_id e]> (execs (key schema) σ)
    ∧ (∀ k, k ≠ key schema → st_tenants (ss_store s1) !! k = st_tenants σ !! k)
    ∧ ∃ t1 j, st_tenants (ss_store s1) !! key schema = Some t1 ∧ t_jobs t1 !! e_job_id e = Some j.
Proof.
  intros [Hb Hs Ha Hn Hlk] [Hok Hrows Hsch Henv] Hin Hlen (id0 & e0 & Hdue).
  rewrite list.Forall_forall in Hsch. destruct (Hsch _ Hin) as (_ & t & Ht & Htc).
  unfold due in Hdue. rewrite (execs_lookup _ _ _ Ht) in *. destruct Hdue as (He0 & Hc0 & Hl0).
  assert (calm L J now (db_of schema) id0 0 false (S n) s) as Hcalm.
  { split; [by rewrite Hb|done..|]. exists t. rewrite Hs. split; [done|]. split; [done|].
    by split; [exists e0|]. }
  pose proof (calm_advance _ _ _ _ _ _ _ _ _ Hcalm) as
    (st & env & Ee & Est & Eenv & Estore & Enow & Eb & Ef & Hfault & Hu & Henv2 & Hlen2).
  unfold executions_claim, tstmt, stmt. rewrite Ha, Est, Hfault, Enow, Estore, Hs.
  change (ss_locked (advance s)) with (ss_locked s). rewrite Hlk.
  unfold tquery. cbn [db_schema db_prefix]. rewrite Ht.
  destruct (pick_least _ _ _) as [[id e]|] eqn:Ep.
  2: { apply pick_least_None in Ep.
       assert ((id0, e0) ∈ claim_candidates now locked t) as Hc by (by apply claim_candidates_spec).
       rewrite Ep in Hc. by apply elem_of_nil in Hc. }
  apply claim_pick_spec in Ep as (Hid & Hc & Hl & Hmin). cbv zeta.
  destruct (Hrows (key schema) id e) as [Hwf Hmax].
  { by rewrite (execs_lookup _ _ _ Ht). }
  pose proof (calm_claimable e Hwf Hmax Hc) as Hcount.
  rewrite bool_decide_eq_false_2 by (simpl; lia).
  pose proof (Hok _ _ Ht) as [_ _ [_ Hexec _] [_ Hatt _ _ _]].
  destruct (Hexec _ _ Hid) as [_ (j & Hj & _)].
  exists id, e. eexists. split; [reflexivity|]. split; [by split|].
  split; [intros id2 e2 (?&?&?); by eapply Hmin|].
  unfold set_store. cbn [ss_begin ss_store]. split; [by rewrite Eb|]. split; [|split; [|split]].
  - rewrite Ee in Htc. destruct (tcalm_tail _ _ _ _ _ _ Htc) as [Hf He Hjobs].
    split; cbn [ss_begin ss_failed ss_now ss_env ss_store]; rewrite ?Eenv, ?Eb, ?Hb; try done.
    eexists. cbn [set_tenant st_tenants]. split; [apply lookup_insert_eq|].
    split; [by split|]. split; [simpl; rewrite lookup_insert_eq; by eexists|].
    intros _ i a Hia [<- Hnum]. destruct (Hatt _ _ Hia) as (_ & e2 & He2 & Hle).
    simplify_eq. lia.
  - rewrite execs_set_tenant, bool_decide_eq_true_2 by done. reflexivity.
  - intros k Hk. cbn [set_tenant st_tenants]. by rewrite lookup_insert_ne.
  - eexists _, j. cbn [set_tenant st_tenants]. split; [apply lookup_insert_eq|]. exact Hj.
Qed.

(** ** One transaction *)

Lemma calm_read {A} db id num o n s t (f : Tenant → A) :
  calm L J now db id num o (S n) s →
  st_tenants (ss_store s) !! (db_schema db, db_prefix db) = Some t →
  ∃ s', read db f s = (Ok (f t), s') ∧ calm L J now db id num o n s'
    ∧ ss_store s' = ss_store s ∧ ss_begin s' = ss_begin s.
Proof.
  intros Hc Ht. pose proof (calm_advance _ _ _ _ _ _ _ _ _ Hc) as
    (st & env & Ee & Est & Eenv & Estore & Enow & Eb & Ef & Hfault & Hu & Henv & Hlen).
  destruct Hc as [Hb Ha Hn _ _ (t2 & Ht2 & Htc & Hat)]. rewrite Ee in Htc.
  unfold read, tstmt, stmt. rewrite Ha, Est, Hfault, Estore. unfold tquery. rewrite Ht.
  rewrite set_tenant_same by done. eexists. split; [reflexivity|].
  unfold set_store. cbn [ss_store ss_begin]. split; [|done].
  split; cbn [ss_begin ss_failed ss_now ss_env ss_store]; rewrite ?Eenv;
    [exact Hb|exact Ha|exact Enow|done|done|].
  exists t2. split_and!; [done|by eapply tcalm_tail|done].
Qed.

(** COMMIT of a calm transaction publishes what it did. *)
Lemma calm_commit db id num o n s :
  calm L J now db id num o (S n) s → ∃ s', commit s = (Ok tt, s')
    ∧ ss_begin s' = None ∧ ss_failed s' = false ∧ ss_store s' = ss_store s
    ∧ env_calm now (ss_env s') ∧ (n ≤ length (ss_env s'))%nat
    ∧ ss_locked s' = ss_locked s
    ∧ ∃ t, st_tenants (ss_store s') !! (db_schema db, db_prefix db) = Some t
        ∧ tenant_calm L J now (ss_env s') t.
Proof.
  intros Hc. pose proof (calm_advance _ _ _ _ _ _ _ _ _ Hc) as
    (st & env & Ee & Est & Eenv & Estore & Enow & Eb & Ef & Hfault & Hu & Henv & Hlen).
  destruct Hc as [Hb Ha Hn _ _ (t & Ht & Htc & Hat)].
  unfold commit. rewrite Est, Hfault, Ef. eexists. split; [reflexivity|].
  unfold end_with. cbn [ss_begin ss_failed ss_store ss_env ss_locked].
  rewrite Estore, Eenv. split_and!; try done. exists t. split; [done|].
  rewrite Ee in Htc. by eapply tcalm_tail.
Qed.

(** Processing in a calm transaction gives the running execution its outcome. *)
Lemma calm_process db id e key job n w :
  e_status e = "RUNNING" →
  calm L J now db id (e_attempt_count e) true (L + J + 8 + n) (wd_session w) →
  execs (db_schema db, db_prefix db) (ss_store (wd_session w)) !! id = Some e →
  ∃ w' e', process_execution (E:=Empty_set) rng ctx db id key job (e_endpoint e)
      (e_endpoint_type e) (e_input e) (e_attempt_count e) (e_max_attempts e) w = (Ok tt, w')
    ∧ calm L J now db id (e_attempt_count e) false n (wd_session w')
    ∧ outcome now e e'
    ∧ execs (db_schema db, db_prefix db) (ss_store (wd_session w'))
      = <[id := e']> (execs (db_schema db, db_prefix db) (ss_store (wd_session w)))
    ∧ ∀ k, k ≠ (db_schema db, db_prefix db) →
        st_tenants (ss_store (wd_session w')) !! k = st_tenants (ss_store (wd_session w)) !! k.
Proof.
  intros Hrun Hc He.
  pose proof (smooth_process rng ctx L J now db id (e_attempt_count e) key_ok key job
    (e_endpoint e) (e_endpoint_type e) (e_input e) (e_max_attempts e) n w Hc) as Hsm.
  pose proof (process_ok rng ctx _ _ _ _ _ (others_same_frame db id (e_attempt_count e) (e_endpoint_type e))
    (E:=Empty_set) key job (e_endpoint e) (e_input e) (e_max_attempts e) w
    (cm_begin _ _ _ _ _ _ _ _ _ Hc)) as [_ Hoth].
  destruct (ends_process rng ctx db id e Hrun key job (e_endpoint e) (e_endpoint_type e) (e_input e)
    w _ _ (surjective_pairing _) (cm_begin _ _ _ _ _ _ _ _ _ Hc) (λ _, He)) as [[[p Hp] _]|[_ _ _ X]];
    destruct (process_execution _ _ _ _ _ _ _ _ _ _ _ w) as [r w'] eqn:Ep; cbn [fst snd] in *.
  { by subst r. }
  destruct r as [[]|[]|p]; [|done]. destruct Hsm as [_ Hc'].
  destruct (X (cm_alive _ _ _ _ _ _ _ _ _ Hc')) as (e' & Ho & He' & _). exists w', e'.
  rewrite (cm_now _ _ _ _ _ _ _ _ _ Hc) in Ho. done.
Qed.

(** A due execution has been claimed in the transaction of [w2], whose next step is to
    process it. *)
Record claim_ran (schema : string) (σ : Store) (w : World) (n : nat) (id : string)
    (e : Execution) (j : Job) (w2 : World) : Prop := {
  cr_due : due (execs (key schema) σ) id e;
  cr_first id2 e2 : due (execs (key schema) σ) id2 e2 → e_run_at e ≤ e_run_at e2;
  cr_quiet : same_outbox w w2;
  cr_calm : calm L J now (db_of schema) id (e_attempt_count e + 1) true (L + J + 8 + n)
              (wd_session w2);
  cr_execs : execs (key schema) (ss_store (wd_session w2))
             = <[id := claim_update now worker_id e]> (execs (key schema) σ);
  cr_job : ∃ t, st_tenants (ss_store (wd_session w2)) !! key schema = Some t
             ∧ t_jobs t !! e_job_id e = Some j;
  cr_elsewhere : elsewhere (key schema) σ (ss_store (wd_session w2));
  cr_catalog : same_catalog (key schema) σ (ss_store (wd_session w2));
}.

Lemma claim_one_claims schemas schema n w σ :
  started σ (wd_session w) → ready schemas σ (ss_env (wd_session w)) → schema ∈ schemas →
  (L + J + 10 + n ≤ length (ss_env (wd_session w)))%nat →
  (∃ id e, due (execs (key schema) σ) id e) →
  ∃ id e j w2, claim_ran schema σ w n id e j w2
    ∧ claim_one (E:=Empty_set) rng ctx worker_id schema w
      = process_and_commit rng ctx (db_of schema) (claimed_row id (claim_update now worker_id e)) j w2.
Proof.
  intros Hst Hrd Hin Hlen Hdue.
  destruct (calm_claim _ _ (S (L + J + 8 + n)) _ _ Hst Hrd Hin ltac:(lia) Hdue)
    as (id & e & s1 & Ec & Hd & Hmin & Hb1 & Hc1 & Hx1 & Ho1 & t1 & j & Ht1 & Hj).
  set (db := db_of schema) in *. set (e1 := claim_update now worker_id e) in *.
  destruct (calm_read db _ _ _ _ s1 t1 (λ t, t_jobs t !! e_job_id e) Hc1 Ht1)
    as (s2 & E2 & Hc2 & Hs2 & Hb2). rewrite Hj in E2.
  pose proof (claim_catalog db worker_id (wd_session w)) as Hcat. rewrite Ec in Hcat. cbn [snd] in Hcat.
  destruct Hcat as [_ Hcat]; [by rewrite (sd_begin _ _ Hst)|]. rewrite (sd_store _ _ Hst) in Hcat.
  exists id, e, j, (set_session s2 (set_session s1 w)). split.
  - split; cbn [set_session wd_session]; rewrite ?Hs2; try done. by exists t1.
  - unfold claim_one. cbv zeta. change (db_of schema) with db.
    unfold se_bind at 1, se_try at 1, db_op at 1. rewrite Ec.
    unfold se_bind at 1, se_try at 1, db_op at 1. cbn [set_session wd_session].
    change (jobs_get db (cl_job_id (claimed_row id e1)) s1)
      with (read db (λ t, t_jobs t !! e_job_id e) s1). by rewrite E2.
Qed.

(** ... and when that has succeeded, it is committed. *)
Lemma run_commits db id e j num n w w3 :
  process_execution (E:=Empty_set) rng ctx db id (dispatch_key j (claimed_row id e)) (e_job_id e)
    (e_endpoint e) (e_endpoint_type e) (e_input e) (e_attempt_count e) (e_max_attempts e) w
    = (Ok tt, w3) →
  calm L J now db id num false (S n) (wd_session w3) →
  ∃ w', in_tx_io (process_and_commit (E:=Empty_set) rng ctx db (claimed_row id e) j) w = (Ok true, w')
    ∧ same_outbox w3 w'
    ∧ let s' := wd_session w' in
      ss_begin s' = None ∧ ss_failed s' = false ∧ ss_store s' = ss_store (wd_session w3)
      ∧ env_calm now (ss_env s') ∧ (n ≤ length (ss_env s'))%nat
      ∧ ∃ t, st_tenants (ss_store s') !! (db_schema db, db_prefix db) = Some t
          ∧ tenant_calm L J now (ss_env s') t.
Proof.
  intros Ep Hc. destruct (calm_commit _ _ _ _ _ _ Hc)
    as (s4 & E4 & Hb4 & Hf4 & Hs4 & He4 & Hl4 & _ & t4 & Ht4 & Htc4).
  exists (set_session s4 w3). split.
  - unfold in_tx_io, process_and_commit, se_bind, se_ignore, db_op.
    cbn [claimed_row cl_execution_id cl_job_id cl_endpoint cl_endpoint_type cl_input
      cl_attempt_count cl_max_attempts]. rewrite Ep, E4.
    cbn [se_ret]. f_equal. unfold drop_tx. cbn [set_session wd_session]. by rewrite Hb4.
  - cbn [set_session wd_session]. split_and!; try done. by exists t4.
Qed.

(** What a task that served leaves behind. *)
Lemma claim_one_serves schemas schema n w σ :
  started σ (wd_session w) → ready schemas σ (ss_env (wd_session w)) → schema ∈ schemas →
  (L + J + 11 + n ≤ length (ss_env (wd_session w)))%nat →
  (∃ id e, due (execs (key schema) σ) id e) →
  ∃ w', in_tx_io (claim_one (E:=Empty_set) rng ctx worker_id schema) w = (Ok true, w')
    ∧ let s' := wd_session w' in
      ss_begin s' = None ∧ ss_failed s' = false ∧ served schema σ (ss_store s')
      ∧ env_calm now (ss_env s') ∧ (n ≤ length (ss_env s'))%nat
      ∧ ∃ t, st_tenants (ss_store s') !! key schema = Some t ∧ tenant_calm L J now (ss_env s') t.
Proof.
  intros Hst Hrd Hin Hlen Hdue.
  destruct (claim_one_claims _ _ (S n) _ _ Hst Hrd Hin ltac:(lia) Hdue)
    as (id & e & j & w2 & [Hd Hmin _ Hc2 Hx2 _ Ho2 _] & E).
  set (e1 := claim_update now worker_id e) in *.
  destruct (calm_process (db_of schema) id e1 (dispatch_key j (claimed_row id e1)) (e_job_id e) (S n) w2
    eq_refl Hc2) as (w3 & e' & Ep & Hc3 & Ho & He' & Ho3).
  { cbn [db_schema db_prefix]. by rewrite Hx2, lookup_insert_eq. }
  cbn [db_schema db_prefix] in He', Ho3.
  destruct (run_commits (db_of schema) id e1 j _ n w2 w3 Ep Hc3) as (w' & E' & _ & Hb & Hf & Hs & Hrest).
  cbv zeta in Hrest. destruct Hrest as (He & Hl & Ht). rewrite Hs in Ht.
  exists w'. split; [unfold in_tx_io in *; by rewrite E|]. cbv zeta. rewrite Hs.
  split_and!; [done..| |done|done|done]. exists id, e, e'. split_and!; [done..| |].
  - by rewrite He', Hx2, insert_insert_eq.
  - intros k Hk. by rewrite Ho3, Ho2.
Qed.

(** Nothing is due: the transaction is rolled back. *)
Lemma claim_one_idle schemas schema w σ :
  started σ (wd_session w) → ready schemas σ (ss_env (wd_session w)) → schema ∈ schemas →
  (1 ≤ length (ss_env (wd_session w)))%nat →
  ¬ (∃ id e, due (execs (key schema) σ) id e) →
  ∃ w', in_tx_io (claim_one (E:=Empty_set) rng ctx worker_id schema) w = (Ok false, w')
    ∧ let s' := wd_session w' in
      ss_begin s' = None ∧ ss_failed s' = false ∧ ss_store s' = σ
      ∧ ss_env s' = tail (ss_env (wd_session w)) ∧ ss_locked s' = locked.
Proof.
  intros [Hb Hs Ha Hn Hlk] [Hok Hrows Hsch [Henv _]] Hin Hlen Hnone.
  rewrite list.Forall_forall in Hsch. destruct (Hsch _ Hin) as (_ & t & Ht & Htc).
  rewrite (execs_lookup _ _ _ Ht) in Hnone.
  exists (set_session (end_with σ (advance (wd_session w))) w).
  unfold in_tx_io, claim_one. cbv zeta. unfold se_bind at 1, se_try at 1, db_op at 1.
  unfold executions_claim, tstmt, stmt. rewrite Ha. unfold next_stim.
  destruct (ss_env (wd_session w)) as [|st env] eqn:Ee; [simpl in Hlen; lia|].
  apply Forall_inv in Henv as Hst. destruct Hst as [Hfault _ _]. cbn [hd]. rewrite Hfault.
  assert (in_transaction (wd_session w) = true) as Ht1 by (by apply bool_decide_eq_true; rewrite Hb).
  assert (ss_store (advance (wd_session w)) = σ) as Es by (unfold advance; simpl; by rewrite Ht1).
  assert (ss_now (advance (wd_session w)) = now) as En by (unfold advance; simpl; by rewrite Ht1).
  rewrite Es, En. change (ss_locked (advance (wd_session w))) with (ss_locked (wd_session w)).
  rewrite Hlk. unfold tquery. cbn [db_schema db_prefix]. rewrite Ht.
  destruct (pick_least _ _ _) as [[id e]|] eqn:Ep.
  { apply claim_pick_spec in Ep as (Hid & Hc & Hl & _). destruct Hnone. exists id, e. by split. }
  rewrite set_tenant_same by done. unfold se_ret, set_store, drop_tx, end_with.
  cbn [set_session wd_session ss_begin ss_failed ss_store ss_env ss_locked advance]. rewrite Hb, Ee.
  split; [done|]. split_and!; done.
Qed.

(** ** A whole task *)

Lemma env_calm_suffix env l env' : env = l ++ env' → env_calm now env → env_calm now env'.
Proof.
  intros -> [Hc Hu]. rewrite fmap_app in Hu. apply list.Forall_app in Hc as [_ Hc].
  apply list.NoDup_app in Hu as (_ & _ & Hu). done.
Qed.

Lemma tenant_calm_suffix env l env' t :
  env = l ++ env' → tenant_calm L J now env t → tenant_calm L J now env' t.
Proof. intros -> [Hf He Hj]. apply list.Forall_app in Hf as [_ Hf]. by split. Qed.

Lemma ready_suffix schemas σ env l env' :
  env = l ++ env' → ready schemas σ env → ready schemas σ env'.
Proof.
  intros E [Hok Hrows Hsch Henv]. split; [done|done| |by eapply env_calm_suffix].
  eapply list.Forall_impl; [exact Hsch|]. intros x (Hv & t & Ht & Htc). split; [done|].
  exists t. split; [done|]. by eapply tenant_calm_suffix.
Qed.

Lemma outcome_row e e' :
  outcome now (claim_update now worker_id e) e' → e_max_attempts e' = e_max_attempts e.
Proof. by intros []. Qed.

Lemma ready_served schemas schema σ σ' env l env' :
  env = l ++ env' → ready schemas σ env → moves σ σ' → served schema σ σ' →
  (∃ t, st_tenants σ' !! key schema = Some t ∧ tenant_calm L J now env' t) →
  ready schemas σ' env'.
Proof.
  intros E Hr Hm (id & e & e' & (He & _ & _) & _ & Ho & Hk & Hoth) Ht'.
  destruct (ready_suffix _ _ _ _ _ E Hr) as [Hok Hrows Hsch Henv].
  split; [by eapply moves_store_ok| | |done].
  - intros k id2 e2 He2. split.
    { apply (moves_execs wf_map _ _ Hm k) with (i := id2); [|done].
      intros i x Hx. by apply (Hrows k i). }
    destruct (decide (k = key schema)) as [->|Hne].
    + rewrite Hk in He2. apply lookup_insert_Some in He2 as [[<- <-]|[_ He2]].
      * rewrite (outcome_row _ _ Ho). by apply (Hrows _ _ _ He).
      * by apply (Hrows _ _ _ He2).
    + unfold execs in He2. rewrite Hoth in He2 by done. by apply (Hrows k id2).
  - apply list.Forall_forall. intros x Hx. rewrite list.Forall_forall in Hsch.
    destruct (Hsch x Hx) as (Hv & t & Ht & Htc). split; [done|].
    destruct (decide (key x = key schema)) as [->|Hne]; [done|]. rewrite Hoth by done. eauto.
Qed.

(** Between two tasks. *)
Record at_rest (schemas : list string) (n : nat) (w : World) : Prop := {
  ar_begin : ss_begin (wd_session w) = None;
  ar_alive : ss_failed (wd_session w) = false;
  ar_locked : ss_locked (wd_session w) = locked;
  ar_ready : ready schemas (ss_store (wd_session w)) (ss_env (wd_session w));
  ar_length : (n ≤ length (ss_env (wd_session w)))%nat;
}.

Lemma at_rest_le schemas n m w : (m ≤ n)%nat → at_rest schemas n w → at_rest schemas m w.
Proof. intros Hle []. split; try done. lia. Qed.

Lemma calm_begin schemas schema n w :
  at_rest schemas (S n) w → schema ∈ schemas → ∃ w1,
    se_try (F:=Empty_set) (db_op (scoped_transaction schema)) w = (Ok (inl tt), w1)
    ∧ started (ss_store (wd_session w)) (wd_session w1)
    ∧ ready schemas (ss_store (wd_session w)) (ss_env (wd_session w1))
    ∧ (n ≤ length (ss_env (wd_session w1)))%nat.
Proof.
  intros [Hb Ha Hl Hr Hlen] Hin. pose proof Hr as [Hok Hrows Hsch [Henv _]].
  rewrite list.Forall_forall in Hsch. destruct (Hsch _ Hin) as (Hv & _).
  unfold se_try, db_op, scoped_transaction. rewrite Hv. unfold next_stim.
  destruct (ss_env (wd_session w)) as [|st env] eqn:Ee; [simpl in Hlen; lia|].
  apply Forall_inv in Henv as [Hfault Hnow Hoth]. cbn [hd]. rewrite Hfault.
  assert (in_transaction (wd_session w) = false) as Ht by (unfold in_transaction; by rewrite Hb).
  eexists. split; [reflexivity|]. unfold begin_at, advance, next_stim.
  cbn [set_session wd_session ss_begin ss_failed ss_now ss_env ss_store ss_locked].
  rewrite Ee, Ht. cbn [hd tail]. rewrite Hoth. split_and!; [by split| |simpl in Hlen; lia].
  by apply (ready_suffix _ _ (st :: env) [st]).
Qed.

(** COMMIT or ROLLBACK publish moves. *)
Lemma started_moves schema w σ :
  started σ (wd_session w) → env_calm now (ss_env (wd_session w)) →
  let s' := wd_session (in_tx_io (claim_one (E:=Empty_set) rng ctx worker_id schema) w).2 in
  (∃ l, ss_env (wd_session w) = l ++ ss_env s') ∧ (ss_begin s' = None → moves σ (ss_store s')).
Proof.
  intros [Hb Hs _ _ _] [Hc _]. cbv zeta. split.
  - pose proof (task_in_tx _ _ (tf_drop _ env_task_frame)
      (task_claim_one (E:=Empty_set) rng ctx worker_id _ schema env_task_frame) w) as Henv.
    exact Henv.
  - destruct (task_in_tx (safe moves) _ (safe_drop_tx moves) (claim_one_moves (E:=Empty_set) rng ctx worker_id schema) w)
      as (_ & _ & HT).
    + eapply list.Forall_impl; [exact Hc|]. intros st [_ _ Ho] σ0. rewrite Ho. reflexivity.
    + unfold tx_ok, committed. rewrite Hb, Hs. reflexivity.
    + intros Hb'. unfold committed in HT. by rewrite Hb, Hb' in HT.
Qed.

(** The statements a task may need. *)
Definition task_cost (schemas : list string) : nat := 2 * length schemas + (L + J + 11).

Definition some_due (schema : string) (σ : Store) : Prop := ∃ id e, due (execs (key schema) σ) id e.

#[global] Instance some_due_dec schema σ : Decision (some_due schema σ).
Proof.
  destruct (decide (map_Exists (λ id e, claimable now e ∧ id ∉ locked) (execs (key schema) σ)))
    as [Hex|Hno]; [left|right].
  - destruct Hex as (id & e & He & Hc & Hl). by exists id, e.
  - intros (id & e & He & Hc & Hl). apply Hno. by exists id, e.
Defined.

(** A task serves an execution if one is due, and otherwise changes nothing. *)
Lemma task_serves all schemas n w :
  (∀ x, x ∈ schemas → x ∈ all) → at_rest all (task_cost schemas + n) w →
  ∃ found w', claim_and_process (E:=Empty_set) rng ctx worker_id schemas w = (Ok found, w')
    ∧ at_rest all n w'
    ∧ if found
      then ∃ schema, schema ∈ schemas ∧ served schema (ss_store (wd_session w)) (ss_store (wd_session w'))
      else ss_store (wd_session w') = ss_store (wd_session w)
           ∧ ∀ schema, schema ∈ schemas → ¬ some_due schema (ss_store (wd_session w)).
Proof.
  unfold task_cost. revert w. induction schemas as [|schema schemas IH]; intros w Hall Hr.
  { exists false, w. split; [done|]. split; [|split; [done|set_solver]].
    destruct Hr. split; try done. simpl in *. lia. }
  assert (schema ∈ all) as Hin by (apply Hall; left).
  destruct (calm_begin all schema (2 * length schemas + (L + J + 12) + n) w) as
    (w1 & E1 & Hst & Hrd & Hlen).
  { destruct Hr. split; try done. simpl in *. lia. }
  { done. }
  pose proof (started_moves schema w1 _ Hst (rd_env _ _ _ Hrd)) as [[l El] Hmv].
  cbn [claim_and_process]. unfold se_bind at 1. rewrite E1.
  destruct (decide (some_due schema (ss_store (wd_session w)))) as [Hd|Hd].
  - destruct (claim_one_serves all schema (2 * length schemas + 1 + n) w1 _ Hst Hrd Hin ltac:(lia) Hd)
      as (w2 & E2 & Hb2 & Hf2 & Hsv & He2 & Hl2 & Ht2).
    unfold se_bind. rewrite E2 in *. cbn [snd] in *. exists true, w2. split; [done|].
    split; [|exists schema; split; [left|done]]. split; [done|done| | |lia].
    + pose proof (task_in_tx _ _ (tf_drop _ locks_task_frame)
        (task_claim_one (E:=Empty_set) rng ctx worker_id _ schema locks_task_frame) w1) as Hlk.
      unfold on_session, same_locks in Hlk. rewrite E2 in Hlk. cbn [snd] in Hlk.
      rewrite Hlk. by destruct Hst.
    + by eapply ready_served; [exact El|exact Hrd|apply Hmv|exact Hsv|].
  - destruct (claim_one_idle all schema w1 _ Hst Hrd Hin ltac:(lia) Hd)
      as (w2 & E2 & Hb2 & Hf2 & Hs2 & He2 & Hl2).
    unfold se_bind. rewrite E2. destruct (IH w2) as (found & w' & E & Hrest & Hres).
    { intros x Hx. apply Hall. by right. }
    { split; [done..| |].
      - rewrite Hs2, He2. apply (ready_suffix _ _ (ss_env (wd_session w1)) (take 1 (ss_env (wd_session w1)))); [|done].
        by destruct (ss_env (wd_session w1)).
      - rewrite He2. destruct (ss_env (wd_session w1)); simpl in *; lia. }
    exists found, w'. split; [done|]. split; [done|]. rewrite Hs2 in Hres. destruct found.
    + destruct Hres as (x & Hx & Hsv). exists x. split; [by right|done].
    + destruct Hres as [Hs Hnone]. split; [done|]. intros x [->|Hx]%elem_of_cons; [done|by apply Hnone].
Qed.

(** ** The backlog *)

(** The runs an execution that is due may still have at this instant. *)
Definition weight (id : string) (e : Execution) : nat :=
  if bool_decide (claimable now e ∧ id ∉ locked)
  then Z.to_nat (Z.max 1 (e_max_attempts e) - e_attempt_count e) else 0%nat.

Definition backlog_of (m : gmap string Execution) : nat :=
  sum_list_with (λ r, weight r.1 r.2) (map_to_list m).

Definition backlog (schemas : list string) (σ : Store) : nat :=
  sum_list_with (λ schema, backlog_of (execs (key schema) σ)) schemas.

Lemma sum_list_with_permutation {A} (f : A → nat) l1 l2 :
  l1 ≡ₚ l2 → sum_list_with f l1 = sum_list_with f l2.
Proof. induction 1; simpl; lia. Qed.

Lemma sum_list_with_elem {A} (f : A → nat) l x : x ∈ l → (f x ≤ sum_list_with f l)%nat.
Proof. induction 1 as [|y z l _ IH]; simpl; lia. Qed.

Lemma backlog_of_insert m id e e' :
  m !! id = Some e → (weight id e' < weight id e)%nat →
  (backlog_of (<[id := e']> m) < backlog_of m)%nat.
Proof.
  intros He Hw. unfold backlog_of.
  assert (∀ x, sum_list_with (λ r, weight r.1 r.2) (map_to_list (<[id:=x]> m))
               = (weight id x + backlog_of (delete id m))%nat) as Hs.
  { intros x. rewrite <-insert_delete_eq.
    by rewrite (sum_list_with_permutation _ _ _ (map_to_list_insert _ id x (lookup_delete_eq m id))). }
  rewrite Hs. rewrite <-(insert_id m id e He) at 2. rewrite Hs. lia.
Qed.

Lemma due_weight e id : exec_wf e → claimable now e → id ∉ locked →
  (0 < weight id e)%nat ∧ weight id e = Z.to_nat (Z.max 1 (e_max_attempts e) - e_attempt_count e).
Proof.
  intros [Ha Hn Hr Hc] Hcl Hl. unfold weight. rewrite bool_decide_eq_true_2 by done.
  destruct Hcl as [Hs _].
  assert (e_attempt_count e = 0 ∨ e_attempt_count e < e_max_attempts e).
  { set_unfold. destruct Hs as [Hs|[Hs|[Hs|[]]]]; auto. }
  split; [lia|done].
Qed.

(** A run makes it lighter. *)
Lemma outcome_weight id e e' :
  exec_wf e → claimable now e → id ∉ locked →
  outcome now (claim_update now worker_id e) e' → (weight id e' < weight id e)%nat.
Proof.
  intros Hwf Hc Hl Ho. destruct (due_weight e id Hwf Hc Hl) as [Hpos Hw].
  assert (∀ x, e_status x ∉ ["QUEUED"; "RETRYING"; "PENDING"] → weight id x = 0%nat) as Hz.
  { intros x Hx. unfold weight. rewrite bool_decide_eq_false_2; [done|]. by intros [[? _] _]. }
  destruct Ho as [out| |b Hlt]; [rewrite Hz by (simpl; set_solver); lia..|].
  rewrite Hw. unfold weight. case_bool_decide; [|lia]. simpl in *. lia.
Qed.

(** Nothing due, nothing to do. *)
Lemma idle_backlog schemas σ :
  (∀ schema, schema ∈ schemas → ¬ some_due schema σ) → backlog schemas σ = 0%nat.
Proof.
  intros Hnone. unfold backlog.
  assert (∀ {A} (f : A → nat) l, (∀ x, x ∈ l → f x = 0%nat) → sum_list_with f l = 0%nat) as Hz.
  { intros A f l. induction l as [|x l IH]; intros Hf; simpl; [done|].
    rewrite Hf, IH by set_solver. done. }
  apply Hz. intros schema Hin. apply Hz. intros [id e] He%elem_of_map_to_list. simpl.
  unfold weight. rewrite bool_decide_eq_false_2; [done|]. intros [Hc Hl].
  apply (Hnone _ Hin). by exists id, e.
Qed.

Lemma served_backlog schemas all schema σ σ' env :
  ready all σ env → NoDup schemas → schema ∈ schemas → served schema σ σ' →
  (backlog schemas σ' < backlog schemas σ)%nat.
Proof.
  intros [_ Hrows _ _] Hnd Hin (id & e & e' & (He & Hc & Hl) & _ & Ho & Hk & Hoth).
  assert (backlog_of (execs (key schema) σ') < backlog_of (execs (key schema) σ))%nat as Hlt.
  { rewrite Hk. eapply backlog_of_insert; [done|]. eapply outcome_weight; [|done..].
    by apply (Hrows (key schema) id). }
  assert (∀ x, x ≠ schema → execs (key x) σ' = execs (key x) σ) as Hsame.
  { intros x Hx. unfold execs. rewrite Hoth; [done|]. congruence. }
  unfold backlog. clear - Hnd Hin Hlt Hsame. induction Hnd as [|x l Hnin _ IH]; [set_solver|].
  simpl. apply elem_of_cons in Hin as [<-|Hin].
  - enough (sum_list_with (λ schema, backlog_of (execs (key schema) σ')) l
            = sum_list_with (λ schema, backlog_of (execs (key schema) σ)) l) by lia.
    clear - Hnin Hsame. induction l as [|y l IH]; simpl; [done|].
    rewrite Hsame by set_solver. rewrite IH by set_solver. done.
  - rewrite (Hsame x) by set_solver. specialize (IH Hin). lia.
Qed.

Lemma backlog_zero schemas all schema σ env :
  ready all σ env → backlog schemas σ = 0%nat → schema ∈ schemas → ¬ some_due schema σ.
Proof.
  intros [_ Hrows _ _] Hz Hin (id & e & He & Hc & Hl).
  pose proof (sum_list_with_elem (λ schema, backlog_of (execs (key schema) σ)) _ _ Hin) as Hle1.
  pose proof (sum_list_with_elem (λ r, weight r.1 r.2) (map_to_list (execs (key schema) σ)) (id, e)) as Hle2.
  rewrite elem_of_map_to_list in Hle2. specialize (Hle2 He). fold (backlog_of (execs (key schema) σ)) in Hle2.
  destruct (due_weight e id) as [Hpos _]; [by apply (Hrows (key schema) id)|done..|].
  unfold backlog in Hz. simpl in *. lia.
Qed.

(** ** Task after task *)

Fixpoint run_tasks (schemas : list string) (n : nat) (w : World) : World :=
  match n with
  | O => w
  | S n => run_tasks schemas n
             (claim_and_process (E:=Empty_set) rng ctx worker_id schemas w).2
  end.

(** The later row of an execution: the same, or it has run and has an outcome. *)
Definition progressed (e e' : Execution) : Prop :=
  e' = e ∨ e_attempt_count e < e_attempt_count e' ∧ e_status e' ∈ ["SUCCESS"; "FAILED"; "RETRYING"].

Definition progress (σ σ' : Store) : Prop := ∀ k id e, execs k σ !! id = Some e →
  ∃ e', execs k σ' !! id = Some e' ∧ progressed e e'.

#[global] Instance progress_preorder : PreOrder progress.
Proof.
  split.
  - intros σ k id e He. exists e. split; [done|by left].
  - intros σ1 σ2 σ3 H12 H23 k id e (e2 & He2 & Hp2)%H12.
    destruct (H23 _ _ _ He2) as (e3 & He3 & Hp3). exists e3. split; [done|].
    destruct Hp3 as [->|[Hc Hs]]; [done|]. right. destruct Hp2 as [->|[Hc2 _]]; split; [done|done|lia|done].
Qed.

Lemma served_progress schema σ σ' : served schema σ σ' → progress σ σ'.
Proof.
  intros (id & e & e' & (He & _ & _) & _ & Ho & Hk & Hoth) k id2 e2 He2.
  destruct (decide (k = key schema)) as [->|Hne].
  - rewrite Hk. destruct (decide (id = id2)) as [->|Hid].
    + rewrite lookup_insert_eq. simplify_eq. exists e'. split; [done|right].
      destruct Ho as [out| |b Hlt]; simpl in *; [split; [lia|set_solver]..|].
      rewrite bool_decide_eq_false_2 by lia. split; [lia|set_solver].
    + rewrite lookup_insert_ne by done. exists e2. split; [done|by left].
  - unfold execs in *. rewrite Hoth by done. exists e2. split; [done|by left].
Qed.

Lemma run_tasks_drain schemas b n w :
  NoDup schemas → at_rest schemas (b * task_cost schemas + n) w →
  (backlog schemas (ss_store (wd_session w)) ≤ b)%nat →
  let w' := run_tasks schemas b w in
  at_rest schemas n w' ∧ progress (ss_store (wd_session w)) (ss_store (wd_session w'))
  ∧ ∀ schema, schema ∈ schemas → ¬ some_due schema (ss_store (wd_session w')).
Proof.
  intros Hnd. revert w. induction b as [|b IH]; intros w Hr Hb; simpl.
  { split; [done|]. split; [reflexivity|]. intros schema Hin.
    eapply (backlog_zero schemas); [apply (ar_ready _ _ _ Hr)|lia|done]. }
  destruct (task_serves schemas schemas (b * task_cost schemas + n) w) as
    (found & w1 & E & Hr1 & Hres); [done| |].
  { destruct Hr as [??? ? Hl]. split; try done. rewrite Nat.mul_succ_l in Hl. lia. }
  rewrite E. cbn [snd].
  assert (backlog schemas (ss_store (wd_session w1)) ≤ b
          ∧ progress (ss_store (wd_session w)) (ss_store (wd_session w1)))%nat as [Hb1 Hp1].
  { destruct found.
    - destruct Hres as (schema & Hin & Hsv). split; [|by eapply served_progress].
      pose proof (served_backlog _ _ _ _ _ _ (ar_ready _ _ _ Hr) Hnd Hin Hsv). lia.
    - destruct Hres as [-> Hnone]. split; [|reflexivity].
      enough (backlog schemas (ss_store (wd_session w)) = 0%nat) by lia.
      by apply idle_backlog. }
  destruct (IH w1 Hr1 Hb1) as (Hr' & Hp' & Hd'). split; [done|]. split; [by etrans|done].
Qed.
End task.
