(* ===== verification/PollLoop.v ===== *)
(** * The polling loop ([poller::run], [start_worker], [WorkerHandle])

    The loop as a state machine: [poll_next] takes an event -- a timer, a permit, the
    answer of the schema provider, the end of a task, a cancellation -- to the next
    state.  Tasks run concurrently; what each does to the database is the
    specification [committed_outcome]. *)

From S2P Require Export WorkerSpec.
#[local] Open Scope Z_scope.

(** ** State *)

(** Where [run] is. *)
Inductive PollPc :=
  | PTop                    (* the head of [loop] *)
  | PIdle                   (* select!: sleep or cancelled *)
  | PAcquire                (* select!: cancelled or a permit *)
  | PFetch                  (* get_active_schemas, holding the permit *)
  | PBackoff                (* select!: sleep or cancelled, after a failed fetch *)
  | PDrain                  (* behind the loop: waiting for every permit *)
  | PDone (clean : bool).   (* returned; [clean]: all permits came before the timeout *)

#[export] Instance PollPc_eq_dec : EqDecision PollPc.
Proof. solve_decision. Defined.

Record PollState := {
  pl_pc : PollPc;
  pl_idle : bool;                    (* the flag the tasks share with the loop *)
  pl_health : WorkerHealth;          (* the last tick, and the permits left *)
  pl_tasks : list (list string);     (* the tasks in flight, by their schemas *)
  pl_cancelled : bool;               (* the token *)
}.

Inductive PollEvent :=
  | EvTick (now : Z)                          (* health.tick(), then the test of idle *)
  | EvSlept                                   (* sleep(poll_interval) is over *)
  | EvCancelled                               (* select! takes the branch cancelled() *)
  | EvPermit                                  (* acquire_owned() *)
  | EvSchemas (r : option (list string))      (* get_active_schemas(): Ok, or Err *)
  | EvTask (i : nat) (found : option bool)    (* a task returns [found], or panics *)
  | EvCancel                                  (* cancel.cancel() *)
  | EvAllPermits                              (* acquire_many(max_concurrent as u32) *)
  | EvTimeout.                                (* shutdown_timeout_sec *)

Definition with_permits (d : Z) (h : WorkerHealth) : WorkerHealth := {|
  wh_started := wh_started h; wh_last_tick_ms := wh_last_tick_ms h;
  wh_permits := wh_permits h + d; wh_stale_after := wh_stale_after h |}.

Definition goto (pc : PollPc) (s : PollState) : PollState := {|
  pl_pc := pc; pl_idle := pl_idle s; pl_health := pl_health s; pl_tasks := pl_tasks s;
  pl_cancelled := pl_cancelled s |}.
Definition set_idle (b : bool) (s : PollState) : PollState := {|
  pl_pc := pl_pc s; pl_idle := b; pl_health := pl_health s; pl_tasks := pl_tasks s;
  pl_cancelled := pl_cancelled s |}.
Definition set_health (h : WorkerHealth) (s : PollState) : PollState := {|
  pl_pc := pl_pc s; pl_idle := pl_idle s; pl_health := h; pl_tasks := pl_tasks s;
  pl_cancelled := pl_cancelled s |}.
Definition set_tasks (l : list (list string)) (s : PollState) : PollState := {|
  pl_pc := pl_pc s; pl_idle := pl_idle s; pl_health := pl_health s; pl_tasks := l;
  pl_cancelled := pl_cancelled s |}.

(** [start_worker] and [main]: the health with its semaphore, and a fresh token. *)
Definition poll_init (now max_concurrent poll_interval stale_floor : Z) : PollState := {|
  pl_pc := PTop; pl_idle := false;
  pl_health := WorkerHealth_new now max_concurrent poll_interval stale_floor;
  pl_tasks := []; pl_cancelled := false |}.

(** The library client: the configuration is made of the caller's, and of the environment
    for the health. *)
Definition start_worker (env : Env) (ctx : PipelineContext) (wc : WorkerConfig) (now : Z) :
    PollState :=
  let config := build_app_config env ctx wc in
  poll_init now (wk_max_concurrent (ac_worker config)) (wk_poll_interval_ms (ac_worker config))
    (he_stale_after_floor_ms (ac_health config)).

(** [WorkerHandle::shutdown], or the signal handler of [main]. *)
Definition cancel_token (s : PollState) : PollState := {|
  pl_pc := pl_pc s; pl_idle := pl_idle s; pl_health := pl_health s; pl_tasks := pl_tasks s;
  pl_cancelled := true |}.

(** The end of the spawned future: [idle.store(true)] when nothing was found, then the
    permit is dropped; a panic drops the permit too. *)
Definition finish_task (i : nat) (found : option bool) (s : PollState) : PollState :=
  let s := match found with Some false => set_idle true s | _ => s end in
  set_health (with_permits 1 (pl_health s)) (set_tasks (delete i (pl_tasks s)) s).

(** [None]: the event cannot happen here. *)
Definition poll_next (max_concurrent : Z) (ev : PollEvent) (s : PollState) : option PollState :=
  match ev, pl_pc s with
  | EvTick now, PTop =>
      let s := set_health (tick now (pl_health s)) s in
      Some (goto (if pl_idle s then PIdle else PAcquire) s)
  | EvSlept, PIdle => Some (goto PAcquire (set_idle false s))
  | EvSlept, PBackoff => Some (goto PTop s)
  | EvCancelled, (PIdle | PAcquire | PBackoff) =>
      if pl_cancelled s then Some (goto PDrain s) else None
  | EvPermit, PAcquire =>
      if bool_decide (0 < wh_permits (pl_health s))
      then Some (goto PFetch (set_health (with_permits (-1) (pl_health s)) s)) else None
  | EvSchemas (Some schemas), PFetch => Some (goto PTop (set_tasks (schemas :: pl_tasks s) s))
  | EvSchemas None, PFetch =>
      Some (goto PBackoff (set_health (with_permits 1 (pl_health s)) s))
  | EvTask i found, _ =>
      if bool_decide (i < length (pl_tasks s))%nat then Some (finish_task i found s) else None
  | EvCancel, _ => Some (cancel_token s)
  | EvAllPermits, PDrain =>
      if bool_decide (as_u32 max_concurrent ≤ wh_permits (pl_health s))
      then Some (goto (PDone true) s) else None
  | EvTimeout, PDrain => Some (goto (PDone false) s)
  | _, _ => None
  end.

Definition poll_step (max_concurrent : Z) : relation PollState := λ s s',
  ∃ ev, poll_next max_concurrent ev s = Some s'.

(** ** Permits *)

(** The permit the loop itself holds. *)
Definition held (pc : PollPc) : Z := match pc with PFetch => 1 | _ => 0 end.

Definition permits_ok (max_concurrent : Z) (s : PollState) : Prop :=
  0 ≤ wh_permits (pl_health s)
  ∧ wh_permits (pl_health s) + Z.of_nat (length (pl_tasks s)) + held (pl_pc s) = max_concurrent.

(** Splits a step into the cases of [poll_next]. *)
Ltac poll_cases :=
  repeat match goal with
  | E : (if ?b then _ else _) = Some _ |- _ => destruct b eqn:?
  | E : Some _ = Some _ |- _ => injection E as <-
  | E : None = Some _ |- _ => discriminate E
  | E : match ?x with _ => _ end = Some _ |- _ => destruct x eqn:?
  end.

Lemma finish_task_fields i found s : (i < length (pl_tasks s))%nat →
  pl_pc (finish_task i found s) = pl_pc s
  ∧ wh_permits (pl_health (finish_task i found s)) = wh_permits (pl_health s) + 1
  ∧ length (pl_tasks s) = S (length (pl_tasks (finish_task i found s)))
  ∧ pl_cancelled (finish_task i found s) = pl_cancelled s.
Proof.
  intros Hi. unfold finish_task.
  destruct found as [[]|]; cbn [set_health set_tasks set_idle pl_pc pl_health pl_tasks
    with_permits wh_permits pl_cancelled]; split_and!; try done;
    rewrite length_delete by (by apply lookup_lt_is_Some_2); lia.
Qed.

(** A permit is in the semaphore, with a task, or with the loop. *)
Lemma permits_step max s s' : poll_step max s s' → permits_ok max s → permits_ok max s'.
Proof.
  intros [ev E] [Hp Hs]. unfold poll_next in E.
  poll_cases; bool_prop; unfold permits_ok;
    try (match goal with H : (_ < length _)%nat |- _ =>
           destruct (finish_task_fields _ found _ H) as (Ef & Ep & El & _) end;
         rewrite Ef, Ep; rewrite El in Hs; split; lia);
    cbn in *; try destruct (pl_idle s); cbn; lia.
Qed.

Lemma permits_run max s s' : rtc (poll_step max) s s' → permits_ok max s → permits_ok max s'.
Proof. induction 1; eauto using permits_step. Qed.

Lemma permits_init now max interval floor :
  0 ≤ max → permits_ok max (poll_init now max interval floor).
Proof. intros H. split; simpl; lia. Qed.

(** ** Shutdown *)

(** The loop has returned after collecting every permit. *)
Definition shut_down (s : PollState) : Prop := pl_pc s = PDone true ∧ pl_tasks s = [].

Lemma shut_down_step max s s' : poll_step max s s' → shut_down s → shut_down s'.
Proof.
  intros [ev E] [Hpc Ht]. unfold poll_next in E. rewrite Hpc, Ht in E.
  destruct ev as [| | | |[]| | | |]; try discriminate E; injection E as <-; by split.
Qed.

Lemma finish_task_pc i found s : pl_pc (finish_task i found s) = pl_pc s.
Proof. by destruct found as [[]|]. Qed.

Lemma clean_shutdown_step max s s' : 0 ≤ max < 2 ^ 32 →
  poll_step max s s' → permits_ok max s → pl_pc s ≠ PDone true → pl_pc s' = PDone true →
  shut_down s'.
Proof.
  intros Hm [ev E] [Hp Hs] Hne Hpc. unfold poll_next in E.
  poll_cases; bool_prop; rewrite ?finish_task_pc in Hpc; cbn in Hpc; try congruence;
    try (destruct (pl_idle s); discriminate Hpc).
  split; [done|]. cbn. unfold as_u32 in *. rewrite Z.mod_small in * by lia.
  cbn in Hs. apply length_zero_iff_nil. lia.
Qed.

(** What a database, a loop and its tasks do together: a step of the loop, a step of
    the other clients, or a task in flight commits an outcome in one of its schemas. *)
Inductive worker_step (max_concurrent : Z) (prefix worker_id : string) (others : relation Store) :
    relation (PollState * Store) :=
  | WS_loop s s' σ : poll_step max_concurrent s s' →
      worker_step max_concurrent prefix worker_id others (s, σ) (s', σ)
  | WS_others s σ σ' : others σ σ' →
      worker_step max_concurrent prefix worker_id others (s, σ) (s, σ')
  | WS_commit s schemas schema now locked σ σ' : schemas ∈ pl_tasks s → schema ∈ schemas →
      committed_outcome (schema, prefix) worker_id now locked σ σ' →
      worker_step max_concurrent prefix worker_id others (s, σ) (s, σ').

Lemma worker_step_permits max prefix wid others x y :
  worker_step max prefix wid others x y → permits_ok max x.1 → permits_ok max y.1.
Proof. destruct 1; [by apply permits_step|done..]. Qed.

Lemma worker_run_permits max prefix wid others x y :
  rtc (worker_step max prefix wid others) x y → permits_ok max x.1 → permits_ok max y.1.
Proof. induction 1; eauto using worker_step_permits. Qed.

Lemma quiet_run max prefix wid others x y :
  rtc (worker_step max prefix wid others) x y → shut_down x.1 →
  shut_down y.1 ∧ rtc others x.2 y.2.
Proof.
  induction 1 as [x|x y z Hstep _ IH]; intros Hq; [by split|].
  destruct Hstep as [s s' σ Hs|s σ σ' Ho|s schemas schema now locked σ σ' Hin].
  - apply IH. by eapply shut_down_step.
  - destruct (IH Hq) as [? ?]. split; [done|]. by eapply rtc_l.
  - cbn in Hq. destruct Hq as [_ E]. rewrite E in Hin. by apply elem_of_nil in Hin.
Qed.

Lemma done_is_shut_down max prefix wid others x y : 0 ≤ max < 2 ^ 32 →
  rtc (worker_step max prefix wid others) x y → permits_ok max x.1 →
  (pl_pc x.1 = PDone true → shut_down x.1) → pl_pc y.1 = PDone true → shut_down y.1.
Proof.
  intros Hm. induction 1 as [x|x y z Hstep _ IH]; intros Hp Hx Hpc; [auto|].
  apply IH; [by eapply worker_step_permits|intros Hy|done].
  destruct Hstep as [s s' σ Hs|s σ σ' Ho|s schemas schema now locked σ σ' Hin]; [|by auto..].
  destruct (decide (pl_pc s = PDone true)) as [Hd|Hd].
  - eapply shut_down_step; [exact Hs|auto].
  - by eapply clean_shutdown_step.
Qed.

(** ** The loop keeps polling *)

(** The events that end a wait: without a cancellation and without a failed fetch. *)
Definition undisturbed (ev : PollEvent) : bool :=
  match ev with EvCancel | EvSchemas None => false | _ => true end.

Definition spawns (ev : PollEvent) : bool :=
  match ev with EvSchemas (Some _) => true | _ => false end.

(** Inside the loop, that is, not in the shutdown. *)
Definition polling (pc : PollPc) : bool :=
  match pc with PDrain | PDone _ => false | _ => true end.

(** How far the next [spawn] is, the tasks in flight aside. *)
Definition stage (pc : PollPc) : nat :=
  match pc with PBackoff => 4 | PTop => 3 | PIdle => 2 | PAcquire => 1 | _ => 0 end.
Definition distance (s : PollState) : nat := (length (pl_tasks s) + stage (pl_pc s))%nat.

(** In the loop and not cancelled. *)
Definition awake (s : PollState) : Prop :=
  polling (pl_pc s) = true ∧ pl_cancelled s = false.

Lemma approach max ev s s' : undisturbed ev = true → spawns ev = false → awake s →
  poll_next max ev s = Some s' → awake s' ∧ (distance s' < distance s)%nat.
Proof.
  intros Hu Hn [Hpc Hc] E. unfold poll_next in E.
  poll_cases; bool_prop; try discriminate; try congruence;
    try (match goal with H : (_ < length _)%nat |- _ =>
           destruct (finish_task_fields _ found _ H) as (Ef & _ & El & Hcan) end;
         unfold awake, distance; rewrite Ef, Hcan, El; split; [done|lia]);
    unfold awake, distance; cbn; try destruct (pl_idle s); cbn;
    repeat match goal with H : pl_pc _ = _ |- _ => rewrite H in * end; cbn in *; split; (done || lia).
Qed.

(** Some event that brings the loop on can happen. *)
Lemma can_go_on max s : 0 < max → permits_ok max s → awake s →
  ∃ ev s', undisturbed ev = true ∧ poll_next max ev s = Some s'.
Proof.
  intros Hm [Hp Hs] [Hpc _]. destruct (pl_pc s) eqn:Epc; try discriminate.
  - eexists (EvTick 0), _. split; [done|]. unfold poll_next. by rewrite Epc.
  - eexists EvSlept, _. split; [done|]. unfold poll_next. by rewrite Epc.
  - destruct (decide (0 < wh_permits (pl_health s))) as [Hw|Hw].
    + eexists EvPermit, _. split; [done|]. unfold poll_next. rewrite Epc.
      by rewrite bool_decide_eq_true_2.
    + eexists (EvTask 0 None), _. split; [done|]. unfold poll_next.
      rewrite bool_decide_eq_true_2; [done|]. cbn in Hs. lia.
  - eexists (EvSchemas (Some [])), _. split; [done|]. unfold poll_next. by rewrite Epc.
  - eexists EvSlept, _. split; [done|]. unfold poll_next. by rewrite Epc.
Qed.

(** A run of the loop over a list of events. *)
Fixpoint poll_run (max_concurrent : Z) (evs : list PollEvent) (s : PollState) : option PollState :=
  match evs with
  | [] => Some s
  | ev :: evs => s' ← poll_next max_concurrent ev s; poll_run max_concurrent evs s'
  end.

(** Without a spawn the events run out. *)
Lemma no_spawn_is_short max evs s s' : awake s →
  Forall (λ ev, undisturbed ev = true ∧ spawns ev = false) evs →
  poll_run max evs s = Some s' → awake s' ∧ (length evs + distance s' ≤ distance s)%nat.
Proof.
  revert s. induction evs as [|ev evs IH]; intros s Ha Hf E; [by injection E as <-|].
  apply list.Forall_cons in Hf as [[Hu Hn] Hf]. cbn [poll_run] in E.
  destruct (poll_next max ev s) as [s1|] eqn:E1; [|done]. cbn in E.
  destruct (approach _ _ _ _ Hu Hn Ha E1) as [Ha1 Hd].
  destruct (IH _ Ha1 Hf E) as [Ha' Hd']. split; [done|]. cbn [length]. lia.
Qed.

Lemma poll_run_permits max evs s s' :
  poll_run max evs s = Some s' → permits_ok max s → permits_ok max s'.
Proof.
  revert s. induction evs as [|ev evs IH]; intros s E; [by injection E as <-|]. cbn in E.
  destruct (poll_next max ev s) as [s1|] eqn:E1; [|done]. cbn in E. intros Hp.
  eapply IH; [done|]. eapply permits_step; [by exists ev|done].
Qed.
