(* ===== verification/SdkContract.v ===== *)
(** * The contract between the SDK and the API

    What the SDK reads out of the objects the API writes, what its requests mean to the
    API, and which routes they name. *)

From Stdlib Require Import Ascii.
From Stdlib Require OrderedTypeEx.
From S2P Require Export SdkOps ApiCatalog Clients.
#[local] Open Scope Z_scope.

(** ** Objects the API writes have each key once *)

Definition key_lt (kv kv' : string * json) : Prop := String.compare kv.1 kv'.1 = Lt.

#[local] Instance key_lt_trans : Transitive key_lt.
Proof.
  intros [x ?] [y ?] [z ?]. unfold key_lt. simpl.
  change String.compare with OrderedTypeEx.String_as_OT.cmp.
  rewrite !OrderedTypeEx.String_as_OT.cmp_lt. apply OrderedTypeEx.String_as_OT.lt_trans.
Qed.

Lemma obj_insert_elem k v fs x : x ∈ Json.obj_insert k v fs → x = (k, v) ∨ x ∈ fs.
Proof.
  induction fs as [|[k' v'] fs IH]; simpl; [set_solver|].
  destruct (String.compare k k'); set_solver.
Qed.

Lemma obj_insert_sorted k v fs :
  StronglySorted key_lt fs → StronglySorted key_lt (Json.obj_insert k v fs).
Proof.
  induction 1 as [|[k' v'] fs Hs IH Hall]; simpl; [by repeat constructor|].
  destruct (String.compare k k') eqn:E; constructor; try done.
  - apply String.compare_eq_iff in E as ->. exact Hall.
  - by constructor.
  - constructor; [exact E|]. eapply list.Forall_impl; [exact Hall|].
    intros y Hy. by etrans; [|exact Hy].
  - rewrite list.Forall_forall in *. intros x [->|Hx]%obj_insert_elem; [|by apply Hall].
    unfold key_lt. simpl. by rewrite String.compare_antisym, E.
Qed.

Definition obj_fields (fs : list (string * json)) : list (string * json) :=
  foldl (λ acc kv, Json.obj_insert kv.1 kv.2 acc) [] fs.

Lemma obj_fields_sorted fs : StronglySorted key_lt (obj_fields fs).
Proof.
  unfold obj_fields. assert (StronglySorted key_lt []) as H by constructor. revert H.
  generalize (@nil (string * json)) as acc.
  induction fs as [|[k v] fs IH]; intros acc H; simpl; [done|].
  apply IH. by apply obj_insert_sorted.
Qed.

Section read.
Context `{!Smithy}.

Lemma field_from_none {A} k (dec : json → option (option A)) acc fs :
  Json.assoc k fs = None → field_from k dec acc fs = Some acc.
Proof.
  induction fs as [|[k' v] fs IH]; simpl; [done|].
  case_bool_decide as Hk; [done|]. by rewrite bool_decide_eq_false_2.
Qed.

Lemma field_sorted {A} k (dec : json → option (option A)) fs :
  StronglySorted key_lt fs →
  field k dec fs = match Json.assoc k fs with Some v => dec v | None => Some None end.
Proof.
  unfold field. induction 1 as [|[k' v] fs Hs IH Hall]; simpl; [done|].
  destruct (decide (k' = k)) as [->|Hk]; [|by rewrite !bool_decide_eq_false_2].
  rewrite !bool_decide_eq_true_2 by done.
  assert (Json.assoc k fs = None) as Hnone.
  { clear IH Hs. induction Hall as [|[k' v'] fs Hlt _ IH]; simpl; [done|].
    case_bool_decide as Hk; [|done]. subst k'. unfold key_lt in Hlt. simpl in Hlt.
    change String.compare with OrderedTypeEx.String_as_OT.cmp in Hlt.
    by rewrite (proj2 (OrderedTypeEx.String_as_OT.cmp_eq k k) eq_refl) in Hlt. }
  destruct (dec v) as [a|]; [|done]. by apply field_from_none.
Qed.

(** Reading a field of an object the API has written. *)
Lemma field_obj {A} k (dec : json → option (option A)) fs :
  field k dec (obj_fields fs)
  = match Json.assoc k (reverse fs) with Some v => dec v | None => Some None end.
Proof.
  rewrite field_sorted by apply obj_fields_sorted. unfold obj_fields.
  rewrite JsonLemmas.foldl_insert_assoc. by destruct (Json.assoc k (reverse fs)).
Qed.
End read.

(** Looks literal keys up in objects with literal keys. *)
Ltac assoc_in k l :=
  lazymatch l with
  | [] => constr:(@None json)
  | (k, ?v) :: _ => constr:(Some v)
  | _ :: ?l => assoc_in k l
  end.
Ltac assocs :=
  repeat match goal with
  | |- context [Json.assoc ?k ?l] => let r := assoc_in k l in change (Json.assoc k l) with r
  end; cbv iota.

(** ** Times *)

(** The timestamps the API writes can be read by the SDK and the other way round: both
    libraries write RFC 3339.  The API keeps microseconds. *)
Class SdkTimes `{!Chrono} `{!Smithy} : Prop := {
  st_read t : ∃ s, ts_json t = JString s ∧ parse_date_time s = Some (t * 1000);
  st_write t s : fmt_date_time t = Some s →
    Str.trim s = s ∧ s ≠ "" ∧ parse_from_rfc3339 s = Some (t / 1000);
}.

(** ** What the SDK sees of a job *)

Section jobs.
Context `{!Chrono} `{!Smithy} `{!SdkTimes}.

Lemma read_timestamp t : expect_timestamp_or_null (ts_json t) = Some (Some (t * 1000)).
Proof. destruct (st_read t) as (s & -> & E). simpl. by rewrite E. Qed.

Lemma read_opt_time o :
  expect_timestamp_or_null (Json.opt ts_json o) = Some ((λ t, t * 1000) <$> o).
Proof. destruct o as [t|]; [apply read_timestamp|done]. Qed.

Lemma read_opt_str o : expect_string_or_null (Json.opt_str o) = Some o.
Proof. by destruct o. Qed.

Lemma read_i32 z : expect_i32 (JInt z) = if bool_decide (i32_min ≤ z ≤ i32_max) then Some (Some z) else None.
Proof. unfold expect_i32, expect_int, int_try_from. by case_bool_decide. Qed.

Lemma read_document v : document_ok v = true → expect_document v = Some (Some v).
Proof. unfold expect_document. by intros ->. Qed.

(** The trigger and the schedule have other names in the API's object. *)
Definition seen_job (j : Job) : JobResource exact := {|
  jR_job_id := j_job_id j; jR_endpoint := j_endpoint j;
  jR_endpoint_type := EndpointTypeEnum_from (j_endpoint_type j);
  jR_trigger_type := TriggerTypeEnum_Unknown no_value;
  jR_status := JobStatusEnum_from (j_status j); jR_version := j_version j;
  jR_previous_version_id := None; jR_replaced_by_id := None;
  jR_idempotency_key := j_idempotency_key j; jR_input := Some (Json.opt_json (j_input j));
  jR_run_at := (λ t, t * 1000) <$> j_run_at j;
  jR_cron_expression := None; jR_cron_timezone := None; jR_cron_starts_at := None;
  jR_cron_ends_at := None; jR_cron_next_run_at := None; jR_cron_last_tick_at := None;
  jR_created_at := j_created_at j * 1000; jR_retired_at := None |}.

Lemma read_job_response j exec : document_ok (Json.opt_json (j_input j)) = true →
  de_job_resource (job_response j exec)
  = if bool_decide (i32_min ≤ j_version j ≤ i32_max) then Some (Some (seen_job j)) else None.
Proof.
  intros Hd. unfold job_response, Json.obj, de_job_resource. unfold de_structure at 1.
  change (foldl _ [] ?l) with (obj_fields l).
  rewrite !field_obj. destruct exec as [e|];
    cbn [job_summary_fields app reverse rev_append]; assocs; unfold expect_enum;
    cbn [expect_string_or_null]; rewrite read_i32;
    rewrite read_opt_str, read_opt_time, read_timestamp, read_document by done;
    by case_bool_decide.
Qed.
End jobs.

(** ** What the API reads out of a job list query *)

Lemma mapM_cons_Some {A B} (f : A → option B) x l k :
  mapM f (x :: l) = Some k → ∃ y k', f x = Some y ∧ mapM f l = Some k' ∧ k = y :: k'.
Proof.
  simpl. destruct (f x) as [y|]; [|done]. destruct (mapM f l) as [k'|]; [|done].
  intros [= <-]. by exists y, k'.
Qed.

(** A token of a comma-separated list. *)
Definition token (s : string) : Prop :=
  Str.split ","%char s = [s] ∧ Str.trim s = s ∧ s ≠ "".

Lemma collect_tokens_all {T} `{!EqDecision T} (parse : string → option T) label tokens out l :
  mapM parse tokens = Some l → NoDup (out ++ l) →
  collect_tokens parse label tokens out = Ok (out ++ l).
Proof.
  revert out l. induction tokens as [|tok tokens IH]; intros out l E Hnd.
  { injection E as <-. by rewrite (right_id_L [] (++)). }
  apply mapM_cons_Some in E as (x & l' & Hx & E & ->). simpl. rewrite Hx. cbn [ok_or res_bind].
  rewrite bool_decide_eq_false_2.
  - rewrite (IH (out ++ [x]) l'); [by rewrite <-(assoc_L (++))|done|by rewrite <-(assoc_L (++))].
  - apply list.NoDup_app in Hnd as (_ & Hd & _). intros Hin. apply (Hd _ Hin). left.
Qed.

Section queries.
Context `{!Chrono} `{!Smithy} `{!SdkTimes}.
Context (url_decode : string → string).
Hypothesis decode_encode : ∀ s, url_decode (query_encode s) = s.

Definition decoded (kv : string * string) : string * string := (kv.1, url_decode kv.2).

Definition scalar_of (key : string) (kv : string * string) : option string :=
  if bool_decide (kv.1 = key) then blank_to_none (Some kv.2) else None.

Lemma scalar_string key k v :
  omap (scalar_of key) (decoded <$> push_string k v)
  = if bool_decide (k = key) then option_list (blank_to_none v) else [].
Proof.
  unfold push_string, scalar_of. destruct v as [s|]; [|by case_bool_decide].
  cbn [fmap list_fmap omap list_omap decoded fst snd]. rewrite decode_encode.
  case_bool_decide; [|done]. by destruct (blank_to_none (Some s)).
Qed.

Lemma scalar_int key k v : bool_decide (k = key) = false →
  omap (scalar_of key) (decoded <$> push_int k v) = [].
Proof. intros Hk. destruct v; [|done]. cbn. unfold scalar_of. simpl. by rewrite Hk. Qed.

Lemma scalar_strings {E} key k (as_str : E → string) v : bool_decide (k = key) = false →
  omap (scalar_of key) (decoded <$> push_strings k as_str v) = [].
Proof.
  intros Hk. destruct v as [l|]; [|done]. simpl. induction l as [|x l IH]; [done|]. simpl.
  unfold scalar_of at 1. simpl. by rewrite Hk.
Qed.

Lemma with_key_string key k v : bool_decide (k = key) = false →
  filter (with_key key) (decoded <$> push_string k v) = [].
Proof. intros Hk%bool_decide_eq_false. destruct v; [|done]. simpl. by rewrite filter_cons_False. Qed.
Lemma with_key_int key k v : bool_decide (k = key) = false →
  filter (with_key key) (decoded <$> push_int k v) = [].
Proof. intros Hk%bool_decide_eq_false. destruct v; [|done]. simpl. by rewrite filter_cons_False. Qed.
Lemma with_key_strings {E} key k (as_str : E → string) v :
  filter (with_key key) (decoded <$> push_strings k as_str v)
  = if bool_decide (k = key) then (λ x, (k, as_str x)) <$> default [] v else [].
Proof.
  destruct v as [l|]; cbn [push_strings default from_option id]; [|by case_bool_decide].
  induction l as [|x l IH]; [by case_bool_decide|]. rewrite !fmap_cons. case_bool_decide as Hk.
  - rewrite filter_cons_True by done. rewrite IH. unfold decoded at 1. simpl. by rewrite decode_encode.
  - rewrite filter_cons_False by done. apply IH.
Qed.

Lemma tokens_read {E} (as_str : E → string) key (l : list E) :
  (∀ x, x ∈ l → token (as_str x)) →
  filter (λ t, t ≠ "") (mjoin ((λ kv : string * string, Str.trim <$> Str.split ","%char kv.2)
    <$> ((λ x, (key, as_str x)) <$> l) : list (list string))) = as_str <$> l.
Proof.
  induction l as [|x l IH]; intros Hl; [done|]. destruct (Hl x) as (Hs & Ht & Hn); [left|].
  simpl. rewrite Hs. simpl. rewrite Ht, filter_cons_True by done.
  f_equal. apply IH. intros y Hy. apply Hl. by right.
Qed.

Lemma filter_list_read {E T} `{!EqDecision T} (as_str : E → string) (parse : string → option T)
    key label pairs (l : list E) (out : list T) :
  (∀ s y, parse s = Some y → token s) →
  filter (with_key key) pairs = (λ x, (key, as_str x)) <$> l →
  mapM (λ x, parse (as_str x)) l = Some out → NoDup out →
  parse_filter_list pairs key parse label = Ok out.
Proof.
  intros Htok Hf Hm Hnd. unfold parse_filter_list, filter_tokens.
  change (filter (λ kv, kv.1 = key) pairs) with (filter (with_key key) pairs). rewrite Hf.
  rewrite tokens_read.
  - apply (collect_tokens_all parse label _ []); [|done].
    apply mapM_Some, Forall2_fmap_l. by apply mapM_Some in Hm.
  - intros x Hx. apply mapM_Some in Hm. apply list_elem_of_lookup in Hx as [i Hi].
    destruct (Forall2_lookup_l _ _ _ _ _ Hm Hi) as (y & _ & Hy). by eapply Htok.
Qed.

Lemma time_read key v l : push_time key v = Ok l →
  l = push_string key (v ≫= fmt_date_time)
  ∧ parse_datetime (blank_to_none (v ≫= fmt_date_time)) key = Ok ((λ t, t / 1000) <$> v).
Proof.
  destruct v as [t|]; simpl; [|by intros [= <-]].
  destruct (fmt_date_time t) as [s|] eqn:E; [|done]. intros [= <-]. split; [done|].
  destruct (st_write t s E) as (Ht & Hn & Hp). unfold parse_datetime, blank_to_none. simpl.
  rewrite Ht. rewrite bool_decide_eq_false_2 by done. simpl. rewrite Ht.
  rewrite bool_decide_eq_false_2 by done. by rewrite Hp.
Qed.
End queries.

Ltac tokens_of := intros s y E; repeat (case_bool_decide; [subst; split_and!; by vm_compute|]); done.

Lemma status_token s y : JobStatus_from_str_val s = Some y → token s.
Proof. unfold JobStatus_from_str_val. revert s y. tokens_of. Qed.
Lemma trigger_token s y : TriggerType_from_str_val s = Some y → token s.
Proof. unfold TriggerType_from_str_val. revert s y. tokens_of. Qed.
Lemma endpoint_type_token s y : EndpointType_from_str_val s = Some y → token s.
Proof. unfold EndpointType_from_str_val. revert s y. tokens_of. Qed.

Section filters.
Context `{!Chrono} `{!Smithy} `{!SdkTimes}.
Context (url_decode : string → string).
Hypothesis decode_encode : ∀ s, url_decode (query_encode s) = s.

(** The pieces of the query that have the key, and no others. *)
Ltac scalars :=
  rewrite !fmap_app, !omap_app, !(scalar_string url_decode decode_encode),
    (scalar_int url_decode), !(scalar_strings url_decode) by reflexivity;
  literals; rewrite ?(left_id_L [] (++)), ?(right_id_L [] (++)).
Ltac lists :=
  rewrite !fmap_app, !list.filter_app, !(with_key_strings url_decode decode_encode),
    !(with_key_string url_decode), (with_key_int url_decode) by reflexivity;
  literals; rewrite ?(left_id_L [] (++)), ?(right_id_L [] (++)).

Lemma last_scalar_option pairs key o :
  omap (scalar_of key) pairs = option_list o → last_scalar pairs key = o.
Proof. intros E. unfold last_scalar. change (list.last (omap (scalar_of key) pairs) = o).
  rewrite E. by destruct o. Qed.

Ltac one := apply last_scalar_option;
  match goal with |- context [omap _ ?p] => unfold p end; scalars; reflexivity.
Ltac many := match goal with |- filter _ ?p = _ => unfold p end; lists; reflexivity.

Lemma sdk_filters input query st tr et :
  list_jobs_uri_query input = Ok query →
  mapM (λ x, JobStatus_from_str_val (JobStatusEnum_as_str x)) (default [] (list_jobs_status input))
    = Some st → NoDup st →
  mapM (λ x, TriggerType_from_str_val (TriggerTypeEnum_as_str x))
    (default [] (list_jobs_trigger_type input)) = Some tr → NoDup tr →
  mapM (λ x, EndpointType_from_str_val (EndpointTypeEnum_as_str x))
    (default [] (list_jobs_endpoint_type input)) = Some et → NoDup et →
  (∀ a b, list_jobs_created_after input = Some a → list_jobs_created_before input = Some b →
     a / 1000 ≤ b / 1000) →
  parse_job_filters (decoded url_decode <$> query) = Ok {|
    jf_job_id := blank_to_none (list_jobs_job_id input); jf_status := st; jf_trigger := tr;
    jf_endpoint := blank_to_none (list_jobs_endpoint input); jf_endpoint_type := et;
    jf_created_after := (λ t, t / 1000) <$> list_jobs_created_after input;
    jf_created_before := (λ t, t / 1000) <$> list_jobs_created_before input |}.
Proof.
  intros Eq Hst Nst Htr Ntr Het Net Hwin. unfold list_jobs_uri_query in Eq.
  destruct (push_time "created_after" _) as [ca| |] eqn:Eca; [|done..].
  destruct (push_time "created_before" _) as [cb| |] eqn:Ecb; [|done..].
  cbn [res_bind] in Eq. injection Eq as <-.
  apply time_read in Eca as [-> Hca]. apply time_read in Ecb as [-> Hcb].
  set (pairs := decoded url_decode <$> _).
  assert (last_scalar pairs "created_after"
    = blank_to_none (list_jobs_created_after input ≫= fmt_date_time)) as Ea by one.
  assert (last_scalar pairs "created_before"
    = blank_to_none (list_jobs_created_before input ≫= fmt_date_time)) as Eb by one.
  assert (last_scalar pairs "job_id" = blank_to_none (list_jobs_job_id input)) as Ej by one.
  assert (last_scalar pairs "endpoint" = blank_to_none (list_jobs_endpoint input)) as Ee by one.
  assert (filter (with_key "status") pairs
    = (λ x, ("status", JobStatusEnum_as_str x)) <$> default [] (list_jobs_status input))
    as Fs by many.
  assert (filter (with_key "trigger_type") pairs
    = (λ x, ("trigger_type", TriggerTypeEnum_as_str x)) <$> default [] (list_jobs_trigger_type input))
    as Ft by many.
  assert (filter (with_key "endpoint_type") pairs
    = (λ x, ("endpoint_type", EndpointTypeEnum_as_str x))
      <$> default [] (list_jobs_endpoint_type input)) as Fe by many.
  unfold parse_job_filters. rewrite Ea, Eb, Hca, Hcb, Ej, Ee. cbn [res_bind].
  rewrite (filter_list_read JobStatusEnum_as_str _ "status" _ pairs _ st status_token Fs Hst Nst).
  rewrite (filter_list_read TriggerTypeEnum_as_str _ "trigger_type" _ pairs _ tr trigger_token
    Ft Htr Ntr).
  rewrite (filter_list_read EndpointTypeEnum_as_str _ "endpoint_type" _ pairs _ et
    endpoint_type_token Fe Het Net).
  destruct (list_jobs_created_after input) as [a|], (list_jobs_created_before input) as [b|];
    cbn [fmap option_fmap option_map res_bind]; try done.
  rewrite bool_decide_eq_false_2; [done|]. specialize (Hwin a b eq_refl eq_refl). lia.
Qed.
End filters.

(** ** What the API reads out of the body of a new job *)

Lemma assoc_app key l l' :
  Json.assoc key (l ++ l')
  = match Json.assoc key l with Some v => Some v | None => Json.assoc key l' end.
Proof. induction l as [|[k v] l IH]; simpl; [done|]. by destruct (bool_decide (key = k)). Qed.
Lemma assoc_ser_string key k v :
  Json.assoc key (ser_string k v) = if bool_decide (key = k) then JString <$> v else None.
Proof. destruct v; simpl; by case_bool_decide. Qed.
Lemma assoc_ser_document key k v :
  Json.assoc key (ser_document k v) = if bool_decide (key = k) then v else None.
Proof. destruct v; simpl; by case_bool_decide. Qed.

Section bodies.
Context `{!Chrono} `{!CronCrate} `{!Smithy} `{!SdkTimes}.

Lemma time_field key v l : ser_time key v = Ok l →
  l = ser_string key (v ≫= fmt_date_time)
  ∧ match JString <$> (v ≫= fmt_date_time) with
    | Some j => deserialize_opt j
    | None => Ok None
    end = Ok ((λ t, t / 1000) <$> v).
Proof.
  destruct v as [t|]; simpl; [|by intros [= <-]].
  destruct (fmt_date_time t) as [s|] eqn:E; [|done]. intros [= <-]. split; [done|].
  destruct (st_write t s E) as (Ht & Hn & Hp). simpl. rewrite Ht.
  rewrite bool_decide_eq_false_2 by done. unfold flexible_parse. by rewrite Hp.
Qed.

Ltac body_field :=
  match goal with |- Json.assoc _ ?b = _ => unfold b end;
  rewrite !assoc_app, !assoc_ser_string, assoc_ser_document; literals;
  repeat match goal with |- context [match ?o with Some _ => _ | None => None end] =>
    destruct o end; reflexivity.

(** The job of the request: an input of null is no input. *)
Lemma sdk_job_body input body endpoint trigger cron :
  ser_create_job_input input = Ok body →
  create_job_endpoint input = Some endpoint → create_job_trigger input = Some trigger →
  match create_job_cron input with
  | Some x => ∃ c, PgCronExpr_try_from x = Ok c ∧ cron = Some c
  | None => cron = None
  end →
  CreateJob_from_fields body = Ok {|
    cj_endpoint := endpoint; cj_trigger := TriggerTypeEnum_as_str trigger;
    cj_idempotency_key := create_job_idempotency_key input;
    cj_input := match create_job_input input with Some JNull => None | i => i end;
    cj_max_attempts := None;
    cj_run_at := (λ t, t / 1000) <$> create_job_run_at input;
    cj_cron := cron; cj_timezone := create_job_timezone input;
    cj_starts_at := (λ t, t / 1000) <$> create_job_starts_at input;
    cj_ends_at := (λ t, t / 1000) <$> create_job_ends_at input |}.
Proof.
  unfold ser_create_job_input. intros Eb Hep Htr Hcron.
  destruct (ser_time "ends_at" _) as [ea| |] eqn:Ee; [|done..].
  destruct (ser_time "run_at" _) as [ra| |] eqn:Er; [|done..].
  destruct (ser_time "starts_at" _) as [sa| |] eqn:Es; [|done..].
  cbn [res_bind] in Eb. injection Eb as <-.
  apply time_field in Ee as [-> He]. apply time_field in Er as [-> Hr].
  apply time_field in Es as [-> Hs].
  set (body := ser_string _ _ ++ _).
  assert (Json.assoc "endpoint" body = JString <$> create_job_endpoint input) as E1 by body_field.
  assert (Json.assoc "trigger" body = JString <$> (TriggerTypeEnum_as_str <$> create_job_trigger input))
    as E2 by body_field.
  assert (Json.assoc "idempotency_key" body = JString <$> create_job_idempotency_key input)
    as E3 by body_field.
  assert (Json.assoc "input" body = create_job_input input) as E4 by body_field.
  assert (Json.assoc "max_attempts" body = None) as E5 by body_field.
  assert (Json.assoc "run_at" body = JString <$> (create_job_run_at input ≫= fmt_date_time))
    as E6 by body_field.
  assert (Json.assoc "cron" body = JString <$> create_job_cron input) as E7 by body_field.
  assert (Json.assoc "timezone" body = JString <$> create_job_timezone input) as E8 by body_field.
  assert (Json.assoc "starts_at" body = JString <$> (create_job_starts_at input ≫= fmt_date_time))
    as E9 by body_field.
  assert (Json.assoc "ends_at" body = JString <$> (create_job_ends_at input ≫= fmt_date_time))
    as E10 by body_field.
  clearbody body. unfold CreateJob_from_fields, opt_field, req_string, datetime_field.
  rewrite E1, E2, E3, E4, E5, E6, E7, E8, E9, E10, He, Hr, Hs, Hep, Htr.
  destruct (create_job_cron input) as [x|].
  - destruct Hcron as (c & Hx & ->). cbn. unfold de_cron. cbn. rewrite Hx. cbn.
    destruct (create_job_idempotency_key input), (create_job_timezone input),
      (create_job_input input) as [[]|]; reflexivity.
  - subst cron. destruct (create_job_idempotency_key input), (create_job_timezone input),
      (create_job_input input) as [[]|]; reflexivity.
Qed.
End bodies.

(** ** What the SDK sees of an execution and of an endpoint *)

Definition in_i32 (z : Z) : Prop := i32_min ≤ z ≤ i32_max.

(** The object of [GET /v1/executions/{execution_id}]. *)
Definition execution_fields `{!Chrono} (e : Execution) : list (string * json) := [
  ("execution_id", JString (e_execution_id e)); ("job_id", JString (e_job_id e));
  ("endpoint", JString (e_endpoint e)); ("endpoint_type", JString (e_endpoint_type e));
  ("status", JString (e_status e)); ("input", Json.opt_json (e_input e));
  ("output", Json.opt_json (e_output e)); ("attempt_count", JInt (e_attempt_count e));
  ("max_attempts", JInt (e_max_attempts e)); ("worker_id", Json.opt_str (e_worker_id e));
  ("run_at", ts_json (e_run_at e)); ("started_at", Json.opt ts_json (e_started_at e));
  ("completed_at", Json.opt ts_json (e_completed_at e));
  ("duration_ms", Json.opt_int (e_duration_ms e)); ("created_at", ts_json (e_created_at e))].

Section resources.
Context `{!Chrono} `{!Smithy} `{!SdkTimes}.

Lemma read_int z : in_i32 z → expect_i32 (JInt z) = Some (Some z).
Proof. intros Hz. rewrite read_i32. by rewrite bool_decide_eq_true_2. Qed.
Lemma read_opt_int o : (∀ z, o = Some z → in_i32 z) → expect_i32 (Json.opt_int o) = Some o.
Proof. intros Ho. destruct o as [z|]; [|done]. apply read_int. by apply Ho. Qed.

Definition seen_execution (e : Execution) : ExecutionResource exact := {|
  eR_execution_id := e_execution_id e; eR_job_id := e_job_id e; eR_endpoint := e_endpoint e;
  eR_endpoint_type := EndpointTypeEnum_from (e_endpoint_type e); eR_idempotency_key := None;
  eR_status := ExecutionStatusEnum_from (e_status e);
  eR_input := Some (Json.opt_json (e_input e)); eR_output := Some (Json.opt_json (e_output e));
  eR_attempt_count := e_attempt_count e; eR_max_attempts := e_max_attempts e;
  eR_worker_id := e_worker_id e; eR_run_at := e_run_at e * 1000;
  eR_started_at := (λ t, t * 1000) <$> e_started_at e;
  eR_completed_at := (λ t, t * 1000) <$> e_completed_at e;
  eR_duration_ms := e_duration_ms e; eR_created_at := e_created_at e * 1000 |}.

Ltac read_object :=
  unfold Json.obj, de_structure; change (foldl _ [] ?l) with (obj_fields l);
  rewrite !field_obj; cbn [reverse rev_append]; assocs; unfold expect_enum;
  cbn [expect_string_or_null].

Lemma read_execution e :
  document_ok (Json.opt_json (e_input e)) = true → document_ok (Json.opt_json (e_output e)) = true →
  in_i32 (e_attempt_count e) → in_i32 (e_max_attempts e) →
  (∀ d, e_duration_ms e = Some d → in_i32 d) →
  de_execution_resource (Json.obj (execution_fields e)) = Some (Some (seen_execution e)).
Proof.
  intros Hi Ho Ha Hm Hd. unfold execution_fields, de_execution_resource. read_object.
  by rewrite !read_int, read_opt_int, read_opt_str, !read_opt_time, !read_timestamp, !read_document.
Qed.

Definition seen_endpoint (e : Endpoint) (rp : option RetryPolicyResource) :
    EndpointResource exact := {|
  nR_name := ep_name e; nR_endpoint_type := EndpointTypeEnum_from (ep_endpoint_type e);
  nR_payload_spec := ep_payload_spec_ref e; nR_config := ep_config_ref e; nR_spec := ep_spec e;
  nR_retry_policy := rp; nR_created_at := ep_created_at e * 1000;
  nR_updated_at := ep_updated_at e * 1000 |}.

Lemma read_endpoint e rp :
  document_ok (ep_spec e) = true → de_retry_policy (Json.opt_json (ep_retry_policy e)) = Some rp →
  de_endpoint_resource (endpoint_to_json e) = Some (Some (seen_endpoint e rp)).
Proof.
  intros Hs Hr. unfold endpoint_to_json, de_endpoint_resource. unfold de_structure at 1.
  unfold Json.obj. change (foldl _ [] ?l) with (obj_fields l).
  rewrite !field_obj. cbn [reverse rev_append]. assocs. unfold expect_enum.
  cbn [expect_string_or_null]. by rewrite !read_opt_str, Hr, !read_timestamp, read_document.
Qed.
End resources.

(** ** Errors *)

(** A response as it arrives. *)
Definition wire (headers : list (string * string)) (r : HttpResponse) : SdkResponse := {|
  sr_status := resp_status r; sr_headers := headers;
  sr_body := match resp_body r with Some v => BodyJson v | None => BodyEmpty end |}.

(** An answer with its result in [data]. *)
Lemma read_data `{!Smithy} {A B} (dec : json → option (option A)) (correct : option A → B) status v headers :
  de_body (λ fs, d <-! field "data" dec fs; Some (correct d))
    (sr_body (wire headers (resp status (data v))))
  = (d <-! dec v; Some (correct d)).
Proof.
  change (sr_body _) with (BodyJson (JObject (obj_fields [("data", v)]))).
  unfold de_body. cbn [or_empty_doc]. rewrite field_obj. cbn [reverse rev_append]. by assocs.
Qed.
Lemma good_answer ok v headers : is_service_error ok (wire headers (resp 200 v)) = false.
Proof. done. Qed.

(** A body in which the SDK finds no code: not an object, or one with neither [code] nor
    [__type] among its fields. *)
Definition nameless_body (b : ResponseBody) : Prop :=
  ∀ fs k v, b = BodyJson (JObject fs) → (k, v) ∈ fs → k ≠ "code" ∧ k ≠ "__type".

Lemma error_fields_nameless fs b :
  (∀ k v, (k, v) ∈ fs → k ≠ "code" ∧ k ≠ "__type") →
  eb_code (error_fields fs b) = eb_code b ∧ eb_type (error_fields fs b) = eb_type b.
Proof.
  revert b. induction fs as [|[k v] fs IH]; intros b Hfs; [done|].
  destruct (Hfs k v) as [Hc Ht]; [set_solver|].
  assert (∀ k v, (k, v) ∈ fs → k ≠ "code" ∧ k ≠ "__type") as Hrest by (intros; apply (Hfs k0 v0); set_solver).
  destruct v as [| | |s| |]; cbn [error_fields]; try by apply IH.
  destruct (IH (error_key k s b) Hrest) as [-> ->]. unfold error_key.
  rewrite !(bool_decide_eq_false_2 (k = _)) by done. by case_match.
Qed.

Lemma nameless_is_unhandled `{!Smithy} kinds r :
  header "x-amzn-errortype" (sr_headers r) = None → nameless_body (sr_body r) →
  de_http_error kinds r = Unhandled no_metadata.
Proof.
  intros Hh Hn. unfold de_http_error, parse_error_metadata. rewrite Hh.
  destruct (sr_body r) as [|[| | | | |fs]|[]] eqn:Eb; try done. cbn [parse_error_body].
  destruct (error_fields_nameless fs {| eb_code := None; eb_type := None; eb_message := None |})
    as [-> ->]; [|done]. intros k v. by apply Hn.
Qed.

Lemma error_name_inj k k' : error_name k = error_name k' → k = k'.
Proof. by destruct k, k'. Qed.

Lemma find_kind kinds k :
  k ∈ kinds → ∃ l, filter (λ k', error_name k' = error_name k) kinds = k :: l.
Proof.
  intros Hk. destruct (filter _ kinds) as [|k' l] eqn:Ef.
  - assert (k ∈ filter (λ k', error_name k' = error_name k) kinds) as Hin
      by (by apply list_elem_of_filter).
    rewrite Ef in Hin. by apply list.elem_of_nil in Hin.
  - assert (k' ∈ filter (λ k', error_name k' = error_name k) kinds) as Hin
      by (rewrite Ef; apply list.elem_of_cons; by left).
    apply list_elem_of_filter in Hin as [->%error_name_inj _]. by exists l.
Qed.

(** What an error of the API is read as, if the header says that it is a [k]. *)
Definition named_error (k : ServiceErrorKind) (e : AppError) : OperationError := Modeled {|
  sE_kind := k;
  sE_error := {| dR_code := (status_and_code e).2; dR_message := AppError_to_string e;
                 dR_request_id := None |};
  sE_message := None;
  sE_meta := {| em_code := Some (error_name k); em_message := None |} |}.

Lemma named_is_modeled `{!Smithy} kinds headers k e :
  k ∈ kinds →
  de_http_error kinds (wire (("x-amzn-errortype", error_name k) :: headers) (error_response e))
  = named_error k e.
Proof.
  intros Hk. unfold de_http_error, parse_error_metadata, wire, error_response.
  destruct (status_and_code e) as [status code] eqn:Es. cbn [resp sr_headers sr_body resp_body].
  cbn [header]. rewrite bool_decide_eq_true_2 by done.
  assert (sanitize_error_code (error_name k) = error_name k) as Hs by (by destruct k).
  cbn [fmap option_fmap option_map]. rewrite Hs. unfold parse_error_body.
  cbn [em_code em_message]. destruct (find_kind kinds k Hk) as [l El]. cbn in El |- *. rewrite El.
  unfold named_error. rewrite Es. by destruct k.
Qed.

Lemma failure_is_error ok r :
  200 ≤ ok < 300 → ¬ 200 ≤ sr_status r < 300 → is_service_error ok r = true.
Proof. intros Hok Hr. unfold is_service_error. rewrite !bool_decide_eq_false_2 by lia. done. Qed.

Lemma error_is_failure headers e : ¬ 200 ≤ sr_status (wire headers (error_response e)) < 300.
Proof. destruct e; simpl; lia. Qed.

(** ** Routes *)

(** A method and a path of the API: a route as it stands, or with something in the
    place of its braces. *)
Inductive names_route : Method → string → Prop :=
  | names_fixed m path : (m, path) ∈ workspace_routes → names_route m path
  | names_item m pre name post label :
      (m, pre +:+ "{" +:+ name +:+ "}" +:+ post) ∈ workspace_routes → label ≠ "" →
      names_route m (pre +:+ label +:+ post).

(** Something an operation of the SDK sends. *)
Inductive sdk_sends `{!Smithy} (r : SdkRequest) : Prop :=
  | sends_create_job i : create_job_request i = Ok r → sdk_sends r
  | sends_list_jobs i : list_jobs_request i = Ok r → sdk_sends r
  | sends_get_job i : get_job_request i = Ok r → sdk_sends r
  | sends_update_job i : update_job_request i = Ok r → sdk_sends r
  | sends_cancel_job i : cancel_job_request i = Ok r → sdk_sends r
  | sends_get_job_status i : get_job_status_request i = Ok r → sdk_sends r
  | sends_get_job_versions i : get_job_versions_request i = Ok r → sdk_sends r
  | sends_list_job_executions i : list_job_executions_request i = Ok r → sdk_sends r
  | sends_get_execution i : get_execution_request i = Ok r → sdk_sends r
  | sends_cancel_execution i : cancel_execution_request i = Ok r → sdk_sends r
  | sends_list_execution_attempts i : list_execution_attempts_request i = Ok r → sdk_sends r
  | sends_list_execution_logs i : list_execution_logs_request i = Ok r → sdk_sends r
  | sends_create_endpoint i : create_endpoint_request i = Ok r → sdk_sends r
  | sends_list_endpoints i : list_endpoints_request i = Ok r → sdk_sends r
  | sends_get_endpoint i : get_endpoint_request i = Ok r → sdk_sends r
  | sends_update_endpoint i : update_endpoint_request i = Ok r → sdk_sends r
  | sends_delete_endpoint i : delete_endpoint_request i = Ok r → sdk_sends r
  | sends_create_payload_spec i : create_payload_spec_request i = Ok r → sdk_sends r
  | sends_list_payload_specs i : list_payload_specs_request i = Ok r → sdk_sends r
  | sends_get_payload_spec i : get_payload_spec_request i = Ok r → sdk_sends r
  | sends_update_payload_spec i : update_payload_spec_request i = Ok r → sdk_sends r
  | sends_delete_payload_spec i : delete_payload_spec_request i = Ok r → sdk_sends r.

(** A request goes to a route, has a body only to create or update something, and says
    that the body is JSON exactly when there is one. *)
Definition sound_request (r : SdkRequest) : Prop :=
  names_route (rq_method r) (rq_path r)
  ∧ (is_Some (rq_body r) → rq_method r = POST ∨ rq_method r = PUT)
  ∧ (("content-type", "application/json") ∈ rq_headers r ↔ is_Some (rq_body r)).

Section routes.
Context `{!Smithy}.

Lemma path_label_ok name v label : path_label name v = Ok label → label ≠ "".
Proof. unfold path_label. destruct v as [s|]; [|done]. simpl. case_bool_decide; [done|]. by intros [= <-]. Qed.

Lemma ser_headers_keys o w hs : ser_headers o w = Ok hs → ("content-type", "application/json") ∉ hs.
Proof.
  unfold ser_headers, push_header. destruct o as [o|], w as [w|]; simpl;
    repeat match goal with |- context [if header_value ?s then _ else _] => destruct (header_value s) end;
    simpl; intros [= <-]; rewrite ?list.elem_of_cons, ?list.elem_of_nil; intuition congruence.
Qed.
End routes.

Ltac route := solve [apply list_elem_of_In; vm_compute; repeat first [left; reflexivity | right]].
Ltac named :=
  match goal with
  | |- names_route ?m (?pre +:+ (?l +:+ ?post)) =>
      first [apply (names_item m pre "job_id" post l); [route|done]
            |apply (names_item m pre "execution_id" post l); [route|done]]
  | |- names_route ?m (?pre +:+ ?l) =>
      rewrite <-(app_nil_r l);
      first [apply (names_item m pre "job_id" "" l); [route|done]
            |apply (names_item m pre "execution_id" "" l); [route|done]
            |apply (names_item m pre "name" "" l); [route|done]]
  | |- _ => apply names_fixed; route
  end.

Lemma ok_eq {E A} (a b : A) : @Ok E A a = Ok b → b = a.
Proof. by intros [= ->]. Qed.

(** Takes a request apart: its label, its headers, its body. *)
Ltac request_head t := match t with ?f _ => request_head f | ?f => f end.
Ltac sent E :=
  match type of E with ?r = _ => let f := request_head r in unfold f in E end;
  repeat match type of E with
  | context [res_bind ?m _] =>
      let a := fresh "a" in let Ea := fresh "Ea" in
      destruct m as [a| |] eqn:Ea; cbn [res_bind] in E; [|discriminate E..]
  end;
  apply ok_eq in E; subst.
Ltac uri :=
  match goal with
  | E : ?u = Ok ?s |- names_route _ ?s =>
      let f := request_head u in
      unfold f in E;
      match type of E with context [path_label ?n ?v] =>
        let l := fresh "l" in let El := fresh "El" in
        destruct (path_label n v) as [l| |] eqn:El; cbn [res_bind] in E; [|discriminate E..];
        apply path_label_ok in El
      end; apply ok_eq in E; subst
  | _ => idtac
  end.

Lemma sdk_sound `{!Smithy} r : sdk_sends r → sound_request r.
Proof.
  destruct 1 as [i E|i E|i E|i E|i E|i E|i E|i E|i E|i E|i E|i E|i E|i E|i E|i E|i E|i E|i E|i E|i E
    |i E]; sent E; (split; [cbn [rq_method rq_path sdk_request]; uri; named|]);
    cbn [rq_method rq_headers rq_body sdk_request fmap option_fmap option_map].
  all: split; [by first [left; reflexivity | right; reflexivity | intros []]|].
  all: first
    [split; [done|]; intros _; apply list.elem_of_app; right; left
    |rewrite (right_id_L [] (++)); split; [|by intros []]; intros Hin; exfalso; revert Hin;
     by eapply ser_headers_keys].
Qed.

(** ** Enumerations *)

(** The string of a value that was read is the string that was read, and [try_parse]
    takes the values of the model. *)
Definition enum_sound {T} (from : string → T) (as_str : T → string) (values : list string)
    (try_parse : string → res string T) : Prop :=
  ∀ s, as_str (from s) = s ∧ (is_ok (try_parse s) = true ↔ s ∈ values).

Ltac enum_tac :=
  intros s;
  match goal with |- ?as_str (?from s) = s ∧ (is_ok (?try s) = true ↔ _ ∈ ?values) =>
    unfold try, from, values end;
  repeat (case_bool_decide; [subst; split; [done|split; [intros _; set_solver|done]]|]);
  split; [done|split; [done|]];
  rewrite ?list.elem_of_cons, list.elem_of_nil; intuition congruence.

Lemma job_status_enum : enum_sound JobStatusEnum_from JobStatusEnum_as_str JobStatusEnum_values
  JobStatusEnum_try_parse.
Proof. enum_tac. Qed.
Lemma execution_status_enum : enum_sound ExecutionStatusEnum_from ExecutionStatusEnum_as_str
  ExecutionStatusEnum_values ExecutionStatusEnum_try_parse.
Proof. enum_tac. Qed.
Lemma attempt_status_enum : enum_sound AttemptStatusEnum_from AttemptStatusEnum_as_str
  AttemptStatusEnum_values AttemptStatusEnum_try_parse.
Proof. enum_tac. Qed.
Lemma endpoint_type_enum : enum_sound EndpointTypeEnum_from EndpointTypeEnum_as_str
  EndpointTypeEnum_values EndpointTypeEnum_try_parse.
Proof. enum_tac. Qed.
Lemma trigger_type_enum : enum_sound TriggerTypeEnum_from TriggerTypeEnum_as_str
  TriggerTypeEnum_values TriggerTypeEnum_try_parse.
Proof. enum_tac. Qed.
Lemma backoff_type_enum : enum_sound BackoffTypeEnum_from BackoffTypeEnum_as_str
  BackoffTypeEnum_values BackoffTypeEnum_try_parse.
Proof. enum_tac. Qed.
Lemma log_level_enum : enum_sound LogLevelEnum_from LogLevelEnum_as_str
  LogLevelEnum_values LogLevelEnum_try_parse.
Proof. enum_tac. Qed.
