(* ===== verification/Dashboard.v ===== *)
(** * The dashboard's API client ([dashboard/src/api], [config.rs])

    What the dashboard asks the API for and what it makes of the answers.  The browser's
    [fetch] and [gloo_net] are outside: a request is described, and an answer is given to
    the function that reads it. *)

From Stdlib Require Import Ascii.
From S2P Require Export Auth.
#[local] Open Scope Z_scope.

(** ** Configuration *)

Record DashboardConfig := {
  dc_api_base_url : string;
  dc_api_prefix : string;
  dc_dashboard_prefix : string;
}.

Definition api_base (c : DashboardConfig) : string :=
  if bool_decide (dc_api_base_url c = "") then dc_api_prefix c
  else Str.trim_end_matches "/"%char (dc_api_base_url c) +:+ dc_api_prefix c.

(** [window.__INVOKR_CONFIG__]; [None] when it is undefined. *)
Definition dash_get_config (config : option json) : DashboardConfig :=
  let get (key : string) :=
    match config with
    | Some c => default "" (Json.get c key ≫= Json.as_str)
    | None => ""
    end in
  {| dc_api_base_url := get "apiBaseUrl"; dc_api_prefix := get "apiPrefix";
     dc_dashboard_prefix := get "dashboardPrefix" |}.

(** [prefixed] and [pkg_base] of [app.rs]; the context is absent outside the app. *)
Definition dashboard_prefix (context : option DashboardConfig) : string :=
  default "" (dc_dashboard_prefix <$> context).
Definition prefixed (context : option DashboardConfig) (path : string) : string :=
  dashboard_prefix context +:+ path.
Definition pkg_base (context : option DashboardConfig) : string :=
  match context with
  | Some c => if bool_decide (dc_dashboard_prefix c = "") then "/pkg"
              else dc_dashboard_prefix c +:+ "/pkg"
  | None => "/pkg"
  end.

(** ** Requests and answers *)

Record DashRequest := {
  dq_method : Method;
  dq_url : string;
  dq_headers : list (string * string);
  dq_body : option json;
}.

(** What [send] returns, or fails with. *)
Inductive DashAnswer :=
  | NotSent (error : string)
  | Answered (status : Z) (text : option string) (body : option json).

(** A function of the client: its request, and how it reads the JSON of a good answer
    ([None]: the text is not JSON). *)
Record Fetch (A : Type) := { ft_request : DashRequest; ft_read : option json → option A }.
Arguments Build_Fetch {A}. Arguments ft_request {A}. Arguments ft_read {A}.

(** [resp.ok()] *)
Definition answer_ok (status : Z) : bool := bool_decide (200 ≤ status < 300).

(** The rest of every function; [undecodable] is the message of [resp.json()]. *)
Definition fetch {A} (undecodable : option json → string) (f : Fetch A) (a : DashAnswer) :
    res string A :=
  match a with
  | NotSent e => Err e
  | Answered status text body =>
      if answer_ok status then ok_or (ft_read f body) (undecodable body)
      else Err ("HTTP " +:+ Str.dec status +:+ ": " +:+ default "" text)
  end.

(** [.json(&body)] sets the content type. *)
Definition dash_request (method : Method) (url : string) (headers : list (string * string))
    (body : option json) : DashRequest := {|
  dq_method := method; dq_url := url;
  dq_headers := headers ++ match body with
                           | Some _ => [("Content-Type", "application/json")]
                           | None => []
                           end;
  dq_body := body |}.

Definition ws_headers (org_id workspace_id : string) : list (string * string) :=
  [("X-Org-Id", org_id); ("X-Workspace-Id", workspace_id)].

(** ** Models: derived [Deserialize] on the fields of an object *)

Definition dash_field {A} (name : string) (as_ : json → option A) (fs : list (string * json)) :
    option A :=
  v ← Json.assoc name fs; as_ v.

(** An [Option]: missing and null are [None]. *)
Definition dash_opt {A} (name : string) (as_ : json → option A) (fs : list (string * json)) :
    option (option A) :=
  match Json.assoc name fs with
  | None | Some JNull => Some None
  | Some v => a ← as_ v; Some (Some a)
  end.

(** ... with an alias: both names at once are a duplicate. *)
Definition dash_opt_alias {A} (name alias : string) (as_ : json → option A)
    (fs : list (string * json)) : option (option A) :=
  match Json.assoc name fs, Json.assoc alias fs with
  | Some _, Some _ => None
  | Some _, None => dash_opt name as_ fs
  | None, _ => dash_opt alias as_ fs
  end.

Definition dash_struct {A} (build : list (string * json) → option A) (v : json) : option A :=
  fs ← Json.as_object v; build fs.
Definition dash_list {A} (dec : json → option A) (v : json) : option (list A) :=
  l ← Json.as_array v; mapM dec l.

(** [DataResponse<T>] *)
Definition data_response {A} (dec : json → option A) (body : option json) : option A :=
  v ← body; dash_struct (dash_field "data" dec) v.

(** [PaginatedResponse<T>] *)
Record DashPage (A : Type) := { dg_data : list A; dg_cursor : option string }.
Arguments Build_DashPage {A}. Arguments dg_data {A}. Arguments dg_cursor {A}.
Definition paginated_response {A} (dec : json → option A) (body : option json) :
    option (DashPage A) :=
  v ← body;
  dash_struct (λ fs,
    data ← dash_field "data" (dash_list dec) fs;
    cursor ← dash_opt "cursor" Json.as_str fs;
    Some {| dg_data := data; dg_cursor := cursor |}) v.
Definition page_data {A} (dec : json → option A) (body : option json) : option (list A) :=
  dg_data <$> paginated_response dec body.


Record DashOrganization := {
  dO_org_id : string;
  dO_name : string;
  dO_slug : string;
  dO_status : string;
  dO_created_at : string;
  dO_updated_at : option string;
}.
Definition de_dash_organization : json → option DashOrganization := dash_struct (λ fs,
  org_id ← dash_field "org_id" Json.as_str fs;
  name ← dash_field "name" Json.as_str fs;
  slug ← dash_field "slug" Json.as_str fs;
  status ← dash_field "status" Json.as_str fs;
  created_at ← dash_field "created_at" Json.as_str fs;
  updated_at ← dash_opt "updated_at" Json.as_str fs;
  Some {| dO_org_id := org_id; dO_name := name; dO_slug := slug; dO_status := status;
    dO_created_at := created_at; dO_updated_at := updated_at |}).

Record DashCreateOrganization := {
  cO_name : string;
  cO_slug : string;
}.
Definition ser_dash_create_organization (b : DashCreateOrganization) : json := JObject (
  [("name", JString (cO_name b))]
  ++ [("slug", JString (cO_slug b))]).

Record DashUpdateOrganization := {
  uO_name : string;
}.
Definition ser_dash_update_organization (b : DashUpdateOrganization) : json := JObject (
  [("name", JString (uO_name b))]).

Record DashWorkspace := {
  dW_workspace_id : string;
  dW_org_id : string;
  dW_name : string;
  dW_slug : string;
  dW_schema_name : string;
  dW_status : string;
  dW_schema_version : Z;
  dW_created_at : string;
  dW_updated_at : option string;
}.
Definition de_dash_workspace : json → option DashWorkspace := dash_struct (λ fs,
  workspace_id ← dash_field "workspace_id" Json.as_str fs;
  org_id ← dash_field "org_id" Json.as_str fs;
  name ← dash_field "name" Json.as_str fs;
  slug ← dash_field "slug" Json.as_str fs;
  schema_name ← dash_field "schema_name" Json.as_str fs;
  status ← dash_field "status" Json.as_str fs;
  schema_version ← dash_field "schema_version" Json.as_i64 fs;
  created_at ← dash_field "created_at" Json.as_str fs;
  updated_at ← dash_opt "updated_at" Json.as_str fs;
  Some {| dW_workspace_id := workspace_id; dW_org_id := org_id; dW_name := name;
    dW_slug := slug; dW_schema_name := schema_name; dW_status := status;
    dW_schema_version := schema_version; dW_created_at := created_at;
    dW_updated_at := updated_at |}).

Record DashCreateWorkspace := {
  cW_name : string;
  cW_slug : string;
}.
Definition ser_dash_create_workspace (b : DashCreateWorkspace) : json := JObject (
  [("name", JString (cW_name b))]
  ++ [("slug", JString (cW_slug b))]).

Record DashJob := {
  dJ_job_id : string;
  dJ_endpoint : string;
  dJ_endpoint_type : string;
  dJ_trigger : string;
  dJ_status : string;
  dJ_version : Z;
  dJ_idempotency_key : option string;
  dJ_input : option json;
  dJ_run_at : option string;
  dJ_cron : option string;
  dJ_timezone : option string;
  dJ_starts_at : option string;
  dJ_ends_at : option string;
  dJ_next_run_at : option string;
  dJ_created_at : string;
}.
Definition de_dash_job : json → option DashJob := dash_struct (λ fs,
  job_id ← dash_field "job_id" Json.as_str fs;
  endpoint ← dash_field "endpoint" Json.as_str fs;
  endpoint_type ← dash_field "endpoint_type" Json.as_str fs;
  trigger ← dash_field "trigger" Json.as_str fs;
  status ← dash_field "status" Json.as_str fs;
  version ← dash_field "version" Json.as_i64 fs;
  idempotency_key ← dash_opt "idempotency_key" Json.as_str fs;
  input ← dash_opt "input" Some fs;
  run_at ← dash_opt "run_at" Json.as_str fs;
  cron ← dash_opt "cron" Json.as_str fs;
  timezone ← dash_opt "timezone" Json.as_str fs;
  starts_at ← dash_opt "starts_at" Json.as_str fs;
  ends_at ← dash_opt "ends_at" Json.as_str fs;
  next_run_at ← dash_opt "next_run_at" Json.as_str fs;
  created_at ← dash_field "created_at" Json.as_str fs;
  Some {| dJ_job_id := job_id; dJ_endpoint := endpoint; dJ_endpoint_type := endpoint_type;
    dJ_trigger := trigger; dJ_status := status; dJ_version := version;
    dJ_idempotency_key := idempotency_key; dJ_input := input; dJ_run_at := run_at;
    dJ_cron := cron; dJ_timezone := timezone; dJ_starts_at := starts_at; dJ_ends_at := ends_at;
    dJ_next_run_at := next_run_at; dJ_created_at := created_at |}).

Record DashEndpoint := {
  dN_name : string;
  dN_endpoint_type : string;
  dN_payload_spec : option string;
  dN_config : option string;
  dN_spec : json;
  dN_retry_policy : option json;
  dN_created_at : string;
  dN_updated_at : string;
}.
Definition de_dash_endpoint : json → option DashEndpoint := dash_struct (λ fs,
  name ← dash_field "name" Json.as_str fs;
  endpoint_type ← dash_field "type" Json.as_str fs;
  payload_spec ← dash_opt_alias "payload_spec" "payload_spec_ref" Json.as_str fs;
  config ← dash_opt_alias "config" "config_ref" Json.as_str fs;
  spec ← dash_field "spec" Some fs;
  retry_policy ← dash_opt "retry_policy" Some fs;
  created_at ← dash_field "created_at" Json.as_str fs;
  updated_at ← dash_field "updated_at" Json.as_str fs;
  Some {| dN_name := name; dN_endpoint_type := endpoint_type; dN_payload_spec := payload_spec;
    dN_config := config; dN_spec := spec; dN_retry_policy := retry_policy;
    dN_created_at := created_at; dN_updated_at := updated_at |}).

Record DashCreateEndpoint := {
  cN_name : string;
  cN_endpoint_type : string;
  cN_spec : json;
  cN_payload_spec : option string;
  cN_config : option string;
  cN_retry_policy : option json;
}.
Definition ser_dash_create_endpoint (b : DashCreateEndpoint) : json := JObject (
  [("name", JString (cN_name b))]
  ++ [("type", JString (cN_endpoint_type b))]
  ++ [("spec", cN_spec b)]
  ++ match cN_payload_spec b with Some v => [("payload_spec", JString v)] | None => [] end
  ++ match cN_config b with Some v => [("config", JString v)] | None => [] end
  ++ match cN_retry_policy b with Some v => [("retry_policy", v)] | None => [] end).

Record DashExecution := {
  dX_execution_id : string;
  dX_job_id : string;
  dX_endpoint : option string;
  dX_endpoint_type : option string;
  dX_status : string;
  dX_attempt_count : option Z;
  dX_max_attempts : option Z;
  dX_input : option json;
  dX_output : option json;
  dX_worker_id : option string;
  dX_run_at : option string;
  dX_started_at : option string;
  dX_completed_at : option string;
  dX_duration_ms : option Z;
  dX_created_at : string;
}.
Definition de_dash_execution : json → option DashExecution := dash_struct (λ fs,
  execution_id ← dash_field "execution_id" Json.as_str fs;
  job_id ← dash_field "job_id" Json.as_str fs;
  endpoint ← dash_opt "endpoint" Json.as_str fs;
  endpoint_type ← dash_opt "endpoint_type" Json.as_str fs;
  status ← dash_field "status" Json.as_str fs;
  attempt_count ← dash_opt "attempt_count" Json.as_i64 fs;
  max_attempts ← dash_opt "max_attempts" Json.as_i64 fs;
  input ← dash_opt "input" Some fs;
  output ← dash_opt "output" Some fs;
  worker_id ← dash_opt "worker_id" Json.as_str fs;
  run_at ← dash_opt "run_at" Json.as_str fs;
  started_at ← dash_opt "started_at" Json.as_str fs;
  completed_at ← dash_opt "completed_at" Json.as_str fs;
  duration_ms ← dash_opt "duration_ms" Json.as_i64 fs;
  created_at ← dash_field "created_at" Json.as_str fs;
  Some {| dX_execution_id := execution_id; dX_job_id := job_id; dX_endpoint := endpoint;
    dX_endpoint_type := endpoint_type; dX_status := status; dX_attempt_count := attempt_count;
    dX_max_attempts := max_attempts; dX_input := input; dX_output := output;
    dX_worker_id := worker_id; dX_run_at := run_at; dX_started_at := started_at;
    dX_completed_at := completed_at; dX_duration_ms := duration_ms;
    dX_created_at := created_at |}).

Record DashConfig := {
  dC_name : string;
  dC_values : json;
  dC_created_at : string;
  dC_updated_at : string;
}.
Definition de_dash_config : json → option DashConfig := dash_struct (λ fs,
  name ← dash_field "name" Json.as_str fs;
  values_ ← dash_field "values" Some fs;
  created_at ← dash_field "created_at" Json.as_str fs;
  updated_at ← dash_field "updated_at" Json.as_str fs;
  Some {| dC_name := name; dC_values := values_; dC_created_at := created_at;
    dC_updated_at := updated_at |}).

Record DashCreateConfig := {
  cC_name : string;
  cC_values : json;
}.
Definition ser_dash_create_config (b : DashCreateConfig) : json := JObject (
  [("name", JString (cC_name b))]
  ++ [("values", cC_values b)]).

Record DashUpdateConfig := {
  uC_values : json;
}.
Definition ser_dash_update_config (b : DashUpdateConfig) : json := JObject (
  [("values", uC_values b)]).

Record DashPayloadSpec := {
  dP_name : string;
  dP_schema : json;
  dP_created_at : string;
  dP_updated_at : string;
}.
Definition de_dash_payload_spec : json → option DashPayloadSpec := dash_struct (λ fs,
  name ← dash_field "name" Json.as_str fs;
  schema_ ← dash_field "schema" Some fs;
  created_at ← dash_field "created_at" Json.as_str fs;
  updated_at ← dash_field "updated_at" Json.as_str fs;
  Some {| dP_name := name; dP_schema := schema_; dP_created_at := created_at;
    dP_updated_at := updated_at |}).

Record DashCreatePayloadSpec := {
  cP_name : string;
  cP_schema : json;
}.
Definition ser_dash_create_payload_spec (b : DashCreatePayloadSpec) : json := JObject (
  [("name", JString (cP_name b))]
  ++ [("schema", cP_schema b)]).

Record DashUpdatePayloadSpec := {
  uP_schema : json;
}.
Definition ser_dash_update_payload_spec (b : DashUpdatePayloadSpec) : json := JObject (
  [("schema", uP_schema b)]).

Record DashSecret := {
  dS_name : string;
  dS_created_at : string;
  dS_updated_at : string;
}.
Definition de_dash_secret : json → option DashSecret := dash_struct (λ fs,
  name ← dash_field "name" Json.as_str fs;
  created_at ← dash_field "created_at" Json.as_str fs;
  updated_at ← dash_field "updated_at" Json.as_str fs;
  Some {| dS_name := name; dS_created_at := created_at; dS_updated_at := updated_at |}).

Record DashCreateSecret := {
  cS_name : string;
  cS_value : string;
}.
Definition ser_dash_create_secret (b : DashCreateSecret) : json := JObject (
  [("name", JString (cS_name b))]
  ++ [("value", JString (cS_value b))]).

Record DashUpdateSecret := {
  uS_value : string;
}.
Definition ser_dash_update_secret (b : DashUpdateSecret) : json := JObject (
  [("value", JString (uS_value b))]).

Record DashAttempt := {
  dA_attempt_id : string;
  dA_attempt_number : Z;
  dA_status : string;
  dA_started_at : option string;
  dA_completed_at : option string;
  dA_duration_ms : option Z;
  dA_output : option json;
  dA_error : option string;
}.
Definition de_dash_attempt : json → option DashAttempt := dash_struct (λ fs,
  attempt_id ← dash_field "attempt_id" Json.as_str fs;
  attempt_number ← dash_field "attempt_number" Json.as_i64 fs;
  status ← dash_field "status" Json.as_str fs;
  started_at ← dash_opt "started_at" Json.as_str fs;
  completed_at ← dash_opt "completed_at" Json.as_str fs;
  duration_ms ← dash_opt "duration_ms" Json.as_i64 fs;
  output ← dash_opt "output" Some fs;
  error ← dash_opt "error" Json.as_str fs;
  Some {| dA_attempt_id := attempt_id; dA_attempt_number := attempt_number; dA_status := status;
    dA_started_at := started_at; dA_completed_at := completed_at; dA_duration_ms := duration_ms;
    dA_output := output; dA_error := error |}).

Record DashExecutionLog := {
  dL_log_id : string;
  dL_attempt_number : option Z;
  dL_level : string;
  dL_message : string;
  dL_logged_at : string;
}.
Definition de_dash_execution_log : json → option DashExecutionLog := dash_struct (λ fs,
  log_id ← dash_field "log_id" Json.as_str fs;
  attempt_number ← dash_opt "attempt_number" Json.as_i64 fs;
  level ← dash_field "level" Json.as_str fs;
  message ← dash_field "message" Json.as_str fs;
  logged_at ← dash_field "logged_at" Json.as_str fs;
  Some {| dL_log_id := log_id; dL_attempt_number := attempt_number; dL_level := level;
    dL_message := message; dL_logged_at := logged_at |}).

Record DashJobStatus := {
  dT_job_id : string;
  dT_endpoint : string;
  dT_endpoint_type : string;
  dT_trigger : string;
  dT_health : string;
  dT_version : Z;
  dT_last_execution : option json;
  dT_active_executions : option json;
  dT_cron : option json;
}.
Definition de_dash_job_status : json → option DashJobStatus := dash_struct (λ fs,
  job_id ← dash_field "job_id" Json.as_str fs;
  endpoint ← dash_field "endpoint" Json.as_str fs;
  endpoint_type ← dash_field "endpoint_type" Json.as_str fs;
  trigger ← dash_field "trigger" Json.as_str fs;
  health ← dash_field "health" Json.as_str fs;
  version ← dash_field "version" Json.as_i64 fs;
  last_execution ← dash_opt "last_execution" Some fs;
  active_executions ← dash_opt "active_executions" Some fs;
  cron ← dash_opt "cron" Some fs;
  Some {| dT_job_id := job_id; dT_endpoint := endpoint; dT_endpoint_type := endpoint_type;
    dT_trigger := trigger; dT_health := health; dT_version := version;
    dT_last_execution := last_execution; dT_active_executions := active_executions;
    dT_cron := cron |}).

Record JobListQueryParams := {
  lq_cursor : option string;
  lq_limit : Z;
  lq_job_id : option string;
  lq_status : list string;
  lq_trigger : list string;
  lq_endpoint : option string;
  lq_endpoint_type : list string;
  lq_created_after : option string;
  lq_created_before : option string;
}.
Definition JobListQueryParams_default : JobListQueryParams := {|
  lq_cursor := None; lq_limit := 50; lq_job_id := None; lq_status := []; lq_trigger := [];
  lq_endpoint := None; lq_endpoint_type := []; lq_created_after := None;
  lq_created_before := None |}.

(** ** Query strings *)

Definition percent_digit (n : nat) : ascii := default "0"%char (String.get n "0123456789ABCDEF").

(** A to Z, a to z, 0 to 9 and four others. *)
Definition unreserved (c : ascii) : bool :=
  Str.is_ascii_alphanumeric c || bool_decide (c ∈ ["-"%char; "_"%char; "."%char; "~"%char]).

Fixpoint encode_query_value (value : string) : string :=
  match value with
  | EmptyString => ""
  | String byte rest =>
      if unreserved byte then String byte (encode_query_value rest)
      else String "%" (String (percent_digit (nat_of_ascii byte / 16))
             (String (percent_digit (nat_of_ascii byte mod 16)) (encode_query_value rest)))
  end.

Definition push_query_param (qs key value : string) : string :=
  if bool_decide (value = "") then qs
  else qs +:+ (if bool_decide (qs = "") then "?" else "&") +:+ key +:+ "="
       +:+ encode_query_value value.

(** [if let Some(v) = &params.v { push_query_param(..) }], and for a list. *)
Definition push_query_opt (qs key : string) (v : option string) : string :=
  match v with Some v => push_query_param qs key v | None => qs end.
Definition push_query_list (qs key : string) (l : list string) : string :=
  if bool_decide (l = []) then qs else push_query_param qs key (Str.join "," l).

Definition job_list_query (params : JobListQueryParams) : string :=
  let qs := push_query_opt "" "cursor" (lq_cursor params) in
  let qs := push_query_param qs "limit" (Str.dec (lq_limit params)) in
  let qs := push_query_opt qs "job_id" (lq_job_id params) in
  let qs := push_query_list qs "status" (lq_status params) in
  let qs := push_query_list qs "trigger_type" (lq_trigger params) in
  let qs := push_query_list qs "endpoint_type" (lq_endpoint_type params) in
  let qs := push_query_opt qs "endpoint" (lq_endpoint params) in
  let qs := push_query_opt qs "created_after" (lq_created_after params) in
  push_query_opt qs "created_before" (lq_created_before params).

(** ** The functions of the client *)

Section client.
Context (config : DashboardConfig).
#[local] Notation base := (api_base config).

Definition dash_list_organizations : Fetch (list DashOrganization) := {|
  ft_request := dash_request GET (base +:+ "/v1/orgs") [] None;
  ft_read := data_response (dash_list de_dash_organization) |}.
Definition dash_get_organization (org_id : string) : Fetch DashOrganization := {|
  ft_request := dash_request GET (base +:+ "/v1/orgs/" +:+ org_id) [] None;
  ft_read := data_response de_dash_organization |}.
Definition dash_create_organization (body : DashCreateOrganization) : Fetch DashOrganization := {|
  ft_request := dash_request POST (base +:+ "/v1/orgs")
    [] (Some (ser_dash_create_organization body));
  ft_read := data_response de_dash_organization |}.
Definition dash_update_organization (org_id : string) (body : DashUpdateOrganization) :
    Fetch DashOrganization := {|
  ft_request := dash_request PUT (base +:+ "/v1/orgs/" +:+ org_id)
    [] (Some (ser_dash_update_organization body));
  ft_read := data_response de_dash_organization |}.
Definition dash_list_workspaces (org_id : string) : Fetch (list DashWorkspace) := {|
  ft_request := dash_request GET (base +:+ "/v1/orgs/" +:+ org_id +:+ "/workspaces") [] None;
  ft_read := data_response (dash_list de_dash_workspace) |}.
Definition dash_create_workspace (org_id : string) (body : DashCreateWorkspace) :
    Fetch DashWorkspace := {|
  ft_request := dash_request POST (base +:+ "/v1/orgs/" +:+ org_id +:+ "/workspaces")
    [] (Some (ser_dash_create_workspace body));
  ft_read := data_response de_dash_workspace |}.
Definition dash_list_jobs (org_id workspace_id : string) (params : JobListQueryParams) :
    Fetch (DashPage DashJob) := {|
  ft_request := dash_request GET (base +:+ "/v1/jobs" +:+ job_list_query params)
    (ws_headers org_id workspace_id) None;
  ft_read := paginated_response de_dash_job |}.
Definition dash_get_job (org_id workspace_id job_id : string) : Fetch DashJob := {|
  ft_request := dash_request GET (base +:+ "/v1/jobs/" +:+ job_id)
    (ws_headers org_id workspace_id) None;
  ft_read := data_response de_dash_job |}.
Definition dash_create_job (org_id workspace_id : string) (body : json) : Fetch json := {|
  ft_request := dash_request POST (base +:+ "/v1/jobs")
    (ws_headers org_id workspace_id) (Some body);
  ft_read := data_response Some |}.
Definition dash_cancel_job (org_id workspace_id job_id : string) : Fetch json := {|
  ft_request := dash_request POST (base +:+ "/v1/jobs/" +:+ job_id +:+ "/cancel")
    (ws_headers org_id workspace_id ++ [("Content-Type", "application/json")]) None;
  ft_read := λ b, b |}.
Definition dash_get_job_status (org_id workspace_id job_id : string) : Fetch DashJobStatus := {|
  ft_request := dash_request GET (base +:+ "/v1/jobs/" +:+ job_id +:+ "/status")
    (ws_headers org_id workspace_id) None;
  ft_read := data_response de_dash_job_status |}.
Definition dash_get_job_versions (org_id workspace_id job_id : string) :
    Fetch (list DashJob) := {|
  ft_request := dash_request GET (base +:+ "/v1/jobs/" +:+ job_id +:+ "/versions")
    (ws_headers org_id workspace_id) None;
  ft_read := data_response (dash_list de_dash_job) |}.
Definition dash_list_endpoints (org_id workspace_id : string) : Fetch (list DashEndpoint) := {|
  ft_request := dash_request GET (base +:+ "/v1/endpoints") (ws_headers org_id workspace_id) None;
  ft_read := page_data de_dash_endpoint |}.
Definition dash_create_endpoint (org_id workspace_id : string) (body : DashCreateEndpoint) :
    Fetch DashEndpoint := {|
  ft_request := dash_request POST (base +:+ "/v1/endpoints")
    (ws_headers org_id workspace_id) (Some (ser_dash_create_endpoint body));
  ft_read := data_response de_dash_endpoint |}.
Definition dash_update_endpoint (org_id workspace_id name : string) (body : json) :
    Fetch DashEndpoint := {|
  ft_request := dash_request PUT (base +:+ "/v1/endpoints/" +:+ name)
    (ws_headers org_id workspace_id) (Some body);
  ft_read := data_response de_dash_endpoint |}.
Definition dash_delete_endpoint (org_id workspace_id name : string) : Fetch unit := {|
  ft_request := dash_request DELETE (base +:+ "/v1/endpoints/" +:+ name)
    (ws_headers org_id workspace_id) None;
  ft_read := λ _, Some tt |}.
Definition dash_list_job_executions (org_id workspace_id job_id : string) :
    Fetch (list DashExecution) := {|
  ft_request := dash_request GET (base +:+ "/v1/jobs/" +:+ job_id +:+ "/executions")
    (ws_headers org_id workspace_id) None;
  ft_read := page_data de_dash_execution |}.
Definition dash_get_execution (org_id workspace_id execution_id : string) :
    Fetch DashExecution := {|
  ft_request := dash_request GET (base +:+ "/v1/executions/" +:+ execution_id)
    (ws_headers org_id workspace_id) None;
  ft_read := data_response de_dash_execution |}.
Definition dash_cancel_execution (org_id workspace_id execution_id : string) : Fetch json := {|
  ft_request := dash_request POST (base +:+ "/v1/executions/" +:+ execution_id +:+ "/cancel")
    (ws_headers org_id workspace_id ++ [("Content-Type", "application/json")]) None;
  ft_read := λ b, b |}.
Definition dash_list_attempts (org_id workspace_id execution_id : string) :
    Fetch (list DashAttempt) := {|
  ft_request := dash_request GET (base +:+ "/v1/executions/" +:+ execution_id +:+ "/attempts")
    (ws_headers org_id workspace_id) None;
  ft_read := data_response (dash_list de_dash_attempt) |}.
Definition dash_list_execution_logs (org_id workspace_id execution_id : string) :
    Fetch (list DashExecutionLog) := {|
  ft_request := dash_request GET (base +:+ "/v1/executions/" +:+ execution_id +:+ "/logs")
    (ws_headers org_id workspace_id) None;
  ft_read := data_response (dash_list de_dash_execution_log) |}.
Definition dash_list_configs (org_id workspace_id : string) : Fetch (list DashConfig) := {|
  ft_request := dash_request GET (base +:+ "/v1/configs") (ws_headers org_id workspace_id) None;
  ft_read := page_data de_dash_config |}.
Definition dash_create_config (org_id workspace_id : string) (body : DashCreateConfig) :
    Fetch DashConfig := {|
  ft_request := dash_request POST (base +:+ "/v1/configs")
    (ws_headers org_id workspace_id) (Some (ser_dash_create_config body));
  ft_read := data_response de_dash_config |}.
Definition dash_update_config (org_id workspace_id name : string) (body : DashUpdateConfig) :
    Fetch DashConfig := {|
  ft_request := dash_request PUT (base +:+ "/v1/configs/" +:+ name)
    (ws_headers org_id workspace_id) (Some (ser_dash_update_config body));
  ft_read := data_response de_dash_config |}.
Definition dash_delete_config (org_id workspace_id name : string) : Fetch unit := {|
  ft_request := dash_request DELETE (base +:+ "/v1/configs/" +:+ name)
    (ws_headers org_id workspace_id) None;
  ft_read := λ _, Some tt |}.
Definition dash_list_payload_specs (org_id workspace_id : string) :
    Fetch (list DashPayloadSpec) := {|
  ft_request := dash_request GET (base +:+ "/v1/payload-specs")
    (ws_headers org_id workspace_id) None;
  ft_read := page_data de_dash_payload_spec |}.
Definition dash_create_payload_spec (org_id workspace_id : string)
    (body : DashCreatePayloadSpec) : Fetch DashPayloadSpec := {|
  ft_request := dash_request POST (base +:+ "/v1/payload-specs")
    (ws_headers org_id workspace_id) (Some (ser_dash_create_payload_spec body));
  ft_read := data_response de_dash_payload_spec |}.
Definition dash_update_payload_spec (org_id workspace_id name : string)
    (body : DashUpdatePayloadSpec) : Fetch DashPayloadSpec := {|
  ft_request := dash_request PUT (base +:+ "/v1/payload-specs/" +:+ name)
    (ws_headers org_id workspace_id) (Some (ser_dash_update_payload_spec body));
  ft_read := data_response de_dash_payload_spec |}.
Definition dash_delete_payload_spec (org_id workspace_id name : string) : Fetch unit := {|
  ft_request := dash_request DELETE (base +:+ "/v1/payload-specs/" +:+ name)
    (ws_headers org_id workspace_id) None;
  ft_read := λ _, Some tt |}.
Definition dash_list_secrets (org_id workspace_id : string) : Fetch (list DashSecret) := {|
  ft_request := dash_request GET (base +:+ "/v1/secrets") (ws_headers org_id workspace_id) None;
  ft_read := page_data de_dash_secret |}.
Definition dash_create_secret (org_id workspace_id : string) (body : DashCreateSecret) :
    Fetch DashSecret := {|
  ft_request := dash_request POST (base +:+ "/v1/secrets")
    (ws_headers org_id workspace_id) (Some (ser_dash_create_secret body));
  ft_read := data_response de_dash_secret |}.
Definition dash_update_secret (org_id workspace_id name : string) (body : DashUpdateSecret) :
    Fetch DashSecret := {|
  ft_request := dash_request PUT (base +:+ "/v1/secrets/" +:+ name)
    (ws_headers org_id workspace_id) (Some (ser_dash_update_secret body));
  ft_read := data_response de_dash_secret |}.
Definition dash_delete_secret (org_id workspace_id name : string) : Fetch unit := {|
  ft_request := dash_request DELETE (base +:+ "/v1/secrets/" +:+ name)
    (ws_headers org_id workspace_id) None;
  ft_read := λ _, Some tt |}.
End client.
