(* ===== verification/DashTabs.v ===== *)
(** * The dashboard's pages ([dashboard/src/pages], [components/multi_select.rs])

    The state behind the jobs tab -- filters, the stack of cursors, its events --, the
    forms with the requests they make, and what the panels show.  A signal is a field, an
    event handler a function; layout and styling are left out.  At the end, the logic of the
    small components. *)

From Stdlib Require Import Ascii.
From S2P Require Export Dashboard.
#[local] Open Scope Z_scope.

(** ** The filters of the jobs tab *)

Definition filter_opt (value : string) : option string :=
  let trimmed := Str.trim value in
  if bool_decide (trimmed = "") then None else Some trimmed.

Record JobFilterKey := {
  fk_job_id : string;
  fk_status : list string;
  fk_trigger : list string;
  fk_endpoint_type : list string;
  fk_endpoint : string;
  fk_created_after : option Z;
  fk_created_before : option Z;
}.
#[global] Instance JobFilterKey_eq_dec : EqDecision JobFilterKey.
Proof. solve_decision. Defined.

Definition no_filter_key : JobFilterKey := {|
  fk_job_id := ""; fk_status := []; fk_trigger := []; fk_endpoint_type := [];
  fk_endpoint := ""; fk_created_after := None; fk_created_before := None |}.

Definition any_filter (k : JobFilterKey) : bool :=
  negb (bool_decide (fk_job_id k = "")) || negb (bool_decide (fk_status k = []))
  || negb (bool_decide (fk_trigger k = [])) || negb (bool_decide (fk_endpoint_type k = []))
  || negb (bool_decide (fk_endpoint k = "")) || bool_decide (is_Some (fk_created_after k))
  || bool_decide (is_Some (fk_created_before k)).

(** A search box: emptying it applies at once, Enter and leaving it commit its value. *)
Inductive BoxEvent :=
  | BoxInput (value : string)
  | BoxKeyDown (key value : string)
  | BoxChange (value : string).
Definition search_box (filter : string) (ev : BoxEvent) : string :=
  match ev with
  | BoxInput value => if bool_decide (value = "") then "" else filter
  | BoxKeyDown key value => if bool_decide (key = "Enter") then value else filter
  | BoxChange value => value
  end.

(** [toggle] of [MultiSelectFilter]: the first occurrence is removed, or the value added. *)
Fixpoint remove_first (value : string) (sel : list string) : list string :=
  match sel with
  | [] => []
  | s :: sel => if bool_decide (s = value) then sel else s :: remove_first value sel
  end.
Definition toggle (value : string) (sel : list string) : list string :=
  if bool_decide (value ∈ sel) then remove_first value sel else sel ++ [value].

Definition multi_select_text (label : string) (options : list (string * string))
    (sel : list string) : string :=
  if bool_decide (sel = []) then "All " +:+ label
  else
    let labels := (filter (λ o, o.1 ∈ sel) options).*2 in
    if bool_decide (length labels ≤ 2)%nat then Str.join ", " labels
    else Str.dec (Z.of_nat (length labels)) +:+ " selected".

Definition status_options : list (string * string) :=
  [("ACTIVE", "Active"); ("RETIRED", "Retired")].
Definition trigger_options : list (string * string) :=
  [("IMMEDIATE", "Immediate"); ("DELAYED", "Delayed"); ("CRON", "CRON")].
Definition endpoint_type_options : list (string * string) :=
  [("HTTP", "HTTP"); ("KAFKA", "Kafka"); ("REDIS_STREAM", "Redis Stream");
   ("INTERNAL", "Internal")].

(** ** The jobs tab *)

Record JobsTab := {
  jt_key : JobFilterKey;                  (* the live filters *)
  jt_page_size : Z;
  jt_cursors : list (option string);      (* [page_cursors] *)
  jt_index : nat;                         (* [page_index] *)
  jt_applied : JobFilterKey;              (* [applied_key] *)
}.
Definition jobs_tab_new : JobsTab := {|
  jt_key := no_filter_key; jt_page_size := 50; jt_cursors := [None]; jt_index := 0;
  jt_applied := no_filter_key |}.

(** The cursor stack counts only while it belongs to the live filters. *)
Definition jobs_cursor (s : JobsTab) : option string :=
  if bool_decide (jt_key s = jt_applied s) then mjoin (jt_cursors s !! jt_index s) else None.

Definition job_list_params `{!Chrono} (s : JobsTab) : JobListQueryParams :=
  let k := jt_key s in {|
  lq_cursor := jobs_cursor s; lq_limit := jt_page_size s; lq_job_id := filter_opt (fk_job_id k);
  lq_status := fk_status k; lq_trigger := fk_trigger k; lq_endpoint := filter_opt (fk_endpoint k);
  lq_endpoint_type := fk_endpoint_type k; lq_created_after := to_rfc3339 <$> fk_created_after k;
  lq_created_before := to_rfc3339 <$> fk_created_before k |}.

Definition set_filters (k : JobFilterKey) (s : JobsTab) : JobsTab := {|
  jt_key := k; jt_page_size := jt_page_size s; jt_cursors := jt_cursors s;
  jt_index := jt_index s; jt_applied := jt_applied s |}.

(** The effect that follows a change of the filters. *)
Definition reset_effect (s : JobsTab) : JobsTab := {|
  jt_key := jt_key s; jt_page_size := jt_page_size s;
  jt_cursors := match jt_cursors s with [None] => jt_cursors s | _ => [None] end;
  jt_index := if bool_decide (jt_index s = 0)%nat then jt_index s else 0;
  jt_applied := jt_key s |}.

(** Next, with the cursor of the page that is shown. *)
Definition on_next (next_cursor : option string) (s : JobsTab) : JobsTab :=
  match next_cursor with
  | Some nc => {|
      jt_key := jt_key s; jt_page_size := jt_page_size s;
      jt_cursors := take (jt_index s + 1) (jt_cursors s) ++ [Some nc];
      jt_index := jt_index s + 1; jt_applied := jt_applied s |}
  | None => s
  end.
Definition on_prev (s : JobsTab) : JobsTab :=
  if bool_decide (0 < jt_index s)%nat then {|
    jt_key := jt_key s; jt_page_size := jt_page_size s; jt_cursors := jt_cursors s;
    jt_index := jt_index s - 1; jt_applied := jt_applied s |}
  else s.
Definition on_page_size (value : string) (s : JobsTab) : JobsTab :=
  match parse_i64 value with
  | Some size => {|
      jt_key := jt_key s; jt_page_size := size; jt_cursors := [None]; jt_index := 0;
      jt_applied := jt_applied s |}
  | None => s
  end.

Inductive JobsEvent :=
  | EvFilters (k : JobFilterKey)
  | EvClear
  | EvReset
  | EvNext (next_cursor : option string)
  | EvPrev
  | EvPageSize (value : string).
Definition jobs_event (s : JobsTab) (ev : JobsEvent) : JobsTab :=
  match ev with
  | EvFilters k => set_filters k s
  | EvClear => set_filters no_filter_key s
  | EvReset => reset_effect s
  | EvNext c => on_next c s
  | EvPrev => on_prev s
  | EvPageSize v => on_page_size v s
  end.

Definition jobs_request `{!Chrono} (config : DashboardConfig) (org_id workspace_id : string)
    (s : JobsTab) : Fetch (DashPage DashJob) :=
  dash_list_jobs config org_id workspace_id (job_list_params s).

(** ** Forms *)

(** What a form shows, and the counter whose change reloads the list. *)
Record FormState := {
  fs_error : option string;
  fs_submitting : bool;
  fs_open : bool;
  fs_refresh : Z;                         (* u32 *)
}.
Definition refreshed (n : Z) : Z := (n + 1) `mod` 2 ^ 32.

(** Submitting starts; what was typed is not fit to be sent; an answer is there. *)
Definition form_start (s : FormState) : FormState := {|
  fs_error := None; fs_submitting := true; fs_open := fs_open s; fs_refresh := fs_refresh s |}.
Definition form_reject (message : string) (s : FormState) : FormState := {|
  fs_error := Some message; fs_submitting := false; fs_open := fs_open s;
  fs_refresh := fs_refresh s |}.
Definition form_finish {A} (r : res string A) (s : FormState) : FormState :=
  match r with
  | Err e => {| fs_error := Some e; fs_submitting := false; fs_open := fs_open s;
                fs_refresh := fs_refresh s |}
  | Panic _ => s
  | Ok _ => {| fs_error := fs_error s; fs_submitting := false; fs_open := false;
            fs_refresh := refreshed (fs_refresh s) |}
  end.

(** [on_submit]: what was typed becomes a request, or a message. *)
Definition on_submit {A} (undecodable : option json → string) (typed : res string (Fetch A))
    (answer : DashRequest → DashAnswer) (s : FormState) : FormState :=
  let s := form_start s in
  match typed with
  | Ok f => form_finish (fetch undecodable f (answer (ft_request f))) s
  | Err m => form_reject m s
  | Panic _ => s
  end.

(** Deleting and cancelling from a list: only an error and the counter. *)
Record ListState := { ls_error : option string; ls_refresh : Z }.
Definition on_confirm {A} (undecodable : option json → string) (target : option string)
    (call : string → Fetch A) (answer : DashRequest → DashAnswer) (s : ListState) : ListState :=
  match target with
  | Some name =>
      let f := call name in
      match fetch undecodable f (answer (ft_request f)) with
      | Err e => {| ls_error := Some e; ls_refresh := ls_refresh s |}
      | Panic _ => s
      | Ok _ => {| ls_error := None; ls_refresh := refreshed (ls_refresh s) |}
      end
  | None => s
  end.

Section forms.
(** [serde_json::from_str], with the text of its error. *)
Context (from_str : string → res string json).
Context (config : DashboardConfig) (org_id workspace_id : string).

(** A text area that must hold JSON. *)
Definition typed_json (what text : string) : res string json :=
  res_map_err (λ e, "Invalid JSON" +:+ what +:+ ": " +:+ e) (from_str text).

(** ... or nothing. *)
Definition typed_input (text : string) : res string (option json) :=
  if bool_decide (Str.trim text = "") then Ok None
  else v <-? typed_json " input" text; Ok (Some v).

Definition create_payload_spec_form (name schema_json : string) : res string (Fetch DashPayloadSpec) :=
  schema <-? typed_json "" schema_json;
  Ok (dash_create_payload_spec config org_id workspace_id {| cP_name := name; cP_schema := schema |}).
Definition edit_payload_spec_form (name schema_json : string) : res string (Fetch DashPayloadSpec) :=
  schema <-? typed_json "" schema_json;
  Ok (dash_update_payload_spec config org_id workspace_id name {| uP_schema := schema |}).
Definition create_config_form (name values_json : string) : res string (Fetch DashConfig) :=
  values <-? typed_json "" values_json;
  Ok (dash_create_config config org_id workspace_id {| cC_name := name; cC_values := values |}).
Definition edit_config_form (name values_json : string) : res string (Fetch DashConfig) :=
  values <-? typed_json "" values_json;
  Ok (dash_update_config config org_id workspace_id name {| uC_values := values |}).
Definition create_secret_form (name value : string) : res string (Fetch DashSecret) :=
  Ok (dash_create_secret config org_id workspace_id {| cS_name := name; cS_value := value |}).
Definition update_secret_form (name value : string) : res string (Fetch DashSecret) :=
  Ok (dash_update_secret config org_id workspace_id name {| uS_value := value |}).
Definition create_endpoint_form (name endpoint_type spec_json : string) :
    res string (Fetch DashEndpoint) :=
  spec <-? typed_json " spec" spec_json;
  Ok (dash_create_endpoint config org_id workspace_id {|
    cN_name := name; cN_endpoint_type := endpoint_type; cN_spec := spec;
    cN_payload_spec := None; cN_config := None; cN_retry_policy := None |}).
Definition edit_endpoint_form (name spec_json : string) : res string (Fetch DashEndpoint) :=
  spec <-? typed_json "" spec_json;
  Ok (dash_update_endpoint config org_id workspace_id name (Json.obj [("spec", spec)])).
Definition create_org_form (name slug : string) : res string (Fetch DashOrganization) :=
  Ok (dash_create_organization config {| cO_name := name; cO_slug := slug |}).
Definition edit_org_form (name : string) : res string (Fetch DashOrganization) :=
  Ok (dash_update_organization config org_id {| uO_name := name |}).
Definition create_workspace_form (name slug : string) : res string (Fetch DashWorkspace) :=
  Ok (dash_create_workspace config org_id {| cW_name := name; cW_slug := slug |}).

(** ** New jobs *)

Record CreateJobForm := {
  jf_endpoint_name : string;
  jf_trigger_type : string;
  jf_input_json : string;
  jf_key : string;
  jf_run_at : string;
  jf_cron : string;
  jf_timezone : string;
  jf_starts_at : string;
  jf_ends_at : string;
}.

(** [if !v.is_empty() { obj.insert(k, Value::String(v)) }] *)
Definition typed_field (k v : string) : list (string * json) :=
  if bool_decide (v = "") then [] else [(k, JString v)].

(** The fields of the trigger, in the order they are inserted. *)
Definition create_job_trigger_fields (f : CreateJobForm) : list (string * json) :=
  if bool_decide (jf_trigger_type f = "DELAYED") then
    typed_field "idempotency_key" (jf_key f) ++ typed_field "run_at" (jf_run_at f)
  else if bool_decide (jf_trigger_type f = "CRON") then
    typed_field "cron" (jf_cron f) ++ typed_field "timezone" (jf_timezone f)
    ++ typed_field "starts_at" (jf_starts_at f) ++ typed_field "ends_at" (jf_ends_at f)
  else typed_field "idempotency_key" (jf_key f).

Definition create_job_form_body (f : CreateJobForm) : res string json :=
  input <-? typed_input (jf_input_json f);
  Ok (Json.obj ([("endpoint", JString (jf_endpoint_name f));
                 ("trigger", JString (jf_trigger_type f)); ("input", Json.opt_json input)]
                ++ create_job_trigger_fields f)).
Definition create_job_form (f : CreateJobForm) : res string (Fetch json) :=
  body <-? create_job_form_body f;
  Ok (dash_create_job config org_id workspace_id body).

(** ** Running a job once more *)

(** A [datetime-local] value as a timestamp. *)
Definition normalize_run_at (s : string) : string :=
  let s := Str.trim s in
  if Str.ends_with s "Z" || Str.contains s "+" then s
  else if bool_decide (String.length s = 16)%nat then s +:+ ":00Z"
  else s +:+ "Z".

Definition invoke_key (job_id run_at : string) : string :=
  "adhoc-" +:+ job_id +:+ "-" +:+ run_at.

Definition invoke_job_body (endpoint job_id mode run_at input_json : string) : res string json :=
  input <-? typed_input input_json;
  let scheduled := bool_decide (mode = "SCHEDULED") in
  let trigger := if scheduled then "DELAYED" else "IMMEDIATE" in
  let fields := [("endpoint", JString endpoint); ("trigger", JString trigger);
                 ("input", Json.opt_json input)] in
  if scheduled then
    if bool_decide (Str.trim run_at = "") then Err "Run At is required for a scheduled invoke"
    else
      let run_at := normalize_run_at run_at in
      Ok (Json.obj (fields ++ [("run_at", JString run_at);
                               ("idempotency_key", JString (invoke_key job_id run_at))]))
  else Ok (Json.obj fields).
Definition invoke_job_form (endpoint job_id mode run_at input_json : string) :
    res string (Fetch json) :=
  body <-? invoke_job_body endpoint job_id mode run_at input_json;
  Ok (dash_create_job config org_id workspace_id body).
End forms.

(** ** What the lists and panels show *)

(** Rows are opened and closed by a click. *)
Definition toggle_row (id : string) (current : option string) : option string :=
  if bool_decide (current = Some id) then None else Some id.

Definition is_active (j : DashJob) : bool := bool_decide (dJ_status j = "ACTIVE").
Definition can_invoke (j : DashJob) : bool :=
  is_active j && negb (bool_decide (dJ_endpoint_type j = "INTERNAL")).
Definition is_cancellable (e : DashExecution) : bool :=
  bool_decide (dX_status e = "PENDING") || bool_decide (dX_status e = "QUEUED").

(** [&s[..n]]: a panic when [n] is inside a character. *)
Definition continuation (c : ascii) : bool := Str.between 128 191 c.
Definition str_prefix (n : nat) (s : string) : res string string :=
  match Str.sdrop n s with
  | EmptyString => if bool_decide (n = String.length s) then Ok s else Panic 102
  | String c _ => if continuation c then Panic 102 else Ok (Str.stake n s)
  end.

(** The preview of a schema, a config (60) or a spec (50); the date of a timestamp. *)
Definition preview (n : nat) (s : string) : res string string :=
  if bool_decide (n < String.length s)%nat
  then p <-? str_prefix n s; Ok (p +:+ "...") else Ok s.
Definition format_date (s : string) : res string string :=
  if bool_decide (10 ≤ String.length s)%nat then str_prefix 10 s else Ok s.

(** The lines of the status panel. *)
Definition active_line (s : DashJobStatus) : string :=
  match dT_active_executions s with
  | Some a =>
      let n k := Str.dec (default 0 (Json.get a k ≫= Json.as_i64)) in
      "pending: " +:+ n "pending" +:+ ", running: " +:+ n "running" +:+ ", total: " +:+ n "total"
  | None => "none"
  end.
Definition last_execution_line (s : DashJobStatus) : string :=
  match dT_last_execution s with
  | Some e =>
      let t k := default "?" (Json.get e k ≫= Json.as_str) in
      t "execution_id" +:+ " - " +:+ t "status"
  | None => "none"
  end.
Definition cron_line (s : DashJobStatus) : string :=
  match dT_cron s with
  | Some c =>
      let t k := default "?" (Json.get c k ≫= Json.as_str) in
      "expr: " +:+ t "expression" +:+ ", next: " +:+ t "next_run_at"
  | None => "N/A"
  end.

(** The workspace of the page is looked for among those of its organization. *)
Definition find_workspace (workspace_id : string) (l : res string (list DashWorkspace)) :
    res string DashWorkspace :=
  l <-? l;
  ok_or (head (filter (λ w, dW_workspace_id w = workspace_id) l)) "Workspace not found".

(** ** The small components ([components/copyable_id.rs] and its neighbours) *)

(** [s.chars()]: a byte that continues a character belongs to the one before it. *)
Fixpoint utf8_chars (s : string) : list string :=
  match s with
  | "" => []
  | String c s =>
      match utf8_chars s with
      | String d t :: rest =>
          if continuation d then String c (String d t) :: rest
          else String c "" :: String d t :: rest
      | rest => String c "" :: rest
      end
  end.

Definition format_id (value : string) (head tail : nat) : string :=
  if bool_decide (head = 0%nat) then value
  else
    let cs := utf8_chars value in
    if bool_decide (length cs ≤ head + tail + 1)%nat then value
    else
      let prefix := String.concat "" (take head cs) in
      if bool_decide (0 < tail)%nat
      then prefix +:+ "…" +:+ String.concat "" (drop (length cs - tail) cs)
      else prefix +:+ "…".

(** The button of an id: a click copies, and each click is undone 1500 ms later. *)
Record CopyButton := { cb_clipboard : option string; cb_copied : bool; cb_timers : list Z }.
Definition on_copy (value : string) (now : Z) (b : CopyButton) : CopyButton :=
  {| cb_clipboard := Some value; cb_copied := true; cb_timers := cb_timers b ++ [now + 1500] |}.
Definition copy_timer (now : Z) (b : CopyButton) : CopyButton :=
  if bool_decide (Exists (λ t, t ≤ now) (cb_timers b))
  then {| cb_clipboard := cb_clipboard b; cb_copied := false;
          cb_timers := filter (λ t, now < t) (cb_timers b) |}
  else b.
Definition copy_label (b : CopyButton) : string := if cb_copied b then "Copied" else "Copy ID".

(** A dialog: whether it is open afterwards, and whether [on_confirm] runs. *)
Inductive DialogEvent := DialogBackdrop | DialogDismiss | DialogConfirm.
Definition confirm_dialog (ev : DialogEvent) : bool * bool :=
  match ev with
  | DialogBackdrop | DialogDismiss => (false, false)
  | DialogConfirm => (false, true)
  end.
Definition dialog_labels (confirm_label dismiss_label : option string) : string * string :=
  (default "Delete" confirm_label, default "Cancel" dismiss_label).
(** A modal closes; its children are taken by the first rendering. *)
Inductive ModalEvent := ModalBackdrop | ModalClose.
Definition modal_event (ev : ModalEvent) : bool :=
  match ev with ModalBackdrop | ModalClose => false end.
Definition modal_children {A} (children : option A) : option A * option A := (children, None).

(** The colours of a status. *)
Definition status_badge (status : string) : string * string :=
  if bool_decide (status ∈ ["ACTIVE"; "active"; "SUCCESS"])
  then ("bg-green-100 text-green-800", "bg-green-400")
  else if bool_decide (status ∈ ["RETIRED"; "CANCELLED"; "FAILED"])
  then ("bg-red-100 text-red-800", "bg-red-400")
  else if bool_decide (status ∈ ["PENDING"; "QUEUED"])
  then ("bg-yellow-100 text-yellow-800", "bg-yellow-400")
  else if bool_decide (status ∈ ["RUNNING"; "RETRYING"])
  then ("bg-blue-100 text-blue-800", "bg-blue-400")
  else ("bg-gray-100 text-gray-800", "bg-gray-400").

(** A multi-select with its popover. *)
Record MultiSelect := { ms_open : bool; ms_selected : list string }.
Inductive MultiSelectEvent :=
  | MS_MouseDown (inside : bool)
  | MS_Button
  | MS_Clear
  | MS_All
  | MS_Option (value : string).
Definition multi_select (m : MultiSelect) (ev : MultiSelectEvent) : MultiSelect :=
  match ev with
  | MS_MouseDown inside =>
      if ms_open m && negb inside then {| ms_open := false; ms_selected := ms_selected m |} else m
  | MS_Button => {| ms_open := negb (ms_open m); ms_selected := ms_selected m |}
  | MS_Clear => {| ms_open := ms_open m; ms_selected := [] |}
  | MS_All => {| ms_open := false; ms_selected := [] |}
  | MS_Option value => {| ms_open := ms_open m; ms_selected := toggle value (ms_selected m) |}
  end.

(** A value between double quotes, as it is. *)
Definition js_quoted (s : string) : string := String "034"%char s +:+ String "034"%char "".
(** The page of the server hands its configuration to the browser in a script. *)
Definition config_script (context : option DashboardConfig) : string :=
  match context with
  | None => ""
  | Some c =>
      "window.__INVOKR_CONFIG__={apiBaseUrl:" +:+ js_quoted (dc_api_base_url c)
      +:+ ",apiPrefix:" +:+ js_quoted (dc_api_prefix c)
      +:+ ",dashboardPrefix:" +:+ js_quoted (dc_dashboard_prefix c) +:+ "};"
  end.

Lemma utf8_chars_concat s : String.concat "" (utf8_chars s) = s.
Proof.
  assert (∀ c l, String.concat "" (c :: l) = c +:+ String.concat "" l) as Hc.
  { intros c [|d l]; [by rewrite StrLemmas.app_nil_r|done]. }
  induction s as [|c s IH]; [done|]. simpl utf8_chars. rewrite <-IH at 2.
  destruct (utf8_chars s) as [|[|d t] rest]; [done|by rewrite !Hc|].
  destruct (continuation d); by rewrite !Hc.
Qed.

(** An id is shown whole, or with an ellipsis in the place of two characters or more; it
    never panics, wherever the characters end. *)
Lemma format_id_cuts value head tail :
  format_id value head tail = value
  ∨ ∃ p m t, utf8_chars value = p ++ m ++ t ∧ length p = head ∧ length t = tail
      ∧ (2 ≤ length m)%nat
      ∧ format_id value head tail = String.concat "" p +:+ "…" +:+ String.concat "" t.
Proof.
  unfold format_id. case_bool_decide as Hh; [by left|]. case_bool_decide as Hl; [by left|]. right.
  set (cs := utf8_chars value) in *.
  exists (take head cs), (take (length cs - tail - head) (drop head cs)), (drop (length cs - tail) cs).
  split_and!.
  - rewrite <-(take_drop head cs) at 1. f_equal.
    rewrite <-(take_drop (length cs - tail - head) (drop head cs)) at 1. f_equal.
    rewrite drop_drop. f_equal. lia.
  - rewrite length_take. lia.
  - rewrite length_drop. lia.
  - rewrite length_take, length_drop. lia.
  - case_bool_decide as Ht; [done|].
    rewrite (drop_ge cs) by lia. by rewrite ?StrLemmas.app_nil_r.
Qed.

(** All leaves no filter and closes; a click beside an open popover only closes it. *)
Lemma multi_select_all m ev :
  (ms_selected (multi_select m ev) = ms_selected m ∨ ms_selected (multi_select m ev) = []
   ∨ ∃ v, ev = MS_Option v ∧ ms_selected (multi_select m ev) = toggle v (ms_selected m))
  ∧ multi_select m MS_All = {| ms_open := false; ms_selected := [] |}
  ∧ (ms_open m = true → multi_select m (MS_MouseDown false)
       = {| ms_open := false; ms_selected := ms_selected m |})
  ∧ multi_select m (MS_MouseDown true) = m.
Proof.
  split_and!; [|done|by intros H; cbn; rewrite H|cbn; by rewrite andb_false_r].
  destruct ev as [[]| | | |v]; cbn; [rewrite andb_false_r|destruct (ms_open m); cbn|..]; eauto.
Qed.

Example format_id_uuid :
  format_id "81724436-aaaa-bbbb-cccc-1234567890ef" 8 4 = "81724436…90ef"
  ∧ format_id "81724436abcdef" 8 0 = "81724436…" ∧ format_id "abc" 8 4 = "abc".
Proof. by vm_compute. Qed.
