(* ===== verification/DateRange.v ===== *)
(** * The date range filter of the dashboard ([components/date_range.rs])

    Quick ranges, the month grid, the highlighted band, and the popover as a state with an
    event per handler.  An instant is in microseconds, a date in days, both since the
    epoch, a time of day in microseconds since midnight; all are UTC.  The civil calendar
    of [chrono] is a parameter. *)

From S2P Require Export Models.
#[local] Open Scope Z_scope.

(** ** Dates and times of [chrono] *)

(** Years, months (1 to 12) and days (from 1) of [NaiveDate], and its weekday. *)
Class Calendar := {
  date_year : Z → Z;
  date_month : Z → Z;
  date_day : Z → Z;
  from_ymd_opt : Z → Z → Z → option Z;
  days_from_sunday : Z → Z;
}.

(** The years every [NaiveDate] can have. *)
Definition chrono_year (y : Z) : Prop := -262000 ≤ y ≤ 262000.

(** What [chrono] documents of them: [from_ymd_opt] inverts the civil date, days follow
    each other within a month and months within a year, and weekdays repeat every seven
    days. *)
Class CalendarLaws `{!Calendar} : Prop := {
  ymd_some y m d t :
    from_ymd_opt y m d = Some t → date_year t = y ∧ date_month t = m ∧ date_day t = d;
  ymd_date t :
    chrono_year (date_year t) →
    from_ymd_opt (date_year t) (date_month t) (date_day t) = Some t;
  ymd_first y m : chrono_year y → 1 ≤ m ≤ 12 → is_Some (from_ymd_opt y m 1);
  month_range t : 1 ≤ date_month t ≤ 12;
  day_range t : 1 ≤ date_day t;
  next_day t :
    date_day (t + 1) = date_day t + 1 ∧ date_month (t + 1) = date_month t
      ∧ date_year (t + 1) = date_year t
    ∨ date_day (t + 1) = 1
      ∧ 12 * date_year (t + 1) + date_month (t + 1) = 12 * date_year t + date_month t + 1;
  weekday_range t : 0 ≤ days_from_sunday t < 7;
  weekday_next t : days_from_sunday (t + 1) = (days_from_sunday t + 1) `mod` 7;
}.

Definition second : Z := 1000000.
Definition day : Z := 86400 * second.

(** [t.date_naive()], [t.time()] *)
Definition date_naive (t : Z) : Z := t / day.
Definition time_of (t : Z) : Z := t `mod` day.

(** [NaiveTime::from_hms_opt], [NaiveDate::and_hms_opt] *)
Definition from_hms_opt (h m s : Z) : option Z :=
  if bool_decide (0 ≤ h < 24 ∧ 0 ≤ m < 60 ∧ 0 ≤ s < 60)
  then Some ((3600 * h + 60 * m + s) * second) else None.
Definition time_hour (t : Z) : Z := t / second / 3600.
Definition time_minute (t : Z) : Z := (t / second / 60) `mod` 60.
Definition time_second (t : Z) : Z := (t / second) `mod` 60.

(** ** Quick ranges *)

Inductive Preset := Today | Last2Days | Last7Days | ThisMonth | LastMonth.

Definition preset_label (p : Preset) : string :=
  match p with
  | Today => "Today" | Last2Days => "Last 2 days" | Last7Days => "Last 7 days"
  | ThisMonth => "This month" | LastMonth => "Last month"
  end.
Definition preset_all : list Preset := [Today; Last2Days; Last7Days; ThisMonth; LastMonth].

Definition start_of (d : Z) : Z := d * day.
Definition end_of (d : Z) : Z := d * day + 86399 * second.

(** [combine] *)
Definition combine_utc (date time : Z) : Z := date * day + time.
Definition default_start_time : Z := 0.
Definition default_end_time : Z := 86399 * second.

Section calendar.
Context `{!Calendar}.

(** [unwrap]: the first of a month exists. *)
Definition first_of_month (d : Z) : res unit Z :=
  match from_ymd_opt (date_year d) (date_month d) 1 with Some t => Ok t | None => Panic 110 end.

Definition preset_range (p : Preset) (now : Z) : res unit (Z * Z) :=
  let today := date_naive now in
  match p with
  | Today => Ok (start_of today, end_of today)
  | Last2Days => Ok (start_of (today - 1), end_of today)
  | Last7Days => Ok (start_of (today - 6), end_of today)
  | ThisMonth => f <-? first_of_month today; Ok (start_of f, end_of today)
  | LastMonth =>
      first_this <-? first_of_month today;
      let last_prev := first_this - 1 in
      f <-? first_of_month last_prev;
      Ok (start_of f, end_of last_prev)
  end.

(** ** The month grid *)

(** [year * 12 + month0 + delta] in [i32]; the years of [NaiveDate] are far inside. *)
Definition add_months (d delta : Z) : res unit Z :=
  let zero := date_year d * 12 + (date_month d - 1) + delta in
  match from_ymd_opt (zero / 12) (zero `mod` 12 + 1) 1 with Some t => Ok t | None => Panic 110 end.

Definition month_cells (month : Z) : res unit (list (option Z)) :=
  first <-? first_of_month month;
  next <-? add_months first 1;
  let lead := Z.to_nat (days_from_sunday first) in
  let days_in_month := Z.to_nat (date_day (next - 1)) in
  Ok (replicate lead None
      ++ ((λ n, from_ymd_opt (date_year first) (date_month first) (Z.of_nat n))
            <$> seq 1 days_in_month)).
End calendar.

(** ** The highlighted band *)

Inductive DayHighlight := HlNone | HlOnly | HlStart | HlSpan | HlEnd.

Definition day_highlight (d : Z) (after before : option Z) (hover : option Z) : DayHighlight :=
  match after with
  | None => HlNone
  | Some a =>
      let start := date_naive a in
      match (match before with Some b => Some (date_naive b) | None => hover end) with
      | None => if bool_decide (d = start) then HlOnly else HlNone
      | Some end_ =>
          let '(lo, hi) := if bool_decide (start ≤ end_) then (start, end_) else (end_, start) in
          if bool_decide (lo = hi) then if bool_decide (d = lo) then HlOnly else HlNone
          else if bool_decide (d = lo) then HlStart
          else if bool_decide (d = hi) then HlEnd
          else if bool_decide (lo < d ∧ d < hi) then HlSpan
          else HlNone
      end
  end.

(** ** The popover *)

Record Popover := {
  po_after : option Z;                    (* the filter *)
  po_before : option Z;
  po_open : bool;
  po_view_month : Z;
  po_hover : option Z;
  po_start_time : Z;
  po_end_time : Z;
  po_draft_after : option Z;              (* edited inside, committed by Apply *)
  po_draft_before : option Z;
}.

Section popover.
Context `{!Calendar}.
Implicit Types s : Popover.

(** The popover of a filter that holds [after] and [before]. *)
Definition popover_new (now : Z) (after before : option Z) : res unit Popover :=
  m <-? first_of_month (date_naive now);
  Ok {| po_after := after; po_before := before; po_open := false; po_view_month := m;
        po_hover := None; po_start_time := default_start_time; po_end_time := default_end_time;
        po_draft_after := after; po_draft_before := before |}.

Definition set_open (b : bool) s : Popover := {|
  po_after := po_after s; po_before := po_before s; po_open := b;
  po_view_month := po_view_month s; po_hover := po_hover s; po_start_time := po_start_time s;
  po_end_time := po_end_time s; po_draft_after := po_draft_after s;
  po_draft_before := po_draft_before s |}.
Definition set_draft (a b : option Z) s : Popover := {|
  po_after := po_after s; po_before := po_before s; po_open := po_open s;
  po_view_month := po_view_month s; po_hover := po_hover s; po_start_time := po_start_time s;
  po_end_time := po_end_time s; po_draft_after := a; po_draft_before := b |}.
Definition set_times (t t' : Z) s : Popover := {|
  po_after := po_after s; po_before := po_before s; po_open := po_open s;
  po_view_month := po_view_month s; po_hover := po_hover s; po_start_time := t;
  po_end_time := t'; po_draft_after := po_draft_after s; po_draft_before := po_draft_before s |}.
Definition set_view (m : Z) s : Popover := {|
  po_after := po_after s; po_before := po_before s; po_open := po_open s; po_view_month := m;
  po_hover := po_hover s; po_start_time := po_start_time s; po_end_time := po_end_time s;
  po_draft_after := po_draft_after s; po_draft_before := po_draft_before s |}.
Definition set_hover (h : option Z) s : Popover := {|
  po_after := po_after s; po_before := po_before s; po_open := po_open s;
  po_view_month := po_view_month s; po_hover := h; po_start_time := po_start_time s;
  po_end_time := po_end_time s; po_draft_after := po_draft_after s;
  po_draft_before := po_draft_before s |}.
Definition commit_filter (a b : option Z) s : Popover := {|
  po_after := a; po_before := b; po_open := po_open s; po_view_month := po_view_month s;
  po_hover := po_hover s; po_start_time := po_start_time s; po_end_time := po_end_time s;
  po_draft_after := po_draft_after s; po_draft_before := po_draft_before s |}.

(** [today] is the date when the component was made. *)
Definition toggle_open (today : Z) s : res unit Popover :=
  if po_open s then Ok (set_open false s)
  else
    let a := po_after s in
    let b := po_before s in
    m <-? first_of_month (default today (date_naive <$> a));
    Ok (set_open true (set_view m (set_hover None
          (set_times (default default_start_time (time_of <$> a))
                     (default default_end_time (time_of <$> b)) (set_draft a b s))))).

Definition apply_draft s : Popover :=
  set_open false (commit_filter (po_draft_after s) (po_draft_before s) s).
Definition clear_range s : Popover :=
  set_open false (set_times default_start_time default_end_time
    (set_draft None None (commit_filter None None s))).

Definition apply_preset (p : Preset) (now : Z) s : res unit Popover :=
  ab <-? preset_range p now;
  m <-? first_of_month (date_naive ab.1);
  Ok (set_view m (set_draft (Some ab.1) (Some ab.2)
        (set_times default_start_time default_end_time s))).

(** The first click sets the start, the second the end, exchanged when it is earlier. *)
Definition pick_day (d : Z) s : Popover :=
  match po_draft_after s, po_draft_before s with
  | Some start, None =>
      if bool_decide (d < date_naive start) then
        set_draft (Some (combine_utc d (po_start_time s)))
                  (Some (combine_utc (date_naive start) (po_end_time s))) s
      else set_draft (Some start) (Some (combine_utc d (po_end_time s))) s
  | _, _ => set_draft (Some (combine_utc d (po_start_time s))) None s
  end.

Definition apply_start (t : Z) s : Popover :=
  set_draft ((λ a, combine_utc (date_naive a) t) <$> po_draft_after s) (po_draft_before s)
    (set_times t (po_end_time s) s).
Definition apply_end (t : Z) s : Popover :=
  set_draft (po_draft_after s) ((λ b, combine_utc (date_naive b) t) <$> po_draft_before s)
    (set_times (po_start_time s) t s).

(** [TimeSelect]: one part of the time is replaced. *)
Inductive TimePart := PartHour (h : Z) | PartMinute (m : Z) | PartSecond (s : Z).
Definition select_time (t : Z) (p : TimePart) : option Z :=
  match p with
  | PartHour h => from_hms_opt h (time_minute t) (time_second t)
  | PartMinute m => from_hms_opt (time_hour t) m (time_second t)
  | PartSecond s => from_hms_opt (time_hour t) (time_minute t) s
  end.

Inductive PopoverEvent :=
  | PoToggle
  | PoOutsideClick
  | PoApply
  | PoClear
  | PoPreset (p : Preset) (now : Z)
  | PoPick (d : Z)
  | PoHover (d : option Z)
  | PoMonth (delta : Z)
  | PoStart (p : TimePart)
  | PoEnd (p : TimePart)
  | PoFilterCleared.              (* Clear filters, outside the popover *)
Definition popover_event (today : Z) (ev : PopoverEvent) s : res unit Popover :=
  match ev with
  | PoToggle => toggle_open today s
  | PoOutsideClick => Ok (if po_open s then set_open false s else s)
  | PoApply => Ok (apply_draft s)
  | PoClear => Ok (clear_range s)
  | PoPreset p now => apply_preset p now s
  | PoPick d => Ok (pick_day d s)
  | PoHover h => Ok (set_hover h s)
  | PoMonth delta => m <-? add_months (po_view_month s) delta; Ok (set_view m s)
  | PoStart p =>
      Ok (match select_time (po_start_time s) p with Some t => apply_start t s | None => s end)
  | PoEnd p =>
      Ok (match select_time (po_end_time s) p with Some t => apply_end t s | None => s end)
  | PoFilterCleared => Ok (commit_filter None None s)
  end.
End popover.
