(* ===== verification/DateTheory.v ===== *)
(** * Facts about the date range filter

    Months as intervals of days, what the quick ranges contain, the month grid, the band,
    and the invariant of the popover. *)

From S2P Require Export DateRange.
#[local] Open Scope Z_scope.

(** ** Months *)

Section months.
Context `{!Calendar} `{!CalendarLaws}.

(** Months are numbered through the years. *)
Definition month_no (d : Z) : Z := 12 * date_year d + date_month d.

Lemma month_no_next d :
  date_day (d + 1) = date_day d + 1 ∧ month_no (d + 1) = month_no d
  ∨ date_day (d + 1) = 1 ∧ month_no (d + 1) = month_no d + 1.
Proof. unfold month_no. destruct (next_day d); [left|right]; lia. Qed.

Lemma month_no_steps d n : 0 ≤ n →
  month_no d ≤ month_no (d + n)
  ∧ (month_no (d + n) = month_no d → date_day (d + n) = date_day d + n).
Proof.
  intros Hn. pattern n. apply natlike_ind; [|intros k Hk [IH1 IH2]|exact Hn].
  - rewrite Z.add_0_r. lia.
  - replace (d + Z.succ k) with (d + k + 1) by lia.
    destruct (month_no_next (d + k)); lia.
Qed.

Lemma month_no_mono d d' : d ≤ d' → month_no d ≤ month_no d'.
Proof.
  intros Hle. replace d' with (d + (d' - d)) by lia. apply month_no_steps. lia.
Qed.
Lemma same_month_day d d' : d ≤ d' → month_no d = month_no d' → date_day d' = date_day d + (d' - d).
Proof.
  intros Hle E. destruct (month_no_steps d (d' - d)) as [_ Hs]; [lia|].
  replace (d + (d' - d)) with d' in Hs by lia. apply Hs. lia.
Qed.

Lemma month_no_inj d d' : month_no d = month_no d' →
  date_year d = date_year d' ∧ date_month d = date_month d'.
Proof. unfold month_no. pose proof (month_range d). pose proof (month_range d'). lia. Qed.

(** A first day of a month begins the days of that month and the later ones. *)
Lemma first_day f d : date_day f = 1 → f ≤ d ↔ month_no f ≤ month_no d.
Proof.
  intros Hf. split; [apply month_no_mono|]. intros Hle.
  destruct (Z.le_gt_cases f d) as [|Hlt]; [done|].
  assert (month_no d = month_no f) as E.
  { pose proof (month_no_mono d f ltac:(lia)). lia. }
  pose proof (same_month_day d f ltac:(lia) E). pose proof (day_range d). lia.
Qed.

Lemma before_first f : date_day f = 1 → month_no (f - 1) = month_no f - 1.
Proof.
  intros Hf. destruct (month_no_next (f - 1)) as [[E _]|[_ E]];
    replace (f - 1 + 1) with f in E by lia; [|lia].
  pose proof (day_range (f - 1)). lia.
Qed.

Lemma first_of_month_ok d : chrono_year (date_year d) →
  ∃ f, first_of_month d = Ok f ∧ date_day f = 1 ∧ month_no f = month_no d ∧ f ≤ d.
Proof.
  intros Hy. unfold first_of_month.
  destruct (ymd_first (date_year d) (date_month d) Hy (month_range d)) as [f Hf]. rewrite Hf.
  apply ymd_some in Hf as (Ey & Em & Ed). exists f. split_and!; [done|done| |].
  - unfold month_no. lia.
  - apply (first_day f d Ed). unfold month_no. lia.
Qed.

(** ** Quick ranges *)

(** The days a range stands for. *)
Definition preset_days (p : Preset) (today d : Z) : Prop :=
  match p with
  | Today => d = today
  | Last2Days => today - 1 ≤ d ≤ today
  | Last7Days => today - 6 ≤ d ≤ today
  | ThisMonth => month_no d = month_no today ∧ d ≤ today
  | LastMonth => month_no d = month_no today - 1
  end.

Lemma day_window lo hi t : start_of lo ≤ t < end_of hi + second ↔ lo ≤ date_naive t ≤ hi.
Proof.
  unfold start_of, end_of, date_naive. assert (0 < day) as Hd by done.
  replace (hi * day + 86399 * second + second) with ((hi + 1) * day)
    by (unfold day; ring).
  split.
  - intros [H1 H2]. split; [by apply Z.div_le_lower_bound; lia|].
    assert (t / day < hi + 1); [|lia]. apply Z.div_lt_upper_bound; lia.
  - pose proof (Z.div_mod t day ltac:(lia)). pose proof (Z.mod_pos_bound t day Hd). nia.
Qed.

Lemma date_naive_mono t t' : t ≤ t' → date_naive t ≤ date_naive t'.
Proof. intros Hle. by apply Z.div_le_mono. Qed.

Lemma preset_range_ok p now :
  chrono_year (date_year (date_naive now)) → chrono_year (date_year (date_naive now) - 1) →
  ∃ a b, preset_range p now = Ok (a, b)
    ∧ ∀ t, a ≤ t < b + second ↔ preset_days p (date_naive now) (date_naive t).
Proof.
  intros Hy Hy'. set (today := date_naive now) in *.
  destruct (first_of_month_ok today Hy) as (f & Ef & Hf & Em & Hle).
  unfold preset_range. cbv zeta. fold today. rewrite Ef.
  destruct p; cbn [res_bind]; try (eexists _, _; split; [reflexivity|]; intros t;
    rewrite day_window; simpl; lia).
  - eexists _, _. split; [reflexivity|]. intros t. rewrite day_window. simpl.
    rewrite (first_day f _ Hf). split; [|lia]. intros [H1 H2]. split; [|done].
    pose proof (month_no_mono _ _ H2). lia.
  - pose proof (before_first f Hf) as Hp.
    assert (chrono_year (date_year (f - 1))) as Hyp.
    { unfold chrono_year, month_no in *. pose proof (month_range (f - 1)).
      pose proof (month_range today). lia. }
    destruct (first_of_month_ok (f - 1) Hyp) as (g & -> & Hg & Eg & _). cbn [res_bind].
    eexists _, _. split; [reflexivity|]. intros t. rewrite day_window. simpl.
    rewrite (first_day g _ Hg). pose proof (first_day f (date_naive t) Hf). lia.
Qed.
End months.

(** ** The month grid *)

Section grid.
Context `{!Calendar} `{!CalendarLaws}.

Lemma weekday_steps d n : 0 ≤ n → days_from_sunday (d + n) = (days_from_sunday d + n) `mod` 7.
Proof.
  intros Hn. pattern n. apply natlike_ind; [|intros k Hk IH|exact Hn].
  - rewrite !Z.add_0_r. symmetry. apply Z.mod_small, weekday_range.
  - replace (d + Z.succ k) with (d + k + 1) by lia. rewrite weekday_next, IH.
    rewrite Zplus_mod_idemp_l. f_equal. lia.
Qed.

Lemma next_month_ok f : date_day f = 1 → chrono_year (date_year f) →
  chrono_year (date_year f + 1) →
  ∃ next, add_months f 1 = Ok next ∧ date_day next = 1 ∧ month_no next = month_no f + 1.
Proof.
  intros Hf Hy Hy'. unfold add_months. cbv zeta. set (zero := _ + _ + 1).
  pose proof (month_range f) as Hm. pose proof (Z.div_mod zero 12 ltac:(lia)) as Hz.
  pose proof (Z.mod_pos_bound zero 12 ltac:(lia)) as Hb.
  assert (chrono_year (zero / 12)) as Hyz. { unfold chrono_year in *. lia. }
  destruct (ymd_first (zero / 12) (zero `mod` 12 + 1) Hyz ltac:(lia)) as [n Hn]. rewrite Hn.
  apply ymd_some in Hn as (Ey & Em & Ed). exists n. split_and!; [done|done|].
  unfold month_no. rewrite Ey, Em. lia.
Qed.

(** A month is the days from its first to the first of the next. *)
Lemma in_month f next d :
  date_day f = 1 → date_day next = 1 → month_no next = month_no f + 1 →
  month_no d = month_no f ↔ f ≤ d < next.
Proof.
  intros Hf Hn E. rewrite (first_day f d Hf). pose proof (first_day next d Hn) as Hd. lia.
Qed.

Lemma month_day f next n :
  date_day f = 1 → date_day next = 1 → month_no next = month_no f + 1 →
  chrono_year (date_year f) → 0 ≤ n < next - f →
  from_ymd_opt (date_year f) (date_month f) (1 + n) = Some (f + n).
Proof.
  intros Hf Hn E Hy Hlt.
  assert (month_no (f + n) = month_no f) as Em by (apply (in_month f next _ Hf Hn E); lia).
  pose proof (same_month_day f (f + n) ltac:(lia) (eq_sym Em)) as Ed.
  destruct (month_no_inj _ _ Em) as [Ey Emm]. rewrite <-Ey in Hy. apply ymd_date in Hy.
  rewrite Ey, Emm, Ed, Hf in Hy. by replace (1 + n) with (1 + (f + n - f)) by lia.
Qed.

(** A day of the month is as many weekdays behind the first as it is days later. *)
Lemma month_weekday month f d :
  chrono_year (date_year month) → first_of_month month = Ok f → month_no d = month_no month →
  (days_from_sunday f + (d - f)) `mod` 7 = days_from_sunday d.
Proof.
  intros Hy Ef Ed. destruct (first_of_month_ok month Hy) as (g & Eg & Hg & Em & _).
  rewrite Ef in Eg. injection Eg as <-.
  assert (f ≤ d) by (apply (first_day f d Hg); lia).
  rewrite <-weekday_steps by lia. f_equal. lia.
Qed.

(** The grid of a month: each of its days is at one place, in the column of its weekday,
    and there is nothing else. *)
Lemma month_cells_ok month :
  chrono_year (date_year month) → chrono_year (date_year month + 1) →
  ∃ cells f, month_cells month = Ok cells ∧ first_of_month month = Ok f
    ∧ ∀ i d, cells !! i = Some (Some d) ↔
        month_no d = month_no month ∧ Z.of_nat i = days_from_sunday f + (d - f).
Proof.
  intros Hy Hy'. destruct (first_of_month_ok month Hy) as (f & Ef & Hf & Em & _).
  destruct (month_no_inj _ _ Em) as [Eyf _]. rewrite <-Eyf in Hy, Hy'.
  destruct (next_month_ok f Hf Hy Hy') as (next & En & Hn & Enx).
  pose proof (proj1 (in_month f next f Hf Hn Enx) eq_refl) as Hlt.
  assert (month_no (next - 1) = month_no f) as El by (apply (in_month f next _ Hf Hn Enx); lia).
  pose proof (same_month_day f (next - 1) ltac:(lia) (eq_sym El)) as Hdim.
  pose proof (weekday_range f) as Hw.
  unfold month_cells. rewrite Ef. cbn [res_bind]. rewrite En. cbn [res_bind].
  eexists _, f. split_and!; [reflexivity|done|].
  intros i d. rewrite lookup_app_Some, length_replicate, list_lookup_fmap. setoid_rewrite lookup_replicate.
  rewrite <-Em, (in_month f next d Hf Hn Enx). split.
  - intros [[? _]|[Hi Hc]]; [done|]. apply fmap_Some in Hc as (n & [-> Hn']%lookup_seq & Hc).
    rewrite Nat2Z.inj_add in Hc. rewrite (month_day f next) in Hc by (done || lia).
    injection Hc as ->. lia.
  - intros [Hd Hi]. right. split; [lia|]. apply fmap_Some.
    exists (1 + Z.to_nat (d - f))%nat. split; [apply lookup_seq; lia|].
    rewrite Nat2Z.inj_add, Z2Nat.id by lia. rewrite (month_day f next) by (done || lia).
    f_equal. lia.
Qed.
End grid.

(** ** The band *)

(** What the band shows of a day: the days between the ends, whichever comes first. *)
Lemma day_highlight_band d a e before hover :
  match before with Some b => Some (date_naive b) | None => hover end = Some e →
  let lo := Z.min (date_naive a) e in
  let hi := Z.max (date_naive a) e in
  day_highlight d (Some a) before hover
  = if bool_decide (d < lo ∨ hi < d) then HlNone
    else if bool_decide (lo = hi) then HlOnly
    else if bool_decide (d = lo) then HlStart
    else if bool_decide (d = hi) then HlEnd else HlSpan.
Proof.
  intros E. cbv zeta. unfold day_highlight. rewrite E.
  destruct (bool_decide_reflect (date_naive a ≤ e)) as [Hle|Hlt];
    [rewrite Z.min_l, Z.max_r by lia|rewrite Z.min_r, Z.max_l by lia];
    repeat (case_bool_decide; try lia; try done).
Qed.

(** ** The popover *)

Section popover.
Context `{!Calendar} `{!CalendarLaws}.

Lemma combine_date d t : 0 ≤ t < day → date_naive (combine_utc d t) = d.
Proof. intros Ht. unfold date_naive, combine_utc. rewrite Z.div_add_l by done. rewrite Z.div_small; lia. Qed.
Lemma combine_time d t : 0 ≤ t < day → time_of (combine_utc d t) = t.
Proof. intros Ht. unfold time_of, combine_utc. rewrite Z.add_comm, Z.mod_add by done. by apply Z.mod_small. Qed.
Lemma time_range t : 0 ≤ time_of t < day.
Proof. by apply Z.mod_pos_bound. Qed.
Lemma date_and_time t : t = date_naive t * day + time_of t.
Proof. unfold date_naive, time_of. rewrite Z.mul_comm. by apply Z.div_mod. Qed.

(** A window that does not end on a day before it begins. *)
Definition window_ok (a b : option Z) : Prop :=
  ∀ y, b = Some y → ∃ x, a = Some x ∧ date_naive x ≤ date_naive y.

Record popover_ok (s : Popover) : Prop := {
  po_filter : window_ok (po_after s) (po_before s);
  po_draft : window_ok (po_draft_after s) (po_draft_before s);
  po_start : ∀ x, po_draft_after s = Some x → time_of x = po_start_time s;
  po_end : ∀ y, po_draft_before s = Some y → time_of y = po_end_time s;
  po_start_day : 0 ≤ po_start_time s < day;
  po_end_day : 0 ≤ po_end_time s < day;
}.

Lemma window_none a : window_ok a None.
Proof. done. Qed.
Lemma window_some x y : date_naive x ≤ date_naive y → window_ok (Some x) (Some y).
Proof. intros Hle y' [= <-]. by exists x. Qed.

Lemma first_of_month_le d f : first_of_month d = Ok f → f ≤ d.
Proof.
  unfold first_of_month. destruct (from_ymd_opt _ _ _) as [t|] eqn:E; [|done]. intros [= <-].
  apply ymd_some in E as (Ey & Em & Ed). apply (first_day t d Ed). unfold month_no. lia.
Qed.

(** The range of a button runs from the start of a day to the end of one. *)
Lemma preset_window p now a b : preset_range p now = Ok (a, b) →
  date_naive a ≤ date_naive b ∧ time_of a = default_start_time ∧ time_of b = default_end_time.
Proof.
  assert (∀ x y, x ≤ y → date_naive (start_of x) ≤ date_naive (end_of y)
    ∧ time_of (start_of x) = default_start_time ∧ time_of (end_of y) = default_end_time) as Hw.
  { intros x y Hxy. change (start_of x) with (x * day). replace (x * day) with (combine_utc x 0)
      by (unfold combine_utc; lia).
    change (end_of y) with (combine_utc y default_end_time).
    rewrite !combine_date, !combine_time by done. done. }
  unfold preset_range. cbv zeta.
  destruct p; try (intros [= <- <-]; apply Hw; lia);
    destruct (first_of_month (date_naive now)) as [f| |] eqn:Ef; try done; cbn [res_bind].
  - intros [= <- <-]. apply Hw. by apply first_of_month_le.
  - destruct (first_of_month (f - 1)) as [g| |] eqn:Eg; try done. intros [= <- <-].
    apply Hw. by apply first_of_month_le.
Qed.

Lemma from_hms_range h m s t : from_hms_opt h m s = Some t → 0 ≤ t < day.
Proof. unfold from_hms_opt. case_bool_decide as Hr; [|done]. intros [= <-]. unfold day, second. lia. Qed.
Lemma select_time_range t p t' : select_time t p = Some t' → 0 ≤ t' < day.
Proof. destruct p; apply from_hms_range. Qed.

Lemma default_times : 0 ≤ default_start_time < day ∧ 0 ≤ default_end_time < day.
Proof. done. Qed.

#[local] Hint Resolve window_none window_some time_range : core.

Lemma pick_day_ok d s : popover_ok s → popover_ok (pick_day d s).
Proof.
  intros [Hf Hd Hs He Hsd Hed]. unfold pick_day.
  destruct (po_draft_after s) as [x|] eqn:Ea, (po_draft_before s) as [y|] eqn:Eb;
    try case_bool_decide as Hlt; split; simpl; auto;
    try (intros z [= <-]; by apply combine_time);
    apply window_some; rewrite !combine_date by done; lia.
Qed.

Lemma apply_start_ok t s : 0 ≤ t < day → popover_ok s → popover_ok (apply_start t s).
Proof.
  intros Ht [Hf Hd Hs He Hsd Hed]. split; simpl; auto.
  - intros y Ey. destruct (Hd y Ey) as (x & E & Hle). rewrite E. eexists.
    split; [reflexivity|]. by rewrite combine_date.
  - intros x (x0 & _ & ->)%fmap_Some. by apply combine_time.
Qed.

Lemma apply_end_ok t s : 0 ≤ t < day → popover_ok s → popover_ok (apply_end t s).
Proof.
  intros Ht [Hf Hd Hs He Hsd Hed]. split; simpl; auto.
  - intros y (y0 & Ey & ->)%fmap_Some. destruct (Hd y0 Ey) as (x & E & Hle). exists x.
    split; [done|]. by rewrite combine_date.
  - intros y (y0 & _ & ->)%fmap_Some. by apply combine_time.
Qed.

Lemma toggle_open_ok today s s' : toggle_open today s = Ok s' → popover_ok s → popover_ok s'.
Proof.
  intros E [Hf Hd Hs He Hsd Hed]. unfold toggle_open in E.
  destruct (po_open s); [injection E as <-; by split|].
  destruct (first_of_month _) as [m| |]; [|done..]. injection E as <-.
  pose proof default_times as [Hds Hde]. split; simpl; auto.
  - intros x ->. done.
  - intros y ->. done.
  - destruct (po_after s); simpl; auto.
  - destruct (po_before s); simpl; auto.
Qed.

Lemma apply_preset_ok p now s s' : apply_preset p now s = Ok s' → popover_ok s → popover_ok s'.
Proof.
  intros E [Hf Hd Hs He Hsd Hed]. unfold apply_preset in E.
  destruct (preset_range p now) as [[a b]| |] eqn:Ep; [|done..]. cbn [res_bind fst snd] in E.
  destruct (first_of_month _) as [m| |]; [|done..]. injection E as <-.
  apply preset_window in Ep as (Hle & Ha & Hb). pose proof default_times as [Hds Hde].
  split; simpl; auto; [intros x [= <-]; exact Ha | intros y [= <-]; exact Hb].
Qed.

Lemma popover_event_ok today ev s s' :
  popover_event today ev s = Ok s' → popover_ok s → popover_ok s'.
Proof.
  destruct ev as [| | | |p now|d|h|delta|p|p|]; cbn [popover_event]; intros E Hok.
  - by eapply toggle_open_ok.
  - injection E as <-. destruct (po_open s); [by destruct Hok|done].
  - injection E as <-. by destruct Hok.
  - injection E as <-. destruct Hok. by split.
  - by eapply apply_preset_ok.
  - injection E as <-. by apply pick_day_ok.
  - injection E as <-. by destruct Hok.
  - destruct (add_months _ _) as [m| |]; [|done..]. injection E as <-. by destruct Hok.
  - injection E as <-. destruct (select_time _ p) as [t|] eqn:Et; [|done].
    apply apply_start_ok; [by eapply select_time_range|done].
  - injection E as <-. destruct (select_time _ p) as [t|] eqn:Et; [|done].
    apply apply_end_ok; [by eapply select_time_range|done].
  - injection E as <-. destruct Hok. by split.
Qed.

(** The popovers that events lead to, from an empty filter. *)
Inductive popover_reach (today : Z) : Popover → Prop :=
  | popover_reach_new now s : popover_new now None None = Ok s → popover_reach today s
  | popover_reach_event ev s s' :
      popover_reach today s → popover_event today ev s = Ok s' → popover_reach today s'.

Lemma popover_reach_ok today s : popover_reach today s → popover_ok s.
Proof.
  induction 1 as [now s E|ev s s' _ IH E]; [|by eapply popover_event_ok].
  unfold popover_new in E. destruct (first_of_month _) as [m| |]; [|done..]. injection E as <-.
  by split.
Qed.
End popover.
