(* ===== verification/DashContract.v ===== *)
(** * The contract between the dashboard and the API

    What the dashboard's query means to the API, how its pages follow each other, what it
    makes of the API's objects, and what its job forms ask for. *)

From Stdlib Require Import Ascii.
From S2P Require Export SdkContract DashTabs Pages.
#[local] Open Scope Z_scope.

(** ** Query strings *)

(** A parameter is left out when it is empty. *)
Definition kept (k v : string) : list (string * string) :=
  if bool_decide (v = "") then [] else [(k, v)].
Definition kept_opt (k : string) (v : option string) : list (string * string) :=
  match v with Some v => kept k v | None => [] end.
Definition kept_list (k : string) (l : list string) : list (string * string) :=
  kept k (Str.join "," l).

Definition piece (kv : string * string) : string := kv.1 +:+ "=" +:+ encode_query_value kv.2.
Definition rendered (ps : list (string * string)) : string :=
  match ps with [] => "" | _ => "?" +:+ Str.join "&" (piece <$> ps) end.

(** The parameters of a list request. *)
Definition job_list_pairs (p : JobListQueryParams) : list (string * string) :=
  kept_opt "cursor" (lq_cursor p) ++ kept "limit" (Str.dec (lq_limit p))
  ++ kept_opt "job_id" (lq_job_id p) ++ kept_list "status" (lq_status p)
  ++ kept_list "trigger_type" (lq_trigger p) ++ kept_list "endpoint_type" (lq_endpoint_type p)
  ++ kept_opt "endpoint" (lq_endpoint p) ++ kept_opt "created_after" (lq_created_after p)
  ++ kept_opt "created_before" (lq_created_before p).

Lemma join_snoc sep l x : l ≠ [] → Str.join sep (l ++ [x]) = Str.join sep l +:+ sep +:+ x.
Proof.
  induction l as [|y l IH]; [done|]. intros _. destruct l as [|z l]; [done|].
  change (Str.join sep ((y :: z :: l) ++ [x])) with (y +:+ sep +:+ Str.join sep ((z :: l) ++ [x])).
  rewrite IH by done.
  change (Str.join sep (y :: z :: l)) with (y +:+ sep +:+ Str.join sep (z :: l)).
  by rewrite !app_assoc.
Qed.

Lemma push_rendered ps k v : push_query_param (rendered ps) k v = rendered (ps ++ kept k v).
Proof.
  unfold push_query_param, kept. case_bool_decide as Hv; [by rewrite (right_id_L [] (++))|].
  destruct ps as [|q ps]; [done|]. rewrite bool_decide_eq_false_2 by done.
  unfold rendered at 1. change ((q :: ps) ++ [(k, v)]) with (q :: (ps ++ [(k, v)])).
  unfold rendered. change (q :: (ps ++ [(k, v)])) with ((q :: ps) ++ [(k, v)]).
  rewrite fmap_app. change (piece <$> [(k, v)]) with [piece (k, v)].
  rewrite join_snoc by done. unfold piece. simpl fst. simpl snd. by rewrite !app_assoc.
Qed.
Lemma push_opt_rendered ps k v : push_query_opt (rendered ps) k v = rendered (ps ++ kept_opt k v).
Proof. destruct v; [apply push_rendered|]. simpl. by rewrite (right_id_L [] (++)). Qed.
Lemma push_list_rendered ps k l : push_query_list (rendered ps) k l = rendered (ps ++ kept_list k l).
Proof.
  unfold push_query_list, kept_list. case_bool_decide as Hl; [|apply push_rendered].
  subst l. change (kept k _) with (@nil (string * string)). by rewrite (right_id_L [] (++)).
Qed.

Lemma job_list_query_rendered p : job_list_query p = rendered (job_list_pairs p).
Proof.
  unfold job_list_query, job_list_pairs. change "" with (rendered []) at 1.
  repeat first [rewrite push_opt_rendered | rewrite push_rendered | rewrite push_list_rendered].
  by rewrite <- !(assoc_L (++)).
Qed.

(** ** Percent-encoding *)

Definition hex_value (c : ascii) : option nat :=
  let n := nat_of_ascii c in
  if Str.between 48 57 c then Some (n - 48)%nat
  else if Str.between 65 70 c then Some (n - 55)%nat
  else if Str.between 97 102 c then Some (n - 87)%nat
  else None.

(** What RFC 3986 calls percent-decoding. *)
Fixpoint percent_decode (s : string) : string :=
  match s with
  | EmptyString => ""
  | String c rest =>
      match c, rest with
      | "%"%char, String h (String l rest') =>
          match hex_value h, hex_value l with
          | Some a, Some b => String (ascii_of_nat (16 * a + b)) (percent_decode rest')
          | _, _ => String c (percent_decode rest)
          end
      | _, _ => String c (percent_decode rest)
      end
  end.

(** Nothing that separates the pairs of a form, and no plus sign. *)
Definition plain_char (c : ascii) : bool :=
  negb (bool_decide (c ∈ ["&"%char; "="%char; "+"%char])).
Definition plain (s : string) : bool := Str.all plain_char s.

Lemma decode_encode v : percent_decode (encode_query_value v) = v.
Proof.
  induction v as [|c v IH]; [done|].
  assert (∀ s, percent_decode (if unreserved c then String c s
      else String "%" (String (percent_digit (nat_of_ascii c / 16))
             (String (percent_digit (nat_of_ascii c mod 16)) s))) = String c (percent_decode s)) as Hc.
  { clear. destruct c as [[] [] [] [] [] [] [] []]; reflexivity. }
  cbn [encode_query_value]. rewrite Hc. by rewrite IH.
Qed.

Lemma encode_plain v : plain (encode_query_value v) = true.
Proof.
  induction v as [|c v IH]; [done|].
  assert (∀ s, plain s = true → plain (if unreserved c then String c s
      else String "%" (String (percent_digit (nat_of_ascii c / 16))
             (String (percent_digit (nat_of_ascii c mod 16)) s))) = true) as Hc.
  { clear. intros s Hs. destruct c as [[] [] [] [] [] [] [] []]; exact Hs. }
  cbn [encode_query_value]. by apply Hc.
Qed.

(** How the server reads a query: pairs separated by [&] and [=], percent-decoded. *)
Definition urlencoded (parse_query : string → list (string * string)) : Prop :=
  ∀ ps, Forall (λ kv, plain kv.1 = true ∧ plain kv.2 = true) ps →
    parse_query (Str.join "&" ((λ kv, kv.1 +:+ "=" +:+ kv.2) <$> ps))
    = (λ kv, (percent_decode kv.1, percent_decode kv.2)) <$> ps.

(** Keys that stand for themselves. *)
Definition bare (k : string) : bool := plain k && bool_decide (percent_decode k = k).

Lemma query_is_read parse_query ps :
  urlencoded parse_query → Forall (λ kv, bare kv.1 = true) ps →
  parse_query (Str.join "&" (piece <$> ps)) = ps.
Proof.
  intros Hp Hk.
  assert (piece <$> ps = (λ kv, kv.1 +:+ "=" +:+ kv.2)
    <$> ((λ kv, (kv.1, encode_query_value kv.2)) <$> ps)) as -> by (rewrite <-list_fmap_compose; done).
  rewrite Hp.
  - rewrite <-list_fmap_compose. rewrite <-(list_fmap_id ps) at 2. apply list_fmap_ext.
    intros i [k v] Hi. simpl. rewrite decode_encode.
    eapply list.Forall_lookup_1 in Hk; [|exact Hi]. apply andb_prop in Hk as [_ Hk].
    apply bool_decide_eq_true in Hk. simpl in Hk. by rewrite Hk.
  - apply list.Forall_fmap. eapply list.Forall_impl; [exact Hk|]. intros [k v] Hb. simpl in *.
    apply andb_prop in Hb as [Hb _]. split; [done|apply encode_plain].
Qed.

(** ** The filters of the jobs tab *)

(** What a multi-select holds: some of its options, each once. *)
Definition chosen (options : list (string * string)) (sel : list string) : Prop :=
  NoDup sel ∧ ∀ x, x ∈ sel → x ∈ options.*1.

Lemma chosen_none options : chosen options [].
Proof. split; [apply NoDup_nil_2|by intros x ?%elem_of_nil]. Qed.
Lemma chosen_one options x : x ∈ options.*1 → chosen options [x].
Proof. intros Hx. split; [apply NoDup_singleton|by intros y ->%list_elem_of_singleton]. Qed.

Lemma remove_first_elem v sel x : x ∈ remove_first v sel → x ∈ sel.
Proof.
  induction sel as [|y sel IH]; simpl; [done|]. case_bool_decide; [by right|].
  intros [->|Hx]%elem_of_cons; [left|right; by apply IH].
Qed.
Lemma remove_first_NoDup v sel : NoDup sel → NoDup (remove_first v sel).
Proof.
  induction 1 as [|y sel Hy Hnd IH]; simpl; [constructor|]. case_bool_decide; [done|].
  constructor; [|done]. by intros ?%remove_first_elem.
Qed.

Lemma toggle_chosen options v sel :
  v ∈ options.*1 → chosen options sel → chosen options (toggle v sel).
Proof.
  intros Hv [Hnd Hin]. unfold toggle. case_bool_decide as Hs.
  - split; [by apply remove_first_NoDup|]. intros x Hx. by eapply Hin, remove_first_elem.
  - split.
    + apply list.NoDup_app. split; [done|]. split; [|apply NoDup_singleton].
      intros x Hx ->%list_elem_of_singleton. done.
    + intros x [Hx| ->%list_elem_of_singleton]%elem_of_app; [by apply Hin|done].
Qed.

Lemma split_join l : l ≠ [] → (∀ x, x ∈ l → token x) → Str.split ","%char (Str.join "," l) = l.
Proof.
  induction l as [|x l IH]; [done|]. intros _ Ht.
  destruct (Ht x) as (Hs & _ & _); [left|]. destruct l as [|y l]; [exact Hs|].
  change (Str.join "," (x :: y :: l)) with (x +:+ String "," (Str.join "," (y :: l))).
  rewrite split_token_app by done. f_equal. apply IH; [done|]. intros z Hz. apply Ht. by right.
Qed.

Lemma tokens_kept l : (∀ x, x ∈ l → token x) →
  (λ t, Str.trim t) <$> Str.split ","%char (Str.join "," l) = match l with [] => [""] | _ => l end.
Proof.
  intros Ht. destruct l as [|x l]; [done|]. rewrite split_join by done.
  rewrite <-(list_fmap_id (x :: l)) at 2. apply list_fmap_ext. intros i y Hy.
  destruct (Ht y) as (_ & E & _); [by eapply list_elem_of_lookup_2|]. exact E.
Qed.

Lemma filter_list_joined {T} `{!EqDecision T} (parse : string → option T) key label pairs l out :
  (∀ s y, parse s = Some y → token s) →
  filter (with_key key) pairs = kept_list key l →
  mapM parse l = Some out → NoDup out →
  parse_filter_list pairs key parse label = Ok out.
Proof.
  intros Htok Hf Hm Hnd.
  assert (∀ x, x ∈ l → token x) as Ht.
  { intros x Hx. apply mapM_Some in Hm. apply list_elem_of_lookup in Hx as [i Hi].
    destruct (Forall2_lookup_l _ _ _ _ _ Hm Hi) as (y & _ & Hy). by eapply Htok. }
  unfold parse_filter_list, filter_tokens.
  change (filter (λ kv, kv.1 = key) pairs) with (filter (with_key key) pairs). rewrite Hf.
  assert (filter (λ t, t ≠ "") (mjoin ((λ kv : string * string,
      Str.trim <$> Str.split ","%char kv.2) <$> kept_list key l)) = l) as ->.
  { unfold kept_list, kept. case_bool_decide as He.
    - destruct l as [|x [|y l]]; [done| |].
      + simpl in He. subst x. destruct (Ht "") as (_ & _ & ?); [left|done].
      + exfalso. destruct (Ht x) as (_ & _ & Hx); [left|]. apply Hx.
        change (x +:+ "," +:+ Str.join "," (y :: l) = "") in He. by destruct x.
    - simpl. rewrite (right_id_L [] (++)), tokens_kept by done.
      destruct l as [|x l]; [done|]. apply filter_all. intros y Hy. by destruct (Ht y Hy) as (_ & _ & ?). }
  apply (collect_tokens_all parse label l []); done.
Qed.

Lemma chosen_parsed {T} (parse : string → option T) options sel :
  (∀ x, x ∈ options.*1 → is_Some (parse x)) →
  (∀ x y z, parse x = Some z → parse y = Some z → x = y) →
  chosen options sel →
  mapM parse sel = Some (omap parse sel) ∧ NoDup (omap parse sel).
Proof.
  intros Hopt Hinj [Hnd Hin]. induction Hnd as [|x sel Hx Hnd IH]; [split; [done|constructor]|].
  destruct (Hopt x) as [y Hy]; [apply Hin; left|].
  destruct IH as [Hm Hn]; [intros z Hz; apply Hin; by right|]. simpl. rewrite Hy, Hm. split; [done|].
  constructor; [|done]. intros (z & Hz & Ez)%list_elem_of_omap. apply Hx. by rewrite (Hinj x z y).
Qed.

Lemma scalar_kept key k v :
  omap (scalar_of key) (kept k v)
  = if bool_decide (k = key) then option_list (blank_to_none (Some v)) else [].
Proof.
  unfold kept. case_bool_decide as Hv; [subst v; by case_bool_decide|].
  simpl. unfold scalar_of. simpl. case_bool_decide; [|done].
  by destruct (blank_to_none (Some v)).
Qed.
Lemma scalar_kept_opt key k v :
  omap (scalar_of key) (kept_opt k v)
  = if bool_decide (k = key) then option_list (blank_to_none v) else [].
Proof. destruct v; [apply scalar_kept|]. simpl. by case_bool_decide. Qed.
Lemma scalar_kept_list key k l : bool_decide (k = key) = false →
  omap (scalar_of key) (kept_list k l) = [].
Proof. intros Hk. unfold kept_list. by rewrite scalar_kept, Hk. Qed.
Lemma with_key_kept key k v :
  filter (with_key key) (kept k v) = if bool_decide (k = key) then kept k v else [].
Proof.
  unfold kept. case_bool_decide; [by case_bool_decide|].
  case_bool_decide; [by rewrite filter_cons_True|by rewrite filter_cons_False].
Qed.
Lemma with_key_kept_list key k l :
  filter (with_key key) (kept_list k l) = if bool_decide (k = key) then kept_list k l else [].
Proof. apply with_key_kept. Qed.
Lemma with_key_kept_opt key k v :
  filter (with_key key) (kept_opt k v) = if bool_decide (k = key) then kept_opt k v else [].
Proof. destruct v; [apply with_key_kept|]. simpl. by case_bool_decide. Qed.

(** The options of the three multi-selects are values the API knows. *)
Ltac options :=
  apply chosen_parsed;
  [intros x Hx; cbn in Hx; repeat (apply elem_of_cons in Hx as [->|Hx]; [by eexists|]); by apply elem_of_nil in Hx
  |intros x y z; match goal with |- ?f _ = _ → _ => unfold f end;
   repeat case_bool_decide; congruence].
Lemma status_chosen sel : chosen status_options sel →
  mapM JobStatus_from_str_val sel = Some (omap JobStatus_from_str_val sel)
  ∧ NoDup (omap JobStatus_from_str_val sel).
Proof. options. Qed.
Lemma trigger_chosen sel : chosen trigger_options sel →
  mapM TriggerType_from_str_val sel = Some (omap TriggerType_from_str_val sel)
  ∧ NoDup (omap TriggerType_from_str_val sel).
Proof. options. Qed.
Lemma endpoint_type_chosen sel : chosen endpoint_type_options sel →
  mapM EndpointType_from_str_val sel = Some (omap EndpointType_from_str_val sel)
  ∧ NoDup (omap EndpointType_from_str_val sel).
Proof. options. Qed.

(** The tab writes its times so that the API can read them. *)
Definition written_times `{!Chrono} : Prop :=
  ∀ t, Str.trim (to_rfc3339 t) = to_rfc3339 t ∧ to_rfc3339 t ≠ ""
    ∧ parse_from_rfc3339 (to_rfc3339 t) = Some t.

(** What the parameters of a tab keep under a key. *)
Ltac kept_scalar :=
  apply last_scalar_option; match goal with |- context [omap _ ?p] => unfold p end;
  unfold job_list_pairs, job_list_params;
  cbn [lq_cursor lq_limit lq_job_id lq_status lq_trigger lq_endpoint lq_endpoint_type
       lq_created_after lq_created_before];
  rewrite !omap_app, !scalar_kept_opt, !scalar_kept, !scalar_kept_list by reflexivity;
  literals; rewrite ?(left_id_L [] (++)), ?(right_id_L [] (++)); reflexivity.
Ltac kept_many :=
  match goal with |- filter _ ?p = _ => unfold p end;
  unfold job_list_pairs, job_list_params;
  cbn [lq_cursor lq_limit lq_job_id lq_status lq_trigger lq_endpoint lq_endpoint_type
       lq_created_after lq_created_before];
  rewrite !list.filter_app, !with_key_kept_list, !with_key_kept, !with_key_kept_opt by reflexivity;
  literals; rewrite ?(left_id_L [] (++)), ?(right_id_L [] (++)); reflexivity.

Section tab_filters.
Context `{!Chrono}.
Hypothesis times : written_times.

Lemma written_time o label :
  parse_datetime (blank_to_none (to_rfc3339 <$> o)) label = Ok o.
Proof.
  destruct o as [t|]; [|done]. destruct (times t) as (Ht & Hn & Hp).
  unfold parse_datetime, blank_to_none. simpl. rewrite Ht, bool_decide_eq_false_2 by done.
  simpl. rewrite Ht, bool_decide_eq_false_2 by done. by rewrite Hp.
Qed.

Lemma filter_opt_blank v : blank_to_none (filter_opt v) = filter_opt v.
Proof.
  unfold filter_opt, blank_to_none. cbv zeta. case_bool_decide as Hv; [done|]. simpl.
  rewrite trim_trim. by rewrite bool_decide_eq_false_2.
Qed.

(** The filters a tab stands for. *)
Definition tab_filters (k : JobFilterKey) : JobFilters := {|
  jf_job_id := filter_opt (fk_job_id k); jf_status := omap JobStatus_from_str_val (fk_status k);
  jf_trigger := omap TriggerType_from_str_val (fk_trigger k);
  jf_endpoint := filter_opt (fk_endpoint k);
  jf_endpoint_type := omap EndpointType_from_str_val (fk_endpoint_type k);
  jf_created_after := fk_created_after k; jf_created_before := fk_created_before k |}.

(** The lists hold options, and the window is not empty. *)
Record tab_key_ok (k : JobFilterKey) : Prop := {
  tk_status : chosen status_options (fk_status k);
  tk_trigger : chosen trigger_options (fk_trigger k);
  tk_endpoint_type : chosen endpoint_type_options (fk_endpoint_type k);
  tk_window a b : fk_created_after k = Some a → fk_created_before k = Some b → a ≤ b;
}.

Lemma tab_filters_read s : tab_key_ok (jt_key s) →
  parse_job_filters (job_list_pairs (job_list_params s)) = Ok (tab_filters (jt_key s)).
Proof.
  intros [[Hst Hst'] [Htr Htr'] [Het Het'] Hw]. set (k := jt_key s) in *.
  set (pairs := job_list_pairs _).
  assert (last_scalar pairs "created_after" = blank_to_none (to_rfc3339 <$> fk_created_after k))
    as Ea by kept_scalar.
  assert (last_scalar pairs "created_before" = blank_to_none (to_rfc3339 <$> fk_created_before k))
    as Eb by kept_scalar.
  assert (last_scalar pairs "job_id" = blank_to_none (filter_opt (fk_job_id k))) as Ej
    by kept_scalar.
  assert (last_scalar pairs "endpoint" = blank_to_none (filter_opt (fk_endpoint k))) as Ee
    by kept_scalar.
  assert (filter (with_key "status") pairs = kept_list "status" (fk_status k)) as Fs
    by kept_many.
  assert (filter (with_key "trigger_type") pairs = kept_list "trigger_type" (fk_trigger k)) as Ft
    by kept_many.
  assert (filter (with_key "endpoint_type") pairs = kept_list "endpoint_type" (fk_endpoint_type k))
    as Fe by kept_many.
  clearbody pairs. unfold parse_job_filters.
  rewrite Ea, Eb, Ej, Ee, !filter_opt_blank, !written_time. cbn [res_bind].
  destruct status_chosen with (sel := fk_status k) as [Ms Ns]; [by split|].
  destruct trigger_chosen with (sel := fk_trigger k) as [Mt Nt]; [by split|].
  destruct endpoint_type_chosen with (sel := fk_endpoint_type k) as [Me Ne]; [by split|].
  rewrite (filter_list_joined _ "status" _ pairs _ _ status_token Fs Ms Ns).
  rewrite (filter_list_joined _ "trigger_type" _ pairs _ _ trigger_token Ft Mt Nt).
  rewrite (filter_list_joined _ "endpoint_type" _ pairs _ _ endpoint_type_token Fe Me Ne).
  destruct (fk_created_after k) as [a|] eqn:Eca, (fk_created_before k) as [b|] eqn:Ecb;
    cbn [res_bind]; unfold tab_filters; rewrite ?Eca, ?Ecb; try done.
  rewrite bool_decide_eq_false_2; [done|]. pose proof (Hw a b eq_refl eq_refl). lia.
Qed.
End tab_filters.
