(* ===== verification/DashServed.v ===== *)
(** * The dashboard's job pages, served by the API

    What the dashboard reads of the API's jobs, attempts and pages, what the API answers
    to the requests of the jobs tab, and what a user who turns pages sees. *)

From S2P Require Export DashContract Runs.
#[local] Open Scope Z_scope.

(** ** Reading objects the API has written *)

Lemma dash_field_obj {A} k (dec : json → option A) fs :
  dash_field k dec (obj_fields fs) = (v ← Json.assoc k (reverse fs); dec v).
Proof.
  unfold dash_field, obj_fields. rewrite JsonLemmas.foldl_insert_assoc.
  by destruct (Json.assoc k (reverse fs)).
Qed.
Definition opt_at {A} (dec : json → option A) (o : option json) : option (option A) :=
  match o with
  | None | Some JNull => Some None
  | Some v => a ← dec v; Some (Some a)
  end.
Lemma dash_opt_obj {A} k (dec : json → option A) fs :
  dash_opt k dec (obj_fields fs) = opt_at dec (Json.assoc k (reverse fs)).
Proof.
  unfold dash_opt, opt_at, obj_fields. rewrite JsonLemmas.foldl_insert_assoc.
  by destruct (Json.assoc k (reverse fs)).
Qed.

(** An optional value, read as [Option<Value>]. *)
Definition shown_value (o : option json) : option json :=
  match o with Some JNull => None | _ => o end.

Lemma read_dash_data {A} (dec : json → option A) v :
  data_response dec (Some (data v)) = dec v.
Proof.
  unfold data_response, data, Json.obj. cbn [mbind option_bind dash_struct Json.as_object].
  change (foldl _ [] ?l) with (obj_fields l). rewrite dash_field_obj. by assocs.
Qed.
Lemma read_dash_page {A} (dec : json → option A) l c :
  paginated_response dec (Some (PaginatedResponse l c))
  = (d ← mapM dec l; Some {| dg_data := d; dg_cursor := c |}).
Proof.
  unfold paginated_response, PaginatedResponse, Json.obj, dash_struct.
  cbn [mbind option_bind Json.as_object]. change (foldl _ [] ?l) with (obj_fields l).
  rewrite dash_field_obj, dash_opt_obj. destruct c; cbn [reverse rev_append]; assocs;
    cbn [mbind option_bind opt_at dash_list Json.as_array Json.as_str]; by destruct (mapM dec l).
Qed.

Section served.
Context `{!Chrono} `{!CronCrate} `{!Base64} `{!JsonSchemaCrate}.

(** Timestamps are strings of JSON. *)
Definition ts_text (t : Z) : string := default "" (Json.as_str (ts_json t)).
Definition text_times : Prop := ∀ t, ts_json t = JString (ts_text t).
Hypothesis texts : text_times.

Definition shown_job (j : Job) : DashJob := {|
  dJ_job_id := j_job_id j; dJ_endpoint := j_endpoint j; dJ_endpoint_type := j_endpoint_type j;
  dJ_trigger := j_trigger_type j; dJ_status := j_status j; dJ_version := j_version j;
  dJ_idempotency_key := j_idempotency_key j; dJ_input := shown_value (j_input j);
  dJ_run_at := ts_text <$> j_run_at j; dJ_cron := j_cron_expression j;
  dJ_timezone := j_cron_timezone j; dJ_starts_at := ts_text <$> j_cron_starts_at j;
  dJ_ends_at := ts_text <$> j_cron_ends_at j; dJ_next_run_at := ts_text <$> j_cron_next_run_at j;
  dJ_created_at := ts_text (j_created_at j) |}.

Lemma read_dash_text o : opt_at Json.as_str (Some (Json.opt_str o)) = Some o.
Proof. by destruct o. Qed.
Lemma read_dash_time o : opt_at Json.as_str (Some (Json.opt ts_json o)) = Some (ts_text <$> o).
Proof. destruct o as [t|]; [|done]. simpl. by rewrite texts. Qed.
Lemma read_dash_value o : opt_at Some (Some (Json.opt_json o)) = Some (shown_value o).
Proof. by destruct o as [[]|]. Qed.

Lemma read_dash_job j : in_i64 (j_version j) → de_dash_job (job_summary j) = Some (shown_job j).
Proof.
  intros Hv. unfold job_summary, Json.obj, de_dash_job, dash_struct.
  cbn [mbind option_bind Json.as_object]. change (foldl _ [] ?l) with (obj_fields l).
  rewrite !dash_field_obj, !dash_opt_obj.
  cbn [job_summary_fields reverse rev_append]. assocs.
  rewrite !read_dash_text, !read_dash_time, read_dash_value, texts.
  cbn [mbind option_bind Json.as_str Json.as_i64]. by rewrite bool_decide_eq_true_2.
Qed.

(** An attempt is shown when its error is a text; the text, with nothing for no error. *)
Definition error_shown (a : Attempt) : bool :=
  match a_error a with None | Some JNull | Some (JString _) => true | _ => false end.
Definition shown_attempt (a : Attempt) : DashAttempt := {|
  dA_attempt_id := a_attempt_id a; dA_attempt_number := a_attempt_number a;
  dA_status := a_status a; dA_started_at := Some (ts_text (a_started_at a));
  dA_completed_at := ts_text <$> a_completed_at a; dA_duration_ms := a_duration_ms a;
  dA_output := shown_value (a_output a); dA_error := a_error a ≫= Json.as_str |}.

Definition attempt_numbers_ok (a : Attempt) : Prop :=
  in_i64 (a_attempt_number a) ∧ ∀ d, a_duration_ms a = Some d → in_i64 d.

Definition attempt_item (a : Attempt) : json := Json.obj [
  ("attempt_id", JString (a_attempt_id a));
  ("attempt_number", JInt (a_attempt_number a));
  ("status", JString (a_status a));
  ("started_at", ts_json (a_started_at a));
  ("completed_at", Json.opt ts_json (a_completed_at a));
  ("duration_ms", Json.opt_int (a_duration_ms a));
  ("output", Json.opt_json (a_output a));
  ("error", Json.opt_json (a_error a))].

Lemma read_dash_attempt a : attempt_numbers_ok a →
  de_dash_attempt (attempt_item a) = if error_shown a then Some (shown_attempt a) else None.
Proof.
  intros [Hn Hd]. unfold attempt_item, Json.obj, de_dash_attempt, dash_struct.
  cbn [mbind option_bind Json.as_object]. change (foldl _ [] ?l) with (obj_fields l).
  rewrite !dash_field_obj, !dash_opt_obj. cbn [reverse rev_append]. assocs.
  rewrite read_dash_time, read_dash_value, texts.
  assert (opt_at Json.as_i64 (Some (Json.opt_int (a_duration_ms a))) = Some (a_duration_ms a)) as ->.
  { destruct (a_duration_ms a) as [d|]; [|done]. specialize (Hd d eq_refl).
    cbn. by rewrite bool_decide_eq_true_2. }
  unfold error_shown, shown_attempt.
  cbn [mbind option_bind Json.as_str Json.as_i64 opt_at]. rewrite bool_decide_eq_true_2 by done.
  by destruct (a_error a) as [[]|].
Qed.

Lemma read_dash_attempts l : Forall attempt_numbers_ok l →
  mapM de_dash_attempt (attempt_item <$> l)
  = if forallb error_shown l then Some (shown_attempt <$> l) else None.
Proof.
  induction 1 as [|a l Ha _ IH]; [done|]. rewrite fmap_cons. simpl. rewrite read_dash_attempt by done.
  destruct (error_shown a); [|done]. simpl. rewrite IH. by destruct (forallb _ _).
Qed.
End served.

(** The attempts of an execution, as the API lists them. *)
Definition listed_attempts (execution_id : string) (t : Tenant) : list Attempt :=
  merge_sort by_attempt_number
    (filter (λ a, a_execution_id a = execution_id) (map_to_list (t_attempts t)).*2).

(** ** The list route *)

Section answers.
Context `{!Chrono} `{!CronCrate} `{!Base64} `{!JsonSchemaCrate}.
Context (parse_query : string → list (string * string)) (to_text : json → string).
Context (config : DashboardConfig) (prefix : string) (ws : WorkspaceContext).

Definition answer_of (r : HttpResponse) : DashAnswer :=
  Answered (resp_status r) (to_text <$> resp_body r) (resp_body r).

(** [GET /v1/jobs] with a query: the extractors, then the handler. *)
Definition list_jobs_answer (ses : Session) (rq : DashRequest) : DashAnswer :=
  let pairs := parse_query
    (default "" (Str.strip_prefix (api_base config +:+ "/v1/jobs?") (dq_url rq))) in
  match PaginationParams_from_pairs pairs with
  | None => Answered 400 None None
  | Some params =>
      match (filters <-- se_lift (parse_job_filters pairs);
             jobs_list_handler prefix ws params filters) ses with
      | (Ok r, _) => answer_of r
      | (Err e, _) => answer_of (error_response e)
      | (Panic _, _) => NotSent "connection closed"
      end
  end.

(** What the tab shows: its request, answered. *)
Definition shown_page (ses : Session) (undecodable : option json → string) (s : JobsTab) : res string (DashPage DashJob) :=
  let f := jobs_request config (wc_org_id ws) (wc_workspace_id ws) s in
  fetch undecodable f (list_jobs_answer ses (ft_request f)).
End answers.

(** The page sizes the tab offers. *)
Definition page_sizes : list Z := [25; 50; 100].
Lemma page_size_read n : n ∈ page_sizes →
  parse_i64 (Str.dec n) = Some n ∧ Str.dec n ≠ "" ∧ 1 ≤ n ≤ 200.
Proof.
  unfold page_sizes. rewrite !elem_of_cons, elem_of_nil. by intros [->|[->|[->|[]]]].
Qed.

(** ** Turning pages *)

Section browsing.
Context `{!Chrono} `{!CronCrate} `{!Base64} `{!JsonSchemaCrate}.
Hypothesis cursors : ∀ s, b64_decode (b64_encode s) = Some s ∧ (s ≠ "" → b64_encode s ≠ "").
Hypothesis texts : text_times.
Hypothesis times : written_times.
Context (parse_query : string → list (string * string)) (to_text : json → string).
Hypothesis queries : urlencoded parse_query.
Context (config : DashboardConfig) (prefix : string) (ws : WorkspaceContext) (ses : Session).
Context (undecodable : option json → string) (t : Tenant).

(** A database at rest, with a workspace of well-formed jobs. *)
Record db_at_rest : Prop := {
  ar_env : ss_env ses = [];
  ar_failed : ss_failed ses = false;
  ar_schema : validate_schema_name (wc_schema_name ws) = true;
  ar_tenant : st_tenants (ss_store ses) !! (wc_schema_name ws, prefix) = Some t;
  ar_ids : map_Forall (λ id j, j_job_id j = id ∧ id ≠ "" ∧ in_i64 (j_version j)) (t_jobs t);
}.
Hypothesis rest : db_at_rest.

#[local] Notation shown := (shown_page parse_query to_text config prefix ws ses undecodable).
#[local] Notation all := (λ k, all_jobs (tab_filters k) t).
#[local] Notation size := (λ s, Z.to_nat (jt_page_size s)).

(** A user of the tab who waits for each page: opening it, choosing filters or clearing
    them (the effect follows at once), a page size, and turning the page with the cursor
    that came with it. *)
Inductive browsing : JobsTab → res string (DashPage DashJob) → Prop :=
  | browse_open : browsing jobs_tab_new (shown jobs_tab_new)
  | browse_filters s r k :
      browsing s r → tab_key_ok k →
      let s' := jobs_event (jobs_event s (EvFilters k)) EvReset in browsing s' (shown s')
  | browse_clear s r :
      browsing s r →
      let s' := jobs_event (jobs_event s EvClear) EvReset in browsing s' (shown s')
  | browse_size s r n :
      browsing s r → n ∈ page_sizes →
      let s' := jobs_event s (EvPageSize (Str.dec n)) in browsing s' (shown s')
  | browse_next s p :
      browsing s (Ok p) →
      let s' := jobs_event s (EvNext (dg_cursor p)) in browsing s' (shown s')
  | browse_prev s r :
      browsing s r →
      let s' := jobs_event s EvPrev in browsing s' (shown s').

(** The cursor of the page behind the first [n] jobs. *)
Definition cursor_at (k : JobFilterKey) (n : nat) (c : option string) : Prop :=
  match n with
  | O => c = None
  | S m => ∃ j, all k !! m = Some j ∧ c = Some (b64_encode (j_job_id j))
  end.

Record stack_ok (s : JobsTab) : Prop := {
  so_size : jt_page_size s ∈ page_sizes;
  so_key : jt_key s = jt_applied s;
  so_filters : tab_key_ok (jt_key s);
  so_index : (jt_index s < length (jt_cursors s))%nat;
  so_cursors i c : jt_cursors s !! i = Some c → cursor_at (jt_key s) (i * size s) c;
}.

Lemma job_of_all k i j : all k !! i = Some j →
  t_jobs t !! j_job_id j = Some j ∧ j_job_id j ≠ "" ∧ in_i64 (j_version j).
Proof.
  intros Hj%list_elem_of_lookup_2. unfold all_jobs in Hj.
  rewrite merge_sort_Permutation in Hj. apply list_elem_of_filter in Hj as [_ Hj].
  apply list_elem_of_fmap in Hj as ([id j'] & -> & Hj). apply elem_of_map_to_list in Hj.
  destruct (ar_ids rest _ _ Hj) as (E & Hn & Hv). simpl in *. by rewrite E.
Qed.
Lemma ids : map_Forall (λ id j, j_job_id j = id) (t_jobs t).
Proof. intros id j Hj. by destruct (ar_ids rest _ _ Hj). Qed.

Lemma page_behind k n c L : cursor_at k n c →
  jobs_page (c ≫= b64_decode) (Z.of_nat L + 1) (tab_filters k) t = take (L + 1) (drop n (all k)).
Proof.
  replace (L + 1)%nat with (Z.to_nat (Z.of_nat L + 1)) by lia. destruct n as [|n].
  - intros ->. rewrite drop_0. cbn [mbind option_bind]. by rewrite jobs_page_first.
  - intros (j & Hj & ->). cbn [mbind option_bind]. rewrite (proj1 (cursors _)).
    by rewrite (jobs_page_after _ _ t n j ids Hj).
Qed.

(** The cursor behind the first [n] jobs, when there are more. *)
Definition next_cursor (k : JobFilterKey) (n : nat) : option string :=
  if bool_decide (n < length (all k))%nat
  then (λ j, b64_encode (j_job_id j)) <$> all k !! (n - 1)%nat else None.

Lemma next_cursor_at k n c : (0 < n)%nat → next_cursor k n = Some c → cursor_at k n (Some c).
Proof.
  unfold next_cursor. intros Hn. case_bool_decide; [|done]. destruct n as [|n]; [lia|].
  simpl. rewrite Nat.sub_0_r. destruct (all_jobs _ t !! n) as [j|]; [|done].
  intros [= <-]. by exists j.
Qed.

Lemma next_cursor_some k n : (0 < n)%nat → is_Some (next_cursor k n) ↔ (n < length (all k))%nat.
Proof.
  intros Hn. unfold next_cursor. case_bool_decide as Hl; [|by rewrite is_Some_alt].
  split; [done|]. intros _. apply fmap_is_Some, lookup_lt_is_Some. lia.
Qed.

Lemma handler_page k m c n : cursor_at k m c → n ∈ page_sizes →
  jobs_list_handler prefix ws {| pg_cursor := c; pg_limit := n |} (tab_filters k) ses
  = (Ok (resp 200 (PaginatedResponse
      (job_summary <$> take (Z.to_nat n) (drop m (all k))) (next_cursor k (m + Z.to_nat n)))), ses).
Proof.
  intros Hc Hn. destruct (page_size_read n Hn) as (_ & _ & Hr). destruct rest as [He Hf Hv Ht _].
  unfold jobs_list_handler, se_bind, q, se_map_err. rewrite connection_quiet by done.
  cbn [res_map_err]. unfold jobs_list. rewrite (read_quiet _ _ t) by done.
  cbn [res_map_err]. unfold effective_limit, decode_cursor. cbn [pg_cursor pg_limit].
  replace (Z.max 1 (Z.min 200 n)) with (Z.of_nat (Z.to_nat n)) by lia.
  rewrite (page_behind k m) by done. set (L := Z.to_nat n). assert (0 < L)%nat as HL by lia.
  unfold paginate. rewrite take_take, Nat2Z.id, Nat.min_l by lia.
  rewrite length_take, length_drop. unfold Ok200, se_ret, next_cursor.
  do 5 f_equal. case_bool_decide as Hmore; case_bool_decide; try lia; [|done].
  rewrite list.last_lookup, length_take, length_drop, lookup_take_lt by lia.
  rewrite lookup_drop. replace (m + pred (L `min` (length (all_jobs (tab_filters k) t) - m)))%nat
    with (m + L - 1)%nat by lia.
  by destruct (all_jobs _ t !! (m + L - 1)%nat).
Qed.

Lemma query_pairs s : stack_ok s →
  parse_query (default "" (Str.strip_prefix (api_base config +:+ "/v1/jobs?")
    (dq_url (ft_request (jobs_request config (wc_org_id ws) (wc_workspace_id ws) s)))))
  = job_list_pairs (job_list_params s).
Proof.
  intros Hs. change (dq_url _)
    with (api_base config +:+ "/v1/jobs" +:+ job_list_query (job_list_params s)).
  rewrite job_list_query_rendered. unfold rendered.
  assert (job_list_pairs (job_list_params s) ≠ []) as Hne.
  { destruct (page_size_read _ (so_size s Hs)) as (_ & Hd & _).
    unfold job_list_pairs, job_list_params. cbn [lq_limit]. unfold kept at 1.
    rewrite bool_decide_eq_false_2 by done. by destruct (kept_opt _ _). }
  destruct (job_list_pairs _) as [|kv ps] eqn:E; [done|]. rewrite <-E.
  set (q := Str.join _ _).
  replace (api_base config +:+ "/v1/jobs" +:+ "?" +:+ q)
    with ((api_base config +:+ "/v1/jobs?") +:+ q) by by rewrite !app_assoc.
  rewrite strip_prefix_app. cbn [default from_option id]. apply query_is_read; [done|].
  unfold job_list_pairs, kept_opt, kept_list, kept.
  repeat first [apply list.Forall_app; split | case_bool_decide | case_match];
    repeat constructor.
Qed.

Lemma pages_read s : stack_ok s →
  PaginationParams_from_pairs (job_list_pairs (job_list_params s))
  = Some {| pg_cursor := jobs_cursor s; pg_limit := jt_page_size s |}.
Proof.
  intros Hs. unfold PaginationParams_from_pairs. set (pairs := job_list_pairs _).
  assert (filter (with_key "cursor") pairs = kept_opt "cursor" (jobs_cursor s)) as -> by kept_many.
  assert (filter (with_key "limit") pairs = kept "limit" (Str.dec (jt_page_size s))) as ->
    by kept_many.
  destruct (page_size_read _ (so_size s Hs)) as (Hp & Hd & _).
  unfold kept. rewrite bool_decide_eq_false_2, Hp by done.
  destruct (jobs_cursor s) as [c|] eqn:Ec; [|done]. cbn [kept_opt]. unfold kept.
  rewrite bool_decide_eq_false_2; [done|]. unfold jobs_cursor in Ec.
  rewrite bool_decide_eq_true_2 in Ec by apply Hs.
  destruct (jt_cursors s !! jt_index s) as [c'|] eqn:El; [|discriminate Ec]. simpl in Ec. subst c'.
  apply (so_cursors s Hs) in El. unfold cursor_at in El. case_match; [done|].
  destruct El as (j & Hj & [= ->]). apply (proj2 (cursors _)). by apply job_of_all in Hj as (_ & Hn & _).
Qed.

(** The page of a tab. *)
Definition page_at (s : JobsTab) : DashPage DashJob := {|
  dg_data := shown_job <$> take (size s) (drop (jt_index s * size s) (all (jt_key s)));
  dg_cursor := next_cursor (jt_key s) ((jt_index s + 1) * size s) |}.

Lemma shown_stack s : stack_ok s → shown s = Ok (page_at s).
Proof.
  intros Hs. unfold shown_page, list_jobs_answer. cbv zeta.
  rewrite query_pairs, pages_read by done. unfold se_bind, se_lift.
  rewrite tab_filters_read by (try done; apply Hs).
  destruct (lookup_lt_is_Some_2 _ _ (so_index s Hs)) as [c Ec].
  assert (jobs_cursor s = c) as ->.
  { unfold jobs_cursor. rewrite bool_decide_eq_true_2 by apply Hs. rewrite Ec. by destruct c. }
  rewrite (handler_page _ (jt_index s * size s)) by (by apply so_cursors || apply Hs).
  unfold fetch, answer_of, resp. cbn [resp_status resp_body jobs_request dash_list_jobs ft_read].
  assert (answer_ok 200 = true) as -> by done. rewrite read_dash_page.
  assert (mapM de_dash_job (job_summary <$> take (size s) (drop (jt_index s * size s) (all (jt_key s))))
    = Some (shown_job <$> take (size s) (drop (jt_index s * size s) (all (jt_key s))))) as ->.
  { apply mapM_Some, Forall2_fmap, Forall_Forall2_diag, list.Forall_lookup. intros i j Hj.
    apply read_dash_job; [done|]. apply lookup_take_Some in Hj as [Hj _].
    rewrite lookup_drop in Hj. by apply job_of_all in Hj as (_ & _ & ?). }
  cbn [mbind option_bind ok_or]. unfold page_at. do 2 f_equal. f_equal. lia.
Qed.

Lemma on_prev_ok s : stack_ok s → stack_ok (on_prev s).
Proof.
  intros [Hsz Hk Hf Hi Hc]. unfold on_prev. case_bool_decide; [|by split].
  split; cbn [jt_page_size jt_key jt_applied jt_cursors jt_index]; try done. lia.
Qed.

Lemma on_next_ok s : stack_ok s → stack_ok (on_next (dg_cursor (page_at s)) s).
Proof.
  intros Hs. unfold page_at. cbn [dg_cursor]. destruct (next_cursor _ _) as [nc|] eqn:En; [|done].
  destruct (page_size_read _ (so_size s Hs)) as (_ & _ & Hr).
  apply next_cursor_at in En; [|lia]. destruct Hs as [Hsz Hk Hf Hi Hc]. unfold on_next.
  assert (length (take (jt_index s + 1) (jt_cursors s)) = (jt_index s + 1)%nat) as Hlen
    by (rewrite length_take; lia).
  split; cbn [jt_page_size jt_key jt_applied jt_cursors jt_index]; try done.
  - rewrite List.length_app, Hlen. simpl. lia.
  - intros i c [Hl|[Hl Ei]]%lookup_app_Some.
    + apply Hc. by apply lookup_take_Some in Hl as [? _].
    + rewrite Hlen in *. apply list_lookup_singleton_Some in Ei as [Ei <-].
      by replace i with (jt_index s + 1)%nat by lia.
Qed.

(** The first page of any filters. *)
Lemma first_ok s :
  jt_page_size s ∈ page_sizes → jt_key s = jt_applied s → tab_key_ok (jt_key s) →
  jt_cursors s = [None] → jt_index s = 0%nat → stack_ok s.
Proof.
  intros Hsz Hk Hf Hc Hi. split; [done..|rewrite Hi, Hc; simpl; lia|]. rewrite Hc.
  by intros i c [-> <-]%list_lookup_singleton_Some.
Qed.

Lemma no_filters_ok : tab_key_ok no_filter_key.
Proof. split; try done; apply chosen_none. Qed.

Lemma browsing_ok s r : browsing s r → stack_ok s ∧ r = Ok (page_at s).
Proof.
  assert (∀ s, stack_ok s → stack_ok s ∧ shown s = Ok (page_at s)) as Hshown
    by (intros; split; [done|by apply shown_stack]).
  assert (∀ k s, tab_key_ok k → jt_page_size s ∈ page_sizes →
    stack_ok (reset_effect (set_filters k s))) as Hreset.
  { intros k s' Hk Hsz. apply first_ok; cbn; try done.
    - by destruct (jt_cursors s') as [|[] []].
    - by case_bool_decide. }
  induction 1 as [|s r k _ [Hs ->] Hk s'|s r _ [Hs ->] s'|s r n _ [Hs ->] Hn s'|s p _ [Hs [= ->]] s'
    |s r _ [Hs ->] s']; apply Hshown.
  - apply first_ok; try done; [right; left|apply no_filters_ok].
  - apply Hreset; [done|apply Hs].
  - apply Hreset; [apply no_filters_ok|apply Hs].
  - destruct (page_size_read n Hn) as (Hp & _). unfold s'. cbn [jobs_event]. unfold on_page_size.
    rewrite Hp. apply first_ok; by try apply Hs.
  - by apply on_next_ok.
  - by apply on_prev_ok.
Qed.
End browsing.
