(* ===== verification/DashForms.v ===== *)
(** * The dashboard's job forms, read by the API

    The bodies of the New Job and Invoke forms, decoded as the API decodes a new job, and
    the windows of the date filter, as the list route reads them. *)

From S2P Require Export DashServed DateTheory.
#[local] Open Scope Z_scope.

(** ** Fields of a body *)

Lemma assoc_obj k fs : Json.assoc k (obj_fields fs) = Json.assoc k (reverse fs).
Proof.
  unfold obj_fields. rewrite JsonLemmas.foldl_insert_assoc. by destruct (Json.assoc k (reverse fs)).
Qed.
Lemma assoc_reverse_app key l l' :
  Json.assoc key (reverse (l ++ l'))
  = match Json.assoc key (reverse l') with Some v => Some v | None => Json.assoc key (reverse l) end.
Proof. by rewrite reverse_app, assoc_app. Qed.

(** What was typed, unless nothing was. *)
Definition given (v : string) : option string := if bool_decide (v = "") then None else Some v.
(** A field of the form that only some triggers send. *)
Definition when (b : bool) (v : string) : string := if b then v else "".

Lemma assoc_typed_field key k v :
  Json.assoc key (reverse (typed_field k v))
  = if bool_decide (key = k) then JString <$> given v else None.
Proof.
  unfold typed_field, given. case_bool_decide; [by case_bool_decide|]. simpl. by case_bool_decide.
Qed.

Section forms.
Context `{!Chrono} `{!CronCrate}.

Lemma read_given v :
  match JString <$> given v with
  | None | Some JNull => Ok None
  | Some v => a <-? de_string v; Ok (Some a)
  end = Ok (given v) :> res string (option string).
Proof. unfold given. by case_bool_decide. Qed.
Lemma read_given_time v :
  match JString <$> given v with Some v => deserialize_opt v | None => Ok None end
  = deserialize_opt (JString v).
Proof. unfold given. case_bool_decide; [by subst v|done]. Qed.

(** A cron expression, when one was typed. *)
Definition typed_cron (v : string) : res string (option PgCronExpr) :=
  match given v with
  | Some x => c <-? res_map_err AppError_to_string (PgCronExpr_try_from x); Ok (Some c)
  | None => Ok None
  end.
Lemma read_given_cron v :
  match JString <$> given v with
  | None | Some JNull => Ok None
  | Some v => a <-? de_cron v; Ok (Some a)
  end = typed_cron v.
Proof.
  unfold typed_cron, given. case_bool_decide; [done|]. cbn [fmap option_fmap option_map]. by unfold de_cron.
Qed.

(** Which triggers send a time, and a schedule. *)
Definition is_delayed (f : CreateJobForm) : bool := bool_decide (jf_trigger_type f = "DELAYED").
Definition is_cron (f : CreateJobForm) : bool := bool_decide (jf_trigger_type f = "CRON").

(** The job a form asks for. *)
Definition job_of_form (f : CreateJobForm) (input : option json) : res string CreateJob :=
  run_at <-? deserialize_opt (JString (when (is_delayed f) (jf_run_at f)));
  cron <-? typed_cron (when (is_cron f) (jf_cron f));
  starts_at <-? deserialize_opt (JString (when (is_cron f) (jf_starts_at f)));
  ends_at <-? deserialize_opt (JString (when (is_cron f) (jf_ends_at f)));
  Ok {| cj_endpoint := jf_endpoint_name f; cj_trigger := jf_trigger_type f;
        cj_idempotency_key := given (when (negb (is_cron f)) (jf_key f));
        cj_input := shown_value input; cj_max_attempts := None; cj_run_at := run_at;
        cj_cron := cron; cj_timezone := given (when (is_cron f) (jf_timezone f));
        cj_starts_at := starts_at; cj_ends_at := ends_at |}.

Lemma trigger_fields f :
  create_job_trigger_fields f
  = typed_field "cron" (when (is_cron f) (jf_cron f))
    ++ typed_field "timezone" (when (is_cron f) (jf_timezone f))
    ++ typed_field "starts_at" (when (is_cron f) (jf_starts_at f))
    ++ typed_field "ends_at" (when (is_cron f) (jf_ends_at f))
    ++ typed_field "idempotency_key" (when (negb (is_cron f)) (jf_key f))
    ++ typed_field "run_at" (when (is_delayed f) (jf_run_at f)).
Proof.
  unfold create_job_trigger_fields, is_delayed, is_cron. case_bool_decide as Hd.
  - rewrite Hd. by rewrite bool_decide_eq_false_2.
  - assert (∀ k, typed_field k "" = []) as Hnone by done.
    case_bool_decide; cbn [when negb]; rewrite !Hnone; by rewrite ?(right_id_L [] (++)).
Qed.

Ltac form_field :=
  rewrite assoc_obj, trigger_fields, !assoc_reverse_app, !assoc_typed_field; literals;
  cbn [reverse rev_append]; assocs; try reflexivity;
  repeat match goal with |- context [given ?v] => destruct (given v) end; reflexivity.

Lemma form_read f input fs :
  fs = obj_fields ([("endpoint", JString (jf_endpoint_name f));
    ("trigger", JString (jf_trigger_type f)); ("input", Json.opt_json input)]
    ++ create_job_trigger_fields f) →
  CreateJob_from_fields fs = job_of_form f input.
Proof.
  intros Hfs.
  assert (Json.assoc "endpoint" fs = Some (JString (jf_endpoint_name f))) as E1
    by (rewrite Hfs; form_field).
  assert (Json.assoc "trigger" fs = Some (JString (jf_trigger_type f))) as E2
    by (rewrite Hfs; form_field).
  assert (Json.assoc "input" fs = Some (Json.opt_json input)) as E3 by (rewrite Hfs; form_field).
  assert (Json.assoc "max_attempts" fs = None) as E4 by (rewrite Hfs; form_field).
  assert (Json.assoc "idempotency_key" fs = JString <$> given (when (negb (is_cron f)) (jf_key f)))
    as E5 by (rewrite Hfs; form_field).
  assert (Json.assoc "run_at" fs = JString <$> given (when (is_delayed f) (jf_run_at f))) as E6
    by (rewrite Hfs; form_field).
  assert (Json.assoc "cron" fs = JString <$> given (when (is_cron f) (jf_cron f))) as E7
    by (rewrite Hfs; form_field).
  assert (Json.assoc "timezone" fs = JString <$> given (when (is_cron f) (jf_timezone f))) as E8
    by (rewrite Hfs; form_field).
  assert (Json.assoc "starts_at" fs = JString <$> given (when (is_cron f) (jf_starts_at f))) as E9
    by (rewrite Hfs; form_field).
  assert (Json.assoc "ends_at" fs = JString <$> given (when (is_cron f) (jf_ends_at f))) as E10
    by (rewrite Hfs; form_field).
  clear Hfs. unfold CreateJob_from_fields, opt_field, req_string, datetime_field, job_of_form.
  rewrite E1, E2, E3, E4, E5, E6, E7, E8, E9, E10.
  rewrite !read_given, !read_given_time, read_given_cron.
  by destruct input as [[]|].
Qed.

(** ** Running a job once more *)

(** The job an invoke asks for: at once, or at a time and under a key of its own. *)
Definition job_of_invoke (endpoint job_id mode run_at : string) (input : option json) :
    res string CreateJob :=
  let job trigger key run_at := {|
    cj_endpoint := endpoint; cj_trigger := trigger; cj_idempotency_key := key;
    cj_input := shown_value input; cj_max_attempts := None; cj_run_at := run_at; cj_cron := None;
    cj_timezone := None; cj_starts_at := None; cj_ends_at := None |} in
  if bool_decide (mode = "SCHEDULED") then
    at_ <-? deserialize_opt (JString (normalize_run_at run_at));
    Ok (job "DELAYED" (Some (invoke_key job_id (normalize_run_at run_at))) at_)
  else Ok (job "IMMEDIATE" None None).

Lemma invoke_read from_str endpoint job_id mode run_at text body :
  invoke_job_body from_str endpoint job_id mode run_at text = Ok body →
  ∃ fs input, body = JObject fs ∧ typed_input from_str text = Ok input
    ∧ CreateJob_from_fields fs = job_of_invoke endpoint job_id mode run_at input.
Proof.
  unfold invoke_job_body, job_of_invoke. destruct (typed_input from_str text) as [input| |]; [|done..].
  cbn [res_bind]. cbv zeta. case_bool_decide as Hm; [case_bool_decide; [done|]|];
    intros [= <-]; eexists _, input; (split; [reflexivity|]); (split; [done|]);
    change (foldl _ [] ?l) with (obj_fields l);
    unfold CreateJob_from_fields, req_string, opt_field, datetime_field;
    rewrite !assoc_obj; cbn [app reverse rev_append]; assocs; by destruct input as [[]|].
Qed.

(** The key tells jobs and times apart, for ids of one length. *)
Lemma invoke_key_inj job_id job_id' run_at run_at' :
  String.length job_id = String.length job_id' →
  invoke_key job_id run_at = invoke_key job_id' run_at' → job_id = job_id' ∧ run_at = run_at'.
Proof.
  unfold invoke_key. intros Hl E.
  assert (job_id +:+ "-" +:+ run_at = job_id' +:+ "-" +:+ run_at') as E'
    by (by injection E).
  clear E. revert job_id' Hl E'. induction job_id as [|c s IH]; intros [|c' s'] Hl E; try discriminate Hl.
  - by injection E.
  - injection E as <- E. injection Hl as Hl. by destruct (IH s' Hl E) as [-> ->].
Qed.
End forms.

(** ** The windows of the date filter *)

Section windows.
Context `{!Chrono}.
Hypothesis times : written_times.

(** The filters of a tab but for their window. *)
Record lists_ok (k : JobFilterKey) : Prop := {
  lo_status : chosen status_options (fk_status k);
  lo_trigger : chosen trigger_options (fk_trigger k);
  lo_endpoint_type : chosen endpoint_type_options (fk_endpoint_type k);
}.

Definition reversed (k : JobFilterKey) : bool :=
  match fk_created_after k, fk_created_before k with
  | Some a, Some b => bool_decide (b < a)
  | _, _ => false
  end.

(** The list route refuses a window only because its ends are reversed. *)
Lemma tab_window_read s : lists_ok (jt_key s) →
  parse_job_filters (job_list_pairs (job_list_params s))
  = if reversed (jt_key s)
    then Err (InvalidRequest "created_after must not be after created_before")
    else Ok (tab_filters (jt_key s)).
Proof.
  intros [Hs Ht He]. unfold reversed.
  destruct (fk_created_after (jt_key s)) as [a|] eqn:Ea, (fk_created_before (jt_key s)) as [b|] eqn:Eb;
    [case_bool_decide as Hlt; [|apply tab_filters_read; [done|split; try done; intros; simplify_eq; lia]]
    |apply tab_filters_read; [done|split; try done; intros; simplify_eq]..].
  set (pairs := job_list_pairs _).
  assert (last_scalar pairs "created_after"
    = blank_to_none (to_rfc3339 <$> fk_created_after (jt_key s))) as Hca by kept_scalar.
  assert (last_scalar pairs "created_before"
    = blank_to_none (to_rfc3339 <$> fk_created_before (jt_key s))) as Hcb by kept_scalar.
  unfold parse_job_filters. rewrite Hca, Hcb, !written_time, Ea, Eb by done. cbn [res_bind].
  by rewrite bool_decide_eq_true_2.
Qed.
End windows.
