(* ===== verification/Mock.v ===== *)
(** * The mock server ([mock-server/src/main.rs])

    The endpoints that stand for a user's service in tests: each handler as a function of
    its extracted parameters; the one that is flaky keeps a counter. *)

From Stdlib Require Import Ascii.
From S2P Require Export Requests Config.
#[local] Open Scope Z_scope.

Definition wrap_u64 (z : Z) : Z := z `mod` 2 ^ 64.

(** [AppState]: an [AtomicU64]. *)
Record MockState := { ms_request_count : Z }.

(** What the handlers see of a request; a header whose value is not visible ASCII has
    none. *)
Record MockRequest := {
  mq_method : string;
  mq_path : string;
  mq_headers : list (string * option string);
  mq_query : list (string * string);
  mq_body : json;
}.

(** [EchoResponse] *)
Definition echo_response (r : MockRequest) : json := Json.obj [
  ("method", JString (mq_method r));
  ("path", JString (mq_path r));
  ("headers", Json.obj ((λ kv, (kv.1, JString (default "" kv.2))) <$> mq_headers r));
  ("body", mq_body r)].

Definition mock_success (r : MockRequest) : HttpResponse := resp 200 (echo_response r).
Definition mock_echo (r : MockRequest) : HttpResponse := resp 200 (echo_response r).

Record FailQuery := { fq_code : option Z; fq_message : option string }.

(** [valid_status]: the numbers [StatusCode::from_u16] takes. *)
Definition mock_fail (valid_status : Z → bool) (q : FailQuery) : HttpResponse :=
  let code := default 500 (fq_code q) in
  let message := default "Simulated failure" (fq_message q) in
  resp (if valid_status code then code else 500) (Json.obj [
    ("error", Json.obj [("code", JString ("MOCK_" +:+ Str.dec code));
                        ("message", JString message)])]).

(** The delay in milliseconds, and the response after it. *)
Definition mock_slow (ms : option Z) (body : json) : Z * HttpResponse :=
  let delay := default 3000 ms in
  (delay, resp 200 (Json.obj [("delayed_ms", JInt delay); ("body", body)])).

(** What the flaky endpoint says at its request number [count]. *)
Definition flaky_success (count : Z) (body : json) : json :=
  Json.obj [("attempt", JInt count); ("status", JString "success"); ("body", body)].

(** The query as a [HashMap]: the last value of a key. *)
Definition succeed_after (query : list (string * string)) : Z :=
  default 3 (list.last (omap (λ kv, if bool_decide (kv.1 = "succeed_after") then Some kv.2 else None)
                          query) ≫= parse_uint 64).

Definition mock_flaky (query : list (string * string)) (body : json) (s : MockState) :
    HttpResponse * MockState :=
  let after := succeed_after query in
  let count := wrap_u64 (ms_request_count s + 1) in
  (if bool_decide (after ≤ count) then
     resp 200 (flaky_success count body)
   else
     resp 500 (Json.obj [("attempt", JInt count); ("status", JString "failed");
                         ("error", JString ("Failing until attempt " +:+ Str.dec after))]),
   {| ms_request_count := count |}).

Definition mock_reset_flaky (s : MockState) : HttpResponse * MockState :=
  (resp 200 (Json.obj [("reset", JBool true)]), {| ms_request_count := 0 |}).

Definition mock_health : HttpResponse := resp 200 (Json.obj [("status", JString "ok")]).

Definition mock_port (env : Env) : Z := default 9999 (env "MOCK_PORT" ≫= parse_uint 16).

(** ** The routes *)

Inductive MockHandler := MhHealth | MhSuccess | MhFail | MhSlow | MhEcho | MhFlaky | MhReset.
Definition mock_routes : list (string * string * MockHandler) := [
  ("GET", "/health", MhHealth); ("POST", "/success", MhSuccess); ("POST", "/fail", MhFail);
  ("GET", "/fail", MhFail); ("POST", "/slow", MhSlow); ("POST", "/echo", MhEcho);
  ("PUT", "/echo", MhEcho); ("POST", "/flaky", MhFlaky); ("POST", "/flaky/reset", MhReset)].

(** ** The flaky endpoint *)

(** Its answers to [n] requests in a row. *)
Fixpoint flaky_answers (query : list (string * string)) (bodies : list json) (s : MockState) :
    list HttpResponse :=
  match bodies with
  | [] => []
  | body :: bodies =>
      let '(r, s') := mock_flaky query body s in r :: flaky_answers query bodies s'
  end.

Lemma flaky_answers_length query bodies s :
  length (flaky_answers query bodies s) = length bodies.
Proof. revert s. induction bodies as [|b bodies IH]; intros s; simpl; [done|]. by rewrite IH. Qed.

Lemma flaky_answer query bodies s i r :
  0 ≤ ms_request_count s → ms_request_count s + Z.of_nat (length bodies) < 2 ^ 64 →
  flaky_answers query bodies s !! i = Some r →
  let count := ms_request_count s + Z.of_nat i + 1 in
  ∃ body, bodies !! i = Some body ∧
    if bool_decide (succeed_after query ≤ count) then r = resp 200 (flaky_success count body)
    else resp_status r = 500.
Proof.
  revert s i. induction bodies as [|b bodies IH]; intros s i Hs Hn; [done|]. simpl in Hn.
  cbn [flaky_answers]. unfold mock_flaky at 1. cbv zeta.
  assert (wrap_u64 (ms_request_count s + 1) = ms_request_count s + 1) as ->
    by (apply Z.mod_small; lia).
  destruct i as [|i]; simpl.
  - intros [= <-]. exists b. rewrite Z.add_0_r. by case_bool_decide.
  - intros Hr. apply IH in Hr as (body & Hb & Hr); simpl in *; [|lia..]. exists body. split; [done|].
    by replace (ms_request_count s + Z.of_nat (S i) + 1)
      with (ms_request_count s + 1 + Z.of_nat i + 1) by lia.
Qed.
