(* ===== verification/Retries.v ===== *)
(** * Retries, attempt by attempt

    In a calm world a task that claims an execution of an HTTP endpoint sends one request
    and the execution gets the outcome of the answer ([http_process], [http_task]).  Over
    several tasks, each at its own instant: [rounds], and what a flaky endpoint makes of
    them. *)

From S2P Require Export Drain Mock.
#[local] Open Scope Z_scope.

Section retries.
Context `{!SerdeJson} `{!SqlDisplay} `{!Aes256Gcm} `{!Utf8}.
Context (rng : Rng) (ctx : PipelineContext) (worker_id : string).
Context (L J : nat).
Hypothesis key_ok : ∀ p, hex_decode (pc_encryption_key ctx) ≠ Panic p.

(** An endpoint without templates: its spec is sent as it is. *)
Record plain_http (ep : Endpoint) : Prop := {
  ph_config : ep_config_ref ep = None;
  ph_secrets : Str.find (json_to_string (ep_spec ep)) "{{secret." = None;
  ph_free : template_free (ep_spec ep) = true;
  ph_ordered : ordered (ep_spec ep);
}.

(** ** One transaction *)

Section process.
Context (now : Z) (db : DbContext) (id : string) (e : Execution) (ep : Endpoint).
Notation k := (db_schema db, db_prefix db).
Notation spec := (inject_body (ep_spec ep) (e_input e)).

Hypothesis running : e_status e = "RUNNING".
Hypothesis http : e_endpoint_type e = "HTTP".
Hypothesis plain : plain_http ep.

Notation process key job := (process_execution (E:=Empty_set) rng ctx db id key job (e_endpoint e)
  (e_endpoint_type e) (e_input e) (e_attempt_count e) (e_max_attempts e)).

(** The secrets of a spec that names none. *)
Lemma no_secrets w : load_secrets ctx db (ep_spec ep) w = (Ok ∅, w).
Proof. unfold load_secrets. cbv zeta. cbn [load_secrets_loop]. by rewrite (ph_secrets _ plain). Qed.

(** [process_execution] comes to its last step with the answer in its hands. *)
Lemma http_reaches_finalize key job n w t :
  calm L J now db id (e_attempt_count e) true (L + J + 8 + n) (wd_session w) →
  st_tenants (ss_store (wd_session w)) !! k = Some t → t_endpoints t !! e_endpoint e = Some ep →
  ∃ w5 t d, process key job w
      = finalize rng db (get_retry_policy ep) id (e_attempt_count e) (e_max_attempts e) t d
          (http_result spec (ns_http (hd silent (wd_net w)))) w5
    ∧ in_frame (wd_session w) (wd_session w5)
    ∧ wd_outbox w5 = wd_outbox w ++ [SentHttp (http_request spec key)]
    ∧ wd_net w5 = tail (wd_net w).
Proof.
  intros Hc Ht Hep. unfold process_execution. unfold se_bind at 1, clock_now at 1.
  set (t0 := hd 0 (wd_clock w)). set (w0 := {| wd_session := wd_session w |}).
  destruct (calm_read L J now db id (e_attempt_count e) true (L + J + 7 + n) (wd_session w) t
    (λ t, t_endpoints t !! e_endpoint e)) as (s1 & E1 & Hc1 & Hs1 & Hb1);
    [by eapply calm_le; [|exact Hc]; lia|done|]. rewrite Hep in E1.
  unfold se_bind at 1, se_try at 1, db_op at 1.
  change (endpoints_get db (e_endpoint e) (wd_session w0))
    with (read db (λ t, t_endpoints t !! e_endpoint e) (wd_session w)). rewrite E1.
  cbv zeta. rewrite (ph_config _ plain). unfold se_bind at 1, se_ret at 1.
  unfold se_bind at 1, se_try at 1. rewrite no_secrets.
  rewrite resolve_template_free by apply plain.
  unfold run_resolved. cbv zeta. rewrite http.
  set (w1 := set_session s1 w0).
  assert (in_frame (wd_session w) s1) as F1.
  { pose proof (pf_read _ _ _ _ (tx_frame_of db id 0) (λ t, t_endpoints t !! e_endpoint e)
      (wd_session w) (cm_begin _ _ _ _ _ _ _ _ _ Hc)) as F. by rewrite E1 in F. }
  match goal with |- context [log_execution db id ?a ?l ?m] =>
    pose proof (smooth_log L J now db id (e_attempt_count e) (E:=Empty_set) true l m ltac:(set_solver)
      (L + J + 6 + n)%nat w1) as Hlog;
    pose proof (frame_log tx_frame db id (e_attempt_count e) (tx_frame_of db id (e_attempt_count e))
      (E:=Empty_set) l m w1) as F2;
    pose proof (quiet_log (E:=Empty_set) db id (e_attempt_count e) l m w1) as [Hq2 Hq2'] end.
  unfold se_bind at 1. destruct (log_execution _ _ _ _ _ w1) as [[[]|[]|p] w2]; cbn [snd] in *.
  2: { destruct Hlog. eapply calm_le; [|exact Hc1]. lia. }
  unfold dispatch. cbn [bool_decide decide]. rewrite bool_decide_eq_true_2 by done.
  unfold http_dispatch, exchange, se_bind, se_ret, clock_now. cbn [wd_session wd_net wd_outbox wd_clock].
  rewrite Hq2'. eexists _, _, _. split; [reflexivity|]. cbn [wd_session wd_net wd_outbox].
  rewrite Hq2. split; [|done]. etrans; [exact F1|]. apply F2.
  cbn [w1 set_session wd_session]. rewrite Hb1. apply (cm_begin _ _ _ _ _ _ _ _ _ Hc).
Qed.
(** What a processed execution leaves behind, the answer [a] in hand. *)
Record http_ran (key : string) (a : HttpAnswer) (n : nat) (w w' : World) (e' : Execution) : Prop := {
  hr_calm : calm L J now db id (e_attempt_count e) false n (wd_session w');
  hr_outbox : wd_outbox w' = wd_outbox w ++ [SentHttp (http_request spec key)];
  hr_net : wd_net w' = tail (wd_net w);
  hr_outcome : final_outcome rng e (get_retry_policy ep) (http_result spec a) now e';
  hr_execs : execs k (ss_store (wd_session w')) = <[id := e']> (execs k (ss_store (wd_session w)));
  hr_elsewhere : elsewhere k (ss_store (wd_session w)) (ss_store (wd_session w'));
  hr_catalog : same_catalog k (ss_store (wd_session w)) (ss_store (wd_session w'));
}.

Lemma http_process key job n w t :
  calm L J now db id (e_attempt_count e) true (L + J + 8 + n) (wd_session w) →
  st_tenants (ss_store (wd_session w)) !! k = Some t → t_endpoints t !! e_endpoint e = Some ep →
  execs k (ss_store (wd_session w)) !! id = Some e →
  ∃ w' e', process key job w = (Ok tt, w')
    ∧ http_ran key (ns_http (hd silent (wd_net w))) n w w' e'.
Proof.
  intros Hc Ht Hep He. pose proof (cm_begin _ _ _ _ _ _ _ _ _ Hc) as Hb.
  destruct (calm_process rng ctx L J now key_ok db id e key job n w running Hc He)
    as (w' & e0 & Ep & Hc' & _ & _ & Hoth).
  destruct (http_reaches_finalize key job n w t Hc Ht Hep) as (w5 & t5 & d & Ef & F & Hout & Hnet).
  rewrite Ef in Ep.
  pose proof (quiet_finalize rng (E:=Empty_set) db (get_retry_policy ep) id (e_attempt_count e)
    (e_max_attempts e) t5 d (http_result spec (ns_http (hd silent (wd_net w)))) w5) as [Ho Hn].
  pose proof (process_ok rng ctx _ _ _ _ _ (catalog_frame db id (e_attempt_count e) (e_endpoint_type e))
    (E:=Empty_set) key job (e_endpoint e) (e_input e) (e_max_attempts e) w Hb) as [_ Hcat].
  rewrite Ef in Hcat. rewrite Ep in Ho, Hn, Hcat. cbn [snd] in *.
  assert (ss_failed (wd_session w5) = false →
    execs k (ss_store (wd_session w5)) = execs k (ss_store (wd_session w))) as Hx by apply F.
  destruct (ends_finalize rng db id e running _ _ _ _ w5 _ _ Ep) as [[[p Hp] _]|[_ _ Hfl X]];
    [by rewrite (if_begin _ _ F)|by intros Hf; rewrite Hx|done|].
  pose proof (cm_alive _ _ _ _ _ _ _ _ _ Hc') as Hal. destruct (X Hal) as (e' & Hfin & He' & _).
  rewrite (if_now _ _ F), (cm_now _ _ _ _ _ _ _ _ _ Hc) in Hfin.
  exists w', e'. split; [by rewrite Ef|]. split; try done; [by rewrite Ho|by rewrite Hn|].
  rewrite He', Hx; [done|]. destruct (ss_failed (wd_session w5)) eqn:E5; [|done].
  by rewrite (Hfl eq_refl) in Hal.
Qed.
End process.
(** ** One task *)

Section task.
Context (schema : string).
Notation key := (schema, pc_table_prefix ctx).

(** [dispatch_key] of the execution's job, as the store has it. *)
Definition request_key (t : Tenant) (id : string) (e : Execution) : string :=
  default id (t_jobs t !! e_job_id e ≫= j_idempotency_key).

Lemma http_task now locked w t id e ep :
  let σ := ss_store (wd_session w) in
  at_rest ctx L J now locked [schema] (task_cost L J [schema]) w →
  st_tenants σ !! key = Some t → due now locked (execs key σ) id e →
  (∀ id2 e2, due now locked (execs key σ) id2 e2 → id2 = id) →
  e_endpoint_type e = "HTTP" → t_endpoints t !! e_endpoint e = Some ep → plain_http ep →
  let spec := inject_body (ep_spec ep) (e_input e) in
  ∃ w' e', claim_and_process (E:=Empty_set) rng ctx worker_id [schema] w = (Ok true, w')
    ∧ wd_outbox w' = wd_outbox w ++ [SentHttp (http_request spec (request_key t id e))]
    ∧ wd_net w' = tail (wd_net w)
    ∧ final_outcome rng (claim_update now worker_id e) (get_retry_policy ep)
        (http_result spec (ns_http (hd silent (wd_net w)))) now e'
    ∧ execs key (ss_store (wd_session w')) = <[id := e']> (execs key σ)
    ∧ same_catalog key σ (ss_store (wd_session w')).
Proof.
  intros σ Hr Ht Hd Honly Hty Hep Hplain spec.
  destruct (calm_begin ctx L J now locked [schema] schema (L + J + 12) w) as (w1 & E1 & Hst & Hrd & Hlen).
  { by replace (S (L + J + 12)) with (task_cost L J [schema]) by (unfold task_cost; simpl; lia). }
  { left. }
  pose proof (preserves_try (F:=Empty_set) same_outbox _ (quiet_db_op (scoped_transaction schema)) w)
    as Hq1. rewrite E1 in Hq1. cbn [snd] in Hq1.
  destruct (claim_one_claims rng ctx worker_id L J now locked key_ok [schema] schema 1 w1 _ Hst Hrd ltac:(left) ltac:(lia))
    as (id2 & e2 & j & w2 & [Hd2 _ Hq2 Hc2 Hx2 (t2 & Ht2 & Hj2) _ Hcat2] & Ec); [by exists id, e|].
  assert (id2 = id) as -> by (by eapply Honly). subst σ. destruct Hd as [He _], Hd2 as [He2 _]. simplify_eq.
  set (e1 := claim_update now worker_id e) in *.
  destruct (Hcat2 t Ht) as (t2' & Ht2' & Hends & Hkeys). simplify_eq.
  destruct (http_process now {| db_schema := schema; db_prefix := pc_table_prefix ctx |} id e1 ep eq_refl
    Hty Hplain (dispatch_key j (claimed_row id e1)) (e_job_id e) 1 w2 t2 Hc2 Ht2)
    as (w3 & e' & Ep & [Hc3 Hout Hnet Hfin Hx3 _ Hcat3]).
  { by rewrite Hends. }
  { cbn [db_schema db_prefix]. by rewrite Hx2, lookup_insert_eq. }
  cbn [db_schema db_prefix] in *.
  destruct (run_commits rng ctx L J now _ id e1 j _ 0 w2 w3 Ep Hc3) as (w' & E' & Hq' & _ & _ & Hs' & _).
  destruct Hq1 as [Ho1 Hn1], Hq2 as [Ho2 Hn2], Hq' as [Ho' Hn'].
  exists w', e'. split_and!.
  - cbn [claim_and_process]. unfold se_bind at 1. rewrite E1. unfold se_bind at 1.
    unfold in_tx_io in *. rewrite Ec. by rewrite E'.
  - rewrite Ho', Hout, Ho2, Ho1. do 4 f_equal. unfold dispatch_key, request_key.
    apply (f_equal (.!! e_job_id e)) in Hkeys. rewrite !lookup_fmap, Hj2 in Hkeys.
    destruct (t_jobs t !! e_job_id e) as [j0|]; [|done]. cbn in Hkeys |- *. injection Hkeys as ->. done.
  - by rewrite Hn', Hnet, Hn2, Hn1.
  - by rewrite Hn2, Hn1 in Hfin.
  - by rewrite Hs', Hx3, Hx2, insert_insert_eq.
  - rewrite Hs'. by etrans.
Qed.
(** ** Several tasks *)

(** Later: other stimuli to come, other locks held. *)
Definition resume (locked : gset string) (env : list Stim) (w : World) : World :=
  let s := wd_session w in
  set_session {| ss_begin := ss_begin s; ss_failed := ss_failed s; ss_now := ss_now s;
    ss_env := env; ss_locked := locked; ss_store := ss_store s |} w.

Lemma resume_at_rest now locked m now' locked' schemas n env w :
  at_rest ctx L J now locked schemas m w → env_calm now' env → (n ≤ length env)%nat →
  Forall (λ schema, ∃ t, st_tenants (ss_store (wd_session w)) !! (schema, pc_table_prefix ctx) = Some t
                         ∧ tenant_calm L J now' env t) schemas →
  at_rest ctx L J now' locked' schemas n (resume locked' env w).
Proof.
  intros [Hb Ha Hl [Hok Hrows Hsch _] _] Henv Hn Ht. split; try done. split; try done.
  rewrite list.Forall_forall in *. intros x Hx. split; [by apply Hsch|by apply Ht].
Qed.

Notation rows w := (execs key (ss_store (wd_session w))).

(** [n] tasks after each other, each in a calm world of its own in which nothing but the
    execution [id] is due. *)
Inductive rounds (id : string) (w : World) : nat → World → Prop :=
  | Rounds_none : rounds id w 0 w
  | Rounds_more n w1 now locked env :
      rounds id w n w1 →
      at_rest ctx L J now locked [schema] (task_cost L J [schema]) (resume locked env w1) →
      (∃ e, due now locked (rows w1) id e) →
      (∀ id2 e2, due now locked (rows w1) id2 e2 → id2 = id) →
      rounds id w (S n)
        (claim_and_process (E:=Empty_set) rng ctx worker_id [schema] (resume locked env w1)).2.

(** A duration is that of an attempt within one transaction. *)
Lemma final_duration rp r now worker e e' :
  final_outcome rng (claim_update now worker e) rp r now e' →
  e_duration_ms e' = None ∨ e_duration_ms e' = Some 0.
Proof.
  assert (duration_since now (e_started_at (claim_update now worker e)) = Some 0) as Hd.
  { cbn. by rewrite Z.sub_diag. }
  destruct r; simpl; [intros ->; by right|]. case_bool_decide as Hlt.
  - intros (b & _ & ->). left. simpl. by rewrite bool_decide_eq_false_2 by lia.
  - intros ->. by right.
Qed.

(** The rows of one execution. *)
Record same_work (e e' : Execution) : Prop := {
  sw_id : e_execution_id e' = e_execution_id e;
  sw_job : e_job_id e' = e_job_id e;
  sw_endpoint : e_endpoint e' = e_endpoint e;
  sw_type : e_endpoint_type e' = e_endpoint_type e;
  sw_input : e_input e' = e_input e;
  sw_max : e_max_attempts e' = e_max_attempts e;
}.

Lemma final_row rp r now e e' :
  final_outcome rng e rp r now e' →
  same_work e e' ∧ e_attempt_count e' = e_attempt_count e
  ∧ e_status e' = match r with
      | Success _ => "SUCCESS"
      | Failure _ => if bool_decide (e_attempt_count e < e_max_attempts e) then "RETRYING" else "FAILED"
      end.
Proof.
  destruct r; simpl; [intros ->; by repeat split|]. case_bool_decide as Hlt.
  - intros (b & _ & ->). repeat split. simpl. by rewrite bool_decide_eq_false_2 by lia.
  - intros ->. by repeat split.
Qed.

Lemma request_key_same t t' id e e' :
  j_idempotency_key <$> t_jobs t' = j_idempotency_key <$> t_jobs t → same_work e e' →
  request_key t' id e' = request_key t id e.
Proof.
  intros Hk [_ Hj _ _ _ _]. unfold request_key. rewrite Hj.
  apply (f_equal (.!! e_job_id e)) in Hk. rewrite !lookup_fmap in Hk.
  destruct (t_jobs t !! _), (t_jobs t' !! _); simpl in *; congruence.
Qed.

(** ** A flaky endpoint *)

(** The mock server's answer, as the dispatcher receives it. *)
Definition net_of (r : HttpResponse) : NetStim := {|
  ns_http := HttpResp (resp_status r) (default "" (json_to_string <$> resp_body r));
  ns_kafka := KafkaErr "no answer"; ns_redis := RedisErr "no answer" |}.

(** What the dispatcher keeps of an answer 200. *)
Definition http_output (body : string) : json :=
  Json.obj [("status_code", JInt 200); ("body", JString body)].

(** What is kept of the answer to request number [N], the first that is a 200; the endpoint
    echoes the body it received. *)
Definition flaky_output (N : Z) (bodies : list json) (output : option json) : Prop :=
  ∃ body, bodies !! Z.to_nat (N - 1) = Some body
    ∧ output = Some (http_output (json_to_string (flaky_success N body))).

(** The status after [n] attempts at an endpoint that answers 200 from the [N]th on. *)
Definition flaky_status (N max n : Z) : string :=
  if bool_decide (N ≤ n) then "SUCCESS" else if bool_decide (max ≤ n) then "FAILED" else "RETRYING".

(** The answers to come are those of a flaky endpoint that gets [spec] as it is. *)
Record flaky_service (ep : Endpoint) (spec : json) (query : list (string * string))
    (bodies : list json) (w : World) : Prop := {
  fs_plain : plain_http ep;
  fs_expects_200 : 200 ∈ expected_statuses spec;
  fs_refuses_500 : 500 ∉ expected_statuses spec;
  fs_net : wd_net w = net_of <$> flaky_answers query bodies {| ms_request_count := 0 |};
  fs_enough : Z.max 1 (succeed_after query) ≤ Z.of_nat (length bodies) < 2 ^ 64;
}.

Section flaky.
Context (t0 : Tenant) (id : string) (e0 : Execution) (ep : Endpoint) (w0 : World).
Context (query : list (string * string)) (bodies : list json).
Notation spec := (inject_body (ep_spec ep) (e_input e0)).
Notation N := (Z.max 1 (succeed_after query)).
Notation answers := (net_of <$> flaky_answers query bodies {| ms_request_count := 0 |}).
Notation request := (SentHttp (http_request spec (request_key t0 id e0))).

Hypothesis tenant0 : st_tenants (ss_store (wd_session w0)) !! key = Some t0.
Hypothesis row0 : rows w0 !! id = Some e0.
Hypothesis fresh0 : e_attempt_count e0 = 0.
Hypothesis http0 : e_endpoint_type e0 = "HTTP".
Hypothesis endpoint0 : t_endpoints t0 !! e_endpoint e0 = Some ep.
Hypothesis service : flaky_service ep spec query bodies w0.

(** After [n] rounds. *)
Record flaky_at (n : nat) (w : World) (e : Execution) : Prop := {
  fa_row : rows w !! id = Some e;
  fa_new : n = 0%nat → e = e0;
  fa_same : same_work e0 e;
  fa_count : e_attempt_count e = Z.of_nat n;
  fa_status : (0 < n)%nat → e_status e = flaky_status N (e_max_attempts e0) (Z.of_nat n);
  fa_duration : (0 < n)%nat → e_duration_ms e = None ∨ e_duration_ms e = Some 0;
  fa_output : (0 < n)%nat → Z.of_nat n = N → flaky_output N bodies (e_output e);
  fa_first : Z.of_nat n ≤ N;
  fa_max : Z.of_nat n ≤ Z.max 1 (e_max_attempts e0);
  fa_outbox : wd_outbox w = wd_outbox w0 ++ replicate n request;
  fa_net : wd_net w = drop n answers;
  fa_catalog : same_catalog key (ss_store (wd_session w0)) (ss_store (wd_session w));
}.

(** Until the endpoint answers 200 and while the policy allows it, the execution waits. *)
Lemma flaky_waits n w e :
  flaky_at n w e → claimable (e_run_at e0) e0 → Z.of_nat n < N →
  Z.of_nat n < Z.max 1 (e_max_attempts e0) →
  ∀ now locked, e_run_at e ≤ now → id ∉ locked → due now locked (rows w) id e.
Proof using Type.
  clear key_ok tenant0 row0 fresh0 http0 endpoint0 service.
  intros [Hrow Hnew _ _ Hst _ _ _ _ _ _ _] [Hc _] Hn Hm now locked Hrun Hl.
  split_and!; [done| |done]. split; [|done]. destruct n as [|n]; [by rewrite Hnew|].
  rewrite Hst by lia. unfold flaky_status. rewrite !bool_decide_eq_false_2 by lia. set_solver.
Qed.

(** The answer to the next request. *)
Lemma flaky_next n : Z.of_nat n < N → ∃ text,
  ns_http (hd silent (drop n answers))
  = HttpResp (if bool_decide (N ≤ Z.of_nat (S n)) then 200 else 500) text
  ∧ (N = Z.of_nat (S n) → flaky_output N bodies (Some (http_output text))).
Proof.
  pose proof (fs_enough _ _ _ _ _ service) as enough. intros Hn.
  destruct (lookup_lt_is_Some_2 (flaky_answers query bodies {| ms_request_count := 0 |}) n)
    as [r Hr]; [rewrite flaky_answers_length; lia|].
  assert (hd silent (drop n answers) = net_of r) as ->.
  { replace (hd silent _) with (default silent (answers !! n)).
    - by rewrite list_lookup_fmap, Hr.
    - rewrite <-(Nat.add_0_r n), <-lookup_drop, Nat.add_0_r. by destruct (drop n answers). }
  apply flaky_answer in Hr as (body & Hb & Hr); [|simpl; lia..].
  cbn [ms_request_count] in Hr. replace (0 + Z.of_nat n + 1) with (Z.of_nat (S n)) in Hr by lia.
  eexists. cbn [net_of ns_http]. split.
  - f_equal. do 2 case_bool_decide; [by subst r|lia..|done].
  - intros HN. rewrite bool_decide_eq_true_2 in Hr by lia. subst r. exists body.
    split; [by replace (Z.to_nat (N - 1)) with n by lia|]. cbn. by rewrite HN.
Qed.

Lemma flaky_step n w w1 now locked env e :
  w1 = resume locked env w → flaky_at n w e →
  at_rest ctx L J now locked [schema] (task_cost L J [schema]) w1 →
  due now locked (rows w1) id e →
  (∀ id2 e2, due now locked (rows w1) id2 e2 → id2 = id) →
  ∃ e', flaky_at (S n) (claim_and_process (E:=Empty_set) rng ctx worker_id [schema] w1).2 e'.
Proof.
  pose proof service as [plain0 expects_200 refuses_500 _ _].
  intros -> [Hrow _ Hsame Hcount Hst _ _ HN Hmax Hout Hnet Hcat] Hrest Hd Honly.
  destruct (Hcat _ tenant0) as (t & Ht & Hends & Hkeys). pose proof Hsame as [_ _ Hen Hty Hin Hma].
  assert (Z.of_nat n < N ∧ (n ≠ 0%nat → Z.of_nat n < e_max_attempts e0)) as [Hn Hm].
  { destruct Hd as (_ & [Hc _] & _). destruct n as [|n]; [lia|].
    rewrite Hst in Hc by lia. unfold flaky_status in Hc. repeat case_bool_decide; set_unfold; (lia || naive_solver). }
  destruct (http_task now locked (resume locked env w) t id e ep Hrest Ht Hd Honly)
    as (w' & e' & E & Ho' & Hn' & Hf & Hx & Hc'); [by rewrite Hty|by rewrite Hends, Hen|done|].
  rewrite Hin in Ho', Hf. cbn [resume set_session wd_outbox wd_net wd_session ss_store] in *.
  rewrite Hnet in Hf, Hn'. destruct (flaky_next n Hn) as (text & Eb & Hkept). rewrite Eb in Hf.
  pose proof (final_duration _ _ _ _ _ _ Hf) as Hdur.
  destruct (final_row _ _ _ _ _ Hf) as (Hs' & Hct & Hst'). cbn [claim_update e_attempt_count] in *.
  exists e'. rewrite E. cbn [snd]. split.
  - by rewrite Hx, lookup_insert_eq.
  - done.
  - destruct Hs', Hsame. simpl in *. split; congruence.
  - lia.
  - intros _. rewrite Hst'. unfold http_result, flaky_status. cbn [claim_update e_max_attempts].
    rewrite Hma, Hcount.
    destruct (bool_decide_reflect (N ≤ Z.of_nat (S n))).
    + rewrite (bool_decide_eq_true_2 _ expects_200). repeat case_bool_decide; done || lia.
    + rewrite (bool_decide_eq_false_2 _ refuses_500). repeat case_bool_decide; done || lia.
  - by intros _.
  - intros _ E1. unfold http_result in Hf.
    rewrite (bool_decide_eq_true_2 (N ≤ _)), (bool_decide_eq_true_2 _ expects_200) in Hf by lia.
    simpl in Hf. rewrite Hf. by apply Hkept.
  - lia.
  - lia.
  - rewrite Ho', Hout, <-(assoc_L (++)). f_equal. rewrite (request_key_same t0 t id e0 e Hkeys Hsame).
    by rewrite replicate_S_end.
  - rewrite Hn'. change (drop 1 (drop n answers) = drop (S n) answers). rewrite drop_drop. f_equal. lia.
  - by etrans.
Qed.

Lemma rounds_flaky n w : rounds id w0 n w → ∃ e, flaky_at n w e.
Proof.
  induction 1 as [|n w1 now locked env _ [e He] Hrest [e1 Hd] Honly].
  - exists e0. pose proof service as [_ _ _ net0 _].
    split; rewrite ?List.app_nil_r; try done; lia.
  - assert (e1 = e) as -> by (destruct Hd, He; congruence). by eapply flaky_step.
Qed.
End flaky.
End task.
End retries.
