(* ===== verification/Journey.v ===== *)
(** * From a request of the SDK to a finished execution

    What a successful creation of an IMMEDIATE or DELAYED job leaves in the tables
    ([create_checks_run], [jobs_create_run]), what the SDK reads of the answer
    ([read_created]), and the created execution as the start of [Retries.rounds]. *)

From S2P Require Export HandlerRuns Retries SdkContract SdkBuilders.
#[local] Open Scope Z_scope.

(** ** A session nobody else interferes with *)

Record alone (s : Session) : Prop := {
  al_begin : ss_begin s = None;
  al_others : Forall (λ st, ∀ σ, stim_others st σ = σ) (ss_env s);
}.

Lemma alone_advance s : alone s → alone (advance s) ∧ ss_store (advance s) = ss_store s.
Proof.
  intros [Hb Ho]. unfold advance, next_stim, in_transaction. rewrite Hb. cbn [bool_decide].
  destruct (ss_env s) as [|st env]; simpl; [by repeat split|].
  inversion Ho as [|?? Hst Henv]; subst. split; [by split|apply Hst].
Qed.

Lemma alone_stmt {A} (qy : Query A) s a s' :
  stmt qy s = (Ok a, s') → alone s →
  alone s' ∧ ∃ st now, qy st now (ss_locked s) (ss_store s) = Ok (a, ss_store s').
Proof.
  intros E Ha. unfold stmt in E. destruct (ss_failed s); [done|].
  destruct (alone_advance s Ha) as [[Hb Ho] Hs]. destruct (stim_fault _); [done|].
  rewrite Hs in E. destruct (qy _ _ _ _) as [[a' σ]| |] eqn:Eq; [|done..].
  injection E as <- <-. split; [by split|]. eexists _, _. exact Eq.
Qed.

Lemma alone_read {A} db (f : Tenant → A) s a s' :
  read db f s = (Ok a, s') → alone s →
  alone s' ∧ ss_store s' = ss_store s
  ∧ ∃ t, st_tenants (ss_store s) !! (db_schema db, db_prefix db) = Some t ∧ a = f t.
Proof.
  intros E Ha. destruct (alone_stmt _ _ _ _ E Ha) as (Ha' & st & now & Eq). split; [done|].
  unfold tquery in Eq. destruct (st_tenants (ss_store s) !! _) as [t|] eqn:Et; [|done].
  injection Eq as <- <-. rewrite set_tenant_same by done. split; [done|]. by exists t.
Qed.

Lemma alone_connection schema s s' :
  scoped_connection schema s = (Ok tt, s') → alone s →
  validate_schema_name schema = true ∧ alone s' ∧ ss_store s' = ss_store s.
Proof.
  unfold scoped_connection. destruct (validate_schema_name _); [|done]. intros E Ha. split; [done|].
  destruct (alone_stmt _ _ _ _ E Ha) as (Ha' & st & now & Eq). by injection Eq as <-.
Qed.

(** ** The creation of a job *)

Section create.
Context `{!Chrono} `{!CronCrate} `{!Base64} `{!JsonSchemaCrate}.
Context (prefix : string) (ws : WorkspaceContext).
Notation key := (wc_schema_name ws, prefix).

(** What the checks before the transaction have seen. *)
Record checked (body : CreateJob) (ep : Endpoint) (t : Tenant) (s s' : Session) : Prop := {
  ck_alone : alone s';
  ck_store : ss_store s' = ss_store s;
  ck_tenant : st_tenants (ss_store s) !! key = Some t;
  ck_endpoint : t_endpoints t !! cj_endpoint body = Some ep;
  ck_type : is_internal (ep_endpoint_type ep) = false;
  ck_schema : validate_schema_name (wc_schema_name ws) = true;
}.

Lemma check_payload_alone db (ep : Endpoint) (input : option json) s s' :
  match ep_payload_spec_ref ep, input with
  | Some ps_name, Some input =>
      found <-- q (payload_specs_get db ps_name);
      spec <-- se_ok_or found (InvalidPayloadSpecRef ps_name);
      se_lift (validate_input input (p_schema_json spec))
  | _, _ => se_ret tt
  end s = (Ok tt, s') → alone s → alone s' ∧ ss_store s' = ss_store s.
Proof.
  destruct (ep_payload_spec_ref ep), input; try by intros [= <-].
  intros E Ha. apply se_bind_inv in E as (found & s1 & E1%q_ok & E).
  destruct (alone_read _ _ _ _ _ E1 Ha) as (Ha1 & Hs1 & _).
  apply se_bind_inv in E as (spec & s2 & E2 & E). apply ok_or_ok in E2 as [_ ->].
  by apply lift_ok in E as [_ ->].
Qed.

(** The answer to a request whose key has been used. *)
Definition replayed (body : CreateJob) (t : Tenant) (r : HttpResponse) : Prop :=
  ∃ k job, cj_idempotency_key body = Some k
    ∧ job ∈ (map_to_list (t_jobs t)).*2 ∧ j_endpoint job = cj_endpoint body
    ∧ j_idempotency_key job = Some k
    ∧ r = resp 200 (data (job_response job (head (executions_of_job (j_job_id job) t)))).

Lemma create_checks_run body s ep replay s' :
  create_checks prefix ws body s = (Ok (ep, replay), s') → alone s →
  ∃ t, checked body ep t s s' ∧ ∀ r, replay = Some r → replayed body t r.
Proof.
  intros E Ha. unfold create_checks in E. cbv zeta in E.
  apply se_bind_inv in E as ([] & s1 & E1%q_ok & E).
  destruct (alone_connection _ _ _ E1 Ha) as (Hv & Ha1 & Hs1).
  apply se_bind_inv in E as (found & s2 & E2%q_ok & E).
  destruct (alone_read _ _ _ _ _ E2 Ha1) as (Ha2 & Hs2 & t & Ht & ->).
  apply se_bind_inv in E as (ep' & s3 & E3 & E). apply ok_or_ok in E3 as [Hep ->].
  apply se_bind_inv in E as ([] & s4 & E4 & E).
  destruct (is_internal _) eqn:Hint; [done|]. injection E4 as <-.
  apply se_bind_inv in E as ([] & s5 & E5 & E).
  destruct (check_payload_alone _ _ _ _ _ E5 Ha2) as [Ha5 Hs5].
  rewrite Hs1 in Ht, Hs2. rewrite Hs2 in Hs5. cbn [ctx_of db_schema db_prefix] in Ht.
  assert (∀ s6, alone s6 → ss_store s6 = ss_store s5 → checked body ep' t s s6) as Hck
    by (intros s6 ??; split; congruence).
  exists t. destruct (cj_idempotency_key body) as [k|] eqn:Hk;
    [|injection E as <- <- <-; split; [by apply Hck|done]].
  apply se_bind_inv in E as (existing & s6 & E6%q_ok & E).
  destruct (alone_read _ _ _ _ _ E6 Ha5) as (Ha6 & Hs6 & t6 & Ht6 & ->).
  rewrite Hs5 in Ht6. cbn [ctx_of db_schema db_prefix] in Ht6. simplify_eq.
  destruct (head _) as [job|] eqn:Hj; [|injection E as <- <- <-; split; [by apply Hck|done]].
  apply head_Some_elem_of, list_elem_of_filter in Hj as [[Hen Hkey] Hin].
  apply se_bind_inv in E as (ex & s7 & E7%q_ok & E).
  destruct (alone_read _ _ _ _ _ E7 Ha6) as (Ha7 & Hs7 & t7 & Ht7 & ->).
  rewrite Hs6, Hs5 in Ht7. cbn [ctx_of db_schema db_prefix] in Ht7. simplify_eq.
  injection E as <- <- <-. split; [apply Hck; congruence|].
  intros r [= <-]. by exists k, job.
Qed.

(** A new job with its first execution. *)
Record created (body : CreateJob) (ep : Endpoint) (k : string) (job : Job) (e : Execution) : Prop := {
  cr_trigger : j_trigger_type job = cj_trigger body;
  cr_active : j_status job = "ACTIVE" ∧ j_version job = 1;
  cr_key : j_idempotency_key job = Some k;
  cr_job_input : j_input job = cj_input body;
  cr_waits : e_status e ∈ ["PENDING"; "QUEUED"] ∧ e_attempt_count e = 0;
  cr_of_job : e_job_id e = j_job_id job;
  cr_endpoint : e_endpoint e = cj_endpoint body;
  cr_endpoint_type : e_endpoint_type e = ep_endpoint_type ep;
  cr_input : e_input e = cj_input body;
  cr_max_attempts : e_max_attempts e = job_max_attempts body ep;
  cr_due : cj_trigger body = "DELAYED" → cj_run_at body = Some (e_run_at e);
}.

Lemma insert_execution_ok db e t t' :
  insert_execution db e t = Ok t' →
  t_executions t !! e_execution_id e = None
  ∧ t' = set_executions (<[e_execution_id e := e]> (t_executions t)) t.
Proof.
  unfold insert_execution. repeat (case_match; try done). bool_prop. intros [= <-].
  split; [by apply eq_None_not_Some|done].
Qed.

Lemma execution_stmt_run db mk b now s e s' :
  execution_stmt db mk s = (Ok e, s') → in_run b now s →
  in_run b now s' ∧ ∃ id t, st_tenants (ss_store s) !! (db_schema db, db_prefix db) = Some t
    ∧ e = mk id now
    ∧ ss_store s' = set_tenant (db_schema db, db_prefix db)
                      (set_executions (<[e_execution_id e := e]> (t_executions t)) t) (ss_store s).
Proof.
  intros E Hr. destruct (tstmt_run _ _ _ _ _ _ _ E Hr) as (Hr' & st & t & t' & Ht & Hq & Hs).
  cbv zeta in Hq. destruct (insert_execution _ _ _) as [t2| |] eqn:Ei; [|done..].
  injection Hq as <- <-. apply insert_execution_ok in Ei as [_ ->].
  split; [done|]. by exists (stim_uuid st), t.
Qed.

(** The tables with the new rows. *)
Definition with_created (job : Job) (e : Execution) (t : Tenant) : Tenant :=
  set_executions (<[e_execution_id e := e]> (t_executions t))
    (set_jobs (<[j_job_id job := job]> (t_jobs t)) t).

(** The two INSERTs of [create_immediate] and of [create_delayed], one transaction. *)
Lemma create_tx_run mk_job mk_exec (f : CreateJobResult → list (string * json)) g s r s' t :
  with_tx ws (
    result <-- se_map_err g (
      job <-- job_stmt (ctx_of prefix ws) mk_job;
      ex <-- execution_stmt (ctx_of prefix ws) (mk_exec job);
      se_ret {| cr_job := job; cr_execution_id := e_execution_id ex;
                cr_execution_status := e_status ex; cr_execution_created_at := e_created_at ex |});
    q commit ;;; se_ret (resp 201 (created_body result (f result)))) s = (Ok r, s') →
  alone s → st_tenants (ss_store s) !! key = Some t →
  ∃ id x now, let job := mk_job id now in let e := mk_exec job x now in
    ss_begin s' = None ∧ ss_store s' = set_tenant key (with_created job e t) (ss_store s)
    ∧ let result := {| cr_job := job; cr_execution_id := e_execution_id e;
                       cr_execution_status := e_status e; cr_execution_created_at := e_created_at e |} in
      r = resp 201 (created_body result (f result)).
Proof.
  intros E Ha Ht. destruct (alone_advance s Ha) as [_ Hs].
  apply with_tx_ok in E as (now & s1 & Hr & E & ->); [|apply Ha]. rewrite Hs in Hr.
  apply se_bind_inv in E as (result & s2 & E2%map_err_ok & E).
  apply se_bind_inv in E2 as (job & s3 & E3 & E2).
  apply se_bind_inv in E2 as (e & s4 & E4 & [= <- <-]).
  destruct (job_stmt_run _ _ _ _ _ _ _ E3 Hr) as (Hr3 & id & t3 & Ht3 & Hj & _ & Hs3).
  destruct (execution_stmt_run _ _ _ _ _ _ _ E4 Hr3) as (Hr4 & x & t4 & Ht4 & Hx & Hs4).
  cbn [ctx_of db_schema db_prefix begin_at ss_store] in *. rewrite Hs in Ht3, Hs3. simplify_eq.
  rewrite Hs3 in Ht4, Hs4. unfold set_tenant in Ht4. simpl in Ht4.
  rewrite lookup_insert_eq in Ht4. injection Ht4 as <-.
  apply se_bind_inv in E as ([] & s5 & E5%q_ok & [= <- <-]).
  destruct (commit_run _ _ _ _ _ E5 Hr4) as (Hn & Hs5).
  rewrite drop_tx_none by done. exists id, x, now. cbv zeta. split; [done|]. split; [|done].
  rewrite Hs5, Hs4. unfold set_tenant. simpl. by rewrite insert_insert_eq.
Qed.

Ltac created_tac :=
  split; simpl; try split; first [done|congruence|intros; congruence|set_solver].

(** A creation that succeeded found the key used, or stored one job and one execution. *)
Lemma jobs_create_run now generated body s r s' :
  jobs_create prefix ws now generated body s = (Ok r, s') →
  cj_trigger body ≠ "CRON" → alone s →
  ∃ t ep, checked body ep t s s ∧ ss_begin s' = None ∧
    (replayed body t r ∧ ss_store s' = ss_store s
     ∨ ∃ job e extra,
        created body ep (default generated (cj_idempotency_key body)) job e
        ∧ ss_store s' = set_tenant key (with_created job e t) (ss_store s)
        ∧ r = resp 201 (created_body {| cr_job := job; cr_execution_id := e_execution_id e;
            cr_execution_status := e_status e; cr_execution_created_at := e_created_at e |} extra)
        ∧ (extra = [] ∧ j_run_at job = None
           ∨ extra = [("run_at", Json.opt ts_json (j_run_at job))])).
Proof.
  intros E Hcron Ha. unfold jobs_create in E.
  apply se_bind_inv in E as (trigger & s1 & E1 & E). apply ok_or_ok in E1 as [Htr ->].
  apply se_bind_inv in E as ([ep replay] & s2 & E2 & E).
  destruct (create_checks_run _ _ _ _ _ E2 Ha) as (t & Hck & Hrep). exists t, ep.
  assert (checked body ep t s s) as Hck' by (destruct Hck; by split). split; [done|].
  destruct Hck as [Ha2 Hs2 Ht Hep Hint _]. rewrite <-Hs2 in Ht.
  destruct replay as [r0|].
  { injection E as -> <-. split; [apply Ha2|]. left. split; [by apply Hrep|done]. }
  unfold TriggerType_from_str_val in Htr. repeat case_bool_decide; simplify_eq.
  - unfold create_immediate_job in E. cbv zeta in E.
    apply (create_tx_run _ _ (λ _, [])) with (t := t) in E as (id & x & tx_now & E); [|done..].
    cbv zeta in E. destruct E as (Hb & Hs' & ->). rewrite Hs2 in Hs'. split; [done|]. right.
    eexists _, _, []. split_and!; [|exact Hs'|done|by left]. created_tac.
  - unfold create_delayed_job in E.
    apply se_bind_inv in E as (k & s3 & E3 & E). apply ok_or_ok in E3 as [Hk ->].
    apply se_bind_inv in E as (run_at & s4 & E4 & E). apply ok_or_ok in E4 as [Hrun ->].
    apply (create_tx_run _ _ (λ result, [("run_at", Json.opt ts_json (j_run_at (cr_job result)))]))
      with (t := t) in E as (id & x & tx_now & E); [|done..].
    cbv zeta in E. destruct E as (Hb & Hs' & ->). rewrite Hs2 in Hs'. split; [done|]. right.
    eexists _, _, _. split_and!; [|exact Hs'|done|by right]. rewrite Hk. created_tac.
Qed.
End create.

(** ** The request, as the SDK sends it and the API handles it *)

Section post.
Context `{!Chrono} `{!CronCrate} `{!Base64} `{!JsonSchemaCrate} `{!Smithy} `{!SdkTimes}.

(** A job without schedule. *)
Record one_off (input : CreateJobInput) (endpoint : string) : Prop := {
  oo_endpoint : create_job_endpoint input = Some endpoint;
  oo_trigger : create_job_trigger input
    ∈ [Some TriggerTypeEnum_Immediate; Some TriggerTypeEnum_Delayed];
  oo_cron : create_job_cron input = None;
}.

(** The input of the job: null is none. *)
Definition job_input (input : CreateJobInput) : option json :=
  match create_job_input input with Some JNull => None | i => i end.

(** The calls are sent, their body is decoded, the handler runs. *)
Inductive posted (prefix : string) (ws : WorkspaceContext) (calls : list CreateJobCall)
    (generated : string) (s : Session) (answer : HttpResponse) (s' : Session) : Prop :=
  | Posted r body job_body now :
      create_job_send calls = Ok r → rq_body r = Some (JObject body) →
      CreateJob_from_fields body = Ok job_body →
      jobs_create prefix ws now generated job_body s = (Ok answer, s') →
      posted prefix ws calls generated s answer s'.

Lemma posted_run prefix ws calls generated s answer s' endpoint :
  let input := foldl create_job_call create_job_none calls in
  posted prefix ws calls generated s answer s' → one_off input endpoint →
  resp_status answer = 201 → alone s →
  ∃ body t ep job e extra,
    cj_endpoint body = endpoint ∧ cj_input body = job_input input ∧ cj_max_attempts body = None
    ∧ checked prefix ws body ep t s s
    ∧ created body ep (default generated (create_job_idempotency_key input)) job e
    ∧ ss_store s' = set_tenant (wc_schema_name ws, prefix) (with_created job e t) (ss_store s)
    ∧ answer = resp 201 (created_body {| cr_job := job; cr_execution_id := e_execution_id e;
        cr_execution_status := e_status e; cr_execution_created_at := e_created_at e |} extra)
    ∧ (extra = [] ∧ j_run_at job = None ∨ extra = [("run_at", Json.opt ts_json (j_run_at job))]).
Proof.
  intros input [r fields body now Er Eb Ed E] [Hep Htr Hcron] H201 Ha.
  change (create_job_request input = Ok r) in Er. unfold create_job_request in Er.
  destruct (ser_create_job_headers input) as [hs| |]; [|done..]. cbn [res_bind] in Er.
  destruct (ser_create_job_input input) as [fields'| |] eqn:Es; [|done..]. cbn [res_bind] in Er.
  apply ok_eq in Er as ->. injection Eb as ->.
  assert (∃ trigger, create_job_trigger input = Some trigger ∧ TriggerTypeEnum_as_str trigger ≠ "CRON")
    as (trigger & Et & Hnc) by (set_unfold; destruct Htr as [->| [-> | []]]; by eexists).
  rewrite (sdk_job_body input fields endpoint trigger None Es Hep Et) in Ed by by rewrite Hcron.
  apply ok_eq in Ed as ->.
  destruct (jobs_create_run _ _ _ _ _ _ _ _ E Hnc Ha)
    as (t & ep & Hck & _ & [[(?&?&_&_&_&_&->) _]|(job & e & extra & Hrun)]); [done|].
  match type of E with jobs_create _ _ _ _ ?b _ = _ => by exists b, t, ep, job, e, extra end.
Qed.
End post.

(** ** The answer, as the SDK reads it *)

Section answer.
Context `{!Chrono} `{!Smithy} `{!SdkTimes}.

Lemma read_created job e extra headers :
  document_ok (Json.opt_json (j_input job)) = true → j_version job = 1 →
  (extra = [] ∧ j_run_at job = None ∨ extra = [("run_at", Json.opt ts_json (j_run_at job))]) →
  create_job_response (wire headers (resp 201 (created_body {| cr_job := job;
    cr_execution_id := e_execution_id e; cr_execution_status := e_status e;
    cr_execution_created_at := e_created_at e |} extra))) = inr (seen_job job).
Proof.
  intros Hd Hv He. unfold create_job_response, de_create_job_http_response, de_http_response.
  change (is_service_error 201 _) with false. unfold de_create_job, created_body. rewrite read_data.
  unfold seen_job. destruct He as [[-> ->]| ->]; unfold Json.obj, de_job_resource, de_structure;
    change (foldl _ [] ?l) with (obj_fields l); rewrite !field_obj;
    cbn [app reverse rev_append cr_job]; assocs; unfold expect_enum;
    cbn [expect_string_or_null];
    by rewrite read_i32, Hv, read_opt_str, ?read_opt_time, !read_timestamp, read_document by done.
Qed.
End answer.

(** ** The created execution in the hands of workers *)

Section delivery.
Context `{!SerdeJson} `{!SqlDisplay} `{!Aes256Gcm} `{!Utf8}.
Context (rng : Rng) (ctx : PipelineContext) (worker_id : string) (L J : nat).
Context (schema : string) (body : CreateJob) (ep : Endpoint) (k : string) (job : Job) (e : Execution).
Context (t : Tenant) (σ : Store) (w0 : World) (query : list (string * string)) (bodies : list json).
Notation key := (schema, pc_table_prefix ctx).
Notation spec := (inject_body (ep_spec ep) (cj_input body)).
Notation N := (Z.max 1 (succeed_after query)).

Hypothesis key_ok : ∀ p, hex_decode (pc_encryption_key ctx) ≠ Panic p.
Hypothesis new : created body ep k job e.
Hypothesis stored : ss_store (wd_session w0) = set_tenant key (with_created job e t) σ.
Hypothesis endpoint_there : t_endpoints t !! cj_endpoint body = Some ep.
Hypothesis http : ep_endpoint_type ep = "HTTP".
Hypothesis service : flaky_service ep spec query bodies w0.

Lemma created_key : request_key (with_created job e t) (e_execution_id e) e = k.
Proof.
  unfold request_key, with_created. cbn [set_executions set_jobs t_jobs].
  rewrite (cr_of_job _ _ _ _ _ new), lookup_insert_eq. cbn. by rewrite (cr_key _ _ _ _ _ new).
Qed.

Lemma created_flaky n w :
  rounds rng ctx worker_id L J schema (e_execution_id e) w0 n w →
  ∃ e', flaky_at ctx schema (with_created job e t) (e_execution_id e) e ep w0 query bodies n w e'.
Proof.
  pose proof new as [_ _ _ _ [_ Hcount] _ Hen Hty Hin _ _].
  apply rounds_flaky; try done.
  - rewrite stored. apply lookup_insert_eq.
  - rewrite stored. unfold execs. cbn [set_tenant st_tenants]. rewrite lookup_insert_eq.
    apply lookup_insert_eq.
  - by rewrite Hty.
  - by rewrite Hen.
  - by rewrite Hin.
Qed.
End delivery.
