(* ===== verification/Shell.v ===== *)
(** * The binaries around the library ([api/src/main.rs], [middleware.rs], [dashboard.rs],
    [router.rs], [auth/routes.rs]; [worker/src/main.rs], [ops.rs])

    What a process reads at start-up, the services it registers and in which order, and
    what is done to every request.  How actix picks a service is a parameter ([Actix]). *)

From Stdlib Require Import Ascii.
From S2P Require Export Auth Clients Poller Dashboard.
#[local] Open Scope Z_scope.

(** ** The services of the API binary *)

(** Who answers a request. *)
Inductive Target :=
  | TCallback
  | TLogout
  | TRedirect (location : string)
  | THealth
  | TMetrics
  | TApi (m : Method) (route : string)
  | TAssets (dir : string)
  | TPage (route : string).

Inductive Service :=
  | Route (m : Method) (pattern : string) (t : Target)
  | Scope (prefix : string) (inner : list Service)
  | Files (mount dir : string).

(** [auth::routes::configure] *)
Definition auth_services (path_prefix : string) : list Service := [
  Route GET (path_prefix +:+ "/oidc/login") TCallback;
  Route GET (path_prefix +:+ "/logout") TLogout].

(** [router::configure]; the routes of a workspace are in a scope of their own, [/v1]. *)
Definition api_scope : list Service :=
  [Route GET "/health" THealth; Route GET "/metrics" TMetrics]
  ++ ((λ r, Route r.1 r.2 (TApi r.1 r.2)) <$> management_routes)
  ++ [Scope "/v1" ((λ r, Route r.1 (Str.sdrop 3 r.2) (TApi r.1 r.2)) <$> workspace_routes)].

Definition router_services (prefix : string) (mode : ServerMode) (dashboard_prefix : string) :
    list Service :=
  match root_redirect prefix dashboard_prefix mode with
  | Some target => [Route GET "/" (TRedirect target)]
  | None => []
  end ++ [Scope prefix api_scope].

(** [dashboard::configure]; [listings]: what [generate_route_list] makes of the app. *)
Definition dashboard_services (dashboard_prefix pkg_dir : string)
    (listings : list (string * list Method)) : list Service :=
  Files (if bool_decide (dashboard_prefix = "") then "/pkg" else dashboard_prefix +:+ "/pkg") pkg_dir
  :: mjoin ((λ l, (λ m, Route m
       (if bool_decide (dashboard_prefix = "") then l.1 else dashboard_prefix +:+ l.1) (TPage l.1))
       <$> l.2) <$> listings).

#[global] Instance ServerMode_eq_dec : EqDecision ServerMode.
Proof. solve_decision. Defined.

Definition dashboard_config (sv : ServerEnv) : option DashboardConfig :=
  if bool_decide (sv_mode sv = SM_Api) then None
  else Some {| dc_api_base_url := ""; dc_api_prefix := sv_path_prefix sv;
               dc_dashboard_prefix := sv_dashboard_prefix sv |}.

(** The application: the callback first, the dashboard last. *)
Definition app_services (listings : list (string * list Method)) (sv : ServerEnv) : list Service :=
  auth_services (sv_path_prefix sv)
  ++ (if bool_decide (sv_mode sv = SM_Api) || bool_decide (sv_mode sv = SM_Both)
      then router_services (sv_path_prefix sv) (sv_mode sv) (sv_dashboard_prefix sv) else [])
  ++ match dashboard_config sv with
     | Some _ => dashboard_services (sv_dashboard_prefix sv) (sv_dashboard_dist_dir sv) listings
     | None => []
     end.

(** ** Start-up *)

Record ApiServer := {
  as_listen_addr : string;
  as_services : list Service;
  as_prefix : string;                      (* of the tables *)
  as_encryption_key : string;
}.

(** [connect]: [connect_pool], on the URL and the size of the pool. *)
Definition api_main `{!Utf8} `{!Clouds} `{!CronCrate} `{!AuthnClaims} (kms : bool) (kit : AuthnKit)
    (connect : string → Z → res string unit) (listings : list (string * list Method)) (env : Env) :
    res string (ApiServer * list Authenticator) :=
  config <-? AppConfig_from_env kms env;
  _ <-? connect (db_url (ac_db config)) (db_pool_size (ac_db config));
  auth_env <-? AuthEnv_from_env kms env;
  authn <-? res_map_err (λ e, "failed to build authentication: " +:+ e)
    (auth_chain kit auth_env (sv_path_prefix (ac_server config)));
  Ok ({| as_listen_addr := sv_listen_addr (ac_server config);
         as_services := app_services listings (ac_server config);
         as_prefix := db_table_prefix (ac_db config);
         as_encryption_key := ac_encryption_key config |}, authn).

Record WorkerProcess := {
  wp_config : AppConfig;
  wp_health : WorkerHealth;
  wp_ops_port : Z;
  wp_ops_workers : Z;
  wp_probe_timeout_ms : Z;
  wp_registry_ttl_sec : Z;
}.

(** Durations in milliseconds. *)
Definition worker_main `{!Utf8} `{!Clouds} `{!CronCrate} (kms : bool)
    (connect : string → Z → res string unit) (now : Z) (env : Env) : res string WorkerProcess :=
  config <-? AppConfig_from_env kms env;
  _ <-? connect (db_url (ac_db config)) (db_pool_size (ac_db config));
  Ok {| wp_config := config;
        wp_health := WorkerHealth_new now (wk_max_concurrent (ac_worker config))
                       (wk_poll_interval_ms (ac_worker config))
                       (he_stale_after_floor_ms (ac_health config));
        wp_ops_port := ac_metrics_port config;
        wp_ops_workers := he_server_workers (ac_health config);
        wp_probe_timeout_ms := he_db_probe_timeout_ms (ac_health config);
        wp_registry_ttl_sec := 30 |}.

(** ** The worker's own routes *)

Inductive OpsHandler := OpsHealth | OpsReady | OpsMetrics.
Definition ops_routes : list (string * OpsHandler) :=
  [("/health", OpsHealth); ("/ready", OpsReady); ("/metrics", OpsMetrics)].

Fixpoint trim_zeros (fuel : nat) (digits : Z) : Z :=
  match fuel with
  | O => digits
  | S fuel => if bool_decide (digits `mod` 10 = 0) then trim_zeros fuel (digits / 10) else digits
  end.

(** [{timeout:?}] of whole milliseconds. *)
Definition duration_debug (ms : Z) : string :=
  if bool_decide (1000 ≤ ms) then
    let frac := ms `mod` 1000 in
    Str.dec (ms / 1000)
    +:+ (if bool_decide (frac = 0) then ""
         else "." +:+ (if bool_decide (frac < 10) then "00"
                       else if bool_decide (frac < 100) then "0" else "")
              +:+ Str.dec (trim_zeros 2 frac))
    +:+ "s"
  else if bool_decide (0 < ms) then Str.dec ms +:+ "ms" else "0ns".

(** [None]: the statement did not answer in time. *)
Definition probe_db (answer : option (res string unit)) (timeout_ms : Z) : res string unit :=
  match answer with
  | Some r => r
  | None => Err ("probe timed out after " +:+ duration_debug timeout_ms)
  end.

Definition ops_ready (answer : option (res string unit)) (timeout_ms now : Z) (h : WorkerHealth) :
    HttpResponse :=
  ready_handler (probe_db answer timeout_ms) now h.

(** ** Every request: its identifier *)

Definition x_request_id : string := "x-request-id".
Definition HeaderMap : Type := gmap string string.

(** [RequestIdMiddleware::call]: [uuid] is the fresh identifier; [call] the services
    inside, which answer with a response and its headers or with an error. *)
Definition RequestIdMiddleware_call {Res E} (call : HeaderMap → res E (HeaderMap * Res))
    (uuid : string) (request : HeaderMap) : res E (HeaderMap * Res) :=
  r <-? call (<[x_request_id := uuid]> request);
  Ok (<[x_request_id := uuid]> r.1, r.2).

(** [err]: the text of actix's [JsonPayloadError]. *)
Definition json_error_handler (err : string) (request : HeaderMap) : HttpResponse :=
  let request_id := default JNull (JString <$> request !! x_request_id) in
  resp 400 (Json.obj [("error", Json.obj [
    ("code", JString "INVALID_REQUEST");
    ("message", JString ("Malformed JSON request body: " +:+ err));
    ("request_id", request_id)])]).

(** ** The callback and logout *)

Record Cookie := { co_name : string; co_value : string; co_path : string; co_removed : bool }.

(** [authn_kit]'s login flow: reading the parameters of the callback, completing the
    login with the protection cookie, the directive that clears the session. *)
Record LoginFlow := {
  lf_params : Type;
  lf_from_query : string → res AuthError lf_params;
  lf_protection_name : string;
  lf_complete : lf_params → option string → res AuthError (string * list Cookie);
  lf_clear_session : Cookie;
}.

Inductive AuthAnswer :=
  | Found (location : string) (cookies : list Cookie)
  | Replied (r : HttpResponse).

Record AuthRoutesState := { ar_login : option LoginFlow; ar_path_prefix : string }.

(** [render]: the library's response to an error. *)
Definition callback (render : AuthError → HttpResponse) (state : AuthRoutesState) (query : string)
    (cookies : gmap string string) : res HttpResponse AuthAnswer :=
  match ar_login state with
  | None => Ok (Replied (resp 404 (error_body "AUTH_DISABLED"
              "Authentication is disabled; there is no login flow")))
  | Some login =>
      params <-? res_map_err render (lf_from_query login query);
      complete <-? res_map_err render
        (lf_complete login params (cookies !! lf_protection_name login));
      Ok (Found complete.1 complete.2)
  end.

Definition logout (state : AuthRoutesState) : AuthAnswer :=
  Found (logout_location (ar_path_prefix state))
    [match ar_login state with
     | Some login => lf_clear_session login
     | None => {| co_name := SESSION_COOKIE; co_value := ""; co_path := "/"; co_removed := true |}
     end].
