(* ===== verification/Routing.v ===== *)
(** * Which service answers a request

    The services of [Shell] under actix's rules, stated as laws: services are tried in the
    order of their registration, a scope keeps every request below its prefix, and an empty
    scope keeps every request -- the rule [auth/routes.rs] is written around. *)

From Stdlib Require Import Ascii.
From S2P Require Export Shell.
#[local] Open Scope Z_scope.

#[global] Instance Method_eq_dec : EqDecision Method.
Proof. solve_decision. Defined.

Class Actix := {
  pattern_matches : string → string → bool;      (* a route's pattern and a whole path *)
  below : string → string → option string;       (* what is left of a path below a scope *)
  served_by : list Service → Method → string → option Target;
}.

Class ActixLaws `{!Actix} : Prop := {
  served_nil m p : served_by [] m p = None;
  served_route m' pattern t l m p :
    served_by (Route m' pattern t :: l) m p
    = if bool_decide (m = m') && pattern_matches pattern p then Some t else served_by l m p;
  served_scope prefix inner l m p :
    served_by (Scope prefix inner :: l) m p
    = match below prefix p with Some rest => served_by inner m rest | None => served_by l m p end;
  served_files mount dir l m p :
    served_by (Files mount dir :: l) m p
    = if below mount p then Some (TAssets dir) else served_by l m p;
  static_matches pattern p :
    Str.find pattern "{" = None → pattern_matches pattern p = bool_decide (pattern = p);
  matches_up_to_brace pattern p i :
    Str.find pattern "{" = Some i → pattern_matches pattern p = true →
    Str.stake i p = Str.stake i pattern;
  below_empty p : below "" p = Some p;
  below_split prefix p rest : below prefix p = Some rest → p = prefix +:+ rest;
  below_slash prefix rest : below prefix (prefix +:+ "/" +:+ rest) = Some ("/" +:+ rest);
}.

Section routing.
Context `{!Actix} `{!ActixLaws}.
Implicit Types (m : Method) (p : string) (l : list Service).

(** ** Runs of routes *)

Section routes.
Context {A : Type} (method : A → Method) (pattern : A → string) (target : A → Target).
Notation routes := (fmap (λ r, Route (method r) (pattern r) (target r))).

Lemma served_routes (P : Target → Prop) rs l m p t :
  Forall (λ r, P (target r)) rs → (served_by l m p = Some t → P t) →
  served_by (routes rs ++ l) m p = Some t → P t.
Proof.
  intros Hrs Hl. induction Hrs as [|r rs Hr _ IH]; [done|]. simpl. rewrite served_route.
  case_match; [by intros [= <-]|done].
Qed.

Lemma served_routes_skip rs l m p :
  Forall (λ r, pattern_matches (pattern r) p = false) rs →
  served_by (routes rs ++ l) m p = served_by l m p.
Proof.
  induction 1 as [|r rs Hr _ IH]; [done|]. simpl. by rewrite served_route, Hr, andb_false_r.
Qed.
End routes.

(** A pattern whose literal part differs. *)
Lemma pattern_differs pattern p :
  match Str.find pattern "{" with
  | None => bool_decide (pattern = p)
  | Some i => bool_decide (Str.stake i p = Str.stake i pattern)
  end = false →
  pattern_matches pattern p = false.
Proof.
  destruct (Str.find pattern "{") as [i|] eqn:E; intros Hd.
  - destruct (pattern_matches pattern p) eqn:Hm; [|done].
    apply (matches_up_to_brace _ _ _ E) in Hm. by apply bool_decide_eq_false in Hd.
  - by rewrite static_matches.
Qed.

(** ** The API's scope *)

Definition of_the_api (t : Target) : Prop :=
  match t with THealth | TMetrics | TApi _ _ => True | _ => False end.

Lemma api_scope_answers m p t : served_by api_scope m p = Some t → of_the_api t.
Proof.
  unfold api_scope. cbn [app]. rewrite served_route. case_match; [by intros [= <-]|].
  rewrite served_route. case_match; [by intros [= <-]|].
  apply (served_routes fst snd); [by apply list.Forall_forall|].
  rewrite served_scope. destruct (below "/v1" p) as [rest|]; [|by rewrite served_nil].
  rewrite <-(right_id_L [] (++) (_ <$> workspace_routes)).
  apply (served_routes fst (λ r, Str.sdrop 3 r.2)); [by apply list.Forall_forall|].
  by rewrite served_nil.
Qed.

(** No route of the API is its root. *)
Lemma api_scope_has_no_root m : served_by api_scope m "/" = None.
Proof.
  unfold api_scope. cbn [app].
  rewrite served_route, (pattern_differs "/health"), andb_false_r by done.
  rewrite served_route, (pattern_differs "/metrics"), andb_false_r by done.
  rewrite (served_routes_skip fst snd).
  2: { repeat (apply list.Forall_cons; split; [by apply pattern_differs|]). by apply list.Forall_nil. }
  rewrite served_scope. destruct (below "/v1" "/") as [rest|] eqn:E; [|by rewrite served_nil].
  by apply below_split in E.
Qed.

(** ** The application *)

Lemma find_char_app (c : ascii) (s t : string) :
  Str.find s (String c "") = None → Str.find t (String c "") = None →
  Str.find (s +:+ t) (String c "") = None.
Proof.
  induction s as [|d s IH]; [done|]. unfold Str.find; fold Str.find. cbn [String.append].
  unfold Str.starts_with. cbn [Str.strip_prefix].
  destruct (decide (c = d)) as [->|Hd].
  - rewrite !bool_decide_eq_true_2 by (rewrite ?bool_decide_eq_true_2; eauto). done.
  - rewrite (bool_decide_eq_false_2 (c = d)) by done.
    rewrite bool_decide_eq_false_2 by (by intros []).
    intros Hs%fmap_None Ht. specialize (IH Hs Ht). simpl. rewrite IH.
    unfold Str.starts_with. cbn [Str.strip_prefix].
    by rewrite (bool_decide_eq_false_2 (c = d)), bool_decide_eq_false_2 by (done || by intros []).
Qed.

Section app.
Context (listings : list (string * list Method)) (sv : ServerEnv).
Notation prefix := (sv_path_prefix sv).
Notation services := (app_services listings sv).

Hypothesis both : sv_mode sv = SM_Both.
Hypothesis no_braces : Str.find prefix "{" = None.

Definition after_auth : list Service :=
  router_services prefix SM_Both (sv_dashboard_prefix sv)
  ++ dashboard_services (sv_dashboard_prefix sv) (sv_dashboard_dist_dir sv) listings.

Lemma app_services_both : services = auth_services prefix ++ after_auth.
Proof. unfold app_services, dashboard_config. by rewrite both. Qed.

Lemma skip_auth m p :
  p ≠ prefix +:+ "/oidc/login" → p ≠ prefix +:+ "/logout" →
  served_by services m p = served_by after_auth m p.
Proof.
  intros Hp Hq. rewrite app_services_both. unfold auth_services. cbn [app].
  rewrite served_route, static_matches by by apply find_char_app.
  rewrite (bool_decide_eq_false_2 (_ = p)), andb_false_r by congruence.
  rewrite served_route, static_matches by by apply find_char_app.
  by rewrite (bool_decide_eq_false_2 (_ = p)), andb_false_r by congruence.
Qed.

(** Without a prefix the API's scope has the last word. *)
Lemma unprefixed_api m p t :
  prefix = "" → served_by services m p = Some t → t = TCallback ∨ t = TLogout ∨ of_the_api t.
Proof.
  intros Hp. rewrite app_services_both. unfold auth_services, after_auth, router_services.
  rewrite Hp. change (root_redirect _ _ _) with (@None string). cbn [app].
  rewrite served_route. case_match; [intros [= <-]; auto|].
  rewrite served_route. case_match; [intros [= <-]; auto|].
  rewrite served_scope, below_empty. intros Ht%api_scope_answers. auto.
Qed.

Lemma under_the_prefix m rest :
  Str.stake 10 rest ≠ "oidc/login" → Str.stake 6 rest ≠ "logout" → prefix ≠ "" →
  served_by services m (prefix +:+ "/" +:+ rest) = served_by api_scope m ("/" +:+ rest).
Proof.
  intros Hl Ho Hp.
  rewrite skip_auth by (intros [= ->]%app_inj_l; by (apply Hl || apply Ho)).
  unfold after_auth, router_services, root_redirect.
  rewrite (bool_decide_eq_false_2 (prefix = "")) by done. cbn [app].
  rewrite served_route, static_matches by done.
  rewrite (bool_decide_eq_false_2 ("/" = _)), andb_false_r.
  2: { intros E. apply (f_equal String.length) in E. rewrite slen_app in E. simpl in E.
       destruct prefix; [done|]. simpl in E. lia. }
  by rewrite served_scope, below_slash.
Qed.

Lemma beside_the_prefix m p :
  prefix ≠ "" → below prefix p = None → (m = GET → p ≠ "/") →
  served_by services m p
  = served_by (dashboard_services (sv_dashboard_prefix sv) (sv_dashboard_dist_dir sv) listings) m p.
Proof.
  intros Hp Hb Hm. rewrite skip_auth.
  2,3: intros ->;
    first [rewrite (below_slash prefix "oidc/login") in Hb|rewrite (below_slash prefix "logout") in Hb];
    done.
  unfold after_auth, router_services, root_redirect.
  rewrite (bool_decide_eq_false_2 (prefix = "")) by done. cbn [app].
  rewrite served_route, static_matches by done.
  replace (_ && _) with false by (destruct (decide (m = GET)) as [->|];
    [rewrite (bool_decide_eq_false_2 ("/" = p)) by (specialize (Hm eq_refl); congruence);
     by rewrite andb_false_r|by rewrite bool_decide_eq_false_2]).
  by rewrite served_scope, Hb.
Qed.

Lemma root_is_redirected :
  prefix ≠ "" →
  served_by services GET "/" = Some (TRedirect
    (if bool_decide (sv_dashboard_prefix sv = "") then prefix +:+ "/health"
     else sv_dashboard_prefix sv +:+ "/")).
Proof.
  intros Hp. rewrite skip_auth.
  2,3: intros E%(f_equal String.length); rewrite slen_app in E; simpl in E; lia.
  unfold after_auth, router_services, root_redirect.
  rewrite (bool_decide_eq_false_2 (prefix = "")) by done. cbn [app].
  by rewrite served_route, static_matches by done.
Qed.

Lemma nothing_after_logout m : served_by services m (logout_location prefix) = None.
Proof.
  unfold logout_location. destruct (decide (prefix = "")) as [E|Hp].
  - rewrite skip_auth by (rewrite E; done). unfold after_auth, router_services.
    rewrite E. change (root_redirect _ _ _) with (@None string). cbn [app].
    rewrite served_scope, below_empty. apply api_scope_has_no_root.
  - change "/" with ("/" +:+ ""). rewrite under_the_prefix by done. apply api_scope_has_no_root.
Qed.
End app.

End routing.
