(* ===== verification/ApiServer.v ===== *)
(** * The API as one function from requests to answers
    ([api/src/router.rs], with the extractors in the signatures of [handlers/*.rs])

    The table of routes, with what each route extracts from a request, in the order of its
    parameters: the caller, the workspace, the path, the query, the body. *)

From Stdlib Require Import Ascii.
From S2P Require Export Routing.
#[local] Open Scope Z_scope.

(** The state all handlers share. *)
Record AppState := {
  as_prefix : string;           (* [config.db.table_prefix] *)
  as_encryption_key : string;
  as_reaper_cron : string;
}.

(** A request as a handler meets it: the path below the prefix in decoded segments, the
    query in decoded pairs, a body that is a JSON object ([None] is any other body or none;
    arrays, which serde reads by position, are not modelled), the caller the middleware has
    found, and what the handler takes from the process: the clock, a generated key, a nonce. *)
Record Incoming `{!AuthnClaims} := {
  in_method : Method;
  in_path : list string;
  in_query : list (string * string);
  in_headers : HeaderMap;
  in_body : option (list (string * json));
  in_caller : option Caller;
  in_now : Z;
  in_key : string;
  in_nonce : list Z;
}.

(** ** Patterns *)

(** What actix makes of a route's pattern and the segments of a path: the values of the
    pattern's braces when the path fits it. *)
Class ActixPaths := path_args : string → list string → option (list string).

(** As its guide says: a segment in braces takes one segment of the path, which is not
    empty, any other segment takes itself. *)
Fixpoint fit (pattern path : list string) : option (list string) :=
  match pattern, path with
  | [], [] => Some []
  | p :: pattern, s :: path =>
      if Str.starts_with p "{" then
        if bool_decide (s = "") then None else cons s <$> fit pattern path
      else if bool_decide (p = s) then fit pattern path else None
  | _, _ => None
  end.
Definition segments_fit : ActixPaths := λ pattern, fit (Str.split "/"%char pattern).
Class ActixPathLaws (A : ActixPaths) : Prop :=
  path_args_fit pattern path : path_args pattern path = segments_fit pattern path.
#[export] Instance segments_fit_laws : ActixPathLaws segments_fit.
Proof. done. Qed.

(** The first route that fits, with the values of its braces. *)
Fixpoint route_index `{!ActixPaths} (m : Method) (path : list string)
    (routes : list (Method * string)) : option (nat * list string) :=
  match routes with
  | [] => None
  | (m', pattern) :: routes =>
      match (if bool_decide (m = m') then path_args pattern path else None) with
      | Some args => Some (0%nat, args)
      | None => (λ r, (S r.1, r.2)) <$> route_index m path routes
      end
  end.
Definition find_route `{!ActixPaths} {H} (m : Method) (path : list string)
    (table : list (Method * string * H)) : option (H * list string) :=
  r ← route_index m path table.*1;
  h ← table.*2 !! r.1;
  Some (h, r.2).

Lemma route_index_fit `{A : ActixPaths} `{!ActixPathLaws A} m path routes :
  route_index m path routes = @route_index segments_fit m path routes.
Proof.
  induction routes as [|[m' pattern] routes IH]; simpl; [done|]. by rewrite path_args_fit, IH.
Qed.

Section server.
Context `{!Chrono} `{!CronCrate} `{!Base64} `{!JsonSchemaCrate} `{!Jsonb} `{!Aes256Gcm}.
Context `{!AuthnClaims} `{!ActixPaths}.
(** The message of actix for a body it cannot read. *)
Context (payload_error : Incoming → string).
Context (app : AppState) (rq : Incoming).

Notation Answer := (SE Session HttpResponse HttpResponse).

(** [web::Json<T>] *)
Definition extract_json {A} (dec : list (string * json) → res string A) : res HttpResponse A :=
  match dec <$> in_body rq with
  | Some (Ok a) => Ok a
  | Some (Panic w) => Panic w
  | _ => Err (json_error_handler (payload_error rq) (in_headers rq))
  end.

(** [web::Query<PaginationParams>]: the answer to a query it cannot read is text. *)
Definition extract_page : res HttpResponse PaginationParams :=
  ok_or (PaginationParams_from_pairs (in_query rq)) {| resp_status := 400; resp_body := None |}.

Definition run (m : API HttpResponse) : Answer := se_map_err error_response m.

Definition with_body {A} (dec : list (string * json) → res string A) (h : A → API HttpResponse) :
    Answer :=
  body <-- se_lift (extract_json dec); run (h body).
Definition with_page (h : PaginationParams → API HttpResponse) : Answer :=
  params <-- se_lift extract_page; run (h params).

Notation prefix := (as_prefix app).

(** What a route does with the values of its braces. *)
Notation Handler := (list string → WorkspaceContext → Answer).
Notation arg args := (hd EmptyString args).

(** The five routes of a named definition. *)
Definition named_routes {C U} (base : string) (dec_c : list (string * json) → res string C)
    (dec_u : list (string * json) → res string U)
    (create : WorkspaceContext → C → API HttpResponse)
    (list_ : WorkspaceContext → PaginationParams → API HttpResponse)
    (get_ : WorkspaceContext → string → API HttpResponse)
    (update : WorkspaceContext → string → U → API HttpResponse)
    (del : WorkspaceContext → string → API HttpResponse) : list (Method * string * Handler) := [
  (POST, base, λ _ ws, with_body dec_c (create ws));
  (GET, base, λ _ ws, with_page (list_ ws));
  (GET, base +:+ "/{name}", λ args ws, run (get_ ws (arg args)));
  (PUT, base +:+ "/{name}", λ args ws, with_body dec_u (update ws (arg args)));
  (DELETE, base +:+ "/{name}", λ args ws, run (del ws (arg args)))].

Definition workspace_table : list (Method * string * Handler) :=
  let key := as_encryption_key app in
  named_routes "/v1/payload-specs" CreatePayloadSpec_from_fields UpdatePayloadSpec_from_fields
    (payload_specs_create_handler prefix) (payload_specs_list_handler prefix)
    (payload_specs_get_handler prefix) (payload_specs_update_handler prefix)
    (payload_specs_delete_handler prefix)
  ++ named_routes "/v1/configs" CreateConfig_from_fields UpdateConfig_from_fields
    (configs_create_handler prefix) (configs_list_handler prefix)
    (configs_get_handler prefix) (configs_update_handler prefix)
    (configs_delete_handler prefix)
  ++ named_routes "/v1/secrets" CreateSecret_from_fields UpdateSecret_from_fields
    (λ ws, secrets_create_handler prefix ws key (in_nonce rq)) (secrets_list_handler prefix)
    (secrets_get_handler prefix) (λ ws, secrets_update_handler prefix ws key (in_nonce rq))
    (secrets_delete_handler prefix)
  ++ named_routes "/v1/endpoints" CreateEndpoint_from_fields UpdateEndpoint_from_fields
    (endpoints_create_handler prefix) (endpoints_list_handler prefix)
    (endpoints_get_handler prefix) (endpoints_update_handler prefix)
    (endpoints_delete_handler prefix)
  ++ [
  (POST, "/v1/jobs", λ _ ws, with_body CreateJob_from_fields
     (jobs_create prefix ws (in_now rq) (in_key rq)));
  (GET, "/v1/jobs", λ _ ws, params <-- se_lift extract_page;
     run (filters <-- se_lift (parse_job_filters (in_query rq));
          jobs_list_handler prefix ws params filters));
  (GET, "/v1/jobs/{job_id}", λ args ws, run (jobs_get_handler prefix ws (arg args)));
  (PUT, "/v1/jobs/{job_id}", λ args ws, with_body UpdateJob_from_fields
     (jobs_update prefix ws (in_now rq) (arg args)));
  (POST, "/v1/jobs/{job_id}/cancel", λ args ws, run (jobs_cancel_handler prefix ws (arg args)));
  (GET, "/v1/jobs/{job_id}/status", λ args ws, run (jobs_status_handler prefix ws (arg args)));
  (GET, "/v1/jobs/{job_id}/versions", λ args ws, run (jobs_versions_handler prefix ws (arg args)));
  (GET, "/v1/jobs/{job_id}/executions", λ args ws,
     with_page (jobs_list_executions_handler prefix ws (arg args)));
  (GET, "/v1/executions/{execution_id}", λ args ws,
     run (executions_get_handler prefix ws (arg args)));
  (POST, "/v1/executions/{execution_id}/cancel", λ args ws,
     run (executions_cancel_handler prefix ws (arg args)));
  (GET, "/v1/executions/{execution_id}/attempts", λ args ws,
     run (list_attempts_handler prefix ws (arg args)));
  (GET, "/v1/executions/{execution_id}/logs", λ args ws,
     run (list_logs_handler prefix ws (arg args)))].

(** The management routes need a caller but no workspace. *)
Definition management_table : list (Method * string * (list string → Answer)) := [
  (POST, "/v1/orgs", λ _, with_body CreateOrganization_from_fields organizations_create_handler);
  (GET, "/v1/orgs", λ _, run organizations_list_handler);
  (GET, "/v1/orgs/{org_id}", λ args, run (organizations_get_handler (arg args)));
  (PUT, "/v1/orgs/{org_id}", λ args, with_body UpdateOrganization_from_fields
     (organizations_update_handler (arg args)));
  (POST, "/v1/orgs/{org_id}/workspaces", λ args, with_body CreateWorkspace_from_fields
     (workspaces_create_handler (as_reaper_cron app) (arg args)));
  (GET, "/v1/orgs/{org_id}/workspaces", λ args, run (workspaces_list_handler (arg args)));
  (GET, "/v1/orgs/{org_id}/workspaces/{workspace_id}", λ args,
     run (workspaces_get_handler (arg args) (arg (tail args))))].

(** Below the prefix.  [/health] and [/metrics] answer text; what no route takes is 404. *)
Definition api_serve : Answer :=
  match find_route (in_method rq) (in_path rq) [(GET, "/health", tt); (GET, "/metrics", tt)] with
  | Some _ => se_ret {| resp_status := 200; resp_body := None |}
  | None =>
      match find_route (in_method rq) (in_path rq) management_table with
      | Some (h, args) => authenticated (in_caller rq) (h args)
      | None =>
          match find_route (in_method rq) (in_path rq) workspace_table with
          | Some (h, args) =>
              authenticated (in_caller rq) (
                ws <-- Workspace_from None (in_headers rq !! "x-org-id")
                         (in_headers rq !! "x-workspace-id");
                h args ws)
          | None => se_err {| resp_status := 404; resp_body := None |}
          end
      end
  end.
End server.

(** The tables are those of [Auth]. *)
Lemma workspace_table_routes `{!Chrono} `{!CronCrate} `{!Base64} `{!JsonSchemaCrate} `{!Jsonb}
    `{!Aes256Gcm} `{!AuthnClaims} payload_error app rq :
  (workspace_table payload_error app rq).*1 = workspace_routes.
Proof. reflexivity. Qed.
Lemma management_table_routes `{!Chrono} `{!CronCrate} `{!Base64} `{!JsonSchemaCrate} `{!Jsonb}
    `{!AuthnClaims} payload_error app rq :
  (management_table payload_error app rq).*1 = management_routes.
Proof. reflexivity. Qed.

(** ** Answering a request *)

Section answers.
Context `{!Chrono} `{!CronCrate} `{!Base64} `{!JsonSchemaCrate} `{!Jsonb} `{!Aes256Gcm}.
Context `{!AuthnClaims} `{!ActixPaths}.
Context (payload_error : Incoming → string) (app : AppState).
Implicit Types rq : Incoming.

Definition health_routes : list (Method * string) := [(GET, "/health"); (GET, "/metrics")].

Lemma find_route_none {A} m path (table : list (Method * string * A)) :
  route_index m path table.*1 = None → find_route m path table = None.
Proof. unfold find_route. by intros ->. Qed.

Lemma serve_workspace rq i args h :
  route_index (in_method rq) (in_path rq) health_routes = None →
  route_index (in_method rq) (in_path rq) management_routes = None →
  route_index (in_method rq) (in_path rq) workspace_routes = Some (i, args) →
  (workspace_table payload_error app rq).*2 !! i = Some h →
  api_serve payload_error app rq
  = authenticated (in_caller rq) (
      ws <-- Workspace_from None (in_headers rq !! "x-org-id") (in_headers rq !! "x-workspace-id");
      h args ws).
Proof.
  intros Hhealth Hman Hwork Hi. unfold api_serve. rewrite !find_route_none by done.
  unfold find_route. rewrite workspace_table_routes, Hwork. cbn [mbind option_bind fst snd].
  by rewrite Hi.
Qed.
End answers.
