(* ===== verification/Modes.v ===== *)
(** * The two deployment modes

    A caller of [InvokrClient] ([worker/src/client.rs]) has either the library client, on
    its own database, or the service client, whose requests the API answers.  [Client] is
    the trait, [Contract] what its one-off jobs promise; both clients keep it. *)

From Stdlib Require Import Ascii.
From S2P Require Export Journey ApiServer.
#[local] Open Scope Z_scope.

(** ** The body of a new job *)

Lemma as_i64_int z : in_i64 z → Json.as_i64 (JInt z) = Some z.
Proof. intros Hz. unfold Json.as_i64. by rewrite bool_decide_eq_true_2. Qed.

(** A timestamp field as the client writes it. *)
Lemma deserialize_written `{!Chrono} o :
  (∀ t, ∃ s, ts_json t = JString s ∧ Str.trim s = s ∧ s ≠ "" ∧ parse_from_rfc3339 s = Some t) →
  deserialize_opt (Json.opt ts_json o) = Ok o.
Proof.
  intros Hts. destruct o as [t|]; [|done]. destruct (Hts t) as (s & E & Htrim & Hne & Hp).
  cbn [Json.opt]. rewrite E. cbn. rewrite Htrim. rewrite bool_decide_eq_false_2 by done.
  unfold flexible_parse. by rewrite Hp.
Qed.

(** Looks a field up in the client's body. *)
Ltac field_tac fields trigger n key :=
  unfold fields, create_job_fields; destruct trigger, (bool_decide (0 < n)), key;
  cbn; literals; done.

(** [CreateJob]'s decoder, on the body the service client writes. *)
Lemma client_body_read `{!Chrono} `{!CronCrate} endpoint input n trigger key :
  (∀ t, ∃ s, ts_json t = JString s ∧ Str.trim s = s ∧ s ≠ "" ∧ parse_from_rfc3339 s = Some t) →
  in_i64 n →
  match trigger with
  | Cron expression _ _ _ _ => is_ok (PgCronExpr_try_from expression) = true
  | _ => True
  end →
  ∃ fs, Json.obj (create_job_fields endpoint input n trigger key) = JObject fs
    ∧ CreateJob_from_fields fs = Ok {|
        cj_endpoint := endpoint;
        cj_trigger := (trigger_fields trigger).1;
        cj_idempotency_key := key;
        cj_input := if Json.is_null input then None else Some input;
        cj_max_attempts := if bool_decide (0 < n) then Some n else None;
        cj_run_at := match trigger with Delayed t => Some t | _ => None end;
        cj_cron := match trigger with Cron x _ _ _ _ => Some {| cron_str := x |} | _ => None end;
        cj_timezone := match trigger with Cron _ tz _ _ _ => Some tz | _ => None end;
        cj_starts_at := match trigger with Cron _ _ s _ _ => s | _ => None end;
        cj_ends_at := match trigger with Cron _ _ _ e _ => e | _ => None end |}.
Proof.
  intros Hts Hn Hcron. eexists. split; [reflexivity|].
  set (fields := create_job_fields _ _ _ _ _). set (fs := foldl _ _ fields).
  assert (∀ k, Json.assoc k fs = Json.assoc k (reverse fields)) as Hget.
  { intros k. apply (get_obj fields k). }
  assert (∀ o, deserialize_opt (Json.opt ts_json o) = Ok o) as Hde
    by (intros o; by apply deserialize_written).
  unfold CreateJob_from_fields, opt_field, req_string, datetime_field. rewrite !Hget. clear Hget fs.
  assert (Json.assoc "endpoint" (reverse fields) = Some (JString endpoint)) as -> by field_tac fields trigger n key.
  assert (Json.assoc "trigger" (reverse fields) = Some (JString (trigger_fields trigger).1)) as ->
    by field_tac fields trigger n key.
  assert (Json.assoc "idempotency_key" (reverse fields) = JString <$> key) as ->
    by field_tac fields trigger n key.
  assert (Json.assoc "input" (reverse fields) = Some input) as -> by field_tac fields trigger n key.
  assert (Json.assoc "max_attempts" (reverse fields)
          = if bool_decide (0 < n) then Some (JInt n) else None) as ->
    by field_tac fields trigger n key.
  assert (Json.assoc "run_at" (reverse fields)
          = match trigger with Delayed t => Some (Json.opt ts_json (Some t)) | _ => None end) as ->
    by field_tac fields trigger n key.
  assert (Json.assoc "cron" (reverse fields)
          = match trigger with Cron x _ _ _ _ => Some (JString x) | _ => None end) as ->
    by field_tac fields trigger n key.
  assert (Json.assoc "timezone" (reverse fields)
          = match trigger with Cron _ tz _ _ _ => Some (JString tz) | _ => None end) as ->
    by field_tac fields trigger n key.
  assert (Json.assoc "starts_at" (reverse fields)
          = match trigger with Cron _ _ s _ _ => Some (Json.opt ts_json s) | _ => None end) as ->
    by field_tac fields trigger n key.
  assert (Json.assoc "ends_at" (reverse fields)
          = match trigger with Cron _ _ _ e _ => Some (Json.opt ts_json e) | _ => None end) as ->
    by field_tac fields trigger n key.
  clear fields. unfold de_i64.
  assert (Json.as_i64 (JInt n) = Some n) as Hi by (by apply as_i64_int).
  assert (∀ x, match trigger with Cron y _ _ _ _ => x = y | _ => False end →
    de_cron (JString x) = Ok {| cron_str := x |}) as Hx.
  { intros x Hx. destruct trigger as [| |y]; try done. subst y. unfold de_cron. cbn.
    destruct (PgCronExpr_try_from x) as [ce| |] eqn:Ex; try done.
    apply PgCronExpr_try_from_str in Ex. destruct ce. simpl in Ex. by subst. }
  destruct trigger as [|t|x tz sa ea fr]; rewrite ?Hde, ?(Hx x eq_refl);
    destruct (bool_decide (0 < n)); rewrite ?Hi; by destruct key, input.
Qed.

(** ** Who draws what *)

(** What a process draws for one operation or request: the clock, a key, a nonce. *)
Record Draw := { dr_now : Z; dr_key : string; dr_nonce : list Z }.

(** A database session -- the caller's in library mode, the API's in service mode -- and the
    draws to come. *)
Record Deployed := { dp_session : Session; dp_draws : list Draw }.

Definition no_draw : Draw := {| dr_now := 0; dr_key := ""; dr_nonce := [] |}.
Definition next_draw (d : Deployed) : Draw := hd no_draw (dp_draws d).
Definition drawn (s : Session) (d : Deployed) : Deployed :=
  {| dp_session := s; dp_draws := tail (dp_draws d) |}.
Notation dstore d := (ss_store (dp_session d)).

(** ** The trait *)

Notation CL := (SE Deployed ClientError).

Record Client := {
  cl_upsert_secret : string → string → string → CL unit;
  cl_delete_secret : string → string → CL unit;
  cl_register_endpoint : string → string → string → json → option json → CL unit;
  cl_delete_endpoint : string → string → CL unit;
  cl_create_job : string → string → json → Z → JobTrigger → option string → CL string;
  cl_provision_workspace : string → CL unit;
  cl_cancel_job : string → string → CL unit;
  cl_get_execution : string → string → CL (option Execution);
}.

(** ** Library mode *)

Section library.
Context `{!Aes256Gcm} (ctx : PipelineContext).

Definition in_process {A} (m : Draw → SE Session ClientError A) : CL A := λ d,
  let '(r, s) := m (next_draw d) (dp_session d) in (r, drawn s d).

Definition library_client : Client := {|
  cl_upsert_secret schema name plaintext :=
    in_process (λ w, lib_upsert_secret ctx (dr_nonce w) schema name plaintext);
  cl_delete_secret schema name := in_process (λ _, lib_delete_secret ctx schema name);
  cl_register_endpoint schema name endpoint_type spec retry_policy :=
    in_process (λ _, lib_register_endpoint ctx schema name endpoint_type spec retry_policy);
  cl_delete_endpoint schema name := in_process (λ _, lib_delete_endpoint ctx schema name);
  cl_create_job schema endpoint input max_attempts trigger key :=
    in_process (λ _, lib_create_job ctx schema endpoint input max_attempts trigger key);
  cl_provision_workspace schema := in_process (λ _, lib_provision_workspace ctx schema);
  cl_cancel_job schema job_id := in_process (λ _, lib_cancel_job ctx schema job_id);
  cl_get_execution schema id := in_process (λ _, lib_get_execution ctx schema id) |}.
End library.

(** ** Service mode *)

Section service.
Context `{!Chrono} `{!CronCrate} `{!Base64} `{!JsonSchemaCrate} `{!Jsonb} `{!Aes256Gcm}.
Context `{!AuthnClaims} `{!SerdeJson} `{!Reqwest} `{paths : ActixPaths} `{!ActixPathLaws paths}.
(** The middleware's verdict on the headers, and actix's message for a bad body. *)
Context (who : HeaderMap → option Caller) (payload_error : Incoming → string).
Context (app : AppState) (c : HttpClient).

Definition method_of (m : string) : Method :=
  if bool_decide (m = "POST") then POST
  else if bool_decide (m = "PUT") then PUT
  else if bool_decide (m = "DELETE") then DELETE else GET.

(** Header names are compared in lower case. *)
Definition headers_of (rq : ApiRequest) : HeaderMap :=
  list_to_map ((λ kv, (Str.to_ascii_lowercase kv.1, kv.2)) <$> ar_headers rq).

(** The API is mounted where the client's base URL points.  Segments go through reqwest's
    and actix's percent encodings, which undo each other on the names met here. *)
Definition incoming (w : Draw) (rq : ApiRequest) : Incoming := {|
  in_method := method_of (ar_method rq);
  in_path := Str.split "/"%char
    (default "" (Str.strip_prefix (Str.trim_end_matches "/"%char (hc_base_url c)) (ar_url rq)));
  in_query := [];
  in_headers := headers_of rq;
  in_body := ar_json rq ≫= Json.as_object;
  in_caller := who (headers_of rq);
  in_now := dr_now w; in_key := dr_key w; in_nonce := dr_nonce w |}.

Definition text_of (r : HttpResponse) : HttpAnswer :=
  HttpResp (resp_status r) (default "" (json_to_string <$> resp_body r)).

(** A panic of a handler closes the connection. *)
Definition answer_request (rq : ApiRequest) (d : Deployed) : HttpAnswer * Deployed :=
  match api_serve payload_error app (incoming (next_draw d) rq) (dp_session d) with
  | (Ok r, s) | (Err r, s) => (text_of r, drawn s d)
  | (Panic _, s) => (HttpErr false false "connection closed", drawn s d)
  end.

(** A client's function of its answers, run against the API: each request it sends beyond
    the answers it has is answered, and the function starts again with one answer more.  No
    function of the client sends more than two. *)
Fixpoint converse {A} (fuel : nat) (m : SE Wire ClientError A) (answers : list HttpAnswer) : CL A :=
  λ d,
  match fuel with
  | O => (Panic 9, d)
  | S fuel =>
      let '(r, w) := m {| wr_sent := []; wr_answers := answers |} in
      match wr_sent w !! length answers with
      | None => (r, d)
      | Some rq => let '(a, d') := answer_request rq d in converse fuel m (answers ++ [a]) d'
      end
  end.
Definition over_http {A} (m : SE Wire ClientError A) : CL A := converse 3 m [].

Definition service_client : Client := {|
  cl_upsert_secret schema name plaintext := over_http (http_upsert_secret c schema name plaintext);
  cl_delete_secret schema name := over_http (http_delete_secret c schema name);
  cl_register_endpoint schema name endpoint_type spec retry_policy :=
    over_http (http_register_endpoint c schema name endpoint_type spec retry_policy);
  cl_delete_endpoint schema name := over_http (http_delete_endpoint c schema name);
  cl_create_job schema endpoint input max_attempts trigger key :=
    over_http (http_create_job c schema endpoint input max_attempts trigger key);
  cl_provision_workspace schema := over_http (http_provision_workspace c schema);
  cl_cancel_job schema job_id := over_http (http_cancel_job c schema job_id);
  cl_get_execution schema id := over_http (http_get_execution c schema id) |}.

(** ** Routing the client's requests *)

Definition segment_ok (s : string) : Prop := Str.split "/"%char s = [s] ∧ s ≠ "".

Lemma route_jobs : route_index POST [""; "v1"; "jobs"] workspace_routes = Some (20%nat, []).
Proof. rewrite route_index_fit. reflexivity. Qed.
Lemma route_cancel id : id ≠ "" →
  route_index POST [""; "v1"; "jobs"; id; "cancel"] workspace_routes = Some (24%nat, [id]).
Proof. rewrite route_index_fit. destruct id as [|a id]; [done|]. intros _. vm_compute. reflexivity. Qed.
Lemma route_execution id : id ≠ "" →
  route_index GET [""; "v1"; "executions"; id] workspace_routes = Some (28%nat, [id]).
Proof. rewrite route_index_fit. destruct id as [|a id]; [done|]. intros _. vm_compute. reflexivity. Qed.

(** ** One request, one answer *)

(** What the client makes of an answer. *)
Definition on_answer {A} (g : Z * string → res ClientError A) (a : HttpAnswer) : res ClientError A :=
  match a with
  | HttpResp status body => g (status, body)
  | HttpErr _ _ text => Err (CE_Msg text)
  end.

Lemma over_http_one {A} mth url hs b (k : Z * string → SE Wire ClientError A) g d :
  (∀ resp w, k resp w = (g resp, w)) →
  over_http (resp <-- send mth url hs b; k resp) d
  = let '(a, d') := answer_request
        {| ar_method := mth; ar_url := url; ar_headers := hs; ar_json := b |} d in
    (on_answer g a, d').
Proof.
  intros Hk. unfold over_http. cbn [converse]. unfold se_bind at 1, send at 1. cbn.
  destruct (answer_request _ d) as [a d']. unfold se_bind, send. cbn.
  destruct a as [st body|t1 t2 t]; cbn; [by rewrite Hk|done].
Qed.
End service.

(** ** Stimuli are only used up *)

Definition env_drops : relation Session := λ s s', ss_env s' `suffix_of` ss_env s.
#[global] Instance env_drops_preorder : PreOrder env_drops.
Proof. split; unfold env_drops; [intros s; reflexivity|intros s1 s2 s3 H1 H2; by etrans]. Qed.

Lemma drops_advance s : env_drops s (advance s).
Proof.
  unfold env_drops. cbn. destruct (ss_env s) as [|st env]; [reflexivity|]. by exists [st].
Qed.
Lemma drops_stmt {A} (qy : Query A) : preserves env_drops (stmt qy).
Proof.
  intros s. unfold stmt. destruct (ss_failed s); [reflexivity|]. pose proof (drops_advance s).
  destruct (stim_fault _); [done|]. by destruct (qy _ _ _ _) as [[a σ]| |].
Qed.
Lemma drops_connection schema : preserves env_drops (scoped_connection schema).
Proof.
  unfold scoped_connection. destruct (validate_schema_name _); [apply drops_stmt|apply preserves_panic, _].
Qed.
Lemma drops_transaction schema : preserves env_drops (scoped_transaction schema).
Proof.
  unfold scoped_transaction. destruct (validate_schema_name _); [|apply preserves_panic, _].
  intros s. pose proof (drops_advance s). by destruct (stim_fault _).
Qed.
Lemma drops_commit : preserves env_drops commit.
Proof.
  intros s. unfold commit. pose proof (drops_advance s).
  destruct (ss_failed _); [done|]. by destruct (stim_fault _).
Qed.
Lemma drops_in_tx {E A} (m : SE Session E A) : preserves env_drops m → preserves env_drops (in_tx m).
Proof.
  intros Hm s. specialize (Hm s). unfold in_tx, drop_tx. destruct (m s) as [r s']. cbn in *.
  by destruct (ss_begin s').
Qed.
Lemma drops_with_tx {A} ws (m : API A) : preserves env_drops m → preserves env_drops (with_tx ws m).
Proof.
  intros Hm. unfold with_tx. apply preserves_bind; [apply _|apply preserves_map_err, drops_transaction|].
  intros _. by apply drops_in_tx.
Qed.

(** Walks through a handler. *)
Ltac unfold_head t := match t with ?f _ => unfold_head f | ?f => unfold f end.
Ltac drops_step :=
  lazymatch goal with
  | |- preserves _ (se_bind _ _) => apply preserves_bind; [apply _| |intros ?]
  | |- preserves _ (with_tx _ _) => apply drops_with_tx
  | |- preserves _ (q _) => apply preserves_map_err
  | |- preserves _ (lq _) => apply preserves_map_err
  | |- preserves _ (se_map_err _ _) => apply preserves_map_err
  | |- preserves _ (se_when _ _) => apply preserves_when; [apply _|]
  | |- preserves _ (match ?x with _ => _ end) => destruct x
  | |- preserves _ (stmt _) => apply drops_stmt
  | |- preserves _ (scoped_connection _) => apply drops_connection
  | |- preserves _ commit => apply drops_commit
  | |- preserves _ (Ok200 _) => apply preserves_ret, _
  | |- preserves _ ?m => first [solve [eauto 4 with preserves typeclass_instances] | unfold_head m]
  end.
Ltac drops_tac := cbv zeta; repeat (drops_step; cbv zeta).

Section drops.
Context `{!Chrono} `{!CronCrate} `{!Base64} `{!JsonSchemaCrate}.
Lemma drops_jobs_create prefix ws now key body : preserves env_drops (jobs_create prefix ws now key body).
Proof. drops_tac. Qed.
Lemma drops_jobs_cancel prefix ws id : preserves env_drops (jobs_cancel_handler prefix ws id).
Proof. drops_tac. Qed.
Lemma drops_executions_get prefix ws id : preserves env_drops (executions_get_handler prefix ws id).
Proof. drops_tac. Qed.
End drops.

Lemma alone_drops s s' : alone s → env_drops s s' → ss_begin s' = None → alone s'.
Proof.
  intros [_ Ho] [l Hl] Hb. split; [done|]. rewrite Hl in Ho. by apply list.Forall_app in Ho as [_ ?].
Qed.

(** ** What a client promises about one-off jobs *)

(** The job a caller asks for. *)
Definition asked_job (endpoint : string) (input : json) (max_attempts : Z) (trigger : JobTrigger)
    (key : string) : CreateJob := {|
  cj_endpoint := endpoint;
  cj_trigger := match trigger with
                | Immediate => "IMMEDIATE" | Delayed _ => "DELAYED" | Cron _ _ _ _ _ => "CRON"
                end;
  cj_idempotency_key := Some key; cj_input := Some input; cj_max_attempts := Some max_attempts;
  cj_run_at := match trigger with Delayed run_at => Some run_at | _ => None end;
  cj_cron := None; cj_timezone := None; cj_starts_at := None; cj_ends_at := None |}.

(** The new rows, and what the caller is given: the execution's id. *)
Definition creates (body : CreateJob) (key : string) (k : string * string) (t : Tenant)
    (σ σ' : Store) (id : string) : Prop :=
  ∃ ep job e, t_endpoints t !! cj_endpoint body = Some ep ∧ created body ep key job e
    ∧ σ' = set_tenant k (with_created job e t) σ ∧ id = e_execution_id e.

(** The key was used: nothing is stored, the caller is given an execution there is. *)
Definition replays (body : CreateJob) (key : string) (t : Tenant) (σ σ' : Store) (id : string) : Prop :=
  σ' = σ ∧ ∃ job e, job ∈ (map_to_list (t_jobs t)).*2 ∧ j_endpoint job = cj_endpoint body
    ∧ j_idempotency_key job = Some key ∧ e ∈ (map_to_list (t_executions t)).*2
    ∧ e_job_id e = j_job_id job ∧ id = e_execution_id e.

(** JSON null is no value. *)
Definition not_null (o : option json) : option json :=
  v ← o; if Json.is_null v then None else Some v.

(** The answers of the API leave the key out, and do not tell null from absent. *)
Definition as_told (e : Execution) : Execution := {|
  e_execution_id := e_execution_id e; e_job_id := e_job_id e; e_endpoint := e_endpoint e;
  e_endpoint_type := e_endpoint_type e; e_idempotency_key := None; e_status := e_status e;
  e_input := not_null (e_input e); e_output := not_null (e_output e);
  e_attempt_count := e_attempt_count e;
  e_max_attempts := e_max_attempts e; e_worker_id := e_worker_id e; e_run_at := e_run_at e;
  e_started_at := e_started_at e; e_completed_at := e_completed_at e;
  e_duration_ms := e_duration_ms e; e_created_at := e_created_at e |}.

Lemma not_null_twice o : not_null (not_null o) = not_null o.
Proof. by destruct o as [[]|]. Qed.
Lemma as_told_twice (o : option Execution) : as_told <$> (as_told <$> o) = as_told <$> o.
Proof. destruct o as [e|]; [|done]. simpl. unfold as_told at 1. simpl. by rewrite !not_null_twice. Qed.

(** [at_ σ name k]: the caller's name of a workspace means the schema and prefix [k].  The
    laws are about calls that succeed while nobody else writes. *)
Record Contract (c : Client) (at_ : Store → string → string * string → Prop) : Prop := {
  ct_create name endpoint input n trigger key d id d' k t :
    cl_create_job c name endpoint input n trigger (Some key) d = (Ok id, d') →
    is_cron trigger = false → input ≠ JNull → 0 < n ≤ i64_max →
    alone (dp_session d) → at_ (dstore d) name k → st_tenants (dstore d) !! k = Some t →
    let body := asked_job endpoint input n trigger key in
    alone (dp_session d') ∧ at_ (dstore d') name k
    ∧ (creates body key k t (dstore d) (dstore d') id ∨ replays body key t (dstore d) (dstore d') id);
  ct_get name id d o d' k t :
    cl_get_execution c name id d = (Ok o, d') → segment_ok id →
    alone (dp_session d) → at_ (dstore d) name k → st_tenants (dstore d) !! k = Some t →
    alone (dp_session d') ∧ dstore d' = dstore d
    ∧ as_told <$> o = as_told <$> t_executions t !! id;
  ct_cancel name id d d' k t job :
    cl_cancel_job c name id d = (Ok tt, d') → segment_ok id →
    alone (dp_session d) → at_ (dstore d) name k → st_tenants (dstore d) !! k = Some t →
    t_jobs t !! id = Some job → j_trigger_type job ≠ "CRON" →
    alone (dp_session d') ∧ at_ (dstore d') name k
    ∧ ∃ now job', j_status job' ≠ "ACTIVE"
        ∧ dstore d' = set_tenant k (set_jobs (<[id := job']> (t_jobs t))
            (set_executions (pending_cancelled now id (t_executions t)) t)) (dstore d);
}.
