(* ===== verification/ModeLaws.v ===== *)
(** * Both clients keep the contract

    [library_contract] and [service_contract] for the two implementations of [Modes], and
    what a caller that knows only the contract sees ([created_then_cancelled]). *)

From Stdlib Require Import Ascii.
From S2P Require Export Modes.
#[local] Open Scope Z_scope.

(** ** The library keeps the contract *)

Lemma alone_tstmt {A} db (qy : TQuery A) s a s' :
  tstmt db qy s = (Ok a, s') → alone s →
  alone s' ∧ ∃ st now t t', st_tenants (ss_store s) !! (db_schema db, db_prefix db) = Some t
    ∧ qy st now (ss_locked s) t = Ok (a, t')
    ∧ ss_store s' = set_tenant (db_schema db, db_prefix db) t' (ss_store s).
Proof.
  intros E Ha. destruct (alone_stmt _ _ _ _ E Ha) as (Ha' & st & now & Hq). split; [done|].
  unfold tquery in Hq. destruct (st_tenants _ !! _) as [t|]; [|done].
  destruct (qy st now _ t) as [[a' t']| |] eqn:Eq; [|done..].
  injection Hq as <- Hs. exists st, now, t, t'. by rewrite <-Hs.
Qed.

Lemma job_stmt_alone db mk s j s' t :
  job_stmt db mk s = (Ok j, s') → alone s →
  st_tenants (ss_store s) !! (db_schema db, db_prefix db) = Some t →
  alone s' ∧ ∃ id now, j = mk id now
    ∧ ss_store s' = set_tenant (db_schema db, db_prefix db)
                      (set_jobs (<[j_job_id j := j]> (t_jobs t)) t) (ss_store s).
Proof.
  intros E Ha Ht. destruct (alone_tstmt _ _ _ _ _ E Ha) as (Ha' & st & now & t1 & t' & Ht1 & Hq & Hs).
  simplify_eq. cbv zeta in Hq. destruct (insert_job db _ t) as [t2| |] eqn:Ei; [|done..].
  injection Hq as <- <-. apply insert_job_ok in Ei as [_ ->]. split; [done|]. by exists (stim_uuid st), now.
Qed.
Lemma execution_stmt_alone db mk s e s' t :
  execution_stmt db mk s = (Ok e, s') → alone s →
  st_tenants (ss_store s) !! (db_schema db, db_prefix db) = Some t →
  alone s' ∧ ∃ id now, e = mk id now
    ∧ ss_store s' = set_tenant (db_schema db, db_prefix db)
                      (set_executions (<[e_execution_id e := e]> (t_executions t)) t) (ss_store s).
Proof.
  intros E Ha Ht. destruct (alone_tstmt _ _ _ _ _ E Ha) as (Ha' & st & now & t1 & t' & Ht1 & Hq & Hs).
  simplify_eq. cbv zeta in Hq. destruct (insert_execution db _ t) as [t2| |] eqn:Ei; [|done..].
  injection Hq as <- <-. apply insert_execution_ok in Ei as [_ ->]. split; [done|]. by exists (stim_uuid st), now.
Qed.

(** The two INSERTs, each a transaction of its own. *)
Lemma create_alone db mk_job mk_exec s r s' t :
  (job <-- job_stmt db mk_job;
   ex <-- execution_stmt db (mk_exec job);
   se_ret {| cr_job := job; cr_execution_id := e_execution_id ex;
             cr_execution_status := e_status ex; cr_execution_created_at := e_created_at ex |}) s
    = (Ok r, s') → alone s →
  st_tenants (ss_store s) !! (db_schema db, db_prefix db) = Some t →
  alone s' ∧ ∃ id now x now', let job := mk_job id now in let e := mk_exec job x now' in
    cr_job r = job ∧ cr_execution_id r = e_execution_id e
    ∧ ss_store s' = set_tenant (db_schema db, db_prefix db) (with_created job e t) (ss_store s).
Proof.
  intros E Ha Ht. apply se_bind_inv in E as (job & s1 & E1 & E).
  destruct (job_stmt_alone _ _ _ _ _ _ E1 Ha Ht) as (Ha1 & id & now & -> & Hs1).
  apply se_bind_inv in E as (e & s2 & E2 & [= <- <-]).
  destruct (execution_stmt_alone _ _ _ _ _ (set_jobs (<[j_job_id (mk_job id now) := mk_job id now]> (t_jobs t)) t)
    E2 Ha1) as (Ha2 & x & now' & -> & Hs2).
  { rewrite Hs1. apply lookup_insert_eq. }
  split; [done|]. exists id, now, x, now'. split_and!; [done..|].
  rewrite Hs2, Hs1. unfold set_tenant. simpl. by rewrite insert_insert_eq.
Qed.

Section library_contract.
Context `{!Aes256Gcm} (ctx : PipelineContext).
Notation prefix := (pc_table_prefix ctx).

Definition library_at (_ : Store) (name : string) (k : string * string) : Prop := k = (name, prefix).

Lemma in_process_inv {A} (m : Draw → SE Session ClientError A) d r d' :
  in_process m d = (r, d') → m (next_draw d) (dp_session d) = (r, dp_session d').
Proof. unfold in_process. destruct (m _ _). by intros [= <- <-]. Qed.

Lemma library_create name endpoint input n trigger key s id s' t :
  lib_create_job ctx name endpoint input n trigger (Some key) s = (Ok id, s') →
  is_cron trigger = false → alone s → st_tenants (ss_store s) !! (name, prefix) = Some t →
  0 < n → alone s' ∧ creates (asked_job endpoint input n trigger key) key (name, prefix) t
    (ss_store s) (ss_store s') id.
Proof.
  intros E Hc Ha Ht Hn. unfold lib_create_job in E. cbv zeta in E.
  apply se_bind_inv in E as ([] & s1 & E1%map_err_ok & E).
  destruct (alone_connection _ _ _ E1 Ha) as (_ & Ha1 & Hs1).
  apply se_bind_inv in E as (found & s2 & E2%map_err_ok & E).
  destruct (alone_read _ _ _ _ _ E2 Ha1) as (Ha2 & Hs2 & t2 & Ht2 & ->).
  rewrite Hs1 in Ht2. cbn [db_schema db_prefix] in Ht2. simplify_eq.
  apply se_bind_inv in E as (ep & s3 & E3 & E). apply ok_or_ok in E3 as [Hep ->].
  assert (st_tenants (ss_store s2) !! (name, prefix) = Some t) as Ht2 by by rewrite Hs2, Hs1.
  rewrite Hs1 in Hs2. rewrite <-Hs2.
  destruct trigger as [|run_at|]; [| |done];
    apply se_bind_inv in E as (r & s4 & E4%map_err_ok & [= <- <-]);
    destruct (create_alone _ _ _ _ _ _ _ E4 Ha2 Ht2) as (Ha4 & jid & now & x & now' & _ & -> & Hs4);
    (split; [done|]); eexists ep, _, _; (split; [exact Hep|]); (split; [|split; [exact Hs4|done]]).
  all: split; simpl; unfold job_max_attempts; simpl; rewrite ?bool_decide_eq_true_2 by lia.
  all: try split; try first [done|congruence|intros; congruence|set_solver].
Qed.

Lemma library_get name id s o s' t :
  lib_get_execution ctx name id s = (Ok o, s') → alone s →
  st_tenants (ss_store s) !! (name, prefix) = Some t →
  alone s' ∧ ss_store s' = ss_store s ∧ o = t_executions t !! id.
Proof.
  intros E Ha Ht. unfold lib_get_execution in E.
  apply se_bind_inv in E as ([] & s1 & E1%map_err_ok & E2%map_err_ok).
  destruct (alone_connection _ _ _ E1 Ha) as (_ & Ha1 & Hs1).
  destruct (alone_read _ _ _ _ _ E2 Ha1) as (Ha2 & Hs2 & t2 & Ht2 & ->).
  rewrite Hs1 in Ht2. cbn [db_schema db_prefix] in Ht2. simplify_eq. by rewrite Hs2.
Qed.

Lemma library_cancel name id s s' t job :
  lib_cancel_job ctx name id s = (Ok tt, s') → alone s →
  st_tenants (ss_store s) !! (name, prefix) = Some t →
  t_jobs t !! id = Some job → j_trigger_type job ≠ "CRON" →
  alone s' ∧ ∃ now job', j_status job' ≠ "ACTIVE"
    ∧ ss_store s' = set_tenant (name, prefix) (set_jobs (<[id := job']> (t_jobs t))
        (set_executions (pending_cancelled now id (t_executions t)) t)) (ss_store s).
Proof.
  intros E Ha Ht Hj Hc. unfold lib_cancel_job in E. cbv zeta in E.
  apply se_bind_inv in E as ([] & s1 & E1%map_err_ok & E).
  destruct (alone_connection _ _ _ E1 Ha) as (_ & Ha1 & Hs1).
  apply se_bind_inv in E as (found & s2 & E2%map_err_ok & E).
  destruct (alone_read _ _ _ _ _ E2 Ha1) as (Ha2 & Hs2 & t2 & Ht2 & ->).
  rewrite Hs1 in Ht2, Hs2. cbn [db_schema db_prefix] in Ht2. simplify_eq.
  apply se_bind_inv in E as (job' & s3 & E3 & E). apply ok_or_ok in E3 as [Hj' ->].
  rewrite Hj in Hj'. injection Hj' as <-.
  rewrite !bool_decide_eq_false_2 in E by done.
  apply se_bind_inv in E as ([] & s4 & E4 & E).
  apply se_bind_inv in E4 as (cnt & s5 & E5%map_err_ok & [= <-]).
  destruct (alone_tstmt _ _ _ _ _ E5 Ha2) as (Ha5 & st & now & t5 & t5' & Ht5 & Hq & Hs5).
  rewrite Hs2 in Ht5, Hs5. cbn [db_schema db_prefix] in Ht5, Hs5. simplify_eq.
  cbv zeta in Hq. injection Hq as _ <-.
  apply se_bind_inv in E as (c & s6 & E6%map_err_ok & E). injection E as <-.
  destruct (alone_tstmt _ _ _ _ _ E6 Ha5) as (Ha6 & st6 & now6 & t6 & t6' & Ht6 & Hq6 & Hs6).
  rewrite Hs5 in Ht6, Hs6. cbn [db_schema db_prefix] in Ht6, Hs6.
  unfold set_tenant in Ht6. cbn [st_tenants] in Ht6. rewrite lookup_insert_eq in Ht6. simplify_eq.
  cbn [set_executions t_jobs] in Hq6. rewrite Hj in Hq6. split; [done|]. exists now.
  case_bool_decide as Hact; injection Hq6 as _ <-.
  - exists (retired now6 (j_replaced_by_id job) job). split; [done|].
    rewrite Hs6. unfold set_tenant. simpl. by rewrite insert_insert_eq.
  - exists job. split; [done|]. rewrite Hs6. unfold set_tenant. simpl.
    rewrite insert_insert_eq. do 2 f_equal. rewrite insert_id by done. by destruct t.
Qed.

Lemma library_contract : Contract (library_client ctx) library_at.
Proof.
  split; cbn [library_client cl_create_job cl_get_execution cl_cancel_job].
  - intros name endpoint input n trigger key d id d' k t E Hc _ Hn Ha Hk Ht.
    unfold library_at in Hk. subst k.
    apply in_process_inv in E.
    destruct (library_create _ _ _ _ _ _ _ _ _ _ E Hc Ha Ht ltac:(lia)) as [Ha' Hcr].
    split; [done|]. split; [done|by left].
  - intros name id d o d' k t E _ Ha Hk Ht. unfold library_at in Hk. subst k. apply in_process_inv in E.
    by destruct (library_get _ _ _ _ _ _ E Ha Ht) as (Ha' & Hs & ->).
  - intros name id d d' k t job E _ Ha Hk Ht Hj Hc.
    unfold library_at in Hk. subst k. apply in_process_inv in E.
    destruct (library_cancel _ _ _ _ _ _ E Ha Ht Hj Hc) as (Ha' & Hx). split; [exact Ha'|]. split; [reflexivity|]. exact Hx.
Qed.
End library_contract.

(** ** So does the service *)

Lemma index_obj fs k : Json.index (Json.obj fs) k = default JNull (Json.assoc k (reverse fs)).
Proof. unfold Json.index. by rewrite JsonLemmas.get_obj. Qed.

Lemma index_data v : Json.index (data v) "data" = v.
Proof. unfold data. by rewrite index_obj. Qed.

Lemma split_segment id rest : segment_ok id →
  Str.split "/"%char (id +:+ String "/" rest) = id :: Str.split "/"%char rest.
Proof. intros [Hs _]. by apply split_token_app. Qed.

Section service_contract.
Context `{!Chrono} `{!CronCrate} `{!Base64} `{!JsonSchemaCrate} `{!Jsonb} `{!Aes256Gcm}.
Context `{!AuthnClaims} `{!SerdeJson} `{!Reqwest} `{paths : ActixPaths} `{!ActixPathLaws paths}.
Context (who : HeaderMap → option Caller) (payload_error : Incoming → string).
Context (app : AppState) (c : HttpClient).
Notation prefix := (as_prefix app).

(** The client's credential is good, JSON text is read as it was written, and so are
    timestamps. *)
Hypothesis known : ∀ hs, hs !! "authorization" = Some ("Bearer " +:+ hc_api_key c) → is_Some (who hs).
Hypothesis texts : ∀ v, json_from_str (json_to_string v) = Ok v.
Hypothesis times : ∀ t, ∃ s, ts_json t = JString s ∧ Str.trim s = s ∧ s ≠ ""
                             ∧ parse_from_rfc3339 s = Some t.

(** The headers of the client name one active workspace, that of the schema. *)
Definition service_at (σ : Store) (name : string) (k : string * string) : Prop :=
  k.2 = prefix ∧ ∀ pick, w_schema_name <$> pick_least pick (ws_rank (hc_org_id c) name)
    (filter (λ w, w_status w = "ACTIVE") (ws_matches (hc_org_id c) name σ)) = Some k.1.

Notation request mth path name body := {| ar_method := mth; ar_url := client_url c path;
  ar_headers := authed c (with_workspace c name); ar_json := body |}.

Lemma incoming_path w mth path name body :
  in_path (incoming who c w (request mth path name body)) = Str.split "/"%char ("/v1" +:+ path).
Proof. cbn. unfold client_url. by rewrite strip_prefix_app. Qed.

Lemma incoming_headers w mth path name body :
  let rq := incoming who c w (request mth path name body) in
  in_headers rq !! "x-org-id" = Some (hc_org_id c)
  ∧ in_headers rq !! "x-workspace-id" = Some name
  ∧ is_Some (in_caller rq).
Proof. split_and!; [done|done|]. by apply known. Qed.

(** The workspace is resolved, or the answer is 500. *)
Lemma resolved name s k : alone s → service_at (ss_store s) name k →
  let ws := {| wc_org_id := hc_org_id c; wc_workspace_id := name; wc_schema_name := k.1 |} in
  (∃ s1, Workspace_from None (Some (hc_org_id c)) (Some name) s = (Ok ws, s1)
     ∧ alone s1 ∧ ss_store s1 = ss_store s)
  ∨ ∃ r s1, Workspace_from None (Some (hc_org_id c)) (Some name) s = (Err r, s1)
     ∧ resp_status r = 500.
Proof.
  intros Ha [_ Hk] ws. unfold Workspace_from, se_bind, se_map_err.
  destruct (resolve_schema _ _ s) as [r s1] eqn:E. destruct r as [o|e|p]; cbn.
  - destruct (alone_stmt _ _ _ _ E Ha) as (Ha1 & st & now & Eq). injection Eq as <- Hs.
    rewrite Hk. left. by exists s1.
  - right. by eexists _, _.
  - exfalso. unfold resolve_schema, stmt in E. destruct (ss_failed s); [done|].
    by destruct (stim_fault _).
Qed.
Definition routes_to (mth path : string) (i : nat) (args : list string) : Prop :=
  let p := Str.split "/"%char ("/v1" +:+ path) in
  route_index (method_of mth) p health_routes = None
  ∧ route_index (method_of mth) p management_routes = None
  ∧ route_index (method_of mth) p workspace_routes = Some (i, args).

Notation ws_of name k :=
  {| wc_org_id := hc_org_id c; wc_workspace_id := name; wc_schema_name := k |}.

(** A call of the client that succeeds has been answered by the route's handler. *)
Lemma service_call {A} mth path name body (k' : Z * string → SE Wire ClientError A) g i args h k d a d' :
  (∀ resp w, k' resp w = (g resp, w)) → routes_to mth path i args →
  (workspace_table payload_error app
     (incoming who c (next_draw d) (request mth path name body))).*2 !! i = Some h →
  (∀ bd, is_ok (g (500, bd)) = false) →
  alone (dp_session d) → service_at (dstore d) name k →
  over_http who payload_error app c (resp <-- call c mth path name body; k' resp) d = (Ok a, d') →
  ∃ s1 r, alone s1 ∧ ss_store s1 = dstore d
    ∧ (h args (ws_of name k.1) s1 = (Ok r, dp_session d')
       ∨ h args (ws_of name k.1) s1 = (Err r, dp_session d'))
    ∧ g (resp_status r, default "" (json_to_string <$> resp_body r)) = Ok a.
Proof.
  intros Hk' (Hh & Hm & Hw) Hi H500 Ha Hat E. unfold call in E.
  rewrite (over_http_one _ _ _ _ _ _ _ _ _ g) in E by done. unfold answer_request in E.
  destruct (incoming_headers (next_draw d) mth path name body) as (Ho & Hn & [caller Hcaller]).
  rewrite (serve_workspace payload_error app _ i args h) in E by (by rewrite ?incoming_path).
  unfold authenticated, AuthenticatedRequest_from in E. rewrite Hcaller, Ho, Hn in E.
  unfold se_bind at 1, se_lift at 1 in E. cbn [ok_or] in E. unfold se_bind at 1 in E.
  destruct (resolved name (dp_session d) k Ha Hat) as [(s1 & Er & Ha1 & Hs1)|(r & s1 & Er & Hst)].
  - rewrite Er in E. exists s1. destruct (h args _ s1) as [[r|r|p] s2] eqn:Eh.
    + injection E as E <-. exists r. split_and!; [done..|by left|exact E].
    + injection E as E <-. exists r. split_and!; [done..|by right|exact E].
    + injection E as E <-. done.
  - rewrite Er in E. injection E as E _. cbn in E. rewrite Hst in E.
    specialize (H500 (default "" (json_to_string <$> resp_body r))). by rewrite E in H500.
Qed.
Lemma routes_jobs : routes_to "POST" "/jobs" 20 [].
Proof. unfold routes_to. cbv zeta. split_and!; rewrite route_index_fit; reflexivity. Qed.
Lemma routes_execution id : segment_ok id → routes_to "GET" ("/executions/" +:+ id) 28 [id].
Proof.
  intros [Hs Hid]. unfold routes_to.
  assert (Str.split "/"%char ("/v1" +:+ "/executions/" +:+ id) = [""; "v1"; "executions"; id]) as ->
    by (cbn; by rewrite Hs).
  cbv zeta. split_and!; [| |by apply route_execution]; rewrite route_index_fit; by destruct id.
Qed.
Lemma routes_cancel id : segment_ok id → routes_to "POST" ("/jobs/" +:+ id +:+ "/cancel") 24 [id].
Proof.
  intros Hs. unfold routes_to.
  assert (Str.split "/"%char ("/v1" +:+ "/jobs/" +:+ id +:+ "/cancel") = [""; "v1"; "jobs"; id; "cancel"]) as ->
    by (cbn; by rewrite (split_segment id "cancel" Hs)).
  destruct Hs as [_ Hid]. cbv zeta. split_and!; [| |by apply route_cancel]; rewrite route_index_fit; by destruct id.
Qed.

(** *** Fetching *)

Definition fetched (resp : Z * string) : res ClientError (option Execution) :=
  if bool_decide (resp.1 = 404) then Ok None
  else if is_success resp.1 then
    v <-? res_map_err CE_Msg (json_from_str resp.2);
    e <-? res_map_err CE_Msg (Execution_from_value (Json.index v "data"));
    Ok (Some e)
  else Err (CE_Msg ("get_execution" +:+ " HTTP " +:+ status_text resp.1 +:+ ": " +:+ resp.2)).

(** What the handler answers, a refusal of the database apart. *)
Lemma get_answer id ws s t res s' :
  executions_get_handler prefix ws id s = (res, s') → alone s →
  st_tenants (ss_store s) !! (wc_schema_name ws, prefix) = Some t →
  (∃ text, res = Err (InternalError text)) ∨ (∃ p, res = Panic p)
  ∨ alone s' ∧ ss_store s' = ss_store s
    ∧ res = match t_executions t !! id with
            | Some e => Ok (resp 200 (data (Json.obj (execution_fields e))))
            | None => Err (ExecutionNotFound id)
            end.
Proof.
  intros E Ha Ht. unfold executions_get_handler, q, se_map_err in E. unfold se_bind at 1 in E.
  destruct (scoped_connection _ s) as [[[]|e|p] s1] eqn:E1; cbn in E;
    [|left; injection E as <- _; by eexists|right; left; injection E as <- _; by eexists].
  destruct (alone_connection _ _ _ E1 Ha) as (_ & Ha1 & Hs1). unfold se_bind at 1 in E.
  destruct (executions_get _ _ s1) as [[o|e|p] s2] eqn:E2; cbn in E;
    [|left; injection E as <- _; by eexists|right; left; injection E as <- _; by eexists].
  destruct (alone_read _ _ _ _ _ E2 Ha1) as (Ha2 & Hs2 & t2 & Ht2 & ->).
  rewrite Hs1 in Ht2. cbn [ctx_of db_schema db_prefix] in Ht2. simplify_eq. right. right.
  unfold se_bind in E. destruct (t_executions _ !! id); cbn in E; injection E as <- <-;
    by rewrite Hs2, Hs1.
Qed.

(** *** An execution, as the service client reads it *)

Lemma res_bind_inv {E A B} (m : res E A) (f : A → res E B) b :
  res_bind m f = Ok b → ∃ a, m = Ok a ∧ f a = Ok b.
Proof using Type. destruct m; [|done..]. intros Hf. by eexists. Qed.

Lemma res_map_err_inv {E F A} (f : E → F) (m : res E A) a : res_map_err f m = Ok a → m = Ok a.
Proof using Type. by destruct m; intros [= <-]. Qed.

Notation told v read := (match v with JNull => Ok None | _ => a <-? read; Ok (Some a) end).
Lemma told_json o : told (Json.opt_json o) (Ok (Json.opt_json o)) = Ok (not_null o) :> res string _.
Proof. by destruct o as [[]|]. Qed.
Lemma told_str o : told (Json.opt_str o) (de_string (Json.opt_str o)) = Ok o.
Proof. by destruct o. Qed.
Lemma de_datetime_written t : de_datetime (ts_json t) = Ok t.
Proof. destruct (times t) as (s & -> & _ & _ & Hp). unfold de_datetime. cbn. by rewrite Hp. Qed.
Lemma told_time o : told (Json.opt ts_json o) (de_datetime (Json.opt ts_json o)) = Ok o.
Proof.
  destruct o as [t|]; [|done]. cbn [Json.opt]. rewrite de_datetime_written.
  by destruct (times t) as (s & -> & _).
Qed.
Lemma de_int z a : de_i64 (JInt z) = Ok a → a = z.
Proof. unfold de_i64, Json.as_i64. case_bool_decide; [|done]. by intros [= <-]. Qed.
Lemma told_int o a : told (Json.opt_int o) (de_i64 (Json.opt_int o)) = Ok a → a = o.
Proof.
  destruct o as [z|]; [|by intros [= <-]]. cbn [Json.opt_int Json.opt].
  intros (b & ->%de_int & [= <-])%res_bind_inv. done.
Qed.

Lemma told_execution e o :
  Execution_from_value (Json.obj (execution_fields e)) = Ok o → o = as_told e.
Proof.
  unfold Json.obj, Execution_from_value, Execution_from_fields. set (fs := foldl _ _ _).
  assert (∀ k, Json.assoc k fs = Json.assoc k (reverse (execution_fields e))) as Hget
    by (intros k; apply (get_obj (execution_fields e) k)).
  unfold req_string, req_datetime, req_i64, req_value, opt_field. rewrite !Hget. clear Hget fs.
  unfold execution_fields. cbn [reverse rev_append]. assocs. cbn [ok_or res_bind].
  rewrite !told_json, told_str, !told_time, !de_datetime_written. cbn [de_string Json.as_str ok_or res_bind].
  intros (n & ->%de_int & (m & ->%de_int & (ms & ->%told_int & [= <-])%res_bind_inv)%res_bind_inv)%res_bind_inv.
  done.
Qed.

(** *** The three laws *)

Lemma fetched_spec resp w :
  (if bool_decide (resp.1 = 404) then se_ret None
   else
     resp <-- check resp "get_execution";
     v <-- se_lift (res_map_err CE_Msg (json_from_str resp.2));
     e <-- se_lift (res_map_err CE_Msg (Execution_from_value (Json.index v "data")));
     se_ret (Some e)) w = (fetched resp, w) :> _ * Wire.
Proof using Type.
  unfold fetched, check, bail. case_bool_decide; [done|]. destruct (is_success _); [|done].
  unfold se_bind, se_lift, se_ret. destruct (json_from_str resp.2) as [v| |]; cbn; [|done..].
  by destruct (Execution_from_value _).
Qed.

Lemma fetched_data e o :
  fetched (200, json_to_string (data (Json.obj (execution_fields e)))) = Ok o → o = Some (as_told e).
Proof.
  unfold fetched. cbn [fst snd]. rewrite bool_decide_eq_false_2 by done.
  change (is_success 200) with true. cbv iota. rewrite texts. cbn [res_map_err res_bind].
  rewrite index_data.
  intros (e' & He%res_map_err_inv & [= <-])%res_bind_inv. by apply told_execution in He as ->.
Qed.

Lemma service_get name id d o d' k t :
  over_http who payload_error app c (http_get_execution c name id) d = (Ok o, d') → segment_ok id →
  alone (dp_session d) → service_at (dstore d) name k → st_tenants (dstore d) !! k = Some t →
  alone (dp_session d') ∧ dstore d' = dstore d ∧ o = as_told <$> t_executions t !! id.
Proof.
  intros E Hid Ha Hat Ht. unfold http_get_execution in E.
  apply (service_call "GET" ("/executions/" +:+ id) name None _ fetched 28 [id]
    (λ args ws, run (executions_get_handler prefix ws (hd EmptyString args))) k) in E
    as (s1 & r & Ha1 & Hs1 & Eh & Er); try done.
  2: apply fetched_spec. 2: by apply routes_execution.
  unfold run, se_map_err in Eh. cbn [hd] in Eh.
  destruct (executions_get_handler prefix _ id s1) as [res s'] eqn:Eg.
  assert (k = (wc_schema_name (ws_of name k.1), prefix)) as Hk
    by (destruct Hat as [<- _]; by destruct k).
  rewrite Hk, <-Hs1 in Ht.
  destruct (get_answer _ _ _ _ _ _ Eg Ha1 Ht) as [[text ->]|[[p ->]|(Ha' & Hs' & ->)]];
    [destruct Eh as [[=]|[= <- <-]]; discriminate Er|by destruct Eh|].
  rewrite <-Hs1, <-Hs'. destruct (t_executions t !! id) as [e|].
  - destruct Eh as [[= <- <-]|[=]]. apply fetched_data in Er as ->. by split_and!.
  - destruct Eh as [[=]|[= <- <-]]. injection Er as <-. by split_and!.
Qed.

Definition created_answer (resp : Z * string) : res ClientError string :=
  if is_success resp.1 then
    v <-? res_map_err CE_Msg (json_from_str resp.2); created_id false v
  else Err (CE_Msg ("create_job" +:+ " HTTP " +:+ status_text resp.1 +:+ ": " +:+ resp.2)).

Lemma created_spec resp w :
  (resp <-- check resp "create_job";
   v <-- se_lift (res_map_err CE_Msg (json_from_str resp.2));
   se_lift (created_id false v)) w = (created_answer resp, w) :> _ * Wire.
Proof using Type.
  unfold created_answer, check, bail. destruct (is_success _); [|done].
  unfold se_bind, se_lift, se_ret. by destruct (json_from_str resp.2).
Qed.

Lemma errors_are_no_success e : is_success (resp_status (error_response e)) = false.
Proof using Type. by destruct e. Qed.

Lemma service_at_tenant σ name k k' t : service_at σ name k → service_at (set_tenant k' t σ) name k.
Proof using Type. done. Qed.

Lemma created_answer_ok st v id :
  created_answer (st, json_to_string v) = Ok id → created_id false v = Ok id.
Proof.
  unfold created_answer. cbn [fst snd]. destruct (is_success st); [|done].
  rewrite texts. done.
Qed.
Lemma id_of_created r extra : extra = [] ∨ (∃ v, extra = [("run_at", v)]) →
  created_id false (created_body r extra) = Ok (cr_execution_id r).
Proof using Type.
  intros Hx. unfold created_id, created_body, execution_brief. rewrite index_data.
  destruct Hx as [->|[v ->]]; rewrite !index_obj; cbn [Datatypes.app reverse rev_append]; assocs;
    cbn [from_option id]; rewrite index_obj; cbn [reverse rev_append]; by assocs.
Qed.
Lemma id_of_replayed job ex x :
  created_id false (data (job_response job ex)) = Ok x → ∃ e, ex = Some e ∧ x = e_execution_id e.
Proof using Type.
  unfold created_id, job_response, job_summary_fields, execution_brief. rewrite index_data.
  destruct ex as [e|]; rewrite !index_obj; cbn [Datatypes.app reverse rev_append]; assocs; cbn [from_option id].
  - rewrite index_obj. cbn [reverse rev_append]. assocs. intros [= <-]. by exists e.
  - done.
Qed.

(** The body reaches the handler as the caller asked for it. *)
Lemma posted_as_asked endpoint input n trigger key rq (h : CreateJob → API HttpResponse) s :
  in_body rq = Some (Json.obj (create_job_fields endpoint input n trigger (Some key))) ≫= Json.as_object →
  is_cron trigger = false → input ≠ JNull → 0 < n ≤ i64_max →
  with_body payload_error rq CreateJob_from_fields h s
  = run (h (asked_job endpoint input n trigger key)) s.
Proof.
  intros Hb Hc Hi Hn.
  destruct (client_body_read endpoint input n trigger (Some key) times) as (fs & Efs & Ed).
  { unfold in_i64, i64_min in *. lia. } { by destruct trigger. }
  rewrite Efs in Hb. unfold with_body, extract_json. rewrite Hb. cbn [mbind option_bind Json.as_object].
  simpl fmap. rewrite Ed. unfold se_bind, se_lift. do 2 f_equal. unfold asked_job.
  rewrite bool_decide_eq_true_2 by lia.
  by destruct trigger, input.
Qed.

Lemma service_create name endpoint input n trigger key d id d' k t :
  over_http who payload_error app c (http_create_job c name endpoint input n trigger (Some key)) d
    = (Ok id, d') →
  is_cron trigger = false → input ≠ JNull → 0 < n ≤ i64_max →
  alone (dp_session d) → service_at (dstore d) name k → st_tenants (dstore d) !! k = Some t →
  let body := asked_job endpoint input n trigger key in
  alone (dp_session d') ∧ service_at (dstore d') name k
  ∧ (creates body key k t (dstore d) (dstore d') id ∨ replays body key t (dstore d) (dstore d') id).
Proof.
  intros E Hc Hi Hn Ha Hat Ht body. unfold http_create_job in E. rewrite Hc in E.
  set (v := Json.obj (create_job_fields endpoint input n trigger (Some key))) in E.
  set (rq := incoming who c (next_draw d) (request "POST" "/jobs" name (Some v))).
  apply (service_call "POST" "/jobs" name (Some v) _ created_answer 20 []
    (λ _ ws, with_body payload_error rq CreateJob_from_fields
       (jobs_create prefix ws (dr_now (next_draw d)) (dr_key (next_draw d)))) k) in E
    as (s1 & r & Ha1 & Hs1 & Eh & Er); try done.
  2: apply created_spec. 2: apply routes_jobs.

  rewrite !(posted_as_asked endpoint input n trigger key) in Eh by done. fold body in Eh.
  unfold run, se_map_err in Eh.
  destruct (jobs_create prefix (ws_of name k.1) _ _ body s1) as [[r1|e|p] s'] eqn:Ej; last first.
  { by destruct Eh. }
  { destruct Eh as [[=]|[= <- <-]]. unfold created_answer in Er. cbn [fst] in Er.
    by rewrite errors_are_no_success in Er. }
  destruct Eh as [[= -> ->]|[=]].
  assert (env_drops s1 (dp_session d')) as Hd.
  { epose proof (drops_jobs_create _ _ _ _ _ s1) as Hd. by rewrite Ej in Hd. }
  apply jobs_create_run in Ej as (t' & ep & Hck & Hb & Hr); [|by destruct trigger|done].
  destruct Hck as [_ _ Ht' Hep _ _]. rewrite Hs1 in Ht', Hr.
  assert (k = (k.1, prefix)) as Hk by (destruct Hat as [<- _]; by destruct k).
  cbn [wc_schema_name] in Ht', Hr. rewrite <-Hk in Ht', Hr. simplify_eq.
  split; [by apply (alone_drops s1)|].
  destruct Hr as [[(key' & job & Hkey & Hin & Hen & Hjk & ->) Hs']|(job & e & extra & Hcr & Hs' & -> & Hx)].
  - apply created_answer_ok, id_of_replayed in Er as (e & He & ->). injection Hkey as <-.
    rewrite Hs'. split; [done|]. right. split; [done|]. exists job, e. split_and!; try done.
    all: apply head_Some_elem_of in He; unfold executions_of_job in He;
      rewrite merge_sort_Permutation in He; by apply list_elem_of_filter in He as [??].
  - apply created_answer_ok in Er. rewrite id_of_created in Er by naive_solver. injection Er as <-.
    rewrite Hs'. split; [by apply service_at_tenant|]. left. by exists ep, job, e.
Qed.

Definition cancel_answer (resp : Z * string) : res ClientError unit :=
  if is_success resp.1 then Ok tt
  else Err (CE_Msg ("cancel_job" +:+ " HTTP " +:+ status_text resp.1 +:+ ": " +:+ resp.2)).

Lemma cancel_spec resp w :
  (check resp "cancel_job" ;;; se_ret tt) w = (cancel_answer resp, w) :> _ * Wire.
Proof using Type. unfold cancel_answer, check, bail. by destruct (is_success _). Qed.

Lemma service_cancel name id d d' k t job :
  over_http who payload_error app c (http_cancel_job c name id) d = (Ok tt, d') → segment_ok id →
  alone (dp_session d) → service_at (dstore d) name k → st_tenants (dstore d) !! k = Some t →
  t_jobs t !! id = Some job → j_trigger_type job ≠ "CRON" →
  alone (dp_session d') ∧ service_at (dstore d') name k
  ∧ ∃ now job', j_status job' ≠ "ACTIVE"
      ∧ dstore d' = set_tenant k (set_jobs (<[id := job']> (t_jobs t))
          (set_executions (pending_cancelled now id (t_executions t)) t)) (dstore d).
Proof.
  intros E Hid Ha Hat Ht Hj Hc. unfold http_cancel_job in E.
  apply (service_call "POST" ("/jobs/" +:+ id +:+ "/cancel") name None _ cancel_answer 24 [id]
    (λ args ws, run (jobs_cancel_handler prefix ws (hd EmptyString args))) k) in E
    as (s1 & r & Ha1 & Hs1 & Eh & Er); try done.
  2: apply cancel_spec. 2: by apply routes_cancel.
  unfold run, se_map_err in Eh. cbn [hd] in Eh.
  destruct (jobs_cancel_handler prefix _ id s1) as [[r1|e|p] s'] eqn:Ej; last first.
  { by destruct Eh. }
  { destruct Eh as [[=]|[= <- <-]]. unfold cancel_answer in Er. cbn [fst] in Er.
    by rewrite errors_are_no_success in Er. }
  destruct Eh as [[= -> ->]|[=]].
  assert (env_drops s1 (dp_session d')) as Hd.
  { epose proof (drops_jobs_cancel _ _ _ s1) as Hd. by rewrite Ej in Hd. }
  apply jobs_cancel_handler_run in Ej as (Hb & t' & job' & t0 & Ht' & Hj' & _ & _ & _ & Hs); [|apply Ha1].
  destruct (alone_advance s1 Ha1) as [_ Hadv]. rewrite Hadv, Hs1 in Ht', Hs.
  assert (k = (k.1, prefix)) as Hk by (destruct Hat as [<- _]; by destruct k).
  cbn [wc_schema_name] in Ht', Hs. rewrite <-Hk in Ht', Hs. simplify_eq.
  rewrite bool_decide_eq_false_2 in Hs by done.
  split; [by apply (alone_drops s1)|]. rewrite Hs. split; [by apply service_at_tenant|].
  exists t0. eexists. by split; [|done].
Qed.

Lemma service_contract : Contract (service_client who payload_error app c) service_at.
Proof.
  split; [apply service_create| |apply service_cancel].
  intros name id d o d' k t E Hid Ha Hat Ht.
  destruct (service_get _ _ _ _ _ _ _ E Hid Ha Hat Ht) as (Ha' & Hs & ->).
  split_and!; [done..|apply as_told_twice].
Qed.
End service_contract.


(** The number of attempts that was asked for is the execution's. *)
Lemma asked_max endpoint input n trigger key ep job e :
  created (asked_job endpoint input n trigger key) ep key job e → 0 < n → e_max_attempts e = n.
Proof.
  intros Hcr Hn. rewrite (cr_max_attempts _ _ _ _ _ Hcr). unfold job_max_attempts. cbn.
  by rewrite ?bool_decide_eq_true_2 by lia.
Qed.

(** ** A caller that knows the contract only *)

Section caller.
Context (c : Client) (at_ : Store → string → string * string → Prop) (C : Contract c at_).

(** A creation under a key that nobody has used. *)
Lemma created_afresh name endpoint input n trigger key d id d1 k t :
  cl_create_job c name endpoint input n trigger (Some key) d = (Ok id, d1) →
  is_cron trigger = false → input ≠ JNull → 0 < n ≤ i64_max →
  alone (dp_session d) → at_ (dstore d) name k → st_tenants (dstore d) !! k = Some t →
  (∀ job, job ∈ (map_to_list (t_jobs t)).*2 → j_idempotency_key job ≠ Some key) →
  ∃ ep job e, t_endpoints t !! cj_endpoint (asked_job endpoint input n trigger key) = Some ep
    ∧ created (asked_job endpoint input n trigger key) ep key job e
    ∧ dstore d1 = set_tenant k (with_created job e t) (dstore d) ∧ id = e_execution_id e
    ∧ alone (dp_session d1) ∧ at_ (dstore d1) name k.
Proof.
  intros E Hc Hi Hn Ha Hat Ht Hfresh.
  destruct (ct_create _ _ C _ _ _ _ _ _ _ _ _ _ _ E Hc Hi Hn Ha Hat Ht)
    as (Ha1 & Hat1 & [(ep & job & e & Hep & Hcr & Hs & Hid)|Hrep]).
  - by exists ep, job, e.
  - destruct Hrep as (_ & job & ? & Hin & _ & Hk & _). by destruct (Hfresh job).
Qed.

(** It creates a job, looks at its execution, cancels the job, and looks again. *)
Lemma created_then_cancelled name endpoint input n trigger key d id d1 e d2 d3 o d4 k t :
  cl_create_job c name endpoint input n trigger (Some key) d = (Ok id, d1) →
  cl_get_execution c name id d1 = (Ok (Some e), d2) →
  cl_cancel_job c name (e_job_id e) d2 = (Ok tt, d3) →
  cl_get_execution c name id d3 = (Ok o, d4) →
  is_cron trigger = false → input ≠ JNull → 0 < n ≤ i64_max →
  alone (dp_session d) → at_ (dstore d) name k → st_tenants (dstore d) !! k = Some t →
  (∀ job, job ∈ (map_to_list (t_jobs t)).*2 → j_idempotency_key job ≠ Some key) →
  segment_ok id → segment_ok (e_job_id e) →
  e_status e ∈ ["PENDING"; "QUEUED"]
  ∧ ∃ e', o = Some e' ∧ e_status e' = "CANCELLED" ∧ e_input e' = Some input.
Proof.
  intros E1 E2 E3 E4 Hc Hi Hn Ha Hat Ht Hfresh Hid Hjid.
  destruct (created_afresh _ _ _ _ _ _ _ _ _ _ _ E1 Hc Hi Hn Ha Hat Ht Hfresh)
    as (ep & job & e0 & _ & Hcr & Hs1 & -> & Ha1 & Hat1).
  assert (st_tenants (dstore d1) !! k = Some (with_created job e0 t)) as Ht1
    by (rewrite Hs1; apply lookup_insert_eq).
  destruct (ct_get _ _ C _ _ _ _ _ _ _ E2 Hid Ha1 Hat1 Ht1) as (Ha2 & Hs2 & Ho).
  cbn in Ho. rewrite lookup_insert_eq in Ho. apply (inj Some) in Ho.
  assert (e_job_id e = j_job_id job) as Hjob by (rewrite <-(cr_of_job _ _ _ _ _ Hcr); exact (f_equal e_job_id Ho)).
  pose proof (f_equal e_status Ho : e_status e = e_status e0) as Hst.
  destruct (cr_waits _ _ _ _ _ Hcr) as [Hwait _]. rewrite Hst. split; [done|]. rewrite Hjob in E3, Hjid.
  rewrite <-Hs2 in Ht1, Hat1.
  destruct (ct_cancel _ _ C _ _ _ _ _ _ job E3 Hjid Ha2 Hat1 Ht1) as (Ha3 & Hat3 & now & job' & _ & Hs3).
  { apply lookup_insert_eq. }
  { rewrite (cr_trigger _ _ _ _ _ Hcr). by destruct trigger. }
  assert (st_tenants (dstore d3) !! k = Some (set_jobs (<[j_job_id job := job']>
    (t_jobs (with_created job e0 t))) (set_executions (pending_cancelled now (j_job_id job)
    (t_executions (with_created job e0 t))) (with_created job e0 t)))) as Ht3
    by (rewrite Hs3; apply lookup_insert_eq).
  destruct (ct_get _ _ C _ _ _ _ _ _ _ E4 Hid Ha3 Hat3 Ht3) as (_ & _ & Ho').
  cbn in Ho'. unfold pending_cancelled in Ho'. rewrite lookup_fmap, lookup_insert_eq in Ho'. cbn in Ho'.
  rewrite bool_decide_eq_true_2 in Ho'
    by (split; [apply (cr_of_job _ _ _ _ _ Hcr)|]; unfold cancellable; set_solver).
  destruct o as [e'|]; [|done]. exists e'. apply (inj Some) in Ho'. split; [done|].
  split; [exact (f_equal e_status Ho')|]. apply (f_equal e_input) in Ho'. cbn in Ho'.
  rewrite (cr_input _ _ _ _ _ Hcr) in Ho'. cbn in Ho'.
  destruct (e_input e') as [[]|], input; cbn in Ho'; congruence.
Qed.
End caller.
