(* ===== verification/LibraryExample.v ===== *)
(** * The library-mode example ([src/examples/library-mode/src/main.rs])

    A program that embeds the library client: it provisions a schema, registers an endpoint,
    creates a job, starts the worker, and polls the execution until it is done. *)

From S2P Require Export ModeLaws PollLoop Lifecycle.
#[local] Open Scope Z_scope.

Definition SCHEMA_NAME : string := "library_example".
Definition ENCRYPTION_KEY : string :=
  "0000000000000000000000000000000000000000000000000000000000000000".

(** [StaticSchemaProvider::get_active_schemas] *)
Definition StaticSchemaProvider_schemas : list string := [SCHEMA_NAME].

Definition example_client : res ClientError PipelineContext := LibraryClient_new "" ENCRYPTION_KEY.

Definition ping_spec : json := Json.obj [
  ("url", JString "http://localhost:9999/success");
  ("method", JString "POST");
  ("headers", Json.obj [("Content-Type", JString "application/json")]);
  ("body_template", Json.obj [("message", JString "hello from library mode")]);
  ("timeout_ms", JInt 5000);
  ("expected_status_codes", JArray [JInt 200])].

(** Steps 2 to 4 of [main], at [now_ms] milliseconds since the epoch: the execution's id. *)
Definition example_setup (ctx : PipelineContext) (now_ms : Z) : SE Session ClientError string :=
  lib_provision_workspace ctx SCHEMA_NAME ;;;
  lib_register_endpoint ctx SCHEMA_NAME "ping" "HTTP" ping_spec None ;;;
  lib_create_job ctx SCHEMA_NAME "ping" (Json.obj []) 3 Immediate
    (Some ("example-" +:+ Str.dec now_ms)).

(** Step 5 *)
Definition example_worker (env : Env) (ctx : PipelineContext) (now : Z) : PollState :=
  start_worker env ctx WorkerConfig_default now.

(** [wait_for_completion], for [fuel] polls at most; [None]: it is still waiting. *)
Fixpoint wait_for_completion (ctx : PipelineContext) (fuel : nat) (execution_id : string)
    (s : Session) : option Session :=
  match fuel with
  | O => None
  | S fuel =>
      match lib_get_execution ctx SCHEMA_NAME execution_id s with
      | (Ok (Some exec), s') =>
          if bool_decide (e_status exec = "SUCCESS" ∨ e_status exec = "FAILED") then Some s'
          else wait_for_completion ctx fuel execution_id s'
      | (_, s') => Some s'
      end
  end.

(** Steps 6 and 7: the wait is over, or Ctrl+C; then the worker is told to stop. *)
Definition example_shutdown (w : PollState) : PollState := cancel_token w.

(** ** Polling an execution that is done *)

Section polling.
Context (ctx : PipelineContext) (id : string) (e : Execution).
Notation key := (SCHEMA_NAME, pc_table_prefix ctx).

(** The execution is there, and other clients move the store as the program does. *)
Record polled (s : Session) : Prop := {
  po_begin : ss_begin s = None;
  po_failed : ss_failed s = false;
  po_moves : env_ok moves s;
  po_row : execs key (ss_store s) !! id = Some e;
}.

(** One of the next [n] statements fails. *)
Definition fault_within (n : nat) (env : list Stim) : Prop :=
  Exists (λ st, is_Some (stim_fault st)) (take n env).

Lemma fault_within_S n env :
  fault_within (S n) env ↔ is_Some (hd None (stim_fault <$> env)) ∨ fault_within n (tail env).
Proof.
  unfold fault_within. destruct env as [|st env]; cbn.
  - rewrite take_nil. split; [by right|]. by intros [[]|].
  - apply Exists_cons.
Qed.

Lemma polled_stmt {A} (qy : Query A) a s : terminal e → polled s →
  (∀ st now l σ, execs key σ !! id = Some e → qy st now l σ = Ok (a, σ)) →
  match hd None (stim_fault <$> ss_env s) with
  | None => ∃ s', stmt qy s = (Ok a, s') ∧ polled s' ∧ ss_env s' = tail (ss_env s)
  | Some err => ∃ s', stmt qy s = (Err err, s')
  end.
Proof.
  intros Hterm [Hb Hf Hm Hrow] Hq. unfold stmt. rewrite Hf.
  assert (stim_fault (next_stim s) = hd None (stim_fault <$> ss_env s)) as ->
    by (unfold next_stim; by destruct (ss_env s)).
  destruct (hd _ _) as [err|]; [by eexists|].
  assert (execs key (ss_store (advance s)) !! id = Some e) as Hrow'.
  { pose proof (store_advance moves s Hm) as Hmv.
    destruct (moves_execs life_map _ _ Hmv key id e Hrow) as (e' & He' & Hl).
    by rewrite (life_terminal _ _ Hl Hterm) in He'. }
  rewrite Hq by done. eexists. split; [done|]. split; [|done]. split; try done.
  by apply (env_ok_advance moves).
Qed.

(** A poll is two statements; it answers the execution unless one of them fails. *)
Lemma polled_get s : terminal e → polled s →
  (∃ s', lib_get_execution ctx SCHEMA_NAME id s = (Ok (Some e), s') ∧ polled s'
     ∧ ∀ n, fault_within (2 + n) (ss_env s) ↔ fault_within n (ss_env s'))
  ∨ (∃ err s', lib_get_execution ctx SCHEMA_NAME id s = (Err err, s')
     ∧ ∀ n, fault_within (2 + n) (ss_env s)).
Proof.
  intros Hterm Hp. unfold lib_get_execution, lq, se_bind, se_map_err, scoped_connection.
  change (validate_schema_name SCHEMA_NAME) with true. cbn iota.
  pose proof (polled_stmt (λ _ _ _ σ, Ok (tt, σ)) tt s Hterm Hp (λ _ _ _ _ _, eq_refl)) as H1.
  destruct (hd None (stim_fault <$> ss_env s)) as [err|] eqn:F1.
  { destruct H1 as [s1 ->]. right. eexists _, s1. split; [reflexivity|]. intros n.
    apply fault_within_S. rewrite F1. left. by eexists. }
  destruct H1 as (s1 & -> & Hp1 & E1). cbn [res_map_err]. unfold executions_get, read, tstmt.
  match goal with |- context [stmt ?qy s1] =>
    pose proof (polled_stmt qy (Some e) s1 Hterm Hp1) as H2 end.
  assert (∀ n, fault_within (2 + n) (ss_env s) ↔ fault_within (S n) (ss_env s1)) as Hf.
  { intros n. change (2 + n)%nat with (S (S n)). rewrite fault_within_S, F1, <-E1.
    split; [by intros [[]|]|by right]. }
  destruct (hd None (stim_fault <$> ss_env s1)) as [err|] eqn:F2; destruct H2 as (s2 & H2).
  1, 3: intros st now l σ Hrow; unfold execs in Hrow; unfold tquery; cbn [db_schema db_prefix];
    destruct (st_tenants σ !! key) as [t|] eqn:Et; [|done]; cbn in Hrow;
    by rewrite Hrow, set_tenant_same.
  - rewrite H2. right. eexists _, s2. split; [reflexivity|]. intros n. apply Hf, fault_within_S.
    rewrite F2. left. by eexists.
  - destruct H2 as (-> & Hp2 & E2). left. exists s2. split_and!; [done..|]. intros n.
    rewrite Hf, fault_within_S, F2, E2. split; [by intros [[]|]|by right].
Qed.

(** The wait ends at the first poll, or when a poll fails. *)
Lemma wait_for_terminal s fuel : terminal e → polled s →
  is_Some (wait_for_completion ctx (S fuel) id s)
  ↔ e_status e ≠ "CANCELLED" ∨ fault_within (2 * S fuel) (ss_env s).
Proof.
  intros Hterm. revert s. induction fuel as [|fuel IH]; intros s Hp; cbn [wait_for_completion] in *;
    (destruct (polled_get s Hterm Hp) as [(s' & E & Hp' & Hf)|(err & s' & E & Hf)]; rewrite E;
     [case_bool_decide as Hd|split; [|by eexists]; intros _; right]).
  - split; [|by eexists]. intros _. left. intros Hc. rewrite Hc in Hd. by destruct Hd.
  - change (2 * 1)%nat with (2 + 0)%nat. rewrite Hf. split; [by intros []|].
    intros [Hc|Hc]; [destruct Hd; unfold terminal in Hterm; set_solver|by inversion Hc].
  - apply (Hf 0%nat).
  - split; [|by eexists]. intros _. left. intros Hc. rewrite Hc in Hd. by destruct Hd.
  - rewrite (IH _ Hp'). replace (2 * S (S fuel))%nat with (2 + 2 * S fuel)%nat by lia. by rewrite Hf.
  - replace (2 * S (S fuel))%nat with (2 + 2 * S fuel)%nat by lia. apply Hf.
Qed.
End polling.
