(* ===== verification/Samples.v ===== *)
(** * A small instance of everything

    Concrete stand-ins for the libraries the model is parametric in, and a small
    database: what the witnesses of the theorems evaluate. *)

From Stdlib Require Import Ascii.
From S2P Require Export WorkerSpec Routing.
#[local] Open Scope Z_scope.

Module Sample.

(** ** Libraries *)

#[export] Instance chrono : Chrono := {|
  ts_json z := JString (Str.dec z);
  to_rfc3339 := Str.dec;
  parse_from_rfc3339 s := parse_uint 64 s;
  naive_parse_from_str _ _ := None |}.
#[export] Instance cron_crate : CronCrate := {|
  Schedule := string; Tz := string;
  parse_schedule := Ok;
  parse_tz s := if bool_decide (s = "UTC") then Some s else None;
  schedule_next_after _ _ t := Some (t + 60000000) |}.
#[export] Instance base64 : Base64 := {|
  b64_encode s := "b" +:+ s; b64_decode s := Str.strip_prefix "b" s |}.
#[export] Instance json_schema : JsonSchemaCrate := λ _, Ok (λ _, []).
#[export] Instance jsonb : Jsonb := λ _, "{}".
#[export] Instance utf8 : Utf8 := λ _, true.
#[export] Instance serde : SerdeJson := λ v,
  match v with JString s => s | _ => "{}" end.
#[export] Instance sql_display : SqlDisplay := λ _, "database error".
(** One tag byte in front of the text. *)
#[export] Instance aes : Aes256Gcm := {|
  aead_encrypt _ _ m := Some (7 :: m);
  aead_decrypt _ _ c := match c with 7 :: m => Some m | _ => None end |}.
#[export] Instance clouds : Clouds := {|
  standard_decode _ := None; aws_region := None; aws_decrypt _ := Err "no service";
  gcp_with_auth := Ok tt; gcp_client := Ok tt; gcp_decrypt _ _ := Err "no service";
  oci_client _ _ := Ok tt; oci_decrypt _ _ _ := Err (OciOther "no service") |}.
(** A router that compares patterns up to their first brace. *)
Definition path_below (prefix p : string) : option string :=
  rest ← Str.strip_prefix prefix p;
  if bool_decide (prefix = "") || Str.starts_with rest "/" then Some rest else None.
Definition pattern_agrees (pattern p : string) : bool :=
  match Str.find pattern "{" with
  | None => bool_decide (pattern = p)
  | Some i => bool_decide (Str.stake i p = Str.stake i pattern)
  end.
Fixpoint service_answer (s : Service) (m : Method) (p : string) : option (option Target) :=
  match s with
  | Route m' pattern t =>
      if bool_decide (m = m') && pattern_agrees pattern p then Some (Some t) else None
  | Scope prefix inner =>
      (λ rest, (fix go l := match l with
         | [] => None
         | s :: l => match service_answer s m rest with Some r => r | None => go l end
         end) inner) <$> path_below prefix p
  | Files mount dir => if path_below mount p then Some (Some (TAssets dir)) else None
  end.
#[export] Instance actix : Actix := {|
  pattern_matches := pattern_agrees; below := path_below;
  served_by := fix go l m p := match l with
    | [] => None
    | s :: l => match service_answer s m p with Some r => r | None => go l m p end
    end |}.
#[export] Instance actix_laws : ActixLaws.
Proof.
  split; try done.
  - intros m' pattern t l m p. simpl. by destruct (_ && _).
  - intros prefix inner l m p. simpl. destruct (path_below prefix p) as [rest|]; [|done]. simpl.
    induction inner as [|s inner IH]; [done|]. by destruct (service_answer s m rest).
  - intros mount dir l m p. simpl. by destruct (path_below mount p).
  - intros pattern p E. simpl. unfold pattern_agrees. by rewrite E.
  - intros pattern p i E. simpl. unfold pattern_agrees. rewrite E. by intros ?%bool_decide_eq_true.
  - intros prefix p rest. simpl. unfold path_below.
    destruct (Str.strip_prefix prefix p) as [r|] eqn:E; [|done]. simpl.
    case_match; [|done]. intros [= <-]. by apply strip_prefix_Some.
  - intros prefix rest. unfold below. cbn [actix]. unfold path_below.
    assert (Str.strip_prefix prefix (prefix +:+ "/" +:+ rest) = Some ("/" +:+ rest)) as ->
      by (by apply strip_prefix_Some).
    cbn [mbind option_bind].
    assert (Str.starts_with ("/" +:+ rest) "/" = true) as -> by apply starts_with_app.
    by rewrite orb_true_r.
Qed.

Definition rng : Rng := λ lo _, lo.

(** ** A workspace with one endpoint, one job and one execution *)

Definition spec : json := JObject [("url", JString "http://svc/run")].
Definition endpoint : Endpoint := {|
  ep_name := "hook"; ep_endpoint_type := "HTTP"; ep_payload_spec_ref := None;
  ep_config_ref := None; ep_spec := spec;
  ep_retry_policy := Some (JObject [("max_attempts", JInt 3)]);
  ep_created_at := 0; ep_updated_at := 0 |}.
Definition job : Job := new_job "j1" "hook" "HTTP" "IMMEDIATE" (Some "k1") None 0.
Definition execution : Execution :=
  new_execution "x1" "j1" "hook" "HTTP" (Some "k1") "QUEUED" 0 None 3 0.
Definition cron_job : Job :=
  cron_row "c1" "hook" "HTTP" None None (Some "* * * * *") (Some "UTC") None (Some 100)
    (Some 60) 1 None 0.
Definition tenant : Tenant := {|
  t_payload_specs := ∅; t_configs := ∅; t_secrets := ∅;
  t_endpoints := {["hook" := endpoint]};
  t_jobs := <["c1" := cron_job]> {["j1" := job]};
  t_executions := {["x1" := execution]}; t_attempts := ∅; t_execution_logs := ∅ |}.
Definition organization : Organization := {|
  o_org_id := "o1"; o_name := "Acme"; o_slug := "acme"; o_status := "ACTIVE";
  o_created_at := 0; o_updated_at := 0 |}.
Definition workspace : Workspace := {|
  w_workspace_id := "w1"; w_org_id := "o1"; w_name := "main"; w_slug := "main";
  w_schema_name := "o1_main"; w_status := "ACTIVE"; w_schema_version := 1;
  w_created_at := 0; w_updated_at := 0 |}.
Definition store : Store := {|
  st_orgs := {["o1" := organization]}; st_workspaces := {["w1" := workspace]};
  st_tenants := {[("o1_main", "") := tenant]};
  st_cron := {["invokr_o1_main_c1" :=
    {| cron_schedule := "* * * * *"; cron_command := build_cron_command "" "o1_main" "c1" |}]} |}.

Definition key : string * string := ("o1_main", "").
Definition ws : WorkspaceContext :=
  {| wc_org_id := "o1"; wc_workspace_id := "w1"; wc_schema_name := "o1_main" |}.
Definition db : DbContext := {| db_schema := "o1_main"; db_prefix := "" |}.

(** A session at the instant [now], before the stimuli [env]. *)
Definition session_at (now : Z) (env : list Stim) : Session := {|
  ss_begin := None; ss_failed := false; ss_now := now; ss_env := env; ss_locked := ∅;
  ss_store := store |}.
Definition session : Session := session_at 10 [].
(** ... in a transaction. *)
Definition tx_session : Session := begin_at session.

Definition context : PipelineContext := {|
  pc_encryption_key := default_encryption_key; pc_table_prefix := "" |}.
Definition world_of (s : Session) (net : list NetStim) : World := {|
  wd_session := s; wd_outbox := []; wd_net := net; wd_clock := [];
  wd_configs := cache_new 60; wd_secrets := cache_new 300 |}.
Definition answer_http (status : Z) : NetStim := {|
  ns_http := HttpResp status "done"; ns_kafka := KafkaErr ""; ns_redis := RedisErr "" |}.

(** The rows of its executions: just one. *)
Lemma rows k id e : execs k store !! id = Some e → k = key ∧ id = "x1" ∧ e = execution.
Proof.
  unfold execs, store. cbn [st_tenants]. destruct (decide (k = key)) as [->|Hk].
  - rewrite lookup_singleton_eq. intros He.
    by apply (lookup_singleton_Some (M:=gmap string) "x1" id execution e) in He as [<- <-].
  - by rewrite lookup_singleton_ne.
Qed.
End Sample.
