(* ===== verification/PropsSystem.v ===== *)
(** * Properties of the program as a whole

    Executions under every interleaving of API requests, library calls, worker
    tasks and pg_cron; what a worker task commits. *)

From S2P Require Export Samples Versions.
#[local] Open Scope Z_scope.

(** No execution is [RUNNING] in the committed store. *)
Definition none_running (σ : Store) : Prop :=
  ∀ k id e, execs k σ !! id = Some e → e_status e ≠ "RUNNING".

Lemma outcome_not_running now e e' : outcome now e e' → e_status e' ≠ "RUNNING".
Proof. intros []; [done..|]. simpl. by case_bool_decide. Qed.

Lemma committed_none_running k worker_id now locked σ σ' :
  committed_outcome k worker_id now locked σ σ' → none_running σ → none_running σ'.
Proof.
  intros [->|id e e' _ _ _ _ Ho Hk Hrep] Hn k2 id2 e2; [apply Hn|].
  destruct (decide (k2 = k)) as [->|Hne].
  2: { rewrite (elsewhere_execs _ _ _ _ (rp_elsewhere _ _ _ _ _ _ _ Hrep) Hne). apply Hn. }
  rewrite Hk. destruct (decide (id = id2)) as [->|Hid].
  - rewrite lookup_insert_eq. intros [= <-]. by eapply outcome_not_running.
  - rewrite lookup_insert_ne by done. apply Hn.
Qed.

(** The times of a finished execution: claim and outcome see the same [now()]. *)
Lemma outcome_duration now w e e' :
  outcome now (claim_update now w e) e' → terminal e' →
  e_duration_ms e' = Some 0 ∧ e_started_at e' = Some now ∧ e_completed_at e' = Some now.
Proof.
  assert (duration_since now (Some now) = Some 0) as Hd.
  { unfold duration_since. simpl. by rewrite Z.sub_diag. }
  intros [o| |b Hlt] Ht; [done..|].
  exfalso. revert Ht. unfold terminal. simpl in *. rewrite bool_decide_eq_false_2 by lia.
  set_unfold. naive_solver congruence.
Qed.

Section system.
Context `{!Chrono} `{!CronCrate} `{!Base64} `{!JsonSchemaCrate} `{!Jsonb} `{!Aes256Gcm} `{!Utf8}.
Context `{!SerdeJson} `{!SqlDisplay}.

(** C1: whatever operations of the API, of library clients, of workers and of
    pg_cron run, and however their statements interleave, an execution is never
    lost, its identity, endpoint, input and attempt limit never change, its
    attempt count never decreases, and once it is SUCCESS, FAILED or CANCELLED its
    row never changes again. *)
Theorem executions_have_one_life σ σ' k id e :
  evolves σ σ' → execs k σ !! id = Some e →
  ∃ e', execs k σ' !! id = Some e' ∧ life e e'.
Proof. intros Hev. apply (evolves_execs life_map _ _ Hev k). Qed.

(** C2: the invariant of the rows -- the attempt count between 0 and the limit (or
    1), 0 while the execution waits for its first run, below the limit while it
    waits for a retry, and a completion time exactly on the final statuses --
    holds after every interleaving of operations if it held before. *)
Theorem executions_stay_well_formed σ σ' :
  evolves σ σ' →
  (∀ k id e, execs k σ !! id = Some e → exec_wf e) →
  ∀ k id e, execs k σ' !! id = Some e → exec_wf e.
Proof.
  intros Hev Hw k. apply (evolves_execs wf_map _ _ Hev k). intros id e. apply Hw.
Qed.

(** C3: the rows of a workspace stay well typed and consistent under every
    interleaving: statuses, triggers and endpoint types in their domains; every row
    under its own key; no dangling reference between endpoints, definitions, jobs,
    executions, attempts and logs; idempotency keys and attempt numbers unique; an
    execution copies the endpoint, type and input of its job; a job has a
    retirement time exactly when it is RETIRED; its version links end at a version 1. *)
Theorem tables_stay_sound σ σ' : evolves σ σ' → store_ok σ → store_ok σ'.
Proof. intros Hev. by apply moves_store_ok, evolves_moves. Qed.

(** C14: whatever operations run and however they interleave, a job is never lost,
    its endpoint, trigger, version, predecessor, key, input and cron expression never
    change, and once it is RETIRED its row never changes again: an update makes a new
    version instead. *)
Theorem jobs_have_one_life σ σ' k t id j :
  evolves σ σ' → st_tenants σ !! k = Some t → t_jobs t !! id = Some j →
  ∃ t' j', st_tenants σ' !! k = Some t' ∧ t_jobs t' !! id = Some j' ∧ job_life j j'.
Proof.
  intros Hev%evolves_moves Ht Hj.
  apply (stable_job_life k id j _ _ Hev). exists t, j. by repeat split.
Qed.

(** C15: the list of versions of a job is the chain that leads up to it: from whatever
    sound database the program started, the query answers the versions 1 to n of a job
    of version n in ascending order, the job asked for last, where each row names the
    one before it as its predecessor and all of them belong to one endpoint (as long as
    the workspace has fewer than [2^63] jobs).  Later versions of the same job are not in
    it, and the order is the reverse of the documented one: docs/guides/versioning.md
    (106, 132) and docs/architecture/exactly-once.md (89) say that the complete chain
    comes back, newest first, whichever version is asked for. *)
Theorem version_history_ends_at_the_job σ0 db id s l s' t j :
  store_ok σ0 → evolves σ0 (ss_store s') →
  jobs_get_versions db id s = (Ok l, s') →
  st_tenants (ss_store s') !! (db_schema db, db_prefix db) = Some t →
  t_jobs t !! id = Some j → Z.of_nat (size (t_jobs t)) < 2 ^ 63 →
  list.last l = Some j ∧ Z.of_nat (length l) = j_version j
  ∧ ∀ i x, l !! i = Some x →
      nth_version (t_jobs t) l i x ∧ j_endpoint x = j_endpoint j.
Proof.
  intros Hok Hev Hrun Ht Hj Hs.
  assert (tenant_ok t) as [_ [Hk _ _ Hlin] _ _].
  { eapply moves_store_ok; [by apply evolves_moves|done|done]. }
  apply read_ok in Hrun as (t2 & Ht2 & ->). simplify_eq.
  destruct (Hlin _ _ Hj) as [c Hc]. destruct (lineage_head _ _ _ Hc) as (j' & c' & E & Hj').
  rewrite (lineage_chain _ _ _ _ Hc (lineage_length _ _ _ Hk Hc)).
  rewrite (versions_reverse _ _ _ Hk Hs Hc). simplify_eq. split_and!.
  - by rewrite reverse_cons, last_snoc.
  - rewrite length_reverse.
    rewrite (lineage_numbers _ _ _ 0%nat _ Hk Hs Hc eq_refl). lia.
  - intros i x Hx. split; [by eapply reverse_nth_version|].
    eapply lineage_endpoint; [done|done|]. apply elem_of_reverse.
    by eapply list_elem_of_lookup_2.
Qed.
End system.

(** ** A worker task *)

Section task.
Context `{!SerdeJson} `{!SqlDisplay} `{!Aes256Gcm} `{!Utf8}.
Context (rng : Rng) (ctx : PipelineContext) (worker_id : string).

(** C10: a worker task refines its specification.  It takes the schemas in their
    order.  Before each BEGIN the other clients may commit and the clock moves to the
    time of that BEGIN; then nothing at all is committed, or, with the result [true],
    one execution of that schema that is due at that time, that no other transaction
    holds and that no such execution precedes has run once more and succeeded, failed
    or waits for its retry, and the task is over.  The same commit holds the attempts and
    logs of that attempt and, for an INTERNAL execution, the retirement of expired cron
    jobs and fewer pg_cron entries; the definitions, the control tables and the other
    workspaces stay as they were.  The result [false] means that every schema was
    passed without a commit.  The task leaves no transaction open.  Each transaction is
    taken as one unit at the store its BEGIN found. *)
Theorem worker_task_refines_specification schemas w :
  ss_begin (wd_session w) = None →
  let run := claim_and_process (E:=Empty_set) rng ctx worker_id schemas w in
  ss_begin (wd_session run.2) = None
  ∧ task_spec (pc_table_prefix ctx) worker_id (ss_locked (wd_session w)) schemas
      (ss_now (wd_session w)) (ss_env (wd_session w))
      (ss_store (wd_session w)) run.1 (ss_store (wd_session run.2)).
Proof. apply task_refines. Qed.

(** C11: no execution is left RUNNING by a task, whether it succeeds, fails, loses
    its connection, panics or is aborted by the server: if no committed row is
    RUNNING before and the other clients leave none, none is RUNNING after. *)
Theorem task_leaves_nothing_running others schemas w :
  ss_begin (wd_session w) = None → respects others (wd_session w) →
  (∀ σ σ', others σ σ' → none_running σ → none_running σ') →
  none_running (ss_store (wd_session w)) →
  none_running (ss_store (wd_session
    (claim_and_process (E:=Empty_set) rng ctx worker_id schemas w).2)).
Proof.
  intros Hb Hr Ho Hn. destruct (task_refines rng ctx worker_id schemas w Hb) as [_ Hs].
  destruct (task_spec_steps _ _ _ _ _ _ _ _ _ others Hs Hr) as (σ1 & Hrun & Hend).
  assert (none_running σ1) as Hn1 by (clear -Hrun Hn Ho; induction Hrun; eauto).
  destruct Hend as [->|(schema & now & _ & Hc)]; [done|]. by eapply committed_none_running.
Qed.

(** The attempt of an execution that succeeds or fails for good is recorded
    with a duration of zero milliseconds and a completion time equal to its start:
    claim and completion share one transaction, whose clock stands still. *)
Theorem committed_duration_is_zero k now locked σ σ' id e' :
  committed_outcome k worker_id now locked σ σ' →
  execs k σ' !! id = Some e' → execs k σ !! id ≠ Some e' → terminal e' →
  e_duration_ms e' = Some 0 ∧ e_started_at e' = Some now ∧ e_completed_at e' = Some now.
Proof.
  intros [->|id0 e e0 He Hc _ _ Ho Hk _] He' Hne Ht; [done|].
  rewrite Hk in He'. destruct (decide (id0 = id)) as [->|Hid].
  - rewrite lookup_insert_eq in He'. injection He' as <-. by eapply outcome_duration.
  - by rewrite lookup_insert_ne in He'.
Qed.
End task.

(** ** Witnesses *)

#[local] Existing Instances Sample.chrono Sample.cron_crate Sample.base64 Sample.json_schema
  Sample.jsonb Sample.utf8 Sample.serde Sample.sql_display Sample.aes Sample.clouds.

(** A sample operation: the library client cancels the job of the sample store. *)
Definition cancelled_store : Store :=
  committed (lib_cancel_job Sample.context "o1_main" "j1" Sample.session).2.

Lemma sample_evolves : evolves Sample.store cancelled_store.
Proof.
  change Sample.store with (ss_store Sample.session). unfold cancelled_store.
  apply (Ev_op (λ s, (lib_cancel_job Sample.context "o1_main" "j1" s).2)).
  - apply (Op_library Sample.context), L_cancel_job.
  - done.
  - intros st Hst. by apply elem_of_nil in Hst.
Defined.

Lemma executions_have_one_life_witness :
  ∃ e', execs Sample.key cancelled_store !! "x1" = Some e' ∧ life Sample.execution e'.
Proof. apply (executions_have_one_life Sample.store); [apply sample_evolves|by vm_compute]. Defined.

Lemma sample_wf k id e : execs k Sample.store !! id = Some e → exec_wf e.
Proof.
  intros (_ & _ & ->)%Sample.rows. split; vm_compute; [done|done|done|]. split; [by intros []|].
  intros H. apply list_elem_of_In in H. naive_solver.
Qed.

Lemma executions_stay_well_formed_witness :
  ∃ e, execs Sample.key cancelled_store !! "x1" = Some e ∧ e_status e = "CANCELLED" ∧ exec_wf e.
Proof.
  eexists. split_and!; [vm_compute; reflexivity|reflexivity|].
  apply (executions_stay_well_formed Sample.store cancelled_store sample_evolves sample_wf
           Sample.key "x1").
  vm_compute. reflexivity.
Defined.

(** The sample tenant is built by four insertions. *)
Lemma sample_tenant_ok : tenant_ok Sample.tenant.
Proof.
  pose (t1 := set_endpoints {["hook" := Sample.endpoint]} empty_tenant).
  pose (t2 := set_jobs {["j1" := Sample.job]} t1).
  pose (t3 := set_jobs (<["c1" := Sample.cron_job]> {["j1" := Sample.job]}) t1).
  apply (move_tenant_ok t3); [|apply (move_tenant_ok t2); [|apply (move_tenant_ok t1);
    [|apply (move_tenant_ok empty_tenant); [|apply empty_tenant_ok]]]].
  - apply (TM_execution t3 Sample.db Sample.execution "j1" Sample.job).
    + split_and!; [done|apply list_elem_of_here|done..].
    + by vm_compute.
    + done.
    + by vm_compute.
  - by apply (TM_job t2 Sample.db Sample.cron_job); [| |vm_compute].
  - by apply (TM_job t1 Sample.db Sample.job); [| |vm_compute].
  - apply (TM_endpoint _ Sample.db Sample.endpoint). by vm_compute.
Qed.

Lemma sample_store_ok : store_ok Sample.store.
Proof.
  intros k t. cbn [Sample.store st_tenants]. intros [_ <-]%lookup_singleton_Some.
  apply sample_tenant_ok.
Qed.

Lemma tables_stay_sound_witness : store_ok Sample.store ∧ store_ok cancelled_store.
Proof.
  split; [apply sample_store_ok|].
  apply (tables_stay_sound Sample.store); [apply sample_evolves|apply sample_store_ok].
Defined.

Lemma jobs_have_one_life_witness :
  ∃ t' j', st_tenants cancelled_store !! Sample.key = Some t' ∧ t_jobs t' !! "j1" = Some j'
    ∧ job_life Sample.job j'.
Proof.
  apply (jobs_have_one_life Sample.store cancelled_store Sample.key Sample.tenant "j1");
    [apply sample_evolves|by vm_compute|by vm_compute].
Defined.

(** An update of the CRON job of the sample store. *)
Definition sample_update : UpdateJob := {|
  uj_cron := None; uj_timezone := None; uj_starts_at := None; uj_ends_at := None;
  uj_input := Some (JInt 1) |}.
Definition uuid_stim (u : string) : Stim := {|
  stim_fault := None; stim_uuid := u; stim_pick := 0; stim_now := 20; stim_others := id |}.
Definition updated_session : Session :=
  (jobs_update "" Sample.ws 20 "c1" sample_update
     (Sample.session_at 20 [uuid_stim ""; uuid_stim ""; uuid_stim ""; uuid_stim ""; uuid_stim "c2"])).2.

Lemma update_evolves : evolves Sample.store (committed updated_session).
Proof.
  apply (Ev_op (λ s, (jobs_update "" Sample.ws 20 "c1" sample_update s).2)
    (Sample.session_at 20 [uuid_stim ""; uuid_stim ""; uuid_stim ""; uuid_stim ""; uuid_stim "c2"])).
  - apply Op_api, H_jobs_update.
  - done.
  - intros st Hst σ. replace (stim_others st σ) with σ; [apply Ev_refl|].
    simpl in Hst. set_unfold. naive_solver.
Qed.

Definition versions_run : res SqlError (list Job) * Session :=
  jobs_get_versions Sample.db "c2" updated_session.
Definition versions_found : list Job := match versions_run.1 with Ok l => l | _ => [] end.
Definition updated_tenant : Tenant := tenant_at Sample.key (ss_store versions_run.2).
Definition second_version : Job := default Sample.cron_job (t_jobs updated_tenant !! "c2").

Lemma versions_evolves : evolves Sample.store (ss_store versions_run.2).
Proof.
  replace (ss_store versions_run.2) with (committed updated_session) by (vm_compute; reflexivity).
  apply update_evolves.
Qed.

Lemma version_history_ends_at_the_job_witness :
  (j_version <$> versions_found) = [1; 2]
  ∧ list.last versions_found = Some second_version
  ∧ Z.of_nat (length versions_found) = j_version second_version
  ∧ ∀ i x, versions_found !! i = Some x →
      nth_version (t_jobs updated_tenant) versions_found i x
      ∧ j_endpoint x = j_endpoint second_version.
Proof.
  split; [vm_compute; reflexivity|].
  apply (version_history_ends_at_the_job Sample.store Sample.db "c2" updated_session _ versions_run.2
    updated_tenant second_version sample_store_ok versions_evolves); vm_compute; reflexivity.
Defined.

(** A task that claims the sample execution and gets an answer of status 200. *)
Definition sample_world : World := Sample.world_of Sample.session [Sample.answer_http 200].

Lemma worker_task_refines_specification_witness :
  let run := claim_and_process (E:=Empty_set) Sample.rng Sample.context "worker-1"
               ["o1_main"] sample_world in
  ss_begin (wd_session run.2) = None
  ∧ task_spec "" "worker-1" ∅ ["o1_main"] (ss_now Sample.session) (ss_env Sample.session)
      Sample.store run.1 (ss_store (wd_session run.2)).
Proof.
  apply (worker_task_refines_specification Sample.rng Sample.context "worker-1" ["o1_main"]
    sample_world eq_refl).
Defined.

Lemma sample_none_running : none_running Sample.store.
Proof. by intros k id e (_ & _ & ->)%Sample.rows. Qed.

Lemma task_leaves_nothing_running_witness :
  none_running (ss_store (wd_session
    (claim_and_process (E:=Empty_set) Sample.rng Sample.context "worker-1" ["o1_main"]
       sample_world).2)).
Proof.
  apply (task_leaves_nothing_running Sample.rng Sample.context "worker-1" eq ["o1_main"]
    sample_world eq_refl).
  - intros st Hst. by apply elem_of_nil in Hst.
  - by intros σ σ' ->.
  - apply sample_none_running.
Defined.

(** The sample execution, claimed at 10 and successful. *)
Definition succeeded : Execution :=
  success_update 10 JNull (claim_update 10 "worker-1" Sample.execution).
Definition succeeded_store : Store :=
  set_tenant Sample.key (set_executions {["x1" := succeeded]} Sample.tenant) Sample.store.

Lemma sample_committed :
  committed_outcome Sample.key "worker-1" 10 ∅ Sample.store succeeded_store.
Proof.
  apply (Com_outcome _ _ _ _ _ _ "x1" Sample.execution succeeded).
  - by vm_compute.
  - split; [set_solver|done].
  - set_solver.
  - by intros id e (_ & _ & ->)%Sample.rows.
  - constructor.
  - by vm_compute.
  - split; try done.
    + intros k Hk. cbn. by rewrite lookup_insert_ne.
    + intros t Ht. exists (set_executions {["x1" := succeeded]} t).
      split; [|apply set_executions_reported]. cbn. rewrite lookup_insert_eq.
      assert (t = Sample.tenant) as ->; [|done].
      apply (inj Some). rewrite <-Ht. by vm_compute.
Qed.

Lemma committed_duration_is_zero_witness :
  e_duration_ms succeeded = Some 0 ∧ e_started_at succeeded = Some 10
  ∧ e_completed_at succeeded = Some 10.
Proof.
  apply (committed_duration_is_zero "worker-1" Sample.key 10 ∅ Sample.store succeeded_store "x1").
  - apply sample_committed.
  - by vm_compute.
  - by vm_compute.
  - unfold terminal. simpl. set_solver.
Defined.
