(* ===== verification/PropsPolling.v ===== *)
(** * Properties of the polling worker

    The queue empties; the loop neither stalls nor overruns its permits, and a clean
    shutdown is final. *)

From S2P Require Export PropsSystem Drain PollLoop Retries.
#[local] Open Scope Z_scope.

Section drain.
Context `{!SerdeJson} `{!SqlDisplay} `{!Aes256Gcm} `{!Utf8}.
Context (rng : Rng) (ctx : PipelineContext) (worker_id : string).

(** C9: the queue drains.  In a calm world -- no statement fails, nobody else
    writes, the policies' delays are in range, specs are at most [L] characters long
    and workspaces have at most [J] jobs -- as many tasks as the due executions have
    runs left leave nothing due: every execution that was due has run again, and has
    succeeded, failed, or waits for a retry in the future. *)
Theorem queue_drains L J now locked schemas b n w schema id e :
  (∀ p, hex_decode (pc_encryption_key ctx) ≠ Panic p) → NoDup schemas →
  (backlog ctx now locked schemas (ss_store (wd_session w)) ≤ b)%nat →
  at_rest ctx L J now locked schemas (b * task_cost L J schemas + n) w →
  schema ∈ schemas →
  due now locked (execs (schema, pc_table_prefix ctx) (ss_store (wd_session w))) id e →
  ∃ e', execs (schema, pc_table_prefix ctx)
          (ss_store (wd_session (run_tasks rng ctx worker_id schemas b w))) !! id = Some e'
    ∧ e_attempt_count e < e_attempt_count e'
    ∧ (e_status e' ∈ ["SUCCESS"; "FAILED"] ∨ e_status e' = "RETRYING" ∧ now < e_run_at e').
Proof.
  intros Hkey Hnd Hb Hr Hin Hd.
  destruct (run_tasks_drain rng ctx worker_id L J now locked Hkey schemas b n w Hnd Hr Hb) as (_ & Hp & Hnone).
  destruct Hd as (He & Hc & Hl). destruct (Hp _ _ _ He) as (e' & He' & Hpr).
  exists e'. split; [done|]. specialize (Hnone _ Hin).
  assert (¬ claimable now e') as Hnc by (intros Hc'; apply Hnone; by exists id, e').
  destruct Hpr as [->|[Ha Hs]]; [done|]. split; [done|].
  destruct (decide (e_status e' = "RETRYING")) as [E|E]; [right|left; set_solver].
  split; [done|]. apply Z.nle_gt. intros Hle. apply Hnc. split; [|done]. rewrite E. set_solver.
Qed.

(** C35: retries reach an endpoint that is flaky for a while.  The endpoint is the mock
    server's, which answers 200 from the [N]th request on and 500 before; the spec of the
    HTTP endpoint has no templates and no config and expects 200 and not 500.  After [n]
    tasks, each in a calm world of its own (no fault, no other writer) in which only this
    execution, never attempted before, is due, [n] requests have been sent, all the same
    and all with the same idempotency key, never more than [N] nor than the execution's
    attempts allow; the execution has succeeded exactly at the [N]th, with the text of that
    answer as its output, has failed when its attempts ran out before, and otherwise waits:
    from [run_at] on it is due again. *)
Theorem retries_reach_a_flaky_endpoint L J schema t0 id e0 ep w0 query bodies n w :
  let key := (schema, pc_table_prefix ctx) in
  let rows w := execs key (ss_store (wd_session w)) in
  let spec := inject_body (ep_spec ep) (e_input e0) in
  let N := Z.max 1 (succeed_after query) in
  (∀ p, hex_decode (pc_encryption_key ctx) ≠ Panic p) →
  st_tenants (ss_store (wd_session w0)) !! key = Some t0 →
  rows w0 !! id = Some e0 → e_attempt_count e0 = 0 →
  e_endpoint_type e0 = "HTTP" → t_endpoints t0 !! e_endpoint e0 = Some ep →
  flaky_service ep spec query bodies w0 →
  rounds rng ctx worker_id L J schema id w0 n w →
  ∃ e, rows w !! id = Some e ∧ e_attempt_count e = Z.of_nat n
    ∧ Z.of_nat n ≤ N ∧ Z.of_nat n ≤ Z.max 1 (e_max_attempts e0)
    ∧ wd_outbox w = wd_outbox w0
        ++ replicate n (SentHttp (http_request spec (request_key t0 id e0)))
    ∧ ((0 < n)%nat → e_status e = if bool_decide (N ≤ Z.of_nat n) then "SUCCESS"
         else if bool_decide (e_max_attempts e0 ≤ Z.of_nat n) then "FAILED" else "RETRYING")
    ∧ ((0 < n)%nat → Z.of_nat n < N → Z.of_nat n < e_max_attempts e0 →
         ∀ now locked, e_run_at e ≤ now → id ∉ locked → due now locked (rows w) id e)
    ∧ ((0 < n)%nat → Z.of_nat n = N → flaky_output N bodies (e_output e)).
Proof.
  intros key rows spec N Hkey Ht He Hz Hty Hep Hs Hr.
  destruct (rounds_flaky rng ctx worker_id L J Hkey schema t0 id e0 ep w0 query bodies Ht He Hz Hty
    Hep Hs n w Hr) as [e [Hrow _ _ Hcount Hst _ Hkept HN Hmax Hout _ _]].
  exists e. split_and!; try done. intros Hn HnN Hnm now locked Hrun Hl. split_and!; [done| |done].
  split; [|done]. rewrite (Hst Hn). unfold flaky_status.
  rewrite !bool_decide_eq_false_2 by lia. set_solver.
Qed.
End drain.

(** ** The loop *)

(** C12: the worker never runs more than [max_concurrent] tasks at once, and a
    shutdown that ends before its timeout is final: no task is in flight any more, and
    from then on nothing but the other clients changes the database
    ([max_concurrent] below [2^32], to which [acquire_many] truncates it). *)
Theorem shutdown_waits_for_every_task prefix worker_id others now max interval floor σ x y :
  0 ≤ max < 2 ^ 32 →
  rtc (worker_step max prefix worker_id others) (poll_init now max interval floor, σ) x →
  rtc (worker_step max prefix worker_id others) x y →
  Z.of_nat (length (pl_tasks x.1)) ≤ max
  ∧ (pl_pc x.1 = PDone true → pl_tasks y.1 = [] ∧ rtc others x.2 y.2).
Proof.
  intros Hm Hx Hy. pose proof (permits_init now max interval floor ltac:(lia)) as Hi. split.
  - destruct (worker_run_permits _ _ _ _ _ _ Hx Hi) as [Hp Hs].
    destruct (pl_pc x.1); simpl in Hs; lia.
  - intros Hpc. destruct (quiet_run max prefix worker_id others x y Hy) as [[_ Ht] Ho]; [|done].
    by eapply done_is_shut_down.
Qed.

(** C13: the loop never stalls.  In every state it reaches, unless it is shutting down
    or cancelled, some event that brings it on is possible -- a tick, the end of a
    wait, a permit, or the end of a task in flight -- and after at most
    [max_concurrent + 4] of them, without a cancellation or a failed fetch of the
    schemas, it has spawned a task. *)
Theorem poller_keeps_polling now max interval floor evs0 s evs s' :
  0 < max →
  poll_run max evs0 (poll_init now max interval floor) = Some s → awake s →
  Forall (λ ev, undisturbed ev = true ∧ spawns ev = false) evs →
  poll_run max evs s = Some s' →
  Z.of_nat (length evs) ≤ max + 4
  ∧ ∃ ev s'', undisturbed ev = true ∧ poll_next max ev s' = Some s''.
Proof.
  intros Hm H0 Ha Hf H1.
  pose proof (poll_run_permits _ _ _ _ H0 (permits_init now max interval floor ltac:(lia))) as Hp.
  destruct (no_spawn_is_short _ _ _ _ Ha Hf H1) as [Ha' Hd]. split.
  - destruct Hp as [Hp Hs]. unfold distance in Hd. destruct (pl_pc s); simpl in *; lia.
  - apply can_go_on; [done| |done]. by eapply poll_run_permits.
Qed.

(** ** Witnesses *)

#[local] Existing Instances Sample.chrono Sample.cron_crate Sample.base64 Sample.json_schema
  Sample.jsonb Sample.utf8 Sample.serde Sample.sql_display Sample.aes Sample.clouds.

(** Sixty calm statements; nobody answers the three requests. *)
Definition calm_at (i : nat) : Stim := {|
  stim_fault := None; stim_uuid := Str.dec (Z.of_nat i); stim_pick := 0; stim_now := 10;
  stim_others := id |}.
Definition calm_env : list Stim := calm_at <$> seq 0 60.
Definition calm_world : World := Sample.world_of (Sample.session_at 10 calm_env) [].

Lemma calm_env_calm : env_calm 10 calm_env.
Proof.
  split.
  - apply list.Forall_forall. intros st (i & -> & _)%list_elem_of_fmap. by split.
  - apply (bool_decide_unpack _). vm_compute. exact I.
Qed.

Lemma calm_tenant : tenant_calm 2 2 10 calm_env Sample.tenant.
Proof.
  split.
  - apply list.Forall_forall. by intros st (i & -> & _)%list_elem_of_fmap.
  - apply map_Forall_singleton. split; [vm_compute; lia|]. split; [by vm_compute|].
    intros b. replace (rp_max_delay_ms _) with 60000 by (by vm_compute).
    unfold timestamp_ok, millis. lia.
  - vm_compute. lia.
Qed.

Lemma calm_at_rest : at_rest Sample.context 2 2 10 ∅ ["o1_main"] (3 * 17 + 9) calm_world.
Proof.
  split; [done..| |by vm_compute]. split.
  - apply sample_store_ok.
  - intros k id e He. split; [by eapply sample_wf|].
    apply Sample.rows in He as (_ & _ & ->). vm_compute. by intros.
  - apply list.Forall_singleton. split; [done|]. exists Sample.tenant. split; [done|apply calm_tenant].
  - apply calm_env_calm.
Qed.

Lemma queue_drains_witness :
  ∃ e', execs Sample.key (ss_store (wd_session
          (run_tasks Sample.rng Sample.context "worker-1" ["o1_main"] 3 calm_world))) !! "x1" = Some e'
    ∧ e_attempt_count Sample.execution < e_attempt_count e'
    ∧ (e_status e' ∈ ["SUCCESS"; "FAILED"] ∨ e_status e' = "RETRYING" ∧ 10 < e_run_at e').
Proof.
  apply (queue_drains Sample.rng Sample.context "worker-1" 2 2 10 ∅ ["o1_main"] 3 9 calm_world "o1_main" "x1"
    Sample.execution).
  - by vm_compute.
  - apply NoDup_singleton.
  - apply Nat.leb_le. vm_compute. reflexivity.
  - apply calm_at_rest.
  - left.
  - split; [by vm_compute|]. split; [split; [apply list_elem_of_here|done]|set_solver].
Defined.

(** The endpoint of the sample answers 500, then 200; the second task runs later. *)
Definition flaky_query : list (string * string) := [("succeed_after", "2")].
Definition flaky_world : World := Sample.world_of (Sample.session_at 10 calm_env)
  (net_of <$> flaky_answers flaky_query [JNull; JNull] {| ms_request_count := 0 |}).
Definition poll_once (w : World) : World :=
  (claim_and_process (E:=Empty_set) Sample.rng Sample.context "worker-1" ["o1_main"] w).2.
Definition failed_world : World := poll_once (resume ∅ calm_env flaky_world).
Definition later_at (i : nat) : Stim := {|
  stim_fault := None; stim_uuid := Str.dec (Z.of_nat i); stim_pick := 0; stim_now := 5000000;
  stim_others := id |}.
Definition later_env : list Stim := later_at <$> seq 100 20.
Definition later_world : World := resume ∅ later_env failed_world.
Definition failed_tenant : Tenant :=
  default empty_tenant (st_tenants (ss_store (wd_session failed_world)) !! Sample.key).

Lemma first_at_rest : at_rest Sample.context 2 2 10 ∅ ["o1_main"] (17 + 9) (resume ∅ calm_env flaky_world).
Proof.
  assert (at_rest Sample.context 2 2 10 ∅ ["o1_main"] (3 * 17 + 9) flaky_world) as H
    by (destruct calm_at_rest; by constructor).
  eapply resume_at_rest; [exact H|apply calm_env_calm|apply Nat.leb_le; reflexivity|].
  apply list.Forall_singleton. exists Sample.tenant. split; [done|apply calm_tenant].
Qed.

Lemma failed_at_rest : at_rest Sample.context 2 2 10 ∅ ["o1_main"] 9 failed_world.
Proof.
  destruct (task_serves Sample.rng Sample.context "worker-1" 2 2 10 ∅ ltac:(by vm_compute)
    ["o1_main"] ["o1_main"] 9 _ (λ _ Hx, Hx) first_at_rest) as (found & w' & E & Hr & _).
  unfold failed_world, poll_once. by rewrite E.
Qed.

Lemma failed_tenant_is : st_tenants (ss_store (wd_session failed_world)) !! Sample.key = Some failed_tenant.
Proof. vm_compute. reflexivity. Qed.

Definition failed_execution : Execution :=
  default Sample.execution (t_executions failed_tenant !! "x1").

Lemma failed_rows : execs Sample.key (ss_store (wd_session failed_world)) = {["x1" := failed_execution]}.
Proof. vm_compute. reflexivity. Qed.

Lemma failed_tenant_calm : tenant_calm 2 2 5000000 later_env failed_tenant.
Proof.
  split.
  - unfold fresh_for. apply (bool_decide_unpack _). vm_compute. exact I.
  - assert (t_endpoints failed_tenant = {["hook" := Sample.endpoint]}) as ->
      by (vm_compute; reflexivity).
    apply map_Forall_singleton. split; [vm_compute; lia|]. split; [by vm_compute|].
    intros b. replace (rp_max_delay_ms _) with 60000 by (by vm_compute).
    unfold timestamp_ok, millis. lia.
  - apply Nat.leb_le. vm_compute. reflexivity.
Qed.

Lemma later_at_rest : at_rest Sample.context 2 2 5000000 ∅ ["o1_main"] 17 later_world.
Proof.
  eapply resume_at_rest; [apply failed_at_rest|split|apply Nat.leb_le; reflexivity|].
  - apply list.Forall_forall. intros st (i & -> & _)%list_elem_of_fmap. by split.
  - apply (bool_decide_unpack _). vm_compute. exact I.
  - apply list.Forall_singleton. exists failed_tenant.
    split; [apply failed_tenant_is|apply failed_tenant_calm].
Qed.

Lemma flaky_rounds :
  rounds Sample.rng Sample.context "worker-1" 2 2 "o1_main" "x1" flaky_world 2 (poll_once later_world).
Proof.
  assert (∀ now locked (m : gmap string Execution) e, m = {["x1" := e]} →
    claimable now e → "x1" ∉ (locked : gset string) →
    (∃ e, due now locked m "x1" e) ∧ ∀ id2 e2, due now locked m id2 e2 → id2 = "x1") as Hone.
  { intros now locked m e -> Hc Hl. split.
    - exists e. split; [apply lookup_singleton_eq|done].
    - by intros id2 e2 [[<- _]%lookup_singleton_Some _]. }
  apply (Rounds_more _ _ _ _ _ _ _ _ 1 failed_world 5000000 ∅ later_env).
  - apply (Rounds_more _ _ _ _ _ _ _ _ 0 flaky_world 10 ∅ calm_env); [constructor| | |].
    + eapply at_rest_le; [|apply first_at_rest]. apply Nat.leb_le. reflexivity.
    + eapply (Hone 10 ∅ _ Sample.execution); [done|by apply (bool_decide_unpack _); vm_compute|set_solver].
    + eapply (Hone 10 ∅ _ Sample.execution); [done|by apply (bool_decide_unpack _); vm_compute|set_solver].
  - apply later_at_rest.
  - eapply (Hone _ ∅ _ failed_execution);
      [apply failed_rows|by apply (bool_decide_unpack _); vm_compute|set_solver].
  - eapply (Hone _ ∅ _ failed_execution);
      [apply failed_rows|by apply (bool_decide_unpack _); vm_compute|set_solver].
Qed.

Lemma retries_reach_a_flaky_endpoint_witness :
  let request := SentHttp (http_request Sample.spec "k1") in
  ∃ e, execs Sample.key (ss_store (wd_session (poll_once later_world))) !! "x1" = Some e
    ∧ e_attempt_count e = 2 ∧ e_status e = "SUCCESS"
    ∧ wd_outbox (poll_once later_world) = [request; request].
Proof.
  destruct (retries_reach_a_flaky_endpoint Sample.rng Sample.context "worker-1" 2 2 "o1_main"
    Sample.tenant "x1" Sample.execution Sample.endpoint flaky_world flaky_query [JNull; JNull] 2
    (poll_once later_world)) as (e & He & Hc & _ & _ & Ho & Hs & _).
  - by vm_compute.
  - reflexivity.
  - reflexivity.
  - reflexivity.
  - reflexivity.
  - reflexivity.
  - split.
    + by split; vm_compute.
    + apply (bool_decide_unpack _). vm_compute. exact I.
    + apply (bool_decide_unpack _). vm_compute. exact I.
    + reflexivity.
    + split; [by vm_compute|done].
  - apply flaky_rounds.
  - exists e. split; [exact He|]. split; [exact Hc|]. split; [apply Hs; lia|exact Ho].
Defined.

(** A loop with two permits: a task is spawned, the token is cancelled, the task ends. *)
Definition loop_start : PollState := poll_init 0 2 1000 30000.
Definition loop_events : list PollEvent :=
  [EvTick 5; EvPermit; EvSchemas (Some ["o1_main"]); EvTick 6; EvCancel; EvCancelled;
   EvTask 0 (Some true); EvAllPermits].
Definition loop_after (n : nat) : PollState :=
  default loop_start (poll_run 2 (take n loop_events) loop_start).

Lemma loop_runs evs s s' σ : poll_run 2 evs s = Some s' →
  rtc (worker_step 2 "" "worker-1" eq) (s, σ) (s', σ).
Proof.
  revert s. induction evs as [|ev evs IH]; intros s E; [by injection E as <-|]. cbn in E.
  destruct (poll_next 2 ev s) as [s1|] eqn:E1; [|done].
  eapply rtc_l; [apply WS_loop; by exists ev|by apply IH].
Qed.

(** The task commits the outcome of the sample execution while it is in flight. *)
Lemma loop_commits :
  rtc (worker_step 2 "" "worker-1" eq) (loop_start, Sample.store) (loop_after 8, succeeded_store).
Proof.
  etrans; [by apply (loop_runs (take 4 loop_events) _ (loop_after 4))|].
  eapply rtc_l.
  - apply (WS_commit 2 "" "worker-1" eq (loop_after 4) ["o1_main"] "o1_main" 10 ∅ _ succeeded_store);
      [apply list_elem_of_here..|]. apply sample_committed.
  - by apply (loop_runs (drop 4 loop_events)).
Qed.

Lemma shutdown_waits_for_every_task_witness :
  Z.of_nat (length (pl_tasks (loop_after 8))) ≤ 2
  ∧ (pl_pc (loop_after 8) = PDone true → pl_tasks (loop_after 8) = [] ∧ rtc eq succeeded_store succeeded_store).
Proof.
  apply (shutdown_waits_for_every_task "" "worker-1" eq 0 2 1000 30000 Sample.store
    (loop_after 8, succeeded_store) (loop_after 8, succeeded_store)).
  - lia.
  - apply loop_commits.
  - apply rtc_refl.
Defined.

Lemma poller_keeps_polling_witness :
  Z.of_nat (length [EvTick 6; EvPermit]) ≤ 2 + 4
  ∧ ∃ ev s'', undisturbed ev = true
      ∧ poll_next 2 ev (default loop_start (poll_run 2 [EvTick 6; EvPermit] (loop_after 3))) = Some s''.
Proof.
  apply (poller_keeps_polling 0 2 1000 30000 (take 3 loop_events) (loop_after 3)
    [EvTick 6; EvPermit] (default loop_start (poll_run 2 [EvTick 6; EvPermit] (loop_after 3)))).
  - lia.
  - reflexivity.
  - by split.
  - by repeat constructor.
  - reflexivity.
Defined.
