(* ===== verification/PropsWorker.v ===== *)
(** * Properties of the worker

    Outcome of a dispatch, retries, what is sent, templates, caches, health. *)

From S2P Require Export PropsSystem Outbox Scan.
#[local] Open Scope Z_scope.

(** ** Outcomes and requests *)

Section worker.
Context `{!SerdeJson} `{!SqlDisplay} `{!Aes256Gcm} `{!Utf8}.
Context (rng : Rng) (ctx : PipelineContext) (worker_id : string).

(** C16: the outcome follows the dispatch result.  When the transaction is alive
    after [finalize], the running execution is SUCCESS with the dispatcher's
    output, or RETRYING after the computed delay while attempts are left, or else
    FAILED; no other execution of any tenant changes.  The one other exit is a
    panic. *)
Theorem finalize_gives_outcome (db : DbContext) (id : string) (e : Execution) rp t d result w r w' :
  e_status e = "RUNNING" →
  finalize (E:=Empty_set) rng db rp id (e_attempt_count e) (e_max_attempts e) t d result w = (r, w') →
  is_Some (ss_begin (wd_session w)) →
  execs (db_schema db, db_prefix db) (ss_store (wd_session w)) !! id = Some e →
  ss_failed (wd_session w') = false →
  (∃ p, r = Panic p) ∨
  ∃ e',
    match result with
    | Success o => e' = success_update (ss_now (wd_session w)) o e
    | Failure _ =>
        if bool_decide (e_attempt_count e < e_max_attempts e)
        then ∃ b, compute_backoff rng rp (e_attempt_count e) = Ok b
                  ∧ e' = retry_update (ss_now (wd_session w)) b e
        else e' = failed_update (ss_now (wd_session w)) e
    end
    ∧ execs (db_schema db, db_prefix db) (ss_store (wd_session w'))
      = <[id := e']> (execs (db_schema db, db_prefix db) (ss_store (wd_session w)))
    ∧ ∀ k, k ≠ (db_schema db, db_prefix db) →
        execs k (ss_store (wd_session w')) = execs k (ss_store (wd_session w)).
Proof.
  intros Hrun Hf Hb He Halive.
  destruct (ends_finalize rng db id e Hrun rp t d result w r w' Hf Hb (λ _, He))
    as [[Hp _]|[_ _ _ Hx]]; [by left|right; by apply Hx].
Qed.

(** A retry policy with a negative [max_delay_ms] makes the task panic when an
    attempt fails with attempts left: the transaction is rolled back, so the
    attempt that was just dispatched is not counted, and the execution will be
    claimed and dispatched again, without end. *)
Theorem negative_max_delay_loses_the_attempt (db : DbContext) rp id n m t d err w b :
  rp_max_delay_ms rp < 0 → n < m →
  ss_begin (wd_session w) = Some b →
  let '(r, w') := in_tx_io
    (finalize (E:=Empty_set) rng db rp id n m t d (Failure err)) w in
  (∃ p, r = Panic p) ∧ ss_store (wd_session w') = b ∧ ss_begin (wd_session w') = None.
Proof.
  intros Hneg Hlt Hb. unfold in_tx_io, finalize, se_bind.
  pose proof (frame_attempt tx_frame db id n (tx_frame_of db id n) (E:=Empty_set) "FAILED" t None (Some err) w
    ltac:(by rewrite Hb)) as Hfr.
  rewrite bool_decide_eq_true_2 by done.
  unfold compute_backoff, clamp. cbv zeta. rewrite bool_decide_eq_false_2 by lia.
  destruct (record_attempt _ _ _ _ _ _ _ w) as [[u|[]|p] w1]; cbn [snd] in Hfr;
    destruct Hfr as [Hb1 _ _ _]; rewrite Hb in Hb1; unfold se_panic, drop_tx; rewrite Hb1; eauto.
Qed.

(** C17: a task sends at most one request: an execution is dispatched at most once
    per claim, whatever its endpoint type and whatever fails. *)
Theorem at_most_one_request_per_task schemas w :
  ∃ l, wd_outbox (claim_and_process (E:=Empty_set) rng ctx worker_id schemas w).2
       = wd_outbox w ++ l ∧ (length l ≤ 1)%nat.
Proof. apply task_sends. Qed.

(** The secret cache ignores the tenant.  After a task of one workspace has
    loaded the secret [name], a task of any other workspace that asks for a secret
    of that name within the time to live gets the first one's plaintext, whatever
    its own table holds. *)
Theorem secret_cache_crosses_tenants (db1 : DbContext) name v w w' :
  load_single_secret ctx db1 name w = (Ok v, w') →
  ∃ stored, cache_entries (wd_secrets w') !! name = Some (v, stored)
    ∧ ∀ (db2 : DbContext) w2, wd_secrets w2 = wd_secrets w' →
        Z.max 0 (hd 0 (wd_clock w2) - stored) < cache_ttl (wd_secrets w') →
        (load_single_secret ctx db2 name w2).1 = Ok v.
Proof.
  intros Hl.
  assert (∃ stored, cache_entries (wd_secrets w') !! name = Some (v, stored)) as [stored Hst].
  { rewrite load_single_unfold in Hl. unfold cache_probe in Hl.
    destruct (cache_entries (wd_secrets w) !! name) as [[v0 at_]|] eqn:Ec;
      [destruct (bool_decide _)|]; [injection Hl as <- <-; simpl; eauto| |];
    unfold fetch_secret, se_bind, se_map_err in Hl;
      destruct (db_op _ _) as [[[s|]| |] w1]; try done;
      cbn [se_ok_or se_ret se_err res_map_err se_lift] in Hl; try done;
      destruct (decrypt _ _); try done; cbn in Hl; injection Hl as <- <-; simpl;
      rewrite lookup_insert_eq; eauto. }
  exists stored. split; [done|]. intros db2 w2 Hw2 Hfresh.
  rewrite load_single_unfold. unfold cache_probe.
  rewrite Hw2, Hst. by rewrite bool_decide_eq_true_2.
Qed.

(** C18: only secrets that the text of the spec names as [{{secret.name}}] are loaded.
    The scan of the text is the same computation, errors and effects included, as loading
    one after the other, up to the first failure, the names [secret_names] finds in the
    text, all different.  So a success returns exactly these names; at most one statement
    is run per name; no other entry of the secret cache is touched; inside a transaction
    nothing depends on other secrets: two worlds that differ only in secrets not named,
    stored or cached, give the same result, error or not; and the scan comes to an end (the
    only panic is the one of the hex decoder on the key). *)
Theorem only_referenced_secrets_are_loaded (db : DbContext) spec w :
  let names := secret_names (json_to_string spec) in
  let run := load_secrets ctx db spec w in
  NoDup names
  ∧ (∀ name, name ∈ names →
       Str.contains (json_to_string spec) ("{{secret." +:+ name +:+ "}}") = true)
  ∧ run = load_each ctx db names ∅ w
  ∧ (∀ m, run.1 = Ok m → ∀ name, is_Some (m !! name) ↔ name ∈ names)
  ∧ loaded names (length names) w run.2
  ∧ (∀ w2, alike db names w w2 → (load_secrets ctx db spec w2).1 = run.1)
  ∧ (∀ p, run.1 = Panic p → p = 5%nat).
Proof.
  intros names run. unfold run. rewrite load_secrets_each.
  destruct (scan_names_spec (S (String.length (json_to_string spec))) (json_to_string spec)
    (json_to_string spec) [] (λ _ H, H)) as [Hnd Hin].
  split_and!; [exact Hnd|by intros name Hn; apply Hin|done| |apply loaded_each| |].
  - intros m Hm name. rewrite (each_names _ _ _ _ _ _ Hm), lookup_empty. split; [|by left].
    by intros [?|[]].
  - intros w2 Hal. rewrite load_secrets_each. symmetry. by eapply alike_each.
  - intros p. apply each_panic.
Qed.
End worker.

(** ** HTTP requests *)

Definition is_idempotency_header (kv : string * string) : bool :=
  Str.eq_ignore_ascii_case kv.1 idempotency_header.

(** C19: every HTTP request carries the idempotency header.  It is the dispatch key,
    exactly once, unless the endpoint's own headers set it under any
    capitalisation; then those are what is sent, and the key is not added. *)
Theorem http_request_carries_idempotency_key spec key :
  let own := str_entries (default [] (Json.as_object (Json.index spec "headers"))) in
  let sent := hr_headers (http_request spec key) in
  filter (λ kv, is_idempotency_header kv = true) sent =
    match filter (λ kv, is_idempotency_header kv = true) own with
    | [] => [(idempotency_header, key)]
    | l => l
    end
  ∧ filter (λ kv, is_idempotency_header kv = false) sent
    = filter (λ kv, is_idempotency_header kv = false) own.
Proof.
  cbv zeta. cbn [http_request hr_headers]. unfold http_headers.
  set (own := str_entries _). fold (is_idempotency_header).
  change (λ kv : string * string, Str.eq_ignore_ascii_case kv.1 idempotency_header)
    with is_idempotency_header.
  destruct (existsb is_idempotency_header own) eqn:Ex.
  - split; [|done]. apply existsb_exists in Ex as (kv & Hin%list_elem_of_In & Hkv).
    destruct (filter _ own) as [|x l] eqn:Ef; [|done].
    exfalso. apply (not_elem_of_nil kv). rewrite <-Ef. by apply list_elem_of_filter.
  - assert (filter (λ kv, is_idempotency_header kv = true) own = []) as Hnone.
    { apply filter_none. intros kv Hin Hkv. apply not_true_iff_false in Ex. apply Ex.
      apply existsb_exists. exists kv. split; [by apply list_elem_of_In|done]. }
    rewrite Hnone, !list.filter_app, Hnone. split; [done|]. apply List.app_nil_r.
Qed.

(** Which answers count as success.  Without [expected_status_codes] these are
    200, 201, 202 and 204; with it, the codes listed -- but each of them cut to its
    low 16 bits, so 65736 stands for 200. *)
Theorem http_success_iff spec st body :
  0 ≤ st < 2 ^ 16 →
  (∃ o, http_result spec (HttpResp st body) = Success o) ↔
  match Json.as_array (Json.index spec "expected_status_codes") with
  | None => st ∈ [200; 201; 202; 204]
  | Some codes => ∃ n, JInt n ∈ codes ∧ 0 ≤ n < 2 ^ 64 ∧ n `mod` 2 ^ 16 = st
  end.
Proof.
  intros Hst. cbn [http_result].
  assert (st ∈ expected_statuses spec ↔
    match Json.as_array (Json.index spec "expected_status_codes") with
    | None => st ∈ [200; 201; 202; 204]
    | Some codes => ∃ n, JInt n ∈ codes ∧ 0 ≤ n < 2 ^ 64 ∧ n `mod` 2 ^ 16 = st
    end) as <-.
  { unfold expected_statuses. destruct (Json.as_array _) as [codes|]; [|done].
    rewrite list_elem_of_omap. split.
    - intros (v & Hv & (n & Hn & ->)%fmap_Some). unfold Json.as_u64 in Hn.
      destruct v as [| |[z|]| | |]; try done. case_bool_decide as Hz; [|done].
      injection Hn as <-. by exists z.
    - intros (n & Hn & Hr & <-). exists (JInt n). split; [done|].
      cbn. by rewrite bool_decide_eq_true_2. }
  destruct (bool_decide_reflect (st ∈ expected_statuses spec)); naive_solver.
Qed.

(** ** Retry delays *)

(** C20: as long as nothing overflows, the exponential delay before the retry of
    attempt [n] is [initial * 2^(n-1)], off by at most a quarter of it, and never
    more than [max_delay_ms]. *)
Theorem exponential_backoff_is_jittered rng policy attempt :
  rng_in_range rng →
  rp_backoff policy ∉ ["fixed"; "linear"] →
  1 ≤ attempt ≤ 62 → 0 ≤ rp_initial_delay_ms policy → 0 ≤ rp_max_delay_ms policy →
  let d := rp_initial_delay_ms policy * 2 ^ (attempt - 1) in
  d + d `div` 4 ≤ i64_max →
  ∃ r, compute_backoff rng policy attempt = Ok r
       ∧ Z.min (rp_max_delay_ms policy) (d - d `div` 4) ≤ r
       ∧ r ≤ Z.min (rp_max_delay_ms policy) (d + d `div` 4).
Proof.
  intros Hr Hb Ha Hi Hm d Hd.
  assert (0 ≤ d) by (unfold d; apply Z.mul_nonneg_nonneg; [done|apply Z.pow_nonneg; lia]).
  assert (0 ≤ d `div` 4) by (apply Z.div_pos; lia).
  apply compute_backoff_nominal; try done.
  rewrite exponential_delay; [|set_solver|set_solver|lia].
  rewrite (wrap64_id (2 ^ _)); [apply wrap64_id; unfold in_i64, i64_min; fold d; lia|].
  unfold in_i64, i64_min, i64_max. split; [|apply Z.lt_le_pred, Z.pow_lt_mono_r; lia].
  etrans; [|apply Z.pow_nonneg; lia]. lia.
Qed.

(** From the 65th attempt on the exponential delay has wrapped around to zero:
    every further retry is immediate. *)
Theorem exponential_backoff_wraps_to_zero rng policy attempt :
  rp_backoff policy ∉ ["fixed"; "linear"] → 0 ≤ rp_max_delay_ms policy →
  65 ≤ attempt < 2 ^ 32 →
  compute_backoff rng policy attempt = Ok 0.
Proof.
  intros Hb Hm Ha. unfold compute_backoff, clamp.
  rewrite exponential_delay; [|set_solver|set_solver|lia].
  replace (wrap64 (2 ^ (attempt - 1))) with 0.
  2: { pose proof (wrap64_pow2_zero (attempt - 1) 1 ltac:(lia)) as E.
       by rewrite Z.mul_1_l in E. }
  rewrite Z.mul_0_r. rewrite bool_decide_eq_true_2 by done.
  change (wrap64 (wrap64 0 + _)) with 0. f_equal. lia.
Qed.

(** ** Caches *)

(** C21: a get of a cache answers nothing but the last value set under the name, not
    invalidated since and within its time to live.  It does answer that value unless the
    write was lost in a race: [get] drops its guard before it removes an expired entry, so
    that a task which found the old entry expired removes the new one that another task
    set in between.  The operations of all tasks on the cache come in any order of their
    steps, none later than [now]; a task evicts only what one of its gets found expired. *)
Theorem cache_answers_last_fresh_write {V} ttl_secs (ops : list (cache_op V)) now name v :
  before now ops → evictions_follow (cache_new ttl_secs) ops →
  let answer := (cache_get now name (run_cache ops (cache_new ttl_secs))).1 in
  (answer = Some v →
     ∃ t, last_write name ops = Some (v, t) ∧ Z.max 0 (now - t) < ttl_secs * 1000000)
  ∧ (∀ t, last_write name ops = Some (v, t) → Z.max 0 (now - t) < ttl_secs * 1000000 →
     answer = Some v ∨ answer = None ∧ lost_in_race (cache_new ttl_secs) name v t ops).
Proof.
  intros Hb Hev answer. subst answer. unfold cache_get, cache_probe. rewrite run_cache_ttl.
  cbn [cache_new cache_ttl]. split.
  - destruct (cache_entries _ !! name) as [[v' t]|] eqn:Ee; [|done].
    apply entry_is_last_write in Ee. case_bool_decide; [|done]. intros [= ->]. by exists t.
  - intros t Hl Hf. pose proof (write_kept_or_lost _ _ _ _ _ _ Hb Hev Hl Hf) as [->|Hlost].
    { rewrite bool_decide_eq_true_2 by done. by left. }
    destruct (cache_entries _ !! name) as [[v' t']|] eqn:Ee; [left|by right].
    apply entry_is_last_write in Ee. simplify_eq. by rewrite bool_decide_eq_true_2.
Qed.

(** ** Templates *)

(** C22: a string that is not one single variable resolves to its literal pieces and
    its variables' values, the pieces being read off the string as written: a value
    that itself contains braces is never expanded again, every slice is in range,
    and the loop ends. *)
Theorem template_is_rendered_once `{!SerdeJson} c s :
  is_single_template s = None →
  resolve_string c s = (r <-? render c (parse_template s); Ok (JString r))
  ∧ ∀ p, resolve_string c s ≠ Panic p.
Proof.
  intros Hs.
  assert (resolve_string c s = (r <-? render c (parse_template s); Ok (JString r))) as E.
  { unfold resolve_string, interp_fuel, parse_template. rewrite Hs.
    pose proof (interp_loop_segments c (S (String.length s)) "" s ltac:(lia)) as Hl.
    simpl in Hl |- *. rewrite Hl. by destruct (render c _). }
  split; [done|]. intros p. rewrite E. pose proof (render_no_panic c (parse_template s) p).
  destruct (render c _); simpl; congruence.
Qed.

(** A value without the opening braces of a variable, in its strings and in its
    keys, resolves to itself. *)
Theorem template_free_value_is_unchanged `{!SerdeJson} c v :
  template_free v = true → ordered v → resolve c v = Ok v.
Proof. apply resolve_template_free. Qed.

(** ** Secrets at rest *)

(** What was encrypted decrypts to itself under the same key, provided AES-GCM
    inverts itself on twelve-byte nonces and the text is UTF-8. *)
Theorem decrypt_encrypt `{!Aes256Gcm} `{!Utf8} nonce plaintext key encrypted :
  (∀ k n m c, aead_encrypt k n m = Some c → aead_decrypt k n c = Some m) →
  length nonce = 12%nat → utf8_valid plaintext = true →
  encrypt nonce plaintext key = Ok encrypted →
  decrypt encrypted key = Ok plaintext.
Proof.
  intros Haead Hn Hu. unfold encrypt, decrypt.
  destruct (hex_decode key) as [kb| |] eqn:Ek; [|done..]. cbn [res_bind].
  apply hex_decode_length in Ek as Hk. rewrite bool_decide_eq_true_2 by done. cbn [negb].
  destruct (aead_encrypt kb nonce (as_bytes plaintext)) as [ct|] eqn:Ec; [|done].
  cbn [ok_or res_bind]. intros [= <-].
  rewrite bool_decide_eq_false_2 by (rewrite length_app; lia).
  rewrite <-Hn, take_app_length, drop_app_length. rewrite (Haead _ _ _ _ Ec).
  cbn [ok_or res_bind]. rewrite of_as_bytes. by rewrite Hu.
Qed.

(** ** Health *)

(** The worker reports ready exactly when the database answered and the poller
    is alive: its last tick is no older than ten poll intervals (or the floor), or
    every permit is taken by a running task.  A worker that has just ticked is never
    reported stale. *)
Theorem ready_iff_database_and_poller_ok (dbr : res string unit) now h :
  resp_status (ready_handler dbr now h) =
    (if bool_decide (is_ok dbr = true
                     ∧ (last_tick_ago now h ≤ wh_stale_after h ∨ wh_permits h = 0))
     then 200 else 503)
  ∧ (0 ≤ wh_stale_after h → ∀ later,
       now ≤ later ≤ now + wh_stale_after h →
       WorkerHealth_poller_ok later (tick now h) = true).
Proof.
  split.
  - unfold ready_handler, ready_response, WorkerHealth_poller_ok, poller_ok. cbv zeta.
    set (P := last_tick_ago now h ≤ wh_stale_after h). set (Q := wh_permits h = 0).
    destruct (bool_decide_reflect P), (bool_decide_reflect Q), (is_ok dbr);
      cbn [orb andb resp resp_status]; case_bool_decide; naive_solver.
  - intros Hs later Hl. unfold WorkerHealth_poller_ok, poller_ok, last_tick_ago, tick, now_ms.
    simpl. apply orb_true_iff. left. apply bool_decide_eq_true. lia.
Qed.

(** ** Witnesses *)

#[local] Existing Instances Sample.chrono Sample.cron_crate Sample.base64 Sample.json_schema
  Sample.jsonb Sample.utf8 Sample.serde Sample.sql_display Sample.aes Sample.clouds.

(** The sample execution, claimed in an open transaction. *)
Definition running : Execution := claim_update 10 "worker-1" Sample.execution.
Definition running_world : World := Sample.world_of
  (set_store (set_tenant Sample.key (set_executions {["x1" := running]} Sample.tenant) Sample.store)
     Sample.tx_session) [].
Definition failed_dispatch : DispatchResult := failure_of "HTTP_ERROR" "Unexpected status code: 500".

Lemma finalize_gives_outcome_witness :
  let out := finalize (E:=Empty_set) Sample.rng Sample.db RetryPolicy_default "x1" 1 3 0 5
               failed_dispatch running_world in
  (∃ p, out.1 = Panic p) ∨
  ∃ e', (∃ b, compute_backoff Sample.rng RetryPolicy_default 1 = Ok b ∧ e' = retry_update 10 b running)
    ∧ execs Sample.key (ss_store (wd_session out.2)) = {["x1" := e']}.
Proof.
  intros out.
  destruct (finalize_gives_outcome Sample.rng Sample.db "x1" running RetryPolicy_default 0 5
    failed_dispatch running_world out.1 out.2) as [Hp|(e' & He' & Hx & _)].
  - reflexivity.
  - unfold out. vm_compute. reflexivity.
  - eexists. reflexivity.
  - vm_compute. reflexivity.
  - vm_compute. reflexivity.
  - left. exact Hp.
  - right. exists e'. split; [exact He'|]. etrans; [exact Hx|]. vm_compute. reflexivity.
Defined.

Definition negative_policy : RetryPolicy := {|
  rp_max_attempts := 3; rp_backoff := "fixed"; rp_initial_delay_ms := 1000; rp_max_delay_ms := -1 |}.

Lemma negative_max_delay_loses_the_attempt_witness :
  let '(r, w') := in_tx_io (finalize (E:=Empty_set) Sample.rng Sample.db negative_policy "x1" 1 3 0 5
    (Failure JNull)) running_world in
  (∃ p, r = Panic p) ∧ ss_store (wd_session w') = Sample.store ∧ ss_begin (wd_session w') = None.
Proof.
  apply (negative_max_delay_loses_the_attempt Sample.rng Sample.db negative_policy "x1" 1 3 0 5
    JNull running_world Sample.store); [vm_compute; reflexivity|lia|reflexivity].
Defined.

(** A secret in the sample tenant, and another tenant without it. *)
Definition secret_world : World := Sample.world_of
  (set_store (set_tenant Sample.key (set_secrets {["token" := {| s_name := "token";
     s_encrypted_value := replicate 12 0 ++ [7; 97; 98; 99]; s_created_at := 0; s_updated_at := 0 |}]}
     Sample.tenant) Sample.store) Sample.session) [].
Definition other_db : DbContext := {| db_schema := "o2_main"; db_prefix := "" |}.

Lemma secret_cache_crosses_tenants_witness :
  (load_single_secret Sample.context other_db "token"
     (load_single_secret Sample.context Sample.db "token" secret_world).2).1 = Ok "abc".
Proof.
  destruct (secret_cache_crosses_tenants Sample.context Sample.db "token" "abc" secret_world
    (load_single_secret Sample.context Sample.db "token" secret_world).2) as (t & Ht & Hload).
  - vm_compute. reflexivity.
  - apply Hload; [reflexivity|]. vm_compute in Ht. injection Ht as <-. vm_compute. reflexivity.
Defined.

Lemma http_success_iff_witness :
  0 ≤ 200 < 2 ^ 16 ∧
  (∃ o, http_result (JObject [("expected_status_codes", JArray [JInt 65736])])
          (HttpResp 200 "") = Success o).
Proof.
  split; [lia|].
  apply (http_success_iff (JObject [("expected_status_codes", JArray [JInt 65736])]) 200 "" ltac:(lia)).
  exists 65736. split; [by apply list_elem_of_singleton|vm_compute; done].
Defined.

Lemma sample_rng_in_range : rng_in_range Sample.rng.
Proof. intros lo hi Hl. unfold Sample.rng. lia. Qed.

Lemma exponential_backoff_is_jittered_witness :
  ∃ r, compute_backoff Sample.rng RetryPolicy_default 3 = Ok r ∧ 3000 ≤ r ≤ 5000.
Proof.
  apply (exponential_backoff_is_jittered Sample.rng RetryPolicy_default 3 sample_rng_in_range).
  - set_unfold. naive_solver congruence.
  - lia.
  - done.
  - done.
  - done.
Defined.

Lemma exponential_backoff_wraps_to_zero_witness :
  compute_backoff Sample.rng RetryPolicy_default 65 = Ok 0.
Proof.
  apply (exponential_backoff_wraps_to_zero Sample.rng RetryPolicy_default 65).
  - set_unfold. naive_solver congruence.
  - done.
  - lia.
Defined.

(** Two tasks: both find the first value expired, one of them sets a second value, and only
    then does the other one remove the entry; a third value stays. *)
Definition race : list (cache_op Z) := [OpSet 0 "k" 1; OpProbe 60000000 "k"; OpProbe 60000001 "k";
  OpEvict "k"; OpSet 60000002 "k" 2; OpEvict "k"].

Lemma race_evictions : evictions_follow (cache_new 60) race.
Proof.
  intros ops1 name ops2 E. unfold race in E.
  destruct ops1 as [|? [|? [|? [|? [|? [|? ops1]]]]]]; simplify_eq/=.
  - exists [OpSet 0 "k" 1], 60000000, [OpProbe 60000001 "k"]. by split; [|vm_compute].
  - exists [OpSet 0 "k" 1], 60000000, [OpProbe 60000001 "k"; OpEvict "k"; OpSet 60000002 "k" 2].
    by split; [|vm_compute].
  - by destruct ops1.
Qed.

Lemma cache_answers_last_fresh_write_witness :
  (cache_get 60000003 "k" (run_cache race (cache_new 60))).1 = None
  ∧ last_write "k" race = Some (2, 60000002)
  ∧ lost_in_race (cache_new 60) "k" 2 60000002 race.
Proof.
  destruct (cache_answers_last_fresh_write 60 race 60000003 "k" 2) as [_ Hlost].
  - repeat constructor; intros t Ht; vm_compute in Ht; try discriminate Ht;
      injection Ht as <-; vm_compute; discriminate.
  - exact race_evictions.
  - split; [vm_compute; reflexivity|]. split; [vm_compute; reflexivity|].
    destruct (Hlost 60000002) as [Hx|[_ Hl]]; [vm_compute; reflexivity..| |exact Hl].
    vm_compute in Hx. discriminate Hx.
Defined.

(** An input whose value looks like a template. *)
Definition tricky : TemplateCtx := {|
  tc_input := {["x" := JString "{{secret.k}}"]}; tc_config := ∅; tc_secrets := ∅;
  tc_execution := ∅ |}.

Lemma template_is_rendered_once_witness :
  resolve_string tricky "a {{ input.x }} b" = Ok (JString "a {{secret.k}} b").
Proof.
  rewrite (proj1 (template_is_rendered_once tricky "a {{ input.x }} b" eq_refl)).
  vm_compute. reflexivity.
Defined.

Lemma template_free_value_is_unchanged_witness :
  resolve tricky (JObject [("a", JString "x"); ("b", JArray [JNull])])
  = Ok (JObject [("a", JString "x"); ("b", JArray [JNull])]).
Proof.
  apply (template_free_value_is_unchanged tricky).
  - reflexivity.
  - repeat constructor.
Defined.

Lemma decrypt_encrypt_witness :
  decrypt (replicate 12 1 ++ [7; 104; 105]) default_encryption_key = Ok "hi".
Proof.
  apply (decrypt_encrypt (replicate 12 1) "hi").
  - intros k n m c [= <-]. reflexivity.
  - reflexivity.
  - reflexivity.
  - vm_compute. reflexivity.
Defined.
