(* ===== verification/PropsApi.v ===== *)
(** * Properties of the API and of the clients

    Updates and cancellations of jobs, replays, error statuses, authentication,
    filters, configuration, and the two clients. *)

From Stdlib Require Import Ascii.
From S2P Require Export PropsWorker HandlerRuns ModeLaws.
#[local] Open Scope Z_scope.

(** ** Jobs *)

Section jobs.
Context `{!Chrono} `{!CronCrate} `{!Base64} `{!JsonSchemaCrate}.
Implicit Types (ws : WorkspaceContext) (prefix : string).

(** C23: an update that answered 200 is one atomic step.  It read the row of the job asked
    for, an ACTIVE CRON job that is not internal, from the store [seen]; the schedule, the
    time zone and the next run follow from that row and the body, as does what the new
    version copies.  On the store [b] its transaction began with (other clients may have
    written between the two) the old version is RETIRED if it is still ACTIVE there, a new
    version -- number one higher than the row read, linked to the old one, without
    idempotency key, under an id not used before -- is ACTIVE, and the pg_cron entry of the
    old version is exchanged for one that runs the new version on the new schedule.
    Nothing else of [b] changes. *)
Theorem job_update_is_one_swap prefix ws now job_id body s r s' :
  jobs_update prefix ws now job_id body s = (Ok r, s') → ss_begin s = None →
  let k := (wc_schema_name ws, prefix) in
  let seen := ss_store (advance (advance s)) in
  let b := ss_store (advance (advance (advance s))) in
  ss_begin s' = None ∧ resp_status r = 200
  ∧ ∃ t_seen old cron tz next t id t0,
    st_tenants seen !! k = Some t_seen ∧ t_jobs t_seen !! job_id = Some old
    ∧ update_plan old body now cron tz next
    ∧ st_tenants b !! k = Some t
    ∧ let m := after_retiring t0 job_id (Some (j_job_id old)) (t_jobs t) in
      let or_old (given : option Z) kept := match given with Some x => Some x | None => kept end in
      let created := cron_row id (j_endpoint old) (j_endpoint_type old) None
            (match uj_input body with Some i => Some i | None => j_input old end)
            (Some cron) (Some tz) (or_old (uj_starts_at body) (j_cron_starts_at old))
            (or_old (uj_ends_at body) (j_cron_ends_at old)) (Some next)
            (wrap64 (j_version old + 1)) (Some job_id) t0 in
      m !! id = None
      ∧ r = resp 200 (updated_body created)
      ∧ ss_store s' = set_cron
          (<[cron_job_name (wc_schema_name ws) id := {| cron_schedule := cron;
               cron_command := build_cron_command prefix (wc_schema_name ws) id |}]>
            (delete (cron_job_name (wc_schema_name ws) job_id) (st_cron b)))
          (set_tenant k (set_jobs (<[id := created]> m) t) b).
Proof.
  intros E Hb. destruct (jobs_update_run _ _ _ _ _ _ _ _ E Hb)
    as (t_seen & old & cron & tz & next & Hts & Hold & Hplan & Hb1 & Er).
  destruct (replace_job_run _ _ _ _ _ _ _ _ Er Hb1) as (Hn & id & t & t0 & Ht & Hm & -> & Hs).
  split_and!; [done|done|]. by exists t_seen, old, cron, tz, next, t, id, t0.
Qed.

(** After an update the retired version names itself, not its successor, as
    the version that replaced it: [replaced_by_id] is the id of the job that was
    retired. *)
Theorem retired_version_is_replaced_by_itself prefix ws job_id old body cron tz next s r s' t :
  replace_job prefix ws job_id (updated_job old body cron tz next) cron s = (Ok r, s') →
  ss_begin s = None →
  j_job_id old = job_id →
  st_tenants (ss_store (advance s)) !! (wc_schema_name ws, prefix) = Some t →
  (∃ j, t_jobs t !! job_id = Some j ∧ j_status j = "ACTIVE") →
  ∃ t' j, st_tenants (ss_store s') !! (wc_schema_name ws, prefix) = Some t'
    ∧ t_jobs t' !! job_id = Some j
    ∧ j_status j = "RETIRED" ∧ j_replaced_by_id j = Some job_id.
Proof.
  intros E Hb Hid Ht (j & Hj & Ha).
  destruct (replace_job_run _ _ _ _ _ _ _ _ E Hb) as (_ & id & t2 & t0 & Ht2 & Hm & _ & Hs).
  rewrite Ht in Ht2. injection Ht2 as <-. unfold after_retiring in Hm, Hs. rewrite Hj in Hm, Hs.
  rewrite bool_decide_eq_true_2 in Hm, Hs by done.
  rewrite Hs. unfold set_cron, set_tenant. cbn [st_tenants]. rewrite lookup_insert_eq.
  eexists _, (retired t0 (Some job_id) j). split; [done|]. split; [|done].
  simpl. rewrite lookup_insert_ne.
  - rewrite lookup_insert_eq. do 3 f_equal. exact Hid.
  - intros ->. by rewrite lookup_insert_eq in Hm.
Qed.

(** The check that the job is ACTIVE is made before the transaction and not
    repeated in it.  If the job is cancelled in between, the update succeeds all
    the same, and a new ACTIVE version with a running schedule exists although the
    job was cancelled. *)
Theorem update_revives_a_cancelled_job prefix ws job_id new cron s r s' t :
  replace_job prefix ws job_id new cron s = (Ok r, s') →
  ss_begin s = None →
  st_tenants (ss_store (advance s)) !! (wc_schema_name ws, prefix) = Some t →
  (∃ j, t_jobs t !! job_id = Some j ∧ j_status j = "RETIRED") →
  ∃ id t' j, st_tenants (ss_store s') !! (wc_schema_name ws, prefix) = Some t'
    ∧ t_jobs t' !! id = Some j ∧ t_jobs t !! id = None
    ∧ j_status j = "ACTIVE" ∧ j_previous_version_id j = Some job_id
    ∧ is_Some (st_cron (ss_store s') !! cron_job_name (wc_schema_name ws) id).
Proof.
  intros E Hb Ht (j & Hj & Ha).
  destruct (replace_job_run _ _ _ _ _ _ _ _ E Hb) as (_ & id & t2 & t0 & Ht2 & Hm & _ & Hs).
  rewrite Ht in Ht2. injection Ht2 as <-. unfold after_retiring in Hm, Hs. rewrite Hj in Hm, Hs.
  rewrite bool_decide_eq_false_2 in Hm, Hs by (by rewrite Ha).
  rewrite Hs. exists id. unfold set_cron, set_tenant. cbn [st_tenants st_cron].
  rewrite !lookup_insert_eq. do 2 eexists. split; [done|]. cbn [set_jobs t_jobs].
  rewrite lookup_insert_eq. split_and!; [done|done|done|done|by eexists].
Qed.

(** A cancellation that answered 200 retired an ACTIVE job that is not
    internal.  Unless the job is a CRON job, its PENDING and QUEUED executions
    are CANCELLED -- none is left -- and all others, the RETRYING ones included, are
    untouched; for a CRON job its pg_cron entry is removed and its executions are
    left alone. *)
Theorem job_cancel_effect prefix ws job_id s r s' :
  jobs_cancel_handler prefix ws job_id s = (Ok r, s') → ss_begin s = None →
  let b := ss_store (advance s) in
  let k := (wc_schema_name ws, prefix) in
  ss_begin s' = None ∧ ∃ t t' job t0,
    st_tenants b !! k = Some t ∧ st_tenants (ss_store s') !! k = Some t'
    ∧ t_jobs t !! job_id = Some job
    ∧ j_status job = "ACTIVE" ∧ is_internal (j_endpoint_type job) = false
    ∧ t_jobs t' = <[job_id := retired t0 (j_replaced_by_id job) job]> (t_jobs t)
    ∧ if bool_decide (j_trigger_type job = "CRON")
      then t_executions t' = t_executions t
           ∧ st_cron (ss_store s')
             = delete (cron_job_name (wc_schema_name ws) job_id) (st_cron b)
      else st_cron (ss_store s') = st_cron b
           ∧ t_executions t' = pending_cancelled t0 job_id (t_executions t)
           ∧ ∀ id e, t_executions t' !! id = Some e → e_job_id e = job_id → ¬ cancellable e.
Proof.
  intros E Hb. cbv zeta.
  destruct (jobs_cancel_handler_run _ _ _ _ _ _ E Hb)
    as (Hn & t & job & t0 & Ht & Hj & Ha & Hint & _ & Hs).
  split; [done|]. rewrite Hs. clear Hs. exists t.
  destruct (bool_decide (j_trigger_type job = "CRON")) eqn:Hc.
  - exists (set_jobs (<[job_id := retired t0 (j_replaced_by_id job) job]> (t_jobs t)) t), job, t0.
    rewrite Hc. unfold set_cron, set_tenant. cbn [st_tenants]. by rewrite lookup_insert_eq.
  - exists (set_jobs (<[job_id := retired t0 (j_replaced_by_id job) job]> (t_jobs t))
             (set_executions (pending_cancelled t0 job_id (t_executions t)) t)), job, t0.
    rewrite Hc. unfold set_tenant. cbn [st_tenants st_cron]. rewrite lookup_insert_eq.
    split_and!; try done. simpl. intros id e. unfold pending_cancelled. rewrite lookup_fmap.
    intros (e0 & He0 & ->)%fmap_Some.
    destruct (bool_decide_reflect (e_job_id e0 = job_id ∧ cancellable e0)).
    + intros _. unfold cancellable. simpl. set_unfold. naive_solver congruence.
    + naive_solver.
Qed.
End jobs.

Section create.
Context `{!Chrono} `{!CronCrate} `{!Base64} `{!JsonSchemaCrate}.
Implicit Types (ws : WorkspaceContext) (prefix : string).

(** The check of a job's input against the payload spec of its endpoint. *)
Definition payload_verdict (t : Tenant) (ep : Endpoint) (input : option json) : res AppError unit :=
  match ep_payload_spec_ref ep, input with
  | Some name, Some v =>
      p <-? ok_or (t_payload_specs t !! name) (InvalidPayloadSpecRef name);
      validate_input v (p_schema_json p)
  | _, _ => Ok tt
  end.

Lemma payload_check_quiet db (ep : Endpoint) input t s :
  ss_env s = [] → ss_failed s = false →
  st_tenants (ss_store s) !! (db_schema db, db_prefix db) = Some t →
  match ep_payload_spec_ref ep, input with
  | Some ps_name, Some input =>
      found <-- q (payload_specs_get db ps_name);
      spec <-- se_ok_or found (InvalidPayloadSpecRef ps_name);
      se_lift (validate_input input (p_schema_json spec))
  | _, _ => se_ret tt
  end s = (payload_verdict t ep input, s).
Proof.
  intros He Hf Ht. unfold payload_verdict. destruct (ep_payload_spec_ref ep) as [name|], input; try done.
  unfold payload_specs_get, q, se_map_err, se_bind. rewrite (read_quiet _ _ t) by done.
  cbn [res_map_err]. by destruct (t_payload_specs t !! name).
Qed.

(** C24: creating a job a second time under its idempotency key changes nothing.  No other
    client writes meanwhile and no statement fails; the trigger of the second body is one
    of the three and its endpoint is not internal.  Its input is checked first, against the
    payload spec of the endpoint, if any: when the check refuses it that error is the
    answer; otherwise the answer is 200 with the job there is and its latest execution,
    whatever trigger, input, schedule and number of attempts the second body asks for.
    In both cases the session and the store are as before. *)
Theorem create_replay_is_idempotent prefix ws now generated body ep j key t s :
  ss_env s = [] → ss_failed s = false →
  validate_schema_name (wc_schema_name ws) = true →
  st_tenants (ss_store s) !! (wc_schema_name ws, prefix) = Some t →
  is_Some (TriggerType_from_str_val (cj_trigger body)) →
  t_endpoints t !! cj_endpoint body = Some ep →
  is_internal (ep_endpoint_type ep) = false →
  cj_idempotency_key body = Some key →
  head (filter (λ j, j_endpoint j = cj_endpoint body ∧ j_idempotency_key j = Some key)
          (map_to_list (t_jobs t)).*2) = Some j →
  jobs_create prefix ws now generated body s
  = (match payload_verdict t ep (cj_input body) with
     | Ok _ => Ok (resp 200 (data (job_response j (head (executions_of_job (j_job_id j) t)))))
     | Err e => Err e
     | Panic p => Panic p
     end, s).
Proof.
  intros He Hf Hv Ht [trig Htr] Hep Hint Hkey Hj.
  unfold jobs_create, create_checks. rewrite Htr. cbv zeta.
  unfold se_bind at 1 2, se_ok_or at 1, se_ret at 1. unfold se_bind at 1. unfold q at 1, se_map_err at 1.
  rewrite connection_quiet by done. cbn [res_map_err].
  unfold se_bind at 1, q at 1, se_map_err at 1, endpoints_get at 1.
  rewrite (read_quiet _ _ t) by done. cbn [res_map_err].
  unfold se_bind at 1, se_ok_or at 1. rewrite Hep. unfold se_ret at 1. unfold se_bind at 1.
  rewrite Hint. unfold se_ret at 1. unfold se_bind at 1.
  rewrite (payload_check_quiet _ _ _ t) by done.
  destruct (payload_verdict t ep (cj_input body)) as [[]|e|p]; [|done..].
  rewrite Hkey. unfold se_bind, se_ret, q, se_map_err.
  unfold jobs_get_by_idempotency. rewrite (read_quiet _ _ t) by done. cbn [res_map_err].
  rewrite Hj. unfold executions_get_for_job. by rewrite (read_quiet _ _ t).
Qed.

(** Two requests race for one idempotency key and both pass the check.  The
    loser's INSERT violates the unique index; an IMMEDIATE request then answers 409,
    a DELAYED one 500. *)
Theorem lost_race_is_409_or_500 prefix ws generated body ep e s :
  validate_schema_name (wc_schema_name ws) = true →
  stim_fault (next_stim s) = None →
  has_constraint e = true →
  let tx := begin_at (advance s) in
  let db := ctx_of prefix ws in
  let n := job_max_attempts body ep in
  ((jobs_create_immediate db (cj_endpoint body) (ep_endpoint_type ep)
      (default generated (cj_idempotency_key body)) (cj_input body) n tx).1 = Err e →
    resp_status (error_response duplicate_key) = 409
    ∧ (create_immediate_job prefix ws generated body ep s).1 = Err duplicate_key)
  ∧ (∀ key run_at, cj_idempotency_key body = Some key → cj_run_at body = Some run_at →
      (jobs_create_delayed db (cj_endpoint body) (ep_endpoint_type ep) key (cj_input body)
         run_at n tx).1 = Err e →
      ∃ e', resp_status (error_response e') = 500
            ∧ (create_delayed_job prefix ws body ep s).1 = Err e').
Proof.
  intros Hv Hst He. cbv zeta.
  assert (∀ (m : API HttpResponse), with_tx ws m s = in_tx m (begin_at (advance s))) as Hw.
  { intros m. unfold with_tx, se_bind, q, se_map_err, scoped_transaction. by rewrite Hv, Hst. }
  split.
  - intros Hi. split; [done|]. unfold create_immediate_job. cbv zeta. rewrite Hw.
    unfold in_tx, se_bind, se_map_err.
    destruct (jobs_create_immediate _ _ _ _ _ _ _) as [r s1]. cbn [fst] in Hi. subst r.
    cbn [res_map_err]. by rewrite He.
  - intros key run_at Hk Hr Hd. exists (AppError_from e). split; [done|].
    unfold create_delayed_job. rewrite Hk, Hr. unfold se_bind at 1 2, se_ok_or, se_ret at 1 2.
    rewrite Hw. unfold in_tx, se_bind, q, se_map_err.
    destruct (jobs_create_delayed _ _ _ _ _ _ _ _) as [r s1]. cbn [fst] in Hd. by subst r.
Qed.
End create.

(** Updating an endpoint does not look at its type: the spec of an INTERNAL
    endpoint, such as the reaper's, is replaced like any other, although creating an
    INTERNAL endpoint is refused. *)
Theorem internal_endpoints_can_be_updated `{!Chrono} prefix ws name v e t s :
  ss_env s = [] → ss_failed s = false →
  validate_schema_name (wc_schema_name ws) = true →
  st_tenants (ss_store s) !! (wc_schema_name ws, prefix) = Some t →
  t_endpoints t !! name = Some e → ep_endpoint_type e = "INTERNAL" →
  endpoint_refs (ctx_of prefix ws) e t = None →
  creatable_type (ep_endpoint_type e) = false
  ∧ ∃ r s' t' e',
    endpoints_update_handler prefix ws name
      {| ue_spec := Some v; ue_config := None; ue_payload_spec := None; ue_retry_policy := None |} s
    = (Ok r, s')
    ∧ resp_status r = 200
    ∧ st_tenants (ss_store s') !! (wc_schema_name ws, prefix) = Some t'
    ∧ t_endpoints t' !! name = Some e' ∧ ep_spec e' = v ∧ ep_endpoint_type e' = "INTERNAL".
Proof.
  intros He Hf Hv Ht Hep Hty Href. split; [by rewrite Hty|].
  unfold endpoints_update_handler. cbv zeta.
  unfold se_bind, se_ret, q, se_map_err, check_ref. cbn [ue_spec ue_config ue_payload_spec ue_retry_policy].
  rewrite connection_quiet by done. cbn [res_map_err]. unfold se_ret.
  unfold endpoints_update, tstmt. rewrite stmt_quiet by done. unfold tquery.
  cbn [ctx_of db_schema db_prefix]. rewrite Ht, Hep. cbv zeta.
  set (e' := endpoint_update _ _ _ _ _ e).
  assert (endpoint_refs (ctx_of prefix ws) e' t = None) as ->.
  { rewrite <-Href. reflexivity. }
  cbn [res_map_err fmap option_fmap option_map]. do 4 eexists. split; [reflexivity|].
  split; [done|]. cbn [set_store ss_store set_tenant st_tenants]. rewrite lookup_insert_eq.
  split; [done|]. cbn [set_endpoints t_endpoints]. by rewrite lookup_insert_eq.
Qed.

(** ** Authentication *)

(** C25: which paths need no credential, whatever the prefixes: exactly the health check, the
    metrics and the login callback below the API prefix, and what lies below the dashboard's
    [/pkg/].  Every other path -- of the API, of the dashboard's pages, the logout -- is
    protected.  All routes of the API but the first two begin with [/v1/], so they are
    protected unless the asset path reaches into them; with the path prefix [/pkg] and no
    dashboard prefix it does, and the whole API is public. *)
Theorem api_paths_are_protected path_prefix dashboard_prefix :
  let sc := {| sc_path_prefix := path_prefix; sc_dashboard_prefix := dashboard_prefix |} in
  let asset path := ∃ file, path = dashboard_prefix +:+ "/pkg/" +:+ file in
  (∀ path, scope_is_public (scope_resolve sc path) = true ↔
     path ∈ [path_prefix +:+ "/health"; path_prefix +:+ "/metrics"; path_prefix +:+ "/oidc/login"]
     ∨ asset path)
  ∧ (∀ m route, (m, route) ∈ api_routes →
       route = "/health" ∨ route = "/metrics" ∨ Str.starts_with route "/v1/" = true)
  ∧ (∀ rest, let path := path_prefix +:+ "/v1/" +:+ rest in
       scope_is_public (scope_resolve sc path) = true ↔ asset path)
  ∧ (∀ rest, scope_is_public (scope_resolve {| sc_path_prefix := "/pkg"; sc_dashboard_prefix := "" |}
      ("/pkg/v1/" +:+ rest)) = true).
Proof.
  intros sc asset.
  assert (∀ path, scope_is_public (scope_resolve sc path) = true ↔
    path ∈ [path_prefix +:+ "/health"; path_prefix +:+ "/metrics"; path_prefix +:+ "/oidc/login"]
    ∨ asset path) as Hall.
  { intros path.
    assert (asset path ↔ Str.starts_with path (dashboard_prefix +:+ "/pkg/") = true) as ->.
    { rewrite starts_with_spec. split; intros [file ->]; exists file;
        first [by rewrite app_assoc|by rewrite <-app_assoc]. }
    unfold scope_resolve, callback_path. cbn [sc sc_path_prefix sc_dashboard_prefix].
    destruct (Str.starts_with path _); repeat case_bool_decide; set_unfold; cbn; naive_solver. }
  split_and!; [exact Hall| | |].
  - intros m route Hr. cbn in Hr. unfold crud in Hr. cbn in Hr. set_unfold. naive_solver.
  - intros rest. cbv zeta. rewrite Hall. split; [|by right]. intros [Hin|?]; [exfalso|done].
    set_unfold. destruct Hin as [Hin|[Hin|[Hin|[]]]]; by apply app_inj_l in Hin.
  - intros rest. unfold scope_resolve. cbn [sc_path_prefix sc_dashboard_prefix].
    rewrite (starts_with_app "/pkg/" ("v1/" +:+ rest) : Str.starts_with ("/pkg/v1/" +:+ rest) ("" +:+ "/pkg/") = true).
    by rewrite orb_true_r.
Qed.

(** C27: where requests go when one process serves both the API and the dashboard.
    Without an API prefix -- the default, and how [just dashboard] starts it -- no page
    and no asset of the dashboard is ever served: the API's scope answers every request,
    though the dashboard is registered.  With a prefix the API answers below it, the
    dashboard everything else, but the root is a redirect, to [/health] of the API when the
    dashboard has no prefix: its home page is unreachable.  Where logout sends the browser
    there is no service at all, in either case. *)
Theorem dashboard_needs_an_api_prefix `{!Actix} `{!ActixLaws} listings sv m :
  sv_mode sv = SM_Both → Str.find (sv_path_prefix sv) "{" = None →
  let prefix := sv_path_prefix sv in
  let answers := served_by (app_services listings sv) in
  (prefix = "" → ∀ p t, answers m p = Some t →
     match t with TAssets _ | TPage _ => False | _ => True end)
  ∧ (prefix ≠ "" →
      (∀ rest, answers m (prefix +:+ "/v1/" +:+ rest) = served_by api_scope m ("/v1/" +:+ rest))
      ∧ (∀ p, below prefix p = None → (m = GET → p ≠ "/") →
           answers m p = served_by (dashboard_services (sv_dashboard_prefix sv)
                                     (sv_dashboard_dist_dir sv) listings) m p)
      ∧ answers GET "/" = Some (TRedirect
          (if bool_decide (sv_dashboard_prefix sv = "") then prefix +:+ "/health"
           else sv_dashboard_prefix sv +:+ "/")))
  ∧ answers m (logout_location prefix) = None.
Proof.
  intros Hmode Hbraces prefix answers. split_and!.
  - intros Hp p t Ht. apply (unprefixed_api listings sv Hmode) in Ht as [->|[->|Ht]]; [done..| |done].
    by destruct t.
  - intros Hp. split_and!.
    + intros rest. by apply (under_the_prefix listings sv Hmode Hbraces m ("v1/" +:+ rest)).
    + intros p. by apply beside_the_prefix.
    + by apply root_is_redirected.
  - by apply nothing_after_logout.
Qed.

(** The row is an active workspace that the two headers name, each by id or by slug. *)
Definition names_workspace (o w : string) (σ : Store) (row : Workspace) : Prop :=
  row ∈ (map_to_list (st_workspaces σ)).*2 ∧ w_status row = "ACTIVE"
  ∧ (∃ org, st_orgs σ !! w_org_id row = Some org ∧ (o_org_id org = o ∨ o_slug org = o))
  ∧ (w_workspace_id row = w ∨ w_slug row = w).

Lemma resolve_schema_run o w s : ss_begin s = None → ss_failed s = false →
  let σ := ss_store (advance s) in
  resolve_schema o w s =
    (match stim_fault (next_stim s) with
     | Some e => Err e
     | None => Ok (w_schema_name <$> pick_least (stim_pick (next_stim s)) (ws_rank o w)
                     (filter (λ w, w_status w = "ACTIVE") (ws_matches o w σ)))
     end, advance s).
Proof.
  intros Hb Hf. unfold resolve_schema, stmt. rewrite Hf. destruct (stim_fault _).
  - f_equal. unfold fail, advance, in_transaction. destruct s. simpl in *. by subst.
  - by rewrite set_store_same.
Qed.

Lemma ws_matches_spec o w σ row :
  row ∈ filter (λ w, w_status w = "ACTIVE") (ws_matches o w σ) ↔ names_workspace o w σ row.
Proof.
  unfold names_workspace, ws_matches, org_named. rewrite !list_elem_of_filter.
  destruct (st_orgs σ !! w_org_id row); naive_solver.
Qed.

(** C26: a workspace route runs its handler only for an authenticated caller and an
    active workspace.  Without a caller the answer is 401 and no statement is sent;
    without one of the two headers it is 400.  Otherwise the workspaces are looked up in
    one statement: a database error is 500; when no ACTIVE workspace is named by the
    headers, each by id or slug, the answer is 404; in all these cases the handler does not
    run.  Else it runs on the schema of such a workspace, one found by its ids before one
    found by slugs, and its error becomes its response. *)
Theorem workspace_route_guards `{!AuthnClaims} caller org workspace (handler : WorkspaceContext → API HttpResponse) s :
  (caller = None → ∃ r, workspace_route caller None org workspace handler s = (Err r, s)
                        ∧ resp_status r = 401)
  ∧ (is_Some caller → org = None ∨ workspace = None →
      ∃ r, workspace_route caller None org workspace handler s = (Err r, s) ∧ resp_status r = 400)
  ∧ (∀ o w, is_Some caller → org = Some o → workspace = Some w →
      ss_begin s = None → ss_failed s = false →
      let σ := ss_store (advance s) in
      let run := workspace_route caller None org workspace handler s in
      match stim_fault (next_stim s) with
      | Some _ => ∃ r, run = (Err r, advance s) ∧ resp_status r = 500
      | None =>
          (∃ row, names_workspace o w σ row
             ∧ (∀ row', names_workspace o w σ row' → ws_rank o w row ≤ ws_rank o w row')
             ∧ run = se_map_err error_response (handler {| wc_org_id := o; wc_workspace_id := w;
                       wc_schema_name := w_schema_name row |}) (advance s))
          ∨ (∀ row, ¬ names_workspace o w σ row)
            ∧ ∃ r, run = (Err r, advance s) ∧ resp_status r = 404
      end).
Proof.
  unfold workspace_route, authenticated, AuthenticatedRequest_from, Workspace_from.
  split_and!.
  - intros ->. cbn. eauto.
  - intros [c ->] Hmissing. cbn. destruct org, workspace; destruct Hmissing; simplify_eq; cbn; eauto.
  - intros o w [c ->] -> -> Hb Hf. cbv zeta. cbn. unfold se_bind, se_map_err.
    rewrite resolve_schema_run by done. set (σ := ss_store (advance s)).
    destruct (stim_fault _); [by eexists|].
    destruct (pick_least _ _ _) as [row|] eqn:Ep; cbn.
    + apply pick_least_Some in Ep as [Hin Hmin]. left. exists row.
      split; [by apply ws_matches_spec|]. split; [|done].
      intros row' Hrow'. by apply Hmin, ws_matches_spec.
    + apply pick_least_None in Ep. right. split; [|by eexists].
      intros row Hrow. apply (elem_of_nil row). rewrite <-Ep. by apply ws_matches_spec.
Qed.

(** In OIDC mode the mechanism tried last is the browser's session, and it never
    answers an API call with a redirect to the login; apart from that it answers what
    it wraps.  With neither key nor tokens configured it is preceded by the bearer
    mechanism alone; a configured legacy key comes first, and accepts that very token
    and declines everything else. *)
Theorem api_calls_are_never_redirected `{!AuthnClaims} (kit : AuthnKit) auth prefix chain :
  auth_chain kit auth prefix = Ok chain → au_mode auth = AM_Oidc →
  ∃ others inner, chain = others ++ [BrowserSessionAuthenticator inner prefix]
    ∧ (∀ path credential l, is_api_call prefix path = true →
         BrowserSessionAuthenticator inner prefix path credential ≠ Err (AuthRedirect l))
    ∧ (∀ path credential, is_api_call prefix path = false →
         BrowserSessionAuthenticator inner prefix path credential = inner path credential)
    ∧ (au_legacy_api_key auth = None → au_static_tokens auth = None → length others = 1%nat)
    ∧ ∀ key, au_legacy_api_key auth = Some key →
        ∃ legacy, head others = Some legacy
          ∧ ∀ path credential, legacy path credential =
              if decide (credential = Bearer key) then Ok (Authenticated legacy_api_key)
              else Ok NotApplicable.
Proof.
  intros E Hm. unfold auth_chain in E. rewrite Hm in E.
  destruct (au_oidc auth) as [oidc|]; [|done]. cbn [ok_or res_bind] in E.
  destruct (ak_discover _ _ _ _ _) as [provider| |]; [|done..]. cbn [res_map_err res_bind] in E.
  match type of E with res_bind ?m _ = _ => destruct m as [tokens| |] eqn:Et; [|done..] end.
  cbn [res_bind] in E. injection E as <-.
  match goal with |- ∃ _ _, ?l ++ tokens ++ [?b; BrowserSessionAuthenticator ?i _] = _ ∧ _ =>
    exists (l ++ tokens ++ [b]), i end.
  split; [by rewrite <- !List.app_assoc|]. split_and!.
  - intros path credential l Hp. unfold BrowserSessionAuthenticator. rewrite Hp.
    by destruct (pr_session _ _ _ _ _) as [|[]|].
  - intros path credential Hp. unfold BrowserSessionAuthenticator. rewrite Hp.
    by destruct (pr_session _ _ _ _ _) as [|[]|].
  - intros -> Hs. rewrite Hs in Et. destruct (au_api_token_prefix auth); by injection Et as <-.
  - intros key ->. eexists. split; [done|]. intros path [token| |]; try by case_decide.
    unfold LegacyApiKeyAuthenticator. case_bool_decide; case_decide; naive_solver.
Qed.

(** Authentication is never off by omission.  A configuration that is accepted
    had INVOKR_AUTH_MODE set, disabled only if it says so, and with the three OIDC
    settings present otherwise; API token settings come in pairs. *)
Theorem auth_mode_is_explicit `{!Utf8} `{!Clouds} kms env a :
  AuthEnv_from_env kms env = Ok a →
  (∃ raw, env "INVOKR_AUTH_MODE" = Some raw ∧
     match au_mode a with
     | AM_Disabled => Str.to_ascii_lowercase (Str.trim raw) = "disabled" ∧ au_oidc a = None
     | AM_Oidc => Str.to_ascii_lowercase (Str.trim raw) = "oidc"
         ∧ ∃ o, au_oidc a = Some o
             ∧ non_empty (env "INVOKR_OIDC_ISSUER_URL") = Some (oi_issuer_url o)
             ∧ non_empty (env "INVOKR_OIDC_CLIENT_ID") = Some (oi_client_id o)
             ∧ non_empty (env "INVOKR_OIDC_REDIRECT_HOST") = Some (oi_redirect_host o)
     end)
  ∧ (is_Some (au_api_token_prefix a) ↔ is_Some (au_static_tokens a)).
Proof.
  unfold AuthEnv_from_env. intros E.
  destruct (provider_from_env kms env) as [provider| |]; [|done..]. cbn [res_map_err res_bind] in E.
  destruct (env "INVOKR_AUTH_MODE") as [raw|] eqn:Eraw; [|done]. cbn [ok_or res_bind] in E.
  destruct (AuthMode_parse raw) as [mode| |] eqn:Emode; [|done..]. cbn [res_bind] in E.
  match type of E with res_bind ?m _ = _ => destruct m as [oidc| |] eqn:Eoidc; [|done..] end.
  cbn [res_bind] in E.
  destruct (reader_read_opt env provider "INVOKR_API_STATIC_TOKENS") as [tokens| |]; [|done..].
  cbn [res_bind] in E.
  match type of E with (if negb (bool_decide ?P) then _ else _) = _ =>
    destruct (bool_decide_reflect P) as [Hpair|]; [|done] end.
  cbn [negb] in E.
  destruct (reader_read_opt env provider "INVOKR_API_KEY"); [|done..]. cbn [res_bind] in E.
  injection E as <-. simpl. split; [|done]. exists raw. split; [done|].
  unfold AuthMode_parse in Emode.
  destruct (bool_decide_reflect (Str.to_ascii_lowercase (Str.trim raw) = "disabled")) as [Hd|Hd].
  { injection Emode as <-. injection Eoidc as <-. done. }
  destruct (bool_decide_reflect (Str.to_ascii_lowercase (Str.trim raw) = "oidc")) as [Ho|Ho]; [|done].
  injection Emode as <-. split; [done|]. unfold required in Eoidc.
  destruct (non_empty (env "INVOKR_OIDC_ISSUER_URL")); [|done]. cbn [ok_or res_bind] in Eoidc.
  destruct (non_empty (env "INVOKR_OIDC_CLIENT_ID")); [|done]. cbn [ok_or res_bind] in Eoidc.
  destruct (reader_read_opt _ _ _); [|done..]. cbn [res_bind] in Eoidc.
  destruct (non_empty (env "INVOKR_OIDC_REDIRECT_HOST")); [|done]. cbn [ok_or res_bind] in Eoidc.
  injection Eoidc as <-. eexists. done.
Qed.

(** ** Requests *)

Lemma collect_tokens_spec {T} `{!EqDecision T} (parse : string → option T) label tokens out l :
  collect_tokens parse label tokens out = Ok l → NoDup out →
  NoDup l ∧ ∀ x, x ∈ l ↔ x ∈ out ∨ ∃ tok, tok ∈ tokens ∧ parse tok = Some x.
Proof.
  revert out. induction tokens as [|tok tokens IH]; intros out; simpl.
  { intros [= <-] Hnd. split; [done|]. intros x. split; [by left|]. intros [?|(tok & Ht & _)]; [done|].
    by apply elem_of_nil in Ht. }
  destruct (parse tok) as [y|] eqn:Ey; [|done]. cbn [ok_or res_bind]. intros E Hnd.
  apply IH in E as [Hl Hin].
  - split; [done|]. intros x. rewrite Hin. clear Hin IH Hl. case_bool_decide as Hy.
    + split; [intros [?|(t & ? & ?)]; [by left|right; exists t; split; [by right|done]]|].
      intros [?|(t & Ht & Hp)]; [by left|]. apply elem_of_cons in Ht as [->|Ht]; [|right; eauto].
      left. congruence.
    + rewrite elem_of_app, list_elem_of_singleton. split.
      * intros [[?| ->]|(t & ? & ?)]; [by left|right; exists tok; split; [by left|done]|].
        right; exists t; split; [by right|done].
      * intros [?|(t & Ht & Hp)]; [by left; left|]. apply elem_of_cons in Ht as [->|Ht]; [|right; eauto].
        left; right. congruence.
  - case_bool_decide; [done|]. apply list.NoDup_app. split_and!; [done| |apply NoDup_singleton].
    intros x Hx ->%list_elem_of_singleton. done.
Qed.

(** The filters of a job list.  When the query string is accepted, each list
    holds exactly the values its comma-separated tokens name, each once -- an unknown
    token is an error, never ignored -- and the creation window is not empty by
    construction. *)
Theorem job_filters_are_what_was_asked `{!Chrono} pairs f :
  parse_job_filters pairs = Ok f →
  (NoDup (jf_status f) ∧ ∀ x, x ∈ jf_status f ↔
     ∃ tok, tok ∈ filter_tokens pairs "status" ∧ JobStatus_from_str_val tok = Some x)
  ∧ (NoDup (jf_trigger f) ∧ ∀ x, x ∈ jf_trigger f ↔
     ∃ tok, tok ∈ filter_tokens pairs "trigger_type" ∧ TriggerType_from_str_val tok = Some x)
  ∧ (NoDup (jf_endpoint_type f) ∧ ∀ x, x ∈ jf_endpoint_type f ↔
     ∃ tok, tok ∈ filter_tokens pairs "endpoint_type" ∧ EndpointType_from_str_val tok = Some x)
  ∧ (∀ a b, jf_created_after f = Some a → jf_created_before f = Some b → a ≤ b).
Proof.
  assert (∀ {T} `{!EqDecision T} (parse : string → option T) k label l,
    parse_filter_list pairs k parse label = Ok l →
    NoDup l ∧ ∀ x, x ∈ l ↔ ∃ tok, tok ∈ filter_tokens pairs k ∧ parse tok = Some x) as Hlist.
  { intros T ? parse k label l El. apply collect_tokens_spec in El as [Hl Hin]; [|constructor].
    split; [done|]. intros x. rewrite Hin. split; [|by right].
    intros [Hx|?]; [by apply elem_of_nil in Hx|done]. }
  unfold parse_job_filters. intros E.
  destruct (parse_datetime (last_scalar pairs "created_after") _) as [ca| |]; [|done..].
  destruct (parse_datetime (last_scalar pairs "created_before") _) as [cb| |]; [|done..].
  cbn [res_bind] in E.
  match type of E with res_bind ?m _ = _ => destruct m as [[]| |] eqn:Ew; [|done..] end.
  cbn [res_bind] in E.
  destruct (parse_filter_list pairs "status" _ _) as [ss| |] eqn:Es; [|done..]. cbn [res_bind] in E.
  destruct (parse_filter_list pairs "trigger_type" _ _) as [ts| |] eqn:Et; [|done..].
  cbn [res_bind] in E.
  destruct (parse_filter_list pairs "endpoint_type" _ _) as [es| |] eqn:Ee; [|done..].
  injection E as <-. cbn [jf_status jf_trigger jf_endpoint_type jf_created_after jf_created_before].
  split; [by eapply Hlist|]. split; [by eapply Hlist|]. split; [by eapply Hlist|].
  intros a b -> ->. case_bool_decide as Hlt; [done|]. lia.
Qed.

(** A retry policy written to an endpoint's row reads back as it was, so the
    worker retries by the policy the request gave. *)
Theorem retry_policy_roundtrip rp :
  in_i64 (rp_max_attempts rp) → in_i64 (rp_initial_delay_ms rp) → in_i64 (rp_max_delay_ms rp) →
  RetryPolicy_from_value (RetryPolicy_to_value rp) = Some rp.
Proof.
  intros Hm Hi Hx. unfold RetryPolicy_to_value, RetryPolicy_from_value, Json.obj.
  rewrite !foldl_insert_assoc. cbn -[Json.as_i64]. literals.
  cbn -[Json.as_i64]. rewrite !as_i64_int by done. by destruct rp.
Qed.

(** ** The library client *)

(** No transaction is opened or closed, and pg_cron's table stays as it is unless
    other clients change it. *)
Definition same_cron : relation Store := λ σ σ', st_cron σ' = st_cron σ.
Definition off_cron : relation Session := λ s s',
  ss_begin s' = ss_begin s ∧ safe same_cron s s'.

#[global] Instance same_cron_preorder : PreOrder same_cron.
Proof. split; unfold same_cron; [done|congruence]. Qed.
#[global] Instance off_cron_preorder : PreOrder off_cron.
Proof.
  split; unfold off_cron.
  - intros s. split; [done|reflexivity].
  - intros s1 s2 s3 [B1 S1] [B2 S2]. split; [congruence|by etrans].
Qed.

Lemma off_cron_stmt {A} (qy : Query A) : query_ok same_cron qy → preserves off_cron (stmt qy).
Proof.
  intros Hq s. split; [|by apply safe_stmt; [apply _|]]. unfold stmt.
  destruct (ss_failed s); [done|]. destruct (stim_fault _); [done|].
  by destruct (qy _ _ _ _) as [[]| |].
Qed.

Lemma off_cron_tstmt {A} db (qy : TQuery A) : preserves off_cron (tstmt db qy).
Proof.
  apply off_cron_stmt. intros st now locked σ a σ'. unfold tquery.
  destruct (st_tenants σ !! _) as [t|]; [|done].
  destruct (qy st now locked t) as [[a' t']| |]; [|done..]. by intros [= <- <-].
Qed.

Lemma off_cron_connection schema : preserves off_cron (scoped_connection schema).
Proof.
  unfold scoped_connection. destruct (validate_schema_name schema); [|apply preserves_panic, _].
  apply off_cron_stmt. by intros ?????? [= <- <-].
Qed.

Lemma lib_create_job_off_cron ctx schema ep input n trigger key :
  preserves off_cron (lib_create_job ctx schema ep input n trigger key).
Proof.
  unfold lib_create_job, lq. cbv zeta.
  apply preserves_bind; [apply _|apply preserves_map_err, off_cron_connection|intros _].
  apply preserves_bind; [apply _|apply preserves_map_err, off_cron_tstmt|intros found].
  apply preserves_bind; [apply _|apply preserves_ok_or, _|intros e].
  destruct trigger;
    (apply preserves_bind; [apply _|apply preserves_map_err|intros ?; apply preserves_ret, _]);
    repeat first [apply off_cron_tstmt | apply preserves_ret, _
                 | apply preserves_bind; [apply _| |intros ?]].
Qed.

Lemma job_stmt_effect db mk s j s' :
  job_stmt db mk s = (Ok j, s') →
  ∃ id now t, j = mk id now ∧ st_tenants (ss_store s') !! (db_schema db, db_prefix db) = Some t
    ∧ t_jobs t !! j_job_id j = Some j.
Proof.
  unfold job_stmt, tstmt, stmt, tquery. destruct (ss_failed s); [done|].
  destruct (stim_fault _); [done|]. destruct (st_tenants _ !! _) as [t|]; [|done].
  cbv zeta. destruct (insert_job _ _ t) as [t2| |] eqn:Ei; [|done..]. intros [= <- <-].
  apply insert_job_ok in Ei as [_ ->]. eexists _, _, _. split; [done|].
  unfold set_store, set_tenant. cbn [ss_store st_tenants]. rewrite lookup_insert_eq.
  split; [done|]. apply lookup_insert_eq.
Qed.

(** A CRON job created through the library client is never scheduled: the call
    returns the id of an ACTIVE CRON job, but no pg_cron entry is made, so that the
    job has no tick.  No trigger of [create_job] touches pg_cron. *)
Theorem library_cron_jobs_are_not_scheduled ctx schema ep input n trigger key s :
  ss_begin s = None → respects same_cron s →
  let '(r, s') := lib_create_job ctx schema ep input n trigger key s in
  st_cron (ss_store s') = st_cron (ss_store s)
  ∧ match trigger, r with
    | Cron expression _ _ _ _, Ok id =>
        ∃ t j, st_tenants (ss_store s') !! (schema, pc_table_prefix ctx) = Some t
          ∧ t_jobs t !! id = Some j ∧ j_trigger_type j = "CRON" ∧ j_status j = "ACTIVE"
          ∧ j_cron_expression j = Some expression
    | _, _ => True
    end.
Proof.
  intros Hb Hr. pose proof (lib_create_job_off_cron ctx schema ep input n trigger key s) as [Hbs Hp].
  destruct (lib_create_job ctx schema ep input n trigger key s) as [r s'] eqn:E.
  cbn [snd] in Hbs, Hp. split.
  - destruct Hp as (_ & _ & Hc).
    + apply list.Forall_forall. exact Hr.
    + unfold tx_ok, committed. by rewrite Hb.
    + unfold same_cron, committed in Hc. by rewrite Hbs, Hb in Hc.
  - destruct trigger as [|t|x tz sa ea fr]; [done..|]. destruct r as [id| |]; [|done..].
    unfold lib_create_job in E. cbv zeta in E.
    apply se_bind_inv in E as ([] & s1 & _ & E). apply se_bind_inv in E as (found & s2 & _ & E).
    apply se_bind_inv in E as (e & s3 & _ & E). apply se_bind_inv in E as (j & s4 & E4%map_err_ok & E).
    injection E as <- <-. apply job_stmt_effect in E4 as (id & now & t & -> & Ht & Hj). eauto 10.
Qed.

(** ** Witnesses *)

#[local] Existing Instances Sample.chrono Sample.cron_crate Sample.base64 Sample.json_schema
  Sample.jsonb Sample.utf8 Sample.serde Sample.sql_display Sample.aes Sample.clouds.

Definition update_body : UpdateJob := {| uj_cron := Some {| cron_str := "0 * * * *" |};
  uj_timezone := None; uj_input := None; uj_starts_at := None; uj_ends_at := None |}.
Definition response_of (out : res AppError HttpResponse * Session) : HttpResponse :=
  match out.1 with Ok r => r | _ => NoContent end.
Definition update_run := jobs_update "" Sample.ws 10 "c1" update_body Sample.session.

Lemma job_update_is_one_swap_witness :
  ss_begin update_run.2 = None ∧ resp_status (response_of update_run) = 200.
Proof.
  destruct (job_update_is_one_swap "" Sample.ws 10 "c1" update_body Sample.session
    (response_of update_run) update_run.2) as (Hn & Hr & _).
  - vm_compute. reflexivity.
  - reflexivity.
  - split; [exact Hn|exact Hr].
Defined.

Definition replace_run (s : Session) := replace_job "" Sample.ws "c1"
  (updated_job Sample.cron_job update_body "0 * * * *" "UTC" 60) "0 * * * *" s.

Lemma retired_version_is_replaced_by_itself_witness :
  ∃ t' j, st_tenants (ss_store (replace_run Sample.session).2) !! Sample.key = Some t'
    ∧ t_jobs t' !! "c1" = Some j ∧ j_status j = "RETIRED" ∧ j_replaced_by_id j = Some "c1".
Proof.
  apply (retired_version_is_replaced_by_itself "" Sample.ws "c1" Sample.cron_job update_body
    "0 * * * *" "UTC" 60 Sample.session (response_of (replace_run Sample.session))
    (replace_run Sample.session).2 Sample.tenant).
  - vm_compute. reflexivity.
  - reflexivity.
  - reflexivity.
  - vm_compute. reflexivity.
  - exists Sample.cron_job. split; vm_compute; reflexivity.
Defined.

(** The CRON job was cancelled before the update's transaction. *)
Definition cancelled_tenant : Tenant :=
  set_jobs {["c1" := retired 5 None Sample.cron_job]} Sample.tenant.
Definition cancelled_session : Session :=
  set_store (set_tenant Sample.key cancelled_tenant Sample.store) Sample.session.

Lemma update_revives_a_cancelled_job_witness :
  ∃ id t' j, st_tenants (ss_store (replace_run cancelled_session).2) !! Sample.key = Some t'
    ∧ t_jobs t' !! id = Some j ∧ j_status j = "ACTIVE".
Proof.
  destruct (update_revives_a_cancelled_job "" Sample.ws "c1"
    (updated_job Sample.cron_job update_body "0 * * * *" "UTC" 60) "0 * * * *" cancelled_session
    (response_of (replace_run cancelled_session)) (replace_run cancelled_session).2 cancelled_tenant)
    as (id & t' & j & Ht & Hj & _ & Ha & _).
  - vm_compute. reflexivity.
  - reflexivity.
  - vm_compute. reflexivity.
  - exists (retired 5 None Sample.cron_job). split; vm_compute; reflexivity.
  - exists id, t', j. split; [exact Ht|]. split; [exact Hj|exact Ha].
Defined.

Definition cancel_run := jobs_cancel_handler "" Sample.ws "j1" Sample.session.

Lemma job_cancel_effect_witness :
  ss_begin cancel_run.2 = None ∧ ∃ t', st_tenants (ss_store cancel_run.2) !! Sample.key = Some t'.
Proof.
  destruct (job_cancel_effect "" Sample.ws "j1" Sample.session (response_of cancel_run) cancel_run.2)
    as (Hn & t & t' & job & t0 & _ & Ht & _).
  - vm_compute. reflexivity.
  - reflexivity.
  - split; [exact Hn|]. exists t'. exact Ht.
Defined.

Definition replay_body : CreateJob := {|
  cj_endpoint := "hook"; cj_trigger := "DELAYED"; cj_idempotency_key := Some "k1";
  cj_input := None; cj_max_attempts := None; cj_run_at := Some 99; cj_cron := None;
  cj_timezone := None; cj_starts_at := None; cj_ends_at := None |}.

Lemma create_replay_is_idempotent_witness :
  jobs_create "" Sample.ws 10 "generated" replay_body Sample.session
  = (Ok (resp 200 (data (job_response Sample.job (Some Sample.execution)))), Sample.session).
Proof.
  apply (create_replay_is_idempotent "" Sample.ws 10 "generated" replay_body Sample.endpoint
    Sample.job "k1" Sample.tenant Sample.session); try reflexivity; try (vm_compute; reflexivity).
  eexists. reflexivity.
Defined.

Lemma lost_race_is_409_or_500_witness :
  (create_immediate_job "" Sample.ws "generated" replay_body Sample.endpoint Sample.session).1
  = Err duplicate_key.
Proof.
  apply (lost_race_is_409_or_500 "" Sample.ws "generated" replay_body Sample.endpoint
    (UniqueViolation "idx_jobs_idempotency") Sample.session); vm_compute; reflexivity.
Defined.

Definition internal_endpoint : Endpoint := {|
  ep_name := REAPER_ENDPOINT_NAME; ep_endpoint_type := "INTERNAL"; ep_payload_spec_ref := None;
  ep_config_ref := None; ep_spec := Json.obj [("task", JString "reaper")]; ep_retry_policy := None;
  ep_created_at := 0; ep_updated_at := 0 |}.
Definition internal_tenant : Tenant :=
  set_endpoints {[REAPER_ENDPOINT_NAME := internal_endpoint]} Sample.tenant.
Definition internal_session : Session :=
  set_store (set_tenant Sample.key internal_tenant Sample.store) Sample.session.

Lemma internal_endpoints_can_be_updated_witness :
  ∃ r s', endpoints_update_handler "" Sample.ws REAPER_ENDPOINT_NAME
    {| ue_spec := Some JNull; ue_config := None; ue_payload_spec := None; ue_retry_policy := None |}
    internal_session = (Ok r, s') ∧ resp_status r = 200.
Proof.
  destruct (internal_endpoints_can_be_updated "" Sample.ws REAPER_ENDPOINT_NAME JNull
    internal_endpoint internal_tenant internal_session) as (_ & r & s' & t' & e' & Hr & H200 & _);
    try reflexivity; try (vm_compute; reflexivity).
  exists r, s'. split; [exact Hr|exact H200].
Defined.

Definition disabled_env : Env := λ name,
  if bool_decide (name = "INVOKR_AUTH_MODE") then Some " Disabled" else None.
Definition disabled_auth : AuthEnv := {| au_mode := AM_Disabled; au_oidc := None;
  au_api_token_prefix := None; au_static_tokens := None; au_legacy_api_key := None;
  au_secure_cookies := true |}.

(** Claims that are a source and a name. *)
Definition sample_claims : AuthnClaims := {|
  ClaimSource := bool; StaticToken := true; ClientCredentials := false;
  IdentityClaims := bool * option string; claims_new b := (b, None);
  with_subject n c := (c.1, Some n); with_preferred_username n c := (c.1, Some n);
  with_email n c := (c.1, Some n); claims_source c := c.1; claims_client_id c := c.2;
  best_effort_username c := c.2 |}.

Definition oidc_auth : AuthEnv := {| au_mode := AM_Oidc;
  au_oidc := Some {| oi_issuer_url := "https://idp"; oi_client_id := "invokr";
                     oi_client_secret := None; oi_redirect_host := "https://invokr" |};
  au_api_token_prefix := None; au_static_tokens := None; au_legacy_api_key := Some "old";
  au_secure_cookies := true |}.

(** Sessions that always redirect to the login, bearer tokens never accepted. *)
Definition redirecting_kit : @AuthnKit sample_claims := {|
  ak_disabled _ _ _ := Ok NotApplicable;
  ak_discover _ _ _ _ := Ok {| pr_bearer _ _ := Ok NotApplicable;
                               pr_session _ _ _ _ := Err (AuthRedirect "https://idp/login") |};
  ak_api_tokens _ _ := Err "no tokens" |}.

Lemma api_calls_are_never_redirected_witness :
  ∃ chain last, auth_chain redirecting_kit oidc_auth "" = Ok chain
    ∧ length chain = 3%nat ∧ list.last chain = Some last
    ∧ last "/v1/jobs" NoCredential ≠ Err (AuthRedirect "https://idp/login").
Proof.
  destruct (api_calls_are_never_redirected redirecting_kit oidc_auth ""
              [LegacyApiKeyAuthenticator "old"; λ _ _, Ok NotApplicable;
               BrowserSessionAuthenticator (λ _ _, Err (AuthRedirect "https://idp/login")) ""])
    as (others & inner & Hc & Hapi & _ & _ & _); [reflexivity..|].
  exists [LegacyApiKeyAuthenticator "old"; λ _ _, Ok NotApplicable;
     BrowserSessionAuthenticator (λ _ _, Err (AuthRedirect "https://idp/login")) ""],
    (BrowserSessionAuthenticator inner "").
  split_and!; [reflexivity..|rewrite Hc; apply last_snoc|apply Hapi; vm_compute; reflexivity].
Defined.

Lemma auth_mode_is_explicit_witness :
  ∃ raw, disabled_env "INVOKR_AUTH_MODE" = Some raw
         ∧ Str.to_ascii_lowercase (Str.trim raw) = "disabled".
Proof.
  destruct (auth_mode_is_explicit false disabled_env disabled_auth) as [(raw & Hraw & Hm & _) _].
  - vm_compute. reflexivity.
  - exists raw. split; [exact Hraw|exact Hm].
Defined.

Definition filter_pairs : list (string * string) :=
  [("status", "ACTIVE, RETIRED,ACTIVE"); ("trigger_type", "CRON")].
Definition filters_of (r : res AppError JobFilters) : JobFilters :=
  match r with Ok f => f | _ => {| jf_job_id := None; jf_status := []; jf_trigger := [];
    jf_endpoint := None; jf_endpoint_type := []; jf_created_after := None;
    jf_created_before := None |} end.

Lemma job_filters_are_what_was_asked_witness :
  NoDup (jf_status (filters_of (parse_job_filters filter_pairs))).
Proof.
  apply (job_filters_are_what_was_asked filter_pairs). vm_compute. reflexivity.
Defined.

Lemma retry_policy_roundtrip_witness :
  RetryPolicy_from_value (RetryPolicy_to_value RetryPolicy_default) = Some RetryPolicy_default.
Proof. apply retry_policy_roundtrip; split; vm_compute; discriminate. Defined.

Lemma library_cron_jobs_are_not_scheduled_witness :
  let '(r, s') := lib_create_job Sample.context "o1_main" "hook" JNull 1
    (Cron "* * * * *" "UTC" None None 60) None Sample.session in
  st_cron (ss_store s') = st_cron Sample.store
  ∧ match r with
    | Ok id => ∃ t j, st_tenants (ss_store s') !! Sample.key = Some t
        ∧ t_jobs t !! id = Some j ∧ j_trigger_type j = "CRON" ∧ j_status j = "ACTIVE"
        ∧ j_cron_expression j = Some "* * * * *"
    | _ => True
    end.
Proof.
  apply (library_cron_jobs_are_not_scheduled Sample.context "o1_main" "hook" JNull 1
    (Cron "* * * * *" "UTC" None None 60) None Sample.session); [reflexivity|].
  intros st Hst. apply elem_of_nil in Hst. destruct Hst.
Defined.

(** A clock whose timestamps are written in binary, between two letters. *)
Fixpoint bits (p : positive) : string :=
  match p with
  | xH => "t" | xO p => String "0" (bits p) | xI p => String "1" (bits p)
  end.
Fixpoint unbits (s : string) : option positive :=
  match s with
  | "t" => Some xH
  | String "0" s => xO <$> unbits s
  | String "1" s => xI <$> unbits s
  | _ => None
  end.
Definition write_time (z : Z) : string :=
  match z with Z0 => "tzt" | Zpos p => "tp" +:+ bits p | Zneg p => "tn" +:+ bits p end.
Definition read_time (s : string) : option Z :=
  match s with
  | "tzt" => Some 0
  | String "t" (String "p" s) => Zpos <$> unbits s
  | String "t" (String "n" s) => Zneg <$> unbits s
  | _ => None
  end.
Definition binary_chrono : Chrono := {|
  ts_json z := JString (write_time z); to_rfc3339 := write_time;
  parse_from_rfc3339 := read_time; naive_parse_from_str _ _ := None |}.

Lemma unbits_bits p : unbits (bits p) = Some p.
Proof.
  induction p as [p IH|p IH|]; simpl; [| |done]; rewrite IH; [done|].
  by destruct (bits p).
Qed.

Lemma bits_end p : ∃ s, bits p = s +:+ "t".
Proof.
  induction p as [p [s Hs]|p [s Hs]|]; simpl.
  - exists (String "1" s). by rewrite Hs.
  - exists (String "0" s). by rewrite Hs.
  - by exists "".
Qed.

Lemma trim_between_t s : Str.trim ("t" +:+ s +:+ "t") = "t" +:+ s +:+ "t".
Proof.
  unfold Str.trim, Str.trim_end, Str.trim_start.
  assert (∀ ws n r, ws = Str.wide_ws ∨ ws = Str.srev <$> Str.wide_ws →
    Str.strip_all ws n ("t" +:+ r) = "t" +:+ r) as Hstrip.
  { intros ws [|n] r [-> | ->]; done. }
  rewrite (Hstrip Str.wide_ws) by auto.
  rewrite <-(app_assoc "t" s), (srev_app_str _ "t").
  change (Str.srev "t") with "t". rewrite Hstrip by auto.
  change "t" with (Str.srev "t") at 1. by rewrite <-srev_app_str, srev_involutive.
Qed.

Lemma binary_chrono_roundtrip t :
  ∃ s, @ts_json binary_chrono t = JString s ∧ Str.trim s = s ∧ s ≠ ""
    ∧ @parse_from_rfc3339 binary_chrono s = Some t.
Proof.
  exists (write_time t). cbn. destruct t as [|p|p]; [done| |];
    destruct (bits_end p) as [s Hs]; (split; [done|split_and!; [|done|]]); cbn.
  - rewrite Hs. apply (trim_between_t (String "p" s)).
  - destruct (bits p) eqn:E; [by destruct s|]. rewrite <-E. by rewrite unbits_bits.
  - rewrite Hs. apply (trim_between_t (String "n" s)).
  - destruct (bits p) eqn:E; [by destruct s|]. rewrite <-E. by rewrite unbits_bits.
Qed.

(** The dashboard of [just dashboard]: both parts in one process, no prefix. *)
Definition plain_server : ServerEnv := {|
  sv_listen_addr := "0.0.0.0:8080"; sv_path_prefix := ""; sv_mode := SM_Both;
  sv_dashboard_prefix := ""; sv_dashboard_dist_dir := "crates/dashboard/pkg" |}.

Lemma dashboard_needs_an_api_prefix_witness :
  let services := app_services [("/", [GET]); ("/orgs/{org_id}", [GET])] plain_server in
  @served_by Sample.actix services GET "/" = None
  ∧ @served_by Sample.actix services GET "/orgs/o1" = None
  ∧ @served_by Sample.actix services GET (logout_location "") = None.
Proof.
  destruct (@dashboard_needs_an_api_prefix Sample.actix Sample.actix_laws
    [("/", [GET]); ("/orgs/{org_id}", [GET])] plain_server GET eq_refl eq_refl) as (_ & _ & H).
  split_and!; [reflexivity..|exact H].
Defined.
