(* ===== verification/PropsModes.v ===== *)
(** * Properties of the two deployment modes

    Both implementations of [InvokrClient] keep one contract about one-off jobs; a caller
    that knows only the contract; and the example of the library mode: when its wait ends,
    and a run of the whole program against the mock server. *)

From S2P Require Export PropsApi LibraryExample Mock.
#[local] Open Scope Z_scope.

Section modes.
Context `{!Chrono} `{!CronCrate} `{!Base64} `{!JsonSchemaCrate} `{!Jsonb} `{!Aes256Gcm}.
Context `{!AuthnClaims} `{!SerdeJson} `{!Reqwest} `{paths : ActixPaths} `{!ActixPathLaws paths}.

End modes.

(** C7: a caller that knows the contract only, whichever the mode: it creates a one-off job
    under a fresh key, with an input that is not null and 1 to [i64::MAX] attempts, finds
    its execution waiting, cancels the job, and then finds the execution CANCELLED, with the
    input it gave -- when all four calls succeed and nobody else writes to the database from
    the first to the last, so that no worker has claimed the execution meanwhile. *)
Theorem caller_sees_its_job_cancelled (c : Client) at_ name endpoint input n trigger key
    d id d1 e d2 d3 o d4 k t :
  Contract c at_ →
  cl_create_job c name endpoint input n trigger (Some key) d = (Ok id, d1) →
  cl_get_execution c name id d1 = (Ok (Some e), d2) →
  cl_cancel_job c name (e_job_id e) d2 = (Ok tt, d3) →
  cl_get_execution c name id d3 = (Ok o, d4) →
  is_cron trigger = false → input ≠ JNull → 0 < n ≤ i64_max →
  alone (dp_session d) → at_ (dstore d) name k → st_tenants (dstore d) !! k = Some t →
  (∀ job, job ∈ (map_to_list (t_jobs t)).*2 → j_idempotency_key job ≠ Some key) →
  segment_ok id → segment_ok (e_job_id e) →
  e_status e ∈ ["PENDING"; "QUEUED"]
  ∧ ∃ e', o = Some e' ∧ e_status e' = "CANCELLED" ∧ e_input e' = Some input.
Proof.
  intros C E1 E2 E3 E4 ?????????. 
  by apply (created_then_cancelled c at_ C name endpoint input n trigger key d id d1 e d2 d3 o d4 k t).
Qed.

(** ** The example *)

(** C8: the example waits for an execution that is done, whatever other clients do
    meanwhile: its wait is over after at most [S fuel] polls exactly when the execution is
    SUCCESS or FAILED, or when one of the statements of those polls fails, a poll being two
    statements.  So it returns at the next poll from an execution that succeeded or failed;
    from one that is CANCELLED it returns only with a database error, and without one it
    never does, however often it polls. *)
Theorem example_waits_unless_cancelled `{!Aes256Gcm} ctx id e s fuel :
  terminal e → polled ctx id e s →
  is_Some (wait_for_completion ctx (S fuel) id s)
  ↔ e_status e ≠ "CANCELLED" ∨ fault_within (2 * S fuel) (ss_env s).
Proof. apply wait_for_terminal. Qed.

(** ** Witnesses *)

(** JSON texts of the sample: a numbering of the values, in binary. *)
Definition leaf : Type := unit + bool + Z + string + string.
Fixpoint json_tree (v : json) : gen_tree leaf :=
  match v with
  | JNull => GenLeaf (inl (inl (inl (inl tt))))
  | JBool b => GenLeaf (inl (inl (inl (inr b))))
  | JNumber (NInt z) => GenLeaf (inl (inl (inr z)))
  | JNumber (NFloat s) => GenLeaf (inl (inr s))
  | JString s => GenLeaf (inr s)
  | JArray l => GenNode 0 (map json_tree l)
  | JObject fs => GenNode 1 (map (λ kv, GenNode 2 [GenLeaf (inr kv.1); json_tree kv.2]) fs)
  end.
Fixpoint tree_json (t : gen_tree leaf) : json :=
  match t with
  | GenLeaf (inl (inl (inl (inl _)))) => JNull
  | GenLeaf (inl (inl (inl (inr b)))) => JBool b
  | GenLeaf (inl (inl (inr z))) => JInt z
  | GenLeaf (inl (inr s)) => JNumber (NFloat s)
  | GenLeaf (inr s) => JString s
  | GenNode 0 l => JArray (map tree_json l)
  | GenNode _ l => JObject (map (λ t, match t with
      | GenNode _ [GenLeaf (inr k); t] => (k, tree_json t) | _ => (EmptyString, JNull) end) l)
  end.
Lemma tree_json_tree v : tree_json (json_tree v) = v.
Proof.
  induction v as [|b|[]|s|l IH|fs IH] using json_ind_strong; simpl; try done; f_equal;
    rewrite List.map_map.
  - induction IH as [|v l Hv _ IH]; [done|]. simpl. by f_equal.
  - induction IH as [|[k v] fs Hv _ IH]; [done|]. simpl in *. by f_equal; [f_equal|].
Qed.

Definition json_text (v : json) : string := bits (encode (json_tree v)).
Definition text_json (s : string) : res string json :=
  ok_or (p ← unbits s; t ← decode (A:=gen_tree leaf) p; Some (tree_json t)) "expected value".
Definition sample_serde : SerdeJson := json_text.
Definition sample_reqwest : Reqwest := {| status_text := Str.dec; json_from_str := text_json |}.
Lemma text_json_text v : text_json (json_text v) = Ok v.
Proof.
  unfold text_json, json_text. rewrite unbits_bits. cbn [mbind option_bind].
  rewrite decode_encode. cbn [mbind option_bind ok_or]. by rewrite tree_json_tree.
Qed.

Definition sample_app : AppState := {|
  as_prefix := ""; as_encryption_key := default_encryption_key; as_reaper_cron := "0 * * * *" |}.
Definition sample_http : HttpClient := {|
  hc_base_url := "http://invokr/"; hc_api_key := "key"; hc_org_id := "acme" |}.
Definition bearer_only (hs : HeaderMap) : option (@Caller sample_claims) :=
  if bool_decide (hs !! "authorization" = Some "Bearer key") then Some (@legacy_api_key sample_claims) else None.


(** The caller, in service mode. *)
Definition sample_service : Client :=
  @service_client binary_chrono Sample.cron_crate Sample.base64 Sample.json_schema Sample.jsonb
    Sample.aes sample_claims sample_serde sample_reqwest segments_fit
    bearer_only (λ _, EmptyString) sample_app sample_http.
Definition next_uuid (u : string) : Stim := {|
  stim_fault := None; stim_uuid := u; stim_pick := 0; stim_now := 20; stim_others := id |}.
Definition before_call : Deployed := {|
  dp_session := Sample.session_at 10 (next_uuid <$> ["u1"; "u2"; "u3"; "u4"; "u5"; "u6"; "u7"; "u8"]);
  dp_draws := [] |}.
Definition call_1 := cl_create_job sample_service "main" "hook" (JString "hi") 2 Immediate
  (Some "k9") before_call.
Definition call_2 := cl_get_execution sample_service "main" "u7" call_1.2.
Definition found_at_first : Execution :=
  match call_2.1 with Ok (Some e) => e | _ => Sample.execution end.
Definition call_3 := cl_cancel_job sample_service "main" (e_job_id found_at_first) call_2.2.
Definition call_4 := cl_get_execution sample_service "main" "u7" call_3.2.
Definition found_at_last : option Execution := match call_4.1 with Ok o => o | _ => None end.

Lemma first_is {A B} (p : A * B) a : p.1 = a → p = (a, p.2).
Proof. destruct p. by intros <-. Qed.

Lemma caller_sees_its_job_cancelled_witness :
  ∃ e', found_at_last = Some e' ∧ e_status e' = "CANCELLED" ∧ e_input e' = Some (JString "hi").
Proof.
  refine (proj2 (caller_sees_its_job_cancelled sample_service (service_at sample_app sample_http)
    "main" "hook" (JString "hi") 2 Immediate "k9" before_call "u7" call_1.2 found_at_first call_2.2
    call_3.2 found_at_last call_4.2 Sample.key Sample.tenant _ _ _ _ _ _ _ _ _ _ _ _ _ _)).
  - apply (@service_contract binary_chrono Sample.cron_crate Sample.base64 Sample.json_schema
      Sample.jsonb Sample.aes sample_claims sample_serde sample_reqwest segments_fit segments_fit_laws).
    + intros hs Hh. exists (@legacy_api_key sample_claims). unfold bearer_only.
      by rewrite bool_decide_eq_true_2.
    + exact text_json_text.
    + exact binary_chrono_roundtrip.
  - apply first_is. vm_compute. reflexivity.
  - apply first_is. vm_compute. reflexivity.
  - apply first_is. vm_compute. reflexivity.
  - apply first_is. vm_compute. reflexivity.
  - reflexivity.
  - discriminate.
  - split; vm_compute; [reflexivity|discriminate].
  - split; [reflexivity|]. by repeat constructor.
  - split; [reflexivity|]. intros pick. vm_compute. reflexivity.
  - reflexivity.
  - intros j Hj. vm_compute in Hj.
    repeat (apply elem_of_cons in Hj as [->|Hj]; [discriminate|]). by apply elem_of_nil in Hj.
  - split; [reflexivity|discriminate].
  - vm_compute. split; [reflexivity|discriminate].
Defined.

(** ** A run of the example *)


#[local] Existing Instances Sample.serde Sample.sql_display Sample.aes Sample.utf8.

(** The table of the example after its job was cancelled. *)
Definition cancelled_row : Execution := cancel_update 30 Sample.execution.
Definition cancelled_session : Session := {|
  ss_begin := None; ss_failed := false; ss_now := 40; ss_env := [next_uuid "u1"; next_uuid "u2"];
  ss_locked := ∅;
  ss_store := {| st_orgs := ∅; st_workspaces := ∅;
    st_tenants := {[(SCHEMA_NAME, "") :=
      set_executions {["x1" := cancelled_row]} Sample.tenant]};
    st_cron := ∅ |} |}.

Lemma example_waits_unless_cancelled_witness :
  wait_for_completion Sample.context 1000 "x1" cancelled_session = None.
Proof.
  destruct (wait_for_completion Sample.context 1000 "x1" cancelled_session) as [s|] eqn:E;
    [|reflexivity].
  exfalso. pose proof (@example_waits_unless_cancelled Sample.aes Sample.context "x1" cancelled_row
    cancelled_session 999) as Hwait.
  destruct Hwait as [Hend _]; [| |destruct Hend as [Hc|Hc]].
  - unfold terminal. apply list_elem_of_In. vm_compute. auto.
  - split; [reflexivity|reflexivity| |reflexivity].
    repeat constructor; intros σ; reflexivity.
  - rewrite E. by eexists.
  - by apply Hc.
  - apply list.Exists_exists in Hc as (st & Hst & Hf). apply elem_of_take in Hst as (i & Hi & _).
    destruct i as [|[|i]]; [| |done]; apply (inj Some) in Hi as <-; by destruct Hf.
Defined.

(** The program from an empty database: its setup, one task of its worker, whose request the
    mock server answers, and its wait, which then ends. *)
Definition empty_session : Session := {|
  ss_begin := None; ss_failed := false; ss_now := 10;
  ss_env := next_uuid <$> ["u01"; "u02"; "u03"; "u04"; "u05"; "u06"; "u07"; "u08"; "u09"; "u10";
    "u11"; "u12"; "u13"; "u14"; "u15"; "u16"; "u17"; "u18"; "u19"; "u20"; "u21"; "u22"; "u23"; "u24"];
  ss_locked := ∅;
  ss_store := {| st_orgs := ∅; st_workspaces := ∅; st_tenants := ∅; st_cron := ∅ |} |}.
Definition after_setup := example_setup Sample.context 1700000000000 empty_session.
Definition after_task : World :=
  (claim_and_process (E:=Empty_set) Sample.rng Sample.context "worker-1" StaticSchemaProvider_schemas
     (Sample.world_of after_setup.2 [Sample.answer_http 200])).2.

Lemma example_runs :
  after_setup.1 = Ok "u18"
  ∧ (map (λ m, match m with SentHttp r => hr_url r | _ => "" end) (wd_outbox after_task)
     = ["http://localhost:9999/success"])
  ∧ is_Some (wait_for_completion Sample.context 1 "u18" (wd_session after_task))
  ∧ wait_for_completion Sample.context 3 "u18" after_setup.2 = None.
Proof.
  split_and!; [by vm_compute..| |by vm_compute].
  vm_compute. by eexists.
Qed.
