(* ===== verification/PropsSdk.v ===== *)
(** * Properties of the SDK against the API

    What the generated client makes of the API's answers, and the API of its requests. *)

From S2P Require Export PropsApi SdkContract SdkBuilders Journey PropsPolling.
#[local] Open Scope Z_scope.

(** ** Answers *)

(** What each operation makes of an answer, when it is an error, with the kinds of error
    that it knows. *)
Definition refused {A} (x : OperationError + A) : option OperationError :=
  match x with inl e => Some e | inr _ => None end.
Definition sdk_refusals `{!Smithy} (r : SdkResponse) :
    list (list ServiceErrorKind * option OperationError) := [
  (CreateJobError_kinds, refused (create_job_response r));
  (ListJobsError_kinds, refused (list_jobs_response r));
  (GetJobError_kinds, refused (get_job_response r));
  (UpdateJobError_kinds, refused (update_job_response r));
  (CancelJobError_kinds, refused (cancel_job_response r));
  (GetJobStatusError_kinds, refused (get_job_status_response r));
  (GetJobVersionsError_kinds, refused (get_job_versions_response r));
  (ListJobExecutionsError_kinds, refused (list_job_executions_response r));
  (GetExecutionError_kinds, refused (get_execution_response r));
  (CancelExecutionError_kinds, refused (cancel_execution_response r));
  (ListExecutionAttemptsError_kinds, refused (list_execution_attempts_response r));
  (ListExecutionLogsError_kinds, refused (list_execution_logs_response r));
  (CreateEndpointError_kinds, refused (create_endpoint_response r));
  (ListEndpointsError_kinds, refused (list_endpoints_response r));
  (GetEndpointError_kinds, refused (get_endpoint_response r));
  (UpdateEndpointError_kinds, refused (update_endpoint_response r));
  (DeleteEndpointError_kinds, refused (delete_endpoint_response r));
  (CreatePayloadSpecError_kinds, refused (create_payload_spec_response r));
  (ListPayloadSpecsError_kinds, refused (list_payload_specs_response r));
  (GetPayloadSpecError_kinds, refused (get_payload_spec_response r));
  (UpdatePayloadSpecError_kinds, refused (update_payload_spec_response r));
  (DeletePayloadSpecError_kinds, refused (delete_payload_spec_response r))].

(** The errors the API answers with: those of the handlers, of a body that is no JSON, of
    the extractors of a protected route, and of the login flow that is turned off. *)
Inductive api_refusal : HttpResponse → Prop :=
  | Refused_app e : api_refusal (error_response e)
  | Refused_json err request : api_refusal (json_error_handler err request)
  | Refused_caller `{!AuthnClaims} r : AuthenticatedRequest_from None = Err r → api_refusal r
  | Refused_workspace org_id workspace_id s s' r :
      Workspace_from None org_id workspace_id s = (Err r, s') → api_refusal r
  | Refused_login render state query cookies r :
      ar_login state = None →
      callback render state query cookies = Ok (Replied r) → api_refusal r.

(** An answer of the API that is no success, with everything it says inside [error]. *)
Definition inside_error (r : HttpResponse) : Prop :=
  ¬ 200 ≤ resp_status r < 300 ∧ ∃ v, resp_body r = Some (Json.obj [("error", v)]).

Lemma api_refusal_inside r : api_refusal r → inside_error r.
Proof.
  intros [e|err request|? r0 E|org_id workspace_id s s' r0 E|render state query cookies r0 Hl E].
  - split; [apply (error_is_failure [])|]. unfold error_response.
    destruct (status_and_code e). by eexists.
  - split; [cbn; lia|by eexists].
  - injection E as <-. split; [cbn; lia|by eexists].
  - unfold Workspace_from in E. destruct org_id as [o|], workspace_id as [w|];
      try by injection E as <- _; split; [cbn; lia|by eexists].
    revert E. unfold se_bind, se_map_err.
    destruct (resolve_schema o w s) as [[[schema|]| |] s1]; cbn; intros [= <- _];
      split; try (cbn; lia); by eexists.
  - revert E. unfold callback. rewrite Hl. intros [= <-]. split; [cbn; lia|by eexists].
Qed.

Lemma inside_error_nameless headers r : inside_error r → nameless_body (sr_body (wire headers r)).
Proof.
  intros (_ & v & E) fs k w Hb Hin. cbn [wire sr_body] in Hb. rewrite E in Hb.
  injection Hb as <-. apply list_elem_of_singleton in Hin. by injection Hin as -> _.
Qed.

Section answers.
Context `{!Smithy}.

(** Every operation reads a failure with the reader of its kinds. *)
Lemma sdk_refusals_read r :
  ¬ 200 ≤ sr_status r < 300 → Forall (λ op, op.2 = Some (de_http_error op.1 r)) (sdk_refusals r).
Proof.
  intros Hr. unfold sdk_refusals. repeat constructor; cbn [fst snd].
  all: match goal with |- refused ?t = _ => let f := request_head t in unfold f end;
    by rewrite failure_is_error by (done || lia).
Qed.

(** C33: no error of the API reaches a user of the SDK as what it is.  Whatever the API
    refuses with -- an error of a handler, of a body that is no JSON, of a missing caller or
    workspace, of the login flow --, the code is inside [error], and without the header
    [x-amzn-errortype] each of the 22 operations returns an unhandled error without code
    and message; so it does for any failure whose body has no [code] or [__type] at its top
    or is no JSON object.  With the header, an operation returns a handler's error as the
    kind that the header names, for every kind it knows, with the API's code and message. *)
Theorem sdk_never_names_an_error headers :
  header "x-amzn-errortype" headers = None →
  (∀ r, api_refusal r →
     Forall (λ op, op.2 = Some (Unhandled no_metadata)) (sdk_refusals (wire headers r)))
  ∧ (∀ status body, ¬ 200 ≤ status < 300 → nameless_body body →
       Forall (λ op, op.2 = Some (Unhandled no_metadata))
         (sdk_refusals {| sr_status := status; sr_headers := headers; sr_body := body |}))
  ∧ ∀ e k,
      Forall (λ op, k ∈ op.1 → op.2 = Some (Modeled {|
          sE_kind := k;
          sE_error := {| dR_code := (status_and_code e).2; dR_message := AppError_to_string e;
                         dR_request_id := None |};
          sE_message := None;
          sE_meta := {| em_code := Some (error_name k); em_message := None |} |}))
        (sdk_refusals (wire (("x-amzn-errortype", error_name k) :: headers) (error_response e))).
Proof.
  intros Hh.
  assert (∀ status body, ¬ 200 ≤ status < 300 → nameless_body body →
    Forall (λ op, op.2 = Some (Unhandled no_metadata))
      (sdk_refusals {| sr_status := status; sr_headers := headers; sr_body := body |})) as Hall.
  { intros status body Hs Hb. eapply list.Forall_impl; [apply sdk_refusals_read; exact Hs|].
    intros op ->. by rewrite nameless_is_unhandled. }
  split_and!; [|exact Hall|].
  - intros r Hr%api_refusal_inside. apply Hall; [apply Hr|by apply (inside_error_nameless headers)].
  - intros e k. eapply list.Forall_impl; [apply sdk_refusals_read, error_is_failure|]; cbv beta.
    intros op -> Hk. by rewrite named_is_modeled.
Qed.
End answers.

Section reads.
Context `{!Chrono} `{!CronCrate} `{!Base64} `{!JsonSchemaCrate} `{!Smithy} `{!SdkTimes}.

(** What the SDK returns for a job.  The API answers a request for a stored job with
    200, and the SDK reads the answer when the version fits 32 bits, and fails when it
    does not.  What it reads has the job's id, endpoint, status, version, key, input and
    times, but an unknown trigger and no schedule: the API calls these [trigger], [cron],
    [timezone], .. and the SDK looks for [trigger_type], [cron_expression], .. *)
Theorem sdk_job_loses_its_trigger prefix ws job_id s t job headers :
  ss_env s = [] → ss_failed s = false → validate_schema_name (wc_schema_name ws) = true →
  st_tenants (ss_store s) !! (wc_schema_name ws, prefix) = Some t →
  t_jobs t !! job_id = Some job → document_ok (Json.opt_json (j_input job)) = true →
  ∃ r, jobs_get_handler prefix ws job_id s = (Ok r, s) ∧ resp_status r = 200
    ∧ get_job_response (wire headers r)
      = (if bool_decide (i32_min ≤ j_version job ≤ i32_max)
         then inr (seen_job job) else inl (Unhandled no_metadata))
    ∧ jR_trigger_type (seen_job job) = TriggerTypeEnum_Unknown "no value was set"
    ∧ jR_cron_expression (seen_job job) = None.
Proof.
  intros He Hf Hv Ht Hj Hdoc.
  exists (resp 200 (data (job_response job (head (executions_of_job (j_job_id job) t))))).
  split; [|split_and!; [done| |done|done]].
  - unfold jobs_get_handler. cbv zeta. unfold se_bind, q, se_map_err.
    rewrite connection_quiet by done. cbn [res_map_err].
    unfold jobs_get. rewrite (read_quiet _ _ t) by done.
    rewrite Hj. cbn [res_map_err se_ok_or se_ret]. unfold se_ret, executions_get_for_job.
    rewrite (read_quiet _ _ t) by done. reflexivity.
  - unfold get_job_response, de_get_job_http_response, de_http_response, de_get_job.
    rewrite good_answer, read_data, read_job_response by done. by case_bool_decide.
Qed.

(** The SDK returns an execution as it is stored -- status, counters, times and
    documents -- when its counters fit 32 bits; only the idempotency key is never there. *)
Theorem sdk_reads_executions prefix ws execution_id s t e headers :
  ss_env s = [] → ss_failed s = false → validate_schema_name (wc_schema_name ws) = true →
  st_tenants (ss_store s) !! (wc_schema_name ws, prefix) = Some t →
  t_executions t !! execution_id = Some e →
  document_ok (Json.opt_json (e_input e)) = true → document_ok (Json.opt_json (e_output e)) = true →
  in_i32 (e_attempt_count e) → in_i32 (e_max_attempts e) →
  (∀ d, e_duration_ms e = Some d → in_i32 d) →
  ∃ r, executions_get_handler prefix ws execution_id s = (Ok r, s) ∧ resp_status r = 200
    ∧ get_execution_response (wire headers r) = inr (seen_execution e)
    ∧ ExecutionStatusEnum_as_str (eR_status (seen_execution e)) = e_status e.
Proof.
  intros He Hf Hv Ht Hx Hi Ho Ha Hm Hd. exists (resp 200 (data (Json.obj (execution_fields e)))).
  split; [|split_and!; [done| |apply execution_status_enum]].
  - unfold executions_get_handler, se_bind, q, se_map_err.
    rewrite connection_quiet by done. cbn [res_map_err].
    unfold executions_get. rewrite (read_quiet _ _ t) by done.
    rewrite Hx. reflexivity.
  - unfold get_execution_response, de_get_execution_http_response, de_http_response.
    unfold de_get_execution. by rewrite good_answer, read_data, read_execution.
Qed.
End reads.

(** ** Requests *)

Section requests.
Context `{!Chrono} `{!CronCrate} `{!Smithy} `{!SdkTimes}.

(** C32: the filters of [list_jobs], as a chain of calls of the fluent builder sets them,
    mean to the API what they mean to the caller: every list of values is read back in its order, the id and the endpoint unless they are
    blank, and the window at the API's precision.  The values must be ones the API knows,
    each at most once, and the window must not be empty. *)
Theorem sdk_job_filters_are_understood url_decode calls r st tr et :
  let input := foldl list_jobs_call list_jobs_none calls in
  (∀ s, url_decode (query_encode s) = s) →
  list_jobs_send calls = Ok r →
  mapM (λ x, JobStatus_from_str_val (JobStatusEnum_as_str x)) (default [] (list_jobs_status input))
    = Some st → NoDup st →
  mapM (λ x, TriggerType_from_str_val (TriggerTypeEnum_as_str x))
    (default [] (list_jobs_trigger_type input)) = Some tr → NoDup tr →
  mapM (λ x, EndpointType_from_str_val (EndpointTypeEnum_as_str x))
    (default [] (list_jobs_endpoint_type input)) = Some et → NoDup et →
  (∀ a b, list_jobs_created_after input = Some a → list_jobs_created_before input = Some b →
     a / 1000 ≤ b / 1000) →
  parse_job_filters ((λ kv, (kv.1, url_decode kv.2)) <$> rq_query r) = Ok {|
    jf_job_id := blank_to_none (list_jobs_job_id input); jf_status := st; jf_trigger := tr;
    jf_endpoint := blank_to_none (list_jobs_endpoint input); jf_endpoint_type := et;
    jf_created_after := (λ t, t / 1000) <$> list_jobs_created_after input;
    jf_created_before := (λ t, t / 1000) <$> list_jobs_created_before input |}.
Proof.
  intros input Hd E Hst Nst Htr Ntr Het Net Hw. change (list_jobs_request input = Ok r) in E.
  assert (list_jobs_uri_query input = Ok (rq_query r)) as Eq.
  { unfold list_jobs_request in E. destruct (list_jobs_uri_query input) as [l| |]; [|done..].
    cbn [res_bind] in E. destruct (ser_list_jobs_headers input); [|done..].
    by apply ok_eq in E as ->. }
  exact (sdk_filters url_decode Hd _ _ _ _ _ Eq Hst Nst Htr Ntr Het Net Hw).
Qed.

(** The body a chain of calls of [create_job] sends is the new job that was asked for:
    once the endpoint and the trigger are set and the cron expression is valid, the API decodes it to the
    same endpoint, trigger, key, input, schedule and times, without an attempt limit. *)
Theorem sdk_new_job_is_understood calls r endpoint trigger cron :
  let input := foldl create_job_call create_job_none calls in
  create_job_send calls = Ok r →
  create_job_endpoint input = Some endpoint → create_job_trigger input = Some trigger →
  match create_job_cron input with
  | Some x => ∃ c, PgCronExpr_try_from x = Ok c ∧ cron = Some c
  | None => cron = None
  end →
  ∃ body, rq_body r = Some (JObject body) ∧ rq_method r = POST ∧ rq_path r = "/v1/jobs"
    ∧ CreateJob_from_fields body = Ok {|
        cj_endpoint := endpoint; cj_trigger := TriggerTypeEnum_as_str trigger;
        cj_idempotency_key := create_job_idempotency_key input;
        cj_input := match create_job_input input with Some JNull => None | i => i end;
        cj_max_attempts := None;
        cj_run_at := (λ t, t / 1000) <$> create_job_run_at input;
        cj_cron := cron; cj_timezone := create_job_timezone input;
        cj_starts_at := (λ t, t / 1000) <$> create_job_starts_at input;
        cj_ends_at := (λ t, t / 1000) <$> create_job_ends_at input |}.
Proof.
  intros input E Hep Htr Hcron. change (create_job_request input = Ok r) in E.
  unfold create_job_request in E.
  destruct (ser_create_job_headers input) as [hs| |]; [|done..]. cbn [res_bind] in E.
  destruct (ser_create_job_input input) as [body| |] eqn:Eb; [|done..]. cbn [res_bind] in E.
  apply ok_eq in E as ->. exists body. split_and!; [done..|].
  exact (sdk_job_body input body endpoint trigger cron Eb Hep Htr Hcron).
Qed.
End requests.

(** ** From a new job to its result *)

Section journey.
Context `{!Chrono} `{!CronCrate} `{!Base64} `{!JsonSchemaCrate} `{!Smithy} `{!SdkTimes}.
Context `{!SerdeJson} `{!SqlDisplay} `{!Aes256Gcm} `{!Utf8}.
Context (rng : Rng) (ctx : PipelineContext) (worker_id : string) (L J : nat).
Context (ws : WorkspaceContext).
Notation prefix := (pc_table_prefix ctx).
Notation key := (wc_schema_name ws, prefix).

(** What the SDK reads once the endpoint has answered 200. *)
Lemma delivered_reads t0 id e0 ep w0 query bodies n w e headers :
  flaky_at ctx (wc_schema_name ws) t0 id e0 ep w0 query bodies n w e →
  st_tenants (ss_store (wd_session w0)) !! key = Some t0 →
  validate_schema_name (wc_schema_name ws) = true →
  document_ok (Json.opt_json (e_input e0)) = true → (∀ b, document_ok (http_output b) = true) →
  Z.of_nat n = Z.max 1 (succeed_after query) → Z.of_nat n ≤ i32_max → in_i32 (e_max_attempts e0) →
  ∀ s2, ss_env s2 = [] → ss_failed s2 = false → ss_store s2 = ss_store (wd_session w) →
  ∃ r2 seen, executions_get_handler prefix ws id s2 = (Ok r2, s2)
    ∧ get_execution_response (wire headers r2) = inr seen
    ∧ eR_status seen = ExecutionStatusEnum_Success ∧ eR_attempt_count seen = Z.of_nat n
    ∧ flaky_output (Z.of_nat n) bodies (eR_output seen).
Proof.
  intros [Hrow _ [_ _ _ _ Hin Hma] Hcount Hst Hdur Ho _ _ _ _ Hcat] Ht0 Hv Hdoc Hout Hn Hi Hm
    s2 Henv Hf Hs2.
  destruct (Hcat _ Ht0) as (t & Ht & _). destruct (Ho ltac:(lia) Hn) as (b & Hbody & Hb).
  unfold execs in Hrow. rewrite Ht in Hrow. cbn in Hrow. rewrite <-Hs2 in Ht.
  destruct (sdk_reads_executions prefix ws id s2 t e headers Henv Hf Hv Ht Hrow)
    as (r2 & E & _ & Er & _).
  - by rewrite Hin.
  - rewrite Hb. apply Hout.
  - rewrite Hcount. unfold in_i32, i32_min. lia.
  - by rewrite Hma.
  - intros d Hd. destruct Hdur as [Hd'|Hd']; [lia|congruence|]. rewrite Hd' in Hd.
    injection Hd as <-. done.
  - exists r2, (seen_execution e). split_and!; [done..| |exact Hcount|].
    + cbn. rewrite Hst by lia. unfold flaky_status. by rewrite bool_decide_eq_true_2 by lia.
    + exists b. rewrite Hn. split; [done|]. cbn. by rewrite Hb.
Qed.

(** C4: a job created through the SDK is delivered.  A chain of calls of [create_job] asks
    for an IMMEDIATE or DELAYED job on an HTTP endpoint, the API answers 201, and nobody else
    writes meanwhile.  The endpoint's spec has no templates and no config, expects the
    status 200 and not 500, and what it points at is the mock server's flaky endpoint, which
    answers 500 until its request number [N] and then 200 with an echo of the body it got.
    Then the SDK has the id of an ACTIVE job, and there is one execution of it such that,
    however many tasks of one worker run after each other, each in a calm world (no fault,
    no other writer) in which only this execution is due: all that was sent is as many
    copies of one request -- the endpoint's spec with the caller's input as its body, under
    the caller's key or the generated one -- and never more than [N] or than the policy
    allows; until then the execution stays due; and once the endpoint has answered 200, a
    request of the SDK on that database is told SUCCESS, [N] attempts, and as output the
    status 200 with the text of the endpoint's answer number [N] (input and output being
    documents the SDK accepts, the counts within 32 bits). *)
Theorem sdk_job_is_delivered calls generated s answer s1 headers endpoint t ep w0 query bodies :
  let input := foldl create_job_call create_job_none calls in
  let spec := inject_body (ep_spec ep) (job_input input) in
  let N := Z.max 1 (succeed_after query) in
  let max := rp_max_attempts (get_retry_policy ep) in
  posted prefix ws calls generated s answer s1 → resp_status answer = 201 → alone s →
  one_off input endpoint → document_ok (Json.opt_json (job_input input)) = true →
  st_tenants (ss_store s) !! key = Some t → t_endpoints t !! endpoint = Some ep →
  ep_endpoint_type ep = "HTTP" → ss_store (wd_session w0) = ss_store s1 →
  flaky_service ep spec query bodies w0 → (∀ p, hex_decode (pc_encryption_key ctx) ≠ Panic p) →
  N ≤ i32_max → in_i32 max → (∀ b, document_ok (http_output b) = true) →
  ∃ job id, create_job_response (wire headers answer) = inr (seen_job job)
    ∧ j_status job = "ACTIVE"
    ∧ ∀ n w, rounds rng ctx worker_id L J (wc_schema_name ws) id w0 n w →
      wd_outbox w = wd_outbox w0 ++ replicate n (SentHttp (http_request spec
                      (default generated (create_job_idempotency_key input))))
      ∧ Z.of_nat n ≤ N ∧ Z.of_nat n ≤ Z.max 1 max
      ∧ ∃ e, execs key (ss_store (wd_session w)) !! id = Some e ∧ e_job_id e = j_job_id job
        ∧ (Z.of_nat n < N → Z.of_nat n < Z.max 1 max →
           ∀ at_time locked, e_run_at e ≤ at_time → id ∉ locked →
           due at_time locked (execs key (ss_store (wd_session w))) id e)
        ∧ (Z.of_nat n = N →
           ∀ s2, ss_env s2 = [] → ss_failed s2 = false → ss_store s2 = ss_store (wd_session w) →
           ∃ r2 seen, executions_get_handler prefix ws id s2 = (Ok r2, s2)
             ∧ get_execution_response (wire headers r2) = inr seen
             ∧ eR_status seen = ExecutionStatusEnum_Success ∧ eR_attempt_count seen = N
             ∧ flaky_output N bodies (eR_output seen)).
Proof.
  intros input spec N max Hpost H201 Ha Hone Hdoc Ht Hep Hhttp Hw0 Hserv Hkey HN Hmax Hout.
  destruct (posted_run _ _ _ _ _ _ _ _ Hpost Hone H201 Ha)
    as (body & t' & ep' & job & e & extra & Hen & Hin & Hma & Hck & Hnew & Hs1 & -> & Hx).
  destruct Hck as [_ _ Ht' Hep' _ Hv]. rewrite Hen in Hep'. simplify_eq.
  fold input in Hin, Hnew. rewrite <-Hin in Hdoc. subst spec. rewrite <-Hin in Hserv |- *.
  assert (e_max_attempts e = max) as Hem.
  { rewrite (cr_max_attempts _ _ _ _ _ Hnew). unfold job_max_attempts. by rewrite Hma. }
  exists job, (e_execution_id e). split; [|split; [by apply Hnew|]].
  { apply read_created; [by rewrite (cr_job_input _ _ _ _ _ Hnew)|by apply Hnew|done]. }
  intros n w Hr.
  destruct (created_flaky rng ctx worker_id L J (wc_schema_name ws) body ep _ job e t (ss_store s) w0
    query bodies Hkey Hnew (eq_trans Hw0 Hs1) Hep Hhttp Hserv n w Hr)
    as [e' Hfl].
  pose proof (created_key body ep _ job e t Hnew) as Hkey'.
  pose proof Hfl as [Hrow _ [_ Hjob _ _ _ Hem'] _ _ _ _ HfN Hfm Hbox _ _].
  rewrite Hkey', (cr_input _ _ _ _ _ Hnew) in Hbox. rewrite Hem in Hfm.
  split_and!; [done..|]. exists e'. split_and!; [done|by rewrite Hjob, (cr_of_job _ _ _ _ _ Hnew)| |].
  - intros Hn Hm. eapply flaky_waits; [exact Hfl| |done|by rewrite Hem].
    split; [|done]. pose proof (cr_waits _ _ _ _ _ Hnew). set_solver.
  - intros Hn. rewrite <-Hn.
    eapply delivered_reads; [exact Hfl| |done| |done|done|lia|by rewrite Hem].
    + rewrite Hw0, Hs1. apply lookup_insert_eq.
    + by rewrite (cr_input _ _ _ _ _ Hnew).
Qed.
End journey.

(** Whatever an operation of the SDK sends goes to a route of the API: the method and
    the path are those of a route, with something in the place of its braces.  A body is
    sent only with POST and PUT, and is declared as JSON exactly when it is there. *)
Theorem sdk_requests_name_routes `{!Smithy} r :
  sdk_sends r →
  names_route (rq_method r) (rq_path r)
  ∧ (is_Some (rq_body r) → rq_method r = POST ∨ rq_method r = PUT)
  ∧ (("content-type", "application/json") ∈ rq_headers r ↔ is_Some (rq_body r)).
Proof. exact (sdk_sound r). Qed.

(** The values of an enumeration and the API's. *)
Lemma enum_values {T} (from : string → T) as_str values try_parse (P : Prop) s :
  enum_sound from as_str values try_parse → (s ∈ values ↔ P) →
  as_str (from s) = s ∧ (is_ok (try_parse s) = true ↔ P).
Proof. intros Hs HP. destruct (Hs s) as [E Hv]. by rewrite Hv, HP. Qed.

Ltac one_of := cbv beta; match goal with |- _ ∈ ?v ↔ _ => unfold v end;
  rewrite !list.elem_of_cons, list.elem_of_nil.
Ltac parsed := one_of; match goal with |- _ ↔ is_Some (?f _) => unfold f end;
  repeat case_bool_decide; naive_solver.
Ltac written := one_of; split;
  [intros Hs; repeat destruct Hs as [->|Hs]; try done;
   first [by eexists ES_PENDING | by eexists ES_QUEUED | by eexists ES_RUNNING
         |by eexists ES_RETRYING | by eexists ES_SUCCESS | by eexists ES_FAILED
         |by eexists ES_CANCELLED | by eexists AS_SUCCESS | by eexists AS_FAILED]
  |intros [[] ->]; cbn; tauto].

(** The enumerations of the SDK lose nothing: the string of a value that was read is
    what was read, known or not; [try_parse] accepts the values of the model and no others;
    and these are the values the API writes and accepts. *)
Theorem sdk_enums_keep_every_value s :
  (JobStatusEnum_as_str (JobStatusEnum_from s) = s
   ∧ (is_ok (JobStatusEnum_try_parse s) = true ↔ is_Some (JobStatus_from_str_val s)))
  ∧ (TriggerTypeEnum_as_str (TriggerTypeEnum_from s) = s
     ∧ (is_ok (TriggerTypeEnum_try_parse s) = true ↔ is_Some (TriggerType_from_str_val s)))
  ∧ (EndpointTypeEnum_as_str (EndpointTypeEnum_from s) = s
     ∧ (is_ok (EndpointTypeEnum_try_parse s) = true ↔ is_Some (EndpointType_from_str_val s)))
  ∧ (ExecutionStatusEnum_as_str (ExecutionStatusEnum_from s) = s
     ∧ (is_ok (ExecutionStatusEnum_try_parse s) = true ↔ ∃ x, s = ExecutionStatus_as_str x))
  ∧ (AttemptStatusEnum_as_str (AttemptStatusEnum_from s) = s
     ∧ (is_ok (AttemptStatusEnum_try_parse s) = true ↔ ∃ x, s = AttemptStatus_as_str x))
  ∧ (BackoffTypeEnum_as_str (BackoffTypeEnum_from s) = s
     ∧ (is_ok (BackoffTypeEnum_try_parse s) = true ↔ s ∈ ["fixed"; "linear"; "exponential"]))
  ∧ LogLevelEnum_as_str (LogLevelEnum_from s) = s.
Proof.
  refine (conj _ (conj _ (conj _ (conj _ (conj _ (conj _ _)))))).
  - apply (enum_values _ _ _ _ _ s job_status_enum). parsed.
  - apply (enum_values _ _ _ _ _ s trigger_type_enum). parsed.
  - apply (enum_values _ _ _ _ _ s endpoint_type_enum). parsed.
  - apply (enum_values _ _ _ _ _ s execution_status_enum). written.
  - apply (enum_values _ _ _ _ _ s attempt_status_enum). written.
  - apply (enum_values _ _ _ _ _ s backoff_type_enum). one_of. set_solver.
  - apply log_level_enum.
Qed.

(** ** Witnesses *)

(** Encoders that change nothing, and times as the sample libraries write them. *)
Definition plain_smithy : Smithy := {|
  query_encode s := s; label_encode s := s; header_value _ := true;
  fmt_date_time t := Some (write_time (t / 1000));
  parse_date_time s := (λ t, t * 1000) <$> read_time s;
  float_as_int _ := None; document_ok _ := true |}.

Lemma plain_times : @SdkTimes binary_chrono plain_smithy.
Proof.
  split.
  - intros t. destruct (binary_chrono_roundtrip t) as (s & E & _ & _ & Hp). exists s.
    split; [done|]. cbn. cbn in Hp. by rewrite Hp.
  - intros t s. cbn. intros [= <-]. destruct (binary_chrono_roundtrip (t / 1000)) as (s & E & H).
    cbn in E. injection E as <-. exact H.
Qed.

#[local] Existing Instances Sample.cron_crate Sample.base64 Sample.json_schema plain_smithy.

Lemma sdk_never_names_an_error_witness :
  header "x-amzn-errortype" [("content-type", "application/json")] = None
  ∧ (hd ([], None) (sdk_refusals (wire [("content-type", "application/json")]
      (error_response (JobNotFound "j1"))))).2 = Some (Unhandled no_metadata).
Proof.
  split; [reflexivity|].
  destruct (sdk_never_names_an_error [("content-type", "application/json")] eq_refl) as [Hf _].
  specialize (Hf _ (Refused_app (JobNotFound "j1"))). inversion Hf. assumption.
Defined.

Lemma sdk_job_loses_its_trigger_witness :
  ∃ r, @jobs_get_handler binary_chrono "" Sample.ws "c1" Sample.session = (Ok r, Sample.session)
    ∧ get_job_response (wire [] r) = inr (@seen_job Sample.cron_job).
Proof.
  destruct (@sdk_job_loses_its_trigger binary_chrono plain_smithy plain_times "" Sample.ws "c1"
    Sample.session Sample.tenant Sample.cron_job [] eq_refl eq_refl eq_refl eq_refl eq_refl eq_refl)
    as (r & E & _ & Hr & _).
  exists r. split; [exact E|exact Hr].
Defined.

Lemma sdk_reads_executions_witness :
  ∃ r, @executions_get_handler binary_chrono "" Sample.ws "x1" Sample.session
       = (Ok r, Sample.session)
    ∧ get_execution_response (wire [] r) = inr (@seen_execution Sample.execution).
Proof.
  destruct (@sdk_reads_executions binary_chrono plain_smithy plain_times "" Sample.ws "x1"
    Sample.session Sample.tenant Sample.execution [] eq_refl eq_refl eq_refl eq_refl eq_refl
    eq_refl eq_refl) as (r & E & _ & Hr & _).
  - split; vm_compute; discriminate.
  - split; vm_compute; discriminate.
  - intros d Hd. discriminate Hd.
  - exists r. split; [exact E|exact Hr].
Defined.

(** A request for the active HTTP jobs of an endpoint since some moment. *)
Definition sample_filters : list ListJobsCall := [
  ListJobs_set_org_id (Some "o1"); ListJobs_set_workspace_id (Some "w1");
  ListJobs_trigger_type TriggerTypeEnum_Cron; ListJobs_set_limit (Some 20);
  ListJobs_set_status (Some [JobStatusEnum_Retired]); ListJobs_set_endpoint (Some "hook");
  ListJobs_trigger_type TriggerTypeEnum_Delayed; ListJobs_set_created_after (Some 5000);
  ListJobs_set_status (Some [JobStatusEnum_Active])].

Lemma sdk_job_filters_are_understood_witness :
  ∃ r, list_jobs_send sample_filters = Ok r
    ∧ @parse_job_filters binary_chrono ((λ kv, (kv.1, kv.2)) <$> rq_query r) = Ok {|
        jf_job_id := None; jf_status := [ACTIVE]; jf_trigger := [CRON; DELAYED];
        jf_endpoint := Some "hook"; jf_endpoint_type := [];
        jf_created_after := Some 5; jf_created_before := None |}.
Proof.
  eexists. split; [reflexivity|].
  apply (@sdk_job_filters_are_understood binary_chrono plain_smithy plain_times (λ s, s)
    sample_filters _ [ACTIVE] [CRON; DELAYED] []); try reflexivity.
  - apply (bool_decide_unpack _). reflexivity.
  - apply (bool_decide_unpack _). reflexivity.
  - apply (bool_decide_unpack _). reflexivity.
  - intros a b _ Hb. discriminate Hb.
Defined.

Definition sample_new_job : list CreateJobCall := [
  CreateJob_set_org_id (Some "o1"); CreateJob_set_workspace_id (Some "w1");
  CreateJob_set_endpoint (Some "mail"); CreateJob_set_endpoint (Some "hook");
  CreateJob_set_trigger (Some TriggerTypeEnum_Cron); CreateJob_set_input (Some (JObject []));
  CreateJob_set_cron (Some "* * * * *"); CreateJob_set_timezone (Some "UTC");
  CreateJob_set_starts_at (Some 7000)].

Lemma sdk_new_job_is_understood_witness :
  ∃ r body job, create_job_send sample_new_job = Ok r ∧ rq_body r = Some (JObject body)
    ∧ @CreateJob_from_fields binary_chrono Sample.cron_crate body = Ok job
    ∧ cj_starts_at job = Some 7 ∧ cj_trigger job = "CRON".
Proof.
  destruct (PgCronExpr_try_from "* * * * *") as [c| |] eqn:Ec; [|vm_compute in Ec; discriminate Ec..].
  destruct (@sdk_new_job_is_understood binary_chrono Sample.cron_crate plain_smithy plain_times
    sample_new_job _ "hook" TriggerTypeEnum_Cron (Some c) eq_refl eq_refl eq_refl)
    as (body & Hb & _ & _ & Hj).
  - exists c. split; [exact Ec|reflexivity].
  - eexists _, body, _. split; [reflexivity|]. split; [exact Hb|]. split; [exact Hj|].
    split; reflexivity.
Defined.

Lemma sdk_requests_name_routes_witness :
  ∃ r, create_job_send sample_new_job = Ok r ∧ names_route (rq_method r) (rq_path r).
Proof.
  eexists. split; [reflexivity|].
  refine (proj1 (sdk_requests_name_routes _ (sends_create_job _
    (foldl create_job_call create_job_none sample_new_job) eq_refl))).
Defined.

(** ** A job is posted and delivered *)

#[local] Existing Instances binary_chrono plain_times
  Sample.serde Sample.sql_display Sample.aes Sample.utf8.

(** A workspace with one endpoint and nothing else. *)
Definition bare_tenant : Tenant := set_endpoints {["hook" := Sample.endpoint]} empty_tenant.
Definition bare_session : Session :=
  set_store (set_tenant Sample.key bare_tenant Sample.store)
    (Sample.session_at 10 (calm_at <$> seq 200 9)).
Definition sample_immediate : list CreateJobCall := [
  CreateJob_set_org_id (Some "o1"); CreateJob_set_workspace_id (Some "w1");
  CreateJob_set_endpoint (Some "hook"); CreateJob_set_trigger (Some TriggerTypeEnum_Immediate);
  CreateJob_set_input (Some (JObject [("n", JInt 1)]))].
Definition sample_body : list (string * json) :=
  match create_job_send sample_immediate with
  | Ok r => match rq_body r with Some (JObject l) => l | _ => [] end
  | _ => []
  end.
Definition sample_create : CreateJob :=
  match CreateJob_from_fields sample_body with Ok b => b | _ => replay_body end.
Definition posted_run : res AppError HttpResponse * Session :=
  jobs_create "" Sample.ws 10 "g1" sample_create bare_session.
Definition posted_answer : HttpResponse :=
  match posted_run.1 with Ok r => r | _ => resp 500 JNull end.
Definition posted_job : Job :=
  new_job "203" "hook" "HTTP" "IMMEDIATE" (Some "g1") (Some (JObject [("n", JInt 1)])) 10.
Definition posted_execution : Execution :=
  new_execution "204" "203" "hook" "HTTP" (Some "g1") "QUEUED" 10 (Some (JObject [("n", JInt 1)])) 3 10.
Definition posted_tenant : Tenant := with_created posted_job posted_execution bare_tenant.
Definition posted_store : Store := set_tenant Sample.key posted_tenant Sample.store.
Definition posted_world : World :=
  Sample.world_of (set_store posted_store (Sample.session_at 10 calm_env))
    (net_of <$> flaky_answers [("succeed_after", "1")] [JNull] {| ms_request_count := 0 |}).

Lemma posted_sample :
  posted "" Sample.ws sample_immediate "g1" bare_session posted_answer posted_run.2
  ∧ resp_status posted_answer = 201 ∧ ss_store posted_run.2 = posted_store.
Proof.
  split; [|by vm_compute].
  eapply (Posted _ _ _ _ _ _ _ _ sample_body sample_create 10).
  - vm_compute. reflexivity.
  - vm_compute. reflexivity.
  - vm_compute. reflexivity.
  - fold posted_run. unfold posted_answer.
    assert (is_ok posted_run.1 = true) as Hr by by vm_compute.
    destruct posted_run as [r s']. by destruct r.
Qed.

Lemma bare_tenant_ok : tenant_ok bare_tenant.
Proof.
  apply (move_tenant_ok empty_tenant); [|apply empty_tenant_ok].
  apply (TM_endpoint _ Sample.db Sample.endpoint). by vm_compute.
Qed.

Lemma posted_tenant_ok : tenant_ok posted_tenant.
Proof.
  pose (t1 := set_jobs {["203" := posted_job]} bare_tenant).
  apply (move_tenant_ok t1); [|apply (move_tenant_ok bare_tenant); [|apply bare_tenant_ok]].
  - apply (TM_execution t1 Sample.db posted_execution "203" posted_job).
    + split_and!; [done|apply list_elem_of_here|done..].
    + by vm_compute.
    + done.
    + by vm_compute.
  - by apply (TM_job bare_tenant Sample.db posted_job); [| |vm_compute].
Qed.

Lemma posted_rows : execs Sample.key posted_store = {["204" := posted_execution]}.
Proof. by vm_compute. Qed.

Lemma sample_flaky :
  flaky_service Sample.endpoint (inject_body (ep_spec Sample.endpoint) (Some (JObject [("n", JInt 1)])))
    [("succeed_after", "1")] [JNull] posted_world.
Proof.
  split.
  - by split; vm_compute.
  - apply (bool_decide_unpack _). vm_compute. exact I.
  - apply (bool_decide_unpack _). vm_compute. exact I.
  - reflexivity.
  - split; [by vm_compute|done].
Qed.

Lemma posted_at_rest : at_rest Sample.context 2 2 10 ∅ ["o1_main"] 17 (resume ∅ calm_env posted_world).
Proof.
  split; [done..| |by apply Nat.leb_le]. split.
  - intros k t. cbn [resume posted_world Sample.world_of set_session wd_session ss_store set_store
      posted_store set_tenant st_tenants]. rewrite lookup_insert_Some.
    intros [[<- <-]|[_ Ht]]; [apply posted_tenant_ok|by eapply sample_store_ok].
  - intros k id e. destruct (decide (k = Sample.key)) as [->|Hk].
    + change (execs Sample.key posted_store !! id = Some e → exec_wf e ∧ e_max_attempts e ≤ i64_max).
      rewrite posted_rows. intros [_ <-]%lookup_singleton_Some.
      split; [|vm_compute; by intros]. split; vm_compute; [done|done|done|]. split; [by intros []|].
      intros H. apply list_elem_of_In in H. naive_solver.
    + intros He. exfalso. change (execs k posted_store !! id = Some e) in He.
      unfold execs, posted_store, set_tenant in He. cbn [st_tenants] in He.
      rewrite lookup_insert_ne in He by done. by apply Sample.rows in He as [-> _].
  - apply list.Forall_singleton. split; [done|]. exists posted_tenant. split; [by vm_compute|]. split.
    + apply list.Forall_forall. by intros st (i & -> & _)%list_elem_of_fmap.
    + apply (tc_endpoints _ _ _ _ _ calm_tenant).
    + vm_compute. lia.
  - apply calm_env_calm.
Qed.

Definition delivered_world : World :=
  (claim_and_process (E:=Empty_set) Sample.rng Sample.context "worker-1" ["o1_main"]
    (resume ∅ calm_env posted_world)).2.

Lemma posted_rounds :
  rounds Sample.rng Sample.context "worker-1" 2 2 "o1_main" "204" posted_world 1 delivered_world.
Proof.
  apply (Rounds_more _ _ _ _ _ _ _ _ 0 posted_world 10 ∅ calm_env); [constructor|apply posted_at_rest|..].
  - exists posted_execution. split; [|split; [|set_solver]].
    + change (execs Sample.key posted_store !! "204" = Some posted_execution).
      rewrite posted_rows. apply lookup_singleton_eq.
    + by apply (bool_decide_unpack _); vm_compute.
  - intros id2 e2 [He _]. change (execs Sample.key posted_store !! id2 = Some e2) in He.
    rewrite posted_rows in He. by apply lookup_singleton_Some in He as [<- _].
Qed.

(** ** ... with the SDK reading the result in a session of its own. *)
Definition reading_session : Session :=
  set_store (ss_store (wd_session delivered_world)) Sample.session.

Lemma set_store_is σ s : ss_store (set_store σ s) = σ.
Proof. reflexivity. Qed.
Lemma reading_store : ss_store reading_session = ss_store (wd_session delivered_world).
Proof. apply set_store_is. Qed.

Lemma sdk_job_is_delivered_witness :
  ∃ job r2 seen, create_job_response (wire [] posted_answer) = inr (seen_job job)
    ∧ wd_outbox delivered_world
      = [SentHttp (http_request (inject_body Sample.spec (Some (JObject [("n", JInt 1)]))) "g1")]
    ∧ executions_get_handler "" Sample.ws "204" reading_session = (Ok r2, reading_session)
    ∧ get_execution_response (wire [] r2) = inr seen
    ∧ eR_status seen = ExecutionStatusEnum_Success ∧ eR_attempt_count seen = 1
    ∧ eR_output seen = Some (http_output (json_to_string (flaky_success 1 JNull))).
Proof.
  destruct (sdk_job_is_delivered Sample.rng Sample.context "worker-1" 2 2 Sample.ws sample_immediate
    "g1" bare_session posted_answer posted_run.2 [] "hook" bare_tenant Sample.endpoint posted_world
    [("succeed_after", "1")] [JNull]) as (job & id & Hjob & _ & Hrun).
  - apply posted_sample.
  - apply posted_sample.
  - split; [reflexivity|]. apply list.Forall_forall. intros st Hst.
    apply list_elem_of_fmap in Hst as (i & -> & _). reflexivity.
  - split; [reflexivity|apply list_elem_of_here|reflexivity].
  - reflexivity.
  - vm_compute. reflexivity.
  - vm_compute. reflexivity.
  - reflexivity.
  - symmetry. apply posted_sample.
  - apply sample_flaky.
  - by vm_compute.
  - by vm_compute.
  - by vm_compute.
  - reflexivity.
  - destruct (Hrun 0%nat posted_world) as (_ & _ & _ & e & He & _); [constructor|].
    change (execs Sample.key posted_store !! id = Some e) in He.
    rewrite posted_rows in He. apply lookup_singleton_Some in He as [<- _].
    destruct (Hrun 1%nat delivered_world posted_rounds) as (Ho & _ & _ & e' & _ & _ & _ & Hseen).
    destruct (Hseen eq_refl reading_session eq_refl eq_refl reading_store) as (r2 & seen & E & Er & Es & Ec & Eo).
    exists job, r2, seen. split; [exact Hjob|]. split; [exact Ho|]. split.
    { change (pc_table_prefix Sample.context) with EmptyString in E. clear -E. exact E. }
    split; [exact Er|]. split; [exact Es|]. split; [exact Ec|].
    destruct Eo as (body & Hbody & ->). by apply (inj Some) in Hbody as <-.
Defined.
