(* ===== verification/PropsDelivery.v ===== *)
(** * A caller's job is delivered, whichever the mode

    The composition of the deployment modes' contract with the rounds of a worker against
    the flaky endpoint. *)

From S2P Require Export PropsModes PropsSdk.
#[local] Open Scope Z_scope.

(** What a caller that knows the contract is told of a row. *)
Lemma contract_tells (c : Client) at_ name id d2 o d3 k e :
  Contract c at_ → cl_get_execution c name id d2 = (Ok o, d3) → segment_ok id →
  alone (dp_session d2) → at_ (dstore d2) name k → execs k (dstore d2) !! id = Some e →
  ∃ e0, o = Some e0 ∧ as_told e0 = as_told e.
Proof.
  intros C E Hid Ha Hat He. unfold execs in He.
  destruct (st_tenants (dstore d2) !! k) as [t|] eqn:Ht; [|cbn in He; by rewrite lookup_empty in He].
  destruct (ct_get _ _ C _ _ _ _ _ _ _ E Hid Ha Hat Ht) as (_ & _ & Ho).
  cbn in He. rewrite He in Ho. destruct o as [e0|]; [|done]. exists e0. split; [done|].
  by apply (inj Some) in Ho.
Qed.

(** An object is not null, so it is told as it is. *)
Lemma told_output `{!SerdeJson} e0 e N bodies :
  as_told e0 = as_told e → flaky_output N bodies (e_output e) → flaky_output N bodies (e_output e0).
Proof.
  intros Et (b & Hbody & Hb). exists b. split; [done|].
  apply (f_equal e_output) in Et. cbn [as_told e_output] in Et. rewrite Hb in Et.
  cbn in Et. by destruct (e_output e0) as [[]|].
Qed.

(** C5: in either mode a caller's job is delivered.  Through the contract of the modes it
    creates a one-off job with an input that is not null, 0 < [n] attempts and a fresh key,
    on an HTTP endpoint, and nobody else writes meanwhile.  The endpoint's spec has no
    templates and no config, expects the status 200 and not 500, and what it points at is
    the mock server's flaky endpoint, which answers 500 until its request number [N] and
    then 200 with an echo of the body it got.  However many tasks of the worker then run
    after each other, each in a calm world (no fault, no other writer) in which only this
    execution is due: all that was sent is as many copies of one request -- the endpoint's
    spec with the caller's input as its body, under the caller's key -- and never more than
    [N] or [n]; until then the execution stays due; and once the endpoint has answered 200
    the caller, if its read on that database succeeds, is told SUCCESS, [N] attempts, and as
    output the status 200 with the text of the endpoint's answer number [N]. *)
Theorem caller_sees_its_job_delivered `{!SerdeJson} `{!SqlDisplay} `{!Aes256Gcm} `{!Utf8}
    (rng : Rng) (ctx : PipelineContext) worker_id L J schema
    (c : Client) at_ name endpoint input n trigger key d id d1 t ep w0 query bodies :
  let k := (schema, pc_table_prefix ctx) in
  let spec := inject_body (ep_spec ep) (Some input) in
  let N := Z.max 1 (succeed_after query) in
  Contract c at_ →
  cl_create_job c name endpoint input n trigger (Some key) d = (Ok id, d1) →
  is_cron trigger = false → input ≠ JNull → 0 < n ≤ i64_max →
  alone (dp_session d) → at_ (dstore d) name k → st_tenants (dstore d) !! k = Some t →
  (∀ job, job ∈ (map_to_list (t_jobs t)).*2 → j_idempotency_key job ≠ Some key) →
  segment_ok id → t_endpoints t !! endpoint = Some ep → ep_endpoint_type ep = "HTTP" →
  ss_store (wd_session w0) = dstore d1 → flaky_service ep spec query bodies w0 →
  (∀ p, hex_decode (pc_encryption_key ctx) ≠ Panic p) →
  ∀ m w, rounds rng ctx worker_id L J schema id w0 m w →
    wd_outbox w = wd_outbox w0 ++ replicate m (SentHttp (http_request spec key))
    ∧ Z.of_nat m ≤ N ∧ Z.of_nat m ≤ n
    ∧ (Z.of_nat m < N → Z.of_nat m < n →
       ∃ e, ∀ at_time locked, e_run_at e ≤ at_time → id ∉ locked →
         due at_time locked (execs k (ss_store (wd_session w))) id e)
    ∧ (Z.of_nat m = N → ∀ d2 o d3,
       cl_get_execution c name id d2 = (Ok o, d3) → alone (dp_session d2) →
       at_ (dstore d2) name k → dstore d2 = ss_store (wd_session w) →
       ∃ e, o = Some e ∧ e_status e = "SUCCESS" ∧ e_attempt_count e = N
         ∧ flaky_output N bodies (e_output e)).
Proof.
  intros k spec N C E Hc Hi Hn Ha Hat Ht Hfresh Hid Hep Hhttp Hw0 Hserv Hkey m w Hr.
  destruct (created_afresh c at_ C _ _ _ _ _ _ _ _ _ _ _ E Hc Hi Hn Ha Hat Ht Hfresh)
    as (ep' & job & e & Hep' & Hcr & Hs & -> & _).
  cbn [asked_job cj_endpoint] in Hep'. simplify_eq.
  destruct (created_flaky rng ctx worker_id L J schema _ ep key job e t _ w0 query bodies
    Hkey Hcr (eq_trans Hw0 Hs) Hep Hhttp Hserv m w Hr) as [e' Hfl].
  pose proof (created_key _ ep _ job e t Hcr) as Hkey'.
  assert (e_max_attempts e = n) as Hem by apply (asked_max _ _ _ _ _ _ _ _ Hcr), Hn.
  pose proof Hfl as [Hrow _ _ Hcount Hst _ Hout HfN Hfm Hbox _ _].
  rewrite Hkey', (cr_input _ _ _ _ _ Hcr) in Hbox. rewrite Hem in Hfm.
  split_and!; [exact Hbox|exact HfN|lia| |].
  - intros HmN Hmn. exists e'. eapply flaky_waits; [exact Hfl| |exact HmN|rewrite Hem; lia].
    split; [|done]. pose proof (cr_waits _ _ _ _ _ Hcr). set_solver.
  - intros HmN d2 o d3 Eg Ha2 Hat2 Hs2.
    destruct (contract_tells c at_ name _ d2 o d3 k e' C Eg Hid Ha2 Hat2) as (e0 & -> & Htold);
      [by rewrite Hs2|].
    exists e0. split_and!; [done|..].
    + etrans; [exact (f_equal e_status Htold)|]. cbn [as_told e_status]. rewrite Hst by lia.
      unfold flaky_status. by rewrite bool_decide_eq_true_2 by lia.
    + etrans; [exact (f_equal e_attempt_count Htold)|]. cbn [as_told e_attempt_count]. congruence.
    + eapply told_output; [exact Htold|]. apply Hout; [lia|done].
Qed.

#[local] Existing Instances Sample.cron_crate Sample.base64 Sample.json_schema binary_chrono
  plain_times Sample.serde Sample.sql_display Sample.aes Sample.utf8.

(** The library's caller creates the job that the SDK's did. *)
Definition library_before : Deployed := {|
  dp_session := set_store (set_tenant Sample.key bare_tenant Sample.store)
    (Sample.session_at 10 (calm_at <$> seq 201 9));
  dp_draws := [] |}.
Definition library_call := cl_create_job (library_client Sample.context) "o1_main" "hook"
  (JObject [("n", JInt 1)]) 3 Immediate (Some "g1") library_before.
Definition library_reads : Deployed := {| dp_session := reading_session; dp_draws := [] |}.

Lemma library_created :
  cl_create_job (library_client Sample.context) "o1_main" "hook" (JObject [("n", JInt 1)]) 3 Immediate
    (Some "g1") library_before = (Ok "204", library_call.2)
  ∧ dstore library_call.2 = posted_store.
Proof. split; [apply first_is|]; by vm_compute. Qed.

Lemma answered_ok {E A S} (p : res E A * S) : is_ok p.1 = true → ∃ a s, p = (Ok a, s).
Proof. destruct p as [[a| |] s]; [|done..]. by exists a, s. Qed.
Lemma library_answers : ∃ o d,
  cl_get_execution (library_client Sample.context) "o1_main" "204" library_reads = (Ok o, d).
Proof. apply answered_ok. vm_compute. reflexivity. Qed.
Lemma library_reads_alone : alone (dp_session library_reads).
Proof. split; [reflexivity|constructor]. Qed.
Lemma library_reads_store : dstore library_reads = ss_store (wd_session delivered_world).
Proof. exact reading_store. Qed.

Lemma caller_sees_its_job_delivered_witness :
  ∃ o d, cl_get_execution (library_client Sample.context) "o1_main" "204" library_reads
      = (Ok (Some o), d)
    ∧ e_status o = "SUCCESS" ∧ e_attempt_count o = 1
    ∧ e_output o = Some (http_output (json_to_string (flaky_success 1 JNull))).
Proof.
  destruct (caller_sees_its_job_delivered Sample.rng Sample.context "worker-1" 2 2 "o1_main"
    (library_client Sample.context) (library_at Sample.context) "o1_main" "hook"
    (JObject [("n", JInt 1)]) 3 Immediate "g1" library_before "204" library_call.2 bare_tenant
    Sample.endpoint posted_world [("succeed_after", "1")] [JNull]) with (m := 1%nat) (w := delivered_world)
    as (_ & _ & _ & _ & Hseen).
  - apply library_contract.
  - apply library_created.
  - reflexivity.
  - discriminate.
  - split; vm_compute; [reflexivity|discriminate].
  - split; [reflexivity|]. apply list.Forall_forall. intros st Hst.
    apply list_elem_of_fmap in Hst as (i & -> & _). reflexivity.
  - reflexivity.
  - reflexivity.
  - intros j Hj. change (j ∈ (map_to_list (∅ : gmap string Job)).*2) in Hj.
    rewrite map_to_list_empty in Hj. by apply elem_of_nil in Hj.
  - split; [reflexivity|discriminate].
  - vm_compute. reflexivity.
  - vm_compute. reflexivity.
  - symmetry. apply library_created.
  - apply sample_flaky.
  - by vm_compute.
  - apply posted_rounds.
  - destruct library_answers as (o & d & E).
    destruct (Hseen eq_refl library_reads o d E library_reads_alone eq_refl library_reads_store)
      as (e & Eo & H1 & H2 & body & Hbody & H3).
    apply (inj Some) in Hbody as <-.
    exists e, d. rewrite Eo in E. split; [exact E|]. split; [exact H1|]. split; [exact H2|exact H3].
Defined.
