(* ===== verification/PropsSdkErrors.v ===== *)
(** * Properties of the SDK's errors and telemetry

    The error types of the 22 operations, their union, and what the inputs leave in the
    telemetry. *)

From S2P Require Export PropsSdk SdkOpErrors SdkTelemetry.
Import SdkErr SdkOpErr.
#[local] Open Scope Z_scope.

(** ** Conversion into the union *)

(** An operation's error type, and the reader of its error responses. *)
Record AnyErrorType := {
  any_type : Type;
  any_ops : OperationErrorType any_type;
  any_laws : OperationErrorLaws any_type;
  any_read : SdkResponse → OperationError;
}.
#[local] Existing Instances any_ops any_laws.
Definition any_error (E : Type) `{!OperationErrorType E} `{!OperationErrorLaws E}
    (read : SdkResponse → OperationError) : AnyErrorType := Build_AnyErrorType E _ _ read.

Section errors.
Context `{!Smithy}.

Definition sdk_error_types : list AnyErrorType := [
  @any_error CreateJobError _ _ de_create_job_http_error;
  @any_error ListJobsError _ _ de_list_jobs_http_error;
  @any_error GetJobError _ _ de_get_job_http_error;
  @any_error UpdateJobError _ _ de_update_job_http_error;
  @any_error CancelJobError _ _ de_cancel_job_http_error;
  @any_error GetJobStatusError _ _ de_get_job_status_http_error;
  @any_error GetJobVersionsError _ _ de_get_job_versions_http_error;
  @any_error ListJobExecutionsError _ _ de_list_job_executions_http_error;
  @any_error GetExecutionError _ _ de_get_execution_http_error;
  @any_error CancelExecutionError _ _ de_cancel_execution_http_error;
  @any_error ListExecutionAttemptsError _ _ de_list_execution_attempts_http_error;
  @any_error ListExecutionLogsError _ _ de_list_execution_logs_http_error;
  @any_error CreateEndpointError _ _ de_create_endpoint_http_error;
  @any_error ListEndpointsError _ _ de_list_endpoints_http_error;
  @any_error GetEndpointError _ _ de_get_endpoint_http_error;
  @any_error UpdateEndpointError _ _ de_update_endpoint_http_error;
  @any_error DeleteEndpointError _ _ de_delete_endpoint_http_error;
  @any_error CreatePayloadSpecError _ _ de_create_payload_spec_http_error;
  @any_error ListPayloadSpecsError _ _ de_list_payload_specs_http_error;
  @any_error GetPayloadSpecError _ _ de_get_payload_spec_http_error;
  @any_error UpdatePayloadSpecError _ _ de_update_payload_spec_http_error;
  @any_error DeletePayloadSpecError _ _ de_delete_payload_spec_http_error].

(** What a reader finds is of a kind that the operation lists. *)
Lemma read_kind kinds r s : de_http_error kinds r = Modeled s → sE_kind s ∈ kinds.
Proof.
  unfold de_http_error. destruct (parse_error_metadata _ _) as [generic|]; [|done].
  destruct (em_code generic) as [code|]; [|done].
  destruct (filter _ kinds) as [|k l] eqn:E; [done|].
  assert (k ∈ kinds) as Hk.
  { assert (k ∈ filter (λ k, error_name k = code) kinds) as Hin by (rewrite E; set_solver).
    by apply list_elem_of_filter in Hin as [_ ?]. }
  unfold de_service_error. destruct (de_error_json_err k _) as [[error message]|]; [|done].
  by intros [= <-].
Qed.

(** What an error type owes its users: its readers stay within it, and the union says of an
    error what the type says. *)
Definition faithful (T : AnyErrorType) : Prop :=
  (∀ r, ∃ e : any_type T, oe_view e = any_read T r)
  ∧ (∀ e : any_type T,
       Error_view (oe_into e) = oe_view e
       ∧ Error_provide_meta (oe_into e) = oe_meta e
       ∧ Error_fmt (oe_into e) = oe_fmt e
       ∧ oe_from_sdk (SdkServiceError e) = oe_into e
       ∧ oe_retryable e = None
       ∧ ∀ k, oe_is k e = true ↔ ∃ s, Error_view (oe_into e) = Modeled s ∧ sE_kind s = k)
  ∧ ∀ f, Error_provide_meta (oe_from_sdk (E:=any_type T) (SdkOther f)) = sf_meta f
         ∧ Error_fmt (oe_from_sdk (E:=any_type T) (SdkOther f)) = unhandled_text (em_code (sf_meta f)).

Lemma laws_faithful E `{!OperationErrorType E} `{!OperationErrorLaws E} read :
  (∀ r s, read r = Modeled s → sE_kind s ∈ oe_kinds (E:=E)) → faithful (any_error E read).
Proof.
  intros Hread. split_and!.
  - intros r. apply (view_onto (E:=E)). intros s. apply Hread.
  - intros e. cbn in e. cbn [any_error any_ops any_type].
    rewrite Error_meta_view, Error_fmt_view, into_view, meta_view, fmt_view.
    split_and!; [done..|apply sdk_service|apply never_retryable|]. intros k. rewrite is_kind.
    split.
    + destruct (oe_view e) as [s|]; [|done]. intros Hk%bool_decide_eq_true. by exists s.
    + intros (s & -> & <-). by apply bool_decide_eq_true.
  - intros f. cbn [any_error any_ops any_type]. by rewrite sdk_other.
Qed.

(** C34: in each of the 22 operations every error response becomes a value of the
    operation's error type, and the conversion into the crate's [Error] loses nothing: kind,
    detail, message, metadata and text stay what they were, the [is_..] functions tell the
    kinds apart, a failure of the runtime keeps its metadata and reads as unhandled.  No
    error of the service, not even a rate limit, is marked as retryable. *)
Theorem sdk_errors_survive_conversion : Forall faithful sdk_error_types.
Proof.
  repeat constructor; apply laws_faithful; intros r s Hs; exact (read_kind _ r s Hs).
Qed.
End errors.

(** ** Telemetry *)

Definition opt_in {I} (f : option RequestedTelemetry → I → option (list (string * string))) : Prop :=
  ∀ r input l, f r input = Some l →
    ∃ rq, r = Some rq ∧ rt_is_empty rq = false ∧ Forall (λ kv, should_capture rq kv.1 = true) l.

Lemma capture_named rq name value :
  Forall (λ kv, should_capture rq kv.1 = true) (capture rq name value).
Proof.
  unfold capture. destruct (should_capture rq name) eqn:E; [|constructor].
  destruct value; by repeat constructor.
Qed.

Lemma captured_opt_in r members l :
  captured r members = Some l → (∀ rq, Forall (λ kv, should_capture rq kv.1 = true) (members rq)) →
  ∃ rq, r = Some rq ∧ rt_is_empty rq = false ∧ Forall (λ kv, should_capture rq kv.1 = true) l.
Proof.
  unfold captured. destruct r as [rq|]; [|done]. destruct (rt_is_empty rq) eqn:E; [done|].
  intros [= <-] Hm. by exists rq.
Qed.

(** No member of an input reaches the telemetry unless the caller has named it. *)
Theorem telemetry_is_opt_in :
  opt_in create_job_captured
  ∧ opt_in list_jobs_captured
  ∧ opt_in get_job_captured
  ∧ opt_in update_job_captured
  ∧ opt_in cancel_job_captured
  ∧ opt_in get_job_status_captured
  ∧ opt_in get_job_versions_captured
  ∧ opt_in list_job_executions_captured
  ∧ opt_in get_execution_captured
  ∧ opt_in cancel_execution_captured
  ∧ opt_in list_execution_attempts_captured
  ∧ opt_in list_execution_logs_captured
  ∧ opt_in create_endpoint_captured
  ∧ opt_in list_endpoints_captured
  ∧ opt_in get_endpoint_captured
  ∧ opt_in update_endpoint_captured
  ∧ opt_in delete_endpoint_captured
  ∧ opt_in create_payload_spec_captured
  ∧ opt_in list_payload_specs_captured
  ∧ opt_in get_payload_spec_captured
  ∧ opt_in update_payload_spec_captured
  ∧ opt_in delete_payload_spec_captured.
Proof.
  split_and!; intros r input l E; refine (captured_opt_in _ _ _ E _); intros rq;
    repeat apply Forall_app_2; apply capture_named.
Qed.
