(* ===== verification/PropsSdkRuntime.v ===== *)
(** * Properties of the SDK's configuration and of its calls

    A client out of a configuration, and what the casts of a call meet. *)

From S2P Require Export PropsSdkErrors SdkPlugins.
Import SdkErr.
#[local] Open Scope Z_scope.

(** ** Configuration *)

Section config.
Context `{!SmithyTypes} `{!SmithyBags} `{!SmithyPlugins}.

(** The set-up that the documentation of the crate gives. *)
Definition documented_config (url : string) (token : Token) : ClientConfig :=
  build_config (bearer_token token (endpoint_url url config_builder_new)).

(** Which setters a chain of calls may use; all but those of the behavior version. *)
Inductive versionless : ClientConfigBuilder → Prop :=
  | Versionless_new : versionless config_builder_new
  | Versionless_layer f b : versionless b → versionless (on_layer f b)
  | Versionless_components f b : versionless b → versionless (on_components f b)
  | Versionless_plugin p b : versionless b → versionless (push_runtime_plugin p b).

Lemma versionless_none b : versionless b → b_behavior_version b = None.
Proof. by induction 1. Qed.

(** C36: a client needs a behavior version.  Whatever else was set, a configuration built
    without one makes [from_conf] panic, unless the crate is built with the feature
    [behavior-version-latest], which is not among its defaults: so does the set-up that the
    documentation shows.  With a version, or the feature, it panics only if the runtime
    refuses the configuration. *)
Theorem client_needs_a_behavior_version b url token :
  (versionless b → from_conf false (build_config b) = Panic 1)
  ∧ from_conf false (documented_config url token) = Panic 1
  ∧ ∀ feature, feature = true ∨ is_Some (b_behavior_version b) →
      ∃ plugins, base_client_runtime_plugins feature (build_config b) = Ok plugins
        ∧ from_conf feature (build_config b)
          = match validate_base_client_config plugins with
            | Ok _ => Ok {| h_conf := build_config b; h_runtime_plugins := plugins |}
            | _ => Panic 2
            end.
Proof.
  assert (∀ b', versionless b' → from_conf false (build_config b') = Panic 1) as Hno.
  { intros b' Hb'. unfold from_conf, base_client_runtime_plugins. cbn [build_config c_behavior_version].
    by rewrite (versionless_none b' Hb'). }
  split_and!; [apply Hno|apply Hno; by repeat constructor|]. intros feature Hf.
  destruct (base_client_runtime_plugins feature (build_config b)) as [plugins|[]|] eqn:E.
  - exists plugins. split; [done|]. unfold from_conf. by rewrite E.
  - exfalso. revert E. unfold base_client_runtime_plugins. cbn [build_config c_behavior_version].
    destruct (b_behavior_version b); [done|]. destruct feature; [done|]. by destruct Hf as [|[??]].
Qed.
End config.

Section reading.
Context `{!SmithyTypes} `{!SmithyBags} `{!SmithyPlugins} `{!SmithyBagLaws}.
Implicit Type b : ClientConfigBuilder.

Lemma built_load s b : load s (c_config (build_config b)) = load s (b_config b).
Proof. apply load_named. Qed.
Lemma built_one k b : k ≠ One_time_source →
  get_one k (c_runtime_components (build_config b)) = get_one k (b_runtime_components b).
Proof.
  intros Hk. cbn [build_config c_runtime_components].
  destruct (get_one One_time_source (b_runtime_components b)); [done|]. by apply one_set_other.
Qed.
Lemma built_many k b :
  get_many k (c_runtime_components (build_config b)) = get_many k (b_runtime_components b).
Proof.
  cbn [build_config c_runtime_components].
  destruct (get_one One_time_source (b_runtime_components b)); [done|]. apply many_one.
Qed.
Lemma built_time b : cfg_time_source (build_config b)
  = Some (default system_time_source (get_one One_time_source (b_runtime_components b))).
Proof.
  unfold cfg_time_source. cbn [build_config c_runtime_components].
  destruct (get_one One_time_source (b_runtime_components b)) eqn:E; [done|]. apply one_set.
Qed.

(** Getters read what setters wrote: a later value replaces an earlier one, except that an
    absent retry policy or timeout leaves it, and a second timeout takes what it leaves open
    from the first. *)
Theorem config_reads_back b :
  (∀ v, cfg_stalled_stream_protection (build_config (set_stalled_stream_protection v b)) = v)
  ∧ (∀ v, cfg_auth_scheme_preference (build_config (set_auth_scheme_preference v b)) = v)
  ∧ (∀ r, cfg_retry_config (build_config (retry_config r b)) = Some r)
  ∧ set_retry_config None b = b ∧ set_timeout_config None b = b
  ∧ (∀ v, cfg_timeout_config (build_config (timeout_config v b))
          = Some match cfg_timeout_config (build_config b) with
                 | Some base => take_defaults_from v base | None => v end)
  ∧ (∀ v, cfg_http_client (build_config (set_http_client v b)) = v)
  ∧ (∀ url, cfg_endpoint_resolver (build_config (endpoint_url url b)) = Ok (static_uri_resolver url))
  ∧ (∀ v, cfg_sleep_impl (build_config (set_sleep_impl v b)) = v)
  ∧ (∀ v, cfg_time_source (build_config (set_time_source v b)) = Some (default system_time_source v))
  ∧ (∀ i, cfg_interceptors (build_config (push_interceptor i b))
          = cfg_interceptors (build_config b) ++ [i])
  ∧ ∀ c, cfg_retry_classifiers (build_config (push_retry_classifier c b))
         = cfg_retry_classifiers (build_config b) ++ [c].
Proof.
  unfold cfg_stalled_stream_protection, cfg_http_client, cfg_auth_scheme_preference,
    cfg_endpoint_resolver, cfg_retry_config, cfg_sleep_impl, cfg_timeout_config,
    cfg_interceptors, cfg_retry_classifiers.
  split_and!; intros; rewrite ?built_time, ?built_load, ?built_many, ?built_one by done.
  - apply (load_or_unset S_StalledStreamProtectionConfig).
  - apply (load_or_unset S_AuthSchemePreference).
  - apply (load_put S_RetryConfig).
  - done.
  - done.
  - exact (load_put S_TimeoutConfig _ _).
  - apply (one_set One_http_client).
  - cbn [endpoint_url set_endpoint_url set_endpoint_resolver on_components b_runtime_components].
    by rewrite (one_set One_endpoint_resolver).
  - apply (one_set One_sleep_impl).
  - cbn [set_time_source on_components b_runtime_components].
    by rewrite (one_set One_time_source).
  - apply (many_push Many_interceptors).
  - apply (many_push Many_retry_classifiers).
Qed.

(** A configuration made a builder again and built is the same. *)
Theorem config_rebuilds b : build_config (to_builder (build_config b)) = build_config b.
Proof.
  pose proof (built_time b) as Ht. unfold cfg_time_source in Ht. unfold to_builder.
  unfold build_config at 1. cbn [b_config b_runtime_components b_runtime_plugins b_behavior_version].
  by rewrite Ht.
Qed.
End reading.

(** Default headers are set unless they are left out, one by one. *)
Theorem default_headers_by_name h header :
  include_header header_settings_new header = true
  ∧ include_header (omitting_content_type h) "content-type" = false
  ∧ include_header (omitting_content_length h) "content-length" = false
  ∧ include_header (omitting_content_type h) "content-length" = include_header h "content-length"
  ∧ include_header (omitting_content_length h) "content-type" = include_header h "content-type".
Proof. destruct h as [[] []]; by repeat split. Qed.

(** ** Calls *)

Section calls.
Context `{!Smithy} `{!SmithyTypes} `{!SmithyBags} `{!SmithyPlugins} `{!Orchestrator}.

(** What an operation owes its callers.  Its serializer and its interceptors find the input
    they expect; its plugin names it, and asks for a bearer token; whatever the override of
    a call and the client's configuration are -- as long as the override brings no
    deserializer -- the runtime finds the deserializer of this operation; and the casts of
    what that deserializer makes of a response succeed. *)
Definition keeps_its_types (G : SdkOperation) : Prop :=
  (∀ input, so_serialize G (erase (T_Input (so_op G)) input) = so_request G input
     ∧ (∀ requested, so_telemetry G requested (erase (T_Input (so_op G)) input)
                     = so_captured G requested input)
     ∧ so_endpoint_params G (erase (T_Input (so_op G)) input) = Ok (EP_params Build_EndpointParams))
  ∧ rp_config (so_plugin G) ≫= load S_SharedRequestSerializer = Some (so_serialize G)
  ∧ (∃ params, rp_config (so_plugin G) ≫= load S_AuthSchemeOptionResolverParams = Some params
     ∧ ∀ state, resolve_auth_scheme_options (resolve_auth_scheme default_auth_scheme_resolver)
         params state = Ok [auth_scheme_option HTTP_BEARER_AUTH_SCHEME_ID])
  ∧ (∀ feature conf f,
      from_conf feature conf = Ok (fb_handle f) →
      (∀ b, fb_config_override f = Some b → plain_override b) →
      applied S_SharedResponseDeserializer
        (so_plugins G (h_runtime_plugins (fb_handle f)) (h_conf (fb_handle f))
           (fb_config_override (B:=op_input (so_op G)) f)) = Some (so_deserialize G))
  ∧ ∀ ctx r,
      finalize_context ctx = match so_deserialize G r with
                             | inl e => inl (SdkServiceError e) | inr v => inr v end →
      cast_answer (so_op G) (inr ctx)
      = Ok match so_response G r with inl e => inl (SdkServiceError e) | inr out => inr out end.

Context `{!SmithyBagLaws} `{!OrchestratorLaws}.

Lemma wired_keeps_its_types (o : Operation) (name : string) request response captured :
  let ser : Serializer := λ input,
    match downcast (T_Input o) input with Some input => request input | None => Panic 5 end in
  let de : Deserializer := λ r, type_erase_result o (response r) in
  ∀ telemetry endpoint message,
  telemetry = (λ requested input,
    match downcast (T_Input o) input with Some input => captured requested input | None => None end) →
  endpoint = (λ input,
    match downcast (T_Input o) input with Some _ => built_endpoint_params | None => Err message end) →
  keeps_its_types {| so_op := o; so_name := name; so_request := request; so_response := response;
    so_captured := captured; so_serialize := ser; so_deserialize := de; so_telemetry := telemetry;
    so_endpoint_params := endpoint; so_plugin := operation_plugin o name ser de;
    so_plugins := with_override (operation_plugin o name ser de); so_build := Ok;
    so_orchestrate := orchestrate_operation o name;
    so_send := fluent_send Ok (with_override (operation_plugin o name ser de))
                 (orchestrate_operation o name) |}.
Proof.
  intros ser de telemetry endpoint message -> ->. split; [|split; [|split; [|split]]].
  - intros input. unfold ser. cbn [so_serialize so_op so_request so_telemetry so_captured so_endpoint_params].
    by rewrite !downcast_erase.
  - cbn. apply layer_serializer.
  - eexists. split; [cbn; apply layer_params|]. intros state. reflexivity.
  - intros feature conf f Hc Ho. cbn [so_plugins so_deserialize].
    eapply deserializer_applied; [by eapply client_has_none|exact Ho].
  - intros ctx r E. by apply cast_own_answer.
Qed.

(** In each of the 22 operations the SDK and its runtime agree on types, and no operation
    is wired to the plugin, the reader or the types of another. *)
Theorem sdk_operations_keep_their_types : Forall keeps_its_types sdk_operations.
Proof. repeat constructor; by eapply wired_keeps_its_types. Qed.
End calls.

(** ** Witnesses *)

(** A runtime of texts: a layer is a function of the type, and a call takes the next of the
    responses that lie ready. *)
Definition sample_types : SmithyTypes := {|
  StalledStreamProtectionConfig := bool; AuthSchemePreference := string; RetryConfig := nat;
  retry_mode := λ _, RetryMode_Standard;
  TimeoutConfig := option nat * option nat;
  take_defaults_from := λ t u, (match t.1 with Some x => Some x | None => u.1 end,
                                match t.2 with Some x => Some x | None => u.2 end);
  RetryPartition := string; RequestedTelemetryAttributes := list string; requested_default := [];
  requested_emit := λ l r, r ++ l; requested_capture_only := λ l r, r ++ l;
  requested_view := λ r, {| rt_is_empty := bool_decide (r = []);
                            should_capture := λ n, bool_decide (n ∈ r) |};
  SharedHttpClient := string; SharedAsyncSleep := string; SharedTimeSource := string;
  system_time_source := "system"; SharedIdentityCache := string; lazy_identity_cache := "lazy";
  SharedEndpointResolver := string; static_uri_resolver := λ u, u; SharedIdentityResolver := string;
  Token := string; token_resolver := λ t, t; AuthSchemeId := string;
  HTTP_BEARER_AUTH_SCHEME_ID := "http-bearer-auth"; AuthSchemeOption := string;
  auth_scheme_option := λ s, s; SharedAuthScheme := string; BearerAuthScheme := "bearer";
  ResolverState := unit; RuntimeInterceptor := string;
  StalledStreamProtectionInterceptor := "stalled"; ConnectionPoisoningInterceptor := "poisoning";
  HttpRequest := string; MapRequestInterceptor := λ _, "map"; MutateRequestInterceptor := λ _, "mutate";
  ResolvedEndpoint := string; SharedRetryClassifier := string; HttpStatusCodeClassifier := "status";
  TransientErrorClassifier := λ _, "transient"; ModeledAsRetryableClassifier := λ _, "modeled";
  BehaviorVersion := nat; latest_behavior_version := 1%nat |}.
#[local] Existing Instance sample_types.

(** A function of a finite type, changed at one argument. *)
Definition at_one {K} `{!EqDecision K} {V : K → Type} (k : K) (v : V k) (f : ∀ k, V k) : ∀ k, V k :=
  λ k', match decide (k = k') with left E => eq_rect k V v k' E | right _ => f k' end.
Lemma at_one_same {K} `{!EqDecision K} {V : K → Type} k (v : V k) f : at_one k v f k = v.
Proof. unfold at_one. destruct (decide (k = k)) as [E|]; [|done]. by rewrite (proof_irrel E eq_refl). Qed.
Lemma at_one_other {K} `{!EqDecision K} {V : K → Type} k k' (v : V k) f :
  k ≠ k' → at_one k v f k' = f k'.
Proof. intros H. unfold at_one. by destruct (decide (k = k')). Qed.

Record SampleComponents := {
  sc_one : ∀ k, option (single k);
  sc_many : ∀ k, list (several k);
  sc_identities : list string;
}.
Definition sample_bags : SmithyBags := {|
  Layer := ∀ s, option (stored s);
  layer_new := λ _ _, None; layer_default := λ _, None; with_name := λ _ l, l;
  load := λ s l, l s;
  store_put := λ s v, at_one (V:=λ s, option (stored s)) s (Some v);
  store_or_unset := λ s v, at_one (V:=λ s, option (stored s)) s v;
  ConfigBag := ∀ s, option (stored s); bag_load := λ s l, l s;
  Components := SampleComponents;
  components_new := λ _, {| sc_one := λ _, None; sc_many := λ _, []; sc_identities := [] |};
  get_one := λ k c, sc_one c k;
  set_one := λ k v c, {| sc_one := at_one (V:=λ k, option (single k)) k v (sc_one c);
                         sc_many := sc_many c; sc_identities := sc_identities c |};
  get_many := λ k c, sc_many c k;
  set_many := λ k v c, {| sc_one := sc_one c;
    sc_many := at_one (V:=λ k, list (several k)) k v (sc_many c); sc_identities := sc_identities c |};
  push_one := λ k v c, {| sc_one := sc_one c;
    sc_many := at_one (V:=λ k, list (several k)) k (sc_many c k ++ [v]) (sc_many c);
    sc_identities := sc_identities c |};
  set_identity_resolver := λ _ r c, {| sc_one := sc_one c; sc_many := sc_many c;
                                       sc_identities := r :: sc_identities c |};
  has_identity_resolvers := λ c, negb (bool_decide (sc_identities c = []));
  override_defaults := λ _ _ lc, lc |}.
#[local] Existing Instance sample_bags.
Definition sample_bag_laws : SmithyBagLaws.
Proof.
  split; intros; try reflexivity;
    first [exact (at_one_same (V:=λ s, option (stored s)) _ _ _)
          |(refine (at_one_other (V:=λ s, option (stored s)) _ _ _ _ _); assumption)
          |exact (at_one_same (V:=λ k, option (single k)) _ _ _)
          |(refine (at_one_other (V:=λ k, option (single k)) _ _ _ _ _); assumption)
          |exact (at_one_same (V:=λ k, list (several k)) _ _ _)
          |(refine (at_one_other (V:=λ k, list (several k)) _ _ _ _ _); assumption)].
Defined.

Record SamplePlugins := { sp_client : list RuntimePlugin; sp_operation : list RuntimePlugin }.
Definition empty_plugin : RuntimePlugin :=
  {| rp_config := None; rp_order := Order_Defaults; rp_components := λ c, c |}.
Definition sample_plugins : SmithyPlugins := {|
  NoAuthRuntimePlugin := empty_plugin; NoAuthRuntimePluginV2 := empty_plugin;
  default_plugins := λ _ _, [];
  StaticRuntimePlugin := λ l c, {| rp_config := Some l; rp_order := Order_Overrides;
                                   rp_components := λ _, c |};
  MetricsRuntimePlugin := λ _ _, empty_plugin;
  RuntimePlugins := SamplePlugins;
  no_plugins := {| sp_client := []; sp_operation := [] |};
  with_client_plugin := λ p ps, {| sp_client := p :: sp_client ps; sp_operation := sp_operation ps |};
  with_operation_plugin := λ p ps, {| sp_client := sp_client ps; sp_operation := p :: sp_operation ps |};
  validate_base_client_config := λ _, Ok tt |}.
#[local] Existing Instance sample_plugins.

Definition first_stored (s : Stored) (l : list RuntimePlugin) : option (stored s) :=
  head (omap (λ p, rp_config p ≫= load s) l).
Definition sample_orchestrator : Orchestrator := {|
  RuntimeWorld := list SdkResponse;
  InterceptorContext := Erased + Erased;
  invoke_with_stop_point := λ _ _ _ ps _ w,
    match first_stored S_SharedResponseDeserializer (sp_operation ps), w with
    | Some d, r :: w => (inr (d r), w)
    | _, _ => (inl (SdkOther {| sf_text := "no response"; sf_meta := no_metadata |}), w)
    end;
  finalize_context := λ a, match a with inl e => inl (SdkServiceError e) | inr v => inr v end;
  construction_failure := λ _, {| sf_text := "failed to construct request"; sf_meta := no_metadata |};
  operation_plugins := sp_operation;
  applied := λ s ps, match first_stored s (sp_operation ps) with
                     | Some v => Some v | None => first_stored s (sp_client ps) end |}.
#[local] Existing Instances sample_orchestrator plain_smithy.

Lemma first_stored_only s l p v :
  p ∈ l → rp_config p ≫= load s = Some v →
  (∀ p', p' ∈ l → rp_config p' ≫= load s = None ∨ p' = p) → first_stored s l = Some v.
Proof.
  intros Hp Hv Ho. unfold first_stored. induction l as [|q l IH]; [by apply elem_of_nil in Hp|].
  cbn [omap list_omap]. destruct (Ho q ltac:(set_solver)) as [Hq| ->].
  - rewrite Hq. apply IH; [|set_solver]. apply elem_of_cons in Hp as [->|]; [congruence|done].
  - by rewrite Hv.
Qed.
Definition sample_orchestrator_laws : OrchestratorLaws.
Proof.
  split; [done|done|done|]. intros ps p s v Hp Hv Ho. cbn.
  by rewrite (first_stored_only s (sp_operation ps) p v Hp Hv Ho).
Defined.

Definition sample_client : ClientConfigBuilder :=
  behavior_version 1%nat (bearer_token "dev-api-key" (endpoint_url "http://localhost:8080" config_builder_new)).
Definition sample_handle : Handle :=
  match from_conf false (build_config sample_client) with
  | Ok h => h
  | _ => {| h_conf := build_config sample_client; h_runtime_plugins := no_plugins |}
  end.

Lemma client_needs_a_behavior_version_witness :
  from_conf false (documented_config "http://localhost:8080" "dev-api-key") = Panic 1
  ∧ from_conf false (build_config sample_client) = Ok sample_handle.
Proof.
  destruct (client_needs_a_behavior_version sample_client "http://localhost:8080" "dev-api-key")
    as (_ & Hdoc & Hok).
  split; [exact Hdoc|]. destruct (Hok false) as (plugins & Hp & Hc); [right; by exists 1%nat|].
  unfold sample_handle. rewrite Hc. reflexivity.
Defined.

(** A job that is not there, looked up with an override of the call's retries. *)
Definition sample_lookup : FluentBuilder GetJobInput :=
  set_config_override (Some (retry_config 1%nat config_builder_new))
    (foldl get_job_fluent_call (client_get_job sample_handle)
      [GetJob_set_org_id (Some "o1"); GetJob_set_workspace_id (Some "w1"); GetJob_set_job_id (Some "j1")]).
Definition sample_answer : SdkResponse :=
  wire [("content-type", "application/json")] (error_response (JobNotFound "j1")).

(** The laws hold of the sample runtime, and a lookup reads the answer. *)
Example sample_runtime_keeps_types :
  Forall keeps_its_types sdk_operations
  ∧ ∃ e, get_job_fluent_send sample_lookup [sample_answer] = (Ok (inl (SdkServiceError e)), [])
      ∧ get_job_response sample_answer = inl e.
Proof.
  split; [apply (@sdk_operations_keep_their_types plain_smithy sample_types sample_bags
    sample_plugins sample_orchestrator sample_bag_laws sample_orchestrator_laws)|].
  eexists. split; vm_compute; reflexivity.
Qed.
