(* ===== verification/PropsDash.v ===== *)
(** * Properties of the dashboard against the API

    What a user of the dashboard sees of the API's jobs and attempts, what the API makes
    of the dashboard's forms, and the windows and months of its date filter. *)

From Stdlib Require Import Ascii.
From S2P Require Export PropsSdk DashForms.
#[local] Open Scope Z_scope.

(** ** Lists *)

Section lists.
Context `{!Chrono} `{!CronCrate} `{!Base64} `{!JsonSchemaCrate}.
Context (to_text : json → string) (config : DashboardConfig).
Context (prefix : string) (ws : WorkspaceContext) (undecodable : option json → string).

(** C28: pages of the jobs tab follow each other, as long as the jobs of the workspace do
    not change: from the first page loaded to the last nobody writes to its tables, and no
    statement fails.  However a user gets somewhere -- by filters, page sizes, Next and
    Previous, each page awaited --, the tab shows the page of its index among all the jobs
    of its filters, newest first, as they are stored: what the tab asks for, what the list
    route makes of it and what the tab reads of the answer fit together.  Next is offered
    exactly when there are more jobs.  Base64 and the times read back as they were
    written, and a query string of [urlencoded] parses to the pairs it was made of. *)
Theorem dashboard_pages_are_consecutive parse_query ses t s r :
  (∀ s, b64_decode (b64_encode s) = Some s ∧ (s ≠ "" → b64_encode s ≠ "")) →
  text_times → written_times → urlencoded parse_query → db_at_rest prefix ws ses t →
  browsing parse_query to_text config prefix ws ses undecodable s r →
  let all := all_jobs (tab_filters (jt_key s)) t in
  let size := Z.to_nat (jt_page_size s) in
  ∃ c, r = Ok {| dg_data := shown_job <$> take size (drop (jt_index s * size) all); dg_cursor := c |}
    ∧ (is_Some c ↔ (jt_index s + 1) * size < length all)%nat.
Proof.
  intros Hb Htext Htimes Hq Hrest Hbr.
  destruct (browsing_ok Hb Htext Htimes parse_query to_text Hq config prefix ws ses undecodable t
    Hrest s r Hbr) as [Hs ->].
  eexists. split; [reflexivity|]. apply next_cursor_some.
  destruct (page_size_read _ (so_size _ _ Hs)) as (_ & _ & Hr). lia.
Qed.

(** C31: one failed attempt hides all attempts of its execution.  The API lists the
    attempts of a stored execution in their order, with the error as the JSON it was
    stored as; the dashboard wants a text there and reads nothing of the list once some
    error is anything else -- and every error a dispatcher reports, or the rendering of the
    templates, is an object. *)
Theorem dashboard_loses_failed_attempts `{!SerdeJson} `{!SqlDisplay} org_id workspace_id execution_id ses t e :
  text_times → ss_env ses = [] → ss_failed ses = false →
  validate_schema_name (wc_schema_name ws) = true →
  st_tenants (ss_store ses) !! (wc_schema_name ws, prefix) = Some t →
  t_executions t !! execution_id = Some e →
  let l := listed_attempts execution_id t in
  Forall attempt_numbers_ok l →
  ∃ r, list_attempts_handler prefix ws execution_id ses = (Ok r, ses) ∧ resp_status r = 200
    ∧ fetch undecodable (dash_list_attempts config org_id workspace_id execution_id)
        (answer_of to_text r)
      = (if forallb error_shown l then Ok (shown_attempt <$> l) else Err (undecodable (resp_body r)))
    ∧ (∀ a db ty key spec w error,
         (dispatch (E:=Empty_set) db ty key spec w).1 = Ok (Failure error) →
         a_error a = Some error → error_shown a = false)
    ∧ ∀ a text, a_error a = Some (resolution_failed text) → error_shown a = false.
Proof.
  intros Htext He Hf Hv Ht Hx l Hl.
  exists (resp 200 (data (JArray (attempt_item <$> l)))). split_and!; [|done| | |].
  - unfold list_attempts_handler, se_bind, q, se_map_err. cbv zeta.
    rewrite connection_quiet by done. cbn [res_map_err].
    unfold executions_get. rewrite (read_quiet _ _ t) by done. rewrite Hx.
    cbn [res_map_err se_ok_or se_ret]. unfold se_ret, attempts_list_for_execution.
    by rewrite (read_quiet _ _ t).
  - unfold fetch, answer_of, resp. cbn [resp_status resp_body dash_list_attempts ft_read].
    assert (answer_ok 200 = true) as -> by done. rewrite read_dash_data. unfold dash_list.
    cbn [Json.as_array mbind option_bind]. rewrite read_dash_attempts by done.
    by destruct (forallb _ _).
  - intros a db ty key spec w error [fs ->]%dispatch_failure Ha. unfold error_shown. by rewrite Ha.
  - intros a text Ha. unfold error_shown. by rewrite Ha.
Qed.
End lists.

(** ** Job forms *)

Section forms.
Context `{!Chrono} `{!CronCrate}.
Context (from_str : string → res string json).

(** C29: the New Job form asks for the job that was typed.  Once the input is JSON, or
    blank, the API decodes the body to the endpoint, the trigger and the input of the
    form, with the key unless the job is a cron job, the time only of a delayed job and
    the schedule only of a cron job; blank fields are left out.  It refuses the body
    exactly for a time or a cron expression it cannot read. *)
Theorem dashboard_job_form_is_understood f body :
  create_job_form_body from_str f = Ok body →
  ∃ fs input, body = JObject fs ∧ typed_input from_str (jf_input_json f) = Ok input
    ∧ CreateJob_from_fields fs = job_of_form f input.
Proof.
  unfold create_job_form_body. destruct (typed_input _ _) as [input| |]; [|done..].
  intros [= <-]. eexists _, input. split; [reflexivity|]. split; [done|]. by apply form_read.
Qed.

(** Running a job once more asks for a job of its own.  The API decodes the body to a
    job for the same endpoint with the input that was typed: at once and without a key,
    or at the time that was typed, under a key that no other job or time has (ids being
    of one length). *)
Theorem dashboard_invoke_is_understood endpoint job_id mode run_at text body :
  invoke_job_body from_str endpoint job_id mode run_at text = Ok body →
  (∃ fs input, body = JObject fs ∧ typed_input from_str text = Ok input
    ∧ CreateJob_from_fields fs = job_of_invoke endpoint job_id mode run_at input)
  ∧ ∀ job_id' at_ at', String.length job_id' = String.length job_id →
      invoke_key job_id at_ = invoke_key job_id' at' → job_id' = job_id ∧ at' = at_.
Proof.
  intros E. split; [by apply invoke_read|]. intros job_id' at_ at' Hl Hk.
  by destruct (invoke_key_inj _ _ _ _ (eq_sym Hl) Hk) as [-> ->].
Qed.
End forms.

(** ** The date filter *)

Section dates.
Context `{!Chrono} `{!Calendar} `{!CalendarLaws}.

(** C30: whatever is clicked in the date filter, its window has no end without a start,
    and ends no day before it starts.  So the list route accepts it together with the
    other filters, or refuses it for the one reason that the times of a window within one
    day are reversed. *)
Theorem date_window_refused_only_within_a_day today p s :
  written_times → popover_reach today p → lists_ok (jt_key s) →
  fk_created_after (jt_key s) = po_after p → fk_created_before (jt_key s) = po_before p →
  (∀ b, po_before p = Some b → ∃ a, po_after p = Some a ∧ date_naive a ≤ date_naive b)
  ∧ (parse_job_filters (job_list_pairs (job_list_params s)) = Ok (tab_filters (jt_key s))
     ∨ ∃ a b, po_after p = Some a ∧ po_before p = Some b ∧ b < a ∧ date_naive a = date_naive b
       ∧ parse_job_filters (job_list_pairs (job_list_params s))
         = Err (InvalidRequest "created_after must not be after created_before")).
Proof.
  intros Htimes [Hw _ _ _ _ _]%popover_reach_ok Hl Ha Hb. split; [exact Hw|].
  rewrite tab_window_read by done. unfold reversed. rewrite Ha, Hb.
  destruct (po_after p) as [a|], (po_before p) as [b|]; try (by left).
  case_bool_decide as Hlt; [right|by left]. destruct (Hw b eq_refl) as (a' & [= <-] & Hle).
  exists a, b. split_and!; try done. pose proof (date_naive_mono b a). lia.
Qed.

(** A quick range holds exactly the instants of its days: today, two or seven days up to
    today, this month up to today, or the whole of last month. *)
Theorem quick_ranges_are_whole_days preset now :
  chrono_year (date_year (date_naive now)) → chrono_year (date_year (date_naive now) - 1) →
  ∃ a b, preset_range preset now = Ok (a, b)
    ∧ ∀ t, a ≤ t < b + second ↔ preset_days preset (date_naive now) (date_naive t).
Proof. exact (preset_range_ok preset now). Qed.

(** The month grid shows each day of the month once, under its weekday, and nothing
    else: the cell of a day is as many cells behind the first day as it is days later, and
    the cells before the first day are as many as days since Sunday. *)
Theorem month_grid_shows_each_day month :
  chrono_year (date_year month) → chrono_year (date_year month + 1) →
  ∃ cells f, month_cells month = Ok cells ∧ first_of_month month = Ok f
    ∧ (∀ i d, cells !! i = Some (Some d) ↔
         month_no d = month_no month ∧ Z.of_nat i = days_from_sunday f + (d - f))
    ∧ ∀ i d, cells !! i = Some (Some d) → Z.of_nat i `mod` 7 = days_from_sunday d.
Proof.
  intros Hy Hy'. destruct (month_cells_ok month Hy Hy') as (cells & f & Hc & Hf & Hi).
  exists cells, f. split_and!; try done. intros i d [Ed E]%Hi. rewrite E. by apply (month_weekday month).
Qed.
End dates.

(** ** Witnesses *)

#[local] Existing Instances binary_chrono Sample.cron_crate Sample.base64 Sample.json_schema
  Sample.serde Sample.sql_display.

(** A reader of forms: pieces between ampersands, empty ones left out, each with its first
    equals sign between a key and a value. *)
Fixpoint key_and_value (p : string) : string * string :=
  match p with
  | EmptyString => ("", "")
  | String c p =>
      if bool_decide (c = "="%char) then ("", p)
      else (String c (key_and_value p).1, (key_and_value p).2)
  end.
Definition parse_form (q : string) : list (string * string) :=
  (λ p, let kv := key_and_value p in (percent_decode kv.1, percent_decode kv.2))
    <$> filter (λ p, p ≠ "") (Str.split "&"%char q).

Lemma plain_cons c s : plain (String c s) = true → plain_char c = true ∧ plain s = true.
Proof. intros H. by apply andb_prop in H. Qed.
Lemma plain_key k v : plain k = true → key_and_value (k +:+ String "=" v) = (k, v).
Proof.
  induction k as [|c k IH]; [done|]. intros [Hc Hk]%plain_cons. simpl.
  rewrite bool_decide_eq_false_2; [by rewrite IH|]. intros ->. discriminate Hc.
Qed.
Lemma plain_split k v : plain k = true → plain v = true →
  Str.split "&"%char (k +:+ String "=" v) = [k +:+ String "=" v].
Proof.
  intros Hk Hv.
  assert (∀ s, plain s = true → Str.split "&"%char s = [s]) as Hs.
  { induction s as [|c s IH]; [done|]. intros [Hc Hp]%plain_cons. simpl. rewrite IH by done.
    rewrite bool_decide_eq_false_2; [done|]. intros ->. discriminate Hc. }
  induction k as [|c k IH]; simpl.
  - by rewrite Hs.
  - apply plain_cons in Hk as [Hc Hk]. rewrite IH by done.
    rewrite bool_decide_eq_false_2; [done|]. intros ->. discriminate Hc.
Qed.

Lemma form_urlencoded : urlencoded parse_form.
Proof.
  intros ps Hps. unfold parse_form.
  assert (filter (λ p, p ≠ "") (Str.split "&"%char
    (Str.join "&" ((λ kv, kv.1 +:+ "=" +:+ kv.2) <$> ps))) = (λ kv, kv.1 +:+ "=" +:+ kv.2) <$> ps)
    as ->.
  { assert (∀ k v, k +:+ String "=" v ≠ "") as Hne by (by intros []).
    induction Hps as [|[k v] ps [Hk Hv] Hps IH]; [done|]. simpl in Hk, Hv.
    destruct ps as [|kv ps].
    - simpl. rewrite plain_split by done. by rewrite filter_cons_True by apply Hne.
    - rewrite fmap_cons. set (l := _ <$> kv :: ps) in *.
      change (Str.join "&" (?x :: l)) with (x +:+ String "&" (Str.join "&" l)).
      rewrite split_token_app by (by apply plain_split). simpl fst. simpl snd.
      rewrite filter_cons_True by apply Hne. by rewrite IH. }
  rewrite <-list_fmap_compose. apply list_fmap_ext. intros i [k v] Hi. simpl.
  eapply list.Forall_lookup_1 in Hps as [Hk _]; [|exact Hi]. simpl in Hk. by rewrite plain_key.
Qed.

Lemma sample_base64 s : b64_decode (b64_encode s) = Some s ∧ (s ≠ "" → b64_encode s ≠ "").
Proof. by split; [apply strip_prefix_app|]. Qed.
Lemma binary_texts : text_times.
Proof. done. Qed.
Lemma binary_written : written_times.
Proof.
  intros t. destruct (binary_chrono_roundtrip t) as (s & E & Ht & Hn & Hp).
  cbn in E. injection E as <-. done.
Qed.

Lemma sample_at_rest : db_at_rest "" Sample.ws Sample.session Sample.tenant.
Proof.
  split; [done..|]. cbn [t_jobs Sample.tenant].
  apply map_Forall_insert_2; [by vm_compute|]. apply map_Forall_singleton. by vm_compute.
Qed.

Definition sample_dashboard : DashboardConfig :=
  {| dc_api_base_url := "http://api/"; dc_api_prefix := ""; dc_dashboard_prefix := "" |}.

(** A user who looks for cron jobs. *)
Definition cron_key : JobFilterKey := {|
  fk_job_id := ""; fk_status := []; fk_trigger := ["CRON"]; fk_endpoint_type := [];
  fk_endpoint := ""; fk_created_after := None; fk_created_before := None |}.
Definition cron_tab : JobsTab := reset_effect (set_filters cron_key jobs_tab_new).

Lemma dashboard_pages_are_consecutive_witness :
  ∃ r, browsing parse_form (λ _, "") sample_dashboard "" Sample.ws
      Sample.session (λ _, "bad") cron_tab r
    ∧ (λ j, dJ_job_id j) <$> match r with Ok p => dg_data p | _ => [] end = ["c1"].
Proof.
  assert (browsing parse_form (λ _, "") sample_dashboard "" Sample.ws
    Sample.session (λ _, "bad") cron_tab (shown_page parse_form (λ _, "")
      sample_dashboard "" Sample.ws Sample.session (λ _, "bad") cron_tab)) as Hb.
  { apply browse_filters with (s := jobs_tab_new) (1 := browse_open _ _ _ _ _ _ _).
    split; try done; try apply chosen_none. apply chosen_one. cbn. right. right. left. }
  eexists. split; [exact Hb|].
  destruct (dashboard_pages_are_consecutive (λ _, "") sample_dashboard ""
    Sample.ws (λ _, "bad") parse_form Sample.session Sample.tenant _ _
    sample_base64 binary_texts binary_written form_urlencoded sample_at_rest Hb) as (c & E & _).
  rewrite E. reflexivity.
Defined.

(** The sample database after a failed attempt. *)
Definition failed_attempt : Attempt := {|
  a_attempt_id := "a1"; a_execution_id := "x1"; a_attempt_number := 1; a_status := "FAILED";
  a_started_at := 5; a_completed_at := Some 9; a_duration_ms := Some 4; a_output := None;
  a_error := Some (Json.obj [("type", JString "HTTP_ERROR"); ("message", JString "status 500")]);
  a_created_at := 9 |}.
Definition failed_tenant : Tenant := set_attempts {["a1" := failed_attempt]} Sample.tenant.
Definition failed_session : Session :=
  set_store {| st_orgs := st_orgs Sample.store; st_workspaces := st_workspaces Sample.store;
    st_tenants := {[Sample.key := failed_tenant]}; st_cron := st_cron Sample.store |} Sample.session.

Lemma dashboard_loses_failed_attempts_witness :
  ∃ r, list_attempts_handler "" Sample.ws "x1" failed_session = (Ok r, failed_session)
    ∧ fetch (λ _, "bad") (dash_list_attempts sample_dashboard "o1" "w1" "x1")
        (answer_of (λ _, "") r) = Err "bad".
Proof.
  destruct (dashboard_loses_failed_attempts (λ _, "") sample_dashboard "" Sample.ws (λ _, "bad")
    "o1" "w1" "x1" failed_session failed_tenant Sample.execution binary_texts eq_refl eq_refl eq_refl
    (lookup_singleton_eq Sample.key failed_tenant) (lookup_singleton_eq "x1" Sample.execution))
    as (r & Hr & _ & Hf & _).
  - assert (listed_attempts "x1" failed_tenant = [failed_attempt]) as -> by reflexivity.
    apply list.Forall_singleton. split; [by vm_compute|]. intros d [= <-]. by vm_compute.
  - exists r. split; [exact Hr|]. rewrite Hf. reflexivity.
Defined.

(** [serde_json] on the texts the examples type. *)
Definition sample_from_str (s : string) : res string json :=
  if bool_decide (s = "{}") then Ok (JObject []) else Err "expected value".
Definition delayed_form : CreateJobForm := {|
  jf_endpoint_name := "hook"; jf_trigger_type := "DELAYED"; jf_input_json := "{}";
  jf_key := "k"; jf_run_at := " tp1t "; jf_cron := "* * * * *"; jf_timezone := "UTC";
  jf_starts_at := ""; jf_ends_at := "" |}.

Lemma dashboard_job_form_is_understood_witness :
  ∃ fs job, create_job_form_body sample_from_str delayed_form = Ok (JObject fs)
    ∧ CreateJob_from_fields fs = Ok job
    ∧ cj_idempotency_key job = Some "k" ∧ cj_run_at job = Some 3 ∧ cj_cron job = None.
Proof.
  assert (is_ok (create_job_form_body sample_from_str delayed_form) = true) as Hb by reflexivity.
  destruct (create_job_form_body sample_from_str delayed_form) as [body| |] eqn:E;
    [|discriminate Hb..].
  destruct (dashboard_job_form_is_understood sample_from_str delayed_form body E)
    as (fs & input & -> & Hi & Hj).
  vm_compute in Hi. injection Hi as <-.
  exists fs. eexists. split; [reflexivity|]. rewrite Hj. split_and!; reflexivity.
Defined.

(** Times as a form writes them. *)
Definition zulu_chrono : Chrono := {|
  ts_json _ := JNull; to_rfc3339 _ := "2024-01-01T00:00:00Z";
  parse_from_rfc3339 s := if bool_decide (s = "2024-01-01T00:00:00Z") then Some 7 else None;
  naive_parse_from_str _ _ := None |}.

Lemma dashboard_invoke_is_understood_witness :
  ∃ body fs job,
    invoke_job_body sample_from_str "hook" "j1" "SCHEDULED" "2024-01-01T00:00" "" = Ok body
    ∧ body = JObject fs ∧ @CreateJob_from_fields zulu_chrono _ fs = Ok job
    ∧ cj_idempotency_key job = Some "adhoc-j1-2024-01-01T00:00:00Z" ∧ cj_run_at job = Some 7.
Proof.
  eexists. destruct (@dashboard_invoke_is_understood zulu_chrono _ sample_from_str "hook" "j1"
    "SCHEDULED" "2024-01-01T00:00" "" _ eq_refl) as [(fs & input & Hb & Hi & Hj) _].
  exists fs. eexists. split; [reflexivity|]. split; [exact Hb|]. rewrite Hj.
  vm_compute in Hi. injection Hi as <-. split; [vm_compute; reflexivity|]. split; reflexivity.
Defined.

(** A calendar of months of 31 days. *)
Definition even_calendar : Calendar := {|
  date_year d := d / 372; date_month d := d `mod` 372 / 31 + 1; date_day d := d `mod` 31 + 1;
  from_ymd_opt y m d :=
    if bool_decide (1 ≤ m ≤ 12 ∧ 1 ≤ d ≤ 31) then Some (372 * y + 31 * (m - 1) + (d - 1)) else None;
  days_from_sunday d := (d + 4) `mod` 7 |}.

Lemma even_calendar_laws : @CalendarLaws even_calendar.
Proof.
  split; cbn.
  - intros y m d t. case_bool_decide as Hv; [|done]. intros [= <-].
    Z.to_euclidean_division_equations; lia.
  - intros t _. rewrite bool_decide_eq_true_2 by (Z.to_euclidean_division_equations; lia).
    f_equal. Z.to_euclidean_division_equations; lia.
  - intros y m _ Hm. rewrite bool_decide_eq_true_2 by lia. done.
  - intros t. Z.to_euclidean_division_equations; lia.
  - intros t. Z.to_euclidean_division_equations; lia.
  - intros t. Z.to_euclidean_division_equations; lia.
  - intros t. Z.to_euclidean_division_equations; lia.
  - intros t. Z.to_euclidean_division_equations; lia.
Qed.
#[local] Existing Instances even_calendar even_calendar_laws.

(** Clicks, one after the other. *)
Fixpoint clicks (today : Z) (evs : list PopoverEvent) (p : Popover) : res unit Popover :=
  match evs with [] => Ok p | ev :: evs => p <-? popover_event today ev p; clicks today evs p end.
Lemma clicks_reach today evs p p' :
  popover_reach today p → clicks today evs p = Ok p' → popover_reach today p'.
Proof.
  revert p. induction evs as [|ev evs IH]; intros p Hp; simpl; [by intros [= <-]|].
  destruct (popover_event today ev p) as [q| |] eqn:E; [|done..]. cbn [res_bind].
  apply IH. by eapply popover_reach_event.
Qed.

(** One day is picked twice, with noon for a start and an end in the first hour. *)
Definition noon_clicks : list PopoverEvent :=
  [PoToggle; PoPick 105; PoPick 105; PoStart (PartHour 12); PoEnd (PartHour 0); PoApply].
Definition noon_popover : Popover :=
  match p <-? popover_new 0 None None; clicks 100 noon_clicks p with
  | Ok p => p
  | _ => {| po_after := None; po_before := None; po_open := false; po_view_month := 0;
            po_hover := None; po_start_time := 0; po_end_time := 0; po_draft_after := None;
            po_draft_before := None |}
  end.
Lemma noon_reached : popover_reach 100 noon_popover.
Proof.
  eapply (clicks_reach 100 noon_clicks).
  - eapply (popover_reach_new 100 0). vm_compute. reflexivity.
  - vm_compute. reflexivity.
Qed.
Definition noon_tab : JobsTab := set_filters {|
  fk_job_id := ""; fk_status := []; fk_trigger := []; fk_endpoint_type := []; fk_endpoint := "";
  fk_created_after := po_after noon_popover; fk_created_before := po_before noon_popover |}
  jobs_tab_new.

Lemma date_window_refused_only_within_a_day_witness :
  ∃ a b, po_after noon_popover = Some a ∧ po_before noon_popover = Some b ∧ b < a
    ∧ date_naive a = 105 ∧ date_naive b = 105
    ∧ is_ok (parse_job_filters (job_list_pairs (job_list_params noon_tab))) = false.
Proof.
  destruct (date_window_refused_only_within_a_day 100 noon_popover noon_tab binary_written
    noon_reached) as [_ [H|(a & b & Ha & Hb & Hlt & Hd & H)]].
  - split; apply chosen_none.
  - reflexivity.
  - reflexivity.
  - exfalso. apply (f_equal is_ok) in H. vm_compute in H. discriminate H.
  - assert (date_naive a = 105) as Hday by (vm_compute in Ha; injection Ha as <-; reflexivity).
    exists a, b. split; [exact Ha|]. split; [exact Hb|]. split; [exact Hlt|]. split; [exact Hday|].
    split; [rewrite <-Hd; exact Hday|]. rewrite H. reflexivity.
Defined.

Lemma quick_ranges_are_whole_days_witness :
  ∃ a b, preset_range LastMonth (start_of 400) = Ok (a, b)
    ∧ (a ≤ start_of 371 < b + second ∧ ~ (a ≤ start_of 372 < b + second)).
Proof.
  destruct (quick_ranges_are_whole_days LastMonth (start_of 400)) as (a & b & E & Hab).
  - vm_compute; split; discriminate.
  - vm_compute; split; discriminate.
  - exists a, b. split; [exact E|]. split; [apply Hab|rewrite Hab]; vm_compute;
      [reflexivity|discriminate].
Defined.

Lemma month_grid_shows_each_day_witness :
  ∃ cells, month_cells 375 = Ok cells ∧ cells !! 6%nat = Some (Some 373)
    ∧ days_from_sunday 373 = 6.
Proof.
  destruct (month_grid_shows_each_day 375) as (cells & f & Hc & Hf & Hcells & Hday).
  - vm_compute; split; discriminate.
  - vm_compute; split; discriminate.
  - assert (cells !! 6%nat = Some (Some 373)) as H6.
    { apply Hcells. injection Hf as <-. split; reflexivity. }
    exists cells. split; [exact Hc|]. split; [exact H6|]. rewrite <-(Hday _ _ H6). reflexivity.
Defined.
