(* ===== verification/PropsDb.v ===== *)
(** * Properties of the database layer

    Schema names, the text of the list query, pages, pg_cron ticks, the reaper. *)

From Stdlib Require Import Ascii.
From S2P Require Export PropsApi Pages.
#[local] Open Scope Z_scope.

(** ** Names *)

(** The text of a [uuid], as far as it matters here. *)
Definition uuid_char (c : ascii) : bool :=
  Str.is_ascii_alphanumeric c || bool_decide (c = "-"%char).
Definition uuid_like (id : string) : Prop :=
  id ≠ "" ∧ (String.length id ≤ 36)%nat ∧ Str.all uuid_char id = true.

Notation to_ident := (Str.replace_char "-"%char "_"%char).

Lemma to_ident_valid p s :
  (∀ c, p c = true → Str.is_ascii_alphanumeric c = true ∨ c = "-"%char) →
  Str.all p s = true → Str.all ident_char (to_ident s) = true.
Proof.
  intros Hp. rewrite !all_spec. intros Hs c Hc. unfold Str.replace_char in Hc.
  rewrite chars_smap in Hc. apply list_elem_of_fmap in Hc as (d & -> & Hd).
  unfold ident_char. case_bool_decide as Hdash.
  - apply orb_true_iff. right. by apply bool_decide_eq_true.
  - destruct (Hp d (Hs d Hd)) as [->|]; done.
Qed.

Lemma to_ident_inj p s t :
  p "_"%char = false → Str.all p s = true → Str.all p t = true → to_ident s = to_ident t → s = t.
Proof.
  intros Hu. unfold Str.all, Str.replace_char.
  revert t. induction s as [|a s IH]; intros [|b t]; simpl; try done.
  intros [Ha Hs]%andb_true_iff [Hb Ht]%andb_true_iff [= Hab Hst]. f_equal; [|by apply IH].
  destruct (bool_decide_reflect (a = "-"%char)), (bool_decide_reflect (b = "-"%char)); congruence.
Qed.

Lemma slug_chars slug : validate_slug slug = true →
  Str.all slug_char slug = true ∧ (String.length slug ≤ 25)%nat.
Proof.
  unfold validate_slug, MAX_SLUG_LEN. destruct (_ || _) eqn:E; [done|]. bool_prop.
  destruct (Str.starts_with _ _ || _); [done|]. intros ?. split; [done|lia].
Qed.

Lemma slug_char_ident c : slug_char c = true → Str.is_ascii_alphanumeric c = true ∨ c = "-"%char.
Proof.
  unfold slug_char, Str.is_ascii_alphanumeric. rewrite !orb_true_iff, bool_decide_eq_true. tauto.
Qed.

Lemma uuid_char_ident c : uuid_char c = true → Str.is_ascii_alphanumeric c = true ∨ c = "-"%char.
Proof. unfold uuid_char. by rewrite orb_true_iff, bool_decide_eq_true. Qed.

Lemma valid_schema_chars name :
  validate_schema_name name = true →
  Forall (λ c, Str.is_ascii_alphanumeric c = true ∨ c = "_"%char) (Str.chars name).
Proof.
  unfold validate_schema_name, Str.all. intros [_ Hall]%andb_true_iff.
  apply Forall_forall. intros c Hc.
  apply forallb_forall with (x := c) in Hall; [|exact Hc].
  unfold ident_char in Hall. rewrite orb_true_iff, bool_decide_eq_true in Hall. exact Hall.
Qed.

(** C37: the schema name of a workspace, built from the organization's id and the
    workspace's slug, passes the check made before it is put between double quotes: it
    is not empty, and has only ASCII letters, digits and underscores, so that it cannot
    close the quotes (it may start with a digit, so that it does need them).  It stays
    below PostgreSQL's 63 bytes, at which a name is cut off.  Two workspaces share a
    schema name only if they have the same organization and slug -- for a slug that the
    check at creation accepts, and ids of letters, digits and hyphens, at most 36 of
    them and of one length, as UUIDs are. *)
Theorem schema_names_are_valid_and_distinct org slug :
  uuid_like org → validate_slug slug = true →
  validate_schema_name (build_schema_name org slug) = true
  ∧ Forall (λ c, Str.is_ascii_alphanumeric c = true ∨ c = "_"%char)
      (Str.chars (build_schema_name org slug))
  ∧ (0 < String.length (build_schema_name org slug) < 63)%nat
  ∧ ∀ org' slug', uuid_like org' → validate_slug slug' = true →
      String.length org' = String.length org →
      build_schema_name org' slug' = build_schema_name org slug → org' = org ∧ slug' = slug.
Proof.
  intros (Hne & Hlen & Horg) [Hslug Hsl]%slug_chars.
  assert (validate_schema_name (build_schema_name org slug) = true) as Hv.
  { unfold build_schema_name, validate_schema_name. rewrite !all_app.
    rewrite (to_ident_valid _ _ slug_char_ident Hslug).
    rewrite (to_ident_valid _ _ uuid_char_ident Horg).
    rewrite !andb_true_r. apply negb_true_iff, bool_decide_eq_false.
    destruct org; done. }
  split; [exact Hv|]. split; [by apply valid_schema_chars|].
  unfold build_schema_name. split.
  - unfold Str.replace_char. rewrite !slen_app, !slen_smap. simpl. lia.
  - intros org' slug' (_ & _ & Horg') [Hslug' _]%slug_chars Heq E.
    assert (to_ident org' = to_ident org) as E1.
    { apply (f_equal (Str.stake (String.length (to_ident org)))) in E.
      rewrite stake_app_exact in E.
      assert (String.length (to_ident org) = String.length (to_ident org')) as Hl
        by (unfold Str.replace_char; rewrite !slen_smap; done).
      rewrite Hl, stake_app_exact in E. done. }
    rewrite E1 in E. apply app_inj_l, app_inj_l in E.
    split; [by apply (to_ident_inj uuid_char)|by apply (to_ident_inj slug_char)].
Qed.

(** ** The list query *)

(** The accumulator, less the values bound. *)
Definition acc_shape (acc : QueryAcc) : list string * nat * Z :=
  let '(conditions, binds, n) := acc in (conditions, length binds, n).

Lemma push_cond_shape cond b b' acc acc' :
  acc_shape acc = acc_shape acc' →
  acc_shape (push_cond cond b acc) = acc_shape (push_cond cond b' acc').
Proof.
  destruct acc as [[cs bs] n], acc' as [[cs' bs'] n']. simpl. intros [= -> Hl ->].
  by rewrite !length_app, Hl.
Qed.

Lemma push_opt_shape {A} (o o' : option A) cond (b b' : A → BindValue) acc acc' :
  (is_Some o ↔ is_Some o') → acc_shape acc = acc_shape acc' →
  acc_shape (push_opt o cond b acc) = acc_shape (push_opt o' cond b' acc').
Proof.
  intros Ho Ha. destruct o, o'; simpl; [by apply push_cond_shape| | |done];
    exfalso; destruct Ho as [H1 H2];
    [destruct H1 as [? ?]|destruct H2 as [? ?]]; by eauto.
Qed.

Lemma push_any_shape {A} (l l' : list A) col (s s' : A → string) acc acc' :
  (l = [] ↔ l' = []) → acc_shape acc = acc_shape acc' →
  acc_shape (push_any l col s acc) = acc_shape (push_any l' col s' acc').
Proof.
  intros [Hl Hl'] Ha. destruct l, l'; simpl;
    [done|by specialize (Hl eq_refl)|by specialize (Hl' eq_refl)|by apply push_cond_shape].
Qed.

(** The accumulator's counter and its binds. *)
Definition acc_ok (acc : QueryAcc) : Prop :=
  let '(conditions, binds, n) := acc in
  n = Z.of_nat (length binds) + 1 ∧ length conditions = length binds
  ∧ ∀ i c, conditions !! i = Some c →
      Str.contains c ("$" +:+ Str.dec (Z.of_nat i + 1)) = true.

Lemma push_cond_ok cond b acc :
  (∀ p, Str.contains (cond p) p = true) → acc_ok acc → acc_ok (push_cond cond b acc).
Proof.
  intros Hc. destruct acc as [[cs bs] n]. intros (-> & Hl & Hi). simpl.
  rewrite !length_app. simpl. split_and!; [lia|lia|].
  intros i c Hic. destruct (decide (i < length cs)%nat) as [Hlt|Hge].
  - rewrite lookup_app_l in Hic by done. by apply Hi.
  - rewrite lookup_app_r in Hic by lia.
    apply list_lookup_singleton_Some in Hic as [Hi0 <-].
    replace i with (length bs) by lia. apply Hc.
Qed.

Lemma push_opt_ok {A} (o : option A) cond b acc :
  (∀ p, Str.contains (cond p) p = true) → acc_ok acc → acc_ok (push_opt o cond b acc).
Proof. destruct o; [apply push_cond_ok|done]. Qed.

Lemma push_any_ok {A} (l : list A) col s acc : acc_ok acc → acc_ok (push_any l col s acc).
Proof.
  destruct l; [done|]. apply push_cond_ok. intros p. rewrite <-app_assoc. apply contains_between.
Qed.

Section list_query.
Context `{!Chrono}.

(** What the query is to ask: for every filter the request gives, in a fixed order,
    the condition around a placeholder and the value that the placeholder stands for. *)
Definition query_terms (t : string) (cursor : option string) (f : JobFilters) :
    list ((string → string) * BindValue) :=
  let one {A} (o : option A) (cond : string → string) (value : A → string) :=
    (λ a, (cond, BScalar (value a))) <$> option_list o in
  let any {A} (l : list A) (column : string) (name : A → string) :=
    match l with
    | [] => []
    | _ => [(λ p, column +:+ " = ANY(" +:+ p +:+ ")", BArray (name <$> l))]
    end in
  one cursor (λ p, "(created_at, job_id) < ((SELECT created_at FROM " +:+ t
                     +:+ " WHERE job_id = " +:+ p +:+ "), " +:+ p +:+ ")") id
  ++ any (jf_status f) "status" JobStatus_as_str
  ++ any (jf_trigger f) "trigger_type" TriggerType_as_str
  ++ any (jf_endpoint_type f) "endpoint_type" EndpointType_as_str
  ++ one (jf_endpoint f) (λ p, "endpoint ILIKE '%' || " +:+ p +:+ " || '%' ESCAPE '\'") escape_like
  ++ one (jf_created_after f) (λ p, "created_at >= " +:+ p +:+ "::timestamptz") to_rfc3339
  ++ one (jf_created_before f) (λ p, "created_at <= " +:+ p +:+ "::timestamptz") to_rfc3339
  ++ one (jf_job_id f) (λ p, "job_id = " +:+ p) id.

Definition placeholder (i : nat) : string := "$" +:+ Str.dec (Z.of_nat i + 1).

(** The accumulator after the terms [l]. *)
Definition acc_of (l : list ((string → string) * BindValue)) : QueryAcc :=
  (imap (λ i term, term.1 (placeholder i)) l, l.*2, Z.of_nat (length l) + 1).

Lemma push_cond_of cond b l : push_cond cond b (acc_of l) = acc_of (l ++ [(cond, b)]).
Proof.
  unfold acc_of, push_cond. rewrite imap_app, fmap_app, length_app. cbn [imap fmap list_fmap fst snd].
  unfold placeholder. cbn [length].
  rewrite (Nat.add_0_r (length l)). by replace (Z.of_nat (length l) + 1 + 1) with
    (Z.of_nat (length l + 1) + 1) by lia.
Qed.

Lemma push_opt_of {A} (o : option A) cond b l :
  push_opt o cond b (acc_of l) = acc_of (l ++ ((λ a, (cond, b a)) <$> option_list o)).
Proof. destruct o; cbn; [apply push_cond_of|by rewrite List.app_nil_r]. Qed.

Lemma push_any_of {A} (vs : list A) col name l :
  push_any vs col name (acc_of l)
  = acc_of (l ++ match vs with
                 | [] => []
                 | _ => [(λ p, col +:+ " = ANY(" +:+ p +:+ ")", BArray (name <$> vs))]
                 end).
Proof. destruct vs; cbn [push_any]; [by rewrite List.app_nil_r|apply push_cond_of]. Qed.

Lemma build_list_terms t cursor f : build_list_conditions t cursor f = acc_of (query_terms t cursor f).
Proof.
  unfold build_list_conditions. cbv zeta. change ([], [], 1) with (acc_of []).
  rewrite push_opt_of, !push_any_of, !push_opt_of. cbn [app]. by rewrite <- !List.app_assoc.
Qed.

Lemma query_terms_values t cursor f :
  (query_terms t cursor f).*2
  = (BScalar <$> option_list cursor)
    ++ (BArray <$> filter (λ l, l ≠ [])
          [JobStatus_as_str <$> jf_status f; TriggerType_as_str <$> jf_trigger f;
           EndpointType_as_str <$> jf_endpoint_type f])
    ++ (BScalar <$> (escape_like <$> option_list (jf_endpoint f))
          ++ (to_rfc3339 <$> option_list (jf_created_after f))
          ++ (to_rfc3339 <$> option_list (jf_created_before f))
          ++ option_list (jf_job_id f)).
Proof.
  unfold query_terms. cbv zeta. rewrite !fmap_app, <- !list_fmap_compose.
  destruct cursor, (jf_status f), (jf_trigger f), (jf_endpoint_type f), (jf_endpoint f),
    (jf_created_after f), (jf_created_before f), (jf_job_id f); reflexivity.
Qed.

Lemma conditions_ok t cursor f : acc_ok (build_list_conditions t cursor f).
Proof.
  unfold build_list_conditions. cbv zeta.
  repeat (apply push_opt_ok || apply push_any_ok); try done; intros p.
  - rewrite <-(app_nil_r p) at 1. apply (contains_between "job_id = ").
  - apply (contains_between "created_at <= ").
  - apply (contains_between "created_at >= ").
  - apply (contains_between "endpoint ILIKE '%' || ").
  - rewrite <-(app_assoc "(created_at, job_id) < ((SELECT created_at FROM " t), <-app_assoc.
    apply contains_between.
Qed.

Lemma same_text t cursor f cursor' f' :
  (is_Some cursor ↔ is_Some cursor') →
  (jf_status f = [] ↔ jf_status f' = []) → (jf_trigger f = [] ↔ jf_trigger f' = []) →
  (jf_endpoint_type f = [] ↔ jf_endpoint_type f' = []) →
  (is_Some (jf_endpoint f) ↔ is_Some (jf_endpoint f')) →
  (is_Some (jf_created_after f) ↔ is_Some (jf_created_after f')) →
  (is_Some (jf_created_before f) ↔ is_Some (jf_created_before f')) →
  (is_Some (jf_job_id f) ↔ is_Some (jf_job_id f')) →
  (build_list_query t cursor f).1 = (build_list_query t cursor' f').1
  ∧ length (build_list_query t cursor f).2 = length (build_list_query t cursor' f').2.
Proof.
  intros H1 H2 H3 H4 H5 H6 H7 H8.
  assert (acc_shape (build_list_conditions t cursor f)
          = acc_shape (build_list_conditions t cursor' f')) as Hshape.
  { unfold build_list_conditions. cbv zeta.
    repeat (apply push_opt_shape || apply push_any_shape); done. }
  unfold build_list_query.
  destruct (build_list_conditions t cursor f) as [[cs bs] n],
    (build_list_conditions t cursor' f') as [[cs' bs'] n']. by injection Hshape as -> ? ->.
Qed.

(** C38: the list query asks for what the filters say, and no value of a request ever
    becomes SQL.  The conditions are those of the filters that are present, in a
    fixed order, joined by AND; the [i]-th has the placeholder [$i] in it, its value is
    the [i]-th one bound -- the cursor, the names of the statuses, triggers and endpoint
    types, the endpoint with the LIKE characters escaped, the dates, the job id -- and
    the limit has the placeholder after the last of them.  So two requests that give
    the same filters, whatever their values, run the same text. *)
Theorem list_query_binds_every_value t cursor f cursor' f' :
  (is_Some cursor ↔ is_Some cursor') →
  (jf_status f = [] ↔ jf_status f' = []) →
  (jf_trigger f = [] ↔ jf_trigger f' = []) →
  (jf_endpoint_type f = [] ↔ jf_endpoint_type f' = []) →
  (is_Some (jf_endpoint f) ↔ is_Some (jf_endpoint f')) →
  (is_Some (jf_created_after f) ↔ is_Some (jf_created_after f')) →
  (is_Some (jf_created_before f) ↔ is_Some (jf_created_before f')) →
  (is_Some (jf_job_id f) ↔ is_Some (jf_job_id f')) →
  (let terms := query_terms t cursor f in
   let conditions := imap (λ i term, term.1 ("$" +:+ Str.dec (Z.of_nat i + 1))) terms in
   build_list_query t cursor f
   = ("SELECT * FROM " +:+ t
        +:+ match conditions with [] => "" | _ => " WHERE " +:+ Str.join " AND " conditions end
        +:+ " ORDER BY created_at DESC, job_id DESC LIMIT $"
        +:+ Str.dec (Z.of_nat (length terms) + 1),
      terms.*2))
  ∧ (build_list_query t cursor f).2
    = (BScalar <$> option_list cursor)
      ++ (BArray <$> filter (λ l, l ≠ [])
            [JobStatus_as_str <$> jf_status f; TriggerType_as_str <$> jf_trigger f;
             EndpointType_as_str <$> jf_endpoint_type f])
      ++ (BScalar <$> (escape_like <$> option_list (jf_endpoint f))
            ++ (to_rfc3339 <$> option_list (jf_created_after f))
            ++ (to_rfc3339 <$> option_list (jf_created_before f))
            ++ option_list (jf_job_id f))
  ∧ (build_list_query t cursor f).1 = (build_list_query t cursor' f').1
  ∧ length (build_list_query t cursor f).2 = length (build_list_query t cursor' f').2
  ∧ let '(conditions, binds, n) := build_list_conditions t cursor f in
    n = Z.of_nat (length binds) + 1 ∧ length conditions = length binds
    ∧ ∀ i c, conditions !! i = Some c →
        Str.contains c ("$" +:+ Str.dec (Z.of_nat i + 1)) = true.
Proof.
  intros H1 H2 H3 H4 H5 H6 H7 H8.
  split.
  { cbv zeta. unfold build_list_query. rewrite build_list_terms. cbn [acc_of fst snd].
    unfold placeholder. by destruct (imap _ (query_terms t cursor f)). }
  split; [|destruct (same_text t cursor f cursor' f') as [-> ->]; [done..|];
           split_and!; [done..|apply conditions_ok]].
  unfold build_list_query. rewrite build_list_terms. apply query_terms_values.
Qed.
End list_query.

(** ** Searching by endpoint *)

Lemma like_literal c p s :
  like_meta c = false →
  like (c :: p) s = match s with x :: s => bool_decide (x = c) && like p s | [] => false end.
Proof.
  unfold like_meta. intros Hc%bool_decide_eq_false. set_unfold.
  destruct c as [[] [] [] [] [] [] [] []]; try reflexivity; exfalso; apply Hc; tauto.
Qed.

Lemma like_escaped c p s :
  like ("\"%char :: c :: p) s = match s with x :: s => bool_decide (x = c) && like p s | [] => false end.
Proof. done. Qed.

(** The escaped text, then [%]: the text is a prefix. *)
Lemma like_escape_prefix e s :
  like (Str.chars (escape_like e) ++ ["%"%char]) (Str.chars s) = Str.starts_with s e.
Proof.
  assert (∀ s, like ["%"%char] (Str.chars s) = true) as Hall.
  { clear. intros s. unfold like. induction s as [|c s IH]; [done|]. simpl in *. by rewrite IH. }
  unfold Str.starts_with. revert s. induction e as [|c e IH]; intros s.
  { etrans; [apply (Hall s)|]. symmetry. apply bool_decide_eq_true. by eexists. }
  cbn [escape_like Str.strip_prefix].
  assert (like (Str.chars (if like_meta c then String "\" (String c (escape_like e))
                           else String c (escape_like e)) ++ ["%"%char]) (Str.chars s)
    = match Str.chars s with
      | x :: s => bool_decide (x = c) && like (Str.chars (escape_like e) ++ ["%"%char]) s
      | [] => false end) as ->.
  { destruct (like_meta c) eqn:Em; [apply like_escaped|by apply like_literal]. }
  destruct s as [|x s]; [done|]. cbn [Str.chars Str.strip_prefix].
  rewrite IH. destruct (bool_decide_reflect (x = c)) as [->|Hne]; cbn [andb].
  - by rewrite (bool_decide_eq_true_2 (c = c)).
  - rewrite (bool_decide_eq_false_2 (c = x)) by congruence.
    by rewrite bool_decide_eq_false_2 by (by intros []).
Qed.

Lemma lower_meta c : like_meta (Str.lower c) = like_meta c ∧ (like_meta c = true → Str.lower c = c).
Proof. destruct c as [[] [] [] [] [] [] [] []]; vm_compute; done. Qed.

Lemma lower_escape e : Str.to_ascii_lowercase (escape_like e) = escape_like (Str.to_ascii_lowercase e).
Proof.
  unfold Str.to_ascii_lowercase. induction e as [|c e IH]; simpl; [done|].
  destruct (lower_meta c) as [Hm Hl]. rewrite Hm.
  destruct (like_meta c); simpl; rewrite IH; [by rewrite Hl|done].
Qed.

(** The endpoint filter is a substring search, case-insensitively for ASCII:
    what the request gives is matched as it is written, percent signs, underscores
    and backslashes included. *)
Theorem endpoint_filter_is_substring_search name wanted :
  ilike name ("%" +:+ escape_like wanted +:+ "%")
  = Str.contains (Str.to_ascii_lowercase name) (Str.to_ascii_lowercase wanted).
Proof.
  unfold ilike.
  assert (Str.to_ascii_lowercase ("%" +:+ escape_like wanted +:+ "%")
    = "%" +:+ escape_like (Str.to_ascii_lowercase wanted) +:+ "%") as ->.
  { rewrite <-lower_escape. unfold Str.to_ascii_lowercase.
    assert (∀ a b, Str.smap Str.lower (a +:+ b) = Str.smap Str.lower a +:+ Str.smap Str.lower b) as Hs.
    { intros a b. induction a as [|c a IH]; simpl; [done|by rewrite IH]. }
    by rewrite !Hs. }
  set (e := Str.to_ascii_lowercase wanted). set (s := Str.to_ascii_lowercase name). clearbody e s.
  assert (Str.chars ("%" +:+ escape_like e +:+ "%")
          = "%"%char :: (Str.chars (escape_like e) ++ ["%"%char])) as ->.
  { by rewrite !chars_app. }
  change (like_many (like (Str.chars (escape_like e) ++ ["%"%char])) (Str.chars s) = Str.contains s e).
  pose proof (like_escape_prefix e) as Hpre.
  set (k := like (Str.chars (escape_like e) ++ ["%"%char])) in *. clearbody k.
  unfold Str.contains. induction s as [|c s IH].
  - cbn [Str.chars like_many Str.find]. rewrite orb_false_r.
    rewrite (Hpre "" : k [] = _). by destruct (Str.starts_with "" e).
  - change (Str.chars (String c s)) with (c :: Str.chars s). cbn [like_many].
    rewrite (Hpre (String c s) : k (c :: Str.chars s) = _).
    cbn [Str.find]. destruct (Str.starts_with (String c s) e); cbn [orb].
    + done.
    + rewrite IH. apply bool_decide_ext. by rewrite fmap_is_Some.
Qed.

(** ** Pages *)

(** Following the cursor visits every matching job.  The page after the [i]-th
    job of the whole list, newest first, is what comes right after it: no job is
    skipped and none is shown twice, also among jobs created at the same instant. *)
Theorem job_pages_follow_each_other f limit t i j :
  map_Forall (λ id j, j_job_id j = id) (t_jobs t) →
  let all := merge_sort by_key_desc (filter (job_matches f) (map_to_list (t_jobs t)).*2) in
  all !! i = Some j →
  jobs_page (Some (j_job_id j)) limit f t = take (Z.to_nat limit) (drop (S i) all)
  ∧ jobs_page None limit f t = take (Z.to_nat limit) all.
Proof. intros Hk all Hi. split; [by apply jobs_page_after|apply jobs_page_first]. Qed.

(** ** pg_cron *)

(** C39: a tick of pg_cron.  For a job whose endpoint is there, with a retry policy
    whose attempt limit is a number (or absent), it queues exactly one execution, due at
    once, with that limit and a key made of the job and the millisecond -- if the job is
    ACTIVE, has begun and has not ended, that key is new to the job, and the row id is
    new; otherwise it changes nothing.  The job itself, with its next run time, stays as
    it was.  A second tick in the same millisecond changes nothing, under any row id, if
    the job's window does not open between the two. *)
Theorem cron_tick_queues_once (db : DbContext) job_id uuid uuid' now now' t j e n :
  t_jobs t !! job_id = Some j → j_job_id j = job_id →
  t_endpoints t !! j_endpoint j = Some e → cron_max_attempts e = Ok n →
  t_executions t !! uuid = None →
  epoch_ms now' = epoch_ms now → (cron_active now' j → cron_active now j) →
  let x := new_execution uuid job_id (j_endpoint j) (j_endpoint_type j)
             (Some (cron_key job_id now)) "QUEUED" now (j_input j) n now in
  let t' := if bool_decide (cron_active now j)
               && negb (execution_key_taken job_id (Some (cron_key job_id now)) t)
            then set_executions (<[uuid := x]> (t_executions t)) t else t in
  (cron_active now j ↔ j_status j = "ACTIVE"
     ∧ (∀ starts_at, j_cron_starts_at j = Some starts_at → starts_at ≤ now)
     ∧ (∀ ends_at, j_cron_ends_at j = Some ends_at → now < ends_at))
  ∧ cron_tick_tenant job_id uuid now db t = Ok t'
  ∧ t_jobs t' = t_jobs t
  ∧ cron_tick_tenant job_id uuid' now' db t' = Ok t'.
Proof.
  intros Hj Hid He Hn Hfresh Hms Hact x t'. split.
  { unfold cron_active. destruct (j_cron_starts_at j), (j_cron_ends_at j); naive_solver. }
  assert (cron_key job_id now' = cron_key job_id now) as Hkey by (unfold cron_key; by rewrite Hms).
  split.
  - unfold t', cron_tick_tenant. rewrite Hj, He, Hid.
    destruct (bool_decide (cron_active now j)); [|done]. rewrite Hn. cbn [res_bind andb]. cbv zeta.
    cbn [new_execution e_job_id e_idempotency_key].
    destruct (execution_key_taken _ _ t) eqn:Ek; [done|]. unfold insert_execution.
    cbn [new_execution e_status e_execution_id e_job_id e_idempotency_key].
    rewrite (bool_decide_eq_true_2 (_ ∈ execution_statuses)) by (unfold execution_statuses; set_solver).
    rewrite Hfresh, Ek, Hj. cbn [negb].
    rewrite bool_decide_eq_false_2 by (by intros []). by rewrite bool_decide_eq_false_2.
  - split; [unfold t'; by case_match|].
    assert (t_jobs t' = t_jobs t ∧ t_endpoints t' = t_endpoints t) as [Ejobs Eeps]
      by (unfold t'; by case_match).
    unfold cron_tick_tenant. rewrite Ejobs, Eeps, Hj, He, Hid.
    destruct (bool_decide_reflect (cron_active now' j)) as [Ha|]; [|done].
    rewrite Hn. cbn [res_bind]. cbv zeta. cbn [new_execution e_job_id e_idempotency_key].
    rewrite Hkey.
    assert (execution_key_taken job_id (Some (cron_key job_id now)) t' = true) as ->; [|done].
    unfold t'. rewrite bool_decide_eq_true_2 by auto. cbn [andb].
    destruct (execution_key_taken _ _ t) eqn:Ek; cbn [negb]; [done|].
    unfold execution_key_taken. apply bool_decide_eq_true, list.Exists_exists. exists x.
    split; [|done]. apply list_elem_of_fmap. exists (uuid, x). split; [done|].
    apply elem_of_map_to_list. cbn [set_executions t_executions]. apply lookup_insert_eq.
Qed.

(** The pg_cron entries once [unregister_pg_cron_conn] has run for the jobs [l]. *)
Definition unscheduled (schema_name : string) (l : list string) (c : gmap string CronEntry) :
    gmap string CronEntry :=
  foldl (λ c id, delete (cron_job_name schema_name id) c) c l.

Lemma unregister_all_run schema l b now s s' :
  se_iter (λ id, unregister_pg_cron_conn schema id) l s = (Ok tt, s') → in_run b now s →
  in_run b now s' ∧ ss_store s' = set_cron (unscheduled schema l (st_cron (ss_store s))) (ss_store s).
Proof.
  revert s. induction l as [|id l IH]; intros s E Hr.
  { injection E as <-. split; [done|]. by destruct (ss_store s). }
  cbn [se_iter] in E. apply se_bind_inv in E as ([] & s1 & E1 & E2).
  destruct (unregister_run _ _ _ _ _ _ E1 Hr) as [Hr1 Hs1].
  destruct (IH _ E2 Hr1) as [Hr2 Hs2]. split; [done|]. by rewrite Hs2, Hs1.
Qed.

(** C40: a sweep of the reaper that succeeds retires exactly the ACTIVE CRON jobs
    whose end has come -- every other job and every execution stays as it is -- and
    removes exactly their pg_cron entries, in the one transaction. *)
Theorem reaper_retires_exactly_the_expired (db : DbContext) b now s l s' :
  reap_schema db s = (Ok l, s') → in_run b now s →
  in_run b now s' ∧ ∃ t t',
    let k := (db_schema db, db_prefix db) in
    st_tenants (ss_store s) !! k = Some t ∧ st_tenants (ss_store s') !! k = Some t'
    ∧ t_executions t' = t_executions t
    ∧ (∀ id, id ∈ l ↔ ∃ j ends_at, t_jobs t !! id = Some j ∧ j_trigger_type j = "CRON"
         ∧ j_status j = "ACTIVE" ∧ j_cron_ends_at j = Some ends_at ∧ ends_at ≤ now)
    ∧ (∀ id, t_jobs t' !! id =
         if bool_decide (id ∈ l) then (λ j, retired now (j_replaced_by_id j) j) <$> t_jobs t !! id
         else t_jobs t !! id)
    ∧ st_cron (ss_store s') = unscheduled (db_schema db) l (st_cron (ss_store s)).
Proof.
  intros E Hr. unfold reap_schema in E.
  apply se_bind_inv in E as (l' & s1 & E1 & E).
  apply se_bind_inv in E as ([] & s2 & E2 & E). injection E as -> <-.
  destruct (tstmt_run _ _ _ _ _ _ _ E1 Hr) as (Hr1 & st & t & t1 & Ht & Hq & Hs1).
  destruct (unregister_all_run _ _ _ _ _ _ E2 Hr1) as [Hr2 Hs2].
  injection Hq as <- <-. split; [done|]. eexists t, _. cbv zeta.
  rewrite Hs2, Hs1. unfold set_cron, set_tenant. cbn [st_tenants st_cron]. rewrite lookup_insert_eq.
  split; [done|]. split; [done|]. cbn [set_jobs t_executions t_jobs].
  set (l := (filter _ _).*1).
  assert (∀ id, id ∈ l ↔ ∃ j, t_jobs t !! id = Some j ∧ cron_expired now j) as Hl.
  { intros id. unfold l. rewrite list_elem_of_fmap. split.
    - intros ([id' j] & -> & [Hx Hin]%list_elem_of_filter). apply elem_of_map_to_list in Hin.
      simpl in *. eauto.
    - intros (j & Hj & Hx). exists (id, j). split; [done|]. apply list_elem_of_filter.
      split; [done|]. by apply elem_of_map_to_list. }
  split_and!; try done.
  - intros id. rewrite Hl. unfold cron_expired.
    split; intros (j & H); [|destruct H as (e & H); exists j];
      destruct (j_cron_ends_at j) eqn:Ej; naive_solver.
  - intros id. rewrite lookup_fmap. destruct (t_jobs t !! id) as [j|] eqn:Ej; [|by case_bool_decide].
    cbn [fmap option_fmap option_map]. rewrite (bool_decide_ext (id ∈ l) (cron_expired now j)).
    + by case_bool_decide.
    + rewrite Hl, Ej. naive_solver.
Qed.

(** ** Witnesses *)

#[local] Existing Instances Sample.chrono Sample.cron_crate Sample.base64 Sample.json_schema
  Sample.jsonb Sample.utf8 Sample.serde Sample.sql_display Sample.aes Sample.clouds.

Definition sample_uuid : string := "6f1c2d3e-0000-4000-8000-00000000abcd".

Lemma schema_names_are_valid_and_distinct_witness :
  validate_schema_name (build_schema_name sample_uuid "acme-corp") = true
  ∧ (0 < String.length (build_schema_name sample_uuid "acme-corp") < 63)%nat.
Proof.
  destruct (schema_names_are_valid_and_distinct sample_uuid "acme-corp") as (Hv & _ & Hl & _).
  - split; [discriminate|]. split; [vm_compute; lia|vm_compute; reflexivity].
  - vm_compute. reflexivity.
  - split; [exact Hv|exact Hl].
Defined.

Definition filters_for (wanted : string) (after : Z) : JobFilters := {|
  jf_job_id := None; jf_status := [ACTIVE]; jf_trigger := []; jf_endpoint := Some wanted;
  jf_endpoint_type := []; jf_created_after := Some after; jf_created_before := None |}.

Lemma list_query_binds_every_value_witness :
  (build_list_query "jobs" None (filters_for "hook" 0)).1
  = (build_list_query "jobs" None (filters_for "'; DROP TABLE jobs; --" 7)).1.
Proof.
  refine (proj1 (proj2 (proj2 (list_query_binds_every_value "jobs" None (filters_for "hook" 0) None
    (filters_for "'; DROP TABLE jobs; --" 7) _ _ _ _ _ _ _ _)))).
  all: split; unfold filters_for; cbn [jf_job_id jf_status jf_trigger jf_endpoint jf_endpoint_type
    jf_created_after jf_created_before];
    first [discriminate | reflexivity | intros [? ?]; first [discriminate | eexists; reflexivity]].
Defined.

Definition no_filters : JobFilters := {|
  jf_job_id := None; jf_status := []; jf_trigger := []; jf_endpoint := None;
  jf_endpoint_type := []; jf_created_after := None; jf_created_before := None |}.

Lemma job_pages_follow_each_other_witness :
  jobs_page (Some "j1") 1 no_filters Sample.tenant = [Sample.cron_job].
Proof.
  destruct (job_pages_follow_each_other no_filters 1 Sample.tenant 0 Sample.job) as [Hp _].
  - intros id j. cbn [Sample.tenant t_jobs]. intros [[<- <-]|[_ [<- <-]%lookup_singleton_Some]]%lookup_insert_Some;
      reflexivity.
  - vm_compute. reflexivity.
  - etrans; [exact Hp|]. vm_compute. reflexivity.
Defined.

Lemma cron_tick_queues_once_witness :
  ∃ t', cron_tick_tenant "c1" "u1" 50 Sample.db Sample.tenant = Ok t'
    ∧ cron_tick_tenant "c1" "u2" 51 Sample.db t' = Ok t'
    ∧ is_Some (t_executions t' !! "u1").
Proof.
  assert (epoch_ms 51 = epoch_ms 50) as Hms by (vm_compute; reflexivity).
  assert (cron_active 51 Sample.cron_job → cron_active 50 Sample.cron_job) as Hact.
  { intros _. split; [reflexivity|]. split; [exact I|]. simpl. lia. }
  pose proof (cron_tick_queues_once Sample.db "c1" "u1" "u2" 50 51 Sample.tenant Sample.cron_job
    Sample.endpoint 3 ltac:(vm_compute; reflexivity) ltac:(vm_compute; reflexivity)
    ltac:(vm_compute; reflexivity) ltac:(vm_compute; reflexivity) ltac:(vm_compute; reflexivity)
    Hms Hact) as H.
  cbv zeta in H. destruct H as (_ & H1 & _ & H2). eexists. split; [exact H1|]. split; [exact H2|].
  eexists. vm_compute. reflexivity.
Defined.

(** A sweep after the end of the sample CRON job. *)
Definition sweep_session : Session := begin_at (Sample.session_at 200 []).
Definition sweep_run := reap_schema Sample.db sweep_session.

Lemma reaper_retires_exactly_the_expired_witness :
  in_run Sample.store 200 sweep_run.2 ∧ sweep_run.1 = Ok ["c1"].
Proof.
  destruct (reaper_retires_exactly_the_expired Sample.db Sample.store 200 sweep_session ["c1"]
    sweep_run.2) as [Hr _].
  - vm_compute. reflexivity.
  - split; reflexivity.
  - split; [exact Hr|vm_compute; reflexivity].
Defined.
